(* ===== verification/_CoqProject ===== *)
-Q . S2P
Prelude.v
GoLib.v
Float64.v
KmsWallet.v
Money.v
Repository.v
Queries.v
PaymentQueries.v
Fees.v
Bitcoin.v
Sha256.v
Wallet.v
WalletBalance.v
WalletTransaction.v
Currencies.v
Transaction.v
Merchant.v
NetUrl.v
Payment.v
Nodes.v
Convertor.v
FeeCalculator.v
Broadcaster.v
Tracker.v
Blockchain.v
Withdrawal.v
Flow.v
Tatum.v
Processing.v
Incoming.v
Transfers.v
Payouts.v
Scheduler.v
Events.v
Ledger.v
Upkeep.v
System.v
Outcomes.v
Settlement.v
Frames.v
Rollback.v
WithdrawalRollback.v
Checkout.v
Http.v
ChainProvider.v
Trongrid.v
Vault.v
KmsBitcoin.v
KmsEvm.v
KmsTron.v
KmsServer.v
KmsHistory.v
Signable.v
Accounts.v
Identity.v
Access.v
MerchantApi.v
Handlers.v
Tenants.v
Isolation.v
Tenancy.v
Sessions.v
PaymentApi.v
InternalApi.v
PublicApi.v
Console.v
Cron.v
Bus.v
Gateway.v
