(* ===== verification/Prelude.v ===== *)
(** * OxygenPay: a verification library of the payment gateway

    OxygenPay is a self-hosted gateway for payments in crypto currencies.
    A merchant, who signs in to the dashboard or holds an API token, opens
    payments and payment links; a customer chooses a currency on the page of
    a payment, which locks one of the gateway's wallets for the incoming
    transaction; what arrives is credited to that wallet and, less a service
    fee, to the merchant; inbound wallets are emptied into one outbound
    wallet per blockchain, from which withdrawals are paid.  A second
    process, the key management service, holds the private keys and signs.
    Every definition of this library is executable and follows the Go
    function it is named after; Go names are kept, with a prefix where two
    Go types share a field or method name, and a trailing underscore where
    the name is taken by the service that a handler calls.

    ** How Go is modelled

    A function that returns [(T, error)] is a [res T] ([Ok], [Err], or [Panic]
    for a run-time panic), and one that reads or writes the world is a [Go T]
    ([world -> res T * world]): effects made before an error persist unless
    [RunTransaction] rolls them back.  [world] (in [Repository]) holds the
    database, the clock behind [time.Now], the source of [uuid.New], the
    cache of exchange rates and the number of calls made so far to services
    outside the process; a call of such a service is a function of that
    number ([external]), so it may answer differently each time.  A function
    that returns a value together with an error, or changes a state of its
    own, is [Tracked S T] ([Flow]); the handlers of the dashboard run on
    [Tracked Site], the accounts and the session of the client.  An error
    keeps its chain of wrapped causes, for [errors.Is] and [errors.As]; the
    text of a sentinel error is, in places, its Go name, and a value printed
    with [%q] is, in places, printed without its quotes.  [int64] is [Z] with
    wrap-around ([int64], notations in the scope [i64]); a pointer to
    [big.Int] is [Z]; [float64] is binary64 of the Standard Library's
    [SpecFloat].  Strings are Rocq strings, maps are [gmap]; the order in
    which Go visits a map is a parameter ([MapOrder]).  The goroutines of a
    group run one after another, in an order that is a parameter
    ([Flow.Scheduler]).

    ** The files

    Ground: [Prelude] (errors, results, the monad, the rules of its weakest
    preconditions [wp], lists), [GoLib] and [NetUrl] (the parts of [strings],
    [strconv], [math/big] and [net/url] the program calls), [Float64], [Sha256],
    [Flow] (error groups, tracked results), [Http] (requests to other services).

    Data: [Money] (internal/money), [Repository] (models.go, helpers.go,
    store.go of internal/db/repository: tables, [RunTransaction], and the
    transition lemmas [steps] every proof about a service goes through),
    [Queries] and [PaymentQueries] (the SQL statements, with the constraints
    of scripts/migrations, [schema_ok]).

    Blockchains (internal/service/blockchain and the clients it uses):
    [KmsWallet] (blockchains and address checks), [Currencies] (currencies.go
    with the shipped currencies.json as data), [Fees] and [FeeCalculator],
    [Bitcoin] (service_bitcoin.go), [Nodes] (clients, confirmations, runtime
    check), [Convertor], [Broadcaster], [Tracker]; [Blockchain] is the
    interface the other services use, with these as its instance;
    [ChainProvider], [Trongrid] and [Tatum] are the clients of
    internal/provider.

    Services (internal/service): [WalletBalance], [Wallet] and
    [WalletTransaction] (wallet); [Transaction]; [Merchant]; [Payment] and
    [Withdrawal] (payment); [Processing], [Incoming], [Transfers] and
    [Payouts] (processing); [Accounts] (user, registry, internal/auth and
    cmd/create_user.go).  Around them: [Scheduler] (internal/scheduler),
    [Events] (internal/event/paymentevents and internal/webhook), [Console]
    (the commands of cmd that work on the books, the first user of the
    configuration, the Slack message of a paid payment), [Cron] (how
    internal/app runs a job, and the log of internal/log/joblogger.go), [Bus]
    (internal/bus, internal/slack and the consumers internal/app registers).

    Servers (internal/server/http): [Access] (middlewares, sessions,
    merchantapi/auth), [MerchantApi] (merchantapi), [PaymentApi] (paymentapi,
    webhook), [InternalApi] (internalapi); the routes of router.go are in
    [Isolation] (dashboard and merchant API), [Sessions], [PaymentApi],
    [InternalApi] and, for all servers at once, [Gateway].

    Key management service (internal/kms): [Vault] (storage, generation),
    [KmsBitcoin], [KmsEvm], [KmsTron] (signing), [KmsServer] (the handlers).

    Proofs that compose components: [Ledger] and [Upkeep] (every service and
    flow is a step of the ledger), [System] and [Gateway] (the program as one
    machine), [Outcomes], [Settlement], [Frames], [Rollback],
    [WithdrawalRollback], [Checkout], [KmsHistory], [Signable], [Identity],
    [Handlers], [Tenants], [Isolation], [Tenancy], [Sessions], [PublicApi].

    ** The interfaces

    Between components: [Resolver] and [Catalog] (currencies; discharged by
    [CurrencyResolver]), [BlockchainService] with [BlockchainLaws] (a call
    only reads the tables; discharged in [Blockchain]).  To code that is not
    the program's: nodes, explorers, Tatum and Trongrid ([Nodes], [TatumAPI],
    [RateProvider], [HttpClient], [Explorers], [TronBodies]), the key service
    as its clients see it ([KMS], [KMSTransactions]), libraries of keys,
    scripts and hashes ([Btcutil], [Btcd], [HdWallets], [HdDecode],
    [EcdsaKeys], [Base58Laws], [Ethereum], [TronCrypto], [Bcrypt]), its store
    ([Bolt], [WalletJson]), randomness ([Rand], [RandomStrings]), parsers
    ([Uuid], [Mail], [WebhookJson]), delivery ([Publisher], [UserEvents],
    [FormEvents], [EvBus], [Slack], [SlackHTTP], [WebhookClient]), sign-in ([OAuth],
    [SessionStore]) and the log of a job ([JobLogs]).  Where a proof relies
    on one, what it relies on is a class of laws, and its witness gives an
    instance.

    ** What the theorems show

    - The program as a whole: in every state reached by any sequence of
      requests, jobs, events and commands, however each ends, the schema
      holds, every balance is the sum of its audit log and nothing is
      forgotten or rewritten ([Gateway.gateway_invariant], from
      [Upkeep] and [Ledger]).
    - Who may do what: a merchant's routes act for that merchant and change
      its data only ([tenant_isolation]); how a session is opened
      ([session_opened]); Google sign-in ([google_binding]); tokens and
      created users ([token_lifecycle], [create_user_logs_in]); what a
      customer may change ([payment_page], [link_checkout]); requests to the
      key service ([kms_requires_token]).
    - The books: a balance is the sum of its audit log ([audit_invariant]);
      [UpdateBalance] refines an upsert; a withdrawal moves both balances or
      none and can be undone; a confirmation posts exactly the entries of its
      type, also where tickers differ ([confirm_posts]); the operator's top-up credits what the system
      funds cover and does nothing else ([system_topup]); an incoming transaction is settled once
      ([incoming_settled_once]); a failed transfer or withdrawal is rolled
      back in full wherever it stopped ([Rollback], [WithdrawalRollback]).
    - Payments: created exactly when asked for validly and once per order,
      one live transaction each
      ([one_method_per_payment]), expired after their period; the pages of a
      listing visit every payment once; requests to withdraw are covered
      ([withdrawal_sound]); the pages of wallets end and are complete.
    - Exclusive use: wallet locks refine a lock manager; nonces are
      consecutive; a signed bitcoin transaction holds its inputs exclusively.
    - Amounts: printing and parsing, multiplying by a double, the value of a
      crypto amount; bitcoin plans account for every satoshi; the listing of
      an explorer reports every incoming transaction once.
    - Running it: a job that fails or panics does not stop the cron and is
      logged as such ([cron_survives]); every consumer of an event runs,
      whatever the others do ([status_update_served]).
    - Keys: no key is ever lost ([keys_never_lost]), the life of a wallet,
      what a signed transaction of each blockchain spends and pays, and that
      what the wallet service plans is accepted ([plan_signable]).
    - Where the code differs from what it means to do, a theorem states what
      it does: [wallet_lifecycle], [tron_signing], [transfer_calldata],
      [failed_withdrawal_rolled_back] and, beside the properties,
      [updates_succeed_silently], [decrement_reuses_nonce],
      [expired_reservation_blocks], [CryptoFromStringFloat_fraction],
      [registry_set], [locked_without_method], [status_update_served].

    ** Bounds and fuel

    The binary search of the largest amount runs on fuel 64, more than the
    bits of an [int64] interval; pages of wallets ([source_pages],
    [inbound_pages], [inbound_wallet_pages]) on the number of wallets plus
    one, since every page but the last moves past a wallet; the pages read
    from Tatum are at most the ten the code allows; the bytes of a big
    integer on its logarithm plus one.  Everything else recurses on data.

    ** What is not modelled

    Decoding and validating the body of a request (generated code): a handler
    takes a body or the items of an error ([Bound]).  The HTTP framework:
    CORS, rate limits, how a CSRF token is compared (a request has the right
    one or not), the cookie of a session, request ids, starting and stopping
    the servers, the embedded frontends.  Cryptography, the HTTP client of
    Tatum, the library of the event bus, the crontab, what a job writes to its
    log itself, loggers, tables printed on a terminal, configuration and
    wiring.  Events are published through the interface [Publisher] and their
    consumers run as steps of [System]: their delivery ([Bus]) is not composed
    with it.  Of the database: the
    width of columns (but for the tables of [Accounts] and [Cron]), failures of the
    connection, and concurrency between transactions: each [RunTransaction]
    and each call of a service runs alone, so [FOR UPDATE], advisory locks
    and mutexes have no effect.  The state of a request that panics is lost
    in [Tracked]: theorems about accounts and sessions speak of requests that
    are answered, those about the tables of all. *)

From Stdlib Require Export ZArith String Ascii Lia Bool Sorted.
From stdpp Require Export base gmap strings list fin_maps.

Global Set Default Goal Selector "!".
Global Set Warnings "-notation-overridden".
Open Scope Z_scope.

(** ** Go errors

    A Go [error] value built with [github.com/pkg/errors]: a package-level
    sentinel (identified by its qualified name), an error made in place by
    [errors.New]/[Errorf], a Postgres error with its SQLSTATE code, or a
    wrapped cause. *)
Inductive error :=
| ESentinel (name : string)
| ENew (msg : string)
| EPg (code : string)
| EWrap (cause : error) (msg : string).

#[export] Instance error_eq_dec : EqDecision error.
Proof. solve_decision. Defined.

(** [errors.Is err target]: [target] occurs along the chain of causes. *)
Fixpoint errors_Is (e target : error) : bool :=
  bool_decide (e = target) ||
  match e with
  | EWrap c _ => errors_Is c target
  | _ => false
  end.

Fixpoint error_string (e : error) : string :=
  match e with
  | ESentinel n => n
  | ENew m => m
  | EPg c => "SQLSTATE " +:+ c
  | EWrap c m => m +:+ ": " +:+ error_string c
  end.

(** [pgx.ErrNoRows], and [errors.As] for a Postgres error of some code. *)
Definition ErrNoRows : error := ESentinel "pgx.ErrNoRows".

Fixpoint errors_As_pg (e : error) : option string :=
  match e with
  | EPg c => Some c
  | EWrap c _ => errors_As_pg c
  | _ => None
  end.

Lemma errors_Is_refl e : errors_Is e e = true.
Proof. destruct e; simpl; by rewrite bool_decide_true. Qed.

Lemma errors_Is_wrap e t m : errors_Is e t = true -> errors_Is (EWrap e m) t = true.
Proof. intros H. simpl. rewrite H. apply orb_true_r. Qed.

(** ** Results of Go calls: a value, an error, or a run-time panic. *)
Inductive res (A : Type) :=
| Ok (a : A)
| Err (e : error)
| Panic (why : string).
Arguments Ok {A} _.
Arguments Err {A} _.
Arguments Panic {A} _.

#[export] Instance res_ret : MRet res := @Ok.
#[export] Instance res_bind : MBind res := fun A B f r =>
  match r with Ok a => f a | Err e => Err e | Panic p => Panic p end.

#[export] Instance res_fmap : FMap res := fun A B f r =>
  match r with Ok a => Ok (f a) | Err e => Err e | Panic p => Panic p end.

(** [if err != nil { return errors.Wrap(err, msg) }] *)
Definition wrap {A} (r : res A) (msg : string) : res A :=
  match r with Err e => Err (EWrap e msg) | _ => r end.

Definition guard_err (b : bool) (e : error) : res unit :=
  if b then Err e else Ok tt.

Definition is_ok {A} (r : res A) : bool := match r with Ok _ => true | _ => false end.

(** ** A state monad with errors

    [M W A] is a Go function returning [(A, error)] that reads and writes the
    world [W]; effects made before an error persist (a rollback is explicit,
    see [Repository]). *)
Definition M (W A : Type) : Type := W -> res A * W.

Section Monad.
Context {W : Type}.

#[export] Instance M_ret : MRet (M W) := fun A a w => (Ok a, w).
#[export] Instance M_bind : MBind (M W) := fun A B f m w =>
  match m w with
  | (Ok a, w') => f a w'
  | (Err e, w') => (Err e, w')
  | (Panic p, w') => (Panic p, w')
  end.

Definition fail {A} (e : error) : M W A := fun w => (Err e, w).
Definition panic {A} (why : string) : M W A := fun w => (Panic why, w).
Definition lift {A} (r : res A) : M W A := fun w => (r, w).
Definition get : M W W := fun w => (Ok w, w).
Definition put (w : W) : M W unit := fun _ => (Ok tt, w).
Definition gets {A} (f : W -> A) : M W A := fun w => (Ok (f w), w).

(** The caller inspects [err] itself. *)
Definition attempt {A} (m : M W A) : M W (A + error) := fun w =>
  match m w with
  | (Ok a, w') => (Ok (inl a), w')
  | (Err e, w') => (Ok (inr e), w')
  | (Panic p, w') => (Panic p, w')
  end.

Definition wrapM {A} (m : M W A) (msg : string) : M W A := fun w =>
  let '(r, w') := m w in (wrap r msg, w').

Definition ignore {A} (m : M W A) : M W unit := x ← m; mret tt.

Lemma bind_ok {A B} (m : M W A) (f : A -> M W B) w a w' :
  m w = (Ok a, w') -> (m ≫= f) w = f a w'.
Proof. intros H. unfold mbind, M_bind. by rewrite H. Qed.

Lemma bind_err {A B} (m : M W A) (f : A -> M W B) w e w' :
  m w = (Err e, w') -> (m ≫= f) w = (Err e, w').
Proof. intros H. unfold mbind, M_bind. by rewrite H. Qed.

Lemma bind_inv_ok {A B} (m : M W A) (f : A -> M W B) w b w2 :
  (m ≫= f) w = (Ok b, w2) ->
  exists a w1, m w = (Ok a, w1) /\ f a w1 = (Ok b, w2).
Proof.
  unfold mbind, M_bind. destruct (m w) as [[a|e|p] w1]; intros H; naive_solver.
Qed.

Lemma wrapM_inv_ok {A} (m : M W A) msg w a w' :
  wrapM m msg w = (Ok a, w') -> m w = (Ok a, w').
Proof. unfold wrapM, wrap. destruct (m w) as [[x|e|p] w1]; naive_solver. Qed.
End Monad.


(** ** Reasoning about a call: its result and the world it leaves *)
Section WP.
Context {W : Type}.

Definition wp {A} (m : M W A) (w : W) (Q : res A -> W -> Prop) : Prop := Q (m w).1 (m w).2.

Lemma wp_mono {A} (m : M W A) w (Q Q' : res A -> W -> Prop) :
  wp m w Q -> (forall r w', Q r w' -> Q' r w') -> wp m w Q'.
Proof. unfold wp. auto. Qed.

Lemma wp_bind {A B} (m : M W A) (f : A -> M W B) w Q :
  wp m w (fun r w' => match r with
    | Ok a => wp (f a) w' Q | Err e => Q (Err e) w' | Panic p => Q (Panic p) w' end) ->
  wp (m ≫= f) w Q.
Proof. unfold wp, mbind, M_bind. by destruct (m w) as [[] ?]. Qed.

Lemma wp_ret {A} (a : A) w (Q : res A -> W -> Prop) : Q (Ok a) w -> wp (mret a) w Q.
Proof. done. Qed.
Lemma wp_lift {A} (r : res A) w (Q : res A -> W -> Prop) : Q r w -> wp (lift r) w Q.
Proof. done. Qed.
Lemma wp_fail {A} e w (Q : res A -> W -> Prop) : Q (Err e) w -> wp (fail e) w Q.
Proof. done. Qed.
Lemma wp_panic {A} s w (Q : res A -> W -> Prop) : Q (Panic s) w -> wp (panic s) w Q.
Proof. done. Qed.
Lemma wp_gets {A} (f : W -> A) w (Q : res A -> W -> Prop) : Q (Ok (f w)) w -> wp (gets f) w Q.
Proof. done. Qed.

Lemma wp_wrap {A} (m : M W A) msg w Q :
  wp m w (fun r w' => Q (wrap r msg) w') -> wp (wrapM m msg) w Q.
Proof. unfold wp, wrapM. by destruct (m w). Qed.

Lemma wp_attempt {A} (m : M W A) w (Q : res (A + error) -> W -> Prop) :
  wp m w (fun r w' => match r with
    | Ok a => Q (Ok (inl a)) w' | Err e => Q (Ok (inr e)) w' | Panic p => Q (Panic p) w' end) ->
  wp (attempt m) w Q.
Proof. unfold wp, attempt. by destruct (m w) as [[] ?]. Qed.
End WP.

(** ** What a call returns when it succeeds *)
Section Yields.
Context {W : Type}.

Definition yields {A} (m : M W A) (P : A -> Prop) : Prop := forall w a, (m w).1 = Ok a -> P a.

Lemma yields_bind {A B} (m : M W A) (f : A -> M W B) (Q : A -> Prop) (P : B -> Prop) :
  yields m Q -> (forall a, Q a -> yields (f a) P) -> yields (m ≫= f) P.
Proof.
  intros Hm Hf w b. unfold mbind, M_bind. destruct (m w) as [[a|e|p] w'] eqn:E; simpl; [|done|done].
  apply Hf, (Hm w). by rewrite E.
Qed.

Lemma yields_any {A} (m : M W A) : yields m (fun _ => True).
Proof. done. Qed.

Lemma yields_seq {A B} (m : M W A) (f : A -> M W B) (P : B -> Prop) :
  (forall a, yields (f a) P) -> yields (m ≫= f) P.
Proof. intros Hf. apply (yields_bind _ _ _ _ (yields_any m)). auto. Qed.

Lemma yields_ret {A} (a : A) (P : A -> Prop) : P a -> yields (mret a) P.
Proof. by intros ? w b [= <-]. Qed.
Lemma yields_fail {A} e (P : A -> Prop) : yields (fail e) P.
Proof. done. Qed.
Lemma yields_panic {A} e (P : A -> Prop) : yields (panic e) P.
Proof. done. Qed.
Lemma yields_lift {A} (r : res A) (P : A -> Prop) : (forall a, r = Ok a -> P a) -> yields (lift r) P.
Proof. intros Hr w a. apply Hr. Qed.
Lemma yields_wrap {A} (m : M W A) msg (P : A -> Prop) : yields m P -> yields (wrapM m msg) P.
Proof. intros Hm w a. unfold wrapM. destruct (m w) as [[b|e|p] w'] eqn:E; simpl; [|done|done]. intros [= <-]. apply (Hm w). by rewrite E. Qed.
Lemma yields_attempt {A} (m : M W A) (P : A -> Prop) :
  yields m P -> yields (attempt m) (fun r => match r with inl a => P a | inr _ => True end).
Proof. intros Hm w r. unfold attempt. destruct (m w) as [[b|e|p] w'] eqn:E; simpl; intros [= <-]; [|done]. apply (Hm w). by rewrite E. Qed.
Lemma yields_mono {A} (m : M W A) (P Q : A -> Prop) : yields m P -> (forall a, P a -> Q a) -> yields m Q.
Proof. unfold yields. eauto. Qed.
End Yields.

(** One step through the code; the value of a call made is arbitrary. *)
Ltac yields_step :=
  lazymatch goal with
  | |- yields (mbind _ _) _ => apply yields_seq; intros
  | |- yields (mret _) _ => apply yields_ret
  | |- yields (fail _) _ => apply yields_fail
  | |- yields (panic _) _ => apply yields_panic
  | |- yields (match ?x with _ => _ end) _ => destruct x eqn:?
  end.
