(* ===== verification/GoLib.v ===== *)
(** * The part of Go's standard library the program computes with

    Strings as byte lists ([strings.TrimRight], [Split], [Repeat], ...),
    [big.Int]'s decimal printing and parsing, and the wrap-around of the
    machine integers.  Only what the modelled code calls is defined. *)

From Stdlib Require Import Sorted.
From S2P Require Import Prelude.

Abbreviation bytes := list_ascii_of_string.
Abbreviation of_bytes := string_of_list_ascii.

(** ** Machine integers *)
Definition wrap_signed (w z : Z) : Z :=
  let m := z mod 2 ^ w in if m <? 2 ^ (w - 1) then m else m - 2 ^ w.
Definition int64 (z : Z) : Z := wrap_signed 64 z.
Definition int32 (z : Z) : Z := wrap_signed 32 z.
Definition uint32 (z : Z) : Z := z mod 2 ^ 32.

Declare Scope i64_scope.
Delimit Scope i64_scope with i64.
Notation "a + b" := (int64 (a + b)) : i64_scope.
Notation "a - b" := (int64 (a - b)) : i64_scope.
Notation "a * b" := (int64 (a * b)) : i64_scope.

Definition in_int64 (z : Z) : Prop := - 2 ^ 63 <= z < 2 ^ 63.

Lemma int64_small z : in_int64 z -> int64 z = z.
Proof.
  unfold in_int64, int64, wrap_signed. intros [Hl Hu].
  change (2 ^ (64 - 1)) with (2 ^ 63).
  destruct (Z_lt_le_dec z 0).
  - rewrite <- (Z_mod_plus_full z 1), Z.mul_1_l, Z.mod_small by lia.
    destruct (Z.ltb_spec (z + 2 ^ 64) (2 ^ 63)); lia.
  - rewrite Z.mod_small by lia. destruct (Z.ltb_spec z (2 ^ 63)); lia.
Qed.

Lemma int64_range z : in_int64 (int64 z).
Proof.
  unfold in_int64, int64, wrap_signed.
  pose proof (Z.mod_pos_bound z (2 ^ 64) ltac:(lia)).
  destruct (Z.ltb_spec (z mod 2 ^ 64) (2 ^ (64 - 1))); lia.
Qed.

Lemma int64_add_small a b : in_int64 (a + b) -> (a + b)%i64 = a + b.
Proof. apply int64_small. Qed.

(** ** Byte strings *)
Fixpoint drop_while_eq (c : ascii) (l : list ascii) : list ascii :=
  match l with
  | x :: l' => if Ascii.eqb x c then drop_while_eq c l' else l
  | [] => []
  end.

(** [strings.TrimRight(s, "c")] for a cutset of one character. *)
Definition trim_right (c : ascii) (l : list ascii) : list ascii :=
  reverse (drop_while_eq c (reverse l)).

(** [strings.TrimSuffix(s, suf)] *)
Definition trim_suffix (suf l : list ascii) : list ascii :=
  if bool_decide (drop (length l - length suf) l = suf)
  then take (length l - length suf) l else l.

(** [strings.Repeat(s, n)] for a one-character [s]; panics on [n < 0]. *)
Definition repeat_char (c : ascii) (n : Z) : res (list ascii) :=
  if n <? 0 then Panic "strings: negative Repeat count"
  else Ok (replicate (Z.to_nat n) c).

(** [strings.Split(s, "c")] *)
Fixpoint split_char (c : ascii) (l : list ascii) : list (list ascii) :=
  match l with
  | [] => [[]]
  | x :: l' =>
    if Ascii.eqb x c then [] :: split_char c l'
    else match split_char c l' with
         | p :: ps => (x :: p) :: ps
         | [] => [[x]]
         end
  end.

Definition Split (s : string) (c : ascii) : list string := of_bytes <$> split_char c (bytes s).

(** [strings.Join(l, "c")] *)
Fixpoint join_char (c : ascii) (l : list (list ascii)) : list ascii :=
  match l with
  | [] => []
  | [x] => x
  | x :: l => x ++ c :: join_char c l
  end.
Definition Join (l : list string) (c : ascii) : string := of_bytes (join_char c (bytes <$> l)).

(** [strings.ReplaceAll(s, "c", "")] *)
Definition remove_char (c : ascii) (l : list ascii) : list ascii :=
  List.filter (fun x => negb (Ascii.eqb x c)) l.

(** [strings.Index(s, "c")] *)
Fixpoint index_char (c : ascii) (l : list ascii) : option nat :=
  match l with
  | [] => None
  | x :: l' => if Ascii.eqb x c then Some O else S <$> index_char c l'
  end.

(** [strings.ToUpper] / [ToLower] on ASCII. *)
Definition upper_char (c : ascii) : ascii :=
  let n := N_of_ascii c in
  if (97 <=? n)%N && (n <=? 122)%N then ascii_of_N (n - 32) else c.
Definition lower_char (c : ascii) : ascii :=
  let n := N_of_ascii c in
  if (65 <=? n)%N && (n <=? 90)%N then ascii_of_N (n + 32) else c.
Definition ToUpper (s : string) : string := of_bytes (upper_char <$> bytes s).
Definition ToLower (s : string) : string := of_bytes (lower_char <$> bytes s).

(** ** Sorting ([sort.Slice], [sort.SliceStable], [slices.SortFunc])

    A stable insertion sort: where the program sorts with an unstable sort its
    keys are distinct, so the result is the same. *)
Fixpoint stable_insert {A} (less : A -> A -> bool) (x : A) (l : list A) : list A :=
  match l with
  | [] => [x]
  | y :: l' => if less y x then y :: stable_insert less x l' else x :: l
  end.
Definition SliceStable {A} (less : A -> A -> bool) (l : list A) : list A := foldr (stable_insert less) [] l.

(** ** Maps

    Traversal of a map's keys: each key once, in an order Go leaves open. *)
Class MapOrder := map_order : list string -> list string.
Class MapOrderLaws `{MapOrder} : Prop := map_order_perm l : map_order l ≡ₚ l.

(** ** Decimal numerals *)
Definition digit_char (d : Z) : ascii := ascii_of_N (Z.to_N (48 + d)).
Definition char_digit (c : ascii) : option Z :=
  let n := Z.of_N (N_of_ascii c) in
  if (48 <=? n) && (n <=? 57) then Some (n - 48) else None.

(** Digits of [n >= 0], most significant first, in front of [acc]. *)
Fixpoint digits_fuel (fuel : nat) (n : Z) (acc : list ascii) : list ascii :=
  match fuel with
  | O => acc
  | S f =>
    let acc' := digit_char (n mod 10) :: acc in
    if n / 10 =? 0 then acc' else digits_fuel f (n / 10) acc'
  end.
Definition digits (n : Z) : list ascii := digits_fuel (S (Z.to_nat (Z.log2 n))) n [].

(** [String] of a [big.Int] *)
Definition bigint_bytes (z : Z) : list ascii :=
  if z <? 0 then "-"%char :: digits (- z) else digits z.
Definition bigint_String (z : Z) : string := of_bytes (bigint_bytes z).

Fixpoint parse_digits (l : list ascii) (acc : Z) : option Z :=
  match l with
  | [] => Some acc
  | c :: l' => d ← char_digit c; parse_digits l' (10 * acc + d)
  end.

(** [SetString(s, 10)] of a [big.Int]: an optional sign and at least one digit. *)
Definition unsigned_of_bytes (l : list ascii) : option Z :=
  match l with [] => None | _ => parse_digits l 0 end.
Definition bigint_of_bytes (l : list ascii) : option Z :=
  match l with
  | c :: l' =>
    if Ascii.eqb c "-" then Z.opp <$> unsigned_of_bytes l'
    else if Ascii.eqb c "+" then unsigned_of_bytes l'
    else unsigned_of_bytes l
  | [] => None
  end.
Definition bigint_SetString (s : string) : option Z := bigint_of_bytes (bytes s).

(** [strconv.FormatInt(i, 10)] and [strconv.Itoa]; [strconv.Atoi] of a
    64-bit [int] (an out-of-range numeral is an error). *)
Definition FormatInt (z : Z) : string := bigint_String z.
Definition Atoi (s : string) : option Z :=
  z ← bigint_SetString s;
  if bool_decide (- 2 ^ 63 <= z < 2 ^ 63) then Some z else None.

(** ** Lemmas: digits *)
Definition is_digit (c : ascii) : Prop := exists d, 0 <= d < 10 /\ c = digit_char d.

Lemma digit_cases d : 0 <= d < 10 ->
  d = 0 \/ d = 1 \/ d = 2 \/ d = 3 \/ d = 4 \/ d = 5 \/ d = 6 \/ d = 7 \/ d = 8 \/ d = 9.
Proof. lia. Qed.

Ltac digit_case H :=
  apply digit_cases in H; destruct_or! H; subst.

Lemma char_digit_char d : 0 <= d < 10 -> char_digit (digit_char d) = Some d.
Proof. intros H. digit_case H; reflexivity. Qed.

Lemma is_digit_char d : 0 <= d < 10 -> is_digit (digit_char d).
Proof. by exists d. Qed.

Lemma is_digit_ne c x : is_digit c -> char_digit x = None -> Ascii.eqb c x = false.
Proof.
  intros (d & Hd & ->) Hx. apply Ascii.eqb_neq. intros <-.
  by rewrite char_digit_char in Hx.
Qed.

Lemma parse_digits_app l1 l2 acc :
  parse_digits (l1 ++ l2) acc = parse_digits l1 acc ≫= parse_digits l2.
Proof.
  revert acc. induction l1 as [|c l1 IH]; intros acc; simpl; [done|].
  destruct (char_digit c); simpl; [apply IH | done].
Qed.

Lemma parse_digits_zeros n acc :
  parse_digits (replicate n "0"%char) acc = Some (acc * 10 ^ Z.of_nat n).
Proof.
  revert acc. induction n as [|n IH]; intros acc.
  - simpl. f_equal. lia.
  - cbn [replicate parse_digits]. change (char_digit "0") with (Some 0). simpl.
    rewrite IH, Nat2Z.inj_succ, Z.pow_succ_r by lia. f_equal. lia.
Qed.

Lemma digits_fuel_app f n acc : digits_fuel f n acc = digits_fuel f n [] ++ acc.
Proof.
  revert n acc. induction f as [|f IH]; intros n acc; simpl; [done|].
  destruct (n / 10 =? 0); [done|].
  rewrite IH, (IH _ [_]), <- app_assoc. done.
Qed.

Lemma digits_fuel_spec f n :
  0 <= n < 10 ^ Z.of_nat f ->
  Forall is_digit (digits_fuel f n []) /\
  forall acc, parse_digits (digits_fuel f n []) acc =
              Some (acc * 10 ^ Z.of_nat (length (digits_fuel f n [])) + n).
Proof.
  revert n. induction f as [|f IH]; intros n Hn.
  { simpl in *. split; [constructor|]. intros acc. f_equal. lia. }
  cbn [digits_fuel]. rewrite Nat2Z.inj_succ, Z.pow_succ_r in Hn by lia.
  pose proof (Z.mod_pos_bound n 10 ltac:(lia)) as Hm.
  pose proof (Z.div_mod n 10 ltac:(lia)) as Hdm.
  destruct (Z.eqb_spec (n / 10) 0) as [Hz|Hz].
  - split; [by repeat constructor; apply is_digit_char|].
    intros acc. simpl. rewrite char_digit_char by lia. simpl. f_equal. lia.
  - assert (0 <= n / 10 < 10 ^ Z.of_nat f) as Hd.
    { split; [apply Z.div_pos; lia | apply Z.div_lt_upper_bound; lia]. }
    destruct (IH _ Hd) as [HF HP]. rewrite digits_fuel_app. split.
    + apply Forall_app_2; [done|]. by repeat constructor; apply is_digit_char.
    + intros acc. rewrite parse_digits_app, HP. simpl.
      rewrite char_digit_char by lia. simpl. f_equal.
      rewrite length_app. simpl. rewrite Nat2Z.inj_add, Z.pow_add_r by lia.
      change (10 ^ Z.of_nat 1) with 10. lia.
Qed.

Lemma digits_fuel_enough n : 0 <= n -> n < 10 ^ Z.of_nat (S (Z.to_nat (Z.log2 n))).
Proof.
  intros Hn. rewrite Nat2Z.inj_succ, Z2Nat.id by apply Z.log2_nonneg.
  destruct (Z.eq_dec n 0) as [->|Hne]; [done|].
  pose proof (Z.log2_spec n ltac:(lia)) as [_ H].
  eapply Z.lt_le_trans; [exact H|].
  apply Z.pow_le_mono_l. lia.
Qed.

(** Reading digits behind [acc] appends them to it. *)
Lemma parse_digits_bound l acc v : Forall is_digit l -> parse_digits l acc = Some v ->
  acc * 10 ^ Z.of_nat (length l) <= v < (acc + 1) * 10 ^ Z.of_nat (length l).
Proof.
  intros Hl. revert acc. induction Hl as [|c l (d & Hd & ->) _ IH]; intros acc.
  - simpl. intros [= <-]. lia.
  - cbn [parse_digits length]. rewrite char_digit_char by done. simpl. intros Hv%IH.
    rewrite Nat2Z.inj_succ, Z.pow_succ_r by lia. pose proof (Z.pow_pos_nonneg 10 (Z.of_nat (length l))). nia.
Qed.

Lemma digits_digit n : 0 <= n -> Forall is_digit (digits n).
Proof. intros H. apply digits_fuel_spec. pose proof (digits_fuel_enough n H). lia. Qed.

Lemma digits_parse n acc : 0 <= n ->
  parse_digits (digits n) acc = Some (acc * 10 ^ Z.of_nat (length (digits n)) + n).
Proof. intros H. apply digits_fuel_spec. pose proof (digits_fuel_enough n H). lia. Qed.

Lemma digits_nonempty n : digits n <> [].
Proof.
  unfold digits. cbn [digits_fuel]. destruct (n / 10 =? 0); [done|].
  rewrite digits_fuel_app. by intros [_ ?]%app_eq_nil.
Qed.

Create HintDb golib.
#[export] Hint Resolve digits_digit digits_nonempty : golib.

Lemma unsigned_of_digits n : 0 <= n -> unsigned_of_bytes (digits n) = Some n.
Proof.
  intros H. unfold unsigned_of_bytes.
  destruct (digits n) eqn:E; [by apply digits_nonempty in E|].
  rewrite <- E, digits_parse by done. done.
Qed.

Lemma bigint_of_bytes_digits l : Forall is_digit l -> bigint_of_bytes l = unsigned_of_bytes l.
Proof.
  destruct l as [|c l]; [done|]. intros [Hc _]%Forall_cons. simpl.
  rewrite !is_digit_ne by done. done.
Qed.

Lemma bigint_bytes_roundtrip z : bigint_of_bytes (bigint_bytes z) = Some z.
Proof.
  unfold bigint_bytes. destruct (Z.ltb_spec z 0).
  - simpl. rewrite unsigned_of_digits by lia. simpl. f_equal. lia.
  - rewrite bigint_of_bytes_digits by auto with golib. apply unsigned_of_digits. lia.
Qed.

Lemma bytes_of_bytes l : bytes (of_bytes l) = l.
Proof. apply list_ascii_of_string_of_list_ascii. Qed.

Lemma of_bytes_bytes s : of_bytes (bytes s) = s.
Proof. apply string_of_list_ascii_of_string. Qed.

Lemma bigint_roundtrip z : bigint_SetString (bigint_String z) = Some z.
Proof. unfold bigint_SetString, bigint_String. rewrite bytes_of_bytes. apply bigint_bytes_roundtrip. Qed.

Lemma Atoi_FormatInt z : in_int64 z -> Atoi (FormatInt z) = Some z.
Proof.
  intros H. unfold Atoi, FormatInt. rewrite bigint_roundtrip. simpl.
  by rewrite bool_decide_true.
Qed.

(** ** Lemmas: trimming and splitting *)
Lemma trim_right_snoc_ne c l x : Ascii.eqb x c = false -> trim_right c (l ++ [x]) = l ++ [x].
Proof.
  intros H. unfold trim_right. rewrite reverse_snoc. simpl. rewrite H.
  by rewrite reverse_cons, reverse_involutive.
Qed.

Lemma trim_right_replicate c l n : trim_right c (l ++ replicate n c) = trim_right c l.
Proof.
  unfold trim_right. rewrite reverse_app, reverse_replicate. f_equal.
  induction n as [|n IH]; simpl; [done|]. by rewrite Ascii.eqb_refl.
Qed.

(** Every list is a part not ending in [c] followed by a run of [c]. *)
Lemma trailing_run c l : exists l' n,
  l = l' ++ replicate n c /\
  (l' = [] \/ exists l0 x, l' = l0 ++ [x] /\ Ascii.eqb x c = false).
Proof.
  induction l as [|x l IH] using rev_ind.
  - exists [], O. by split; [|left].
  - destruct (Ascii.eqb x c) eqn:E.
    + apply Ascii.eqb_eq in E as ->. destruct IH as (l' & n & -> & H).
      exists l', (S n). split; [|done]. by rewrite <- app_assoc, <- replicate_cons_app.
    + exists (l ++ [x]), O. split; [by rewrite app_nil_r|]. right. eauto.
Qed.

Definition no_char (c : ascii) (l : list ascii) : Prop := Forall (fun x => Ascii.eqb x c = false) l.

Lemma digits_no_char c l : Forall is_digit l -> char_digit c = None -> no_char c l.
Proof. intros H Hc. eapply Forall_impl; [exact H|]. intros x Hx. by apply is_digit_ne. Qed.

Lemma split_char_none c l : no_char c l -> split_char c l = [l].
Proof.
  induction 1 as [|x l Hx _ IH]; simpl; [done|]. by rewrite Hx, IH.
Qed.

Lemma split_char_one c l1 l2 :
  no_char c l1 -> no_char c l2 -> split_char c (l1 ++ c :: l2) = [l1; l2].
Proof.
  intros H1 H2. induction H1 as [|x l Hx _ IH]; simpl.
  - rewrite Ascii.eqb_refl. by rewrite split_char_none.
  - by rewrite Hx, IH.
Qed.

Lemma split_char_app c l1 l2 : no_char c l1 -> split_char c (l1 ++ c :: l2) = l1 :: split_char c l2.
Proof.
  intros H1. induction H1 as [|x l Hx _ IH]; simpl.
  - by rewrite Ascii.eqb_refl.
  - by rewrite Hx, IH.
Qed.

Lemma split_join_char c l : l <> [] -> Forall (no_char c) l -> split_char c (join_char c l) = l.
Proof.
  intros Hl H. induction H as [|x l Hx Hf IH]; [done|]. destruct l as [|y l].
  - by apply split_char_none.
  - change (join_char c (x :: y :: l)) with (x ++ c :: join_char c (y :: l)).
    rewrite split_char_app by done. by rewrite IH.
Qed.

Lemma split_char_nonempty c l : split_char c l <> [].
Proof. destruct l as [|x l]; simpl; [done|]. repeat case_match; done. Qed.

Lemma remove_char_none c l : no_char c l -> remove_char c l = l.
Proof.
  unfold remove_char. induction 1 as [|x l Hx _ IH]; [done|].
  simpl. rewrite Hx. simpl. by rewrite IH.
Qed.

Lemma no_char_app c l1 l2 : no_char c l1 -> no_char c l2 -> no_char c (l1 ++ l2).
Proof. apply Forall_app_2. Qed.

Lemma index_char_app c l1 l2 : no_char c l1 -> index_char c (l1 ++ c :: l2) = Some (length l1).
Proof.
  induction 1 as [|x l Hx _ IH]; simpl.
  - by rewrite Ascii.eqb_refl.
  - by rewrite Hx, IH.
Qed.

Lemma index_char_none c l : no_char c l -> index_char c l = None.
Proof. induction 1 as [|x l Hx _ IH]; simpl; [done|]. by rewrite Hx, IH. Qed.

(** ** Lemmas: sorting *)
Lemma ltb_asym a b : String.ltb a b = true -> String.ltb b a = false.
Proof. unfold String.ltb. rewrite (String.compare_antisym b a). by destruct (String.compare a b). Qed.

Section Sorting.
Context {A : Type} (less : A -> A -> bool).

Lemma stable_insert_perm x l : stable_insert less x l ≡ₚ x :: l.
Proof.
  induction l as [|y l IH]; simpl; [done|]. destruct (less y x); [|done]. rewrite IH. apply Permutation_swap.
Qed.

Lemma SliceStable_perm l : SliceStable less l ≡ₚ l.
Proof. induction l as [|x l IH]; simpl; [done|]. by rewrite stable_insert_perm, IH. Qed.

(** [b] may come after [a]. *)
Definition in_order (a b : A) : Prop := less b a = false.

Lemma SliceStable_sorted l : (forall a b, less a b = true -> less b a = false) -> Sorted in_order (SliceStable less l).
Proof.
  intros Hasym. assert (forall x l, Sorted in_order l -> Sorted in_order (stable_insert less x l)) as Hins.
  { intros x l'. induction 1 as [|y l' Hs IH Hh]; simpl; [by repeat constructor|].
    destruct (less y x) eqn:E.
    - constructor; [done|]. destruct l' as [|z l']; simpl; [constructor; by apply Hasym|].
      inversion Hh; subst. destruct (less z x); constructor; [done|by apply Hasym].
    - constructor; [by constructor|]. by constructor. }
  induction l; simpl; [constructor|by apply Hins].
Qed.
End Sorting.
