(* ===== verification/Float64.v ===== *)
(** * Go's float64 and the part of math/big.Float the program uses

    A [float64] is an IEEE binary64 value of the Standard Library's executable
    [SpecFloat] (precision 53, exponent bound 1024), so every rate, fee and
    multiplier of the program is evaluated bit for bit.  A finite
    [big.Float] is a dyadic [m * 2^e]; its operations round to nearest even
    at the precision Go gives the result. *)

From Stdlib Require Import SpecFloat.
From S2P Require Import Prelude GoLib.

Definition float64 : Type := spec_float.

(** ** Construction and comparison *)
Definition f64_of_Z (z : Z) : float64 := binary_normalize 53 1024 z 0 false.
Definition f64_mul : float64 -> float64 -> float64 := SFmul 53 1024.
Definition f64_div : float64 -> float64 -> float64 := SFdiv 53 1024.
Definition f64_sub : float64 -> float64 -> float64 := SFsub 53 1024.
Definition f64_le : float64 -> float64 -> bool := SFleb.
Definition f64_lt : float64 -> float64 -> bool := SFltb.
Definition f64_eq : float64 -> float64 -> bool := SFeqb.
Definition f64_zero : float64 := S754_zero false.

(** The double nearest to [n / d], [0 < d]: a quotient of at least 60 bits
    with a sticky bit, then one rounding. *)
Definition f64_of_ratio (n d : Z) : float64 :=
  if n =? 0 then f64_zero else
  let s := Z.max 0 (61 + Z.log2 d - Z.log2 (Z.abs n)) in
  let q := (Z.abs n * 2 ^ s) / d in
  let r := (Z.abs n * 2 ^ s) mod d in
  let m := 2 * q + (if r =? 0 then 0 else 1) in
  binary_normalize 53 1024 (Z.sgn n * m) (- s - 1) (n <? 0).

(** A decimal literal [m * 10^k] of the source, and [math.Pow10]. *)
Definition f64_dec (m k : Z) : float64 :=
  if 0 <=? k then f64_of_ratio (m * 10 ^ k) 1 else f64_of_ratio m (10 ^ (- k)).
Definition Pow10 (n : Z) : float64 :=
  if (0 <=? n) && (n <=? 308) then
    f64_mul (f64_dec 1 (32 * (n / 32))) (f64_dec 1 (n mod 32))
  else if (-323 <=? n) && (n <=? 0) then
    f64_div (f64_dec 1 (- (32 * (- n / 32)))) (f64_dec 1 (- n mod 32))
  else if 0 <? n then S754_infinity false else f64_zero.

(** ** Rounding to an integer

    [math.Ceil], [math.Floor] of a finite value are integers; converting a
    value that is out of range (or not finite) to [int64] yields the most
    negative integer, as amd64 does. *)
Definition dyadic_floor (m e : Z) : Z :=
  if 0 <=? e then m * 2 ^ e else m / 2 ^ (- e).
Definition dyadic_ceil (m e : Z) : Z := - dyadic_floor (- m) e.
Definition dyadic_trunc (m e : Z) : Z :=
  if 0 <=? e then m * 2 ^ e else Z.quot m (2 ^ (- e)).

Definition f64_round_with (f : Z -> Z -> Z) (x : float64) : option Z :=
  match x with
  | S754_zero _ => Some 0
  | S754_finite s m e => Some (f (if s then Z.neg m else Z.pos m) e)
  | S754_infinity _ | S754_nan => None
  end.
Definition f64_ceil : float64 -> option Z := f64_round_with dyadic_ceil.
Definition f64_floor : float64 -> option Z := f64_round_with dyadic_floor.

(** [math.Round]: half away from zero. *)
Definition dyadic_round (m e : Z) : Z :=
  if 0 <=? e then m * 2 ^ e else Z.sgn m * ((2 * Z.abs m + 2 ^ (- e)) / (2 * 2 ^ (- e))).
Definition f64_round : float64 -> option Z := f64_round_with dyadic_round.

Definition f64_int64 (z : option Z) : Z :=
  match z with
  | Some z => if (- 2 ^ 63 <=? z) && (z <? 2 ^ 63) then z else - 2 ^ 63
  | None => - 2 ^ 63
  end.

(** ** big.Float *)
Definition bitlen (z : Z) : Z := if z =? 0 then 0 else Z.log2 (Z.abs z) + 1.

(** Round [m * 2^e] to [p] significant bits, nearest, ties to even. *)
Definition round_prec (p m e : Z) : Z * Z :=
  let s := bitlen m - p in
  if s <=? 0 then (m, e) else
  let q := Z.abs m / 2 ^ s in
  let r := Z.abs m mod 2 ^ s in
  let up := (2 ^ (s - 1) <? r) || ((r =? 2 ^ (s - 1)) && Z.odd q) in
  (Z.sgn m * (if up then q + 1 else q), e + s).

(** [new(big.Float).Mul(new(big.Float).SetInt(a), big.NewFloat(by))] followed
    by [Int(nil)]: the product at precision [max(64, bitlen a)], truncated.
    [None] is the nil [*big.Int] of an infinite product. *)
Definition big_mul_float (a : Z) (by_ : float64) : res (option Z) :=
  match by_ with
  | S754_nan => Panic "big.NewFloat(NaN)"
  | S754_infinity _ =>
    if a =? 0 then Panic "multiplication of zero with infinity" else Ok None
  | S754_zero _ => Ok (Some 0)
  | S754_finite s m e =>
    let '(q, x) := round_prec (Z.max 64 (bitlen a)) (a * (if s then Z.neg m else Z.pos m)) e in
    Ok (Some (dyadic_trunc q x))
  end.

(** [new(big.Float).Mul(big.NewFloat(f), big.NewFloat(g))] at precision 53,
    then [Int(nil)], for finite operands. *)
Definition big_mul_floats_int (f g : float64) : res (option Z) :=
  match f, g with
  | S754_nan, _ | _, S754_nan => Panic "big.NewFloat(NaN)"
  | S754_infinity _, S754_zero _ | S754_zero _, S754_infinity _ =>
    Panic "multiplication of zero with infinity"
  | S754_infinity _, _ | _, S754_infinity _ => Ok None
  | S754_zero _, _ | _, S754_zero _ => Ok (Some 0)
  | S754_finite s1 m1 e1, S754_finite s2 m2 e2 =>
    let m := (if s1 then Z.neg m1 else Z.pos m1) * (if s2 then Z.neg m2 else Z.pos m2) in
    let '(q, x) := round_prec 53 m (e1 + e2) in
    Ok (Some (dyadic_trunc q x))
  end.

(** [big.NewFloat(0).Quo(i, b)] at precision 53, as a float64, for [b > 0]. *)
Definition big_quo_float (i : Z) (b : float64) : float64 :=
  match b with
  | S754_finite _ m e =>
    if 0 <=? e then f64_of_ratio i (Z.pos m * 2 ^ e)
    else f64_of_ratio (i * 2 ^ (- e)) (Z.pos m)
  | S754_zero _ => if i =? 0 then S754_nan else S754_infinity (i <? 0)
  | _ => f64_zero
  end.

(** ** strconv.ParseFloat on decimal numerals

    An optional sign, digits with at most one point, an optional exponent, or
    a name of an infinity or NaN (hexadecimal literals are not covered). *)
Definition parse_mantissa (l : list ascii) : option (Z * Z) :=
  match split_char "." l with
  | [ip] => z ← unsigned_of_bytes ip; Some (z, 0)
  | [ip; fp] => z ← unsigned_of_bytes (ip ++ fp); Some (z, - Z.of_nat (length fp))
  | _ => None
  end.

Definition parse_unsigned_float (l : list ascii) : option float64 :=
  let s := of_bytes l in
  if bool_decide (s = "inf") || bool_decide (s = "infinity") then Some (S754_infinity false)
  else if bool_decide (s = "nan") then Some S754_nan
  else match split_char "e" l with
  | [m] => '(z, k) ← parse_mantissa m; Some (f64_dec z k)
  | [m; x] => '(z, k) ← parse_mantissa m; x ← bigint_of_bytes x; Some (f64_dec z (k + x))
  | _ => None
  end.

(** A magnitude that overflows is an error ([strconv.ErrRange]). *)
Definition ParseFloat (s : string) : option float64 :=
  let neg l := match parse_unsigned_float l with
               | Some f => Some (SFopp f) | None => None end in
  let range named f := match f with
    | Some (S754_infinity _) => if named : bool then f else None
    | _ => f end in
  let l := lower_char <$> bytes s in
  let named := existsb (fun c => Ascii.eqb c "i") l in
  range named match l with
  | c :: l' => if Ascii.eqb c "-" then neg l'
               else if Ascii.eqb c "+" then parse_unsigned_float l'
               else parse_unsigned_float l
  | [] => None
  end.

(** ** strconv.FormatFloat(f, 'f', -1, 64)

    The shortest decimal that parses back to the same double: for one digit,
    two digits, ... the nearest numerals below and above, seventeen digits
    always being enough. *)
Definition f64_same (x y : float64) : bool :=
  match x, y with
  | S754_finite s m e, S754_finite s' m' e' => Bool.eqb s s' && Pos.eqb m m' && (e =? e')
  | _, _ => false
  end.

(** The digits [q] of [n / d] in units of [10^j], rounded down or up. *)
Definition decimal_below (n d j : Z) : Z :=
  if 0 <=? j then n / (d * 10 ^ j) else n * 10 ^ (- j) / d.

Definition nearer_above (n d j q : Z) : bool :=
  if 0 <=? j then d * 10 ^ j * (2 * q + 1) <? 2 * n else d * (2 * q + 1) <? 2 * n * 10 ^ (- j).

Definition decimal_with (x : float64) (n d j : Z) : option (Z * Z) :=
  let q := decimal_below n d j in
  let below := f64_same (f64_dec q j) x in
  let above := f64_same (f64_dec (q + 1) j) x in
  if below && above then Some (if nearer_above n d j q then q + 1 else q, j)
  else if below then Some (q, j) else if above then Some (q + 1, j) else None.

Fixpoint shortest_decimal (fuel : nat) (x : float64) (n d j : Z) : Z * Z :=
  match fuel with
  | O => (decimal_below n d j, j)
  | S fuel => match decimal_with x n d j with
              | Some r => r
              | None => shortest_decimal fuel x n d (j - 1)
              end
  end.

(** [q * 10^j] without exponent; trailing zeros of a fraction are dropped. *)
Definition format_decimal (q j : Z) : list ascii :=
  if 0 <=? j then digits q ++ replicate (Z.to_nat j) "0"%char
  else
    let p := 10 ^ (- j) in
    let frac := digits (q mod p) in
    let frac := replicate (Z.to_nat (- j) - length frac) "0"%char ++ frac in
    trim_right "." (trim_right "0" (digits (q / p) ++ "."%char :: frac)).

Definition FormatFloat (x : float64) : string :=
  match x with
  | S754_nan => "NaN"
  | S754_infinity s => if s then "-Inf" else "+Inf"
  | S754_zero s => if s then "-0" else "0"
  | S754_finite s m e =>
    let '(n, d) := if 0 <=? e then (Z.pos m * 2 ^ e, 1) else (Z.pos m, 2 ^ (- e)) in
    let k := Z.of_nat (length (digits n)) - Z.of_nat (length (digits d)) in
    let '(q, j) := shortest_decimal 18 (S754_finite false m e) n d k in
    of_bytes ((if s then ["-"%char] else []) ++ format_decimal q j)
  end.

Example format_third : FormatFloat (f64_of_ratio 1 3) = "0.3333333333333333". Proof. reflexivity. Qed.
Example format_large : FormatFloat (f64_dec 65 3) = "65000". Proof. reflexivity. Qed.
Example format_tenth : FormatFloat (f64_dec 1 (-1)) = "0.1". Proof. reflexivity. Qed.

(** ** Lemmas *)
Example parse_ten : ParseFloat "10" = Some (f64_of_Z 10). Proof. reflexivity. Qed.
Example parse_tenth : ParseFloat "0.1" = Some (S754_finite false 7205759403792794 (-56)).
Proof. reflexivity. Qed.
Example pow10_18 : Pow10 18 = f64_of_Z (10 ^ 18). Proof. reflexivity. Qed.

Lemma f64_int64_range z : in_int64 (f64_int64 z).
Proof. unfold f64_int64, in_int64. repeat case_match; lia. Qed.

Lemma f64_int64_of z : in_int64 z -> f64_int64 (Some z) = z.
Proof. unfold f64_int64, in_int64. intros [??]. by rewrite (proj2 (Z.leb_le _ _)), (proj2 (Z.ltb_lt _ _)). Qed.

Lemma bitlen_spec z : z <> 0 -> 2 ^ (bitlen z - 1) <= Z.abs z < 2 ^ bitlen z.
Proof.
  intros H. unfold bitlen. rewrite (proj2 (Z.eqb_neq _ _)) by done.
  pose proof (Z.log2_spec (Z.abs z) ltac:(lia)). rewrite <- Z.add_1_r in H0.
  replace (Z.log2 (Z.abs z) + 1 - 1) with (Z.log2 (Z.abs z)) by lia. done.
Qed.

Lemma bitlen_nonneg z : 0 <= bitlen z.
Proof. unfold bitlen. pose proof (Z.log2_nonneg (Z.abs z)). case_match; lia. Qed.

Lemma bitlen_le z p : 0 <= p -> Z.abs z < 2 ^ p -> bitlen z <= p.
Proof.
  intros Hp H. destruct (Z.eq_dec z 0) as [->|Hz]; [done|].
  destruct (Z_le_gt_dec (bitlen z) p); [done|].
  pose proof (bitlen_spec z Hz) as [Hl _].
  assert (2 ^ p <= 2 ^ (bitlen z - 1)) by (apply Z.pow_le_mono_r; lia). lia.
Qed.

Lemma round_prec_exact p m e : bitlen m <= p -> round_prec p m e = (m, e).
Proof. intros H. unfold round_prec. by rewrite (proj2 (Z.leb_le _ _)) by lia. Qed.

(** Rounding keeps a non-negative mantissa within half a unit of its last
    place, which is below [m / 2^(p-1)]. *)
Lemma round_prec_error p m e q x :
  0 < p -> 0 <= m -> round_prec p m e = (q, x) ->
  e <= x /\ 0 <= q /\ 2 * Z.abs (q * 2 ^ (x - e) - m) <= 2 ^ (x - e) /\
  (x <> e -> 2 ^ (x - e) * 2 ^ (p - 1) <= m) /\ (x = e -> q = m).
Proof.
  unfold round_prec. intros Hp Hm. set (s := bitlen m - p).
  destruct (Z.leb_spec s 0) as [Hs|Hs].
  { intros [= <- <-]. rewrite Z.sub_diag. change (2 ^ 0) with 1. lia. }
  intros [= <- <-]. replace (e + s - e) with s by lia.
  assert (m <> 0) as Hm0 by (intros ->; unfold bitlen in s; simpl in s; lia).
  pose proof (bitlen_spec m Hm0) as [Hb _].
  rewrite Z.abs_eq in Hb by lia. rewrite (Z.abs_eq m) by lia.
  rewrite Z.sgn_pos by lia. rewrite Z.mul_1_l.
  assert (2 ^ s = 2 * 2 ^ (s - 1)) as Hpow.
  { rewrite <- (Z.pow_succ_r 2) by lia. f_equal. lia. }
  pose proof (Z.div_mod m (2 ^ s) ltac:(lia)) as Hdm.
  pose proof (Z.mod_pos_bound m (2 ^ s) ltac:(lia)) as Hr.
  assert (0 <= m / 2 ^ s) by (apply Z.div_pos; lia).
  assert (2 ^ s * 2 ^ (p - 1) <= m).
  { rewrite <- Z.pow_add_r by lia. etransitivity; [|exact Hb].
    apply Z.pow_le_mono_r; lia. }
  destruct (Z.ltb_spec (2 ^ (s - 1)) (m mod 2 ^ s)) as [Hc|Hc]; simpl.
  { repeat split; try lia. }
  destruct (Z.eqb_spec (m mod 2 ^ s) (2 ^ (s - 1))) as [He|He]; simpl.
  - destruct (Z.odd _); repeat split; try lia.
  - repeat split; lia.
Qed.

Lemma dyadic_trunc_nonneg m e : 0 <= m -> 0 <= dyadic_trunc m e.
Proof.
  intros H. unfold dyadic_trunc. case_match; [lia|].
  apply Z.quot_pos; [done|]. apply Z.leb_gt in H0. lia.
Qed.
