(* ===== verification/KmsWallet.v ===== *)
(** * KmsWallet: blockchains and address validation

    [internal/kms/wallet]: the closed set of blockchains of [wallet.go] and the
    address checks of [wallet.go], [bitcoin.go], [ethereum.go] and [tron.go].
    Decoding a bitcoin address is [btcutil]'s, an interface here. *)

From S2P Require Import Prelude GoLib.

Definition BTC : string := "BTC".
Definition LTC : string := "LTC".
Definition ETH : string := "ETH".
Definition TRON : string := "TRON".
Definition MATIC : string := "MATIC".
Definition BSC : string := "BSC".

Definition blockchains : list string := [BTC; LTC; ETH; TRON; MATIC; BSC].
Definition ListBlockchains : list string := blockchains.
Definition IsValid (b : string) : bool := existsb (fun bc => bool_decide (b = bc)) blockchains.

Definition ErrUnknownBlockchain : error := ESentinel "kmswallet.ErrUnknownBlockchain".
Definition ErrInvalidAddress : error := ESentinel "kmswallet.ErrInvalidAddress".

(** ** Hexadecimal and base58 addresses (the two regular expressions) *)
Definition code (c : ascii) : Z := Z.of_N (N_of_ascii c).
Definition in_range (lo hi c : ascii) : bool := (code lo <=? code c) && (code c <=? code hi).
Definition hex_char (c : ascii) : bool := in_range "0" "9" c || in_range "a" "f" c || in_range "A" "F" c.
(** [a-zA-HJ-NP-Z0-9] *)
Definition tron_char (c : ascii) : bool :=
  in_range "a" "z" c || in_range "A" "H" c || in_range "J" "N" c || in_range "P" "Z" c || in_range "0" "9" c.

Definition validateEthereumAddress (address : string) : bool :=
  match bytes address with
  | z :: x :: rest => Ascii.eqb z "0" && Ascii.eqb x "x" && (Z.of_nat (length rest) =? 40) && forallb hex_char rest
  | _ => false
  end.

Definition validateTronAddress (address : string) : bool :=
  match bytes address with
  | t :: rest => Ascii.eqb t "T" && (Z.of_nat (length rest) =? 33) && forallb tron_char rest
  | _ => false
  end.

(** ** Native segwit addresses *)

(** The networks by the names of their parameters. *)
Definition bitcoinNetworks : list string := ["mainnet"; "testnet3"].
Definition litecoinNetworks : list string := ["litecoin-mainnet"; "litecoin-testnet"].

Definition utxoNetwork (blockchain : string) (isTest : bool) : string :=
  if bool_decide (blockchain = LTC) then (if isTest then "litecoin-testnet" else "litecoin-mainnet")
  else if isTest then "testnet3" else "mainnet".
Definition utxoNetworks (blockchain : string) : list string :=
  if bool_decide (blockchain = LTC) then litecoinNetworks else bitcoinNetworks.

Definition isUTXOBlockchain (blockchain : string) : bool :=
  bool_decide (blockchain = BTC) || bool_decide (blockchain = LTC).

(** What [btcutil.DecodeAddress(address, network)] tells of an address. *)
Record DecodedAddress := mkDecoded { IsForNet : bool; EncodeAddress : string; is_witness_pubkey_hash : bool }.

Class Btcutil := DecodeAddress : string -> string -> option DecodedAddress.

(** [strings.EqualFold] on ASCII text *)
Definition EqualFold (a b : string) : bool := bool_decide (ToLower a = ToLower b).

Section Segwit.
Context `{Btcutil}.

Definition isNativeSegWitAddressForNetwork (address network : string) : bool :=
  match DecodeAddress address network with
  | None => false
  | Some decoded =>
    if negb (IsForNet decoded) then false
    else if negb (EqualFold (EncodeAddress decoded) address) then false
    else is_witness_pubkey_hash decoded
  end.

Definition validateUTXOAddress (blockchain address : string) : bool :=
  existsb (isNativeSegWitAddressForNetwork address) (utxoNetworks blockchain).

Definition validateUTXOAddressForNetwork (blockchain address : string) (isTest : bool) : bool :=
  isNativeSegWitAddressForNetwork address (utxoNetwork blockchain isTest).

Definition validateAddress (blockchain address : string) (hasNetwork isTest : bool) : res unit :=
  let check valid := if valid : bool then Ok tt else Err ErrInvalidAddress in
  if isUTXOBlockchain blockchain then
    check (if hasNetwork then validateUTXOAddressForNetwork blockchain address isTest
           else validateUTXOAddress blockchain address)
  else if bool_decide (blockchain = ETH) || bool_decide (blockchain = MATIC) || bool_decide (blockchain = BSC) then
    check (validateEthereumAddress address)
  else if bool_decide (blockchain = TRON) then check (validateTronAddress address)
  else Err (EWrap ErrUnknownBlockchain ("unknown blockchain " +:+ blockchain)).

Definition ValidateAddress (blockchain address : string) : res unit := validateAddress blockchain address false false.
Definition ValidateAddressForNetwork (blockchain address : string) (isTest : bool) : res unit :=
  validateAddress blockchain address true isTest.

Lemma existsb_In {A} (p : A -> bool) l x : x ∈ l -> p x = true -> existsb p l = true.
Proof. intros Hx Hp. apply existsb_exists. exists x. by rewrite <- list_elem_of_In. Qed.

(** Address validation accepts an address only on a known blockchain, the
    unknown ones being told apart by their error, and an address valid for one
    network of a blockchain is valid for the blockchain, the converse holding
    on the networks the blockchain lists. *)
Theorem ValidateAddress_networks (blockchain address : string) :
  (IsValid blockchain = false <-> exists e, ValidateAddress blockchain address = Err e /\ errors_Is e ErrUnknownBlockchain = true) /\
  (ValidateAddress blockchain address = Ok tt <->
     ValidateAddressForNetwork blockchain address false = Ok tt \/ ValidateAddressForNetwork blockchain address true = Ok tt).
Proof.
  unfold ValidateAddress, ValidateAddressForNetwork, validateAddress, IsValid, isUTXOBlockchain.
  unfold validateUTXOAddress, validateUTXOAddressForNetwork, utxoNetworks, utxoNetwork. cbn [existsb blockchains].
  generalize (isNativeSegWitAddressForNetwork address) as p. intros p.
  assert (forall b : bool, (if b then Ok tt else Err ErrInvalidAddress) = Ok tt <-> b = true) as Hb by by intros [].
  split; repeat case_bool_decide; simplify_eq; unfold bitcoinNetworks, litecoinNetworks; cbn [orb existsb];
    rewrite ?Hb, ?orb_false_r, ?orb_true_iff; try done; try tauto.
  all: try (split; [done|intros (? & ? & ?); by repeat case_match; simplify_eq/=]).
  split; [|done]. intros _. eexists. split; reflexivity.
Qed.
End Segwit.
