(* ===== verification/Money.v ===== *)
(** * internal/money/money.go: amounts of fiat and crypto money

    [Money] is an integer number of base units with a ticker and a number of
    decimals; the pointer [value] is [None] for the zero struct [Money{}]. *)

From S2P Require Import Prelude GoLib Float64.

(** ** Constants and errors *)
Definition FiatCurrency : Type := string.
Definition USD : FiatCurrency := "USD".
Definition EUR : FiatCurrency := "EUR".
Definition FiatDecimals : Z := 2.
Definition FiatMin : float64 := f64_dec 1 (-2).
Definition FiatMax : float64 := f64_dec 1 7.

Definition ErrInvalidFiatCurrency : error := ESentinel "money.ErrInvalidFiatCurrency".
Definition ErrIncompatibleMoney : error := ESentinel "money.ErrIncompatibleMoney".
Definition ErrNegative : error := ESentinel "money.ErrNegative".
Definition ErrParse : error := ESentinel "money.ErrParse".

Definition fiatCurrencies : list FiatCurrency := [USD; EUR].

Definition MakeFiatCurrency (s : string) : res FiatCurrency :=
  if bool_decide (s ∈ fiatCurrencies) then Ok s else Err (EWrap ErrInvalidFiatCurrency s).

(** ** Crypto currencies *)
Definition Coin : string := "coin".
Definition Token : string := "token".

Record CryptoCurrency := mkCrypto {
  cc_Blockchain : string;
  cc_BlockchainName : string;
  cc_NetworkID : string;
  cc_TestNetworkID : string;
  cc_Type : string;
  cc_Ticker : string;
  cc_Name : string;
  cc_Decimals : Z;
  cc_TokenContractAddress : string;
  cc_TestTokenContractAddress : string;
  cc_Aliases : list string;
  cc_Deprecated : bool;
}.

#[export] Instance CryptoCurrency_eq_dec : EqDecision CryptoCurrency.
Proof. solve_decision. Defined.

Definition DisplayName (c : CryptoCurrency) : string :=
  cc_Name c +:+ " (" +:+ cc_BlockchainName c +:+ ")".

Definition ChooseNetwork (c : CryptoCurrency) (isTest : bool) : string :=
  if isTest then cc_TestNetworkID c else cc_NetworkID c.

Definition ChooseContractAddress (c : CryptoCurrency) (isTest : bool) : string :=
  if isTest && bool_decide (cc_TestTokenContractAddress c <> "")
  then cc_TestTokenContractAddress c else cc_TokenContractAddress c.

(** ** Money *)
Definition Fiat : string := "fiat".
Definition Crypto : string := "crypto".

Record Money := mkMoney {
  m_type : string;
  m_ticker : string;
  m_value : option Z;
  m_decimals : Z;
}.

#[export] Instance Money_eq_dec : EqDecision Money.
Proof. solve_decision. Defined.

(** [Money{}] *)
Definition Money_zero : Money := mkMoney "" "" None 0.

Definition val (m : Money) : Z := default 0 (m_value m).

Definition Money_IsZero (m : Money) : bool := val m =? 0.
Definition Money_IsNegative (m : Money) : bool := val m <? 0.
Definition Money_IsPositive (m : Money) : bool := 0 <? val m.

Definition StringRaw (m : Money) : string := bigint_String (val m).
Definition BigInt (m : Money) : Z * Z := (val m, m_decimals m).

(** [Money.String].  [raw] has its sign stripped; with [d] decimals the point
    goes [d] places from the right, and the fraction's trailing zeros (for
    fiat: a ".00") are trimmed.  A negative [d] slices out of range. *)
Definition String_bytes (m : Money) : res (list ascii) :=
  let raw := bigint_bytes (val m) in
  let isNegative := Money_IsNegative m in
  let raw := if isNegative then drop 1 raw else raw in
  let l := Z.of_nat (length raw) in
  let d := m_decimals m in
  result ←
    (if d <? l then
       let index := l - d in
       if l <? index then Panic "slice bounds out of range"
       else Ok (take (Z.to_nat index) raw ++ "."%char :: drop (Z.to_nat index) raw)
     else if l =? d then Ok ("0"%char :: "."%char :: raw)
     else zeros ← repeat_char "0" (d - l);
          Ok ("0"%char :: "."%char :: zeros ++ raw));
  let result :=
    if bool_decide (m_type m = Fiat) then trim_suffix (bytes ".00") result
    else trim_right "." (trim_right "0" result) in
  Ok (if isNegative then "-"%char :: result else result).
Definition Money_String (m : Money) : res string := b ← String_bytes m; Ok (of_bytes b).

Definition toFloat64 (i decimals : Z) : float64 := big_quo_float i (Pow10 decimals).

Definition FiatToFloat64 (m : Money) : res float64 :=
  if bool_decide (m_type m <> Fiat) then Err (ENew "money should be fiat")
  else Ok (toFloat64 (val m) (m_decimals m)).

Definition CompatibleTo (m b : Money) : bool :=
  bool_decide (m_ticker m = m_ticker b) && (m_decimals m =? m_decimals b).

(** [clear] then [SetString(value, 10)]. *)
Definition New (moneyType ticker value : string) (decimals : Z) : res Money :=
  match bigint_of_bytes (remove_char "_" (bytes value)) with
  | None => Err ErrParse
  | Some z => Ok (mkMoney moneyType ticker (Some z) decimals)
  end.

Definition NewFromBigInt (moneyType ticker : string) (bigInt : option Z) (decimals : Z) : res Money :=
  match bigInt with
  | None => Err (EWrap ErrParse "bigInt is nil")
  | Some z => Ok (mkMoney moneyType ticker (Some z) decimals)
  end.

Definition incompatible : error := EWrap ErrIncompatibleMoney "a, b".

Definition Money_Add (m amount : Money) : res Money :=
  if negb (CompatibleTo m amount) then Err incompatible
  else NewFromBigInt (m_type m) (m_ticker m) (Some (val m + val amount)) (m_decimals m).

Definition SubNegative (m amount : Money) : res Money :=
  if negb (CompatibleTo m amount) then Err incompatible
  else match NewFromBigInt (m_type m) (m_ticker m) (Some (val m - val amount)) (m_decimals m) with
       | Err _ => Ok Money_zero
       | r => r
       end.

Definition Money_Sub (m amount : Money) : res Money :=
  out ← SubNegative m amount;
  if Money_IsNegative out then Err ErrNegative else Ok out.

Definition multiplier_error : error := ENew "multiplier should be greater than zero".

Definition MultiplyFloat64 (m : Money) (by_ : float64) : res Money :=
  if f64_le by_ f64_zero then Err multiplier_error else
  bigInt ← big_mul_float (val m) by_;
  NewFromBigInt (m_type m) (m_ticker m) bigInt (m_decimals m).

Definition MultiplyInt64 (m : Money) (by_ : Z) : res Money :=
  if by_ <=? 0 then Err multiplier_error
  else NewFromBigInt (m_type m) (m_ticker m) (Some (val m * by_)) (m_decimals m).

Definition Money_Equals (m b : Money) : bool := CompatibleTo m b && (val m =? val b).
Definition GreaterThan (m b : Money) : bool := CompatibleTo m b && (val b <? val m).
Definition GreaterThanOrEqual (m b : Money) : bool := Money_Equals m b || GreaterThan m b.
Definition LessThan (m b : Money) : bool := CompatibleTo m b && (val m <? val b).
Definition LessThanOrEqual (m b : Money) : bool := Money_Equals m b || LessThan m b.

(** ** Constructors *)
Definition CryptoFromRaw (ticker value : string) (decimals : Z) : res Money :=
  New Crypto ticker value decimals.

Definition MustCryptoFromRaw (ticker value : string) (decimals : Z) : res Money :=
  match New Crypto ticker value decimals with Err _ => Panic "parse error" | r => r end.

Definition CryptoCurrency_MakeAmount (c : CryptoCurrency) (raw : string) : res Money :=
  CryptoFromRaw (cc_Ticker c) raw (cc_Decimals c).
Definition MakeAmountFromBigInt (c : CryptoCurrency) (amount : option Z) : res Money :=
  NewFromBigInt Crypto (cc_Ticker c) amount (cc_Decimals c).
Definition Fiat_MakeAmount (f : FiatCurrency) (raw : string) : res Money :=
  New Fiat f raw FiatDecimals.

Definition FiatFromFloat64 (ticker : FiatCurrency) (f : float64) : res Money :=
  if f64_lt f FiatMin || f64_lt FiatMax f
  then Err (EWrap ErrParse "fiat value should be between bounds")
  else match f64_floor (f64_mul f (Pow10 FiatDecimals)) with
       | None => Err ErrParse (* "NaN" is not a numeral *)
       | Some z => New Fiat ticker (bigint_String z) FiatDecimals
       end.

Definition CryptoFromFloat64 (ticker : string) (f : float64) (decimals : Z) : res Money :=
  if f64_le f f64_zero then Err (EWrap ErrParse "crypto value should be more than zero") else
  bigInt ← big_mul_floats_int f (Pow10 decimals);
  match bigInt with
  | None => Err ErrParse (* "<nil>" is not a numeral *)
  | Some z => New Crypto ticker (bigint_String z) decimals
  end.

(** The float string as raw digits: "42.123" with 6 decimals is "42123000".
    The number of padding zeros is negative for too long a fraction. *)
Definition float_to_raw (floatString : list ascii) (decimals : Z) : res (list ascii) :=
  match split_char "." floatString with
  | [_] => zeros ← repeat_char "0" decimals; Ok (floatString ++ zeros)
  | [p0; p1] => zeros ← repeat_char "0" (decimals - Z.of_nat (length p1));
                Ok (p0 ++ p1 ++ zeros)
  | _ => Err (EWrap ErrParse "invalid floatString provided")
  end.

Definition CryptoFromStringFloat (ticker floatString : string) (decimals : Z) : res Money :=
  raw ← float_to_raw (bytes floatString) decimals;
  CryptoFromRaw ticker (of_bytes raw) decimals.

(** internal/util/ints.go *)
Definition Pow64 (a b : Z) : Z :=
  if b <? 0 then 0 else Nat.iter (Z.to_nat b) (fun r => (r * a)%i64) 1.

Definition CryptoToFiat (crypto : Money) (fiat : FiatCurrency) (exchangeRate : float64) : res Money :=
  if bool_decide (m_type crypto <> Crypto) then Err ErrIncompatibleMoney else
  multiplied ← wrap (MultiplyFloat64 crypto
      (f64_mul exchangeRate (f64_of_Z (Pow64 10 FiatDecimals)))) "unable to multiply crypto";
  floatString ← String_bytes multiplied;
  let floatString := match index_char "." floatString with
                     | Some i => take i floatString | None => floatString end in
  New Fiat fiat (of_bytes floatString) FiatDecimals.

(** ** Lemmas *)
#[local] Arguments Z.sub : simpl never.

Definition plain_money (t tk : string) (v d : Z) : Money := mkMoney t tk (Some v) d.

Lemma CompatibleTo_refl m : CompatibleTo m m = true.
Proof. unfold CompatibleTo. by rewrite bool_decide_true, Z.eqb_refl. Qed.

Lemma CompatibleTo_iff m b :
  CompatibleTo m b = true <-> m_ticker m = m_ticker b /\ m_decimals m = m_decimals b.
Proof. unfold CompatibleTo. by rewrite andb_true_iff, bool_decide_eq_true, Z.eqb_eq. Qed.

Lemma CompatibleTo_sym m b : CompatibleTo m b = CompatibleTo b m.
Proof.
  apply eq_true_iff_eq. rewrite !CompatibleTo_iff. split; intros [-> ->]; done.
Qed.

Lemma New_digits t tk l d v :
  no_char "_" l -> bigint_of_bytes l = Some v -> New t tk (of_bytes l) d = Ok (mkMoney t tk (Some v) d).
Proof. intros Hl Hv. unfold New. rewrite bytes_of_bytes, remove_char_none by done. by rewrite Hv. Qed.

Lemma bigint_bytes_no_underscore z : no_char "_" (bigint_bytes z).
Proof.
  unfold bigint_bytes. destruct (Z.ltb_spec z 0).
  - constructor; [done|]. apply digits_no_char; [apply digits_digit; lia|done].
  - apply digits_no_char; [apply digits_digit; lia|done].
Qed.

(** An integer that was printed is read back. *)
Lemma New_FormatInt t tk z d : New t tk (FormatInt z) d = Ok (mkMoney t tk (Some z) d).
Proof. apply New_digits; [apply bigint_bytes_no_underscore|apply bigint_bytes_roundtrip]. Qed.

Definition sign_bytes (neg : bool) : list ascii := if neg then ["-"%char] else [].

Lemma bigint_of_signed (neg : bool) l v :
  Forall is_digit l -> l <> [] -> unsigned_of_bytes l = Some v ->
  bigint_of_bytes (sign_bytes neg ++ l) = Some (if neg then - v else v).
Proof.
  intros Hd Hne Hv. destruct neg; simpl.
  - rewrite Hv. done.
  - by rewrite bigint_of_bytes_digits.
Qed.

Lemma sign_no_char c neg : Ascii.eqb "-" c = false -> no_char c (sign_bytes neg).
Proof. intros H. destruct neg; by repeat constructor. Qed.

#[local] Ltac nochar := repeat apply no_char_app; first
  [ apply sign_no_char; reflexivity | apply digits_no_char; [done | reflexivity] ].

Lemma unsigned_pad l n v :
  l <> [] -> parse_digits l 0 = Some v ->
  unsigned_of_bytes (l ++ replicate n "0"%char) = Some (v * 10 ^ Z.of_nat n).
Proof.
  intros Hne Hv. unfold unsigned_of_bytes.
  destruct (l ++ _) eqn:E; [by apply app_eq_nil in E as [??]|]. rewrite <- E.
  rewrite parse_digits_app, Hv. simpl. apply parse_digits_zeros.
Qed.

Lemma replicate_zero_digits n : Forall is_digit (replicate n "0"%char).
Proof. apply Forall_replicate. exists 0. by split; [lia|]. Qed.

(** A whole number: "42" with [d] decimals is [42 * 10^d]. *)
Lemma parse_whole tk neg ip d v :
  0 <= d -> Forall is_digit ip -> ip <> [] -> parse_digits ip 0 = Some v ->
  CryptoFromStringFloat tk (of_bytes (sign_bytes neg ++ ip)) d =
  Ok (plain_money Crypto tk ((if neg then -1 else 1) * (v * 10 ^ d)) d).
Proof.
  intros Hd Hip Hne Hv. unfold CryptoFromStringFloat, float_to_raw, CryptoFromRaw.
  rewrite bytes_of_bytes, split_char_none by nochar.
  unfold repeat_char. rewrite (proj2 (Z.ltb_ge _ _)) by done. simpl.
  assert (Forall is_digit (replicate (Z.to_nat d) "0"%char)) by apply replicate_zero_digits.
  rewrite <- app_assoc. apply New_digits; [nochar|].
  erewrite bigint_of_signed.
  - destruct neg; f_equal; lia.
  - by apply Forall_app_2.
  - intros [? _]%app_eq_nil. done.
  - rewrite (unsigned_pad _ _ v), Z2Nat.id by done. done.
Qed.

(** A number with a fraction of [length fp <= d] digits. *)
Lemma parse_fraction tk neg ip fp d v :
  Z.of_nat (length fp) <= d -> Forall is_digit ip -> Forall is_digit fp -> ip <> [] ->
  parse_digits (ip ++ fp) 0 = Some v ->
  CryptoFromStringFloat tk (of_bytes (sign_bytes neg ++ ip ++ "."%char :: fp)) d =
  Ok (plain_money Crypto tk ((if neg then -1 else 1) * (v * 10 ^ (d - Z.of_nat (length fp)))) d).
Proof.
  intros Hd Hip Hfp Hne Hv. unfold CryptoFromStringFloat, float_to_raw, CryptoFromRaw.
  rewrite bytes_of_bytes, (app_assoc (sign_bytes neg)), split_char_one; [|nochar|nochar].
  unfold repeat_char. rewrite (proj2 (Z.ltb_ge _ _)) by lia. simpl.
  assert (Forall is_digit (replicate (Z.to_nat (d - Z.of_nat (length fp))) "0"%char))
    by apply replicate_zero_digits.
  rewrite <- !app_assoc. apply New_digits; [nochar|]. rewrite (app_assoc ip).
  erewrite bigint_of_signed.
  - destruct neg; f_equal; lia.
  - by repeat apply Forall_app_2.
  - intros [[? _]%app_eq_nil _]%app_eq_nil. done.
  - rewrite (unsigned_pad _ _ v), Z2Nat.id by (done || lia || by intros [? _]%app_eq_nil). done.
Qed.

(** Trimming the zeros of "ip.fp" and then a trailing point. *)
Lemma trim_float ip fp : Forall is_digit ip -> ip <> [] -> Forall is_digit fp ->
  exists fp' n, fp = fp' ++ replicate n "0"%char /\
  trim_right "." (trim_right "0" (ip ++ "."%char :: fp)) =
    (if decide (fp' = []) then ip else ip ++ "."%char :: fp').
Proof.
  intros Hip Hne Hfp. destruct (trailing_run "0" fp) as (fp' & n & -> & Hl).
  exists fp', n. split; [done|].
  change ("."%char :: fp' ++ replicate n "0"%char) with (("."%char :: fp') ++ replicate n "0"%char).
  rewrite app_assoc, trim_right_replicate.
  apply Forall_app in Hfp as [Hfp _].
  destruct Hl as [->|(l0 & x & -> & Hx)].
  - rewrite trim_right_snoc_ne by done.
    change ["."%char] with (replicate 1 "."%char). rewrite trim_right_replicate.
    destruct (exists_last Hne) as (ip0 & y & ->).
    apply Forall_app in Hip as [_ [Hy _]%Forall_cons].
    rewrite trim_right_snoc_ne by (by apply is_digit_ne). done.
  - rewrite decide_False by (intros [? ?]%app_eq_nil; done).
    change ("."%char :: l0 ++ [x]) with (("."%char :: l0) ++ [x]).
    rewrite app_assoc, trim_right_snoc_ne by done.
    apply Forall_app in Hfp as [_ [Hy _]%Forall_cons].
    rewrite trim_right_snoc_ne by (by apply is_digit_ne). by rewrite <- app_assoc.
Qed.

Lemma parse_trailing_zeros l n v w :
  parse_digits (l ++ replicate n "0"%char) 0 = Some w ->
  parse_digits l 0 = Some v -> w = v * 10 ^ Z.of_nat n.
Proof.
  intros Hw Hv. rewrite parse_digits_app, Hv in Hw. simpl in Hw.
  rewrite parse_digits_zeros in Hw. congruence.
Qed.

Lemma parse_digits_total l acc : Forall is_digit l -> exists v, parse_digits l acc = Some v.
Proof.
  intros H. revert acc. induction H as [|c l (d & Hd & ->) _ IH]; intros acc; simpl; [eauto|].
  rewrite char_digit_char by done. apply IH.
Qed.

Lemma parse_leading_zero l : parse_digits ("0"%char :: l) 0 = parse_digits l 0.
Proof. done. Qed.

Lemma parse_leading_zeros n l : parse_digits (replicate n "0"%char ++ l) 0 = parse_digits l 0.
Proof. by rewrite parse_digits_app, parse_digits_zeros. Qed.

(** The integer and fractional digits [Money.String] starts from. *)
Lemma String_bytes_parts m b :
  m_type m <> Fiat -> String_bytes m = Ok b ->
  exists ip fp, Forall is_digit ip /\ ip <> [] /\ Forall is_digit fp /\
    Z.of_nat (length fp) = m_decimals m /\
    parse_digits (ip ++ fp) 0 = Some (Z.abs (val m)) /\
    b = sign_bytes (Money_IsNegative m) ++ trim_right "." (trim_right "0" (ip ++ "."%char :: fp)).
Proof.
  intros Hf. unfold String_bytes. rewrite (bool_decide_false (m_type m = Fiat)) by done.
  assert ((if Money_IsNegative m then drop 1 (bigint_bytes (val m)) else bigint_bytes (val m))
          = digits (Z.abs (val m))) as ->.
  { unfold bigint_bytes, Money_IsNegative. destruct (Z.ltb_spec (val m) 0).
    - by rewrite Z.abs_neq by lia.
    - by rewrite Z.abs_eq by lia. }
  set (ds := digits (Z.abs (val m))).
  assert (Forall is_digit ds) as Hds by (apply digits_digit; lia).
  assert (ds <> []) as Hne by apply digits_nonempty.
  assert (parse_digits ds 0 = Some (Z.abs (val m))) as Hp by (unfold ds; rewrite digits_parse by lia; f_equal; lia).
  assert (forall z b', (if Money_IsNegative m then "-"%char :: z else z) = b' ->
            b' = sign_bytes (Money_IsNegative m) ++ z) as Hsg by (intros; subst; by destruct (Money_IsNegative m)).
  destruct (Z.ltb_spec (m_decimals m) (Z.of_nat (length ds))) as [Hlt|Hge].
  { destruct (Z.ltb_spec (Z.of_nat (length ds)) (Z.of_nat (length ds) - m_decimals m)); [done|].
    simpl. intros [= Hb]. apply Hsg in Hb.
    set (k := Z.to_nat (Z.of_nat (length ds) - m_decimals m)) in *.
    exists (take k ds), (drop k ds). repeat split.
    - by apply Forall_take.
    - intros Hk. apply (f_equal length) in Hk. rewrite length_take in Hk. simpl in Hk. lia.
    - by apply Forall_drop.
    - rewrite length_drop. lia.
    - by rewrite take_drop.
    - done. }
  assert (Forall is_digit ["0"%char]) by (repeat constructor; exists 0; split; [lia|done]).
  destruct (Z.eqb_spec (Z.of_nat (length ds)) (m_decimals m)) as [He|He].
  - simpl. intros [= Hb]. apply Hsg in Hb. exists ["0"%char], ds. by repeat split.
  - unfold repeat_char. rewrite (proj2 (Z.ltb_ge _ _)) by lia. simpl. intros [= Hb]. apply Hsg in Hb.
    exists ["0"%char], (replicate (Z.to_nat (m_decimals m - Z.of_nat (length ds))) "0"%char ++ ds).
    repeat split; try done.
    + apply Forall_app_2; [apply replicate_zero_digits|done].
    + rewrite length_app, length_replicate. lia.
    + cbn [app]. rewrite parse_leading_zero, parse_leading_zeros. done.
Qed.

Lemma String_bytes_total m : 0 <= m_decimals m -> exists b, String_bytes m = Ok b.
Proof.
  intros Hd. unfold String_bytes. cbv zeta.
  set (raw := if Money_IsNegative m then _ else _).
  destruct (Z.ltb_spec (m_decimals m) (Z.of_nat (length raw))) as [Hlt|Hge].
  - rewrite (proj2 (Z.ltb_ge _ _)) by lia. simpl. eauto.
  - destruct (Z.eqb_spec (Z.of_nat (length raw)) (m_decimals m)); [simpl; eauto|].
    unfold repeat_char. rewrite (proj2 (Z.ltb_ge _ _)) by lia. simpl. eauto.
Qed.

Lemma Money_String_bytes m s : Money_String m = Ok s ->
  exists b, String_bytes m = Ok b /\ s = of_bytes b.
Proof.
  unfold Money_String. destruct (String_bytes m) as [b|e|p]; intros H; simplify_eq/=; eauto.
Qed.

Lemma abs_sign v : (if v <? 0 then -1 else 1) * Z.abs v = v.
Proof. destruct (Z.ltb_spec v 0); lia. Qed.

(** ** Properties *)

(** C30. Printing is faithful: for every crypto amount with a non-negative
    number of decimals, [String] returns a text (it does not panic) from which
    [CryptoFromStringFloat] recovers exactly the same amount, negative
    amounts and trimmed zeros included. *)
Theorem String_roundtrip (m : Money) (Hty : m_type m = Crypto) (Hd : 0 <= m_decimals m) :
  exists s, Money_String m = Ok s /\
  CryptoFromStringFloat (m_ticker m) s (m_decimals m) =
    Ok (mkMoney Crypto (m_ticker m) (Some (val m)) (m_decimals m)).
Proof.
  destruct (String_bytes_total m Hd) as [b Hb].
  exists (of_bytes b). split; [unfold Money_String; by rewrite Hb|].
  destruct (String_bytes_parts m b) as (ip & fp & Hip & Hne & Hfp & Hlen & Hp & ->); [by rewrite Hty| done |].
  destruct (trim_float ip fp Hip Hne Hfp) as (fp' & n & -> & ->).
  apply Forall_app in Hfp as [Hfp' _]. rewrite length_app, length_replicate in Hlen.
  rewrite app_assoc in Hp.
  destruct (parse_digits_total (ip ++ fp') 0) as [v Hv]; [by apply Forall_app_2|].
  pose proof (parse_trailing_zeros _ _ _ _ Hp Hv) as Habs.
  pose proof (abs_sign (val m)) as Hsg. change (val m <? 0) with (Money_IsNegative m) in Hsg.
  case_decide as Hnil.
  - subst fp'. rewrite app_nil_r in Hv.
    rewrite (parse_whole _ _ _ _ v) by done. simpl in Hlen.
    unfold plain_money. do 2 f_equal. rewrite <- Hsg, Habs. do 4 f_equal. lia.
  - rewrite (parse_fraction _ _ _ _ _ v) by (done || lia).
    unfold plain_money. do 2 f_equal. rewrite <- Hsg, Habs. do 4 f_equal. lia.
Qed.

Lemma String_roundtrip_witness :
  exists s, Money_String (mkMoney Crypto "ETH" (Some (-50)) 3) = Ok s /\
  CryptoFromStringFloat "ETH" s 3 = Ok (mkMoney Crypto "ETH" (Some (-50)) 3).
Proof. apply (String_roundtrip (mkMoney Crypto "ETH" (Some (-50)) 3)); [reflexivity | simpl; lia]. Defined.

(** [CryptoFromStringFloat] on text without a sign, split at its one
    point into digits [ip] and [fp]: it parses exactly when the fraction fits
    the currency's decimals and otherwise the process panics on the negative
    [strings.Repeat] count, instead of returning [ErrParse]. *)
Theorem CryptoFromStringFloat_fraction (tk : string) (ip fp : list ascii) (d : Z)
  (Hip : Forall is_digit ip) (Hne : ip <> []) (Hfp : Forall is_digit fp) :
  (Z.of_nat (length fp) <= d /\
   exists v, parse_digits (ip ++ fp) 0 = Some v /\
     CryptoFromStringFloat tk (of_bytes (ip ++ "."%char :: fp)) d =
       Ok (mkMoney Crypto tk (Some (v * 10 ^ (d - Z.of_nat (length fp)))) d)) \/
  (d < Z.of_nat (length fp) /\
   exists why, CryptoFromStringFloat tk (of_bytes (ip ++ "."%char :: fp)) d = Panic why).
Proof.
  destruct (Z_le_gt_dec (Z.of_nat (length fp)) d) as [Hle|Hgt]; [left|right].
  - split; [done|]. destruct (parse_digits_total (ip ++ fp) 0) as [v Hv]; [by apply Forall_app_2|].
    exists v. split; [done|].
    pose proof (parse_fraction tk false ip fp d v Hle Hip Hfp Hne Hv) as H. simpl in H.
    rewrite H. unfold plain_money. do 3 f_equal. lia.
  - split; [lia|]. unfold CryptoFromStringFloat, float_to_raw.
    rewrite bytes_of_bytes, split_char_one by nochar.
    unfold repeat_char. rewrite (proj2 (Z.ltb_lt _ _)) by lia. simpl. eauto.
Qed.

Lemma CryptoFromStringFloat_fraction_witness :
  exists why, CryptoFromStringFloat "BTC" (of_bytes (bytes "0" ++ "."%char :: bytes "123456789")) 8 = Panic why.
Proof.
  assert (forall l, forallb (fun c => match char_digit c with Some _ => true | None => false end) l = true ->
          Forall is_digit l) as Hdec.
  { intros l Hl. apply Forall_forall. intros c Hc. rewrite forallb_forall in Hl.
    apply list_elem_of_In in Hc. specialize (Hl c Hc). unfold char_digit in Hl.
    destruct (andb _ _) eqn:E; [|done]. apply andb_true_iff in E as [E1%Z.leb_le E2%Z.leb_le].
    exists (Z.of_N (N_of_ascii c) - 48). split; [lia|]. unfold digit_char.
    replace (48 + (Z.of_N (N_of_ascii c) - 48)) with (Z.of_N (N_of_ascii c)) by lia.
    by rewrite N2Z.id, ascii_N_embedding. }
  destruct (CryptoFromStringFloat_fraction "BTC" (bytes "0") (bytes "123456789") 8) as [[H _]|[_ H]].
  - apply Hdec. reflexivity.
  - done.
  - apply Hdec. reflexivity.
  - exfalso. revert H. vm_compute. intros H. by apply H.
  - exact H.
Defined.

Lemma Money_Sub_ok m a c : Money_Sub m a = Ok c <->
  CompatibleTo m a = true /\ 0 <= val m - val a /\
  c = mkMoney (m_type m) (m_ticker m) (Some (val m - val a)) (m_decimals m).
Proof.
  unfold Money_Sub, SubNegative, NewFromBigInt. destruct (CompatibleTo m a); simpl; [|naive_solver].
  unfold Money_IsNegative. simpl. unfold val at 1. simpl.
  destruct (Z.ltb_spec (val m - val a) 0); split; intros; naive_solver lia.
Qed.

Lemma Money_Add_ok m a c : Money_Add m a = Ok c <->
  CompatibleTo m a = true /\
  c = mkMoney (m_type m) (m_ticker m) (Some (val m + val a)) (m_decimals m).
Proof.
  unfold Money_Add, NewFromBigInt. destruct (CompatibleTo m a); simpl; naive_solver.
Qed.

Lemma SubNegative_ok m a c : SubNegative m a = Ok c <->
  CompatibleTo m a = true /\
  c = mkMoney (m_type m) (m_ticker m) (Some (val m - val a)) (m_decimals m).
Proof.
  unfold SubNegative, NewFromBigInt. destruct (CompatibleTo m a); simpl; naive_solver.
Qed.

(** Subtraction never goes negative and is undone by addition: whenever
    [Sub] succeeds its result is a non-negative amount of the same currency
    and adding the subtrahend back gives an amount [Equals] to the start;
    otherwise the two amounts are incompatible ([ErrIncompatibleMoney]) or
    the first is smaller ([ErrNegative]). *)
Theorem Sub_Add_inverse (m a : Money) :
  (exists c b, Money_Sub m a = Ok c /\ Money_IsNegative c = false /\
     Money_Add c a = Ok b /\ Money_Equals b m = true /\ GreaterThanOrEqual m a = true) \/
  (exists e, Money_Sub m a = Err e /\ errors_Is e ErrIncompatibleMoney = true /\ CompatibleTo m a = false) \/
  (Money_Sub m a = Err ErrNegative /\ LessThan m a = true).
Proof.
  destruct (CompatibleTo m a) eqn:Hc.
  - destruct (Z_lt_le_dec (val m - val a) 0) as [Hn|Hn].
    + right; right. unfold Money_Sub, SubNegative, LessThan. rewrite Hc. simpl.
      unfold Money_IsNegative, val at 1. simpl. rewrite (proj2 (Z.ltb_lt _ _)) by done.
      split; [done|]. apply Z.ltb_lt. lia.
    + left. set (c := mkMoney (m_type m) (m_ticker m) (Some (val m - val a)) (m_decimals m)).
      exists c, (mkMoney (m_type m) (m_ticker m) (Some (val c + val a)) (m_decimals m)).
      assert (CompatibleTo c a = true) as Hca by done.
      split; [by apply Money_Sub_ok|]. split; [unfold Money_IsNegative, val; simpl; lia|].
      split; [by apply Money_Add_ok|]. unfold Money_Equals, GreaterThanOrEqual, GreaterThan, Money_Equals.
      rewrite Hc. split.
      * replace (CompatibleTo _ m) with true by (symmetry; by apply CompatibleTo_iff).
        apply Z.eqb_eq. unfold c, val. simpl. lia.
      * simpl. apply orb_true_iff. destruct (Z.eq_dec (val m) (val a)); [left|right]; lia.
  - right; left. exists incompatible. unfold Money_Sub, SubNegative. by rewrite Hc.
Qed.

(** The comparisons of two amounts are a total order on compatible money
    and all false otherwise: exactly one of [LessThan], [Equals] and
    [GreaterThan] holds for compatible amounts, [GreaterThanOrEqual] is the
    negation of [LessThan] there, and [GreaterThan] is the converse relation
    of [LessThan]. *)
Theorem comparison_trichotomy (m b : Money) :
  GreaterThan m b = LessThan b m /\
  (CompatibleTo m b = false ->
     LessThan m b = false /\ Money_Equals m b = false /\ GreaterThanOrEqual m b = false /\ LessThanOrEqual m b = false) /\
  (CompatibleTo m b = true ->
     GreaterThanOrEqual m b = negb (LessThan m b) /\ LessThanOrEqual m b = negb (GreaterThan m b) /\
     ((LessThan m b = true /\ Money_Equals m b = false /\ GreaterThan m b = false) \/
      (LessThan m b = false /\ Money_Equals m b = true /\ GreaterThan m b = false) \/
      (LessThan m b = false /\ Money_Equals m b = false /\ GreaterThan m b = true))).
Proof.
  unfold GreaterThanOrEqual, LessThanOrEqual, GreaterThan, LessThan, Money_Equals.
  rewrite (CompatibleTo_sym b m). split; [done|].
  destruct (CompatibleTo m b); split; intros ?; try done; simpl.
  destruct (Z.eqb_spec (val m) (val b)), (Z.ltb_spec (val m) (val b)), (Z.ltb_spec (val b) (val m));
    simpl; try lia; repeat split; eauto.
Qed.

Lemma comparison_trichotomy_witness :
  GreaterThan (mkMoney Crypto "ETH" (Some 2) 18) (mkMoney Crypto "ETH" (Some 1) 18) = true /\
  LessThan (mkMoney Crypto "ETH" (Some 2) 18) (mkMoney Crypto "ETH" (Some 1) 18) = false.
Proof.
  destruct (comparison_trichotomy (mkMoney Crypto "ETH" (Some 2) 18) (mkMoney Crypto "ETH" (Some 1) 18))
    as (_ & _ & H).
  destruct (H eq_refl) as (_ & _ & [(? & ? & ?)|[(? & ? & ?)|(H1 & _ & H2)]]); try discriminate.
  by split.
Defined.

(** C31. [MultiplyFloat64] by a positive finite double [by_ = m * 2^e] with
    [e <= 0] (any double below 2^53 has one) yields an amount of the same
    currency that differs from the exact product by less than one base unit
    plus a 2^-63 relative error; in particular it never panics or fails. *)
Theorem MultiplyFloat64_error (a : Money) (m : positive) (k : Z)
  (Ha : 0 <= val a) (Hk : 0 <= k) :
  exists r, MultiplyFloat64 a (SpecFloat.S754_finite false m (- k)) = Ok r /\
    CompatibleTo r a = true /\ m_type r = m_type a /\ 0 <= val r /\
    2 ^ 63 * Z.abs (val r * 2 ^ k - val a * Z.pos m) <= 2 ^ 63 * 2 ^ k + val a * Z.pos m.
Proof.
  unfold MultiplyFloat64. cbn [f64_le SpecFloat.SFleb SpecFloat.SFcompare f64_zero big_mul_float].
  set (p := Z.max 64 (bitlen (val a))).
  destruct (round_prec p (val a * Z.pos m) (- k)) as [q x] eqn:Hr.
  assert (0 < p) as Hp by lia. assert (0 <= val a * Z.pos m) as Hm0 by lia.
  destruct (round_prec_error p _ _ _ _ Hp Hm0 Hr) as (Hx & Hq & Herr & Hbig & Hsame).
  eexists. split; [reflexivity|]. simpl. split; [by apply CompatibleTo_iff|]. split; [done|].
  unfold val at 1 2. simpl. split; [by apply dyadic_trunc_nonneg|].
  assert (2 ^ 63 * Z.abs (q * 2 ^ (x + k) - val a * Z.pos m) <= val a * Z.pos m) as Hround.
  { replace (x - - k) with (x + k) in * by lia. destruct (Z.eq_dec x (- k)) as [->|Hne].
    - rewrite Hsame by done. replace (- k + k) with 0 by lia. rewrite Z.pow_0_r. lia.
    - specialize (Hbig Hne).
      assert (2 ^ 63 <= 2 ^ (p - 1)) by (apply Z.pow_le_mono_r; lia).
      assert (2 ^ (x + k) * 2 ^ 63 <= val a * Z.pos m); [|lia].
      etransitivity; [|exact Hbig]. apply Z.mul_le_mono_nonneg_l; lia. }
  unfold dyadic_trunc. destruct (Z.leb_spec 0 x) as [Hx0|Hx0].
  - rewrite <- Z.mul_assoc, <- Z.pow_add_r by lia.
    assert (0 < 2 ^ k) by (apply Z.pow_pos_nonneg; lia). lia.
  - rewrite Z.quot_div_nonneg by (apply Z.pow_pos_nonneg || idtac; lia).
    pose proof (Z.pow_pos_nonneg 2 (- x) ltac:(lia) ltac:(lia)) as Hpx.
    pose proof (Z.div_mod q (2 ^ - x) ltac:(lia)) as Hdm.
    pose proof (Z.mod_pos_bound q (2 ^ - x) Hpx) as Hm.
    assert (2 ^ k = 2 ^ (- x) * 2 ^ (x + k)) as Hpk by (rewrite <- Z.pow_add_r by lia; f_equal; lia).
    pose proof (Z.pow_pos_nonneg 2 (x + k) ltac:(lia) ltac:(lia)) as Hpxk.
    set (A := 2 ^ (- x)) in *. set (B := 2 ^ (x + k)) in *.
    assert (q * B - 2 ^ k <= q / A * 2 ^ k <= q * B) as Hfl by (rewrite Hpk; nia).
    assert (Z.abs (q / A * 2 ^ k - val a * Z.pos m) <= 2 ^ k + Z.abs (q * B - val a * Z.pos m)) as H by lia.
    lia.
Qed.

Lemma MultiplyFloat64_error_witness :
  exists r, MultiplyFloat64 (mkMoney Crypto "ETH" (Some (10 ^ 18)) 18)
              (SpecFloat.S754_finite false 8106479329266893 (-53)) = Ok r /\ val r = 900000000000000022.
Proof.
  destruct (MultiplyFloat64_error (mkMoney Crypto "ETH" (Some (10 ^ 18)) 18) 8106479329266893 53)
    as (r & Hr & _); [vm_compute; discriminate | lia |].
  exists r. split; [exact Hr|]. vm_compute in Hr. injection Hr as <-. reflexivity.
Defined.

(** ** Crypto to fiat

    The whole part of a printed amount, cut at the point. *)
Lemma whole_part m b : m_type m <> Fiat -> String_bytes m = Ok b ->
  exists ip v, Forall is_digit ip /\ ip <> [] /\ parse_digits ip 0 = Some v /\
    v = Z.abs (val m) / 10 ^ m_decimals m /\
    match index_char "." b with Some i => take i b | None => b end = sign_bytes (Money_IsNegative m) ++ ip.
Proof.
  intros Hf Hb. destruct (String_bytes_parts m b Hf Hb) as (ip & fp & Hip & Hne & Hfp & Hl & Hp & ->).
  destruct (parse_digits_total ip 0 Hip) as [v Hv]. exists ip, v. split_and!; try done.
  - rewrite parse_digits_app, Hv in Hp. simpl in Hp.
    pose proof (parse_digits_bound fp v _ Hfp Hp) as Hbd. rewrite Hl in Hbd.
    apply (Z.div_unique _ _ _ (Z.abs (val m) - v * 10 ^ m_decimals m)); lia.
  - destruct (trim_float ip fp Hip Hne Hfp) as (fp' & n & _ & ->).
    assert (no_char "." (sign_bytes (Money_IsNegative m) ++ ip)) as Hn.
    { apply no_char_app; [by apply sign_no_char|]. by apply digits_no_char. }
    destruct (decide (fp' = [])) as [->|Hfp'].
    + by rewrite index_char_none.
    + rewrite app_assoc, index_char_app by done. by rewrite take_app_length.
Qed.

(** Printing the product and parsing the part in front of the point is a
    truncated division by the unit of the currency. *)
Lemma CryptoToFiat_eq (crypto : Money) (fiat : FiatCurrency) (rate : float64)
  (Hd : 0 <= m_decimals crypto) :
  CryptoToFiat crypto fiat rate =
    if bool_decide (m_type crypto = Crypto) then
      multiplied ← wrap (MultiplyFloat64 crypto (f64_mul rate (f64_of_Z 100))) "unable to multiply crypto";
      Ok (mkMoney Fiat fiat (Some (Z.quot (val multiplied) (10 ^ m_decimals crypto))) 2)
    else Err ErrIncompatibleMoney.
Proof.
  unfold CryptoToFiat. destruct (decide (m_type crypto = Crypto)) as [Ht|Ht].
  2: by rewrite bool_decide_true, bool_decide_false by done.
  rewrite bool_decide_false, bool_decide_true by (done || tauto). change (Pow64 10 FiatDecimals) with 100.
  destruct (MultiplyFloat64 crypto _) as [m|e|p] eqn:Em; [|done..]. simpl.
  assert (m_type m = Crypto /\ m_decimals m = m_decimals crypto) as [Htm Hdm].
  { revert Em. unfold MultiplyFloat64. destruct (f64_le _ _); [done|]. destruct (big_mul_float _ _) as [[z|]| |]; simpl; [|done..].
    by intros [= <-]. }
  destruct (String_bytes_total m) as [b Hb]; [lia|]. rewrite Hb. simpl.
  destruct (whole_part m b) as (ip & v & Hip & Hne & Hv & -> & ->); [by rewrite Htm|done|].
  apply New_digits.
  - apply no_char_app; [by apply sign_no_char|]. by apply digits_no_char.
  - rewrite (bigint_of_signed _ _ (Z.abs (val m) / 10 ^ m_decimals m)); [|done|done|].
    + f_equal. rewrite Hdm. unfold Money_IsNegative.
      pose proof (Z.pow_pos_nonneg 10 (m_decimals crypto) ltac:(lia) Hd).
      destruct (Z.ltb_spec (val m) 0).
      * rewrite Z.abs_neq, <- (Z.quot_div_nonneg (- val m)), Z.quot_opp_l by lia. lia.
      * rewrite Z.abs_eq, Z.quot_div_nonneg by lia. lia.
    + unfold unsigned_of_bytes. by destruct ip.
Qed.
