(* ===== verification/Repository.v ===== *)
(** * Repository: the data model and the store

    [internal/db/repository]: the row types of [models.go], the nullable and
    numeric conversions of [helpers.go], and the store of [store.go]: the
    tables, the world a Go function runs in, and [RunTransaction]. The SQL
    statements themselves are in [Queries]. *)

From S2P Require Import Prelude GoLib Float64 Money.

(** ** Nullable columns ([sql.NullString], [sql.NullInt64], [sql.NullTime],
    [uuid.NullUUID]) *)
Record Null (A : Type) := mkNull { null_val : A; Valid : bool }.
Arguments mkNull {A} _ _.
Arguments null_val {A} _.
Arguments Valid {A} _.

#[export] Instance Null_eq_dec `{EqDecision A} : EqDecision (Null A).
Proof. solve_decision. Defined.

Abbreviation NullString := (Null string).
Abbreviation NullInt64 := (Null Z).
Abbreviation NullTime := (Null Z).
Abbreviation NullUUID := (Null string).

Definition null_string : NullString := mkNull "" false.
Definition null_int64 : NullInt64 := mkNull 0 false.
Definition null_time : NullTime := mkNull 0 false.

(** The SQL comparison [column = $n]: never true of a NULL. *)
Definition sql_eq `{EqDecision A} (a b : Null A) : bool :=
  Valid a && Valid b && bool_decide (null_val a = null_val b).

Definition PointerStringToNullable (s : option string) : NullString :=
  mkNull (default "" s) (bool_decide (is_Some s)).
Definition StringToNullable (s : string) : NullString := mkNull s (negb (bool_decide (s = ""))).
Definition NullableStringToPointer (s : NullString) : option string :=
  if Valid s then Some (null_val s) else None.
Definition NullTimeToPointer (t : NullTime) : option Z :=
  if negb (Valid t) then None else Some (null_val t).
Definition TimeToNullable (t : Z) : NullTime := mkNull t true.
Definition Int64ToNullable (i : Z) : NullInt64 := mkNull i true.
Definition PointerInt64ToNullable (i : option Z) : NullInt64 :=
  mkNull (default 0 i) (bool_decide (is_Some i)).
Definition NullableInt64ToPointer (i : NullInt64) : option Z :=
  if Valid i then Some (null_val i) else None.

(** ** [pgtype.Numeric] *)
Inductive PgStatus := Undefined | PgNull | Present.

#[export] Instance PgStatus_eq_dec : EqDecision PgStatus.
Proof. solve_decision. Defined.

(** [Int] is nil in the zero value. *)
Record Numeric := mkNumeric { n_Int : option Z; n_Exp : Z; n_Status : PgStatus }.

#[export] Instance Numeric_eq_dec : EqDecision Numeric.
Proof. solve_decision. Defined.

Definition numeric_zero : Numeric := mkNumeric None 0 Undefined.
Definition numeric_null : Numeric := mkNumeric None 0 PgNull.

Definition BigIntToNumeric (bigInt : Z) : Numeric := mkNumeric (Some bigInt) 0 Present.

Definition numeric_is_nil : error := ENew "numeric is nil".

Definition NumericToBigInt (num : Numeric) : res Z :=
  if negb (bool_decide (n_Status num = Present)) then Err numeric_is_nil else
  match n_Int num with
  | None => Panic "nil pointer dereference"
  | Some bigInt => Ok (if 0 <? n_Exp num then bigInt * 10 ^ n_Exp num else bigInt)
  end.

Definition NumericToMoney (num : Numeric) (moneyType : string) (ticker : string) (decimals : Z) : res Money :=
  bigInt ← NumericToBigInt num;
  NewFromBigInt moneyType ticker (Some bigInt) decimals.

Definition NumericToCrypto (num : Numeric) (currency : CryptoCurrency) : res Money :=
  bigInt ← NumericToBigInt num;
  MakeAmountFromBigInt currency (Some bigInt).

(** The decimals [m.BigInt()] also returns are dropped. *)
Definition MoneyToNumeric (m : Money) : Numeric := BigIntToNumeric (val m).
Definition MoneyToNegNumeric (m : Money) : Numeric := BigIntToNumeric (- val m).

(** ** JSONB columns holding a [map[string]string]; the text form between
    [json.Marshal] and [json.Unmarshal] is not kept. *)
Abbreviation metadata := (gmap string string).
Record JSONB := mkJSONB { jb_Bytes : metadata; jb_Status : PgStatus }.
Definition jsonb_null : JSONB := mkJSONB ∅ PgNull.

(** ** Row types ([models.go]) *)
Module Row.
Record Balance := mkBalance {
  b_ID : Z; b_CreatedAt : Z; b_UpdatedAt : Z; b_EntityID : Z; b_EntityType : string;
  b_Network : string; b_NetworkID : string; b_CurrencyType : string; b_Currency : string;
  b_Decimals : Z; b_Amount : Numeric; b_Uuid : NullUUID
}.

Record BalanceAuditLog := mkBalanceAuditLog {
  al_ID : Z; al_CreatedAt : Z; al_BalanceID : Z; al_Comment : string; al_Metadata : JSONB
}.

Record Wallet := mkWallet {
  w_ID : Z; w_CreatedAt : Z; w_Uuid : string; w_Address : string; w_Blockchain : string;
  w_TatumMainnetSubscriptionID : NullString; w_TatumTestnetSubscriptionID : NullString;
  w_Type : NullString;
  w_ConfirmedMainnetTransactions : Z; w_PendingMainnetTransactions : Z;
  w_PendingTestnetTransactions : Z; w_ConfirmedTestnetTransactions : Z
}.

Record WalletLock := mkWalletLock {
  wl_ID : Z; wl_WalletID : Z; wl_MerchantID : Z; wl_Currency : string; wl_NetworkID : string;
  wl_LockedAt : Z; wl_LockedUntil : NullTime
}.

Record Transaction := mkTransaction {
  t_ID : Z; t_CreatedAt : Z; t_UpdatedAt : Z; t_MerchantID : Z; t_Status : string; t_Type : string;
  t_EntityID : NullInt64; t_RecipientWalletID : NullInt64; t_SenderAddress : NullString;
  t_RecipientAddress : string; t_TransactionHash : NullString; t_Blockchain : string;
  t_CurrencyType : string; t_Currency : string; t_Decimals : Z;
  t_Amount : Numeric; t_FactAmount : Numeric; t_NetworkFee : Numeric; t_ServiceFee : Numeric;
  t_UsdAmount : Numeric; t_Metadata : JSONB; t_NetworkID : NullString; t_IsTest : bool;
  t_NetworkDecimals : Z; t_SenderWalletID : NullInt64
}.

(** [bitcoin_utxo_reservations.go] *)
Record BitcoinUTXOReservation := mkReservation {
  r_ID : Z; r_WalletID : Z; r_IsTest : bool; r_TxHash : string; r_OutputIndex : Z; r_AmountSats : Z;
  r_RawTxID : NullString; r_TransactionHash : NullString; r_Status : string;
  r_CreatedAt : Z; r_UpdatedAt : Z; r_ExpiresAt : Z; r_ReleasedAt : NullTime
}.

Record Payment := mkPayment {
  p_ID : Z; p_PublicID : string; p_CreatedAt : Z; p_UpdatedAt : Z; p_Type : string; p_Status : string;
  p_MerchantID : Z; p_MerchantOrderUuid : string; p_MerchantOrderID : NullString; p_ExpiresAt : NullTime;
  p_Price : Numeric; p_Decimals : Z; p_Currency : string; p_Description : NullString; p_RedirectUrl : string;
  p_CustomerID : NullInt64; p_IsTest : bool; p_WebhookSentAt : NullTime; p_Metadata : JSONB
}.

Record PaymentLink := mkPaymentLink {
  l_ID : Z; l_Uuid : string; l_Slug : string; l_CreatedAt : Z; l_UpdatedAt : Z; l_MerchantID : Z;
  l_Type : string; l_Name : string; l_Description : string; l_Price : Numeric; l_Decimals : Z;
  l_Currency : string; l_SuccessAction : string; l_RedirectUrl : NullString; l_SuccessMessage : NullString;
  l_IsTest : bool
}.

Record Customer := mkCustomer {
  c_ID : Z; c_Uuid : string; c_CreatedAt : Z; c_UpdatedAt : Z; c_Email : NullString; c_MerchantID : Z
}.

Record Merchant := mkMerchant {
  mt_ID : Z; mt_Uuid : string; mt_CreatedAt : Z; mt_UpdatedAt : Z; mt_DeletedAt : NullTime; mt_Name : string;
  mt_Website : string; mt_CreatorID : Z; mt_Settings : JSONB
}.

Record MerchantAddress := mkMerchantAddress {
  ma_ID : Z; ma_Uuid : string; ma_CreatedAt : Z; ma_UpdatedAt : Z; ma_MerchantID : Z; ma_Name : string;
  ma_Blockchain : string; ma_Address : string
}.
End Row.

(** ** Tables

    Rows in insertion order under ids drawn from the table's sequence. *)
Class HasID (A : Type) := row_id : A -> Z.

#[export] Instance Balance_id : HasID Row.Balance := Row.b_ID.
#[export] Instance BalanceAuditLog_id : HasID Row.BalanceAuditLog := Row.al_ID.
#[export] Instance Wallet_id : HasID Row.Wallet := Row.w_ID.
#[export] Instance WalletLock_id : HasID Row.WalletLock := Row.wl_ID.
#[export] Instance Transaction_id : HasID Row.Transaction := Row.t_ID.
#[export] Instance Reservation_id : HasID Row.BitcoinUTXOReservation := Row.r_ID.
#[export] Instance Payment_id : HasID Row.Payment := Row.p_ID.
#[export] Instance PaymentLink_id : HasID Row.PaymentLink := Row.l_ID.
#[export] Instance Customer_id : HasID Row.Customer := Row.c_ID.
#[export] Instance Merchant_id : HasID Row.Merchant := Row.mt_ID.
#[export] Instance MerchantAddress_id : HasID Row.MerchantAddress := Row.ma_ID.

Record Table (A : Type) := mkTable { rows : list A; next_id : Z }.
Arguments mkTable {A} _ _.
Arguments rows {A} _.
Arguments next_id {A} _.

Definition empty_table {A} : Table A := mkTable [] 1.

Section Table.
Context {A : Type} `{HasID A}.
Implicit Types (t : Table A) (p : A -> bool).

Definition select p t : list A := List.filter p (rows t).
Definition insert_row (mk : Z -> A) t : Table A :=
  mkTable (rows t ++ [mk (next_id t)]) (next_id t + 1).
(** A failed insert still consumes a number of the sequence. *)
Definition skip_id t : Table A := mkTable (rows t) (next_id t + 1).
Definition update_rows p (f : A -> A) t : Table A :=
  mkTable (map (fun r => if p r then f r else r) (rows t)) (next_id t).
Definition delete_rows p t : Table A :=
  mkTable (List.filter (fun r => negb (p r)) (rows t)) (next_id t).

Definition by_id (i : Z) : A -> bool := fun r => row_id r =? i.
Definition row_at (i : Z) t : option A := head (select (by_id i) t).

(** Rows are in the order of their ids. *)
Definition table_wf t : Prop :=
  StronglySorted Z.lt (row_id <$> rows t) /\ Forall (fun r => 0 < row_id r < next_id t) (rows t) /\ 0 < next_id t.
End Table.

(** ** The database and the world *)
Record DB := mkDB {
  balances : Table Row.Balance;
  balance_audit_log : Table Row.BalanceAuditLog;
  wallets : Table Row.Wallet;
  wallet_locks : Table Row.WalletLock;
  transactions : Table Row.Transaction;
  reservations : Table Row.BitcoinUTXOReservation;
  payments : Table Row.Payment;
  payment_links : Table Row.PaymentLink;
  customers : Table Row.Customer;
  merchants : Table Row.Merchant;
  merchant_addresses : Table Row.MerchantAddress
}.

Definition empty_db : DB :=
  mkDB empty_table empty_table empty_table empty_table empty_table empty_table
    empty_table empty_table empty_table empty_table empty_table.

Definition set_balances v (d : DB) : DB :=
  mkDB v (balance_audit_log d) (wallets d) (wallet_locks d) (transactions d) (reservations d) (payments d)
    (payment_links d) (customers d) (merchants d) (merchant_addresses d).
Definition set_balance_audit_log v (d : DB) : DB :=
  mkDB (balances d) v (wallets d) (wallet_locks d) (transactions d) (reservations d) (payments d)
    (payment_links d) (customers d) (merchants d) (merchant_addresses d).
Definition set_wallets v (d : DB) : DB :=
  mkDB (balances d) (balance_audit_log d) v (wallet_locks d) (transactions d) (reservations d) (payments d)
    (payment_links d) (customers d) (merchants d) (merchant_addresses d).
Definition set_wallet_locks v (d : DB) : DB :=
  mkDB (balances d) (balance_audit_log d) (wallets d) v (transactions d) (reservations d) (payments d)
    (payment_links d) (customers d) (merchants d) (merchant_addresses d).
Definition set_transactions v (d : DB) : DB :=
  mkDB (balances d) (balance_audit_log d) (wallets d) (wallet_locks d) v (reservations d) (payments d)
    (payment_links d) (customers d) (merchants d) (merchant_addresses d).
Definition set_reservations v (d : DB) : DB :=
  mkDB (balances d) (balance_audit_log d) (wallets d) (wallet_locks d) (transactions d) v (payments d)
    (payment_links d) (customers d) (merchants d) (merchant_addresses d).
Definition set_payments v (d : DB) : DB :=
  mkDB (balances d) (balance_audit_log d) (wallets d) (wallet_locks d) (transactions d) (reservations d) v
    (payment_links d) (customers d) (merchants d) (merchant_addresses d).
Definition set_payment_links v (d : DB) : DB :=
  mkDB (balances d) (balance_audit_log d) (wallets d) (wallet_locks d) (transactions d) (reservations d)
    (payments d) v (customers d) (merchants d) (merchant_addresses d).
Definition set_customers v (d : DB) : DB :=
  mkDB (balances d) (balance_audit_log d) (wallets d) (wallet_locks d) (transactions d) (reservations d)
    (payments d) (payment_links d) v (merchants d) (merchant_addresses d).
Definition set_merchants v (d : DB) : DB :=
  mkDB (balances d) (balance_audit_log d) (wallets d) (wallet_locks d) (transactions d) (reservations d)
    (payments d) (payment_links d) (customers d) v (merchant_addresses d).
Definition set_merchant_addresses v (d : DB) : DB :=
  mkDB (balances d) (balance_audit_log d) (wallets d) (wallet_locks d) (transactions d) (reservations d)
    (payments d) (payment_links d) (customers d) (merchants d) v.

(** An exchange rate as Tatum's client returns it. *)
Record TatumRate := mkTatumRate {
  tr_Id : string; tr_BasePair : string; tr_Value : string; tr_Timestamp : float64; tr_Source : string
}.

(** What a Go function can see and change: the database, the clock
    ([time.Now] at the n-th reading), the source of [uuid.New], the number of
    calls made so far to services outside the process, and the exchange rates
    cached in memory. *)
Record world := mkWorld {
  db : DB;
  clock : nat -> Z;
  ticks : nat;
  uuids : nat -> string;
  drawn : nat;
  calls : nat;
  rates : gmap string TatumRate
}.

Definition set_db (d : DB) (w : world) : world :=
  mkWorld d (clock w) (ticks w) (uuids w) (drawn w) (calls w) (rates w).

Abbreviation Go := (M world).

Definition time_Now : Go Z := fun w =>
  (Ok (clock w (ticks w)), mkWorld (db w) (clock w) (S (ticks w)) (uuids w) (drawn w) (calls w) (rates w)).
Definition uuid_New : Go string := fun w =>
  (Ok (uuids w (drawn w)), mkWorld (db w) (clock w) (ticks w) (uuids w) (S (drawn w)) (calls w) (rates w)).

(** One statement of the SQL client. *)
Definition query {A} (f : DB -> res A * DB) : Go A := fun w =>
  let '(r, d) := f (db w) in (r, set_db d w).

(** ** [RunTransaction]

    Begin, run the callback, commit on success; an error or a panic rolls the
    rows back, while the id sequences keep what was drawn. *)
Definition rollback_table {A} (old new : Table A) : Table A := mkTable (rows old) (next_id new).

Definition rollback (old new : DB) : DB :=
  mkDB (rollback_table (balances old) (balances new))
    (rollback_table (balance_audit_log old) (balance_audit_log new))
    (rollback_table (wallets old) (wallets new))
    (rollback_table (wallet_locks old) (wallet_locks new))
    (rollback_table (transactions old) (transactions new))
    (rollback_table (reservations old) (reservations new))
    (rollback_table (payments old) (payments new))
    (rollback_table (payment_links old) (payment_links new))
    (rollback_table (customers old) (customers new))
    (rollback_table (merchants old) (merchants new))
    (rollback_table (merchant_addresses old) (merchant_addresses new)).

Definition RunTransaction {A} (callback : Go A) : Go A := fun w =>
  match callback w with
  | (Ok a, w') => (Ok a, w')
  | (r, w') => (r, set_db (rollback (db w) (db w')) w')
  end.

(** ** SQLSTATE codes of the constraints the schema declares *)
Definition not_null_violation : error := EPg "23502".
Definition foreign_key_violation : error := EPg "23503".
Definition unique_violation : error := EPg "23505".
Definition check_violation : error := EPg "23514".

(** What a [decimal(64, 0)] column keeps of a parameter: whole numbers,
    rounded half away from zero; an undefined status cannot be encoded. *)
Definition numeric_value (n : Numeric) : Z :=
  let i := default 0 (n_Int n) in
  if 0 <=? n_Exp n then i * 10 ^ n_Exp n
  else let p := 10 ^ (- n_Exp n) in Z.sgn i * ((2 * Z.abs i + p) / (2 * p)).

Definition undefined_status : error := ENew "cannot encode status undefined".

Definition pg_numeric (n : Numeric) : res Numeric :=
  match n_Status n with
  | Undefined => Err undefined_status
  | PgNull => Ok numeric_null
  | Present => Ok (BigIntToNumeric (numeric_value n))
  end.

Definition pg_numeric_not_null (n : Numeric) : res Numeric :=
  m ← pg_numeric n;
  if bool_decide (n_Status m = PgNull) then Err not_null_violation else Ok m.

(** The single row of a [:one] query. *)
Definition one {A} (l : list A) : res A :=
  match l with x :: _ => Ok x | [] => Err ErrNoRows end.

(** ** Lemmas: tables *)
Create HintDb store.

Lemma sorted_NoDup (l : list Z) : StronglySorted Z.lt l -> NoDup l.
Proof.
  induction 1 as [|x l Hs IH Hx]; [by apply NoDup_nil_2|]. apply NoDup_cons. split; [|done].
  intros Hin. rewrite Forall_forall in Hx. specialize (Hx x Hin). lia.
Qed.

Lemma sorted_snoc (l : list Z) n : StronglySorted Z.lt l -> Forall (fun i => i < n) l ->
  StronglySorted Z.lt (l ++ [n]).
Proof.
  induction 1 as [|x l Hs IH Hx]; simpl; intros Hn; [by repeat constructor|].
  apply Forall_cons in Hn as [? Hn]. constructor; [auto|]. by apply Forall_app_2; [|apply Forall_singleton].
Qed.

Lemma sorted_filter {A} (f : A -> Z) (p : A -> bool) (l : list A) :
  StronglySorted Z.lt (f <$> l) -> StronglySorted Z.lt (f <$> List.filter p l).
Proof.
  induction l as [|x l IH]; simpl; [done|]. intros [Hs Hx]%StronglySorted_inv.
  destruct (p x); [|auto]. simpl. constructor; [auto|]. apply Forall_forall. intros y (z & -> & Hz)%list_elem_of_fmap.
  rewrite list_elem_of_In, filter_In, <- list_elem_of_In in Hz. rewrite Forall_forall in Hx.
  apply Hx, list_elem_of_fmap. naive_solver.
Qed.

Section TableLemmas.
Context {A : Type} `{HasID A}.
Implicit Types (t : Table A) (p : A -> bool).

Lemma elem_of_filter_bool p (l : list A) r : r ∈ List.filter p l <-> r ∈ l /\ p r = true.
Proof. rewrite !list_elem_of_In. apply filter_In. Qed.

Lemma elem_of_select p t r : r ∈ select p t <-> r ∈ rows t /\ p r = true.
Proof. apply elem_of_filter_bool. Qed.

Lemma one_select_inv p t r : one (select p t) = Ok r -> r ∈ rows t /\ p r = true.
Proof.
  destruct (select p t) as [|x l] eqn:E; simpl; intros; simplify_eq.
  apply elem_of_select. rewrite E. left.
Qed.

Lemma one_select_none p t e : one (select p t) = Err e ->
  e = ErrNoRows /\ Forall (fun r => p r = false) (rows t).
Proof.
  destruct (select p t) as [|x l] eqn:E; simpl; intros; simplify_eq. split; [done|].
  apply Forall_forall. intros r Hr. destruct (p r) eqn:Hp; [|done].
  assert (r ∈ select p t) as Hs by by apply elem_of_select. rewrite E in Hs. by apply not_elem_of_nil in Hs.
Qed.

Lemma row_at_Some t i r : table_wf t -> row_at i t = Some r <-> r ∈ rows t /\ row_id r = i.
Proof.
  intros (Hnd%sorted_NoDup & _ & _). unfold row_at, select. induction (rows t) as [|x l IH]; simpl.
  - split; [done|]. by intros [?%not_elem_of_nil _].
  - apply NoDup_cons in Hnd as [Hx Hnd]. specialize (IH Hnd). unfold by_id in *.
    rewrite elem_of_cons. destruct (Z.eqb_spec (row_id x) i) as [<-|Hne]; simpl.
    + split; [intros [= ->]; auto|]. intros [[->|Hr] Hid]; [done|].
      destruct Hx. apply list_elem_of_fmap. by exists r.
    + rewrite IH. naive_solver.
Qed.

Lemma row_at_id t i r : row_at i t = Some r -> row_id r = i /\ r ∈ rows t.
Proof.
  unfold row_at. intros Hr. destruct (select _ t) as [|x l] eqn:E; simplify_eq/=.
  assert (r ∈ select (by_id i) t) as [? Hi]%elem_of_select by (rewrite E; left).
  unfold by_id in Hi. split; [lia|done].
Qed.

Lemma row_at_insert t mk i : table_wf t -> (forall n, row_id (mk n) = n) ->
  row_at i (insert_row mk t) = if decide (i = next_id t) then Some (mk i) else row_at i t.
Proof.
  intros (_ & Hf & _) Hmk. unfold row_at, select, insert_row, by_id. simpl.
  rewrite List.filter_app. simpl. rewrite Hmk. case_decide as Hi.
  - subst. rewrite Z.eqb_refl.
    replace (List.filter _ (rows t)) with (@nil A); [done|].
    symmetry. induction Hf as [|x l Hx Hl IH]; [done|]. simpl.
    destruct (Z.eqb_spec (row_id x) (next_id t)); [lia|done].
  - destruct (Z.eqb_spec (next_id t) i); [lia|]. by rewrite app_nil_r.
Qed.

Lemma row_at_update t p f i : (forall r, row_id (f r) = row_id r) ->
  row_at i (update_rows p f t) = (fun r => if p r then f r else r) <$> row_at i t.
Proof.
  intros Hf. unfold row_at, select, update_rows, by_id. simpl.
  induction (rows t) as [|x l IH]; [done|]. simpl.
  replace (row_id (if p x then f x else x)) with (row_id x) by (destruct (p x); by rewrite ?Hf).
  by destruct (row_id x =? i).
Qed.

Lemma row_at_delete t p i : table_wf t ->
  row_at i (delete_rows p t) = r ← row_at i t; if p r then None else Some r.
Proof.
  intros (Hnd%sorted_NoDup & _ & _). unfold row_at, select, delete_rows, by_id. simpl.
  induction (rows t) as [|x l IH]; [done|]. apply NoDup_cons in Hnd as [Hx Hnd]. specialize (IH Hnd).
  simpl. destruct (p x) eqn:Hp; simpl; destruct (Z.eqb_spec (row_id x) i) as [<-|Hne]; simpl; try done.
  - rewrite Hp. rewrite IH. destruct (List.filter (fun r => row_id r =? row_id x) l) as [|y l'] eqn:E; [done|].
    exfalso. apply Hx. assert (y ∈ List.filter (fun r => row_id r =? row_id x) l) as [Hy Hid]%elem_of_filter_bool
      by (rewrite E; left). apply list_elem_of_fmap. exists y. split; [lia|done].
  - by rewrite Hp.
Qed.

Lemma wf_empty : table_wf (@empty_table A).
Proof. split; [constructor|]. by split; [apply Forall_nil_2|]. Qed.

Lemma wf_insert t mk : (forall n, row_id (mk n) = n) -> table_wf t -> table_wf (insert_row mk t).
Proof.
  intros Hmk (Hnd & Hf & Hn). unfold insert_row. repeat split; simpl; [| |lia].
  - rewrite fmap_app. simpl. rewrite Hmk. apply sorted_snoc; [done|].
    apply Forall_fmap. eapply Forall_impl; [exact Hf|simpl; lia].
  - apply Forall_app_2; [eapply Forall_impl; [exact Hf|simpl; lia]|].
    apply Forall_singleton. rewrite Hmk. lia.
Qed.

Lemma wf_next t n : next_id t <= n -> table_wf t -> table_wf (mkTable (rows t) n).
Proof.
  intros Hle (Hnd & Hf & Hn). repeat split; simpl; [done| |lia].
  eapply Forall_impl; [exact Hf|simpl; lia].
Qed.

Lemma wf_update t p f : (forall r, row_id (f r) = row_id r) -> table_wf t -> table_wf (update_rows p f t).
Proof.
  intros Hid (Hnd & Hf & Hn). unfold update_rows.
  assert (row_id <$> map (fun r => if p r then f r else r) (rows t) = row_id <$> rows t) as He.
  { clear -Hid. induction (rows t) as [|x l IH]; [done|]. simpl. f_equal; [|done]. by destruct (p x). }
  repeat split; simpl; [by rewrite He| |done].
  apply Forall_forall. intros r Hr. rewrite Forall_forall in Hf.
  assert (row_id r ∈ row_id <$> rows t) as (r' & -> & Hr')%list_elem_of_fmap
    by (rewrite <- He; apply list_elem_of_fmap; eauto). by apply Hf.
Qed.

Lemma wf_delete t p : table_wf t -> table_wf (delete_rows p t).
Proof.
  intros (Hnd & Hf & Hn). unfold delete_rows. repeat split; simpl; [| |done].
  - by apply sorted_filter.
  - apply Forall_forall. intros r [Hr _]%elem_of_filter_bool. rewrite Forall_forall in Hf. by apply Hf.
Qed.

Lemma elem_of_update t p f r : r ∈ rows (update_rows p f t) <->
  exists r', r' ∈ rows t /\ r = if p r' then f r' else r'.
Proof. simpl. rewrite list_elem_of_In, in_map_iff. setoid_rewrite list_elem_of_In. naive_solver. Qed.

Lemma elem_of_insert t mk r : r ∈ rows (insert_row mk t) <-> r ∈ rows t \/ r = mk (next_id t).
Proof. simpl. rewrite elem_of_app, list_elem_of_singleton. done. Qed.

Lemma elem_of_delete t p r : r ∈ rows (delete_rows p t) <-> r ∈ rows t /\ p r = false.
Proof. simpl. rewrite elem_of_filter_bool, negb_true_iff. done. Qed.

(** A (partial) unique index on the key [k]. *)
Definition uniq_on {K} (k : A -> option K) t : Prop :=
  forall r r', r ∈ rows t -> r' ∈ rows t -> k r = k r' -> is_Some (k r) -> row_id r = row_id r'.

Lemma uniq_empty {K} (k : A -> option K) : uniq_on k empty_table.
Proof. intros r r' ?%not_elem_of_nil. done. Qed.

Lemma uniq_insert {K} (k : A -> option K) t mk :
  (forall r, r ∈ rows t -> is_Some (k r) -> k r <> k (mk (next_id t))) ->
  uniq_on k t -> uniq_on k (insert_row mk t).
Proof.
  intros Hnew Hu r r' Hr Hr' Hk Hs. rewrite elem_of_insert in Hr, Hr'.
  destruct Hr as [Hr| ->], Hr' as [Hr'| ->]; [by apply Hu | | |done].
  - by apply Hnew in Hk.
  - symmetry in Hk. apply Hnew in Hk; [done|done|by rewrite Hk].
Qed.

Lemma uniq_update {K} (k : A -> option K) t p f :
  (forall r, row_id (f r) = row_id r) ->
  (forall r, p r = true -> k (f r) = k r \/ k (f r) = None) ->
  uniq_on k t -> uniq_on k (update_rows p f t).
Proof.
  intros Hid Hf Hu r r' Hr Hr' Hk Hs. rewrite elem_of_update in Hr, Hr'.
  destruct Hr as (x & Hx & ->), Hr' as (y & Hy & ->).
  assert (forall z, is_Some (k (if p z then f z else z)) -> k (if p z then f z else z) = k z) as Hz.
  { intros z Hz. destruct (p z) eqn:Hp; [|done]. destruct (Hf z Hp) as [?|Hn]; [done|].
    rewrite Hn in Hz. by apply is_Some_None in Hz. }
  rewrite (Hz y) in Hk by (by rewrite <- Hk). rewrite Hz in Hk by done. rewrite Hz in Hs by done.
  assert (forall z, row_id (if p z then f z else z) = row_id z) as Hi by (intros z; by destruct (p z)).
  rewrite !Hi. by apply Hu.
Qed.

Lemma uniq_delete {K} (k : A -> option K) t p : uniq_on k t -> uniq_on k (delete_rows p t).
Proof. intros Hu r r' [Hr _]%elem_of_delete [Hr' _]%elem_of_delete. by apply Hu. Qed.

(** A check constraint on every row. *)
Definition all_rows (P : A -> Prop) t : Prop := forall r, r ∈ rows t -> P r.

Lemma all_empty (P : A -> Prop) : all_rows P empty_table.
Proof. by intros r ?%not_elem_of_nil. Qed.
Lemma all_insert (P : A -> Prop) t mk : P (mk (next_id t)) -> all_rows P t -> all_rows P (insert_row mk t).
Proof. intros Hp Ha r [Hr| ->]%elem_of_insert; auto. Qed.
Lemma all_update (P : A -> Prop) t p f :
  (forall r, r ∈ rows t -> p r = true -> P r -> P (f r)) -> all_rows P t -> all_rows P (update_rows p f t).
Proof.
  intros Hf Ha r (x & Hx & ->)%elem_of_update. destruct (p x) eqn:Hp; auto.
Qed.
Lemma all_delete (P : A -> Prop) t p : all_rows P t -> all_rows P (delete_rows p t).
Proof. intros Ha r [Hr _]%elem_of_delete. auto. Qed.
End TableLemmas.

#[export] Hint Resolve wf_empty wf_insert wf_update wf_delete uniq_empty uniq_insert uniq_update
  uniq_delete all_empty all_insert all_update all_delete : store.

(** ** Lemmas: transitions of the database

    [steps R m]: whatever [m] returns, the database it leaves is [R]-related to
    the one it found. With [R d d' := I d -> I d'] this is an invariant. *)
Definition steps (R : DB -> DB -> Prop) {A} (m : Go A) : Prop :=
  forall w, R (db w) (db (m w).2).

Section Steps.
Context (R : DB -> DB -> Prop) `{!PreOrder R}.

Lemma steps_pure {A} (r : res A) : steps R (lift r : Go A).
Proof. intros w. simpl. reflexivity. Qed.
Lemma steps_ret {A} (a : A) : steps R (mret a : Go A).
Proof. intros w. simpl. reflexivity. Qed.
Lemma steps_fail {A} e : steps R (fail e : Go A).
Proof. intros w. simpl. reflexivity. Qed.
Lemma steps_panic {A} s : steps R (panic s : Go A).
Proof. intros w. simpl. reflexivity. Qed.
Lemma steps_gets {A} (f : world -> A) : steps R (gets f).
Proof. intros w. simpl. reflexivity. Qed.
Lemma steps_now : steps R time_Now.
Proof. intros w. simpl. reflexivity. Qed.
Lemma steps_uuid : steps R uuid_New.
Proof. intros w. simpl. reflexivity. Qed.

Lemma steps_query {A} (f : DB -> res A * DB) : (forall d, R d (f d).2) -> steps R (query f).
Proof. intros Hf w. unfold query. specialize (Hf (db w)). by destruct (f (db w)). Qed.

Lemma steps_bind {A B} (m : Go A) (f : A -> Go B) :
  steps R m -> (forall a, steps R (f a)) -> steps R (m ≫= f).
Proof.
  intros Hm Hf w. specialize (Hm w). unfold mbind, M_bind.
  destruct (m w) as [[a|e|p] w'] eqn:E; simpl in *; try done.
  etransitivity; [exact Hm|]. apply Hf.
Qed.

Lemma steps_wrap {A} (m : Go A) s : steps R m -> steps R (wrapM m s).
Proof. intros Hm w. specialize (Hm w). unfold wrapM. by destruct (m w). Qed.

Lemma steps_attempt {A} (m : Go A) : steps R m -> steps R (attempt m).
Proof. intros Hm w. specialize (Hm w). unfold attempt. by destruct (m w) as [[]]. Qed.

Lemma steps_run {A} (m : Go A) :
  (forall d d', R d d' -> R d (rollback d d')) -> steps R m -> steps R (RunTransaction m).
Proof.
  intros Hr Hm w. specialize (Hm w). unfold RunTransaction.
  destruct (m w) as [[a|e|p] w'] eqn:E; simpl in *; auto.
Qed.
End Steps.

(** The rows of every table, sequences aside. *)
Definition same_rows (d d' : DB) : Prop :=
  rows (balances d) = rows (balances d') /\
  rows (balance_audit_log d) = rows (balance_audit_log d') /\
  rows (wallets d) = rows (wallets d') /\
  rows (wallet_locks d) = rows (wallet_locks d') /\
  rows (transactions d) = rows (transactions d') /\
  rows (reservations d) = rows (reservations d') /\
  rows (payments d) = rows (payments d') /\
  rows (payment_links d) = rows (payment_links d') /\
  rows (customers d) = rows (customers d') /\
  rows (merchants d) = rows (merchants d') /\
  rows (merchant_addresses d) = rows (merchant_addresses d').

#[export] Instance same_rows_equiv : Equivalence same_rows.
Proof. split; repeat intro; unfold same_rows in *; naive_solver congruence. Qed.

Lemma rollback_same_rows d d' : same_rows d (rollback d d').
Proof. by unfold same_rows. Qed.

(** A transaction that does not succeed leaves every table as it was. *)
Lemma RunTransaction_abort {A} (m : Go A) w r w' :
  RunTransaction m w = (r, w') -> is_ok r = false -> same_rows (db w) (db w').
Proof.
  unfold RunTransaction. destruct (m w) as [[a|e|p] w1]; intros; simplify_eq/=;
    try done; apply rollback_same_rows.
Qed.

Lemma RunTransaction_ok {A} (m : Go A) w a w' :
  RunTransaction m w = (Ok a, w') <-> m w = (Ok a, w').
Proof. unfold RunTransaction. destruct (m w) as [[x|e|p] w1]; naive_solver. Qed.

Lemma RunTransaction_result {A} (m : Go A) w : (RunTransaction m w).1 = (m w).1.
Proof. unfold RunTransaction. by destruct (m w) as [[x|e|p] w1]. Qed.

(** The sequences of all tables only grow. *)
Definition seq_le (d d' : DB) : Prop :=
  next_id (balances d) <= next_id (balances d') /\
  next_id (balance_audit_log d) <= next_id (balance_audit_log d') /\
  next_id (wallets d) <= next_id (wallets d') /\
  next_id (wallet_locks d) <= next_id (wallet_locks d') /\
  next_id (transactions d) <= next_id (transactions d') /\
  next_id (reservations d) <= next_id (reservations d') /\
  next_id (payments d) <= next_id (payments d') /\
  next_id (payment_links d) <= next_id (payment_links d') /\
  next_id (customers d) <= next_id (customers d') /\
  next_id (merchants d) <= next_id (merchants d') /\
  next_id (merchant_addresses d) <= next_id (merchant_addresses d').

#[export] Instance seq_le_preorder : PreOrder seq_le.
Proof. split; repeat intro; unfold seq_le in *; lia. Qed.

Definition db_wf (d : DB) : Prop :=
 table_wf (balances d) /\ table_wf (balance_audit_log d) /\ table_wf (wallets d) /\
  table_wf (wallet_locks d) /\ table_wf (transactions d) /\ table_wf (reservations d) /\
  table_wf (payments d) /\ table_wf (payment_links d) /\ table_wf (customers d) /\ table_wf (merchants d) /\
  table_wf (merchant_addresses d).

Lemma db_wf_empty : db_wf empty_db.
Proof. unfold db_wf. by split_and!; apply wf_empty. Qed.

Lemma db_wf_rollback d d' : seq_le d d' -> db_wf d -> db_wf (rollback d d').
Proof.
  intros Hs Hw. unfold seq_le, db_wf in *. destruct_and!.
  repeat match goal with |- db_wf _ => unfold db_wf | |- _ /\ _ => split end; by apply wf_next.
Qed.

(** ** Rules for [wp] *)
Lemma wp_now w (Q : res Z -> world -> Prop) :
  (forall at_ w', db w' = db w -> Q (Ok at_) w') -> wp time_Now w Q.
Proof. unfold wp. intros H. by apply H. Qed.

Lemma wp_uuid w (Q : res string -> world -> Prop) :
  (forall u w', db w' = db w -> Q (Ok u) w') -> wp uuid_New w Q.
Proof. unfold wp. intros H. by apply H. Qed.

Lemma wp_query {A} (f : DB -> res A * DB) w (Q : res A -> world -> Prop) :
  (forall w', db w' = (f (db w)).2 -> Q (f (db w)).1 w') -> wp (query f) w Q.
Proof. unfold wp, query. intros H. destruct (f (db w)). by apply H. Qed.

Lemma wp_run {A} (m : Go A) w (Q : res A -> world -> Prop) :
  wp m w (fun r w' => match r with
    | Ok a => Q (Ok a) w'
    | Err e => forall w2, db w2 = rollback (db w) (db w') -> Q (Err e) w2
    | Panic p => forall w2, db w2 = rollback (db w) (db w') -> Q (Panic p) w2
    end) -> wp (RunTransaction m) w Q.
Proof. unfold wp, RunTransaction. destruct (m w) as [[a|e|p] w']; simpl; auto. Qed.

Ltac wp_step :=
  lazymatch goal with
  | |- wp (mbind _ _) _ _ => apply wp_bind
  | |- wp (mret _) _ _ => apply wp_ret
  | |- wp (lift _) _ _ => apply wp_lift
  | |- wp (fail _) _ _ => apply wp_fail
  | |- wp (panic _) _ _ => apply wp_panic
  | |- wp (gets _) _ _ => apply wp_gets
  | |- wp (wrapM _ _) _ _ => apply wp_wrap
  | |- wp (attempt _) _ _ => apply wp_attempt
  end; cbv beta iota.

(** ** Properties *)

(** A decimal column reads back as the money that was written: whatever
    exponent the driver decodes the column with, [NumericToMoney] of a numeric
    equal to the one [MoneyToNumeric] (or [MoneyToNegNumeric]) wrote gives
    that amount (or its negation) in the currency and decimals of the row. *)
Theorem numeric_roundtrip (m : Money) (n k : Numeric) (i j : Z)
  (Hn : n_Status n = Present) (Hni : n_Int n = Some i) (Hne : 0 <= n_Exp n)
  (Hk : n_Status k = Present) (Hki : n_Int k = Some j) (Hke : 0 <= n_Exp k)
  (Hread : pg_numeric n = pg_numeric (MoneyToNumeric m))
  (Hneg : pg_numeric k = pg_numeric (MoneyToNegNumeric m)) :
  NumericToMoney n (m_type m) (m_ticker m) (m_decimals m) =
    Ok (mkMoney (m_type m) (m_ticker m) (Some (val m)) (m_decimals m)) /\
  NumericToMoney k (m_type m) (m_ticker m) (m_decimals m) =
    Ok (mkMoney (m_type m) (m_ticker m) (Some (- val m)) (m_decimals m)).
Proof.
  assert (forall (x : Numeric) y z, n_Status x = Present -> n_Int x = Some y -> 0 <= n_Exp x ->
            pg_numeric x = pg_numeric (BigIntToNumeric z) -> NumericToBigInt x = Ok z) as Hx.
  { intros [xi e s] y z; simpl. intros -> -> He. unfold pg_numeric, numeric_value, NumericToBigInt. simpl.
    rewrite (proj2 (Z.leb_le _ _) He). intros [= Hz]. f_equal.
    destruct (Z.ltb_spec 0 e); [lia|]. assert (e = 0) as -> by lia. lia. }
  unfold NumericToMoney. rewrite (Hx n i (val m)), (Hx k j (- val m)) by done. done.
Qed.

Lemma numeric_roundtrip_witness :
  NumericToMoney (mkNumeric (Some 15) 4 Present) Crypto "ETH" 18 =
    Ok (mkMoney Crypto "ETH" (Some 150000) 18).
Proof.
  exact (proj1 (numeric_roundtrip (mkMoney Crypto "ETH" (Some 150000) 18)
    (mkNumeric (Some 15) 4 Present) (mkNumeric (Some (-15)) 4 Present) 15 (-15)
    eq_refl eq_refl ltac:(simpl; lia) eq_refl eq_refl ltac:(simpl; lia) eq_refl eq_refl)).
Defined.

(** A fresh installation: no rows, a constant clock and uuid source. *)
Definition empty_world : world := mkWorld empty_db (fun _ => 0) 0 (fun _ => "") 0 0 ∅.

(** A call to a service outside the process: it may answer differently each
    time it is called. *)
Definition external {A} (f : nat -> res A) : Go A := fun w =>
  (f (calls w), mkWorld (db w) (clock w) (ticks w) (uuids w) (drawn w) (S (calls w)) (rates w)).

Lemma steps_external R `{!PreOrder R} {A} (f : nat -> res A) : steps R (external f).
Proof. intros w. simpl. reflexivity. Qed.

Lemma wp_external {A} (f : nat -> res A) w (Q : res A -> world -> Prop) :
  (forall w', db w' = db w -> Q (f (calls w)) w') -> wp (external f) w Q.
Proof. unfold wp. intros H. by apply H. Qed.
