(* ===== verification/Queries.v ===== *)
(** * Queries: the SQL statements

    The [Queries] methods of [internal/db/repository] over the tables of
    [Repository]: [balances.sql.go], [transactions.sql.go], [wallets.sql.go]
    and [bitcoin_utxo_reservations.go], with the constraints the migrations
    declare (not-null, check, unique and foreign-key). A [limit 1] without an
    order takes the oldest row. Column widths are not modelled. *)

From S2P Require Import Prelude GoLib Money Repository.
Import Row.

(** Encoding of a [pgtype.JSONB] parameter. *)
Definition pg_jsonb (j : JSONB) : res JSONB :=
  match jb_Status j with
  | Undefined => Err undefined_status
  | PgNull => Ok jsonb_null
  | Present => Ok j
  end.

(** [limit $n] *)
Definition limit_rows {A} (n : Z) (l : list A) : res (list A) :=
  if n <? 0 then Err (EPg "2201W") else Ok (take (Z.to_nat n) l).

Definition read {A} (f : DB -> res A) : Go A := query (fun d => (f d, d)).

(** [errors.Is(err, pgx.ErrNoRows)] turned into the service's own error. *)
Definition not_found {A} (notFound : error) (m : Go A) : Go A :=
  r ← attempt m;
  match r with
  | inl a => mret a
  | inr e => if errors_Is e ErrNoRows then fail notFound else fail e
  end.

(** ** balances.sql.go *)
Definition same_key (entityType : string) (entityID : Z) (network networkID currency : string) (b : Balance) : bool :=
  bool_decide (b_EntityType b = entityType) && (b_EntityID b =? entityID) &&
  bool_decide (b_Network b = network) && bool_decide (b_NetworkID b = networkID) &&
  bool_decide (b_Currency b = currency).

Record CreateBalanceParams := mkCreateBalanceParams {
  cb_CreatedAt : Z; cb_UpdatedAt : Z; cb_EntityID : Z; cb_EntityType : string; cb_Uuid : NullUUID;
  cb_Network : string; cb_NetworkID : string; cb_CurrencyType : string; cb_Currency : string;
  cb_Decimals : Z; cb_Amount : Numeric
}.

Definition balance_row (arg : CreateBalanceParams) (amount : Numeric) (id : Z) : Balance :=
  mkBalance id (cb_CreatedAt arg) (cb_UpdatedAt arg) (cb_EntityID arg) (cb_EntityType arg)
    (cb_Network arg) (cb_NetworkID arg) (cb_CurrencyType arg) (cb_Currency arg)
    (cb_Decimals arg) amount (cb_Uuid arg).

Definition CreateBalance (arg : CreateBalanceParams) : Go Balance := query (fun d =>
  match pg_numeric_not_null (cb_Amount arg) with
  | Ok amount =>
    let skipped := set_balances (skip_id (balances d)) d in
    if numeric_value amount <? 0 then (Err check_violation, skipped) else
    if existsb (same_key (cb_EntityType arg) (cb_EntityID arg) (cb_Network arg) (cb_NetworkID arg) (cb_Currency arg))
         (rows (balances d)) then (Err unique_violation, skipped)
    else (Ok (balance_row arg amount (next_id (balances d))),
          set_balances (insert_row (balance_row arg amount) (balances d)) d)
  | Err e => (Err e, d)
  | Panic p => (Panic p, d)
  end).

Definition balance_filter (entityID : Z) (entityType networkID currency : string) (b : Balance) : bool :=
  (b_EntityID b =? entityID) && bool_decide (b_EntityType b = entityType) &&
  bool_decide (b_NetworkID b = networkID) && bool_decide (b_Currency b = currency).

Definition GetBalanceByFilter (entityID : Z) (entityType networkID currency : string) : Go Balance :=
  read (fun d => one (select (balance_filter entityID entityType networkID currency) (balances d))).

(** [FOR NO KEY UPDATE]: a transaction runs alone in the model. *)
Definition GetBalanceByFilterWithLock (entityID : Z) (entityType networkID currency : string) : Go Balance :=
  read (fun d => one (select (balance_filter entityID entityType networkID currency) (balances d))).

Definition GetBalanceByID (entityID : Z) (entityType : string) (id : Z) : Go Balance :=
  read (fun d => one (select (fun b => (b_EntityID b =? entityID) && bool_decide (b_EntityType b = entityType) &&
    (b_ID b =? id)) (balances d))).

Definition GetBalanceByIDWithLock (id : Z) : Go Balance :=
  read (fun d => one (select (by_id id) (balances d))).

Definition GetBalanceByUUID (entityID : Z) (entityType : string) (uuid : NullUUID) : Go Balance :=
  read (fun d => one (select (fun b => (b_EntityID b =? entityID) && bool_decide (b_EntityType b = entityType) &&
    sql_eq (b_Uuid b) uuid) (balances d))).

Definition InsertBalanceAuditLog (createdAt balanceID : Z) (comment : string) (meta : JSONB) : Go unit :=
  query (fun d => match pg_jsonb meta with
  | Ok j => (Ok tt, set_balance_audit_log
      (insert_row (fun id => mkBalanceAuditLog id createdAt balanceID comment j) (balance_audit_log d)) d)
  | Err e => (Err e, d)
  | Panic p => (Panic p, d)
  end).

Definition ListAllBalancesByType (entityType : string) (hideEmpty : bool) : Go (list Balance) :=
  read (fun d => Ok (rev (select (fun b => bool_decide (b_EntityType b = entityType) &&
    (if hideEmpty then 0 <? numeric_value (b_Amount b) else true)) (balances d)))).

Definition ListBalances (entityType : string) (entityID : Z) : Go (list Balance) :=
  read (fun d => Ok (rev (select (fun b => bool_decide (b_EntityType b = entityType) &&
    (b_EntityID b =? entityID)) (balances d)))).

(** [set updated_at = $2, amount = balances.amount + $3] *)
Definition add_amount (updatedAt delta : Z) (b : Balance) : Balance :=
  mkBalance (b_ID b) (b_CreatedAt b) updatedAt (b_EntityID b) (b_EntityType b) (b_Network b) (b_NetworkID b)
    (b_CurrencyType b) (b_Currency b) (b_Decimals b)
    (BigIntToNumeric (numeric_value (b_Amount b) + delta)) (b_Uuid b).

Definition UpdateBalanceByID (id updatedAt : Z) (amount : Numeric) : Go Balance := query (fun d =>
  match pg_numeric amount with
  | Ok delta =>
    match select (by_id id) (balances d) with
    | [] => (Err ErrNoRows, d)
    | b :: _ =>
      if bool_decide (n_Status delta = PgNull) then (Err not_null_violation, d) else
      let b' := add_amount updatedAt (numeric_value delta) b in
      if numeric_value (b_Amount b') <? 0 then (Err check_violation, d)
      else (Ok b', set_balances (update_rows (by_id id) (add_amount updatedAt (numeric_value delta)) (balances d)) d)
    end
  | Err e => (Err e, d)
  | Panic p => (Panic p, d)
  end).

(** ** wallets.sql.go *)
Definition CheckSystemWalletExistsByAddress (address : string) : Go Wallet :=
  read (fun d => one (select (fun w => bool_decide (w_Address w = address)) (wallets d))).

Definition new_wallet (createdAt : Z) (uuid address blockchain : string) (type_ : NullString) (id : Z) : Wallet :=
  mkWallet id createdAt uuid address blockchain null_string null_string type_ 0 0 0 0.

(** Unique [uuid], and unique [(type, blockchain)] among outbound wallets. *)
Definition CreateWallet (createdAt : Z) (uuid address blockchain : string) (type_ : NullString) : Go Wallet :=
  query (fun d =>
    let clash w := bool_decide (w_Uuid w = uuid) ||
      (sql_eq type_ (mkNull "outbound" true) && sql_eq (w_Type w) type_ &&
       bool_decide (w_Blockchain w = blockchain)) in
    if existsb clash (rows (wallets d)) then (Err unique_violation, set_wallets (skip_id (wallets d)) d)
    else (Ok (new_wallet createdAt uuid address blockchain type_ (next_id (wallets d))),
          set_wallets (insert_row (new_wallet createdAt uuid address blockchain type_) (wallets d)) d)).

Definition CreateWalletLock (merchantID walletID : Z) (currency networkID : string)
  (lockedAt : Z) (lockedUntil : NullTime) : Go WalletLock :=
  query (fun d =>
    let mk id := mkWalletLock id walletID merchantID currency networkID lockedAt lockedUntil in
    let clash l := (wl_WalletID l =? walletID) && bool_decide (wl_Currency l = currency) &&
      bool_decide (wl_NetworkID l = networkID) in
    if existsb clash (rows (wallet_locks d)) then
      (Err unique_violation, set_wallet_locks (skip_id (wallet_locks d)) d)
    else (Ok (mk (next_id (wallet_locks d))), set_wallet_locks (insert_row mk (wallet_locks d)) d)).

Definition like_prefix (pat s : string) : bool := String.prefix pat (ToLower s).

(** The bech32 condition of [GetAvailableWallet]. *)
Definition address_is_segwit (blockchain address : string) : bool :=
  negb (bool_decide (blockchain = "BTC") || bool_decide (blockchain = "LTC")) ||
  (bool_decide (blockchain = "BTC") && (like_prefix "bc1" address || like_prefix "tb1" address)) ||
  (bool_decide (blockchain = "LTC") && (like_prefix "ltc1" address || like_prefix "tltc1" address)).

Definition is_locked (walletID : Z) (currency networkID : string) (d : DB) : bool :=
  existsb (fun l => (wl_WalletID l =? walletID) && bool_decide (wl_Currency l = currency) &&
    bool_decide (wl_NetworkID l = networkID)) (rows (wallet_locks d)).

Definition available (blockchain : string) (type_ : NullString) (currency networkID : string) (d : DB) (w : Wallet) : bool :=
  bool_decide (w_Blockchain w = blockchain) && sql_eq (w_Type w) type_ &&
  address_is_segwit (w_Blockchain w) (w_Address w) && negb (is_locked (w_ID w) currency networkID d).

Definition GetAvailableWallet (blockchain : string) (type_ : NullString) (currency networkID : string) : Go Wallet :=
  read (fun d => one (select (available blockchain type_ currency networkID d) (wallets d))).

Definition GetWalletByID (id : Z) : Go Wallet := read (fun d => one (select (by_id id) (wallets d))).

Definition GetWalletByUUID (uuid : string) : Go Wallet :=
  read (fun d => one (select (fun w => bool_decide (w_Uuid w = uuid)) (wallets d))).

Definition GetWalletForUpdateByID (id : Z) : Go Wallet := read (fun d => one (select (by_id id) (wallets d))).

Definition GetWalletLock (walletID : Z) (currency networkID : string) : Go WalletLock :=
  read (fun d => one (select (fun l => (wl_WalletID l =? walletID) && bool_decide (wl_Currency l = currency) &&
    bool_decide (wl_NetworkID l = networkID)) (wallet_locks d))).

Record PaginateWalletsByIDParams := mkPaginateWalletsByIDParams {
  pw_ID : Z; pw_Limit : Z; pw_Blockchain : string; pw_Type : NullString;
  pw_FilterByType : bool; pw_FilterByBlockchain : bool
}.

Definition PaginateWalletsByID (arg : PaginateWalletsByIDParams) : Go (list Wallet) :=
  read (fun d => limit_rows (pw_Limit arg) (select (fun w => (pw_ID arg <=? w_ID w) &&
    (if pw_FilterByType arg then sql_eq (w_Type w) (pw_Type arg) else true) &&
    (if pw_FilterByBlockchain arg then bool_decide (w_Blockchain w = pw_Blockchain arg) else true)) (wallets d))).

Definition ReleaseWalletLock (id : Z) : Go unit :=
  query (fun d => (Ok tt, set_wallet_locks (delete_rows (by_id id) (wallet_locks d)) d)).

Definition set_mainnet (confirmed pending : Z) (w : Wallet) : Wallet :=
  mkWallet (w_ID w) (w_CreatedAt w) (w_Uuid w) (w_Address w) (w_Blockchain w)
    (w_TatumMainnetSubscriptionID w) (w_TatumTestnetSubscriptionID w) (w_Type w)
    confirmed pending (w_PendingTestnetTransactions w) (w_ConfirmedTestnetTransactions w).

(** The mainnet counters have [check (... >= 0)]; the testnet ones do not. *)
Definition UpdateWalletMainnetTransactionCounters (id confirmed pending : Z) : Go unit :=
  query (fun d =>
    if existsb (by_id id) (rows (wallets d)) && ((confirmed <? 0) || (pending <? 0)) then (Err check_violation, d)
    else (Ok tt, set_wallets (update_rows (by_id id) (set_mainnet confirmed pending) (wallets d)) d)).

Definition set_tatum (mainnet testnet : NullString) (w : Wallet) : Wallet :=
  mkWallet (w_ID w) (w_CreatedAt w) (w_Uuid w) (w_Address w) (w_Blockchain w) mainnet testnet (w_Type w)
    (w_ConfirmedMainnetTransactions w) (w_PendingMainnetTransactions w)
    (w_PendingTestnetTransactions w) (w_ConfirmedTestnetTransactions w).

Definition UpdateWalletTatumFields (mainnet testnet : NullString) (id : Z) : Go Wallet :=
  query (fun d => (set_tatum mainnet testnet <$> one (select (by_id id) (wallets d)),
                   set_wallets (update_rows (by_id id) (set_tatum mainnet testnet) (wallets d)) d)).

Definition set_testnet (confirmed pending : Z) (w : Wallet) : Wallet :=
  mkWallet (w_ID w) (w_CreatedAt w) (w_Uuid w) (w_Address w) (w_Blockchain w)
    (w_TatumMainnetSubscriptionID w) (w_TatumTestnetSubscriptionID w) (w_Type w)
    (w_ConfirmedMainnetTransactions w) (w_PendingMainnetTransactions w) pending confirmed.

Definition UpdateWalletTestnetTransactionCounters (id confirmed pending : Z) : Go unit :=
  query (fun d => (Ok tt, set_wallets (update_rows (by_id id) (set_testnet confirmed pending) (wallets d)) d)).

(** ** transactions.sql.go *)
Record CreateTransactionParams := mkCreateTransactionParams {
  ct_MerchantID : Z; ct_CreatedAt : Z; ct_UpdatedAt : Z; ct_Status : string; ct_Type : string;
  ct_EntityID : NullInt64; ct_SenderWalletID : NullInt64; ct_SenderAddress : NullString;
  ct_RecipientWalletID : NullInt64; ct_RecipientAddress : string; ct_TransactionHash : NullString;
  ct_Blockchain : string; ct_NetworkID : NullString; ct_CurrencyType : string; ct_Currency : string;
  ct_Decimals : Z; ct_NetworkDecimals : Z; ct_Amount : Numeric; ct_FactAmount : Numeric;
  ct_NetworkFee : Numeric; ct_ServiceFee : Numeric; ct_UsdAmount : Numeric; ct_Metadata : JSONB;
  ct_IsTest : bool
}.

Definition transaction_row (arg : CreateTransactionParams) (amount fact networkFee serviceFee usd : Numeric)
  (meta : JSONB) (id : Z) : Transaction :=
  mkTransaction id (ct_CreatedAt arg) (ct_UpdatedAt arg) (ct_MerchantID arg) (ct_Status arg) (ct_Type arg)
    (ct_EntityID arg) (ct_RecipientWalletID arg) (ct_SenderAddress arg) (ct_RecipientAddress arg)
    (ct_TransactionHash arg) (ct_Blockchain arg) (ct_CurrencyType arg) (ct_Currency arg) (ct_Decimals arg)
    amount fact networkFee serviceFee usd meta (ct_NetworkID arg) (ct_IsTest arg)
    (ct_NetworkDecimals arg) (ct_SenderWalletID arg).

(** The encoded parameters of the statement. *)
Definition transaction_values (arg : CreateTransactionParams) : res (Z -> Transaction) :=
  amount ← pg_numeric_not_null (ct_Amount arg);
  fact ← pg_numeric (ct_FactAmount arg);
  networkFee ← pg_numeric (ct_NetworkFee arg);
  serviceFee ← pg_numeric_not_null (ct_ServiceFee arg);
  usd ← pg_numeric_not_null (ct_UsdAmount arg);
  meta ← pg_jsonb (ct_Metadata arg);
  mret (transaction_row arg amount fact networkFee serviceFee usd meta).

Definition CreateTransaction (arg : CreateTransactionParams) : Go Transaction := query (fun d =>
  match transaction_values arg with
  | Ok mk => (Ok (mk (next_id (transactions d))), set_transactions (insert_row mk (transactions d)) d)
  | Err e => (Err e, d)
  | Panic p => (Panic p, d)
  end).

Definition in_strings (x : string) (l : list string) : bool := existsb (fun y => bool_decide (x = y)) l.

(** [select distinct on (entity_id) ... order by entity_id desc, id desc] *)
Fixpoint distinct_on_entity (seen : list Z) (l : list Transaction) : list Transaction :=
  match l with
  | [] => []
  | t :: l =>
    let e := null_val (t_EntityID t) in
    if existsb (Z.eqb e) seen then distinct_on_entity seen l
    else t :: distinct_on_entity (e :: seen) l
  end.

Fixpoint insert_by_entity (t : Transaction) (l : list Transaction) : list Transaction :=
  match l with
  | [] => [t]
  | u :: l' =>
    if null_val (t_EntityID u) <=? null_val (t_EntityID t) then t :: l else u :: insert_by_entity t l'
  end.

Definition EagerLoadTransactionsByPaymentID (merchantID : Z) (entityIds : list Z) (types : list string) :
  Go (list Transaction) :=
  read (fun d => Ok (foldr insert_by_entity [] (distinct_on_entity []
    (rev (select (fun t => (t_MerchantID t =? merchantID) &&
      (Valid (t_EntityID t) && existsb (Z.eqb (null_val (t_EntityID t))) entityIds) &&
      in_strings (t_Type t) types) (transactions d)))))).

Definition GetLatestTransactionByPaymentID (entityID : NullInt64) : Go Transaction :=
  read (fun d => one (rev (select (fun t => sql_eq (t_EntityID t) entityID) (transactions d)))).

Definition GetTransactionByHashAndNetworkID (hash networkID : NullString) : Go Transaction :=
  read (fun d => one (select (fun t => sql_eq (t_TransactionHash t) hash && sql_eq (t_NetworkID t) networkID)
    (transactions d))).

Definition GetTransactionByID (id merchantID : Z) (filterByMerchantID : bool) : Go Transaction :=
  read (fun d => one (select (fun t => (t_ID t =? id) &&
    (if filterByMerchantID then t_MerchantID t =? merchantID else true)) (transactions d))).

Record GetTransactionsByFilterParams := mkGetTransactionsByFilterParams {
  gf_RecipientWalletID : NullInt64; gf_NetworkID : NullString; gf_Currency : string; gf_Limit : Z;
  gf_FilterByRecipientWalletID : bool; gf_FilterByNetworkID : bool; gf_FilterByCurrency : bool;
  gf_FilterByTypes : bool; gf_Types : list string; gf_FilterByStatuses : bool; gf_Statuses : list string;
  gf_FilterEmptyHash : bool
}.

Definition transaction_matches (arg : GetTransactionsByFilterParams) (t : Transaction) : bool :=
  (if gf_FilterByRecipientWalletID arg then sql_eq (t_RecipientWalletID t) (gf_RecipientWalletID arg) else true) &&
  (if gf_FilterByNetworkID arg then sql_eq (t_NetworkID t) (gf_NetworkID arg) else true) &&
  (if gf_FilterByCurrency arg then bool_decide (t_Currency t = gf_Currency arg) else true) &&
  (if gf_FilterByTypes arg then in_strings (t_Type t) (gf_Types arg) else true) &&
  (if gf_FilterByStatuses arg then in_strings (t_Status t) (gf_Statuses arg) else true) &&
  (if gf_FilterEmptyHash arg then negb (Valid (t_TransactionHash t)) else true).

Definition GetTransactionsByFilter (arg : GetTransactionsByFilterParams) : Go (list Transaction) :=
  read (fun d => limit_rows (gf_Limit arg) (rev (select (transaction_matches arg) (transactions d)))).

Definition with_hash (hash : NullString) (updatedAt : Z) (t : Transaction) : Transaction :=
  mkTransaction (t_ID t) (t_CreatedAt t) updatedAt (t_MerchantID t) (t_Status t) (t_Type t) (t_EntityID t)
    (t_RecipientWalletID t) (t_SenderAddress t) (t_RecipientAddress t) hash (t_Blockchain t)
    (t_CurrencyType t) (t_Currency t) (t_Decimals t) (t_Amount t) (t_FactAmount t) (t_NetworkFee t)
    (t_ServiceFee t) (t_UsdAmount t) (t_Metadata t) (t_NetworkID t) (t_IsTest t) (t_NetworkDecimals t)
    (t_SenderWalletID t).

Definition SetTransactionHash (hash : NullString) (updatedAt id merchantID : Z) : Go unit :=
  query (fun d => (Ok tt, set_transactions
    (update_rows (fun t => (t_ID t =? id) && (t_MerchantID t =? merchantID)) (with_hash hash updatedAt)
      (transactions d)) d)).

Record CancelTransactionParams := mkCancelTransactionParams {
  cx_ID : Z; cx_Status : string; cx_UpdatedAt : Z; cx_Metadata : JSONB; cx_NetworkFee : Numeric;
  cx_SetNetworkFee : bool
}.

Definition cancelled (arg : CancelTransactionParams) (meta : JSONB) (fee : Numeric) (t : Transaction) : Transaction :=
  mkTransaction (t_ID t) (t_CreatedAt t) (cx_UpdatedAt arg) (t_MerchantID t) (cx_Status arg) (t_Type t)
    (t_EntityID t) (t_RecipientWalletID t) (t_SenderAddress t) (t_RecipientAddress t) (t_TransactionHash t)
    (t_Blockchain t) (t_CurrencyType t) (t_Currency t) (t_Decimals t) (t_Amount t) (t_FactAmount t)
    (if cx_SetNetworkFee arg then fee else t_NetworkFee t)
    (t_ServiceFee t) (t_UsdAmount t) meta (t_NetworkID t) (t_IsTest t) (t_NetworkDecimals t)
    (t_SenderWalletID t).

Definition CancelTransaction (arg : CancelTransactionParams) : Go unit := query (fun d =>
  match (meta ← pg_jsonb (cx_Metadata arg); fee ← pg_numeric (cx_NetworkFee arg); mret (meta, fee)) with
  | Ok (meta, fee) => (Ok tt, set_transactions (update_rows (by_id (cx_ID arg)) (cancelled arg meta fee) (transactions d)) d)
  | Err e => (Err e, d)
  | Panic p => (Panic p, d)
  end).

Record UpdateTransactionParams := mkUpdateTransactionParams {
  ut_MerchantID : Z; ut_ID : Z; ut_Status : string; ut_UpdatedAt : Z; ut_SenderAddress : NullString;
  ut_FactAmount : Numeric; ut_TransactionHash : NullString; ut_NetworkFee : Numeric; ut_Metadata : JSONB;
  ut_RemoveServiceFee : bool
}.

Definition updated (arg : UpdateTransactionParams) (fact fee : Numeric) (meta : JSONB) (t : Transaction) : Transaction :=
  mkTransaction (t_ID t) (t_CreatedAt t) (ut_UpdatedAt arg) (t_MerchantID t) (ut_Status arg) (t_Type t)
    (t_EntityID t) (t_RecipientWalletID t) (ut_SenderAddress arg) (t_RecipientAddress t)
    (ut_TransactionHash arg) (t_Blockchain t) (t_CurrencyType t) (t_Currency t) (t_Decimals t) (t_Amount t)
    fact fee (if ut_RemoveServiceFee arg then BigIntToNumeric 0 else t_ServiceFee t) (t_UsdAmount t) meta
    (t_NetworkID t) (t_IsTest t) (t_NetworkDecimals t) (t_SenderWalletID t).

Definition UpdateTransaction (arg : UpdateTransactionParams) : Go Transaction := query (fun d =>
  match (fact ← pg_numeric (ut_FactAmount arg); fee ← pg_numeric (ut_NetworkFee arg);
         meta ← pg_jsonb (ut_Metadata arg); mret (updated arg fact fee meta)) with
  | Ok f =>
    let p t := (t_MerchantID t =? ut_MerchantID arg) && (t_ID t =? ut_ID arg) in
    (f <$> one (select p (transactions d)), set_transactions (update_rows p f (transactions d)) d)
  | Err e => (Err e, d)
  | Panic p => (Panic p, d)
  end).

(** ** bitcoin_utxo_reservations.go *)
Definition is_active_status (s : string) : bool := bool_decide (s = "reserved") || bool_decide (s = "broadcasted").

Record CreateBitcoinUTXOReservationParams := mkCreateReservationParams {
  cr_WalletID : Z; cr_IsTest : bool; cr_TxHash : string; cr_OutputIndex : Z; cr_AmountSats : Z;
  cr_CreatedAt : Z; cr_ExpiresAt : Z
}.

Definition reservation_row (arg : CreateBitcoinUTXOReservationParams) (id : Z) : BitcoinUTXOReservation :=
  mkReservation id (cr_WalletID arg) (cr_IsTest arg) (cr_TxHash arg) (cr_OutputIndex arg) (cr_AmountSats arg)
    null_string null_string "reserved" (cr_CreatedAt arg) (cr_CreatedAt arg) (cr_ExpiresAt arg) null_time.

(** The partial unique index [bitcoin_utxo_reservations_active_unique]. *)
Definition reservation_key_eq (walletID : Z) (isTest : bool) (txHash : string) (outputIndex : Z)
  (r : BitcoinUTXOReservation) : bool :=
  (r_WalletID r =? walletID) && eqb (r_IsTest r) isTest && bool_decide (r_TxHash r = txHash) &&
  (r_OutputIndex r =? outputIndex) && is_active_status (r_Status r).

Definition CreateBitcoinUTXOReservation (arg : CreateBitcoinUTXOReservationParams) : Go BitcoinUTXOReservation :=
  query (fun d =>
    let skipped := set_reservations (skip_id (reservations d)) d in
    if (cr_OutputIndex arg <? 0) || (4294967295 <? cr_OutputIndex arg) || (cr_AmountSats arg <=? 0)
    then (Err check_violation, skipped)
    else if existsb (reservation_key_eq (cr_WalletID arg) (cr_IsTest arg) (cr_TxHash arg) (cr_OutputIndex arg))
              (rows (reservations d)) then (Err unique_violation, skipped)
    else if negb (existsb (by_id (cr_WalletID arg)) (rows (wallets d))) then (Err foreign_key_violation, skipped)
    else (Ok (reservation_row arg (next_id (reservations d))),
          set_reservations (insert_row (reservation_row arg) (reservations d)) d)).

(** [now()] is the database's clock: the transaction start in Postgres. *)
Definition is_listed (walletID : Z) (isTest : bool) (now : Z) (r : BitcoinUTXOReservation) : bool :=
  (r_WalletID r =? walletID) && eqb (r_IsTest r) isTest &&
  (bool_decide (r_Status r = "broadcasted") ||
   (bool_decide (r_Status r = "reserved") && (now <? r_ExpiresAt r))).

Definition ListActiveBitcoinUTXOReservations (walletID : Z) (isTest : bool) : Go (list BitcoinUTXOReservation) :=
  now ← time_Now;
  read (fun d => Ok (select (is_listed walletID isTest now) (reservations d))).

Definition with_raw_tx (rawTxID : string) (updatedAt : Z) (r : BitcoinUTXOReservation) : BitcoinUTXOReservation :=
  mkReservation (r_ID r) (r_WalletID r) (r_IsTest r) (r_TxHash r) (r_OutputIndex r) (r_AmountSats r)
    (mkNull rawTxID true) (r_TransactionHash r) (r_Status r) (r_CreatedAt r) updatedAt (r_ExpiresAt r)
    (r_ReleasedAt r).

Definition AttachBitcoinUTXOReservationRawTX (id : Z) (rawTxID : string) (updatedAt : Z) : Go unit :=
  query (fun d => (Ok tt, set_reservations
    (update_rows (fun r => (r_ID r =? id) && bool_decide (r_Status r = "reserved")) (with_raw_tx rawTxID updatedAt)
      (reservations d)) d)).

Definition released (updatedAt releasedAt : Z) (r : BitcoinUTXOReservation) : BitcoinUTXOReservation :=
  mkReservation (r_ID r) (r_WalletID r) (r_IsTest r) (r_TxHash r) (r_OutputIndex r) (r_AmountSats r)
    (r_RawTxID r) (r_TransactionHash r) "released" (r_CreatedAt r) updatedAt (r_ExpiresAt r)
    (mkNull releasedAt true).

Definition ReleaseBitcoinUTXOReservation (id updatedAt releasedAt : Z) : Go unit :=
  query (fun d => (Ok tt, set_reservations
    (update_rows (fun r => (r_ID r =? id) && bool_decide (r_Status r = "reserved")) (released updatedAt releasedAt)
      (reservations d)) d)).

Definition reserved_by_raw_tx (walletID : Z) (isTest : bool) (rawTxID : string) (r : BitcoinUTXOReservation) : bool :=
  (r_WalletID r =? walletID) && eqb (r_IsTest r) isTest && sql_eq (r_RawTxID r) (mkNull rawTxID true) &&
  bool_decide (r_Status r = "reserved").

Definition ReleaseBitcoinUTXOReservationsByRawTX (walletID : Z) (isTest : bool) (rawTxID : string)
  (updatedAt releasedAt : Z) : Go unit :=
  query (fun d => (Ok tt, set_reservations
    (update_rows (reserved_by_raw_tx walletID isTest rawTxID) (released updatedAt releasedAt) (reservations d)) d)).

Definition broadcasted (hash : string) (updatedAt : Z) (r : BitcoinUTXOReservation) : BitcoinUTXOReservation :=
  mkReservation (r_ID r) (r_WalletID r) (r_IsTest r) (r_TxHash r) (r_OutputIndex r) (r_AmountSats r)
    (r_RawTxID r) (mkNull hash true) "broadcasted" (r_CreatedAt r) updatedAt (r_ExpiresAt r) (r_ReleasedAt r).

Definition MarkBitcoinUTXOReservationsBroadcastedByRawTX (walletID : Z) (isTest : bool) (rawTxID hash : string)
  (updatedAt : Z) : Go unit :=
  query (fun d => (Ok tt, set_reservations
    (update_rows (reserved_by_raw_tx walletID isTest rawTxID) (broadcasted hash updatedAt) (reservations d)) d)).

(** ** The schema's constraints as an invariant *)
Definition balance_key (b : Balance) : option (string * Z * string * string * string) :=
  Some (b_EntityType b, b_EntityID b, b_Network b, b_NetworkID b, b_Currency b).
Definition lock_key (l : WalletLock) : option (Z * string * string) :=
  Some (wl_WalletID l, wl_Currency l, wl_NetworkID l).
Definition outbound_key (w : Wallet) : option string :=
  if sql_eq (w_Type w) (mkNull "outbound" true) then Some (w_Blockchain w) else None.
Definition uuid_key (w : Wallet) : option string := Some (w_Uuid w).
Definition reservation_key (r : BitcoinUTXOReservation) : option (Z * bool * string * Z) :=
  if is_active_status (r_Status r) then Some (r_WalletID r, r_IsTest r, r_TxHash r, r_OutputIndex r) else None.

Definition whole (n : Numeric) : Prop := exists v, n = BigIntToNumeric v.
Definition amount_ok (n : Numeric) : Prop := exists v, 0 <= v /\ n = BigIntToNumeric v.
Definition counters_ok (w : Wallet) : Prop :=
  0 <= w_ConfirmedMainnetTransactions w /\ 0 <= w_PendingMainnetTransactions w.
Definition reservation_ok (r : BitcoinUTXOReservation) : Prop :=
  0 < r_AmountSats r /\ 0 <= r_OutputIndex r < 2 ^ 32 /\
  (r_Status r = "reserved" \/ r_Status r = "broadcasted" \/ r_Status r = "released").
Definition transaction_ok (t : Transaction) : Prop :=
  whole (t_Amount t) /\ whole (t_ServiceFee t) /\ whole (t_UsdAmount t) /\
  (whole (t_FactAmount t) \/ t_FactAmount t = numeric_null) /\
  (whole (t_NetworkFee t) \/ t_NetworkFee t = numeric_null).

Definition payment_key (p : Payment) : option (Z * string) := Some (p_MerchantID p, p_MerchantOrderUuid p).
Definition slug_key (l : PaymentLink) : option string := Some (l_Slug l).
Definition customer_key (c : Customer) : option string := Some (c_Uuid c).
Definition merchant_key (m : Merchant) : option string := Some (mt_Uuid m).

Record schema_ok (d : DB) : Prop := {
  ok_wf : db_wf d;
  ok_amounts : all_rows (fun b => amount_ok (b_Amount b)) (balances d);
  ok_balance_key : uniq_on balance_key (balances d);
  ok_counters : all_rows counters_ok (wallets d);
  ok_uuid : uniq_on uuid_key (wallets d);
  ok_outbound : uniq_on outbound_key (wallets d);
  ok_lock_key : uniq_on lock_key (wallet_locks d);
  ok_transactions : all_rows transaction_ok (transactions d);
  ok_reservations : all_rows reservation_ok (reservations d);
  ok_reservation_key : uniq_on reservation_key (reservations d);
  ok_prices : all_rows (fun p => whole (p_Price p)) (payments d);
  ok_payment_key : uniq_on payment_key (payments d);
  ok_slug : uniq_on slug_key (payment_links d);
  ok_customer_key : uniq_on customer_key (customers d);
  ok_merchant_key : uniq_on merchant_key (merchants d)
}.

(** One step of the database: sequences grow and the schema holds. *)
Definition schema_step (d d' : DB) : Prop := seq_le d d' /\ (schema_ok d -> schema_ok d').

#[export] Instance schema_step_preorder : PreOrder schema_step.
Proof.
  split; repeat intro; unfold schema_step, seq_le in *; [split; [lia|done]|].
  destruct H as [? H], H0 as [? H0]. split; [lia|auto].
Qed.

Lemma schema_step_rollback d d' : schema_step d d' -> schema_step d (rollback d d').
Proof.
  intros [Hs Hd]. split; [done|]. intros Hok. destruct Hok. split; try done. by apply db_wf_rollback.
Qed.

Lemma schema_empty : schema_ok empty_db.
Proof.
  split; first [apply db_wf_empty | apply uniq_empty | apply all_empty].
Qed.

(** A step that replaces one table. *)
Section OneTable.
Context (d : DB).
Ltac one_table := intros Hn Ht; split; [unfold seq_le; simpl; lia|]; intros Hok;
  specialize (Ht Hok); destruct Hok as [Hwf]; unfold db_wf in Hwf; destruct_and?; split; try done;
  repeat match goal with |- db_wf _ => unfold db_wf; simpl | |- _ /\ _ => split end; done.

Lemma step_balances t : next_id (balances d) <= next_id t ->
  (schema_ok d -> table_wf t /\ all_rows (fun b => amount_ok (b_Amount b)) t /\ uniq_on balance_key t) ->
  schema_step d (set_balances t d).
Proof. one_table. Qed.
Lemma step_audit t : next_id (balance_audit_log d) <= next_id t ->
  (schema_ok d -> table_wf t) -> schema_step d (set_balance_audit_log t d).
Proof. one_table. Qed.
Lemma step_wallets t : next_id (wallets d) <= next_id t ->
  (schema_ok d -> table_wf t /\ all_rows counters_ok t /\ uniq_on uuid_key t /\ uniq_on outbound_key t) ->
  schema_step d (set_wallets t d).
Proof. one_table. Qed.
Lemma step_locks t : next_id (wallet_locks d) <= next_id t ->
  (schema_ok d -> table_wf t /\ uniq_on lock_key t) -> schema_step d (set_wallet_locks t d).
Proof. one_table. Qed.
Lemma step_transactions t : next_id (transactions d) <= next_id t ->
  (schema_ok d -> table_wf t /\ all_rows transaction_ok t) -> schema_step d (set_transactions t d).
Proof. one_table. Qed.
Lemma step_reservations t : next_id (reservations d) <= next_id t ->
  (schema_ok d -> table_wf t /\ all_rows reservation_ok t /\ uniq_on reservation_key t) ->
  schema_step d (set_reservations t d).
Proof. one_table. Qed.
Lemma step_payments t : next_id (payments d) <= next_id t ->
  (schema_ok d -> table_wf t /\ all_rows (fun p => whole (p_Price p)) t /\ uniq_on payment_key t) ->
  schema_step d (set_payments t d).
Proof. one_table. Qed.
Lemma step_payment_links t : next_id (payment_links d) <= next_id t ->
  (schema_ok d -> table_wf t /\ uniq_on slug_key t) -> schema_step d (set_payment_links t d).
Proof. one_table. Qed.
Lemma step_customers t : next_id (customers d) <= next_id t ->
  (schema_ok d -> table_wf t /\ uniq_on customer_key t) -> schema_step d (set_customers t d).
Proof. one_table. Qed.
Lemma step_merchants t : next_id (merchants d) <= next_id t ->
  (schema_ok d -> table_wf t /\ uniq_on merchant_key t) -> schema_step d (set_merchants t d).
Proof. one_table. Qed.
Lemma step_merchant_addresses t : next_id (merchant_addresses d) <= next_id t ->
  (schema_ok d -> table_wf t) -> schema_step d (set_merchant_addresses t d).
Proof. one_table. Qed.
End OneTable.

Lemma existsb_false {A} (p : A -> bool) l : existsb p l = false -> forall x, x ∈ l -> p x = false.
Proof.
  intros H x Hx. destruct (p x) eqn:E; [|done].
  rewrite (proj2 (existsb_exists p l)) in H; [done|]. exists x. by rewrite <- list_elem_of_In.
Qed.

Lemma pg_numeric_whole n m : pg_numeric n = Ok m -> whole m \/ m = numeric_null.
Proof. unfold pg_numeric. destruct (n_Status n); intros; simplify_eq; [by right|left; by eexists]. Qed.

Lemma pg_numeric_not_null_whole n m : pg_numeric_not_null n = Ok m -> whole m.
Proof.
  unfold pg_numeric_not_null. destruct (pg_numeric n) as [k|e|p] eqn:E; simpl; try done.
  case_bool_decide as Hk; intros; simplify_eq. destruct (pg_numeric_whole _ _ E) as [?| ->]; [done|].
  by destruct Hk.
Qed.

Lemma numeric_value_whole v : numeric_value (BigIntToNumeric v) = v.
Proof. unfold numeric_value. simpl. lia. Qed.
#[export] Hint Rewrite numeric_value_whole : store.

Lemma step_skip_balance d : schema_step d (set_balances (skip_id (balances d)) d).
Proof.
  apply step_balances; [simpl; lia|]. intros [(?&_)]. split; [|done]. by apply wf_next; simpl; [lia|].
Qed.

Lemma CreateBalance_schema arg : steps schema_step (CreateBalance arg).
Proof.
  apply steps_query. intros d. destruct (pg_numeric_not_null _) as [n|e|p] eqn:En; try reflexivity.
  destruct (pg_numeric_not_null_whole _ _ En) as [v ->]. rewrite numeric_value_whole.
  destruct (Z.ltb_spec v 0); [apply step_skip_balance|].
  destruct (existsb _ _) eqn:Ex; [apply step_skip_balance|]. simpl.
  apply step_balances; [simpl; lia|]. intros [(?&_)]. split; [by apply wf_insert|]. split.
  - apply all_insert; [|done]. exists v. done.
  - apply uniq_insert; [|done]. intros r Hr _ Hk. pose proof (existsb_false _ _ Ex r Hr) as Hf.
    unfold balance_key in Hk. simpl in Hk. injection Hk as H1 H2 H3 H4 H5. revert Hf. unfold same_key.
    rewrite H1, H2, H3, H4, H5, !bool_decide_true, Z.eqb_refl by done. done.
Qed.

Lemma UpdateBalanceByID_schema id at_ n : steps schema_step (UpdateBalanceByID id at_ n).
Proof.
  apply steps_query. intros d. destruct (pg_numeric n) as [k|e|p] eqn:En; try reflexivity.
  destruct (select _ _) as [|b l] eqn:Es; [reflexivity|].
  case_bool_decide; [reflexivity|].
  cbv zeta. destruct (Z.ltb_spec (numeric_value (b_Amount (add_amount at_ (numeric_value k) b))) 0) as [|Hv].
  { cbn [snd]. reflexivity. }
  cbn [snd].
  apply step_balances; [simpl; lia|]. intros [(?&_)]. split; [by apply wf_update|].
  split; [|apply uniq_update; auto].
  assert (row_at id (balances d) = Some b) as Hb by (unfold row_at; by rewrite Es).
  apply all_update; [|done]. intros r Hr Hp _. unfold by_id in Hp.
  rewrite row_at_Some in Hb by done. destruct Hb as [Hb Hid].
  assert (row_at id (balances d) = Some r) as Hr' by (apply row_at_Some; [done|split; [done|lia]]).
  assert (row_at id (balances d) = Some b) as Hb' by (by apply row_at_Some).
  simplify_eq. eexists. split; [|done]. simpl in Hv. by rewrite numeric_value_whole in Hv.
Qed.

Lemma read_schema {A} (f : DB -> res A) : steps schema_step (read f).
Proof. apply steps_query. intros d. simpl. reflexivity. Qed.

(** A read leaves the database as it is. *)
Lemma read_pure {A} (f : DB -> res A) : steps eq (read f).
Proof. by apply steps_query. Qed.

Lemma InsertBalanceAuditLog_schema at_ b c m : steps schema_step (InsertBalanceAuditLog at_ b c m).
Proof.
  apply steps_query. intros d. destruct (pg_jsonb m); try reflexivity.
  apply step_audit; [simpl; lia|]. intros [(?&?&_)]. by apply wf_insert.
Qed.

Lemma CreateWallet_schema at_ u a b ty : steps schema_step (CreateWallet at_ u a b ty).
Proof.
  apply steps_query. intros d. cbv zeta. destruct (existsb _ _) eqn:Ex; apply step_wallets; simpl; try lia.
  - intros [(?&?&?&_)]. split; [|done]. by apply wf_next; simpl; [lia|].
  - intros [(?&?&?&_)]. split; [by apply wf_insert|]. split; [by apply all_insert|].
    split; apply uniq_insert; try done; intros r Hr; pose proof (existsb_false _ _ Ex r Hr) as Hf;
      apply orb_false_iff in Hf as [Hu Ho].
    + intros _ [= Hk]. by rewrite Hk, bool_decide_true in Hu.
    + unfold outbound_key. simpl.
      destruct (sql_eq (w_Type r) (mkNull "outbound" true)) eqn:E1; [|by intros ?%is_Some_None].
      destruct (sql_eq ty (mkNull "outbound" true)) eqn:E2; intros _ Hk; [injection Hk as Hk|done].
      rewrite Hk, bool_decide_true, andb_true_r in Ho by done.
      destruct ty as [ty []], (w_Type r) as [rt []]; try done. unfold sql_eq in *. simpl in *.
      repeat case_bool_decide; simplify_eq; done.
Qed.

Lemma CreateWalletLock_schema m w c n a u : steps schema_step (CreateWalletLock m w c n a u).
Proof.
  apply steps_query. intros d. cbv zeta. destruct (existsb _ _) eqn:Ex; apply step_locks; simpl; try lia.
  - intros [(?&?&?&?&_)]. split; [|done]. by apply wf_next; simpl; [lia|].
  - intros [(?&?&?&?&_)]. split; [by apply wf_insert|]. apply uniq_insert; [|done].
    intros r Hr _ [= K1 K2 K3]. pose proof (existsb_false _ _ Ex r Hr) as Hf. simpl in Hf.
    rewrite K1, K2, K3, !bool_decide_true, Z.eqb_refl in Hf; done.
Qed.

Lemma ReleaseWalletLock_schema id : steps schema_step (ReleaseWalletLock id).
Proof.
  apply steps_query. intros d. apply step_locks; simpl; [lia|].
  intros [(?&?&?&?&_)]. split; [by apply wf_delete|by apply uniq_delete].
Qed.

Lemma update_wallets_schema d p f :
  (forall w, row_id (f w) = row_id w /\ w_Uuid (f w) = w_Uuid w /\ outbound_key (f w) = outbound_key w) ->
  (forall w, w ∈ rows (wallets d) -> p w = true -> counters_ok w -> counters_ok (f w)) ->
  schema_step d (set_wallets (update_rows p f (wallets d)) d).
Proof.
  intros Hf Hc. apply step_wallets; simpl; [lia|]. intros [(?&?&?&_)].
  split; [apply wf_update; [apply Hf|done]|]. split; [by apply all_update|].
  split; apply uniq_update; try done; try apply Hf.
  - intros r _. left. unfold uuid_key. f_equal. apply Hf.
  - intros r _. left. apply Hf.
Qed.

Lemma UpdateWalletMainnetTransactionCounters_schema id c p :
  steps schema_step (UpdateWalletMainnetTransactionCounters id c p).
Proof.
  apply steps_query. intros d. destruct (existsb _ _ && _) eqn:E; [cbn [snd]; reflexivity|].
  apply update_wallets_schema; [done|]. intros w Hw Hp _. unfold counters_ok. simpl.
  apply andb_false_iff in E as [E|E].
  - by rewrite (existsb_false _ _ E w Hw) in Hp.
  - lia.
Qed.

Lemma UpdateWalletTatumFields_schema m t id : steps schema_step (UpdateWalletTatumFields m t id).
Proof. apply steps_query. intros d. by apply update_wallets_schema. Qed.

Lemma UpdateWalletTestnetTransactionCounters_schema id c p :
  steps schema_step (UpdateWalletTestnetTransactionCounters id c p).
Proof. apply steps_query. intros d. by apply update_wallets_schema. Qed.

Lemma CreateTransaction_schema arg : steps schema_step (CreateTransaction arg).
Proof.
  apply steps_query. intros d. destruct (transaction_values arg) as [mk|e|p] eqn:E; try reflexivity.
  unfold transaction_values in E.
  destruct (pg_numeric_not_null (ct_Amount arg)) as [a|?|?] eqn:Ea; try done.
  destruct (pg_numeric (ct_FactAmount arg)) as [f|?|?] eqn:Ef; try done.
  destruct (pg_numeric (ct_NetworkFee arg)) as [n|?|?] eqn:En; try done.
  destruct (pg_numeric_not_null (ct_ServiceFee arg)) as [s|?|?] eqn:Es; try done.
  destruct (pg_numeric_not_null (ct_UsdAmount arg)) as [u|?|?] eqn:Eu; try done.
  destruct (pg_jsonb _) as [j|?|?] eqn:Ej; try done. injection E as <-.
  apply step_transactions; simpl; [lia|]. intros [(?&?&?&?&?&_)]. split; [by apply wf_insert|].
  apply all_insert; [|done]. unfold transaction_ok. simpl.
  eauto 10 using pg_numeric_whole, pg_numeric_not_null_whole.
Qed.

Lemma update_transactions_schema d p f :
  (forall t, row_id (f t) = row_id t) -> (forall t, transaction_ok t -> transaction_ok (f t)) ->
  schema_step d (set_transactions (update_rows p f (transactions d)) d).
Proof.
  intros Hf Hc. apply step_transactions; simpl; [lia|]. intros [(?&?&?&?&?&_)].
  split; [by apply wf_update|]. apply all_update; auto.
Qed.

Lemma SetTransactionHash_schema h a i m : steps schema_step (SetTransactionHash h a i m).
Proof. apply steps_query. intros d. by apply update_transactions_schema. Qed.

Lemma CancelTransaction_schema arg : steps schema_step (CancelTransaction arg).
Proof.
  apply steps_query. intros d. destruct (pg_jsonb _) as [j|?|?]; try reflexivity.
  destruct (pg_numeric (cx_NetworkFee arg)) as [n|?|?] eqn:En; try reflexivity.
  apply update_transactions_schema; [done|]. intros t (?&?&?&?&?). unfold transaction_ok. simpl.
  destruct (cx_SetNetworkFee arg); eauto 10 using pg_numeric_whole.
Qed.

Lemma UpdateTransaction_schema arg : steps schema_step (UpdateTransaction arg).
Proof.
  apply steps_query. intros d. destruct (pg_numeric (ut_FactAmount arg)) as [f|?|?] eqn:Ef; try reflexivity.
  destruct (pg_numeric (ut_NetworkFee arg)) as [n|?|?] eqn:En; try reflexivity.
  destruct (pg_jsonb _) as [j|?|?]; try reflexivity.
  apply update_transactions_schema; [done|]. intros t (?&?&?&?&?). unfold transaction_ok. simpl.
  assert (whole (BigIntToNumeric 0)) by by eexists.
  destruct (ut_RemoveServiceFee arg); eauto 10 using pg_numeric_whole.
Qed.

Lemma CreateBitcoinUTXOReservation_schema arg : steps schema_step (CreateBitcoinUTXOReservation arg).
Proof.
  apply steps_query. intros d. cbv zeta.
  assert (schema_step d (set_reservations (skip_id (reservations d)) d)) as Hskip.
  { apply step_reservations; simpl; [lia|]. intros [(?&?&?&?&?&?&_)]. split; [|done]. by apply wf_next; simpl; [lia|]. }
  destruct (_ || _) eqn:Ec; [done|]. destruct (existsb (reservation_key_eq _ _ _ _) _) eqn:Ex; [done|].
  destruct (negb _); [done|]. apply step_reservations; simpl; [lia|]. intros [(?&?&?&?&?&?&_)].
  split; [by apply wf_insert|]. split.
  - apply all_insert; [|done]. unfold reservation_ok. simpl. split; [lia|]. split; [lia|auto].
  - apply uniq_insert; [|done]. intros r Hr Hs Hk. pose proof (existsb_false _ _ Ex r Hr) as Hf.
    revert Hs Hk. unfold reservation_key.
    destruct (is_active_status (r_Status r)) eqn:Ha; [|by intros ?%is_Some_None]. simpl. intros _ Hk. injection Hk as H1' H2' H3' H4'. revert Hf. unfold reservation_key_eq.
    rewrite H1', H2', H3', H4', Ha, !Z.eqb_refl, eqb_reflx, bool_decide_true by done. done.
Qed.

Lemma update_reservations_schema d p f :
  (forall r, row_id (f r) = row_id r) -> (forall r, reservation_ok r -> reservation_ok (f r)) ->
  (forall r, p r = true -> reservation_key (f r) = reservation_key r \/ reservation_key (f r) = None) ->
  schema_step d (set_reservations (update_rows p f (reservations d)) d).
Proof.
  intros Hf Hc Hk. apply step_reservations; simpl; [lia|]. intros [(?&?&?&?&?&?&_)].
  split; [by apply wf_update|]. split; [apply all_update; auto|by apply uniq_update].
Qed.

Lemma reservation_ok_status r f : r_AmountSats (f r) = r_AmountSats r -> r_OutputIndex (f r) = r_OutputIndex r ->
  (r_Status (f r) = "reserved" \/ r_Status (f r) = "broadcasted" \/ r_Status (f r) = "released") ->
  reservation_ok r -> reservation_ok (f r).
Proof. unfold reservation_ok. intros -> ->. tauto. Qed.

Lemma reserved_status walletID isTest raw r : reserved_by_raw_tx walletID isTest raw r = true -> r_Status r = "reserved".
Proof. unfold reserved_by_raw_tx. intros [_ H]%andb_true_iff. by case_bool_decide. Qed.

Lemma broadcasted_key h u r : r_Status r = "reserved" -> reservation_key (broadcasted h u r) = reservation_key r.
Proof. intros Hs. unfold reservation_key. simpl. by rewrite Hs. Qed.

Lemma AttachBitcoinUTXOReservationRawTX_schema id raw a : steps schema_step (AttachBitcoinUTXOReservationRawTX id raw a).
Proof. apply steps_query. intros d. apply update_reservations_schema; eauto. Qed.

Lemma ReleaseBitcoinUTXOReservation_schema id a b : steps schema_step (ReleaseBitcoinUTXOReservation id a b).
Proof.
  apply steps_query. intros d. apply update_reservations_schema; eauto.
  intros r. by apply (reservation_ok_status r (released a b)); auto.
Qed.

Lemma ReleaseBitcoinUTXOReservationsByRawTX_schema w t raw a b :
  steps schema_step (ReleaseBitcoinUTXOReservationsByRawTX w t raw a b).
Proof.
  apply steps_query. intros d. apply update_reservations_schema; eauto.
  intros r. by apply (reservation_ok_status r (released a b)); auto.
Qed.

Lemma MarkBitcoinUTXOReservationsBroadcastedByRawTX_schema w t raw h a :
  steps schema_step (MarkBitcoinUTXOReservationsBroadcastedByRawTX w t raw h a).
Proof.
  apply steps_query. intros d. apply update_reservations_schema; eauto.
  - intros r. by apply (reservation_ok_status r (broadcasted h a)); auto.
  - intros r Hr%reserved_status. left. by apply broadcasted_key.
Qed.

Create HintDb schema.
#[export] Hint Resolve read_schema read_pure CreateBalance_schema UpdateBalanceByID_schema InsertBalanceAuditLog_schema
  CreateWallet_schema CreateWalletLock_schema ReleaseWalletLock_schema
  UpdateWalletMainnetTransactionCounters_schema UpdateWalletTatumFields_schema
  UpdateWalletTestnetTransactionCounters_schema CreateTransaction_schema SetTransactionHash_schema
  CancelTransaction_schema UpdateTransaction_schema CreateBitcoinUTXOReservation_schema
  AttachBitcoinUTXOReservationRawTX_schema ReleaseBitcoinUTXOReservation_schema
  ReleaseBitcoinUTXOReservationsByRawTX_schema MarkBitcoinUTXOReservationsBroadcastedByRawTX_schema : schema.

(** Walks a Go function statement by statement. *)
Ltac go_steps :=
  repeat first
    [ progress intros
    | apply steps_ret; tc_solve | apply steps_fail; tc_solve | apply steps_panic; tc_solve
    | apply steps_pure; tc_solve | apply steps_gets; tc_solve
    | apply steps_now; tc_solve | apply steps_uuid; tc_solve
    | apply steps_bind; [tc_solve| |]
    | apply steps_wrap | apply steps_attempt
    | apply steps_run; [exact schema_step_rollback|]
    | solve [eauto with schema nocore]
    | match goal with
      | |- steps _ (match ?x with _ => _ end) => destruct x
      | |- steps _ (read _) => apply read_schema
      | |- steps _ (read _) => apply read_pure
      end ].

(** ** Rules for [wp] *)
Lemma wp_read {A} (f : DB -> res A) w (Q : res A -> world -> Prop) :
  (forall w', db w' = db w -> Q (f (db w)) w') -> wp (read f) w Q.
Proof. intros H. apply wp_query. simpl. auto. Qed.

Lemma wp_not_found {A} e (m : Go A) w (Q : res A -> world -> Prop) :
  wp m w (fun r w' => match r with
    | Ok a => Q (Ok a) w'
    | Err e' => Q (Err (if errors_Is e' ErrNoRows then e else e')) w'
    | Panic p => Q (Panic p) w' end) -> wp (not_found e m) w Q.
Proof.
  intros Hm. unfold not_found. do 2 wp_step. eapply wp_mono; [exact Hm|]. intros [a|e'|p] w' Hr; try done.
  by destruct (errors_Is e' ErrNoRows).
Qed.

Lemma one_select_in {A} `{HasID A} (t : Table A) p r : table_wf t -> r ∈ rows t -> p r = true ->
  (forall x, x ∈ rows t -> p x = true -> row_id x = row_id r) -> one (select p t) = Ok r.
Proof.
  intros Hwf Hr Hp Hid. destruct (one (select p t)) as [x|e|s] eqn:E.
  - destruct (one_select_inv _ _ _ E) as [Hx Hpx]. f_equal.
    assert (row_at (row_id r) t = Some x) as K1 by (apply row_at_Some; auto).
    assert (row_at (row_id r) t = Some r) as K2 by by apply row_at_Some. congruence.
  - destruct (one_select_none _ _ _ E) as [_ Hn]. rewrite Forall_forall in Hn. specialize (Hn r Hr). congruence.
  - unfold one in E. by destruct (select p t).
Qed.

Lemma one_select_unique {A} `{HasID A} (t : Table A) p r : table_wf t -> r ∈ rows t -> p r = true ->
  (forall x, p x = true -> row_id x = row_id r) -> one (select p t) = Ok r.
Proof. intros. apply one_select_in; auto. Qed.

Lemma one_select_key {A K} `{HasID A} (k : A -> option K) (t : Table A) p r : table_wf t -> uniq_on k t ->
  r ∈ rows t -> p r = true -> is_Some (k r) -> (forall x, p x = true -> k x = k r) -> one (select p t) = Ok r.
Proof.
  intros Hwf Hu Hr Hp Hs Hk. apply one_select_in; [done..|]. intros x Hx Hpx. apply Hu; [done|done|auto|by rewrite Hk].
Qed.

Lemma pg_money m : pg_numeric (MoneyToNumeric m) = Ok (MoneyToNumeric m).
Proof. unfold pg_numeric, MoneyToNumeric. simpl. by rewrite numeric_value_whole. Qed.

(** ** Properties *)

(** Whatever sequence of the statements below and of [RunTransaction] runs,
    the constraints of the schema hold: ids are unique and never reused,
    balances are whole and never negative, a (entity, network, currency) has
    one balance, a (wallet, currency, network) one lock, a bitcoin outpoint at
    most one active reservation, also across releases and broadcasts, and a
    rolled back transaction keeps all of it. *)
Theorem schema_preserved {A} (body : Go A) :
  (forall arg, steps schema_step (CreateBalance arg)) /\
  (forall id at_ n, steps schema_step (UpdateBalanceByID id at_ n)) /\
  (forall at_ b c m, steps schema_step (InsertBalanceAuditLog at_ b c m)) /\
  (forall at_ u a b ty, steps schema_step (CreateWallet at_ u a b ty)) /\
  (forall m w c n a u, steps schema_step (CreateWalletLock m w c n a u)) /\
  (forall id, steps schema_step (ReleaseWalletLock id)) /\
  (forall id c p, steps schema_step (UpdateWalletMainnetTransactionCounters id c p)) /\
  (forall id c p, steps schema_step (UpdateWalletTestnetTransactionCounters id c p)) /\
  (forall m t id, steps schema_step (UpdateWalletTatumFields m t id)) /\
  (forall arg, steps schema_step (CreateTransaction arg)) /\
  (forall arg, steps schema_step (UpdateTransaction arg)) /\
  (forall arg, steps schema_step (CancelTransaction arg)) /\
  (forall h a i m, steps schema_step (SetTransactionHash h a i m)) /\
  (forall arg, steps schema_step (CreateBitcoinUTXOReservation arg)) /\
  (forall id raw a, steps schema_step (AttachBitcoinUTXOReservationRawTX id raw a)) /\
  (forall id a b, steps schema_step (ReleaseBitcoinUTXOReservation id a b)) /\
  (forall w t raw a b, steps schema_step (ReleaseBitcoinUTXOReservationsByRawTX w t raw a b)) /\
  (forall w t raw h a, steps schema_step (MarkBitcoinUTXOReservationsBroadcastedByRawTX w t raw h a)) /\
  (steps schema_step body -> steps schema_step (RunTransaction body)).
Proof.
  repeat match goal with |- _ /\ _ => split end; intros; try (by eauto with schema nocore).
  by go_steps.
Qed.

Lemma schema_preserved_witness : steps schema_step (RunTransaction (ReleaseWalletLock 3)).
Proof. apply (schema_preserved (ReleaseWalletLock 3)). apply ReleaseWalletLock_schema. Defined.
