(* ===== verification/PaymentQueries.v ===== *)
(** * PaymentQueries: the SQL statements on merchants, payments, links and customers

    The [Queries] methods of [internal/db/repository] in [payments.sql.go],
    [payment_links.sql.go], [customers.sql.go], [merchants.sql.go] and
    [merchant_addresses.sql.go], with the constraints of their migrations.
    Rows are kept in the order of their ids, so [order by id] is the order of
    the table and [order by id desc] its reverse. *)

From S2P Require Import Prelude GoLib Money Repository Queries.
Import Row.

(** ** payments.sql.go *)
Record CreatePaymentParams := mkCreatePaymentParams {
  cp_PublicID : string; cp_CreatedAt : Z; cp_UpdatedAt : Z; cp_Type : string; cp_Status : string;
  cp_MerchantID : Z; cp_MerchantOrderUuid : string; cp_MerchantOrderID : NullString; cp_ExpiresAt : NullTime;
  cp_Price : Numeric; cp_Decimals : Z; cp_Currency : string; cp_Description : NullString;
  cp_RedirectUrl : string; cp_Metadata : JSONB; cp_IsTest : bool
}.

Definition payment_row (arg : CreatePaymentParams) (price : Numeric) (meta : JSONB) (id : Z) : Payment :=
  mkPayment id (cp_PublicID arg) (cp_CreatedAt arg) (cp_UpdatedAt arg) (cp_Type arg) (cp_Status arg)
    (cp_MerchantID arg) (cp_MerchantOrderUuid arg) (cp_MerchantOrderID arg) (cp_ExpiresAt arg) price
    (cp_Decimals arg) (cp_Currency arg) (cp_Description arg) (cp_RedirectUrl arg) null_int64 (cp_IsTest arg)
    null_time meta.

Definition order_of (merchantID : Z) (orderUUID : string) (p : Payment) : bool :=
  (p_MerchantID p =? merchantID) && bool_decide (p_MerchantOrderUuid p = orderUUID).

(** Unique [(merchant_id, merchant_order_uuid)]. *)
Definition CreatePayment (arg : CreatePaymentParams) : Go Payment := query (fun d =>
  match price ← pg_numeric_not_null (cp_Price arg); meta ← pg_jsonb (cp_Metadata arg);
        mret (payment_row arg price meta) with
  | Ok mk =>
    if existsb (order_of (cp_MerchantID arg) (cp_MerchantOrderUuid arg)) (rows (payments d)) then
      (Err unique_violation, set_payments (skip_id (payments d)) d)
    else (Ok (mk (next_id (payments d))), set_payments (insert_row mk (payments d)) d)
  | Err e => (Err e, d)
  | Panic p => (Panic p, d)
  end).

Definition is_expired (expiresAt : NullTime) (createdAt : Z) (p : Payment) : bool :=
  if Valid (p_ExpiresAt p) then Valid expiresAt && (null_val (p_ExpiresAt p) <? null_val expiresAt)
  else p_CreatedAt p <? createdAt.

Definition GetBatchExpiredPayments (limit : Z) (expiresAt : NullTime) (createdAt : Z) (type_ : string)
  (status : list string) : Go (list Payment) :=
  read (fun d => limit_rows limit (select (fun p => is_expired expiresAt createdAt p &&
    bool_decide (p_Type p = type_) && in_strings (p_Status p) status) (payments d))).

Definition GetPaymentByID (id merchantID : Z) (filterByMerchantID : bool) : Go Payment :=
  read (fun d => one (select (fun p => by_id id p &&
    (if filterByMerchantID then p_MerchantID p =? merchantID else true)) (payments d))).

Definition GetPaymentByMerchantIDAndOrderUUID (merchantID : Z) (orderUUID : string) : Go Payment :=
  read (fun d => one (select (order_of merchantID orderUUID) (payments d))).

Definition GetPaymentByMerchantIDs (merchantID : Z) (orderUUID : string) : Go Payment :=
  read (fun d => one (select (order_of merchantID orderUUID) (payments d))).

Definition GetPaymentByPublicID (publicID : string) : Go Payment :=
  read (fun d => one (select (fun p => bool_decide (p_PublicID p = publicID)) (payments d))).

Definition in_ids (i : Z) (l : list Z) : bool := existsb (Z.eqb i) l.

Definition GetPaymentsByType (type_ status : string) (limit : Z) (filterByIds : bool) (ids : list Z) :
  Go (list Payment) :=
  read (fun d => limit_rows limit (select (fun p => bool_decide (p_Type p = type_) &&
    bool_decide (p_Status p = status) && (if filterByIds then in_ids (p_ID p) ids else true)) (payments d))).

Definition PaginatePaymentsAsc (merchantID id limit : Z) (filterByTypes : bool) (types : list string) :
  Go (list Payment) :=
  read (fun d => limit_rows limit (select (fun p => (p_MerchantID p =? merchantID) && (id <=? p_ID p) &&
    (if filterByTypes then in_strings (p_Type p) types else true)) (payments d))).

Definition PaginatePaymentsDesc (merchantID id limit : Z) (filterByTypes : bool) (types : list string) :
  Go (list Payment) :=
  read (fun d => limit_rows limit (rev (select (fun p => (p_MerchantID p =? merchantID) && (p_ID p <=? id) &&
    (if filterByTypes then in_strings (p_Type p) types else true)) (payments d)))).

Record UpdatePaymentParams := mkUpdatePaymentParams {
  up_ID : Z; up_MerchantID : Z; up_Status : string; up_UpdatedAt : Z; up_ExpiresAt : NullTime;
  up_SetExpiresAt : bool
}.

Definition payment_updated (arg : UpdatePaymentParams) (p : Payment) : Payment :=
  mkPayment (p_ID p) (p_PublicID p) (p_CreatedAt p) (up_UpdatedAt arg) (p_Type p) (up_Status arg)
    (p_MerchantID p) (p_MerchantOrderUuid p) (p_MerchantOrderID p)
    (if up_SetExpiresAt arg then up_ExpiresAt arg else p_ExpiresAt p) (p_Price p) (p_Decimals p) (p_Currency p)
    (p_Description p) (p_RedirectUrl p) (p_CustomerID p) (p_IsTest p) (p_WebhookSentAt p) (p_Metadata p).

Definition merchant_payment (id merchantID : Z) (p : Payment) : bool :=
  by_id id p && (p_MerchantID p =? merchantID).

Definition UpdatePayment (arg : UpdatePaymentParams) : Go Payment := query (fun d =>
  let p := merchant_payment (up_ID arg) (up_MerchantID arg) in
  (payment_updated arg <$> one (select p (payments d)),
   set_payments (update_rows p (payment_updated arg) (payments d)) d)).

Definition with_customer (customerID : NullInt64) (p : Payment) : Payment :=
  mkPayment (p_ID p) (p_PublicID p) (p_CreatedAt p) (p_UpdatedAt p) (p_Type p) (p_Status p)
    (p_MerchantID p) (p_MerchantOrderUuid p) (p_MerchantOrderID p) (p_ExpiresAt p) (p_Price p) (p_Decimals p)
    (p_Currency p) (p_Description p) (p_RedirectUrl p) customerID (p_IsTest p) (p_WebhookSentAt p) (p_Metadata p).

Definition UpdatePaymentCustomerID (customerID : NullInt64) (id : Z) : Go unit := query (fun d =>
  (Ok tt, set_payments (update_rows (by_id id) (with_customer customerID) (payments d)) d)).

Definition with_webhook (sentAt : NullTime) (updatedAt : Z) (p : Payment) : Payment :=
  mkPayment (p_ID p) (p_PublicID p) (p_CreatedAt p) updatedAt (p_Type p) (p_Status p)
    (p_MerchantID p) (p_MerchantOrderUuid p) (p_MerchantOrderID p) (p_ExpiresAt p) (p_Price p) (p_Decimals p)
    (p_Currency p) (p_Description p) (p_RedirectUrl p) (p_CustomerID p) (p_IsTest p) sentAt (p_Metadata p).

Definition UpdatePaymentWebhookInfo (id merchantID : Z) (sentAt : NullTime) (updatedAt : Z) : Go unit :=
  query (fun d => (Ok tt, set_payments (update_rows (merchant_payment id merchantID)
    (with_webhook sentAt updatedAt) (payments d)) d)).

(** ** payment_links.sql.go *)
Record CreatePaymentLinkParams := mkCreatePaymentLinkParams {
  cl_Uuid : string; cl_Slug : string; cl_CreatedAt : Z; cl_UpdatedAt : Z; cl_MerchantID : Z; cl_Type : string;
  cl_Name : string; cl_Description : string; cl_Price : Numeric; cl_Decimals : Z; cl_Currency : string;
  cl_SuccessAction : string; cl_RedirectUrl : NullString; cl_SuccessMessage : NullString; cl_IsTest : bool
}.

Definition link_row (arg : CreatePaymentLinkParams) (price : Numeric) (id : Z) : PaymentLink :=
  mkPaymentLink id (cl_Uuid arg) (cl_Slug arg) (cl_CreatedAt arg) (cl_UpdatedAt arg) (cl_MerchantID arg)
    (cl_Type arg) (cl_Name arg) (cl_Description arg) price (cl_Decimals arg) (cl_Currency arg)
    (cl_SuccessAction arg) (cl_RedirectUrl arg) (cl_SuccessMessage arg) (cl_IsTest arg).

(** Unique [slug]; the price may be NULL. *)
Definition CreatePaymentLink (arg : CreatePaymentLinkParams) : Go PaymentLink := query (fun d =>
  match pg_numeric (cl_Price arg) with
  | Ok price =>
    if existsb (fun l => bool_decide (l_Slug l = cl_Slug arg)) (rows (payment_links d)) then
      (Err unique_violation, set_payment_links (skip_id (payment_links d)) d)
    else (Ok (link_row arg price (next_id (payment_links d))),
          set_payment_links (insert_row (link_row arg price) (payment_links d)) d)
  | Err e => (Err e, d)
  | Panic p => (Panic p, d)
  end).

Definition merchant_link (merchantID : Z) (uuid : string) (l : PaymentLink) : bool :=
  (l_MerchantID l =? merchantID) && bool_decide (l_Uuid l = uuid).

Definition DeletePaymentLinkByPublicID (merchantID : Z) (uuid : string) : Go unit := query (fun d =>
  (Ok tt, set_payment_links (delete_rows (merchant_link merchantID uuid) (payment_links d)) d)).

Definition GetPaymentLinkByID (merchantID id : Z) : Go PaymentLink :=
  read (fun d => one (select (fun l => (l_MerchantID l =? merchantID) && by_id id l) (payment_links d))).

Definition GetPaymentLinkByPublicID (merchantID : Z) (uuid : string) : Go PaymentLink :=
  read (fun d => one (select (merchant_link merchantID uuid) (payment_links d))).

Definition GetPaymentLinkBySlug (slug : string) : Go PaymentLink :=
  read (fun d => one (select (fun l => bool_decide (l_Slug l = slug)) (payment_links d))).

Definition ListPaymentLinks (merchantID limit : Z) : Go (list PaymentLink) :=
  read (fun d => limit_rows limit (rev (select (fun l => l_MerchantID l =? merchantID) (payment_links d)))).

(** ** customers.sql.go *)
Definition customer_payment (merchantID : Z) (customerID : NullInt64) (p : Payment) : bool :=
  (p_MerchantID p =? merchantID) && sql_eq (p_CustomerID p) customerID.

(** [count(id)] with a [group by]: no group, no row. *)
Definition CalculateCustomerPayments (merchantID : Z) (customerID : NullInt64) (status : string) : Go Z :=
  read (fun d =>
    let l := select (fun p => customer_payment merchantID customerID p && bool_decide (p_Status p = status)) (payments d) in
    (fun _ => Z.of_nat (length l)) <$> one l).

(** Unique [uuid]. *)
Definition CreateCustomer (uuid : string) (createdAt updatedAt : Z) (email : NullString) (merchantID : Z) :
  Go Customer := query (fun d =>
  let mk id := mkCustomer id uuid createdAt updatedAt email merchantID in
  if existsb (fun c => bool_decide (c_Uuid c = uuid)) (rows (customers d)) then
    (Err unique_violation, set_customers (skip_id (customers d)) d)
  else (Ok (mk (next_id (customers d))), set_customers (insert_row mk (customers d)) d)).

Definition GetBatchCustomers (merchantID : Z) (ids : list Z) : Go (list Customer) :=
  read (fun d => Ok (select (fun c => (c_MerchantID c =? merchantID) && in_ids (c_ID c) ids) (customers d))).

Definition GetCustomerByEmail (email : NullString) (merchantID : Z) : Go Customer :=
  read (fun d => one (select (fun c => sql_eq (c_Email c) email && (c_MerchantID c =? merchantID)) (customers d))).

Definition GetCustomerByID (id merchantID : Z) : Go Customer :=
  read (fun d => one (select (fun c => by_id id c && (c_MerchantID c =? merchantID)) (customers d))).

Definition GetCustomerByUUID (uuid : string) (merchantID : Z) : Go Customer :=
  read (fun d => one (select (fun c => bool_decide (c_Uuid c = uuid) && (c_MerchantID c =? merchantID)) (customers d))).

Definition GetRecentCustomerPayments (merchantID : Z) (customerID : NullInt64) (limit : Z) : Go (list Payment) :=
  read (fun d => limit_rows limit (rev (select (customer_payment merchantID customerID) (payments d)))).

Definition PaginateCustomersAsc (merchantID id limit : Z) : Go (list Customer) :=
  read (fun d => limit_rows limit (select (fun c => (c_MerchantID c =? merchantID) && (id <=? c_ID c)) (customers d))).

Definition PaginateCustomersDesc (merchantID id limit : Z) : Go (list Customer) :=
  read (fun d => limit_rows limit (rev (select (fun c => (c_MerchantID c =? merchantID) && (c_ID c <=? id)) (customers d)))).

(** ** merchants.sql.go *)
Definition trashed_ok (withTrashed : bool) (m : Merchant) : bool := withTrashed || negb (Valid (mt_DeletedAt m)).

(** Unique [uuid]. *)
Definition CreateMerchant (uuid : string) (createdAt updatedAt : Z) (deletedAt : NullTime) (name website : string)
  (creatorID : Z) (settings : JSONB) : Go Merchant := query (fun d =>
  match pg_jsonb settings with
  | Ok settings =>
    let mk id := mkMerchant id uuid createdAt updatedAt deletedAt name website creatorID settings in
    if existsb (fun m => bool_decide (mt_Uuid m = uuid)) (rows (merchants d)) then
      (Err unique_violation, set_merchants (skip_id (merchants d)) d)
    else (Ok (mk (next_id (merchants d))), set_merchants (insert_row mk (merchants d)) d)
  | Err e => (Err e, d)
  | Panic p => (Panic p, d)
  end).

Definition GetMerchantByID (id : Z) (withTrashed : bool) : Go Merchant :=
  read (fun d => one (select (fun m => by_id id m && trashed_ok withTrashed m) (merchants d))).

Definition GetMerchantByUUID (uuid : string) (withTrashed : bool) : Go Merchant :=
  read (fun d => one (select (fun m => bool_decide (mt_Uuid m = uuid) && trashed_ok withTrashed m) (merchants d))).

Definition GetMerchantByUUIDAndCreatorID (uuid : string) (creatorID : Z) (withTrashed : bool) : Go Merchant :=
  read (fun d => one (select (fun m => bool_decide (mt_Uuid m = uuid) && (mt_CreatorID m =? creatorID) &&
    trashed_ok withTrashed m) (merchants d))).

Definition ListMerchantsByCreatorID (creatorID : Z) (withTrashed : bool) : Go (list Merchant) :=
  read (fun d => Ok (rev (select (fun m => (mt_CreatorID m =? creatorID) && trashed_ok withTrashed m) (merchants d)))).

Definition merchant_deleted (deletedAt : Z) (m : Merchant) : Merchant :=
  mkMerchant (mt_ID m) (mt_Uuid m) (mt_CreatedAt m) (mt_UpdatedAt m) (TimeToNullable deletedAt) (mt_Name m)
    (mt_Website m) (mt_CreatorID m) (mt_Settings m).

(** [current_timestamp] is a reading of the clock. *)
Definition SoftDeleteMerchantByUUID (uuid : string) : Go unit :=
  now ← time_Now;
  query (fun d => (Ok tt, set_merchants (update_rows (fun m => bool_decide (mt_Uuid m = uuid))
    (merchant_deleted now) (merchants d)) d)).

Definition merchant_updated (updatedAt : Z) (name website : string) (m : Merchant) : Merchant :=
  mkMerchant (mt_ID m) (mt_Uuid m) (mt_CreatedAt m) updatedAt (mt_DeletedAt m) name website (mt_CreatorID m)
    (mt_Settings m).

Definition UpdateMerchant (id updatedAt : Z) (name website : string) : Go Merchant := query (fun d =>
  (merchant_updated updatedAt name website <$> one (select (by_id id) (merchants d)),
   set_merchants (update_rows (by_id id) (merchant_updated updatedAt name website) (merchants d)) d)).

Definition with_settings (updatedAt : Z) (settings : JSONB) (m : Merchant) : Merchant :=
  mkMerchant (mt_ID m) (mt_Uuid m) (mt_CreatedAt m) updatedAt (mt_DeletedAt m) (mt_Name m) (mt_Website m)
    (mt_CreatorID m) settings.

Definition UpdateMerchantSettings (id updatedAt : Z) (settings : JSONB) : Go unit := query (fun d =>
  match pg_jsonb settings with
  | Ok settings => (Ok tt, set_merchants (update_rows (by_id id) (with_settings updatedAt settings) (merchants d)) d)
  | Err e => (Err e, d)
  | Panic p => (Panic p, d)
  end).

(** ** merchant_addresses.sql.go *)
Definition CreateMerchantAddress (createdAt updatedAt : Z) (uuid : string) (merchantID : Z)
  (name blockchain address : string) : Go MerchantAddress := query (fun d =>
  let mk id := mkMerchantAddress id uuid createdAt updatedAt merchantID name blockchain address in
  (Ok (mk (next_id (merchant_addresses d))), set_merchant_addresses (insert_row mk (merchant_addresses d)) d)).

Definition address_at (merchantID id : Z) (a : MerchantAddress) : bool :=
  (ma_MerchantID a =? merchantID) && by_id id a.

Definition DeleteMerchantAddress (merchantID id : Z) : Go unit := query (fun d =>
  (Ok tt, set_merchant_addresses (delete_rows (address_at merchantID id) (merchant_addresses d)) d)).

Definition GetMerchantAddressByAddress (merchantID : Z) (address blockchain : string) : Go MerchantAddress :=
  read (fun d => one (select (fun a => (ma_MerchantID a =? merchantID) && bool_decide (ma_Address a = address) &&
    bool_decide (ma_Blockchain a = blockchain)) (merchant_addresses d))).

Definition GetMerchantAddressByID (merchantID id : Z) : Go MerchantAddress :=
  read (fun d => one (select (address_at merchantID id) (merchant_addresses d))).

Definition GetMerchantAddressByUUID (merchantID : Z) (uuid : string) : Go MerchantAddress :=
  read (fun d => one (select (fun a => (ma_MerchantID a =? merchantID) && bool_decide (ma_Uuid a = uuid))
    (merchant_addresses d))).

Definition ListMerchantAddresses (merchantID : Z) : Go (list MerchantAddress) :=
  read (fun d => Ok (rev (select (fun a => ma_MerchantID a =? merchantID) (merchant_addresses d)))).

Definition address_renamed (name : string) (updatedAt : Z) (a : MerchantAddress) : MerchantAddress :=
  mkMerchantAddress (ma_ID a) (ma_Uuid a) (ma_CreatedAt a) updatedAt (ma_MerchantID a) name (ma_Blockchain a)
    (ma_Address a).

Definition UpdateMerchantAddress (merchantID id : Z) (name : string) (updatedAt : Z) : Go MerchantAddress :=
  query (fun d =>
    (address_renamed name updatedAt <$> one (select (address_at merchantID id) (merchant_addresses d)),
     set_merchant_addresses (update_rows (address_at merchantID id) (address_renamed name updatedAt)
       (merchant_addresses d)) d)).

(** ** The constraints of the schema are kept *)
Lemma update_payments_schema d p f :
  (forall r, row_id (f r) = row_id r /\ p_Price (f r) = p_Price r /\ payment_key (f r) = payment_key r) ->
  schema_step d (set_payments (update_rows p f (payments d)) d).
Proof.
  intros Hf. apply step_payments; simpl; [lia|]. intros [Hwf]. split; [apply wf_update; [apply Hf|apply Hwf]|]. split.
  - apply all_update; [|done]. intros r _ _. by rewrite (proj1 (proj2 (Hf r))).
  - apply uniq_update; [apply Hf| |done]. intros r _. left. apply Hf.
Qed.

Lemma CreatePayment_schema arg : steps schema_step (CreatePayment arg).
Proof.
  apply steps_query. intros d. destruct (pg_numeric_not_null (cp_Price arg)) as [n|e|p] eqn:En; simpl; try reflexivity.
  destruct (pg_jsonb _) as [j|e|p]; simpl; try reflexivity.
  destruct (existsb _ _) eqn:Ex; apply step_payments; simpl; try lia; intros [Hwf].
  - split; [|done]. apply wf_next; [simpl; lia|apply Hwf].
  - split; [by apply wf_insert; [|apply Hwf]|]. split; [apply all_insert; [|done]; by apply (pg_numeric_not_null_whole _ _ En)|].
    apply uniq_insert; [|done]. intros r Hr _ Hk. pose proof (existsb_false _ _ Ex r Hr) as Hf.
    unfold payment_key in Hk. simpl in Hk. injection Hk as K1 K2. revert Hf. unfold order_of.
    by rewrite K1, K2, Z.eqb_refl, bool_decide_true.
Qed.

Lemma UpdatePayment_schema arg : steps schema_step (UpdatePayment arg).
Proof. apply steps_query. intros d. by apply update_payments_schema. Qed.
Lemma UpdatePaymentCustomerID_schema c id : steps schema_step (UpdatePaymentCustomerID c id).
Proof. apply steps_query. intros d. by apply update_payments_schema. Qed.
Lemma UpdatePaymentWebhookInfo_schema id m s u : steps schema_step (UpdatePaymentWebhookInfo id m s u).
Proof. apply steps_query. intros d. by apply update_payments_schema. Qed.

(** Inserting a row whose unique text is new. *)
Lemma insert_unique {A} `{HasID A} (f : A -> string) (k : A -> option string) (t : Table A) mk v :
  (forall r, k r = Some (f r)) -> (forall n, row_id (mk n) = n /\ f (mk n) = v) ->
  existsb (fun r => bool_decide (f r = v)) (rows t) = false ->
  table_wf t -> uniq_on k t -> table_wf (insert_row mk t) /\ uniq_on k (insert_row mk t).
Proof.
  intros Hk Hmk Ex Hwf Hu. split; [apply wf_insert; [apply Hmk|done]|]. apply uniq_insert; [|done].
  intros r Hr _. rewrite !Hk. intros [= E]. pose proof (existsb_false _ _ Ex r Hr) as Hf. simpl in Hf.
  by rewrite E, (proj2 (Hmk _)), bool_decide_true in Hf.
Qed.

Lemma CreatePaymentLink_schema arg : steps schema_step (CreatePaymentLink arg).
Proof.
  apply steps_query. intros d. destruct (pg_numeric _); try reflexivity. simpl.
  destruct (existsb _ _) eqn:Ex; apply step_payment_links; simpl; try lia; intros [Hwf].
  - split; [|done]. apply wf_next; [simpl; lia|apply Hwf].
  - apply (insert_unique l_Slug _ _ _ (cl_Slug arg)); try done. apply Hwf.
Qed.

Lemma DeletePaymentLinkByPublicID_schema m u : steps schema_step (DeletePaymentLinkByPublicID m u).
Proof.
  apply steps_query. intros d. apply step_payment_links; simpl; [lia|]. intros [Hwf].
  split; [apply wf_delete, Hwf|by apply uniq_delete].
Qed.

Lemma CreateCustomer_schema u a b e m : steps schema_step (CreateCustomer u a b e m).
Proof.
  apply steps_query. intros d. cbv zeta. destruct (existsb _ _) eqn:Ex; apply step_customers; simpl; try lia; intros [Hwf].
  - split; [|done]. apply wf_next; [simpl; lia|apply Hwf].
  - apply (insert_unique c_Uuid _ _ _ u); try done. apply Hwf.
Qed.

Lemma CreateMerchant_schema u a b x n s c j : steps schema_step (CreateMerchant u a b x n s c j).
Proof.
  apply steps_query. intros d. destruct (pg_jsonb j) as [k|?|?]; try reflexivity. cbv zeta.
  destruct (existsb _ _) eqn:Ex; apply step_merchants; simpl; try lia; intros [Hwf].
  - split; [|done]. apply wf_next; [simpl; lia|apply Hwf].
  - apply (insert_unique mt_Uuid _ _ _ u); try done. apply Hwf.
Qed.

Lemma update_merchants_schema d p f : (forall r, row_id (f r) = row_id r /\ mt_Uuid (f r) = mt_Uuid r) ->
  schema_step d (set_merchants (update_rows p f (merchants d)) d).
Proof.
  intros Hf. apply step_merchants; simpl; [lia|]. intros [Hwf]. split; [apply wf_update; [apply Hf|apply Hwf]|].
  apply uniq_update; [apply Hf| |done]. intros r _. left. unfold merchant_key. f_equal. apply Hf.
Qed.

Lemma SoftDeleteMerchantByUUID_schema u : steps schema_step (SoftDeleteMerchantByUUID u).
Proof.
  apply steps_bind; [tc_solve|apply steps_now; tc_solve|]. intros now. apply steps_query. intros d.
  by apply update_merchants_schema.
Qed.
Lemma UpdateMerchant_schema id u n s : steps schema_step (UpdateMerchant id u n s).
Proof. apply steps_query. intros d. by apply update_merchants_schema. Qed.
Lemma UpdateMerchantSettings_schema id u j : steps schema_step (UpdateMerchantSettings id u j).
Proof.
  apply steps_query. intros d. destruct (pg_jsonb j); try reflexivity. by apply update_merchants_schema.
Qed.

Lemma CreateMerchantAddress_schema a b u m n c x : steps schema_step (CreateMerchantAddress a b u m n c x).
Proof.
  apply steps_query. intros d. apply step_merchant_addresses; simpl; [lia|]. intros [Hwf].
  apply wf_insert; [done|apply Hwf].
Qed.
Lemma DeleteMerchantAddress_schema m id : steps schema_step (DeleteMerchantAddress m id).
Proof.
  apply steps_query. intros d. apply step_merchant_addresses; simpl; [lia|]. intros [Hwf]. apply wf_delete, Hwf.
Qed.
Lemma UpdateMerchantAddress_schema m id n u : steps schema_step (UpdateMerchantAddress m id n u).
Proof.
  apply steps_query. intros d. apply step_merchant_addresses; simpl; [lia|]. intros [Hwf].
  apply wf_update; [done|apply Hwf].
Qed.

#[export] Hint Resolve CreatePayment_schema UpdatePayment_schema UpdatePaymentCustomerID_schema
  UpdatePaymentWebhookInfo_schema CreatePaymentLink_schema DeletePaymentLinkByPublicID_schema
  CreateCustomer_schema CreateMerchant_schema SoftDeleteMerchantByUUID_schema UpdateMerchant_schema
  UpdateMerchantSettings_schema CreateMerchantAddress_schema DeleteMerchantAddress_schema
  UpdateMerchantAddress_schema : schema.
