(* ===== verification/Fees.v ===== *)
(** * Fees: network fee values

    The fee types of [internal/service/blockchain/service_fees.go] and
    [service_bitcoin.go]: a [Fee] carries the fee of one blockchain behind an
    interface value, and each [To...Fee] is a type assertion. *)

From S2P Require Import Prelude GoLib Money.

Record EthFee := mkEthFee {
  eth_GasUnits : Z; eth_GasPrice : string; eth_PriorityFee : string;
  eth_TotalCostWEI : string; eth_TotalCostETH : string; eth_TotalCostUSD : string; eth_totalCostUSD : Money
}.
Record MaticFee := mkMaticFee {
  matic_GasUnits : Z; matic_GasPrice : string; matic_PriorityFee : string;
  matic_TotalCostWEI : string; matic_TotalCostMATIC : string; matic_TotalCostUSD : string;
  matic_totalCostUSD : Money
}.
Record BSCFee := mkBSCFee {
  bsc_GasUnits : Z; bsc_GasPrice : string; bsc_PriorityFee : string;
  bsc_TotalCostWEI : string; bsc_TotalCostBNB : string; bsc_TotalCostUSD : string; bsc_totalCostUSD : Money
}.
Record TronFee := mkTronFee {
  tron_FeeLimitSun : Z; tron_FeeLimitTRX : string; tron_FeeLimitUSD : string; tron_feeLimitUSD : Money
}.
Record BitcoinFee := mkBitcoinFee {
  btc_FeeSatPerVByte : string; btc_EstimatedBytes : string; btc_TotalCostSats : string;
  btc_TotalCostBTC : string; btc_TotalCostUSD : string; btc_totalCostUSD : Money
}.

(** The dynamic type of [Fee.raw]. *)
Inductive raw_fee :=
| RawEth (f : EthFee)
| RawMatic (f : MaticFee)
| RawBSC (f : BSCFee)
| RawTron (f : TronFee)
| RawBitcoin (f : BitcoinFee)
| RawNil.

Record Fee := mkFee { fee_CalculatedAt : Z; fee_Currency : CryptoCurrency; fee_IsTest : bool; fee_raw : raw_fee }.

Definition NewFee (currency : CryptoCurrency) (at_ : Z) (isTest : bool) (fee : raw_fee) : Fee :=
  mkFee at_ currency isTest fee.

Definition ToEthFee (f : Fee) : res EthFee :=
  match fee_raw f with RawEth fee => Ok fee | _ => Err (ENew "invalid fee type assertion for ETH") end.
Definition ToMaticFee (f : Fee) : res MaticFee :=
  match fee_raw f with RawMatic fee => Ok fee | _ => Err (ENew "invalid fee type assertion for MATIC") end.
Definition ToBSCFee (f : Fee) : res BSCFee :=
  match fee_raw f with RawBSC fee => Ok fee | _ => Err (ENew "invalid fee type assertion for BSC") end.
Definition ToTronFee (f : Fee) : res TronFee :=
  match fee_raw f with RawTron fee => Ok fee | _ => Err (ENew "invalid fee type assertion for TRON") end.
Definition ToBitcoinFee (f : Fee) : res BitcoinFee :=
  match fee_raw f with RawBitcoin fee => Ok fee | _ => Err (ENew "invalid fee type assertion for BTC") end.
