(* ===== verification/Bitcoin.v ===== *)
(** * Bitcoin: UTXO selection and transaction plans

    [internal/service/blockchain/service_bitcoin.go]: choosing inputs for an
    amount or a sweep, the fee of a transaction, the largest amount that can
    be sent, and the plans the wallet service signs. Amounts are [int64]
    satoshis with Go's wrap-around; fee rates are doubles. The block explorer
    is an interface of this component. *)

From Stdlib Require Import SpecFloat Sorted.
From S2P Require Import Prelude GoLib Float64 KmsWallet Money Repository Fees.

Definition ErrValidation : error := ESentinel "blockchain.ErrValidation".
Definition ErrInsufficientFunds : error := ESentinel "blockchain.ErrInsufficientFunds".
Definition ErrUnsupportedRuntime : error := ESentinel "blockchain.ErrUnsupportedRuntime".

Definition bitcoinMainnetFeeSatPerVByte : float64 := f64_dec 10 0.
Definition bitcoinTestnetFeeSatPerVByte : float64 := f64_dec 2 0.
Definition litecoinMainnetFeeSatPerVByte : float64 := f64_dec 2 0.
Definition litecoinTestnetFeeSatPerVByte : float64 := f64_dec 1 0.
Definition minimumUTXOFeeSatPerVByte : float64 := f64_dec 1 (-1).
Definition bitcoinDustSats : Z := 546.
Definition bitcoinRequiredConfirmations : Z := 6.
Definition litecoinRequiredConfirmations : Z := 12.

Record BitcoinUTXO := mkUTXO {
  u_Hash : string; u_Index : Z; u_AmountSats : Z; u_Script : string; u_Address : string; u_BlockNumber : Z
}.

Record BitcoinUTXOKey := mkUTXOKey { k_Hash : string; k_Index : Z }.

#[export] Instance BitcoinUTXOKey_eq_dec : EqDecision BitcoinUTXOKey.
Proof. solve_decision. Defined.

Record BitcoinOutput := mkOutput { o_Address : string; o_AmountSats : Z }.

Record BitcoinTransactionPlan := mkPlan {
  p_Inputs : list BitcoinUTXO; p_Outputs : list BitcoinOutput; p_ChangeAddress : string;
  p_FeeSatPerVByte : Z; p_EstimatedVBytes : Z; p_FeeSats : Z; p_RequiredAmountSat : Z; p_RBF : bool
}.

(** ** Fees *)
Definition estimateBitcoinP2WPKHVSize (inputs outputs : Z) : Z :=
  (10 + 68 * inputs + 31 * outputs)%i64.

Definition utxoFeeSats (vbytes : Z) (feeRate : float64) : Z :=
  if (vbytes <=? 0) || f64_le feeRate f64_zero then 0
  else f64_int64 (f64_ceil (f64_mul (f64_of_Z vbytes) feeRate)).

Definition bitcoinFeeRate (isTest : bool) : float64 :=
  if isTest then bitcoinTestnetFeeSatPerVByte else bitcoinMainnetFeeSatPerVByte.

Definition fallbackUTXOFeeRate (blockchain : string) (isTest : bool) : float64 :=
  if bool_decide (blockchain = LTC) then
    (if isTest then litecoinTestnetFeeSatPerVByte else litecoinMainnetFeeSatPerVByte)
  else bitcoinFeeRate isTest.

(** [math.Max] of two doubles that are not NaN *)
Definition f64_max (a b : float64) : float64 := if f64_lt a b then b else a.

(** The estimates are listed in the order the map is iterated. *)
Definition economicalUTXOFeeRate (estimates : list (string * float64)) : option float64 :=
  let best := fold_left (fun best e =>
    if f64_le e.2 f64_zero then best
    else if f64_eq best f64_zero || f64_lt e.2 best then e.2 else best) estimates f64_zero in
  if f64_eq best f64_zero then None else Some (f64_max best minimumUTXOFeeSatPerVByte).

Definition utxoRequiredConfirmations (blockchain : string) : Z :=
  if bool_decide (blockchain = LTC) then litecoinRequiredConfirmations else bitcoinRequiredConfirmations.

Definition invalid_fee_rate : error := EWrap ErrValidation "invalid UTXO fee rate".

Definition parseUTXOFeeRate (raw : string) : res float64 :=
  match ParseFloat raw with
  | Some feeRate => if f64_le feeRate f64_zero then Err invalid_fee_rate else Ok feeRate
  | None => Err invalid_fee_rate
  end.

Definition satoshiAmount (amount : Money) : res Z :=
  let '(bigInt, decimals) := BigInt amount in
  if negb (bool_decide (m_type amount = Crypto)) || negb (decimals =? 8) then
    Err (EWrap ErrValidation "UTXO amount must be crypto with 8 decimals")
  else if negb ((- 2 ^ 63 <=? bigInt) && (bigInt <? 2 ^ 63)) then
    Err (EWrap ErrValidation "UTXO amount is too large")
  else Ok bigInt.

(** ** Input selection *)
Definition not_enough : error := EWrap ErrInsufficientFunds "not enough BTC UTXOs to cover amount and network fee".

Fixpoint select_loop (utxos : list BitcoinUTXO) (amountSats : Z) (feeRate : float64)
  (selected : list BitcoinUTXO) (inputTotal : Z) : res (list BitcoinUTXO * Z * Z * Z) :=
  match utxos with
  | [] => Err not_enough
  | utxo :: utxos =>
    if u_AmountSats utxo <=? 0 then select_loop utxos amountSats feeRate selected inputTotal else
    let selected := selected ++ [utxo] in
    let inputTotal := (inputTotal + u_AmountSats utxo)%i64 in
    let estimatedWithChange := estimateBitcoinP2WPKHVSize (Z.of_nat (length selected)) 2 in
    let feeWithChange := utxoFeeSats estimatedWithChange feeRate in
    let changeSats := (inputTotal - amountSats - feeWithChange)%i64 in
    if bitcoinDustSats <=? changeSats then Ok (selected, feeWithChange, changeSats, estimatedWithChange) else
    let estimatedWithoutChange := estimateBitcoinP2WPKHVSize (Z.of_nat (length selected)) 1 in
    let feeWithoutChange := (inputTotal - amountSats)%i64 in
    if (utxoFeeSats estimatedWithoutChange feeRate <=? feeWithoutChange) && (0 <=? feeWithoutChange)
    then Ok (selected, feeWithoutChange, 0, estimatedWithoutChange)
    else select_loop utxos amountSats feeRate selected inputTotal
  end.

(** Returns the inputs, the fee, the change and the estimated size. *)
Definition selectBitcoinUTXOs (utxos : list BitcoinUTXO) (amountSats : Z) (feeRate : float64)
  : res (list BitcoinUTXO * Z * Z * Z) :=
  if (amountSats <=? 0) || f64_le feeRate f64_zero then
    Err (EWrap ErrValidation "invalid BTC amount or fee rate")
  else select_loop utxos amountSats feeRate [] 0.

Definition add_sats (total : Z) (u : BitcoinUTXO) : Z := (total + u_AmountSats u)%i64.

(** Returns the inputs, the amount, the fee and the estimated size. *)
Definition selectBitcoinSweepUTXOs (utxos : list BitcoinUTXO) (feeRate : float64)
  : res (list BitcoinUTXO * Z * Z * Z) :=
  if f64_le feeRate f64_zero then Err (EWrap ErrValidation "invalid BTC fee rate") else
  let perInputFee := utxoFeeSats 68 feeRate in
  let selected := List.filter (fun u => negb (u_AmountSats u <=? perInputFee)) utxos in
  let inputTotal := fold_left add_sats selected 0 in
  if (length selected =? 0)%nat then Err (EWrap ErrInsufficientFunds "not enough BTC UTXOs to sweep") else
  let estimatedVBytes := estimateBitcoinP2WPKHVSize (Z.of_nat (length selected)) 1 in
  let feeSats := utxoFeeSats estimatedVBytes feeRate in
  let amountSats := (inputTotal - feeSats)%i64 in
  if amountSats <? bitcoinDustSats then
    Err (EWrap ErrInsufficientFunds "sweep amount is below BTC dust threshold after network fee")
  else Ok (selected, amountSats, feeSats, estimatedVBytes).

Definition utxo_key (u : BitcoinUTXO) : BitcoinUTXOKey := mkUTXOKey (u_Hash u) (u_Index u).

Definition excludeBitcoinUTXOs (utxos : list BitcoinUTXO) (excluded : list BitcoinUTXOKey) : list BitcoinUTXO :=
  List.filter (fun u => negb (existsb (fun k => bool_decide (k = utxo_key u)) excluded)) utxos.

(** ** The largest amount that fits a budget

    The binary search over candidate amounts; [fuel] bounds its iterations
    (64 are enough for any [int64] interval, see [max_search_enough]). *)
Fixpoint max_search (fuel : nat) (utxos : list BitcoinUTXO) (feeRate : float64) (maxTotalCostSats : Z)
  (low high bestSats bestFeeSats : Z) : res (Z * Z) :=
  if negb (low <=? high) then Ok (bestSats, bestFeeSats) else
  match fuel with
  | O => Panic "out of fuel"
  | S fuel =>
    let candidateSats := (low + Z.quot (high - low) 2)%i64 in
    match selectBitcoinUTXOs utxos candidateSats feeRate with
    | Err errSelect =>
      if errors_Is errSelect ErrInsufficientFunds then
        max_search fuel utxos feeRate maxTotalCostSats low (candidateSats - 1)%i64 bestSats bestFeeSats
      else Err errSelect
    | Panic p => Panic p
    | Ok (_, feeSats, _, _) =>
      if (candidateSats + feeSats)%i64 <=? maxTotalCostSats then
        max_search fuel utxos feeRate maxTotalCostSats (candidateSats + 1)%i64 high candidateSats feeSats
      else max_search fuel utxos feeRate maxTotalCostSats low (candidateSats - 1)%i64 bestSats bestFeeSats
    end
  end.

Definition maxBitcoinTransactionAmountAndFeeFromUTXOs (currency : CryptoCurrency) (maxTotalCostSats : Z)
  (utxos : list BitcoinUTXO) (feeRate : float64) : res (Money * Money) :=
  zero ← CryptoCurrency_MakeAmount currency "0";
  '(bestSats, bestFeeSats) ← max_search 64 utxos feeRate maxTotalCostSats bitcoinDustSats maxTotalCostSats 0 0;
  if bestSats <? bitcoinDustSats then mret (zero, zero) else
  amount ← CryptoCurrency_MakeAmount currency (FormatInt bestSats);
  fee ← CryptoCurrency_MakeAmount currency (FormatInt bestFeeSats);
  mret (amount, fee).

Definition unsupported_runtime : error := EWrap ErrUnsupportedRuntime "UTXO runtime supports native BTC/LTC coins only".

Definition MaxBitcoinTransactionAmountAndFeeFromUTXOs (currency : CryptoCurrency) (fee : Fee) (maxTotalCost : Money)
  (utxos : list BitcoinUTXO) : res (Money * Money) :=
  let feeCurrency := fee_Currency fee in
  zero ← CryptoCurrency_MakeAmount currency "0";
  if negb (isUTXOBlockchain (cc_Blockchain feeCurrency)) || negb (bool_decide (cc_Type currency = Coin)) ||
     negb (bool_decide (cc_Type feeCurrency = Coin)) then Err unsupported_runtime
  else if negb (bool_decide (cc_Blockchain currency = cc_Blockchain feeCurrency)) then
    Err (EWrap ErrValidation (cc_Blockchain currency +:+ " fee blockchain mismatch: " +:+ cc_Blockchain feeCurrency))
  else if negb (bool_decide (cc_Ticker currency = cc_Ticker feeCurrency)) then
    Err (EWrap ErrValidation (cc_Ticker currency +:+ " fee ticker mismatch: " +:+ cc_Ticker feeCurrency))
  else if negb (bool_decide (m_ticker maxTotalCost = cc_Ticker feeCurrency)) then
    Err (EWrap ErrValidation (cc_Ticker feeCurrency +:+ " max total cost ticker mismatch: " +:+ m_ticker maxTotalCost))
  else
    feeBTC ← ToBitcoinFee fee;
    feeRate ← match parseUTXOFeeRate (btc_FeeSatPerVByte feeBTC) with Ok r => Ok r | _ => Err invalid_fee_rate end;
    maxTotalCostSats ← satoshiAmount maxTotalCost;
    if maxTotalCostSats <? bitcoinDustSats then mret (zero, zero)
    else maxBitcoinTransactionAmountAndFeeFromUTXOs currency maxTotalCostSats utxos feeRate.

Definition MaxBitcoinTransactionAmountFromUTXOs (currency : CryptoCurrency) (fee : Fee) (maxTotalCost : Money)
  (utxos : list BitcoinUTXO) : res Money :=
  '(amount, _) ← MaxBitcoinTransactionAmountAndFeeFromUTXOs currency fee maxTotalCost utxos; mret amount.

Definition BitcoinSweepAmountFromUTXOs (currency : CryptoCurrency) (fee : Fee) (utxos : list BitcoinUTXO) : res Money :=
  let feeCurrency := fee_Currency fee in
  if negb (isUTXOBlockchain (cc_Blockchain feeCurrency)) || negb (bool_decide (cc_Type currency = Coin)) ||
     negb (bool_decide (cc_Type feeCurrency = Coin)) then Err unsupported_runtime
  else if negb (bool_decide (cc_Blockchain currency = cc_Blockchain feeCurrency)) then
    Err (EWrap ErrValidation (cc_Blockchain currency +:+ " fee blockchain mismatch: " +:+ cc_Blockchain feeCurrency))
  else if negb (bool_decide (cc_Ticker currency = cc_Ticker feeCurrency)) then
    Err (EWrap ErrValidation (cc_Ticker currency +:+ " fee ticker mismatch: " +:+ cc_Ticker feeCurrency))
  else
    feeBTC ← ToBitcoinFee fee;
    feeRate ← match parseUTXOFeeRate (btc_FeeSatPerVByte feeBTC) with Ok r => Ok r | _ => Err invalid_fee_rate end;
    '(_, amountSats, _, _) ← selectBitcoinSweepUTXOs utxos feeRate;
    CryptoCurrency_MakeAmount currency (FormatInt amountSats).

(** ** Listing the spendable outputs of an address *)
Record ExplorerUTXO := mkExplorerUTXO {
  x_TxID : string; x_Vout : Z; x_Value : Z; x_Confirmed : bool; x_BlockHeight : Z
}.

Record TatumOutput := mkTatumOutput { to_Address : string; to_Value : float64 }.
(** An input's coin may be absent. *)
Record TatumTransaction := mkTatumTransaction {
  tt_Hash : string; tt_Outputs : list TatumOutput; tt_Inputs : list (option string); tt_BlockNumber : float64;
  tt_Fee : float64
}.
Record TatumUTXO := mkTatumUTXO {
  tu_Value : float64; tu_Script : string; tu_Address : string; tu_Height : float64
}.

(** The chain explorer ([providers.Chain], nil or not) and the Tatum client,
    each answer depending on the number of the call. *)
Class UTXOProviders := {
  has_chain : bool;
  UTXOAddressUTXOs : string -> string -> bool -> nat -> res (list ExplorerUTXO);
  UTXOFeeEstimates : string -> bool -> nat -> res (list (string * float64));
  tatum_HasAPIKey : bool -> bool;
  BitcoinTransactionsByAddress : string -> Z -> Z -> bool -> nat -> res (list TatumTransaction);
  tatum_BitcoinUTXO : string -> Z -> bool -> nat -> res TatumUTXO;
  (** the body of a [client.GenericSwaggerError] *)
  swagger_body : error -> option string
}.

Definition utxo_less (a b : BitcoinUTXO) : bool :=
  if u_AmountSats a =? u_AmountSats b then String.ltb (u_Hash a) (u_Hash b)
  else u_AmountSats b <? u_AmountSats a.

(** [strings.Contains] *)
Definition Contains (s sub : string) : bool :=
  match String.index 0 sub s with Some _ => true | None => false end.

Section Explorer.
Context `{UTXOProviders}.

Definition explorer_utxo (address : string) (u : ExplorerUTXO) : option BitcoinUTXO :=
  if (x_Value u <=? 0) || bool_decide (x_TxID u = "") then None
  else Some (mkUTXO (x_TxID u) (x_Vout u) (x_Value u) "" address (if x_Confirmed u then x_BlockHeight u else 0)).

Definition utxoSpendableUTXOsFromExplorer (blockchain address : string) (isTest : bool) : Go (list BitcoinUTXO) :=
  utxos ← wrapM (external (UTXOAddressUTXOs blockchain address isTest))
    ("unable to list " +:+ blockchain +:+ " address UTXOs");
  mret (SliceStable utxo_less (omap (explorer_utxo address) utxos)).

Definition isMissingBitcoinUTXO (e : error) : bool :=
  match swagger_body e with
  | None => false
  | Some body => Contains (ToLower body) "not found" || Contains (ToLower body) "404"
  end.

(** The outputs of one transaction; returns what was found and what was seen. *)
Fixpoint tatum_outputs (address hash : string) (isTest : bool) (outputIndex : Z) (outputs : list TatumOutput)
  (utxos : list BitcoinUTXO) (seen : list string) : Go (list BitcoinUTXO * list string) :=
  match outputs with
  | [] => mret (utxos, seen)
  | output :: outputs =>
    let next := tatum_outputs address hash isTest (outputIndex + 1) outputs in
    if negb (bool_decide (to_Address output = address)) || f64_le (to_Value output) f64_zero then next utxos seen else
    let key := hash +:+ ":" +:+ FormatInt outputIndex in
    if existsb (fun k => bool_decide (k = key)) seen then next utxos seen else
    r ← attempt (external (tatum_BitcoinUTXO hash (uint32 outputIndex) isTest));
    match r with
    | inr e =>
      if isMissingBitcoinUTXO e then next utxos (key :: seen) else fail (EWrap e "unable to verify BTC UTXO")
    | inl utxo =>
      if f64_le (tu_Value utxo) f64_zero then next utxos (key :: seen) else
      next (utxos ++ [mkUTXO hash (uint32 outputIndex) (f64_int64 (f64_round (tu_Value utxo)))
        (tu_Script utxo) (tu_Address utxo) (f64_int64 (f64_round (tu_Height utxo)))]) (key :: seen)
    end
  end.

Fixpoint tatum_transactions (address : string) (isTest : bool) (txs : list TatumTransaction)
  (utxos : list BitcoinUTXO) (seen : list string) : Go (list BitcoinUTXO * list string) :=
  match txs with
  | [] => mret (utxos, seen)
  | tx :: txs =>
    '(utxos, seen) ← tatum_outputs address (tt_Hash tx) isTest 0 (tt_Outputs tx) utxos seen;
    tatum_transactions address isTest txs utxos seen
  end.

Definition bitcoinAddressTxPageSize : Z := 50.
Definition bitcoinMaxAddressTxPages : nat := 10.

Fixpoint tatum_pages (pages : nat) (page : Z) (address : string) (isTest : bool)
  (utxos : list BitcoinUTXO) (seen : list string) : Go (list BitcoinUTXO) :=
  match pages with
  | O => mret utxos
  | S pages =>
    txs ← wrapM (external (BitcoinTransactionsByAddress address bitcoinAddressTxPageSize
      (page * bitcoinAddressTxPageSize) isTest)) "unable to list BTC address transactions";
    if (length txs =? 0)%nat then mret utxos else
    '(utxos, seen) ← tatum_transactions address isTest txs utxos seen;
    if Z.of_nat (length txs) <? bitcoinAddressTxPageSize then mret utxos
    else tatum_pages pages (page + 1) address isTest utxos seen
  end.

Definition utxoSpendableUTXOs (blockchain address : string) (isTest : bool) : Go (list BitcoinUTXO) :=
  if has_chain then utxoSpendableUTXOsFromExplorer blockchain address isTest
  else if negb (bool_decide (blockchain = BTC)) then fail (ENew "LTC UTXO lookup requires chain provider")
  else if negb (tatum_HasAPIKey isTest) then
    fail (ENew "BTC UTXO lookup requires chain provider or Tatum API key")
  else
    utxos ← tatum_pages bitcoinMaxAddressTxPages 0 address isTest [] [];
    mret (SliceStable utxo_less utxos).

Definition utxoFeeRate (blockchain : string) (isTest : bool) : Go float64 :=
  if has_chain then
    r ← attempt (external (UTXOFeeEstimates blockchain isTest));
    match r with
    | inl estimates =>
      match economicalUTXOFeeRate estimates with
      | Some feeRate => mret feeRate
      | None => mret (fallbackUTXOFeeRate blockchain isTest)
      end
    | inr _ => mret (fallbackUTXOFeeRate blockchain isTest)
    end
  else mret (fallbackUTXOFeeRate blockchain isTest).

(** ** Transaction plans *)
Context `{Btcutil}.

Definition check_utxo_currency (fee : Fee) : Go unit :=
  if negb (isUTXOBlockchain (cc_Blockchain (fee_Currency fee))) || negb (bool_decide (cc_Type (fee_Currency fee) = Coin))
  then fail unsupported_runtime else mret tt.

Definition check_address (blockchain address : string) (isTest : bool) (who : string) : Go unit :=
  wrapM (lift (ValidateAddressForNetwork blockchain address isTest))
    ("invalid " +:+ blockchain +:+ " " +:+ who +:+ " address").

Definition fee_rate (fee : Fee) : res float64 :=
  feeBTC ← ToBitcoinFee fee;
  match parseUTXOFeeRate (btc_FeeSatPerVByte feeBTC) with Ok r => Ok r | _ => Err invalid_fee_rate end.

Definition SpendableUTXOsExcluding (senderAddress : string) (fee : Fee) (isTest : bool)
  (excluded : list BitcoinUTXOKey) : Go (list BitcoinUTXO) :=
  let blockchain := cc_Blockchain (fee_Currency fee) in
  _ ← check_utxo_currency fee;
  _ ← check_address blockchain senderAddress isTest "sender";
  utxos ← utxoSpendableUTXOs blockchain senderAddress isTest;
  mret (excludeBitcoinUTXOs utxos excluded).

Definition MaxBitcoinTransactionAmountExcluding (senderAddress recipient : string) (currency : CryptoCurrency)
  (fee : Fee) (isTest : bool) (maxTotalCost : Money) (excluded : list BitcoinUTXOKey) : Go Money :=
  let blockchain := cc_Blockchain (fee_Currency fee) in
  _ ← check_utxo_currency fee;
  _ ← check_address blockchain senderAddress isTest "sender";
  _ ← check_address blockchain recipient isTest "recipient";
  utxos ← SpendableUTXOsExcluding senderAddress fee isTest excluded;
  lift (MaxBitcoinTransactionAmountFromUTXOs currency fee maxTotalCost utxos).

Definition PrepareBitcoinSweepTransactionExcluding (senderAddress recipient : string) (fee : Fee) (isTest : bool)
  (excluded : list BitcoinUTXOKey) : Go BitcoinTransactionPlan :=
  let blockchain := cc_Blockchain (fee_Currency fee) in
  _ ← check_utxo_currency fee;
  _ ← check_address blockchain senderAddress isTest "sender";
  _ ← check_address blockchain recipient isTest "recipient";
  feeRate ← lift (fee_rate fee);
  utxos ← utxoSpendableUTXOs blockchain senderAddress isTest;
  let utxos := excludeBitcoinUTXOs utxos excluded in
  '(selected, amountSats, feeSats, estimatedVBytes) ← lift (selectBitcoinSweepUTXOs utxos feeRate);
  mret (mkPlan selected [mkOutput recipient amountSats] "" (f64_int64 (f64_ceil feeRate))
    estimatedVBytes feeSats amountSats true).

Definition PrepareBitcoinTransactionExcluding (senderAddress recipient : string) (amount : Money) (fee : Fee)
  (isTest : bool) (excluded : list BitcoinUTXOKey) : Go BitcoinTransactionPlan :=
  let blockchain := cc_Blockchain (fee_Currency fee) in
  let ticker := cc_Ticker (fee_Currency fee) in
  _ ← check_utxo_currency fee;
  if negb (bool_decide (m_ticker amount = ticker)) then
    fail (EWrap ErrValidation (ticker +:+ " amount ticker mismatch: " +:+ m_ticker amount)) else
  _ ← check_address blockchain senderAddress isTest "sender";
  _ ← check_address blockchain recipient isTest "recipient";
  feeRate ← lift (fee_rate fee);
  amountSats ← lift (satoshiAmount amount);
  if amountSats <=? 0 then fail (EWrap ErrValidation (ticker +:+ " amount must be positive")) else
  if amountSats <? bitcoinDustSats then
    fail (EWrap ErrValidation (ticker +:+ " amount is below dust threshold 546 sat")) else
  utxos ← utxoSpendableUTXOs blockchain senderAddress isTest;
  let utxos := excludeBitcoinUTXOs utxos excluded in
  '(selected, feeSats, changeSats, estimatedVBytes) ← lift (selectBitcoinUTXOs utxos amountSats feeRate);
  let change := if bitcoinDustSats <=? changeSats then [mkOutput senderAddress changeSats] else [] in
  mret (mkPlan selected (mkOutput recipient amountSats :: change) senderAddress (f64_int64 (f64_ceil feeRate))
    estimatedVBytes feeSats amountSats true).

Definition PrepareBitcoinTransaction (senderAddress recipient : string) (amount : Money) (fee : Fee) (isTest : bool) :
  Go BitcoinTransactionPlan :=
  PrepareBitcoinTransactionExcluding senderAddress recipient amount fee isTest [].

Definition PrepareBitcoinSweepTransaction (senderAddress recipient : string) (fee : Fee) (isTest : bool) :
  Go BitcoinTransactionPlan :=
  PrepareBitcoinSweepTransactionExcluding senderAddress recipient fee isTest [].
End Explorer.

(** ** Lemmas: selection *)
Definition spendable (utxos : list BitcoinUTXO) : list BitcoinUTXO :=
  List.filter (fun u => negb (u_AmountSats u <=? 0)) utxos.

Fixpoint total (l : list BitcoinUTXO) : Z :=
  match l with [] => 0 | u :: l => u_AmountSats u + total l end.

(** The network fee of [n] inputs and [o] outputs. *)
Definition fee_of (r : float64) (n : nat) (o : Z) : Z :=
  utxoFeeSats (estimateBitcoinP2WPKHVSize (Z.of_nat n) o) r.

(** The first [n] spendable outputs pay the amount and their own fee, with a
    change above dust or without change. *)
Definition affordable (a : Z) (r : float64) (l : list BitcoinUTXO) (n : nat) : Prop :=
  let t := total (take n l) in
  bitcoinDustSats <= t - a - fee_of r n 2 \/ (fee_of r n 1 <= t - a /\ 0 <= t - a).

(** Amounts below 2^62 satoshi (all bitcoins are fewer than 2^51) and fees that
    are not negative: no addition overflows. *)
Definition in_bounds (r : float64) (utxos : list BitcoinUTXO) : Prop :=
  total (spendable utxos) < 2 ^ 62 /\ f64_le r f64_zero = false /\
  forall n o, (n <= length (spendable utxos))%nat -> o = 1 \/ o = 2 -> 0 <= fee_of r n o < 2 ^ 62.

(** What a selection of [n] inputs says. *)
Definition selection_ok (a : Z) (r : float64) (s : list BitcoinUTXO) (fee change vbytes : Z) : Prop :=
  total s = a + fee + change /\
  ((change = 0 /\ vbytes = estimateBitcoinP2WPKHVSize (Z.of_nat (length s)) 1 /\ fee_of r (length s) 1 <= fee) \/
   (bitcoinDustSats <= change /\ vbytes = estimateBitcoinP2WPKHVSize (Z.of_nat (length s)) 2 /\
    fee = fee_of r (length s) 2)).

Lemma total_app l l' : total (l ++ l') = total l + total l'.
Proof. induction l as [|u l IH]; simpl; [done|]. lia. Qed.

Lemma spendable_positive l : Forall (fun u => 0 < u_AmountSats u) (spendable l).
Proof. apply Forall_forall. intros u [_ Hu]%elem_of_filter_bool. lia. Qed.

Lemma total_nonneg l : Forall (fun u => 0 < u_AmountSats u) l -> 0 <= total l.
Proof. induction 1; simpl; lia. Qed.

Lemma take_app_length' {A} (l l' : list A) n : (n <= length l)%nat -> take n (l ++ l') = take n l.
Proof. intros. by rewrite take_app_le. Qed.

Section Select.
Context (a : Z) (r : float64) (Ha : 0 < a < 2 ^ 62).

Lemma select_loop_spec utxos : forall sel,
  Forall (fun u => 0 < u_AmountSats u) sel ->
  total (sel ++ spendable utxos) < 2 ^ 62 ->
  (forall n o, (n <= length (sel ++ spendable utxos))%nat -> o = 1 \/ o = 2 -> 0 <= fee_of r n o < 2 ^ 62) ->
  match select_loop utxos a r sel (total sel) with
  | Ok (s, fee, change, vbytes) => exists n, (length sel < n <= length (sel ++ spendable utxos))%nat /\
      s = take n (sel ++ spendable utxos) /\ affordable a r (sel ++ spendable utxos) n /\
      (forall k, (length sel < k < n)%nat -> ~ affordable a r (sel ++ spendable utxos) k) /\
      selection_ok a r s fee change vbytes
  | Err e => e = not_enough /\
      forall k, (length sel < k <= length (sel ++ spendable utxos))%nat -> ~ affordable a r (sel ++ spendable utxos) k
  | Panic _ => False
  end.
Proof.
  induction utxos as [|u utxos IH]; intros sel Hsel Htot Hfee; cbn [select_loop].
  { split; [done|]. simpl. rewrite app_nil_r. lia. }
  unfold spendable in *. cbn [List.filter] in *. destruct (Z.leb_spec (u_AmountSats u) 0) as [Hu|Hu]; cbn [negb] in *.
  { by apply IH. }
  change (List.filter _ utxos) with (spendable utxos) in *.
  assert (sel ++ u :: spendable utxos = (sel ++ [u]) ++ spendable utxos) as He by by rewrite <- app_assoc.
  rewrite He in *. set (sel' := sel ++ [u]) in *.
  assert (length sel' = S (length sel)) as Hlen by (unfold sel'; rewrite length_app; simpl; lia).
  assert (total sel' = total sel + u_AmountSats u) as Ht' by (unfold sel'; rewrite total_app; simpl; lia).
  assert (Forall (fun u => 0 < u_AmountSats u) sel') as Hsel' by (apply Forall_app_2; [done|by constructor]).
  pose proof (total_nonneg _ Hsel) as H0. pose proof (total_nonneg _ (spendable_positive utxos)) as H1.
  rewrite total_app in Htot.
  assert (total sel + u_AmountSats u < 2 ^ 62) as Hlt by lia.
  pose proof (Hfee (S (length sel)) 2 ltac:(rewrite length_app, Hlen; lia) ltac:(auto)) as Hf2.
  pose proof (Hfee (S (length sel)) 1 ltac:(rewrite length_app, Hlen; lia) ltac:(auto)) as Hf1.
  rewrite (int64_small (total sel + _)) by (unfold in_int64; lia). rewrite <- Ht', Hlen.
  change (utxoFeeSats (estimateBitcoinP2WPKHVSize (Z.of_nat (S (length sel))) 2) r) with (fee_of r (S (length sel)) 2).
  change (utxoFeeSats (estimateBitcoinP2WPKHVSize (Z.of_nat (S (length sel))) 1) r) with (fee_of r (S (length sel)) 1).
  rewrite (int64_small (total sel' - a)) by (unfold in_int64; lia).
  rewrite (int64_small (total sel' - a - _)) by (unfold in_int64; lia).
  assert (take (S (length sel)) (sel' ++ spendable utxos) = sel') as Htake by (rewrite <- Hlen; by rewrite take_app_length).
  assert (affordable a r (sel' ++ spendable utxos) (S (length sel)) <->
    bitcoinDustSats <= total sel' - a - fee_of r (S (length sel)) 2 \/
    (fee_of r (S (length sel)) 1 <= total sel' - a /\ 0 <= total sel' - a)) as Haff
    by (unfold affordable; by rewrite Htake).
  destruct (Z.leb_spec bitcoinDustSats (total sel' - a - fee_of r (S (length sel)) 2)) as [Hc|Hc].
  { exists (S (length sel)). rewrite Htake, Haff, length_app, Hlen. split_and!; [lia|lia|done|by left|intros; lia|].
    split; [lia|]. right. by rewrite Hlen. }
  destruct (Z.leb_spec (fee_of r (S (length sel)) 1) (total sel' - a)) as [Hd|Hd]; cbn [andb].
  - destruct (Z.leb_spec 0 (total sel' - a)) as [Hz|Hz]; [|lia].
    exists (S (length sel)). rewrite Htake, Haff, length_app, Hlen. split_and!; [lia|lia|done|by right|intros; lia|].
    split; [lia|]. left. rewrite Hlen. split_and!; [done|done|lia].
  - specialize (IH sel' Hsel'). rewrite total_app in IH. specialize (IH Htot Hfee).
    destruct (select_loop utxos a r sel' (total sel')) as [[[[s fee] change] vb]|e|p]; [| |done].
    + destruct IH as (n & Hn & Hs & Haf & Hmin & Hok). exists n. split_and!; try done; try lia.
      intros k Hk. destruct (decide (k = S (length sel))) as [->|]; [rewrite Haff; lia|apply Hmin; lia].
    + destruct IH as (-> & Hmin). split; [done|]. intros k Hk.
      destruct (decide (k = S (length sel))) as [->|]; [rewrite Haff; lia|apply Hmin; lia].
Qed.

Lemma select_spec utxos : in_bounds r utxos ->
  match selectBitcoinUTXOs utxos a r with
  | Ok (s, fee, change, vbytes) => exists n, (0 < n <= length (spendable utxos))%nat /\
      s = take n (spendable utxos) /\ affordable a r (spendable utxos) n /\
      (forall k, (0 < k < n)%nat -> ~ affordable a r (spendable utxos) k) /\
      selection_ok a r s fee change vbytes
  | Err e => e = not_enough /\ forall k, (0 < k <= length (spendable utxos))%nat -> ~ affordable a r (spendable utxos) k
  | Panic _ => False
  end.
Proof.
  intros (Ht & Hr & Hf). unfold selectBitcoinUTXOs. rewrite (proj2 (Z.leb_gt a 0)), Hr by lia. cbn [orb].
  exact (select_loop_spec utxos [] ltac:(constructor) Ht Hf).
Qed.
End Select.

(** [c] satoshi and their fee fit the budget [m]. *)
Definition fits (r : float64) (utxos : list BitcoinUTXO) (m c : Z) : Prop :=
  match selectBitcoinUTXOs utxos c r with Ok (_, fee, _, _) => c + fee <= m | _ => False end.

Lemma total_take l n : Forall (fun u => 0 < u_AmountSats u) l -> total (take n l) <= total l.
Proof.
  intros Hl. revert n. induction Hl as [|u l Hu Hl IH]; intros [|n]; simpl; try lia.
  - pose proof (total_nonneg _ Hl). lia.
  - specialize (IH n). lia.
Qed.

Lemma select_total c r utxos s fee change vb : 0 < c < 2 ^ 62 -> in_bounds r utxos ->
  selectBitcoinUTXOs utxos c r = Ok (s, fee, change, vb) ->
  0 <= fee /\ 0 <= change /\ c + fee + change = total s /\ total s < 2 ^ 62.
Proof.
  intros Hc Hb Hs. pose proof (select_spec c r Hc utxos Hb) as H. rewrite Hs in H.
  destruct H as (n & Hn & -> & _ & _ & Hok & Hor). destruct Hb as (Ht & _ & Hf).
  pose proof (total_take (spendable utxos) n (spendable_positive _)).
  rewrite length_take in Hor. unfold bitcoinDustSats in Hor.
  pose proof (Hf (n `min` length (spendable utxos))%nat 1 ltac:(lia) ltac:(auto)).
  pose proof (Hf (n `min` length (spendable utxos))%nat 2 ltac:(lia) ltac:(auto)).
  lia.
Qed.

(** One step of the search decides its candidate. *)
Lemma select_fits r utxos m c : 0 < c < 2 ^ 62 -> in_bounds r utxos ->
  (exists s fee change vb, selectBitcoinUTXOs utxos c r = Ok (s, fee, change, vb) /\
     int64 (c + fee) = c + fee /\ (fits r utxos m c <-> c + fee <= m)) \/
  (selectBitcoinUTXOs utxos c r = Err not_enough /\ ~ fits r utxos m c).
Proof.
  intros Hc Hb. pose proof (select_spec c r Hc utxos Hb) as H. unfold fits.
  destruct (selectBitcoinUTXOs utxos c r) as [[[[s fee] change] vb]|e|p] eqn:E; [|right; destruct H as [-> _]; tauto|done].
  left. exists s, fee, change, vb. pose proof (select_total _ _ _ _ _ _ _ Hc Hb E).
  split; [done|]. split; [|done]. apply int64_small. unfold in_int64. lia.
Qed.

Definition search_result (r : float64) (utxos : list BitcoinUTXO) (m : Z) (best fee : Z) : Prop :=
  best = 0 /\ fee = 0 \/
  (bitcoinDustSats <= best <= m /\ fits r utxos m best /\
   exists s change vb, selectBitcoinUTXOs utxos best r = Ok (s, fee, change, vb)).

Lemma max_search_enough r utxos m (Hb : in_bounds r utxos) (Hm : m < 2 ^ 62) fuel : forall low high best fee,
  bitcoinDustSats <= low -> high <= m -> low <= high + 1 -> high - low + 1 < 2 ^ Z.of_nat fuel ->
  search_result r utxos m best fee ->
  (best = 0 /\ low = bitcoinDustSats \/ best = low - 1) -> (high = m \/ ~ fits r utxos m (high + 1)) ->
  exists best' fee', max_search fuel utxos r m low high best fee = Ok (best', fee') /\
    search_result r utxos m best' fee' /\
    (best' = 0 -> bitcoinDustSats <= m -> ~ fits r utxos m bitcoinDustSats) /\
    (best' <> 0 -> best' = m \/ ~ fits r utxos m (best' + 1)).
Proof.
  unfold bitcoinDustSats in *.
  induction fuel as [|fuel IH]; intros low high best fee Hlow Hhigh Hle Hsize Hres Hbest Htop; cbn [max_search].
  - rewrite Z.pow_0_r in Hsize. rewrite (proj2 (Z.leb_gt low high)) by lia. cbn [negb].
    exists best, fee. split; [done|]. split; [done|]. assert (low = high + 1) as -> by lia.
    destruct Hres as [[-> ->]|[Hres _]]; [|unfold bitcoinDustSats in Hres]; split; intros; try (exfalso; lia).
    + destruct Htop as [->|Htop]; [lia|]. destruct Hbest as [[_ Hd]|Hd]; [by rewrite Hd in Htop|lia].
    + destruct Hbest as [[? _]|Hd]; [exfalso; lia|]. rewrite Hd. replace (high + 1 - 1) with high by lia. destruct Htop; auto.
  - destruct (Z.leb_spec low high) as [Hlh|Hlh]; cbn [negb].
    2: { exists best, fee. split; [done|]. split; [done|]. assert (low = high + 1) as -> by lia.
      destruct Hres as [[-> ->]|[Hres _]]; [|unfold bitcoinDustSats in Hres]; split; intros; try (exfalso; lia).
      + destruct Htop as [->|Htop]; [lia|]. destruct Hbest as [[_ Hd]|Hd]; [by rewrite Hd in Htop|lia].
      + destruct Hbest as [[? _]|Hd]; [exfalso; lia|]. rewrite Hd. replace (high + 1 - 1) with high by lia. destruct Htop; auto. }
    rewrite Nat2Z.inj_succ, Z.pow_succ_r in Hsize by lia.
    pose proof (Z.quot_div_nonneg (high - low) 2 ltac:(lia) ltac:(lia)) as Hq.
    pose proof (Z.div_mod (high - low) 2 ltac:(lia)) as Hdm. pose proof (Z.mod_pos_bound (high - low) 2 ltac:(lia)).
    rewrite (int64_small (low + _)) by (unfold in_int64; rewrite Hq; lia).
    set (c := low + Z.quot (high - low) 2) in *. assert (low <= c <= high) as Hc by lia.
    rewrite (int64_small (c - 1)) by (unfold in_int64; lia). rewrite (int64_small (c + 1)) by (unfold in_int64; lia).
    destruct (select_fits r utxos m c ltac:(lia) Hb) as [(s & f & ch & vb & Hs & Hi & Hfit)|[Hs Hfit]]; rewrite Hs.
    + rewrite Hi. destruct (Z.leb_spec (c + f) m) as [Hcm|Hcm].
      * apply IH; try lia; [right|done]. unfold bitcoinDustSats. split; [lia|].
        split; [by apply Hfit|]. by exists s, ch, vb.
      * apply IH; try lia; [done|]. right. replace (c - 1 + 1) with c by lia. rewrite Hfit. lia.
    + cbn [errors_Is not_enough]. rewrite orb_true_r by done.
      apply IH; try lia; [done|]. right. by replace (c - 1 + 1) with c by lia.
Qed.

Lemma MakeAmount_int c z : CryptoCurrency_MakeAmount c (FormatInt z) =
  Ok (mkMoney Crypto (cc_Ticker c) (Some z) (cc_Decimals c)).
Proof. apply New_FormatInt. Qed.

Lemma MakeAmount_zero c : CryptoCurrency_MakeAmount c "0" =
  Ok (mkMoney Crypto (cc_Ticker c) (Some 0) (cc_Decimals c)).
Proof. done. Qed.

Fixpoint output_total (l : list BitcoinOutput) : Z :=
  match l with [] => 0 | o :: l => o_AmountSats o + output_total l end.

Lemma total_fold l : forall t, 0 <= t -> Forall (fun u => 0 < u_AmountSats u) l -> t + total l < 2 ^ 63 ->
  fold_left add_sats l t = t + total l.
Proof.
  induction l as [|u l IH]; intros t Ht Hl Hb; simpl in *; [lia|].
  apply Forall_cons in Hl as [Hu Hl]. pose proof (total_nonneg _ Hl).
  unfold add_sats at 2. rewrite int64_small by (unfold in_int64; lia). rewrite IH by (done || lia). lia.
Qed.

Lemma elem_of_exclude u utxos excluded :
  u ∈ excludeBitcoinUTXOs utxos excluded <-> u ∈ utxos /\ utxo_key u ∉ excluded.
Proof.
  unfold excludeBitcoinUTXOs. rewrite elem_of_filter_bool, negb_true_iff.
  assert (existsb (fun k => bool_decide (k = utxo_key u)) excluded = false <-> utxo_key u ∉ excluded) as ->; [|done].
  rewrite <- not_true_iff_false, existsb_exists. split; intros Hn.
  - intros Hin. apply Hn. exists (utxo_key u). rewrite <- list_elem_of_In. by rewrite bool_decide_true.
  - intros (k & Hk & He%bool_decide_eq_true). apply Hn. by rewrite <- He, list_elem_of_In.
Qed.


Lemma in_take_spendable n u l : u ∈ take n (spendable l) -> u ∈ l /\ 0 < u_AmountSats u.
Proof.
  intros Hu. assert (u ∈ spendable l) as [? Hp]%elem_of_filter_bool.
  { rewrite <- (take_drop n (spendable l)). apply elem_of_app. by left. }
  split; [done|lia].
Qed.

(** ** Properties *)

(** Input selection conserves satoshis and is the shortest that works: for
    a positive amount, with amounts and fees in bounds, [selectBitcoinUTXOs]
    takes the first n positive outputs for the least n that can pay the amount
    and the network fee; the inputs are the amount plus the fee plus the
    change, the change is zero or at least the dust limit, and the fee covers
    the estimated size; and it fails with [ErrInsufficientFunds] exactly when
    no prefix can pay. *)
Theorem selectBitcoinUTXOs_shortest (utxos : list BitcoinUTXO) (amountSats : Z) (feeRate : float64)
  (Ha : 0 < amountSats < 2 ^ 62) (Hb : in_bounds feeRate utxos) :
  match selectBitcoinUTXOs utxos amountSats feeRate with
  | Ok (selected, fee, change, vbytes) => exists n, (0 < n <= length (spendable utxos))%nat /\
      selected = take n (spendable utxos) /\ affordable amountSats feeRate (spendable utxos) n /\
      (forall k, (0 < k < n)%nat -> ~ affordable amountSats feeRate (spendable utxos) k) /\
      selection_ok amountSats feeRate selected fee change vbytes
  | Err e => errors_Is e ErrInsufficientFunds = true /\
      forall k, (0 < k <= length (spendable utxos))%nat -> ~ affordable amountSats feeRate (spendable utxos) k
  | Panic _ => False
  end.
Proof.
  pose proof (select_spec amountSats feeRate Ha utxos Hb) as H.
  destruct (selectBitcoinUTXOs _ _ _) as [[[[? ?] ?] ?]|e|p]; [done| |done]. by destruct H as [-> ?].
Qed.

Definition ex_utxos : list BitcoinUTXO :=
  [mkUTXO "a" 0 90000 "" "" 1; mkUTXO "b" 1 0 "" "" 1; mkUTXO "c" 0 20000 "" "" 1].
Definition ex_rate : float64 := f64_dec 10 0.

Lemma ex_in_bounds : in_bounds ex_rate ex_utxos.
Proof.
  split; [vm_compute; reflexivity|]. split; [reflexivity|].
  intros n o Hn Ho. simpl in Hn. assert (n = 0 \/ n = 1 \/ n = 2)%nat as Hcases by lia.
  destruct Hcases as [-> | [-> | ->]], Ho as [-> | ->]; vm_compute; by split.
Qed.

Lemma selectBitcoinUTXOs_shortest_witness :
  exists s, selectBitcoinUTXOs ex_utxos 100000 ex_rate = Ok (s, 2080, 7920, 208) /\
    selection_ok 100000 ex_rate s 2080 7920 208.
Proof.
  pose proof (selectBitcoinUTXOs_shortest ex_utxos 100000 ex_rate ltac:(lia) ex_in_bounds) as H.
  destruct (selectBitcoinUTXOs ex_utxos 100000 ex_rate) as [[[[s f] c] v]|e|p] eqn:E; vm_compute in E; [|discriminate|discriminate].
  injection E as <- <- <- <-. destruct H as (n & _ & _ & _ & _ & H). eexists. split; [reflexivity|exact H].
Defined.

(** A sweep spends everything worth spending: with amounts and fees in
    bounds, [selectBitcoinSweepUTXOs] takes exactly the outputs worth more
    than the fee of an input, and their total is the amount sent plus the fee
    of a transaction of that size with one output; it fails only when the
    amount left would be dust. *)
Theorem selectBitcoinSweepUTXOs_conserves (utxos : list BitcoinUTXO) (feeRate : float64)
  (Hb : in_bounds feeRate utxos) (Hin : 0 <= utxoFeeSats 68 feeRate) :
  let worth := List.filter (fun u => negb (u_AmountSats u <=? utxoFeeSats 68 feeRate)) utxos in
  match selectBitcoinSweepUTXOs utxos feeRate with
  | Ok (selected, amount, fee, vbytes) =>
      selected = worth /\ total selected = amount + fee /\ bitcoinDustSats <= amount /\
      vbytes = estimateBitcoinP2WPKHVSize (Z.of_nat (length selected)) 1 /\ fee = fee_of feeRate (length selected) 1
  | Err e => errors_Is e ErrInsufficientFunds = true /\
      (worth = [] \/ total worth - fee_of feeRate (length worth) 1 < bitcoinDustSats)
  | Panic _ => False
  end.
Proof.
  intros worth. destruct Hb as (Ht & Hr & Hf). unfold selectBitcoinSweepUTXOs. rewrite Hr. cbv zeta.
  change (List.filter _ utxos) with worth.
  assert (Forall (fun u => 0 < u_AmountSats u) worth) as Hpos.
  { apply Forall_forall. intros u [_ Hu]%elem_of_filter_bool. lia. }
  assert (total worth <= total (spendable utxos) /\ (length worth <= length (spendable utxos))%nat) as [Hle Hlen].
  { unfold worth, spendable. clear -Hin. induction utxos as [|u l IH]; simpl; [lia|].
    destruct (Z.leb_spec (u_AmountSats u) (utxoFeeSats 68 feeRate)), (Z.leb_spec (u_AmountSats u) 0); simpl; lia. }
  destruct (Nat.eqb_spec (length worth) 0) as [H0|H0].
  { split; [done|]. left. by apply nil_length_inv. }
  rewrite total_fold by (done || lia). rewrite Z.add_0_l.
  change (utxoFeeSats (estimateBitcoinP2WPKHVSize (Z.of_nat (length worth)) 1) feeRate) with (fee_of feeRate (length worth) 1).
  pose proof (Hf (length worth) 1 Hlen ltac:(auto)). pose proof (total_nonneg _ Hpos).
  rewrite int64_small by (unfold in_int64; lia).
  destruct (Z.ltb_spec (total worth - fee_of feeRate (length worth) 1) bitcoinDustSats).
  - split; [done|by right].
  - split_and!; try done; lia.
Qed.

Lemma selectBitcoinSweepUTXOs_conserves_witness :
  exists s, selectBitcoinSweepUTXOs ex_utxos ex_rate = Ok (s, 108230, 1770, 177) /\ total s = 108230 + 1770.
Proof.
  pose proof (selectBitcoinSweepUTXOs_conserves ex_utxos ex_rate ex_in_bounds ltac:(vm_compute; discriminate)) as H.
  cbv zeta in H.
  destruct (selectBitcoinSweepUTXOs ex_utxos ex_rate) as [[[[s f] c] v]|e|p] eqn:E; vm_compute in E; [|discriminate|discriminate].
  injection E as <- <- <- <-. destruct H as (_ & H & _). eexists. split; [reflexivity|exact H].
Defined.

Lemma max_search_total r utxos m : in_bounds r utxos -> bitcoinDustSats <= m < 2 ^ 62 ->
  exists best fee, max_search 64 utxos r m bitcoinDustSats m 0 0 = Ok (best, fee) /\
    search_result r utxos m best fee /\
    (best = 0 -> bitcoinDustSats <= m -> ~ fits r utxos m bitcoinDustSats) /\
    (best <> 0 -> best = m \/ ~ fits r utxos m (best + 1)).
Proof.
  intros Hb [Hm1 Hm2]. apply max_search_enough; [done|done|done|done|unfold bitcoinDustSats in *; lia| | | |].
  - change (2 ^ Z.of_nat 64) with (2 ^ 64). unfold bitcoinDustSats in *. lia.
  - by left.
  - by left.
  - by left.
Qed.

Definition sats_money (c : CryptoCurrency) (z : Z) : Money := mkMoney Crypto (cc_Ticker c) (Some z) (cc_Decimals c).

(** The largest amount of a budget: with amounts and fees in bounds,
    [maxBitcoinTransactionAmountAndFeeFromUTXOs] always returns (64 rounds of
    its binary search suffice for any [int64] interval) an amount and the fee
    selection gives it; together they are within the budget, the amount is
    zero or above dust, zero only if the dust amount itself does not fit, and
    one more satoshi would not fit unless the amount is the whole budget. *)
Theorem max_amount_sound (currency : CryptoCurrency) (maxTotalCostSats : Z) (utxos : list BitcoinUTXO)
  (feeRate : float64) (Hb : in_bounds feeRate utxos) (Hm : bitcoinDustSats <= maxTotalCostSats < 2 ^ 62) :
  exists amount fee,
    maxBitcoinTransactionAmountAndFeeFromUTXOs currency maxTotalCostSats utxos feeRate = Ok (amount, fee) /\
    val amount + val fee <= maxTotalCostSats /\
    (val amount = 0 /\ val fee = 0 /\ ~ fits feeRate utxos maxTotalCostSats bitcoinDustSats \/
     bitcoinDustSats <= val amount /\ fits feeRate utxos maxTotalCostSats (val amount) /\
     (exists s change vbytes, selectBitcoinUTXOs utxos (val amount) feeRate = Ok (s, val fee, change, vbytes)) /\
     (val amount = maxTotalCostSats \/ ~ fits feeRate utxos maxTotalCostSats (val amount + 1))).
Proof.
  destruct (max_search_total feeRate utxos maxTotalCostSats Hb Hm) as (best & f & Hs & Hr & Hz & Hnz).
  unfold maxBitcoinTransactionAmountAndFeeFromUTXOs. revert Hs.
  generalize (max_search 64 utxos feeRate maxTotalCostSats bitcoinDustSats maxTotalCostSats 0 0) as R. intros R ->.
  rewrite MakeAmount_zero. cbn [mbind res_bind].
  destruct Hr as [[-> ->]|(Hbest & Hfit & s & change & vb & Hsel)].
  - exists (sats_money currency 0), (sats_money currency 0). split; [reflexivity|].
    change (val (sats_money currency 0)) with 0.
    split; [unfold bitcoinDustSats in *; lia|]. left. split; [done|]. split; [done|]. apply Hz; [done|]. lia.
  - rewrite (proj2 (Z.ltb_ge best bitcoinDustSats)) by lia.
    rewrite !MakeAmount_int. cbn [mbind res_bind mret res_ret].
    exists (sats_money currency best), (sats_money currency f). split; [reflexivity|].
    change (val (sats_money currency best)) with best. change (val (sats_money currency f)) with f.
    split; [unfold fits in Hfit; by rewrite Hsel in Hfit|]. right. split; [lia|]. split; [done|].
    split; [by exists s, change, vb|]. apply Hnz. unfold bitcoinDustSats in *. lia.
Qed.

Lemma max_amount_sound_witness :
  exists amount fee, maxBitcoinTransactionAmountAndFeeFromUTXOs (mkCrypto "BTC" "" "" "" "coin" "BTC" "" 8 "" "" [] false)
    100000 ex_utxos ex_rate = Ok (amount, fee) /\ val amount + val fee <= 100000.
Proof.
  destruct (max_amount_sound (mkCrypto "BTC" "" "" "" "coin" "BTC" "" 8 "" "" [] false) 100000 ex_utxos ex_rate
    ex_in_bounds) as (amount & fee & H & Hle & _).
  - unfold bitcoinDustSats. lia.
  - exists amount, fee. split; [exact H|exact Hle].
Defined.

(** ** Lemmas: plans and listings *)
Section Plans.
Context `{UTXOProviders} `{Btcutil}.

Lemma wp_check_currency fee w (Q : res unit -> world -> Prop) :
  Q (Ok tt) w -> Q (Err unsupported_runtime) w -> wp (check_utxo_currency fee) w Q.
Proof. intros Hok He. unfold check_utxo_currency. destruct (_ || _); by wp_step. Qed.

Lemma wp_check_address b a t who w (Q : res unit -> world -> Prop) :
  (ValidateAddressForNetwork b a t = Ok tt -> Q (Ok tt) w) -> (forall e, Q (Err e) w) -> (forall p, Q (Panic p) w) ->
  wp (check_address b a t who) w Q.
Proof.
  intros Hok He Hp. unfold check_address. do 2 wp_step.
  destruct (ValidateAddressForNetwork b a t) as [[]|e|p]; simpl; auto.
Qed.

(** What every prepared plan promises. *)
Definition plan_ok (recipient : string) (amount : Z) (r : float64) (utxos : list BitcoinUTXO)
  (excluded : list BitcoinUTXOKey) (plan : BitcoinTransactionPlan) : Prop :=
  total (p_Inputs plan) = output_total (p_Outputs plan) + p_FeeSats plan /\
  head (p_Outputs plan) = Some (mkOutput recipient amount) /\ p_RequiredAmountSat plan = amount /\
  Forall (fun o => bitcoinDustSats <= o_AmountSats o) (p_Outputs plan) /\
  (forall u, u ∈ p_Inputs plan -> u ∈ utxos /\ utxo_key u ∉ excluded) /\
  fee_of r (length (p_Inputs plan)) (Z.of_nat (length (p_Outputs plan))) <= p_FeeSats plan.

(** Who the plan is between: sender and recipient are valid on the network, the
    outputs are theirs and the inputs are worth something. *)
Definition plan_addressed (sender recipient blockchain : string) (isTest : bool) (plan : BitcoinTransactionPlan) : Prop :=
  isUTXOBlockchain blockchain = true /\ ValidateAddressForNetwork blockchain sender isTest = Ok tt /\
  ValidateAddressForNetwork blockchain recipient isTest = Ok tt /\
  Forall (fun o => o_Address o = recipient \/ o_Address o = sender) (p_Outputs plan) /\
  (forall u, u ∈ p_Inputs plan -> 0 < u_AmountSats u).

Lemma wp_prepare sender recipient amount fee isTest excluded w utxos w1 r :
  utxoSpendableUTXOs (cc_Blockchain (fee_Currency fee)) sender isTest w = (Ok utxos, w1) ->
  fee_rate fee = Ok r -> in_bounds r (excludeBitcoinUTXOs utxos excluded) -> val amount < 2 ^ 62 ->
  wp (PrepareBitcoinTransactionExcluding sender recipient amount fee isTest excluded) w (fun x _ =>
    forall plan, x = Ok plan -> plan_ok recipient (val amount) r utxos excluded plan /\
      plan_addressed sender recipient (cc_Blockchain (fee_Currency fee)) isTest plan).
Proof.
  intros Hu Hr Hb Hv. unfold PrepareBitcoinTransactionExcluding. cbv zeta.
  wp_step. unfold check_utxo_currency. destruct (isUTXOBlockchain _) eqn:Eutxo; [|cbn [negb orb]; by wp_step]. cbn [negb orb].
  destruct (negb _); [by wp_step|]. wp_step.
  destruct (negb (bool_decide _)); [by wp_step|].
  wp_step. apply wp_check_address; [intros Hsend|done|done].
  wp_step. apply wp_check_address; [intros Hrec|done|done].
  do 2 wp_step. rewrite Hr. do 2 wp_step.
  unfold satoshiAmount, BigInt. destruct (_ || _); [done|]. destruct (negb _); [done|].
  destruct (Z.leb_spec (val amount) 0) as [|Hpos]; [by wp_step|].
  destruct (Z.ltb_spec (val amount) bitcoinDustSats) as [|Hdust]; [by wp_step|].
  wp_step. unfold wp at 1. rewrite Hu. cbn [fst snd]. do 2 wp_step.
  pose proof (select_spec (val amount) r (conj Hpos Hv) _ Hb) as Hs.
  destruct (selectBitcoinUTXOs _ _ _) as [[[[s f] ch] vb]|e|p]; [|done|done].
  destruct Hs as (n & Hn & -> & _ & _ & Htot & Hor). wp_step. intros plan [= <-]. split.
  2:{ unfold plan_addressed. cbn [p_Inputs p_Outputs]. split_and!; try done.
    - apply Forall_cons_2; [by left|]. destruct (_ <=? ch); [apply Forall_singleton; by right|apply Forall_nil_2].
    - by intros u [_ ?]%in_take_spendable. }
  unfold plan_ok. cbn [p_Inputs p_Outputs p_FeeSats p_RequiredAmountSat].
  assert (forall u, u ∈ take n (spendable (excludeBitcoinUTXOs utxos excluded)) -> u ∈ utxos /\ utxo_key u ∉ excluded) as Hin.
  { intros u [Hin _]%in_take_spendable. by apply elem_of_exclude. }
  destruct Hor as [(-> & _ & Hf)|(Hch & _ & Hf)].
  - rewrite (proj2 (Z.leb_gt bitcoinDustSats 0)) by (unfold bitcoinDustSats; lia).
    cbn [output_total o_AmountSats length head]. split_and!; try done; [lia|by repeat constructor].
  - rewrite (proj2 (Z.leb_le bitcoinDustSats ch)) by done.
    cbn [output_total o_AmountSats length head]. split_and!; try done; [lia|by repeat constructor|].
    change (Z.of_nat 2) with 2. lia.
Qed.


Lemma utxo_less_asym a b : utxo_less a b = true -> utxo_less b a = false.
Proof.
  unfold utxo_less. rewrite (Z.eqb_sym (u_AmountSats b)). destruct (Z.eqb_spec (u_AmountSats a) (u_AmountSats b)).
  - apply ltb_asym.
  - intros Hl%Z.ltb_lt. apply Z.ltb_ge. lia.
Qed.

End Plans.

(** C28. A prepared plan balances: when [PrepareBitcoinTransactionExcluding]
    returns a plan, with amounts and fees in bounds, its inputs pay exactly
    its outputs plus its fee, the first output is the recipient's amount, no
    output is dust, no input is excluded (reserved by another transaction) or
    unknown to the explorer, and the fee covers the size of a transaction with
    this many inputs and outputs; the recipient is valid on the network. *)
Theorem prepared_plan_balances `{UTXOProviders} `{Btcutil} (sender recipient : string) (amount : Money) (fee : Fee)
  (isTest : bool) (excluded : list BitcoinUTXOKey) (w w1 w2 : world) (utxos : list BitcoinUTXO) (r : float64)
  (plan : BitcoinTransactionPlan)
  (Hu : utxoSpendableUTXOs (cc_Blockchain (fee_Currency fee)) sender isTest w = (Ok utxos, w1))
  (Hr : fee_rate fee = Ok r) (Hb : in_bounds r (excludeBitcoinUTXOs utxos excluded)) (Hv : val amount < 2 ^ 62)
  (Hrun : PrepareBitcoinTransactionExcluding sender recipient amount fee isTest excluded w = (Ok plan, w2)) :
  plan_ok recipient (val amount) r utxos excluded plan /\
  ValidateAddressForNetwork (cc_Blockchain (fee_Currency fee)) recipient isTest = Ok tt.
Proof.
  pose proof (wp_prepare sender recipient amount fee isTest excluded w utxos w1 r Hu Hr Hb Hv) as Hwp.
  unfold wp in Hwp. rewrite Hrun in Hwp. destruct (Hwp plan eq_refl) as [? (_ & _ & ? & _)]. done.
Qed.

(** An explorer that lists the example outputs, and a decoder that accepts
    every address as native segwit. *)
Definition ex_providers : UTXOProviders := {|
  has_chain := true;
  UTXOAddressUTXOs := fun _ _ _ _ => Ok [mkExplorerUTXO "c" 0 20000 true 1; mkExplorerUTXO "x" 1 0 true 1;
    mkExplorerUTXO "a" 0 90000 false 0; mkExplorerUTXO "r" 7 500000 true 1];
  UTXOFeeEstimates := fun _ _ _ => Ok [];
  tatum_HasAPIKey := fun _ => false;
  BitcoinTransactionsByAddress := fun _ _ _ _ _ => Ok [];
  tatum_BitcoinUTXO := fun _ _ _ _ => Err (ENew "");
  swagger_body := fun _ => None
|}.
#[local] Existing Instance ex_providers.
#[local] Instance ex_btcutil : Btcutil := fun address _ => Some (mkDecoded true address true).

Definition ex_btc : CryptoCurrency := mkCrypto "BTC" "" "" "" "coin" "BTC" "" 8 "" "" [] false.
Definition ex_fee : Fee :=
  mkFee 0 ex_btc false (RawBitcoin (mkBitcoinFee "10" "" "" "" "" Money_zero)).

Lemma prepared_plan_balances_witness :
  exists plan, (PrepareBitcoinTransactionExcluding "me" "you" (mkMoney Crypto "BTC" (Some 100000) 8) ex_fee false
    [mkUTXOKey "r" 7] empty_world).1 = Ok plan /\ total (p_Inputs plan) = output_total (p_Outputs plan) + p_FeeSats plan.
Proof.
  destruct (PrepareBitcoinTransactionExcluding "me" "you" (mkMoney Crypto "BTC" (Some 100000) 8) ex_fee false
    [mkUTXOKey "r" 7] empty_world) as [[plan|e|p] w2] eqn:E;
    [|exfalso; apply (f_equal fst) in E; vm_compute in E; discriminate E
     |exfalso; apply (f_equal fst) in E; vm_compute in E; discriminate E].
  exists plan. split; [reflexivity|].
  refine (proj1 (proj1 (prepared_plan_balances "me" "you" (mkMoney Crypto "BTC" (Some 100000) 8) ex_fee false
    [mkUTXOKey "r" 7] empty_world _ w2
    [mkUTXO "r" 7 500000 "" "me" 1; mkUTXO "a" 0 90000 "" "me" 0; mkUTXO "c" 0 20000 "" "me" 1] ex_rate plan _ _ _ _ E))).
  - reflexivity.
  - reflexivity.
  - split; [vm_compute; reflexivity|]. split; [reflexivity|].
    intros n o Hn Ho. simpl in Hn. assert (n = 0 \/ n = 1 \/ n = 2)%nat as Hcases by lia.
    destruct Hcases as [-> | [-> | ->]], Ho as [-> | ->]; vm_compute; by split.
  - vm_compute. reflexivity.
Defined.

(** The listing of the explorer keeps the spendable outputs only, each
    with its value, largest first and then by hash: what selection consumes
    is a permutation of the explorer's positive outputs in that order. *)
Theorem explorer_listing_sorted `{UTXOProviders} (blockchain address : string) (isTest : bool) (w w1 : world)
  (found : list ExplorerUTXO) (utxos : list BitcoinUTXO)
  (Hf : UTXOAddressUTXOs blockchain address isTest (calls w) = Ok found)
  (Hrun : utxoSpendableUTXOsFromExplorer blockchain address isTest w = (Ok utxos, w1)) :
  Sorted (in_order utxo_less) utxos /\ utxos ≡ₚ omap (explorer_utxo address) found /\
  Forall (fun u => 0 < u_AmountSats u /\ u_Hash u <> ""%string /\ u_Address u = address) utxos.
Proof.
  assert (utxos = SliceStable utxo_less (omap (explorer_utxo address) found)) as ->.
  { unfold utxoSpendableUTXOsFromExplorer, external, wrapM, mbind, M_bind in Hrun. rewrite Hf in Hrun.
    by injection Hrun as <- _. }
  split; [apply SliceStable_sorted, utxo_less_asym|]. split; [apply SliceStable_perm|].
  apply Forall_forall. intros u. rewrite SliceStable_perm. intros (x & _ & Hx)%list_elem_of_omap.
  unfold explorer_utxo in Hx. destruct (Z.leb_spec (x_Value x) 0); simplify_eq/=. case_bool_decide; simplify_eq/=. done.
Qed.

Lemma explorer_listing_sorted_witness :
  Sorted (in_order utxo_less) [mkUTXO "r" 7 500000 "" "me" 1; mkUTXO "a" 0 90000 "" "me" 0; mkUTXO "c" 0 20000 "" "me" 1].
Proof.
  eapply (explorer_listing_sorted "BTC" "me" false empty_world); reflexivity.
Defined.
