(* ===== verification/Sha256.v ===== *)
(** * Sha256: [crypto/sha256] and [encoding/hex] on byte strings

    The hash of the Standard Library of Go, on 32-bit words as [Z], with the
    lower-case hexadecimal encoding: the id a raw transaction is reserved
    under is computed with it. *)

From S2P Require Import Prelude GoLib.

Definition w32 (z : Z) : Z := z mod 2 ^ 32.
Definition rotr (x n : Z) : Z := Z.lor (Z.shiftr x n) (w32 (Z.shiftl x (32 - n))).
Definition not32 (x : Z) : Z := 2 ^ 32 - 1 - x.

(** The constants are the first 32 bits of the fractional parts of the cube
    roots of the first 64 primes, and of the square roots of the first eight. *)
Definition prime (p : Z) : bool := forallb (fun d => negb (p mod d =? 0)) (seqZ 2 (p - 2)).
Definition primes : list Z := List.filter prime (seqZ 2 310).

Definition cube_root (n : Z) : Z :=
  fold_left (fun r i => let c := r + 2 ^ i in if c * c * c <=? n then c else r) (rev (seqZ 0 40)) 0.

Definition round_constants : list Z := Eval vm_compute in map (fun p => w32 (cube_root (p * 2 ^ 96))) primes.
Definition initial_state : list Z := Eval vm_compute in map (fun p => w32 (Z.sqrt (p * 2 ^ 64))) (take 8 primes).

(** The message schedule, newest word first. *)
Fixpoint extend (n : nat) (ws : list Z) : list Z :=
  match n with
  | O => ws
  | S n =>
    let w i := nth i ws 0 in
    let s0 := Z.lxor (Z.lxor (rotr (w 14%nat) 7) (rotr (w 14%nat) 18)) (Z.shiftr (w 14%nat) 3) in
    let s1 := Z.lxor (Z.lxor (rotr (w 1%nat) 17) (rotr (w 1%nat) 19)) (Z.shiftr (w 1%nat) 10) in
    extend n (w32 (w 15%nat + s0 + w 6%nat + s1) :: ws)
  end.

Definition sha_round (st : list Z) (kw : Z * Z) : list Z :=
  match st with
  | [a; b; c; d; e; f; g; h] =>
    let s1 := Z.lxor (Z.lxor (rotr e 6) (rotr e 11)) (rotr e 25) in
    let ch := Z.lxor (Z.land e f) (Z.land (not32 e) g) in
    let t1 := h + s1 + ch + kw.1 + kw.2 in
    let s0 := Z.lxor (Z.lxor (rotr a 2) (rotr a 13)) (rotr a 22) in
    let maj := Z.lxor (Z.lxor (Z.land a b) (Z.land a c)) (Z.land b c) in
    [w32 (t1 + s0 + maj); a; b; c; w32 (d + t1); e; f; g]
  | _ => st
  end.

Definition compress (st : list Z) (block : list Z) : list Z :=
  let ws := rev (extend 48 (rev block)) in
  zip_with (fun x y => w32 (x + y)) st (fold_left sha_round (combine round_constants ws) st).

(** Big-endian words of bytes. *)
Fixpoint words (l : list Z) : list Z :=
  match l with
  | a :: b :: c :: d :: l => (((a * 256 + b) * 256 + c) * 256 + d) :: words l
  | _ => []
  end.

Fixpoint blocks (fuel : nat) (ws : list Z) (st : list Z) : list Z :=
  match fuel, ws with
  | S fuel, _ :: _ => blocks fuel (drop 16 ws) (compress st (take 16 ws))
  | _, _ => st
  end.

Definition be64 (z : Z) : list Z := (fun i => Z.shiftr z (8 * i) mod 256) <$> [7; 6; 5; 4; 3; 2; 1; 0].

Definition pad (l : list Z) : list Z :=
  let n := Z.of_nat (length l) in
  l ++ [128] ++ replicate (Z.to_nat ((55 - n) mod 64)) 0 ++ be64 (8 * n).

Definition hex_digit (z : Z) : ascii :=
  ascii_of_N (Z.to_N (if z <? 10 then 48 + z else 87 + z)).

Definition hex_byte (b : Z) : list ascii := [hex_digit (b / 16); hex_digit (b mod 16)].
Definition word_bytes (w : Z) : list Z := (fun i => Z.shiftr w (8 * i) mod 256) <$> [3; 2; 1; 0].

Definition sha256 (l : list Z) : list Z :=
  let padded := pad l in
  flat_map word_bytes (blocks (length padded) (words padded) initial_state).

(** [hex.EncodeToString(sum[:])] of [sha256.Sum256([]byte(s))] *)
Definition sha256_hex (s : string) : string :=
  of_bytes (flat_map hex_byte (sha256 ((fun c => Z.of_N (N_of_ascii c)) <$> bytes s))).

Example sha256_abc : sha256_hex "abc" = "ba7816bf8f01cfea414140de5dae2223b00361a396177a9cb410ff61f20015ad".
Proof. vm_compute. reflexivity. Qed.

(** ** The hash has 32 bytes *)
Lemma sha_round_length st kw : length st = 8%nat -> length (sha_round st kw) = 8%nat.
Proof. by destruct st as [|? [|? [|? [|? [|? [|? [|? [|? [|? ?]]]]]]]]]. Qed.

Lemma compress_length st block : length st = 8%nat -> length (compress st block) = 8%nat.
Proof.
  intros Hs. unfold compress. rewrite length_zip_with, Hs. apply Nat.min_l.
  assert (forall l s, length s = 8%nat -> length (fold_left sha_round l s) = 8%nat) as Hf.
  { induction l as [|kw l IH]; intros s Hs'; cbn [fold_left]; [done|]. by apply IH, sha_round_length. }
  by rewrite Hf.
Qed.

Lemma blocks_length fuel : forall ws st, length st = 8%nat -> length (blocks fuel ws st) = 8%nat.
Proof. induction fuel as [|fuel IH]; intros [|x ws] st Hs; cbn [blocks]; try done. by apply IH, compress_length. Qed.

Lemma sha256_length l : length (sha256 l) = 32%nat.
Proof.
  unfold sha256. pose proof (blocks_length (length (pad l)) (words (pad l)) initial_state eq_refl) as Hb.
  destruct (blocks _ _ _) as [|? [|? [|? [|? [|? [|? [|? [|? [|? ?]]]]]]]]]; done.
Qed.
