(* ===== verification/Wallet.v ===== *)
(** * Wallet: wallets, their locks and their nonces

    [internal/service/wallet]: [service.go] (creating and listing wallets),
    [service_lock.go] (a wallet collects one currency for one merchant at a
    time) and [service_nonce.go] (the transaction counters of account-based
    blockchains). The key management service is an interface ([KMS]). *)

From S2P Require Import Prelude GoLib KmsWallet Money Repository Queries.

Definition ErrNotFound : error := ESentinel "wallet.ErrNotFound".
Definition ErrInvalidBlockchain : error := ESentinel "wallet.ErrInvalidBlockchain".
Definition ErrInvalidType : error := ESentinel "wallet.ErrInvalidType".
Definition ErrUnsupportedAddressFormat : error := ESentinel "wallet.ErrUnsupportedAddressFormat".

Definition TypeInbound : string := "inbound".
Definition TypeOutbound : string := "outbound".

Record TatumSubscription := mkTatum { MainnetSubscriptionID : string; TestnetSubscriptionID : string }.

Record Wallet := mkWallet {
  wal_ID : Z; wal_CreatedAt : Z; wal_UUID : string; wal_Address : string; wal_Blockchain : string;
  wal_Type : string; wal_TatumSubscription : TatumSubscription;
  wal_ConfirmedMainnetTransactions : Z; wal_PendingMainnetTransactions : Z;
  wal_ConfirmedTestnetTransactions : Z; wal_PendingTestnetTransactions : Z
}.

Definition entryToWallet (e : Row.Wallet) : Wallet :=
  mkWallet (Row.w_ID e) (Row.w_CreatedAt e) (Row.w_Uuid e) (Row.w_Address e) (Row.w_Blockchain e)
    (null_val (Row.w_Type e))
    (mkTatum (null_val (Row.w_TatumMainnetSubscriptionID e)) (null_val (Row.w_TatumTestnetSubscriptionID e)))
    (Row.w_ConfirmedMainnetTransactions e) (Row.w_PendingMainnetTransactions e)
    (Row.w_ConfirmedTestnetTransactions e) (Row.w_PendingTestnetTransactions e).

(** The KMS client, and [uuid.Parse] of the ids it answers with. *)
Record KmsWalletPayload := mkPayload { kp_ID : string; kp_Address : string; kp_Blockchain : string }.

Class KMS := {
  kms_CreateWallet : string -> nat -> res KmsWalletPayload;
  uuid_Parse : string -> option string
}.

Definition uuid_MustParse `{KMS} (s : string) : res string :=
  match uuid_Parse s with Some u => Ok u | None => Panic "uuid: Parse" end.

Section Service.
Context `{KMS} `{Btcutil}.

Definition create (bc walletType : string) : Go Wallet :=
  res ← wrapM (external (kms_CreateWallet bc)) "kmsClient.Wallet.StoreWallet error";
  createdAt ← time_Now;
  uuid ← lift (uuid_MustParse (kp_ID res));
  entry ← wrapM (CreateWallet createdAt uuid (kp_Address res) (kp_Blockchain res) (StringToNullable walletType))
    "repo.StoreWallet error";
  mret (entryToWallet entry).

Definition Create (bc walletType : string) : Go Wallet :=
  if negb (IsValid bc) then fail ErrInvalidBlockchain
  else if negb (bool_decide (walletType = TypeOutbound)) && negb (bool_decide (walletType = TypeInbound)) then
    fail ErrInvalidType
  else create bc walletType.

(** [amount] wallets one after the other; those made before an error stay. *)
Fixpoint bulk_create (bc : string) (i : Z) (n : nat) : Go (list Wallet) :=
  match n with
  | O => mret []
  | S n =>
    w ← wrapM (Create bc TypeInbound) ("error at wallet " +:+ FormatInt i);
    ws ← bulk_create bc (i + 1) n;
    mret (w :: ws)
  end.

Definition BulkCreateWallets (bc : string) (amount : Z) : Go (list Wallet) :=
  if amount <? 0 then panic "makeslice: len out of range" else bulk_create bc 0 (Z.to_nat amount).

Definition isSupportedAddressForWallet (w : Wallet) : bool :=
  if bool_decide (wal_Blockchain w = BTC) || bool_decide (wal_Blockchain w = LTC)
  then is_ok (ValidateAddress (wal_Blockchain w) (wal_Address w)) else true.

Definition EnsureOutboundWallet (bc : string) : Go (Wallet * bool) :=
  entries ← wrapM (PaginateWalletsByID (mkPaginateWalletsByIDParams 0 100 bc (StringToNullable TypeOutbound) true true))
    "unable to list wallets";
  match List.find isSupportedAddressForWallet (map entryToWallet entries) with
  | Some w => mret (w, false)
  | None =>
    if negb (length entries =? 0)%nat then fail ErrUnsupportedAddressFormat else
    w ← wrapM (Create bc TypeOutbound) "unable to create wallet";
    mret (w, true)
  end.

Definition row_or_not_found (m : Go Row.Wallet) : Go Wallet :=
  r ← attempt m;
  match r with
  | inl e => mret (entryToWallet e)
  | inr e => if errors_Is e ErrNoRows then fail ErrNotFound else fail e
  end.

Definition GetByID (id : Z) : Go Wallet := row_or_not_found (GetWalletByID id).
Definition GetByUUID (id : string) : Go Wallet := row_or_not_found (GetWalletByUUID id).

Record Pagination := mkPagination {
  pg_Start : Z; pg_Limit : Z; pg_FilterByBlockchain : string; pg_FilterByType : string
}.

Definition List_ (pagination : Pagination) : Go (list Wallet * option Z) :=
  let byBlockchain := negb (bool_decide (pg_FilterByBlockchain pagination = "")) in
  results ← PaginateWalletsByID (mkPaginateWalletsByIDParams (pg_Start pagination) (pg_Limit pagination)
    (pg_FilterByBlockchain pagination) (StringToNullable (pg_FilterByType pagination))
    (negb (bool_decide (pg_FilterByType pagination = ""))) byBlockchain);
  match last (map entryToWallet results) with
  | None => mret ([], None)
  | Some lastWallet =>
    (* the next page is looked for without the type filter *)
    next ← PaginateWalletsByID (mkPaginateWalletsByIDParams (wal_ID lastWallet + 1)%i64 1
      (pg_FilterByBlockchain pagination) null_string false byBlockchain);
    mret (map entryToWallet results, Row.w_ID <$> head next)
  end.

(** Returns the wallet the argument points to after the call. *)
Definition UpdateTatumSubscription (wallet : Wallet) (subscription : TatumSubscription) : Go Wallet :=
  entry ← UpdateWalletTatumFields (StringToNullable (MainnetSubscriptionID subscription))
    (StringToNullable (TestnetSubscriptionID subscription)) (wal_ID wallet);
  mret (entryToWallet entry).

(** ** Locks *)
Definition lockWallet (merchantID : Z) (wallet : Wallet) (ticker networkID : string) : Go unit :=
  lockedAt ← time_Now;
  _ ← wrapM (CreateWalletLock merchantID (wal_ID wallet) ticker networkID lockedAt null_time)
    "unable to CreateWalletLock";
  mret tt.

Definition createAndLockInboundWallet (merchantID : Z) (currency : CryptoCurrency) (blockchainNetwork : string) : Go Wallet :=
  RunTransaction (
    wallet ← wrapM (create (cc_Blockchain currency) TypeInbound) "unable to create wallet";
    _ ← wrapM (lockWallet merchantID wallet (cc_Ticker currency) blockchainNetwork) "unable to lock wallet";
    mret wallet).

Definition get_and_lock (merchantID : Z) (currency : CryptoCurrency) (blockchainNetwork : string) : Go Wallet :=
  r ← attempt (GetAvailableWallet (cc_Blockchain currency) (StringToNullable TypeInbound) (cc_Ticker currency)
    blockchainNetwork);
  match r with
  | inr e =>
    if errors_Is e ErrNoRows then fail ErrNotFound
    else fail (EWrap e "unable to GetAvailableWalletByBlockchain")
  | inl entry =>
    let acquired := entryToWallet entry in
    _ ← wrapM (lockWallet merchantID acquired (cc_Ticker currency) blockchainNetwork) "unable to lock wallet";
    mret acquired
  end.

Definition AcquireLock (merchantID : Z) (currency : CryptoCurrency) (isTest : bool) : Go Wallet :=
  let blockchainNetwork := ChooseNetwork currency isTest in
  r ← attempt (RunTransaction (get_and_lock merchantID currency blockchainNetwork));
  match r with
  | inl acquired => mret acquired
  | inr e =>
    if negb (errors_Is e ErrNotFound) then fail (EWrap e "unable to find & acquire wallet")
    else wrapM (createAndLockInboundWallet merchantID currency blockchainNetwork) "unable to create & lock the wallet"
  end.

Definition AcquireFreshLock (merchantID : Z) (currency : CryptoCurrency) (isTest : bool) : Go Wallet :=
  wrapM (createAndLockInboundWallet merchantID currency (ChooseNetwork currency isTest))
    "unable to create & lock the wallet".

(** The function [ReleaseLock(ctx, q, ...)] and the method that runs it in a
    transaction of its own. *)
Definition ReleaseLock (walletID : Z) (currency networkID : string) : Go unit :=
  lock ← wrapM (GetWalletLock walletID currency networkID) "unable to get wallet lock";
  ReleaseWalletLock (Row.wl_ID lock).

Definition Service_ReleaseLock (walletID : Z) (currency networkID : string) : Go unit :=
  RunTransaction (ReleaseLock walletID currency networkID).

(** ** Nonces *)
Definition ErrTxConfirm : error := ESentinel "wallet.ErrTxConfirm".
Definition ErrTxRollback : error := ESentinel "wallet.ErrTxRollback".

Definition locked_wallet (walletID : Z) : Go Row.Wallet :=
  wrapM (GetWalletForUpdateByID walletID) "unable to get wallet for update".

Definition IncrementPendingTransaction (walletID : Z) (isTest : bool) : Go Z :=
  RunTransaction (
    w ← locked_wallet walletID;
    if isTest then
      let nonce := (Row.w_ConfirmedTestnetTransactions w + Row.w_PendingTestnetTransactions w)%i64 in
      _ ← UpdateWalletTestnetTransactionCounters walletID (Row.w_ConfirmedTestnetTransactions w)
        (Row.w_PendingTestnetTransactions w + 1)%i64;
      mret nonce
    else
      let nonce := (Row.w_ConfirmedMainnetTransactions w + Row.w_PendingMainnetTransactions w)%i64 in
      _ ← UpdateWalletMainnetTransactionCounters walletID (Row.w_ConfirmedMainnetTransactions w)
        (Row.w_PendingMainnetTransactions w + 1)%i64;
      mret nonce).

Definition IncrementConfirmedTransaction (walletID : Z) (isTest : bool) : Go unit :=
  RunTransaction (
    w ← locked_wallet walletID;
    if isTest then
      if Row.w_PendingTestnetTransactions w =? 0 then fail ErrTxConfirm else
      UpdateWalletTestnetTransactionCounters walletID (Row.w_ConfirmedTestnetTransactions w + 1)%i64
        (Row.w_PendingTestnetTransactions w - 1)%i64
    else
      if Row.w_PendingMainnetTransactions w =? 0 then fail ErrTxConfirm else
      UpdateWalletMainnetTransactionCounters walletID (Row.w_ConfirmedMainnetTransactions w + 1)%i64
        (Row.w_PendingMainnetTransactions w - 1)%i64).

Definition DecrementPendingTransaction (walletID : Z) (isTest : bool) : Go unit :=
  RunTransaction (
    w ← locked_wallet walletID;
    if isTest then
      if Row.w_PendingTestnetTransactions w =? 0 then fail ErrTxRollback else
      UpdateWalletTestnetTransactionCounters walletID (Row.w_ConfirmedTestnetTransactions w)
        (Row.w_PendingTestnetTransactions w - 1)%i64
    else
      if Row.w_PendingMainnetTransactions w =? 0 then fail ErrTxRollback else
      UpdateWalletMainnetTransactionCounters walletID (Row.w_ConfirmedMainnetTransactions w)
        (Row.w_PendingMainnetTransactions w - 1)%i64).
End Service.

(** ** Lemmas: locks *)
Definition lock_is (id : Z) (currency networkID : string) (l : Row.WalletLock) : bool :=
  (Row.wl_WalletID l =? id) && bool_decide (Row.wl_Currency l = currency) && bool_decide (Row.wl_NetworkID l = networkID).

Definition key_eqb (id id' : Z) (c c' n n' : string) : bool :=
  (id =? id') && bool_decide (c = c') && bool_decide (n = n').

Definition new_lock (m id : Z) (c n : string) (at_ i : Z) : Row.WalletLock :=
  Row.mkWalletLock i id m c n at_ null_time.

Lemma is_locked_insert m id c n at_ d i x y :
  is_locked i x y (set_wallet_locks (insert_row (new_lock m id c n at_) (wallet_locks d)) d) =
  is_locked i x y d || key_eqb id i c x n y.
Proof.
  unfold is_locked. simpl. rewrite existsb_app. simpl. rewrite orb_false_r. done.
Qed.

Lemma wp_lockWallet m wal c n w (Q : res unit -> world -> Prop) :
  (is_locked (wal_ID wal) c n (db w) = false -> forall at_ w',
     db w' = set_wallet_locks (insert_row (new_lock m (wal_ID wal) c n at_) (wallet_locks (db w))) (db w) -> Q (Ok tt) w') ->
  (is_locked (wal_ID wal) c n (db w) = true -> forall e w',
     rows (wallet_locks (db w')) = rows (wallet_locks (db w)) -> errors_Is e ErrNotFound = false -> Q (Err e) w') ->
  wp (lockWallet m wal c n) w Q.
Proof.
  intros Hok Herr. unfold lockWallet. wp_step. apply wp_now. intros at_ w1 E1.
  do 2 wp_step. apply wp_query. rewrite E1. cbv zeta.
  change (existsb _ (rows (wallet_locks (db w)))) with (is_locked (wal_ID wal) c n (db w)).
  destruct (is_locked (wal_ID wal) c n (db w)) eqn:E; cbn [fst snd wrap].
  - intros w2 E2. apply (Herr eq_refl); [by rewrite E2|done].
  - intros w2 E2. wp_step. by apply (Hok eq_refl at_).
Qed.

(** What a successful acquisition leaves. *)
Definition acquired (c n : string) (wal : Wallet) (d d' : DB) : Prop :=
  is_locked (wal_ID wal) c n d = false /\
  (forall i x y, is_locked i x y d' = is_locked i x y d || key_eqb (wal_ID wal) i c x n y) /\
  exists row, row ∈ rows (wallets d') /\ entryToWallet row = wal.

Section Acquire.
Context `{KMS} `{Btcutil}.

(** A step on other tables keeps the locks. *)
Definition keeps_locks (d d' : DB) : Prop := rows (wallet_locks d') = rows (wallet_locks d).

#[local] Instance keeps_locks_preorder : PreOrder keeps_locks.
Proof. split; repeat intro; unfold keeps_locks in *; congruence. Qed.

Lemma is_locked_keeps d d' i x y : keeps_locks d d' -> is_locked i x y d' = is_locked i x y d.
Proof. unfold is_locked. by intros ->. Qed.

Lemma wp_create bc ty w (Q : res Wallet -> world -> Prop) :
  (forall row w', keeps_locks (db w) (db w') -> row ∈ rows (wallets (db w')) -> Q (Ok (entryToWallet row)) w') ->
  (forall e w', keeps_locks (db w) (db w') -> Q (Err e) w') ->
  (forall p w', keeps_locks (db w) (db w') -> Q (Panic p) w') ->
  wp (create bc ty) w Q.
Proof.
  intros Hok He Hp. unfold create. do 2 wp_step. apply wp_external. intros w1 E1.
  destruct (kms_CreateWallet bc (calls w)) as [pl|e|p]; cbn [wrap];
    [|apply He; by rewrite E1|apply Hp; by rewrite E1].
  wp_step. apply wp_now. intros at_ w2 E2. do 2 wp_step. rewrite <- E2 in E1 || idtac.
  destruct (uuid_MustParse (kp_ID pl)) as [u|e|p]; [|apply He; by rewrite E1 || by rewrite E2|apply Hp; by rewrite E1 || by rewrite E2].
  do 2 wp_step. apply wp_query. rewrite E2, E1 || rewrite E1. cbv zeta.
  destruct (existsb _ _); cbn [fst snd wrap]; intros w3 E3.
  - apply He. by rewrite E3.
  - wp_step. apply Hok; rewrite E3; [done|]. apply elem_of_insert. by right.
Qed.

Lemma wp_createAndLock m c n w :
  wp (createAndLockInboundWallet m c n) w (fun r w' => match r with
    | Ok wal => acquired (cc_Ticker c) n wal (db w) (db w')
    | _ => keeps_locks (db w) (db w')
    end).
Proof.
  unfold createAndLockInboundWallet. apply wp_run. do 2 wp_step. apply wp_create; cbn [wrap].
  - intros row w1 Hk Hin. do 2 wp_step. apply wp_lockWallet; cbn [wrap].
    + intros Hf at_ w2 E2. wp_step. split; [by rewrite <- (is_locked_keeps _ _ _ _ _ Hk)|]. split.
      * intros i x y. rewrite E2, is_locked_insert. by rewrite (is_locked_keeps _ _ _ _ _ Hk).
      * exists row. split; [by rewrite E2|done].
    + intros _ e w2 _ _ w3 E3. by rewrite E3.
  - intros e w1 _ w2 E2. by rewrite E2.
  - intros p w1 _ w2 E2. by rewrite E2.
Qed.

Lemma wp_AcquireLock m c t w :
  wp (AcquireLock m c t) w (fun r w' => match r with
    | Ok wal => acquired (cc_Ticker c) (ChooseNetwork c t) wal (db w) (db w')
    | _ => keeps_locks (db w) (db w')
    end).
Proof.
  unfold AcquireLock. cbv zeta. do 2 wp_step. apply wp_run. unfold get_and_lock. do 2 wp_step.
  apply wp_read. intros w1 E1.
  destruct (one _) as [row|e|p] eqn:Es.
  - destruct (one_select_inv _ _ _ Es) as [Hin Hav]. do 2 wp_step. apply wp_lockWallet; cbn [wrap].
    + intros Hf at_ w2 E2. do 2 wp_step. rewrite E1 in *. split; [done|]. split.
      * intros i x y. by rewrite E2, is_locked_insert.
      * exists row. split; [by rewrite E2|done].
    + intros _ e w2 Hk He w3 E3. cbn [errors_Is]. rewrite He. cbn [orb negb].
      rewrite bool_decide_false by done. cbn [orb negb]. wp_step. by rewrite E3.
  - destruct (errors_Is e ErrNoRows).
    + wp_step. intros w2 E2. rewrite errors_Is_refl. cbn [negb]. wp_step.
      eapply wp_mono; [apply wp_createAndLock|]. intros r w3 Hr.
      assert (forall x y z, is_locked x y z (db w2) = is_locked x y z (db w)) as Hl by (intros; by rewrite E2).
      destruct r as [wal|e2|p]; cbn [wrap].
      * destruct Hr as (Hf & Hall & Hrow). split; [by rewrite <- Hl|]. split; [|done].
        intros. by rewrite Hall, Hl.
      * unfold keeps_locks in *. by rewrite Hr, E2.
      * unfold keeps_locks in *. by rewrite Hr, E2.
    + wp_step. intros w2 E2. destruct (negb _); [wp_step; by rewrite E2|].
      wp_step. eapply wp_mono; [apply wp_createAndLock|]. intros r w3 Hr.
      assert (forall x y z, is_locked x y z (db w2) = is_locked x y z (db w)) as Hl by (intros; by rewrite E2).
      destruct r as [wal|e2|p]; cbn [wrap].
      * destruct Hr as (Hf & Hall & Hrow). split; [by rewrite <- Hl|]. split; [|done].
        intros. by rewrite Hall, Hl.
      * unfold keeps_locks in *. by rewrite Hr, E2.
      * unfold keeps_locks in *. by rewrite Hr, E2.
  - intros w2 E2. by rewrite E2.
Qed.

Lemma create_schema bc ty : steps schema_step (create bc ty).
Proof. unfold create. repeat first [apply steps_external; tc_solve | go_steps]. Qed.
#[local] Hint Resolve create_schema : schema.
Lemma createAndLock_schema m c n : steps schema_step (createAndLockInboundWallet m c n).
Proof. unfold createAndLockInboundWallet, lockWallet. go_steps. Qed.
#[local] Hint Resolve createAndLock_schema : schema.
Lemma AcquireLock_schema m c t : steps schema_step (AcquireLock m c t).
Proof. unfold AcquireLock, get_and_lock, lockWallet. go_steps. Qed.
Lemma ReleaseLock_schema i c n : steps schema_step (Service_ReleaseLock i c n).
Proof. unfold Service_ReleaseLock, ReleaseLock. go_steps. Qed.
End Acquire.

Lemma lock_is_key i c n l : lock_is i c n l = true <-> lock_key l = Some (i, c, n).
Proof.
  unfold lock_is, lock_key. rewrite !andb_true_iff, Z.eqb_eq, !bool_decide_eq_true. naive_solver congruence.
Qed.

Lemma key_eqb_true i j c x n y : key_eqb i j c x n y = true <-> (i, c, n) = (j, x, y).
Proof.
  unfold key_eqb. rewrite !andb_true_iff, Z.eqb_eq, !bool_decide_eq_true. naive_solver congruence.
Qed.

Lemma is_locked_true i c n d : is_locked i c n d = true <->
  exists l, l ∈ rows (wallet_locks d) /\ lock_key l = Some (i, c, n).
Proof.
  unfold is_locked. change (fun l => (Row.wl_WalletID l =? i) && _ && _) with (lock_is i c n).
  rewrite existsb_exists. setoid_rewrite lock_is_key. setoid_rewrite <- list_elem_of_In. done.
Qed.

(** Deleting the row of a lock removes that lock and no other. *)
Lemma is_locked_delete d l i c n j x y : schema_ok d ->
  l ∈ rows (wallet_locks d) -> lock_key l = Some (i, c, n) ->
  is_locked j x y (set_wallet_locks (delete_rows (by_id (Row.wl_ID l)) (wallet_locks d)) d) =
  is_locked j x y d && negb (key_eqb i j c x n y).
Proof.
  intros Hok Hin Hk. apply eq_true_iff_eq.
  rewrite andb_true_iff, negb_true_iff, <- not_true_iff_false, key_eqb_true, !is_locked_true.
  simpl rows. setoid_rewrite elem_of_delete. split.
  - intros (r & [Hr Hd] & Hkr). split; [by exists r|]. intros [= -> -> ->].
    assert (row_id r = row_id l) as Hid by (apply (ok_lock_key _ Hok); [done|done|congruence|by rewrite Hkr]).
    revert Hd. unfold by_id. rewrite Hid. change (row_id l) with (Row.wl_ID l). by rewrite Z.eqb_refl.
  - intros [(r & Hr & Hkr) Hne]. exists r. split; [split; [done|]|done].
    unfold by_id. apply Z.eqb_neq. intros Hid. destruct Hne.
    destruct (ok_wf _ Hok) as (_ & _ & _ & Hwf & _).
    assert (row_at (row_id r) (wallet_locks d) = Some r) as K1 by by apply row_at_Some.
    assert (row_at (row_id r) (wallet_locks d) = Some l) as K2 by by apply row_at_Some.
    congruence.
Qed.

Lemma wp_ReleaseLock i c n w : schema_ok (db w) ->
  wp (ReleaseLock i c n) w (fun r w' => match r with
    | Ok _ => is_locked i c n (db w) = true /\
        (forall j x y, is_locked j x y (db w') = is_locked j x y (db w) && negb (key_eqb i j c x n y))
    | Err e => is_locked i c n (db w) = false /\ db w' = db w /\ errors_Is e ErrNoRows = true
    | Panic _ => False
    end).
Proof.
  intros Hok. unfold ReleaseLock. do 2 wp_step. apply wp_read. intros w1 E1.
  change (fun l => (Row.wl_WalletID l =? i) && _ && _) with (lock_is i c n).
  destruct (one (select (lock_is i c n) (wallet_locks (db w)))) as [l|e|p] eqn:Es; cbn [wrap].
  - destruct (one_select_inv _ _ _ Es) as [Hin Hl%lock_is_key]. apply wp_query. rewrite E1. intros w2 E2. split.
    + apply is_locked_true. by exists l.
    + intros j x y. rewrite E2. by apply is_locked_delete.
  - destruct (one_select_none _ _ _ Es) as [-> Hnone]. split; [|split; [done|reflexivity]].
    apply not_true_iff_false. rewrite is_locked_true. intros (r & Hr & Hm%lock_is_key).
    rewrite Forall_forall in Hnone. specialize (Hnone r Hr). congruence.
  - unfold one in Es. by destruct (select _ _).
Qed.

(** ** The lock manager

    What the lock methods promise: a set of held (wallet, currency, network)
    keys; acquiring adds a free key, releasing removes a held one. *)
Definition LockKey : Type := Z * string * string.

Inductive lock_op :=
| OpAcquire (merchantID : Z) (currency : CryptoCurrency) (isTest : bool)
| OpAcquireFresh (merchantID : Z) (currency : CryptoCurrency) (isTest : bool)
| OpRelease (walletID : Z) (currency networkID : string).

Inductive lock_event := Acquired (k : LockKey) | Released (k : LockKey) | Refused.

Section LockManager.
Context `{KMS} `{Btcutil}.

(** One call, and what its caller learns. *)
Definition run_lock_op (op : lock_op) : Go lock_event :=
  match op with
  | OpAcquire m c t =>
    wal ← AcquireLock m c t; mret (Acquired (wal_ID wal, cc_Ticker c, ChooseNetwork c t))
  | OpAcquireFresh m c t =>
    wal ← AcquireFreshLock m c t; mret (Acquired (wal_ID wal, cc_Ticker c, ChooseNetwork c t))
  | OpRelease i c n => _ ← Service_ReleaseLock i c n; mret (Released (i, c, n))
  end.

(** Calls by any number of clients, one after the other; errors and panics end
    their call only. *)
Fixpoint run_locks (ops : list lock_op) (w : world) : list lock_event * world :=
  match ops with
  | [] => ([], w)
  | op :: ops =>
    let '(r, w1) := run_lock_op op w in
    let '(es, w2) := run_locks ops w1 in
    (match r with Ok e => e | _ => Refused end :: es, w2)
  end.

Definition held (d : DB) : gset LockKey :=
  list_to_set ((fun l => (Row.wl_WalletID l, Row.wl_Currency l, Row.wl_NetworkID l)) <$> rows (wallet_locks d)).

(** The abstract lock manager accepts the trace and ends with these keys held. *)
Fixpoint lock_trace (h : gset LockKey) (es : list lock_event) (h' : gset LockKey) : Prop :=
  match es with
  | [] => h' = h
  | Acquired k :: es => k ∉ h /\ lock_trace ({[k]} ∪ h) es h'
  | Released k :: es => k ∈ h /\ lock_trace (h ∖ {[k]}) es h'
  | Refused :: es => lock_trace h es h'
  end.

Lemma elem_of_held d i c n : (i, c, n) ∈ held d <-> is_locked i c n d = true.
Proof.
  unfold held. rewrite elem_of_list_to_set, list_elem_of_fmap, is_locked_true. unfold lock_key.
  split; intros (l & ? & ?); exists l; naive_solver congruence.
Qed.

Lemma held_keeps d d' : keeps_locks d d' -> held d' = held d.
Proof. unfold held. by intros ->. Qed.

Lemma held_acquired c n wal d d' : acquired c n wal d d' ->
  (wal_ID wal, c, n) ∉ held d /\ held d' = {[(wal_ID wal, c, n)]} ∪ held d.
Proof.
  intros (Hf & Hall & _). split.
  - rewrite elem_of_held, Hf. done.
  - apply set_eq. intros [[i x] y]. rewrite elem_of_union, elem_of_singleton, !elem_of_held, Hall, orb_true_iff, key_eqb_true.
    naive_solver congruence.
Qed.

Lemma run_lock_op_schema op : steps schema_step (run_lock_op op).
Proof.
  destruct op; simpl; apply steps_bind; try tc_solve; try (intros; apply steps_ret; tc_solve).
  - apply AcquireLock_schema.
  - apply steps_wrap, createAndLock_schema.
  - apply ReleaseLock_schema.
Qed.

Lemma wp_Service_ReleaseLock i c n w : schema_ok (db w) ->
  wp (Service_ReleaseLock i c n) w (fun r w' => match r with
    | Ok _ => (i, c, n) ∈ held (db w) /\ held (db w') = held (db w) ∖ {[(i, c, n)]}
    | Err e => (i, c, n) ∉ held (db w) /\ held (db w') = held (db w) /\ errors_Is e ErrNoRows = true
    | Panic _ => False
    end).
Proof.
  intros Hok. apply wp_run. eapply wp_mono; [by apply wp_ReleaseLock|]. intros [[]|e|p] w1 Hr; [| |done].
  - destruct Hr as [Hl Hall]. split; [by apply elem_of_held|]. apply set_eq. intros [[j x] y].
    rewrite elem_of_difference, elem_of_singleton, !elem_of_held, Hall, andb_true_iff, negb_true_iff,
      <- not_true_iff_false, key_eqb_true. naive_solver congruence.
  - destruct Hr as (Hf & E1 & He). intros w2 E2. rewrite elem_of_held, Hf. split; [done|]. split; [|done].
    apply held_keeps. by rewrite E2.
Qed.

Lemma run_lock_op_spec op w : schema_ok (db w) ->
  wp (run_lock_op op) w (fun r w' => forall es h,
    lock_trace (held (db w')) es h ->
    lock_trace (held (db w)) (match r with Ok e => e | _ => Refused end :: es) h).
Proof.
  intros Hok. destruct op; simpl; wp_step.
  - eapply wp_mono; [apply wp_AcquireLock|]. intros [wal|e|p] w1 Hr; [wp_step| |]; intros es h Ht; simpl;
      [|by rewrite <- (held_keeps _ _ Hr)..].
    apply held_acquired in Hr as [? Hh]. rewrite Hh in Ht. by split.
  - apply wp_wrap. eapply wp_mono; [apply wp_createAndLock|].
    intros [wal|e|p] w1 Hr; cbn [wrap]; [wp_step| |]; intros es h Ht; simpl; [|by rewrite <- (held_keeps _ _ Hr)..].
    apply held_acquired in Hr as [? Hh]. rewrite Hh in Ht. by split.
  - eapply wp_mono; [by apply wp_Service_ReleaseLock|]. intros [[]|e|p] w1 Hr; [wp_step| |done]; intros es h Ht; simpl.
    + destruct Hr as [? Hh]. rewrite Hh in Ht. by split.
    + destruct Hr as (_ & Hh & _). by rewrite Hh in Ht.
Qed.
End LockManager.

(** ** The nonce counter

    What the nonce methods promise for a wallet on one of its networks: a
    counter of confirmed and pending transactions. *)
Inductive nonce_op := OpIncrementPending | OpIncrementConfirmed | OpDecrementPending.

Definition run_nonce_op (walletID : Z) (isTest : bool) (op : nonce_op) : Go (option Z) :=
  match op with
  | OpIncrementPending => n ← IncrementPendingTransaction walletID isTest; mret (Some n)
  | OpIncrementConfirmed => _ ← IncrementConfirmedTransaction walletID isTest; mret None
  | OpDecrementPending => _ ← DecrementPendingTransaction walletID isTest; mret None
  end.

Definition counters_of (isTest : bool) (r : Row.Wallet) : Z * Z :=
  if isTest then (Row.w_ConfirmedTestnetTransactions r, Row.w_PendingTestnetTransactions r)
  else (Row.w_ConfirmedMainnetTransactions r, Row.w_PendingMainnetTransactions r).

Definition set_counters (isTest : bool) (cp : Z * Z) : Row.Wallet -> Row.Wallet :=
  if isTest then set_testnet cp.1 cp.2 else set_mainnet cp.1 cp.2.

Definition counters (walletID : Z) (isTest : bool) (d : DB) : option (Z * Z) :=
  counters_of isTest <$> row_at walletID (wallets d).

(** The abstract counter: what a call answers and the counter it leaves. *)
Definition nonce_step (op : nonce_op) (cp : Z * Z) : res (option Z) * (Z * Z) :=
  let '(c, p) := cp in
  match op with
  | OpIncrementPending => (Ok (Some (c + p)), (c, p + 1))
  | OpIncrementConfirmed => if p =? 0 then (Err ErrTxConfirm, cp) else (Ok None, (c + 1, p - 1))
  | OpDecrementPending => if p =? 0 then (Err ErrTxRollback, cp) else (Ok None, (c, p - 1))
  end.

(** Calls one after the other: the nonces handed out. *)
Fixpoint run_nonces (walletID : Z) (isTest : bool) (ops : list nonce_op) (w : world) : list Z * world :=
  match ops with
  | [] => ([], w)
  | op :: ops =>
    let '(r, w1) := run_nonce_op walletID isTest op w in
    let '(ns, w2) := run_nonces walletID isTest ops w1 in
    (match r with Ok (Some n) => n :: ns | _ => ns end, w2)
  end.

Definition counter_room (cp : Z * Z) : Prop := 0 <= cp.1 /\ 0 <= cp.2 /\ cp.1 + cp.2 + 1 < 2 ^ 63.

Lemma row_at_set_wallets i f d r : row_at i (wallets d) = Some r -> (forall x, row_id (f x) = row_id x) ->
  row_at i (wallets (set_wallets (update_rows (by_id i) f (wallets d)) d)) = Some (f r).
Proof.
  intros Hr Hf. simpl. rewrite row_at_update by done. rewrite Hr. simpl.
  apply row_at_id in Hr as [Hi _]. unfold by_id. by rewrite Hi, Z.eqb_refl.
Qed.

(** One statement that writes both counters of a network. *)
Definition write_counters (walletID : Z) (isTest : bool) (cp : Z * Z) : Go unit :=
  if isTest then UpdateWalletTestnetTransactionCounters walletID cp.1 cp.2
  else UpdateWalletMainnetTransactionCounters walletID cp.1 cp.2.

Lemma wp_write_counters i t cp w (Q : res unit -> world -> Prop) : 0 <= cp.1 -> 0 <= cp.2 ->
  (forall w', db w' = set_wallets (update_rows (by_id i) (set_counters t cp) (wallets (db w))) (db w) -> Q (Ok tt) w') ->
  wp (write_counters i t cp) w Q.
Proof.
  intros Hc Hp HQ. unfold write_counters, set_counters in *. destruct t.
  - by apply wp_query.
  - apply wp_query. replace (existsb _ _ && _) with false; [by apply HQ|].
    symmetry. apply andb_false_iff. right. lia.
Qed.

Lemma wp_locked_wallet i w r (Q : res Row.Wallet -> world -> Prop) : row_at i (wallets (db w)) = Some r ->
  (forall w', db w' = db w -> Q (Ok r) w') -> wp (locked_wallet i) w Q.
Proof.
  intros Hr HQ. unfold locked_wallet. wp_step. apply wp_read. intros w1 E1. unfold row_at in Hr.
  destruct (select _ _) as [|x l]; simplify_eq/=. by apply HQ.
Qed.

(** The methods, with the two networks' branches folded together. *)
Lemma IncrementPending_eq i t : IncrementPendingTransaction i t = RunTransaction (
  w ← locked_wallet i;
  let '(c, p) := counters_of t w in
  _ ← write_counters i t (c, (p + 1)%i64); mret (c + p)%i64).
Proof. by destruct t. Qed.

Lemma IncrementConfirmed_eq i t : IncrementConfirmedTransaction i t = RunTransaction (
  w ← locked_wallet i;
  let '(c, p) := counters_of t w in
  if p =? 0 then fail ErrTxConfirm else write_counters i t ((c + 1)%i64, (p - 1)%i64)).
Proof. by destruct t. Qed.

Lemma DecrementPending_eq i t : DecrementPendingTransaction i t = RunTransaction (
  w ← locked_wallet i;
  let '(c, p) := counters_of t w in
  if p =? 0 then fail ErrTxRollback else write_counters i t (c, (p - 1)%i64)).
Proof. by destruct t. Qed.

(** Each method is the abstract step on its wallet's counter. *)
Definition moved_counter (i : Z) (t : bool) (cp : Z * Z) (d d' : DB) : Prop :=
  rows (wallets d') = rows (wallets (set_wallets (update_rows (by_id i) (set_counters t cp) (wallets d)) d)).

Lemma set_counters_same t r : set_counters t (counters_of t r) r = r.
Proof. by destruct t, r. Qed.

Lemma rows_same_counters i t r d : table_wf (wallets d) -> row_at i (wallets d) = Some r ->
  rows (wallets (set_wallets (update_rows (by_id i) (set_counters t (counters_of t r)) (wallets d)) d)) = rows (wallets d).
Proof.
  intros Hwf Hr. simpl. rewrite <- (map_id (rows (wallets d))) at 2. apply map_ext_in.
  intros x Hx%list_elem_of_In. destruct (by_id i x) eqn:E; [|done]. unfold by_id in E.
  assert (row_at i (wallets d) = Some x) as Hx' by (apply row_at_Some; [done|split; [done|lia]]).
  simplify_eq. apply set_counters_same.
Qed.

Lemma wp_nonce_op i t op w r : schema_ok (db w) -> row_at i (wallets (db w)) = Some r ->
  counter_room (counters_of t r) ->
  wp (run_nonce_op i t op) w (fun a w' =>
    a = (nonce_step op (counters_of t r)).1 /\
    moved_counter i t (nonce_step op (counters_of t r)).2 (db w) (db w')).
Proof.
  intros Hok Hr Hroom. destruct (counters_of t r) as [c p] eqn:Ecp. destruct Hroom as (Hc & Hp & Hcp); simpl in Hc, Hp, Hcp.
  assert (moved_counter i t (c, p) (db w) (db w)) as Hsame.
  { unfold moved_counter. rewrite <- Ecp. symmetry. apply rows_same_counters; [apply (ok_wf _ Hok)|done]. }
  assert (forall d', rows (wallets d') = rows (wallets (db w)) -> moved_counter i t (c, p) (db w) d') as Hsame'.
  { intros d' E. unfold moved_counter in *. by rewrite E. }
  destruct op; simpl.
  - rewrite IncrementPending_eq. wp_step. apply wp_run. wp_step. eapply wp_locked_wallet; [done|]. intros w1 E1.
    rewrite Ecp. simpl. rewrite !int64_add_small by (unfold in_int64; lia). wp_step.
    apply wp_write_counters; simpl; [lia|lia|]. intros w2 E2. do 2 wp_step. split; [done|].
    unfold moved_counter. by rewrite E2, E1.
  - rewrite IncrementConfirmed_eq. wp_step. apply wp_run. wp_step. eapply wp_locked_wallet; [done|]. intros w1 E1.
    rewrite Ecp. simpl. destruct (Z.eqb_spec p 0); simpl.
    + wp_step. intros w2 E2. split; [done|]. apply Hsame'. by rewrite E2, E1.
    + rewrite !int64_small by (unfold in_int64; lia).
      apply wp_write_counters; simpl; [lia|lia|]. intros w2 E2. wp_step. split; [done|].
      unfold moved_counter. by rewrite E2, E1.
  - rewrite DecrementPending_eq. wp_step. apply wp_run. wp_step. eapply wp_locked_wallet; [done|]. intros w1 E1.
    rewrite Ecp. simpl. destruct (Z.eqb_spec p 0); simpl.
    + wp_step. intros w2 E2. split; [done|]. apply Hsame'. by rewrite E2, E1.
    + rewrite int64_small by (unfold in_int64; lia).
      apply wp_write_counters; simpl; [lia|lia|]. intros w2 E2. wp_step. split; [done|].
      unfold moved_counter. by rewrite E2, E1.
Qed.

Lemma run_nonce_op_schema i t op : steps schema_step (run_nonce_op i t op).
Proof.
  destruct op; simpl; unfold IncrementPendingTransaction, IncrementConfirmedTransaction,
    DecrementPendingTransaction, locked_wallet; destruct t; go_steps.
Qed.

Lemma moved_counter_at i t cp d d' r : row_at i (wallets d) = Some r -> moved_counter i t cp d d' ->
  row_at i (wallets d') = Some (set_counters t cp r).
Proof.
  intros Hr Hm. unfold row_at, select in *. rewrite Hm.
  apply (row_at_set_wallets i (set_counters t cp) d r Hr). by destruct t.
Qed.

Lemma counters_set t cp r : counters_of t (set_counters t cp r) = cp.
Proof. by destruct t, cp. Qed.

(** The sequence of abstract steps. *)
Fixpoint nonce_run (ops : list nonce_op) (cp : Z * Z) : list Z * (Z * Z) :=
  match ops with
  | [] => ([], cp)
  | op :: ops =>
    let '(r, cp1) := nonce_step op cp in
    let '(ns, cp2) := nonce_run ops cp1 in
    (match r with Ok (Some n) => n :: ns | _ => ns end, cp2)
  end.

Lemma nonce_step_room op c p n : 0 <= c -> 0 <= p -> c + p + 1 + n < 2 ^ 63 ->
  let '(c', p') := (nonce_step op (c, p)).2 in 0 <= c' /\ 0 <= p' /\ c' + p' + n < 2 ^ 63.
Proof. intros. destruct op; simpl; try destruct (Z.eqb_spec p 0); simpl; lia. Qed.

Lemma run_nonces_run i t ops w c p : schema_ok (db w) -> counters i t (db w) = Some (c, p) ->
  0 <= c -> 0 <= p -> c + p + Z.of_nat (length ops) < 2 ^ 63 ->
  (run_nonces i t ops w).1 = (nonce_run ops (c, p)).1 /\
  counters i t (db (run_nonces i t ops w).2) = Some (nonce_run ops (c, p)).2.
Proof.
  revert w c p. induction ops as [|op ops IH]; intros w c p Hok Hcp Hc Hp Hb; [done|].
  unfold counters in Hcp. destruct (row_at i (wallets (db w))) as [r|] eqn:Hr; [|done].
  injection Hcp as Hcp. simpl length in Hb.
  pose proof (wp_nonce_op i t op w r Hok Hr) as Hop. rewrite Hcp in Hop.
  destruct Hop as [Ha Hm]; [unfold counter_room; simpl; lia|].
  pose proof (nonce_step_room op c p (Z.of_nat (length ops))) as Hroom.
  pose proof (proj2 (run_nonce_op_schema i t op w) Hok) as Hok1.
  assert (counters i t (db (run_nonce_op i t op w).2) = Some (nonce_step op (c, p)).2) as Hcp1.
  { unfold counters. rewrite (moved_counter_at _ _ _ _ _ _ Hr Hm). simpl. by rewrite counters_set. }
  cbn [run_nonces nonce_run]. destruct (run_nonce_op i t op w) as [a w1], (nonce_step op (c, p)) as [a' [c1 p1]].
  cbn [fst snd] in *. subst a'. destruct Hroom as (Hc1 & Hp1 & Hb1); [lia..|].
  destruct (IH w1 c1 p1) as [H1 H2]; [done|done|lia|lia|lia|].
  destruct (run_nonces i t ops w1) as [ns w2], (nonce_run ops (c1, p1)) as [ns' cp2]. cbn [fst snd] in *.
  by subst.
Qed.

Definition issued (ops : list nonce_op) : Z :=
  Z.of_nat (length (List.filter (fun op => match op with OpIncrementPending => true | _ => false end) ops)).

Lemma nonce_run_consecutive ops c p : Forall (fun op => op <> OpDecrementPending) ops ->
  (nonce_run ops (c, p)).1 = seqZ (c + p) (issued ops) /\
  (let '(c', p') := (nonce_run ops (c, p)).2 in c' + p' = c + p + issued ops).
Proof.
  revert c p. induction ops as [|op ops IH]; intros c p Hf; [split; [done|unfold issued; simpl; lia]|].
  apply Forall_cons in Hf as [Hop Hf]. unfold issued in *.
  destruct op; [| |done]; cbn [nonce_run nonce_step].
  - destruct (IH c (p + 1) Hf) as [H1 H2]. destruct (nonce_run ops (c, p + 1)) as [ns [c' p']]. cbn [fst snd] in *.
    simpl length. rewrite Nat2Z.inj_succ. split; [|lia]. rewrite seqZ_cons by lia. subst ns. f_equal.
    f_equal; lia.
  - destruct (Z.eqb_spec p 0).
    + destruct (IH c p Hf) as [H1 H2]. by destruct (nonce_run ops (c, p)) as [ns [c' p']].
    + destruct (IH (c + 1) (p - 1) Hf) as [H1 H2]. destruct (nonce_run ops (c + 1, p - 1)) as [ns [c' p']].
      cbn [fst snd] in *. simpl. split; [|lia]. rewrite H1. f_equal. lia.
Qed.

(** ** Properties *)
Section Properties.
Context `{KMS} `{Btcutil}.

(** C27. The lock methods refine a lock manager: run any sequence of
    [AcquireLock], [AcquireFreshLock] and [ReleaseLock] calls (errors of the key
    service included) and the keys handed out and given back are a trace of an
    exclusive lock manager over the rows of [wallet_locks]: a (wallet, currency,
    network) is never acquired while it is held. Releasing succeeds exactly for
    a held key. *)
Theorem locks_refine_lock_manager (ops : list lock_op) (w : world) (Hok : schema_ok (db w)) :
  lock_trace (held (db w)) (run_locks ops w).1 (held (db (run_locks ops w).2)) /\
  forall i c n, (run_lock_op (OpRelease i c n) w).1 = Ok (Released (i, c, n)) <-> (i, c, n) ∈ held (db w).
Proof.
  split.
  - revert w Hok. induction ops as [|op ops IH]; intros w Hok; [done|]. cbn [run_locks].
    pose proof (run_lock_op_spec op w Hok) as Hs. pose proof (proj2 (run_lock_op_schema op w) Hok) as Hok1.
    unfold wp in Hs. destruct (run_lock_op op w) as [r w1]. specialize (IH w1 Hok1).
    destruct (run_locks ops w1) as [es w2]. by apply Hs.
  - intros i c n. pose proof (wp_Service_ReleaseLock i c n w Hok) as Hs. unfold wp in Hs.
    cbn [run_lock_op]. unfold mbind, M_bind. destruct (Service_ReleaseLock i c n w) as [[[]|e|p] w1]; simpl in *; [| |done].
    + by destruct Hs.
    + destruct Hs as [? _]. split; done.
Qed.

(** [AcquireLock] takes a free wallet when there is one: if some inbound
    wallet of the currency's blockchain (segwit for BTC and LTC) has no lock for
    the currency and network, the call succeeds with such a wallet, holds
    exactly its key in addition, and creates no wallet. *)
Theorem acquire_takes_available (m : Z) (c : CryptoCurrency) (t : bool) (w : world) (r : Row.Wallet)
  (Hr : r ∈ rows (wallets (db w)))
  (Hav : available (cc_Blockchain c) (StringToNullable TypeInbound) (cc_Ticker c) (ChooseNetwork c t) (db w) r = true) :
  exists r' w', AcquireLock m c t w = (Ok (entryToWallet r'), w') /\ r' ∈ rows (wallets (db w)) /\
    available (cc_Blockchain c) (StringToNullable TypeInbound) (cc_Ticker c) (ChooseNetwork c t) (db w) r' = true /\
    wallets (db w') = wallets (db w) /\
    held (db w') = {[(Row.w_ID r', cc_Ticker c, ChooseNetwork c t)]} ∪ held (db w).
Proof.
  enough (wp (AcquireLock m c t) w (fun a w' => exists r', a = Ok (entryToWallet r') /\ r' ∈ rows (wallets (db w)) /\
    available (cc_Blockchain c) (StringToNullable TypeInbound) (cc_Ticker c) (ChooseNetwork c t) (db w) r' = true /\
    wallets (db w') = wallets (db w) /\
    held (db w') = {[(Row.w_ID r', cc_Ticker c, ChooseNetwork c t)]} ∪ held (db w))) as Hwp.
  { unfold wp in Hwp. destruct (AcquireLock m c t w) as [a w'], Hwp as (r' & Ha & Hrest). simpl in *. subst a.
    by exists r', w'. }
  unfold AcquireLock. cbv zeta. do 2 wp_step. apply wp_run. unfold get_and_lock. do 2 wp_step. apply wp_read.
  intros w1 E1. destruct (one _) as [x|e|p] eqn:Es.
  - destruct (one_select_inv _ _ _ Es) as [Hx Hxa]. do 2 wp_step.
    assert (is_locked (Row.w_ID x) (cc_Ticker c) (ChooseNetwork c t) (db w) = false) as Hfree.
    { unfold available in Hxa. rewrite andb_true_iff, negb_true_iff in Hxa. apply Hxa. }
    apply wp_lockWallet; rewrite E1.
    + intros _ at_ w2 E2. cbn [wrap]. do 2 wp_step. exists x. split; [done|]. split; [done|]. split; [done|].
      rewrite E2. split; [done|]. apply set_eq. intros [[i y] z].
      rewrite elem_of_union, elem_of_singleton, !elem_of_held, is_locked_insert, orb_true_iff, key_eqb_true.
      simpl. naive_solver congruence.
    + simpl. congruence.
  - destruct (one_select_none _ _ _ Es) as [_ Hnone]. rewrite Forall_forall in Hnone.
    specialize (Hnone r Hr). congruence.
  - unfold one in Es. by destruct (select _ _).
Qed.
End Properties.

(** The nonce methods refine the counter: on a wallet whose counters are
    not negative and have room, each method answers what the abstract step
    answers (the next nonce, [ErrTxConfirm], [ErrTxRollback], or nothing) and
    writes the step's counters to that network of that wallet; no other wallet
    row changes, and the other network's counters do not either. *)
Theorem nonces_refine_counter (i : Z) (t : bool) (op : nonce_op) (w : world) (r : Row.Wallet)
  (Hok : schema_ok (db w)) (Hr : row_at i (wallets (db w)) = Some r) (Hroom : counter_room (counters_of t r)) :
  let '(answer, cp) := nonce_step op (counters_of t r) in
  (run_nonce_op i t op w).1 = answer /\
  (forall j, row_at j (wallets (db (run_nonce_op i t op w).2)) =
    if decide (j = i) then Some (set_counters t cp r) else row_at j (wallets (db w))) /\
  counters_of (negb t) (set_counters t cp r) = counters_of (negb t) r.
Proof.
  destruct (wp_nonce_op i t op w r Hok Hr Hroom) as [Ha Hm]. destruct (nonce_step _ _) as [a cp]. cbn [fst snd] in *.
  split; [done|]. split; [|by destruct t, r, cp]. intros j. case_decide as Hj.
  - subst j. by eapply moved_counter_at.
  - unfold row_at, select, moved_counter in *. rewrite Hm.
    change (row_at j (update_rows (by_id i) (set_counters t cp) (wallets (db w))) = row_at j (wallets (db w))).
    rewrite row_at_update by by destruct t. destruct (row_at j (wallets (db w))) as [x|] eqn:Ex; [|done].
    simpl. apply row_at_id in Ex as [Hx _]. unfold by_id. rewrite Hx. by destruct (Z.eqb_spec j i).
Qed.

(** C29. Nonces are handed out without a gap or a repetition: as long as no
    pending transaction is rolled back, any interleaving of
    [IncrementPendingTransaction] and [IncrementConfirmedTransaction] calls on a
    wallet's network returns consecutive nonces, the first being the number of
    its confirmed and pending transactions. *)
Theorem nonces_consecutive (i : Z) (t : bool) (ops : list nonce_op) (w : world) (c p : Z)
  (Hok : schema_ok (db w)) (Hcp : counters i t (db w) = Some (c, p)) (Hc : 0 <= c) (Hp : 0 <= p)
  (Hroom : c + p + Z.of_nat (length ops) < 2 ^ 63) (Hops : Forall (fun op => op <> OpDecrementPending) ops) :
  (run_nonces i t ops w).1 = seqZ (c + p) (issued ops).
Proof.
  destruct (run_nonces_run i t ops w c p) as [H1 _]; try done. rewrite H1.
  by destruct (nonce_run_consecutive ops c p Hops).
Qed.

(** [DecrementPendingTransaction] gives back the last nonce, whoever holds
    it: with two transactions in flight, rolling one back makes the next
    [IncrementPendingTransaction] return the nonce of the second one again. *)
Theorem decrement_reuses_nonce (i : Z) (t : bool) (w : world) (c p : Z)
  (Hok : schema_ok (db w)) (Hcp : counters i t (db w) = Some (c, p)) (Hc : 0 <= c) (Hp : 0 <= p)
  (Hroom : c + p + 4 < 2 ^ 63) :
  (run_nonces i t [OpIncrementPending; OpIncrementPending; OpDecrementPending; OpIncrementPending] w).1 =
    [c + p; c + p + 1; c + p + 1].
Proof.
  destruct (run_nonces_run i t [OpIncrementPending; OpIncrementPending; OpDecrementPending; OpIncrementPending] w c p)
    as [H1 _]; try done. rewrite H1. cbn [nonce_run nonce_step].
  destruct (Z.eqb_spec (p + 1 + 1) 0); [lia|]. simpl. f_equal. f_equal; [lia|]. f_equal. lia.
Qed.

(** A KMS whose every answer is the same BTC wallet, and one wallet row. *)
#[local] Instance sample_KMS : KMS := {|
  kms_CreateWallet bc n := Ok (mkPayload "u1" "bc1qsample" bc);
  uuid_Parse s := Some s
|}.

Definition sample_btc : CryptoCurrency :=
  mkCrypto "BTC" "Bitcoin" "mainnet" "testnet" "coin" "BTC" "BTC" 8 "" "" [] false.

Definition sample_wallet : Row.Wallet :=
  new_wallet 0 "u0" "bc1qw" "BTC" (StringToNullable TypeInbound) 1.

Definition one_wallet_world : world :=
  set_db (set_wallets (insert_row (new_wallet 0 "u0" "bc1qw" "BTC" (StringToNullable TypeInbound)) empty_table) empty_db)
    empty_world.

Lemma one_wallet_schema : schema_ok (db one_wallet_world).
Proof.
  pose proof (CreateWallet_schema 0 "u0" "bc1qw" "BTC" (StringToNullable TypeInbound) empty_world) as [_ Hs].
  apply (Hs schema_empty).
Qed.

Lemma locks_refine_lock_manager_witness :
  (run_locks [OpAcquire 1 sample_btc false; OpAcquire 2 sample_btc false; OpRelease 1 "BTC" "mainnet";
    OpRelease 1 "BTC" "mainnet"] one_wallet_world).1 =
    [Acquired (1, "BTC", "mainnet"); Acquired (2, "BTC", "mainnet"); Released (1, "BTC", "mainnet"); Refused] /\
  lock_trace (held (db one_wallet_world))
    (run_locks [OpAcquire 1 sample_btc false; OpAcquire 2 sample_btc false; OpRelease 1 "BTC" "mainnet";
      OpRelease 1 "BTC" "mainnet"] one_wallet_world).1
    (held (db (run_locks [OpAcquire 1 sample_btc false; OpAcquire 2 sample_btc false; OpRelease 1 "BTC" "mainnet";
      OpRelease 1 "BTC" "mainnet"] one_wallet_world).2)).
Proof.
  split; [vm_compute; reflexivity|].
  apply (locks_refine_lock_manager [OpAcquire 1 sample_btc false; OpAcquire 2 sample_btc false;
    OpRelease 1 "BTC" "mainnet"; OpRelease 1 "BTC" "mainnet"] one_wallet_world one_wallet_schema).
Defined.

Lemma acquire_takes_available_witness :
  exists r' w', AcquireLock 1 sample_btc false one_wallet_world = (Ok (entryToWallet r'), w') /\
    wallets (db w') = wallets (db one_wallet_world).
Proof.
  destruct (acquire_takes_available 1 sample_btc false one_wallet_world sample_wallet) as (r' & w' & ? & _ & _ & ? & _).
  - left.
  - vm_compute. reflexivity.
  - by exists r', w'.
Defined.

Lemma nonces_refine_counter_witness :
  (run_nonce_op 1 true OpIncrementPending one_wallet_world).1 = Ok (Some 0).
Proof.
  apply (nonces_refine_counter 1 true OpIncrementPending one_wallet_world sample_wallet one_wallet_schema eq_refl).
  vm_compute. split; [|split]; congruence.
Defined.

Lemma nonces_consecutive_witness :
  (run_nonces 1 false [OpIncrementPending; OpIncrementPending; OpIncrementConfirmed; OpIncrementPending]
    one_wallet_world).1 = [0; 1; 2].
Proof.
  rewrite (nonces_consecutive 1 false [OpIncrementPending; OpIncrementPending; OpIncrementConfirmed; OpIncrementPending]
    one_wallet_world 0 0 one_wallet_schema eq_refl); [vm_compute; reflexivity|done|done|by vm_compute|by repeat constructor].
Defined.

Lemma decrement_reuses_nonce_witness :
  (run_nonces 1 false [OpIncrementPending; OpIncrementPending; OpDecrementPending; OpIncrementPending]
    one_wallet_world).1 = [0; 1; 1].
Proof. apply (decrement_reuses_nonce 1 false one_wallet_world 0 0 one_wallet_schema eq_refl); by vm_compute. Defined.
