(* ===== verification/WalletBalance.v ===== *)
(** * WalletBalance: entity balances and their audit log

    [internal/service/wallet/service_balance.go]: reading balances, the
    balance updates every payment, withdrawal and top-up goes through, and the
    system balances composed from them. The fiat convertor of the blockchain
    service is an interface of this component ([convertor]). *)

From Stdlib Require Import Sorted.
From S2P Require Import Prelude GoLib Money Repository Queries.

Definition ErrBalanceNotFound : error := ESentinel "wallet.ErrBalanceNotFound".
Definition ErrInsufficientBalance : error := ESentinel "wallet.ErrInsufficientBalance".
Definition ErrInsufficienceMerchantBalance : error := EWrap ErrInsufficientBalance "merchant".

Definition EntityTypeMerchant : string := "merchant".
Definition EntityTypeWallet : string := "wallet".
Definition EntityTypeSystem : string := "system".

Definition OperationIncrement : string := "increment".
Definition OperationDecrement : string := "decrement".

Definition MetaOperation : string := "operation".
Definition MetaAmountRaw : string := "amountRaw".
Definition MetaAmountFormatted : string := "amountFormatted".
Definition MetaTransactionID : string := "transactionID".
Definition MetaSenderWalletID : string := "senderWallerID".
Definition MetaRecipientWalletID : string := "recipientWalletID".

(** A Go map: [None] is the nil map. *)
Abbreviation MetaData := (option metadata).

Record Balance := mkBalance {
  bal_ID : Z; bal_UUID : string; bal_EntityType : string; bal_EntityID : Z;
  bal_CreatedAt : Z; bal_UpdatedAt : Z; bal_Network : string; bal_NetworkID : string;
  bal_CurrencyType : string; bal_Currency : string; bal_Amount : Money;
  bal_UsdAmount : option Money
}.

(** The amounts are subtracted one after the other, each remainder being
    non-negative. *)
Fixpoint Covers_from (amount : Money) (expenses : list Money) : res unit :=
  match expenses with
  | [] => Ok tt
  | expense :: expenses => amount ← Money_Sub amount expense; Covers_from amount expenses
  end.

Definition Covers (b : Balance) (expenses : list Money) : res unit := Covers_from (bal_Amount b) expenses.

Definition compatibleTo (b a : Balance) : bool :=
  bool_decide (bal_Currency b = bal_Currency a) && bool_decide (bal_NetworkID b = bal_NetworkID a).

Definition entryToBalance (b : Row.Balance) : res Balance :=
  amount ← NumericToMoney (Row.b_Amount b) Crypto (Row.b_Currency b) (Row.b_Decimals b);
  mret (mkBalance (Row.b_ID b) (null_val (Row.b_Uuid b)) (Row.b_EntityType b) (Row.b_EntityID b)
    (Row.b_CreatedAt b) (Row.b_UpdatedAt b) (Row.b_Network b) (Row.b_NetworkID b)
    (Row.b_CurrencyType b) (Row.b_Currency b) amount None).

Fixpoint entitiesToBalances (entries : list Row.Balance) : res (list Balance) :=
  match entries with
  | [] => Ok []
  | e :: es => b ← entryToBalance e; bs ← entitiesToBalances es; mret (b :: bs)
  end.

(** ** Reading *)
Definition GetBalanceByUUID (entityType : string) (entityID : Z) (balanceID : string) : Go Balance :=
  entry ← not_found ErrBalanceNotFound (Queries.GetBalanceByUUID entityID entityType (mkNull balanceID true));
  lift (entryToBalance entry).

Definition GetMerchantBalanceByUUID (merchantID : Z) (balanceID : string) : Go Balance :=
  GetBalanceByUUID EntityTypeMerchant merchantID balanceID.

Definition GetBalanceByID (entityType : string) (entityID balanceID : Z) : Go Balance :=
  entry ← not_found ErrBalanceNotFound (Queries.GetBalanceByID entityID entityType balanceID);
  lift (entryToBalance entry).

Definition GetWalletsBalance (walletID : Z) (currency networkID : string) : Go Balance :=
  entry ← not_found ErrBalanceNotFound (GetBalanceByFilter walletID EntityTypeWallet networkID currency);
  lift (entryToBalance entry).

Definition GetMerchantBalance (merchantID : Z) (currency networkID : string) : Go Balance :=
  entry ← not_found ErrBalanceNotFound (GetBalanceByFilter merchantID EntityTypeMerchant networkID currency);
  lift (entryToBalance entry).

Definition EnsureBalance (entityType : string) (entityID : Z) (currency : CryptoCurrency) (isTest : bool) : Go Balance :=
  r ← attempt (GetBalanceByFilter entityID entityType (ChooseNetwork currency isTest) (cc_Ticker currency));
  entry ← match r with
    | inl entry => mret entry
    | inr e =>
      if errors_Is e ErrNoRows then
        createdAt ← time_Now; updatedAt ← time_Now; uuid ← uuid_New;
        CreateBalance (mkCreateBalanceParams createdAt updatedAt entityID entityType (mkNull uuid true)
          (cc_Blockchain currency) (ChooseNetwork currency isTest) (cc_Type currency) (cc_Ticker currency)
          (int32 (cc_Decimals currency)) (mkNumeric (Some 0) 0 Present))
      else fail e
    end;
  lift (entryToBalance entry).

(** ** Audit log *)
Definition ToJSONB (m : MetaData) : JSONB :=
  match m with
  | None => jsonb_null
  | Some m => if bool_decide (m = ∅) then jsonb_null else mkJSONB m Present
  end.

(** The three keys are written into the caller's map when there is one: the
    map is returned as it is left. *)
Definition writeAuditLog (balanceID : Z) (operation : string) (amount : Money) (comment : string)
  (metaData : MetaData) : Go MetaData :=
  formatted ← lift (Money_String amount);
  let metaData := Some (<[MetaAmountFormatted := formatted]> (<[MetaAmountRaw := StringRaw amount]>
    (<[MetaOperation := operation]> (default ∅ metaData)))) in
  createdAt ← time_Now;
  _ ← InsertBalanceAuditLog createdAt balanceID comment (ToJSONB metaData);
  mret metaData.

(** ** Updating a balance by id *)
Record UpdateBalanceByIDQuery := mkUpdateBalanceByIDQuery {
  ui_Operation : string; ui_Amount : Money; ui_Comment : string; ui_MetaData : MetaData
}.

Definition is_operation (op : string) : bool :=
  bool_decide (op = OperationIncrement) || bool_decide (op = OperationDecrement).

Definition UpdateBalanceByIDQuery_validate (q : UpdateBalanceByIDQuery) : res unit :=
  if negb (is_operation (ui_Operation q)) then Err (ENew "invalid operation")
  else if Money_IsZero (ui_Amount q) then Err (ENew "invalid amount provided")
  else Ok tt.

(** [repository.MoneyToNumeric] or, for a decrement, [MoneyToNegNumeric] *)
Definition delta_numeric (operation : string) (amount : Money) : Numeric :=
  if bool_decide (operation = OperationDecrement) then MoneyToNegNumeric amount else MoneyToNumeric amount.

(** Returns the balance pointer (nil when the amounts are incompatible, since
    [errors.Wrap] of a nil error is nil) and the caller's metadata map. *)
Definition updateBalanceByID (id : Z) (params : UpdateBalanceByIDQuery) : Go (option Balance * MetaData) :=
  _ ← lift (UpdateBalanceByIDQuery_validate params);
  b ← wrapM (GetBalanceByIDWithLock id) "unable to get balance by id";
  balance ← wrapM (lift (entryToBalance b)) "unable to construct balance";
  if negb (CompatibleTo (bal_Amount balance) (ui_Amount params)) then mret (None, ui_MetaData params) else
  let amount := delta_numeric (ui_Operation params) (ui_Amount params) in
  updatedAt ← time_Now;
  b ← wrapM (Queries.UpdateBalanceByID (bal_ID balance) updatedAt amount) "unable to update balance by id";
  balance ← wrapM (lift (entryToBalance b)) "unable to construct balance";
  meta ← wrapM (writeAuditLog (bal_ID balance) (ui_Operation params) (ui_Amount params) (ui_Comment params)
    (ui_MetaData params)) "unable to write balance audit log";
  mret (Some balance, meta).

Definition UpdateBalanceByID (id : Z) (params : UpdateBalanceByIDQuery) : Go (option Balance) :=
  _ ← lift (UpdateBalanceByIDQuery_validate params);
  RunTransaction (r ← updateBalanceByID id params; mret r.1).

(** ** Withdrawals: the merchant and the outbound wallet in one transaction *)
Record UpdateBalancesForWithdrawalParams := mkUpdateBalancesForWithdrawal {
  uw_Operation : string; uw_TransactionID : Z; uw_System : option Balance; uw_Merchant : option Balance;
  uw_Amount : Money; uw_ServiceFee : Money; uw_Comment : string
}.

Definition UpdateBalancesForWithdrawal_validate (params : UpdateBalancesForWithdrawalParams) : res unit :=
  let valid := match uw_System params, uw_Merchant params with
    | Some system, Some merchant =>
      (0 <? uw_TransactionID params) && compatibleTo system merchant &&
      bool_decide (bal_EntityType system = EntityTypeWallet) &&
      bool_decide (bal_EntityType merchant = EntityTypeMerchant)
    | _, _ => false
    end in
  if negb valid then Err (ENew "invalid input")
  else if negb (CompatibleTo (uw_Amount params) (uw_ServiceFee params)) then Err ErrIncompatibleMoney
  else Ok tt.

Definition UpdateBalancesForWithdrawal (params : UpdateBalancesForWithdrawalParams) : Go unit :=
  match UpdateBalancesForWithdrawal_validate params, uw_System params, uw_Merchant params with
  | Ok _, Some system, Some merchant =>
    merchantAmountDelta ← lift (Money_Add (uw_Amount params) (uw_ServiceFee params));
    let metaData := Some (<[MetaTransactionID := FormatInt (uw_TransactionID params)]>
      {[MetaSenderWalletID := FormatInt (bal_EntityID system)]}) in
    RunTransaction (
      r ← attempt (updateBalanceByID (bal_ID merchant)
        (mkUpdateBalanceByIDQuery (uw_Operation params) merchantAmountDelta (uw_Comment params) metaData));
      metaData ← match r with
        | inl (_, metaData) => mret metaData
        | inr e => fail (EWrap ErrInsufficienceMerchantBalance (error_string e))
        end;
      _ ← wrapM (updateBalanceByID (bal_ID system)
        (mkUpdateBalanceByIDQuery (uw_Operation params) (uw_Amount params) (uw_Comment params) metaData))
        "unable to update outbound wallet's balance";
      mret tt)
  | _, _, _ => mret tt
  end.

(** ** Updating or creating the balance of an entity *)
Record UpdateBalanceQuery := mkUpdateBalanceQuery {
  ub_EntityID : Z; ub_EntityType : string; ub_Operation : string; ub_Currency : CryptoCurrency;
  ub_Amount : Money; ub_Comment : string; ub_MetaData : MetaData; ub_IsTest : bool
}.

Definition UpdateBalanceQuery_validate (p : UpdateBalanceQuery) : res unit :=
  if (ub_EntityID p =? 0) || bool_decide (ub_EntityType p = "") then Err (ENew "invalid entity data provided")
  else if bool_decide (cc_Ticker (ub_Currency p) = "") then Err (ENew "invalid currency provided")
  else if bool_decide (m_ticker (ub_Amount p) = "") then Err (ENew "invalid amount provided")
  else if negb (is_operation (ub_Operation p)) then Err (ENew "invalid operation")
  else Ok tt.

Definition UpdateBalance (params : UpdateBalanceQuery) : Go (Balance * MetaData) :=
  _ ← lift (UpdateBalanceQuery_validate params);
  let amount := delta_numeric (ub_Operation params) (ub_Amount params) in
  let networkID := ChooseNetwork (ub_Currency params) (ub_IsTest params) in
  r ← attempt (GetBalanceByFilterWithLock (ub_EntityID params) (ub_EntityType params) networkID
    (cc_Ticker (ub_Currency params)));
  let create :=
    createdAt ← time_Now; updatedAt ← time_Now; uuid ← uuid_New;
    CreateBalance (mkCreateBalanceParams createdAt updatedAt (ub_EntityID params) (ub_EntityType params)
      (mkNull uuid true) (cc_Blockchain (ub_Currency params)) networkID (cc_Type (ub_Currency params))
      (m_ticker (ub_Amount params)) (int32 (m_decimals (ub_Amount params))) amount) in
  let update id := (updatedAt ← time_Now; Queries.UpdateBalanceByID id updatedAt amount) in
  balance ← wrapM (match r with
    | inr e => if errors_Is e ErrNoRows then create else update 0
    | inl balance => update (Row.b_ID balance)
    end) ("unable to " +:+ ub_Operation params +:+ " balance");
  meta ← wrapM (writeAuditLog (Row.b_ID balance) (ub_Operation params) (ub_Amount params) (ub_Comment params)
    (ub_MetaData params)) "unable to write balance audit log";
  balance ← lift (entryToBalance balance);
  mret (balance, meta).

(** ** System balances: wallets minus merchants, per currency *)
Definition keyFunc (b : Balance) : string :=
  bal_Currency b +:+ "/" +:+ bal_Network b +:+ "/" +:+ bal_NetworkID b.

Definition with_amount (amount : Money) (b : Balance) : Balance :=
  mkBalance (bal_ID b) (bal_UUID b) (bal_EntityType b) (bal_EntityID b) (bal_CreatedAt b) (bal_UpdatedAt b)
    (bal_Network b) (bal_NetworkID b) (bal_CurrencyType b) (bal_Currency b) amount (bal_UsdAmount b).

Definition system_balance (w : Balance) : Balance :=
  mkBalance 0 "" EntityTypeSystem 0 0 0 (bal_Network w) (bal_NetworkID w) (bal_CurrencyType w) (bal_Currency w)
    (bal_Amount w) None.

Fixpoint add_wallets (wallets : list Balance) (m : gmap string Balance) : res (gmap string Balance) :=
  match wallets with
  | [] => Ok m
  | w :: ws =>
    match m !! keyFunc w with
    | None => add_wallets ws (<[keyFunc w := system_balance w]> m)
    | Some systemBalance =>
      total ← wrap (Money_Add (bal_Amount systemBalance) (bal_Amount w)) "unable to add wallet's amount";
      add_wallets ws (<[keyFunc w := with_amount total systemBalance]> m)
    end
  end.

Fixpoint sub_merchants (merchants : list Balance) (m : gmap string Balance) : res (gmap string Balance) :=
  match merchants with
  | [] => Ok m
  | w :: ws =>
    match m !! keyFunc w with
    | None => Err (ENew ("unable to find balance " +:+ keyFunc w))
    | Some systemBalance =>
      total ← wrap (SubNegative (bal_Amount systemBalance) (bal_Amount w))
        ("unable to subtract merchant's amount " +:+ keyFunc w);
      sub_merchants ws (<[keyFunc w := with_amount total systemBalance]> m)
    end
  end.

Definition key_less (a b : Balance) : bool := String.ltb (keyFunc a) (keyFunc b).

Definition composeSystemBalances (merchants wallets : list Balance) : res (list Balance) :=
  m ← add_wallets wallets ∅;
  m ← sub_merchants merchants m;
  mret (SliceStable key_less (map_to_list m).*2).

(** ** Listing, with the fiat value of each balance *)
Record Balances := mkBalances {
  bs_merchant : list Balance; bs_wallet : list Balance; bs_system : option (list Balance)
}.

Definition with_usd (usd : Money) (b : Balance) : Balance :=
  mkBalance (bal_ID b) (bal_UUID b) (bal_EntityType b) (bal_EntityID b) (bal_CreatedAt b) (bal_UpdatedAt b)
    (bal_Network b) (bal_NetworkID b) (bal_CurrencyType b) (bal_Currency b) (bal_Amount b) (Some usd).

Section Listing.
(** [blockchain.Convertor.CryptoToFiat(ctx, amount, currency)], its [To] amount. *)
Context (convertor : Money -> string -> Go Money).

Fixpoint loadUSDBalances (bs : list Balance) : Go (list Balance) :=
  match bs with
  | [] => mret []
  | b :: bs =>
    usd ← convertor (bal_Amount b) USD;
    bs ← loadUSDBalances bs;
    mret (with_usd usd b :: bs)
  end.

Definition ListBalances (entityType : string) (entityID : Z) (withUSD : bool) : Go (list Balance) :=
  entries ← Queries.ListBalances entityType entityID;
  balances ← lift (entitiesToBalances entries);
  if withUSD then wrapM (loadUSDBalances balances) "unable to load USD balances" else mret balances.

Definition ListAllBalances (withUSD withSystemBalances hideEmpty : bool) : Go Balances :=
  res ← wrapM (ListAllBalancesByType EntityTypeMerchant hideEmpty) "unable to list merchant balances";
  merchantBalances ← lift (entitiesToBalances res);
  res ← wrapM (ListAllBalancesByType EntityTypeWallet hideEmpty) "unable to list wallet balances";
  walletBalances ← lift (entitiesToBalances res);
  systemBalances ←
    (if withSystemBalances then
       s ← wrapM (lift (composeSystemBalances merchantBalances walletBalances)) "unable to compose system balances";
       mret (Some s)
     else mret None);
  if withUSD then
    m ← wrapM (loadUSDBalances merchantBalances) "unable to load USD balances";
    w ← wrapM (loadUSDBalances walletBalances) "unable to load USD balances";
    s ← match systemBalances with
        | None => mret None
        | Some s => s ← wrapM (loadUSDBalances s) "unable to load USD balances"; mret (Some s)
        end;
    mret (mkBalances m w s)
  else mret (mkBalances merchantBalances walletBalances systemBalances).
End Listing.

(** ** The effect of one update on the database *)

(** The signed amount of an operation, and what an audit entry says of it. *)
Definition signed (operation : string) (amount : Money) : Z :=
  if bool_decide (operation = OperationDecrement) then - val amount else val amount.

Definition audit_amount (j : JSONB) : Z :=
  match jb_Bytes j !! MetaOperation, jb_Bytes j !! MetaAmountRaw with
  | Some op, Some raw =>
    match bigint_SetString raw with
    | Some v => if bool_decide (op = OperationDecrement) then - v else v
    | None => 0
    end
  | _, _ => 0
  end.

Definition log_entry (at_ id : Z) (comment : string) (meta : JSONB) (n : Z) : Row.BalanceAuditLog :=
  Row.mkBalanceAuditLog n at_ id comment meta.

(** The database after balance [id] moved by [delta] and the move was logged. *)
Definition moved (id delta at1 at2 : Z) (comment : string) (meta : JSONB) (d : DB) : DB :=
  set_balance_audit_log (insert_row (log_entry at2 id comment meta) (balance_audit_log d))
    (set_balances (update_rows (by_id id) (add_amount at1 delta) (balances d)) d).

Definition audit_meta (operation : string) (amount : Money) (formatted : string) (meta : MetaData) : metadata :=
  <[MetaAmountFormatted := formatted]> (<[MetaAmountRaw := StringRaw amount]>
    (<[MetaOperation := operation]> (default ∅ meta))).

Lemma delta_numeric_signed op a : delta_numeric op a = BigIntToNumeric (signed op a).
Proof. unfold delta_numeric, signed, MoneyToNegNumeric, MoneyToNumeric. by case_bool_decide. Qed.

Lemma ToJSONB_audit op a f m : ToJSONB (Some (audit_meta op a f m)) = mkJSONB (audit_meta op a f m) Present.
Proof.
  unfold ToJSONB. rewrite bool_decide_false; [done|]. apply insert_non_empty.
Qed.

Lemma audit_amount_meta op a f m : audit_amount (mkJSONB (audit_meta op a f m) Present) = signed op a.
Proof.
  unfold audit_amount, audit_meta, signed. simpl.
  rewrite lookup_insert_ne, lookup_insert_ne, lookup_insert_eq by done.
  rewrite lookup_insert_ne, lookup_insert_eq by done.
  unfold StringRaw. rewrite bigint_roundtrip. done.
Qed.

Lemma writeAuditLog_run id op a c m w :
  (exists f at_, Money_String a = Ok f /\
     (writeAuditLog id op a c m w).1 = Ok (Some (audit_meta op a f m)) /\
     db (writeAuditLog id op a c m w).2 =
       set_balance_audit_log (insert_row (log_entry at_ id c (mkJSONB (audit_meta op a f m) Present))
         (balance_audit_log (db w))) (db w)) \/
  (exists why, m_decimals a < 0 /\ writeAuditLog id op a c m w = (Panic why, w)).
Proof.
  unfold writeAuditLog. destruct (Money_String a) as [f|e|why] eqn:Hf.
  - left. exists f, (clock w (ticks w)). split; [done|].
    cbv [mbind M_bind lift time_Now InsertBalanceAuditLog query mret M_ret]. cbn [db].
    change (<[MetaAmountFormatted := f]> _) with (audit_meta op a f m).
    rewrite ToJSONB_audit. simpl. done.
  - exfalso. unfold Money_String in Hf.
    destruct (Z_lt_le_dec (m_decimals a) 0) as [Hd|Hd].
    + unfold String_bytes in Hf. cbv zeta in Hf. destruct (_ <? _); simpl in Hf.
      * by destruct (_ <? _).
      * destruct (_ =? _); [done|]. unfold repeat_char in Hf. by destruct (_ <? _).
    + destruct (String_bytes_total a Hd) as [b Hb]. by rewrite Hb in Hf.
  - right. exists why. split; [|done].
    destruct (Z_lt_le_dec (m_decimals a) 0) as [Hd|Hd]; [done|].
    unfold Money_String in Hf. destruct (String_bytes_total a Hd) as [b Hb]. by rewrite Hb in Hf.
Qed.

(** The balance a stored row denotes. *)
Definition row_value (b : Row.Balance) : Z := numeric_value (Row.b_Amount b).
Definition row_money (b : Row.Balance) : Money :=
  mkMoney Crypto (Row.b_Currency b) (Some (row_value b)) (Row.b_Decimals b).
Definition row_balance (b : Row.Balance) : Balance :=
  mkBalance (Row.b_ID b) (null_val (Row.b_Uuid b)) (Row.b_EntityType b) (Row.b_EntityID b)
    (Row.b_CreatedAt b) (Row.b_UpdatedAt b) (Row.b_Network b) (Row.b_NetworkID b)
    (Row.b_CurrencyType b) (Row.b_Currency b) (row_money b) None.

Lemma entryToBalance_row b v : Row.b_Amount b = BigIntToNumeric v -> entryToBalance b = Ok (row_balance b).
Proof.
  intros Hv. unfold entryToBalance, NumericToMoney. rewrite Hv. simpl.
  unfold row_balance, row_money, row_value. by rewrite Hv, numeric_value_whole.
Qed.

Lemma schema_row d b : schema_ok d -> b ∈ rows (balances d) ->
  0 <= row_value b /\ entryToBalance b = Ok (row_balance b).
Proof.
  intros Hok Hb. destruct (ok_amounts d Hok b Hb) as (v & Hv & He). unfold row_value.
  rewrite (entryToBalance_row _ v), He, numeric_value_whole by done. done.
Qed.

(** What an update by id does: the specification of [updateBalanceByID]. *)
Inductive update_result (id : Z) (p : UpdateBalanceByIDQuery) (d : DB) :
  res (option Balance * MetaData) -> DB -> Prop :=
| upd_invalid e :
    UpdateBalanceByIDQuery_validate p = Err e -> update_result id p d (Err e) d
| upd_missing :
    UpdateBalanceByIDQuery_validate p = Ok tt -> row_at id (balances d) = None ->
    update_result id p d (Err (EWrap ErrNoRows "unable to get balance by id")) d
| upd_incompatible row :
    UpdateBalanceByIDQuery_validate p = Ok tt -> row_at id (balances d) = Some row ->
    CompatibleTo (row_money row) (ui_Amount p) = false ->
    update_result id p d (Ok (None, ui_MetaData p)) d
| upd_insufficient row :
    UpdateBalanceByIDQuery_validate p = Ok tt -> row_at id (balances d) = Some row ->
    CompatibleTo (row_money row) (ui_Amount p) = true ->
    row_value row + signed (ui_Operation p) (ui_Amount p) < 0 ->
    update_result id p d (Err (EWrap check_violation "unable to update balance by id")) d
| upd_moved row at1 at2 f :
    UpdateBalanceByIDQuery_validate p = Ok tt -> row_at id (balances d) = Some row ->
    CompatibleTo (row_money row) (ui_Amount p) = true ->
    0 <= row_value row + signed (ui_Operation p) (ui_Amount p) ->
    Money_String (ui_Amount p) = Ok f ->
    update_result id p d
      (Ok (Some (row_balance (add_amount at1 (signed (ui_Operation p) (ui_Amount p)) row)),
           Some (audit_meta (ui_Operation p) (ui_Amount p) f (ui_MetaData p))))
      (moved id (signed (ui_Operation p) (ui_Amount p)) at1 at2 (ui_Comment p)
        (mkJSONB (audit_meta (ui_Operation p) (ui_Amount p) f (ui_MetaData p)) Present) d)
| upd_unprintable row why d' :
    UpdateBalanceByIDQuery_validate p = Ok tt -> row_at id (balances d) = Some row ->
    CompatibleTo (row_money row) (ui_Amount p) = true ->
    m_decimals (ui_Amount p) < 0 -> update_result id p d (Panic why) d'.

Lemma validate_by_id p : is_Some (match UpdateBalanceByIDQuery_validate p with Panic _ => None | _ => Some tt end).
Proof. unfold UpdateBalanceByIDQuery_validate. repeat case_match; eauto; simplify_eq. Qed.

Lemma wp_UpdateBalanceByID id at_ v row w (Q : res Row.Balance -> world -> Prop) :
  row_at id (balances (db w)) = Some row ->
  (row_value row + v < 0 -> forall w', db w' = db w -> Q (Err check_violation) w') ->
  (0 <= row_value row + v -> forall w',
     db w' = set_balances (update_rows (by_id id) (add_amount at_ v) (balances (db w))) (db w) ->
     Q (Ok (add_amount at_ v row)) w') ->
  wp (Queries.UpdateBalanceByID id at_ (BigIntToNumeric v)) w Q.
Proof.
  intros Hr Hneg Hpos. apply wp_query. unfold row_at in Hr.
  destruct (select _ _) as [|b l] eqn:Es; [done|]. injection Hr as ->.
  cbn [pg_numeric BigIntToNumeric n_Status]. rewrite !numeric_value_whole.
  cbn [add_amount Row.b_Amount]. rewrite !numeric_value_whole.
  change (numeric_value (Row.b_Amount row)) with (row_value row).
  rewrite bool_decide_false by done. destruct (Z.ltb_spec (row_value row + v) 0); simpl; auto.
Qed.

Lemma wp_writeAuditLog id op a c m w (Q : res MetaData -> world -> Prop) :
  (forall f at_ w', Money_String a = Ok f ->
     db w' = set_balance_audit_log (insert_row (log_entry at_ id c (mkJSONB (audit_meta op a f m) Present))
       (balance_audit_log (db w))) (db w) ->
     Q (Ok (Some (audit_meta op a f m))) w') ->
  (forall why, m_decimals a < 0 -> Q (Panic why) w) -> wp (writeAuditLog id op a c m) w Q.
Proof.
  intros Hok Hp. unfold wp.
  destruct (writeAuditLog_run id op a c m w) as [(f & at_ & Hf & -> & Hd)|(why & Hd & ->)]; eauto.
Qed.

Lemma wp_updateBalanceByID id p w : schema_ok (db w) ->
  wp (updateBalanceByID id p) w (fun r w' => update_result id p (db w) r (db w')).
Proof.
  intros Hok. unfold updateBalanceByID. do 2 wp_step.
  destruct (UpdateBalanceByIDQuery_validate p) as [[]|e|why] eqn:Hv; [|by constructor|].
  2: { destruct (validate_by_id p) as [[] Hs]. by rewrite Hv in Hs. }
  do 2 wp_step. apply wp_read. intros w1 E1.
  destruct (select (by_id id) (balances (db w))) as [|row l] eqn:Es; simpl.
  { rewrite E1. apply upd_missing; [done|]. unfold row_at. by rewrite Es. }
  assert (row_at id (balances (db w)) = Some row) as Hrow by (unfold row_at; by rewrite Es).
  destruct (row_at_id _ _ _ Hrow) as [Hid Hin]. unfold row_id, Balance_id in Hid.
  destruct (schema_row _ _ Hok Hin) as [Hnn He].
  do 3 wp_step. rewrite He. cbn [wrap bal_Amount row_balance].
  destruct (CompatibleTo (row_money row) (ui_Amount p)) eqn:Hc; cbn [negb].
  2: { wp_step. rewrite E1. by apply (upd_incompatible _ _ _ row). }
  set (v := signed (ui_Operation p) (ui_Amount p)).
  wp_step. apply wp_now. intros at1 w2 E2. do 2 wp_step. cbn [bal_ID row_balance]. rewrite Hid, delta_numeric_signed.
  rewrite <- E1, <- E2 in Hrow.
  apply (wp_UpdateBalanceByID _ _ _ row); [done| |]; intros Hge w3 E3; cbn [wrap].
  { rewrite E3, E2, E1. apply (upd_insufficient _ _ _ row); [done| |done|done]. by rewrite <- E1, <- E2. }
  do 3 wp_step. rewrite (entryToBalance_row _ (row_value row + v)) by done.
  cbn [wrap bal_ID row_balance]. do 2 wp_step. apply wp_writeAuditLog; cbn [wrap].
  - intros f at2 w4 Hf E4. wp_step. rewrite E4, E3, E2, E1. rewrite E2, E1 in Hrow.
    replace (set_balance_audit_log _ _) with (moved id v at1 at2 (ui_Comment p)
      (mkJSONB (audit_meta (ui_Operation p) (ui_Amount p) f (ui_MetaData p)) Present) (db w))
      by (unfold moved; simpl; by rewrite Hid).
    by apply upd_moved.
  - intros why Hd. rewrite E2, E1 in Hrow. by apply (upd_unprintable _ _ _ row).
Qed.

(** What [UpdateBalance] does: moves the entity's balance or opens it. *)
Definition opened (arg : CreateBalanceParams) (amount at2 : Z) (comment : string) (meta : JSONB) (d : DB) : DB :=
  set_balance_audit_log
    (insert_row (log_entry at2 (next_id (balances d)) comment meta) (balance_audit_log d))
    (set_balances (insert_row (balance_row arg (BigIntToNumeric amount)) (balances d)) d).

Definition upsert_filter (p : UpdateBalanceQuery) : Row.Balance -> bool :=
  balance_filter (ub_EntityID p) (ub_EntityType p) (ChooseNetwork (ub_Currency p) (ub_IsTest p))
    (cc_Ticker (ub_Currency p)).

Definition upsert_row (p : UpdateBalanceQuery) (at0 at1 : Z) (uuid : string) : CreateBalanceParams :=
  mkCreateBalanceParams at0 at1 (ub_EntityID p) (ub_EntityType p) (mkNull uuid true)
    (cc_Blockchain (ub_Currency p)) (ChooseNetwork (ub_Currency p) (ub_IsTest p)) (cc_Type (ub_Currency p))
    (m_ticker (ub_Amount p)) (int32 (m_decimals (ub_Amount p)))
    (BigIntToNumeric (signed (ub_Operation p) (ub_Amount p))).

Definition upsert_clash (p : UpdateBalanceQuery) (d : DB) : bool :=
  existsb (same_key (ub_EntityType p) (ub_EntityID p) (cc_Blockchain (ub_Currency p))
    (ChooseNetwork (ub_Currency p) (ub_IsTest p)) (m_ticker (ub_Amount p))) (rows (balances d)).

Definition upsert_error (p : UpdateBalanceQuery) (e : error) : error :=
  EWrap e ("unable to " +:+ ub_Operation p +:+ " balance").

Inductive upsert_result (p : UpdateBalanceQuery) (d : DB) : res (Balance * MetaData) -> DB -> Prop :=
| ups_invalid e :
    UpdateBalanceQuery_validate p = Err e -> upsert_result p d (Err e) d
| ups_moved row at1 at2 f :
    UpdateBalanceQuery_validate p = Ok tt -> one (select (upsert_filter p) (balances d)) = Ok row ->
    0 <= row_value row + signed (ub_Operation p) (ub_Amount p) -> Money_String (ub_Amount p) = Ok f ->
    upsert_result p d
      (Ok (row_balance (add_amount at1 (signed (ub_Operation p) (ub_Amount p)) row),
           Some (audit_meta (ub_Operation p) (ub_Amount p) f (ub_MetaData p))))
      (moved (Row.b_ID row) (signed (ub_Operation p) (ub_Amount p)) at1 at2 (ub_Comment p)
        (mkJSONB (audit_meta (ub_Operation p) (ub_Amount p) f (ub_MetaData p)) Present) d)
| ups_insufficient row :
    UpdateBalanceQuery_validate p = Ok tt -> one (select (upsert_filter p) (balances d)) = Ok row ->
    row_value row + signed (ub_Operation p) (ub_Amount p) < 0 ->
    upsert_result p d (Err (upsert_error p check_violation)) d
| ups_opened at0 at1 at2 uuid f :
    UpdateBalanceQuery_validate p = Ok tt -> one (select (upsert_filter p) (balances d)) = Err ErrNoRows ->
    0 <= signed (ub_Operation p) (ub_Amount p) -> upsert_clash p d = false ->
    Money_String (ub_Amount p) = Ok f ->
    upsert_result p d
      (Ok (row_balance (balance_row (upsert_row p at0 at1 uuid)
             (BigIntToNumeric (signed (ub_Operation p) (ub_Amount p))) (next_id (balances d))),
           Some (audit_meta (ub_Operation p) (ub_Amount p) f (ub_MetaData p))))
      (opened (upsert_row p at0 at1 uuid) (signed (ub_Operation p) (ub_Amount p)) at2 (ub_Comment p)
        (mkJSONB (audit_meta (ub_Operation p) (ub_Amount p) f (ub_MetaData p)) Present) d)
| ups_negative :
    UpdateBalanceQuery_validate p = Ok tt -> one (select (upsert_filter p) (balances d)) = Err ErrNoRows ->
    signed (ub_Operation p) (ub_Amount p) < 0 ->
    upsert_result p d (Err (upsert_error p check_violation)) (set_balances (skip_id (balances d)) d)
| ups_clash :
    UpdateBalanceQuery_validate p = Ok tt -> one (select (upsert_filter p) (balances d)) = Err ErrNoRows ->
    0 <= signed (ub_Operation p) (ub_Amount p) -> upsert_clash p d = true ->
    upsert_result p d (Err (upsert_error p unique_violation)) (set_balances (skip_id (balances d)) d)
| ups_unprintable why d' :
    m_decimals (ub_Amount p) < 0 -> upsert_result p d (Panic why) d'.

Lemma wp_CreateBalance arg v w (Q : res Row.Balance -> world -> Prop) :
  cb_Amount arg = BigIntToNumeric v ->
  (v < 0 -> forall w', db w' = set_balances (skip_id (balances (db w))) (db w) -> Q (Err check_violation) w') ->
  (0 <= v -> existsb (same_key (cb_EntityType arg) (cb_EntityID arg) (cb_Network arg) (cb_NetworkID arg)
     (cb_Currency arg)) (rows (balances (db w))) = true ->
   forall w', db w' = set_balances (skip_id (balances (db w))) (db w) -> Q (Err unique_violation) w') ->
  (0 <= v -> existsb (same_key (cb_EntityType arg) (cb_EntityID arg) (cb_Network arg) (cb_NetworkID arg)
     (cb_Currency arg)) (rows (balances (db w))) = false -> forall w',
     db w' = set_balances (insert_row (balance_row arg (BigIntToNumeric v)) (balances (db w))) (db w) ->
     Q (Ok (balance_row arg (BigIntToNumeric v) (next_id (balances (db w))))) w') ->
  wp (CreateBalance arg) w Q.
Proof.
  intros Ha H1 H2 H3. apply wp_query. rewrite Ha.
  cbn [pg_numeric_not_null pg_numeric BigIntToNumeric n_Status mbind res_bind].
  cbn [BigIntToNumeric n_Status]. rewrite bool_decide_false by done. rewrite !numeric_value_whole.
  destruct (Z.ltb_spec v 0); simpl; [by auto|]. destruct (existsb _ _) eqn:E; simpl; auto.
Qed.

Lemma validate_upsert p : UpdateBalanceQuery_validate p = Ok tt \/ exists e, UpdateBalanceQuery_validate p = Err e.
Proof. unfold UpdateBalanceQuery_validate. repeat case_match; eauto. Qed.

Lemma wp_UpdateBalance p w : schema_ok (db w) ->
  wp (UpdateBalance p) w (fun r w' => upsert_result p (db w) r (db w')).
Proof.
  intros Hok. unfold UpdateBalance. do 2 wp_step.
  destruct (validate_upsert p) as [Hv|[e Hv]]; rewrite Hv; [|by constructor].
  cbv zeta. do 2 wp_step. apply wp_read. intros w1 E1. change (balance_filter _ _ _ _) with (upsert_filter p).
  rewrite delta_numeric_signed. set (v := signed (ub_Operation p) (ub_Amount p)) in *.
  destruct (one (select (upsert_filter p) (balances (db w)))) as [row|e|why] eqn:Es.
  - destruct (one_select_inv _ _ _ Es) as [Hin _]. destruct (schema_row _ _ Hok Hin) as [Hnn He].
    assert (row_at (Row.b_ID row) (balances (db w)) = Some row) as Hrow
      by (apply row_at_Some; [apply Hok|done]).
    do 3 wp_step. apply wp_now. intros at1 w2 E2. rewrite <- E1, <- E2 in Hrow.
    apply (wp_UpdateBalanceByID _ _ _ row); [done| |]; intros Hge w3 E3; cbn [wrap].
    { rewrite E3, E2, E1. by apply (ups_insufficient _ _ row). }
    wp_step. apply wp_wrap, wp_writeAuditLog; cbn [wrap].
    + intros f at2 w4 Hf E4. do 2 wp_step. rewrite (entryToBalance_row _ (row_value row + v)) by done.
      wp_step. rewrite E4, E3, E2, E1. exact (ups_moved p (db w) row at1 at2 f Hv Es Hge Hf).
    + intros why Hd. by apply ups_unprintable.
  - destruct (one_select_none _ _ _ Es) as [-> _]. rewrite errors_Is_refl.
    do 3 wp_step. apply wp_now. intros at0 w2 E2. wp_step. apply wp_now. intros at1 w3 E3.
    wp_step. apply wp_uuid. intros u w4 E4. rewrite E3, E2, E1 in E4. clear E1 E2 E3.
    change (mkCreateBalanceParams _ _ _ _ _ _ _ _ _ _ _) with (upsert_row p at0 at1 u).
    apply (wp_CreateBalance _ v); [done| | |]; rewrite E4; cbn [wrap].
    + intros Hneg w5 E5. rewrite E5. by apply ups_negative.
    + intros Hge Hc w5 E5. rewrite E5. by apply ups_clash.
    + intros Hge Hc w5 E5. wp_step. apply wp_wrap, wp_writeAuditLog; cbn [wrap].
      * intros f at2 w6 Hf E6. do 2 wp_step. rewrite (entryToBalance_row _ v) by done.
        wp_step. rewrite E6, E5. exact (ups_opened p (db w) at0 at1 at2 u f Hv Es Hge Hc Hf).
      * intros why Hd. by apply ups_unprintable.
  - exfalso. unfold one in Es. by destruct (select _ _).
Qed.

Lemma updateBalanceByID_schema id p : steps schema_step (updateBalanceByID id p).
Proof. unfold updateBalanceByID, writeAuditLog. go_steps. Qed.
Lemma UpdateBalanceByID_schema' id p : steps schema_step (UpdateBalanceByID id p).
Proof. unfold UpdateBalanceByID. pose proof updateBalanceByID_schema. go_steps. Qed.
Lemma UpdateBalance_schema p : steps schema_step (UpdateBalance p).
Proof. unfold UpdateBalance, writeAuditLog. go_steps. Qed.
Lemma EnsureBalance_schema ty id c t : steps schema_step (EnsureBalance ty id c t).
Proof. unfold EnsureBalance. go_steps. Qed.
#[export] Hint Resolve updateBalanceByID_schema UpdateBalanceByID_schema' UpdateBalance_schema
  EnsureBalance_schema : schema.
Lemma UpdateBalancesForWithdrawal_schema p : steps schema_step (UpdateBalancesForWithdrawal p).
Proof. unfold UpdateBalancesForWithdrawal. go_steps. Qed.
#[export] Hint Resolve UpdateBalancesForWithdrawal_schema : schema.

(** ** The audit log *)
Definition audit_total (id : Z) (log : list Row.BalanceAuditLog) : Z :=
  foldr (fun l acc => (if Row.al_BalanceID l =? id then audit_amount (Row.al_Metadata l) else 0) + acc) 0 log.

(** Every balance is the sum of its audit entries, and no entry is about a
    balance yet to come. *)
Definition audited (d : DB) : Prop :=
  all_rows (fun b => row_value b = audit_total (Row.b_ID b) (rows (balance_audit_log d))) (balances d) /\
  all_rows (fun l => Row.al_BalanceID l < next_id (balances d)) (balance_audit_log d).

Lemma audit_total_app id l l' : audit_total id (l ++ l') = audit_total id l + audit_total id l'.
Proof. induction l as [|x l IH]; simpl; [done|]. rewrite IH. lia. Qed.

Lemma audit_total_fresh id l : Forall (fun l => Row.al_BalanceID l < id) l -> audit_total id l = 0.
Proof.
  induction 1 as [|x l Hx _ IH]; [done|]. simpl. rewrite IH.
  destruct (Z.eqb_spec (Row.al_BalanceID x) id); lia.
Qed.

Lemma audited_rows d d' : same_rows d d' -> next_id (balances d) <= next_id (balances d') -> audited d -> audited d'.
Proof.
  intros (Hb & Hl & _) Hn [H1 H2]. unfold audited, all_rows in *. rewrite <- Hb, <- Hl. split; [done|].
  intros l Hin. specialize (H2 l Hin). simpl in *. lia.
Qed.

Lemma row_value_add at_ v b : row_value (add_amount at_ v b) = row_value b + v.
Proof. unfold row_value. simpl. by rewrite numeric_value_whole. Qed.

Lemma audited_moved d id v at1 at2 c meta row :
  schema_ok d -> row_at id (balances d) = Some row -> audit_amount meta = v ->
  audited d -> audited (moved id v at1 at2 c meta d).
Proof.
  intros Hok Hrow Hm [H1 H2]. destruct (row_at_id _ _ _ Hrow) as [Hid Hin].
  destruct (ok_wf d Hok) as [(_ & Hf & _) _]. rewrite Forall_forall in Hf. specialize (Hf _ Hin).
  split.
  - intros b Hb. simpl in Hb. apply elem_of_update in Hb as (x & Hx & ->). cbn [moved set_balance_audit_log
      balance_audit_log insert_row rows]. rewrite audit_total_app. simpl.
    specialize (H1 _ Hx). simpl in H1. unfold by_id, row_id, Balance_id. destruct (Z.eqb_spec (Row.b_ID x) id) as [He|He].
    + rewrite row_value_add. simpl. rewrite H1, (proj2 (Z.eqb_eq id (Row.b_ID x))) by done. lia.
    + rewrite H1, (proj2 (Z.eqb_neq id (Row.b_ID x))) by done. lia.
  - intros l [Hl| ->]%elem_of_insert; simpl; [by apply H2|lia].
Qed.

Lemma audited_opened d arg v at2 c meta :
  schema_ok d -> audit_amount meta = v -> audited d -> audited (opened arg v at2 c meta d).
Proof.
  intros Hok Hm [H1 H2]. destruct (ok_wf d Hok) as [(_ & Hf & _) _]. rewrite Forall_forall in Hf.
  assert (audit_total (next_id (balances d)) (rows (balance_audit_log d)) = 0) as Hz.
  { apply audit_total_fresh, Forall_forall. intros l Hl. by apply H2. }
  split.
  - intros b Hb. simpl in Hb. apply elem_of_insert in Hb. cbn [opened set_balance_audit_log
      balance_audit_log insert_row rows]. rewrite audit_total_app. simpl. destruct Hb as [Hb| ->].
    + specialize (H1 _ Hb). specialize (Hf _ Hb). simpl in H1. unfold row_id, Balance_id in Hf.
      rewrite H1, (proj2 (Z.eqb_neq _ _)) by lia. lia.
    + unfold row_value. simpl. rewrite numeric_value_whole, Z.eqb_refl, Hz. lia.
  - intros l [Hl| ->]%elem_of_insert; simpl; [specialize (H2 _ Hl); simpl in H2|]; lia.
Qed.

Lemma audited_empty_row d arg : schema_ok d -> cb_Amount arg = BigIntToNumeric 0 -> audited d ->
  audited (set_balances (insert_row (balance_row arg (BigIntToNumeric 0)) (balances d)) d).
Proof.
  intros Hok Ha [H1 H2]. split.
  - intros b Hb. simpl in Hb. apply elem_of_insert in Hb as [Hb| ->]; [by apply H1|].
    unfold row_value. simpl. rewrite numeric_value_whole, audit_total_fresh; [done|].
    apply Forall_forall. intros l Hl. by apply H2.
  - intros l Hl. simpl. specialize (H2 _ Hl). simpl in H2. lia.
Qed.

(** Results of the updates that succeeded keep the log and the balances in step. *)
Lemma update_result_audited id p d a d' : schema_ok d ->
  update_result id p d (Ok a) d' -> audited d -> audited d'.
Proof.
  intros Hok Hr Ha. inversion Hr; subst; [done|].
  eapply audited_moved; eauto. apply audit_amount_meta.
Qed.

Lemma upsert_result_audited p d a d' : schema_ok d ->
  upsert_result p d (Ok a) d' -> audited d -> audited d'.
Proof.
  intros Hok Hr Ha. inversion Hr as [|? ? ? ? ? Hsel| |? ? ? ? ? ?| | |]; subst.
  - destruct (one_select_inv _ _ _ Hsel) as [Hin _].
    eapply (audited_moved _ _ _ _ _ _ _ row); eauto using audit_amount_meta.
    apply row_at_Some; [apply Hok|done].
  - apply audited_opened; eauto using audit_amount_meta.
Qed.

Lemma wp_schema {A} (m : Go A) w (Q : res A -> world -> Prop) : steps schema_step m -> schema_ok (db w) ->
  wp m w Q -> wp m w (fun r w' => Q r w' /\ schema_ok (db w') /\ seq_le (db w) (db w')).
Proof. intros Hs Hok Hq. unfold wp. destruct (Hs w) as [? Hs']. auto. Qed.

Lemma wp_update id p w (Q : res (option Balance * MetaData) -> world -> Prop) : schema_ok (db w) ->
  (forall r w', update_result id p (db w) r (db w') -> schema_ok (db w') -> seq_le (db w) (db w') -> Q r w') ->
  wp (updateBalanceByID id p) w Q.
Proof.
  intros Hok HQ. eapply wp_mono; [apply wp_schema; [by apply updateBalanceByID_schema|done|by apply wp_updateBalanceByID]|].
  naive_solver.
Qed.

Lemma audited_rollback d d' : seq_le d d' -> audited d -> audited (rollback d d').
Proof. intros Hs. apply audited_rows; [apply rollback_same_rows|]. apply Hs. Qed.

Lemma EnsureBalance_audited ty id c t w : schema_ok (db w) -> audited (db w) ->
  audited (db (EnsureBalance ty id c t w).2).
Proof.
  intros Hok Ha.
  change (wp (EnsureBalance ty id c t) w (fun _ w' => audited (db w'))). unfold EnsureBalance.
  do 2 wp_step. apply wp_read. intros w1 E1.
  assert (forall w2, db w2 = db w -> forall r, wp (lift (entryToBalance r)) w2 (fun _ w' => audited (db w'))) as Hend.
  { intros w2 E2 r. wp_step. by rewrite E2. }
  destruct (one _) as [b|e|why]; [repeat wp_step; by rewrite E1| |by rewrite E1].
  wp_step. destruct (errors_Is e ErrNoRows); [|wp_step; by rewrite E1].
  wp_step. apply wp_now. intros at0 w2 E2. wp_step. apply wp_now. intros at1 w3 E3.
  wp_step. apply wp_uuid. intros u w4 E4. rewrite E3, E2, E1 in E4. clear E1 E2 E3.
  apply (wp_CreateBalance _ 0); [done|intros; lia| |]; intros _ _ w5 E5.
  - rewrite E5, E4. apply (audited_rows (db w)); [by unfold same_rows|simpl; lia|done].
  - wp_step. rewrite E5, E4. by apply audited_empty_row.
Qed.

(** C2. The audit log explains every balance: with the schema's constraints,
    "each balance equals the sum of its log entries" is kept by [EnsureBalance],
    [UpdateBalanceByID], [UpdateBalancesForWithdrawal] and by [UpdateBalance]
    in the transaction its callers run it in, whatever their arguments and
    whether they succeed, fail or panic. *)
Theorem audit_invariant (w : world) (Hok : schema_ok (db w)) (Ha : audited (db w)) :
  (forall ty id c t, audited (db (EnsureBalance ty id c t w).2)) /\
  (forall id p, audited (db (UpdateBalanceByID id p w).2)) /\
  (forall p, audited (db (UpdateBalancesForWithdrawal p w).2)) /\
  (forall p, audited (db (RunTransaction (UpdateBalance p) w).2)).
Proof.
  repeat match goal with |- _ /\ _ => split end; intros.
  - by apply EnsureBalance_audited.
  - change (wp (UpdateBalanceByID id p) w (fun _ w' => audited (db w'))). unfold UpdateBalanceByID.
    do 2 wp_step. destruct (UpdateBalanceByIDQuery_validate p); [|done|done].
    apply wp_run. wp_step. apply wp_update; [done|]. intros r w1 Hr Hok1 Hs.
    destruct r as [x|e|why]; [wp_step; exact (update_result_audited _ _ _ _ _ Hok Hr Ha)| |];
      intros w2 E2; rewrite E2; by apply audited_rollback.
  - change (wp (UpdateBalancesForWithdrawal p) w (fun _ w' => audited (db w'))). unfold UpdateBalancesForWithdrawal.
    destruct (UpdateBalancesForWithdrawal_validate p); [|done|done].
    destruct (uw_System p) as [sys|]; [|done]. destruct (uw_Merchant p) as [mer|]; [|done].
    do 2 wp_step. destruct (Money_Add _ _); [|done|done]. cbv zeta. apply wp_run. do 2 wp_step.
    apply wp_update; [done|]. intros r w1 Hr Hok1 Hs1. destruct r as [[b1 meta1]|e|why].
    + pose proof (update_result_audited _ _ _ _ _ Hok Hr Ha) as Ha1.
      do 4 wp_step. apply wp_update; [done|]. intros r w2 Hr2 Hok2 Hs2.
      destruct r as [x|e|why]; cbn [wrap]; [wp_step; exact (update_result_audited _ _ _ _ _ Hok1 Hr2 Ha1)| |];
        intros w3 E3; rewrite E3; apply audited_rollback; try done; by etransitivity.
    + do 2 wp_step. intros w2 E2. rewrite E2. by apply audited_rollback.
    + intros w2 E2. rewrite E2. by apply audited_rollback.
  - change (wp (RunTransaction (UpdateBalance p)) w (fun _ w' => audited (db w'))). apply wp_run.
    eapply wp_mono; [apply wp_schema; [by apply UpdateBalance_schema|done|by apply wp_UpdateBalance]|].
    intros r w1 (Hr & Hok1 & Hs). destruct r; [exact (upsert_result_audited _ _ _ _ Hok Hr Ha)| |];
      intros w2 E2; rewrite E2; by apply audited_rollback.
Qed.

Lemma audit_invariant_witness :
  audited (db (RunTransaction (UpdateBalance (mkUpdateBalanceQuery 7 "wallet" "increment"
    (mkCrypto "ETH" "Ethereum" "1" "5" "coin" "ETH" "Ethereum" 18 "" "" [] false)
    (mkMoney Crypto "ETH" (Some 12) 18) "hello" None false)) empty_world).2).
Proof.
  destruct (audit_invariant empty_world schema_empty) as (_ & _ & _ & H); [|apply H].
  split; apply all_empty.
Defined.

(** ** Withdrawals *)
Definition balance_value (d : DB) (i : Z) : option Z := row_value <$> row_at i (balances d).

Lemma balance_value_moved d id v at1 at2 c meta i :
  balance_value (moved id v at1 at2 c meta d) i =
  (fun x => if decide (i = id) then x + v else x) <$> balance_value d i.
Proof.
  unfold balance_value, moved. cbn [balances set_balance_audit_log set_balances].
  rewrite row_at_update by done. destruct (row_at i (balances d)) as [r|] eqn:Hr; [|done]. simpl. f_equal.
  destruct (row_at_id _ _ _ Hr) as [Hid _]. unfold by_id. rewrite Hid. case_decide as Hi.
  - rewrite (proj2 (Z.eqb_eq _ _)) by done. apply row_value_add.
  - by rewrite (proj2 (Z.eqb_neq _ _)) by done.
Qed.

Definition signed_by (operation : string) (v : Z) : Z :=
  if bool_decide (operation = OperationDecrement) then - v else v.

(** The shape every caller gives the two balances: existing rows of the
    currency of the amount. *)
Record withdrawal_ready (p : UpdateBalancesForWithdrawalParams) (d : DB) (s m : Balance) (rs rm : Row.Balance) : Prop := {
  wr_valid : UpdateBalancesForWithdrawal_validate p = Ok tt;
  wr_op : is_operation (uw_Operation p) = true;
  wr_system : uw_System p = Some s;
  wr_merchant : uw_Merchant p = Some m;
  wr_distinct : bal_ID s <> bal_ID m;
  wr_rs : row_at (bal_ID s) (balances d) = Some rs;
  wr_rm : row_at (bal_ID m) (balances d) = Some rm;
  wr_cs : CompatibleTo (row_money rs) (uw_Amount p) = true;
  wr_cm : CompatibleTo (row_money rm) (uw_Amount p) = true;
  wr_amount : 0 < val (uw_Amount p);
  wr_fee : 0 <= val (uw_ServiceFee p);
  wr_decimals : 0 <= m_decimals (uw_Amount p)
}.

Definition merchant_delta (p : UpdateBalancesForWithdrawalParams) : Z :=
  signed_by (uw_Operation p) (val (uw_Amount p) + val (uw_ServiceFee p)).
Definition system_delta (p : UpdateBalancesForWithdrawalParams) : Z :=
  signed_by (uw_Operation p) (val (uw_Amount p)).

Lemma update_result_ready id q d r d' row :
  update_result id q d r d' ->
  is_operation (ui_Operation q) = true -> val (ui_Amount q) <> 0 -> 0 <= m_decimals (ui_Amount q) ->
  row_at id (balances d) = Some row -> CompatibleTo (row_money row) (ui_Amount q) = true ->
  let v := signed (ui_Operation q) (ui_Amount q) in
  (0 <= row_value row + v /\ exists b at1 at2 meta, r = Ok (Some b, meta) /\
     d' = moved id v at1 at2 (ui_Comment q) (ToJSONB meta) d) \/
  (row_value row + v < 0 /\ r = Err (EWrap check_violation "unable to update balance by id") /\ d' = d).
Proof.
  intros Hr Hop Hnz Hdec Hrow Hc v.
  assert (UpdateBalanceByIDQuery_validate q = Ok tt) as Hv.
  { unfold UpdateBalanceByIDQuery_validate, Money_IsZero. rewrite Hop. simpl.
    by destruct (Z.eqb_spec (val (ui_Amount q)) 0). }
  inversion Hr; simplify_eq; try lia; try congruence; [by right|].
  left. split; [done|]. do 4 eexists. split; [done|]. by rewrite ToJSONB_audit.
Qed.

(** What the two updates leave of every balance. *)
Definition withdrawal_values (p : UpdateBalancesForWithdrawalParams) (s m : Balance) (d d' : DB) : Prop :=
  forall i, balance_value d' i =
    (fun x => if decide (i = bal_ID m) then x + merchant_delta p
              else if decide (i = bal_ID s) then x + system_delta p else x) <$> balance_value d i.

Lemma withdrawal_run p w s m rs rm : schema_ok (db w) -> withdrawal_ready p (db w) s m rs rm ->
  wp (UpdateBalancesForWithdrawal p) w (fun r w' =>
    match r with
    | Ok _ => 0 <= row_value rm + merchant_delta p /\ 0 <= row_value rs + system_delta p /\
        withdrawal_values p s m (db w) (db w') /\
        (forall i row, row_at i (balances (db w)) = Some row ->
           exists row', row_at i (balances (db w')) = Some row' /\ CompatibleTo (row_money row') (row_money row) = true)
    | Err e => same_rows (db w) (db w') /\
        ((row_value rm + merchant_delta p < 0 /\ errors_Is e ErrInsufficientBalance = true) \/
         (0 <= row_value rm + merchant_delta p /\ row_value rs + system_delta p < 0))
    | Panic _ => False
    end).
Proof.
  intros Hok [Hv Hop Hs Hm Hne Hrs Hrm Hcs Hcm Ham Hfee Hdec].
  unfold UpdateBalancesForWithdrawal. rewrite Hv, Hs, Hm.
  assert (CompatibleTo (uw_Amount p) (uw_ServiceFee p) = true) as Hcf.
  { revert Hv. unfold UpdateBalancesForWithdrawal_validate. rewrite Hs, Hm.
    destruct (negb _); [done|]. by destruct (CompatibleTo (uw_Amount p) (uw_ServiceFee p)). }
  do 2 wp_step.
  rewrite (proj2 (Money_Add_ok (uw_Amount p) (uw_ServiceFee p) _) (conj Hcf eq_refl)). cbv zeta.
  set (total := mkMoney _ _ _ _). apply wp_run. do 2 wp_step.
  apply wp_update; [done|]. intros r w1 Hr Hok1 Hs1.
  assert (CompatibleTo (row_money rm) total = true) as Hct by (by apply CompatibleTo_iff in Hcm; apply CompatibleTo_iff).
  apply (update_result_ready _ _ _ _ _ rm) in Hr; simpl;
    [|done|unfold val; simpl; lia|done|done|done]. cbn [ui_Operation ui_Amount ui_Comment] in Hr.
  change (signed (uw_Operation p) total) with (merchant_delta p) in Hr.
  destruct Hr as [(Hge & b1 & at1 & at2 & meta & -> & E1)|(Hlt & -> & E1)].
  2: { do 2 wp_step. intros w2 E2. rewrite E2. split; [apply rollback_same_rows|]. by left. }
  do 4 wp_step. apply wp_update; [done|]. intros r w2 Hr Hok2 Hs2.
  assert (row_at (bal_ID s) (balances (db w1)) = Some rs) as Hrs1.
  { rewrite E1. unfold moved. cbn [balances set_balance_audit_log set_balances]. rewrite row_at_update by done.
    rewrite Hrs. simpl. unfold by_id. destruct (row_at_id _ _ _ Hrs) as [-> _].
    by rewrite (proj2 (Z.eqb_neq _ _)). }
  apply (update_result_ready _ _ _ _ _ rs) in Hr; simpl; [|done|lia|done|done|done].
  cbn [ui_Operation ui_Amount ui_Comment] in Hr.
  change (signed (uw_Operation p) (uw_Amount p)) with (system_delta p) in Hr.
  destruct Hr as [(Hge2 & b2 & at3 & at4 & meta2 & -> & E2)|(Hlt & -> & E2)]; cbn [wrap].
  - wp_step. split; [done|]. split; [done|]. split.
    + intros i. rewrite E2, balance_value_moved, E1, balance_value_moved.
      destruct (balance_value (db w) i); [|done]. simpl. f_equal. repeat case_decide; try congruence; lia.
    + intros i row Hrow. rewrite E2, E1. unfold moved. cbn [balances set_balance_audit_log set_balances].
      rewrite !row_at_update by done. rewrite Hrow. simpl. eexists. split; [done|].
      apply CompatibleTo_iff. by repeat case_match.
  - intros w3 E3. rewrite E3. split; [apply rollback_same_rows|]. by right.
Qed.

(** C21. A withdrawal moves both balances or neither: for existing merchant and
    wallet balances of the amount's currency, [UpdateBalancesForWithdrawal]
    succeeds exactly when both stay non-negative, and then the merchant moves
    by amount plus service fee, the wallet by the amount, and no other balance
    changes; otherwise every table keeps its rows and an uncovered merchant is
    reported as [ErrInsufficientBalance]. *)
Theorem withdrawal_atomic (p : UpdateBalancesForWithdrawalParams) (w : world) (s m : Balance) (rs rm : Row.Balance)
  (Hok : schema_ok (db w)) (Hp : withdrawal_ready p (db w) s m rs rm) :
  match UpdateBalancesForWithdrawal p w with
  | (Ok _, w') =>
    0 <= row_value rm + merchant_delta p /\ 0 <= row_value rs + system_delta p /\
    withdrawal_values p s m (db w) (db w')
  | (Err e, w') =>
    same_rows (db w) (db w') /\
    ((row_value rm + merchant_delta p < 0 /\ errors_Is e ErrInsufficientBalance = true) \/
     (0 <= row_value rm + merchant_delta p /\ row_value rs + system_delta p < 0))
  | (Panic _, _) => False
  end.
Proof.
  pose proof (withdrawal_run p w s m rs rm Hok Hp) as H. unfold wp in H.
  destruct (UpdateBalancesForWithdrawal p w) as [[]]; [naive_solver|done|done].
Qed.

(** Example rows: a merchant with 100 and an outbound wallet with 70 wei. *)
Definition ex_row (id entity : Z) (ty : string) (v : Z) : Row.Balance :=
  Row.mkBalance id 0 0 entity ty "ETH" "1" "coin" "ETH" 18 (BigIntToNumeric v) (mkNull "u" true).
Definition ex_db : DB :=
  set_balances (mkTable [ex_row 1 10 "merchant" 100; ex_row 2 20 "wallet" 70] 3) empty_db.
Definition ex_world : world := set_db ex_db empty_world.
Definition ex_withdrawal (op : string) : UpdateBalancesForWithdrawalParams :=
  mkUpdateBalancesForWithdrawal op 5 (Some (row_balance (ex_row 2 20 "wallet" 70)))
    (Some (row_balance (ex_row 1 10 "merchant" 100)))
    (mkMoney Crypto "ETH" (Some 60) 18) (mkMoney Crypto "ETH" (Some 7) 18) "withdrawal".

Lemma ex_schema : schema_ok ex_db.
Proof.
  assert (forall r, r ∈ rows (balances ex_db) -> r = ex_row 1 10 "merchant" 100 \/ r = ex_row 2 20 "wallet" 70) as Hr.
  { intros r. simpl. rewrite elem_of_cons, list_elem_of_singleton. done. }
  split; lazymatch goal with
    | |- all_rows _ (balances _) => idtac | |- uniq_on _ (balances _) => idtac
    | |- all_rows _ _ => apply all_empty | |- uniq_on _ _ => apply uniq_empty | |- _ => idtac end.
  - unfold db_wf. repeat match goal with |- _ /\ _ => split end; try apply wf_empty.
    split; [|split; [|done]].
    + simpl. repeat constructor.
    + apply Forall_forall. intros r Hin. by destruct (Hr r Hin) as [-> | ->].
  - intros r Hin. destruct (Hr r Hin) as [-> | ->]; [by exists 100|by exists 70].
  - intros r r' Hin Hin' Hk _. by destruct (Hr r Hin) as [-> | ->], (Hr r' Hin') as [-> | ->].
Qed.

Lemma ex_ready op : is_operation op = true ->
  withdrawal_ready (ex_withdrawal op) ex_db (row_balance (ex_row 2 20 "wallet" 70))
    (row_balance (ex_row 1 10 "merchant" 100)) (ex_row 2 20 "wallet" 70) (ex_row 1 10 "merchant" 100).
Proof. by split. Qed.

Lemma withdrawal_atomic_witness :
  exists w', UpdateBalancesForWithdrawal (ex_withdrawal "decrement") ex_world = (Ok tt, w') /\
    balance_value (db w') 1 = Some 33 /\ balance_value (db w') 2 = Some 10.
Proof.
  pose proof (withdrawal_atomic (ex_withdrawal "decrement") ex_world _ _ _ _ ex_schema
    (ex_ready "decrement" eq_refl)) as H.
  destruct (UpdateBalancesForWithdrawal (ex_withdrawal "decrement") ex_world) as [[[]|e|why] w'] eqn:E.
  - exists w'. destruct H as (_ & _ & H). split; [reflexivity|]. clear E. rewrite !H. vm_compute. split; reflexivity.
  - exfalso. clear E. destruct H as (_ & [[H _]|[_ H]]); vm_compute in H; discriminate H.
  - destruct H.
Defined.

(** C22. A withdrawal that is taken back restores every balance: after a
    successful decrement, the increment with the same amounts succeeds and
    each balance of the database has its first value again. *)
Theorem withdrawal_undo (p : UpdateBalancesForWithdrawalParams) (comment : string) (w w1 : world) (s m : Balance)
  (rs rm : Row.Balance) (Hok : schema_ok (db w)) (Hp : withdrawal_ready p (db w) s m rs rm)
  (Hop : uw_Operation p = OperationDecrement)
  (Hrun : UpdateBalancesForWithdrawal p w = (Ok tt, w1)) :
  exists w2,
    UpdateBalancesForWithdrawal (mkUpdateBalancesForWithdrawal OperationIncrement (uw_TransactionID p)
      (uw_System p) (uw_Merchant p) (uw_Amount p) (uw_ServiceFee p) comment) w1 = (Ok tt, w2) /\
    forall i, balance_value (db w2) i = balance_value (db w) i.
Proof.
  set (p' := mkUpdateBalancesForWithdrawal _ _ _ _ _ _ _).
  pose proof (withdrawal_run p w s m rs rm Hok Hp) as H. unfold wp in H. rewrite Hrun in H. simpl in H.
  destruct H as (Hm & Hs & Hvals & Hrows).
  pose proof (UpdateBalancesForWithdrawal_schema p w) as [_ Hok1]. rewrite Hrun in Hok1. simpl in Hok1.
  specialize (Hok1 Hok).
  destruct (Hrows _ _ (wr_rs _ _ _ _ _ _ Hp)) as (rs1 & Hrs1 & Hcs1).
  destruct (Hrows _ _ (wr_rm _ _ _ _ _ _ Hp)) as (rm1 & Hrm1 & Hcm1).
  assert (withdrawal_ready p' (db w1) s m rs1 rm1) as Hp'.
  { destruct Hp. split; simpl in *; try done.
    - apply CompatibleTo_iff. apply CompatibleTo_iff in Hcs1, wr_cs0. destruct Hcs1, wr_cs0. split; congruence.
    - apply CompatibleTo_iff. apply CompatibleTo_iff in Hcm1, wr_cm0. destruct Hcm1, wr_cm0. split; congruence. }
  assert (merchant_delta p' = - merchant_delta p /\ system_delta p' = - system_delta p) as [Hdm Hds].
  { unfold merchant_delta, system_delta, signed_by. rewrite Hop. simpl. lia. }
  assert (row_value rm1 = row_value rm + merchant_delta p /\ row_value rs1 = row_value rs + system_delta p) as [Hrv1 Hrv2].
  { pose proof (Hvals (bal_ID m)) as H1. pose proof (Hvals (bal_ID s)) as H2. unfold balance_value in H1, H2.
    rewrite Hrm1, (wr_rm _ _ _ _ _ _ Hp) in H1. rewrite Hrs1, (wr_rs _ _ _ _ _ _ Hp) in H2. simpl in H1, H2.
    rewrite decide_True in H1 by done. pose proof (wr_distinct _ _ _ _ _ _ Hp).
    rewrite decide_False, decide_True in H2 by done. split; congruence. }
  pose proof (wr_rm _ _ _ _ _ _ Hp) as Hr1. pose proof (wr_rs _ _ _ _ _ _ Hp) as Hr2.
  destruct (schema_row _ _ Hok (proj2 (row_at_id _ _ _ Hr1))) as [Hnm _].
  destruct (schema_row _ _ Hok (proj2 (row_at_id _ _ _ Hr2))) as [Hns _].
  pose proof (withdrawal_run p' w1 s m rs1 rm1 Hok1 Hp') as H. unfold wp in H.
  destruct (UpdateBalancesForWithdrawal p' w1) as [[[]|e|why] w2]; simpl in H; [|lia|done].
  exists w2. split; [done|]. intros i. destruct H as (_ & _ & Hv2 & _). rewrite Hv2, Hvals.
  destruct (balance_value (db w) i); [|done]. simpl. f_equal. repeat case_decide; lia.
Qed.

Lemma withdrawal_undo_witness :
  exists w1 w2, UpdateBalancesForWithdrawal (ex_withdrawal "decrement") ex_world = (Ok tt, w1) /\
    UpdateBalancesForWithdrawal (ex_withdrawal "increment") w1 = (Ok tt, w2) /\
    balance_value (db w2) 1 = Some 100.
Proof.
  destruct (UpdateBalancesForWithdrawal (ex_withdrawal "decrement") ex_world) as [r w1] eqn:E.
  assert (r = Ok tt) as -> by (rewrite <- (f_equal fst E : _ = r); vm_compute; reflexivity).
  destruct (withdrawal_undo (ex_withdrawal "decrement") "withdrawal" ex_world w1 _ _ _ _ ex_schema
    (ex_ready "decrement" eq_refl) eq_refl E) as (w2 & H2 & Hv).
  exists w1, w2. split; [reflexivity|]. split; [exact H2|]. rewrite Hv. reflexivity.
Defined.

(** Two updates report success without updating anything: an amount that
    is not of the balance's currency makes [UpdateBalanceByID] return no
    balance and no error, since it wraps a nil error, and input that
    [UpdateBalancesForWithdrawal] finds invalid makes it return nil at once. *)
Theorem updates_succeed_silently (w : world) :
  (forall id q row,
     row_at id (balances (db w)) = Some row -> schema_ok (db w) ->
     UpdateBalanceByIDQuery_validate q = Ok tt -> CompatibleTo (row_money row) (ui_Amount q) = false ->
     (UpdateBalanceByID id q w).1 = Ok None /\ db (UpdateBalanceByID id q w).2 = db w) /\
  (forall p e, UpdateBalancesForWithdrawal_validate p = Err e -> UpdateBalancesForWithdrawal p w = (Ok tt, w)).
Proof.
  split.
  - intros id q row Hrow Hok Hv Hc.
    change (wp (UpdateBalanceByID id q) w (fun r w' => r = Ok None /\ db w' = db w)). unfold UpdateBalanceByID.
    do 2 wp_step. rewrite Hv. apply wp_run. wp_step. apply wp_update; [done|]. intros r w1 Hr _ _.
    inversion Hr; simplify_eq; try congruence. by wp_step.
  - intros p e He. unfold UpdateBalancesForWithdrawal. by rewrite He.
Qed.

Lemma updates_succeed_silently_witness :
  UpdateBalancesForWithdrawal (mkUpdateBalancesForWithdrawal "decrement" 0 None None
    (mkMoney Crypto "ETH" (Some 60) 18) (mkMoney Crypto "ETH" (Some 7) 18) "") ex_world = (Ok tt, ex_world) /\
  (UpdateBalanceByID 1 (mkUpdateBalanceByIDQuery "increment" (mkMoney Crypto "BTC" (Some 60) 8) "" None) ex_world).1
    = Ok None.
Proof.
  split.
  - apply (proj2 (updates_succeed_silently ex_world)) with (e := ENew "invalid input"). reflexivity.
  - apply (proj1 (updates_succeed_silently ex_world)) with (row := ex_row 1 10 "merchant" 100).
    + reflexivity.
    + exact ex_schema.
    + reflexivity.
    + reflexivity.
Defined.

(** C23. [UpdateBalance] is an upsert: in a database with the schema's
    constraints each call ends in one of the outcomes of [upsert_result]:
    refused input, the entity's balance moved and logged, a new balance
    opened with the signed amount and logged, or a constraint violation
    (negative result, clash) that is wrapped with the operation's name. *)
Theorem UpdateBalance_refines (p : UpdateBalanceQuery) (w : world) (Hok : schema_ok (db w)) :
  upsert_result p (db w) (UpdateBalance p w).1 (db (UpdateBalance p w).2).
Proof. exact (wp_UpdateBalance p w Hok). Qed.

Lemma UpdateBalance_refines_witness :
  let p := mkUpdateBalanceQuery 20 "wallet" "decrement"
    (mkCrypto "ETH" "Ethereum" "1" "5" "coin" "ETH" "Ethereum" 18 "" "" [] false)
    (mkMoney Crypto "ETH" (Some 71) 18) "too much" None false in
  upsert_result p ex_db (UpdateBalance p ex_world).1 (db (UpdateBalance p ex_world).2) /\
  (UpdateBalance p ex_world).1 = Err (upsert_error p check_violation).
Proof. intros p. split; [exact (UpdateBalance_refines p ex_world ex_schema)|reflexivity]. Defined.

Fixpoint sum_values (l : list Money) : Z :=
  match l with [] => 0 | m :: l => val m + sum_values l end.

Lemma sum_values_nonneg l : Forall (fun e => 0 <= val e) l -> 0 <= sum_values l.
Proof. induction 1; simpl; lia. Qed.

(** A balance covers expenses exactly when it covers their sum: for
    non-negative expenses [Covers] is nil iff all are of the balance's
    currency and they add up to at most its amount; the order they are
    listed in does not matter. *)
Theorem Covers_iff_sum (b : Balance) (expenses : list Money) (Hb : 0 <= val (bal_Amount b))
  (He : Forall (fun e => 0 <= val e) expenses) :
  Covers b expenses = Ok tt <->
  Forall (fun e => CompatibleTo (bal_Amount b) e = true) expenses /\ sum_values expenses <= val (bal_Amount b).
Proof.
  unfold Covers. revert Hb. generalize (bal_Amount b) as a. induction He as [|e l He Hl IH]; intros a Ha; simpl.
  { naive_solver. }
  assert (forall c, Money_Sub a e = Ok c -> Covers_from c l = Ok tt <->
    Forall (fun x => CompatibleTo a x = true) l /\ sum_values l <= val a - val e) as Hrec.
  { intros c (Hc & Hge & ->)%Money_Sub_ok. rewrite IH by (unfold val at 1; simpl; lia).
    split; intros [Hf Hle]; (split; [|unfold val in *; simpl in *; lia]); eapply Forall_impl; try exact Hf;
      intros x Hx; apply CompatibleTo_iff in Hx; by apply CompatibleTo_iff. }
  rewrite Forall_cons. destruct (Money_Sub a e) as [c|x|x] eqn:Es; simpl.
  - rewrite (Hrec c) by done. apply Money_Sub_ok in Es as (? & ? & _). split; intros [? ?]; [|destruct_and?];
      repeat split; try done; lia.
  - split; [done|]. intros [[Hc Hf] Hle]. pose proof (sum_values_nonneg l Hl).
    assert (exists c, Money_Sub a e = Ok c) as [c Hs]; [|congruence].
    eexists. apply Money_Sub_ok. split; [done|]. split; [lia|done].
  - split; [done|]. intros [[Hc Hf] Hle]. pose proof (sum_values_nonneg l Hl).
    assert (exists c, Money_Sub a e = Ok c) as [c Hs]; [|congruence].
    eexists. apply Money_Sub_ok. split; [done|]. split; [lia|done].
Qed.

Lemma Covers_iff_sum_witness :
  Covers (row_balance (ex_row 1 10 "merchant" 100)) [mkMoney Crypto "ETH" (Some 60) 18; mkMoney Crypto "ETH" (Some 40) 18]
  = Ok tt.
Proof.
  apply Covers_iff_sum.
  - vm_compute. discriminate.
  - repeat constructor; vm_compute; discriminate.
  - split; [repeat constructor|vm_compute; discriminate].
Defined.

(** ** System balances *)
Fixpoint key_sum (k : string) (l : list Balance) : Z :=
  match l with
  | [] => 0
  | b :: l => (if String.eqb (keyFunc b) k then val (bal_Amount b) else 0) + key_sum k l
  end.

Definition map_value (m : gmap string Balance) (k : string) : Z :=
  match m !! k with Some b => val (bal_Amount b) | None => 0 end.

Section System.
(** The ticker and decimals of each key. *)
Context (T : string -> string) (D : string -> Z).

Definition uniform (b : Balance) : Prop :=
  m_ticker (bal_Amount b) = T (keyFunc b) /\ m_decimals (bal_Amount b) = D (keyFunc b).

Definition map_ok (m : gmap string Balance) : Prop :=
  forall k b, m !! k = Some b -> keyFunc b = k /\ uniform b.

Lemma uniform_compatible a b : uniform a -> uniform b -> keyFunc a = keyFunc b ->
  CompatibleTo (bal_Amount a) (bal_Amount b) = true.
Proof. intros [? ?] [? ?] Hk. apply CompatibleTo_iff. rewrite Hk in *. split; congruence. Qed.

Lemma map_ok_insert m k b : map_ok m -> keyFunc b = k -> uniform b -> map_ok (<[k := b]> m).
Proof. intros Hm Hk Hu k' b'. rewrite lookup_insert_Some. intros [[<- <-]|[_ H]]; [done|by apply Hm]. Qed.

Lemma map_value_insert m k b k' :
  map_value (<[k := b]> m) k' = if String.eqb k k' then val (bal_Amount b) else map_value m k'.
Proof.
  unfold map_value. destruct (String.eqb_spec k k') as [->|Hne]; [by rewrite lookup_insert_eq|].
  by rewrite lookup_insert_ne.
Qed.

Lemma add_wallets_spec ws : forall m, map_ok m -> Forall uniform ws ->
  exists m', add_wallets ws m = Ok m' /\ map_ok m' /\
    (forall k, is_Some (m' !! k) <-> is_Some (m !! k) \/ k ∈ keyFunc <$> ws) /\
    (forall k, map_value m' k = map_value m k + key_sum k ws).
Proof.
  induction ws as [|w ws IH]; intros m Hm Hws; cbn [add_wallets].
  { exists m. split; [done|]. split; [done|]. split; [|intros; simpl; lia].
    intros k. simpl. rewrite elem_of_nil. tauto. }
  apply Forall_cons in Hws as [Hw Hws]. pose proof Hw as [Ht Hd].
  destruct (m !! keyFunc w) as [sb|] eqn:Hl.
  - destruct (Hm _ _ Hl) as [Hk Hu].
    rewrite (proj2 (Money_Add_ok _ _ _) (conj (uniform_compatible sb w Hu Hw Hk) eq_refl)). simpl.
    edestruct (IH (<[keyFunc w := with_amount (mkMoney (m_type (bal_Amount sb)) (m_ticker (bal_Amount sb))
      (Some (val (bal_Amount sb) + val (bal_Amount w))) (m_decimals (bal_Amount sb))) sb]> m))
      as (m' & He & Hok & Hs & Hv); [by apply map_ok_insert|done|].
    exists m'. split; [done|]. split; [done|]. split; intros k.
    + rewrite Hs, lookup_insert_is_Some, elem_of_cons. destruct (decide (keyFunc w = k)) as [<-|]; [|naive_solver].
      rewrite Hl. naive_solver eauto.
    + rewrite Hv, map_value_insert. destruct (String.eqb_spec (keyFunc w) k) as [<-|]; [|lia].
      unfold map_value. rewrite Hl. unfold val at 1. simpl. lia.
  - edestruct (IH (<[keyFunc w := system_balance w]> m)) as (m' & He & Hok & Hs & Hv);
      [by apply map_ok_insert|done|].
    exists m'. split; [done|]. split; [done|]. split; intros k; simpl.
    + rewrite Hs, lookup_insert_is_Some, elem_of_cons. destruct (decide (keyFunc w = k)) as [<-|]; naive_solver.
    + rewrite Hv, map_value_insert. destruct (String.eqb_spec (keyFunc w) k) as [<-|]; [|lia].
      unfold map_value. rewrite Hl. simpl. lia.
Qed.

Lemma sub_merchants_spec ms : forall m, map_ok m -> Forall uniform ms ->
  match sub_merchants ms m with
  | Ok m' => map_ok m' /\ (forall k, is_Some (m' !! k) <-> is_Some (m !! k)) /\
      (forall k, map_value m' k = map_value m k - key_sum k ms) /\ (forall x, x ∈ ms -> is_Some (m !! keyFunc x))
  | Err _ => exists x, x ∈ ms /\ m !! keyFunc x = None
  | Panic _ => False
  end.
Proof.
  induction ms as [|w ms IH]; intros m Hm Hms; cbn [sub_merchants].
  { split; [done|]. split; [done|]. split; [intros; simpl; lia|]. by intros x ?%not_elem_of_nil. }
  apply Forall_cons in Hms as [Hw Hms]. destruct (m !! keyFunc w) as [sb|] eqn:Hl.
  2: { exists w. split; [left|done]. }
  destruct (Hm _ _ Hl) as [Hk Hu].
  rewrite (proj2 (SubNegative_ok _ _ _) (conj (uniform_compatible sb w Hu Hw Hk) eq_refl)). simpl.
  set (m1 := <[keyFunc w := _]> m).
  assert (forall k, is_Some (m1 !! k) <-> is_Some (m !! k)) as Hs1.
  { intros k. unfold m1. rewrite lookup_insert_is_Some. destruct (decide (keyFunc w = k)) as [<-|]; [|naive_solver].
    rewrite Hl. naive_solver eauto. }
  specialize (IH m1 ltac:(by apply map_ok_insert) Hms). destruct (sub_merchants ms m1) as [m'|e|p]; [| |done].
  - destruct IH as (Hok & Hs & Hv & Hall). split; [done|]. split; [intros k; by rewrite Hs|]. split.
    + intros k. rewrite Hv. unfold m1. rewrite map_value_insert.
      destruct (String.eqb_spec (keyFunc w) k) as [<-|]; [|lia].
      unfold map_value. rewrite Hl. unfold val at 1. simpl. lia.
    + intros x [->|Hx]%elem_of_cons; [rewrite Hl; eauto|]. apply Hs1. auto.
  - destruct IH as (x & Hx & Hn). exists x. split; [by right|].
    apply eq_None_not_Some. rewrite <- Hs1. by apply eq_None_not_Some.
Qed.
End System.

(** System balances conserve value: when the balances of one key
    (currency, network, network id) share their ticker and decimals,
    [composeSystemBalances] lists, sorted by key, exactly the keys the wallets
    have, each with the wallets' total minus the merchants' total (negative
    when merchants are owed more), and fails only on a merchant balance
    whose key no wallet has. *)
Theorem composeSystemBalances_conserves (T : string -> string) (D : string -> Z) (merchants wallets : list Balance)
  (Hm : Forall (uniform T D) merchants) (Hw : Forall (uniform T D) wallets) :
  match composeSystemBalances merchants wallets with
  | Ok l =>
    Sorted (in_order key_less) l /\
    (forall k, k ∈ keyFunc <$> l <-> k ∈ keyFunc <$> wallets) /\ NoDup (keyFunc <$> l) /\
    (forall b, b ∈ l -> val (bal_Amount b) = key_sum (keyFunc b) wallets - key_sum (keyFunc b) merchants) /\
    (forall x, x ∈ merchants -> keyFunc x ∈ keyFunc <$> wallets)
  | Err _ => exists x, x ∈ merchants /\ keyFunc x ∉ keyFunc <$> wallets
  | Panic _ => False
  end.
Proof.
  unfold composeSystemBalances.
  destruct (add_wallets_spec T D wallets ∅) as (m & -> & Hok & Hs & Hv); [by intros k b ?%lookup_empty_Some|done|].
  simpl. pose proof (sub_merchants_spec T D merchants m Hok Hm) as Hsub.
  assert (forall k, is_Some (m !! k) <-> k ∈ keyFunc <$> wallets) as Hkeys.
  { intros k. rewrite Hs, lookup_empty. split; [intros [[? ?]|]; done|by right]. }
  destruct (sub_merchants merchants m) as [m'|e|p]; simpl; [| |done].
  2: { destruct Hsub as (x & Hx & Hn). exists x. split; [done|]. rewrite <- Hkeys, Hn. apply is_Some_None. }
  destruct Hsub as (Hok' & Hs' & Hv' & Hall). set (l := SliceStable _ _).
  assert (l ≡ₚ (map_to_list m').*2) as Hperm by apply SliceStable_perm.
  assert (keyFunc <$> (map_to_list m').*2 = (map_to_list m').*1) as Hfst.
  { rewrite <- list_fmap_compose. apply list_fmap_ext. intros i [k b] Hi. simpl.
    apply list_elem_of_lookup_2, elem_of_map_to_list in Hi. by destruct (Hok' _ _ Hi). }
  split; [apply SliceStable_sorted; intros a b; apply ltb_asym|]. split; [|split; [|split]].
  - intros k. rewrite Hperm, Hfst, <- Hkeys, <- Hs'. split.
    + intros ([k' b] & -> & Hin%elem_of_map_to_list)%list_elem_of_fmap. simpl. rewrite Hin. eauto.
    + intros [b Hb%elem_of_map_to_list]. apply list_elem_of_fmap. by exists (k, b).
  - rewrite Hperm, Hfst. apply NoDup_fst_map_to_list.
  - intros b. rewrite Hperm. intros ([k b'] & -> & Hin%elem_of_map_to_list)%list_elem_of_fmap. simpl.
    destruct (Hok' _ _ Hin) as [Hk _]. specialize (Hv' k). specialize (Hv k). unfold map_value in *.
    rewrite Hin in Hv'. rewrite lookup_empty in Hv. rewrite Hk. lia.
  - intros x Hx. apply Hkeys. by apply Hall.
Qed.

Lemma composeSystemBalances_conserves_witness :
  exists l, composeSystemBalances [row_balance (ex_row 1 10 "merchant" 100)]
    [row_balance (ex_row 2 20 "wallet" 70); row_balance (ex_row 3 21 "wallet" 5)] = Ok l /\
    Forall (fun b => val (bal_Amount b) = -25) l /\ l <> [].
Proof.
  pose proof (composeSystemBalances_conserves (fun _ => "ETH"%string) (fun _ => 18)
    [row_balance (ex_row 1 10 "merchant" 100)]
    [row_balance (ex_row 2 20 "wallet" 70); row_balance (ex_row 3 21 "wallet" 5)]) as H.
  destruct (composeSystemBalances _ _) as [l|e|p] eqn:E; vm_compute in E; [|discriminate E|discriminate E].
  exists l. split; [exact (eq_sym E : Ok l = _) || reflexivity|]. injection E as <-. split; [|discriminate].
  destruct H as (_ & _ & _ & H & _); [repeat constructor|repeat constructor|].
  constructor; [|constructor]. rewrite H by left. reflexivity.
Defined.
