(* ===== verification/WalletTransaction.v ===== *)
(** * WalletTransaction: signing transactions and reserving outputs

    [internal/service/wallet/service_transaction.go]. An account-based
    transaction takes the next nonce of the sender and gives it back when
    signing fails. A bitcoin transaction reserves its inputs in the database
    before the key service signs it, under the SHA-256 of the raw transaction
    afterwards; a failure releases them. The service has a store. *)

From S2P Require Import Prelude GoLib KmsWallet Money Repository Queries Fees Bitcoin Sha256 Wallet.

Definition ErrUnsupportedTransactionPath : error := ESentinel "wallet.ErrUnsupportedTransactionPath".
Definition ErrUTXOReservationConflict : error := ESentinel "wallet.ErrUTXOReservationConflict".

Definition bitcoinUTXOReservationAttempts : nat := 3.
(** 30 minutes, in the clock's nanoseconds *)
Definition bitcoinUTXOReservationTTL : Z := 30 * 60 * 1000000000.

(** ** The requests to the key service *)
Record KmsBitcoinUTXO := mkKmsUTXO {
  ku_Hash : string; ku_Index : Z; ku_AmountSats : Z; ku_Script : string; ku_Address : string
}.
Record KmsBitcoinOutput := mkKmsOutput { ko_Address : string; ko_AmountSats : Z }.
Record CreateBitcoinTransactionRequest := mkBitcoinRequest {
  br_Inputs : list KmsBitcoinUTXO; br_Outputs : list KmsBitcoinOutput; br_FeeSatPerVByte : Z;
  br_IsTest : bool; br_RBF : bool
}.
(** The three EVM requests have the same fields. *)
Record CreateEVMTransactionRequest := mkEVMRequest {
  er_Amount : string; er_AssetType : string; er_ContractAddress : string; er_Gas : Z;
  er_MaxFeePerGas : string; er_MaxPriorityPerGas : string; er_NetworkID : Z; er_Nonce : Z; er_Recipient : string
}.
Record CreateTronTransactionRequest := mkTronRequest {
  tr_Amount : string; tr_AssetType : string; tr_ContractAddress : string; tr_FeeLimit : Z;
  tr_IsTest : bool; tr_Recipient : string
}.

Class KMSTransactions := {
  kms_CreateBitcoinTransaction : string -> CreateBitcoinTransactionRequest -> nat -> res string;
  kms_CreateEthereumTransaction : string -> CreateEVMTransactionRequest -> nat -> res string;
  kms_CreateMaticTransaction : string -> CreateEVMTransactionRequest -> nat -> res string;
  kms_CreateBSCTransaction : string -> CreateEVMTransactionRequest -> nat -> res string;
  TronTransaction : Type;
  kms_CreateTronTransaction : string -> CreateTronTransactionRequest -> nat -> res TronTransaction;
  json_Marshal_TronTransaction : TronTransaction -> res string
}.

Definition bitcoinRawTXReservationID (rawTX : string) : string := sha256_hex rawTX.

Definition isUniqueViolation (e : error) : bool := bool_decide (errors_As_pg e = Some "23505").

Definition validateAccountBasedTransactionCurrency (currency : CryptoCurrency) : res unit :=
  let bc := cc_Blockchain currency in
  if bool_decide (bc = ETH) || bool_decide (bc = MATIC) || bool_decide (bc = BSC) || bool_decide (bc = TRON)
  then Ok tt
  else if bool_decide (bc = BTC) || bool_decide (bc = LTC)
  then Err (EWrap ErrUnsupportedTransactionPath (cc_Ticker currency +:+ " requires a dedicated UTXO transaction flow"))
  else Err (EWrap ErrUnsupportedTransactionPath ("unsupported currency " +:+ cc_Ticker currency)).

Section Service.
Context `{KMSTransactions} `{UTXOProviders} `{Btcutil}.

(** ** Reservations *)
Definition reservation_utxo_key (r : Row.BitcoinUTXOReservation) : BitcoinUTXOKey :=
  mkUTXOKey (Row.r_TxHash r) (uint32 (Row.r_OutputIndex r)).

Definition activeBitcoinUTXOReservationKeys (walletID : Z) (isTest : bool) : Go (list BitcoinUTXOKey) :=
  reservations ← ListActiveBitcoinUTXOReservations walletID isTest;
  mret (map reservation_utxo_key reservations).

Fixpoint reserve_inputs (walletID : Z) (isTest : bool) (now expiresAt : Z) (inputs : list BitcoinUTXO) : Go (list Z) :=
  match inputs with
  | [] => mret []
  | input :: inputs =>
    reservation ← CreateBitcoinUTXOReservation (mkCreateReservationParams walletID isTest (u_Hash input)
      (u_Index input) (u_AmountSats input) now expiresAt);
    ids ← reserve_inputs walletID isTest now expiresAt inputs;
    mret (Row.r_ID reservation :: ids)
  end.

Definition reserveBitcoinUTXOs (walletID : Z) (inputs : list BitcoinUTXO) (isTest : bool) : Go (list Z) :=
  now ← time_Now;
  RunTransaction (reserve_inputs walletID isTest now (now + bitcoinUTXOReservationTTL) inputs).

Fixpoint for_each (f : Z -> Go unit) (ids : list Z) : Go unit :=
  match ids with [] => mret tt | id :: ids => _ ← f id; for_each f ids end.

Definition attachBitcoinUTXOReservationsRawTX (reservationIDs : list Z) (rawTXID : string) : Go unit :=
  now ← time_Now;
  for_each (fun id => AttachBitcoinUTXOReservationRawTX id rawTXID now) reservationIDs.

Definition releaseBitcoinUTXOReservationIDs (reservationIDs : list Z) : Go unit :=
  now ← time_Now;
  for_each (fun id => ReleaseBitcoinUTXOReservation id now now) reservationIDs.

Definition ReleaseBitcoinTransactionReservations (walletID : Z) (rawTX : string) (isTest : bool) : Go unit :=
  now ← time_Now;
  ReleaseBitcoinUTXOReservationsByRawTX walletID isTest (bitcoinRawTXReservationID rawTX) now now.

Definition MarkBitcoinTransactionBroadcasted (walletID : Z) (rawTX transactionHash : string) (isTest : bool) : Go unit :=
  now ← time_Now;
  MarkBitcoinUTXOReservationsBroadcastedByRawTX walletID isTest (bitcoinRawTXReservationID rawTX) transactionHash now.

(** ** Signing a bitcoin transaction *)
Definition bitcoin_request (plan : BitcoinTransactionPlan) (isTest : bool) : CreateBitcoinTransactionRequest :=
  mkBitcoinRequest
    (map (fun i => mkKmsUTXO (u_Hash i) (u_Index i) (u_AmountSats i) (u_Script i) (u_Address i)) (p_Inputs plan))
    (map (fun o => mkKmsOutput (o_Address o) (o_AmountSats o)) (p_Outputs plan))
    (p_FeeSatPerVByte plan) isTest (p_RBF plan).

Definition createSignedBitcoinTransactionFromPlan (sender : Wallet) (plan : BitcoinTransactionPlan) (isTest : bool) : Go string :=
  wrapM (external (kms_CreateBitcoinTransaction (wal_UUID sender) (bitcoin_request plan isTest)))
    "unable to create BTC transaction".

(** Reserve, sign, attach: the part of an attempt after its reservation. *)
Definition sign_reserved (sender : Wallet) (plan : BitcoinTransactionPlan) (isTest : bool) (reservationIDs : list Z) :
  Go (string * BitcoinTransactionPlan) :=
  signed ← attempt (createSignedBitcoinTransactionFromPlan sender plan isTest);
  match signed with
  | inr e =>
    _ ← wrapM (releaseBitcoinUTXOReservationIDs reservationIDs)
      "unable to release BTC UTXO reservations after KMS failure";
    fail e
  | inl rawTX =>
    attached ← attempt (attachBitcoinUTXOReservationsRawTX reservationIDs (bitcoinRawTXReservationID rawTX));
    match attached with
    | inr e =>
      _ ← wrapM (releaseBitcoinUTXOReservationIDs reservationIDs)
        "unable to release BTC UTXO reservations after attach failure";
      fail (EWrap e "unable to attach raw BTC transaction to UTXO reservations")
    | inl _ => mret (rawTX, plan)
    end
  end.

Fixpoint attempts_loop (attempts : nat) (lastConflict : option error) (sender : Wallet) (recipient : string)
  (amount : Money) (fee : Fee) (isTest sweep : bool) : Go (string * BitcoinTransactionPlan) :=
  match attempts with
  | O =>
    match lastConflict with
    | Some e => fail (EWrap ErrUTXOReservationConflict (error_string e))
    | None => panic "nil pointer dereference"
    end
  | S attempts =>
    excluded ← wrapM (activeBitcoinUTXOReservationKeys (wal_ID sender) isTest) "unable to list reserved BTC UTXOs";
    plan ← wrapM (if sweep
      then PrepareBitcoinSweepTransactionExcluding (wal_Address sender) recipient fee isTest excluded
      else PrepareBitcoinTransactionExcluding (wal_Address sender) recipient amount fee isTest excluded)
      "unable to prepare BTC transaction";
    reserved ← attempt (reserveBitcoinUTXOs (wal_ID sender) (p_Inputs plan) isTest);
    match reserved with
    | inr e =>
      if isUniqueViolation e then attempts_loop attempts (Some e) sender recipient amount fee isTest sweep
      else fail (EWrap e "unable to reserve BTC UTXOs")
    | inl reservationIDs => sign_reserved sender plan isTest reservationIDs
    end
  end.

Definition createSignedBitcoinTransaction (sender : Wallet) (recipient : string) (currency : CryptoCurrency)
  (amount : Money) (fee : Fee) (isTest sweep : bool) : Go (string * BitcoinTransactionPlan) :=
  if negb (bool_decide (cc_Type currency = Coin)) || negb (isUTXOBlockchain (cc_Blockchain currency)) then
    fail (EWrap ErrUnsupportedTransactionPath (cc_Ticker currency +:+ " requires native UTXO flow"))
  else attempts_loop bitcoinUTXOReservationAttempts None sender recipient amount fee isTest sweep.

Definition CreateSignedUTXOTransaction (sender : Wallet) (recipient : string) (currency : CryptoCurrency)
  (amount : Money) (fee : Fee) (isTest : bool) : Go (string * BitcoinTransactionPlan) :=
  createSignedBitcoinTransaction sender recipient currency amount fee isTest false.

(** The zero value [money.Money{}] *)
Definition zero_money : Money := mkMoney "" "" None 0.

Definition CreateSignedUTXOSweepTransaction (sender : Wallet) (recipient : string) (currency : CryptoCurrency)
  (fee : Fee) (isTest : bool) : Go (string * BitcoinTransactionPlan) :=
  createSignedBitcoinTransaction sender recipient currency zero_money fee isTest true.

Definition MaxSpendableUTXOAmount (sender : Wallet) (recipient : string) (currency : CryptoCurrency) (fee : Fee)
  (isTest : bool) (maxTotalCost : Money) : Go Money :=
  excluded ← wrapM (activeBitcoinUTXOReservationKeys (wal_ID sender) isTest) "unable to list reserved BTC UTXOs";
  MaxBitcoinTransactionAmountExcluding (wal_Address sender) recipient currency fee isTest maxTotalCost excluded.

Definition SpendableUTXOs (sender : Wallet) (fee : Fee) (isTest : bool) : Go (list BitcoinUTXO) :=
  excluded ← wrapM (activeBitcoinUTXOReservationKeys (wal_ID sender) isTest) "unable to list reserved UTXOs";
  SpendableUTXOsExcluding (wal_Address sender) fee isTest excluded.

(** ** Signing an account-based transaction *)
Definition evm_request (currency : CryptoCurrency) (amount : Money) (gas : Z) (gasPrice priorityFee : string)
  (networkID nonce : Z) (recipient : string) (isTest : bool) : CreateEVMTransactionRequest :=
  mkEVMRequest (StringRaw amount) (cc_Type currency) (ChooseContractAddress currency isTest) (int64 gas)
    gasPrice priorityFee networkID nonce recipient.

Definition parse_network (currency : CryptoCurrency) (isTest : bool) : res Z :=
  match Atoi (ChooseNetwork currency isTest) with
  | Some n => Ok n
  | None => Err (EWrap (ENew "strconv.Atoi: parsing") "unable to parse network id")
  end.

Definition createSignedTransaction (sender : Wallet) (recipient : string) (currency : CryptoCurrency)
  (amount : Money) (fee : Fee) (nonce : Z) (isTest : bool) : Go string :=
  if bool_decide (cc_Blockchain currency = ETH) then
    networkID ← lift (parse_network currency isTest);
    ethFee ← lift (wrap (ToEthFee fee) "fee is not ETH");
    wrapM (external (kms_CreateEthereumTransaction (wal_UUID sender) (evm_request currency amount
      (eth_GasUnits ethFee) (eth_GasPrice ethFee) (eth_PriorityFee ethFee) networkID nonce recipient isTest)))
      "unable to create ETH transaction"
  else if bool_decide (cc_Blockchain currency = MATIC) then
    networkID ← lift (parse_network currency isTest);
    maticFee ← lift (wrap (ToMaticFee fee) "fee is not MATIC");
    wrapM (external (kms_CreateMaticTransaction (wal_UUID sender) (evm_request currency amount
      (matic_GasUnits maticFee) (matic_GasPrice maticFee) (matic_PriorityFee maticFee) networkID nonce recipient isTest)))
      "unable to create MATIC transaction"
  else if bool_decide (cc_Blockchain currency = BSC) then
    networkID ← lift (parse_network currency isTest);
    bscFee ← lift (wrap (ToBSCFee fee) "fee is not BSC");
    wrapM (external (kms_CreateBSCTransaction (wal_UUID sender) (evm_request currency amount
      (bsc_GasUnits bscFee) (bsc_GasPrice bscFee) (bsc_PriorityFee bscFee) networkID nonce recipient isTest)))
      "unable to create BSC transaction"
  else if bool_decide (cc_Blockchain currency = TRON) then
    tronFee ← lift (wrap (ToTronFee fee) "fee is not TRON");
    tx ← wrapM (external (kms_CreateTronTransaction (wal_UUID sender) (mkTronRequest (StringRaw amount)
      (cc_Type currency) (ChooseContractAddress currency isTest) (int64 (tron_FeeLimitSun tronFee)) isTest recipient)))
      "unable to create TRON transaction";
    lift (wrap (json_Marshal_TronTransaction tx) "unable to marshal TRON transaction")
  else fail (ENew ("unsupported currency " +:+ cc_Ticker currency)).

Definition CreateSignedTransaction (sender : Wallet) (recipient : string) (currency : CryptoCurrency)
  (amount : Money) (fee : Fee) (isTest : bool) : Go string :=
  if isUTXOBlockchain (cc_Blockchain currency) then
    '(rawTX, _) ← CreateSignedUTXOTransaction sender recipient currency amount fee isTest;
    mret rawTX
  else
    _ ← lift (validateAccountBasedTransactionCurrency currency);
    nonce ← wrapM (IncrementPendingTransaction (wal_ID sender) isTest) "unable to increment pending transactions counter";
    created ← attempt (createSignedTransaction sender recipient currency amount fee nonce isTest);
    match created with
    | inl txRaw => mret txRaw
    | inr errCreate =>
      _ ← wrapM (DecrementPendingTransaction (wal_ID sender) isTest) "unable to decrement pending transactions counter";
      fail errCreate
    end.
End Service.

(** ** Lemmas: preparing a plan does not touch the database *)
Section Pure.
Context `{UTXOProviders} `{Btcutil}.

#[local] Hint Extern 1 (steps _ (external _)) => apply steps_external; tc_solve : schema.

Lemma tatum_outputs_pure address hash t outputs : forall i utxos seen,
  steps eq (tatum_outputs address hash t i outputs utxos seen).
Proof. induction outputs; intros; simpl; go_steps; eauto. Qed.
#[local] Hint Resolve tatum_outputs_pure : schema.

Lemma tatum_transactions_pure address t txs : forall utxos seen,
  steps eq (tatum_transactions address t txs utxos seen).
Proof. induction txs as [|tx txs IH]; intros; simpl; go_steps; eauto. Qed.
#[local] Hint Resolve tatum_transactions_pure : schema.

Lemma tatum_pages_pure pages : forall page address t utxos seen,
  steps eq (tatum_pages pages page address t utxos seen).
Proof. induction pages as [|n IH]; intros; simpl; go_steps; eauto. Qed.
#[local] Hint Resolve tatum_pages_pure : schema.

Lemma utxoSpendableUTXOs_pure bc address t : steps eq (utxoSpendableUTXOs bc address t).
Proof. unfold utxoSpendableUTXOs, utxoSpendableUTXOsFromExplorer. go_steps. Qed.
#[local] Hint Resolve utxoSpendableUTXOs_pure : schema.

Lemma PrepareSweep_pure s r fee t excluded : steps eq (PrepareBitcoinSweepTransactionExcluding s r fee t excluded).
Proof. unfold PrepareBitcoinSweepTransactionExcluding, check_utxo_currency, check_address. cbv zeta. go_steps. Qed.

Lemma Prepare_pure s r amount fee t excluded : steps eq (PrepareBitcoinTransactionExcluding s r amount fee t excluded).
Proof. unfold PrepareBitcoinTransactionExcluding, check_utxo_currency, check_address. cbv zeta. go_steps. Qed.
End Pure.

(** A step that changes no row, or only the reservations table. *)
Lemma wp_pure {A} (m : Go A) w (Q : res A -> world -> Prop) : steps eq m ->
  (forall r w', db w' = db w -> Q r w') -> wp m w Q.
Proof. intros Hm HQ. apply HQ. symmetry. apply Hm. Qed.

(** ** Lemmas: reservation rows *)
Definition is_reserved (r : Row.BitcoinUTXOReservation) : bool := bool_decide (Row.r_Status r = "reserved").

Definition update_reserved (g : Row.BitcoinUTXOReservation -> Row.BitcoinUTXOReservation) (id : Z) : Go unit :=
  query (fun d => (Ok tt, set_reservations
    (update_rows (fun r => (Row.r_ID r =? id) && is_reserved r) g (reservations d)) d)).

Definition update_reserved_in (ids : list Z) (g : Row.BitcoinUTXOReservation -> Row.BitcoinUTXOReservation)
  (r : Row.BitcoinUTXOReservation) : Row.BitcoinUTXOReservation :=
  if bool_decide (Row.r_ID r ∈ ids) && is_reserved r then g r else r.

Lemma wp_for_each g ids (Q : res unit -> world -> Prop) : (forall r, Row.r_ID (g r) = Row.r_ID r) ->
  forall w, NoDup ids ->
  (forall w', rows (reservations (db w')) = map (update_reserved_in ids g) (rows (reservations (db w))) -> Q (Ok tt) w') ->
  wp (for_each (update_reserved g) ids) w Q.
Proof.
  intros Hg. induction ids as [|id ids IH]; intros w Hnd HQ; simpl.
  - wp_step. apply HQ. symmetry. rewrite <- (map_id (rows _)) at 2. apply map_ext. intros r. done.
  - apply NoDup_cons in Hnd as [Hid Hnd]. wp_step. apply wp_query. intros w1 E1.
    apply IH; [done|]. intros w2 E2. apply HQ. rewrite E2, E1. simpl. rewrite map_map. apply map_ext.
    intros r. unfold update_reserved_in. destruct (Z.eqb_spec (Row.r_ID r) id) as [<-|Hne]; simpl.
    + rewrite (bool_decide_true (Row.r_ID r ∈ Row.r_ID r :: ids)) by left. simpl. destruct (is_reserved r) eqn:Er; simpl.
      * by rewrite Hg, (bool_decide_false _ Hid).
      * by rewrite Er, andb_false_r.
    + replace (bool_decide (Row.r_ID r ∈ id :: ids)) with (bool_decide (Row.r_ID r ∈ ids)); [done|].
      apply bool_decide_ext. set_solver.
Qed.

(** The rows a reservation inserts. *)
Definition input_params (walletID : Z) (isTest : bool) (now : Z) (u : BitcoinUTXO) : CreateBitcoinUTXOReservationParams :=
  mkCreateReservationParams walletID isTest (u_Hash u) (u_Index u) (u_AmountSats u) now
    (now + bitcoinUTXOReservationTTL).

Definition input_rows (walletID : Z) (isTest : bool) (now : Z) (ids : list Z) (inputs : list BitcoinUTXO) :
  list Row.BitcoinUTXOReservation :=
  zip_with (fun id u => reservation_row (input_params walletID isTest now u) id) ids inputs.

Definition input_key (walletID : Z) (isTest : bool) (u : BitcoinUTXO) : Z * bool * string * Z :=
  (walletID, isTest, u_Hash u, u_Index u).

(** The outpoints no other transaction may use. *)
Definition active (d : DB) : gset (Z * bool * string * Z) :=
  list_to_set (omap reservation_key (rows (reservations d))).

Lemma elem_of_active d k : k ∈ active d <-> exists r, r ∈ rows (reservations d) /\ reservation_key r = Some k.
Proof. unfold active. by rewrite elem_of_list_to_set, list_elem_of_omap. Qed.

Lemma not_reserved_key w t h i d :
  existsb (reservation_key_eq w t h i) (rows (reservations d)) = false <-> (w, t, h, i) ∉ active d.
Proof.
  rewrite elem_of_active, <- not_true_iff_false, existsb_exists. setoid_rewrite <- list_elem_of_In.
  assert (forall r, reservation_key_eq w t h i r = true <-> reservation_key r = Some (w, t, h, i)) as Hk.
  { intros r. unfold reservation_key_eq, reservation_key. destruct (is_active_status _); rewrite ?andb_false_r; [|done].
    rewrite andb_true_r, !andb_true_iff, !Z.eqb_eq, eqb_true_iff, bool_decide_eq_true. naive_solver congruence. }
  split; intros Hn (r & Hr & E); apply Hn; exists r; split; try done; by apply Hk.
Qed.

Lemma wp_reserve_inputs i t now inputs : forall w (Q : res (list Z) -> world -> Prop),
  (forall ids w', ids = seqZ (next_id (reservations (db w))) (Z.of_nat (length inputs)) ->
     rows (reservations (db w')) = rows (reservations (db w)) ++ input_rows i t now ids inputs ->
     NoDup (input_key i t <$> inputs) -> (forall u, u ∈ inputs -> input_key i t u ∉ active (db w)) -> Q (Ok ids) w') ->
  (forall e w', next_id (reservations (db w)) <= next_id (reservations (db w')) -> Q (Err e) w') ->
  wp (reserve_inputs i t now (now + bitcoinUTXOReservationTTL) inputs) w Q.
Proof.
  induction inputs as [|u inputs IH]; intros w Q Hok Herr; simpl.
  - wp_step. apply Hok; [done|by rewrite app_nil_r|by constructor|by intros ? ?%not_elem_of_nil].
  - wp_step. apply wp_query. cbv zeta. cbn [cr_OutputIndex cr_AmountSats cr_WalletID cr_IsTest cr_TxHash].
    destruct (_ || _); [intros w1 E1; apply Herr; rewrite E1; simpl; lia|].
    destruct (existsb (reservation_key_eq _ _ _ _) _) eqn:Ex; [intros w1 E1; apply Herr; rewrite E1; simpl; lia|].
    destruct (negb _); [intros w1 E1; apply Herr; rewrite E1; simpl; lia|]. cbn [fst snd]. intros w1 E1. apply not_reserved_key in Ex.
    wp_step. apply IH; [|intros e w2 Hn; apply Herr; rewrite E1 in Hn; simpl in Hn; lia]. intros ids w2 -> E2 Hnd Hact. wp_step.
    assert (forall k, k ∈ active (db w1) <-> k ∈ active (db w) \/ k = input_key i t u) as Ha.
    { intros k. rewrite !elem_of_active, E1. simpl. setoid_rewrite elem_of_app. setoid_rewrite list_elem_of_singleton.
      split.
      - intros (r & [Hr| ->] & Hk); [left; by exists r|right]. by injection Hk.
      - intros [(r & Hr & Hk)| ->]; [exists r; auto|]. eexists. split; [by right|done]. }
    apply Hok.
    + rewrite E1. simpl length. rewrite Nat2Z.inj_succ, (seqZ_cons _ (Z.succ _)) by lia. cbn [reservation_row Row.r_ID].
      by rewrite Z.pred_succ, <- Z.add_1_r.
    + rewrite E2, E1. simpl. by rewrite <- app_assoc.
    + simpl. apply NoDup_cons. split; [|done]. intros (u' & Hk & Hu)%list_elem_of_fmap.
      apply (Hact u' Hu). apply Ha. right. done.
    + intros u' [->|Hu]%elem_of_cons; [done|]. intros Hin. apply (Hact u' Hu), Ha. by left.
Qed.

(** Updating the reserved rows of a reservation leaves the others alone. *)
Lemma update_reserved_app i t now ids inputs old (g : Row.BitcoinUTXOReservation -> Row.BitcoinUTXOReservation) :
  (forall r, r ∈ old -> Row.r_ID r ∉ ids) ->
  map (update_reserved_in ids g) (old ++ input_rows i t now ids inputs) = old ++ map g (input_rows i t now ids inputs).
Proof.
  intros Hold. rewrite map_app. f_equal.
  - rewrite <- (map_id old) at 2. apply map_ext_in. intros r Hr%list_elem_of_In. unfold update_reserved_in.
    by rewrite bool_decide_false by auto.
  - apply map_ext_in. intros r Hr%list_elem_of_In. unfold input_rows in Hr.
    apply elem_of_zip_with in Hr as (id & u & -> & Hid & _). unfold update_reserved_in. by rewrite bool_decide_true.
Qed.

Lemma omap_released a b l : Forall (fun r => reservation_key (released a b r) = None) l.
Proof. apply Forall_forall. by intros. Qed.

Lemma omap_none {A B} (f : A -> option B) l : Forall (fun x => f x = None) l -> omap f l = [].
Proof. induction 1 as [|x l Hx _ IH]; simpl; [done|]. by rewrite Hx. Qed.

Lemma active_released old new a b d : rows (reservations d) = old ++ map (released a b) new ->
  active d = list_to_set (omap reservation_key old).
Proof.
  intros E. unfold active. rewrite E, omap_app. rewrite (omap_none _ (map _ new)), app_nil_r; [done|].
  apply Forall_forall. intros r (x & <- & _)%list_elem_of_In%in_map_iff. done.
Qed.

Section Signing.
Context `{KMSTransactions} `{UTXOProviders} `{Btcutil}.

(** What a signed transaction leaves in the reservations table. *)
Definition signed_rows (sender : Wallet) (isTest : bool) (rawTX : string) (plan : BitcoinTransactionPlan)
  (now at_ : Z) (ids : list Z) : list Row.BitcoinUTXOReservation :=
  map (with_raw_tx (bitcoinRawTXReservationID rawTX) at_) (input_rows (wal_ID sender) isTest now ids (p_Inputs plan)).

Lemma wp_sign_reserved sender plan t now ids old w :
  rows (reservations (db w)) = old ++ input_rows (wal_ID sender) t now ids (p_Inputs plan) ->
  NoDup ids -> (forall r, r ∈ old -> Row.r_ID r ∉ ids) ->
  wp (sign_reserved sender plan t ids) w (fun r w' => match r with
    | Ok (rawTX, plan') => plan' = plan /\
        (exists n, kms_CreateBitcoinTransaction (wal_UUID sender) (bitcoin_request plan t) n = Ok rawTX) /\
        exists at_, rows (reservations (db w')) = old ++ signed_rows sender t rawTX plan now at_ ids
    | Err _ => active (db w') = list_to_set (omap reservation_key old)
    | Panic _ => True
    end).
Proof.
  intros Hrows Hnd Hold. unfold sign_reserved, createSignedBitcoinTransactionFromPlan. do 3 wp_step.
  apply wp_external. intros w1 E1.
  destruct (kms_CreateBitcoinTransaction _ _ _) as [raw|e|p] eqn:Ek; cbn [wrap]; [| |done].
  - do 2 wp_step. unfold attachBitcoinUTXOReservationsRawTX. wp_step. apply wp_now. intros at_ w2 E2.
    apply (wp_for_each (with_raw_tx (bitcoinRawTXReservationID raw) at_)); [done|done|]. intros w3 E3.
    wp_step. split; [done|]. split; [by eexists|]. exists at_. rewrite E3, E2, E1, Hrows.
    by apply update_reserved_app.
  - do 2 wp_step. unfold releaseBitcoinUTXOReservationIDs. wp_step. apply wp_now. intros at_ w2 E2.
    apply (wp_for_each (released at_ at_)); [done|done|]. intros w3 E3. cbn [wrap]. wp_step.
    eapply active_released. rewrite E3, E2, E1, Hrows. by apply update_reserved_app.
Qed.

(** The whole call: a signed transaction holds its inputs, which nothing else
    held; an error holds nothing new. *)
Definition signing_outcome (sender : Wallet) (t : bool) (d : DB) (r : res (string * BitcoinTransactionPlan)) (d' : DB) : Prop :=
  match r with
  | Ok (rawTX, plan) =>
    NoDup (input_key (wal_ID sender) t <$> p_Inputs plan) /\
    (forall u, u ∈ p_Inputs plan -> input_key (wal_ID sender) t u ∉ active d) /\
    (exists n, kms_CreateBitcoinTransaction (wal_UUID sender) (bitcoin_request plan t) n = Ok rawTX) /\
    exists now at_ ids, length ids = length (p_Inputs plan) /\
      rows (reservations d') = rows (reservations d) ++ signed_rows sender t rawTX plan now at_ ids
  | Err _ => active d' = active d
  | Panic _ => True
  end.

Lemma active_rows d d' : rows (reservations d') = rows (reservations d) -> active d' = active d.
Proof. unfold active. by intros ->. Qed.

Lemma wp_attempts n : forall last sender recipient amount fee t sweep w d0,
  table_wf (reservations (db w)) -> rows (reservations (db w)) = rows (reservations d0) ->
  wp (attempts_loop n last sender recipient amount fee t sweep) w (fun r w' =>
    signing_outcome sender t d0 r (db w')).
Proof.
  induction n as [|n IH]; intros last sender recipient amount fee t sweep w d0 Hwf Hrows; simpl attempts_loop.
  - destruct last; wp_step; [by apply active_rows|done].
  - do 2 wp_step. unfold activeBitcoinUTXOReservationKeys, ListActiveBitcoinUTXOReservations. do 2 wp_step.
    apply wp_now. intros now0 w1 E1. apply wp_read. intros w2 E2. wp_step. cbn [wrap]. do 2 wp_step.
    apply wp_pure; [destruct sweep; [apply PrepareSweep_pure|apply Prepare_pure]|]. intros plan w3 E3.
    assert (db w3 = db w) as Ew by congruence. clear E1 E2 E3.
    destruct plan as [plan|e|p]; cbn [wrap]; [|apply active_rows; by rewrite Ew|done].
    do 2 wp_step. unfold reserveBitcoinUTXOs. wp_step. apply wp_now. intros now w4 E4.
    apply wp_run. apply wp_reserve_inputs.
    + intros ids w5 Hids Erows Hnd Hact. rewrite E4, Ew in *. eapply wp_mono.
      * apply (wp_sign_reserved sender plan t now ids (rows (reservations d0))).
        -- by rewrite Erows, Hrows.
        -- subst ids. apply NoDup_seqZ.
        -- intros r Hr Hin. subst ids. apply elem_of_seqZ in Hin. destruct Hwf as (_ & Hlt & _).
           rewrite Forall_forall in Hlt. rewrite <- Hrows in Hr. specialize (Hlt r Hr).
           change (row_id r) with (Row.r_ID r) in Hlt. lia.
      * intros [[raw plan']|e|p] w6 Hr; [|done|done]. destruct Hr as (-> & Hk & at_ & Hr). split; [done|].
        split; [intros u Hu; unfold active; rewrite <- Hrows; by apply Hact|]. split; [done|].
        exists now, at_, ids. split; [subst ids; by rewrite length_seqZ, Nat2Z.id|done].
    + intros e w5 Hn w6 E6. rewrite E4, Ew in *. destruct (isUniqueViolation e).
      * apply IH; rewrite E6; [|done]. simpl. by apply wf_next.
      * wp_step. apply active_rows. by rewrite E6.
Qed.
End Signing.

(** ** Lemmas: the life of a reservation *)
Lemma wp_update_reservations {A} (p : Row.BitcoinUTXOReservation -> bool) f (a : A) w (Q : res A -> world -> Prop) :
  (forall w', rows (reservations (db w')) = map (fun r => if p r then f r else r) (rows (reservations (db w))) ->
     Q (Ok a) w') ->
  wp (query (fun d => (Ok a, set_reservations (update_rows p f (reservations d)) d))) w Q.
Proof. intros HQ. apply wp_query. intros w' E. apply HQ. by rewrite E. Qed.

Lemma wp_Release i raw t w (Q : res unit -> world -> Prop) :
  (forall a w', rows (reservations (db w')) =
     map (fun r => if reserved_by_raw_tx i t (bitcoinRawTXReservationID raw) r then released a a r else r)
       (rows (reservations (db w))) -> Q (Ok tt) w') ->
  wp (ReleaseBitcoinTransactionReservations i raw t) w Q.
Proof.
  intros HQ. unfold ReleaseBitcoinTransactionReservations. wp_step. apply wp_now. intros a w1 E1.
  refine (wp_update_reservations _ _ _ _ _ _). intros w2 E2. apply (HQ a). by rewrite E2, E1.
Qed.

Lemma wp_Mark i raw h t w (Q : res unit -> world -> Prop) :
  (forall a w', rows (reservations (db w')) =
     map (fun r => if reserved_by_raw_tx i t (bitcoinRawTXReservationID raw) r then broadcasted h a r else r)
       (rows (reservations (db w))) -> Q (Ok tt) w') ->
  wp (MarkBitcoinTransactionBroadcasted i raw h t) w Q.
Proof.
  intros HQ. unfold MarkBitcoinTransactionBroadcasted. wp_step. apply wp_now. intros a w1 E1.
  refine (wp_update_reservations _ _ _ _ _ _). intros w2 E2. apply (HQ a). by rewrite E2, E1.
Qed.

Lemma active_map f d d' : rows (reservations d') = map f (rows (reservations d)) ->
  (forall r, r ∈ rows (reservations d) -> reservation_key (f r) = reservation_key r) -> active d' = active d.
Proof.
  intros E. unfold active. rewrite E. clear E. generalize (rows (reservations d)) as l. intros l Hf. f_equal.
  induction l as [|r l IH]; [done|]. simpl. rewrite Hf by left.
  case_match; [f_equal|]; apply IH; intros; apply Hf; by right.
Qed.

(** The outpoints left after releasing what was reserved under [raw]. *)
Lemma active_after_release (p : Row.BitcoinUTXOReservation -> bool) a d d' k :
  rows (reservations d') = map (fun r => if p r then released a a r else r) (rows (reservations d)) ->
  k ∈ active d' <-> exists r, r ∈ rows (reservations d) /\ p r = false /\ reservation_key r = Some k.
Proof.
  intros E. rewrite elem_of_active, E. setoid_rewrite list_elem_of_In. setoid_rewrite in_map_iff. split.
  - intros (r & (x & <- & Hx) & Hk). exists x. destruct (p x); done.
  - intros (r & Hr & Hp & Hk). exists r. split; [|done]. exists r. by rewrite Hp.
Qed.

Lemma reserved_signed sender t raw plan now at_ ids r : r ∈ signed_rows sender t raw plan now at_ ids ->
  reserved_by_raw_tx (wal_ID sender) t (bitcoinRawTXReservationID raw) r = true.
Proof.
  unfold signed_rows. intros (x & <- & Hx)%list_elem_of_In%in_map_iff. apply list_elem_of_In in Hx.
  apply elem_of_zip_with in Hx as (id & u & -> & _). unfold reserved_by_raw_tx. simpl.
  rewrite Z.eqb_refl, eqb_reflx. unfold sql_eq. simpl. by rewrite !bool_decide_true.
Qed.

(** ** Lemmas: account-based transactions *)
Lemma wp_IncrementPending i t w r : schema_ok (db w) -> row_at i (wallets (db w)) = Some r ->
  counter_room (counters_of t r) ->
  wp (IncrementPendingTransaction i t) w (fun a w' =>
    a = Ok ((counters_of t r).1 + (counters_of t r).2) /\
    moved_counter i t ((counters_of t r).1, (counters_of t r).2 + 1) (db w) (db w')).
Proof.
  intros Hok Hr Hroom. pose proof (wp_nonce_op i t OpIncrementPending w r Hok Hr Hroom) as Hop.
  destruct (counters_of t r) as [c p]. unfold wp in *. cbn [run_nonce_op] in Hop. unfold mbind, M_bind in Hop.
  destruct (IncrementPendingTransaction i t w) as [[n|e|q] w']; simpl in *; destruct Hop as [Ha Hm]; by simplify_eq.
Qed.

Lemma wp_DecrementPending i t w r : schema_ok (db w) -> row_at i (wallets (db w)) = Some r ->
  counter_room (counters_of t r) -> (counters_of t r).2 <> 0 ->
  wp (DecrementPendingTransaction i t) w (fun a w' =>
    a = Ok tt /\ moved_counter i t ((counters_of t r).1, (counters_of t r).2 - 1) (db w) (db w')).
Proof.
  intros Hok Hr Hroom Hp. pose proof (wp_nonce_op i t OpDecrementPending w r Hok Hr Hroom) as Hop.
  destruct (counters_of t r) as [c p]. unfold wp in *. cbn [run_nonce_op] in Hop. unfold mbind, M_bind in Hop.
  simpl in *. destruct (Z.eqb_spec p 0); [done|].
  destruct (DecrementPendingTransaction i t w) as [[[]|e|q] w']; simpl in *; destruct Hop as [Ha Hm]; by simplify_eq.
Qed.

Section Account.
Context `{KMSTransactions} `{UTXOProviders} `{Btcutil}.

#[local] Hint Extern 1 (steps _ (external _)) => apply steps_external; tc_solve : schema.

Lemma createSignedTransaction_pure s r c a f n t : steps eq (createSignedTransaction s r c a f n t).
Proof. unfold createSignedTransaction. go_steps. Qed.
End Account.

Lemma omap_signed sender t raw plan now at_ ids : length ids = length (p_Inputs plan) ->
  omap reservation_key (signed_rows sender t raw plan now at_ ids) = input_key (wal_ID sender) t <$> p_Inputs plan.
Proof.
  unfold signed_rows, input_rows. generalize (p_Inputs plan) as l. clear plan. intros l. revert ids.
  induction l as [|u l IH]; intros [|id ids] Hl; simplify_eq/=; [done|]. f_equal. by apply IH.
Qed.

Lemma active_signed sender t raw plan now at_ ids d d' : length ids = length (p_Inputs plan) ->
  rows (reservations d') = rows (reservations d) ++ signed_rows sender t raw plan now at_ ids ->
  active d' = active d ∪ list_to_set (input_key (wal_ID sender) t <$> p_Inputs plan).
Proof.
  intros Hl E. unfold active. rewrite E, omap_app, list_to_set_app_L. by rewrite omap_signed.
Qed.

Lemma active_release_signed sender t raw plan now at_ ids a d d1 d2 :
  (forall r, r ∈ rows (reservations d) -> reserved_by_raw_tx (wal_ID sender) t (bitcoinRawTXReservationID raw) r = false) ->
  rows (reservations d1) = rows (reservations d) ++ signed_rows sender t raw plan now at_ ids ->
  rows (reservations d2) = map (fun r => if reserved_by_raw_tx (wal_ID sender) t (bitcoinRawTXReservationID raw) r
    then released a a r else r) (rows (reservations d1)) ->
  active d2 = active d.
Proof.
  intros Hfresh E1 E2. apply set_eq. intros k. rewrite (active_after_release _ a d1 d2 k E2), elem_of_active, E1.
  split.
  - intros (r & [Hr|Hr]%elem_of_app & Hp & Hk); [by exists r|]. apply reserved_signed in Hr. congruence.
  - intros (r & Hr & Hk). exists r. split; [apply elem_of_app; by left|]. auto.
Qed.

Lemma active_mark i t raw hash a d1 d2 :
  rows (reservations d2) = map (fun r => if reserved_by_raw_tx i t raw r then broadcasted hash a r else r)
    (rows (reservations d1)) -> active d2 = active d1.
Proof.
  intros E2. eapply active_map; [exact E2|]. intros r _. cbv beta. destruct (reserved_by_raw_tx i t raw r) eqn:Er; [|done].
  by eapply broadcasted_key, reserved_status.
Qed.

Lemma mark_none_reserved i t raw hash a d1 d2 r :
  rows (reservations d2) = map (fun r => if reserved_by_raw_tx i t raw r then broadcasted hash a r else r)
    (rows (reservations d1)) -> r ∈ rows (reservations d2) -> reserved_by_raw_tx i t raw r = false.
Proof.
  intros -> (x & <- & Hx)%list_elem_of_In%in_map_iff. destruct (reserved_by_raw_tx i t raw x) eqn:Er; [|done].
  unfold reserved_by_raw_tx. simpl. by rewrite andb_false_r.
Qed.

Lemma same_reservation d x r : schema_ok d -> x ∈ rows (reservations d) -> r ∈ rows (reservations d) ->
  reservation_key x = reservation_key r -> is_Some (reservation_key r) -> x = r.
Proof.
  intros Hok Hx Hr Hk Hs. assert (row_id x = row_id r) as Hid by (apply (ok_reservation_key _ Hok); [done|done|done|by rewrite Hk]).
  destruct (ok_wf _ Hok) as (_ & _ & _ & _ & _ & Hwf & _).
  assert (row_at (row_id r) (reservations d) = Some x) as K1 by by apply row_at_Some.
  assert (row_at (row_id r) (reservations d) = Some r) as K2 by by apply row_at_Some. congruence.
Qed.

Lemma listed_key d now x r : schema_ok d -> x ∈ rows (reservations d) -> r ∈ rows (reservations d) ->
  is_listed (Row.r_WalletID r) (Row.r_IsTest r) now x = true -> reservation_utxo_key x = reservation_utxo_key r ->
  Row.r_Status r = "reserved" -> reservation_key x = reservation_key r.
Proof.
  intros Hok Hx Hr Hl Hk Hs. destruct (ok_reservations _ Hok x Hx) as (_ & Hix & _), (ok_reservations _ Hok r Hr) as (_ & Hir & _).
  unfold is_listed in Hl. unfold reservation_utxo_key, uint32 in Hk. injection Hk as Hh Hi.
  rewrite !Z.mod_small in Hi by lia. rewrite !andb_true_iff, Z.eqb_eq, eqb_true_iff in Hl. destruct Hl as [[Hw Ht] Hst].
  unfold reservation_key. rewrite Hs, Hw, Ht, Hh, Hi. replace (is_active_status (Row.r_Status x)) with true; [done|].
  symmetry. unfold is_active_status. apply orb_true_iff. apply orb_true_iff in Hst as [Hst|Hst]; [right; exact Hst|].
  apply andb_true_iff in Hst as [Hst _]. by left.
Qed.

Lemma wp_reserve i inputs t w : wp (reserveBitcoinUTXOs i inputs t) w (fun r _ => match r with
  | Ok _ => forall u, u ∈ inputs -> input_key i t u ∉ active (db w) | Err _ => True | Panic _ => False end).
Proof.
  unfold reserveBitcoinUTXOs. wp_step. apply wp_now. intros now w1 E1. apply wp_run. apply wp_reserve_inputs; [|done].
  intros ids w2 _ _ _ Hact. unfold active in *. by rewrite <- E1.
Qed.

Lemma wp_signing `{KMSTransactions} `{UTXOProviders} `{Btcutil} sender recipient currency amount fee t sweep w :
  schema_ok (db w) ->
  wp (createSignedBitcoinTransaction sender recipient currency amount fee t sweep) w
    (fun r w' => signing_outcome sender t (db w) r (db w')).
Proof.
  intros Hok. unfold createSignedBitcoinTransaction. destruct (_ || _); [by wp_step|].
  apply wp_attempts; [apply (ok_wf _ Hok)|done].
Qed.

Lemma account_not_utxo currency : validateAccountBasedTransactionCurrency currency = Ok tt ->
  isUTXOBlockchain (cc_Blockchain currency) = false.
Proof.
  unfold validateAccountBasedTransactionCurrency, isUTXOBlockchain, BTC, LTC, ETH, MATIC, BSC, TRON.
  repeat case_bool_decide; try done; congruence.
Qed.

Lemma Increment_schema i t w : schema_ok (db w) -> schema_ok (db (IncrementPendingTransaction i t w).2).
Proof.
  assert (steps schema_step (IncrementPendingTransaction i t)) as Hs
    by (unfold IncrementPendingTransaction, locked_wallet; destruct t; go_steps).
  apply (Hs w).
Qed.

(** ** Properties *)
Section Properties.
Context `{KMSTransactions} `{UTXOProviders} `{Btcutil}.

(** C26. Signing a bitcoin transaction takes its inputs exclusively, or
    nothing. When [createSignedBitcoinTransaction] succeeds, its inputs are
    distinct outpoints that no reserved or broadcast transaction of the wallet
    and network held, the key service signed this plan into the raw transaction,
    and the table gains exactly one row per input, reserved under the SHA-256 of
    the raw transaction. When it fails - the provider, a conflict on every
    attempt, the key service - the outpoints held are those held before. *)
Theorem utxo_signing_reserves (sender : Wallet) (recipient : string) (currency : CryptoCurrency) (amount : Money)
  (fee : Fee) (isTest sweep : bool) (w : world) (Hok : schema_ok (db w)) :
  let '(r, w') := createSignedBitcoinTransaction sender recipient currency amount fee isTest sweep w in
  signing_outcome sender isTest (db w) r (db w').
Proof.
  pose proof (wp_signing sender recipient currency amount fee isTest sweep w Hok) as Hwp.
  unfold wp in Hwp. by destruct (createSignedBitcoinTransaction _ _ _ _ _ _ _ w).
Qed.

(** The life of a reservation: after a transaction is signed, releasing it
    gives back exactly its inputs; marking it broadcast instead keeps them,
    and a release that comes later gives nothing back. *)
Theorem reservation_lifecycle (sender : Wallet) (recipient : string) (currency : CryptoCurrency) (amount : Money)
  (fee : Fee) (isTest sweep : bool) (w w1 : world) (rawTX hash : string) (plan : BitcoinTransactionPlan)
  (Hok : schema_ok (db w))
  (Hrun : createSignedBitcoinTransaction sender recipient currency amount fee isTest sweep w = (Ok (rawTX, plan), w1))
  (Hfresh : forall r, r ∈ rows (reservations (db w)) ->
     reserved_by_raw_tx (wal_ID sender) isTest (bitcoinRawTXReservationID rawTX) r = false) :
  active (db w1) = active (db w) ∪ list_to_set (input_key (wal_ID sender) isTest <$> p_Inputs plan) /\
  active (db (ReleaseBitcoinTransactionReservations (wal_ID sender) rawTX isTest w1).2) = active (db w) /\
  (let w2 := (MarkBitcoinTransactionBroadcasted (wal_ID sender) rawTX hash isTest w1).2 in
   active (db w2) = active (db w1) /\
   active (db (ReleaseBitcoinTransactionReservations (wal_ID sender) rawTX isTest w2).2) = active (db w1)).
Proof.
  pose proof (wp_signing sender recipient currency amount fee isTest sweep w Hok) as Hwp.
  unfold wp in Hwp. rewrite Hrun in Hwp. destruct Hwp as (_ & _ & _ & now & at_ & ids & Hlen & Hrows). cbn [snd] in Hrows.
  split; [|split].
  - by eapply active_signed.
  - pose proof (wp_Release (wal_ID sender) rawTX isTest w1 (fun _ w' => active (db w') = active (db w))) as Hr.
    apply Hr. intros a w2 E2. by eapply active_release_signed.
  - cbv zeta. pose proof (wp_Mark (wal_ID sender) rawTX hash isTest w1 (fun _ w2 => active (db w2) = active (db w1) /\
      active (db (ReleaseBitcoinTransactionReservations (wal_ID sender) rawTX isTest w2).2) = active (db w1))) as Hm.
    apply Hm. intros a w2 E2. assert (active (db w2) = active (db w1)) as Ha by by eapply active_mark.
    split; [done|]. pose proof (wp_Release (wal_ID sender) rawTX isTest w2 (fun _ w' => active (db w') = active (db w1))) as Hr.
    apply Hr. intros b w3 E3. rewrite <- Ha. eapply active_map; [exact E3|]. intros r Hr'. cbv beta.
    by rewrite (mark_none_reserved _ _ _ _ _ _ _ _ E2 Hr').
Qed.

(** An expired reservation is neither free nor held: a row still
    [reserved] after its expiry is not among the outpoints excluded from the
    next selection, yet every attempt to reserve its outpoint again fails, so
    the signing loop keeps picking an input it cannot take. *)
Theorem expired_reservation_blocks (r : Row.BitcoinUTXOReservation) (inputs : list BitcoinUTXO) (u : BitcoinUTXO) (w : world)
  (Hok : schema_ok (db w)) (Hr : r ∈ rows (reservations (db w))) (Hs : Row.r_Status r = "reserved")
  (Hexp : forall n, Row.r_ExpiresAt r <= clock w n)
  (Hu : u ∈ inputs) (Hk : reservation_key r = Some (input_key (Row.r_WalletID r) (Row.r_IsTest r) u)) :
  (exists keys, (activeBitcoinUTXOReservationKeys (Row.r_WalletID r) (Row.r_IsTest r) w).1 = Ok keys /\
     reservation_utxo_key r ∉ keys) /\
  is_ok (reserveBitcoinUTXOs (Row.r_WalletID r) inputs (Row.r_IsTest r) w).1 = false.
Proof.
  split.
  - eexists. split; [reflexivity|]. intros (x & Hxk & Hx)%list_elem_of_In%in_map_iff.
    apply list_elem_of_In, elem_of_select in Hx as [Hx Hl]. simpl in Hl. unfold is_listed in Hl.
    assert (x = r) as ->.
    { apply (same_reservation (db w)); [done|done|done| |by rewrite Hk]. by eapply listed_key. }
    rewrite Hs in Hl. specialize (Hexp (ticks w)). rewrite (proj2 (Z.ltb_ge _ _) Hexp) in Hl.
    by rewrite !andb_false_r in Hl.
  - pose proof (wp_reserve (Row.r_WalletID r) inputs (Row.r_IsTest r) w) as Hwp. unfold wp in Hwp.
    destruct (reserveBitcoinUTXOs _ _ _ w) as [[ids|e|p] w1]; [|done|done]. simpl in Hwp. destruct (Hwp u Hu).
    apply elem_of_active. by exists r.
Qed.

(** An account-based transaction and its nonce: [CreateSignedTransaction]
    signs with the next nonce of the sender, which it then keeps pending; when
    signing fails it gives the nonce back, so the sender's counters are those
    before the call. No other error or panic is left behind: the outcome is
    the signing's own. *)
Theorem account_transaction_nonce (sender : Wallet) (recipient : string) (currency : CryptoCurrency) (amount : Money)
  (fee : Fee) (isTest : bool) (w : world) (c p : Z)
  (Hok : schema_ok (db w)) (Hcur : validateAccountBasedTransactionCurrency currency = Ok tt)
  (Hcp : counters (wal_ID sender) isTest (db w) = Some (c, p)) (Hc : 0 <= c) (Hp : 0 <= p) (Hroom : c + p + 2 < 2 ^ 63) :
  exists w1, counters (wal_ID sender) isTest (db w1) = Some (c, p + 1) /\
  let signed := (createSignedTransaction sender recipient currency amount fee (c + p) isTest w1).1 in
  let '(r, w') := CreateSignedTransaction sender recipient currency amount fee isTest w in
  r = signed /\
  (is_ok r = true -> counters (wal_ID sender) isTest (db w') = Some (c, p + 1)) /\
  (forall e, r = Err e -> counters (wal_ID sender) isTest (db w') = Some (c, p)).
Proof.
  unfold counters in Hcp. destruct (row_at (wal_ID sender) (wallets (db w))) as [row|] eqn:Hrow; [|done].
  injection Hcp as Hcp. assert (isUTXOBlockchain (cc_Blockchain currency) = false) as Hutxo by by apply account_not_utxo.
  pose proof (wp_IncrementPending _ isTest w row Hok Hrow) as Hinc. rewrite Hcp in Hinc.
  destruct Hinc as [Hn Hm]; [unfold counter_room; simpl; lia|]. simpl in Hn, Hm.
  exists (IncrementPendingTransaction (wal_ID sender) isTest w).2.
  pose proof (moved_counter_at _ _ _ _ _ _ Hrow Hm) as Hrow1.
  assert (schema_ok (db (IncrementPendingTransaction (wal_ID sender) isTest w).2)) as Hok1 by by apply Increment_schema.
  split; [unfold counters; rewrite Hrow1; simpl; by rewrite counters_set|].
  unfold CreateSignedTransaction. rewrite Hutxo, Hcur. unfold mbind, M_bind, lift, wrapM, attempt.
  destruct (IncrementPendingTransaction (wal_ID sender) isTest w) as [n w1]. simpl in Hn, Hrow1, Hok1 |- *. subst n. cbn [wrap].
  pose proof (createSignedTransaction_pure sender recipient currency amount fee (c + p) isTest w1) as Hpure.
  destruct (createSignedTransaction sender recipient currency amount fee (c + p) isTest w1) as [[raw|e|q] w2]; simpl in Hpure |- *.
  - split; [done|]. split; [|done]. intros _. unfold counters. rewrite <- Hpure, Hrow1. simpl. by rewrite counters_set.
  - rewrite Hpure in Hok1, Hrow1.
    pose proof (wp_DecrementPending _ isTest w2 _ Hok1 Hrow1) as Hdec. rewrite counters_set in Hdec.
    destruct Hdec as [Hd Hm2]; [unfold counter_room; simpl; lia|simpl; lia|]. simpl in Hm2.
    pose proof (moved_counter_at _ _ _ _ _ _ Hrow1 Hm2) as Hrow2.
    destruct (DecrementPendingTransaction (wal_ID sender) isTest w2) as [d w3]. simpl in Hd, Hrow2. subst d. simpl.
    split; [done|]. split; [done|]. intros e' _. unfold counters. rewrite Hrow2. simpl. rewrite counters_set.
    by rewrite Z.add_simpl_r.
  - split; [done|]. by split.
Qed.
End Properties.

(** ** Examples: a key service that signs everything *)
#[local] Existing Instance ex_providers.
#[local] Existing Instance ex_btcutil.
#[local] Instance ex_signer : KMSTransactions := {|
  kms_CreateBitcoinTransaction _ _ _ := Ok "raw";
  kms_CreateEthereumTransaction _ _ _ := Err (ENew "unavailable");
  kms_CreateMaticTransaction _ _ _ := Ok "raw";
  kms_CreateBSCTransaction _ _ _ := Ok "raw";
  TronTransaction := string;
  kms_CreateTronTransaction _ _ _ := Ok "raw";
  json_Marshal_TronTransaction s := Ok s
|}.

Definition ex_sender : Wallet := entryToWallet sample_wallet.
Definition ex_amount : Money := mkMoney Crypto "BTC" (Some 100000) 8.

(** What the example transaction spends. *)
Definition ex_signed : res (string * list BitcoinUTXO) * world :=
  let '(r, w) := createSignedBitcoinTransaction ex_sender "you" ex_btc ex_amount ex_fee false false one_wallet_world in
  ((fun x => (x.1, p_Inputs x.2)) <$> r, w).

Lemma utxo_signing_reserves_witness :
  ex_signed.1 = Ok ("raw", [mkUTXO "r" 7 500000 "" "bc1qw" 1]) /\
  let '(r, w') := createSignedBitcoinTransaction ex_sender "you" ex_btc ex_amount ex_fee false false one_wallet_world in
  signing_outcome ex_sender false (db one_wallet_world) r (db w').
Proof.
  split; [vm_compute; reflexivity|].
  apply (utxo_signing_reserves ex_sender "you" ex_btc ex_amount ex_fee false false one_wallet_world one_wallet_schema).
Defined.

Lemma reservation_lifecycle_witness :
  exists plan w1, createSignedBitcoinTransaction ex_sender "you" ex_btc ex_amount ex_fee false false one_wallet_world =
    (Ok ("raw", plan), w1) /\
    active (db (ReleaseBitcoinTransactionReservations (wal_ID ex_sender) "raw" false w1).2) = active (db one_wallet_world).
Proof.
  destruct (createSignedBitcoinTransaction ex_sender "you" ex_btc ex_amount ex_fee false false one_wallet_world)
    as [[[raw plan]|e|q] w1] eqn:E; [|exfalso; apply (f_equal fst) in E; vm_compute in E; discriminate E
      |exfalso; apply (f_equal fst) in E; vm_compute in E; discriminate E].
  assert (raw = "raw") as Hraw.
  { apply (f_equal (fun x => match x.1 with Ok (s, _) => s | _ => "" end)) in E. vm_compute in E. by symmetry. }
  subst raw. exists plan, w1. split; [reflexivity|].
  refine (proj1 (proj2 (reservation_lifecycle ex_sender "you" ex_btc ex_amount ex_fee false false one_wallet_world w1
    "raw" "hash" plan one_wallet_schema E _))).
  clear E. intros r Hr. exfalso. exact (not_elem_of_nil r Hr).
Defined.

Definition ex_params : CreateBitcoinUTXOReservationParams := mkCreateReservationParams 1 false "r" 7 500000 0 0.
Definition ex_reserved_world : world := (CreateBitcoinUTXOReservation ex_params one_wallet_world).2.

Lemma expired_reservation_blocks_witness :
  is_ok (reserveBitcoinUTXOs 1 [mkUTXO "r" 7 500000 "" "me" 1] false ex_reserved_world).1 = false.
Proof.
  refine (proj2 (expired_reservation_blocks (reservation_row ex_params 1) [mkUTXO "r" 7 500000 "" "me" 1]
    (mkUTXO "r" 7 500000 "" "me" 1) ex_reserved_world _ _ eq_refl _ _ eq_refl)).
  - apply (proj2 (CreateBitcoinUTXOReservation_schema ex_params one_wallet_world)), one_wallet_schema.
  - vm_compute. left.
  - intros n. vm_compute. discriminate.
  - left.
Defined.

Definition ex_eth : CryptoCurrency := mkCrypto "ETH" "" "1" "5" "coin" "ETH" "" 18 "" "" [] false.
Definition ex_eth_fee : Fee := mkFee 0 ex_eth false (RawEth (mkEthFee 21000 "1" "1" "" "" "" Money_zero)).

Lemma account_transaction_nonce_witness :
  (CreateSignedTransaction ex_sender "0x" ex_eth ex_amount ex_eth_fee false one_wallet_world).1 =
    Err (EWrap (ENew "unavailable") "unable to create ETH transaction") /\
  counters 1 false (db (CreateSignedTransaction ex_sender "0x" ex_eth ex_amount ex_eth_fee false one_wallet_world).2) =
    Some (0, 0).
Proof.
  split; [vm_compute; reflexivity|].
  destruct (account_transaction_nonce ex_sender "0x" ex_eth ex_amount ex_eth_fee false one_wallet_world 0 0
    one_wallet_schema eq_refl eq_refl) as (w1 & _ & H); [done|done|by vm_compute|].
  destruct (CreateSignedTransaction ex_sender "0x" ex_eth ex_amount ex_eth_fee false one_wallet_world) as [r w'] eqn:E.
  destruct H as (_ & _ & He). apply (f_equal fst) in E. vm_compute in E. apply (He _ (eq_sym E)).
Defined.
