(* ===== verification/Currencies.v ===== *)
(** * Currencies: the currency resolver

    [internal/service/blockchain/currencies.go]: the coins and tokens the
    gateway knows, the indices by blockchain, the lookups by ticker, native
    coin and token contract, the set-up from [currencies.json], payment links
    and explorer links. The lookups the other services use are an interface
    ([Resolver]) with the laws they rely on; the resolver discharges them. *)

From Stdlib Require Import Sorted.
From S2P Require Import Prelude GoLib Float64 KmsWallet Money.

Definition ErrCurrencyNotFound : error := ESentinel "blockchain.ErrCurrencyNotFound".
Definition ErrNoTokenAddress : error := ESentinel "blockchain.ErrNoTokenAddress".
Definition ErrParseMoney : error := ESentinel "blockchain.ErrParseMoney".

(** ** The interface *)
Class Resolver := {
  GetCurrencyByTicker : string -> res CryptoCurrency;
  GetNativeCoin : string -> res CryptoCurrency;
  SupportedCurrencies : bool -> list CryptoCurrency
}.

Class ResolverLaws `{Resolver} : Prop := {
  currency_ticker s c : GetCurrencyByTicker s = Ok c -> cc_Ticker c = ToUpper s;
  currency_error s e : GetCurrencyByTicker s = Err e -> errors_Is e ErrCurrencyNotFound = true;
  native_coin bc c : GetNativeCoin bc = Ok c -> cc_Blockchain c = bc /\ cc_Type c = Coin;
  native_error bc e : GetNativeCoin bc = Err e -> errors_Is e ErrCurrencyNotFound = true;
  never_panics s p : GetCurrencyByTicker s <> Panic p /\ GetNativeCoin s <> Panic p
}.

(** ** The resolver (the mutex is not modelled: one call at a time) *)
Record CurrencyResolver := mkResolver {
  currencies : gmap string CryptoCurrency;
  minimalWithdrawals : gmap string Money;
  minimalInternalTransfers : gmap string Money;
  currencyBlockchains : gmap string (gset string);
  blockchainCurrencies : gmap string (gset string)
}.

Definition NewCurrencies : CurrencyResolver := mkResolver ∅ ∅ ∅ ∅ ∅.

Definition zero_crypto : CryptoCurrency := mkCrypto "" "" "" "" "" "" "" 0 "" "" [] false.

Definition currency_less (a b : CryptoCurrency) : bool :=
  if bool_decide (cc_Name a = cc_Name b) then String.ltb (cc_Ticker a) (cc_Ticker b)
  else String.ltb (cc_Name a) (cc_Name b).

Definition sortCurrencies (l : list CryptoCurrency) : list CryptoCurrency := SliceStable currency_less l.

Section Resolver.
Context (r : CurrencyResolver).

Definition resolve_ticker (ticker : string) : res CryptoCurrency :=
  let ticker := ToUpper ticker in
  match currencies r !! ticker with
  | Some c => Ok c
  | None => Err (EWrap ErrCurrencyNotFound ticker)
  end.

Definition ListBlockchainCurrencies (blockchain : string) : list CryptoCurrency :=
  sortCurrencies (map (fun ticker => default zero_crypto (currencies r !! ticker))
    (elements (default ∅ (blockchainCurrencies r !! blockchain)))).

Definition resolve_native (chain : string) : res CryptoCurrency :=
  match List.find (fun c => bool_decide (cc_Type c = Coin)) (ListBlockchainCurrencies chain) with
  | Some c => Ok c
  | None => Err ErrCurrencyNotFound
  end.

Definition GetMinimalWithdrawalByTicker (ticker : string) : res Money :=
  match minimalWithdrawals r !! ticker with Some a => Ok a | None => Err ErrCurrencyNotFound end.

Definition GetUSDMinimalInternalTransferByTicker (ticker : string) : res Money :=
  match minimalInternalTransfers r !! ticker with Some a => Ok a | None => Err ErrCurrencyNotFound end.

(** The token at [addr] (lower case): on the currency's main network its
    contract, on any other its test contract, or one of its aliases. *)
Definition contract_matches (networkID addr : string) (c : CryptoCurrency) : bool :=
  bool_decide (cc_Type c = Token) &&
  (bool_decide (ToLower (if bool_decide (cc_NetworkID c = networkID) then cc_TokenContractAddress c
                         else cc_TestTokenContractAddress c) = addr) ||
   existsb (fun a => bool_decide (a = addr)) (cc_Aliases c)).

Definition GetCurrencyByBlockchainAndContract (bc networkID addr : string) : res CryptoCurrency :=
  if bool_decide (bc = "") || bool_decide (networkID = "") || bool_decide (addr = "")
  then Err (EWrap ErrCurrencyNotFound "invalid input")
  else match List.find (contract_matches networkID (ToLower addr)) (ListBlockchainCurrencies bc) with
  | Some c => Ok c
  | None => Err ErrCurrencyNotFound
  end.

Definition ListSupportedCurrencies (withDeprecated : bool) : list CryptoCurrency :=
  sortCurrencies (List.filter (fun c => negb (cc_Deprecated c && negb withDeprecated)) (map_to_list (currencies r)).*2).

Definition ListSupportedBlockchains : list string := SliceStable String.ltb (map_to_list (blockchainCurrencies r)).*1.

Definition supportsTransactionRuntime (blockchain : string) : bool :=
  existsb (fun b => bool_decide (blockchain = b)) [BTC; LTC; ETH; MATIC; BSC; TRON].

Definition ListRuntimeSupportedBlockchains : list string :=
  List.filter supportsTransactionRuntime ListSupportedBlockchains.

Definition ensureIndices (blockchain ticker : string) : CurrencyResolver :=
  mkResolver (currencies r) (minimalWithdrawals r) (minimalInternalTransfers r)
    (<[ticker := default ∅ (currencyBlockchains r !! ticker)]> (currencyBlockchains r))
    (<[blockchain := default ∅ (blockchainCurrencies r !! blockchain)]> (blockchainCurrencies r)).

Definition addMinimalWithdrawal (ticker : string) (amount : Money) : CurrencyResolver :=
  mkResolver (currencies r) (<[ticker := amount]> (minimalWithdrawals r)) (minimalInternalTransfers r)
    (currencyBlockchains r) (blockchainCurrencies r).

Definition addMinimalInternalTransfer (ticker : string) (amount : Money) : CurrencyResolver :=
  mkResolver (currencies r) (minimalWithdrawals r) (<[ticker := amount]> (minimalInternalTransfers r))
    (currencyBlockchains r) (blockchainCurrencies r).
End Resolver.

Definition addCurrency (r : CurrencyResolver) (currency : CryptoCurrency) : CurrencyResolver :=
  let bc := cc_Blockchain currency in
  let ticker := cc_Ticker currency in
  let r := ensureIndices (mkResolver (<[ticker := currency]> (currencies r)) (minimalWithdrawals r)
    (minimalInternalTransfers r) (currencyBlockchains r) (blockchainCurrencies r)) bc ticker in
  if cc_Deprecated currency then r else
  mkResolver (currencies r) (minimalWithdrawals r) (minimalInternalTransfers r)
    (<[ticker := {[bc]} ∪ default ∅ (currencyBlockchains r !! ticker)]> (currencyBlockchains r))
    (<[bc := {[ticker]} ∪ default ∅ (blockchainCurrencies r !! bc)]> (blockchainCurrencies r)).

#[export] Instance CurrencyResolver_Resolver (r : CurrencyResolver) : Resolver := {|
  GetCurrencyByTicker := resolve_ticker r;
  GetNativeCoin := resolve_native r;
  SupportedCurrencies := ListSupportedCurrencies r
|}.

(** The rest of [blockchain.Resolver], which only the processing uses. *)
Class Catalog := {
  BlockchainCurrencies : string -> list CryptoCurrency;
  USDMinimalInternalTransfer : string -> res Money;
  CurrencyByBlockchainAndContract : string -> string -> string -> res CryptoCurrency;
  RuntimeSupportedBlockchains : list string
}.

#[export] Instance CurrencyResolver_Catalog (r : CurrencyResolver) : Catalog := {|
  BlockchainCurrencies := ListBlockchainCurrencies r;
  USDMinimalInternalTransfer := GetUSDMinimalInternalTransferByTicker r;
  CurrencyByBlockchainAndContract := GetCurrencyByBlockchainAndContract r;
  RuntimeSupportedBlockchains := ListRuntimeSupportedBlockchains r
|}.

(** ** Set-up from the embedded file: the array of string maps that
    [json.Unmarshal] gives *)
Definition parseUSD (raw : string) : res Money :=
  match ParseFloat raw with
  | None => Err (EWrap ErrParseMoney raw)
  | Some f => if f64_eq f f64_zero then Fiat_MakeAmount USD "0" else FiatFromFloat64 USD f
  end.

Definition one_of (raw : string) (l : list string) : bool := existsb (fun s => bool_decide (raw = s)) l.

(** [strconv.ParseBool] *)
Definition ParseBool (raw : string) : res bool :=
  if one_of raw ["1"; "t"; "T"; "TRUE"; "true"; "True"] then Ok true
  else if one_of raw ["0"; "f"; "F"; "FALSE"; "false"; "False"] then Ok false
  else Err (ENew "strconv.ParseBool: invalid syntax").

Definition parseBool (raw : string) : res bool := if bool_decide (raw = "") then Ok false else ParseBool raw.

(** [strings.TrimSpace] on ASCII *)
Definition is_space (c : ascii) : bool := let n := N_of_ascii c in ((9 <=? n) && (n <=? 13) || (n =? 32))%N.
Fixpoint trim_left_space (l : list ascii) : list ascii :=
  match l with c :: l' => if is_space c then trim_left_space l' else l | [] => [] end.
Definition TrimSpace (s : string) : string :=
  of_bytes (reverse (trim_left_space (reverse (trim_left_space (bytes s))))).

Definition parseAliases (raw : string) : list string :=
  if bool_decide (raw = "") then [] else map TrimSpace (of_bytes <$> split_char "," (bytes (ToLower raw))).

Definition field (c : gmap string string) (k : string) : string := default "" (c !! k).

Definition setup_entry (s : CurrencyResolver) (c : gmap string string) : res CurrencyResolver :=
  decimals ← match Atoi (field c "decimals") with Some n => Ok n | None => Err (ENew "strconv.Atoi: parsing") end;
  let moneyType := if bool_decide (field c "type" = Token) then Token else Coin in
  let tokenAddr := field c "tokenAddress" in
  if bool_decide (moneyType = Token) && bool_decide (tokenAddr = "") then
    Err (EWrap ErrNoTokenAddress (field c "ticker")) else
  minimalWithdrawal ← parseUSD (field c "minimal_withdrawal_amount_usd");
  minimalInternalTransfer ← parseUSD (field c "minimal_instant_internal_transfer_amount_usd");
  deprecated ← parseBool (field c "deprecated");
  let ticker := field c "ticker" in
  let s := addCurrency s (mkCrypto (field c "blockchain") (field c "blockchainName") (field c "networkId")
    (field c "testNetworkId") moneyType ticker (field c "name") decimals tokenAddr (field c "testTokenAddress")
    (parseAliases (field c "aliases")) deprecated) in
  let s := addMinimalWithdrawal s ticker minimalWithdrawal in
  mret (addMinimalInternalTransfer s ticker minimalInternalTransfer).

Fixpoint DefaultSetup (entries : list (gmap string string)) (s : CurrencyResolver) : res CurrencyResolver :=
  match entries with
  | [] => Ok s
  | c :: entries => s ← setup_entry s c; DefaultSetup entries s
  end.

(** The shipped [currencies.json]. *)
Definition entry (l : list (string * string)) : gmap string string := list_to_map l.

Definition currencies_json : list (gmap string string) :=
  [
      entry [("blockchain", "BTC"); ("blockchainName", "Bitcoin"); ("ticker", "BTC"); ("type", "coin"); ("name",
     "BTC"); ("decimals", "8"); ("networkId", "mainnet"); ("testNetworkId", "testnet");
     ("minimal_withdrawal_amount_usd", "0"); ("minimal_instant_internal_transfer_amount_usd", "40")];
      entry [("blockchain", "LTC"); ("blockchainName", "Litecoin"); ("ticker", "LTC"); ("type", "coin"); ("name",
     "LTC"); ("decimals", "8"); ("networkId", "mainnet"); ("testNetworkId", "testnet");
     ("minimal_withdrawal_amount_usd", "0"); ("minimal_instant_internal_transfer_amount_usd", "40")];
      entry [("blockchain", "ETH"); ("blockchainName", "Ethereum"); ("ticker", "ETH"); ("type", "coin"); ("name",
     "ETH"); ("decimals", "18"); ("networkId", "1"); ("testNetworkId", "5"); ("minimal_withdrawal_amount_usd", "0");
     ("minimal_instant_internal_transfer_amount_usd", "40")];
      entry [("blockchain", "ETH"); ("blockchainName", "Ethereum"); ("ticker", "ETH_USDT"); ("type", "token");
     ("name", "USDT"); ("tokenAddress", "0xdac17f958d2ee523a2206206994597c13d831ec7"); ("decimals", "6");
     ("networkId", "1"); ("testNetworkId", "5"); ("minimal_withdrawal_amount_usd", "0");
     ("minimal_instant_internal_transfer_amount_usd", "100")];
      entry [("blockchain", "ETH"); ("blockchainName", "Ethereum"); ("ticker", "ETH_USDC"); ("type", "token");
     ("name", "USDC"); ("tokenAddress", "0xa0b86991c6218b36c1d19d4a2e9eb0ce3606eb48"); ("decimals", "6");
     ("networkId", "1"); ("testNetworkId", "5"); ("minimal_withdrawal_amount_usd", "0");
     ("minimal_instant_internal_transfer_amount_usd", "100")];
      entry [("blockchain", "MATIC"); ("blockchainName", "Polygon"); ("ticker", "MATIC"); ("type", "coin"); ("name",
     "MATIC"); ("decimals", "18"); ("networkId", "137"); ("testNetworkId", "80001"); ("minimal_withdrawal_amount_usd",
     "0"); ("minimal_instant_internal_transfer_amount_usd", "20")];
      entry [("blockchain", "MATIC"); ("blockchainName", "Polygon"); ("ticker", "MATIC_USDT"); ("type", "token");
     ("name", "USDT"); ("tokenAddress", "0xc2132d05d31c914a87c6611c10748aeb04b58e8f"); ("decimals", "6");
     ("networkId", "137"); ("testNetworkId", "80001"); ("minimal_withdrawal_amount_usd", "0");
     ("minimal_instant_internal_transfer_amount_usd", "30")];
      entry [("blockchain", "MATIC"); ("blockchainName", "Polygon"); ("ticker", "MATIC_USDC"); ("type", "token");
     ("name", "USDC"); ("tokenAddress", "0x2791Bca1f2de4661ED88A30C99A7a9449Aa84174"); ("decimals", "6");
     ("networkId", "137"); ("testNetworkId", "80001"); ("minimal_withdrawal_amount_usd", "0");
     ("minimal_instant_internal_transfer_amount_usd", "30")];
      entry [("blockchain", "TRON"); ("blockchainName", "Tron"); ("ticker", "TRON"); ("type", "coin"); ("name",
     "TRON"); ("decimals", "6"); ("networkId", "mainnet"); ("testNetworkId", "testnet");
     ("minimal_withdrawal_amount_usd", "0"); ("minimal_instant_internal_transfer_amount_usd", "20")];
      entry [("blockchain", "TRON"); ("blockchainName", "Tron"); ("ticker", "TRON_USDT"); ("type", "token"); ("name",
     "USDT"); ("tokenAddress", "TR7NHqjeKQxGTCi8q8ZY4pL8otSzgjLj6t"); ("testTokenAddress",
     "TG3XXyExBkPp9nzdajDZsozEu4BkaSJozs"); ("aliases", "USDT_TRON"); ("decimals", "6"); ("networkId", "mainnet");
     ("testNetworkId", "testnet"); ("minimal_withdrawal_amount_usd", "0");
     ("minimal_instant_internal_transfer_amount_usd", "30")];
      entry [("blockchain", "BSC"); ("blockchainName", "BNB Chain"); ("ticker", "BNB"); ("type", "coin"); ("name",
     "BNB"); ("decimals", "18"); ("networkId", "56"); ("testNetworkId", "97"); ("minimal_withdrawal_amount_usd", "0");
     ("minimal_instant_internal_transfer_amount_usd", "30")];
      entry [("blockchain", "BSC"); ("blockchainName", "BNB Chain"); ("ticker", "BSC_USDT"); ("type", "token");
     ("name", "USDT"); ("tokenAddress", "0x55d398326f99059fF775485246999027B3197955"); ("testTokenAddress",
     "0x337610d27c682E347C9cD60BD4b3b107C9d34dDd"); ("decimals", "18"); ("networkId", "56"); ("testNetworkId", "97");
     ("minimal_withdrawal_amount_usd", "0"); ("minimal_instant_internal_transfer_amount_usd", "30")];
      entry [("blockchain", "BSC"); ("blockchainName", "BNB Chain"); ("ticker", "BSC_BUSD"); ("type", "token");
     ("name", "BUSD"); ("tokenAddress", "0xe9e7CEA3DedcA5984780Bafc599bD69ADd087D56"); ("testTokenAddress",
     "0xed24fc36d5ee211ea25a80239fb8c4cfd80f12ee"); ("decimals", "18"); ("networkId", "56"); ("testNetworkId", "97");
     ("minimal_withdrawal_amount_usd", "0"); ("minimal_instant_internal_transfer_amount_usd", "30"); ("deprecated",
     "true")]].

(** ** Links *)
Definition ethPaymentLink (addr : string) (currency : CryptoCurrency) (amount : Money) (isTest : bool) : string :=
  if bool_decide (cc_Type currency = Coin) then
    "ethereum:" +:+ addr +:+ "@" +:+ ChooseNetwork currency isTest +:+ "?value=" +:+ StringRaw amount
  else
    "ethereum:" +:+ ChooseContractAddress currency isTest +:+ "@" +:+ ChooseNetwork currency isTest +:+
    "/transfer?address=" +:+ addr +:+ "&uint256=" +:+ StringRaw amount.

Definition amountLink (scheme addr : string) (amount : Money) : res string :=
  s ← Money_String amount; mret (scheme +:+ ":" +:+ addr +:+ "?amount=" +:+ s).
Definition bitcoinPaymentLink : string -> Money -> res string := amountLink "bitcoin".
Definition litecoinPaymentLink : string -> Money -> res string := amountLink "litecoin".
Definition tronPaymentLink : string -> Money -> res string := amountLink "tron".

Definition CreatePaymentLink (addr : string) (currency : CryptoCurrency) (amount : Money) (isTest : bool) : res string :=
  let bc := cc_Blockchain currency in
  if bool_decide (bc = BTC) then bitcoinPaymentLink addr amount
  else if bool_decide (bc = LTC) then litecoinPaymentLink addr amount
  else if bool_decide (bc = ETH) || bool_decide (bc = MATIC) || bool_decide (bc = BSC)
  then Ok (ethPaymentLink addr currency amount isTest)
  else if bool_decide (bc = TRON) then tronPaymentLink addr amount
  else Err (ENew ("unable to create payment link for " +:+ bc)).

(** The templates, up to the [%s] they all end with. *)
Definition explorers : gmap string string := entry
  [("BTC/mainnet", "https://blockstream.info/tx/"); ("BTC/testnet", "https://blockstream.info/testnet/tx/");
   ("LTC/mainnet", "https://litecoinspace.org/tx/"); ("LTC/testnet", "https://litecoinspace.org/testnet/tx/");
   ("ETH/1", "https://etherscan.io/tx/"); ("ETH/5", "https://goerli.etherscan.io/tx/");
   ("MATIC/137", "https://polygonscan.com/tx/"); ("MATIC/80001", "https://mumbai.polygonscan.com/tx/");
   ("BSC/56", "https://bscscan.com/tx/"); ("BSC/97", "https://testnet.bscscan.com/tx/");
   ("TRON/mainnet", "https://tronscan.org/#/transaction/");
   ("TRON/testnet", "https://shasta.tronscan.org/#/transaction/")].

Definition CreateExplorerTXLink (blockchain networkID txID : string) : res string :=
  match explorers !! (blockchain +:+ "/" +:+ networkID) with
  | Some tpl => Ok (tpl +:+ txID)
  | None => Err ErrCurrencyNotFound
  end.

(** ** Lemmas: the indices *)
Definition listed (bc : string) (c : CryptoCurrency) : bool :=
  bool_decide (cc_Blockchain c = bc) && negb (cc_Deprecated c).

Lemma listed_true bc c : listed bc c = true <-> cc_Blockchain c = bc /\ cc_Deprecated c = false.
Proof. unfold listed. by rewrite andb_true_iff, negb_true_iff, bool_decide_eq_true. Qed.

(** The resolver holds exactly the currencies [cs]. *)
Record holds (r : CurrencyResolver) (cs : list CryptoCurrency) : Prop := {
  holds_unique : NoDup (cc_Ticker <$> cs);
  holds_currency t c : currencies r !! t = Some c <-> c ∈ cs /\ cc_Ticker c = t;
  holds_index bc t : t ∈ default ∅ (blockchainCurrencies r !! bc) <->
    exists c, c ∈ cs /\ cc_Ticker c = t /\ listed bc c = true
}.

Lemma holds_new : holds NewCurrencies [].
Proof.
  split; [by constructor| |].
  - intros t c. simpl. rewrite lookup_empty. split; [done|]. by intros [?%not_elem_of_nil _].
  - intros bc t. simpl. rewrite lookup_empty. simpl. split; [set_solver|]. by intros (c & ?%not_elem_of_nil & _).
Qed.

Lemma default_insert (m : gmap string (gset string)) k x k' :
  default ∅ (<[k := x]> m !! k') = if decide (k = k') then x else default ∅ (m !! k').
Proof. case_decide; [subst; by rewrite lookup_insert_eq|by rewrite lookup_insert_ne]. Qed.

Lemma addCurrency_currencies r c : currencies (addCurrency r c) = <[cc_Ticker c := c]> (currencies r).
Proof. unfold addCurrency. simpl. by destruct (cc_Deprecated c). Qed.

Lemma addCurrency_index r c bc t : t ∈ default ∅ (blockchainCurrencies (addCurrency r c) !! bc) <->
  (t = cc_Ticker c /\ listed bc c = true) \/ t ∈ default ∅ (blockchainCurrencies r !! bc).
Proof.
  rewrite listed_true. unfold addCurrency. cbv zeta. destruct (cc_Deprecated c) eqn:Ed; simpl; rewrite ?default_insert;
    rewrite ?lookup_insert_eq; simpl; destruct (decide (cc_Blockchain c = bc)) as [->|Hne];
    rewrite ?elem_of_union, ?elem_of_singleton, ?decide_True by done; intuition congruence.
Qed.

Lemma holds_add r cs c : holds r cs -> cc_Ticker c ∉ cc_Ticker <$> cs -> holds (addCurrency r c) (cs ++ [c]).
Proof.
  intros [Hu Hc Hi] Hnew. split.
  - rewrite fmap_app. apply NoDup_app. split; [done|]. split; [|apply NoDup_singleton].
    intros x Hx ->%list_elem_of_singleton. done.
  - intros t c'. rewrite addCurrency_currencies, elem_of_app, list_elem_of_singleton.
    destruct (decide (cc_Ticker c = t)) as [<-|Hne].
    + rewrite lookup_insert_eq. split; [intros [= <-]; auto|]. intros [[Hin| ->] Ht]; [|done].
      destruct Hnew. rewrite <- Ht. by apply list_elem_of_fmap_2.
    + rewrite lookup_insert_ne, Hc by done. naive_solver.
  - intros bc t. rewrite addCurrency_index, Hi. setoid_rewrite elem_of_app. setoid_rewrite list_elem_of_singleton.
    naive_solver.
Qed.

Lemma holds_fold cs : forall r cs0, holds r cs0 -> NoDup (cc_Ticker <$> (cs0 ++ cs)) ->
  holds (fold_left addCurrency cs r) (cs0 ++ cs).
Proof.
  induction cs as [|c cs IH]; intros r cs0 Hh Hnd; simpl; [by rewrite app_nil_r|].
  replace (cs0 ++ c :: cs) with ((cs0 ++ [c]) ++ cs) in * by by rewrite <- app_assoc.
  apply IH; [|done]. apply holds_add; [done|]. rewrite !fmap_app, <- !app_assoc in Hnd.
  apply NoDup_app in Hnd as (_ & Hd & _). intros Hin. apply (Hd _ Hin). by left.
Qed.

Lemma currency_less_asym a b : currency_less a b = true -> currency_less b a = false.
Proof.
  unfold currency_less. repeat case_bool_decide; try congruence; apply ltb_asym.
Qed.

Lemma NoDup_of_tickers (l : list CryptoCurrency) : NoDup (cc_Ticker <$> l) -> NoDup l.
Proof. apply NoDup_fmap_1. Qed.

Lemma holds_listed r cs bc : holds r cs ->
  ListBlockchainCurrencies r bc ≡ₚ List.filter (listed bc) cs /\
  Sorted (in_order currency_less) (ListBlockchainCurrencies r bc).
Proof.
  intros Hh. split; [|apply SliceStable_sorted, currency_less_asym].
  unfold ListBlockchainCurrencies, sortCurrencies. rewrite SliceStable_perm. apply NoDup_Permutation.
  - apply NoDup_of_tickers.
    assert (cc_Ticker <$> map (fun t => default zero_crypto (currencies r !! t))
      (elements (default ∅ (blockchainCurrencies r !! bc))) = elements (default ∅ (blockchainCurrencies r !! bc))) as ->;
      [|apply NoDup_elements].
    assert (forall t, t ∈ elements (default ∅ (blockchainCurrencies r !! bc)) ->
      cc_Ticker (default zero_crypto (currencies r !! t)) = t) as Ht.
    { intros t (c & Hc & Ht & _)%elem_of_elements%(holds_index _ _ Hh).
      by rewrite (proj2 (holds_currency _ _ Hh t c)). }
    revert Ht. generalize (elements (default ∅ (blockchainCurrencies r !! bc))) as l. intros l.
    induction l as [|t l IH]; intros Ht; [done|]. simpl. rewrite Ht by left. f_equal. apply IH. intros; apply Ht; by right.
  - assert (NoDup cs) as Hnd by (apply NoDup_of_tickers, (holds_unique _ _ Hh)).
    clear -Hnd. induction Hnd as [|c cs Hc _ IH]; simpl; [constructor|]. destruct (listed bc c); [|done].
    constructor; [|done]. contradict Hc. by apply list_elem_of_In, filter_In in Hc as [?%list_elem_of_In _].
  - intros c. rewrite !list_elem_of_In, in_map_iff, filter_In, <- !list_elem_of_In. split.
    + intros (t & <- & (c' & Hc & Ht & Hl)%list_elem_of_In%elem_of_elements%(holds_index _ _ Hh)).
      by rewrite (proj2 (holds_currency _ _ Hh t c')).
    + intros [Hc Hl]. exists (cc_Ticker c). rewrite (proj2 (holds_currency _ _ Hh _ c)) by done. split; [done|].
      apply list_elem_of_In, elem_of_elements, (holds_index _ _ Hh). by exists c.
Qed.

Lemma elem_of_listed r cs bc c : holds r cs -> c ∈ ListBlockchainCurrencies r bc <-> c ∈ cs /\ listed bc c = true.
Proof.
  intros Hh. rewrite (proj1 (holds_listed r cs bc Hh)).
  by rewrite list_elem_of_In, filter_In, <- list_elem_of_In.
Qed.

(** A resolver built by [addCurrency] keeps the promises of the interface. *)
Lemma holds_laws r cs : holds r cs -> ResolverLaws (H := CurrencyResolver_Resolver r).
Proof.
  intros Hh. split; cbn.
  - intros s c. unfold resolve_ticker. destruct (currencies r !! ToUpper s) as [x|] eqn:E; [|done].
    intros [= <-]. by apply (holds_currency _ _ Hh) in E as [_ ?].
  - intros s e. unfold resolve_ticker. destruct (currencies r !! ToUpper s); [done|]. by intros [= <-].
  - intros bc c. unfold resolve_native. destruct (List.find _ _) as [x|] eqn:E; [|done]. intros [= <-].
    apply find_some in E as [E%list_elem_of_In Ht%bool_decide_eq_true].
    apply (elem_of_listed _ _ _ _ Hh) in E as [_ E]. split; [by apply listed_true in E as [? _]|done].
  - intros bc e. unfold resolve_native. destruct (List.find _ _); [done|]. by intros [= <-].
  - intros s p. unfold resolve_ticker, resolve_native. split; case_match; done.
Qed.

(** A resolver of some currencies. *)
Definition resolver_of (cs : list CryptoCurrency) : Resolver :=
  CurrencyResolver_Resolver (fold_left addCurrency cs NewCurrencies).

Lemma resolver_of_laws cs : NoDup (cc_Ticker <$> cs) -> ResolverLaws (H := resolver_of cs).
Proof. intros Hcs. apply (holds_laws _ ([] ++ cs)), holds_fold; [apply holds_new|done]. Qed.

Lemma find_none_filter {A} (p : A -> bool) l : List.find p l = None -> forall x, x ∈ l -> p x = false.
Proof. intros H x Hx%list_elem_of_In. by eapply find_none. Qed.

(** What the shipped set-up promises, as a check on a resolver. *)
Definition is_currency (r : res CryptoCurrency) (c : CryptoCurrency) : bool :=
  match r with Ok c' => bool_decide (c' = c) | _ => false end.

Definition token_found (r : CurrencyResolver) (c : CryptoCurrency) : bool :=
  bool_decide (cc_Type c = Coin) ||
  (is_currency (GetCurrencyByBlockchainAndContract r (cc_Blockchain c) (cc_NetworkID c)
     (ToUpper (cc_TokenContractAddress c))) c &&
   (bool_decide (cc_TestTokenContractAddress c = "") ||
    is_currency (GetCurrencyByBlockchainAndContract r (cc_Blockchain c) (cc_TestNetworkID c)
      (cc_TestTokenContractAddress c)) c)).

Definition links_ok (c : CryptoCurrency) : bool :=
  forallb (fun isTest => is_ok (CreateExplorerTXLink (cc_Blockchain c) (ChooseNetwork c isTest) "tx") &&
    is_ok (CreatePaymentLink "addr" c (mkMoney Crypto (cc_Ticker c) (Some 1) (cc_Decimals c)) isTest)) [false; true].

(** ** Properties *)

(** The resolver answers for exactly the currencies it was given: after
    [addCurrency] of currencies with distinct tickers, a lookup by ticker
    (whatever its case) finds the currency of that upper-case ticker and no
    other; a blockchain lists its non-deprecated currencies sorted by name and
    ticker; deprecated ones are listed only on request; a native coin is found
    exactly when the blockchain lists a coin; and a lookup by contract finds a
    listed token of the blockchain that matches the address on the network, or
    none does. *)
Theorem resolver_spec (cs : list CryptoCurrency) (Hcs : NoDup (cc_Ticker <$> cs)) :
  let r := fold_left addCurrency cs NewCurrencies in
  (forall s c, resolve_ticker r s = Ok c <-> c ∈ cs /\ cc_Ticker c = ToUpper s) /\
  (forall bc, ListBlockchainCurrencies r bc ≡ₚ List.filter (listed bc) cs /\
     Sorted (in_order currency_less) (ListBlockchainCurrencies r bc)) /\
  (forall d c, c ∈ ListSupportedCurrencies r d <-> c ∈ cs /\ (cc_Deprecated c = true -> d = true)) /\
  (forall bc, is_ok (resolve_native r bc) = true <-> exists c, c ∈ cs /\ listed bc c = true /\ cc_Type c = Coin) /\
  (forall bc network addr, bc <> "" -> network <> "" -> addr <> "" ->
     match GetCurrencyByBlockchainAndContract r bc network addr with
     | Ok c => c ∈ cs /\ listed bc c = true /\ contract_matches network (ToLower addr) c = true
     | Err e => e = ErrCurrencyNotFound /\
         forall c, c ∈ cs -> listed bc c = true -> contract_matches network (ToLower addr) c = false
     | Panic _ => False
     end).
Proof.
  intros r. assert (holds r cs) as Hh by (apply (holds_fold cs NewCurrencies []); [apply holds_new|done]).
  split; [|split; [|split; [|split]]].
  - intros s c. unfold resolve_ticker. rewrite <- (holds_currency _ _ Hh). destruct (currencies r !! _); naive_solver.
  - intros bc. by apply holds_listed.
  - intros d c. unfold ListSupportedCurrencies, sortCurrencies. rewrite SliceStable_perm, list_elem_of_In, filter_In,
      <- list_elem_of_In, list_elem_of_fmap. split.
    + intros [([t c'] & -> & [Hc ?]%elem_of_map_to_list%(holds_currency _ _ Hh)) Hd]. simpl in *. split; [done|].
      intros Hdep. rewrite Hdep in Hd. by destruct d.
    + intros [Hc Hd]. split; [|by destruct (cc_Deprecated c); [rewrite Hd|]].
      exists (cc_Ticker c, c). split; [done|]. apply elem_of_map_to_list. by apply (holds_currency _ _ Hh).
  - intros bc. unfold resolve_native. destruct (List.find _ _) as [c|] eqn:E; simpl; split; try done.
    + intros _. apply find_some in E as [[Hc Hl]%list_elem_of_In%(elem_of_listed _ _ _ _ Hh) Ht%bool_decide_eq_true].
      by exists c.
    + intros (c & Hc & Hl & Ht). pose proof (find_none_filter _ _ E c) as Hn. cbv beta in Hn.
      rewrite bool_decide_true in Hn by done. discriminate Hn. by apply (elem_of_listed _ _ _ _ Hh).
  - intros bc network addr H1 H2 H3. unfold GetCurrencyByBlockchainAndContract.
    rewrite !bool_decide_false by done. cbn [orb]. destruct (List.find _ _) as [c|] eqn:E.
    + apply find_some in E as [[Hc Hl]%list_elem_of_In%(elem_of_listed _ _ _ _ Hh) Hm]. done.
    + split; [done|]. intros c Hc Hl. apply (find_none_filter _ _ E). by apply (elem_of_listed _ _ _ _ Hh).
Qed.

Definition some_currencies : list CryptoCurrency :=
  [mkCrypto "ETH" "" "1" "5" Coin "ETH" "ETH" 18 "" "" [] false;
   mkCrypto "ETH" "" "1" "5" Token "ETH_T" "T" 6 "0xAB" "0xCD" [] false].

Lemma resolver_spec_witness :
  exists c, GetCurrencyByBlockchainAndContract (fold_left addCurrency some_currencies NewCurrencies) "ETH" "5" "0xcD" = Ok c /\
    c ∈ some_currencies.
Proof.
  pose proof (resolver_spec some_currencies) as H.
  destruct H as (_ & _ & _ & _ & H); [by apply (bool_decide_unpack _); vm_compute|].
  specialize (H "ETH" "5" "0xcD" ltac:(done) ltac:(done) ltac:(done)).
  destruct (GetCurrencyByBlockchainAndContract _ _ _ _) as [c|e|p] eqn:E; vm_compute in E; [|discriminate E|discriminate E].
  exists c. split; [clear H E; reflexivity || done|]. apply H.
Defined.

Definition shipped_checks (r : CurrencyResolver) : bool :=
  bool_decide (ListSupportedBlockchains r = ["BSC"; "BTC"; "ETH"; "LTC"; "MATIC"; "TRON"]) &&
  bool_decide (ListRuntimeSupportedBlockchains r = ListSupportedBlockchains r) &&
  forallb (fun bc => is_ok (resolve_native r bc)) (ListSupportedBlockchains r) &&
  forallb (token_found r) (ListSupportedCurrencies r false) &&
  forallb (fun c => is_currency (resolve_ticker r (ToLower (cc_Ticker c))) c && links_ok c)
    (ListSupportedCurrencies r true) &&
  bool_decide ((length (ListSupportedCurrencies r false), length (ListSupportedCurrencies r true)) = (12, 13)%nat).

Lemma shipped_checked : match DefaultSetup currencies_json NewCurrencies with Ok r => shipped_checks r | _ => false end = true.
Proof. vm_compute. reflexivity. Qed.

(** The shipped [currencies.json] sets up: the six blockchains are
    supported and all have a native coin, every listed token is found by its
    main and test contract in any letter case, every currency - the deprecated
    one too - is found by its ticker, and has an explorer and a payment link
    on both networks. *)
Theorem shipped_currencies : exists r, DefaultSetup currencies_json NewCurrencies = Ok r /\
  ListSupportedBlockchains r = ["BSC"; "BTC"; "ETH"; "LTC"; "MATIC"; "TRON"] /\
  ListRuntimeSupportedBlockchains r = ListSupportedBlockchains r /\
  forallb (fun bc => is_ok (resolve_native r bc)) (ListSupportedBlockchains r) = true /\
  forallb (token_found r) (ListSupportedCurrencies r false) = true /\
  forallb (fun c => is_currency (resolve_ticker r (ToLower (cc_Ticker c))) c && links_ok c)
    (ListSupportedCurrencies r true) = true /\
  (length (ListSupportedCurrencies r false), length (ListSupportedCurrencies r true)) = (12, 13)%nat.
Proof.
  pose proof shipped_checked as H. destruct (DefaultSetup currencies_json NewCurrencies) as [r|e|p]; [|done|done].
  exists r. split; [done|]. unfold shipped_checks in H. rewrite !andb_true_iff, !bool_decide_eq_true in H. tauto.
Qed.
