(* ===== verification/Transaction.v ===== *)
(** * Transaction: the life of a gateway transaction

    [internal/service/transaction]: [model.go] (statuses and types),
    [service.go] (creating and reading), [service_update.go] (receiving,
    confirming with the balance updates that follow, cancelling) and
    [service_topup.go] (system top-ups). The currency resolver is the
    interface of [Currencies]. *)

From S2P Require Import Prelude GoLib KmsWallet Money Repository Queries Wallet WalletBalance Currencies.

Definition ErrNotFound : error := ESentinel "transaction.ErrNotFound".
Definition ErrSameStatus : error := ESentinel "transaction.ErrSameStatus".
Definition ErrInvalidUpdateParams : error := ESentinel "transaction.ErrInvalidUpdateParams".

Definition MerchantIDWildcard : Z := -1.
Definition SystemMerchantID : Z := 0.

(** ** Statuses and types *)
Definition StatusPending : string := "pending".
Definition StatusInProgress : string := "inProgress".
Definition StatusInProgressInvalid : string := "inProgressInv".
Definition StatusCompleted : string := "completed".
Definition StatusCompletedInvalid : string := "completedInv".
Definition StatusCancelled : string := "canceled".
Definition StatusFailed : string := "failed".

Definition finalizedTransactionStatuses : list string :=
  [StatusCompleted; StatusCompletedInvalid; StatusCancelled; StatusFailed].

Definition TypeIncoming : string := "incoming".
Definition TypeInternal : string := "internal".
Definition TypeWithdrawal : string := "withdrawal".
Definition TypeVirtual : string := "virtual".

Definition type_valid (t : string) : bool := one_of t [TypeIncoming; TypeInternal; TypeWithdrawal; TypeVirtual].

Definition MetaComment : string := "comment".
Definition MetaErrorReason : string := "errorReason".
Definition MetaTransactionID : string := "transactionId".
Definition MetaRecipientWalletID : string := "recipientWalletId".
Definition MetaMerchantID : string := "merchantId".

Record Transaction := mkTx {
  tx_ID : Z; tx_CreatedAt : Z; tx_UpdatedAt : Z; tx_MerchantID : Z; tx_RecipientAddress : string;
  tx_RecipientWalletID : option Z; tx_SenderAddress : option string; tx_SenderWalletID : option Z;
  tx_HashID : option string; tx_Type : string; tx_EntityID : Z; tx_Status : string;
  tx_Currency : CryptoCurrency; tx_Amount : Money; tx_USDAmount : Money; tx_FactAmount : option Money;
  tx_ServiceFee : Money; tx_NetworkFee : option Money; tx_IsTest : bool; tx_MetaData : metadata
}.

Definition IsFinalized (tx : Transaction) : bool := one_of (tx_Status tx) finalizedTransactionStatuses.
Definition IsInProgress (tx : Transaction) : bool :=
  bool_decide (tx_Status tx = StatusInProgress) || bool_decide (tx_Status tx = StatusInProgressInvalid).
Definition NetworkID (tx : Transaction) : string := ChooseNetwork (tx_Currency tx) (tx_IsTest tx).
Definition PaymentLink (tx : Transaction) : res string :=
  CreatePaymentLink (tx_RecipientAddress tx) (tx_Currency tx) (tx_Amount tx) (tx_IsTest tx).
Definition ExplorerLink (tx : Transaction) : res string :=
  match tx_HashID tx with
  | None => Ok ""
  | Some hash => CreateExplorerTXLink (cc_Blockchain (tx_Currency tx)) (NetworkID tx) hash
  end.

Definition toJSONB (m : metadata) : JSONB := if bool_decide (m = ∅) then jsonb_null else mkJSONB m Present.

(** ** Creating *)
Record CreateTransaction := mkCreate {
  c_Type : string; c_EntityID : Z; c_SenderAddress : string; c_SenderWallet : option Wallet;
  c_RecipientAddress : string; c_RecipientWallet : option Wallet; c_TransactionHash : string;
  c_Currency : CryptoCurrency; c_Amount : Money; c_USDAmount : Money; c_ServiceFee : Money; c_IsTest : bool;
  c_isIncomingUnexpected : bool
}.

Definition is_usd (m : Money) : bool := bool_decide (m_type m = Fiat) && bool_decide (m_ticker m = USD).

Definition validate_type (c : CreateTransaction) : res unit :=
  if bool_decide (c_Type c = TypeIncoming) then
    _ ← guard_err (negb (c_isIncomingUnexpected c) && (c_EntityID c =? 0)) (ENew "invalid entity id");
    _ ← guard_err (negb (bool_decide (is_Some (c_RecipientWallet c)))) (ENew "empty recipient wallet");
    guard_err (c_isIncomingUnexpected c && bool_decide (c_TransactionHash c = "")) (ENew "empty transaction hash")
  else if bool_decide (c_Type c = TypeInternal) then
    _ ← guard_err (negb (c_EntityID c =? 0)) (ENew "entity id should be 0 if tx is internal");
    _ ← guard_err (negb (bool_decide (is_Some (c_SenderWallet c)))) (ENew "empty sender wallet");
    guard_err (negb (bool_decide (is_Some (c_RecipientWallet c)))) (ENew "empty recipient wallet")
  else if bool_decide (c_Type c = TypeWithdrawal) then
    _ ← guard_err (c_EntityID c =? 0) (ENew "invalid entity id");
    _ ← guard_err (negb (bool_decide (is_Some (c_SenderWallet c)))) (ENew "empty sender wallet");
    guard_err (bool_decide (c_RecipientAddress c = "")) (ENew "empty recipient address")
  else Ok tt.

Definition validate (c : CreateTransaction) : res unit :=
  _ ← guard_err (negb (type_valid (c_Type c))) (ENew "invalid type");
  _ ← guard_err (negb (Money_IsZero (c_ServiceFee c)) && negb (CompatibleTo (c_Amount c) (c_ServiceFee c)))
    (ENew "service fee does not match amount");
  _ ← guard_err (negb (bool_decide (cc_Ticker (c_Currency c) = m_ticker (c_Amount c)))) (ENew "invalid currency specified");
  _ ← guard_err (negb (is_usd (c_USDAmount c))) (ENew "invalid usd amount");
  _ ← guard_err (Money_IsZero (c_Amount c)) (ENew "amount can't be zero");
  validate_type c.

Definition create_status (c : CreateTransaction) : string :=
  if c_isIncomingUnexpected c then StatusInProgress else StatusPending.

(** The option [IncomingUnexpected()] applied to the parameters. *)
Definition IncomingUnexpected (p : CreateTransaction) : CreateTransaction :=
  if bool_decide (c_Type p = TypeIncoming) then
    mkCreate (c_Type p) (c_EntityID p) (c_SenderAddress p) (c_SenderWallet p) (c_RecipientAddress p)
      (c_RecipientWallet p) (c_TransactionHash p) (c_Currency p) (c_Amount p) (c_USDAmount p) (c_ServiceFee p)
      (c_IsTest p) true
  else p.

Section Service.
Context `{Resolver}.

(** ** Rows *)
Definition fallbackCurrency (tx : Row.Transaction) : CryptoCurrency :=
  let network := if Valid (Row.t_NetworkID tx) then null_val (Row.t_NetworkID tx) else "" in
  let networkID := if Row.t_IsTest tx then "" else network in
  let testNetworkID := if Row.t_IsTest tx then network else "" in
  let make name networkID testNetworkID :=
    mkCrypto (Row.t_Blockchain tx) name networkID testNetworkID (Row.t_CurrencyType tx) (Row.t_Currency tx)
      (Row.t_Currency tx) (Row.t_Decimals tx) "" "" [] false in
  match GetNativeCoin (Row.t_Blockchain tx) with
  | Ok coin => make (cc_BlockchainName coin)
      (if bool_decide (networkID = "") then cc_NetworkID coin else networkID)
      (if bool_decide (testNetworkID = "") then cc_TestNetworkID coin else testNetworkID)
  | _ => make (Row.t_Blockchain tx) networkID testNetworkID
  end.

Definition fallbackNetworkCurrency (tx : Row.Transaction) (txCurrency : CryptoCurrency) : CryptoCurrency :=
  let valid := Valid (Row.t_NetworkID tx) in
  let network := null_val (Row.t_NetworkID tx) in
  let networkID := if valid && negb (Row.t_IsTest tx) then network else cc_NetworkID txCurrency in
  let testNetworkID := if valid && Row.t_IsTest tx then network else cc_TestNetworkID txCurrency in
  let own := bool_decide (cc_Type txCurrency = Coin) && bool_decide (cc_Ticker txCurrency = Row.t_Currency tx) in
  mkCrypto (Row.t_Blockchain tx)
    (if bool_decide (cc_BlockchainName txCurrency = "") then Row.t_Blockchain tx else cc_BlockchainName txCurrency)
    networkID testNetworkID Coin
    (if own then cc_Ticker txCurrency else Row.t_Blockchain tx)
    (if own then cc_Name txCurrency else Row.t_Blockchain tx)
    (if own && negb (cc_Decimals txCurrency =? 0) then cc_Decimals txCurrency else Row.t_NetworkDecimals tx)
    "" "" [] false.

Definition present (n : Numeric) : bool := bool_decide (n_Status n = Present).

(** A field that is nil unless the column is set. *)
Definition if_present {A} (n : Numeric) (m : res A) : res (option A) :=
  if present n then a ← m; mret (Some a) else Ok None.

Definition resolve_currency (tx : Row.Transaction) : res CryptoCurrency :=
  match GetCurrencyByTicker (Row.t_Currency tx) with
  | Ok c => Ok c
  | Err e => if errors_Is e ErrCurrencyNotFound then Ok (fallbackCurrency tx)
             else Err (EWrap e ("unable to get currency " +:+ Row.t_Currency tx))
  | Panic p => Panic p
  end.

Definition resolve_coin (tx : Row.Transaction) (currency : CryptoCurrency) : res CryptoCurrency :=
  match GetNativeCoin (Row.t_Blockchain tx) with
  | Ok c => Ok c
  | Err e => if errors_Is e ErrCurrencyNotFound then Ok (fallbackNetworkCurrency tx currency)
             else Err (EWrap e ("unable to get native coin for " +:+ Row.t_Blockchain tx))
  | Panic p => Panic p
  end.

Definition entryToTransaction (tx : Row.Transaction) : res Transaction :=
  let crypto n := NumericToMoney n Crypto (Row.t_Currency tx) (Row.t_Decimals tx) in
  currency ← resolve_currency tx;
  amount ← wrap (crypto (Row.t_Amount tx)) "unable to construct Amount";
  factAmount ← if_present (Row.t_FactAmount tx) (wrap (crypto (Row.t_FactAmount tx)) "unable to construct FactAmount");
  serviceFee ← wrap (crypto (Row.t_ServiceFee tx)) "unable to construct serviceFee";
  networkFee ← if_present (Row.t_NetworkFee tx) (
    coin ← resolve_coin tx currency;
    wrap (NumericToCrypto (Row.t_NetworkFee tx) coin) "unable to construct networkFee");
  usdAmount ← NumericToMoney (Row.t_UsdAmount tx) Fiat USD 2;
  let metaData := if bool_decide (jb_Status (Row.t_Metadata tx) = Present) then jb_Bytes (Row.t_Metadata tx) else ∅ in
  mret (mkTx (Row.t_ID tx) (Row.t_CreatedAt tx) (Row.t_UpdatedAt tx) (Row.t_MerchantID tx)
    (Row.t_RecipientAddress tx) (NullableInt64ToPointer (Row.t_RecipientWalletID tx))
    (NullableStringToPointer (Row.t_SenderAddress tx)) (NullableInt64ToPointer (Row.t_SenderWalletID tx))
    (NullableStringToPointer (Row.t_TransactionHash tx)) (Row.t_Type tx) (null_val (Row.t_EntityID tx))
    (Row.t_Status tx) currency amount usdAmount factAmount serviceFee networkFee (Row.t_IsTest tx) metaData).

Fixpoint entriesToTransactions (txs : list Row.Transaction) : res (list Transaction) :=
  match txs with
  | [] => Ok []
  | tx :: txs => t ← entryToTransaction tx; ts ← entriesToTransactions txs; mret (t :: ts)
  end.

Definition coin_or_error (currency : CryptoCurrency) : res CryptoCurrency :=
  wrap (GetNativeCoin (cc_Blockchain currency)) "unable to get network currency".

(** [opts] holds whether [IncomingUnexpected()] was passed. *)
Definition Create (merchantID : Z) (params : CreateTransaction) (unexpected : bool) : Go Transaction :=
  let params := if unexpected then IncomingUnexpected params else params in
  _ ← lift (validate params);
  let senderAddress := match c_SenderWallet params with
    | Some w => StringToNullable (wal_Address w)
    | None => mkNull (c_SenderAddress params) (negb (bool_decide (c_SenderAddress params = ""))) end in
  let senderWalletID := match c_SenderWallet params with Some w => Int64ToNullable (wal_ID w) | None => null_int64 end in
  let recipientAddress := match c_RecipientWallet params with Some w => wal_Address w | None => c_RecipientAddress params end in
  let recipientWalletID := match c_RecipientWallet params with Some w => Int64ToNullable (wal_ID w) | None => null_int64 end in
  networkCurrency ← lift (coin_or_error (c_Currency params));
  let unexpected := c_isIncomingUnexpected params in
  let factAmount := if unexpected then MoneyToNumeric (c_Amount params) else numeric_null in
  let metaData := if unexpected then toJSONB {[MetaComment := "Unexpected transaction"]} else jsonb_null in
  now ← time_Now;
  tx ← RunTransaction (Queries.CreateTransaction (mkCreateTransactionParams merchantID now now
    (create_status params) (c_Type params)
    (mkNull (c_EntityID params) (negb (c_EntityID params =? 0))) senderWalletID senderAddress recipientWalletID
    recipientAddress (StringToNullable (c_TransactionHash params)) (cc_Blockchain (c_Currency params))
    (StringToNullable (ChooseNetwork (c_Currency params) (c_IsTest params))) (cc_Type (c_Currency params))
    (cc_Ticker (c_Currency params)) (int32 (m_decimals (c_Amount params))) (int32 (cc_Decimals networkCurrency))
    (MoneyToNumeric (c_Amount params)) factAmount numeric_null (MoneyToNumeric (c_ServiceFee params))
    (MoneyToNumeric (c_USDAmount params)) metaData (c_IsTest params)));
  lift (entryToTransaction tx).

(** ** Reading *)
Definition found (m : Go Row.Transaction) : Go Transaction :=
  tx ← not_found ErrNotFound m;
  lift (entryToTransaction tx).

Definition GetByID (merchantID id : Z) : Go Transaction :=
  found (GetTransactionByID id merchantID (negb (merchantID =? MerchantIDWildcard))).

Definition GetByHash (networkID txHash : string) : Go Transaction :=
  found (GetTransactionByHashAndNetworkID (StringToNullable txHash) (StringToNullable networkID)).

Definition GetLatestByPaymentID (paymentID : Z) : Go Transaction :=
  found (GetLatestTransactionByPaymentID (Int64ToNullable paymentID)).

Definition EagerLoadByPaymentIDs (merchantID : Z) (paymentIDs : list Z) : Go (list Transaction) :=
  txs ← EagerLoadTransactionsByPaymentID merchantID (map int32 paymentIDs) [TypeIncoming; TypeWithdrawal];
  lift (entriesToTransactions txs).

Record Filter := mkFilter {
  f_RecipientWalletID : Z; f_NetworkID : string; f_Currency : string; f_Types : list string;
  f_Statuses : list string; f_HashIsEmpty : bool
}.

Definition toRepo (f : Filter) (limit : Z) : GetTransactionsByFilterParams :=
  mkGetTransactionsByFilterParams (Int64ToNullable (f_RecipientWalletID f)) (StringToNullable (f_NetworkID f))
    (f_Currency f) limit (negb (f_RecipientWalletID f =? 0)) (negb (bool_decide (f_NetworkID f = "")))
    (negb (bool_decide (f_Currency f = ""))) (negb (bool_decide (f_Types f = []))) (f_Types f)
    (negb (bool_decide (f_Statuses f = []))) (f_Statuses f) (f_HashIsEmpty f).

Definition ListByFilter (filter : Filter) (limit : Z) : Go (list Transaction) :=
  txs ← GetTransactionsByFilter (toRepo filter (int32 limit));
  lift (entriesToTransactions txs).

Definition GetByFilter (filter : Filter) : Go Transaction :=
  txs ← not_found ErrNotFound (GetTransactionsByFilter (toRepo filter 1));
  match txs with
  | [] => fail ErrNotFound
  | tx :: _ => lift (entryToTransaction tx)
  end.

(** ** Updating: the currency a network fee is paid in *)
Definition fallbackBalanceUpdateNetworkCurrency (tx : Transaction) : CryptoCurrency :=
  let c := tx_Currency tx in
  let ticker := match tx_NetworkFee tx with Some fee => m_ticker fee | None => cc_Blockchain c end in
  mkCrypto (cc_Blockchain c)
    (if bool_decide (cc_BlockchainName c = "") then cc_Blockchain c else cc_BlockchainName c)
    (cc_NetworkID c) (cc_TestNetworkID c) Coin ticker ticker
    (match tx_NetworkFee tx with Some fee => m_decimals fee | None => cc_Decimals c end) "" "" [] false.

Definition networkCurrencyForBalanceUpdate (tx : Transaction) : res CryptoCurrency :=
  if negb (bool_decide (cc_Type (tx_Currency tx) = Token)) then Ok (tx_Currency tx) else
  match GetNativeCoin (cc_Blockchain (tx_Currency tx)) with
  | Ok coin => Ok coin
  | Err e => if errors_Is e ErrCurrencyNotFound then Ok (fallbackBalanceUpdateNetworkCurrency tx)
             else Err (EWrap e "unable to get currency for fees")
  | Panic p => Panic p
  end.

(** ** Receiving *)
Record ReceiveTransaction := mkReceive {
  rt_Status : string; rt_SenderAddress : string; rt_TransactionHash : string; rt_FactAmount : Money;
  rt_MetaData : metadata
}.

Definition ReceiveTransaction_validate (u : ReceiveTransaction) : res unit :=
  _ ← guard_err (negb (one_of (rt_Status u) [StatusInProgress; StatusInProgressInvalid]))
    (EWrap ErrInvalidUpdateParams ("unsupported update status " +:+ rt_Status u));
  _ ← guard_err (bool_decide (rt_TransactionHash u = "")) (EWrap ErrInvalidUpdateParams "transactionHash is empty");
  guard_err (Money_IsZero (rt_FactAmount u)) (EWrap ErrInvalidUpdateParams "factAmount is empty").

Definition receive (merchantID txID : Z) (params : ReceiveTransaction) : Go Transaction :=
  tx ← GetByID merchantID txID;
  let metaData := rt_MetaData params ∪ tx_MetaData tx in
  now ← time_Now;
  entry ← not_found ErrNotFound (UpdateTransaction (mkUpdateTransactionParams merchantID txID (rt_Status params) now
    (StringToNullable (rt_SenderAddress params)) (MoneyToNumeric (rt_FactAmount params))
    (StringToNullable (rt_TransactionHash params)) numeric_null (toJSONB metaData) false));
  lift (entryToTransaction entry).

(** The error of the release is wrapped as [errors.Wrap(err, ...)] with the
    [err] of [receive], which is nil: it is dropped. *)
Definition Receive (merchantID txID : Z) (params : ReceiveTransaction) : Go Transaction :=
  _ ← lift (ReceiveTransaction_validate params);
  RunTransaction (
    tx ← receive merchantID txID params;
    match tx_RecipientWalletID tx with
    | None => fail (ENew "recipient id is nil")
    | Some recipient =>
      _ ← attempt (ReleaseLock recipient (cc_Ticker (tx_Currency tx)) (NetworkID tx));
      mret tx
    end).

(** ** Confirming *)
Record ConfirmTransaction := mkConfirm {
  ctx_Status : string; ctx_SenderAddress : string; ctx_TransactionHash : string; ctx_FactAmount : Money;
  ctx_NetworkFee : Money; ctx_MetaData : metadata; ctx_allowZeroNetworkFee : bool
}.

Definition AllowZeroNetworkFee (c : ConfirmTransaction) : ConfirmTransaction :=
  mkConfirm (ctx_Status c) (ctx_SenderAddress c) (ctx_TransactionHash c) (ctx_FactAmount c) (ctx_NetworkFee c)
    (ctx_MetaData c) true.

Definition ConfirmTransaction_validate (c : ConfirmTransaction) : res unit :=
  _ ← guard_err (negb (one_of (ctx_Status c) [StatusCompleted; StatusCompletedInvalid]))
    (EWrap ErrInvalidUpdateParams ("unsupported update status " +:+ ctx_Status c));
  _ ← guard_err (bool_decide (ctx_TransactionHash c = "")) (EWrap ErrInvalidUpdateParams "transactionHash is empty");
  _ ← guard_err (Money_IsZero (ctx_FactAmount c)) (EWrap ErrInvalidUpdateParams "factAmount is empty");
  guard_err (Money_IsZero (ctx_NetworkFee c) && negb (ctx_allowZeroNetworkFee c))
    (EWrap ErrInvalidUpdateParams "networkFee is empty").

(** The closure: increments the recipient wallet's balance by the fact amount;
    returns the comment and the map, as [UpdateBalance] leaves it. *)
Definition incrementRecipientBalance (tx : Transaction) (factAmount : Money) (hash : string) : Go (string * MetaData) :=
  match tx_RecipientWalletID tx with
  | None => fail (ENew "recipient walletID is nil")
  | Some recipient =>
    let comment := "incoming tx " +:+ hash in
    let metaData : metadata := <[MetaRecipientWalletID := FormatInt recipient]>
      (<[MetaMerchantID := FormatInt (tx_MerchantID tx)]> {[MetaTransactionID := FormatInt (tx_ID tx)]}) in
    '(_, metaData) ← wrapM (UpdateBalance (mkUpdateBalanceQuery recipient EntityTypeWallet OperationIncrement
      (tx_Currency tx) factAmount comment (Some metaData) (tx_IsTest tx))) "unable to update wallet balance";
    mret (comment, metaData)
  end.

Definition merchant_increment (tx : Transaction) (amount : Money) (comment : string) (metaData : MetaData) : Go unit :=
  _ ← wrapM (UpdateBalance (mkUpdateBalanceQuery (tx_MerchantID tx) EntityTypeMerchant OperationIncrement
    (tx_Currency tx) amount comment metaData (tx_IsTest tx))) "unable to update merchant balance";
  mret tt.

Definition fee_decrement (tx : Transaction) (sender : Z) (currency : CryptoCurrency) (fee : Money) (comment : string)
  (metaData : MetaData) : Go unit :=
  _ ← wrapM (UpdateBalance (mkUpdateBalanceQuery sender EntityTypeWallet OperationDecrement currency fee comment
    metaData (tx_IsTest tx))) "unable to decrement balance by network fee";
  mret tt.

Definition confirm_incoming (tx : Transaction) (factAmount : Money) (params : ConfirmTransaction) : Go unit :=
  '(comment, metaData) ← incrementRecipientBalance tx factAmount (ctx_TransactionHash params);
  if bool_decide (tx_Status tx = StatusCompletedInvalid) then mret tt
  else if tx_MerchantID tx =? SystemMerchantID then mret tt
  else
    let gainedAmount := if GreaterThan factAmount (tx_Amount tx) then tx_Amount tx else factAmount in
    gainedAmountMinusFee ← wrapM (lift (Money_Sub gainedAmount (tx_ServiceFee tx))) "unable to subtract serviceFee";
    merchant_increment tx gainedAmountMinusFee comment metaData.

Definition confirm_internal (tx : Transaction) (factAmount : Money) (params : ConfirmTransaction) : Go unit :=
  match tx_SenderWalletID tx with
  | None => fail (ENew "sender wallet id is nil")
  | Some sender =>
    '(_, metaData) ← incrementRecipientBalance tx factAmount (ctx_TransactionHash params);
    currency ← lift (networkCurrencyForBalanceUpdate tx);
    fee_decrement tx sender currency (ctx_NetworkFee params) ("decrementing balance as a fee to internal tx " +:+
      ctx_TransactionHash params +:+ " (" +:+ cc_Ticker (tx_Currency tx) +:+ ")") metaData
  end.

Definition merchant_meta (tx : Transaction) : MetaData :=
  Some (<[MetaMerchantID := FormatInt (tx_MerchantID tx)]> {[MetaTransactionID := FormatInt (tx_ID tx)]}).

Definition confirm_withdrawal (tx : Transaction) (params : ConfirmTransaction) : Go unit :=
  match tx_SenderWalletID tx with
  | None => fail (ENew "sender wallet id is nil")
  | Some sender =>
    currency ← lift (networkCurrencyForBalanceUpdate tx);
    fee_decrement tx sender currency (ctx_NetworkFee params) ("decrementing balance as a fee to withdrawal tx " +:+
      ctx_TransactionHash params +:+ " (" +:+ cc_Ticker (tx_Currency tx) +:+ ")") (merchant_meta tx)
  end.

Definition confirm_virtual (tx : Transaction) (factAmount : Money) : Go unit :=
  if negb (bool_decide (tx_Status tx = StatusCompleted)) || (tx_MerchantID tx =? 0) then
    fail (ENew "invalid tx data for type=virtual")
  else merchant_increment tx factAmount "virtual system topup" (merchant_meta tx).

Definition updateBalancesAfterTxConfirmation (tx : Transaction) (params : ConfirmTransaction) : Go unit :=
  match tx_FactAmount tx with
  | None => fail (ENew "factAmount is nil")
  | Some factAmount =>
    if Money_IsZero factAmount then fail (ENew "factAmount is zero")
    else if Money_IsNegative factAmount then fail (ENew "factAmount is negative")
    else if bool_decide (tx_Type tx = TypeIncoming) then confirm_incoming tx factAmount params
    else if bool_decide (tx_Type tx = TypeInternal) then confirm_internal tx factAmount params
    else if bool_decide (tx_Type tx = TypeWithdrawal) then confirm_withdrawal tx params
    else if bool_decide (tx_Type tx = TypeVirtual) then confirm_virtual tx factAmount
    else fail (ENew ("unknown transaction type " +:+ tx_Type tx))
  end.

Definition confirm (merchantID txID : Z) (params : ConfirmTransaction) : Go Transaction :=
  tx ← GetByID merchantID txID;
  if bool_decide (tx_Status tx = ctx_Status params) then fail ErrSameStatus else
  let metaData := ctx_MetaData params ∪ tx_MetaData tx in
  now ← time_Now;
  entry ← not_found ErrNotFound (UpdateTransaction (mkUpdateTransactionParams merchantID txID (ctx_Status params) now
    (StringToNullable (ctx_SenderAddress params)) (MoneyToNumeric (ctx_FactAmount params))
    (StringToNullable (ctx_TransactionHash params)) (MoneyToNumeric (ctx_NetworkFee params)) (toJSONB metaData)
    (bool_decide (ctx_Status params = StatusCompletedInvalid))));
  tx ← lift (entryToTransaction entry);
  _ ← wrapM (updateBalancesAfterTxConfirmation tx params) "unable to update balances";
  mret tx.

Definition Confirm (merchantID txID : Z) (params : ConfirmTransaction) : Go Transaction :=
  _ ← lift (ConfirmTransaction_validate params);
  RunTransaction (confirm merchantID txID params).

Definition UpdateTransactionHash (merchantID txID : Z) (txHash : string) : Go unit :=
  now ← time_Now;
  SetTransactionHash (StringToNullable txHash) now txID merchantID.

(** ** Cancelling *)

(** The network fee, when it is set and not zero, is taken from the sender's
    balance first, in a transaction of its own. *)
Definition cancel_fee (tx : Transaction) (setNetworkFee : option Money) : Go Numeric :=
  match setNetworkFee with
  | None => mret numeric_null
  | Some fee =>
    if Money_IsZero fee then mret numeric_null else
    match tx_SenderWalletID tx with
    | None => panic "nil pointer dereference"
    | Some sender =>
      coinBalance ← wrapM (GetWalletsBalance sender (m_ticker fee) (NetworkID tx)) "unable to get wallet's coin balance";
      _ ← wrapM (UpdateBalanceByID (bal_ID coinBalance) (mkUpdateBalanceByIDQuery OperationDecrement fee
        "network fee for canceled withdrawal" (Some {[WalletBalance.MetaTransactionID := FormatInt (tx_ID tx)]})))
        "unable to decrement network fee from wallet balance";
      mret (MoneyToNumeric fee)
    end
  end.

(** The error of the release is dropped, as in [Receive]. The statement runs
    on [s.store], not on the transaction's connection: nothing after it fails,
    so it is placed inside. *)
Definition Cancel (tx : Transaction) (status reason : string) (setNetworkFee : option Money) : Go unit :=
  networkFee ← cancel_fee tx setNetworkFee;
  RunTransaction (
    now ← time_Now;
    _ ← wrapM (CancelTransaction (mkCancelTransactionParams (tx_ID tx) status now
      (toJSONB {[MetaComment := reason]}) networkFee (bool_decide (is_Some setNetworkFee))))
      "unable to cancel transaction";
    match tx_RecipientWalletID tx with
    | Some recipient =>
      if bool_decide (tx_Type tx = TypeIncoming) then
        _ ← attempt (ReleaseLock recipient (cc_Ticker (tx_Currency tx)) (NetworkID tx)); mret tt
      else mret tt
    | None => mret tt
    end).

(** ** System top-ups *)
Definition validateForSystemTopup (c : CreateTransaction) : res unit :=
  _ ← guard_err (negb (type_valid (c_Type c))) (ENew "invalid type");
  _ ← guard_err (negb (Money_IsZero (c_ServiceFee c))) (ENew "service fee should be empty");
  _ ← guard_err (negb (bool_decide (cc_Ticker (c_Currency c) = m_ticker (c_Amount c)))) (ENew "invalid currency specified");
  _ ← guard_err (negb (is_usd (c_USDAmount c))) (ENew "invalid usd amount");
  _ ← guard_err (Money_IsZero (c_Amount c)) (ENew "amount can't be zero");
  _ ← guard_err (negb (bool_decide (c_Type c = TypeVirtual))) (ENew "invalid type");
  _ ← guard_err (c_EntityID c =? 0) (ENew "entity id should be present");
  _ ← guard_err (negb (bool_decide (c_SenderAddress c = "")) || bool_decide (is_Some (c_SenderWallet c)))
    (ENew "sender should be empty");
  _ ← guard_err (negb (bool_decide (c_RecipientAddress c = "")) || bool_decide (is_Some (c_RecipientWallet c)))
    (ENew "recipient should be empty");
  guard_err (negb (bool_decide (c_TransactionHash c = ""))) (ENew "transaction hash should be empty").

Definition createSystemTopup (merchantID : Z) (params : CreateTransaction) : Go Transaction :=
  _ ← lift (validateForSystemTopup params);
  networkCurrency ← lift (coin_or_error (c_Currency params));
  now ← time_Now;
  tx ← Queries.CreateTransaction (mkCreateTransactionParams merchantID now now StatusInProgress (c_Type params)
    (Int64ToNullable (c_EntityID params)) null_int64 null_string null_int64 "" null_string
    (cc_Blockchain (c_Currency params)) (StringToNullable (ChooseNetwork (c_Currency params) (c_IsTest params)))
    (cc_Type (c_Currency params)) (cc_Ticker (c_Currency params)) (int32 (m_decimals (c_Amount params)))
    (int32 (cc_Decimals networkCurrency)) (MoneyToNumeric (c_Amount params)) (MoneyToNumeric (c_Amount params))
    (BigIntToNumeric 0) (BigIntToNumeric 0) (MoneyToNumeric (c_USDAmount params))
    (toJSONB {[MetaComment := "internal system topup"]}) (c_IsTest params));
  lift (entryToTransaction tx).

(** The two steps run on the store, each statement on its own. *)
Definition CreateSystemTopup (merchantID : Z) (params : CreateTransaction) : Go Transaction :=
  tx ← wrapM (createSystemTopup merchantID params) "unable to create system transaction";
  match tx_FactAmount tx with
  | None => fail (ENew "fact amount is nil")
  | Some factAmount =>
    wrapM (confirm merchantID (tx_ID tx) (mkConfirm StatusCompleted "" "" factAmount Money_zero ∅ true))
      "unable to confirm system transaction"
  end.
End Service.

(** ** Lemmas: what an entity holds of a currency *)
Record BalanceKey := mkBalanceKey { bk_Type : string; bk_ID : Z; bk_NetworkID : string; bk_Currency : string }.

#[export] Instance BalanceKey_eq_dec : EqDecision BalanceKey.
Proof. solve_decision. Defined.

Definition key_filter (k : BalanceKey) : Row.Balance -> bool :=
  balance_filter (bk_ID k) (bk_Type k) (bk_NetworkID k) (bk_Currency k).

(** The amount the services read for a key: nothing when there is no row. *)
Definition stored (k : BalanceKey) (d : DB) : Z :=
  match one (select (key_filter k) (balances d)) with Ok b => row_value b | _ => 0 end.

(** The balances as the services read them: a key without a row has nothing. *)
Definition books (d : DB) (k : BalanceKey) : option Z :=
  match one (select (key_filter k) (balances d)) with Ok b => Some (row_value b) | _ => None end.

Lemma stored_books k d : stored k d = default 0 (books d k).
Proof. unfold stored, books. by destruct (one _). Qed.

(** A posting asks for a key and brings an amount in a ticker. An entity that
    has a balance under the key has it moved, whatever the ticker of the amount;
    one that has none gets a balance in the ticker of the amount, which is not
    read when there is one already (of another blockchain). *)
Record Posting := mkPosting { po_key : BalanceKey; po_Ticker : string; po_value : Z }.
Definition in_ticker (t : string) (k : BalanceKey) : BalanceKey := mkBalanceKey (bk_Type k) (bk_ID k) (bk_NetworkID k) t.
Definition post (p : Posting) (b : BalanceKey -> option Z) (k : BalanceKey) : option Z :=
  match b (po_key p) with
  | Some x => if decide (k = po_key p) then Some (x + po_value p) else b k
  | None => if decide (k = in_ticker (po_Ticker p) (po_key p)) then Some (default (po_value p) (b k)) else b k
  end.
Definition post_all (l : list Posting) (b : BalanceKey -> option Z) : BalanceKey -> option Z := foldl (fun b p => post p b) b l.

Definition upsert_key (p : UpdateBalanceQuery) : BalanceKey :=
  mkBalanceKey (ub_EntityType p) (ub_EntityID p) (ChooseNetwork (ub_Currency p) (ub_IsTest p)) (cc_Ticker (ub_Currency p)).

Definition posting (k k' : BalanceKey) (v : Z) : Z := if decide (k = k') then v else 0.

Lemma key_filter_true k b : key_filter k b = true <->
  k = mkBalanceKey (Row.b_EntityType b) (Row.b_EntityID b) (Row.b_NetworkID b) (Row.b_Currency b).
Proof.
  unfold key_filter, balance_filter. rewrite !andb_true_iff, Z.eqb_eq, !bool_decide_eq_true. destruct k; simpl.
  split; [by intros [[[-> ->] ->] ->]|by intros [= -> -> -> ->]].
Qed.

Lemma books_moved d row v at1 at2 c meta k t k' : table_wf (balances d) ->
  one (select (key_filter k') (balances d)) = Ok row ->
  books (moved (Row.b_ID row) v at1 at2 c meta d) k = post (mkPosting k' t v) (books d) k.
Proof.
  intros Hwf Hrow. destruct (one_select_inv _ _ _ Hrow) as [Hin Hk']. unfold post. cbn [po_key po_value].
  replace (books d k') with (Some (row_value row)) by (unfold books; by rewrite Hrow).
  unfold books, moved. cbn [balances set_balance_audit_log set_balances].
  assert (forall p l, (forall b, p (add_amount at1 v b) = p b) ->
    List.filter p (map (fun r => if by_id (Row.b_ID row) r then add_amount at1 v r else r) l) =
    map (fun r => if by_id (Row.b_ID row) r then add_amount at1 v r else r) (List.filter p l)) as Hmap.
  { intros p l Hp. induction l as [|b l IH]; [done|]. simpl. rewrite IH.
    replace (p (if by_id (Row.b_ID row) b then add_amount at1 v b else b)) with (p b) by (destruct (by_id _ b); by rewrite ?Hp).
    by destruct (p b). }
  unfold select, update_rows in *. cbn [rows]. rewrite Hmap by done.
  destruct (List.filter (key_filter k) (rows (balances d))) as [|b l] eqn:E.
  - simpl. destruct (decide (k = k')) as [->|]; [|done]. by rewrite E in Hrow.
  - simpl. assert (b ∈ rows (balances d) /\ key_filter k b = true) as [Hb Hkb]
      by (apply elem_of_filter_bool; rewrite E; left).
    destruct (decide (k = k')) as [->|Hne].
    + rewrite E in Hrow. injection Hrow as ->. unfold by_id. change (row_id row) with (Row.b_ID row).
      by rewrite Z.eqb_refl, row_value_add.
    + replace (by_id (Row.b_ID row) b) with false; [done|]. symmetry. apply Z.eqb_neq. intros Hid.
      destruct Hne. apply key_filter_true in Hk', Hkb.
      assert (row_at (Row.b_ID row) (balances d) = Some b) as K1 by by apply row_at_Some.
      assert (row_at (Row.b_ID row) (balances d) = Some row) as K2 by by apply row_at_Some. congruence.
Qed.

Lemma books_opened d arg v at2 c meta k k' :
  in_ticker (cb_Currency arg) k' = mkBalanceKey (cb_EntityType arg) (cb_EntityID arg) (cb_NetworkID arg) (cb_Currency arg) ->
  one (select (key_filter k') (balances d)) = Err ErrNoRows ->
  books (opened arg v at2 c meta d) k = post (mkPosting k' (cb_Currency arg) v) (books d) k.
Proof.
  intros Hk' Hnone. unfold post. cbn [po_key po_Ticker po_value].
  replace (books d k') with (None : option Z) by (unfold books; by rewrite Hnone). rewrite Hk'.
  unfold books, opened. cbn [balances set_balance_audit_log set_balances].
  unfold select, insert_row in *. cbn [rows]. rewrite List.filter_app. simpl.
  set (new := balance_row arg (BigIntToNumeric v) (next_id (balances d))).
  destruct (decide _) as [->|Hne].
  - rewrite (proj2 (key_filter_true _ new)) by done.
    destruct (List.filter (key_filter (mkBalanceKey _ _ _ _)) (rows (balances d))) as [|b l]; [|done]. simpl.
    unfold row_value, new. simpl. by rewrite numeric_value_whole.
  - destruct (key_filter k new) eqn:E; [apply key_filter_true in E; by subst|]. by rewrite app_nil_r.
Qed.

Definition upsert_posting (p : UpdateBalanceQuery) : Posting :=
  mkPosting (upsert_key p) (m_ticker (ub_Amount p)) (signed (ub_Operation p) (ub_Amount p)).

Lemma upsert_posts p d x d' : schema_ok d -> upsert_result p d (Ok x) d' ->
  transactions d' = transactions d /\ forall k, books d' k = post (upsert_posting p) (books d) k.
Proof.
  intros Hok Hr. inversion Hr; subst; (split; [done|]); intros k.
  - apply books_moved; [apply Hok|done].
  - by apply (books_opened d (upsert_row p _ _ _)).
Qed.

Lemma wp_post p w (Q : res (Balance * MetaData) -> world -> Prop) :
  schema_ok (db w) ->
  (forall x w', schema_ok (db w') -> transactions (db w') = transactions (db w) ->
     (forall k, books (db w') k = post (upsert_posting p) (books (db w)) k) -> Q (Ok x) w') ->
  (forall e w', Q (Err e) w') -> (forall s w', Q (Panic s) w') ->
  wp (UpdateBalance p) w Q.
Proof.
  intros Hok Hq He Hp. pose proof (wp_UpdateBalance p w Hok) as Hu.
  pose proof (proj2 (UpdateBalance_schema p w) Hok) as Hok'. unfold wp in *.
  destruct (UpdateBalance p w) as [[x|e|s] w']; simpl in *; [|done|done].
  destruct (upsert_posts _ _ _ _ Hok Hu) as [? ?]. by apply Hq.
Qed.

(** Postings respect the contents of the books. *)
#[export] Instance post_proper p : Proper (pointwise_relation _ eq ==> pointwise_relation _ eq) (post p).
Proof. intros b b' Hb k. unfold post. rewrite !Hb. by destruct (b' (po_key p)). Qed.
#[export] Instance post_all_proper l : Proper (pointwise_relation _ eq ==> pointwise_relation _ eq) (post_all l).
Proof.
  unfold post_all. induction l as [|p l IH]; intros b b' Hb; [done|]. cbn [foldl]. apply IH. by apply post_proper.
Qed.
Lemma post_all_app l l' b : post_all (l ++ l') b = post_all l' (post_all l b).
Proof. unfold post_all. by rewrite foldl_app. Qed.

Fixpoint posted (k : BalanceKey) (l : list (BalanceKey * Z)) : Z :=
  match l with [] => 0 | (k', v) :: l => posting k k' v + posted k l end.

(** A posting in the ticker of its key adds its value there and nowhere else. *)
Definition own_ticker (p : Posting) : Prop := po_Ticker p = bk_Currency (po_key p).
Lemma post_own p b k : own_ticker p -> default 0 (post p b k) = default 0 (b k) + posting k (po_key p) (po_value p).
Proof.
  unfold own_ticker, post, posting. intros Ht. replace (in_ticker (po_Ticker p) (po_key p)) with (po_key p)
    by (rewrite Ht; by destruct (po_key p)).
  destruct (b (po_key p)) as [x|] eqn:E; destruct (decide (k = po_key p)) as [->|]; rewrite ?E; cbn; lia.
Qed.
Lemma post_all_own l k : Forall own_ticker l -> forall b,
  default 0 (post_all l b k) = default 0 (b k) + posted k (map (fun p => (po_key p, po_value p)) l).
Proof.
  unfold post_all. induction 1 as [|p l Hp _ IH]; intros b; cbn [foldl map posted]; [lia|]. rewrite IH, post_own by done. lia.
Qed.

(** ** Lemmas: rows and their transactions *)
Section Rows.
Context `{Resolver}.

Lemma NumericToMoney_inv n ty ticker dec m : NumericToMoney n ty ticker dec = Ok m ->
  m_ticker m = ticker /\ m_decimals m = dec /\ m_type m = ty /\ (forall v, n = BigIntToNumeric v -> val m = v).
Proof.
  unfold NumericToMoney. destruct (NumericToBigInt n) as [z|e|p] eqn:E; simpl; [|done|done]. intros [= <-].
  split_and!; try done. intros v ->. simpl in E. by injection E as ->.
Qed.

Lemma wrap_ok {A} (r : res A) msg a : wrap r msg = Ok a -> r = Ok a.
Proof. by destruct r. Qed.

Lemma entry_inv row t : entryToTransaction row = Ok t ->
  tx_ID t = Row.t_ID row /\ tx_Status t = Row.t_Status row /\ tx_Type t = Row.t_Type row /\
  tx_MerchantID t = Row.t_MerchantID row /\ m_ticker (tx_Amount t) = Row.t_Currency row /\
  m_decimals (tx_Amount t) = Row.t_Decimals row /\
  (forall v, Row.t_Amount row = BigIntToNumeric v -> val (tx_Amount t) = v) /\
  (forall v, Row.t_FactAmount row = BigIntToNumeric v -> exists f, tx_FactAmount t = Some f /\ val f = v) /\
  (forall f, tx_FactAmount t = Some f -> m_ticker f = Row.t_Currency row /\ m_decimals f = Row.t_Decimals row).
Proof.
  unfold entryToTransaction. cbv zeta.
  destruct (resolve_currency row) as [c|e|p]; cbn [mbind res_bind]; [|done|done].
  destruct (wrap _ "unable to construct Amount") as [a|e|p] eqn:Ea; cbn [mbind res_bind]; [|done|done].
  destruct (if_present (Row.t_FactAmount row) _) as [f|e|p] eqn:Ef; cbn [mbind res_bind]; [|done|done].
  destruct (wrap _ "unable to construct serviceFee") as [s|e|p]; cbn [mbind res_bind]; [|done|done].
  destruct (if_present (Row.t_NetworkFee row) _) as [n|e|p]; cbn [mbind res_bind]; [|done|done].
  destruct (NumericToMoney _ Fiat _ _) as [u|e|p]; cbn [mbind res_bind]; [|done|done].
  intros [= <-]. cbn. apply wrap_ok, NumericToMoney_inv in Ea as (Ht & Hd & _ & Hv). split_and!; try done.
  - intros v Hfv. rewrite Hfv in Ef. unfold if_present in Ef. simpl in Ef. injection Ef as <-.
    eexists. split; done.
  - intros m ->. unfold if_present in Ef. destruct (present _); [|done].
    destruct (wrap _ "unable to construct FactAmount") as [m'|e|p] eqn:Em; [|done|done]. injection Ef as <-.
    by apply wrap_ok, NumericToMoney_inv in Em as (? & ? & _).
Qed.

(** [UpdateTransaction] with amounts the driver can encode. *)
Lemma wp_UpdateTransaction arg fact fee meta w (Q : res Row.Transaction -> world -> Prop) :
  pg_numeric (ut_FactAmount arg) = Ok fact -> pg_numeric (ut_NetworkFee arg) = Ok fee -> pg_jsonb (ut_Metadata arg) = Ok meta ->
  let p t := (Row.t_MerchantID t =? ut_MerchantID arg) && (Row.t_ID t =? ut_ID arg) in
  (forall row w', row ∈ rows (transactions (db w)) -> p row = true ->
     db w' = set_transactions (update_rows p (updated arg fact fee meta) (transactions (db w))) (db w) ->
     Q (Ok (updated arg fact fee meta row)) w') ->
  (forall w', db w' = set_transactions (update_rows p (updated arg fact fee meta) (transactions (db w))) (db w) ->
     Q (Err ErrNoRows) w') ->
  wp (UpdateTransaction arg) w Q.
Proof.
  intros Hf Hn Hm p Hok Herr. apply wp_query. rewrite Hf, Hn, Hm. cbn [mbind res_bind mret res_ret fst snd].
  fold p. destruct (one (select p (transactions (db w)))) as [row|e|s] eqn:E; cbn [fst snd].
  - destruct (one_select_inv _ _ _ E) as [Hin Hp]. intros w' E'. by apply Hok.
  - destruct (one_select_none _ _ _ E) as [-> _]. apply Herr.
  - unfold one in E. by destruct (select _ _).
Qed.

Definition tx_filter (merchantID id : Z) (t : Row.Transaction) : bool :=
  (Row.t_ID t =? id) && (if negb (merchantID =? MerchantIDWildcard) then Row.t_MerchantID t =? merchantID else true).

Lemma wp_GetByID merchantID id w (Q : res Transaction -> world -> Prop) :
  (forall w', db w' = db w ->
     Q match one (select (tx_filter merchantID id) (transactions (db w))) with
       | Ok row => entryToTransaction row
       | Err _ => Err ErrNotFound
       | Panic p => Panic p
       end w') ->
  wp (GetByID merchantID id) w Q.
Proof.
  intros HQ. unfold GetByID, found. wp_step. apply wp_not_found, wp_read. intros w1 E1. specialize (HQ w1 E1).
  change (fun t => (Row.t_ID t =? id) && _) with (tx_filter merchantID id).
  destruct (one _) as [row|e|p] eqn:Eo; [by wp_step| |done].
  destruct (one_select_none _ _ _ Eo) as [-> _]. done.
Qed.
End Rows.

(** ** Lemmas: confirming *)
Section Confirm.
Context `{Resolver}.

(** What a confirmation posts to the balances, by the type of transaction. *)
Definition wallet_key (tx : Transaction) (id : Z) (c : CryptoCurrency) : BalanceKey :=
  mkBalanceKey EntityTypeWallet id (ChooseNetwork c (tx_IsTest tx)) (cc_Ticker c).
Definition merchant_key (tx : Transaction) : BalanceKey :=
  mkBalanceKey EntityTypeMerchant (tx_MerchantID tx) (NetworkID tx) (cc_Ticker (tx_Currency tx)).

Definition recipient_posting (tx : Transaction) (fact : Z) : list (BalanceKey * Z) :=
  match tx_RecipientWalletID tx with Some r => [(wallet_key tx r (tx_Currency tx), fact)] | None => [] end.
Definition fee_posting (tx : Transaction) (fee : Z) : list (BalanceKey * Z) :=
  match tx_SenderWalletID tx, networkCurrencyForBalanceUpdate tx with
  | Some s, Ok c => [(wallet_key tx s c, - fee)]
  | _, _ => []
  end.

(** What the merchant gains of an incoming payment. *)
Definition merchant_gain (tx : Transaction) (fact : Z) : Z :=
  Z.min fact (val (tx_Amount tx)) - val (tx_ServiceFee tx).

Definition postings (tx : Transaction) (fact fee : Z) : list (BalanceKey * Z) :=
  if bool_decide (tx_Type tx = TypeIncoming) then
    recipient_posting tx fact ++
    (if bool_decide (tx_Status tx = StatusCompletedInvalid) || (tx_MerchantID tx =? SystemMerchantID) then []
     else [(merchant_key tx, merchant_gain tx fact)])
  else if bool_decide (tx_Type tx = TypeInternal) then recipient_posting tx fact ++ fee_posting tx fee
  else if bool_decide (tx_Type tx = TypeWithdrawal) then fee_posting tx fee
  else [(merchant_key tx, fact)].

(** The same with the tickers the amounts come in: that of the transaction for
    what was received, that of the fee for the fee. *)
Definition priced (ticker : string) (l : list (BalanceKey * Z)) : list Posting := map (fun p => mkPosting p.1 ticker p.2) l.
Definition entries (tx : Transaction) (fact : Z) (fee : Money) : list Posting :=
  let own := m_ticker (tx_Amount tx) in
  if bool_decide (tx_Type tx = TypeIncoming) then priced own (postings tx fact (val fee))
  else if bool_decide (tx_Type tx = TypeInternal) then
    priced own (recipient_posting tx fact) ++ priced (m_ticker fee) (fee_posting tx (val fee))
  else if bool_decide (tx_Type tx = TypeWithdrawal) then priced (m_ticker fee) (fee_posting tx (val fee))
  else priced own [(merchant_key tx, fact)].

Lemma priced_keys t l : map (fun p => (po_key p, po_value p)) (priced t l) = l.
Proof. unfold priced. induction l as [|[k v] l IH]; [done|]. cbn [map po_key po_value fst snd]. by rewrite IH. Qed.
Lemma entries_postings tx fact fee :
  map (fun p => (po_key p, po_value p)) (entries tx fact fee) = postings tx fact (val fee).
Proof.
  unfold entries, postings. cbv zeta. repeat case_bool_decide; rewrite ?map_app, ?priced_keys; done.
Qed.

(** A step that posts [l] to the balances when it succeeds. *)
Definition posts {A} (l : list Posting) (d : DB) (r : res A) (w' : world) : Prop :=
  match r with
  | Ok _ => schema_ok (db w') /\ transactions (db w') = transactions d /\ forall k, books (db w') k = post_all l (books d) k
  | _ => True
  end.

Lemma wp_incrementRecipient tx fact hash w : schema_ok (db w) ->
  wp (incrementRecipientBalance tx fact hash) w (posts (priced (m_ticker fact) (recipient_posting tx (val fact))) (db w)).
Proof.
  intros Hok. unfold incrementRecipientBalance, recipient_posting. destruct (tx_RecipientWalletID tx) as [r|]; [|done].
  cbv zeta. do 2 wp_step. apply wp_post; [done| |done|done]. intros [b m] w1 Hok1 Htx Hs. cbn [wrap]. by wp_step.
Qed.

Lemma wp_merchant_increment tx a c m w : schema_ok (db w) ->
  wp (merchant_increment tx a c m) w (posts (priced (m_ticker a) [(merchant_key tx, val a)]) (db w)).
Proof.
  intros Hok. unfold merchant_increment. do 2 wp_step. apply wp_post; [done| |done|done].
  intros x w1 Hok1 Htx Hs. cbn [wrap]. by wp_step.
Qed.

Lemma wp_fee_decrement tx s c fee comment m w : schema_ok (db w) ->
  wp (fee_decrement tx s c fee comment m) w (posts (priced (m_ticker fee) [(wallet_key tx s c, - val fee)]) (db w)).
Proof.
  intros Hok. unfold fee_decrement. do 2 wp_step. apply wp_post; [done| |done|done].
  intros x w1 Hok1 Htx Hs. cbn [wrap]. by wp_step.
Qed.

Lemma posts_weaken {A B} (f : A -> Go B) l l' d r w1 : posts (A := A) l d r w1 ->
  (forall a, r = Ok a -> schema_ok (db w1) -> wp (f a) w1 (posts l' (db w1))) ->
  match r with
  | Ok a => wp (f a) w1 (posts (l ++ l') d) | Err e => posts (A := B) (l ++ l') d (Err e) w1
  | Panic p => posts (A := B) (l ++ l') d (Panic p) w1
  end.
Proof.
  intros Hr Hf. destruct r as [a|e|p]; [|done|done]. destruct Hr as (Hok & Htx & Hs).
  eapply wp_mono; [by apply Hf|]. intros [b|e|p] w2; [|done|done]. intros (Hok2 & Htx2 & Hs2).
  split; [done|]. split; [congruence|]. intros k. rewrite Hs2, post_all_app. by apply post_all_proper.
Qed.

Lemma wp_posts_bind {A B} (m : Go A) (f : A -> Go B) l l' w :
  wp m w (posts l (db w)) ->
  (forall a w1, schema_ok (db w1) -> wp (f a) w1 (posts l' (db w1))) ->
  wp (m ≫= f) w (posts (l ++ l') (db w)).
Proof.
  intros Hm Hf. apply wp_bind. eapply wp_mono; [exact Hm|]. intros r w1 Hr.
  eapply (posts_weaken f l l' (db w)); [exact Hr|]. intros a _ Hok. by apply Hf.
Qed.

Lemma posts_nil {A} (a : A) w : schema_ok (db w) -> wp (mret a) w (posts [] (db w)).
Proof. intros Hok. by wp_step. Qed.

Lemma CompatibleTo_ticker a b : CompatibleTo a b = true -> m_ticker a = m_ticker b.
Proof. unfold CompatibleTo. intros [Hb _]%andb_true_iff. by case_bool_decide. Qed.

Lemma Money_Sub_inv a b m : Money_Sub a b = Ok m ->
  val m = val a - val b /\ m_ticker m = m_ticker a /\ 0 <= val m.
Proof.
  unfold Money_Sub, SubNegative. destruct (negb (CompatibleTo a b)); simpl; [done|].
  unfold Money_IsNegative. cbn. destruct (Z.ltb_spec (val a - val b) 0) as [|Hz]; [done|]. intros [= <-]. done.
Qed.

Lemma gain_val tx f a : val a = val (if GreaterThan f (tx_Amount tx) then tx_Amount tx else f) - val (tx_ServiceFee tx) ->
  CompatibleTo f (tx_Amount tx) = true -> val a = merchant_gain tx (val f).
Proof.
  unfold merchant_gain, GreaterThan. intros -> ->. simpl. destruct (Z.ltb_spec (val (tx_Amount tx)) (val f)); lia.
Qed.

(** The network fee, where it is posted, is in the ticker of its currency. *)
Definition fee_ticker_ok (tx : Transaction) (fee : Money) : Prop :=
  tx_Type tx = TypeIncoming \/ tx_Type tx = TypeVirtual \/ forall c, networkCurrencyForBalanceUpdate tx = Ok c -> m_ticker fee = cc_Ticker c.

Lemma entries_own tx fact fee : cc_Ticker (tx_Currency tx) = m_ticker (tx_Amount tx) -> fee_ticker_ok tx fee ->
  Forall own_ticker (entries tx fact fee).
Proof.
  intros Ht Hfee. assert (forall v, Forall own_ticker (priced (m_ticker (tx_Amount tx)) (recipient_posting tx v))) as Hrec.
  { intros v. unfold recipient_posting. destruct (tx_RecipientWalletID tx); repeat constructor. by symmetry. }
  assert (forall v, Forall own_ticker (priced (m_ticker (tx_Amount tx)) [(merchant_key tx, v)])) as Hmer.
  { intros v. repeat constructor. by symmetry. }
  unfold entries, postings. cbv zeta. case_bool_decide as T1.
  { unfold priced. rewrite map_app. apply Forall_app; split; [apply Hrec|]. destruct (_ || _); [constructor|apply Hmer]. }
  assert (tx_Type tx <> TypeVirtual -> Forall own_ticker (priced (m_ticker fee) (fee_posting tx (val fee)))) as Hpaid.
  { intros Hv. destruct Hfee as [|[|Hfee]]; [done..|]. unfold fee_posting. destruct (tx_SenderWalletID tx); [|constructor].
    destruct (networkCurrencyForBalanceUpdate tx) as [c|e|p]; repeat constructor. by apply Hfee. }
  case_bool_decide as T2; [|case_bool_decide as T3]; [apply Forall_app; split; [apply Hrec|]| |apply Hmer].
  - apply Hpaid. by rewrite T2.
  - apply Hpaid. by rewrite T3.
Qed.

Lemma wp_confirm_fee tx s fee comment m w : tx_SenderWalletID tx = Some s -> schema_ok (db w) ->
  wp (currency ← lift (networkCurrencyForBalanceUpdate tx); fee_decrement tx s currency fee comment m) w
    (posts (priced (m_ticker fee) (fee_posting tx (val fee))) (db w)).
Proof.
  intros Hs Hok. unfold fee_posting. rewrite Hs. do 2 wp_step.
  destruct (networkCurrencyForBalanceUpdate tx) as [c|e|p] eqn:E; [|done|done]. by apply wp_fee_decrement.
Qed.

Lemma wp_updateBalances tx params fact w : schema_ok (db w) -> tx_FactAmount tx = Some fact ->
  CompatibleTo fact (tx_Amount tx) = true ->
  wp (updateBalancesAfterTxConfirmation tx params) w (posts (entries tx (val fact) (ctx_NetworkFee params)) (db w)).
Proof.
  intros Hok Hf Hc. unfold updateBalancesAfterTxConfirmation, entries, postings. rewrite Hf, <- (CompatibleTo_ticker _ _ Hc).
  destruct (Money_IsZero fact); [done|]. destruct (Money_IsNegative fact); [done|]. cbv zeta.
  case_bool_decide as T1; [clear T1|case_bool_decide as T2; [|case_bool_decide as T3;
    [clear T2|case_bool_decide as T4; [clear T1 T2 T3 T4|]]]].
  - unfold confirm_incoming, priced. rewrite map_app.
    apply wp_posts_bind; [by apply wp_incrementRecipient|]. intros [c m] w1 Hok1.
    case_bool_decide as Hst; [by apply posts_nil|]. cbn [orb].
    destruct (tx_MerchantID tx =? SystemMerchantID); [by apply posts_nil|]. cbv zeta.
    do 3 wp_step. destruct (Money_Sub _ _) as [a|e|p] eqn:Ea; cbn [wrap]; [|done|done].
    apply Money_Sub_inv in Ea as (Hv & Htk & _). rewrite <- (gain_val _ _ _ Hv Hc).
    replace (m_ticker fact) with (m_ticker a); [by apply wp_merchant_increment|]. rewrite Htk.
    destruct (GreaterThan _ _); [|done]. symmetry. by apply CompatibleTo_ticker.
  - unfold confirm_internal. destruct (tx_SenderWalletID tx) as [s|] eqn:Es; [|done].
    apply wp_posts_bind; [by apply wp_incrementRecipient|]. intros [c m] w1 Hok1. by apply wp_confirm_fee.
  - unfold confirm_withdrawal. destruct (tx_SenderWalletID tx) as [s|] eqn:Es; [|done]. by apply wp_confirm_fee.
  - unfold confirm_virtual. destruct (_ || _); [done|]. by apply wp_merchant_increment.
  - done.
Qed.
End Confirm.

(** ** Lemmas: the transaction row *)
Section Life.
Context `{Resolver}.

Lemma pg_jsonb_meta m : exists j, pg_jsonb (toJSONB m) = Ok j.
Proof. unfold toJSONB. case_bool_decide; eexists; reflexivity. Qed.

Lemma tx_filter_id merchantID id row : tx_filter merchantID id row = true -> Row.t_ID row = id.
Proof. unfold tx_filter. intros [Hi _]%andb_true_iff. lia. Qed.

(** The row of the updated transaction, found again. *)
Lemma find_updated d merchantID id p f row :
  table_wf (transactions d) -> row ∈ rows (transactions d) -> p row = true ->
  p = (fun t => (Row.t_MerchantID t =? merchantID) && (Row.t_ID t =? id)) ->
  (forall r, Row.t_ID (f r) = Row.t_ID r /\ Row.t_MerchantID (f r) = Row.t_MerchantID r) ->
  one (select (tx_filter merchantID id) (update_rows p f (transactions d))) = Ok (f row).
Proof.
  intros Hwf Hin Hp -> Hf. apply andb_true_iff in Hp as [Hm Hi]. apply Z.eqb_eq in Hm, Hi.
  apply one_select_unique.
  - apply wf_update; [|done]. intros r. apply Hf.
  - apply elem_of_update. exists row. split; [done|]. by rewrite Hm, Hi, !Z.eqb_refl.
  - unfold tx_filter. destruct (Hf row) as [-> ->]. rewrite Hi, Hm, !Z.eqb_refl. by destruct (negb _).
  - intros x Hx%tx_filter_id. change (Row.t_ID x = Row.t_ID (f row)). destruct (Hf row) as [-> _]. lia.
Qed.

(** Only balances and their log have changed. *)
Definition only_books (d d' : DB) : Prop := exists b l, d' = set_balance_audit_log l (set_balances b d).
#[export] Instance only_books_preorder : PreOrder only_books.
Proof.
  split; [intros d; exists (balances d), (balance_audit_log d); by destruct d|].
  intros d1 d2 d3 (b & l & ->) (b' & l' & ->). by exists b', l'.
Qed.

Lemma only_books_balances d b : only_books d (set_balances b d).
Proof. exists b, (balance_audit_log d). by destruct d. Qed.
Lemma only_books_log d l : only_books d (set_balance_audit_log l d).
Proof. exists (balances d), l. by destruct d. Qed.

(** The row of a transaction confirmed with [params]. *)
Definition confirmed_row (merchantID txID : Z) (params : ConfirmTransaction) (row row' : Row.Transaction) : Prop :=
  exists at_ meta j, row' = updated (mkUpdateTransactionParams merchantID txID (ctx_Status params) at_
    (StringToNullable (ctx_SenderAddress params)) (MoneyToNumeric (ctx_FactAmount params))
    (StringToNullable (ctx_TransactionHash params)) (MoneyToNumeric (ctx_NetworkFee params)) meta
    (bool_decide (ctx_Status params = StatusCompletedInvalid)))
    (MoneyToNumeric (ctx_FactAmount params)) (MoneyToNumeric (ctx_NetworkFee params)) j row.

(** What [confirm] leaves when it succeeds. *)
Definition confirmed (merchantID txID : Z) (params : ConfirmTransaction) (d : DB) (tx : Transaction) (d' : DB) : Prop :=
  tx_Status tx = ctx_Status params /\ schema_ok d' /\
  (exists row row', row ∈ rows (transactions d) /\ Row.t_ID row = txID /\ confirmed_row merchantID txID params row row' /\
     one (select (tx_filter merchantID txID) (transactions d')) = Ok row' /\ entryToTransaction row' = Ok tx) /\
  (exists f, only_books (set_transactions (update_rows (fun t => (Row.t_MerchantID t =? merchantID) && (Row.t_ID t =? txID)) f (transactions d)) d) d') /\
  (cc_Ticker (tx_Currency tx) = m_ticker (tx_Amount tx) -> fee_ticker_ok tx (ctx_NetworkFee params) ->
   forall k, stored k d' = stored k d + posted k (postings tx (val (ctx_FactAmount params)) (val (ctx_NetworkFee params)))).

Lemma updateBalances_schema tx params : steps schema_step (updateBalancesAfterTxConfirmation tx params).
Proof.
  unfold updateBalancesAfterTxConfirmation, confirm_incoming, confirm_internal, confirm_withdrawal, confirm_virtual,
    incrementRecipientBalance, merchant_increment, fee_decrement. cbv zeta. go_steps.
Qed.

Lemma UpdateBalance_keeps p : steps only_books (UpdateBalance p).
Proof.
  unfold UpdateBalance, writeAuditLog. cbv zeta.
  repeat first [progress intros | apply steps_query; intros d | apply steps_ret; tc_solve
    | apply steps_fail; tc_solve | apply steps_pure; tc_solve | apply steps_now; tc_solve | apply steps_uuid; tc_solve
    | apply steps_bind; [tc_solve| |] | apply steps_wrap | apply steps_attempt
    | match goal with |- steps _ (match ?x with _ => _ end) => destruct x end].
  all: cbv zeta; repeat (case_match; try reflexivity); first [apply only_books_balances | apply only_books_log | cbn [snd]; reflexivity].
Qed.

Lemma updateBalances_keeps tx params : steps only_books (updateBalancesAfterTxConfirmation tx params).
Proof.
  unfold updateBalancesAfterTxConfirmation, confirm_incoming, confirm_internal, confirm_withdrawal, confirm_virtual,
    incrementRecipientBalance, merchant_increment, fee_decrement. cbv zeta.
  repeat first [progress intros | apply UpdateBalance_keeps | apply steps_ret; tc_solve
    | apply steps_fail; tc_solve | apply steps_pure; tc_solve
    | apply steps_bind; [tc_solve| |] | apply steps_wrap
    | match goal with |- steps _ (match ?x with _ => _ end) => destruct x end].
Qed.

Lemma wp_confirm_entries merchantID txID params w : schema_ok (db w) ->
  wp (confirm merchantID txID params) w (fun r w' => forall tx, r = Ok tx ->
    confirmed merchantID txID params (db w) tx (db w') /\
    forall k, books (db w') k = post_all (entries tx (val (ctx_FactAmount params)) (ctx_NetworkFee params)) (books (db w)) k).
Proof.
  intros Hok. unfold confirm. wp_step. apply wp_GetByID. intros w1 E1.
  destruct (match one _ with Ok _ => _ | _ => _ end) as [tx0|e|p]; [|done|done].
  case_bool_decide; [by wp_step|]. cbv zeta. wp_step. apply wp_now. intros at_ w2 E2. rewrite E1 in E2. clear E1.
  destruct (pg_jsonb_meta (ctx_MetaData params ∪ tx_MetaData tx0)) as [j Hj].
  wp_step. apply wp_not_found.
  eapply (wp_UpdateTransaction _ (MoneyToNumeric (ctx_FactAmount params)) (MoneyToNumeric (ctx_NetworkFee params)) j);
    [apply pg_money|apply pg_money|done| |done]. rewrite E2.
  intros row w3 Hin Hp E3. do 2 wp_step.
  assert (schema_ok (db w3)) as Hok3.
  { pose proof (UpdateTransaction_schema (mkUpdateTransactionParams merchantID txID (ctx_Status params) at_
      (StringToNullable (ctx_SenderAddress params)) (MoneyToNumeric (ctx_FactAmount params))
      (StringToNullable (ctx_TransactionHash params)) (MoneyToNumeric (ctx_NetworkFee params))
      (toJSONB (ctx_MetaData params ∪ tx_MetaData tx0)) (bool_decide (ctx_Status params = StatusCompletedInvalid))) w2) as Hs.
    revert Hs. unfold UpdateTransaction, query. rewrite E2. cbn [ut_FactAmount ut_NetworkFee ut_Metadata]. rewrite !pg_money, Hj.
    cbn. intros [_ Hs]. rewrite E3. by apply Hs. }
  set (row' := updated _ _ _ _ row) in *.
  destruct (entryToTransaction row') as [tx|e|p] eqn:Et; [|done|done].
  destruct (entry_inv _ _ Et) as (_ & Hst & _ & _ & Htk & Hdec & _ & Hfact & Hfdec).
  destruct (Hfact (val (ctx_FactAmount params)) eq_refl) as (f & Hf & Hfv). destruct (Hfdec _ Hf) as [Hft Hfd].
  assert (one (select (tx_filter merchantID txID) (transactions (db w3))) = Ok row') as Hone.
  { rewrite E3. apply (find_updated (db w)); [apply (ok_wf _ Hok)|done|done|done|done]. }
  do 2 wp_step. unfold wp.
  assert (CompatibleTo f (tx_Amount tx) = true) as Hcompat
    by (unfold CompatibleTo; by rewrite Hft, Htk, Hfd, Hdec, bool_decide_true, Z.eqb_refl by done).
  pose proof (wp_updateBalances tx params f w3 Hok3 Hf Hcompat) as Hposts. unfold wp, posts in Hposts.
  pose proof (proj2 (updateBalances_schema tx params w3) Hok3) as Hok4.
  pose proof (updateBalances_keeps tx params w3) as Hkeep.
  destruct (updateBalancesAfterTxConfirmation tx params w3) as [[[]|e|p] w4]; cbn [fst snd wrap] in *; [|done|done].
  change (forall tx', Ok tx = Ok tx' -> confirmed merchantID txID params (db w) tx' (db w4) /\
    forall k, books (db w4) k = post_all (entries tx' (val (ctx_FactAmount params)) (ctx_NetworkFee params)) (books (db w)) k).
  destruct Hposts as (_ & _ & Hbooks). rewrite Hfv in Hbooks.
  replace (books (db w3)) with (books (db w)) in Hbooks by by rewrite E3.
  assert (transactions (db w4) = transactions (db w3)) as Htx by (by destruct Hkeep as (? & ? & ->)).
  intros tx' [= <-]. split; [|exact Hbooks]. split; [done|]. split; [done|]. split; [|split].
  - exists row, row'. split; [done|]. apply andb_true_iff in Hp as [_ Hp%Z.eqb_eq]. split; [done|].
    split; [by eexists _, _, _|]. by rewrite Htx.
  - rewrite E3 in Hkeep. eexists. exact Hkeep.
  - intros Hcur Hfee k. rewrite !stored_books, Hbooks, <- entries_postings. by apply post_all_own, entries_own.
Qed.

Lemma wp_confirm merchantID txID params w : schema_ok (db w) ->
  wp (confirm merchantID txID params) w (fun r w' => forall tx, r = Ok tx ->
    confirmed merchantID txID params (db w) tx (db w')).
Proof. intros Hok. eapply wp_mono; [by apply wp_confirm_entries|]. intros r w' Hr tx Htx. by apply Hr. Qed.
End Life.

(** ** Properties *)
Section Properties.
Context `{Resolver}.

Lemma wp_receive merchantID txID params w : schema_ok (db w) ->
  wp (receive merchantID txID params) w (fun r w' => schema_ok (db w') /\ wallet_locks (db w') = wallet_locks (db w) /\
    balances (db w') = balances (db w) /\ forall tx, r = Ok tx -> tx_Status tx = rt_Status params /\
      (exists f, tx_FactAmount tx = Some f /\ val f = val (rt_FactAmount params)) /\
      exists row, one (select (tx_filter merchantID txID) (transactions (db w'))) = Ok row /\ entryToTransaction row = Ok tx).
Proof.
  intros Hok. unfold receive. wp_step. apply wp_GetByID. intros w1 E1.
  destruct (match one _ with Ok _ => _ | _ => _ end) as [tx0|e|p]; [|by rewrite E1|by rewrite E1].
  cbv zeta. wp_step. apply wp_now. intros at_ w2 E2. rewrite E1 in E2. clear E1.
  destruct (pg_jsonb_meta (rt_MetaData params ∪ tx_MetaData tx0)) as [j Hj]. wp_step. apply wp_not_found.
  set (arg := mkUpdateTransactionParams _ _ _ _ _ _ _ _ _ _).
  assert (schema_ok (db (UpdateTransaction arg w2).2)) as Hok3
    by (apply (UpdateTransaction_schema arg w2); by rewrite E2).
  assert (db (UpdateTransaction arg w2).2 = set_transactions (update_rows
    (fun t => (Row.t_MerchantID t =? merchantID) && (Row.t_ID t =? txID))
    (updated arg (MoneyToNumeric (rt_FactAmount params)) numeric_null j) (transactions (db w))) (db w)) as Edb.
  { unfold UpdateTransaction, query. rewrite E2. cbn [arg ut_FactAmount ut_NetworkFee ut_Metadata].
    rewrite pg_money, Hj. done. }
  rewrite Edb in Hok3.
  eapply (wp_UpdateTransaction _ (MoneyToNumeric (rt_FactAmount params)) numeric_null j);
    [apply pg_money|done|done| |]; rewrite E2.
  - intros row w3 Hin Hp E3. wp_step. rewrite E3. split; [done|]. split; [done|]. split; [done|].
    intros tx Et. destruct (entry_inv _ _ Et) as (_ & Hst & _ & _ & _ & _ & _ & Hfact & _).
    split; [done|]. split; [by apply Hfact|]. eexists. split; [|exact Et].
    apply (find_updated (db w)); [apply (ok_wf _ Hok)|done|done|done|done].
  - intros w3 E3. rewrite E3. split; [done|]. done.
Qed.

(** C25. What a confirmation posts. When [Confirm] succeeds, the transaction has
    the requested status and the balances are exactly those before with the
    entries of its type posted one after the other: an incoming payment credits
    the recipient wallet with the amount received and the merchant with the
    lesser of that and the invoice, minus the service fee (nothing on an
    underpayment or for the system); an internal transfer credits the recipient
    and charges the network fee to the sender; a withdrawal charges the network
    fee; a virtual one credits the merchant. Nothing is assumed of the tickers:
    an entry goes to the balance the entity has in the currency asked for or,
    when it has none, opens one in the ticker of the amount ([post]). Where the
    tickers agree - the currency of the transaction has the ticker of its amount
    and the network fee that of the currency it is charged in - every holding
    therefore changes by exactly the sum of its entries. When it fails or
    panics no row has changed. *)
Theorem confirm_posts (merchantID txID : Z) (params : ConfirmTransaction) (w : world) (Hok : schema_ok (db w)) :
  let '(r, w') := Confirm merchantID txID params w in
  match r with
  | Ok tx => tx_Status tx = ctx_Status params /\ schema_ok (db w') /\
      (forall k, books (db w') k =
         post_all (entries tx (val (ctx_FactAmount params)) (ctx_NetworkFee params)) (books (db w)) k) /\
      (cc_Ticker (tx_Currency tx) = m_ticker (tx_Amount tx) -> fee_ticker_ok tx (ctx_NetworkFee params) ->
       forall k, stored k (db w') = stored k (db w) +
         posted k (postings tx (val (ctx_FactAmount params)) (val (ctx_NetworkFee params))))
  | _ => same_rows (db w) (db w')
  end.
Proof.
  unfold Confirm, mbind, M_bind, lift. destruct (ConfirmTransaction_validate params) as [[]|e|p]; [|done|done].
  destruct (RunTransaction (confirm merchantID txID params) w) as [[tx|e|p] w'] eqn:E.
  - apply (proj1 (RunTransaction_ok _ _ _ _)) in E. pose proof (wp_confirm_entries merchantID txID params w Hok) as Hwp.
    unfold wp in Hwp. rewrite E in Hwp. destruct (Hwp tx eq_refl) as ((? & ? & _ & _ & ?) & ?). done.
  - by eapply RunTransaction_abort.
  - by eapply RunTransaction_abort.
Qed.

(** A confirmation is applied once: after a successful [Confirm] the same
    call fails with [ErrSameStatus] and changes no row, whatever its amounts,
    as long as its status is the one already reached. *)
Theorem confirm_once (merchantID txID : Z) (params params' : ConfirmTransaction) (w w1 : world) (tx : Transaction)
  (Hok : schema_ok (db w)) (Hrun : Confirm merchantID txID params w = (Ok tx, w1))
  (Hst : ctx_Status params' = ctx_Status params) (Hv : ConfirmTransaction_validate params' = Ok tt) :
  (Confirm merchantID txID params' w1).1 = Err ErrSameStatus /\ same_rows (db w1) (db (Confirm merchantID txID params' w1).2).
Proof.
  unfold Confirm, mbind, M_bind, lift in *. rewrite Hv. destruct (ConfirmTransaction_validate params) as [[]|e|p]; [|done|done].
  apply (proj1 (RunTransaction_ok _ _ _ _)) in Hrun. pose proof (wp_confirm merchantID txID params w Hok) as Hwp. unfold wp in Hwp.
  rewrite Hrun in Hwp. destruct (Hwp tx eq_refl) as (Hs & _ & (row0 & row & _ & _ & _ & Hrow & Hent) & _). cbn [snd] in *.
  assert ((confirm merchantID txID params' w1).1 = Err ErrSameStatus) as He.
  { change (wp (confirm merchantID txID params') w1 (fun r _ => r = Err ErrSameStatus)). unfold confirm. wp_step.
    apply wp_GetByID. intros w2 _. rewrite Hrow, Hent, bool_decide_true by congruence. by wp_step. }
  assert ((RunTransaction (confirm merchantID txID params') w1).1 = Err ErrSameStatus) as He' by by rewrite RunTransaction_result.
  split; [done|]. destruct (RunTransaction (confirm merchantID txID params') w1) as [r w2] eqn:E. simpl in *. subst r.
  by eapply RunTransaction_abort.
Qed.

(** Releasing a lock, whether or not it is held, leaves it free. *)
Lemma wp_release_key i c n w : schema_ok (db w) ->
  wp (ReleaseLock i c n) w (fun r w' => match r with
    | Panic _ => False
    | _ => balances (db w') = balances (db w) /\
        forall j x y, is_locked j x y (db w') = is_locked j x y (db w) && negb (key_eqb i j c x n y)
    end).
Proof.
  intros Hok. assert (wp (ReleaseLock i c n) w (fun _ w' => balances (db w') = balances (db w))) as Hb.
  { unfold ReleaseLock. do 2 wp_step. apply wp_read. intros w1 E1.
    destruct (one _) as [l|e|p]; cbn [wrap]; [|by rewrite E1|by rewrite E1].
    apply wp_query. intros w2 E2. by rewrite E2, E1. }
  pose proof (wp_ReleaseLock i c n w Hok) as Hr. unfold wp in *.
  destruct (ReleaseLock i c n w) as [[[]|e|p] w']; [by destruct Hr| |done]. split; [done|]. cbn [fst snd] in *.
  destruct Hr as (Hn & Hd & _). intros j x y. rewrite Hd. destruct (key_eqb i j c x n y) eqn:Ek; [|by rewrite andb_true_r].
  apply key_eqb_true in Ek. injection Ek as <- <- <-. by rewrite Hn.
Qed.

Definition received (d : DB) (params : ReceiveTransaction) (r : res Transaction) (w' : world) : Prop :=
  match r with
  | Ok tx => tx_Status tx = rt_Status params /\
      (exists f, tx_FactAmount tx = Some f /\ val f = val (rt_FactAmount params)) /\
      balances (db w') = balances d /\
      exists recipient, tx_RecipientWalletID tx = Some recipient /\
        forall j x y, is_locked j x y (db w') =
          is_locked j x y d && negb (key_eqb recipient j (cc_Ticker (tx_Currency tx)) x (NetworkID tx) y)
  | _ => same_rows d (db w')
  end.

(** Receiving a transaction frees its deposit address: when [Receive]
    succeeds, the transaction has the in-progress status and the amount seen on
    the blockchain, the recipient wallet's lock for the currency and network
    is gone and every other lock is kept, and no balance has changed; when it
    fails, nothing has. The release is not required to have found the lock. *)
Theorem receive_releases_lock (merchantID txID : Z) (params : ReceiveTransaction) (w : world) (Hok : schema_ok (db w)) :
  let '(r, w') := Receive merchantID txID params w in received (db w) params r w'.
Proof.
  enough (wp (Receive merchantID txID params) w (received (db w) params)) as Hwp.
  { unfold wp, received in Hwp. by destruct (Receive merchantID txID params w). }
  unfold Receive. do 2 wp_step. destruct (ReceiveTransaction_validate params) as [[]|e|p]; [|done|done].
  apply wp_run. wp_step. eapply wp_mono; [by apply wp_receive|]. intros r w1 (Hok1 & Hl & Hb & Hr).
  destruct r as [tx|e|p]; [|intros w2 E2; simpl; rewrite E2; apply rollback_same_rows..].
  destruct (Hr tx eq_refl) as (Hst & Hf & _). destruct (tx_RecipientWalletID tx) as [i|] eqn:Ei;
    [|wp_step; intros w2 E2; simpl; rewrite E2; apply rollback_same_rows].
  do 2 wp_step. eapply wp_mono; [apply wp_release_key, Hok1|]. intros [[]|e|p] w2 Hk; [| |done]; destruct Hk as [Hkb Hk];
    wp_step; (split; [done|]); (split; [done|]); (split; [congruence|]); exists i; (split; [done|]); intros j x y;
    rewrite Hk; unfold is_locked; by rewrite Hl.
Qed.

Lemma pg_not_null_whole v : pg_numeric_not_null (BigIntToNumeric v) = Ok (BigIntToNumeric v).
Proof.
  unfold pg_numeric_not_null, pg_numeric. cbn [BigIntToNumeric n_Status mbind res_bind]. rewrite numeric_value_whole. done.
Qed.

Lemma transaction_values_inv arg mk v : transaction_values arg = Ok mk -> ct_Amount arg = BigIntToNumeric v ->
  forall id, Row.t_ID (mk id) = id /\ Row.t_Status (mk id) = ct_Status arg /\ Row.t_Type (mk id) = ct_Type arg /\
    Row.t_MerchantID (mk id) = ct_MerchantID arg /\ Row.t_Amount (mk id) = BigIntToNumeric v.
Proof.
  unfold transaction_values. intros Hv Ha. rewrite Ha, pg_not_null_whole in Hv. cbn [mbind res_bind] in Hv.
  destruct (pg_numeric (ct_FactAmount arg)); cbn in Hv; [|done|done].
  destruct (pg_numeric (ct_NetworkFee arg)); cbn in Hv; [|done|done].
  destruct (pg_numeric_not_null (ct_ServiceFee arg)); cbn in Hv; [|done|done].
  destruct (pg_numeric_not_null (ct_UsdAmount arg)); cbn in Hv; [|done|done].
  destruct (pg_jsonb (ct_Metadata arg)); cbn in Hv; [|done|done]. by injection Hv as <-.
Qed.

Definition with_option (unexpected : bool) (p : CreateTransaction) : CreateTransaction :=
  if unexpected then IncomingUnexpected p else p.

Lemma wp_Create merchantID params unexpected w : schema_ok (db w) ->
  wp (Create merchantID params unexpected) w (fun r w' => forall tx, r = Ok tx -> exists mk,
    db w' = set_transactions (insert_row mk (transactions (db w))) (db w) /\
    (forall id, Row.t_ID (mk id) = id) /\ Row.t_MerchantID (mk (next_id (transactions (db w)))) = merchantID /\
    entryToTransaction (mk (next_id (transactions (db w)))) = Ok tx /\
    tx_Status tx = create_status (with_option unexpected params) /\ tx_Type tx = c_Type (with_option unexpected params) /\
    tx_MerchantID tx = merchantID /\ val (tx_Amount tx) = val (c_Amount (with_option unexpected params))).
Proof.
  intros Hok. unfold Create. change (if unexpected then IncomingUnexpected params else params) with (with_option unexpected params).
  cbv zeta. generalize (with_option unexpected params) as q. intros q. do 2 wp_step.
  destruct (validate q) as [[]|e|p]; [|done|done]. do 2 wp_step. destruct (coin_or_error (c_Currency q)) as [c|e|p]; [|done|done].
  wp_step. apply wp_now. intros at_ w1 E1. wp_step. apply wp_run. apply wp_query.
  set (arg := mkCreateTransactionParams _ _ _ _ _ _ _ _ _ _ _ _ _ _ _ _ _ _ _ _ _ _ _ _).
  destruct (transaction_values arg) as [mk|e|p] eqn:Ev; cbn [fst snd]; [|done|done].
  intros w2 E2. rewrite E1 in *. wp_step. intros tx Et.
  pose proof (transaction_values_inv _ _ _ Ev eq_refl) as Hmk. destruct (Hmk (next_id (transactions (db w)))) as (_ & H2 & H3 & H4 & H5).
  destruct (entry_inv _ _ Et) as (_ & Hs & Hty & Hm & _ & _ & Ha & _). exists mk. split_and!.
  - done.
  - intros id. apply Hmk.
  - done.
  - done.
  - by rewrite Hs, H2.
  - by rewrite Hty, H3.
  - by rewrite Hm, H4.
  - by apply Ha.
Qed.

(** A created transaction reads back: when [Create] succeeds it adds one
    row and changes no other table, the transaction is pending (in progress
    for an unexpected incoming one, with the amount as its fact), its amount
    is the one given, and [GetByID] returns the same transaction. *)
Theorem create_then_get (merchantID : Z) (params : CreateTransaction) (unexpected : bool) (w w1 : world) (tx : Transaction)
  (Hok : schema_ok (db w)) (Hrun : Create merchantID params unexpected w = (Ok tx, w1)) :
  (GetByID merchantID (tx_ID tx) w1).1 = Ok tx /\
  (exists row, db w1 = set_transactions (insert_row row (transactions (db w))) (db w)) /\
  tx_Status tx = (if unexpected && bool_decide (c_Type params = TypeIncoming) || c_isIncomingUnexpected params
                  then StatusInProgress else StatusPending) /\
  tx_Type tx = c_Type params /\ tx_MerchantID tx = merchantID /\ val (tx_Amount tx) = val (c_Amount params).
Proof.
  pose proof (wp_Create merchantID params unexpected w Hok) as Hwp. unfold wp in Hwp. rewrite Hrun in Hwp.
  destruct (Hwp tx eq_refl) as (mk & Edb & Hid & Hm & Hent & Hs & Hty & Hmer & Ha). cbn [snd] in Edb.
  assert (create_status (with_option unexpected params) = (if unexpected && bool_decide (c_Type params = TypeIncoming) ||
      c_isIncomingUnexpected params then StatusInProgress else StatusPending) /\
    c_Type (with_option unexpected params) = c_Type params /\ c_Amount (with_option unexpected params) = c_Amount params)
    as (Hst & Ht & Ham).
  { unfold with_option, IncomingUnexpected, create_status. destruct unexpected; [|done]. by case_bool_decide. }
  split; [|split; [by exists mk|]; by rewrite Hs, Hty, Ha, Hst, Ht, Ham].
  change (wp (GetByID merchantID (tx_ID tx)) w1 (fun r _ => r = Ok tx)). apply wp_GetByID. intros w2 _.
  destruct (entry_inv _ _ Hent) as (Htid & _). rewrite Hid in Htid. rewrite Htid, Edb.
  rewrite (one_select_unique _ _ (mk (next_id (transactions (db w))))); [done| | | |].
  - apply wf_insert; [exact Hid|apply (ok_wf _ Hok)].
  - apply elem_of_insert. by right.
  - unfold tx_filter. rewrite Hid, Hm, !Z.eqb_refl. by destruct (negb _).
  - intros x Hx%tx_filter_id. change (Row.t_ID x = Row.t_ID (mk (next_id (transactions (db w))))). by rewrite Hid, Hx.
Qed.
End Properties.

(** ** Examples: an invoice of 100 wei with a service fee of 3, deposited to
    a locked wallet *)
#[local] Instance ex_resolver : Resolver := CurrencyResolver_Resolver (fold_left addCurrency some_currencies NewCurrencies).

Definition ex_wei (v : Z) : Money := mkMoney Crypto "ETH" (Some v) 18.
Definition ex_coin : CryptoCurrency := mkCrypto "ETH" "" "1" "5" Coin "ETH" "ETH" 18 "" "" [] false.
Definition ex_invoice : CreateTransaction :=
  mkCreate TypeIncoming 7 "" None "" (Some (entryToWallet sample_wallet)) "" ex_coin (ex_wei 100)
    (mkMoney Fiat USD (Some 5) 2) (ex_wei 3) false false.
Definition ex_locked : world := (CreateWalletLock 1 1 "ETH" "1" 0 null_time one_wallet_world).2.
Definition ex_created : world := (Create 1 ex_invoice false ex_locked).2.
Definition ex_confirm (status : string) : ConfirmTransaction :=
  mkConfirm status "sender" "hash" (ex_wei 120) (ex_wei 2) ∅ false.

Lemma ex_locked_schema : schema_ok (db ex_locked).
Proof. apply (proj2 (CreateWalletLock_schema 1 1 "ETH" "1" 0 null_time one_wallet_world)), one_wallet_schema. Qed.

Lemma ex_created_schema : schema_ok (db ex_created).
Proof.
  assert (steps schema_step (Create 1 ex_invoice false)) as Hs by (unfold Create; cbv zeta; go_steps).
  apply (proj2 (Hs ex_locked)), ex_locked_schema.
Qed.

Lemma confirm_posts_witness :
  let '(r, w') := Confirm 1 1 (ex_confirm StatusCompleted) ex_created in
  match r with
  | Ok tx => postings tx 120 2 = [(mkBalanceKey "wallet" 1 "1" "ETH", 120); (mkBalanceKey "merchant" 1 "1" "ETH", 97)] /\
      forall k, stored k (db w') = stored k (db ex_created) + posted k (postings tx 120 2)
  | _ => False
  end.
Proof.
  assert (match (Confirm 1 1 (ex_confirm StatusCompleted) ex_created).1 with
    | Ok tx => bool_decide (cc_Ticker (tx_Currency tx) = m_ticker (tx_Amount tx)) && bool_decide (tx_Type tx = TypeIncoming) &&
        bool_decide (postings tx 120 2 = [(mkBalanceKey "wallet" 1 "1" "ETH", 120); (mkBalanceKey "merchant" 1 "1" "ETH", 97)])
    | _ => false end = true) as Hr by (vm_compute; reflexivity).
  pose proof (confirm_posts 1 1 (ex_confirm StatusCompleted) ex_created ex_created_schema) as H.
  destruct (Confirm 1 1 (ex_confirm StatusCompleted) ex_created) as [[tx|e|p] w']; [|discriminate Hr|discriminate Hr].
  apply andb_true_iff in Hr as [[Ht Hi]%andb_true_iff Hp]. split; [by apply bool_decide_eq_true_1 in Hp|].
  destruct H as (_ & _ & _ & H). apply H; [by apply bool_decide_eq_true_1 in Ht|left; by apply bool_decide_eq_true_1 in Hi].
Defined.

Lemma confirm_once_witness :
  exists tx w1, Confirm 1 1 (ex_confirm StatusCompleted) ex_created = (Ok tx, w1) /\
    (Confirm 1 1 (ex_confirm StatusCompleted) w1).1 = Err ErrSameStatus.
Proof.
  assert (is_ok (Confirm 1 1 (ex_confirm StatusCompleted) ex_created).1 = true) as Hr by (vm_compute; reflexivity).
  destruct (Confirm 1 1 (ex_confirm StatusCompleted) ex_created) as [[tx|e|p] w1] eqn:E; [|discriminate Hr|discriminate Hr].
  exists tx, w1. split; [reflexivity|].
  apply (confirm_once 1 1 (ex_confirm StatusCompleted) (ex_confirm StatusCompleted) ex_created w1 tx ex_created_schema E
    eq_refl eq_refl).
Defined.

Definition ex_receive : ReceiveTransaction := mkReceive StatusInProgress "sender" "hash" (ex_wei 120) ∅.

Lemma receive_releases_lock_witness :
  is_locked 1 "ETH" "1" (db ex_created) = true /\
  is_locked 1 "ETH" "1" (db (Receive 1 1 ex_receive ex_created).2) = false /\
  balances (db (Receive 1 1 ex_receive ex_created).2) = balances (db ex_created).
Proof.
  assert (is_ok (Receive 1 1 ex_receive ex_created).1 = true) as Hr by (vm_compute; reflexivity).
  split; [vm_compute; reflexivity|]. split; [vm_compute; reflexivity|].
  pose proof (receive_releases_lock 1 1 ex_receive ex_created ex_created_schema) as H.
  destruct (Receive 1 1 ex_receive ex_created) as [[tx|e|p] w']; [|discriminate Hr|discriminate Hr].
  apply H.
Defined.

Lemma create_then_get_witness :
  exists tx, (Create 1 ex_invoice false ex_locked).1 = Ok tx /\ (GetByID 1 (tx_ID tx) ex_created).1 = Ok tx /\
    val (tx_Amount tx) = 100.
Proof.
  assert (is_ok (Create 1 ex_invoice false ex_locked).1 = true) as Hr by (vm_compute; reflexivity).
  unfold ex_created. destruct (Create 1 ex_invoice false ex_locked) as [[tx|e|p] w1] eqn:E; [|discriminate Hr|discriminate Hr].
  destruct (create_then_get 1 ex_invoice false ex_locked w1 tx ex_locked_schema E) as (Hg & _ & _ & _ & _ & Ha).
  exists tx. split; [reflexivity|]. split; [exact Hg|exact Ha].
Defined.
