(* ===== verification/Merchant.v ===== *)
(** * Merchant: merchants, their settings and withdrawal addresses

    [internal/service/merchant]: [model.go] (settings are text values under
    property names), [service.go] (merchants, payment methods, the expiration
    of payments) and [service_address.go] (the addresses a merchant withdraws
    to). The currency resolver is the interface of [Currencies]; the order in
    which a Go map is traversed is a parameter ([MapOrder]). *)

From S2P Require Import Prelude GoLib KmsWallet Money Repository Queries PaymentQueries Currencies.

Definition ErrMerchantNotFound : error := ESentinel "merchant.ErrMerchantNotFound".
Definition ErrAddressNotFound : error := ESentinel "merchant.ErrAddressNotFound".
Definition ErrAddressAlreadyExists : error := ESentinel "merchant.ErrAddressAlreadyExists".
Definition ErrAddressReserved : error := ESentinel "merchant.ErrAddressReserved".

(** ** model.go *)
Definition PropertyWebhookURL : string := "webhook.url".
Definition PropertySignatureSecret : string := "webhook.secret".
Definition PropertyPaymentMethods : string := "payment.methods".
Definition PropertyDefaultPaymentExpirationMinutes : string := "payment.default_expiration_minutes".
Definition DefaultPaymentExpirationMinutes : Z := 20.
Definition MinPaymentExpirationMinutes : Z := 1.
Definition MaxPaymentExpirationMinutes : Z := 1440.
Definition Minute : Z := 60 * 1000000000.

(** A nil map behaves as the empty one: it is only read, or made first. *)
Abbreviation Settings := (gmap string string).

Record Merchant := mkMerchant {
  mer_ID : Z; mer_UUID : string; mer_CreatedAt : Z; mer_UpdatedAt : Z; mer_Name : string;
  mer_Website : string; mer_CreatorID : Z; mer_settings : Settings
}.

Definition setting (s : Settings) (k : string) : string := default "" (s !! k).

Definition WebhookURL (s : Settings) : string := setting s PropertyWebhookURL.
Definition WebhookSignatureSecret (s : Settings) : string := setting s PropertySignatureSecret.

Definition PaymentMethods (s : Settings) : list string :=
  let raw := setting s PropertyPaymentMethods in
  if bool_decide (raw = "") then [] else Split raw ",".

Definition ValidatePaymentExpirationMinutes (minutes : Z) : res unit :=
  guard_err ((minutes <? MinPaymentExpirationMinutes) || (MaxPaymentExpirationMinutes <? minutes))
    (ENew "default expiration must be between 1 and 1440 minutes").

Definition Settings_DefaultPaymentExpirationMinutes (s : Settings) : Z :=
  let raw := setting s PropertyDefaultPaymentExpirationMinutes in
  if bool_decide (raw = "") then DefaultPaymentExpirationMinutes else
  match Atoi raw with
  | None => DefaultPaymentExpirationMinutes
  | Some minutes => if is_ok (ValidatePaymentExpirationMinutes minutes) then minutes else DefaultPaymentExpirationMinutes
  end.

Definition PaymentExpirationPeriod (s : Settings) : Z :=
  (Settings_DefaultPaymentExpirationMinutes s * Minute)%i64.

Definition toJSONB (s : Settings) : JSONB := if bool_decide (s = ∅) then jsonb_null else mkJSONB s Present.

Record Address := mkAddress {
  adr_ID : Z; adr_UUID : string; adr_CreatedAt : Z; adr_UpdatedAt : Z; adr_Name : string; adr_MerchantID : Z;
  adr_Blockchain : string; adr_BlockchainName : string; adr_Address : string
}.

(** ** service.go *)

(** The error of [json.Unmarshal] is dropped: a NULL column gives no settings. *)
Definition entryToMerchant (entry : Row.Merchant) : Merchant :=
  mkMerchant (Row.mt_ID entry) (Row.mt_Uuid entry) (Row.mt_CreatedAt entry) (Row.mt_UpdatedAt entry)
    (Row.mt_Name entry) (Row.mt_Website entry) (Row.mt_CreatorID entry) (jb_Bytes (Row.mt_Settings entry)).

Definition GetByID (id : Z) (withTrashed : bool) : Go Merchant :=
  entry ← not_found ErrMerchantNotFound (GetMerchantByID id withTrashed);
  mret (entryToMerchant entry).

Definition GetByUUIDAndCreatorID (merchantUUID : string) (creatorID : Z) (withTrashed : bool) : Go Merchant :=
  entry ← not_found ErrMerchantNotFound (GetMerchantByUUIDAndCreatorID merchantUUID creatorID withTrashed);
  mret (entryToMerchant entry).

Definition Create (creatorID : Z) (name website : string) (settings : Settings) : Go Merchant :=
  uuid ← uuid_New; createdAt ← time_Now; updatedAt ← time_Now;
  entry ← CreateMerchant uuid createdAt updatedAt null_time name website creatorID (toJSONB settings);
  mret (entryToMerchant entry).

Definition Update (id : Z) (name website : string) : Go Merchant :=
  _ ← GetByID id false;
  updatedAt ← time_Now;
  entry ← not_found ErrMerchantNotFound (UpdateMerchant id updatedAt name website);
  mret (entryToMerchant entry).

Definition ListByCreatorID (creatorID : Z) : Go (list Merchant) :=
  r ← attempt (ListMerchantsByCreatorID creatorID false);
  match r with
  | inr e => if errors_Is e ErrNoRows then mret [] else fail e
  | inl entries => mret (map entryToMerchant entries)
  end.

Definition with_merchant_settings (settings : Settings) (m : Merchant) : Merchant :=
  mkMerchant (mer_ID m) (mer_UUID m) (mer_CreatedAt m) (mer_UpdatedAt m) (mer_Name m) (mer_Website m)
    (mer_CreatorID m) settings.

(** The merchant the caller passed is changed; it is returned as it is left. *)
Definition UpsertSettings (merchant : Merchant) (settings : Settings) : Go Merchant :=
  let merchant := with_merchant_settings (settings ∪ mer_settings merchant) merchant in
  updatedAt ← time_Now;
  _ ← UpdateMerchantSettings (mer_ID merchant) updatedAt (toJSONB (mer_settings merchant));
  mret merchant.

Definition UpdatePaymentSettings (merchant : Merchant) (defaultExpirationMinutes : Z) : Go Merchant :=
  _ ← lift (ValidatePaymentExpirationMinutes defaultExpirationMinutes);
  UpsertSettings merchant {[PropertyDefaultPaymentExpirationMinutes := FormatInt defaultExpirationMinutes]}.

Definition DeleteByUUID (merchantUUID : string) : Go unit := SoftDeleteMerchantByUUID merchantUUID.

Section Methods.
Context `{Resolver} `{MapOrder}.

(** [SupportedCurrency]: a currency and whether it is enabled. *)
Definition ListSupportedCurrencies (merchant : Merchant) : list (CryptoCurrency * bool) :=
  let all := SupportedCurrencies false in
  let enabledTickers : gset string := list_to_set (PaymentMethods (mer_settings merchant)) in
  if bool_decide (enabledTickers = ∅) then map (fun c => (c, true)) all
  else map (fun c => (c, bool_decide (cc_Ticker c ∈ enabledTickers))) all.

Definition available_tickers : gset string := list_to_set (map cc_Ticker (SupportedCurrencies false)).

Definition UpdateSupportedMethods (merchant : Merchant) (tickers : list string) : Go Merchant :=
  if bool_decide (tickers = []) then fail (ENew "tickers are empty") else
  let keys := map_order (elements (list_to_set tickers : gset string)) in
  match List.find (fun t => negb (bool_decide (t ∈ available_tickers))) keys with
  | Some ticker => fail (ENew ("ticker " +:+ ticker +:+ " doesn't exist"))
  | None => UpsertSettings merchant {[PropertyPaymentMethods := Join keys ","]}
  end.
End Methods.

(** ** service_address.go *)
Section Addresses.
Context `{Resolver} `{Btcutil}.

Definition entryToAddress (entry : Row.MerchantAddress) : res Address :=
  let make coin := mkAddress (Row.ma_ID entry) (Row.ma_Uuid entry) (Row.ma_CreatedAt entry) (Row.ma_UpdatedAt entry)
    (Row.ma_Name entry) (Row.ma_MerchantID entry) (Row.ma_Blockchain entry) (cc_BlockchainName coin)
    (Row.ma_Address entry) in
  match GetNativeCoin (Row.ma_Blockchain entry) with
  | Ok coin => Ok (make coin)
  | Err _ => Ok (make zero_crypto)
  | Panic p => Panic p
  end.

Fixpoint entries_to_addresses (entries : list Row.MerchantAddress) : res (list Address) :=
  match entries with
  | [] => Ok []
  | e :: entries =>
    a ← wrap (entryToAddress e) "unable to convert entry to merchant address";
    rest ← entries_to_addresses entries; mret (a :: rest)
  end.

Definition ListMerchantAddresses (merchantID : Z) : Go (list Address) :=
  entries ← wrapM (PaymentQueries.ListMerchantAddresses merchantID) "unable to list merchant addresses";
  lift (entries_to_addresses entries).

Record CreateMerchantAddressParams := mkCreateMerchantAddressParams {
  ca_Name : string; ca_Blockchain : string; ca_Address : string
}.

Definition GetMerchantAddressByUUID (merchantID : Z) (id : string) : Go Address :=
  entry ← not_found ErrAddressNotFound (PaymentQueries.GetMerchantAddressByUUID merchantID id);
  lift (entryToAddress entry).

Definition GetMerchantAddressByID (merchantID id : Z) : Go Address :=
  entry ← not_found ErrAddressNotFound (PaymentQueries.GetMerchantAddressByID merchantID id);
  lift (entryToAddress entry).

(** The errors of the two lookups are dropped: a failed one gives the zero row. *)
Definition CreateMerchantAddress (merchantID : Z) (params : CreateMerchantAddressParams) : Go Address :=
  _ ← lift (ValidateAddress (ca_Blockchain params) (ca_Address params));
  existing ← attempt (GetMerchantAddressByAddress merchantID (ca_Address params) (ca_Blockchain params));
  let existingID := match existing with inl a => Row.ma_ID a | inr _ => 0 end in
  if negb (existingID =? 0) then fail ErrAddressAlreadyExists else
  system ← attempt (CheckSystemWalletExistsByAddress (ca_Address params));
  let systemID := match system with inl w => Row.w_ID w | inr _ => 0 end in
  if negb (systemID =? 0) then fail ErrAddressReserved else
  uuid ← uuid_New; createdAt ← time_Now; updatedAt ← time_Now;
  entry ← PaymentQueries.CreateMerchantAddress createdAt updatedAt uuid merchantID (ca_Name params)
    (ca_Blockchain params) (ca_Address params);
  lift (entryToAddress entry).

Definition UpdateMerchantAddress (merchantID : Z) (id name : string) : Go Address :=
  address ← GetMerchantAddressByUUID merchantID id;
  updatedAt ← time_Now;
  entry ← PaymentQueries.UpdateMerchantAddress merchantID (adr_ID address) name updatedAt;
  lift (entryToAddress entry).

Definition DeleteMerchantAddress (merchantID : Z) (id : string) : Go unit :=
  address ← GetMerchantAddressByUUID merchantID id;
  PaymentQueries.DeleteMerchantAddress merchantID (adr_ID address).
End Addresses.

(** ** Lemmas: the address book *)
Lemma one_select_dec {A} (p : A -> bool) (t : Table A) :
  one (select p t) = Err ErrNoRows /\ existsb p (rows t) = false \/
  exists r, one (select p t) = Ok r /\ r ∈ rows t /\ p r = true /\ existsb p (rows t) = true.
Proof.
  unfold select. induction (rows t) as [|x l IH]; simpl; [by left|].
  destruct (p x) eqn:E; simpl.
  - right. exists x. split; [done|]. split; [by left|done].
  - destruct IH as [[? ?]|(r & ? & ? & ? & ?)]; [left; by split|right].
    exists r. split; [done|]. split; [by right|]. by split.
Qed.

Section AddressBook.
Context `{Resolver} `{Btcutil}.

Definition address_key (a : Row.MerchantAddress) : option (Z * string * string) :=
  Some (Row.ma_MerchantID a, Row.ma_Blockchain a, Row.ma_Address a).

(** No merchant has an address twice, and every address is one of its blockchain. *)
Definition book_ok (d : DB) : Prop :=
  uniq_on address_key (merchant_addresses d) /\
  all_rows (fun a => ValidateAddress (Row.ma_Blockchain a) (Row.ma_Address a) = Ok tt) (merchant_addresses d).

Definition taken (merchantID : Z) (p : CreateMerchantAddressParams) (d : DB) : bool :=
  existsb (fun a => (Row.ma_MerchantID a =? merchantID) && bool_decide (Row.ma_Address a = ca_Address p) &&
    bool_decide (Row.ma_Blockchain a = ca_Blockchain p)) (rows (merchant_addresses d)).

Definition reserved (p : CreateMerchantAddressParams) (d : DB) : bool :=
  existsb (fun w => bool_decide (Row.w_Address w = ca_Address p)) (rows (wallets d)).

Definition created_address (merchantID : Z) (p : CreateMerchantAddressParams) (uuid : string) (c u id : Z) :
  Row.MerchantAddress :=
  Row.mkMerchantAddress id uuid c u merchantID (ca_Name p) (ca_Blockchain p) (ca_Address p).

Definition address_outcome (merchantID : Z) (p : CreateMerchantAddressParams) (d : DB) (r : res Address) (d' : DB) : Prop :=
  match ValidateAddress (ca_Blockchain p) (ca_Address p) with
  | Ok _ =>
    if taken merchantID p d then r = Err ErrAddressAlreadyExists /\ d' = d
    else if reserved p d then r = Err ErrAddressReserved /\ d' = d
    else exists uuid c u, let mk := created_address merchantID p uuid c u in
      d' = set_merchant_addresses (insert_row mk (merchant_addresses d)) d /\
      r = entryToAddress (mk (next_id (merchant_addresses d)))
  | Err e => r = Err e /\ d' = d
  | Panic _ => False
  end.

Lemma ValidateAddress_no_panic bc a s : ValidateAddress bc a <> Panic s.
Proof. unfold ValidateAddress, validateAddress. repeat case_match; done. Qed.

Lemma wf_ids d : schema_ok d -> table_wf (merchant_addresses d) /\ table_wf (wallets d).
Proof. intros [Hwf]. unfold db_wf in Hwf. tauto. Qed.

Lemma wf_id_nonzero {A} `{HasID A} (t : Table A) r : table_wf t -> r ∈ rows t -> (row_id r =? 0) = false.
Proof. intros (_ & Hf & _) Hr. rewrite Forall_forall in Hf. specialize (Hf r Hr). lia. Qed.

Lemma wp_CreateMerchantAddress merchantID p w : schema_ok (db w) ->
  wp (CreateMerchantAddress merchantID p) w (fun r w' => address_outcome merchantID p (db w) r (db w')).
Proof.
  intros [Ha Hw]%wf_ids. unfold CreateMerchantAddress, address_outcome. do 2 wp_step.
  destruct (ValidateAddress _ _) as [[]|e|s] eqn:Ev; [|done|by apply ValidateAddress_no_panic in Ev].
  do 2 wp_step. apply wp_read. intros w1 E1. unfold taken.
  destruct (one_select_dec (fun a => (Row.ma_MerchantID a =? merchantID) && bool_decide (Row.ma_Address a = ca_Address p) &&
    bool_decide (Row.ma_Blockchain a = ca_Blockchain p)) (merchant_addresses (db w)))
    as [[Eo Ex]|(a & Eo & Hin & Hp & Ex)]; rewrite Eo, Ex; cbn [negb Z.eqb].
  2: { rewrite (wf_id_nonzero _ _ Ha Hin : (Row.ma_ID a =? 0) = false). cbn [negb]. wp_step. by split. }
  do 2 wp_step. apply wp_read. intros w2 E2. unfold reserved. rewrite E1.
  destruct (one_select_dec (fun w => bool_decide (Row.w_Address w = ca_Address p)) (wallets (db w)))
    as [[Eo2 Ex2]|(x & Eo2 & Hin & Hp & Ex2)]; rewrite Eo2, Ex2; cbn [negb Z.eqb].
  2: { rewrite (wf_id_nonzero _ _ Hw Hin : (Row.w_ID x =? 0) = false). cbn [negb]. wp_step. by rewrite E2, E1. }
  wp_step. apply wp_uuid. intros uuid w3 E3. wp_step. apply wp_now. intros c w4 E4.
  wp_step. apply wp_now. intros u w5 E5. wp_step. apply wp_query. intros w6 E6. cbn [fst snd] in *. wp_step.
  exists uuid, c, u. rewrite E6. by rewrite E5, E4, E3, E2, E1.
Qed.

Lemma wp_GetMerchantAddressByUUID merchantID id w (Q : res Address -> world -> Prop) :
  (forall w' r, db w' = db w -> Q r w') -> wp (GetMerchantAddressByUUID merchantID id) w Q.
Proof.
  intros HQ. unfold GetMerchantAddressByUUID. wp_step. apply wp_not_found, wp_read. intros w1 E1.
  destruct (one _); cbn beta iota; by apply HQ.
Qed.

Lemma book_insert merchantID p uuid c u d :
  ValidateAddress (ca_Blockchain p) (ca_Address p) = Ok tt -> taken merchantID p d = false -> book_ok d ->
  book_ok (set_merchant_addresses (insert_row (created_address merchantID p uuid c u) (merchant_addresses d)) d).
Proof.
  intros Hv Ht [Hu Ha]. split; simpl.
  - apply uniq_insert; [|done]. intros r Hr _ Hk. unfold address_key in Hk. simpl in Hk. injection Hk as K1 K2 K3.
    pose proof (existsb_false _ _ Ht r Hr) as Hf. simpl in Hf.
    by rewrite K1, K2, K3, Z.eqb_refl, !bool_decide_true in Hf.
  - by apply all_insert.
Qed.
End AddressBook.

(** ** Lemmas: settings *)
Lemma setting_insert s k v : setting ({[k := v]} ∪ s) k = v.
Proof.
  unfold setting. erewrite lookup_union_Some_l; [done|]. apply lookup_singleton_eq.
Qed.

Lemma expiration_minutes_bounds s : 1 <= Settings_DefaultPaymentExpirationMinutes s <= 1440.
Proof.
  unfold Settings_DefaultPaymentExpirationMinutes, ValidatePaymentExpirationMinutes, guard_err,
    MinPaymentExpirationMinutes, MaxPaymentExpirationMinutes, DefaultPaymentExpirationMinutes.
  case_bool_decide; [lia|]. destruct (Atoi _) as [n|]; [|lia].
  destruct ((n <? 1) || (1440 <? n)) eqn:E; simpl; lia.
Qed.

Lemma PaymentExpirationPeriod_eq s : PaymentExpirationPeriod s = Settings_DefaultPaymentExpirationMinutes s * Minute.
Proof.
  unfold PaymentExpirationPeriod. apply int64_small. pose proof (expiration_minutes_bounds s).
  unfold in_int64, Minute. lia.
Qed.

Lemma expiration_set s n : 1 <= n <= 1440 ->
  Settings_DefaultPaymentExpirationMinutes ({[PropertyDefaultPaymentExpirationMinutes := FormatInt n]} ∪ s) = n.
Proof.
  intros Hn. unfold Settings_DefaultPaymentExpirationMinutes. rewrite setting_insert.
  rewrite bool_decide_false.
  - rewrite Atoi_FormatInt by (unfold in_int64; lia).
    unfold ValidatePaymentExpirationMinutes, guard_err, MinPaymentExpirationMinutes, MaxPaymentExpirationMinutes.
    by replace ((n <? 1) || (1440 <? n)) with false by lia.
  - intros Hf. assert (Atoi (FormatInt n) = Some n) as Ha by (apply Atoi_FormatInt; unfold in_int64; lia).
    rewrite Hf in Ha. done.
Qed.

(** A ticker that survives [strings.Join] and [strings.Split]. *)
Definition plain (t : string) : Prop := t <> "" /\ no_char "," (bytes t).

Lemma Split_Join l : l <> [] -> Forall plain l -> Split (Join l ",") "," = l.
Proof.
  intros Hl Hp. unfold Split, Join. rewrite bytes_of_bytes, split_join_char.
  - rewrite <- list_fmap_compose. rewrite <- (list_fmap_id l) at 2. apply list_fmap_ext. intros i x _.
    apply of_bytes_bytes.
  - by destruct l.
  - apply Forall_fmap. eapply Forall_impl; [exact Hp|]. by intros x [_ ?].
Qed.

Lemma Join_nonempty l : l <> [] -> Forall plain l -> Join l "," <> "".
Proof.
  intros Hl Hp Hj. assert (Split (Join l ",") "," = l) as Hs by by apply Split_Join.
  rewrite Hj in Hs. unfold Split in Hs. simpl in Hs. subst l. apply Forall_inv in Hp. by destruct Hp.
Qed.

Lemma stored_settings m s d row : schema_ok d -> row ∈ rows (merchants d) -> Row.mt_ID row = mer_ID m -> forall at_,
  one (select (fun r => by_id (mer_ID m) r && trashed_ok true r)
    (update_rows (by_id (mer_ID m)) (with_settings at_ s) (merchants d))) = Ok (with_settings at_ s row).
Proof.
  intros Hok Hin Hid at_. pose proof (ok_wf _ Hok) as Hwf. unfold db_wf in Hwf. destruct_and!.
  apply one_select_unique.
  - by apply wf_update.
  - apply elem_of_update. exists row. split; [done|]. unfold by_id. change (row_id row) with (Row.mt_ID row).
    by rewrite Hid, Z.eqb_refl.
  - unfold by_id, trashed_ok. change (row_id (with_settings at_ s row)) with (Row.mt_ID row).
    by rewrite Hid, Z.eqb_refl.
  - intros x [Hx _]%andb_true_iff. unfold by_id in Hx. change (row_id (with_settings at_ s row)) with (Row.mt_ID row).
    lia.
Qed.

Lemma toJSONB_ok s : exists j, pg_jsonb (toJSONB s) = Ok j /\ jb_Bytes j = s.
Proof. unfold toJSONB. case_bool_decide as E; eexists; split; simpl; try done. Qed.

(** The settings of the stored merchant, deleted or not. *)
Definition settings_at (id : Z) (d : DB) : option Settings :=
  match one (select (fun r => by_id id r && trashed_ok true r) (merchants d)) with
  | Ok row => Some (jb_Bytes (Row.mt_Settings row))
  | _ => None
  end.

Lemma wp_UpsertSettings m s w : schema_ok (db w) -> is_Some (settings_at (mer_ID m) (db w)) ->
  wp (UpsertSettings m s) w (fun r w' =>
    r = Ok (with_merchant_settings (s ∪ mer_settings m) m) /\
    settings_at (mer_ID m) (db w') = Some (s ∪ mer_settings m)).
Proof.
  intros Hok [s0 Hs]. unfold UpsertSettings. wp_step. apply wp_now. intros at_ w1 E1. wp_step. apply wp_query.
  rewrite E1. cbn [mer_settings with_merchant_settings mer_ID].
  destruct (toJSONB_ok (s ∪ mer_settings m)) as (j & Ej & Hj). rewrite Ej. cbn [fst snd]. intros w2 E2. wp_step.
  split; [done|]. rewrite E2. unfold settings_at in *. cbn [merchants set_merchants].
  destruct (one (select _ (merchants (db w)))) as [row|e|p] eqn:Eo; [|done|done].
  destruct (one_select_inv _ _ _ Eo) as [Hin [Hp _]%andb_true_iff].
  rewrite (stored_settings m j (db w) row) by (unfold by_id in Hp; auto; apply Z.eqb_eq in Hp; done).
  simpl. by rewrite Hj.
Qed.

Lemma methods_set s l : l <> [] -> Forall plain l ->
  PaymentMethods ({[PropertyPaymentMethods := Join l ","]} ∪ s) = l.
Proof.
  intros Hl Hp. unfold PaymentMethods. rewrite setting_insert. rewrite bool_decide_false by by apply Join_nonempty.
  by apply Split_Join.
Qed.

Lemma others_kept k v (s : Settings) k' : k' <> k -> ({[k := v]} ∪ s) !! k' = s !! k'.
Proof. intros Hk. apply lookup_union_r. by apply lookup_singleton_ne. Qed.

Section Supported.
Context `{Resolver} `{MapOrder} `{!MapOrderLaws}.

Lemma keys_elem l t : t ∈ map_order (elements (list_to_set l : gset string)) <-> t ∈ l.
Proof. rewrite map_order_perm, elem_of_elements. set_solver. Qed.

Lemma available_elem t : t ∈ available_tickers <-> t ∈ map cc_Ticker (SupportedCurrencies false).
Proof. unfold available_tickers. set_solver. Qed.

Lemma enabled_methods m l : l <> [] -> (forall t, t ∈ PaymentMethods (mer_settings m) <-> t ∈ l) ->
  ListSupportedCurrencies m = map (fun c => (c, bool_decide (cc_Ticker c ∈ l))) (SupportedCurrencies false).
Proof.
  intros Hl Hm. unfold ListSupportedCurrencies. case_bool_decide as E.
  - destruct l as [|t l]; [done|]. assert (t ∈ PaymentMethods (mer_settings m)) as Ht by (apply Hm; left). set_solver.
  - apply map_ext. intros c. f_equal. apply bool_decide_ext. rewrite elem_of_list_to_set. apply Hm.
Qed.
End Supported.

(** ** Properties *)

(** C32. The address book of a merchant is guarded: an address is added exactly
    when it is valid for its blockchain, the merchant does not have it yet and
    no wallet of the gateway uses it, as one new row that the call returns;
    otherwise the call fails with the error of the first violated condition
    and changes nothing. Through additions, renamings and deletions no
    merchant ever has an address twice (no constraint of the database says
    so) and every stored address stays valid. *)
Theorem address_book `{Resolver} `{Btcutil} (merchantID : Z) (p : CreateMerchantAddressParams) (id name : string)
  (w : world) (Hok : schema_ok (db w)) (Hb : book_ok (db w)) :
  (let '(r, w') := CreateMerchantAddress merchantID p w in
   address_outcome merchantID p (db w) r (db w') /\ book_ok (db w')) /\
  book_ok (db (UpdateMerchantAddress merchantID id name w).2) /\
  book_ok (db (DeleteMerchantAddress merchantID id w).2).
Proof.
  split; [|split].
  - pose proof (wp_CreateMerchantAddress merchantID p w Hok) as Ho. unfold wp in Ho.
    destruct (CreateMerchantAddress merchantID p w) as [r w']. split; [done|]. revert Ho. unfold address_outcome. simpl.
    destruct (ValidateAddress _ _) as [[]|e|s] eqn:Ev; [|by intros [_ ->]|done].
    destruct (taken _ _ _) eqn:Et; [by intros [_ ->]|]. destruct (reserved _ _); [by intros [_ ->]|].
    intros (uuid & c & u & -> & _). by apply book_insert.
  - change (wp (UpdateMerchantAddress merchantID id name) w (fun _ w' => book_ok (db w'))).
    unfold UpdateMerchantAddress. wp_step. apply wp_GetMerchantAddressByUUID. intros w1 [a|e|s] E1; rewrite <- E1 in Hb; [|done..].
    wp_step. apply wp_now. intros at_ w2 E2. wp_step. apply wp_query. intros w3 E3.
    assert (book_ok (db w3)) as Hb3; [|by destruct (_.1); [wp_step|..]].
    rewrite E3, E2. destruct Hb as [Hu Ha]. split; simpl; [apply uniq_update; auto|by apply all_update].
  - change (wp (DeleteMerchantAddress merchantID id) w (fun _ w' => book_ok (db w'))).
    unfold DeleteMerchantAddress. wp_step. apply wp_GetMerchantAddressByUUID. intros w1 [a|e|s] E1; rewrite <- E1 in Hb; [|done..].
    apply wp_query. intros w2 E2. rewrite E2. destruct Hb as [Hu Ha]. split; simpl; [by apply uniq_delete|by apply all_delete].
Qed.

(** Settings read back as they were written: [UpdatePaymentSettings]
    succeeds exactly for 1 to 1440 minutes and then payments expire after that
    many minutes; [UpdateSupportedMethods] succeeds exactly for a non-empty
    list of supported tickers and then exactly those are enabled, whatever
    order the tickers are joined in. The other settings keep their values, the
    stored merchant has the settings returned, and a failed call changes
    nothing. *)
Theorem settings_roundtrip `{Resolver} `{MapOrder} `{!MapOrderLaws} (m : Merchant) (minutes : Z) (tickers : list string)
  (w : world) (Hok : schema_ok (db w)) (Hm : is_Some (settings_at (mer_ID m) (db w)))
  (Hplain : Forall (fun c => plain (cc_Ticker c)) (SupportedCurrencies false)) :
  (let '(r, w') := UpdatePaymentSettings m minutes w in match r with
   | Ok m' => 1 <= minutes <= 1440 /\ PaymentExpirationPeriod (mer_settings m') = minutes * Minute /\
       settings_at (mer_ID m) (db w') = Some (mer_settings m') /\
       forall k, k <> PropertyDefaultPaymentExpirationMinutes -> mer_settings m' !! k = mer_settings m !! k
   | Err _ => ~ (1 <= minutes <= 1440) /\ w' = w
   | Panic _ => False
   end) /\
  (let '(r, w') := UpdateSupportedMethods m tickers w in match r with
   | Ok m' => tickers <> [] /\ Forall (fun t => t ∈ map cc_Ticker (SupportedCurrencies false)) tickers /\
       ListSupportedCurrencies m' = map (fun c => (c, bool_decide (cc_Ticker c ∈ tickers))) (SupportedCurrencies false) /\
       settings_at (mer_ID m) (db w') = Some (mer_settings m') /\
       forall k, k <> PropertyPaymentMethods -> mer_settings m' !! k = mer_settings m !! k
   | Err _ => (tickers = [] \/ Exists (fun t => t ∉ map cc_Ticker (SupportedCurrencies false)) tickers) /\ w' = w
   | Panic _ => False
   end).
Proof.
  split.
  - unfold UpdatePaymentSettings, ValidatePaymentExpirationMinutes, guard_err, MinPaymentExpirationMinutes,
      MaxPaymentExpirationMinutes.
    destruct ((minutes <? 1) || (1440 <? minutes)) eqn:E; [simpl; split; [lia|done]|].
    change (lift (Ok tt) ≫= _) with (UpsertSettings m {[PropertyDefaultPaymentExpirationMinutes := FormatInt minutes]}).
    pose proof (wp_UpsertSettings m {[PropertyDefaultPaymentExpirationMinutes := FormatInt minutes]} w Hok Hm) as Hw.
    unfold wp in Hw. destruct (UpsertSettings _ _ w) as [r w']. simpl in Hw. destruct Hw as [-> Hs]. simpl.
    split; [lia|]. rewrite PaymentExpirationPeriod_eq, expiration_set by lia. split; [done|]. split; [done|].
    intros k Hk. by apply others_kept.
  - unfold UpdateSupportedMethods. case_bool_decide as Hnil; [simpl; by split; [left|]|].
    set (keys := map_order _). destruct (List.find _ keys) as [t|] eqn:Ef.
    + apply find_some in Ef as [Hin Hna]. simpl. split; [|done]. right. apply Exists_exists. exists t.
      rewrite <- list_elem_of_In in Hin. split; [by apply keys_elem|].
      apply negb_true_iff, bool_decide_eq_false in Hna. by rewrite <- available_elem.
    + assert (forall t, t ∈ tickers -> t ∈ map cc_Ticker (SupportedCurrencies false)) as Hall.
      { intros t Ht. apply available_elem. pose proof (find_none _ _ Ef t) as Hn. rewrite <- list_elem_of_In in Hn.
        specialize (Hn (proj2 (keys_elem _ _) Ht)). apply negb_false_iff, bool_decide_eq_true in Hn. done. }
      pose proof (wp_UpsertSettings m {[PropertyPaymentMethods := Join keys ","]} w Hok Hm) as Hw.
      unfold wp in Hw. destruct (UpsertSettings _ _ w) as [r w']. simpl in Hw. destruct Hw as [-> Hs]. simpl.
      split; [done|]. split; [by apply Forall_forall|]. split; [|split; [done|intros k Hk; by apply others_kept]].
      assert (keys <> []) as Hk.
      { destruct tickers as [|t l]; [done|]. intros Hk. assert (t ∈ keys) as Ht by (apply keys_elem; left).
        rewrite Hk in Ht. by apply not_elem_of_nil in Ht. }
      apply enabled_methods; [done|]. intros t. simpl. rewrite methods_set; [apply keys_elem|done|].
      apply Forall_forall. intros x Hx%keys_elem%Hall. apply list_elem_of_In, in_map_iff in Hx as (c & <- & Hc).
      rewrite Forall_forall in Hplain. by apply Hplain, list_elem_of_In.
Qed.

(** ** Witnesses *)
Definition eth_coin : CryptoCurrency := mkCrypto "ETH" "Ethereum" "1" "5" Coin "ETH" "ETH" 18 "" "" [] false.
Definition eth_usdt : CryptoCurrency :=
  mkCrypto "ETH" "Ethereum" "1" "5" Token "ETH_USDT" "USDT" 6 "0xdac1" "0x7169" [] false.
Definition eth_resolver : Resolver :=
  CurrencyResolver_Resolver (addCurrency (addCurrency NewCurrencies eth_coin) eth_usdt).
Definition eth_address : CreateMerchantAddressParams :=
  mkCreateMerchantAddressParams "cold" "ETH" "0x71C7656EC7ab88b098defB751B7401B5f6d8976F".
Definition sorted_order : MapOrder := fun l => l.
#[local] Instance sorted_order_laws : @MapOrderLaws sorted_order.
Proof. intros l. done. Qed.

Lemma Create_schema creatorID name website settings : steps schema_step (Create creatorID name website settings).
Proof. unfold Create. go_steps. Qed.

Definition shop_world : world := (Create 1 "shop" "https://shop.example" ∅ empty_world).2.
Definition shop : Merchant := mkMerchant 1 "" 0 0 "shop" "https://shop.example" 1 ∅.

Lemma shop_schema : schema_ok (db shop_world).
Proof. apply (Create_schema 1 "shop" "https://shop.example" ∅ empty_world), schema_empty. Qed.

Lemma address_book_witness :
  is_ok (CreateMerchantAddress (H := eth_resolver) (H0 := fun _ _ => None) 7 eth_address empty_world).1 = true /\
  @book_ok (fun _ _ => None) (db (CreateMerchantAddress (H := eth_resolver) (H0 := fun _ _ => None) 7 eth_address empty_world).2).
Proof.
  split; [by vm_compute|].
  exact (proj2 (proj1 (address_book (H := eth_resolver) (H0 := fun _ _ => None) 7 eth_address "" "" empty_world schema_empty
    (conj (uniq_empty _) (all_empty _))))).
Defined.

Lemma settings_roundtrip_witness :
  let '(r, w') := UpdateSupportedMethods (H := eth_resolver) (H0 := sorted_order) shop ["ETH_USDT"] shop_world in
  match r with
  | Ok m' => ListSupportedCurrencies (H := eth_resolver) m' = [(eth_coin, false); (eth_usdt, true)]
  | _ => False
  end.
Proof.
  pose proof (settings_roundtrip (H := eth_resolver) (H0 := sorted_order) shop 30 ["ETH_USDT"] shop_world shop_schema
    ltac:(vm_compute; by eexists) ltac:(apply (bool_decide_eq_true_1 _); vm_compute; reflexivity)) as Hw.
  assert (is_ok (UpdateSupportedMethods (H := eth_resolver) (H0 := sorted_order) shop ["ETH_USDT"] shop_world).1 = true) as Hr
    by by vm_compute.
  apply proj2 in Hw. revert Hw Hr. generalize (UpdateSupportedMethods (H := eth_resolver) (H0 := sorted_order) shop ["ETH_USDT"] shop_world).
  intros [[m'|e|p] w']; [|done..]. intros (_ & _ & Hl & _) _. rewrite Hl. by vm_compute.
Defined.
