(* ===== verification/Payment.v ===== *)
(** * Payment: payments, payment links and customers

    [internal/service/payment]: [model.go], [service.go] (creating, reading,
    listing, expiring and updating payments), [service_link.go] (links that
    create payments) and [service_customer.go] (customers of a merchant).
    Withdrawals are in [Withdrawal]. Parsing a uuid or a mail address, random
    slugs and the event bus are interfaces of this component. *)

From S2P Require Import Prelude GoLib Float64 KmsWallet NetUrl Money Repository Queries PaymentQueries.
From S2P Require WalletBalance Merchant.
From S2P Require Import Currencies Transaction.

(** [github.com/google/uuid], [mail.ParseAddress], [util.Strings.Random] and
    the publisher of the event bus (which may fail). *)
Class Uuid := uuid_Parse : string -> option string.
Class Mail := ParseAddress_ok : string -> bool.
Class RandomStrings := Random : Z -> nat -> string.
Class Publisher := Publish : string -> Z -> Z -> nat -> res unit.

Definition uuid_Nil : string := "00000000-0000-0000-0000-000000000000".
Definition TopicPaymentStatusUpdate : string := "payment.status".
Definition TopicWithdrawals : string := "withdrawal".

(** ** model.go *)
Definition TypePayment : string := "payment".
Definition TypeWithdrawal : string := "withdrawal".

Definition StatusPending : string := "pending".
Definition StatusLocked : string := "locked".
Definition StatusInProgress : string := "inProgress".
Definition StatusSuccess : string := "success".
Definition StatusFailed : string := "failed".

Definition MetaBalanceID : string := "balanceID".
Definition MetaAddressID : string := "addressID".
Definition MetaInternalPayment : string := "internalPayment".
Definition MetaLinkID : string := "linkID".
Definition MetaLinkSuccessAction : string := "linkSuccessAction".
Definition MetaLinkSuccessMessage : string := "linkSuccessMessage".

Definition SuccessActionRedirect : string := "redirect".
Definition SuccessActionShowMessage : string := "showMessage".

Record Payment := mkPayment {
  pay_ID : Z; pay_PublicID : string; pay_CreatedAt : Z; pay_UpdatedAt : Z; pay_ExpiresAt : option Z;
  pay_Type : string; pay_Status : string; pay_MerchantID : Z; pay_MerchantOrderUUID : string;
  pay_MerchantOrderID : option string; pay_Price : Money; pay_RedirectURL : string; pay_PaymentURL : string;
  pay_WebhookSentAt : option Z; pay_Description : option string; pay_IsTest : bool; pay_CustomerID : option Z;
  pay_metadata : metadata
}.

Definition IsEditable (p : Payment) : bool := bool_decide (pay_Status p = StatusPending).

Definition PublicStatus (p : Payment) : string :=
  if one_of (pay_Status p) [StatusPending; StatusLocked] then StatusPending else pay_Status p.

Definition receivedPayment (p : Payment) : bool := one_of (PublicStatus p) [StatusInProgress; StatusSuccess].

Definition LinkSuccessAction (p : Payment) : option string := pay_metadata p !! MetaLinkSuccessAction.
Definition LinkSuccessMessage (p : Payment) : option string := pay_metadata p !! MetaLinkSuccessMessage.

Definition PublicSuccessAction (p : Payment) : option string :=
  if negb (receivedPayment p) then None else
  match LinkSuccessAction p with Some a => Some a | None => Some SuccessActionRedirect end.

Definition PublicSuccessURL (p : Payment) : option string :=
  if negb (receivedPayment p) then None else
  match PublicSuccessAction p with
  | Some a => if bool_decide (a = SuccessActionRedirect) then Some (pay_RedirectURL p) else None
  | None => Some (pay_RedirectURL p)
  end.

Definition PublicSuccessMessage (p : Payment) : option string :=
  if negb (receivedPayment p) then None else LinkSuccessMessage p.

(** [strconv.Atoi] with its error dropped: the value is then 0, or the nearest
    [int] when the numeral is out of range. *)
Definition atoi_value (s : string) : Z :=
  match bigint_SetString s with Some z => Z.max (- 2 ^ 63) (Z.min (2 ^ 63 - 1) z) | None => 0 end.
Definition meta_int (p : Payment) (k : string) : Z := atoi_value (default "" (pay_metadata p !! k)).

Definition WithdrawalBalanceID (p : Payment) : Z := meta_int p MetaBalanceID.
Definition WithdrawalAddressID (p : Payment) : Z := meta_int p MetaAddressID.
Definition LinkID (p : Payment) : Z := meta_int p MetaLinkID.

(** [t.Sub(u)] saturates at the range of [int64]. *)
Definition time_Sub (t u : Z) : Z := Z.max (- 2 ^ 63) (Z.min (2 ^ 63 - 1) (t - u)).

Definition ExpirationDurationMin (p : Payment) : Z :=
  match pay_ExpiresAt p with
  | Some expiresAt =>
    if negb (pay_UpdatedAt p =? 0) && (pay_UpdatedAt p <? expiresAt) then
      let duration := time_Sub expiresAt (pay_UpdatedAt p) in
      let minutes := Z.quot (duration + Merchant.Minute - 1)%i64 Merchant.Minute in
      if is_ok (Merchant.ValidatePaymentExpirationMinutes minutes) then minutes
      else Merchant.DefaultPaymentExpirationMinutes
    else Merchant.DefaultPaymentExpirationMinutes
  | None => Merchant.DefaultPaymentExpirationMinutes
  end.

Record Method := mkMethod {
  me_Currency : CryptoCurrency; me_TransactionID : Z; me_NetworkID : string; me_IsTest : bool;
  me_tx : Transaction
}.

Record Customer := mkCustomer {
  cus_ID : Z; cus_MerchantID : Z; cus_UUID : string; cus_CreatedAt : Z; cus_UpdatedAt : Z; cus_Email : string
}.

Record CustomerDetails := mkCustomerDetails {
  cd_Customer : Customer; cd_SuccessfulPayments : Z; cd_RecentPayments : list Payment
}.

(** ** service.go *)
Definition Hour : Z := 60 * Merchant.Minute.
Definition ExpirationPeriodForLocked : Z := 20 * Merchant.Minute.
Definition ExpirationPeriodForNotLocked : Z := 6 * Hour.
Definition limitDefault : Z := 50.
Definition limitMax : Z := 100.

Definition ErrNotFound : error := ESentinel "payment.ErrNotFound".
Definition ErrAlreadyExists : error := ESentinel "payment.ErrAlreadyExists".
Definition ErrValidation : error := ESentinel "payment.ErrValidation".
Definition ErrLinkValidation : error := ESentinel "payment.ErrLinkValidation".
Definition ErrPaymentMethodNotSet : error := ESentinel "payment.ErrPaymentMethodNotSet".
Definition ErrPaymentLocked : error := ESentinel "payment.ErrPaymentLocked".
Definition ErrInvalidLimit : error := ESentinel "payment.ErrInvalidLimit".
Definition ErrAddressBalanceMismatch : error := ESentinel "payment.ErrAddressBalanceMismatch".
Definition ErrWithdrawalInsufficientBalance : error := ESentinel "payment.ErrWithdrawalInsufficientBalance".
Definition ErrWithdrawalAmountTooSmall : error := ESentinel "payment.ErrWithdrawalAmountTooSmall".

Definition paymentPrice (p : Row.Payment) (meta : metadata) : res Money :=
  let decimals := Row.p_Decimals p in
  bigInt ← NumericToBigInt (Row.p_Price p);
  let isInternal := bool_decide (is_Some (meta !! MetaInternalPayment)) in
  let isPayment := bool_decide (Row.p_Type p = TypePayment) in
  if bool_decide (Row.p_Type p = TypeWithdrawal) || (isPayment && isInternal) then
    NewFromBigInt Crypto (Row.p_Currency p) (Some bigInt) decimals
  else if isPayment then
    currency ← MakeFiatCurrency (Row.p_Currency p);
    NewFromBigInt Fiat currency (Some bigInt) decimals
  else Err (ENew "unable to get payment price").

Section Reading.
(** The address of the payment pages. *)
Context (basePath : string).

Definition paymentURL (id : string) : string := basePath +:+ "/pay/" +:+ id.

Definition entryToPayment (p : Row.Payment) : res Payment :=
  let metadata := if bool_decide (jb_Status (Row.p_Metadata p) = Present) then jb_Bytes (Row.p_Metadata p) else ∅ in
  price ← paymentPrice p metadata;
  let url := if bool_decide (Row.p_Type p = TypePayment) then paymentURL (Row.p_PublicID p) else "" in
  mret (mkPayment (Row.p_ID p) (Row.p_PublicID p) (Row.p_CreatedAt p) (Row.p_UpdatedAt p)
    (NullTimeToPointer (Row.p_ExpiresAt p)) (Row.p_Type p) (Row.p_Status p) (Row.p_MerchantID p)
    (Row.p_MerchantOrderUuid p) (NullableStringToPointer (Row.p_MerchantOrderID p)) price (Row.p_RedirectUrl p) url
    (NullTimeToPointer (Row.p_WebhookSentAt p)) (NullableStringToPointer (Row.p_Description p)) (Row.p_IsTest p)
    (NullableInt64ToPointer (Row.p_CustomerID p)) metadata).

Fixpoint entriesToPayments (results : list Row.Payment) : res (list Payment) :=
  match results with
  | [] => Ok []
  | p :: results => p ← entryToPayment p; ps ← entriesToPayments results; mret (p :: ps)
  end.

Definition found_payment (m : Go Row.Payment) : Go Payment :=
  p ← not_found ErrNotFound m;
  lift (entryToPayment p).

Definition GetByID (merchantID id : Z) : Go Payment :=
  found_payment (GetPaymentByID id merchantID (negb (merchantID =? MerchantIDWildcard))).

Definition GetByMerchantOrderID (merchantID : Z) (merchantOrderUUID : string) : Go Payment :=
  found_payment (GetPaymentByMerchantIDAndOrderUUID merchantID merchantOrderUUID).

Definition GetByPublicID (publicID : string) : Go Payment := found_payment (GetPaymentByPublicID publicID).

Definition GetByMerchantIDs (merchantID : Z) (merchantOrderUUID : string) : Go Payment :=
  found_payment (GetPaymentByMerchantIDs merchantID merchantOrderUUID).

Record ListOptions := mkListOptions {
  lo_Limit : Z; lo_Cursor : string; lo_ReverseOrder : bool; lo_FilterByType : list string
}.

(** Cuts the entry behind the page off; its uuid is the cursor of the next
    page. A limit of -1 indexes an empty slice at -1. *)
Definition next_page {A} (uuid : A -> string) (limit : Z) (entries : list A) : res (list A * string) :=
  if limit <? Z.of_nat (length entries) then
    match last entries with
    | None => Panic "index out of range"
    | Some e => if limit <? 0 then Panic "slice bounds out of range" else Ok (take (Z.to_nat limit) entries, uuid e)
    end
  else Ok (entries, "").

Definition page_limit (limit : Z) : res Z :=
  let limit := int32 limit in
  let limit := if limit =? 0 then limitDefault else limit in
  if limitMax <? limit then Err ErrInvalidLimit else Ok limit.

Definition max_int64 : Z := 2 ^ 63 - 1.

Section Listing.
Context `{Uuid}.

(** The id a page starts from. *)
Definition cursor_id {A} (id : A -> Z) (get : string -> Go A) (msg : string) (opts : ListOptions) : Go Z :=
  if bool_decide (lo_Cursor opts = "") then mret (if lo_ReverseOrder opts then max_int64 else 0) else
  match uuid_Parse (lo_Cursor opts) with
  | None => fail (EWrap ErrValidation "invalid cursor")
  | Some uuid => e ← wrapM (get uuid) msg; mret (id e)
  end.

Definition List_ (merchantID : Z) (opts : ListOptions) : Go (list Payment * string) :=
  limit ← lift (page_limit (lo_Limit opts));
  fromID ← cursor_id pay_ID (GetByMerchantIDs merchantID) "unable to get fromID payment" opts;
  let filterByType := lo_FilterByType opts in
  let filter := negb (bool_decide (filterByType = [])) in
  results ← wrapM ((if lo_ReverseOrder opts then PaginatePaymentsDesc else PaginatePaymentsAsc)
    merchantID fromID (int32 (limit + 1)) filter filterByType) "unable to paginate payments";
  payments ← wrapM (lift (entriesToPayments results)) "unable to map payments";
  lift (next_page pay_MerchantOrderUUID limit payments).
End Listing.

(** The two readings of the clock. *)
Definition GetBatchExpired (limit : Z) : Go (list Payment) :=
  let lim := int32 limit in
  let lim := if lim =? 0 then limitDefault else lim in
  expiresAt ← time_Now; createdAt ← time_Now;
  results ← GetBatchExpiredPayments lim (TimeToNullable expiresAt) (createdAt - ExpirationPeriodForNotLocked)
    TypePayment [StatusPending; StatusLocked];
  lift (entriesToPayments results).

(** ** Creating *)
Record CreatePaymentProps := mkCreatePaymentProps {
  cpp_MerchantOrderUUID : string; cpp_MerchantOrderID : option string; cpp_Money : Money;
  cpp_RedirectURL : option string; cpp_Description : option string; cpp_IsTest : bool;
  cpp_fromLink : bool; cpp_linkID : Z; cpp_linkSuccessAction : string; cpp_linkSuccessMessage : option string
}.

Definition validateURL (u : string) : res unit :=
  parsed ← ParseRequestURI u;
  _ ← guard_err (negb (bool_decide (Scheme parsed = bytes "https"))) (ENew "scheme should be HTTPS");
  guard_err (bool_decide (Hostname parsed = [])) (ENew "invalid hostname").

(** [errors.Wrapf(e, "invalid redirect url: %s", err.Error())] *)
Definition valid_redirect (e : error) (u : option string) : res unit :=
  match u with
  | None => Ok tt
  | Some u => match validateURL u with
    | Err err => Err (EWrap e ("invalid redirect url: " +:+ error_string err))
    | r => r
    end
  end.

Definition validateLink (p : CreatePaymentProps) : res unit :=
  if cpp_linkID p <? 1 then Err (EWrap ErrValidation "link reference required")
  else if bool_decide (cpp_linkSuccessAction p = SuccessActionRedirect) then
    guard_err (bool_decide (cpp_RedirectURL p = None)) (EWrap ErrValidation "redirectUrl required")
  else if bool_decide (cpp_linkSuccessAction p = SuccessActionShowMessage) then
    guard_err (bool_decide (cpp_linkSuccessMessage p = None) || bool_decide (cpp_linkSuccessAction p = ""))
      (EWrap ErrValidation "successMessage required")
  else Err (EWrap ErrValidation ("unknown successAction " +:+ cpp_linkSuccessAction p)).

(** A positive fiat amount. *)
Definition positive_fiat (e : error) (m : Money) (invalid not_positive : string) : res unit :=
  match FiatToFloat64 m with
  | Ok float => guard_err (f64_le float f64_zero) (EWrap e not_positive)
  | Err _ => Err (EWrap e invalid)
  | Panic p => Panic p
  end.

Definition CreatePaymentProps_validate (p : CreatePaymentProps) : res unit :=
  _ ← guard_err (bool_decide (cpp_MerchantOrderUUID p = uuid_Nil)) (EWrap ErrValidation "merchant order uuid is not set");
  _ ← guard_err (negb (bool_decide (m_type (cpp_Money p) = Fiat))) (EWrap ErrValidation "invalid currency");
  _ ← positive_fiat ErrValidation (cpp_Money p) "invalid price" "price can't be zero or negative";
  _ ← valid_redirect ErrValidation (cpp_RedirectURL p);
  if cpp_fromLink p then validateLink p else Ok tt.

Definition fillPaymentMetaWithLink (meta : metadata) (p : CreatePaymentProps) : metadata :=
  let meta := <[MetaLinkSuccessAction := cpp_linkSuccessAction p]> (<[MetaLinkID := FormatInt (cpp_linkID p)]> meta) in
  match cpp_linkSuccessMessage p with
  | Some message => <[MetaLinkSuccessMessage := message]> meta
  | None => meta
  end.

(** A payment of the merchant's order exists and can be read. *)
Definition order_exists (merchantID : Z) (orderUUID : string) : Go bool :=
  r ← attempt (GetByMerchantOrderID merchantID orderUUID);
  mret (match r with inl _ => true | inr _ => false end).

Definition CreatePayment (merchantID : Z) (props : CreatePaymentProps) : Go Payment :=
  _ ← lift (CreatePaymentProps_validate props);
  mt ← Merchant.GetByID merchantID false;
  exists_ ← order_exists merchantID (cpp_MerchantOrderUUID props);
  if exists_ : bool then fail ErrAlreadyExists else
  let '(price, decimals) := BigInt (cpp_Money props) in
  now ← time_Now;
  let redirectURL := default (Merchant.mer_Website mt) (cpp_RedirectURL props) in
  let meta := if cpp_fromLink props then fillPaymentMetaWithLink ∅ props else ∅ in
  publicID ← uuid_New;
  p ← PaymentQueries.CreatePayment (mkCreatePaymentParams publicID now now TypePayment StatusPending merchantID
    (cpp_MerchantOrderUUID props) (PointerStringToNullable (cpp_MerchantOrderID props)) null_time
    (BigIntToNumeric price) (int32 decimals) (m_ticker (cpp_Money props))
    (PointerStringToNullable (cpp_Description props)) redirectURL (WalletBalance.ToJSONB (Some meta)) (cpp_IsTest props));
  lift (entryToPayment p).

Record CreateInternalPaymentProps := mkCreateInternalPaymentProps {
  cip_MerchantOrderUUID : string; cip_Money : Money; cip_Description : string; cip_IsTest : bool
}.

Definition CreateSystemTopup (merchantID : Z) (props : CreateInternalPaymentProps) : Go Payment :=
  if negb (bool_decide (m_type (cip_Money props) = Crypto)) then
    fail (EWrap ErrValidation "internal payments should be in crypto") else
  mt ← Merchant.GetByID merchantID false;
  exists_ ← order_exists merchantID (cip_MerchantOrderUUID props);
  if exists_ : bool then fail ErrAlreadyExists else
  let '(price, decimals) := BigInt (cip_Money props) in
  now ← time_Now;
  publicID ← uuid_New;
  pt ← PaymentQueries.CreatePayment (mkCreatePaymentParams publicID now now TypePayment StatusSuccess
    (Merchant.mer_ID mt) (cip_MerchantOrderUUID props) null_string null_time (BigIntToNumeric price) (int32 decimals)
    (m_ticker (cip_Money props)) (StringToNullable (cip_Description props)) ""
    (WalletBalance.ToJSONB (Some {[MetaInternalPayment := "system topup"]})) (cip_IsTest props));
  lift (entryToPayment pt).

(** ** Updating *)
Section Updating.
Context `{Publisher}.

Definition Update (merchantID id : Z) (status : string) : Go Payment :=
  now ← time_Now;
  let setExpiresAt := bool_decide (status = StatusLocked) in
  expiresAt ← (if setExpiresAt then
      mt ← Merchant.GetByID merchantID false;
      mret (TimeToNullable (now + Merchant.PaymentExpirationPeriod (Merchant.mer_settings mt)))
    else mret null_time);
  pt ← not_found ErrNotFound (UpdatePayment (mkUpdatePaymentParams id merchantID status now expiresAt setExpiresAt));
  _ ← (if Row.p_MerchantID pt =? 0 then mret tt else
       wrapM (external (Publish TopicPaymentStatusUpdate (Row.p_MerchantID pt) (Row.p_ID pt))) "unable to publish event");
  lift (entryToPayment pt).

Definition Fail_ (pt : Payment) : Go unit := ignore (Update (pay_MerchantID pt) (pay_ID pt) StatusFailed).
End Updating.

Definition SetWebhookTimestamp (merchantID id sentAt : Z) : Go unit :=
  updatedAt ← time_Now;
  not_found ErrNotFound (UpdatePaymentWebhookInfo id merchantID (TimeToNullable sentAt) updatedAt).

Definition MakeMethod (tx : Transaction) (currency : CryptoCurrency) : Method :=
  mkMethod currency (tx_ID tx) (NetworkID tx) (tx_IsTest tx) tx.

Definition GetPaymentMethod `{Resolver} (p : Payment) : Go Method :=
  r ← attempt (GetLatestByPaymentID (pay_ID p));
  tx ← match r with
    | inl tx => mret tx
    | inr e => if errors_Is e Transaction.ErrNotFound then fail ErrPaymentMethodNotSet
               else fail (EWrap e "unable to get tx by payment id")
    end;
  currency ← wrapM (lift (GetCurrencyByTicker (cc_Ticker (tx_Currency tx)))) "unable to get payment currency";
  mret (MakeMethod tx currency).

(** ** service_customer.go *)
Definition entryToCustomer (c : Row.Customer) : Customer :=
  mkCustomer (Row.c_ID c) (Row.c_MerchantID c) (Row.c_Uuid c) (Row.c_CreatedAt c) (Row.c_UpdatedAt c)
    (null_val (Row.c_Email c)).
Definition entriesToCustomers (l : list Row.Customer) : list Customer := map entryToCustomer l.

Definition found_customer (m : Go Row.Customer) : Go Customer :=
  entry ← not_found ErrNotFound m; mret (entryToCustomer entry).

Definition GetCustomerByEmail (merchantID : Z) (email : string) : Go Customer :=
  found_customer (PaymentQueries.GetCustomerByEmail (StringToNullable email) merchantID).
Definition GetCustomerByID (merchantID id : Z) : Go Customer :=
  found_customer (PaymentQueries.GetCustomerByID id merchantID).
Definition GetCustomerByUUID (merchantID : Z) (id : string) : Go Customer :=
  found_customer (PaymentQueries.GetCustomerByUUID id merchantID).

(** The ids are narrowed to 32 bits. *)
Definition GetBatchCustomers (merchantID : Z) (ids : list Z) : Go (list Customer) :=
  entries ← PaymentQueries.GetBatchCustomers merchantID (map int32 ids);
  mret (entriesToCustomers entries).

Definition GetCustomerDetailsByUUID (merchantID : Z) (id : string) : Go CustomerDetails :=
  c ← GetCustomerByUUID merchantID id;
  n ← attempt (CalculateCustomerPayments merchantID (Int64ToNullable (cus_ID c)) StatusSuccess);
  let successfulPayments := match n with inl n => n | inr _ => 0 end in
  entries ← wrapM (GetRecentCustomerPayments merchantID (Int64ToNullable (cus_ID c)) 10)
    "unable to list recent customer payments";
  payments ← wrapM (lift (entriesToPayments entries)) "unable to get payments";
  mret (mkCustomerDetails c successfulPayments payments).

Definition ListCustomers `{Uuid} (merchantID : Z) (opts : ListOptions) : Go (list Customer * string) :=
  limit ← lift (page_limit (lo_Limit opts));
  fromID ← cursor_id cus_ID (GetCustomerByUUID merchantID) "unable to get fromID customer" opts;
  results ← wrapM ((if lo_ReverseOrder opts then PaginateCustomersDesc else PaginateCustomersAsc)
    merchantID fromID (int32 (limit + 1))) "unable to paginate customers";
  lift (next_page cus_UUID limit (entriesToCustomers results)).

Definition CreateCustomer (merchantID : Z) (email : string) : Go Customer :=
  uuid ← uuid_New; createdAt ← time_Now; updatedAt ← time_Now;
  entry ← PaymentQueries.CreateCustomer uuid createdAt updatedAt (StringToNullable email) merchantID;
  mret (entryToCustomer entry).

Definition ResolveCustomerByEmail (merchantID : Z) (email : string) : Go Customer :=
  r ← attempt (PaymentQueries.GetCustomerByEmail (StringToNullable email) merchantID);
  match r with
  | inl entry => mret (entryToCustomer entry)
  | inr e => if errors_Is e ErrNoRows then CreateCustomer merchantID email else fail e
  end.

Definition validateEmail `{Mail} (e : string) : res unit :=
  guard_err (negb (ParseAddress_ok e)) (EWrap ErrValidation "invalid email").

Definition AssignCustomerByEmail `{Mail} (p : Payment) (email : string) : Go Customer :=
  _ ← lift (validateEmail email);
  if negb (bool_decide (pay_Status p = StatusPending)) then fail ErrPaymentLocked else
  person ← wrapM (ResolveCustomerByEmail (pay_MerchantID p) email) "unable to resolve customer by email";
  _ ← wrapM (UpdatePaymentCustomerID (Int64ToNullable (cus_ID person)) (pay_ID p)) "unable to update payment customer id";
  mret person.

(** ** service_link.go *)
Definition LinkTypePayment : string := "payment".
Definition LinkTypeDonation : string := "donation".

Record Link := mkLink {
  lk_ID : Z; lk_PublicID : string; lk_Slug : string; lk_URL : string; lk_CreatedAt : Z; lk_UpdatedAt : Z;
  lk_MerchantID : Z; lk_Type : string; lk_Name : string; lk_Currency : string; lk_Price : Money;
  lk_Description : option string; lk_SuccessAction : string; lk_RedirectURL : option string;
  lk_SuccessMessage : option string; lk_IsTest : bool
}.

Record CreateLinkProps := mkCreateLinkProps {
  clp_Type : string; clp_Name : string; clp_Currency : string; clp_Price : Money; clp_Description : option string;
  clp_SuccessAction : string; clp_RedirectURL : option string; clp_SuccessMessage : option string; clp_IsTest : bool
}.

Definition LinkType_String (t : string) : string := if bool_decide (t = "") then LinkTypePayment else t.
Definition linkType (raw : string) : string :=
  if bool_decide (raw = LinkTypeDonation) then LinkTypeDonation else LinkTypePayment.

Definition fillDefaults (p : CreateLinkProps) : CreateLinkProps :=
  mkCreateLinkProps (if bool_decide (clp_Type p = "") then LinkTypePayment else clp_Type p) (clp_Name p)
    (if bool_decide (clp_Currency p = "") && negb (bool_decide (m_ticker (clp_Price p) = ""))
     then m_ticker (clp_Price p) else clp_Currency p)
    (clp_Price p) (clp_Description p) (clp_SuccessAction p) (clp_RedirectURL p) (clp_SuccessMessage p) (clp_IsTest p).

Definition link_err {A} (msg : string) : res A := Err (EWrap ErrLinkValidation msg).

(** [money.MakeFiatCurrency] with its error replaced. *)
Definition link_currency (currency : string) : res unit :=
  match MakeFiatCurrency currency with Ok _ => Ok tt | Err _ => link_err "invalid currency" | Panic p => Panic p end.

Definition validate_link_price (p : CreateLinkProps) : res unit :=
  if bool_decide (clp_Type p = LinkTypePayment) then
    if negb (bool_decide (m_type (clp_Price p) = Fiat)) then link_err "invalid currency"
    else if negb (bool_decide (clp_Currency p = "")) && negb (bool_decide (m_ticker (clp_Price p) = clp_Currency p)) then
      link_err "price currency should match link currency"
    else positive_fiat ErrLinkValidation (clp_Price p) "invalid price" "price can't be zero or negative"
  else if bool_decide (clp_Type p = LinkTypeDonation) then link_currency (clp_Currency p)
  else link_err "invalid link type".

Definition validate_link_action (p : CreateLinkProps) : res unit :=
  if bool_decide (clp_SuccessAction p = SuccessActionRedirect) then
    _ ← guard_err (bool_decide (clp_RedirectURL p = None)) (EWrap ErrLinkValidation "redirectUrl required");
    _ ← valid_redirect ErrLinkValidation (clp_RedirectURL p);
    guard_err (bool_decide (is_Some (clp_SuccessMessage p))) (EWrap ErrLinkValidation "successMessage should not be present")
  else if bool_decide (clp_SuccessAction p = SuccessActionShowMessage) then
    _ ← guard_err (bool_decide (default "" (clp_SuccessMessage p) = "")) (EWrap ErrLinkValidation "successMessage required");
    guard_err (bool_decide (is_Some (clp_RedirectURL p))) (EWrap ErrLinkValidation "redirectUrl should not be present")
  else link_err "invalid successAction".

Definition CreateLinkProps_validate (p : CreateLinkProps) : res unit :=
  _ ← guard_err (bool_decide (clp_Name p = "")) (EWrap ErrLinkValidation "name required");
  _ ← validate_link_price p;
  _ ← guard_err (bool_decide (clp_Currency p = "")) (EWrap ErrLinkValidation "invalid currency");
  _ ← link_currency (clp_Currency p);
  validate_link_action p.

Definition linkURL (slug : string) : string := basePath +:+ "/link/" +:+ slug.

Definition nullableLinkPrice (link : Row.PaymentLink) (currency : string) : res Money :=
  if bool_decide (n_Status (Row.l_Price link) = PgNull) then NewFromBigInt Fiat currency (Some 0) FiatDecimals else
  bigInt ← NumericToBigInt (Row.l_Price link);
  NewFromBigInt Fiat currency (Some bigInt) (Row.l_Decimals link).

Definition entryToLink (link : Row.PaymentLink) : res Link :=
  currency ← MakeFiatCurrency (Row.l_Currency link);
  price ← nullableLinkPrice link currency;
  let desc := if bool_decide (Row.l_Description link = "") then None else Some (Row.l_Description link) in
  mret (mkLink (Row.l_ID link) (Row.l_Uuid link) (Row.l_Slug link) (linkURL (Row.l_Slug link)) (Row.l_CreatedAt link)
    (Row.l_UpdatedAt link) (Row.l_MerchantID link) (linkType (Row.l_Type link)) (Row.l_Name link) currency price desc
    (Row.l_SuccessAction link) (NullableStringToPointer (Row.l_RedirectUrl link))
    (NullableStringToPointer (Row.l_SuccessMessage link)) (Row.l_IsTest link)).

Fixpoint entriesToLinks (entries : list Row.PaymentLink) : res (list Link) :=
  match entries with
  | [] => Ok []
  | e :: entries => l ← entryToLink e; ls ← entriesToLinks entries; mret (l :: ls)
  end.

Definition found_link (m : Go Row.PaymentLink) : Go Link :=
  link ← not_found ErrNotFound m; lift (entryToLink link).

Definition ListPaymentLinks (merchantID : Z) : Go (list Link) :=
  entries ← PaymentQueries.ListPaymentLinks merchantID 100;
  lift (entriesToLinks entries).
Definition GetPaymentLinkBySlug (slug : string) : Go Link := found_link (PaymentQueries.GetPaymentLinkBySlug slug).
Definition GetPaymentLinkByPublicID (merchantID : Z) (id : string) : Go Link :=
  found_link (PaymentQueries.GetPaymentLinkByPublicID merchantID id).
Definition GetPaymentLinkByID (merchantID id : Z) : Go Link :=
  found_link (PaymentQueries.GetPaymentLinkByID merchantID id).

Definition CreatePaymentLink `{RandomStrings} (merchantID : Z) (props : CreateLinkProps) : Go Link :=
  let props := fillDefaults props in
  _ ← lift (CreateLinkProps_validate props);
  _ ← Merchant.GetByID merchantID false;
  let description := default "" (clp_Description props) in
  let price := if bool_decide (clp_Type props = LinkTypePayment) then MoneyToNumeric (clp_Price props) else numeric_null in
  uuid ← uuid_New; slug ← external (fun n => Ok (Random 8 n)); createdAt ← time_Now; updatedAt ← time_Now;
  link ← PaymentQueries.CreatePaymentLink (mkCreatePaymentLinkParams uuid slug createdAt updatedAt merchantID
    (LinkType_String (clp_Type props)) (clp_Name props) description price (int32 FiatDecimals) (clp_Currency props)
    (clp_SuccessAction props) (PointerStringToNullable (clp_RedirectURL props))
    (PointerStringToNullable (clp_SuccessMessage props)) (clp_IsTest props));
  lift (entryToLink link).

Definition DeletePaymentLinkByPublicID (merchantID : Z) (id : string) : Go unit :=
  _ ← GetPaymentLinkByPublicID merchantID id;
  PaymentQueries.DeletePaymentLinkByPublicID merchantID id.

Definition linkPaymentAmount (link : Link) (amount : list Money) : res Money :=
  if bool_decide (lk_Type link = LinkTypePayment) then
    match amount with [] => Ok (lk_Price link) | _ => link_err "amount should not be supplied for fixed payment links" end
  else if bool_decide (lk_Type link = LinkTypeDonation) then
    match amount with
    | [] => link_err "donation amount required"
    | [a] =>
      if negb (bool_decide (m_type a = Fiat)) || negb (bool_decide (m_ticker a = lk_Currency link)) then
        link_err "invalid donation currency"
      else _ ← positive_fiat ErrLinkValidation a "invalid donation amount" "donation amount can't be zero or negative"; Ok a
    | _ => link_err "too many donation amounts"
    end
  else link_err "invalid link type".

(** The option [FromLink(link)] applied to the properties. *)
Definition FromLink (link : Link) (p : CreatePaymentProps) : CreatePaymentProps :=
  mkCreatePaymentProps (cpp_MerchantOrderUUID p) (cpp_MerchantOrderID p) (cpp_Money p) (cpp_RedirectURL p)
    (cpp_Description p) (cpp_IsTest p) true (lk_ID link) (lk_SuccessAction link) (lk_SuccessMessage link).

Definition CreatePaymentFromLink (link : Link) (amount : list Money) : Go Payment :=
  price ← lift (linkPaymentAmount link amount);
  uuid ← uuid_New;
  CreatePayment (lk_MerchantID link) (FromLink link (mkCreatePaymentProps uuid None price (lk_RedirectURL link)
    (lk_Description link) (lk_IsTest link) false 0 "" None)).

(** ** Payments with their relations *)
Record PaymentWithRelations := mkRelations {
  pr_Payment : Payment; pr_Transaction : option Transaction; pr_Customer : option Customer;
  pr_Address : option Merchant.Address; pr_Balance : option WalletBalance.Balance
}.

(** [util.KeyFunc]: the last item under a key wins. *)
Definition KeyFunc {V} (f : V -> Z) (items : list V) : gmap Z V := fold_left (fun m x => <[f x := x]> m) items ∅.

Section Relations.
Context `{Resolver} (convertor : Money -> string -> Go Money).

Definition eagerLoadTransactions (merchantID : Z) (l : list PaymentWithRelations) : Go (list PaymentWithRelations) :=
  txs ← EagerLoadByPaymentIDs merchantID (map (fun p => pay_ID (pr_Payment p)) l);
  let txMap := KeyFunc tx_EntityID txs in
  mret (map (fun p => match txMap !! pay_ID (pr_Payment p) with
    | Some tx => mkRelations (pr_Payment p) (Some tx) (pr_Customer p) (pr_Address p) (pr_Balance p)
    | None => p end) l).

Definition eagerLoadCustomers (merchantID : Z) (l : list PaymentWithRelations) : Go (list PaymentWithRelations) :=
  customers ← GetBatchCustomers merchantID (map (fun p => default 0 (pay_CustomerID (pr_Payment p))) l);
  let customersByID := KeyFunc cus_ID customers in
  mret (map (fun p => match c ← pay_CustomerID (pr_Payment p); customersByID !! c with
    | Some c => mkRelations (pr_Payment p) (pr_Transaction p) (Some c) (pr_Address p) (pr_Balance p)
    | None => p end) l).

Definition eagerLoadAddresses (merchantID : Z) (l : list PaymentWithRelations) : Go (list PaymentWithRelations) :=
  addresses ← Merchant.ListMerchantAddresses merchantID;
  let addressesByID := KeyFunc Merchant.adr_ID addresses in
  mret (map (fun p => match addressesByID !! WithdrawalAddressID (pr_Payment p) with
    | Some a => mkRelations (pr_Payment p) (pr_Transaction p) (pr_Customer p) (Some a) (pr_Balance p)
    | None => p end) l).

Definition eagerLoadBalances (merchantID : Z) (l : list PaymentWithRelations) : Go (list PaymentWithRelations) :=
  balances ← WalletBalance.ListBalances convertor WalletBalance.EntityTypeMerchant merchantID false;
  let balancesByID := KeyFunc WalletBalance.bal_ID balances in
  mret (map (fun p => match balancesByID !! WithdrawalBalanceID (pr_Payment p) with
    | Some b => mkRelations (pr_Payment p) (pr_Transaction p) (pr_Customer p) (pr_Address p) (Some b)
    | None => p end) l).

Definition eagerLoadRelations (merchantID : Z) (l : list PaymentWithRelations) : Go (list PaymentWithRelations) :=
  l ← wrapM (eagerLoadTransactions merchantID l) "unable to eager load transactions";
  l ← wrapM (eagerLoadCustomers merchantID l) "unable to eager load customers";
  l ← wrapM (eagerLoadAddresses merchantID l) "unable to eager load addresses";
  wrapM (eagerLoadBalances merchantID l) "unable to eager load balances".

Definition only_payment (p : Payment) : PaymentWithRelations := mkRelations p None None None None.

Definition GetByMerchantOrderIDWithRelations (merchantID : Z) (orderUUID : string) : Go PaymentWithRelations :=
  pt ← GetByMerchantOrderID merchantID orderUUID;
  slice ← eagerLoadRelations merchantID [only_payment pt];
  match slice with p :: _ => mret p | [] => panic "index out of range" end.

Definition ListWithRelations `{Uuid} (merchantID : Z) (opt : ListOptions) : Go (list PaymentWithRelations * string) :=
  '(payments, cursor) ← wrapM (List_ merchantID opt) "unable to list payments";
  pagination ← eagerLoadRelations merchantID (map only_payment payments);
  mret (pagination, cursor).
End Relations.
End Reading.

(** ** Lemmas: reading *)
Section ReadingLemmas.
Context (basePath : string).

Definition payment_of (r : res Row.Payment) : res Payment :=
  match r with
  | Ok row => entryToPayment basePath row
  | Err _ => Err ErrNotFound
  | Panic p => Panic p
  end.

Lemma wp_found_payment (p : Row.Payment -> bool) w (Q : res Payment -> world -> Prop) :
  (forall w', db w' = db w -> Q (payment_of (one (select p (payments (db w))))) w') ->
  wp (found_payment basePath (read (fun d => one (select p (payments d))))) w Q.
Proof.
  intros HQ. unfold found_payment. wp_step. apply wp_not_found, wp_read. intros w1 E1. specialize (HQ w1 E1).
  destruct (one _) as [row|e|s] eqn:Eo; [by wp_step| |done].
  by destruct (one_select_none _ _ _ Eo) as [-> _].
Qed.

Lemma found_payment_result (p : Row.Payment -> bool) w :
  (found_payment basePath (read (fun d => one (select p (payments d)))) w).1 =
    payment_of (one (select p (payments (db w)))).
Proof. exact (wp_found_payment p w (fun r _ => r = _) (fun _ _ => eq_refl)). Qed.

(** The payment row a call of [CreatePayment] stores. *)
Definition order_free (merchantID : Z) (uuid : string) (d : DB) : bool :=
  negb (existsb (order_of merchantID uuid) (rows (payments d))).

Lemma wp_order_exists merchantID uuid w (Q : res bool -> world -> Prop) :
  (forall w', db w' = db w -> Q (match payment_of (one (select (order_of merchantID uuid) (payments (db w)))) with
     | Ok _ => Ok true | Err _ => Ok false | Panic p => Panic p end) w') ->
  wp (order_exists basePath merchantID uuid) w Q.
Proof.
  intros HQ. unfold order_exists. do 2 wp_step. apply wp_found_payment. intros w1 E1. specialize (HQ w1 E1).
  by destruct (payment_of _).
Qed.

Lemma wp_MerchantGetByID id w (Q : res Merchant.Merchant -> world -> Prop) :
  (forall w', db w' = db w -> Q match one (select (fun m => by_id id m && trashed_ok false m) (merchants (db w))) with
     | Ok row => Ok (Merchant.entryToMerchant row)
     | Err _ => Err Merchant.ErrMerchantNotFound
     | Panic p => Panic p end w') ->
  wp (Merchant.GetByID id false) w Q.
Proof.
  intros HQ. unfold Merchant.GetByID. wp_step. apply wp_not_found, wp_read. intros w1 E1. specialize (HQ w1 E1).
  destruct (one _) as [row|e|s] eqn:Eo; [by wp_step| |done].
  by destruct (one_select_none _ _ _ Eo) as [-> _].
Qed.

(** A row whose price is a whole number of a supported fiat currency reads. *)
Lemma fiat_payment_reads row v : Row.p_Type row = TypePayment -> Row.p_Price row = BigIntToNumeric v ->
  Row.p_Currency row ∈ fiatCurrencies ->
  (jb_Status (Row.p_Metadata row) = Present -> jb_Bytes (Row.p_Metadata row) !! MetaInternalPayment = None) ->
  exists p, entryToPayment basePath row = Ok p /\ pay_ID p = Row.p_ID row /\ pay_Status p = Row.p_Status row /\
    pay_Type p = TypePayment /\ pay_MerchantID p = Row.p_MerchantID row /\
    pay_MerchantOrderUUID p = Row.p_MerchantOrderUuid row /\
    pay_Price p = mkMoney Fiat (Row.p_Currency row) (Some v) (Row.p_Decimals row).
Proof.
  intros Ht Hp Hc Hm. unfold entryToPayment, paymentPrice. rewrite Ht, Hp.
  assert ((if bool_decide (jb_Status (Row.p_Metadata row) = Present) then jb_Bytes (Row.p_Metadata row) else ∅)
    !! MetaInternalPayment = None) as Hn by (case_bool_decide; [auto|done]).
  rewrite Hn. simpl. unfold MakeFiatCurrency. rewrite (bool_decide_true _ Hc). simpl. eexists. split; [done|]. done.
Qed.
End ReadingLemmas.

(** ** Lemmas: creating *)
Lemma fill_not_internal props : fillPaymentMetaWithLink ∅ props !! MetaInternalPayment = None.
Proof.
  unfold fillPaymentMetaWithLink. destruct (cpp_linkSuccessMessage props); rewrite !lookup_insert_ne by done; done.
Qed.

Lemma numeric_of_Z v : pg_numeric_not_null (BigIntToNumeric v) = Ok (BigIntToNumeric v).
Proof. unfold pg_numeric_not_null, pg_numeric. simpl. by rewrite numeric_value_whole. Qed.

Lemma pg_jsonb_ToJSONB m : exists j, pg_jsonb (WalletBalance.ToJSONB (Some m)) = Ok j /\
  (jb_Status j = Present -> jb_Bytes j = m).
Proof. unfold WalletBalance.ToJSONB. case_bool_decide; eexists; split; done. Qed.

Definition payment_stored (merchantID : Z) (props : CreatePaymentProps) (row : Row.Payment) : Prop :=
  Row.p_Type row = TypePayment /\ Row.p_Status row = StatusPending /\ Row.p_MerchantID row = merchantID /\
  Row.p_MerchantOrderUuid row = cpp_MerchantOrderUUID props /\
  Row.p_Price row = BigIntToNumeric (val (cpp_Money props)) /\ Row.p_Currency row = m_ticker (cpp_Money props) /\
  Row.p_Decimals row = int32 (m_decimals (cpp_Money props)) /\
  (jb_Status (Row.p_Metadata row) = Present -> jb_Bytes (Row.p_Metadata row) !! MetaInternalPayment = None).

Lemma filter_none {A} (f : A -> bool) l : Forall (fun x => f x = false) l -> List.filter f l = [].
Proof. induction 1 as [|x l Hx _ IH]; [done|]. simpl. by rewrite Hx, IH. Qed.

(** The merchants a request may name. *)
Definition open_merchant (merchantID : Z) (d : DB) : list Row.Merchant :=
  select (fun m => by_id merchantID m && trashed_ok false m) (merchants d).

(** Every way [CreatePayment] ends. *)
Definition payment_created (basePath : string) (merchantID : Z) (props : CreatePaymentProps) (d : DB) (r : res Payment) (d' : DB) :
    Prop :=
  exists mk, (forall n, Row.p_ID (mk n) = n) /\ d' = set_payments (insert_row mk (payments d)) d /\
    payment_stored merchantID props (mk (next_id (payments d))) /\ r = entryToPayment basePath (mk (next_id (payments d))).

Lemma wp_CreatePayment_ends basePath merchantID props w : schema_ok (db w) ->
  wp (CreatePayment basePath merchantID props) w (fun r w' =>
    match CreatePaymentProps_validate props with
    | Ok _ =>
      match open_merchant merchantID (db w) with
      | [] => r = Err Merchant.ErrMerchantNotFound /\ db w' = db w
      | _ :: _ =>
        if order_free merchantID (cpp_MerchantOrderUUID props) (db w)
        then payment_created basePath merchantID props (db w) r (db w')
        else is_ok r = false /\ rows (payments (db w')) = rows (payments (db w)) /\
          forall p, payment_of basePath (one (select (order_of merchantID (cpp_MerchantOrderUUID props)) (payments (db w)))) = Ok p ->
            r = Err ErrAlreadyExists /\ db w' = db w
      end
    | Err e => r = Err e /\ db w' = db w
    | Panic s => r = Panic s /\ db w' = db w
    end).
Proof.
  intros Hok. unfold CreatePayment. do 2 wp_step. destruct (CreatePaymentProps_validate props) as [[]|e|s]; [|done..].
  wp_step. apply wp_MerchantGetByID. intros w1 E1. fold (open_merchant merchantID (db w)).
  destruct (open_merchant merchantID (db w)) as [|mt l]; [done|]. cbn [one head].
  wp_step. apply wp_order_exists. intros w2 E2. rewrite E1 in E2 |- *.
  unfold order_free. destruct (existsb _ _) eqn:Ex; cbn [negb].
  - destruct (payment_of _ _) as [p|e|s]; [wp_step; by rewrite E2| |by rewrite E2].
    unfold BigInt. wp_step. apply wp_now. intros now w3 E3. wp_step. apply wp_uuid. intros u w4 E4.
    wp_step. apply wp_query. rewrite E4, E3, E2. cbn [cp_Price cp_Metadata cp_MerchantID cp_MerchantOrderUuid]. rewrite numeric_of_Z.
    destruct (pg_jsonb_ToJSONB (if cpp_fromLink props then fillPaymentMetaWithLink ∅ props else ∅)) as (j & -> & _).
    cbn [mbind res_bind mret res_ret]. rewrite Ex. cbn [fst snd]. intros w5 E5. by rewrite E5.
  - replace (select (order_of merchantID (cpp_MerchantOrderUUID props)) (payments (db w))) with ([] : list Row.Payment)
      by (symmetry; apply filter_none, Forall_forall, existsb_false; exact Ex).
    cbn [one payment_of]. unfold BigInt. wp_step. apply wp_now. intros now w3 E3. wp_step. apply wp_uuid. intros u w4 E4.
    wp_step. apply wp_query. rewrite E4, E3, E2. cbn [cp_Price cp_Metadata cp_MerchantID cp_MerchantOrderUuid]. rewrite numeric_of_Z.
    destruct (pg_jsonb_ToJSONB (if cpp_fromLink props then fillPaymentMetaWithLink ∅ props else ∅)) as (j & -> & Hj).
    cbn [mbind res_bind mret res_ret]. rewrite Ex. cbn [fst snd]. intros w5 E5. wp_step. eexists. split; [|split; [exact E5|]]; [done|].
    split; [|done]. unfold payment_stored. simpl. split_and!; try done. intros Hp. rewrite (Hj Hp).
    destruct (cpp_fromLink props); [apply fill_not_internal|done].
Qed.

Lemma wp_CreatePayment basePath merchantID props w : schema_ok (db w) ->
  wp (CreatePayment basePath merchantID props) w (fun r w' =>
    (exists mk, (forall n, Row.p_ID (mk n) = n) /\
       db w' = set_payments (insert_row mk (payments (db w))) (db w) /\
       CreatePaymentProps_validate props = Ok tt /\
       is_Some (head (open_merchant merchantID (db w))) /\
       order_free merchantID (cpp_MerchantOrderUUID props) (db w) = true /\
       payment_stored merchantID props (mk (next_id (payments (db w)))) /\
       r = entryToPayment basePath (mk (next_id (payments (db w))))) \/
    (is_ok r = false /\ rows (payments (db w')) = rows (payments (db w)))).
Proof.
  intros Hok. eapply wp_mono; [by apply wp_CreatePayment_ends|]. intros r w'.
  destruct (CreatePaymentProps_validate props) as [[]|e|s]; [|intros [-> ->]; by right..].
  destruct (open_merchant merchantID (db w)) as [|mt l]; [intros [-> ->]; by right|].
  destruct (order_free _ _ _); [|intros (? & ? & _); by right]. intros (mk & ? & ? & ? & ?). left. by exists mk.
Qed.

Lemma wf_payments d : schema_ok d -> table_wf (payments d).
Proof. intros [Hwf]. unfold db_wf in Hwf. tauto. Qed.

Lemma order_of_key merchantID uuid x : order_of merchantID uuid x = true -> payment_key x = Some (merchantID, uuid).
Proof. intros [Hm%Z.eqb_eq Hu%bool_decide_eq_true]%andb_true_iff. unfold payment_key. by rewrite Hm, Hu. Qed.

(** The one row of an order, and of an id. *)
Lemma one_order d row merchantID uuid : schema_ok d -> row ∈ rows (payments d) ->
  order_of merchantID uuid row = true -> one (select (order_of merchantID uuid) (payments d)) = Ok row.
Proof.
  intros Hok Hin Ho. apply (one_select_key payment_key); [by apply wf_payments|apply Hok|done|done|by eexists|].
  intros x Hx%order_of_key. by rewrite Hx, (order_of_key _ _ _ Ho).
Qed.

Lemma one_payment d row f merchantID : schema_ok d -> row ∈ rows (payments d) -> Row.p_MerchantID row = merchantID ->
  one (select (fun p => by_id (Row.p_ID row) p && (if f : bool then Row.p_MerchantID p =? merchantID else true))
    (payments d)) = Ok row.
Proof.
  intros Hok Hin Hm. apply one_select_unique; [by apply wf_payments|done| |].
  - unfold by_id. change (row_id row) with (Row.p_ID row). rewrite Z.eqb_refl, Hm, Z.eqb_refl. by destruct f.
  - intros x [Hx _]%andb_true_iff. unfold by_id in Hx. change (row_id row) with (Row.p_ID row). lia.
Qed.

(** A second payment of the same order, whatever else it says. *)
Lemma second_order basePath merchantID props w mt p : CreatePaymentProps_validate props = Ok tt ->
  one (select (fun m => by_id merchantID m && trashed_ok false m) (merchants (db w))) = Ok mt ->
  payment_of basePath (one (select (order_of merchantID (cpp_MerchantOrderUUID props)) (payments (db w)))) = Ok p ->
  wp (CreatePayment basePath merchantID props) w (fun r w' => r = Err ErrAlreadyExists /\ db w' = db w).
Proof.
  intros Hv Hm Hp. unfold CreatePayment. do 2 wp_step. rewrite Hv.
  wp_step. apply wp_MerchantGetByID. intros w1 E1. rewrite Hm.
  wp_step. apply wp_order_exists. intros w2 E2. rewrite E1 in E2 |- *. rewrite Hp. wp_step. done.
Qed.

Lemma CreatePayment_steps basePath merchantID props : steps schema_step (CreatePayment basePath merchantID props).
Proof. unfold CreatePayment, Merchant.GetByID, order_exists, GetByMerchantOrderID, found_payment, not_found. go_steps. Qed.

(** ** Properties *)

(** C33. A merchant's order is paid for by one payment. For a price in a
    supported fiat currency [CreatePayment] creates exactly when the properties
    are valid, the merchant exists and no payment of the order is stored: then
    it succeeds, adding one row, and the payment it returns is pending, has the
    price given (the decimals as a 32-bit column) and is what [GetByID] and
    [GetByMerchantOrderID] return from then on; any further [CreatePayment] of
    the order that passes validation fails with [ErrAlreadyExists] and changes
    nothing. Otherwise no payment is stored, and the error says why: that of
    the validation, [ErrMerchantNotFound], or [ErrAlreadyExists] when the
    order's payment can be read. *)
Theorem create_payment_once (basePath : string) (merchantID : Z) (props : CreatePaymentProps) (w : world)
  (Hok : schema_ok (db w)) (Hfiat : m_ticker (cpp_Money props) ∈ fiatCurrencies) :
  let '(r, w') := CreatePayment basePath merchantID props w in
  match CreatePaymentProps_validate props with
  | Ok _ =>
    match open_merchant merchantID (db w) with
    | [] => r = Err Merchant.ErrMerchantNotFound /\ db w' = db w
    | _ :: _ =>
      if order_free merchantID (cpp_MerchantOrderUUID props) (db w) then
        exists p, r = Ok p /\ (exists row, db w' = set_payments (insert_row row (payments (db w))) (db w)) /\
          pay_Status p = StatusPending /\ pay_Type p = TypePayment /\ pay_MerchantID p = merchantID /\
          pay_Price p = mkMoney Fiat (m_ticker (cpp_Money props)) (Some (val (cpp_Money props)))
            (int32 (m_decimals (cpp_Money props))) /\
          (GetByID basePath merchantID (pay_ID p) w').1 = Ok p /\
          (GetByMerchantOrderID basePath merchantID (cpp_MerchantOrderUUID props) w').1 = Ok p /\
          (forall props', CreatePaymentProps_validate props' = Ok tt ->
             cpp_MerchantOrderUUID props' = cpp_MerchantOrderUUID props ->
             wp (CreatePayment basePath merchantID props') w' (fun r' w'' => r' = Err ErrAlreadyExists /\ db w'' = db w'))
      else is_ok r = false /\ rows (payments (db w')) = rows (payments (db w)) /\
        forall p, (GetByMerchantOrderID basePath merchantID (cpp_MerchantOrderUUID props) w).1 = Ok p ->
          r = Err ErrAlreadyExists /\ db w' = db w
    end
  | Err e => r = Err e /\ db w' = db w
  | Panic s => r = Panic s /\ db w' = db w
  end.
Proof.
  pose proof (wp_CreatePayment_ends basePath merchantID props w Hok) as Hwp. unfold wp in Hwp.
  destruct (CreatePayment basePath merchantID props w) as [r w'] eqn:Erun. cbn [fst snd] in Hwp.
  destruct (CreatePaymentProps_validate props) as [[]|e|s]; [|done..].
  destruct (open_merchant merchantID (db w)) as [|mt l] eqn:Em; [done|].
  destruct (order_free _ _ _) eqn:Hfree.
  2: { destruct Hwp as (? & ? & Hp). split_and!; [done..|]. intros p. unfold GetByMerchantOrderID, GetPaymentByMerchantIDAndOrderUUID.
    rewrite found_payment_result. by apply Hp. }
  destruct Hwp as (mk & Hid & Edb & Hst & ->).
  assert (schema_ok (db w')) as Hok'.
  { pose proof (CreatePayment_steps basePath merchantID props w) as [_ Hs]. rewrite Erun in Hs. auto. }
  set (row := mk (next_id (payments (db w)))) in *.
  destruct Hst as (Hty & Hs & Hm & Hu & Hp & Hc & Hd & Hj).
  destruct (fiat_payment_reads basePath row (val (cpp_Money props)) Hty Hp ltac:(by rewrite Hc) Hj)
    as (p & Ep & Hpid & Hps & Hpt & Hpm & Hpu & Hpp).
  assert (row ∈ rows (payments (db w'))) as Hin by (rewrite Edb; apply elem_of_insert; by right).
  assert (order_of merchantID (cpp_MerchantOrderUUID props) row = true) as Ho
    by (unfold order_of; by rewrite Hm, Hu, Z.eqb_refl, bool_decide_true).
  assert (payment_of basePath (one (select (order_of merchantID (cpp_MerchantOrderUUID props)) (payments (db w')))) = Ok p)
    as Hread by by rewrite (one_order _ row).
  exists p. split; [done|]. split; [by eexists|]. split; [by rewrite Hps|]. split; [done|]. split; [by rewrite Hpm|].
  split; [by rewrite Hpp, Hc, Hd|]. split; [|split].
  - unfold GetByID, GetPaymentByID. rewrite found_payment_result, Hpid, (one_payment _ row) by done. done.
  - unfold GetByMerchantOrderID, GetPaymentByMerchantIDAndOrderUUID. by rewrite found_payment_result.
  - intros props' Hv' Hu'. apply (second_order _ _ _ _ mt p); [done| |by rewrite Hu'].
    rewrite Edb. cbn [merchants set_payments]. unfold open_merchant in Em. by rewrite Em.
Qed.

(** ** Lemmas: pages *)
Lemma filter_filter {A} (f g : A -> bool) l : List.filter f (List.filter g l) = List.filter (fun x => g x && f x) l.
Proof. induction l as [|x l IH]; [done|]. simpl. destruct (g x); simpl; [|done]. by rewrite IH. Qed.

Lemma filter_all {A} (f : A -> bool) l : Forall (fun x => f x = true) l -> List.filter f l = l.
Proof. induction 1 as [|x l Hx _ IH]; [done|]. simpl. by rewrite Hx, IH. Qed.

Lemma filter_rev {A} (f : A -> bool) l : List.filter f (rev l) = rev (List.filter f l).
Proof.
  induction l as [|x l IH]; [done|]. simpl. rewrite List.filter_app, IH. simpl. destruct (f x); simpl; [done|].
  by rewrite app_nil_r.
Qed.

(** In a list sorted by [f], the entries from [f x] on are [x] and what follows it. *)
Lemma sorted_from {A} (f : A -> Z) (l1 l2 : list A) x : StronglySorted Z.lt (f <$> (l1 ++ x :: l2)) ->
  Forall (fun y => f y < f x) l1 /\ Forall (fun y => f x < f y) l2.
Proof.
  induction l1 as [|y l1 IH]; simpl; intros [Hs Hy]%StronglySorted_inv.
  - split; [done|]. exact (proj1 (Forall_fmap f (Z.lt (f x)) l2) Hy).
  - destruct (IH Hs) as [H1 H2]. split; [|done]. constructor; [|done].
    rewrite Forall_forall in Hy. apply Hy, list_elem_of_fmap. exists x. split; [done|]. apply elem_of_app. right. left.
Qed.

Lemma filter_from {A} (f : A -> Z) (l1 l2 : list A) x : StronglySorted Z.lt (f <$> (l1 ++ x :: l2)) ->
  List.filter (fun y => f x <=? f y) (l1 ++ x :: l2) = x :: l2.
Proof.
  intros [H1 H2]%sorted_from. rewrite List.filter_app, filter_none.
  - simpl. rewrite Z.leb_refl. rewrite filter_all; [done|]. eapply Forall_impl; [exact H2|simpl; lia].
  - eapply Forall_impl; [exact H1|simpl; lia].
Qed.

Lemma filter_upto {A} (f : A -> Z) (l1 l2 : list A) x : StronglySorted Z.lt (f <$> (l1 ++ x :: l2)) ->
  List.filter (fun y => f y <=? f x) (l1 ++ x :: l2) = l1 ++ [x].
Proof.
  intros [H1 H2]%sorted_from. rewrite List.filter_app, filter_all.
  - simpl. rewrite Z.leb_refl. rewrite filter_none; [done|]. eapply Forall_impl; [exact H2|simpl; lia].
  - eapply Forall_impl; [exact H1|simpl; lia].
Qed.

Lemma entriesToPayments_Forall2 basePath l ps :
  entriesToPayments basePath l = Ok ps <-> Forall2 (fun r p => entryToPayment basePath r = Ok p) l ps.
Proof.
  revert ps. induction l as [|r l IH]; intros ps; simpl.
  - split; [intros [= <-]; constructor|by intros ->%Forall2_nil_inv_l].
  - destruct (entryToPayment basePath r) as [p|e|s] eqn:E; simpl.
    2,3: split; [done|]; intros (p & ? & Hp & _)%Forall2_cons_inv_l; congruence.
    destruct (entriesToPayments basePath l) as [qs|e|s] eqn:El; simpl.
    + split.
      * intros [= <-]. constructor; [done|]. by apply IH.
      * intros (p' & ps' & Hp & Hps & ->)%Forall2_cons_inv_l. apply IH in Hps. rewrite E in Hp. by simplify_eq.
    + split; [done|]. by intros (p' & ps' & _ & Hps%IH & ->)%Forall2_cons_inv_l.
    + split; [done|]. by intros (p' & ps' & _ & Hps%IH & ->)%Forall2_cons_inv_l.
Qed.

Lemma next_page_last {A} (uuid : A -> string) n l : (length l <= n)%nat ->
  next_page uuid (Z.of_nat n) (take (S n) l) = Ok (l, "").
Proof.
  intros Hl. unfold next_page. rewrite take_ge by lia. by rewrite (proj2 (Z.ltb_ge _ _)) by lia.
Qed.

Lemma next_page_more {A} (uuid : A -> string) n l1 x l2 : length l1 = n ->
  next_page uuid (Z.of_nat n) (take (S n) (l1 ++ x :: l2)) = Ok (l1, uuid x).
Proof.
  intros <-. unfold next_page. rewrite cons_middle, app_assoc, take_app_length' by (rewrite length_app; simpl; lia).
  rewrite length_app. simpl. rewrite (proj2 (Z.ltb_lt _ _)) by lia. rewrite last_snoc.
  rewrite (proj2 (Z.ltb_ge _ _)) by lia. by rewrite Nat2Z.id, take_app_length.
Qed.

Section Pages.
Context (basePath : string) `{Uuid} (merchantID : Z) (reverse : bool) (types : list string).

Definition listed (p : Row.Payment) : bool :=
  (Row.p_MerchantID p =? merchantID) && (if negb (bool_decide (types = [])) then in_strings (Row.p_Type p) types else true).

(** The payments to list, in the order of the listing. *)
Definition listing (d : DB) : list Row.Payment :=
  let l := select listed (payments d) in if reverse then rev l else l.

Definition options (limit : Z) (cursor : string) : ListOptions := mkListOptions limit cursor reverse types.

(** A client that follows the cursors. *)
Fixpoint all_pages (fuel : nat) (limit : Z) (cursor : string) : Go (list Payment) :=
  match fuel with
  | O => fail (ENew "out of fuel")
  | S fuel =>
    '(page, next) ← List_ basePath merchantID (options limit cursor);
    if bool_decide (next = "") then mret page else
    rest ← all_pages fuel limit next; mret (page ++ rest)
  end.

(** What the statement of a page that starts at [from] selects. *)
Definition page_from (from : Z) (d : DB) : list Row.Payment :=
  List.filter (fun p => if reverse then Row.p_ID p <=? from else from <=? Row.p_ID p) (listing d).

Lemma wp_page from n w (Q : res (list Row.Payment) -> world -> Prop) :
  (forall w', db w' = db w -> Q (Ok (take (S n) (page_from from (db w)))) w') ->
  wp ((if reverse then PaginatePaymentsDesc else PaginatePaymentsAsc) merchantID from (Z.of_nat n + 1)
    (negb (bool_decide (types = []))) types) w Q.
Proof.
  intros HQ. assert (forall l : list Row.Payment, limit_rows (Z.of_nat n + 1) l = Ok (take (S n) l)) as Hl.
  { intros l. unfold limit_rows. rewrite (proj2 (Z.ltb_ge _ _)) by lia. f_equal. f_equal. lia. }
  assert (page_from from (db w) = (if reverse then rev (select (fun p => (Row.p_MerchantID p =? merchantID) &&
    (Row.p_ID p <=? from) && (if negb (bool_decide (types = [])) then in_strings (Row.p_Type p) types else true)) (payments (db w)))
    else select (fun p => (Row.p_MerchantID p =? merchantID) &&
    (from <=? Row.p_ID p) && (if negb (bool_decide (types = [])) then in_strings (Row.p_Type p) types else true)) (payments (db w)))) as Hp.
  { unfold page_from, listing, select. destruct reverse; [rewrite filter_rev; f_equal|]; rewrite filter_filter;
      apply filter_ext; intros p; unfold listed; by rewrite <- !andb_assoc, (andb_comm (if negb _ then _ else _)). }
  rewrite Hp in HQ. destruct reverse; apply wp_read; intros w1 E1; rewrite Hl; by apply HQ.
Qed.

Lemma listing_sorted d : table_wf (payments d) -> StronglySorted Z.lt (Row.p_ID <$> select listed (payments d)).
Proof. intros [Hs _]. by apply sorted_filter. Qed.

Lemma page_from_suffix d l1 x l2 : table_wf (payments d) -> listing d = l1 ++ x :: l2 ->
  page_from (Row.p_ID x) d = x :: l2.
Proof.
  intros Hs%listing_sorted Hl. unfold page_from. rewrite Hl. unfold listing in Hl. destruct reverse.
  - assert (select listed (payments d) = rev l2 ++ x :: rev l1) as He.
    { rewrite <- (rev_involutive (select _ _)), Hl, rev_app_distr. simpl. by rewrite <- app_assoc. }
    rewrite He in Hs. rewrite <- (rev_involutive (l1 ++ x :: l2)), filter_rev, rev_app_distr. simpl.
    rewrite <- app_assoc. simpl. rewrite filter_upto by done. by rewrite rev_app_distr, rev_involutive.
  - rewrite Hl in Hs. by apply filter_from.
Qed.

Lemma listing_in d x : x ∈ listing d -> x ∈ rows (payments d) /\ listed x = true.
Proof.
  unfold listing. destruct reverse; intros Hx; [apply list_elem_of_In, in_rev, list_elem_of_In in Hx|]; by apply elem_of_select.
Qed.

Lemma page_from_start d : table_wf (payments d) -> next_id (payments d) <= 2 ^ 63 ->
  page_from (if reverse then max_int64 else 0) d = listing d.
Proof.
  intros (_ & Hf & _) Hn. unfold page_from. apply filter_all, Forall_forall. intros x [Hx _]%listing_in.
  rewrite Forall_forall in Hf. specialize (Hf x Hx). change (row_id x) with (Row.p_ID x) in Hf.
  unfold max_int64. destruct reverse; lia.
Qed.

(** [cursor] is where the listing continues with [l]. *)
Definition cursor_at (d : DB) (cursor : string) (l : list Row.Payment) : Prop :=
  (cursor = "" /\ l = listing d) \/
  exists l1 x l2, cursor = Row.p_MerchantOrderUuid x /\ l = x :: l2 /\ listing d = l1 ++ l.

Definition reads (l : list Row.Payment) (ps : list Payment) : Prop :=
  Forall2 (fun r p => entryToPayment basePath r = Ok p) l ps.

Lemma reads_ids r p : entryToPayment basePath r = Ok p ->
  pay_ID p = Row.p_ID r /\ pay_MerchantOrderUUID p = Row.p_MerchantOrderUuid r.
Proof.
  unfold entryToPayment. destruct (paymentPrice _ _); simpl; [|done|done]. by intros [= <-].
Qed.

(** Order uuids are those [uuid.Parse] reads back. *)
Definition uuids_ok (d : DB) : Prop := forall r, r ∈ rows (payments d) ->
  Row.p_MerchantOrderUuid r <> "" /\ uuid_Parse (Row.p_MerchantOrderUuid r) = Some (Row.p_MerchantOrderUuid r).

Lemma page_limit_ok n : 1 <= n <= 100 -> page_limit n = Ok n /\ int32 (n + 1) = n + 1.
Proof.
  intros Hn. assert (forall z, 0 <= z <= 101 -> int32 z = z) as Hi.
  { intros z Hz. unfold int32, wrap_signed. rewrite Z.mod_small by lia. by rewrite (proj2 (Z.ltb_lt _ _)) by lia. }
  split; [|apply Hi; lia]. unfold page_limit, limitMax. rewrite Hi by lia.
  rewrite (proj2 (Z.eqb_neq _ _)) by lia. by rewrite (proj2 (Z.ltb_ge _ _)) by lia.
Qed.

Lemma wp_cursor_id cursor n l ps w (Q : res Z -> world -> Prop) : schema_ok (db w) -> uuids_ok (db w) ->
  next_id (payments (db w)) <= 2 ^ 63 -> cursor_at (db w) cursor l -> reads l ps ->
  (forall from w', db w' = db w -> page_from from (db w) = l -> Q (Ok from) w') ->
  wp (cursor_id pay_ID (GetByMerchantIDs basePath merchantID) "unable to get fromID payment" (options n cursor)) w Q.
Proof.
  intros Hok Hu Hn Hc Hr HQ. unfold cursor_id. cbn [lo_Cursor lo_ReverseOrder options].
  destruct Hc as [[-> ->]|(l1 & x & l2 & -> & -> & Hl)].
  - rewrite bool_decide_true by done. wp_step. apply HQ; [done|]. apply page_from_start; [by apply wf_payments|done].
  - assert (x ∈ listing (db w)) as Hx by (rewrite Hl; apply elem_of_app; right; left).
    apply listing_in in Hx as [Hin Hlisted]. destruct (Hu x Hin) as [Hne Hp]. rewrite bool_decide_false by done.
    rewrite Hp. apply Forall2_cons_inv_l in Hr as (p & ps' & Hxp & _ & ->).
    do 2 wp_step. unfold GetByMerchantIDs, GetPaymentByMerchantIDs. apply wp_found_payment. intros w1 E1.
    apply andb_true_iff in Hlisted as [Hm _].
    rewrite (one_order _ x) by (try done; unfold order_of; by rewrite Hm, bool_decide_true).
    simpl. rewrite Hxp. cbn [wrap]. wp_step. destruct (reads_ids _ _ Hxp) as [-> _]. apply HQ; [done|].
    apply (page_from_suffix _ l1); [by apply wf_payments|done].
Qed.

Lemma reads_take n l ps : reads l ps -> reads (take n l) (take n ps).
Proof. apply Forall2_take. Qed.

Lemma wp_List cursor (n : nat) l ps w : schema_ok (db w) -> uuids_ok (db w) -> next_id (payments (db w)) <= 2 ^ 63 ->
  1 <= Z.of_nat n <= 100 -> cursor_at (db w) cursor l -> reads l ps ->
  wp (List_ basePath merchantID (options (Z.of_nat n) cursor)) w (fun r w' =>
    db w' = db w /\ r = next_page pay_MerchantOrderUUID (Z.of_nat n) (take (S n) ps)).
Proof.
  intros Hok Hu Hid Hn Hc Hr. destruct (page_limit_ok _ Hn) as [Hl Hi]. unfold List_.
  cbn [lo_Limit lo_FilterByType lo_ReverseOrder options]. rewrite Hl. do 2 wp_step. wp_step.
  apply (wp_cursor_id _ _ l ps); [done..|]. intros from w1 E1 Hp. rewrite Hi. do 2 wp_step. rewrite <- E1 in Hp.
  apply wp_page. intros w2 E2. cbn [wrap]. do 3 wp_step. rewrite Hp.
  rewrite (proj2 (entriesToPayments_Forall2 _ _ (take (S n) ps))) by by apply reads_take.
  cbn [wrap]. wp_step. split; [by rewrite E2|done].
Qed.

Lemma all_pages_from fuel (n : nat) : 1 <= Z.of_nat n <= 100 -> forall l ps cursor w,
  schema_ok (db w) -> uuids_ok (db w) -> next_id (payments (db w)) <= 2 ^ 63 -> cursor_at (db w) cursor l -> reads l ps ->
  (length ps < fuel)%nat ->
  wp (all_pages fuel (Z.of_nat n) cursor) w (fun r w' => r = Ok ps /\ db w' = db w).
Proof.
  intros Hn. induction fuel as [|fuel IH]; intros l ps cursor w Hok Hu Hid Hc Hr Hf; [lia|]. cbn [all_pages].
  wp_step. eapply wp_mono; [by apply (wp_List _ _ l ps)|]. intros r w1 [E1 ->].
  destruct (decide (length ps <= n)%nat) as [Hle|Hgt].
  - rewrite next_page_last by done. rewrite bool_decide_true by done. by wp_step.
  - destruct (lookup_lt_is_Some_2 ps n ltac:(lia)) as [p Hp]. pose proof (take_drop_middle _ _ _ Hp) as Hps.
    destruct (Forall2_lookup_r _ _ _ _ _ Hr Hp) as (x & Hx & Hxp). destruct (reads_ids _ _ Hxp) as [_ Hux].
    pose proof (take_drop_middle _ _ _ Hx) as Hls.
    assert (length (take n ps) = n) as Hlen by (rewrite length_take; lia).
    assert (next_page pay_MerchantOrderUUID (Z.of_nat n) (take (S n) ps) = Ok (take n ps, pay_MerchantOrderUUID p)) as ->
      by (rewrite <- Hps at 1; by apply next_page_more).
    assert (x ∈ rows (payments (db w))) as Hin.
    { assert (x ∈ l) as Hxl by by eapply list_elem_of_lookup_2. apply listing_in.
      destruct Hc as [[_ ->]|(l1 & y & l2 & _ & -> & ->)]; [done|]. apply elem_of_app. by right. }
    rewrite Hux. rewrite bool_decide_false by by apply Hu.
    assert (reads (drop n l) (drop n ps)) as Hrd by by apply Forall2_drop.
    wp_step. eapply wp_mono; [apply (IH (drop n l) (drop n ps)); rewrite ?E1; try done; [|rewrite length_drop; lia]|].
    + right. apply drop_S in Hx as Hd. destruct Hc as [[_ ->]|(l1 & y & l2 & _ & -> & Hl)].
      * exists (take n (listing (db w))), x, (drop (S n) (listing (db w))). by rewrite <- Hd, take_drop.
      * exists (l1 ++ take n (y :: l2)), x, (drop (S n) (y :: l2)). by rewrite <- Hd, <- app_assoc, take_drop.
    + intros r w2 [-> E2]. wp_step. rewrite E2. split; [by rewrite take_drop|done].
Qed.
End Pages.

(** C35. Following the cursors visits every payment once: for a page size of 1
    to 100, either order and any filter of types, the pages of [List] that
    start without a cursor and go on with the cursor each page returns are,
    put together, exactly the merchant's payments of those types by ascending
    (descending) id, and the listing ends after at most one page per payment.
    The uuids of the stored orders are texts [uuid.Parse] reads back, the
    stored payments can be read, and ids are 64-bit numbers. *)
Theorem pages_cover (basePath : string) `{Uuid} (merchantID : Z) (reverse : bool) (types : list string) (limit : nat)
  (fuel : nat) (ps : list Payment) (w : world) (Hok : schema_ok (db w)) (Hlimit : 1 <= Z.of_nat limit <= 100)
  (Huuids : uuids_ok (db w)) (Hids : next_id (payments (db w)) <= 2 ^ 63)
  (Hreads : entriesToPayments basePath (listing merchantID reverse types (db w)) = Ok ps)
  (Hfuel : (length ps < fuel)%nat) :
  let '(r, w') := all_pages basePath merchantID reverse types fuel (Z.of_nat limit) "" w in
  r = Ok ps /\ db w' = db w.
Proof.
  pose proof (all_pages_from basePath merchantID reverse types fuel limit Hlimit
    (listing merchantID reverse types (db w)) ps "" w Hok Huuids Hids) as Hp.
  unfold wp in Hp. destruct (all_pages _ _ _ _ _ _ _ _) as [r w']. apply Hp; [by left| |done].
  by apply entriesToPayments_Forall2.
Qed.

(** ** Lemmas: expiration *)
Section Expiration.
Context (basePath : string) `{Publisher}.

Definition all_read (d : DB) : Prop := forall r, r ∈ rows (payments d) -> is_ok (entryToPayment basePath r) = true.

Lemma entriesToPayments_ids l : Forall (fun r => is_ok (entryToPayment basePath r) = true) l ->
  exists ps, entriesToPayments basePath l = Ok ps /\ map pay_ID ps = map Row.p_ID l.
Proof.
  induction 1 as [|r l Hr _ (ps & Hps & Hid)]; [by exists []|]. simpl.
  destruct (entryToPayment basePath r) as [p|e|s] eqn:E; [|done..]. simpl. rewrite Hps. simpl.
  exists (p :: ps). split; [done|]. simpl. by rewrite (proj1 (reads_ids basePath _ _ E)), Hid.
Qed.

(** The id is among the payments [GetBatchExpired] returns. *)
Definition lists_expired (limit : Z) (w : world) (id : Z) : Prop :=
  match (GetBatchExpired basePath limit w).1 with Ok ps => id ∈ map pay_ID ps | _ => False end.

Definition expired_at (expiresAt createdAt : Z) (r : Row.Payment) : Prop :=
  match NullTimeToPointer (Row.p_ExpiresAt r) with
  | Some e => e < expiresAt
  | None => Row.p_CreatedAt r + ExpirationPeriodForNotLocked < createdAt
  end.

Lemma is_expired_at e c r : is_expired (TimeToNullable e) (c - ExpirationPeriodForNotLocked) r = true <-> expired_at e c r.
Proof.
  unfold is_expired, expired_at, NullTimeToPointer. destruct (Valid (Row.p_ExpiresAt r)); simpl; lia.
Qed.

Lemma lists_expired_iff limit w id : schema_ok (db w) -> all_read (db w) -> 0 < limit < 2 ^ 31 ->
  Z.of_nat (length (rows (payments (db w)))) <= limit ->
  lists_expired limit w id <-> exists r, r ∈ rows (payments (db w)) /\ Row.p_ID r = id /\ Row.p_Type r = TypePayment /\
    (Row.p_Status r = StatusPending \/ Row.p_Status r = StatusLocked) /\
    expired_at (clock w (ticks w)) (clock w (S (ticks w))) r.
Proof.
  intros Hok Hread Hlim Hlen. unfold lists_expired, GetBatchExpired, time_Now, read, query, lift, mbind, M_bind. simpl.
  assert (int32 limit = limit) as Hi.
  { unfold int32, wrap_signed. rewrite Z.mod_small by lia. by rewrite (proj2 (Z.ltb_lt _ _)) by lia. }
  rewrite Hi, (proj2 (Z.eqb_neq limit 0)) by lia. unfold limit_rows. rewrite (proj2 (Z.ltb_ge limit 0)) by lia.
  set (sel := select _ _).
  assert (length sel <= length (rows (payments (db w))))%nat as Hsel by apply filter_length_le.
  rewrite take_ge by lia. simpl.
  destruct (entriesToPayments_ids sel) as (ps & -> & ->).
  { apply Forall_forall. intros r [Hr _]%elem_of_select. by apply Hread. }
  rewrite list_elem_of_In, in_map_iff. setoid_rewrite <- list_elem_of_In. unfold sel. setoid_rewrite elem_of_select.
  setoid_rewrite andb_true_iff. setoid_rewrite andb_true_iff. setoid_rewrite is_expired_at.
  unfold in_strings. simpl. setoid_rewrite orb_true_iff. setoid_rewrite orb_false_r. setoid_rewrite bool_decide_eq_true.
  naive_solver.
Qed.

(** What [Update] leaves: the row is changed even when publishing fails. *)
Definition updated_payments (merchantID id : Z) (arg : UpdatePaymentParams) (d : DB) : DB :=
  set_payments (update_rows (merchant_payment id merchantID) (payment_updated arg) (payments d)) d.

Definition update_params (merchantID id now : Z) (status : string) (expiresAt : NullTime) : UpdatePaymentParams :=
  mkUpdatePaymentParams id merchantID status now expiresAt (bool_decide (status = StatusLocked)).

Lemma wp_Update merchantID id status row mt w :
  one (select (merchant_payment id merchantID) (payments (db w))) = Ok row ->
  (status = StatusLocked -> one (select (fun m => by_id merchantID m && trashed_ok false m) (merchants (db w))) = Ok mt) ->
  wp (Update basePath merchantID id status) w (fun r w' =>
    let now := clock w (ticks w) in
    let arg := update_params merchantID id now status (if bool_decide (status = StatusLocked)
      then TimeToNullable (now + Merchant.PaymentExpirationPeriod (jb_Bytes (Row.mt_Settings mt))) else null_time) in
    db w' = updated_payments merchantID id arg (db w) /\
    forall p, r = Ok p -> entryToPayment basePath (payment_updated arg row) = Ok p).
Proof.
  intros Hrow Hmt. cbv zeta. set (now := clock w (ticks w)). unfold Update. wp_step.
  assert (exists w0, time_Now w = (Ok now, w0) /\ db w0 = db w) as (w0 & E0 & Ed0) by by eexists.
  unfold wp at 1. rewrite E0. cbn [fst snd]. wp_step.
  set (exp := if bool_decide (status = StatusLocked) then _ else _).
  set (expiresAt := (if bool_decide (status = StatusLocked)
      then TimeToNullable (now + Merchant.PaymentExpirationPeriod (jb_Bytes (Row.mt_Settings mt))) else null_time)).
  assert (wp exp w0 (fun r w' => r = Ok expiresAt /\ db w' = db w)) as Hexp.
  { unfold exp, expiresAt. case_bool_decide as Hlocked; [|by wp_step]. wp_step. apply wp_MerchantGetByID. intros w1 E1.
    rewrite Ed0 in *. rewrite Hmt by done. by wp_step. }
  eapply wp_mono; [exact Hexp|]. intros r w1 [-> E1]. wp_step. apply wp_not_found, wp_query. rewrite E1.
  cbn [up_ID up_MerchantID]. rewrite Hrow. cbn [fst snd fmap res_fmap]. intros w2 E2.
  fold (update_params merchantID id now status expiresAt) in *. fold (updated_payments merchantID id (update_params merchantID id now status expiresAt) (db w)) in E2.
  wp_step. destruct (_ =? 0).
  - do 2 wp_step. by split; [|intros p].
  - wp_step. apply wp_external. intros w3 E3. destruct (Publish _ _ _ _) as [u|e|s]; cbn [wrap]; try wp_step;
      (split; [congruence|]); intros p Hp; congruence.
Qed.

Lemma updated_reads arg r : is_ok (entryToPayment basePath (payment_updated arg r)) = is_ok (entryToPayment basePath r).
Proof.
  unfold entryToPayment. change (paymentPrice (payment_updated arg r)) with (paymentPrice r). cbn [Row.p_Metadata payment_updated].
  by destruct (paymentPrice r _).
Qed.

Lemma updated_ok merchantID id arg d : schema_ok d -> all_read d ->
  schema_ok (updated_payments merchantID id arg d) /\ all_read (updated_payments merchantID id arg d) /\
  length (rows (payments (updated_payments merchantID id arg d))) = length (rows (payments d)).
Proof.
  intros Hok Hr. split; [by apply (update_payments_schema d)|]. split; [|apply length_map].
  intros r (x & Hx & ->)%elem_of_update. destruct (merchant_payment id merchantID x); [rewrite updated_reads|]; by apply Hr.
Qed.

(** The only row with the id is the updated one. *)
Lemma updated_row merchantID id arg d row x : schema_ok d ->
  one (select (merchant_payment id merchantID) (payments d)) = Ok row ->
  x ∈ rows (payments (updated_payments merchantID id arg d)) /\ Row.p_ID x = id <-> x = payment_updated arg row.
Proof.
  intros Hok Hrow. destruct (one_select_inv _ _ _ Hrow) as [Hin Hp].
  assert (Row.p_ID row = id) as Hid by (apply andb_true_iff in Hp as [Hi _]; by apply Z.eqb_eq in Hi).
  split.
  - intros [(y & Hy & ->)%elem_of_update Hx].
    assert (Row.p_ID y = id) as Hyid by (by destruct (merchant_payment id merchantID y)).
    assert (row_at id (payments d) = Some y) as K1 by (apply row_at_Some; [by apply wf_payments|done]).
    assert (row_at id (payments d) = Some row) as K2 by (apply row_at_Some; [by apply wf_payments|done]).
    assert (y = row) as -> by congruence. by rewrite Hp.
  - intros ->. split; [|done]. apply elem_of_update. exists row. by rewrite Hp.
Qed.

Lemma updated_found merchantID id arg d row : schema_ok d ->
  one (select (merchant_payment id merchantID) (payments d)) = Ok row ->
  one (select (merchant_payment id merchantID) (payments (updated_payments merchantID id arg d))) = Ok (payment_updated arg row).
Proof.
  intros Hok Hrow. apply one_select_unique.
  - apply wf_payments. by apply (update_payments_schema d).
  - by apply (updated_row merchantID id arg d row).
  - by destruct (one_select_inv _ _ _ Hrow).
  - intros x [Hx _]%andb_true_iff. destruct (one_select_inv _ _ _ Hrow) as [_ [Hr _]%andb_true_iff].
    unfold by_id in Hx, Hr. change (row_id (payment_updated arg row)) with (row_id row). lia.
Qed.

(** The row of the id, after the update. *)
Lemma updated_row_at merchantID id arg d row : schema_ok d ->
  one (select (merchant_payment id merchantID) (payments d)) = Ok row ->
  row_at id (payments (updated_payments merchantID id arg d)) = Some (payment_updated arg row).
Proof.
  intros Hok Hrow. destruct (proj2 (updated_row merchantID id arg d row _ Hok Hrow) eq_refl) as [Hin Hid].
  apply row_at_Some; [|by split]. apply wf_payments. by apply (update_payments_schema d).
Qed.

(** A database a scan of [limit] payments reads as a whole. *)
Definition scannable (limit : Z) (d : DB) : Prop :=
  schema_ok d /\ all_read d /\ Z.of_nat (length (rows (payments d))) <= limit.

(** Whose a payment is, of what type, in what status and until when. *)
Definition course (r : Row.Payment) : Z * string * string * NullTime :=
  (Row.p_MerchantID r, Row.p_Type r, Row.p_Status r, Row.p_ExpiresAt r).

Lemma lists_expired_row limit w id row : 0 < limit < 2 ^ 31 -> scannable limit (db w) ->
  row_at id (payments (db w)) = Some row ->
  lists_expired limit w id <-> Row.p_Type row = TypePayment /\
    (Row.p_Status row = StatusPending \/ Row.p_Status row = StatusLocked) /\
    expired_at (clock w (ticks w)) (clock w (S (ticks w))) row.
Proof.
  intros Hlim (Hok & Hread & Hlen) Hrow. rewrite lists_expired_iff by done. destruct (row_at_id _ _ _ Hrow) as [Hid Hin]. split.
  - intros (x & Hx & Hxid & He). assert (row_at id (payments (db w)) = Some x) as K by (apply row_at_Some; [by apply wf_payments|by split]).
    by replace row with x by congruence.
  - intros He. by exists row.
Qed.

Lemma one_of_row_at d id merchantID row : schema_ok d -> row_at id (payments d) = Some row -> Row.p_MerchantID row = merchantID ->
  one (select (merchant_payment id merchantID) (payments d)) = Ok row.
Proof.
  intros Hok Hrow Hm. destruct (row_at_id _ _ _ Hrow) as [Hid Hin]. change (row_id row) with (Row.p_ID row) in Hid. subst id.
  by apply (one_payment d row true merchantID).
Qed.
End Expiration.

(** C34. The life of a locked payment. Locking a payment at time [t] sets its
    status and lets it expire after the merchant's period, which is between one
    minute and one day. In any later database, whatever has been written in
    between, as long as this payment has kept its merchant, type, status and
    time of expiry: a scan for expired payments returns it exactly when it is an
    incoming payment and the scan happens after [t] plus the period; and failing
    it sets its status, so that no scan of any database after that, in which
    that status was kept, returns it. A scan is meant to read the whole table:
    its limit covers it and every stored payment can be read. *)
Theorem payment_expiry (basePath : string) `{Publisher} (merchantID id limit : Z) (row : Row.Payment) (mt : Row.Merchant)
  (w : world) (Hok : schema_ok (db w))
  (Hrow : one (select (merchant_payment id merchantID) (payments (db w))) = Ok row)
  (Hmt : one (select (fun m => by_id merchantID m && trashed_ok false m) (merchants (db w))) = Ok mt)
  (Hlimit : 0 < limit < 2 ^ 31) :
  let expires := clock w (ticks w) + Merchant.PaymentExpirationPeriod (jb_Bytes (Row.mt_Settings mt)) in
  Merchant.Minute <= expires - clock w (ticks w) <= 1440 * Merchant.Minute /\
  let '(r, w1) := Update basePath merchantID id StatusLocked w in
  (forall p, r = Ok p -> pay_Status p = StatusLocked /\ pay_ExpiresAt p = Some expires) /\
  exists row1, row_at id (payments (db w1)) = Some row1 /\
    course row1 = (merchantID, Row.p_Type row, StatusLocked, TimeToNullable expires) /\
    forall w2 row2, scannable basePath limit (db w2) -> row_at id (payments (db w2)) = Some row2 -> course row2 = course row1 ->
      (lists_expired basePath limit w2 id <-> Row.p_Type row = TypePayment /\ expires < clock w2 (ticks w2)) /\
      exists row3, row_at id (payments (db (Update basePath merchantID id StatusFailed w2).2)) = Some row3 /\
        Row.p_Status row3 = StatusFailed /\
        forall w4 row4, scannable basePath limit (db w4) -> row_at id (payments (db w4)) = Some row4 ->
          Row.p_Status row4 = Row.p_Status row3 -> ~ lists_expired basePath limit w4 id.
Proof.
  cbv zeta. split.
  { rewrite Merchant.PaymentExpirationPeriod_eq.
    pose proof (Merchant.expiration_minutes_bounds (jb_Bytes (Row.mt_Settings mt))). unfold Merchant.Minute. lia. }
  pose proof (wp_Update basePath merchantID id StatusLocked row mt w Hrow (fun _ => Hmt)) as Hu. unfold wp in Hu. cbv zeta in Hu.
  rewrite bool_decide_true in Hu by done.
  destruct (Update basePath merchantID id StatusLocked w) as [r w1]. cbn [fst snd] in Hu. destruct Hu as [E1 Hp].
  set (arg := update_params _ _ _ _ _) in *. split.
  { intros p Hr%Hp. revert Hr. unfold entryToPayment. destruct (paymentPrice _ _); simpl; [|done|done]. by intros [= <-]. }
  assert (Row.p_MerchantID row = merchantID) as Hm
    by (by destruct (one_select_inv _ _ _ Hrow) as [_ [_ Hm%Z.eqb_eq]%andb_true_iff]).
  exists (payment_updated arg row). split; [rewrite E1; by apply updated_row_at|]. unfold course. cbn. split; [by rewrite Hm|].
  intros w2 row2 Hs2 Hrow2 Hc. injection Hc as Hm2 Ht2 Hst2 He2. split.
  - rewrite (lists_expired_row _ _ _ _ row2), Ht2, Hst2 by done. unfold expired_at. rewrite He2. cbn. naive_solver.
  - pose proof (one_of_row_at (db w2) id merchantID row2 (proj1 Hs2) Hrow2 ltac:(congruence)) as Hone.
    pose proof (wp_Update basePath merchantID id StatusFailed row2 mt w2 Hone ltac:(done)) as Hf. unfold wp in Hf. cbv zeta in Hf.
    destruct Hf as [-> _]. eexists. split; [by apply updated_row_at; [apply Hs2|]|]. split; [done|].
    intros w4 row4 Hs4 Hrow4 Hst4. rewrite (lists_expired_row _ _ _ _ row4), Hst4 by done. by intros (_ & [Hs|Hs] & _).
Qed.

(** ** Witnesses *)
Definition order_props : CreatePaymentProps :=
  mkCreatePaymentProps "0a1b" None (mkMoney Fiat USD (Some 1999) 2) (Some "https://shop.example/thanks") None false
    false 0 "" None.
Definition order_world : world := (CreatePayment "https://pay.example" 1 order_props Merchant.shop_world).2.

Lemma order_schema : schema_ok (db order_world).
Proof. apply (CreatePayment_steps "https://pay.example" 1 order_props Merchant.shop_world), Merchant.shop_schema. Qed.

Lemma create_payment_once_witness :
  let '(r, w') := CreatePayment "https://pay.example" 1 order_props Merchant.shop_world in
  (match r with
   | Ok p => pay_Price p = mkMoney Fiat USD (Some 1999) 2 /\ (GetByMerchantOrderID "https://pay.example" 1 "0a1b" w').1 = Ok p
   | _ => False
   end) /\
  (CreatePayment "https://pay.example" 2 order_props Merchant.shop_world).1 = Err Merchant.ErrMerchantNotFound.
Proof.
  assert (m_ticker (cpp_Money order_props) ∈ fiatCurrencies) as Hf by (apply (bool_decide_eq_true_1 _); reflexivity).
  pose proof (create_payment_once "https://pay.example" 1 order_props Merchant.shop_world Merchant.shop_schema Hf) as Hc.
  pose proof (create_payment_once "https://pay.example" 2 order_props Merchant.shop_world Merchant.shop_schema Hf) as Hn.
  assert (CreatePaymentProps_validate order_props = Ok tt) as Hv by by vm_compute.
  assert (order_free 1 (cpp_MerchantOrderUUID order_props) (db Merchant.shop_world) = true) as Ho by by vm_compute.
  assert (negb (bool_decide (length (open_merchant 1 (db Merchant.shop_world)) = 0%nat)) = true) as Hm by by vm_compute.
  assert (bool_decide (length (open_merchant 2 (db Merchant.shop_world)) = 0%nat) = true) as Hl by by vm_compute.
  rewrite Hv, Ho in Hc. rewrite Hv in Hn. revert Hc Hn Hm Hl.
  generalize (CreatePayment "https://pay.example" 1 order_props Merchant.shop_world) (open_merchant 1 (db Merchant.shop_world))
    (CreatePayment "https://pay.example" 2 order_props Merchant.shop_world) (open_merchant 2 (db Merchant.shop_world)).
  intros [r w'] [|m1 l1] [r2 w2] [|m2 l2] Hc Hn Hm Hl; [discriminate Hm|discriminate Hm| |discriminate Hl].
  destruct Hc as (p & -> & _ & _ & _ & _ & Hp & _ & Hg & _). split; [by split|]. apply Hn.
Defined.

Lemma pages_cover_witness :
  match (all_pages (H := Some) "https://pay.example" 1 true [TypePayment] 2 1 "" order_world).1 with
  | Ok ps => map pay_ID ps = [1]
  | _ => False
  end.
Proof.
  pose proof (pages_cover (H := Some) "https://pay.example" 1 true [TypePayment] 1 2
    (match entriesToPayments "https://pay.example" (listing 1 true [TypePayment] (db order_world)) with Ok ps => ps | _ => [] end)
    order_world order_schema ltac:(lia)
    ltac:(intros r Hr; split; [|done]; revert r Hr; apply Forall_forall; apply (bool_decide_eq_true_1 _); by vm_compute)
    ltac:(by vm_compute) ltac:(by vm_compute) ltac:(apply Nat.ltb_lt; by vm_compute)) as Hp.
  revert Hp. generalize (all_pages (H := Some) "https://pay.example" 1 true [TypePayment] 2 (Z.of_nat 1) "" order_world).
  intros [r w']. intros [-> _]. by vm_compute.
Defined.

(** The first payment locked; then another order comes in and the period of the
    merchant passes, by one tick. *)
#[local] Instance no_events : Publisher := fun _ _ _ _ => Ok tt.
Definition order_row : Row.Payment :=
  default (payment_row (mkCreatePaymentParams "" 0 0 "" "" 0 "" null_string null_time numeric_null 0 "" null_string "" jsonb_null false)
    numeric_null jsonb_null 0) (head (rows (payments (db order_world)))).
Definition order_merchant : Row.Merchant :=
  default (Row.mkMerchant 0 "" 0 0 null_time "" "" 0 jsonb_null) (head (open_merchant 1 (db order_world))).
Definition locked_world : world := (Update "https://pay.example" 1 1 StatusLocked order_world).2.
Definition second_props : CreatePaymentProps :=
  mkCreatePaymentProps "0a1c" None (mkMoney Fiat USD (Some 500) 2) None None false false 0 "" None.
Definition second_world : world := (CreatePayment "https://pay.example" 1 second_props locked_world).2.
Definition later_world : world := mkWorld (db second_world) (fun _ => 20 * Merchant.Minute + 1) 0 (uuids second_world) 0 0 ∅.

Lemma locked_and_ordered basePath merchantID id props w : schema_ok (db w) ->
  schema_ok (db (CreatePayment basePath merchantID props (Update basePath merchantID id StatusLocked w).2).2).
Proof.
  intros Hok. apply (proj2 (CreatePayment_steps basePath merchantID props (Update basePath merchantID id StatusLocked w).2)).
  assert (steps schema_step (Update basePath merchantID id StatusLocked)) as Hs
    by (unfold Update, Merchant.GetByID, not_found; go_steps).
  by apply (proj2 (Hs w)).
Qed.

Lemma db_later : db later_world = db second_world.
Proof. unfold later_world. generalize second_world. by intros. Qed.
Lemma later_scannable : scannable "https://pay.example" 50 (db later_world).
Proof.
  split; [|split; [|apply Z.leb_le; by vm_compute]].
  - rewrite db_later. unfold second_world, locked_world. exact (locked_and_ordered "https://pay.example" 1 1 second_props order_world order_schema).
  - unfold all_read. apply Forall_forall, (bool_decide_eq_true_1 _). by vm_compute.
Qed.

Lemma payment_expiry_witness : length (rows (payments (db later_world))) = 2%nat /\
  lists_expired "https://pay.example" 50 later_world 1 /\
  row_at 1 (payments (db (Update "https://pay.example" 1 1 StatusFailed later_world).2)) <> None.
Proof.
  split; [by vm_compute|].
  pose proof (payment_expiry "https://pay.example" 1 1 50 order_row order_merchant order_world order_schema
    ltac:(by vm_compute) ltac:(by vm_compute) ltac:(lia)) as He. apply proj2 in He.
  assert (exists row2, row_at 1 (payments (db later_world)) = Some row2) as [row2 Hrow2] by (eexists; by vm_compute).
  assert ((course <$> row_at 1 (payments (db later_world))) = (course <$> row_at 1 (payments (db locked_world)))) as Hc by by vm_compute.
  assert (bool_decide (Row.p_Type order_row = TypePayment) = true) as Ht by by vm_compute.
  revert He Hc. unfold locked_world. generalize (Update "https://pay.example" 1 1 StatusLocked order_world).
  intros [r w1] (_ & row1 & Hrow1 & _ & He) Hc. cbn [snd] in Hc. rewrite Hrow2, Hrow1 in Hc. injection Hc as Hc.
  destruct (He later_world row2 later_scannable Hrow2) as [Hl (row3 & Hrow3 & _)]; [unfold course; congruence|].
  split; [|by rewrite Hrow3]. apply Hl. split; [by apply bool_decide_eq_true_1 in Ht|]. apply Z.ltb_lt. by vm_compute.
Defined.
