(* ===== verification/Nodes.v ===== *)
(** * Nodes: the clients of blockchain nodes and explorers

    What [internal/service/blockchain] uses of go-ethereum's client, of the
    Tatum and Trongrid clients and of the block explorer: their data and, as an
    interface, their calls; with [service_rpc.go], [service_confirmations.go],
    the runtime check of [service_broadcaster.go] and
    [internal/util/tron.go]. Each answer depends on the number of the call. *)

From S2P Require Import Prelude GoLib Float64 KmsWallet Money Repository Fees Bitcoin Currencies Sha256.

(** An [*ethclient.Client]: where it was dialled. *)
Inductive rpc_client :=
| ChainClient (blockchain : string) (isTest : bool)
| TatumClient (blockchain : string) (isTest : bool).

(** [types.Transaction]: [types.Sender] recovers the signer or fails, and the
    recipient is nil for the creation of a contract. *)
Record EvmTx := mkEvmTx {
  et_Hash : string; et_To : option string; et_Value : Z; et_Sender : res string; et_Nonce : Z
}.

(** [types.Receipt]; the block number of a pending one is nil. *)
Record EvmReceipt := mkEvmReceipt {
  er_EffectiveGasPrice : option Z; er_GasUsed : Z; er_BlockNumber : option Z; er_Status : Z
}.

Record EvmLog := mkEvmLog {
  el_Topics : list string; el_Data : list ascii; el_TxHash : string; el_BlockNumber : Z
}.

Record LogFilter := mkLogFilter {
  lf_FromBlock : Z; lf_ToBlock : Z; lf_Address : string; lf_Recipient : string
}.

(** [chain.BitcoinTransaction]; the previous output of an input may be nil. *)
Record ExplorerOutput := mkExplorerOutput { xo_Address : string; xo_Value : Z }.
Record ExplorerTransaction := mkExplorerTransaction {
  xt_TxID : string; xt_Fee : Z; xt_Confirmed : bool; xt_BlockHeight : Z;
  xt_Vin : list (option ExplorerOutput); xt_Vout : list ExplorerOutput
}.

(** [trongrid.AccountTransaction], [TRC20Transaction], [TransactionReceipt] *)
Record TronContract := mkTronContract {
  tc_Type : string; tc_Amount : Z; tc_OwnerAddress : string; tc_ToAddress : string
}.
Record AccountTransaction := mkAccountTransaction {
  at_TxID : string; at_BlockNumber : Z; at_Ret : list string; at_Contract : list TronContract
}.
Record TRC20Transaction := mkTRC20 {
  t20_TransactionID : string; t20_BlockNumber : Z; t20_From : string; t20_To : string; t20_Value : string;
  t20_TokenAddress : string
}.
Record TronReceipt := mkTronReceipt {
  tr_Fee : Z; tr_Sender : string; tr_Recipient : string; tr_Confirmations : Z; tr_IsConfirmed : bool;
  tr_Success : bool
}.

Class Nodes := {
  (** go-ethereum *)
  chain_EVMRPCURL : string -> bool -> string;
  chain_EVMRPC : string -> bool -> nat -> res unit;
  tatum_EVMRPC : string -> bool -> nat -> res unit;
  SuggestGasPrice : rpc_client -> nat -> res Z;
  SuggestGasTipCap : rpc_client -> nat -> res Z;
  TransactionByHash : rpc_client -> string -> nat -> res EvmTx;
  TransactionReceipt_ : rpc_client -> string -> nat -> res EvmReceipt;
  BlockNumber : rpc_client -> nat -> res Z;
  BlockByNumber : rpc_client -> Z -> nat -> res (list EvmTx);
  FilterLogs : rpc_client -> LogFilter -> nat -> res (list EvmLog);
  HexToHash : string -> string;
  HexToAddress : string -> string;
  AddressToHash : string -> string;
  HashToAddress : string -> string;
  (** the explorer *)
  chain_EVMScanBlocks : Z;
  UTXOAddressTransactions : string -> string -> bool -> bool -> nat -> res (list ExplorerTransaction);
  UTXOTransaction : string -> string -> bool -> nat -> res ExplorerTransaction;
  UTXOTipHeight : string -> bool -> nat -> res Z;
  BroadcastUTXOTransaction : string -> string -> bool -> nat -> res string;
  (** Tatum, if the provider is there *)
  has_tatum : bool;
  tatum_BitcoinTransaction : string -> bool -> nat -> res TatumTransaction;
  tatum_BitcoinBlocks : bool -> nat -> res float64;
  tatum_Broadcast : string -> string -> bool -> nat -> res string;
  (** Trongrid, if the provider is there *)
  has_trongrid : bool;
  trongrid_BroadcastTransaction : string -> bool -> nat -> res string;
  trongrid_GetTransactionReceipt : string -> bool -> nat -> res TronReceipt;
  trongrid_ListIncomingTransactions : string -> bool -> nat -> res (list AccountTransaction);
  trongrid_ListIncomingTRC20Transactions : string -> string -> bool -> nat -> res (list TRC20Transaction);
  (** [base58.Encode], and the message and cause of a Tatum error body *)
  base58_Encode : list Z -> string;
  tatum_error_object : string -> string * string
}.

(** ** service_confirmations.go *)
Definition ethRequiredConfirmations : Z := 12.
Definition maticRequiredConfirmations : Z := 30.
Definition bscRequiredConfirmations : Z := 15.
Definition tronRequiredConfirmations : Z := 10.

Definition RequiredConfirmations (blockchain : string) : res Z :=
  if bool_decide (blockchain = BTC) then Ok bitcoinRequiredConfirmations
  else if bool_decide (blockchain = LTC) then Ok litecoinRequiredConfirmations
  else if bool_decide (blockchain = ETH) then Ok ethRequiredConfirmations
  else if bool_decide (blockchain = MATIC) then Ok maticRequiredConfirmations
  else if bool_decide (blockchain = BSC) then Ok bscRequiredConfirmations
  else if bool_decide (blockchain = TRON) then Ok tronRequiredConfirmations
  else Err (EWrap ErrUnsupportedRuntime ("unsupported blockchain " +:+ blockchain)).

Definition validateTransactionRuntimeBlockchain (blockchain : string) : res unit :=
  guard_err (negb (supportsTransactionRuntime blockchain))
    (EWrap ErrUnsupportedRuntime ("unsupported blockchain " +:+ blockchain)).

(** ** internal/util/tron.go

    [hex.DecodeString] with its error dropped: the bytes in front of the first
    pair that is not hexadecimal. *)
Definition hex_value (c : ascii) : option Z :=
  let n := Z.of_N (N_of_ascii c) in
  if (48 <=? n) && (n <=? 57) then Some (n - 48)
  else if (97 <=? n) && (n <=? 102) then Some (n - 87)
  else if (65 <=? n) && (n <=? 70) then Some (n - 55)
  else None.

Fixpoint hex_DecodeString (l : list ascii) : list Z :=
  match l with
  | a :: b :: l =>
    match hex_value a, hex_value b with
    | Some x, Some y => 16 * x + y :: hex_DecodeString l
    | _, _ => []
    end
  | _ => []
  end.

Section Nodes.
Context `{Nodes} `{UTXOProviders}.

Definition TronHexToBase58 (address : string) : string :=
  let addressHex := hex_DecodeString (bytes address) in
  let hash1 := sha256 (sha256 addressHex) in
  base58_Encode (addressHex ++ take 4 hash1).

(** ** service_rpc.go *)
Definition evmRPC (blockchain : string) (isTest : bool) : Go rpc_client :=
  if has_chain && negb (bool_decide (chain_EVMRPCURL blockchain isTest = "")) then
    _ ← external (chain_EVMRPC blockchain isTest); mret (ChainClient blockchain isTest)
  else if negb has_tatum || negb (tatum_HasAPIKey isTest) then
    fail (ENew ("RPC URL is not configured for " +:+ blockchain +:+ " test=" +:+ (if isTest then "true" else "false")))
  else if one_of blockchain [ETH; MATIC; BSC] then
    _ ← external (tatum_EVMRPC blockchain isTest); mret (TatumClient blockchain isTest)
  else fail (EWrap ErrUnsupportedRuntime ("RPC is not implemented for " +:+ blockchain)).
End Nodes.

(** An explorer that knows one address and one transaction of it, one block
    below the tip; an Ethereum node with three blocks. *)
Definition ex_deposit : ExplorerTransaction :=
  mkExplorerTransaction "t1" 250 true 100 [Some (mkExplorerOutput "payer" 9000)]
    [mkExplorerOutput "shop" 5000; mkExplorerOutput "payer" 2750; mkExplorerOutput "shop" 1000].
Definition ex_transfer : EvmTx := mkEvmTx "0xaa" (Some "0x01") 7 (Ok "0x02") 0.

Definition ex_nodes : Nodes := {|
  chain_EVMRPCURL := fun _ _ => "https://node";
  chain_EVMRPC := fun _ _ _ => Ok tt;
  tatum_EVMRPC := fun _ _ _ => Ok tt;
  SuggestGasPrice := fun _ _ => Ok 20000000000;
  SuggestGasTipCap := fun _ _ => Ok 1000000000;
  TransactionByHash := fun _ _ _ => Ok ex_transfer;
  TransactionReceipt_ := fun _ _ _ => Ok (mkEvmReceipt (Some 20000000000) 21000 (Some 1) 1);
  BlockNumber := fun _ _ => Ok 2;
  BlockByNumber := fun _ n _ => Ok (if n =? 1 then [ex_transfer; mkEvmTx "0xbb" None 5 (Ok "0x03") 1] else []);
  FilterLogs := fun _ _ _ => Ok [];
  HexToHash := fun s => s; HexToAddress := fun s => s; AddressToHash := fun s => s; HashToAddress := fun s => s;
  chain_EVMScanBlocks := 2;
  UTXOAddressTransactions := fun _ _ _ mempool _ => Ok (if mempool : bool then [] else [ex_deposit; ex_deposit]);
  UTXOTransaction := fun _ _ _ _ => Ok ex_deposit;
  UTXOTipHeight := fun _ _ _ => Ok 105;
  BroadcastUTXOTransaction := fun _ _ _ _ => Ok "t1";
  has_tatum := true;
  tatum_BitcoinTransaction := fun _ _ _ => Err (ENew "");
  tatum_BitcoinBlocks := fun _ _ => Err (ENew "");
  tatum_Broadcast := fun _ _ _ _ => Ok "0xaa";
  has_trongrid := false;
  trongrid_BroadcastTransaction := fun _ _ _ => Err (ENew "");
  trongrid_GetTransactionReceipt := fun _ _ _ => Err (ENew "");
  trongrid_ListIncomingTransactions := fun _ _ _ => Ok [];
  trongrid_ListIncomingTRC20Transactions := fun _ _ _ _ => Ok [];
  base58_Encode := fun _ => "";
  tatum_error_object := fun body => (body, "")
|}.
