(* ===== verification/Convertor.v ===== *)
(** * Convertor: exchange rates and conversions

    [internal/service/blockchain/service_convertor.go]: the rate of a pair of
    currencies (from the cache, from Tatum, or from the table shipped with the
    program when there is no API key) and the conversions between fiat and
    crypto amounts.  Tatum and the cache's expiry are an interface; what was
    last stored under a key is in [rates]. *)

From S2P Require Import Prelude GoLib Float64 KmsWallet Money Repository Fees Bitcoin Currencies.

(** Tatum's client, and whether an entry of the cache is still there: it is
    dropped when it expires. *)
Class RateProvider := {
  HasMainAPIKey : bool;
  tatum_GetExchangeRate : string -> string -> nat -> res TatumRate;
  has_ratesCache : bool;
  cache_keeps : string -> nat -> res bool
}.

Record ExchangeRate := mkRate { er_From : string; er_To : string; er_Rate : float64; er_CalculatedAt : Z }.

Definition ConversionTypeFiatToFiat : string := "fiatToFiat".
Definition ConversionTypeFiatToCrypto : string := "fiatToCrypto".
Definition ConversionTypeCryptoToFiat : string := "cryptoToFiat".

Record Conversion := mkConversion { cv_Type : string; cv_Rate : float64; cv_From : Money; cv_To : Money }.

Definition determineConversionType (from to : string) : res string :=
  let fromIsFiat := is_ok (MakeFiatCurrency from) in
  let toIsFiat := is_ok (MakeFiatCurrency to) in
  if fromIsFiat && toIsFiat then Ok ConversionTypeFiatToFiat
  else if fromIsFiat && negb toIsFiat then Ok ConversionTypeFiatToCrypto
  else if negb fromIsFiat && toIsFiat then Ok ConversionTypeCryptoToFiat
  else Err (ENew ("unsupported conversion type: " +:+ from +:+ " to " +:+ to)).

(** [normalizations], traversed in an order Go leaves open. *)
Definition normalizations : list (string * string) :=
  [("_USDT", "USDT"); ("_USDC", "USDC"); ("_BUSD", "BUSD")].

Definition NormalizeTicker `{MapOrder} (ticker : string) : string :=
  let ticker := ToUpper ticker in
  match List.find (fun substr => Contains ticker substr) (map_order normalizations.*1) with
  | Some substr => default ticker ((list_to_map normalizations : gmap string string) !! substr)
  | None => ticker
  end.

Definition fallbackUSDExchangeRates : gmap string float64 := list_to_map [
  ("USD", f64_dec 1 0); ("EUR", f64_dec 108 (-2)); ("BTC", f64_dec 65000 0); ("LTC", f64_dec 85 0);
  ("ETH", f64_dec 3000 0); ("MATIC", f64_dec 1 0); ("TRON", f64_dec 1 (-1)); ("BNB", f64_dec 600 0);
  ("USDT", f64_dec 1 0); ("USDC", f64_dec 1 0); ("BUSD", f64_dec 1 0)].

(** [t.UnixMilli()] and [time.UnixMilli(int64(ts))] *)
Definition UnixMilli (t : Z) : Z := t / 1000000.
Definition from_UnixMilli (ts : float64) : Z := f64_int64 (f64_round_with dyadic_trunc ts) * 1000000.

Definition makeFallbackExchangeRate (desired selected : string) (rate : float64) : Go TatumRate :=
  now ← time_Now;
  mret (mkTatumRate selected desired (FormatFloat rate) (f64_of_Z (UnixMilli now)) "local-fallback").

Definition tatumRateCacheKey (desired selected : string) : string := selected +:+ "/" +:+ desired.

Definition quoted (a b : string) : string := a +:+ " / " +:+ b.

Section Convertor.
Context `{Resolver} `{MapOrder} `{RateProvider}.

Definition fallbackExchangeRate (desired selected : string) : Go (option TatumRate) :=
  let desired := NormalizeTicker desired in
  let selected := NormalizeTicker selected in
  if bool_decide (desired = selected) then r ← makeFallbackExchangeRate desired selected (f64_of_Z 1); mret (Some r) else
  match fallbackUSDExchangeRates !! selected, fallbackUSDExchangeRates !! desired with
  | Some selectedUSD, Some desiredUSD =>
    if f64_eq desiredUSD f64_zero then mret None else
    r ← makeFallbackExchangeRate desired selected (f64_div selectedUSD desiredUSD); mret (Some r)
  | _, _ => mret None
  end.

(** [s.ratesCache.Get] and [Set], where the service has a cache. *)
Definition cache_Get (key : string) : Go (option TatumRate) :=
  if negb has_ratesCache then mret None else
  keeps ← external (cache_keeps key);
  gets (fun w => if keeps : bool then rates w !! key else None).

Definition cache_Set (key : string) (r : TatumRate) : Go unit :=
  if negb has_ratesCache then mret tt else fun w =>
  (Ok tt, mkWorld (db w) (clock w) (ticks w) (uuids w) (drawn w) (calls w) (<[key := r]> (rates w))).

Definition getTatumExchangeRate (desired selected : string) : Go TatumRate :=
  let key := tatumRateCacheKey desired selected in
  hit ← cache_Get key;
  match hit with
  | Some value => mret value
  | None =>
    if negb HasMainAPIKey then
      r ← fallbackExchangeRate desired selected;
      match r with
      | None => fail (EWrap ErrCurrencyNotFound (selected +:+ "/" +:+ desired))
      | Some r => _ ← cache_Set key r; mret r
      end
    else
      r ← wrapM (external (tatum_GetExchangeRate desired selected))
        ("unable to get exchange rate of " +:+ quoted desired selected);
      _ ← cache_Set key r; mret r
  end.

Definition invalid_syntax : error := ENew "strconv.ParseFloat: invalid syntax".

Definition getExchangeRate (desired selected : string) : Go (float64 * Z) :=
  r ← wrapM (getTatumExchangeRate desired selected) ("unable to get exchange rate of " +:+ quoted desired selected);
  match ParseFloat (tr_Value r) with
  | None => fail invalid_syntax
  | Some rate => mret (rate, from_UnixMilli (tr_Timestamp r))
  end.

Definition GetExchangeRate (from to : string) : Go ExchangeRate :=
  if bool_decide (from = "") || bool_decide (to = "") then fail ErrValidation else
  if bool_decide (from = to) then now ← time_Now; mret (mkRate from to (f64_of_Z 1) now) else
  convType ← lift (determineConversionType from to);
  '(rate, at_) ← (
    if bool_decide (convType = ConversionTypeFiatToFiat) || bool_decide (convType = ConversionTypeCryptoToFiat) then
      getExchangeRate (NormalizeTicker to) (NormalizeTicker from)
    else if bool_decide (convType = ConversionTypeFiatToCrypto) then
      '(rate, at_) ← getExchangeRate (NormalizeTicker from) (NormalizeTicker to);
      mret (f64_div (f64_of_Z 1) rate, at_)
    else fail (ENew ("unsupported conversion type " +:+ convType)));
  mret (mkRate from to rate at_).

Definition FiatToFiat (from : Money) (to : FiatCurrency) : Go Conversion :=
  if negb (bool_decide (m_type from = Fiat)) then fail (EWrap ErrValidation (m_ticker from +:+ " is not fiat")) else
  rate ← GetExchangeRate (m_ticker from) to;
  toValue ← lift (MultiplyFloat64 from (er_Rate rate));
  toMoney ← lift (New Fiat to (StringRaw toValue) FiatDecimals);
  mret (mkConversion ConversionTypeFiatToFiat (er_Rate rate) from toMoney).

Definition FiatToCrypto (from : Money) (to : CryptoCurrency) : Go Conversion :=
  if negb (bool_decide (m_type from = Fiat)) then fail (EWrap ErrValidation (m_ticker from +:+ " is not fiat")) else
  if Money_IsZero from then fail (EWrap ErrValidation (m_ticker from +:+ " is zero")) else
  rate ← GetExchangeRate (m_ticker from) (cc_Ticker to);
  cryptoMoney ← lift (CryptoFromFloat64 (cc_Ticker to) (f64_of_Z 1) (cc_Decimals to));
  fiat ← lift (FiatToFloat64 from);
  cryptoMoney ← lift (MultiplyFloat64 cryptoMoney fiat);
  cryptoMoney ← lift (MultiplyFloat64 cryptoMoney (er_Rate rate));
  mret (mkConversion ConversionTypeFiatToCrypto (er_Rate rate) from cryptoMoney).

Definition CryptoToFiat (from : Money) (to : FiatCurrency) : Go Conversion :=
  if negb (bool_decide (m_type from = Crypto)) then fail (EWrap ErrValidation (m_ticker from +:+ " is not crypto")) else
  rate ← GetExchangeRate (m_ticker from) to;
  fiatMoney ← lift (Money.CryptoToFiat from to (er_Rate rate));
  mret (mkConversion ConversionTypeCryptoToFiat (er_Rate rate) from fiatMoney).

(** An error of [r] is replaced by a validation error. *)
Definition or_invalid {A} (msg : string) (r : res A) : res A :=
  match r with Err _ => Err (EWrap ErrValidation msg) | _ => r end.

Definition Convert (from to amount : string) : Go Conversion :=
  if bool_decide (from = "") then fail (EWrap ErrValidation "from is required")
  else if bool_decide (to = "") then fail (EWrap ErrValidation "to is required")
  else if bool_decide (amount = "") then fail (EWrap ErrValidation "amount is required") else
  let from := ToUpper from in let to := ToUpper to in
  amountFloat ← lift (match ParseFloat amount with
    | Some f => if f64_le f f64_zero then Err (EWrap ErrValidation "invalid amount") else Ok f
    | None => Err (EWrap ErrValidation "invalid amount")
    end);
  convType ← lift (match determineConversionType from to with
    | Err e => Err (EWrap ErrValidation (error_string e)) | r => r end);
  if bool_decide (convType = ConversionTypeFiatToFiat) then
    fromMoney ← lift (or_invalid "unable to make selected fiat money" (FiatFromFloat64 from amountFloat));
    toCurrency ← lift (wrap (MakeFiatCurrency to) "unable to resolve desired fiat currency");
    FiatToFiat fromMoney toCurrency
  else if bool_decide (convType = ConversionTypeFiatToCrypto) then
    fromMoney ← lift (or_invalid "unable to make selected fiat money" (FiatFromFloat64 from amountFloat));
    toCurrency ← lift (or_invalid "unable to resolve desired currency" (GetCurrencyByTicker to));
    FiatToCrypto fromMoney toCurrency
  else if bool_decide (convType = ConversionTypeCryptoToFiat) then
    fromCurrency ← lift (or_invalid "unable to resolve selected crypto currency" (GetCurrencyByTicker from));
    fromMoney ← lift (or_invalid "unable to resolve selected crypto currency"
      (CryptoFromFloat64 (cc_Ticker fromCurrency) amountFloat (cc_Decimals fromCurrency)));
    toCurrency ← lift (or_invalid "unable to resolve desired fiat currency" (MakeFiatCurrency to));
    CryptoToFiat fromMoney toCurrency
  else fail (EWrap ErrValidation "unsupported conversion").
End Convertor.

(** ** The shipped rates *)
Definition table_pairs : list ((string * float64) * (string * float64)) :=
  let l := map_to_list fallbackUSDExchangeRates in list_prod l l.

(** The rate of a pair survives printing and parsing, no rate is zero, the
    rate of a currency to itself is one, and the tickers are normal. *)
Definition pair_ok (p : (string * float64) * (string * float64)) : bool :=
  let '((d, b), (s, a)) := p in
  match ParseFloat (FormatFloat (f64_div a b)) with Some r => f64_same r (f64_div a b) | None => false end &&
  negb (f64_eq b f64_zero) && (negb (bool_decide (d = s)) || f64_same (f64_div a b) (f64_of_Z 1)) &&
  bool_decide (ToUpper d = d) && forallb (fun n => negb (Contains d n)) normalizations.*1.

Lemma pairs_ok : forallb pair_ok table_pairs = true.
Proof. by vm_compute. Qed.

Lemma keys_distinct : NoDup (map (fun p => tatumRateCacheKey p.1.1 p.2.1) table_pairs).
Proof. apply (bool_decide_eq_true_1 _). by vm_compute. Qed.

#[local] Opaque fallbackUSDExchangeRates.

Lemma f64_same_eq x y : f64_same x y = true -> x = y.
Proof.
  destruct x as [| | |s m e], y as [| | |s' m' e']; try done. simpl. rewrite !andb_true_iff, Z.eqb_eq.
  intros [[->%eqb_prop ->%Pos.eqb_eq] ->]. done.
Qed.

Lemma table_pair d s a b : fallbackUSDExchangeRates !! d = Some b -> fallbackUSDExchangeRates !! s = Some a ->
  ((d, b), (s, a)) ∈ table_pairs.
Proof.
  intros Hd%elem_of_map_to_list Hs%elem_of_map_to_list. revert Hd Hs. unfold table_pairs.
  generalize (map_to_list fallbackUSDExchangeRates). intros l Hd Hs. rewrite list_elem_of_In, in_prod_iff.
  by rewrite <- !list_elem_of_In.
Qed.

Record pair_facts (d s : string) (a b : float64) : Prop := mkFacts {
  pf_parse : ParseFloat (FormatFloat (f64_div a b)) = Some (f64_div a b);
  pf_zero : f64_eq b f64_zero = false;
  pf_same : d = s -> f64_div a b = f64_of_Z 1;
  pf_upper : ToUpper d = d;
  pf_normal : forall n, n ∈ normalizations.*1 -> Contains d n = false
}.

Lemma table_facts d s a b : fallbackUSDExchangeRates !! d = Some b -> fallbackUSDExchangeRates !! s = Some a ->
  pair_facts d s a b.
Proof.
  intros Hd Hs. pose proof (proj1 (forallb_forall _ _) pairs_ok _ (proj1 (list_elem_of_In _ _) (table_pair d s a b Hd Hs))) as Hp.
  unfold pair_ok in Hp. rewrite !andb_true_iff in Hp. destruct Hp as ((((H1 & H2) & H3) & H4) & H5). split.
  - destruct (ParseFloat _); [|done]. by rewrite (f64_same_eq _ _ H1).
  - by apply negb_true_iff in H2.
  - intros E. rewrite bool_decide_true in H3 by done. by apply f64_same_eq.
  - by apply bool_decide_eq_true in H4.
  - intros n Hn%list_elem_of_In. apply negb_true_iff. by apply (proj1 (forallb_forall _ _) H5).
Qed.

Lemma find_none {A} (f : A -> bool) l : (forall x, x ∈ l -> f x = false) -> List.find f l = None.
Proof.
  intros Hf. induction l as [|x l IH]; [done|]. simpl. rewrite Hf by left. apply IH. intros y Hy. apply Hf. by right.
Qed.

Lemma wp_makeFallback d s r w (Q : res TatumRate -> world -> Prop) :
  (forall t w', rates w' = rates w -> db w' = db w -> Q (Ok (mkTatumRate s d (FormatFloat r) t "local-fallback")) w') ->
  wp (makeFallbackExchangeRate d s r) w Q.
Proof. intros HQ. by apply HQ. Qed.

Section Fallback.
Context `{Resolver} `{MapOrder} `{!MapOrderLaws} `{RateProvider}.

Lemma NormalizeTicker_plain t : (forall n, n ∈ normalizations.*1 -> Contains (ToUpper t) n = false) ->
  NormalizeTicker t = ToUpper t.
Proof.
  intros Hn. unfold NormalizeTicker. rewrite find_none; [done|]. intros x. rewrite map_order_perm. by apply Hn.
Qed.

Lemma NormalizeTicker_known d b : fallbackUSDExchangeRates !! d = Some b -> NormalizeTicker d = d.
Proof.
  intros Hd. destruct (table_facts d d b b Hd Hd) as [_ _ _ Hu Hn].
  rewrite NormalizeTicker_plain; rewrite Hu; [done|exact Hn].
Qed.

(** What a dollar table knows of a currency. *)
Definition usd (ticker : string) : option float64 := fallbackUSDExchangeRates !! NormalizeTicker ticker.

Lemma usd_empty : usd "" = None.
Proof.
  unfold usd. rewrite NormalizeTicker_plain; [done|]. intros n Hn. simpl in Hn. set_unfold in Hn.
  by destruct_or! Hn; subst.
Qed.

(** The cache holds the shipped rate of every pair of known currencies it has. *)
Definition cache_coherent (w : world) : Prop := forall d s a b r,
  fallbackUSDExchangeRates !! d = Some b -> fallbackUSDExchangeRates !! s = Some a ->
  rates w !! tatumRateCacheKey d s = Some r -> tr_Value r = FormatFloat (f64_div a b).

(** The cache answers. *)
Definition cache_answers : Prop := forall key n, is_ok (cache_keeps key n) = true.

Lemma coherent_set d s a b r w : fallbackUSDExchangeRates !! d = Some b -> fallbackUSDExchangeRates !! s = Some a ->
  tr_Value r = FormatFloat (f64_div a b) -> cache_coherent w ->
  forall w', rates w' = <[tatumRateCacheKey d s := r]> (rates w) -> cache_coherent w'.
Proof.
  intros Hd Hs Hr Hc w' E d' s' a' b' r' Hd' Hs'. rewrite E.
  destruct (decide (tatumRateCacheKey d s = tatumRateCacheKey d' s')) as [Ek|Ek].
  2: { rewrite lookup_insert_ne by done. by apply Hc. }
  rewrite <- Ek, lookup_insert_eq. intros [= <-].
  assert (((d, b), (s, a)) = ((d', b'), (s', a'))) as [= <- <- <- <-]; [|done].
  pose proof keys_distinct as Hnd. pose proof (table_pair d s a b Hd Hs) as [i Hi]%list_elem_of_lookup.
  pose proof (table_pair d' s' a' b' Hd' Hs') as [j Hj]%list_elem_of_lookup.
  assert (i = j) as <-; [|congruence].
  eapply NoDup_lookup; [exact Hnd| |]; rewrite list_lookup_fmap.
  - rewrite Hi. reflexivity.
  - rewrite Hj. simpl. by rewrite Ek.
Qed.

Lemma wp_getExchangeRate d s a b w (Q : res (float64 * Z) -> world -> Prop) :
  HasMainAPIKey = false -> cache_answers -> cache_coherent w ->
  fallbackUSDExchangeRates !! d = Some b -> fallbackUSDExchangeRates !! s = Some a ->
  (forall t w', cache_coherent w' -> db w' = db w -> Q (Ok (f64_div a b, t)) w') ->
  wp (getExchangeRate d s) w Q.
Proof.
  intros Hk Ha Hc Hd Hs HQ. destruct (table_facts d s a b Hd Hs) as [Hp Hz Hsame _ _].
  unfold getExchangeRate. wp_step.
  assert (wp (getTatumExchangeRate d s) w (fun r w' => exists v, r = Ok v /\ tr_Value v = FormatFloat (f64_div a b) /\
    cache_coherent w' /\ db w' = db w)) as Ht.
  2: { wp_step. eapply wp_mono; [exact Ht|]. intros r w' (v & -> & Hv & Hc' & E). simpl. rewrite Hv, Hp. wp_step. by apply HQ. }
  unfold getTatumExchangeRate. wp_step.
  assert (wp (cache_Get (tatumRateCacheKey d s)) w (fun r w' => rates w' = rates w /\ db w' = db w /\
    (r = Ok None \/ r = Ok (rates w !! tatumRateCacheKey d s)))) as Hg.
  { unfold cache_Get. destruct has_ratesCache; simpl; [|wp_step; auto].
    unfold external, mbind, M_bind, gets, wp. simpl.
    destruct (cache_keeps _ _) as [[]|e|p] eqn:E; simpl; [by auto|by auto| |];
      pose proof (Ha (tatumRateCacheKey d s) (calls w)) as Ha'; by rewrite E in Ha'. }
  eapply wp_mono; [exact Hg|]. intros r w1 (Er & Ed & Hr).
  assert (cache_coherent w1) as Hc1 by (unfold cache_coherent; rewrite Er; exact Hc).
  assert (wp (r ← fallbackExchangeRate d s; match r with
      | None => fail (EWrap ErrCurrencyNotFound (s +:+ "/" +:+ d))
      | Some r => _ ← cache_Set (tatumRateCacheKey d s) r; mret r end) w1
    (fun r w' => exists v, r = Ok v /\ tr_Value v = FormatFloat (f64_div a b) /\ cache_coherent w' /\ db w' = db w)) as Hmiss.
  { assert (wp (fallbackExchangeRate d s) w1 (fun r w' => exists v, r = Ok (Some v) /\
      tr_Value v = FormatFloat (f64_div a b) /\ rates w' = rates w1 /\ db w' = db w1)) as Hf.
    { unfold fallbackExchangeRate. rewrite (NormalizeTicker_known _ _ Hd), (NormalizeTicker_known _ _ Hs), Hs, Hd, Hz.
      case_bool_decide as E.
      - rewrite Hsame by done. wp_step. apply wp_makeFallback. intros t w2 ??. wp_step. by eexists.
      - wp_step. apply wp_makeFallback. intros t w2 ??. wp_step. by eexists. }
    wp_step. eapply wp_mono; [exact Hf|]. intros r2 w2 (v & -> & Hv & Er2 & Ed2). wp_step.
    assert (cache_coherent w2) as Hc2 by (unfold cache_coherent; rewrite Er2; exact Hc1).
    unfold cache_Set. destruct has_ratesCache; simpl.
    - unfold wp. simpl. exists v. split_and!; [done|done| |congruence]. by eapply (coherent_set d s a b v w2).
    - wp_step. wp_step. exists v. split_and!; [done|done|done|congruence]. }
  destruct Hr as [->| ->]; [by rewrite Hk|]. destruct (rates w !! _) as [v|] eqn:Ev; [|by rewrite Hk].
  wp_step. exists v. split_and!; try done. by apply (Hc d s a b v).
Qed.
End Fallback.

(** Without an API key the program answers with the shipped rates: the
    rate of two different currencies it knows, one of them fiat, is the
    quotient of their dollar prices (the reciprocal of the quotient when the
    target is crypto), whether it was cached or not, for every ticker of a
    token that normalizes to a known one; the cache keeps holding only such
    rates and the database is untouched. *)
Theorem fallback_rates `{MapOrder} `{!MapOrderLaws} `{RateProvider} (from to : string) (a b : float64)
  (w : world) (Hkey : HasMainAPIKey = false) (Hkeeps : cache_answers) (Hc : cache_coherent w)
  (Ha : usd from = Some a) (Hb : usd to = Some b) (Hne : from <> to)
  (Hfiat : is_ok (MakeFiatCurrency from) || is_ok (MakeFiatCurrency to) = true) :
  let '(r, w') := GetExchangeRate from to w in
  (exists t, r = Ok (mkRate from to
     (if is_ok (MakeFiatCurrency to) then f64_div a b else f64_div (f64_of_Z 1) (f64_div b a)) t)) /\
  cache_coherent w' /\ db w' = db w.
Proof.
  assert (wp (GetExchangeRate from to) w (fun r w' => (exists t, r = Ok (mkRate from to
     (if is_ok (MakeFiatCurrency to) then f64_div a b else f64_div (f64_of_Z 1) (f64_div b a)) t)) /\
     cache_coherent w' /\ db w' = db w)) as Hw.
  2: { unfold wp in Hw. by destruct (GetExchangeRate from to w). }
  unfold GetExchangeRate. rewrite (bool_decide_false (from = "")) by (intros E; rewrite E, usd_empty in Ha; discriminate Ha).
  rewrite (bool_decide_false (to = "")) by (intros E; rewrite E, usd_empty in Hb; discriminate Hb).
  rewrite (bool_decide_false (from = to)) by done. simpl. wp_step. unfold determineConversionType.
  destruct (is_ok (MakeFiatCurrency to)) eqn:Et.
  - assert ((if is_ok (MakeFiatCurrency from) && true then Ok ConversionTypeFiatToFiat
      else if is_ok (MakeFiatCurrency from) && negb true then Ok ConversionTypeFiatToCrypto
      else if negb (is_ok (MakeFiatCurrency from)) && true then Ok ConversionTypeCryptoToFiat
      else Err (ENew ("unsupported conversion type: " +:+ from +:+ " to " +:+ to))) =
      Ok (if is_ok (MakeFiatCurrency from) then ConversionTypeFiatToFiat else ConversionTypeCryptoToFiat)) as ->
      by by destruct (is_ok (MakeFiatCurrency from)).
    wp_step. wp_step.
    assert (bool_decide ((if is_ok (MakeFiatCurrency from) then ConversionTypeFiatToFiat else ConversionTypeCryptoToFiat)
      = ConversionTypeFiatToFiat) || bool_decide ((if is_ok (MakeFiatCurrency from) then ConversionTypeFiatToFiat
      else ConversionTypeCryptoToFiat) = ConversionTypeCryptoToFiat) = true) as ->
      by by destruct (is_ok (MakeFiatCurrency from)).
    eapply (wp_getExchangeRate _ _ a b); try done. intros t w1 Hc1 E1. cbv beta iota. wp_step. eauto.
  - rewrite orb_false_r in Hfiat. rewrite Hfiat. simpl. wp_step. wp_step. unfold ConversionTypeFiatToFiat, ConversionTypeCryptoToFiat, ConversionTypeFiatToCrypto. simpl. wp_step.
    eapply (wp_getExchangeRate _ _ b a); try done. intros t w1 Hc1 E1. cbv beta iota. do 2 wp_step. eauto.
Qed.

(** C38. The dollar (or euro) value of a crypto amount, which the code computes
    by printing a product and parsing the digits in front of the point: the
    amount is multiplied, by [MultiplyFloat64], by the rate times a hundred, a
    double rounded before, and the result, rounded too, is divided by the unit
    of the currency and cut towards zero. So the value is whole cents of the sign
    of the amount; it is not always the exact product of amount and rate rounded
    down. The conversion fails exactly when there is no rate or that
    multiplication fails. *)
Theorem crypto_value `{MapOrder} `{RateProvider} (from : Money) (to : FiatCurrency) (w : world)
  (Ht : m_type from = Crypto) (Hd : 0 <= m_decimals from) :
  CryptoToFiat from to w =
    let '(r, w') := GetExchangeRate (m_ticker from) to w in
    (rate ← r;
     multiplied ← wrap (MultiplyFloat64 from (f64_mul (er_Rate rate) (f64_of_Z 100))) "unable to multiply crypto";
     Ok (mkConversion ConversionTypeCryptoToFiat (er_Rate rate) from
       (mkMoney Fiat to (Some (Z.quot (val multiplied) (10 ^ m_decimals from))) 2)), w').
Proof.
  unfold CryptoToFiat. rewrite (bool_decide_true (m_type from = Crypto)) by done. simpl.
  unfold mbind at 1, M_bind at 1. destruct (GetExchangeRate (m_ticker from) to w) as [[rate|e|p] w']; [|done..].
  unfold lift, mbind, M_bind. rewrite Money.CryptoToFiat_eq, bool_decide_true by done.
  unfold mbind, res_bind. by destruct (wrap _ _).
Qed.

(** ** Witnesses *)
Definition no_key : RateProvider :=
  Build_RateProvider false (fun _ _ _ => Err (ENew "no key")) true (fun _ _ => Ok true).

Lemma fallback_rates_witness :
  (exists t, (GetExchangeRate (H0 := fun l => l) (H1 := no_key) "ETH_USDT" "EUR" empty_world).1 =
    Ok (mkRate "ETH_USDT" "EUR" (f64_div (f64_dec 1 0) (f64_dec 108 (-2))) t)) /\
  (exists t, (GetExchangeRate (H0 := fun l => l) (H1 := no_key) "EUR" "BTC" empty_world).1 =
    Ok (mkRate "EUR" "BTC" (f64_div (f64_of_Z 1) (f64_div (f64_dec 65000 0) (f64_dec 108 (-2)))) t)).
Proof.
  split.
  - pose proof (fallback_rates (H := fun l => l) (H0 := fun l => Permutation_refl l) (H1 := no_key) "ETH_USDT" "EUR" (f64_dec 1 0) (f64_dec 108 (-2))
      empty_world eq_refl ltac:(by intros) ltac:(by intros d s a b r _ _) ltac:(by vm_compute) ltac:(by vm_compute)
      ltac:(done) ltac:(by vm_compute)) as Hf.
    revert Hf. generalize (GetExchangeRate (H0 := fun l => l) (H1 := no_key) "ETH_USDT" "EUR" empty_world).
    intros [r w'] [[t ->] _]. exists t. reflexivity.
  - pose proof (fallback_rates (H := fun l => l) (H0 := fun l => Permutation_refl l) (H1 := no_key) "EUR" "BTC" (f64_dec 108 (-2)) (f64_dec 65000 0)
      empty_world eq_refl ltac:(by intros) ltac:(by intros d s a b r _ _) ltac:(by vm_compute) ltac:(by vm_compute)
      ltac:(done) ltac:(by vm_compute)) as Hf.
    revert Hf. generalize (GetExchangeRate (H0 := fun l => l) (H1 := no_key) "EUR" "BTC" empty_world).
    intros [r w'] [[t ->] _]. exists t. reflexivity.
Defined.

(** The double next to 0.35 is below it, its hundredfold is rounded to 35. *)
Example value_of_one : Money.CryptoToFiat (mkMoney Crypto "ETH" (Some (10 ^ 18)) 18) USD (f64_dec 35 (-2)) =
  Ok (mkMoney Fiat USD (Some 35) 2).
Proof. by vm_compute. Qed.
Example value_cut : Money.CryptoToFiat (mkMoney Crypto "ETH" (Some (-1555 * 10 ^ 15)) 18) USD (f64_of_Z 1) =
  Ok (mkMoney Fiat USD (Some (-155)) 2).
Proof. by vm_compute. Qed.

Lemma crypto_value_witness :
  (CryptoToFiat (H0 := fun l => l) (H1 := no_key) (mkMoney Crypto "ETH" (Some 1999999999999999999) 18) USD empty_world).1 =
  Ok (mkConversion ConversionTypeCryptoToFiat (f64_dec 3000 0) (mkMoney Crypto "ETH" (Some 1999999999999999999) 18)
        (mkMoney Fiat USD (Some 599999) 2)).
Proof.
  rewrite (crypto_value (H := fun l => l) (H0 := no_key)) by (simpl; done || lia). by vm_compute.
Defined.
