(* ===== verification/FeeCalculator.v ===== *)
(** * FeeCalculator: what a transaction will cost

    [CalculateFee] and [CalculateWithdrawalFeeUSD] of
    [internal/service/blockchain/service_fees.go] with [bitcoinFee] of
    [service_bitcoin.go]: gas prices come from a node, UTXO fee rates from the
    explorer, and dollar amounts from the convertor. *)

From S2P Require Import Prelude GoLib Float64 KmsWallet Money Repository Fees Bitcoin Currencies Nodes Convertor.

Section FeeCalculator.
Context `{Resolver} `{MapOrder} `{RateProvider} `{Nodes} `{UTXOProviders}.

Definition gasUnitsForCoin : Z := 21000.
Definition gasUnitsForToken : Z := 65000.

(** What the calculations for ETH, MATIC and BSC have in common: the raw gas
    price with the safety margin, the priority fee, the total cost, and the
    total in dollars. *)
Definition evm_costs (blockchain sym : string) (gasConfidentRate : float64) (baseCurrency currency : CryptoCurrency)
  (isTest : bool) : Go (Z * Money * Money * Money * Money) :=
  _ ← (if has_tatum then mret tt else panic "invalid memory address or nil pointer dereference");
  _ ← wrapM (external (tatum_EVMRPC blockchain isTest)) "unable to setup RPC";
  let client := TatumClient blockchain isTest in
  gasPrice ← wrapM (external (SuggestGasPrice client)) "unable to suggest gas price";
  gasPrice ← wrapM (lift (MakeAmountFromBigInt baseCurrency (Some gasPrice))) ("unable to make " +:+ sym +:+ " from gas price");
  gasPriceConfident ← wrapM (lift (MultiplyFloat64 gasPrice gasConfidentRate)) ("unable to multiply " +:+ sym +:+ " gas price");
  priorityFee ← wrapM (external (SuggestGasTipCap client)) ("unable to suggest " +:+ sym +:+ " gas tip cap");
  priorityFee ← wrapM (lift (MakeAmountFromBigInt baseCurrency (Some priorityFee)))
    ("unable to suggest make " +:+ sym +:+ " from priorityFee");
  totalFeePerGas ← wrapM (lift (Money_Add gasPriceConfident priorityFee)) "unable to calculate total fee per gas";
  let gasUnits := if bool_decide (cc_Type currency = Token) then gasUnitsForToken else gasUnitsForCoin in
  totalCost ← wrapM (lift (MultiplyFloat64 totalFeePerGas (f64_of_Z gasUnits))) "unable to calculate total tx cost";
  conv ← wrapM (CryptoToFiat totalCost USD) "unable to calculate total cost in USD";
  mret (gasUnits, gasPriceConfident, priorityFee, totalCost, cv_To conv).

Definition ethFee (baseCurrency currency : CryptoCurrency) (isTest : bool) : Go Fee :=
  '(gasUnits, gasPrice, priorityFee, totalCost, usd) ← evm_costs ETH "ETH" (f64_dec 115 (-2)) baseCurrency currency isTest;
  now ← time_Now; cost ← lift (Money_String totalCost); usdCost ← lift (Money_String usd);
  mret (NewFee currency now isTest (RawEth (mkEthFee gasUnits (StringRaw gasPrice) (StringRaw priorityFee)
    (StringRaw totalCost) cost usdCost usd))).

Definition maticFee (baseCurrency currency : CryptoCurrency) (isTest : bool) : Go Fee :=
  '(gasUnits, gasPrice, priorityFee, totalCost, usd) ←
    evm_costs MATIC "MATIC" (f64_dec 110 (-2)) baseCurrency currency isTest;
  now ← time_Now; cost ← lift (Money_String totalCost); usdCost ← lift (Money_String usd);
  mret (NewFee currency now isTest (RawMatic (mkMaticFee gasUnits (StringRaw gasPrice) (StringRaw priorityFee)
    (StringRaw totalCost) cost usdCost usd))).

Definition bscFee (baseCurrency currency : CryptoCurrency) (isTest : bool) : Go Fee :=
  '(gasUnits, gasPrice, priorityFee, totalCost, usd) ← evm_costs BSC "BSC" (f64_dec 110 (-2)) baseCurrency currency isTest;
  now ← time_Now; cost ← lift (Money_String totalCost); usdCost ← lift (Money_String usd);
  mret (NewFee currency now isTest (RawBSC (mkBSCFee gasUnits (StringRaw gasPrice) (StringRaw priorityFee)
    (StringRaw totalCost) cost usdCost usd))).

Definition bandwidthSunCost : Z := 1000.
Definition coinTransferBandwidth : Z := 350.
Definition tokenTransactionSun : Z := 30 * 1000000.

Definition tronFee (baseCurrency currency : CryptoCurrency) (isTest : bool) : Go Fee :=
  let feeLimit := if bool_decide (cc_Type currency = Token) then tokenTransactionSun
                  else bandwidthSunCost * coinTransferBandwidth in
  feeLimitTRON ← wrapM (lift (NewFromBigInt Crypto (cc_Ticker baseCurrency) (Some feeLimit) (cc_Decimals baseCurrency)))
    "unable to make TRON from int";
  conv ← wrapM (CryptoToFiat feeLimitTRON USD) "unable to calculate total cost in USD";
  now ← time_Now; limit ← lift (Money_String feeLimitTRON); usdLimit ← lift (Money_String (cv_To conv));
  mret (NewFee currency now isTest (RawTron (mkTronFee feeLimit limit usdLimit (cv_To conv)))).

Definition formatUTXOFeeRate (feeRate : float64) : string := FormatFloat feeRate.

Definition bitcoinFee (baseCurrency currency : CryptoCurrency) (isTest : bool) : Go Fee :=
  let blockchain := cc_Blockchain currency in
  if negb (isUTXOBlockchain blockchain) || negb (bool_decide (cc_Type currency = Coin)) then fail unsupported_runtime else
  feeRate ← utxoFeeRate blockchain isTest;
  let estimatedVBytes := estimateBitcoinP2WPKHVSize 1 2 in
  let feeSats := utxoFeeSats estimatedVBytes feeRate in
  totalCost ← wrapM (lift (CryptoCurrency_MakeAmount baseCurrency (FormatInt feeSats)))
    ("unable to make " +:+ cc_Ticker currency +:+ " fee amount");
  conv ← wrapM (CryptoToFiat totalCost USD) "unable to calculate total cost in USD";
  now ← time_Now; cost ← lift (Money_String totalCost); usdCost ← lift (Money_String (cv_To conv));
  mret (NewFee currency now isTest (RawBitcoin (mkBitcoinFee (formatUTXOFeeRate feeRate) (FormatInt estimatedVBytes)
    (StringRaw totalCost) cost usdCost (cv_To conv)))).

Definition CalculateFee (baseCurrency currency : CryptoCurrency) (isTest : bool) : Go Fee :=
  if negb (bool_decide (cc_Type baseCurrency = Coin)) ||
     negb (bool_decide (cc_Blockchain baseCurrency = cc_Blockchain currency)) then
    fail (EWrap ErrValidation "fee calculation requires a native coin and matching blockchain") else
  _ ← lift (validateTransactionRuntimeBlockchain (cc_Blockchain currency));
  let blockchain := cc_Blockchain currency in
  if one_of blockchain [BTC; LTC] then bitcoinFee baseCurrency currency isTest
  else if bool_decide (blockchain = ETH) then ethFee baseCurrency currency isTest
  else if bool_decide (blockchain = MATIC) then maticFee baseCurrency currency isTest
  else if bool_decide (blockchain = BSC) then bscFee baseCurrency currency isTest
  else if bool_decide (blockchain = TRON) then tronFee baseCurrency currency isTest
  else fail (EWrap ErrUnsupportedRuntime ("fee calculation for " +:+ blockchain +:+ " is not implemented yet")).

(** The dollar amount of a fee; a failed type assertion leaves the zero fee. *)
Definition fee_usd (fee : Fee) : res Money :=
  let blockchain := cc_Blockchain (fee_Currency fee) in
  let or_zero {A} (r : res A) (f : A -> Money) : Money := match r with Ok a => f a | _ => Money_zero end in
  if one_of blockchain [BTC; LTC] then Ok (or_zero (ToBitcoinFee fee) btc_totalCostUSD)
  else if bool_decide (blockchain = ETH) then Ok (or_zero (ToEthFee fee) eth_totalCostUSD)
  else if bool_decide (blockchain = MATIC) then Ok (or_zero (ToMaticFee fee) matic_totalCostUSD)
  else if bool_decide (blockchain = BSC) then Ok (or_zero (ToBSCFee fee) bsc_totalCostUSD)
  else if bool_decide (blockchain = TRON) then Ok (or_zero (ToTronFee fee) tron_feeLimitUSD)
  else Err ErrCurrencyNotFound.

Definition CalculateWithdrawalFeeUSD (baseCurrency currency : CryptoCurrency) (isTest : bool) : Go Money :=
  fee ← CalculateFee baseCurrency currency isTest;
  usdFee ← lift (fee_usd fee);
  if Money_IsZero usdFee then lift (FiatFromFloat64 USD (f64_dec 1 (-2))) else mret usdFee.
End FeeCalculator.
