(* ===== verification/Broadcaster.v ===== *)
(** * Broadcaster: sending transactions and reading their receipts

    [internal/service/blockchain/service_broadcaster.go] and the receipts of
    [service_bitcoin.go]. *)

From S2P Require Import Prelude GoLib Float64 KmsWallet Money Repository Fees Bitcoin Currencies Nodes.

Definition ErrInvalidTransaction : error := ESentinel "blockchain.ErrInvalidTransaction".

Record TransactionReceipt := mkReceipt {
  rc_Blockchain : string; rc_IsTest : bool; rc_Sender : string; rc_Recipient : string; rc_Hash : string;
  rc_Nonce : Z; rc_NetworkFee : Money; rc_Success : bool; rc_Confirmations : Z; rc_IsConfirmed : bool
}.

Definition nil_pointer : string := "invalid memory address or nil pointer dereference".

Section Broadcaster.
Context `{Resolver} `{Nodes} `{UTXOProviders}.

(** ** Broadcasting *)
Definition parseBroadcastError (body : string) : error :=
  let '(message, cause) := tatum_error_object body in
  if Contains message "insufficient funds" then ErrInsufficientFunds
  else if Contains cause "insufficient funds" then ErrInsufficientFunds
  else EWrap ErrInvalidTransaction message.

(** The end of [BroadcastTransaction]: an error of the client. *)
Definition broadcast_result (txHash : Go string) : Go string :=
  r ← attempt txHash;
  match r with
  | inl hash => mret hash
  | inr e => match swagger_body e with
             | Some body => fail (parseBroadcastError body)
             | None => fail (EWrap e "unknown swagger error")
             end
  end.

Definition tatum_send (blockchain rawTX : string) (isTest : bool) : Go string :=
  if has_tatum then broadcast_result (external (tatum_Broadcast blockchain rawTX isTest)) else panic nil_pointer.

Definition BroadcastTransaction (blockchain rawTX : string) (isTest : bool) : Go string :=
  _ ← lift (validateTransactionRuntimeBlockchain blockchain);
  if one_of blockchain [ETH; MATIC; BSC] then tatum_send blockchain rawTX isTest
  else if one_of blockchain [BTC; LTC] then
    if has_chain then external (BroadcastUTXOTransaction blockchain rawTX isTest)
    else if negb (bool_decide (blockchain = BTC)) then fail (ENew "LTC broadcast requires chain provider")
    else if negb has_tatum then fail (ENew "BTC broadcast requires chain provider or Tatum API key")
    else tatum_send blockchain rawTX isTest
  else if bool_decide (blockchain = TRON) then
    if has_trongrid then broadcast_result (external (trongrid_BroadcastTransaction rawTX isTest)) else panic nil_pointer
  else fail (ENew ("broadcast for " +:+ blockchain +:+ " is not implemented yet")).

(** ** Receipts

    The three requests run concurrently; when several fail, the first in the
    order of the code stands for the first in time. *)
Definition getEthReceipt (rpc : rpc_client) (nativeCoin : CryptoCurrency) (txID : string) (requiredConfirmations : Z)
  (isTest : bool) : Go TransactionReceipt :=
  let hash := HexToHash txID in
  tx ← attempt (external (TransactionByHash rpc hash));
  receipt ← attempt (external (TransactionReceipt_ rpc hash));
  latestBlock ← attempt (external (BlockNumber rpc));
  match tx, receipt, latestBlock with
  | inl tx, inl receipt, inl num =>
    let latestBlock := int64 num in
    gasPrice ← wrapM (lift (MakeAmountFromBigInt nativeCoin (er_EffectiveGasPrice receipt))) "unable to construct network fee";
    networkFee ← wrapM (lift (MultiplyInt64 gasPrice (int64 (er_GasUsed receipt)))) "unable to calculate network fee";
    sender ← wrapM (lift (et_Sender tx)) "unable to get sender";
    match er_BlockNumber receipt, et_To tx with
    | Some blockNumber, Some recipient =>
      let confirmations := (latestBlock - int64 blockNumber)%i64 in
      mret (mkReceipt (cc_Blockchain nativeCoin) isTest sender recipient txID (et_Nonce tx) networkFee
        (er_Status receipt =? 1) confirmations (requiredConfirmations <=? confirmations))
    | _, _ => panic nil_pointer
    end
  | inr e, _, _ | _, inr e, _ | _, _, inr e => fail e
  end.

Definition evm_receipt (blockchain : string) (required : Z) (nativeCoin : CryptoCurrency) (transactionID : string)
  (isTest : bool) : Go TransactionReceipt :=
  rpc ← evmRPC blockchain isTest;
  getEthReceipt rpc nativeCoin transactionID required isTest.

(** The sender of the first input and the recipient of the first output. *)
Definition getBitcoinReceiptFromExplorer (nativeCoin : CryptoCurrency) (txID : string) (isTest : bool) :
  Go TransactionReceipt :=
  let blockchain := cc_Blockchain nativeCoin in
  tx ← wrapM (external (UTXOTransaction blockchain txID isTest)) ("unable to get " +:+ blockchain +:+ " transaction");
  networkFee ← wrapM (lift (CryptoCurrency_MakeAmount nativeCoin (FormatInt (xt_Fee tx))))
    ("unable to calculate " +:+ blockchain +:+ " network fee");
  confirmations ← (if xt_Confirmed tx && (0 <? xt_BlockHeight tx) then
      tip ← wrapM (external (UTXOTipHeight blockchain isTest)) ("unable to get " +:+ blockchain +:+ " tip height");
      mret (if xt_BlockHeight tx <=? tip then ((tip - xt_BlockHeight tx)%i64 + 1)%i64 else 0)
    else mret 0);
  let sender := match xt_Vin tx with Some prev :: _ => xo_Address prev | _ => "" end in
  let recipient := match xt_Vout tx with out :: _ => xo_Address out | [] => "" end in
  mret (mkReceipt blockchain isTest sender recipient txID 0 networkFee true confirmations
    (utxoRequiredConfirmations blockchain <=? confirmations)).

Definition getBitcoinReceipt (nativeCoin : CryptoCurrency) (txID : string) (isTest : bool) : Go TransactionReceipt :=
  let blockchain := cc_Blockchain nativeCoin in
  if has_chain then getBitcoinReceiptFromExplorer nativeCoin txID isTest
  else if negb (bool_decide (blockchain = BTC)) then fail (ENew "LTC receipt lookup requires chain provider")
  else if negb has_tatum || negb (tatum_HasAPIKey isTest) then
    fail (ENew "BTC receipt lookup requires chain provider or Tatum API key")
  else
    tx ← wrapM (external (tatum_BitcoinTransaction txID isTest)) "unable to get BTC transaction";
    info_Blocks ← wrapM (external (tatum_BitcoinBlocks isTest)) "unable to get BTC blockchain info";
    networkFee ← wrapM (lift (CryptoCurrency_MakeAmount nativeCoin (FormatInt (f64_int64 (f64_round (tt_Fee tx))))))
      "unable to calculate BTC network fee";
    let confirmations :=
      if f64_lt f64_zero (tt_BlockNumber tx) && f64_le (tt_BlockNumber tx) info_Blocks
      then (f64_int64 (f64_round (f64_sub info_Blocks (tt_BlockNumber tx))) + 1)%i64 else 0 in
    let sender := match tt_Inputs tx with Some coin :: _ => coin | _ => "" end in
    let recipient := match tt_Outputs tx with out :: _ => to_Address out | [] => "" end in
    mret (mkReceipt blockchain isTest sender recipient txID 0 networkFee true confirmations
      (utxoRequiredConfirmations blockchain <=? confirmations)).

Definition tron_receipt (nativeCoin : CryptoCurrency) (blockchain transactionID : string) (isTest : bool) :
  Go TransactionReceipt :=
  if negb has_trongrid then panic nil_pointer else
  receipt ← wrapM (external (trongrid_GetTransactionReceipt transactionID isTest)) "unable to get tron transaction receipt";
  networkFee ← wrapM (lift (CryptoCurrency_MakeAmount nativeCoin (FormatInt (int64 (tr_Fee receipt)))))
    "unable to calculate network fee";
  mret (mkReceipt blockchain isTest (tr_Sender receipt) (tr_Recipient receipt) transactionID 0 networkFee
    (tr_Success receipt) (tr_Confirmations receipt) (tr_IsConfirmed receipt)).

Definition getTransactionReceipt (blockchain transactionID : string) (isTest : bool) : Go TransactionReceipt :=
  _ ← lift (validateTransactionRuntimeBlockchain blockchain);
  nativeCoin ← wrapM (lift (GetNativeCoin blockchain)) ("native coin for " +:+ blockchain +:+ " is not found");
  if one_of blockchain [BTC; LTC] then getBitcoinReceipt nativeCoin transactionID isTest
  else if bool_decide (blockchain = ETH) then evm_receipt blockchain ethRequiredConfirmations nativeCoin transactionID isTest
  else if bool_decide (blockchain = MATIC) then evm_receipt blockchain maticRequiredConfirmations nativeCoin transactionID isTest
  else if bool_decide (blockchain = BSC) then evm_receipt blockchain bscRequiredConfirmations nativeCoin transactionID isTest
  else if bool_decide (blockchain = TRON) then
    tron_receipt nativeCoin blockchain transactionID isTest
  else fail (EWrap ErrUnsupportedRuntime ("unsupported blockchain " +:+ blockchain)).

Definition GetTransactionReceipt (blockchain transactionID : string) (isTest : bool) : Go TransactionReceipt :=
  _ ← lift (validateTransactionRuntimeBlockchain blockchain);
  r ← attempt (getTransactionReceipt blockchain transactionID isTest);
  match r with
  | inl receipt => mret receipt
  | inr e => match swagger_body e with Some body => fail (ENew body) | None => fail e end
  end.
End Broadcaster.

(** ** Receipts *)
Section Receipts.
Context `{Resolver} `{!ResolverLaws} `{Nodes} `{UTXOProviders}.

(** A receipt of the transaction asked for, final after [required] blocks. *)
Definition receipt_for (blockchain id : string) (isTest : bool) (required : Z) (r : TransactionReceipt) : Prop :=
  rc_Blockchain r = blockchain /\ rc_Hash r = id /\ rc_IsTest r = isTest /\
  rc_IsConfirmed r = (required <=? rc_Confirmations r).

Lemma eth_receipt rpc coin id required isTest :
  yields (getEthReceipt rpc coin id required isTest) (receipt_for (cc_Blockchain coin) id isTest required).
Proof. unfold getEthReceipt. repeat yields_step; by split_and!. Qed.

Lemma evm_receipt_for bc coin id required isTest :
  yields (evm_receipt bc required coin id isTest) (receipt_for (cc_Blockchain coin) id isTest required).
Proof. unfold evm_receipt. yields_step. apply eth_receipt. Qed.

Lemma bitcoin_receipt coin id isTest :
  yields (getBitcoinReceipt coin id isTest)
    (receipt_for (cc_Blockchain coin) id isTest (utxoRequiredConfirmations (cc_Blockchain coin))).
Proof.
  unfold getBitcoinReceipt, getBitcoinReceiptFromExplorer. repeat yields_step; by split_and!.
Qed.

Lemma tron_receipt_for coin bc id isTest :
  yields (tron_receipt coin bc id isTest) (fun r => rc_Blockchain r = bc /\ rc_Hash r = id /\ rc_IsTest r = isTest).
Proof. unfold tron_receipt. repeat yields_step; by split_and!. Qed.
End Receipts.

(** A receipt is about the transaction asked for, and is final exactly
    when the transaction has the number of confirmations its blockchain
    requires (on Tron the provider decides); only the supported blockchains
    have receipts. *)
Theorem receipt_final `{Resolver} `{!ResolverLaws} `{Nodes} `{UTXOProviders} (blockchain id : string) (isTest : bool)
  (w w' : world) (r : TransactionReceipt)
  (Hr : GetTransactionReceipt blockchain id isTest w = (Ok r, w')) :
  supportsTransactionRuntime blockchain = true /\
  rc_Blockchain r = blockchain /\ rc_Hash r = id /\ rc_IsTest r = isTest /\
  (blockchain <> TRON -> exists required, RequiredConfirmations blockchain = Ok required /\
     rc_IsConfirmed r = (required <=? rc_Confirmations r)).
Proof.
  assert (supportsTransactionRuntime blockchain = true) as Hs.
  { destruct (supportsTransactionRuntime blockchain) eqn:E; [done|]. revert Hr.
    unfold GetTransactionReceipt, validateTransactionRuntimeBlockchain. by rewrite E. }
  split; [done|].
  assert (yields (GetTransactionReceipt blockchain id isTest) (fun r => rc_Blockchain r = blockchain /\ rc_Hash r = id /\
    rc_IsTest r = isTest /\ (blockchain <> TRON -> exists required, RequiredConfirmations blockchain = Ok required /\
     rc_IsConfirmed r = (required <=? rc_Confirmations r)))) as Hy.
  2: { apply (Hy w). by rewrite Hr. }
  unfold GetTransactionReceipt. yields_step.
  match goal with |- yields _ ?P => apply (yields_bind _ _ (fun r => match r with inl a => P a | inr _ => True end)) end.
  2: { intros [x|e] Hx; [by apply yields_ret|]. destruct (swagger_body e); apply yields_fail. }
  apply yields_attempt.
  unfold getTransactionReceipt. yields_step.
  eapply (yields_bind _ _ (fun coin => cc_Blockchain coin = blockchain)).
  { apply yields_wrap, yields_lift. intros c Hc. by apply native_coin in Hc as [? _]. }
  intros coin Hc. unfold supportsTransactionRuntime in Hs. simpl in Hs.
  assert (forall req r, RequiredConfirmations blockchain = Ok req -> receipt_for (cc_Blockchain coin) id isTest req r ->
    rc_Blockchain r = blockchain /\ rc_Hash r = id /\ rc_IsTest r = isTest /\ (blockchain <> TRON ->
      exists required, RequiredConfirmations blockchain = Ok required /\
      rc_IsConfirmed r = (required <=? rc_Confirmations r))) as Hfor.
  { unfold receipt_for. rewrite Hc. naive_solver. }
  rewrite !orb_true_iff, !bool_decide_eq_true in Hs. destruct_or! Hs; try done; subst blockchain; cbn -[yields].
  - eapply yields_mono; [apply bitcoin_receipt|]. intros x Hx. eapply Hfor; [|exact Hx]. by rewrite Hc.
  - eapply yields_mono; [apply bitcoin_receipt|]. intros x Hx. eapply Hfor; [|exact Hx]. by rewrite Hc.
  - eapply yields_mono; [apply evm_receipt_for|]. intros x Hx. by eapply Hfor; [|exact Hx].
  - eapply yields_mono; [apply evm_receipt_for|]. intros x Hx. by eapply Hfor; [|exact Hx].
  - eapply yields_mono; [apply evm_receipt_for|]. intros x Hx. by eapply Hfor; [|exact Hx].
  - eapply yields_mono; [apply tron_receipt_for|]. intros x (-> & -> & ->). by split_and!.
Qed.

Lemma receipt_final_witness :
  match (GetTransactionReceipt (H := resolver_of [ex_btc]) (H0 := ex_nodes) (H1 := ex_providers) "BTC" "t1" false empty_world).1 with
  | Ok r => rc_Confirmations r = 6 /\ rc_IsConfirmed r = true
  | _ => False
  end.
Proof.
  destruct (GetTransactionReceipt (H := resolver_of [ex_btc]) (H0 := ex_nodes) (H1 := ex_providers) "BTC" "t1" false
    empty_world) as [[r|e|p] w'] eqn:E; [|exfalso; apply (f_equal fst) in E; vm_compute in E; discriminate E..].
  pose proof (receipt_final (H := resolver_of [ex_btc]) (H0 := resolver_of_laws [ex_btc] (NoDup_singleton _))
    (H1 := ex_nodes) (H2 := ex_providers) "BTC" "t1" false empty_world w' r E) as (_ & _ & _ & _ & Hc).
  destruct (Hc ltac:(done)) as (n & [= <-] & Hn). simpl. rewrite Hn.
  apply (f_equal fst) in E. vm_compute in E. injection E as <-. by split.
Defined.
