(* ===== verification/Tracker.v ===== *)
(** * Tracker: incoming transactions of an address

    [internal/service/blockchain/service_tracker.go]: what the explorer, Tatum,
    Trongrid or an EVM node know of payments to an address, in one shape. *)

From Stdlib Require Import Sorted.
From S2P Require Import Prelude GoLib Float64 KmsWallet Money Repository Fees Bitcoin Currencies Nodes.

Definition defaultTrackerEVMScanBlocks : Z := 1200.

Record IncomingTransaction := mkIncoming {
  in_Currency : CryptoCurrency; in_Amount : Money; in_SenderAddress : string; in_TransactionID : string;
  in_NetworkID : string; in_BlockNumber : Z; in_IsMempool : bool
}.

(** [strings.EqualFold] on ASCII. *)
Definition EqualFold (a b : string) : bool := bool_decide (ToLower a = ToLower b).

(** A loop that keeps what [f] returns and stops at its first error. *)
Fixpoint collect {A B} (f : A -> res (option B)) (l : list A) : res (list B) :=
  match l with
  | [] => Ok []
  | x :: l =>
    o ← f x;
    out ← collect f l;
    mret (match o with Some b => b :: out | None => out end)
  end.

(** ** Bitcoin and Litecoin *)
Section Incoming.
Context (recipient : string) (currency : CryptoCurrency) (isTest : bool).

Definition explorer_total (vout : list ExplorerOutput) : Z :=
  fold_left (fun total o => if bool_decide (xo_Address o = recipient) && (0 <? xo_Value o)
    then (total + xo_Value o)%i64 else total) vout 0.

(** The first input with an address. *)
Definition explorer_sender (vin : list (option ExplorerOutput)) : string :=
  match List.find (fun i => match i with Some o => negb (bool_decide (xo_Address o = "")) | None => false end) vin with
  | Some (Some o) => xo_Address o
  | _ => ""
  end.

Definition bitcoinIncomingFromExplorer (tx : ExplorerTransaction) : res (option IncomingTransaction) :=
  let totalSats := explorer_total (xt_Vout tx) in
  if totalSats <=? 0 then Ok None else
  amount ← CryptoCurrency_MakeAmount currency (FormatInt totalSats);
  mret (Some (mkIncoming currency amount (explorer_sender (xt_Vin tx)) (xt_TxID tx) (ChooseNetwork currency isTest)
    (xt_BlockHeight tx) (negb (xt_Confirmed tx)))).

(** Keeps the first transaction of each id. *)
Fixpoint unseen (seen : list string) (txs : list ExplorerTransaction) : list ExplorerTransaction :=
  match txs with
  | [] => []
  | tx :: txs =>
    if existsb (fun s => bool_decide (s = xt_TxID tx)) seen then unseen seen txs
    else tx :: unseen (xt_TxID tx :: seen) txs
  end.

(** [int64(output.Value)] *)
Definition f64_to_int64 (x : float64) : Z := f64_int64 (f64_round_with dyadic_trunc x).

Definition tatum_total (outputs : list TatumOutput) : Z :=
  fold_left (fun total o => if bool_decide (to_Address o = recipient) && f64_lt f64_zero (to_Value o)
    then (total + f64_to_int64 (to_Value o))%i64 else total) outputs 0.

Definition bitcoinIncomingFromTatum (tx : TatumTransaction) : res (option IncomingTransaction) :=
  let totalSats := tatum_total (tt_Outputs tx) in
  if totalSats <=? 0 then Ok None else
  amount ← CryptoCurrency_MakeAmount currency (FormatInt totalSats);
  let sender := match tt_Inputs tx with Some coin :: _ => coin | _ => "" end in
  mret (Some (mkIncoming currency amount sender (tt_Hash tx) (ChooseNetwork currency isTest)
    (f64_to_int64 (tt_BlockNumber tx)) (f64_le (tt_BlockNumber tx) f64_zero))).

Context `{Nodes} `{UTXOProviders}.

Definition listBitcoinIncomingTransactionsFromExplorer : Go (list IncomingTransaction) :=
  let blockchain := cc_Blockchain currency in
  mempoolTxs ← attempt (external (UTXOAddressTransactions blockchain recipient isTest true));
  confirmedTxs ← attempt (external (UTXOAddressTransactions blockchain recipient isTest false));
  let found {A} (r : list A + error) := match r with inl l => l | inr _ => [] end in
  match mempoolTxs, confirmedTxs with
  | inr mempoolErr, inr _ => fail (EWrap mempoolErr ("unable to list " +:+ blockchain +:+ " mempool transactions"))
  | _, _ => lift (collect bitcoinIncomingFromExplorer (unseen [] (found mempoolTxs ++ found confirmedTxs)))
  end.

Definition listBitcoinIncomingTransactions : Go (list IncomingTransaction) :=
  if has_chain then listBitcoinIncomingTransactionsFromExplorer
  else if negb (bool_decide (cc_Blockchain currency = BTC)) then fail (ENew "LTC tracker requires chain provider")
  else if negb has_tatum || negb (tatum_HasAPIKey isTest) then
    fail (ENew "BTC tracker requires chain provider or Tatum API key")
  else
    txs ← wrapM (external (BitcoinTransactionsByAddress recipient bitcoinAddressTxPageSize 0 isTest))
      "unable to list BTC address transactions";
    lift (collect bitcoinIncomingFromTatum txs).

(** ** Tron *)
Definition tronTransactionSucceeded (tx : AccountTransaction) : bool :=
  match at_Ret tx with [] => true | ret => existsb (fun r => bool_decide (r = "SUCCESS")) ret end.

Definition tronIncomingFromTransaction (tx : AccountTransaction) : res (option IncomingTransaction) :=
  if bool_decide (at_TxID tx = "") || negb (tronTransactionSucceeded tx) then Ok None else
  match at_Contract tx with
  | [] => Ok None
  | contract :: _ =>
    if negb (bool_decide (tc_Type contract = "TransferContract")) || (tc_Amount contract <=? 0) then Ok None else
    let sender := TronHexToBase58 (tc_OwnerAddress contract) in
    let to := TronHexToBase58 (tc_ToAddress contract) in
    if negb (bool_decide (to = recipient)) then Ok None else
    amount ← CryptoCurrency_MakeAmount currency (FormatInt (tc_Amount contract));
    if bool_decide (cc_Type currency = Coin) && bool_decide (StringRaw amount = "1000000") then Ok None else
    mret (Some (mkIncoming currency amount sender (at_TxID tx) (ChooseNetwork currency isTest) (at_BlockNumber tx) false))
  end.

Definition tronIncomingFromToken (contract : string) (tx : TRC20Transaction) : res (option IncomingTransaction) :=
  if bool_decide (t20_TransactionID tx = "") || negb (EqualFold (t20_To tx) recipient) ||
     negb (EqualFold (t20_TokenAddress tx) contract) then Ok None else
  amount ← CryptoCurrency_MakeAmount currency (t20_Value tx);
  mret (Some (mkIncoming currency amount (t20_From tx) (t20_TransactionID tx) (ChooseNetwork currency isTest)
    (t20_BlockNumber tx) false)).

Definition listTronTokenIncomingTransactions : Go (list IncomingTransaction) :=
  let contract := ChooseContractAddress currency isTest in
  txs ← external (trongrid_ListIncomingTRC20Transactions recipient contract isTest);
  lift (collect (tronIncomingFromToken contract) txs).

Definition listTronIncomingTransactions : Go (list IncomingTransaction) :=
  if negb has_trongrid then fail (ENew "Trongrid provider is not configured")
  else if bool_decide (cc_Type currency = Token) then listTronTokenIncomingTransactions
  else
    txs ← external (trongrid_ListIncomingTransactions recipient isTest);
    lift (collect tronIncomingFromTransaction txs).

(** ** Ethereum and its like *)
Definition evmScanBlocks : Z := if has_chain then chain_EVMScanBlocks else defaultTrackerEVMScanBlocks.

Definition evmScanFromBlock (latest scanBlocks : Z) : Z :=
  let scanBlocks := if scanBlocks <=? 0 then defaultTrackerEVMScanBlocks else scanBlocks in
  let from := ((int64 latest - scanBlocks)%i64 + 1)%i64 in
  if from <? 0 then 0 else from.

Definition native_incoming (blockNumber : Z) (tx : EvmTx) : res (option IncomingTransaction) :=
  match et_To tx with
  | None => Ok None
  | Some to =>
    if negb (bool_decide (to = HexToAddress recipient)) || (et_Value tx <=? 0) then Ok None else
    amount ← MakeAmountFromBigInt currency (Some (et_Value tx));
    sender ← wrap (et_Sender tx) "unable to resolve transaction sender";
    mret (Some (mkIncoming currency amount sender (et_Hash tx) (ChooseNetwork currency isTest) blockNumber false))
  end.

(** Blocks [blockNumber], [blockNumber - 1], ..., [n] of them. *)
Fixpoint scan_blocks (rpc : rpc_client) (n : nat) (blockNumber : Z) : Go (list IncomingTransaction) :=
  match n with
  | O => mret []
  | S n =>
    block ← external (BlockByNumber rpc blockNumber);
    found ← lift (collect (native_incoming blockNumber) block);
    rest ← scan_blocks rpc n (blockNumber - 1);
    mret (found ++ rest)
  end.

Definition listEVMNativeIncomingTransactions (rpc : rpc_client) : Go (list IncomingTransaction) :=
  latest ← external (BlockNumber rpc);
  let from := evmScanFromBlock latest evmScanBlocks in
  scan_blocks rpc (Z.to_nat (int64 latest - from + 1)) (int64 latest).

(** [new(big.Int).SetBytes] *)
Definition SetBytes (l : list ascii) : Z := fold_left (fun z c => 256 * z + Z.of_N (N_of_ascii c)) l 0.

Definition token_incoming (entry : EvmLog) : res (option IncomingTransaction) :=
  match el_Topics entry, el_Data entry with
  | _ :: sender :: _ :: _, _ :: _ =>
    amount ← MakeAmountFromBigInt currency (Some (SetBytes (el_Data entry)));
    mret (Some (mkIncoming currency amount (HashToAddress sender) (el_TxHash entry) (ChooseNetwork currency isTest)
      (int64 (el_BlockNumber entry)) false))
  | _, _ => Ok None
  end.

Definition newer (a b : IncomingTransaction) : bool := in_BlockNumber b <? in_BlockNumber a.

Definition listEVMTokenIncomingTransactions (rpc : rpc_client) : Go (list IncomingTransaction) :=
  latest ← external (BlockNumber rpc);
  let from := evmScanFromBlock latest evmScanBlocks in
  logs ← external (FilterLogs rpc (mkLogFilter from (int64 latest) (HexToAddress (ChooseContractAddress currency isTest))
    (AddressToHash (HexToAddress recipient))));
  out ← lift (collect token_incoming logs);
  mret (SliceStable newer out).

Definition listEVMIncomingTransactions : Go (list IncomingTransaction) :=
  rpc ← evmRPC (cc_Blockchain currency) isTest;
  if bool_decide (cc_Type currency = Token) then listEVMTokenIncomingTransactions rpc
  else listEVMNativeIncomingTransactions rpc.

Definition ListIncomingTransactions : Go (list IncomingTransaction) :=
  if bool_decide (recipient = "") then fail (EWrap ErrValidation "recipient address is empty") else
  _ ← lift (validateTransactionRuntimeBlockchain (cc_Blockchain currency));
  let blockchain := cc_Blockchain currency in
  if one_of blockchain [BTC; LTC] then listBitcoinIncomingTransactions
  else if one_of blockchain [ETH; MATIC; BSC] then listEVMIncomingTransactions
  else if bool_decide (blockchain = TRON) then listTronIncomingTransactions
  else fail (EWrap ErrUnsupportedRuntime ("incoming tracker is not implemented for " +:+ blockchain)).
End Incoming.

(** ** Lemmas *)
Definition kept {B} (r : res (option B)) : option B := match r with Ok o => o | _ => None end.

Lemma collect_all {A B} (f : A -> res (option B)) l : (forall x, x ∈ l -> is_ok (f x) = true) ->
  collect f l = Ok (omap (fun x => kept (f x)) l).
Proof.
  induction l as [|x l IH]; intros Hl; [done|]. pose proof (Hl x ltac:(by left)) as Hx. cbn [collect omap list_omap].
  destruct (f x) as [o|e|p]; [|done..]. simpl. rewrite IH by (intros y Hy; apply Hl; by right). by destruct o.
Qed.

(** The plain sum of the positive outputs to the recipient. *)
Fixpoint paid (recipient : string) (vout : list ExplorerOutput) : Z :=
  match vout with
  | [] => 0
  | o :: vout => (if bool_decide (xo_Address o = recipient) && (0 <? xo_Value o) then xo_Value o else 0) + paid recipient vout
  end.

Lemma paid_nonneg recipient vout : 0 <= paid recipient vout.
Proof.
  induction vout as [|o vout IH]; simpl; [lia|]. destruct (bool_decide (xo_Address o = recipient)); simpl; [|lia].
  destruct (Z.ltb_spec 0 (xo_Value o)); lia.
Qed.

Lemma explorer_total_paid recipient vout : paid recipient vout < 2 ^ 63 ->
  explorer_total recipient vout = paid recipient vout.
Proof.
  unfold explorer_total. enough (forall t, 0 <= t -> t + paid recipient vout < 2 ^ 63 ->
    fold_left (fun total o => if bool_decide (xo_Address o = recipient) && (0 <? xo_Value o)
      then (total + xo_Value o)%i64 else total) vout t = t + paid recipient vout) as Hf by (intros; apply Hf; lia).
  induction vout as [|o vout IH]; intros t Ht Hb; [simpl; lia|]. cbn [fold_left paid] in *.
  pose proof (paid_nonneg recipient vout). destruct (bool_decide (xo_Address o = recipient) && (0 <? xo_Value o)) eqn:E.
  - apply andb_true_iff in E as [_ E%Z.ltb_lt]. rewrite int64_add_small by (unfold in_int64; lia). rewrite IH; lia.
  - rewrite IH; lia.
Qed.

(** The first transaction of each id. *)
Definition is_first (txs : list ExplorerTransaction) (tx : ExplorerTransaction) : Prop :=
  exists before after, txs = before ++ tx :: after /\ xt_TxID tx ∉ map xt_TxID before.

Lemma unseen_spec txs : forall seen,
  NoDup (map xt_TxID (unseen seen txs)) /\
  forall tx, tx ∈ unseen seen txs <-> is_first txs tx /\ xt_TxID tx ∉ seen.
Proof.
  induction txs as [|t txs IH]; intros seen; cbn [unseen].
  { split; [constructor|]. intros tx. split; [by intros ?%elem_of_nil|]. by intros [(b & a & E & _) _]; destruct b. }
  assert (existsb (fun s => bool_decide (s = xt_TxID t)) seen = true <-> xt_TxID t ∈ seen) as Hin.
  { rewrite existsb_exists. split.
    - intros (x & Hx & ->%bool_decide_eq_true). by apply list_elem_of_In.
    - intros Hx. exists (xt_TxID t). split; [by apply list_elem_of_In|by apply bool_decide_eq_true]. }
  assert (forall tx, is_first (t :: txs) tx <-> tx = t \/ (xt_TxID tx <> xt_TxID t /\ is_first txs tx)) as Hfirst.
  { intros tx. split.
    - intros ([|x b] & a & [= -> ->] & Hn); [by left|]. right. cbn [map] in Hn. apply not_elem_of_cons in Hn as [Hne Hn].
      split; [done|]. by exists b, a.
    - intros [->|(Hne & b & a & -> & Hn)]; [exists [], txs; split; [done|apply not_elem_of_nil]|].
      exists (t :: b), a. split; [done|]. cbn [map]. by apply not_elem_of_cons. }
  destruct (existsb _ seen).
  - destruct (IH seen) as [Hnd Hel]. split; [done|]. intros tx. rewrite Hel, Hfirst.
    assert (xt_TxID t ∈ seen) as Ht by by apply Hin. split.
    + intros [Hf Hn]. split; [right; split; [congruence|done]|done].
    + intros [[->|[_ Hf]] Hn]; done.
  - destruct (IH (xt_TxID t :: seen)) as [Hnd Hel].
    assert (xt_TxID t ∉ seen) by (intros ?%Hin; done). split.
    + cbn [map]. constructor; [|done]. intros (x & Hx & Hx')%list_elem_of_fmap. apply Hel in Hx' as [_ Hx'].
      apply Hx'. rewrite <- Hx. by left.
    + intros tx. rewrite elem_of_cons, Hel, Hfirst, not_elem_of_cons.
      split.
      * intros [->|(Hf & Hne & Hn)]; [split; [by left|done]|]. split; [by right|done].
      * intros [[->|[Hne Hf]] Hn]; [by left|by right].
Qed.

Section Complete.
Context (recipient : string) (currency : CryptoCurrency) (isTest : bool).

(** What the listing says of a transaction of the explorer. *)
Definition deposit (tx : ExplorerTransaction) : IncomingTransaction :=
  mkIncoming currency (mkMoney Crypto (cc_Ticker currency) (Some (paid recipient (xt_Vout tx))) (cc_Decimals currency))
    (explorer_sender (xt_Vin tx)) (xt_TxID tx) (ChooseNetwork currency isTest) (xt_BlockHeight tx) (negb (xt_Confirmed tx)).

Lemma incoming_deposit tx : paid recipient (xt_Vout tx) < 2 ^ 63 ->
  bitcoinIncomingFromExplorer recipient currency isTest tx =
    Ok (if 0 <? paid recipient (xt_Vout tx) then Some (deposit tx) else None).
Proof.
  intros Hb. unfold bitcoinIncomingFromExplorer. rewrite explorer_total_paid by done.
  destruct (Z.leb_spec (paid recipient (xt_Vout tx)) 0) as [H|H].
  - by rewrite (proj2 (Z.ltb_ge _ _)) by lia.
  - rewrite (proj2 (Z.ltb_lt _ _)) by lia. by rewrite MakeAmount_int.
Qed.

(** The payments to the recipient in a block. *)
Definition to_recipient `{Nodes} (tx : EvmTx) : bool :=
  bool_decide (et_To tx = Some (HexToAddress recipient)) && (0 <? et_Value tx).

Definition native (blockNumber : Z) (tx : EvmTx) : option IncomingTransaction :=
  match et_Sender tx with
  | Ok sender => Some (mkIncoming currency (mkMoney Crypto (cc_Ticker currency) (Some (et_Value tx)) (cc_Decimals currency))
      sender (et_Hash tx) (ChooseNetwork currency isTest) blockNumber false)
  | _ => None
  end.

Lemma native_incoming_ok `{Nodes} n tx : is_ok (et_Sender tx) = true ->
  native_incoming recipient currency isTest n tx = Ok (if to_recipient tx then native n tx else None).
Proof.
  intros Hs. unfold native_incoming, to_recipient, native. destruct (et_To tx) as [to|]; [|by rewrite bool_decide_false].
  destruct (decide (to = HexToAddress recipient)) as [->|Hne].
  - rewrite !bool_decide_true by done. destruct (Z.leb_spec (et_Value tx) 0) as [Hv|Hv].
    + by rewrite (proj2 (Z.ltb_ge _ _)) by lia.
    + rewrite (proj2 (Z.ltb_lt _ _)) by lia. simpl. by destruct (et_Sender tx).
  - rewrite !bool_decide_false by congruence. done.
Qed.
End Complete.

(** Nothing of an address is missed or counted twice: when the explorer
    answers at least one of the two listings, the tracker returns, for the
    first occurrence of every transaction id in what was found (mempool
    first), one entry exactly when the transaction pays the address, with the
    sum of its outputs to the address as amount, and ids never repeat.  The
    sums fit an [int64]. *)
Theorem bitcoin_incoming_once `{Nodes} (recipient : string) (currency : CryptoCurrency) (isTest : bool) (w : world)
  (txs : list ExplorerTransaction)
  (Hfound : let found r := match r with Ok l => l | _ => [] end in
    let mempool := UTXOAddressTransactions (cc_Blockchain currency) recipient isTest true (calls w) in
    let confirmed := UTXOAddressTransactions (cc_Blockchain currency) recipient isTest false (S (calls w)) in
    (is_ok mempool || is_ok confirmed = true) /\ (forall p, mempool <> Panic p /\ confirmed <> Panic p) /\
    txs = found mempool ++ found confirmed)
  (Hsum : forall tx, tx ∈ txs -> paid recipient (xt_Vout tx) < 2 ^ 63) :
  exists l, (listBitcoinIncomingTransactionsFromExplorer recipient currency isTest w).1 = Ok l /\
    NoDup (map in_TransactionID l) /\
    forall i, i ∈ l <-> exists tx, is_first txs tx /\ 0 < paid recipient (xt_Vout tx) /\
      i = deposit recipient currency isTest tx.
Proof.
  destruct (unseen_spec txs []) as [Hnd Hel].
  assert (collect (bitcoinIncomingFromExplorer recipient currency isTest) (unseen [] txs) =
    Ok (omap (fun tx => if 0 <? paid recipient (xt_Vout tx) then Some (deposit recipient currency isTest tx) else None)
      (unseen [] txs))) as Hc.
  { assert (forall tx, tx ∈ unseen [] txs -> tx ∈ txs) as Hsub.
    { intros tx [(b & a & -> & _) _]%Hel. apply elem_of_app. right. by left. }
    rewrite collect_all by (intros tx ?%Hsub; by rewrite incoming_deposit by by apply Hsum). f_equal.
    revert Hsub. generalize (unseen [] txs). intros l. induction l as [|x l IH]; intros Hsub; [done|].
    cbn [omap list_omap]. rewrite incoming_deposit by (apply Hsum, Hsub; by left). cbn [kept].
    destruct (0 <? _); [f_equal|]; apply IH; intros y Hy; apply Hsub; by right. }
  exists (omap (fun tx => if 0 <? paid recipient (xt_Vout tx) then Some (deposit recipient currency isTest tx) else None)
    (unseen [] txs)). split_and!.
  - destruct Hfound as (Hok & Hp & Htxs). pose proof (fun p => proj1 (Hp p)) as Hp1. pose proof (fun p => proj2 (Hp p)) as Hp2.
    clear Hp. unfold listBitcoinIncomingTransactionsFromExplorer, attempt, external, lift, mbind, M_bind.
    simpl in *. destruct (UTXOAddressTransactions _ _ _ true _) as [m|e|p] eqn:Em;
      destruct (UTXOAddressTransactions _ _ _ false _) as [c|e'|p'] eqn:Ec; simpl in *;
      try done; try (destruct (Hp1 _ eq_refl)); try (destruct (Hp2 _ eq_refl)); by rewrite <- Htxs, Hc.
  - revert Hnd. generalize (unseen [] txs). intros l. induction l as [|x l IH]; [constructor|].
    cbn [map omap list_omap]. intros [Hx Hl]%NoDup_cons. destruct (0 <? _); [|by apply IH].
    cbn [map]. constructor; [|by apply IH]. cbn. intros (y & Hy & Hin)%list_elem_of_fmap.
    apply list_elem_of_omap in Hin as (z & Hz & E). destruct (0 <? _); [|done]. injection E as <-.
    apply Hx. cbn in Hy. rewrite Hy. by apply list_elem_of_fmap_2.
  - intros i. rewrite list_elem_of_omap. split.
    + intros (tx & [Hf _]%Hel & E). exists tx. destruct (Z.ltb_spec 0 (paid recipient (xt_Vout tx))); [|done].
      by injection E as <-.
    + intros (tx & Hf & Hpos & ->). exists tx. split; [apply Hel; split; [done|apply not_elem_of_nil]|].
      by rewrite (proj2 (Z.ltb_lt _ _)).
Qed.

(** The payments of a block, and of [n] blocks counting down from [b]. *)
Definition payments_in `{Nodes} (recipient : string) (currency : CryptoCurrency) (isTest : bool) (b : Z) (txs : list EvmTx) :
  list IncomingTransaction :=
  omap (fun tx => if to_recipient recipient tx then native currency isTest b tx else None) txs.

Fixpoint payments_down `{Nodes} (recipient : string) (currency : CryptoCurrency) (isTest : bool) (chain : Z -> list EvmTx)
  (n : nat) (b : Z) : list IncomingTransaction :=
  match n with
  | O => []
  | S n => payments_in recipient currency isTest b (chain b) ++ payments_down recipient currency isTest chain n (b - 1)
  end.

Lemma scan_blocks_ok `{Nodes} recipient currency isTest rpc (chain : Z -> list EvmTx) n : forall b w,
  (forall b k, BlockByNumber rpc b k = Ok (chain b)) ->
  (forall b tx, tx ∈ chain b -> is_ok (et_Sender tx) = true) ->
  (scan_blocks recipient currency isTest rpc n b w).1 = Ok (payments_down recipient currency isTest chain n b).
Proof.
  induction n as [|n IH]; intros b w Hb Hs; [done|]. cbn [scan_blocks payments_down].
  assert (collect (native_incoming recipient currency isTest b) (chain b) =
    Ok (payments_in recipient currency isTest b (chain b))) as Hc.
  { rewrite collect_all by (intros tx Htx; rewrite native_incoming_ok by (by eapply Hs); by destruct (to_recipient _ _); [destruct (native _ _ _ _)|]).
    f_equal. unfold payments_in. pose proof (Hs b) as Hsb. revert Hsb. generalize (chain b). intros l Hsb.
    induction l as [|x l IHl]; [done|]. cbn [omap list_omap].
    rewrite native_incoming_ok by (apply Hsb; by left). cbn [kept].
    destruct (if to_recipient recipient x then _ else _); [f_equal|]; apply IHl; intros y Hy; apply Hsb; by right. }
  unfold external, lift, mbind, M_bind. rewrite Hb, Hc. cbn. 
  set (w1 := mkWorld _ _ _ _ _ _ _). specialize (IH (b - 1) w1 Hb Hs).
  destruct (scan_blocks _ _ _ _ n (b - 1) w1) as [r w2]. cbn in IH. by subst r.
Qed.

Lemma elem_of_payments_down `{Nodes} recipient currency isTest chain n : forall b i,
  i ∈ payments_down recipient currency isTest chain n b <->
  exists k, b - Z.of_nat n < k <= b /\ i ∈ payments_in recipient currency isTest k (chain k).
Proof.
  induction n as [|n IH]; intros b i; cbn [payments_down].
  - split; [by intros ?%elem_of_nil|]. intros (k & ? & _). lia.
  - rewrite elem_of_app, IH. split.
    + intros [Hi|(k & Hk & Hi)]; [exists b|exists k]; split; (done || lia).
    + intros (k & Hk & Hi). destruct (Z.eq_dec k b) as [->|]; [by left|]. right. exists k. split; [lia|done].
Qed.

Lemma elem_of_payments_in `{Nodes} recipient currency isTest b txs i :
  i ∈ payments_in recipient currency isTest b txs <->
  exists tx, tx ∈ txs /\ to_recipient recipient tx = true /\ native currency isTest b tx = Some i.
Proof.
  unfold payments_in. rewrite list_elem_of_omap. split.
  - intros (tx & Htx & E). exists tx. by destruct (to_recipient recipient tx).
  - intros (tx & Htx & Hr & E). exists tx. by rewrite Hr.
Qed.

Lemma native_block currency isTest b tx i : native currency isTest b tx = Some i -> in_BlockNumber i = b.
Proof. unfold native. destruct (et_Sender tx); [|done..]. by intros [= <-]. Qed.

Lemma payments_down_sorted `{Nodes} recipient currency isTest chain n : forall b,
  StronglySorted (fun a b => in_BlockNumber b <= in_BlockNumber a) (payments_down recipient currency isTest chain n b).
Proof.
  induction n as [|n IH]; intros b; cbn [payments_down]; [constructor|].
  assert (Forall (fun i => in_BlockNumber i = b) (payments_in recipient currency isTest b (chain b))) as Hb.
  { apply Forall_forall. intros i (tx & _ & _ & Hi)%elem_of_payments_in. by apply native_block in Hi. }
  induction Hb as [|x l Hx Hl IHl]; [apply IH|]. cbn [app]. constructor; [done|]. apply Forall_app. split.
  - eapply Forall_impl; [exact Hl|]. cbn. intros. lia.
  - apply Forall_forall. intros i (k & Hk & (tx & _ & _ & Hi)%elem_of_payments_in)%elem_of_payments_down.
    apply native_block in Hi. lia.
Qed.

(** A scan for native coins covers the window of blocks it is meant to:
    with a node whose answers do not change, it lists exactly the payments of a
    positive amount to the address in the newest [blocks] blocks (1200 unless
    configured, and not before block 0), each with its block, newest block
    first. *)
Theorem evm_scan_complete `{Nodes} `{UTXOProviders} (recipient : string) (currency : CryptoCurrency) (isTest : bool)
  (rpc : rpc_client) (chain : Z -> list EvmTx) (latest : Z) (w : world)
  (Hlatest : forall k, BlockNumber rpc k = Ok latest) (Hrange : 0 <= latest < 2 ^ 63)
  (Hblocks : forall b k, BlockByNumber rpc b k = Ok (chain b))
  (Hsigned : forall b tx, tx ∈ chain b -> is_ok (et_Sender tx) = true)
  (Hscan : evmScanBlocks < 2 ^ 63) :
  let blocks := if evmScanBlocks <=? 0 then 1200 else evmScanBlocks in
  exists l, (listEVMNativeIncomingTransactions recipient currency isTest rpc w).1 = Ok l /\
    StronglySorted (fun a b => in_BlockNumber b <= in_BlockNumber a) l /\
    forall i, i ∈ l <-> exists b tx, 0 <= b <= latest /\ latest - blocks < b /\ tx ∈ chain b /\
      to_recipient recipient tx = true /\ native currency isTest b tx = Some i.
Proof.
  intros blocks. set (from := evmScanFromBlock latest evmScanBlocks).
  assert (0 < blocks < 2 ^ 63) as Hb by (unfold blocks; destruct (Z.leb_spec evmScanBlocks 0); lia).
  assert (int64 latest = latest) as El by (apply int64_small; unfold in_int64; lia).
  assert (from = Z.max 0 (latest - blocks + 1)) as Hfrom.
  { unfold from, evmScanFromBlock. fold blocks. change defaultTrackerEVMScanBlocks with 1200. fold blocks.
    rewrite El, (int64_small (latest - blocks)) by (unfold in_int64; lia). rewrite int64_small by (unfold in_int64; lia).
    destruct (Z.ltb_spec (latest - blocks + 1) 0); lia. }
  exists (payments_down recipient currency isTest chain (Z.to_nat (latest - from + 1)) latest). split_and!.
  - unfold listEVMNativeIncomingTransactions, external at 1, mbind at 1, M_bind at 1. rewrite Hlatest, El. by apply scan_blocks_ok.
  - apply payments_down_sorted.
  - intros i. rewrite elem_of_payments_down. setoid_rewrite elem_of_payments_in. split.
    + intros (b & Hbk & tx & ?). exists b, tx. split; [lia|]. split; [lia|done].
    + intros (b & tx & H1 & H2 & ?). exists b. split; [lia|]. by exists tx.
Qed.

(** ** Witnesses *)
Lemma bitcoin_incoming_once_witness :
  (listBitcoinIncomingTransactionsFromExplorer (H := ex_nodes) "shop" ex_btc false empty_world).1 =
    Ok [deposit "shop" ex_btc false ex_deposit] /\
  paid "shop" (xt_Vout ex_deposit) = 6000.
Proof.
  split; [|reflexivity].
  destruct (bitcoin_incoming_once (H := ex_nodes) "shop" ex_btc false empty_world [ex_deposit; ex_deposit]
    ltac:(by vm_compute; split_and!) ltac:(intros tx [->|[->|[]%elem_of_nil]%elem_of_cons]%elem_of_cons; by vm_compute))
    as (l & Hl & _). rewrite Hl. apply (f_equal Some) in Hl. vm_compute in Hl. injection Hl as <-. by vm_compute.
Defined.

Lemma evm_scan_complete_witness :
  exists i, (listEVMNativeIncomingTransactions (H := ex_nodes) (H0 := ex_providers) "0x01" ex_btc false
    (ChainClient "ETH" false) empty_world).1 = Ok [i] /\ in_TransactionID i = "0xaa" /\ in_BlockNumber i = 1.
Proof.
  destruct (evm_scan_complete (H := ex_nodes) (H0 := ex_providers) "0x01" ex_btc false (ChainClient "ETH" false)
    (fun n => if n =? 1 then [ex_transfer; mkEvmTx "0xbb" None 5 (Ok "0x03") 1] else []) 2 empty_world
    ltac:(done) ltac:(done) ltac:(done)
    ltac:(intros b tx; cbv beta; destruct (b =? 1); [intros [->|[->|[]%elem_of_nil]%elem_of_cons]%elem_of_cons; done|by intros ?%elem_of_nil])
    ltac:(done)) as (l & Hl & _).
  rewrite Hl. apply (f_equal Some) in Hl. vm_compute in Hl. injection Hl as <-. eexists. split; [reflexivity|]. by vm_compute.
Defined.
