(* ===== verification/Blockchain.v ===== *)
(** * Blockchain: what the other services use of the blockchain service

    The interface of [internal/service/blockchain] ([FeeCalculator],
    [Convertor], [Broadcaster] and [Tracker] in Go), with the law that none of
    its calls touches the database; the service, on any providers, is an
    instance. *)

From S2P Require Import Prelude GoLib Float64 KmsWallet Money Repository Queries Fees Bitcoin Currencies Nodes.
From S2P Require Convertor FeeCalculator Broadcaster Tracker.

Class BlockchainService := {
  CalculateFee : CryptoCurrency -> CryptoCurrency -> bool -> Go Fee;
  CalculateWithdrawalFeeUSD : CryptoCurrency -> CryptoCurrency -> bool -> Go Money;
  FiatToFiat : Money -> FiatCurrency -> Go Convertor.Conversion;
  FiatToCrypto : Money -> CryptoCurrency -> Go Convertor.Conversion;
  CryptoToFiat : Money -> FiatCurrency -> Go Convertor.Conversion;
  BroadcastTransaction : string -> string -> bool -> Go string;
  GetTransactionReceipt : string -> string -> bool -> Go Broadcaster.TransactionReceipt;
  ListIncomingTransactions : string -> CryptoCurrency -> bool -> Go (list Tracker.IncomingTransaction)
}.

Class BlockchainLaws `{BlockchainService} : Prop := {
  fee_pure base c t : steps eq (CalculateFee base c t);
  fee_usd_pure base c t : steps eq (CalculateWithdrawalFeeUSD base c t);
  fiat_to_fiat_pure m c : steps eq (FiatToFiat m c);
  fiat_to_crypto_pure m c : steps eq (FiatToCrypto m c);
  crypto_to_fiat_pure m c : steps eq (CryptoToFiat m c);
  broadcast_pure b tx t : steps eq (BroadcastTransaction b tx t);
  receipt_pure b id t : steps eq (GetTransactionReceipt b id t);
  incoming_pure a c t : steps eq (ListIncomingTransactions a c t)
}.

(** ** The service *)
Section Service.
Context `{Resolver} `{MapOrder} `{Convertor.RateProvider} `{Nodes} `{UTXOProviders}.

Definition blockchain_service : BlockchainService := {|
  CalculateFee := FeeCalculator.CalculateFee;
  CalculateWithdrawalFeeUSD := FeeCalculator.CalculateWithdrawalFeeUSD;
  FiatToFiat := Convertor.FiatToFiat;
  FiatToCrypto := Convertor.FiatToCrypto;
  CryptoToFiat := Convertor.CryptoToFiat;
  BroadcastTransaction := Broadcaster.BroadcastTransaction;
  GetTransactionReceipt := Broadcaster.GetTransactionReceipt;
  ListIncomingTransactions a c t := Tracker.ListIncomingTransactions a c t
|}.

#[local] Hint Extern 1 (steps _ (external _)) => apply steps_external; tc_solve : schema.

Lemma cache_Set_pure k r : steps eq (Convertor.cache_Set k r).
Proof. unfold Convertor.cache_Set. destruct (negb _); by intros w. Qed.
#[local] Hint Resolve cache_Set_pure : schema.

Lemma GetExchangeRate_pure from to : steps eq (Convertor.GetExchangeRate from to).
Proof.
  unfold Convertor.GetExchangeRate, Convertor.getExchangeRate, Convertor.getTatumExchangeRate, Convertor.cache_Get,
    Convertor.fallbackExchangeRate, Convertor.makeFallbackExchangeRate. cbv zeta. go_steps.
Qed.
#[local] Hint Resolve GetExchangeRate_pure : schema.

Lemma FiatToFiat_pure m c : steps eq (Convertor.FiatToFiat m c).
Proof. unfold Convertor.FiatToFiat. go_steps. Qed.
Lemma FiatToCrypto_pure m c : steps eq (Convertor.FiatToCrypto m c).
Proof. unfold Convertor.FiatToCrypto. go_steps. Qed.
Lemma CryptoToFiat_pure m c : steps eq (Convertor.CryptoToFiat m c).
Proof. unfold Convertor.CryptoToFiat. go_steps. Qed.
#[local] Hint Resolve CryptoToFiat_pure : schema.
#[local] Opaque Convertor.CryptoToFiat.

#[local] Opaque f64_of_Z f64_dec.

Lemma evm_costs_pure b sym rate base c t : steps eq (FeeCalculator.evm_costs b sym rate base c t).
Proof. unfold FeeCalculator.evm_costs. cbv zeta. go_steps. Qed.
#[local] Hint Resolve evm_costs_pure : schema.
#[local] Opaque FeeCalculator.evm_costs.

Lemma ethFee_pure base c t : steps eq (FeeCalculator.ethFee base c t).
Proof. unfold FeeCalculator.ethFee. go_steps. Qed.
Lemma maticFee_pure base c t : steps eq (FeeCalculator.maticFee base c t).
Proof. unfold FeeCalculator.maticFee. go_steps. Qed.
Lemma bscFee_pure base c t : steps eq (FeeCalculator.bscFee base c t).
Proof. unfold FeeCalculator.bscFee. go_steps. Qed.
Lemma tronFee_pure base c t : steps eq (FeeCalculator.tronFee base c t).
Proof. unfold FeeCalculator.tronFee. cbv zeta. generalize FeeCalculator.tokenTransactionSun. go_steps. Qed.
Lemma utxoFeeRate_pure b t : steps eq (utxoFeeRate b t).
Proof. unfold utxoFeeRate. go_steps. Qed.
#[local] Hint Resolve ethFee_pure maticFee_pure bscFee_pure tronFee_pure utxoFeeRate_pure : schema.
#[local] Opaque utxoFeeRate FeeCalculator.ethFee FeeCalculator.maticFee FeeCalculator.bscFee FeeCalculator.tronFee.
Lemma bitcoinFee_pure base c t : steps eq (FeeCalculator.bitcoinFee base c t).
Proof. unfold FeeCalculator.bitcoinFee. cbv zeta. go_steps. Qed.
#[local] Hint Resolve bitcoinFee_pure : schema.
#[local] Opaque FeeCalculator.bitcoinFee.

Lemma CalculateFee_pure base c t : steps eq (FeeCalculator.CalculateFee base c t).
Proof. unfold FeeCalculator.CalculateFee. cbv zeta. go_steps. Qed.
#[local] Hint Resolve CalculateFee_pure : schema.
#[local] Opaque FeeCalculator.CalculateFee FeeCalculator.fee_usd FiatFromFloat64.

Lemma CalculateWithdrawalFeeUSD_pure base c t : steps eq (FeeCalculator.CalculateWithdrawalFeeUSD base c t).
Proof. unfold FeeCalculator.CalculateWithdrawalFeeUSD. go_steps. Qed.

Lemma evmRPC_pure b t : steps eq (evmRPC b t).
Proof. unfold evmRPC. go_steps. Qed.
#[local] Hint Resolve evmRPC_pure : schema.

Lemma scan_blocks_pure recipient c t rpc n : forall b, steps eq (Tracker.scan_blocks recipient c t rpc n b).
Proof. induction n as [|n IH]; intros b; cbn [Tracker.scan_blocks]; go_steps; eauto. Qed.
#[local] Hint Resolve scan_blocks_pure : schema.

Lemma incoming_transactions_pure a c t : steps eq (Tracker.ListIncomingTransactions a c t).
Proof.
  unfold Tracker.ListIncomingTransactions, Tracker.listBitcoinIncomingTransactions,
    Tracker.listBitcoinIncomingTransactionsFromExplorer, Tracker.listEVMIncomingTransactions,
    Tracker.listEVMNativeIncomingTransactions, Tracker.listEVMTokenIncomingTransactions,
    Tracker.listTronIncomingTransactions, Tracker.listTronTokenIncomingTransactions. cbv zeta. go_steps.
Qed.

Lemma broadcast_transaction_pure b tx t : steps eq (Broadcaster.BroadcastTransaction b tx t).
Proof. unfold Broadcaster.BroadcastTransaction, Broadcaster.tatum_send, Broadcaster.broadcast_result. go_steps. Qed.

Lemma transaction_receipt_pure b id t : steps eq (Broadcaster.GetTransactionReceipt b id t).
Proof.
  unfold Broadcaster.GetTransactionReceipt, Broadcaster.getTransactionReceipt, Broadcaster.getBitcoinReceipt,
    Broadcaster.getBitcoinReceiptFromExplorer, Broadcaster.evm_receipt, Broadcaster.getEthReceipt, Broadcaster.tron_receipt.
  cbv zeta. go_steps.
Qed.

Lemma blockchain_service_laws : BlockchainLaws (H := blockchain_service).
Proof.
  split; cbn; intros; auto using FiatToFiat_pure, FiatToCrypto_pure, CryptoToFiat_pure, CalculateFee_pure,
    CalculateWithdrawalFeeUSD_pure, incoming_transactions_pure, broadcast_transaction_pure, transaction_receipt_pure.
Qed.
End Service.
