(* ===== verification/Withdrawal.v ===== *)
(** * Withdrawal: requests of merchants to withdraw

    [internal/service/payment/service_withdrawal.go]: listing and creating
    withdrawals, their fee, and the largest amount that the gateway's own
    wallets can pay (for Bitcoin and Litecoin: from one wallet, or from all of
    them after consolidation). *)

From S2P Require Import Prelude GoLib Float64 KmsWallet Money Repository Queries PaymentQueries.
From S2P Require Import Fees Bitcoin Currencies Nodes Blockchain Payment.
From S2P Require Wallet WalletBalance WalletTransaction Merchant Convertor.

Record CreateWithdrawalProps := mkWithdrawalProps {
  cwp_BalanceID : string; cwp_AddressID : string; cwp_AmountRaw : string
}.

Record WithdrawalFee := mkWithdrawalFee {
  wf_CalculatedAt : Z; wf_Blockchain : string; wf_Currency : string; wf_USDFee : Money; wf_CryptoFee : Money;
  wf_MinimumAmount : Money; wf_MaximumAmount : Money; wf_IsTest : bool
}.

Record utxoWithdrawalSource := mkSource { us_Wallet : Wallet.Wallet; us_Balance : WalletBalance.Balance }.
Record utxoWithdrawalLimit := mkLimit { ul_MaximumAmount : Money; ul_CryptoFee : Money }.

Definition UTXODustSats : Z := bitcoinDustSats.

Definition minimumWithdrawalAmount (currency : CryptoCurrency) : res Money :=
  if isUTXOBlockchain (cc_Blockchain currency) then CryptoCurrency_MakeAmount currency (FormatInt UTXODustSats)
  else CryptoCurrency_MakeAmount currency "0".

Definition withdrawalUTXOAmountSats (amount : Money) : res Z :=
  if negb (m_decimals amount =? 8) then
    Err (EWrap ErrValidation (m_ticker amount +:+ " UTXO amount must use 8 decimals"))
  else match Atoi (StringRaw amount) with
       | Some value => Ok value
       | None => Err (EWrap ErrValidation ("unable to parse " +:+ m_ticker amount +:+ " UTXO amount"))
       end.

Definition validateWithdrawalRuntimeCurrency (currency : CryptoCurrency) : res unit :=
  match validateTransactionRuntimeBlockchain (cc_Blockchain currency) with
  | Err _ => Err (EWrap ErrValidation (cc_Blockchain currency +:+ " withdrawals require dedicated runtime support"))
  | r => r
  end.

Section Withdrawals.
Context (basePath : string) (convertor : Money -> string -> Go Money).
Context `{Resolver} `{BlockchainService} `{UTXOProviders} `{Btcutil} `{Publisher}.

Definition ListWithdrawals (status : string) (filterByIDs : list Z) : Go (list Payment) :=
  let filter := negb (bool_decide (filterByIDs = [])) in
  results ← GetPaymentsByType TypeWithdrawal status 200 filter (map int32 filterByIDs);
  if filter && negb (length results =? length filterByIDs)%nat then
    fail (ENew ("withdrawals filter mismatch for status " +:+ status))
  else lift (entriesToPayments basePath results).

(** ** What the gateway's wallets can pay *)
Definition source_balance (currency : CryptoCurrency) (networkID : string) (merchantBalance b : WalletBalance.Balance) : bool :=
  bool_decide (WalletBalance.bal_Currency b = cc_Ticker currency) &&
  bool_decide (WalletBalance.bal_NetworkID b = networkID) && negb (Money_IsZero (WalletBalance.bal_Amount b)) &&
  CompatibleTo (WalletBalance.bal_Amount b) (WalletBalance.bal_Amount merchantBalance).

(** The sources of one page of wallets. *)
Fixpoint page_sources (merchantBalance : WalletBalance.Balance) (currency : CryptoCurrency) (networkID : string)
  (wallets : list Wallet.Wallet) : Go (list utxoWithdrawalSource) :=
  match wallets with
  | [] => mret []
  | sourceWallet :: wallets =>
    here ← (if one_of (Wallet.wal_Type sourceWallet) [Wallet.TypeOutbound; Wallet.TypeInbound] then
        balances ← wrapM (WalletBalance.ListBalances convertor WalletBalance.EntityTypeWallet (Wallet.wal_ID sourceWallet) false)
          "unable to list UTXO wallet balances";
        mret (map (mkSource sourceWallet)
          (List.filter (source_balance currency networkID merchantBalance) balances))
      else mret []);
    rest ← page_sources merchantBalance currency networkID wallets;
    mret (here ++ rest)
  end.

Fixpoint source_pages (fuel : nat) (start : Z) (merchantBalance : WalletBalance.Balance) (currency : CryptoCurrency)
  (networkID : string) : Go (list utxoWithdrawalSource) :=
  match fuel with
  | O => panic "out of fuel"
  | S fuel =>
    '(wallets, nextID) ← wrapM (Wallet.List_ (Wallet.mkPagination start 300 (cc_Blockchain currency) ""))
      "unable to list UTXO wallets";
    sources ← page_sources merchantBalance currency networkID wallets;
    match nextID with
    | None => mret sources
    | Some next => rest ← source_pages fuel next merchantBalance currency networkID; mret (sources ++ rest)
    end
  end.

(** A page has at least one wallet behind those of the page before. *)
Definition listUTXOWithdrawalSources (merchantBalance : WalletBalance.Balance) (currency : CryptoCurrency) (isTest : bool) :
  Go (list utxoWithdrawalSource) :=
  fuel ← gets (fun w => S (length (rows (wallets (db w)))));
  source_pages fuel 0 merchantBalance currency (ChooseNetwork currency isTest).

(** What the loop over the sources has found: the largest amount one source
    pays, its fee, and the inputs a consolidation would have. *)
Record found := mkFound { fo_maximum : Money; fo_maximumFee : Money; fo_inputs : list BitcoinUTXO }.

Definition better (f : found) (r : Money * Money) : found :=
  if GreaterThan r.1 (fo_maximum f) then mkFound r.1 r.2 (fo_inputs f) else f.

(** What a source that is not the outbound wallet adds: the output of its
    sweep. *)
Definition consolidated_input (currency : CryptoCurrency) (fee : Fee) (walletID : Z) (utxos : list BitcoinUTXO)
  (inputs : list BitcoinUTXO) : res (list BitcoinUTXO) :=
  match BitcoinSweepAmountFromUTXOs currency fee utxos with
  | Err _ => Ok inputs
  | Panic p => Panic p
  | Ok sweepAmount =>
    amountSats ← withdrawalUTXOAmountSats sweepAmount;
    if amountSats <? UTXODustSats then Ok inputs
    else Ok (inputs ++ [mkUTXO ("consolidated-" +:+ FormatInt walletID) (uint32 (Z.of_nat (length inputs))) amountSats "" "" 0])
  end.

Fixpoint source_loop (merchantBalance : WalletBalance.Balance) (currency : CryptoCurrency) (fee : Fee) (isTest : bool)
  (sources : list utxoWithdrawalSource) (f : found) : Go found :=
  match sources with
  | [] => mret f
  | source :: sources =>
    let next := source_loop merchantBalance currency fee isTest sources in
    let maxTotalCost :=
      if LessThan (WalletBalance.bal_Amount merchantBalance) (WalletBalance.bal_Amount (us_Balance source))
      then WalletBalance.bal_Amount merchantBalance else WalletBalance.bal_Amount (us_Balance source) in
    if Money_IsZero maxTotalCost then next f else
    utxos ← attempt (WalletTransaction.SpendableUTXOs (us_Wallet source) fee isTest);
    match utxos with
    | inr _ | inl [] => next f
    | inl utxos =>
      spendable ← attempt (lift (MaxBitcoinTransactionAmountAndFeeFromUTXOs currency fee maxTotalCost utxos));
      let f := match spendable with inl r => better f r | inr _ => f end in
      if bool_decide (Wallet.wal_Type (us_Wallet source) = Wallet.TypeOutbound) then
        next (mkFound (fo_maximum f) (fo_maximumFee f) (fo_inputs f ++ utxos))
      else
        inputs ← lift (consolidated_input currency fee (Wallet.wal_ID (us_Wallet source)) utxos (fo_inputs f));
        next (mkFound (fo_maximum f) (fo_maximumFee f) inputs)
    end
  end.

Definition maxUTXOWithdrawalLimit (merchantBalance : WalletBalance.Balance) (currency : CryptoCurrency) (fee : Fee)
  (isTest : bool) : Go utxoWithdrawalLimit :=
  maximum ← lift (CryptoCurrency_MakeAmount currency "0");
  maximumFee ← lift (CryptoCurrency_MakeAmount currency "0");
  sources ← listUTXOWithdrawalSources merchantBalance currency isTest;
  f ← source_loop merchantBalance currency fee isTest sources (mkFound maximum maximumFee []);
  match fo_inputs f with
  | [] => mret (mkLimit (fo_maximum f) (fo_maximumFee f))
  | _ =>
    r ← attempt (lift (MaxBitcoinTransactionAmountAndFeeFromUTXOs currency fee (WalletBalance.bal_Amount merchantBalance)
      (fo_inputs f)));
    match r with
    | inl r => let f := better f r in mret (mkLimit (fo_maximum f) (fo_maximumFee f))
    | inr e => if errors_Is e ErrInsufficientFunds then mret (mkLimit (fo_maximum f) (fo_maximumFee f)) else fail e
    end
  end.

(** ** The fee of a withdrawal *)
Definition utxo_withdrawal_fee (balance : WalletBalance.Balance) (baseCurrency currency : CryptoCurrency) (isTest : bool)
  (minimumAmount : Money) : Go WithdrawalFee :=
  networkFee ← wrapM (CalculateFee baseCurrency currency isTest) "unable to get fee";
  utxoFee ← wrapM (lift (ToBitcoinFee networkFee)) "unable to parse UTXO fee";
  cryptoFee ← wrapM (lift (CryptoCurrency_MakeAmount currency (btc_TotalCostSats utxoFee)))
    ("unable to make " +:+ cc_Ticker currency +:+ " withdrawal fee");
  limit ← wrapM (maxUTXOWithdrawalLimit balance currency networkFee isTest)
    ("unable to calculate " +:+ cc_Ticker currency +:+ " max withdrawal amount");
  let cryptoFee := if Money_IsZero (ul_CryptoFee limit) then cryptoFee else ul_CryptoFee limit in
  conv ← wrapM (CryptoToFiat cryptoFee USD) ("unable to convert " +:+ cc_Ticker currency +:+ " fee to USD");
  now ← time_Now;
  mret (mkWithdrawalFee now (cc_Blockchain currency) (cc_Ticker currency) (Convertor.cv_To conv) cryptoFee minimumAmount
    (ul_MaximumAmount limit) isTest).

Definition account_withdrawal_fee (balance : WalletBalance.Balance) (baseCurrency currency : CryptoCurrency) (isTest : bool)
  (minimumAmount : Money) : Go WithdrawalFee :=
  usdFee ← wrapM (CalculateWithdrawalFeeUSD baseCurrency currency isTest) "unable to get fee";
  conv ← wrapM (FiatToCrypto usdFee currency) "unable to get currency withdrawal fee in crypto";
  maximumAmount ← wrapM (lift (match Money_Sub (WalletBalance.bal_Amount balance) (Convertor.cv_To conv) with
      | Err e => if errors_Is e ErrNegative then CryptoCurrency_MakeAmount currency "0" else Err e
      | r => r
      end)) ("unable to calculate " +:+ cc_Ticker currency +:+ " max withdrawal amount");
  now ← time_Now;
  mret (mkWithdrawalFee now (cc_Blockchain currency) (cc_Ticker currency) usdFee (Convertor.cv_To conv) minimumAmount
    maximumAmount isTest).

Definition is_test (balance : WalletBalance.Balance) (currency : CryptoCurrency) : bool :=
  negb (bool_decide (WalletBalance.bal_NetworkID balance = cc_NetworkID currency)).

Definition getWithdrawalFee (balance : WalletBalance.Balance) (currency : CryptoCurrency) : Go WithdrawalFee :=
  baseCurrency ← wrapM (lift (GetNativeCoin (cc_Blockchain currency))) "unable to get currency by ticker";
  let isTest := is_test balance currency in
  minimumAmount ← wrapM (lift (minimumWithdrawalAmount currency))
    ("unable to make " +:+ cc_Ticker currency +:+ " minimum withdrawal amount");
  if isUTXOBlockchain (cc_Blockchain currency) then utxo_withdrawal_fee balance baseCurrency currency isTest minimumAmount
  else account_withdrawal_fee balance baseCurrency currency isTest minimumAmount.

Definition GetWithdrawalFee (merchantID : Z) (balanceID : string) : Go WithdrawalFee :=
  balance ← wrapM (WalletBalance.GetMerchantBalanceByUUID merchantID balanceID) "unable to get merchant balance";
  currency ← wrapM (lift (GetCurrencyByTicker (WalletBalance.bal_Currency balance))) "unable to  get currency by ticker";
  _ ← lift (validateWithdrawalRuntimeCurrency currency);
  getWithdrawalFee balance currency.

(** ** Creating a withdrawal

    The checks of the amount against the fee, in the order of the code; an
    amount that does not print (negative decimals) panics in a message. *)
Definition check_withdrawal (balance : WalletBalance.Balance) (amount : Money) (fee : WithdrawalFee) : res unit :=
  match WalletBalance.Covers balance [amount; wf_CryptoFee fee] with
  | Err _ =>
    b ← Money_String (WalletBalance.bal_Amount balance); a ← Money_String amount; c ← Money_String (wf_CryptoFee fee);
    u ← Money_String (wf_USDFee fee);
    Err (EWrap ErrWithdrawalInsufficientBalance ("balance of " +:+ b +:+ " " +:+ m_ticker (WalletBalance.bal_Amount balance) +:+
      " is less than requested " +:+ a +:+ " " +:+ m_ticker amount +:+ " + withdrawal fee of " +:+ c +:+ " " +:+
      m_ticker (wf_CryptoFee fee) +:+ " ($" +:+ u +:+ ")"))
  | Panic p => Panic p
  | Ok _ =>
    if negb (CompatibleTo amount (wf_MinimumAmount fee)) || negb (CompatibleTo amount (wf_MaximumAmount fee)) then
      Err ErrIncompatibleMoney
    else if LessThan amount (wf_MinimumAmount fee) then
      m ← Money_String (wf_MinimumAmount fee);
      Err (EWrap ErrWithdrawalAmountTooSmall ("minimum withdrawal amount is " +:+ m +:+ " " +:+ m_ticker (wf_MinimumAmount fee)))
    else if GreaterThan amount (wf_MaximumAmount fee) then
      m ← Money_String (wf_MaximumAmount fee);
      Err (EWrap ErrWithdrawalInsufficientBalance ("maximum withdrawal amount is " +:+ m +:+ " " +:+
        m_ticker (wf_MaximumAmount fee) +:+ " for currently spendable funds"))
    else Ok tt
  end.

Definition CreateWithdrawal (merchantID : Z) (props : CreateWithdrawalProps) : Go Payment :=
  address ← wrapM (Merchant.GetMerchantAddressByUUID merchantID (cwp_AddressID props)) "unable to get merchant address";
  balance ← wrapM (WalletBalance.GetMerchantBalanceByUUID merchantID (cwp_BalanceID props)) "unable to get merchant balance";
  if negb (bool_decide (Merchant.adr_Blockchain address = WalletBalance.bal_Network balance)) then fail ErrAddressBalanceMismatch else
  let ticker := m_ticker (WalletBalance.bal_Amount balance) in
  amount ← lift (CryptoFromStringFloat ticker (cwp_AmountRaw props) (m_decimals (WalletBalance.bal_Amount balance)));
  if negb (CompatibleTo amount (WalletBalance.bal_Amount balance)) then fail ErrAddressBalanceMismatch else
  currency ← wrapM (lift (GetCurrencyByTicker ticker)) ("unable to get currency " +:+ ticker);
  _ ← lift (validateWithdrawalRuntimeCurrency currency);
  withdrawalFee ← wrapM (getWithdrawalFee balance currency) "unable to get withdrawal fee";
  _ ← lift (check_withdrawal balance amount withdrawalFee);
  publicID ← uuid_New;
  let isTest := is_test balance currency in
  createdAt ← time_Now; updatedAt ← time_Now;
  p ← wrapM (PaymentQueries.CreatePayment (mkCreatePaymentParams publicID createdAt updatedAt TypeWithdrawal StatusPending
    merchantID publicID null_string null_time (MoneyToNumeric amount) (int32 (m_decimals amount)) (m_ticker amount)
    (StringToNullable "Balance withdrawal") "" (WalletBalance.ToJSONB (Some
      (<[MetaBalanceID := FormatInt (WalletBalance.bal_ID balance)]>
       (<[MetaAddressID := FormatInt (Merchant.adr_ID address)]> ∅))) ) isTest)) "unable to create payment";
  _ ← wrapM (external (Publish TopicWithdrawals (Row.p_MerchantID p) (Row.p_ID p)))
    "unable to publish WithdrawalCreatedEvent event";
  lift (entryToPayment basePath p).
End Withdrawals.

(** ** Lemmas: the fee reads only *)
Section Pure.
Context (convertor : Money -> string -> Go Money).
Context `{Resolver} `{BlockchainService} `{!BlockchainLaws} `{UTXOProviders} `{Btcutil}.

#[local] Hint Resolve fee_pure fee_usd_pure fiat_to_crypto_pure crypto_to_fiat_pure WalletTransaction.utxoSpendableUTXOs_pure : schema.

Lemma SpendableUTXOs_pure s fee t : steps eq (WalletTransaction.SpendableUTXOs s fee t).
Proof.
  unfold WalletTransaction.SpendableUTXOs, WalletTransaction.activeBitcoinUTXOReservationKeys, SpendableUTXOsExcluding,
    check_utxo_currency, check_address. cbv zeta. go_steps.
Qed.
#[local] Hint Resolve SpendableUTXOs_pure : schema.
#[local] Opaque WalletTransaction.SpendableUTXOs.

Lemma page_sources_pure b c n ws : steps eq (page_sources convertor b c n ws).
Proof.
  induction ws as [|wal ws IH]; cbn [page_sources]; [apply steps_ret; tc_solve|].
  unfold WalletBalance.ListBalances. go_steps; eauto.
Qed.
#[local] Hint Resolve page_sources_pure : schema.

Lemma source_pages_pure fuel : forall start b c n, steps eq (source_pages convertor fuel start b c n).
Proof.
  induction fuel as [|fuel IH]; intros; cbn [source_pages]; [apply steps_panic; tc_solve|].
  unfold Wallet.List_. cbv zeta. go_steps; eauto.
Qed.
#[local] Hint Resolve source_pages_pure : schema.

Lemma source_loop_pure b c fee t ss : forall f, steps eq (source_loop b c fee t ss f).
Proof. induction ss as [|s ss IH]; intros f; cbn [source_loop]; cbv zeta; go_steps; eauto. Qed.
#[local] Hint Resolve source_loop_pure : schema.

Lemma maxUTXOWithdrawalLimit_pure b c fee t : steps eq (maxUTXOWithdrawalLimit convertor b c fee t).
Proof. unfold maxUTXOWithdrawalLimit, listUTXOWithdrawalSources. cbv zeta. go_steps. Qed.
#[local] Hint Resolve maxUTXOWithdrawalLimit_pure : schema.
#[local] Opaque maxUTXOWithdrawalLimit.

Lemma getWithdrawalFee_pure b c : steps eq (getWithdrawalFee convertor b c).
Proof. unfold getWithdrawalFee, utxo_withdrawal_fee, account_withdrawal_fee. cbv zeta. go_steps. Qed.
End Pure.

(** ** Lemmas: creating a withdrawal *)
Lemma check_withdrawal_ok b a fee : check_withdrawal b a fee = Ok tt <->
  WalletBalance.Covers b [a; wf_CryptoFee fee] = Ok tt /\
  CompatibleTo a (wf_MinimumAmount fee) = true /\ CompatibleTo a (wf_MaximumAmount fee) = true /\
  val (wf_MinimumAmount fee) <= val a <= val (wf_MaximumAmount fee).
Proof.
  unfold check_withdrawal, LessThan, GreaterThan. destruct (WalletBalance.Covers b _) as [[]|e|p].
  - destruct (CompatibleTo a (wf_MinimumAmount fee)), (CompatibleTo a (wf_MaximumAmount fee)); simpl;
      try (split; [done|naive_solver]).
    destruct (Z.ltb_spec (val a) (val (wf_MinimumAmount fee))).
    { split; [by destruct (Money_String _)|intros (_ & _ & _ & ?); lia]. }
    destruct (Z.ltb_spec (val (wf_MaximumAmount fee)) (val a)); [|split; [by intros|done]].
    split; [by destruct (Money_String _)|intros (_ & _ & _ & ?); lia].
  - split; [|naive_solver]. by repeat (destruct (Money_String _); simpl; try done).
  - split; [done|naive_solver].
Qed.

Lemma Covers_two b a f : WalletBalance.Covers b [a; f] = Ok tt ->
  val a <= val (WalletBalance.bal_Amount b) /\ val a + val f <= val (WalletBalance.bal_Amount b) /\
  CompatibleTo (WalletBalance.bal_Amount b) a = true /\ CompatibleTo (WalletBalance.bal_Amount b) f = true.
Proof.
  unfold WalletBalance.Covers. cbn [WalletBalance.Covers_from].
  destruct (Money_Sub (WalletBalance.bal_Amount b) a) as [c| |] eqn:E1; [|done..].
  apply Money_Sub_ok in E1 as (Hc1 & Hv1 & ->). cbn [mbind res_bind].
  destruct (Money_Sub _ f) as [c| |] eqn:E2; [|done..]. apply Money_Sub_ok in E2 as (Hc2 & Hv2 & _). intros _.
  unfold val in *. simpl in *. apply CompatibleTo_iff in Hc1, Hc2. split_and!; try lia; by apply CompatibleTo_iff.
Qed.

Lemma CryptoFromStringFloat_shape tk raw d m : CryptoFromStringFloat tk raw d = Ok m ->
  m_type m = Crypto /\ m_ticker m = tk /\ m_decimals m = d /\ is_Some (m_value m).
Proof.
  unfold CryptoFromStringFloat. destruct (float_to_raw _ _); simpl; [|done..]. unfold CryptoFromRaw, New.
  destruct (bigint_of_bytes _); [|done]. by intros [= <-].
Qed.

(** What a withdrawal request leaves in the database. *)
Record withdrawal_row (merchantID : Z) (address : Merchant.Address) (balance : WalletBalance.Balance) (amount : Money)
  (row : Row.Payment) : Prop := mkWithdrawalRow {
  wr_type : Row.p_Type row = TypeWithdrawal;
  wr_status : Row.p_Status row = StatusPending;
  wr_merchant : Row.p_MerchantID row = merchantID;
  wr_price : Row.p_Price row = MoneyToNumeric amount;
  wr_currency : Row.p_Currency row = m_ticker amount;
  wr_decimals : Row.p_Decimals row = int32 (m_decimals amount);
  wr_meta : jb_Bytes (Row.p_Metadata row) = <[MetaBalanceID := FormatInt (WalletBalance.bal_ID balance)]>
    (<[MetaAddressID := FormatInt (Merchant.adr_ID address)]> ∅);
  wr_present : jb_Status (Row.p_Metadata row) = Present
}.

Lemma wp_GetMerchantBalanceByUUID merchantID id w (Q : res WalletBalance.Balance -> world -> Prop) :
  (forall w', db w' = db w -> Q (WalletBalance.GetMerchantBalanceByUUID merchantID id w).1 w') ->
  wp (WalletBalance.GetMerchantBalanceByUUID merchantID id) w Q.
Proof.
  intros HQ. apply HQ. symmetry. revert w HQ.
  assert (steps eq (WalletBalance.GetMerchantBalanceByUUID merchantID id)) as Hs by
    (unfold WalletBalance.GetMerchantBalanceByUUID, WalletBalance.GetBalanceByUUID, not_found; go_steps).
  intros w _. apply Hs.
Qed.

Lemma wp_address `{Resolver} merchantID id w (Q : res Merchant.Address -> world -> Prop) :
  (forall w', db w' = db w -> Q (Merchant.GetMerchantAddressByUUID merchantID id w).1 w') ->
  wp (Merchant.GetMerchantAddressByUUID merchantID id) w Q.
Proof.
  intros HQ. apply HQ. symmetry.
  assert (steps eq (Merchant.GetMerchantAddressByUUID merchantID id)) as Hs by
    (unfold Merchant.GetMerchantAddressByUUID, not_found; go_steps).
  apply Hs.
Qed.

(** A read answers the same in worlds with the same database. *)
Lemma found_balance_db merchantID id w w' : db w = db w' ->
  (WalletBalance.GetMerchantBalanceByUUID merchantID id w).1 = (WalletBalance.GetMerchantBalanceByUUID merchantID id w').1.
Proof.
  intros E. assert (forall w, (WalletBalance.GetMerchantBalanceByUUID merchantID id w).1 =
    match one (select (fun b => (Row.b_EntityID b =? merchantID) &&
      bool_decide (Row.b_EntityType b = WalletBalance.EntityTypeMerchant) && sql_eq (Row.b_Uuid b) (mkNull id true)) (balances (db w))) with
    | Ok row => WalletBalance.entryToBalance row
    | Err e => Err (if errors_Is e ErrNoRows then WalletBalance.ErrBalanceNotFound else e)
    | Panic p => Panic p
    end) as Hr; [|by rewrite !Hr, E].
  clear. intros w. refine (_ : wp (WalletBalance.GetMerchantBalanceByUUID merchantID id) w (fun r _ => r = _)).
  unfold WalletBalance.GetMerchantBalanceByUUID, WalletBalance.GetBalanceByUUID.
  wp_step. apply wp_not_found, wp_read. intros w1 E1. by destruct (one _).
Qed.

Section Created.
Context (basePath : string) (convertor : Money -> string -> Go Money).
Context `{Resolver} `{BlockchainService} `{!BlockchainLaws} `{UTXOProviders} `{Btcutil} `{Publisher}.

(** The outcome of a request that stored a row. *)
Definition withdrawal_created (merchantID : Z) (props : CreateWithdrawalProps) (w : world) (r : res Payment) (w' : world) : Prop :=
  exists address balance amount currency fee w1 mk,
    (Merchant.GetMerchantAddressByUUID merchantID (cwp_AddressID props) w).1 = Ok address /\
    (WalletBalance.GetMerchantBalanceByUUID merchantID (cwp_BalanceID props) w).1 = Ok balance /\
    Merchant.adr_Blockchain address = WalletBalance.bal_Network balance /\
    CryptoFromStringFloat (m_ticker (WalletBalance.bal_Amount balance)) (cwp_AmountRaw props)
      (m_decimals (WalletBalance.bal_Amount balance)) = Ok amount /\
    GetCurrencyByTicker (m_ticker (WalletBalance.bal_Amount balance)) = Ok currency /\
    supportsTransactionRuntime (cc_Blockchain currency) = true /\
    db w1 = db w /\ (getWithdrawalFee convertor balance currency w1).1 = Ok fee /\
    val amount + val (wf_CryptoFee fee) <= val (WalletBalance.bal_Amount balance) /\
    val (wf_MinimumAmount fee) <= val amount <= val (wf_MaximumAmount fee) /\
    (forall n, Row.p_ID (mk n) = n) /\ db w' = set_payments (insert_row mk (payments (db w))) (db w) /\
    withdrawal_row merchantID address balance amount (mk (next_id (payments (db w)))) /\
    (is_ok r = true -> r = entryToPayment basePath (mk (next_id (payments (db w))))).

Lemma wp_CreateWithdrawal merchantID props w :
  wp (CreateWithdrawal basePath convertor merchantID props) w (fun r w' =>
    (is_ok r = false /\ same_rows (db w) (db w')) \/ withdrawal_created merchantID props w r w').
Proof.
  assert (forall w' : world, db w' = db w -> same_rows (db w) (db w')) as Hsame by (by intros w' ->).
  unfold CreateWithdrawal. do 2 wp_step. apply wp_address. intros w1 E1.
  destruct (Merchant.GetMerchantAddressByUUID _ _ w).1 as [address|e|p] eqn:Ha; cbn [wrap]; [|left; auto..].
  do 2 wp_step. apply wp_GetMerchantBalanceByUUID. intros w2 E2. rewrite (found_balance_db _ _ w1 w) by done. rewrite E1 in E2.
  destruct (WalletBalance.GetMerchantBalanceByUUID _ _ w).1 as [balance|e|p] eqn:Hb; cbn [wrap]; [|left; auto..].
  destruct (bool_decide (Merchant.adr_Blockchain address = _)) eqn:Hbc; cbn [negb]; [|wp_step; left; auto].
  apply bool_decide_eq_true in Hbc. do 2 wp_step.
  destruct (CryptoFromStringFloat _ _ _) as [amount|e|p] eqn:Hm; [|left; auto..].
  destruct (CompatibleTo amount _); cbn [negb]; [|wp_step; left; auto]. do 3 wp_step.
  destruct (GetCurrencyByTicker _) as [currency|e|p] eqn:Hc; cbn [wrap]; [|left; auto..]. do 2 wp_step.
  destruct (validateWithdrawalRuntimeCurrency currency) as [[]|e|p] eqn:Hv; [|left; auto..].
  do 2 wp_step. unfold wp at 1. pose proof (getWithdrawalFee_pure convertor balance currency w2) as Ef.
  destruct (getWithdrawalFee convertor balance currency w2) as [[fee|e|p] w3] eqn:Hf; cbn [fst snd wrap] in *;
    [|left; split; [done|apply Hsame; congruence]..].
  do 2 wp_step. destruct (check_withdrawal balance amount fee) as [[]|e|p] eqn:Hk; [|left; split; [done|apply Hsame; congruence]..].
  wp_step. apply wp_uuid. intros u w4 E4. wp_step. apply wp_now. intros c w5 E5. wp_step. apply wp_now. intros c2 w6 E6.
  do 2 wp_step. apply wp_query. rewrite E6, E5, E4, <- Ef, E2. cbn [cp_Price cp_Metadata cp_MerchantID cp_MerchantOrderUuid].
  change (MoneyToNumeric amount) with (BigIntToNumeric (val amount)). rewrite numeric_of_Z.
  unfold WalletBalance.ToJSONB. rewrite (bool_decide_false (<[_ := _]> _ = ∅)) by apply insert_non_empty.
  cbn [pg_jsonb jb_Status mbind res_bind mret res_ret]. destruct (existsb _ _) eqn:Ex; cbn [fst snd wrap].
  { intros w7 E7. left. split; [done|]. by rewrite E7. }
  intros w7 E7. apply check_withdrawal_ok in Hk as (Hcov%Covers_two & _ & _ & Hrange).
  assert (supportsTransactionRuntime (cc_Blockchain currency) = true) as Hr.
  { revert Hv. unfold validateWithdrawalRuntimeCurrency, validateTransactionRuntimeBlockchain.
    by destruct (supportsTransactionRuntime _). }
  set (meta := mkJSONB (<[MetaBalanceID := FormatInt (WalletBalance.bal_ID balance)]>
    (<[MetaAddressID := FormatInt (Merchant.adr_ID address)]> ∅)) Present) in *.
  set (mk := payment_row (mkCreatePaymentParams u c c2 TypeWithdrawal StatusPending merchantID u null_string null_time
    (BigIntToNumeric (val amount)) (int32 (m_decimals amount)) (m_ticker amount) (StringToNullable "Balance withdrawal") ""
    meta (is_test balance currency)) (BigIntToNumeric (val amount)) meta) in *.
  assert (forall r w8, db w8 = db w7 -> (is_ok r = true -> r = entryToPayment basePath (mk (next_id (payments (db w))))) ->
    withdrawal_created merchantID props w r w8) as Hdone.
  { intros r w8 E8 Hres. exists address, balance, amount, currency, fee, w2, mk. destruct Hcov as (_ & Hcov & _).
    split_and!; try done; try apply Hrange.
    - by rewrite Hf.
    - by rewrite E8, E7. }
  do 2 wp_step. apply wp_external. intros w8 E8.
  destruct (Publish _ _ _ _) as [x|e|p]; cbn [wrap]; [wp_step|..]; right; by apply Hdone.
Qed.
End Created.

Lemma atoi_FormatInt z : in_int64 z -> atoi_value (FormatInt z) = z.
Proof.
  intros Hz. unfold atoi_value, FormatInt, in_int64 in *. rewrite bigint_roundtrip. lia.
Qed.

Lemma withdrawal_reads basePath merchantID address balance amount row :
  withdrawal_row merchantID address balance amount row ->
  exists p, entryToPayment basePath row = Ok p /\ pay_Type p = TypeWithdrawal /\ pay_Status p = StatusPending /\
    pay_MerchantID p = merchantID /\
    pay_Price p = mkMoney Crypto (m_ticker amount) (Some (val amount)) (int32 (m_decimals amount)) /\
    (in_int64 (WalletBalance.bal_ID balance) -> WithdrawalBalanceID p = WalletBalance.bal_ID balance) /\
    (in_int64 (Merchant.adr_ID address) -> WithdrawalAddressID p = Merchant.adr_ID address).
Proof.
  intros [Ht Hs Hm Hp Hc Hd Hmeta Hpres]. unfold entryToPayment, paymentPrice. rewrite Hpres, Ht, Hp, Hc, Hd, Hmeta.
  rewrite !(bool_decide_true (Present = Present)), (bool_decide_true (TypeWithdrawal = TypeWithdrawal)) by done.
  simpl. eexists. split; [done|]. split_and!; try done.
  - intros Hb. unfold WithdrawalBalanceID, meta_int. simpl. rewrite lookup_insert_eq. by apply atoi_FormatInt.
  - intros Ha. unfold WithdrawalAddressID, meta_int. simpl. rewrite lookup_insert_ne, lookup_insert_eq by done.
    by apply atoi_FormatInt.
Qed.

(** C36. A withdrawal request stores at most one row, a pending withdrawal of
    the merchant, and touches no balance. It is stored only for an address and
    a balance of that merchant on the same blockchain, for the amount the text
    denotes, when amount and fee together fit the balance and the amount lies
    within the limits of the fee that was calculated; the stored withdrawal
    reads back with that amount and refers to that balance and address. When
    nothing is stored an error is returned and no row of any table changes. *)
Theorem withdrawal_sound (basePath : string) (convertor : Money -> string -> Go Money)
  `{Resolver} `{BlockchainService} `{!BlockchainLaws} `{UTXOProviders} `{Btcutil} `{Publisher}
  (merchantID : Z) (props : CreateWithdrawalProps) (w : world) :
  let '(r, w') := CreateWithdrawal basePath convertor merchantID props w in
  (is_ok r = false /\ same_rows (db w) (db w')) \/
  exists address balance amount currency fee w1 mk,
    (Merchant.GetMerchantAddressByUUID merchantID (cwp_AddressID props) w).1 = Ok address /\
    (WalletBalance.GetMerchantBalanceByUUID merchantID (cwp_BalanceID props) w).1 = Ok balance /\
    Merchant.adr_Blockchain address = WalletBalance.bal_Network balance /\
    CryptoFromStringFloat (m_ticker (WalletBalance.bal_Amount balance)) (cwp_AmountRaw props)
      (m_decimals (WalletBalance.bal_Amount balance)) = Ok amount /\
    GetCurrencyByTicker (m_ticker (WalletBalance.bal_Amount balance)) = Ok currency /\
    supportsTransactionRuntime (cc_Blockchain currency) = true /\
    db w1 = db w /\ (getWithdrawalFee convertor balance currency w1).1 = Ok fee /\
    val amount + val (wf_CryptoFee fee) <= val (WalletBalance.bal_Amount balance) /\
    val (wf_MinimumAmount fee) <= val amount <= val (wf_MaximumAmount fee) /\
    (forall n, Row.p_ID (mk n) = n) /\ db w' = set_payments (insert_row mk (payments (db w))) (db w) /\
    exists p, entryToPayment basePath (mk (next_id (payments (db w)))) = Ok p /\ (is_ok r = true -> r = Ok p) /\
      pay_Type p = TypeWithdrawal /\ pay_Status p = StatusPending /\ pay_MerchantID p = merchantID /\
      pay_Price p = mkMoney Crypto (m_ticker amount) (Some (val amount)) (int32 (m_decimals amount)) /\
      (in_int64 (WalletBalance.bal_ID balance) -> WithdrawalBalanceID p = WalletBalance.bal_ID balance) /\
      (in_int64 (Merchant.adr_ID address) -> WithdrawalAddressID p = Merchant.adr_ID address).
Proof.
  pose proof (wp_CreateWithdrawal basePath convertor merchantID props w) as Hw. unfold wp in Hw.
  destruct (CreateWithdrawal basePath convertor merchantID props w) as [r w']. cbn [fst snd] in Hw.
  destruct Hw as [Hw|(a & b & m & c & f & w1 & mk & F1 & F2 & F3 & F4 & F5 & F6 & F7 & F8 & F9 & F10 & F11 & F12 & Hrow & Hr)];
    [by left|right].
  exists a, b, m, c, f, w1, mk. split_and!; try done; try apply F10.
  destruct (withdrawal_reads basePath _ _ _ _ _ Hrow) as (p & Hp & ?). exists p. split; [done|].
  split; [|done]. intros Hok. by rewrite (Hr Hok).
Qed.

(** ** Listing the sources *)
Lemma filter_after {A} (f : A -> Z) (l1 l2 : list A) x : StronglySorted Z.lt (f <$> (l1 ++ x :: l2)) ->
  List.filter (fun y => f x + 1 <=? f y) (l1 ++ x :: l2) = l2.
Proof.
  intros [H1 H2]%sorted_from. rewrite List.filter_app, filter_none.
  - simpl. rewrite (proj2 (Z.leb_gt _ _)) by lia. apply filter_all. eapply Forall_impl; [exact H2|simpl; lia].
  - eapply Forall_impl; [exact H1|simpl; lia].
Qed.

Section Sources.
Context (convertor : Money -> string -> Go Money) (merchantBalance : WalletBalance.Balance) (currency : CryptoCurrency)
  (isTest : bool).

(** The wallets of the currency's blockchain, by id, and the balances of one. *)
Definition chain_wallets (d : DB) : list Row.Wallet :=
  select (fun x => bool_decide (Row.w_Blockchain x = cc_Blockchain currency)) (wallets d).

Definition wallet_entries (walletID : Z) (d : DB) : list Row.Balance :=
  rev (select (fun b => bool_decide (Row.b_EntityType b = WalletBalance.EntityTypeWallet) && (Row.b_EntityID b =? walletID)) (balances d)).

Definition wallet_balances (walletID : Z) (d : DB) : list WalletBalance.Balance :=
  match WalletBalance.entitiesToBalances (wallet_entries walletID d) with Ok l => l | _ => [] end.

Definition sources_of_wallet (d : DB) (row : Row.Wallet) : list utxoWithdrawalSource :=
  let wal := Wallet.entryToWallet row in
  if one_of (Wallet.wal_Type wal) [Wallet.TypeOutbound; Wallet.TypeInbound] then
    map (mkSource wal) (List.filter (source_balance currency (ChooseNetwork currency isTest) merchantBalance)
      (wallet_balances (Row.w_ID row) d))
  else [].

Definition balances_read (d : DB) : Prop :=
  forall id, is_ok (WalletBalance.entitiesToBalances (wallet_entries id d)) = true.

Lemma wp_page_sources rows w (Q : res (list utxoWithdrawalSource) -> world -> Prop) : balances_read (db w) ->
  (forall w', db w' = db w -> Q (Ok (flat_map (sources_of_wallet (db w)) rows)) w') ->
  wp (page_sources convertor merchantBalance currency (ChooseNetwork currency isTest) (map Wallet.entryToWallet rows)) w Q.
Proof.
  intros Hr. revert w Q Hr. induction rows as [|row rows IH]; intros w Q Hr HQ; cbn [page_sources map flat_map].
  { wp_step. by apply HQ. }
  wp_step.
  assert (forall w1 : world, db w1 = db w ->
    wp (rest ← page_sources convertor merchantBalance currency (ChooseNetwork currency isTest) (map Wallet.entryToWallet rows);
        mret (sources_of_wallet (db w) row ++ rest)) w1 Q) as Hrest.
  { intros w1 E1. wp_step. apply IH; rewrite E1; [done|]. intros w2 E2. wp_step. apply HQ. congruence. }
  unfold sources_of_wallet at 1 in Hrest. cbv zeta in Hrest.
  destruct (one_of (Wallet.wal_Type (Wallet.entryToWallet row)) _); [|wp_step; by apply Hrest].
  do 2 wp_step. unfold WalletBalance.ListBalances. wp_step. apply wp_read. intros w1 E1. do 2 wp_step.
  pose proof (Hr (Row.w_ID row)) as Hw. unfold wallet_balances in Hrest. unfold wallet_entries in Hw, Hrest.
  destruct (WalletBalance.entitiesToBalances _) as [bs|e|p]; [|done..]. wp_step. cbn [wrap]. wp_step. by apply Hrest.
Qed.

(** What the statement of a page selects. *)
Lemma page_filter arg d : pw_FilterByType arg = false -> pw_FilterByBlockchain arg = true ->
  pw_Blockchain arg = cc_Blockchain currency ->
  select (fun x => (pw_ID arg <=? Row.w_ID x) && (if pw_FilterByType arg then sql_eq (Row.w_Type x) (pw_Type arg) else true) &&
    (if pw_FilterByBlockchain arg then bool_decide (Row.w_Blockchain x = pw_Blockchain arg) else true)) (wallets d) =
  List.filter (fun x => pw_ID arg <=? Row.w_ID x) (chain_wallets d).
Proof.
  intros K1 K2 K3. unfold chain_wallets, select. rewrite filter_filter, K1, K2, K3. apply filter_ext.
  intros x. by rewrite andb_true_r, andb_comm.
Qed.

Lemma wp_source_pages fuel : forall w l1 l2 start (Q : res (list utxoWithdrawalSource) -> world -> Prop),
  table_wf (wallets (db w)) -> next_id (wallets (db w)) < 2 ^ 63 -> cc_Blockchain currency <> "" ->
  balances_read (db w) -> (length l2 < fuel)%nat -> chain_wallets (db w) = l1 ++ l2 ->
  List.filter (fun x => start <=? Row.w_ID x) (chain_wallets (db w)) = l2 ->
  (forall w', db w' = db w -> Q (Ok (flat_map (sources_of_wallet (db w)) l2)) w') ->
  wp (source_pages convertor fuel start merchantBalance currency (ChooseNetwork currency isTest)) w Q.
Proof.
  induction fuel as [|fuel IH]; intros w l1 l2 start Q Hwf Hn Hbc Hr Hf Hl Hs HQ; [lia|]. cbn [source_pages].
  assert (StronglySorted Z.lt (Row.w_ID <$> chain_wallets (db w))) as Hsort by (destruct Hwf as [Hss _]; by apply sorted_filter).
  do 2 wp_step. unfold Wallet.List_. cbv zeta. rewrite (bool_decide_false (cc_Blockchain currency = "")) by done.
  wp_step. apply wp_read. intros w1 E1. rewrite page_filter by done. cbn [pw_ID pw_Limit Wallet.pg_Start Wallet.pg_Limit].
  rewrite Hs. change (limit_rows 300 l2) with (Ok (take 300 l2)). cbv beta iota.
  destruct (take 300 l2) as [|x0 pg] eqn:Ep using rev_ind.
  { destruct l2; [|done]. cbn [map last]. wp_step. cbn [wrap page_sources]. do 3 wp_step. by apply HQ. }
  clear IHpg. assert (last (map Wallet.entryToWallet (pg ++ [x0])) = Some (Wallet.entryToWallet x0)) as -> by
    (rewrite map_app; apply last_snoc).
  assert (l2 = (pg ++ [x0]) ++ drop 300 l2) as Hl2 by (rewrite <- Ep; by rewrite take_drop).
  set (rest := drop 300 l2) in *.
  assert (chain_wallets (db w) = (l1 ++ pg) ++ x0 :: rest) as Hall by (rewrite Hl, Hl2; by rewrite <- !app_assoc).
  assert (0 < Row.w_ID x0 < 2 ^ 63 - 1) as Hx0.
  { destruct Hwf as (_ & Hfor & _). assert (x0 ∈ rows (wallets (db w))) as Hin.
    { assert (x0 ∈ chain_wallets (db w)) as Hx by (rewrite Hall; apply elem_of_app; right; by left).
      by apply elem_of_select in Hx as [? _]. }
    rewrite Forall_forall in Hfor. specialize (Hfor x0 Hin). change (row_id x0) with (Row.w_ID x0) in Hfor. lia. }
  wp_step. apply wp_read. intros w2 E2. rewrite page_filter by done. cbn [pw_ID pw_Limit]. rewrite E1 in E2 |- *.
  rewrite int64_small by (unfold in_int64; change (Wallet.wal_ID (Wallet.entryToWallet x0)) with (Row.w_ID x0); lia).
  change (Wallet.wal_ID (Wallet.entryToWallet x0)) with (Row.w_ID x0).
  rewrite Hall in Hsort. rewrite Hall, (filter_after Row.w_ID) by done.
  change (limit_rows 1 rest) with (Ok (take 1 rest)). cbv beta iota. wp_step. cbn [wrap]. wp_step.
  apply wp_page_sources; [by rewrite E2|]. intros w3 E3. rewrite E2 in E3 |- *.
  destruct rest as [|y rest'] eqn:Er; cbn [take head fmap option_fmap option_map].
  - wp_step. rewrite app_nil_r in Hl2. rewrite <- Hl2. by apply HQ.
  - wp_step. apply (IH w3 (l1 ++ pg ++ [x0]) (y :: rest')); rewrite ?E3; try done.
    + rewrite Hl2, length_app in Hf. rewrite length_app in Hf. simpl in *. lia.
    + rewrite Hall. by rewrite <- !app_assoc.
    + rewrite Hall. replace ((l1 ++ pg) ++ x0 :: y :: rest') with ((l1 ++ pg ++ [x0]) ++ y :: rest') in Hsort |- *
        by by rewrite <- !app_assoc. by apply (filter_from Row.w_ID).
    + intros w4 E4. wp_step. rewrite <- flat_map_app, <- Hl2. apply HQ. congruence.
Qed.
End Sources.

(** Every balance the schema allows can be read. *)
Lemma balances_readable d : schema_ok d -> balances_read d.
Proof.
  intros Hok id. unfold wallet_entries. assert (forall l, (forall b, b ∈ l -> b ∈ rows (balances d)) ->
    is_ok (WalletBalance.entitiesToBalances l) = true) as Hl; [|apply Hl; intros b Hb; rewrite list_elem_of_In, <- in_rev, <- list_elem_of_In in Hb;
    by apply elem_of_select in Hb as [? _]].
  induction l as [|b l IH]; intros Hb; [done|]. simpl. destruct (WalletBalance.schema_row d b Hok) as [_ ->]; [apply Hb; left|].
  cbn [mbind res_bind]. specialize (IH (fun x Hx => Hb x ltac:(by right))). by destruct (WalletBalance.entitiesToBalances l).
Qed.

(** C37. The search for wallets that can pay a withdrawal ends, and misses
    none: whatever the number of wallets, following the pages of 300 yields,
    for every wallet of the currency's blockchain in the order of the ids, each
    of its balances that is not empty and in the currency and network of the
    request, once; wallets of other types contribute nothing. *)
Theorem withdrawal_sources (convertor : Money -> string -> Go Money) (merchantBalance : WalletBalance.Balance)
  (currency : CryptoCurrency) (isTest : bool) (w : world)
  (Hok : schema_ok (db w)) (Hids : next_id (wallets (db w)) < 2 ^ 63) (Hbc : cc_Blockchain currency <> "") :
  (listUTXOWithdrawalSources convertor merchantBalance currency isTest w).1 =
    Ok (flat_map (sources_of_wallet merchantBalance currency isTest (db w)) (chain_wallets currency (db w))).
Proof.
  refine (_ : wp (listUTXOWithdrawalSources convertor merchantBalance currency isTest) w (fun r _ => r = _)).
  unfold listUTXOWithdrawalSources. do 2 wp_step.
  assert (table_wf (wallets (db w))) as Hwf by (destruct Hok as [Hdb]; unfold db_wf in Hdb; tauto).
  apply (wp_source_pages _ _ _ _ _ w [] (chain_wallets currency (db w))); try done; [by apply balances_readable| |].
  - unfold chain_wallets, select. pose proof (filter_length_le (fun x => bool_decide (Row.w_Blockchain x = cc_Blockchain currency))
      (rows (wallets (db w)))). lia.
  - apply filter_all, Forall_forall. intros x [Hx _]%elem_of_select. destruct Hwf as (_ & Hf & _).
    rewrite Forall_forall in Hf. specialize (Hf x Hx). change (row_id x) with (Row.w_ID x) in Hf. lia.
Qed.

(** ** Witnesses *)
Definition flat_fees : BlockchainService := {|
  CalculateFee _ _ _ := fail (ENew "no node");
  CalculateWithdrawalFeeUSD _ _ _ := mret (mkMoney Fiat USD (Some 200) 2);
  FiatToFiat m c := fail (ENew "no rates");
  FiatToCrypto m c := mret (Convertor.mkConversion Convertor.ConversionTypeFiatToCrypto f64_zero m
    (mkMoney Crypto (cc_Ticker c) (Some (10 ^ 15)) (cc_Decimals c)));
  CryptoToFiat m c := fail (ENew "no rates");
  BroadcastTransaction _ _ _ := fail (ENew "no node");
  GetTransactionReceipt _ _ _ := fail (ENew "no node");
  ListIncomingTransactions _ _ _ := fail (ENew "no node")
|}.

Lemma flat_fees_laws : BlockchainLaws (H := flat_fees).
Proof. split; cbn; intros; (apply steps_fail; tc_solve) || (apply steps_ret; tc_solve). Qed.

(** The shop with its cold wallet and five ether. *)
Definition rich_world : world :=
  (CreateBalance (mkCreateBalanceParams 0 0 1 WalletBalance.EntityTypeMerchant (mkNull "" true) "ETH" "1" Coin "ETH" 18
    (BigIntToNumeric (5 * 10 ^ 18)))
  (Merchant.CreateMerchantAddress (H := Merchant.eth_resolver) (H0 := fun _ _ => None) 1 Merchant.eth_address Merchant.shop_world).2).2.

Lemma withdrawal_sound_witness :
  match (CreateWithdrawal (H := Merchant.eth_resolver) (H0 := flat_fees) (H1 := ex_providers) (H2 := fun _ _ => None)
    (H3 := fun _ _ _ _ => Ok tt) "https://pay.example" (fun m _ => mret m) 1 (mkWithdrawalProps "" "" "1.5") rich_world).1 with
  | Ok p => pay_Type p = TypeWithdrawal /\ pay_MerchantID p = 1
  | _ => False
  end.
Proof.
  pose proof (withdrawal_sound (H := Merchant.eth_resolver) (H0 := flat_fees) (H1 := flat_fees_laws)
    (H2 := ex_providers) (H3 := fun _ _ => None) (H4 := fun _ _ _ _ => Ok tt) "https://pay.example" (fun m _ => mret m) 1
    (mkWithdrawalProps "" "" "1.5") rich_world) as Hw.
  assert (is_ok (CreateWithdrawal (H := Merchant.eth_resolver) (H0 := flat_fees) (H1 := ex_providers) (H2 := fun _ _ => None)
    (H3 := fun _ _ _ _ => Ok tt) "https://pay.example" (fun m _ => mret m) 1 (mkWithdrawalProps "" "" "1.5") rich_world).1 = true)
    as Hr by by vm_compute.
  revert Hw Hr. generalize (CreateWithdrawal (H := Merchant.eth_resolver) (H0 := flat_fees) (H1 := ex_providers)
    (H2 := fun _ _ => None) (H3 := fun _ _ _ _ => Ok tt) "https://pay.example" (fun m _ => mret m) 1
    (mkWithdrawalProps "" "" "1.5") rich_world).
  intros [r w']. cbn [fst]. intros [[Hn _]|(a & b & m & c & f & w1 & mk & Hw)] Hr; [congruence|].
  destruct Hw as (_ & _ & _ & _ & _ & _ & _ & _ & _ & _ & _ & _ & p & _ & Hp & Ht & _ & Hm & _).
  by rewrite (Hp Hr).
Defined.

(** Two pages of wallets: 301 inbound ones, of which the first and the last have
    bitcoins on the main network, the first also on the test network and the
    second an empty balance; and one without a type. *)
Definition payout_btc : CryptoCurrency := mkCrypto "BTC" "Bitcoin" "mainnet" "testnet" Coin "BTC" "Bitcoin" 8 "" "" [] false.
Definition with_wallets (l : list (Z * NullString)) (w : world) : world :=
  foldl (fun w p => (Queries.CreateWallet 0 (FormatInt p.1) ("bc1q" +:+ FormatInt p.1) "BTC" p.2 w).2) w l.
Definition with_balances (l : list (Z * string * Z)) (w : world) : world :=
  foldl (fun w p => (CreateBalance (mkCreateBalanceParams 0 0 p.1.1 WalletBalance.EntityTypeWallet (mkNull "" true) "BTC" p.1.2 Coin
    "BTC" 8 (BigIntToNumeric p.2)) w).2) w l.
Definition payout_world : world :=
  with_balances [(1, "mainnet", 70000); (1, "testnet", 5); (2, "mainnet", 0); (301, "mainnet", 30000); (302, "mainnet", 9)]
    (with_wallets (map (fun i => (i, mkNull Wallet.TypeInbound true)) (seqZ 1 301) ++ [(302, null_string)]) empty_world).

Lemma with_wallets_schema l : forall w, schema_ok (db w) -> schema_ok (db (with_wallets l w)).
Proof. induction l as [|p l IH]; intros w Hok; [done|]. apply IH. by apply CreateWallet_schema. Qed.
Lemma with_balances_schema l : forall w, schema_ok (db w) -> schema_ok (db (with_balances l w)).
Proof. induction l as [|p l IH]; intros w Hok; [done|]. apply IH. by apply CreateBalance_schema. Qed.
Lemma payout_schema : schema_ok (db payout_world).
Proof. unfold payout_world. apply with_balances_schema, with_wallets_schema, schema_empty. Qed.

Definition owed_btc : WalletBalance.Balance :=
  WalletBalance.mkBalance 9 "" "merchant" 1 0 0 "BTC" "mainnet" Coin "BTC" (mkMoney Crypto "BTC" (Some 1) 8) None.

Lemma withdrawal_sources_witness :
  match (listUTXOWithdrawalSources (fun m _ => mret m) owed_btc payout_btc false payout_world).1 with
  | Ok l => map (fun s => (Wallet.wal_ID (us_Wallet s), val (WalletBalance.bal_Amount (us_Balance s)))) l = [(1, 70000); (301, 30000)]
  | _ => False
  end.
Proof.
  rewrite (withdrawal_sources (fun m _ => mret m) owed_btc payout_btc false payout_world payout_schema
    ltac:(apply Z.ltb_lt; by vm_compute) ltac:(done)).
  by vm_compute.
Defined.
