(* ===== verification/Flow.v ===== *)
(** * Flow: goroutines of an errgroup and results returned with an error

    Two shapes of control flow the processing of payments uses: a group of
    goroutines ([golang.org/x/sync/errgroup]) and functions that return how
    far they came together with an error, which a deferred call or the caller
    inspects. *)

From S2P Require Import Prelude GoLib Repository.

(** ** Groups

    The goroutines of a group run one after another in an order the scheduler
    picks, a different one each time; what several of them would do at the same
    moment is not modelled. *)
Class Scheduler := schedule : nat -> forall A : Type, list A -> list A.
Class SchedulerLaws `{Scheduler} : Prop := schedule_perm n A (l : list A) : schedule n A l ≡ₚ l.

Section Groups.
Context `{Scheduler}.

(** [group.Go] for each item on a shared state, then [group.Wait]: every
    goroutine runs, the first error is kept. *)
Fixpoint run_group {S A} (f : A -> S -> Go (S * option error)) (l : list A) (s : S) (first : option error) :
  Go (S * option error) :=
  match l with
  | [] => mret (s, first)
  | x :: l => '(s, e) ← f x s; run_group f l s (match first with None => e | Some _ => first end)
  end.

Definition group_state {S A} (f : A -> S -> Go (S * option error)) (items : list A) (s : S) : Go (S * option error) :=
  order ← external (fun n => Ok (schedule n A items));
  run_group f order s None.

Definition returned {A} (r : A + error) : option error := match r with inl _ => None | inr e => Some e end.

Definition group_Wait {A} (f : A -> Go unit) (items : list A) : Go unit :=
  '(_, err) ← group_state (fun x (_ : unit) => r ← attempt (f x); mret (tt, returned r)) items tt;
  match err with None => mret tt | Some e => fail e end.

(** A group with a context: after the first error the calls of the other
    goroutines fail at once, so nothing more is done. *)
Fixpoint run_until_error {S A} (f : A -> S -> Go S) (l : list A) (s : S) : Go S :=
  match l with
  | [] => mret s
  | x :: l => s ← f x s; run_until_error f l s
  end.

Definition group_ctx {S A} (f : A -> S -> Go S) (items : list A) (s : S) : Go S :=
  order ← external (fun n => Ok (schedule n A items));
  run_until_error f order s.
End Groups.

(** ** Progress: [func (...) (out, err error)] with named results

    [S] holds the variables the deferred call and the caller see. *)
Definition Tracked (S A : Type) : Type := S -> Go (S * (A + error)).

Section Tracked.
Context {S : Type}.

#[export] Instance Tracked_ret : MRet (Tracked S) := fun A a s => mret (s, inl a).
#[export] Instance Tracked_bind : MBind (Tracked S) := fun A B f m s =>
  '(s', r) ← m s;
  match r with inl a => f a s' | inr e => mret (s', inr e) end.

(** A call whose error ends the function. *)
Definition call {A} (m : Go A) : Tracked S A := fun s => r ← attempt m; mret (s, r).
Definition set (f : S -> S) : Tracked S unit := fun s => mret (f s, inl tt).
Definition stop {A} (e : error) : Tracked S A := fun s => mret (s, inr e).

Lemma tbind_run {A B} (m : Tracked S A) (f : A -> Tracked S B) s :
  (m ≫= f) s = ('(s', r) ← m s; match r with inl a => f a s' | inr e => mret (s', inr e) end).
Proof. done. Qed.

Lemma wp_tbind {A B} (m : Tracked S A) (f : A -> Tracked S B) s w (Q : res (S * (B + error)) -> world -> Prop) :
  wp (m s) w (fun r w' => match r with
    | Ok (s', inl a) => wp (f a s') w' Q
    | Ok (s', inr e) => Q (Ok (s', inr e)) w'
    | Err e => Q (Err e) w' | Panic p => Q (Panic p) w' end) ->
  wp ((m ≫= f) s) w Q.
Proof.
  intros Hm. rewrite tbind_run. apply wp_bind. eapply wp_mono; [exact Hm|].
  intros [[s' [a|e]]|e|p] w' HQ; done.
Qed.

Lemma wp_tassoc {A B C} (m : Tracked S A) (f : A -> Tracked S B) (g : B -> Tracked S C) s w
  (Q : res (S * (C + error)) -> world -> Prop) :
  wp ((m ≫= fun x => f x ≫= g) s) w Q -> wp (((m ≫= f) ≫= g) s) w Q.
Proof.
  unfold wp, mbind, Tracked_bind, mbind, M_bind. by destruct (m s w) as [[[s' [a|e]]|e|p] w'].
Qed.

Lemma wp_call {A} (m : Go A) s w (Q : res (S * (A + error)) -> world -> Prop) :
  wp m w (fun r w' => match r with
    | Ok a => Q (Ok (s, inl a)) w' | Err e => Q (Ok (s, inr e)) w' | Panic p => Q (Panic p) w' end) ->
  wp (call m s) w Q.
Proof. intros Hm. apply wp_bind, wp_attempt. eapply wp_mono; [exact Hm|]. by intros [] w' HQ. Qed.

Lemma wp_set f s w (Q : res (S * (unit + error)) -> world -> Prop) :
  Q (Ok (f s, inl tt)) w -> wp (set f s) w Q.
Proof. done. Qed.
Lemma wp_stop {A} e s w (Q : res (S * (A + error)) -> world -> Prop) :
  Q (Ok (s, inr e)) w -> wp (stop e s) w Q.
Proof. done. Qed.
Lemma wp_tret {A} (a : A) s w (Q : res (S * (A + error)) -> world -> Prop) :
  Q (Ok (s, inl a)) w -> wp ((mret a : Tracked S A) s) w Q.
Proof. done. Qed.
End Tracked.

(** A tracked call whose error the caller inspects. *)
Definition try {S A} (m : Tracked S A) : Tracked S (A + error) := fun s =>
  '(s, r) ← m s; mret (s, inl r).

Lemma wp_try {S A} (m : Tracked S A) s w (Q : res (S * ((A + error) + error)) -> world -> Prop) :
  wp (m s) w (fun r w' => match r with
    | Ok (s', r) => Q (Ok (s', inl r)) w' | Err e => Q (Err e) w' | Panic p => Q (Panic p) w' end) ->
  wp (try m s) w Q.
Proof. intros Hm. apply wp_bind. eapply wp_mono; [exact Hm|]. by intros [[s' r]|e|p] w' HQ. Qed.

(** One step through a tracked function. *)
Ltac t_step :=
  lazymatch goal with
  | |- wp (mbind _ _ _) _ _ => apply wp_tbind
  | |- wp (call _ _) _ _ => apply wp_call
  | |- wp (try _ _) _ _ => apply wp_try
  | |- wp (set _ _) _ _ => apply wp_set
  | |- wp (stop _ _) _ _ => apply wp_stop
  | |- wp (mret _ _) _ _ => apply wp_tret
  end; cbv beta iota.

(** ** What a call does to the world, whatever it returns *)
Definition wsteps (R : world -> world -> Prop) {A} (m : Go A) : Prop := forall w, R w (m w).2.

Create HintDb wsteps.

Section WorldSteps.
Context (R : world -> world -> Prop) `{!PreOrder R}.

Lemma wsteps_lift {A} (r : res A) : wsteps R (lift r : Go A).
Proof. intros w. cbn. reflexivity. Qed.
Lemma wsteps_fail {A} e : wsteps R (fail e : Go A).
Proof. intros w. cbn. reflexivity. Qed.
Lemma wsteps_panic {A} why : wsteps R (panic why : Go A).
Proof. intros w. cbn. reflexivity. Qed.
Lemma wsteps_ret {A} (a : A) : wsteps R (mret a : Go A).
Proof. intros w. cbn. reflexivity. Qed.
Lemma wsteps_wrap {A} (m : Go A) msg : wsteps R m -> wsteps R (wrapM m msg).
Proof. intros Hm w. specialize (Hm w). unfold wrapM. by destruct (m w). Qed.
Lemma wsteps_attempt {A} (m : Go A) : wsteps R m -> wsteps R (attempt m).
Proof. intros Hm w. specialize (Hm w). unfold attempt. by destruct (m w) as [[] ?]. Qed.
Lemma wsteps_bind {A B} (m : Go A) (f : A -> Go B) : wsteps R m -> (forall a, wsteps R (f a)) -> wsteps R (m ≫= f).
Proof.
  intros Hm Hf w. specialize (Hm w). unfold mbind, M_bind. destruct (m w) as [[a|e|why] w1]; cbn [snd] in *; [|done..].
  etransitivity; [exact Hm|]. apply Hf.
Qed.
Lemma wsteps_tbind {S A B} (m : Tracked S A) (f : A -> Tracked S B) s :
  wsteps R (m s) -> (forall a s, wsteps R (f a s)) -> wsteps R ((m ≫= f) s).
Proof. intros Hm Hf. apply wsteps_bind; [done|]. intros [s' [a|e]]; [apply Hf|apply wsteps_ret]. Qed.
Lemma wsteps_call {S A} (m : Go A) (s : S) : wsteps R m -> wsteps R (call m s).
Proof. intros Hm. apply wsteps_bind; [by apply wsteps_attempt|]. intros r. apply wsteps_ret. Qed.
End WorldSteps.
#[export] Hint Resolve wsteps_lift wsteps_fail wsteps_panic wsteps_ret wsteps_wrap wsteps_attempt wsteps_bind wsteps_tbind
  wsteps_call : wsteps.

Lemma wsteps_mono (R R' : world -> world -> Prop) {A} (m : Go A) : (forall w w', R w w' -> R' w w') -> wsteps R m -> wsteps R' m.
Proof. intros HR Hm w. apply HR, Hm. Qed.

(** Nothing but the number of calls made changes. *)
Definition with_calls (n : nat) (w : world) : world :=
  mkWorld (db w) (clock w) (ticks w) (uuids w) (drawn w) n (rates w).
Definition only_calls (w w' : world) : Prop := exists n, w' = with_calls n w.
#[export] Instance only_calls_preorder : PreOrder only_calls.
Proof. split; [intros w; exists (calls w); by destruct w|]. intros w w1 w2 [n ->] [n' ->]. by exists n'. Qed.
Lemma external_calls {A} (f : nat -> res A) : wsteps only_calls (external f).
Proof. intros w. by exists (S (calls w)). Qed.
#[export] Hint Resolve external_calls : wsteps.

(** Ids are drawn from one source, one after the other. *)
Definition draws (w w' : world) : Prop := uuids w' = uuids w /\ (drawn w <= drawn w')%nat.
#[export] Instance draws_preorder : PreOrder draws.
Proof. split; [done|]. intros w w1 w2 [E1 L1] [E2 L2]. split; [congruence|lia]. Qed.
Lemma only_calls_draws w w' : only_calls w w' -> draws w w'.
Proof. by intros [n ->]. Qed.
Lemma external_draws {A} (f : nat -> res A) : wsteps draws (external f).
Proof. by intros w. Qed.
Lemma now_draws : wsteps draws time_Now.
Proof. by intros w. Qed.
Lemma uuid_draws : wsteps draws uuid_New.
Proof. intros w. split; [done|]. cbn. lia. Qed.
#[export] Hint Resolve external_draws now_draws uuid_draws : wsteps.

(** ** What a tracked call keeps

    [R] relates the states and the worlds around a call that returns. *)
Definition tsteps {S A} (R : S -> world -> S -> world -> Prop) (m : Tracked S A) : Prop :=
  forall s w s' a w', m s w = (Ok (s', a), w') -> R s w s' w'.

Class Rel {S} (R : S -> world -> S -> world -> Prop) : Prop := {
  rel_refl s w : R s w s w;
  rel_trans s w s1 w1 s2 w2 : R s w s1 w1 -> R s1 w1 s2 w2 -> R s w s2 w2
}.

Section TrackedSteps.
Context {S : Type} (R : S -> world -> S -> world -> Prop) `{!Rel R}.

Lemma tsteps_bind {A B} (m : Tracked S A) (f : A -> Tracked S B) :
  tsteps R m -> (forall a, tsteps R (f a)) -> tsteps R (m ≫= f).
Proof.
  intros Hm Hf s w s' b w'. unfold mbind, Tracked_bind, mbind, M_bind.
  destruct (m s w) as [[[s1 [a|e]]|e|why] w1] eqn:E; [| |done..].
  - intros Hb. eapply rel_trans; [by eapply Hm|by eapply Hf].
  - intros [= <- <- <-]. by eapply Hm.
Qed.
Lemma tsteps_ret {A} (a : A) : tsteps R (mret a).
Proof. intros s w s' b w' [= <- _ <-]. apply rel_refl. Qed.
Lemma tsteps_stop {A} e : tsteps R (stop (A := A) e).
Proof. intros s w s' b w' [= <- _ <-]. apply rel_refl. Qed.
Lemma tsteps_lift {A} (r : res A) : tsteps R (call (lift r)).
Proof. intros s w s' b w'. destruct r; cbn; [..|done]; intros [= <- _ <-]; apply rel_refl. Qed.
Lemma tsteps_attempt {A} (r : res A) : tsteps R (call (attempt (lift r))).
Proof. intros s w s' b w'. destruct r; cbn; [..|done]; intros [= <- _ <-]; apply rel_refl. Qed.
Lemma tsteps_try {A} (m : Tracked S A) : tsteps R m -> tsteps R (try m).
Proof.
  intros Hm s w s' b w'. unfold try, mbind, M_bind. destruct (m s w) as [[[s1 r]|e|why] w1] eqn:E; [|done..].
  intros [= <- _ <-]. by eapply Hm.
Qed.
(** A call of the state below: what it does to the world. *)
Lemma tsteps_call {A} (m : Go A) : (forall s w, R s w s (m w).2) -> tsteps R (call m).
Proof.
  intros Hm s w s' b w'. unfold call, attempt, mbind, M_bind. specialize (Hm s w).
  destruct (m w) as [[a|e|why] w1]; cbn in *; [..|done]; intros [= <- _ <-]; exact Hm.
Qed.
End TrackedSteps.

(** ** Lemmas: a group keeps what every goroutine keeps *)
Section GroupLemmas.
Context (R : DB -> DB -> Prop) `{!PreOrder R} `{Scheduler}.

Lemma steps_run_group {S A} (f : A -> S -> Go (S * option error)) l :
  (forall x s, steps R (f x s)) -> forall s first, steps R (run_group f l s first).
Proof.
  intros Hf. induction l as [|x l IH]; intros s first; [by apply steps_ret|].
  apply steps_bind; [done|apply Hf|]. intros [s' e]. apply IH.
Qed.

Lemma steps_group {S A} (f : A -> S -> Go (S * option error)) l s :
  (forall x s, steps R (f x s)) -> steps R (group_state f l s).
Proof.
  intros Hf. apply steps_bind; [done|by apply steps_external|]. intros order. by apply steps_run_group.
Qed.

Lemma steps_group_Wait {A} (f : A -> Go unit) l : (forall x, steps R (f x)) -> steps R (group_Wait f l).
Proof.
  intros Hf. apply steps_bind; [done| |intros [s [e|]]; by (apply steps_fail || apply steps_ret)].
  apply steps_group. intros x s. apply steps_bind; [done|by apply steps_attempt|]. intros r. by apply steps_ret.
Qed.

Lemma steps_until_error {S A} (f : A -> S -> Go S) l :
  (forall x s, steps R (f x s)) -> forall s, steps R (run_until_error f l s).
Proof.
  intros Hf. induction l as [|x l IH]; intros s; [by apply steps_ret|].
  apply steps_bind; [done|apply Hf|]. intros s'. apply IH.
Qed.

Lemma steps_group_ctx {S A} (f : A -> S -> Go S) l s : (forall x s, steps R (f x s)) -> steps R (group_ctx f l s).
Proof.
  intros Hf. apply steps_bind; [done|by apply steps_external|]. intros order. by apply steps_until_error.
Qed.

(** A tracked function keeps what each of its calls keeps. *)
Lemma steps_tbind {S A B} (m : Tracked S A) (f : A -> Tracked S B) s :
  (forall s, steps R (m s)) -> (forall a s, steps R (f a s)) -> steps R ((m ≫= f) s).
Proof.
  intros Hm Hf. rewrite tbind_run. apply steps_bind; [done|apply Hm|]. intros [s' [a|e]]; [apply Hf|by apply steps_ret].
Qed.
Lemma steps_call {S A} (m : Go A) (s : S) : steps R m -> steps R (call m s).
Proof. intros Hm. apply steps_bind; [done|by apply steps_attempt|]. intros r. by apply steps_ret. Qed.
Lemma steps_set {S} (f : S -> S) s : steps R (set f s).
Proof. by apply steps_ret. Qed.
Lemma steps_tret {S A} (a : A) (s : S) : steps R ((mret a : Tracked S A) s).
Proof. by apply steps_ret. Qed.
End GroupLemmas.
