(* ===== verification/Tatum.v ===== *)
(** * Tatum: subscriptions to the notifications of a wallet

    [internal/provider/tatum/provider.go]: whether the API keys are usable,
    subscribing an address to webhooks and checking a webhook's signature. The
    HTTP request and HMAC-SHA512 are an interface; setting up the signature at
    start-up and the generated API clients are not modelled. *)

From S2P Require Import Prelude GoLib KmsWallet Money Repository Bitcoin Currencies NetUrl.

Record Config := mkConfig { BasePath : string; APIKey : string; TestAPIKey : string; HMACSecret : string }.

Definition EthTestnet : string := "ethereum-goerli".
Definition localSubscriptionIDMaxLength : nat := 32.

Record SubscriptionParams := mkSubscription {
  sp_Blockchain : string; sp_Address : string; sp_IsTest : bool; sp_WebhookURL : string
}.

(** The POST of a subscription ([address], [chain] and [url] in the body): the
    status of the response and the id in its body, if it is JSON with one; and
    the Base64 text of the HMAC-SHA512 of a body. *)
Class TatumAPI := {
  post_subscription : string -> string -> SubscriptionParams -> nat -> res (Z * res string);
  hmac_sha512_base64 : string -> string -> string
}.

(** [strings.TrimSpace] on ASCII text *)
Definition is_space (c : ascii) : bool :=
  let n := N_of_ascii c in ((9 <=? n) && (n <=? 13) || (n =? 32))%N.
Fixpoint trim_left_space (l : list ascii) : list ascii :=
  match l with
  | c :: l' => if is_space c then trim_left_space l' else l
  | [] => []
  end.
Definition TrimSpace (s : string) : string := of_bytes (rev (trim_left_space (rev (trim_left_space (bytes s))))).

Definition isUsableAPIKey (token : string) : bool :=
  let token := TrimSpace token in
  if bool_decide (token = "") then false else
  let lowered := ToLower token in
  if Contains token "<" || Contains token ">" then false
  else negb (Contains lowered "tatum-api-key") && negb (Contains lowered "tatum-test-api-key").

Definition isUsableHMACSecret (secret : string) : bool :=
  let secret := TrimSpace secret in
  if bool_decide (secret = "") then false else
  negb (Contains secret "<") && negb (Contains secret ">") && negb (Contains (ToLower secret) "replace-with").

Definition isLocalWebhookURL (raw : string) : bool :=
  match Parse raw with
  | Ok parsed => one_of (ToLower (of_bytes (Hostname parsed))) ["localhost"; "127.0.0.1"; "::1"]
  | _ => false
  end.

Definition cut_at (n : nat) (s : string) : string := of_bytes (take n (bytes s)).

Definition disabledSubscriptionID (params : SubscriptionParams) : string :=
  let network := if sp_IsTest params then "test" else "main" in
  let address := cut_at 8 (ToLower (TrimSpace (sp_Address params))) in
  let address := if bool_decide (address = "") then "unknown" else address in
  cut_at localSubscriptionIDMaxLength
    ("disabled-" +:+ ToLower (sp_Blockchain params) +:+ "-" +:+ network +:+ "-" +:+ address).

Section Provider.
Context `{TatumAPI} (config : Config).

Definition HasMainAPIKey : bool := isUsableAPIKey (APIKey config).
Definition HasTestAPIKey : bool := isUsableAPIKey (TestAPIKey config).
Definition HasAPIKey (isTest : bool) : bool := if isTest then HasTestAPIKey else HasMainAPIKey.

Definition SubscribeToWebhook (params : SubscriptionParams) : Go string :=
  let url := BasePath config +:+ "/v3/subscription" +:+
    (if sp_IsTest params && bool_decide (sp_Blockchain params = ETH) then "?testnetType=" +:+ EthTestnet else "") in
  let token := if sp_IsTest params then TestAPIKey config else APIKey config in
  if negb (isUsableAPIKey token) then mret (disabledSubscriptionID params)
  else if isLocalWebhookURL (sp_WebhookURL params) && negb (isLocalWebhookURL (BasePath config)) then
    mret (disabledSubscriptionID params)
  else
    '(status, id) ← external (post_subscription url token params);
    if negb (status =? 200) then fail (ENew "invalid tatum response code") else lift id.

(** Signatures are not checked when there is no secret. *)
Definition ValidateHMAC (body hash : string) : bool :=
  if bool_decide (HMACSecret config = "") then true else bool_decide (hmac_sha512_base64 (HMACSecret config) body = hash).
End Provider.

(** ** Lemmas *)
Lemma subscribe_pure `{TatumAPI} config params : steps eq (SubscribeToWebhook config params).
Proof.
  unfold SubscribeToWebhook. cbv zeta. destruct (negb (isUsableAPIKey _)); [apply steps_ret; tc_solve|].
  destruct (_ && _); [apply steps_ret; tc_solve|].
  apply steps_bind; [tc_solve|apply steps_external; tc_solve|]. intros [status id].
  destruct (negb _); [apply steps_fail; tc_solve|apply steps_pure; tc_solve].
Qed.

Example docker_key : isUsableAPIKey " <tatum-api-key> " = false /\ isUsableAPIKey "t-64a1" = true.
Proof. by vm_compute. Qed.
Example disabled_id : disabledSubscriptionID (mkSubscription "ETH" " 0xABCDEF0123 " true "") = "disabled-eth-test-0xabcdef".
Proof. by vm_compute. Qed.
