(* ===== verification/Processing.v ===== *)
(** * Processing: from a payment to the transaction that pays it

    [internal/service/processing]: [service.go] (the checkout of a payment: the
    customer's view of it, locking it, choosing and changing its currency, the
    wallets and their subscriptions) and [service_topup.go], with
    [internal/lock/lock.go]. The blockchain service, the key service and Tatum
    are interfaces. *)

From S2P Require Import Prelude GoLib Float64 KmsWallet Money Repository Queries Bitcoin Currencies Blockchain.
From S2P Require Wallet WalletBalance Transaction Merchant Payment Convertor Tatum.
From S2P Require Export Flow.

(** ** lock.go: advisory locks *)
Fixpoint crc_bits (n : nat) (crc : Z) : Z :=
  match n with
  | O => crc
  | S n => crc_bits n (if Z.testbit crc 0 then Z.lxor (Z.shiftr crc 1) 3988292384 else Z.shiftr crc 1)
  end.

(** [crc32.ChecksumIEEE] *)
Definition ChecksumIEEE (l : list ascii) : Z :=
  Z.lxor (2 ^ 32 - 1)
    (fold_left (fun crc c => crc_bits 8 (Z.lxor crc (Z.of_N (N_of_ascii c)))) l (2 ^ 32 - 1)).

Record RowKey := mkRowKey { rk_Table : string; rk_ID : Z }.
Definition RowKey_Int64 (k : RowKey) : Z := ChecksumIEEE (bytes (rk_Table k +:+ "." +:+ FormatInt (rk_ID k))).

(** The lock of the process and the advisory lock of the database: the
    transaction that holds the latter does nothing else, what [run] does is
    not part of it. One call at a time, so both are free. *)
Definition Do {A} (lockID : Z) (run : Go A) : Go A := wrapM run "callback execution error".

(** ** Configuration *)
Record Config := mkConfig {
  WebhookBasePath : string; PaymentFrontendBasePath : string; PaymentFrontendSubPath : string;
  DefaultServiceFee : float64
}.

Definition PaymentFrontendPath (c : Config) : string :=
  let base := of_bytes (trim_suffix (bytes "/") (bytes (PaymentFrontendBasePath c))) in
  let sub := of_bytes (drop_while_eq "/" (trim_right "/" (bytes (PaymentFrontendSubPath c)))) in
  if bool_decide (sub = "") then base else base +:+ "/" +:+ sub.

Definition ErrStatusInvalid : error := ESentinel "processing.ErrStatusInvalid".
Definition ErrPaymentOptionsMissing : error := ESentinel "processing.ErrPaymentOptionsMissing".
Definition ErrSignatureVerification : error := ESentinel "processing.ErrSignatureVerification".
Definition ErrInboundWallet : error := ESentinel "processing.ErrInboundWallet".
Definition ErrInvalidInput : error := ESentinel "processing.ErrInvalidInput".
Definition ErrTransaction : error := ESentinel "processing.ErrTransaction".

Record ObservedTransaction := mkObserved {
  ot_TransactionID : string; ot_SenderAddress : string; ot_Amount : string; ot_AmountFormatted : string;
  ot_Confirmations : Z; ot_RequiredConfirmations : Z; ot_IsConfirmed : bool; ot_IsMempool : bool;
  ot_ExplorerLink : string
}.

Record PaymentInfo := mkPaymentInfo {
  pi_Status : string; pi_PaymentLink : string; pi_RecipientAddress : string; pi_Amount : string;
  pi_AmountFormatted : string; pi_ObservedTransaction : option ObservedTransaction; pi_ExpiresAt : Z;
  pi_ExpirationDurationMin : Z; pi_SuccessAction : option string; pi_SuccessURL : option string;
  pi_SuccessMessage : option string
}.

Record DetailedPayment := mkDetailed {
  dp_Payment : Payment.Payment; dp_Customer : option Payment.Customer; dp_Merchant : Merchant.Merchant;
  dp_PaymentMethod : option Payment.Method; dp_PaymentInfo : option PaymentInfo
}.

(** What the wallet service uses of the convertor. *)
Definition usd_value `{BlockchainService} (m : Money) (c : FiatCurrency) : Go Money :=
  conv ← CryptoToFiat m c; mret (Convertor.cv_To conv).

Section Service.
Context `{Resolver} `{Catalog} `{BlockchainService} `{Wallet.KMS} `{Btcutil} `{Payment.Publisher} `{Tatum.TatumAPI}.
Context (config : Config) (tatumProvider : option Tatum.Config).

Let basePath : string := PaymentFrontendPath config.

(** ** The customer's view *)
Definition payment_info (pt : Payment.Payment) (tx : Transaction.Transaction) : res PaymentInfo :=
  paymentLink ← Transaction.PaymentLink tx;
  formatted ← Money_String (Transaction.tx_Amount tx);
  mret (mkPaymentInfo (Payment.PublicStatus pt) paymentLink (Transaction.tx_RecipientAddress tx)
    (StringRaw (Transaction.tx_Amount tx)) formatted None (default 0 (Payment.pay_ExpiresAt pt))
    (Payment.ExpirationDurationMin pt) (Payment.PublicSuccessAction pt) (Payment.PublicSuccessURL pt)
    (Payment.PublicSuccessMessage pt)).

Definition GetDetailedPayment (merchantID paymentID : Z) : Go DetailedPayment :=
  pt ← Payment.GetByID basePath merchantID paymentID;
  mt ← Merchant.GetByID (Payment.pay_MerchantID pt) false;
  customer ← match Payment.pay_CustomerID pt with
    | None => mret None
    | Some id => person ← wrapM (Payment.GetCustomerByID merchantID id) "unable to get customer"; mret (Some person)
    end;
  r ← attempt (Payment.GetPaymentMethod pt);
  paymentMethod ← match r with
    | inl m => mret (Some m)
    | inr e => if errors_Is e Payment.ErrPaymentMethodNotSet then mret None
               else fail (EWrap e "unable to get payment method")
    end;
  info ← match paymentMethod with
    | Some m =>
      if Payment.IsEditable pt then mret None
      else info ← lift (payment_info pt (Payment.me_tx m)); mret (Some info)
    | None => mret None
    end;
  mret (mkDetailed pt customer mt paymentMethod info).

Definition LockPaymentOptions (merchantID paymentID : Z) : Go unit :=
  details ← wrapM (GetDetailedPayment merchantID paymentID) "unable to get detailed payment";
  if negb (Payment.IsEditable (dp_Payment details)) then mret tt else
  match dp_Customer details, dp_PaymentMethod details with
  | Some _, Some _ =>
    _ ← wrapM (Payment.Update basePath merchantID paymentID Payment.StatusLocked) "unable to lock payment";
    mret tt
  | _, _ => fail ErrPaymentOptionsMissing
  end.

(** ** Subscribing a wallet to webhooks *)
Definition walletWebhookURL (networkID walletID : string) : string :=
  WebhookBasePath config +:+ "/api/webhook/v1/tatum/" +:+ networkID +:+ "/" +:+ walletID.

(** A subscription that is missing is tried; a failure is only logged. *)
Definition subscribe (t : Tatum.Config) (w : Wallet.Wallet) (current networkID : string) (isTest : bool) :
  Go (string * bool) :=
  if negb (bool_decide (current = "")) then mret (current, false) else
  id ← attempt (Tatum.SubscribeToWebhook t (Tatum.mkSubscription (Wallet.wal_Blockchain w) (Wallet.wal_Address w) isTest
    (walletWebhookURL networkID (Wallet.wal_UUID w))));
  match id with inl id => mret (id, true) | inr _ => mret (current, false) end.

(** Returns the wallet the argument points to after the call. *)
Definition ensureWalletSubscription (w : Wallet.Wallet) (currency : CryptoCurrency) : Go Wallet.Wallet :=
  match tatumProvider with
  | None => mret w
  | Some t =>
    let s := Wallet.wal_TatumSubscription w in
    '(test, updateTest) ← subscribe t w (Wallet.TestnetSubscriptionID s) (cc_TestNetworkID currency) true;
    '(main, updateMain) ← subscribe t w (Wallet.MainnetSubscriptionID s) (cc_NetworkID currency) false;
    if updateTest || updateMain then
      wrapM (Wallet.UpdateTatumSubscription w (Wallet.mkTatum main test)) "unable to update wallet"
    else mret w
  end.

(** ** The transaction of a payment *)
Definition service_fee (cryptoAmount : Money) : res Money :=
  if f64_lt f64_zero (DefaultServiceFee config) then
    wrap (MultiplyFloat64 cryptoAmount (DefaultServiceFee config)) "unable to calculate service fee"
  else Ok Money_zero.

(** When the transaction cannot be created the code releases the wallet with
    the network of [tx], which is then nil. *)
Definition createIncomingTransaction (pt : Payment.Payment) (currency : CryptoCurrency) : Go Payment.Method :=
  conv ← FiatToCrypto (Payment.pay_Price pt) currency;
  let cryptoAmount := Convertor.cv_To conv in
  cryptoServiceFee ← lift (service_fee cryptoAmount);
  conv ← FiatToFiat (Payment.pay_Price pt) USD;
  let usdAmount := Convertor.cv_To conv in
  acquiredWallet ← wrapM (Wallet.AcquireFreshLock (Payment.pay_MerchantID pt) currency (Payment.pay_IsTest pt))
    "unable to acquire wallet";
  acquiredWallet ← wrapM (ensureWalletSubscription acquiredWallet currency)
    "unable to ensure wallet subscription to notifications";
  r ← attempt (Transaction.Create (Payment.pay_MerchantID pt) (Transaction.mkCreate Transaction.TypeIncoming
    (Payment.pay_ID pt) "" None "" (Some acquiredWallet) "" currency cryptoAmount usdAmount cryptoServiceFee
    (Payment.pay_IsTest pt) false) false);
  match r with
  | inl tx => mret (Payment.MakeMethod tx currency)
  | inr _ => panic Broadcaster.nil_pointer
  end.

Definition cancelReason : string := "customer chose another payment method".

Definition changePaymentMethod (p : Payment.Payment) (tx : Transaction.Transaction) (currency : CryptoCurrency) :
  Go Payment.Method :=
  match Transaction.tx_RecipientWalletID tx with
  | None => fail (ENew "wallet id is nil")
  | Some _ =>
    _ ← wrapM (Transaction.Cancel tx Transaction.StatusCancelled cancelReason None)
      "unable to mark transaction as canceled";
    createIncomingTransaction p currency
  end.

Definition getPaymentMethod (mt : Merchant.Merchant) (ticker : string) : res CryptoCurrency :=
  currency ← wrap (GetCurrencyByTicker ticker) "unable to get currency by ticker";
  let enabled := existsb (fun s => bool_decide (cc_Ticker s.1 = cc_Ticker currency) && s.2)
    (Merchant.ListSupportedCurrencies mt) in
  if enabled then Ok currency
  else Err (EWrap ErrCurrencyNotFound ("currency " +:+ cc_Ticker currency +:+ " is disabled for merchant")).

(** The body run under the lock of the payment. *)
Definition choose_method (p : Payment.Payment) (currency : CryptoCurrency) : Go Payment.Method :=
  r ← attempt (Transaction.GetLatestByPaymentID (Payment.pay_ID p));
  match r with
  | inr e =>
    if errors_Is e Transaction.ErrNotFound then createIncomingTransaction p currency
    else fail (EWrap e "unable to get latest payment by id")
  | inl tx =>
    if bool_decide (Transaction.tx_Status tx = Transaction.StatusCancelled) then createIncomingTransaction p currency
    else if bool_decide (cc_Ticker (Transaction.tx_Currency tx) = cc_Ticker currency) &&
            bool_decide (cc_NetworkID (Transaction.tx_Currency tx) = cc_NetworkID currency) then
      mret (Payment.MakeMethod tx currency)
    else changePaymentMethod p tx currency
  end.

Definition SetPaymentMethod (p : option Payment.Payment) (ticker : string) : Go Payment.Method :=
  match p with
  | None => fail (ENew "payment is nil")
  | Some p =>
    if negb (Payment.IsEditable p) then fail ErrStatusInvalid else
    mt ← wrapM (Merchant.GetByID (Payment.pay_MerchantID p) false) "unable to get merchant";
    currency ← wrapM (lift (getPaymentMethod mt ticker)) "unable to get payment method";
    r ← Do (RowKey_Int64 (mkRowKey "payments" (Payment.pay_ID p))) (attempt (choose_method p currency));
    match r with inl method => mret method | inr e => fail e end
  end.

(** ** The gateway's outbound wallets *)
Fixpoint ensure_balances (walletID : Z) (currencies : list CryptoCurrency) : Go unit :=
  match currencies with
  | [] => mret tt
  | currency :: currencies =>
    _ ← wrapM (WalletBalance.EnsureBalance WalletBalance.EntityTypeWallet walletID currency false)
      ("unable to ensure mainnet balance for " +:+ cc_Ticker currency);
    _ ← wrapM (WalletBalance.EnsureBalance WalletBalance.EntityTypeWallet walletID currency true)
      ("unable to ensure testnet balance for " +:+ cc_Ticker currency);
    ensure_balances walletID currencies
  end.

Definition EnsureOutboundWallet (chain : string) : Go (Wallet.Wallet * bool) :=
  match BlockchainCurrencies chain with
  | [] => fail (ENew "currencies are empty")
  | first :: _ =>
    '(w, justCreated) ← wrapM (Wallet.EnsureOutboundWallet chain) "unable to ensure outbound wallet";
    w ← ensureWalletSubscription w first;
    _ ← ensure_balances (Wallet.wal_ID w) (BlockchainCurrencies chain);
    mret (w, justCreated)
  end.

(** ** service_topup.go *)
Record TopupInput := mkTopup { ti_Currency : CryptoCurrency; ti_Amount : Money; ti_Comment : string; ti_IsTest : bool }.
Record TopupOut := mkTopupOut {
  to_Payment : Payment.Payment; to_Transaction : Transaction.Transaction; to_MerchantBalance : WalletBalance.Balance
}.

Definition locateSystemBalance (currency : CryptoCurrency) (isTest : bool) : Go WalletBalance.Balance :=
  balances ← WalletBalance.ListAllBalances usd_value false true false;
  let matches b := bool_decide (WalletBalance.bal_Currency b = cc_Ticker currency) &&
    bool_decide (WalletBalance.bal_NetworkID b = ChooseNetwork currency isTest) in
  match List.find matches (default [] (WalletBalance.bs_system balances)) with
  | Some systemBalance => mret systemBalance
  | None => fail (ENew "system balance not found")
  end.

Definition TopupMerchantFromSystem (merchantID : Z) (input : TopupInput) : Go TopupOut :=
  merchant ← wrapM (Merchant.GetByID merchantID false) "unable to find merchant";
  systemBalance ← wrapM (locateSystemBalance (ti_Currency input) (ti_IsTest input)) "unable to find system balance";
  _ ← wrapM (lift (WalletBalance.Covers systemBalance [ti_Amount input])) "system balance has no sufficient funds";
  conv ← wrapM (CryptoToFiat (ti_Amount input) USD) "unable to convert crypto to USD";
  orderUUID ← uuid_New;
  formatted ← lift (Money_String (ti_Amount input));
  pt ← wrapM (Payment.CreateSystemTopup basePath (Merchant.mer_ID merchant)
    (Payment.mkCreateInternalPaymentProps orderUUID (ti_Amount input)
      ("*internal* topup of " +:+ formatted +:+ " " +:+ cc_Ticker (ti_Currency input) +:+ " (" +:+ ti_Comment input +:+ ")")
      (ti_IsTest input)))
    "unable to create the payment";
  r ← attempt (Transaction.CreateSystemTopup (Merchant.mer_ID merchant) (Transaction.mkCreate Transaction.TypeVirtual
    (Payment.pay_ID pt) "" None "" None "" (ti_Currency input) (ti_Amount input) (Convertor.cv_To conv) Money_zero
    (ti_IsTest input) false));
  match r with
  | inr e =>
    _ ← wrapM (Payment.Fail_ basePath pt) "unable to delete internal payment after failed system topup tx";
    fail (EWrap e "unable to create internal transaction")
  | inl tx =>
    balance ← wrapM (WalletBalance.GetMerchantBalance (Merchant.mer_ID merchant) (cc_Ticker (ti_Currency input))
      (ChooseNetwork (ti_Currency input) (ti_IsTest input))) "unable to get merchants balance";
    mret (mkTopupOut pt tx balance)
  end.
End Service.

Example check_value : ChecksumIEEE (bytes "123456789") = 3421780262.
Proof. by vm_compute. Qed.
Example frontend_path : PaymentFrontendPath (mkConfig "" "https://pay.example/" "/p/" f64_zero) = "https://pay.example/p".
Proof. by vm_compute. Qed.
