(* ===== verification/Incoming.v ===== *)
(** * Incoming: recognising the transactions that pay

    [internal/service/processing]: [service_incoming.go] (processing, checking
    and discovering incoming transactions, expiring payments),
    [service_observation.go] and [service_webhook.go]. The goroutines of a
    batch run one after another in any order (see [Flow]). *)

From S2P Require Import Prelude GoLib Float64 KmsWallet Money Repository Queries Bitcoin Currencies Nodes Blockchain.
From S2P Require Import Processing.
From S2P Require Wallet WalletBalance Transaction Merchant Payment Convertor Tatum.
From S2P Require Broadcaster Tracker.

Definition revertReason : string := "blockchain confirmed failure (revert)".

Record Input := mkInput {
  i_Currency : CryptoCurrency; i_Amount : Money; i_SenderAddress : string; i_TransactionID : string; i_NetworkID : string
}.

Definition allowsEmptySenderAddress (blockchain : string) : bool := bool_decide (blockchain = BTC).

Definition Input_validate (i : Input) : res unit :=
  _ ← guard_err (bool_decide (cc_Ticker (i_Currency i) = "")) (EWrap ErrInvalidInput "missing currency");
  _ ← guard_err (bool_decide (m_ticker (i_Amount i) = "")) (EWrap ErrInvalidInput "missing amount");
  _ ← guard_err (bool_decide (i_SenderAddress i = "") && negb (allowsEmptySenderAddress (cc_Blockchain (i_Currency i))))
    (EWrap ErrInvalidInput "missing SenderAddress");
  _ ← guard_err (bool_decide (i_TransactionID i = "")) (EWrap ErrInvalidInput "missing TransactionID");
  guard_err (bool_decide (i_NetworkID i = "")) (EWrap ErrInvalidInput "missing networkID").

Record TatumWebhook := mkWebhook {
  wh_SubscriptionType : string; wh_TransactionID : string; wh_Address : string; wh_Sender : string; wh_Asset : string;
  wh_Amount : string; wh_BlockNumber : Z; wh_Type : string; wh_Mempool : bool; wh_Chain : string
}.

Definition CurrencyType (w : TatumWebhook) : string := if bool_decide (wh_Type w = "native") then Coin else Token.

Section Service.
Context `{Resolver} `{Catalog} `{BlockchainService} `{Payment.Publisher} `{Scheduler}.
Context (config : Config).

Let basePath : string := PaymentFrontendPath config.

(** ** The status of an incoming transaction

    What the function writes into the transaction it is given: its status and
    its metadata. *)
Definition determineIncomingStatus (tx : Transaction.Transaction) (input : Input) : Go (string * metadata) :=
  let amount := Transaction.tx_Amount tx in
  let meta := Transaction.tx_MetaData tx in
  if Money_Equals (i_Amount input) amount then mret (Transaction.StatusInProgress, meta)
  else if GreaterThan (i_Amount input) amount then
    mret (Transaction.StatusInProgress,
      <[Transaction.MetaComment := "incoming tx amount is higher than expected"]> meta)
  else
    oneCent ← lift (Fiat_MakeAmount USD "1");
    conv ← FiatToCrypto oneCent (Transaction.tx_Currency tx);
    amountWithOneCent ← lift (Money_Add (i_Amount input) (Convertor.cv_To conv));
    if GreaterThanOrEqual amountWithOneCent amount then mret (Transaction.StatusInProgress, meta)
    else mret (Transaction.StatusInProgressInvalid,
      <[Transaction.MetaErrorReason := "incoming tx amount is less than expected"]> meta).

(** The amounts are printed for the log when the transaction is not what was
    expected. *)
Definition ProcessInboundTransaction (tx : Transaction.Transaction) (wt : Wallet.Wallet) (input : Input) : Go unit :=
  _ ← lift (Input_validate input);
  '(status, meta) ← determineIncomingStatus tx input;
  tx ← wrapM (Transaction.Receive (Transaction.tx_MerchantID tx) (Transaction.tx_ID tx)
    (Transaction.mkReceive status (i_SenderAddress input) (i_TransactionID input) (i_Amount input) meta))
    "unable to update transaction";
  if negb (bool_decide (Transaction.tx_Status tx = Transaction.StatusInProgress)) then
    _ ← lift (Money_String (Transaction.tx_Amount tx));
    _ ← lift (Money_String (i_Amount input));
    mret tt
  else
    pt ← wrapM (Payment.GetByID basePath (Transaction.tx_MerchantID tx) (Transaction.tx_EntityID tx)) "unable to get payment";
    _ ← wrapM (Payment.Update basePath (Transaction.tx_MerchantID tx) (Payment.pay_ID pt) Payment.StatusInProgress)
      "unable to update payment";
    mret tt.

Definition createUnexpectedTransaction (wt : Wallet.Wallet) (input : Input) : Go unit :=
  let isTest := negb (bool_decide (cc_NetworkID (i_Currency input) = i_NetworkID input)) in
  conv ← wrapM (CryptoToFiat (i_Amount input) USD) ("unable to convert " +:+ cc_Ticker (i_Currency input) +:+ " to USD");
  _ ← wrapM (Transaction.Create Transaction.SystemMerchantID (Transaction.mkCreate Transaction.TypeIncoming 0
    (i_SenderAddress input) None "" (Some wt) (i_TransactionID input) (i_Currency input) (i_Amount input)
    (Convertor.cv_To conv) Money_zero isTest false) true)
    "unable to store unexpected transaction";
  mret tt.

(** ** Confirming and cancelling *)
Definition confirmIncomingTransaction (tx : Transaction.Transaction) (receipt : Broadcaster.TransactionReceipt) : Go unit :=
  let invalid := bool_decide (Transaction.tx_Status tx = Transaction.StatusInProgressInvalid) in
  let setTXStatus := if invalid then Transaction.StatusCompletedInvalid else Transaction.StatusCompleted in
  let setPaymentStatus := if invalid then Payment.StatusFailed else Payment.StatusSuccess in
  let senderAddress := if bool_decide (Broadcaster.rc_Sender receipt = "")
    then default "" (Transaction.tx_SenderAddress tx) else Broadcaster.rc_Sender receipt in
  if bool_decide (senderAddress = "") && negb (allowsEmptySenderAddress (cc_Blockchain (Transaction.tx_Currency tx)))
  then fail (ENew "empty sender address") else
  match Transaction.tx_HashID tx, Transaction.tx_FactAmount tx with
  | Some hash, Some fact =>
    tx ← wrapM (Transaction.Confirm (Transaction.tx_MerchantID tx) (Transaction.tx_ID tx)
      (Transaction.AllowZeroNetworkFee (Transaction.mkConfirm setTXStatus senderAddress hash fact
        (Broadcaster.rc_NetworkFee receipt) (Transaction.tx_MetaData tx) false)))
      "unable to confirm transaction";
    if Transaction.tx_MerchantID tx =? Transaction.SystemMerchantID then mret tt else
    pt ← wrapM (Payment.GetByID basePath (Transaction.tx_MerchantID tx) (Transaction.tx_EntityID tx)) "unable to get payment";
    _ ← wrapM (Payment.Update basePath (Transaction.tx_MerchantID tx) (Payment.pay_ID pt) setPaymentStatus)
      "unable to update payment";
    mret tt
  | _, _ => panic Broadcaster.nil_pointer
  end.

(** The hash is dereferenced for the log after the payment is updated. *)
Definition cancelIncomingTransaction (tx : Transaction.Transaction) : Go unit :=
  _ ← wrapM (Transaction.Cancel tx Transaction.StatusFailed revertReason None) "unable to cancel transaction";
  if Transaction.tx_MerchantID tx =? Transaction.SystemMerchantID then mret tt else
  _ ← wrapM (Payment.Update basePath (Transaction.tx_MerchantID tx) (Transaction.tx_EntityID tx) Payment.StatusFailed)
    "unable to update payment";
  match Transaction.tx_HashID tx with Some _ => mret tt | None => panic Broadcaster.nil_pointer end.

Definition checkIncomingTransaction (txID : Z) : Go unit :=
  tx ← wrapM (Transaction.GetByID Transaction.MerchantIDWildcard txID) "unable to get transaction";
  if negb (bool_decide (Transaction.tx_Type tx = Transaction.TypeIncoming)) then fail (ENew "invalid transaction type") else
  match Transaction.tx_HashID tx with
  | None => fail (ENew "empty transaction hash")
  | Some hash =>
    if bool_decide (Transaction.tx_SenderAddress tx = None) &&
       negb (allowsEmptySenderAddress (cc_Blockchain (Transaction.tx_Currency tx))) then fail (ENew "empty sender address")
    else if bool_decide (Transaction.tx_RecipientWalletID tx = None) then fail (ENew "empty recipient wallet id")
    else if negb (Transaction.IsInProgress tx) then mret tt
    else
      receipt ← wrapM (GetTransactionReceipt (cc_Blockchain (Transaction.tx_Currency tx)) hash (Transaction.tx_IsTest tx))
        "unable to get transaction receipt";
      if negb (Broadcaster.rc_IsConfirmed receipt) then mret tt
      else if negb (Broadcaster.rc_Success receipt) then cancelIncomingTransaction tx
      else confirmIncomingTransaction tx receipt
  end.

Definition processConfirmedInboundTransaction (tx : Transaction.Transaction) (wt : Wallet.Wallet) (input : Input)
  (receipt : Broadcaster.TransactionReceipt) : Go unit :=
  _ ← wrapM (ProcessInboundTransaction tx wt input) "unable to process incoming transaction";
  tx ← wrapM (Transaction.GetByID Transaction.MerchantIDWildcard (Transaction.tx_ID tx))
    "unable to reload incoming transaction";
  if negb (Broadcaster.rc_Success receipt) then
    wrapM (cancelIncomingTransaction tx) "unable to cancel incoming transaction"
  else wrapM (confirmIncomingTransaction tx receipt) "unable to confirm incoming transaction".

(** ** Observing the blockchain *)
Definition canObserveIncomingTransaction (tx : Transaction.Transaction) : bool :=
  bool_decide (Transaction.tx_Type tx = Transaction.TypeIncoming) &&
  bool_decide (Transaction.tx_Status tx = Transaction.StatusPending) &&
  bool_decide (Transaction.tx_HashID tx = None) && bool_decide (is_Some (Transaction.tx_RecipientWalletID tx)).

Definition canUseObservedCandidate (tx : Transaction.Transaction) (candidate : Tracker.IncomingTransaction) : Go bool :=
  if bool_decide (Tracker.in_TransactionID candidate = "") ||
     negb (bool_decide (Tracker.in_NetworkID candidate = Transaction.NetworkID tx)) ||
     negb (bool_decide (cc_Ticker (Tracker.in_Currency candidate) = cc_Ticker (Transaction.tx_Currency tx)))
  then mret false else
  existing ← attempt (Transaction.GetByHash (Tracker.in_NetworkID candidate) (Tracker.in_TransactionID candidate));
  match existing with
  | inl existing => mret (Transaction.tx_ID existing =? Transaction.tx_ID tx)
  | inr e => if errors_Is e Transaction.ErrNotFound then mret true else fail (EWrap e "unable to check transaction hash")
  end.

Definition observedTransactionFromCandidate (tx : Transaction.Transaction) (candidate : Tracker.IncomingTransaction) :
  Go ObservedTransaction :=
  let blockchain := cc_Blockchain (Transaction.tx_Currency tx) in
  receipt ← wrapM (GetTransactionReceipt blockchain (Tracker.in_TransactionID candidate) (Transaction.tx_IsTest tx))
    "unable to get transaction receipt";
  requiredConfirmations ← lift (RequiredConfirmations blockchain);
  link ← attempt (lift (CreateExplorerTXLink blockchain (Transaction.NetworkID tx) (Tracker.in_TransactionID candidate)));
  formatted ← lift (Money_String (Tracker.in_Amount candidate));
  mret (mkObserved (Tracker.in_TransactionID candidate) (Tracker.in_SenderAddress candidate)
    (StringRaw (Tracker.in_Amount candidate)) formatted (Broadcaster.rc_Confirmations receipt) requiredConfirmations
    (Broadcaster.rc_IsConfirmed receipt) (Tracker.in_IsMempool candidate)
    (match link with inl l => l | inr _ => "" end)).

Fixpoint observe_first (tx : Transaction.Transaction) (incoming : list Tracker.IncomingTransaction) :
  Go (option ObservedTransaction) :=
  match incoming with
  | [] => mret None
  | candidate :: incoming =>
    ok ← canUseObservedCandidate tx candidate;
    if ok : bool then observed ← observedTransactionFromCandidate tx candidate; mret (Some observed)
    else observe_first tx incoming
  end.

Definition ObserveIncomingTransaction (tx : Transaction.Transaction) : Go (option ObservedTransaction) :=
  if negb (canObserveIncomingTransaction tx) then mret None else
  incoming ← wrapM (ListIncomingTransactions (Transaction.tx_RecipientAddress tx) (Transaction.tx_Currency tx)
    (Transaction.tx_IsTest tx)) "unable to list incoming blockchain transactions";
  observe_first tx incoming.

(** ** Discovering *)
Definition processDiscoveredIncomingCandidate (tx : Transaction.Transaction) (wt : Wallet.Wallet)
  (candidate : Tracker.IncomingTransaction) : Go bool :=
  ok ← canUseObservedCandidate tx candidate;
  if negb ok then mret false else
  receipt ← wrapM (GetTransactionReceipt (cc_Blockchain (Transaction.tx_Currency tx))
    (Tracker.in_TransactionID candidate) (Transaction.tx_IsTest tx)) "unable to get transaction receipt";
  if negb (Broadcaster.rc_IsConfirmed receipt) then mret false else
  _ ← processConfirmedInboundTransaction tx wt (mkInput (Tracker.in_Currency candidate) (Tracker.in_Amount candidate)
    (Tracker.in_SenderAddress candidate) (Tracker.in_TransactionID candidate) (Tracker.in_NetworkID candidate)) receipt;
  mret true.

Fixpoint discover_first (tx : Transaction.Transaction) (wt : Wallet.Wallet)
  (incoming : list Tracker.IncomingTransaction) : Go unit :=
  match incoming with
  | [] => mret tt
  | candidate :: incoming =>
    processed ← processDiscoveredIncomingCandidate tx wt candidate;
    if processed : bool then mret tt else discover_first tx wt incoming
  end.

Definition discoverIncomingTransaction (txID : Z) : Go unit :=
  tx ← wrapM (Transaction.GetByID Transaction.MerchantIDWildcard txID) "unable to get transaction";
  if negb (bool_decide (Transaction.tx_Type tx = Transaction.TypeIncoming)) then fail (ENew "invalid transaction type")
  else if negb (bool_decide (Transaction.tx_Status tx = Transaction.StatusPending)) then mret tt
  else if bool_decide (is_Some (Transaction.tx_HashID tx)) then mret tt
  else match Transaction.tx_RecipientWalletID tx with
  | None => fail (ENew "empty recipient wallet id")
  | Some recipient =>
    wt ← wrapM (Wallet.GetByID recipient) "unable to get recipient wallet";
    incoming ← wrapM (ListIncomingTransactions (Transaction.tx_RecipientAddress tx) (Transaction.tx_Currency tx)
      (Transaction.tx_IsTest tx)) "unable to list incoming blockchain transactions";
    discover_first tx wt incoming
  end.

(** ** Expiring payments *)
Definition shouldDeferPaymentExpiry (tx : option Transaction.Transaction) : Go bool :=
  match tx with
  | None => mret false
  | Some tx =>
    if negb (bool_decide (Transaction.tx_Type tx = Transaction.TypeIncoming)) || Transaction.IsFinalized tx then mret false
    else if bool_decide (is_Some (Transaction.tx_HashID tx)) || Transaction.IsInProgress tx then mret true
    else
      observed ← wrapM (ObserveIncomingTransaction tx)
        "unable to observe incoming transaction before payment expiration";
      mret (bool_decide (observed <> None))
  end.

Definition expirePayment (paymentID : Z) : Go bool :=
  pt ← wrapM (Payment.GetByID basePath Transaction.MerchantIDWildcard paymentID) "unable to get payment";
  if negb (bool_decide (Payment.pay_Type pt = Payment.TypePayment)) then
    fail (ENew ("invalid payment type " +:+ Payment.pay_Type pt))
  else if negb (one_of (Payment.pay_Status pt) [Payment.StatusPending; Payment.StatusLocked]) then
    fail (ENew ("invalid payment status " +:+ Payment.pay_Status pt))
  else
    r ← attempt (Transaction.GetLatestByPaymentID (Payment.pay_ID pt));
    tx ← match r with
      | inl tx => mret (Some tx)
      | inr e => if errors_Is e Transaction.ErrNotFound then mret None else fail (EWrap e "unable to get transaction")
      end;
    deferExpiry ← shouldDeferPaymentExpiry tx;
    if deferExpiry : bool then mret false else
    _ ← match tx with
      | Some tx =>
        if bool_decide (Transaction.tx_Status tx = Transaction.StatusCancelled) then mret tt
        else wrapM (Transaction.Cancel tx Transaction.StatusCancelled "payment expired" None) "unable to cancel transaction"
      | None => mret tt
      end;
    _ ← wrapM (Payment.Fail_ basePath pt) "unable to expire payment";
    mret true.

(** ** Batches *)
Definition BatchCheckIncomingTransactions (transactionIDs : list Z) : Go unit :=
  group_Wait checkIncomingTransaction transactionIDs.
Definition BatchDiscoverIncomingTransactions (transactionIDs : list Z) : Go unit :=
  group_Wait discoverIncomingTransaction transactionIDs.
Definition BatchExpirePayments (paymentsIDs : list Z) : Go unit :=
  group_Wait (fun id => ignore (expirePayment id)) paymentsIDs.

(** ** Webhooks *)
Definition errSkippedProcessor : error := ESentinel "processing.errSkippedProcessor".

Definition processExpectedWebhook (wt : Wallet.Wallet) (input : Input) : Go unit :=
  r ← attempt (Transaction.GetByFilter (Transaction.mkFilter (Wallet.wal_ID wt) (i_NetworkID input)
    (cc_Ticker (i_Currency input)) [Transaction.TypeIncoming] [Transaction.StatusPending] true));
  match r with
  | inr e => if errors_Is e Transaction.ErrNotFound then fail errSkippedProcessor
             else fail (EWrap e "unable to find transaction")
  | inl tx => wrapM (ProcessInboundTransaction tx wt input) "unable to process incoming transaction"
  end.

Definition processUnexpectedWebhook (wt : Wallet.Wallet) (input : Input) : Go unit :=
  r ← attempt (Transaction.GetByHash (i_NetworkID input) (i_TransactionID input));
  match r with
  | inl _ => mret tt
  | inr e =>
    if errors_Is e Transaction.ErrNotFound then
      wrapM (createUnexpectedTransaction wt input) "unable to create unexpected transaction"
    else fail (EWrap e "unable to get transaction by hash")
  end.

(** The activation transfer of a Tron account: an amount of 1 in its smallest
    unit. *)
Definition processTronAccountActivation (wt : Wallet.Wallet) (input : Input) : Go unit :=
  let isTronCoin := bool_decide (Wallet.wal_Blockchain wt = TRON) && bool_decide (cc_Type (i_Currency input) = Coin) in
  let isOneTrx := bool_decide (StringRaw (i_Amount input) = "1") in
  if negb isTronCoin || negb isOneTrx then fail errSkippedProcessor else processUnexpectedWebhook wt input.

Definition resolveCurrencyFromWebhook (bc networkID : string) (wh : TatumWebhook) : res CryptoCurrency :=
  currency ← (if bool_decide (CurrencyType wh = Coin) then GetNativeCoin bc
              else CurrencyByBlockchainAndContract bc networkID (wh_Asset wh));
  if negb (bool_decide (cc_NetworkID currency = networkID)) && negb (bool_decide (cc_TestNetworkID currency = networkID)) then
    Err (ENew ("unknown " +:+ cc_Blockchain currency +:+ " network id " +:+ networkID +:+ ", expected one of [" +:+
      cc_NetworkID currency +:+ ", " +:+ cc_TestNetworkID currency +:+ "]"))
  else Ok currency.

(** Each processor in turn until one does not skip. *)
Fixpoint run_processors (processors : list (Wallet.Wallet -> Input -> Go unit)) (wt : Wallet.Wallet) (input : Input) :
  Go unit :=
  match processors with
  | [] => mret tt
  | ingest :: processors =>
    r ← attempt (ingest wt input);
    match r with
    | inl _ => mret tt
    | inr e => if errors_Is e errSkippedProcessor then run_processors processors wt input
               else fail (EWrap e "unable to process webhook")
    end
  end.

Definition ProcessIncomingWebhook (walletID networkID : string) (wh : TatumWebhook) : Go unit :=
  if wh_Mempool wh then mret tt
  else if bool_decide (wh_Type wh = "fee") then mret tt
  else
    wt ← wrapM (Wallet.GetByUUID walletID) "unable to get wallet by uuid";
    currency ← wrapM (lift (resolveCurrencyFromWebhook (Wallet.wal_Blockchain wt) networkID wh))
      "unable to resolve currency from webhook";
    amount ← wrapM (lift (CryptoFromStringFloat (cc_Ticker currency) (wh_Amount wh) (cc_Decimals currency)))
      "unable to make crypto amount from webhook data";
    run_processors [processTronAccountActivation; processExpectedWebhook; processUnexpectedWebhook] wt
      (mkInput currency amount (wh_Sender wh) (wh_TransactionID wh) networkID).

Definition ValidateWebhookSignature `{Tatum.TatumAPI} (tatum : Tatum.Config) (body hash : string) : res unit :=
  if Tatum.ValidateHMAC tatum body hash then Ok tt else Err ErrSignatureVerification.
End Service.
