(* ===== verification/Transfers.v ===== *)
(** * Transfers: from the inbound wallets to the outbound one

    [internal/service/processing/service_internal.go]: creating, rolling back,
    checking, confirming and cancelling internal transfers. A function that
    returns its output together with an error is [Tracked] (see [Flow]). *)

From S2P Require Import Prelude GoLib Float64 KmsWallet Money Repository Queries Fees Bitcoin Currencies Nodes Blockchain.
From S2P Require Import Processing Incoming.
From S2P Require Wallet WalletBalance WalletTransaction Transaction Payment Convertor.
From S2P Require Broadcaster.

(** 0.90 *)
Definition transferableCoinPercentage : float64 := f64_dec 90 (-2).

(** ** The outcome of a batch *)
Record TransferResult := mkResult {
  CreatedTransactions : list Transaction.Transaction; RollbackedTransactionIDs : list Z;
  UnhandledErrors : list error; TotalErrors : Z
}.
Definition no_transfers : TransferResult := mkResult [] [] [] 0.

Definition addTransaction (tx : Transaction.Transaction) (r : TransferResult) : TransferResult :=
  mkResult (CreatedTransactions r ++ [tx]) (RollbackedTransactionIDs r) (UnhandledErrors r) (TotalErrors r).
Definition addRollbackID (txID : Z) (r : TransferResult) : TransferResult :=
  mkResult (CreatedTransactions r) (RollbackedTransactionIDs r ++ [txID]) (UnhandledErrors r) (TotalErrors r).
Definition registerErr (err : option error) (r : TransferResult) : TransferResult :=
  mkResult (CreatedTransactions r) (RollbackedTransactionIDs r)
    (match err with Some e => UnhandledErrors r ++ [e] | None => UnhandledErrors r end) (TotalErrors r + 1)%i64.

Record internalTransferInput := mkTransfer {
  it_SenderWallet : Wallet.Wallet; it_SenderBalance : WalletBalance.Balance; it_RecipientWallet : Wallet.Wallet;
  it_Amount : Money
}.

Record internalTransferOutput := mkTransferOut {
  ito_Transaction : option Transaction.Transaction; ito_TransactionRaw : string; ito_TransactionHashID : string;
  ito_Amount : Money; ito_BalanceDecremented : bool; ito_IsTest : bool
}.

(** The named result of [createInternalTransfer] and the variables its deferred
    call reads. *)
Record transferState := mkTransferState {
  ts_out : internalTransferOutput; ts_currency : CryptoCurrency; ts_txRaw : string; ts_utxoBroadcasted : bool
}.
Definition transfer_start : transferState :=
  mkTransferState (mkTransferOut None "" "" Money_zero false false) zero_crypto "" false.

Definition with_out (f : internalTransferOutput -> internalTransferOutput) (s : transferState) : transferState :=
  mkTransferState (f (ts_out s)) (ts_currency s) (ts_txRaw s) (ts_utxoBroadcasted s).
Definition set_currency (c : CryptoCurrency) (s : transferState) : transferState :=
  mkTransferState (ts_out s) c (ts_txRaw s) (ts_utxoBroadcasted s).
Definition set_txRaw (raw : string) (s : transferState) : transferState :=
  mkTransferState (ts_out s) (ts_currency s) raw (ts_utxoBroadcasted s).
Definition set_broadcasted (s : transferState) : transferState :=
  mkTransferState (ts_out s) (ts_currency s) (ts_txRaw s) true.

Definition out_IsTest (b : bool) (o : internalTransferOutput) : internalTransferOutput :=
  mkTransferOut (ito_Transaction o) (ito_TransactionRaw o) (ito_TransactionHashID o) (ito_Amount o)
    (ito_BalanceDecremented o) b.
Definition out_raw (raw : string) (amount : Money) (o : internalTransferOutput) : internalTransferOutput :=
  mkTransferOut (ito_Transaction o) raw (ito_TransactionHashID o) amount (ito_BalanceDecremented o) (ito_IsTest o).
Definition out_transaction (tx : Transaction.Transaction) (o : internalTransferOutput) : internalTransferOutput :=
  mkTransferOut (Some tx) (ito_TransactionRaw o) (ito_TransactionHashID o) (ito_Amount o)
    (ito_BalanceDecremented o) (ito_IsTest o).
Definition out_decremented (o : internalTransferOutput) : internalTransferOutput :=
  mkTransferOut (ito_Transaction o) (ito_TransactionRaw o) (ito_TransactionHashID o) (ito_Amount o) true (ito_IsTest o).
Definition out_hash (hash : string) (o : internalTransferOutput) : internalTransferOutput :=
  mkTransferOut (ito_Transaction o) (ito_TransactionRaw o) hash (ito_Amount o) (ito_BalanceDecremented o) (ito_IsTest o).

(** We can transfer all tokens, but of coins some are kept for gas. *)
Definition determineInternalTransferAmount (crypto : string) (amount : Money) : res Money :=
  if bool_decide (crypto = Token) then Ok amount else MultiplyFloat64 amount transferableCoinPercentage.

Definition balanceKey (entityType networkID currency : string) : string :=
  entityType +:+ "/" +:+ networkID +:+ "/" +:+ currency.
Definition key_of (b : WalletBalance.Balance) : string :=
  balanceKey (WalletBalance.bal_EntityType b) (WalletBalance.bal_NetworkID b) (WalletBalance.bal_Currency b).

Section Service.
Context `{Resolver} `{Catalog} `{BlockchainService} `{Payment.Publisher} `{Scheduler}.
Context `{WalletTransaction.KMSTransactions} `{UTXOProviders} `{Btcutil}.

(** ** Creating *)

(** The transaction signed by the key service, and the amount it moves: what a
    sweep leaves of a UTXO wallet. *)
Definition sign_transfer (sender : Wallet.Wallet) (params : internalTransferInput) (currency : CryptoCurrency) (fee : Fee)
  (isTest : bool) : Tracked transferState Money :=
  let recipient := Wallet.wal_Address (it_RecipientWallet params) in
  if isUTXOBlockchain (cc_Blockchain currency) then
    '(txRaw, plan) ← call (wrapM (WalletTransaction.CreateSignedUTXOSweepTransaction sender recipient currency fee isTest)
      "unable to create raw signed transaction");
    _ ← set (set_txRaw txRaw);
    call (wrapM (lift (CryptoCurrency_MakeAmount currency (FormatInt (p_RequiredAmountSat plan))))
      "unable to create raw signed transaction")
  else
    txRaw ← call (wrapM (WalletTransaction.CreateSignedTransaction sender recipient currency (it_Amount params) fee isTest)
      "unable to create raw signed transaction");
    _ ← set (set_txRaw txRaw);
    mret (it_Amount params).

Definition transfer_meta (tx : Transaction.Transaction) (params : internalTransferInput) : WalletBalance.MetaData :=
  Some (<[WalletBalance.MetaTransactionID := FormatInt (Transaction.tx_ID tx)]>
    (<[WalletBalance.MetaSenderWalletID := FormatInt (Wallet.wal_ID (it_SenderWallet params))]>
    {[WalletBalance.MetaRecipientWalletID := FormatInt (Wallet.wal_ID (it_RecipientWallet params))]})).

(** Sending: from the broadcast on. A failure to store the hash is only
    logged. *)
Definition broadcast_transfer (sender : Wallet.Wallet) (tx : Transaction.Transaction) (currency : CryptoCurrency)
  (txRaw : string) (isTest : bool) : Tracked transferState unit :=
  transactionHashID ← call (wrapM (BroadcastTransaction (cc_Blockchain currency) txRaw isTest)
    ("unable to broadcast transaction to " +:+ cc_Blockchain currency));
  _ ← set (with_out (out_hash transactionHashID));
  _ ← (if isUTXOBlockchain (cc_Blockchain currency) then
      _ ← set set_broadcasted;
      call (wrapM (WalletTransaction.MarkBitcoinTransactionBroadcasted (Wallet.wal_ID sender) txRaw transactionHashID isTest)
        "unable to mark UTXO reservations as broadcasted")
    else mret tt);
  _ ← call (attempt (Transaction.UpdateTransactionHash 0 (Transaction.tx_ID tx) transactionHashID));
  mret tt.

Definition create_transfer (sender : Wallet.Wallet) (params : internalTransferInput) : Tracked transferState unit :=
  baseCurrency ← call (wrapM (lift (GetNativeCoin (Wallet.wal_Blockchain sender))) "unable to get base currency");
  currency ← call (wrapM (lift (GetCurrencyByTicker (m_ticker (it_Amount params)))) "unable to get currency");
  _ ← set (set_currency currency);
  _ ← call (wrapM (lift (validateTransactionRuntimeBlockchain (cc_Blockchain currency)))
    ("internal transfer for " +:+ cc_Blockchain currency +:+ " is not supported by current runtime"));
  let isTest := bool_decide (cc_TestNetworkID currency = WalletBalance.bal_NetworkID (it_SenderBalance params)) in
  _ ← set (with_out (out_IsTest isTest));
  txNetworkFee ← call (wrapM (CalculateFee baseCurrency currency isTest) "unable to calculate fee");
  transferAmount ← sign_transfer sender params currency txNetworkFee isTest;
  txRaw ← (fun s => mret (s, inl (ts_txRaw s)));
  _ ← set (with_out (out_raw txRaw transferAmount));
  conv ← call (wrapM (CryptoToFiat transferAmount USD) ("unable to convert " +:+ cc_Ticker currency +:+ " to USD"));
  tx ← call (wrapM (Transaction.Create 0 (Transaction.mkCreate Transaction.TypeInternal 0 "" (Some (it_SenderWallet params))
    "" (Some (it_RecipientWallet params)) "" currency transferAmount (Convertor.cv_To conv) Money_zero isTest false) false)
    "unable to create database transaction");
  _ ← set (with_out (out_transaction tx));
  _ ← call (wrapM (WalletBalance.UpdateBalanceByID (WalletBalance.bal_ID (it_SenderBalance params))
    (WalletBalance.mkUpdateBalanceByIDQuery WalletBalance.OperationDecrement transferAmount
      "locking balance for internal transaction" (transfer_meta tx params))) "unable to decrement sender balance");
  _ ← set (with_out out_decremented);
  broadcast_transfer sender tx currency txRaw isTest.

(** The deferred call: the inputs of a transaction that was not broadcast are
    released; a failure of it is only logged. *)
Definition createInternalTransfer (sender : Wallet.Wallet) (params : internalTransferInput) :
  Go (internalTransferOutput * option error) :=
  '(s, r) ← create_transfer sender params transfer_start;
  match r with
  | inl _ => mret (ts_out s, None)
  | inr e =>
    if bool_decide (ts_txRaw s = "") || ts_utxoBroadcasted s || negb (isUTXOBlockchain (cc_Blockchain (ts_currency s)))
    then mret (ts_out s, Some e)
    else
      _ ← attempt (WalletTransaction.ReleaseBitcoinTransactionReservations (Wallet.wal_ID sender) (ts_txRaw s)
        (ito_IsTest (ts_out s)));
      mret (ts_out s, Some e)
  end.

Definition rollbackInternalTransfer (input : internalTransferInput) (out : internalTransferOutput) (errOut : error) : Go unit :=
  _ ← (if negb (bool_decide (ito_TransactionRaw out = "")) &&
          negb (isUTXOBlockchain (Wallet.wal_Blockchain (it_SenderWallet input))) then
      wrapM (Wallet.DecrementPendingTransaction (Wallet.wal_ID (it_SenderWallet input)) (ito_IsTest out))
        "unable to decrement pending transaction"
    else mret tt);
  _ ← match ito_Transaction out with
    | Some tx => wrapM (Transaction.Cancel tx Transaction.StatusCancelled
        ("internal transfer rollback. Reason: " +:+ error_string errOut) None) "unable to cancel transaction"
    | None => mret tt
    end;
  if negb (ito_BalanceDecremented out) then mret tt else
  let amount := if Money_IsZero (ito_Amount out) then it_Amount input else ito_Amount out in
  match ito_Transaction out with
  | None => panic Broadcaster.nil_pointer
  | Some tx =>
    _ ← wrapM (WalletBalance.UpdateBalanceByID (WalletBalance.bal_ID (it_SenderBalance input))
      (WalletBalance.mkUpdateBalanceByIDQuery WalletBalance.OperationIncrement amount
        "Unlocking balance due to internal transfer rollback"
        (Some {[WalletBalance.MetaTransactionID := FormatInt (Transaction.tx_ID tx)]}))) "unable to rollback balance";
    mret tt
  end.

(** ** The outbound wallets, by id, and their balances, by key *)
Definition wallet_balances (w : Wallet.Wallet) (results : gmap string WalletBalance.Balance) :
  Go (gmap string WalletBalance.Balance) :=
  balances ← WalletBalance.ListBalances usd_value WalletBalance.EntityTypeWallet (Wallet.wal_ID w) false;
  mret (fold_left (fun m b => <[key_of b := b]> m) balances results).

Definition getOutboundWalletsWithBalancesAsMap :
  Go (gmap Z Wallet.Wallet * gmap string WalletBalance.Balance) :=
  '(wallets, _) ← wrapM (Wallet.List_ (Wallet.mkPagination 0 100 "" Wallet.TypeOutbound)) "unable to list wallets";
  results ← group_ctx wallet_balances wallets ∅;
  mret (Payment.KeyFunc Wallet.wal_ID wallets, results).

(** ** Validating the balances of a batch *)
Definition validate_inbound (b : WalletBalance.Balance) : Go unit :=
  if Money_IsZero (WalletBalance.bal_Amount b) then fail (ENew "balance is empty") else
  w ← wrapM (Wallet.GetByID (WalletBalance.bal_EntityID b)) "unable to get wallet by id";
  if negb (bool_decide (Wallet.wal_Type w = Wallet.TypeInbound)) then fail (ENew "wallet is not inbound") else
  minAmount ← wrapM (lift (USDMinimalInternalTransfer (WalletBalance.bal_Currency b)))
    ("unable to get minimal internal transfer for " +:+ WalletBalance.bal_Currency b);
  currency ← wrapM (lift (GetCurrencyByTicker (WalletBalance.bal_Currency b))) "unable to get currency by ticker";
  conv ← wrapM (FiatToCrypto minAmount currency)
    ("unable to convert " +:+ m_ticker minAmount +:+ " to " +:+ WalletBalance.bal_Currency b);
  if LessThan (WalletBalance.bal_Amount b) (Convertor.cv_To conv) then
    fail (ENew ("insufficient amount for " +:+ m_ticker (WalletBalance.bal_Amount b)))
  else mret tt.

(** The loop stops at a balance of another entity while goroutines it has
    started still run: they only read. *)
Definition validateInboundBalances (balances : list WalletBalance.Balance) : Go unit :=
  if negb (bool_decide (NoDup (map WalletBalance.bal_ID balances))) then fail (ENew "balances contain duplicates")
  else if negb (forallb (fun b => bool_decide (WalletBalance.bal_EntityType b = WalletBalance.EntityTypeWallet)) balances)
  then fail (EWrap ErrInboundWallet "balance is not related to oxygen wallet")
  else group_ctx (fun b _ => validate_inbound b) balances tt.

(** ** Batches *)
Definition transfer_one (outboundWallets : gmap Z Wallet.Wallet) (outboundBalances : gmap string WalletBalance.Balance)
  (b : WalletBalance.Balance) (result : TransferResult) : Go (TransferResult * option error) :=
  let registered e := mret (registerErr (Some e) result, None) in
  r ← attempt (Wallet.GetByID (WalletBalance.bal_EntityID b));
  match r with
  | inr e => registered (EWrap e "unable to get wallet")
  | inl senderWallet =>
    match outboundBalances !! key_of b with
    | None => registered (ENew ("unable to find outbound balance for " +:+ key_of b))
    | Some recipientBalance =>
      match outboundWallets !! WalletBalance.bal_EntityID recipientBalance with
      | None => registered (ENew ("unable to find outbound wallet for " +:+ WalletBalance.bal_Currency b))
      | Some recipientWallet =>
        amount ← attempt (lift (determineInternalTransferAmount (WalletBalance.bal_CurrencyType b) (WalletBalance.bal_Amount b)));
        match amount with
        | inr e => registered (EWrap e "unable to calculate amount to transfer")
        | inl amount =>
          let params := mkTransfer senderWallet b recipientWallet amount in
          '(output, errTransfer) ← createInternalTransfer senderWallet params;
          match errTransfer, ito_Transaction output with
          | None, Some tx => mret (addTransaction tx result, None)
          | None, None => panic Broadcaster.nil_pointer
          | Some errTransfer, transaction =>
            r ← attempt (rollbackInternalTransfer params output errTransfer);
            let result := registerErr (returned r) result in
            match r with
            | inr e => mret (result, Some (EWrap e "unable to rollback internal transfer"))
            | inl _ => mret (match transaction with Some tx => addRollbackID (Transaction.tx_ID tx) result | None => result end, None)
            end
          end
        end
      end
    end
  end.

(** Returns the result together with the error of a rollback. A transfer
    without an error has its transaction. *)
Definition BatchCreateInternalTransfers (inboundBalances : list WalletBalance.Balance) : Go (TransferResult * option error) :=
  _ ← wrapM (validateInboundBalances inboundBalances) "validation error: balances are invalid";
  '(outboundWallets, outboundBalances) ← wrapM getOutboundWalletsWithBalancesAsMap
    "unable to get outbound wallets with balances";
  group_state (transfer_one outboundWallets outboundBalances) inboundBalances no_transfers.

(** ** Checking *)
Definition confirmInternalTransfer (tx : Transaction.Transaction) (receipt : Broadcaster.TransactionReceipt) : Go unit :=
  match Transaction.tx_SenderWalletID tx, Transaction.tx_RecipientWalletID tx, Transaction.tx_HashID tx with
  | Some senderWalletID, Some _, Some txHashID =>
    senderWallet ← wrapM (Wallet.GetByID senderWalletID) "unable to get sender wallet id";
    _ ← (if negb (isUTXOBlockchain (cc_Blockchain (Transaction.tx_Currency tx))) then
        wrapM (Wallet.IncrementConfirmedTransaction (Wallet.wal_ID senderWallet) (Transaction.tx_IsTest tx))
          "unable to confirm wallet's nonce"
      else mret tt);
    _ ← wrapM (Transaction.Confirm Transaction.SystemMerchantID (Transaction.tx_ID tx)
      (Transaction.AllowZeroNetworkFee (Transaction.mkConfirm Transaction.StatusCompleted (Wallet.wal_Address senderWallet)
        txHashID (Transaction.tx_Amount tx) (Broadcaster.rc_NetworkFee receipt) (Transaction.tx_MetaData tx) false)))
      "unable to update transaction";
    mret tt
  | _, _, _ => panic Broadcaster.nil_pointer
  end.

Definition cancelInternalTransfer (tx : Transaction.Transaction) (receipt : Broadcaster.TransactionReceipt) : Go unit :=
  match Transaction.tx_SenderWalletID tx with
  | None => panic Broadcaster.nil_pointer
  | Some sender =>
    _ ← (if negb (isUTXOBlockchain (cc_Blockchain (Transaction.tx_Currency tx))) then
        wrapM (Wallet.IncrementConfirmedTransaction sender (Transaction.tx_IsTest tx)) "unable to confirm nonce"
      else mret tt);
    _ ← wrapM (Transaction.Cancel tx Transaction.StatusFailed revertReason (Some (Broadcaster.rc_NetworkFee receipt)))
      "unable to cancel transaction";
    senderBalance ← wrapM (WalletBalance.GetWalletsBalance sender (cc_Ticker (Transaction.tx_Currency tx))
      (Transaction.NetworkID tx)) "unable to get sender wallet balance";
    _ ← wrapM (WalletBalance.UpdateBalanceByID (WalletBalance.bal_ID senderBalance)
      (WalletBalance.mkUpdateBalanceByIDQuery WalletBalance.OperationIncrement (Transaction.tx_Amount tx)
        "transaction was reverted by blockchain"
        (Some {[WalletBalance.MetaTransactionID := FormatInt (Transaction.tx_ID tx)]})))
      "unable to increment sender's wallet balance";
    mret tt
  end.

Definition checkInternalTransaction (txID : Z) : Go unit :=
  tx ← wrapM (Transaction.GetByID Transaction.SystemMerchantID txID) "unable to get transaction";
  if negb (bool_decide (Transaction.tx_Type tx = Transaction.TypeInternal)) then fail (ENew "invalid transaction type") else
  match Transaction.tx_HashID tx with
  | None => fail (ENew "empty transaction hash")
  | Some hash =>
    if bool_decide (Transaction.tx_SenderWalletID tx = None) then fail (ENew "empty sender wallet id")
    else if bool_decide (Transaction.tx_RecipientWalletID tx = None) then fail (ENew "empty recipient wallet id")
    else
      receipt ← wrapM (GetTransactionReceipt (cc_Blockchain (Transaction.tx_Currency tx)) hash (Transaction.tx_IsTest tx))
        "unable to get transaction receipt";
      if negb (Broadcaster.rc_IsConfirmed receipt) then mret tt
      else if negb (Broadcaster.rc_Success receipt) then
        wrapM (cancelInternalTransfer tx receipt) "unable to cancel internal transfer"
      else wrapM (confirmInternalTransfer tx receipt) "unable to confirm internal transfer"
  end.

Definition BatchCheckInternalTransfers (transactionIDs : list Z) : Go unit :=
  group_Wait checkInternalTransaction transactionIDs.
End Service.
