(* ===== verification/Payouts.v ===== *)
(** * Payouts: paying withdrawals

    [internal/service/processing/service_withdrawal.go]: creating the
    transactions of the pending withdrawals, consolidating UTXO wallets when
    none can pay alone, rolling back, checking, confirming and cancelling. *)

From S2P Require Import Prelude GoLib Float64 KmsWallet Money Repository Queries Fees Bitcoin Currencies Nodes Blockchain.
From S2P Require Import Processing Incoming Transfers.
From S2P Require Wallet WalletBalance WalletTransaction Transaction Merchant Payment Withdrawal Convertor.
From S2P Require Broadcaster.

Definition maxUTXOWithdrawalConsolidationSources : nat := 8.

Record utxoWithdrawalSource := mkUTXOSource { uws_Wallet : Wallet.Wallet; uws_Balance : WalletBalance.Balance }.

Record withdrawalInput := mkWithdrawalInput {
  wi_Withdrawal : Payment.Payment; wi_Wallet : Wallet.Wallet; wi_SystemBalance : WalletBalance.Balance;
  wi_MerchantBalance : WalletBalance.Balance; wi_MerchantAddress : Merchant.Address
}.

Record withdrawalOutput := mkWithdrawalOut {
  wo_Transaction : option Transaction.Transaction; wo_TransactionRaw : string; wo_TransactionHashID : string;
  wo_MarkPaymentAsFailed : bool; wo_ServiceFee : Money; wo_BalanceDecremented : bool; wo_IsTest : bool
}.

(** The named result of [createWithdrawal] and the variables of its deferred
    call. *)
Record withdrawalState := mkWithdrawalState {
  ws_out : withdrawalOutput; ws_currency : CryptoCurrency; ws_txRaw : string; ws_utxoBroadcasted : bool
}.
Definition withdrawal_start : withdrawalState :=
  mkWithdrawalState (mkWithdrawalOut None "" "" false Money_zero false false) zero_crypto "" false.

Definition with_out (f : withdrawalOutput -> withdrawalOutput) (s : withdrawalState) : withdrawalState :=
  mkWithdrawalState (f (ws_out s)) (ws_currency s) (ws_txRaw s) (ws_utxoBroadcasted s).
Definition set_currency (c : CryptoCurrency) (s : withdrawalState) : withdrawalState :=
  mkWithdrawalState (ws_out s) c (ws_txRaw s) (ws_utxoBroadcasted s).
Definition set_txRaw (raw : string) (s : withdrawalState) : withdrawalState :=
  mkWithdrawalState (ws_out s) (ws_currency s) raw (ws_utxoBroadcasted s).
Definition set_broadcasted (s : withdrawalState) : withdrawalState :=
  mkWithdrawalState (ws_out s) (ws_currency s) (ws_txRaw s) true.

Definition out_transaction (tx : Transaction.Transaction) (o : withdrawalOutput) : withdrawalOutput :=
  mkWithdrawalOut (Some tx) (wo_TransactionRaw o) (wo_TransactionHashID o) (wo_MarkPaymentAsFailed o) (wo_ServiceFee o)
    (wo_BalanceDecremented o) (wo_IsTest o).
Definition out_raw (raw : string) (o : withdrawalOutput) : withdrawalOutput :=
  mkWithdrawalOut (wo_Transaction o) raw (wo_TransactionHashID o) (wo_MarkPaymentAsFailed o) (wo_ServiceFee o)
    (wo_BalanceDecremented o) (wo_IsTest o).
Definition out_hash (hash : string) (o : withdrawalOutput) : withdrawalOutput :=
  mkWithdrawalOut (wo_Transaction o) (wo_TransactionRaw o) hash (wo_MarkPaymentAsFailed o) (wo_ServiceFee o)
    (wo_BalanceDecremented o) (wo_IsTest o).
Definition out_failed (o : withdrawalOutput) : withdrawalOutput :=
  mkWithdrawalOut (wo_Transaction o) (wo_TransactionRaw o) (wo_TransactionHashID o) true (wo_ServiceFee o)
    (wo_BalanceDecremented o) (wo_IsTest o).
Definition out_fee (fee : Money) (o : withdrawalOutput) : withdrawalOutput :=
  mkWithdrawalOut (wo_Transaction o) (wo_TransactionRaw o) (wo_TransactionHashID o) (wo_MarkPaymentAsFailed o) fee
    (wo_BalanceDecremented o) (wo_IsTest o).
Definition out_decremented (o : withdrawalOutput) : withdrawalOutput :=
  mkWithdrawalOut (wo_Transaction o) (wo_TransactionRaw o) (wo_TransactionHashID o) (wo_MarkPaymentAsFailed o)
    (wo_ServiceFee o) true (wo_IsTest o).
Definition out_IsTest (b : bool) (o : withdrawalOutput) : withdrawalOutput :=
  mkWithdrawalOut (wo_Transaction o) (wo_TransactionRaw o) (wo_TransactionHashID o) (wo_MarkPaymentAsFailed o)
    (wo_ServiceFee o) (wo_BalanceDecremented o) b.

(** A customer can delete the address while the withdrawal is pending. *)
Definition validateWithdrawal (pt : Payment.Payment) : res unit :=
  _ ← guard_err (negb (bool_decide (Payment.pay_Type pt = Payment.TypeWithdrawal)))
    (EWrap ErrInvalidInput "payment is not withdrawal");
  _ ← guard_err (negb (bool_decide (Payment.pay_Status pt = Payment.StatusPending)))
    (EWrap ErrInvalidInput "withdrawal is not pending");
  _ ← guard_err (Payment.pay_MerchantID pt =? 0) (EWrap ErrInvalidInput "invalid merchant id");
  _ ← guard_err (Payment.WithdrawalBalanceID pt <? 1) (EWrap ErrInvalidInput "invalid balance id");
  guard_err (Payment.WithdrawalAddressID pt <? 1) (EWrap ErrInvalidInput "invalid address id").

(** ** Choosing what to consolidate *)
Fixpoint select_candidates (selected : list utxoWithdrawalSource) (total target : Money)
  (candidates : list utxoWithdrawalSource) : res (list utxoWithdrawalSource) :=
  match candidates with
  | [] => Ok selected
  | candidate :: candidates =>
    if (maxUTXOWithdrawalConsolidationSources <=? length selected)%nat || GreaterThanOrEqual total target then Ok selected
    else
      total ← Money_Add total (WalletBalance.bal_Amount (uws_Balance candidate));
      select_candidates (selected ++ [candidate]) total target candidates
  end.

Definition selectUTXOConsolidationCandidates (candidates : list utxoWithdrawalSource) (targetAmount : Money) :
  res (list utxoWithdrawalSource) :=
  totalAmount ← Money_Sub targetAmount targetAmount;
  select_candidates [] totalAmount targetAmount candidates.

Definition larger (a b : utxoWithdrawalSource) : bool :=
  GreaterThan (WalletBalance.bal_Amount (uws_Balance a)) (WalletBalance.bal_Amount (uws_Balance b)).

Definition funded (currency : CryptoCurrency) (networkID : string) (b : WalletBalance.Balance) : bool :=
  bool_decide (WalletBalance.bal_Currency b = cc_Ticker currency) &&
  bool_decide (WalletBalance.bal_NetworkID b = networkID) && negb (Money_IsZero (WalletBalance.bal_Amount b)).

Section Service.
Context `{Resolver} `{Catalog} `{BlockchainService} `{Payment.Publisher} `{Scheduler}.
Context `{WalletTransaction.KMSTransactions} `{UTXOProviders} `{Btcutil}.
Context (config : Config).

Let basePath : string := PaymentFrontendPath config.

Fixpoint inbound_page (currency : CryptoCurrency) (networkID : string) (wallets : list Wallet.Wallet) :
  Go (list utxoWithdrawalSource) :=
  match wallets with
  | [] => mret []
  | sourceWallet :: wallets =>
    balances ← wrapM (WalletBalance.ListBalances usd_value WalletBalance.EntityTypeWallet (Wallet.wal_ID sourceWallet) false)
      "unable to list inbound wallet balances";
    rest ← inbound_page currency networkID wallets;
    mret (map (mkUTXOSource sourceWallet) (List.filter (funded currency networkID) balances) ++ rest)
  end.

(** The pages of 300 wallets. The cursor of a page may be a wallet of another
    type, whose own page then starts behind it. *)
Fixpoint inbound_pages (fuel : nat) (start : Z) (currency : CryptoCurrency) (networkID : string) :
  Go (list utxoWithdrawalSource) :=
  match fuel with
  | O => panic "out of fuel"
  | S fuel =>
    '(wallets, nextID) ← wrapM (Wallet.List_ (Wallet.mkPagination start 300 (cc_Blockchain currency) Wallet.TypeInbound))
      "unable to list inbound wallets";
    sources ← inbound_page currency networkID wallets;
    match nextID with
    | None => mret sources
    | Some next => rest ← inbound_pages fuel next currency networkID; mret (sources ++ rest)
    end
  end.

(** Every page but the last starts behind a wallet of the one before. *)
Definition listInboundUTXOSources (currency : CryptoCurrency) (isTest : bool) : Go (list utxoWithdrawalSource) :=
  fuel ← gets (fun w => S (length (rows (wallets (db w)))));
  candidates ← inbound_pages fuel 0 currency (ChooseNetwork currency isTest);
  mret (SliceStable larger candidates).

(** ** Consolidating *)
Fixpoint consolidate (outboundWallet : Wallet.Wallet) (targetAmount : Money) (candidates : list utxoWithdrawalSource)
  (consolidatedAmount : Money) (result : TransferResult) : Go TransferResult :=
  match candidates with
  | [] => mret result
  | candidate :: candidates =>
    if GreaterThanOrEqual consolidatedAmount targetAmount then mret result else
    let params := mkTransfer (uws_Wallet candidate) (uws_Balance candidate) outboundWallet
      (WalletBalance.bal_Amount (uws_Balance candidate)) in
    '(output, errTransfer) ← createInternalTransfer (uws_Wallet candidate) params;
    match errTransfer, ito_Transaction output with
    | Some errTransfer, transaction =>
      r ← attempt (rollbackInternalTransfer params output errTransfer);
      let result := registerErr (Some (match r with inl _ => errTransfer | inr e => e end)) result in
      let result := match transaction with Some tx => addRollbackID (Transaction.tx_ID tx) result | None => result end in
      consolidate outboundWallet targetAmount candidates consolidatedAmount result
    | None, None => panic Broadcaster.nil_pointer
    | None, Some tx =>
      let result := addTransaction tx result in
      match Money_Add consolidatedAmount (ito_Amount output) with
      | Ok total => consolidate outboundWallet targetAmount candidates total result
      | Err e => mret (registerErr (Some (EWrap e "unable to track UTXO consolidation amount")) result)
      | Panic p => panic p
      end
    end
  end.

Definition createUTXOConsolidations (currency : CryptoCurrency) (isTest : bool) (outboundWallet : Wallet.Wallet)
  (candidates : list utxoWithdrawalSource) (targetAmount : Money) : Go TransferResult :=
  zero ← attempt (lift (CryptoCurrency_MakeAmount currency "0"));
  match zero with
  | inr e => mret (registerErr (Some (EWrap e "unable to initialize UTXO consolidation amount")) no_transfers)
  | inl consolidatedAmount =>
    selected ← attempt (lift (selectUTXOConsolidationCandidates candidates targetAmount));
    match selected with
    | inr e => mret (registerErr (Some (EWrap e "unable to select UTXO consolidation candidates")) no_transfers)
    | inl candidates => consolidate outboundWallet targetAmount candidates consolidatedAmount no_transfers
    end
  end.

(** The wallet that pays, if one can; otherwise the consolidation that was
    started. When it created nothing the caller drops it for the error. *)
Definition resolveUTXOWithdrawalSource (currency : CryptoCurrency) (isTest : bool) (amount : Money)
  (outboundWallet : Wallet.Wallet) (outboundBalance : WalletBalance.Balance) :
  Go (option (Wallet.Wallet * WalletBalance.Balance) * TransferResult) :=
  if is_ok (WalletBalance.Covers outboundBalance [amount]) then mret (Some (outboundWallet, outboundBalance), no_transfers)
  else
    candidates ← listInboundUTXOSources currency isTest;
    match List.find (fun c => is_ok (WalletBalance.Covers (uws_Balance c) [amount])) candidates with
    | Some c => mret (Some (uws_Wallet c, uws_Balance c), no_transfers)
    | None =>
      consolidation ← createUTXOConsolidations currency isTest outboundWallet candidates amount;
      if (0 <? length (CreatedTransactions consolidation))%nat then mret (None, consolidation)
      else fail (EWrap ErrInsufficientFunds ("no single " +:+ cc_Ticker currency +:+ " wallet can fund withdrawal and " +:+
        "no economical inbound UTXO consolidation could be started"))
    end.

(** ** Creating a withdrawal *)
Definition withdrawalServiceFeeCrypto (baseCurrency currency : CryptoCurrency) (networkFee : Fee) (isTest : bool) : Go Money :=
  if isUTXOBlockchain (cc_Blockchain currency) then
    utxoFee ← lift (ToBitcoinFee networkFee);
    lift (CryptoCurrency_MakeAmount currency (btc_TotalCostSats utxoFee))
  else
    withdrawalFeeUSD ← wrapM (CalculateWithdrawalFeeUSD baseCurrency currency isTest)
      "unable to get currency withdrawal fee in USD";
    withdrawalFeeCrypto ← FiatToCrypto withdrawalFeeUSD currency;
    mret (Convertor.cv_To withdrawalFeeCrypto).

Definition not_enough : string := "merchant balance has not enough funds for withdrawal".

(** An error that also marks the payment as failed. *)
Definition mark_failed {A} (r : res A) (msg : string) : Tracked withdrawalState A := fun s =>
  match r with
  | Ok a => mret (s, inl a)
  | Err e => mret (with_out out_failed s, inr (EWrap e msg))
  | Panic p => panic p
  end.

(** A call whose error marks the payment as failed when it is [target]. *)
Definition call_failing {A} (target : error) (msg : string) (m : Go A) : Tracked withdrawalState A := fun s =>
  r ← attempt m;
  match r with
  | inl a => mret (s, inl a)
  | inr e => mret (if errors_Is e target then with_out out_failed s else s, inr (EWrap e msg))
  end.

(** Returns the service fee: of a UTXO transaction, what its plan pays. *)
Definition sign_withdrawal (params : withdrawalInput) (currency : CryptoCurrency) (fee : Fee) (isTest : bool)
  (amount serviceFee : Money) : Tracked withdrawalState Money :=
  let recipient := Merchant.adr_Address (wi_MerchantAddress params) in
  if isUTXOBlockchain (cc_Blockchain currency) then
    '(txRaw, plan) ← call (wrapM (WalletTransaction.CreateSignedUTXOTransaction (wi_Wallet params) recipient currency amount
      fee isTest) "unable to create raw signed transaction");
    _ ← set (set_txRaw txRaw);
    serviceFee ← call (wrapM (lift (CryptoCurrency_MakeAmount currency (FormatInt (p_FeeSats plan))))
      "unable to create raw signed transaction");
    _ ← set (with_out (out_fee serviceFee));
    mret serviceFee
  else
    txRaw ← call (wrapM (WalletTransaction.CreateSignedTransaction (wi_Wallet params) recipient currency amount fee isTest)
      "unable to create raw signed transaction");
    _ ← set (set_txRaw txRaw);
    mret serviceFee.

(** From the broadcast on: a failure to store the hash is only logged, a
    failure to update the payment ends in an error. *)
Definition broadcast_withdrawal (params : withdrawalInput) (tx : Transaction.Transaction) (currency : CryptoCurrency)
  (txRaw : string) (isTest : bool) : Tracked withdrawalState unit :=
  let merchantID := Payment.pay_MerchantID (wi_Withdrawal params) in
  transactionHashID ← call_failing ErrInsufficientFunds ("unable to broadcast transaction to " +:+ cc_Blockchain currency)
    (BroadcastTransaction (cc_Blockchain currency) txRaw isTest);
  _ ← set (with_out (out_hash transactionHashID));
  _ ← (if isUTXOBlockchain (cc_Blockchain currency) then
      _ ← set set_broadcasted;
      call (wrapM (WalletTransaction.MarkBitcoinTransactionBroadcasted (Wallet.wal_ID (wi_Wallet params)) txRaw
        transactionHashID isTest) "unable to mark UTXO reservations as broadcasted")
    else mret tt);
  _ ← call (attempt (Transaction.UpdateTransactionHash merchantID (Transaction.tx_ID tx) transactionHashID));
  _ ← call (wrapM (Payment.Update basePath merchantID (Payment.pay_ID (wi_Withdrawal params)) Payment.StatusInProgress)
    "unable to update payment");
  mret tt.

(** From the signed transaction to the decremented balances. *)
Definition book_withdrawal (params : withdrawalInput) (currency : CryptoCurrency) (isTest : bool) (amount serviceFee : Money) :
  Tracked withdrawalState Transaction.Transaction :=
  let withdrawal := wi_Withdrawal params in
  conv ← call (wrapM (CryptoToFiat amount USD) ("unable to convert " +:+ m_ticker amount +:+ " to USD"));
  tx ← call (wrapM (Transaction.Create (Payment.pay_MerchantID withdrawal) (Transaction.mkCreate Transaction.TypeWithdrawal
    (Payment.pay_ID withdrawal) "" (Some (wi_Wallet params)) (Merchant.adr_Address (wi_MerchantAddress params)) None ""
    currency amount (Convertor.cv_To conv) serviceFee isTest false) false) "unable to create database transaction");
  _ ← set (with_out (out_transaction tx));
  _ ← call_failing WalletBalance.ErrInsufficienceMerchantBalance "unable to decrement balances for withdrawal"
    (WalletBalance.UpdateBalancesForWithdrawal (WalletBalance.mkUpdateBalancesForWithdrawal WalletBalance.OperationDecrement
      (Transaction.tx_ID tx) (Some (wi_SystemBalance params)) (Some (wi_MerchantBalance params)) amount serviceFee
      "Decrementing balances for withdrawal"));
  _ ← set (with_out out_decremented);
  mret tx.

Definition create_withdrawal (params : withdrawalInput) : Tracked withdrawalState unit :=
  baseCurrency ← call (wrapM (lift (GetNativeCoin (WalletBalance.bal_Network (wi_MerchantBalance params))))
    "unable to get base currency");
  currency ← call (wrapM (lift (GetCurrencyByTicker (WalletBalance.bal_Currency (wi_MerchantBalance params))))
    "unable to get currency");
  _ ← set (set_currency currency);
  _ ← mark_failed (validateTransactionRuntimeBlockchain (cc_Blockchain currency))
    ("withdrawal for " +:+ cc_Blockchain currency +:+ " is not supported by current runtime");
  let isTest := negb (bool_decide (cc_NetworkID currency = WalletBalance.bal_NetworkID (wi_MerchantBalance params))) in
  _ ← set (with_out (out_IsTest isTest));
  txNetworkFee ← call (wrapM (CalculateFee baseCurrency currency isTest) "unable to calculate network fee");
  serviceFee ← call (wrapM (withdrawalServiceFeeCrypto baseCurrency currency txNetworkFee isTest)
    "unable to get currency withdrawal fee in crypto");
  let amount := Payment.pay_Price (wi_Withdrawal params) in
  _ ← set (with_out (out_fee serviceFee));
  _ ← mark_failed (WalletBalance.Covers (wi_MerchantBalance params) [amount; serviceFee]) not_enough;
  _ ← call (wrapM (lift (WalletBalance.Covers (wi_SystemBalance params) [amount]))
    "system balance has not enough funds for withdrawal");
  serviceFee ← sign_withdrawal params currency txNetworkFee isTest amount serviceFee;
  _ ← mark_failed (WalletBalance.Covers (wi_MerchantBalance params) [amount; serviceFee]) not_enough;
  txRaw ← (fun s => mret (s, inl (ws_txRaw s)));
  _ ← set (with_out (out_raw txRaw));
  tx ← book_withdrawal params currency isTest amount serviceFee;
  broadcast_withdrawal params tx currency txRaw isTest.

(** With the deferred release of the inputs of a transaction that was not
    broadcast. *)
Definition createWithdrawal (params : withdrawalInput) : Go (withdrawalOutput * option error) :=
  '(s, r) ← create_withdrawal params withdrawal_start;
  match r with
  | inl _ => mret (ws_out s, None)
  | inr e =>
    if bool_decide (ws_txRaw s = "") || ws_utxoBroadcasted s || negb (isUTXOBlockchain (cc_Blockchain (ws_currency s)))
    then mret (ws_out s, Some e)
    else
      _ ← attempt (WalletTransaction.ReleaseBitcoinTransactionReservations (Wallet.wal_ID (wi_Wallet params)) (ws_txRaw s)
        (wo_IsTest (ws_out s)));
      mret (ws_out s, Some e)
  end.

(** The id stored with the restored balances is the payment's. *)
Definition rollbackWithdrawal (input : withdrawalInput) (out : withdrawalOutput) (errOut : error) : Go unit :=
  let withdrawal := wi_Withdrawal input in
  _ ← (if negb (bool_decide (wo_TransactionRaw out = "")) &&
          negb (isUTXOBlockchain (Wallet.wal_Blockchain (wi_Wallet input))) then
      wrapM (Wallet.DecrementPendingTransaction (Wallet.wal_ID (wi_Wallet input)) (wo_IsTest out))
        "unable to decrement pending transaction"
    else mret tt);
  _ ← match wo_Transaction out with
    | Some tx => wrapM (Transaction.Cancel tx Transaction.StatusCancelled
        ("withdrawal rollback. Reason: " +:+ error_string errOut) None) "unable to cancel transaction"
    | None => mret tt
    end;
  _ ← (if wo_BalanceDecremented out then
      wrapM (WalletBalance.UpdateBalancesForWithdrawal (WalletBalance.mkUpdateBalancesForWithdrawal
        WalletBalance.OperationIncrement (Payment.pay_ID withdrawal) (Some (wi_SystemBalance input))
        (Some (wi_MerchantBalance input)) (Payment.pay_Price withdrawal) (wo_ServiceFee out)
        "Balance rollback after failed transaction")) "unable to update balances"
    else mret tt);
  if wo_MarkPaymentAsFailed out then
    _ ← wrapM (Payment.Update basePath (Payment.pay_MerchantID withdrawal) (Payment.pay_ID withdrawal) Payment.StatusFailed)
      "unable to update withdrawal";
    mret tt
  else mret tt.

(** ** Batches *)
Definition add_consolidation (consolidation result : TransferResult) : TransferResult :=
  let result := fold_left (fun r tx => addTransaction tx r) (CreatedTransactions consolidation) result in
  let result := fold_left (fun r id => addRollbackID id r) (RollbackedTransactionIDs consolidation) result in
  fold_left (fun r e => registerErr (Some e) r) (UnhandledErrors consolidation) result.

Definition roll_back (params : withdrawalInput) (output : withdrawalOutput) (errWithdrawal : error) (result : TransferResult) :
  Go (TransferResult * option error) :=
  r ← attempt (rollbackWithdrawal params output errWithdrawal);
  let result := registerErr (returned r) result in
  match r with
  | inr e => mret (result, Some (EWrap e "unable to rollback withdrawal"))
  | inl _ => mret (match wo_Transaction output with
      | Some tx => addRollbackID (Transaction.tx_ID tx) result | None => result end, None)
  end.

(** Creates the withdrawal from the wallet that was chosen. A UTXO wallet that
    cannot pay after all starts a consolidation, and the withdrawal stays
    pending when it created transactions. *)
Definition pay_withdrawal (params : withdrawalInput) (currency : CryptoCurrency) (outboundWallet : Wallet.Wallet)
  (result : TransferResult) : Go (TransferResult * option error) :=
  let withdrawal := wi_Withdrawal params in
  '(output, errWithdrawal) ← createWithdrawal params;
  match errWithdrawal, wo_Transaction output with
  | None, Some tx => mret (addTransaction tx result, None)
  | None, None => panic Broadcaster.nil_pointer
  | Some errWithdrawal, Some _ => roll_back params output errWithdrawal result
  | Some errWithdrawal, None =>
    if isUTXOBlockchain (cc_Blockchain currency) && errors_Is errWithdrawal ErrInsufficientFunds then
      candidates ← attempt (listInboundUTXOSources currency (Payment.pay_IsTest withdrawal));
      match candidates with
      | inr e => mret (registerErr (Some (EWrap e "unable to list inbound UTXO sources")) result, None)
      | inl candidates =>
        consolidation ← createUTXOConsolidations currency (Payment.pay_IsTest withdrawal) outboundWallet candidates
          (Payment.pay_Price withdrawal);
        let result := add_consolidation consolidation result in
        if (0 <? length (CreatedTransactions consolidation))%nat then mret (result, None)
        else roll_back params output errWithdrawal result
      end
    else roll_back params output errWithdrawal result
  end.

(** What a withdrawal needs: its currency, the outbound wallet and its balance,
    the merchant's balance and address. *)
Definition withdrawal_parts (outboundWallets : gmap Z Wallet.Wallet) (outboundBalances : gmap string WalletBalance.Balance)
  (withdrawal : Payment.Payment) :
  Go (CryptoCurrency * WalletBalance.Balance * Wallet.Wallet * WalletBalance.Balance * Merchant.Address) :=
  currency ← wrapM (lift (GetCurrencyByTicker (m_ticker (Payment.pay_Price withdrawal)))) "unable to get withdrawal currency";
  let key := balanceKey WalletBalance.EntityTypeWallet (ChooseNetwork currency (Payment.pay_IsTest withdrawal))
    (cc_Ticker currency) in
  match outboundBalances !! key with
  | None => fail (ENew "unable to get withdrawal wallet balance")
  | Some systemBalance =>
    match outboundWallets !! WalletBalance.bal_EntityID systemBalance with
    | None => fail (ENew "unable to get withdrawal wallet")
    | Some withdrawalWallet =>
      merchantBalance ← wrapM (WalletBalance.GetBalanceByID WalletBalance.EntityTypeMerchant
        (Payment.pay_MerchantID withdrawal) (Payment.WithdrawalBalanceID withdrawal)) "unable to get merchant balance";
      merchantAddress ← wrapM (Merchant.GetMerchantAddressByID (Payment.pay_MerchantID withdrawal)
        (Payment.WithdrawalAddressID withdrawal)) "unable to get merchant address";
      mret (currency, systemBalance, withdrawalWallet, merchantBalance, merchantAddress)
    end
  end.

Definition withdraw_one (outboundWallets : gmap Z Wallet.Wallet) (outboundBalances : gmap string WalletBalance.Balance)
  (withdrawal : Payment.Payment) (result : TransferResult) : Go (TransferResult * option error) :=
  let registered e result := mret (registerErr (Some e) result, None) in
  match validateWithdrawal withdrawal with
  | Panic p => panic p
  | Err errValidate =>
    r ← attempt (Payment.Fail_ basePath withdrawal);
    match r with
    | inr e => registered (EWrap e "unable to mark invalid withdrawal as failed") result
    | inl _ => registered (EWrap errValidate "withdrawal is invalid, marked as failed") result
    end
  | Ok _ =>
    parts ← attempt (withdrawal_parts outboundWallets outboundBalances withdrawal);
    match parts with
    | inr e => registered e result
    | inl (currency, systemBalance, outboundWallet, merchantBalance, merchantAddress) =>
      let pay wallet balance result := pay_withdrawal
        (mkWithdrawalInput withdrawal wallet balance merchantBalance merchantAddress) currency outboundWallet result in
      if isUTXOBlockchain (cc_Blockchain currency) then
        source ← attempt (resolveUTXOWithdrawalSource currency (Payment.pay_IsTest withdrawal)
          (Payment.pay_Price withdrawal) outboundWallet systemBalance);
        match source with
        | inr e => registered (EWrap e "unable to resolve UTXO withdrawal source") result
        | inl (selected, consolidation) =>
          let result := add_consolidation consolidation result in
          match selected with
          | None => mret (result, None)
          | Some (selectedWallet, selectedBalance) => pay selectedWallet selectedBalance result
          end
        end
      else pay outboundWallet systemBalance result
    end
  end.

Definition BatchCreateWithdrawals (withdrawalIDs : list Z) : Go (TransferResult * option error) :=
  withdrawals ← Withdrawal.ListWithdrawals basePath Payment.StatusPending withdrawalIDs;
  '(outboundWallets, outboundBalances) ← wrapM getOutboundWalletsWithBalancesAsMap
    "unable to get outbound wallets with balances";
  group_state (withdraw_one outboundWallets outboundBalances) withdrawals no_transfers.

(** ** Checking *)
Definition confirm_nonce (tx : Transaction.Transaction) (sender : Z) : Go unit :=
  if negb (isUTXOBlockchain (cc_Blockchain (Transaction.tx_Currency tx))) then
    wrapM (Wallet.IncrementConfirmedTransaction sender (Transaction.tx_IsTest tx)) "unable to confirm nonce"
  else mret tt.

Definition confirmWithdrawal (tx : Transaction.Transaction) (receipt : Broadcaster.TransactionReceipt) : Go unit :=
  _ ← match Transaction.tx_SenderWalletID tx with
    | None => if negb (isUTXOBlockchain (cc_Blockchain (Transaction.tx_Currency tx))) then panic Broadcaster.nil_pointer
              else mret tt
    | Some sender => confirm_nonce tx sender
    end;
  match Transaction.tx_SenderAddress tx, Transaction.tx_HashID tx with
  | Some senderAddress, Some hash =>
    _ ← wrapM (Transaction.Confirm (Transaction.tx_MerchantID tx) (Transaction.tx_ID tx)
      (Transaction.mkConfirm Transaction.StatusCompleted senderAddress hash (Transaction.tx_Amount tx)
        (Broadcaster.rc_NetworkFee receipt) (Transaction.tx_MetaData tx) false)) "unable to confirm transaction";
    _ ← wrapM (Payment.Update basePath (Transaction.tx_MerchantID tx) (Transaction.tx_EntityID tx) Payment.StatusSuccess)
      "unable to mark withdrawal as successful";
    mret tt
  | _, _ => panic Broadcaster.nil_pointer
  end.

(** After the blockchain reported the transaction as failed. *)
Definition cancelWithdrawal (tx : Transaction.Transaction) (receipt : Broadcaster.TransactionReceipt) : Go unit :=
  match Transaction.tx_SenderWalletID tx with
  | None => panic Broadcaster.nil_pointer
  | Some sender =>
    _ ← confirm_nonce tx sender;
    _ ← wrapM (Transaction.Cancel tx Transaction.StatusFailed revertReason (Some (Broadcaster.rc_NetworkFee receipt)))
      "unable to cancel transaction";
    let ticker := cc_Ticker (Transaction.tx_Currency tx) in
    let networkID := Transaction.NetworkID tx in
    senderBalance ← wrapM (WalletBalance.GetWalletsBalance sender ticker networkID) "unable to get sender wallet balance";
    recipientBalance ← wrapM (WalletBalance.GetMerchantBalance (Transaction.tx_MerchantID tx) ticker networkID)
      "unable to get merchant wallet balance";
    _ ← wrapM (WalletBalance.UpdateBalancesForWithdrawal (WalletBalance.mkUpdateBalancesForWithdrawal
      WalletBalance.OperationIncrement (Transaction.tx_ID tx) (Some senderBalance) (Some recipientBalance)
      (Transaction.tx_Amount tx) (Transaction.tx_ServiceFee tx) "transaction was reverted by blockchain"))
      "unable update balances for withdrawal";
    _ ← wrapM (Payment.Update basePath (Transaction.tx_MerchantID tx) (Transaction.tx_EntityID tx) Payment.StatusFailed)
      "unable to mark withdrawal as failed";
    mret tt
  end.

Definition checkWithdrawalTransaction (txID : Z) : Go unit :=
  tx ← wrapM (Transaction.GetByID Transaction.MerchantIDWildcard txID) "unable to get transaction";
  match Transaction.tx_HashID tx with
  | None => fail (ENew "empty transaction hash")
  | Some hash =>
    if bool_decide (Transaction.tx_SenderWalletID tx = None) then fail (ENew "empty sender wallet id") else
    receipt ← wrapM (GetTransactionReceipt (cc_Blockchain (Transaction.tx_Currency tx)) hash (Transaction.tx_IsTest tx))
      "unable to get transaction receipt";
    if negb (Broadcaster.rc_IsConfirmed receipt) then mret tt
    else if negb (Broadcaster.rc_Success receipt) then wrapM (cancelWithdrawal tx receipt) "unable to cancel withdrawal"
    else wrapM (confirmWithdrawal tx receipt) "unable to confirm withdrawal"
  end.

Definition BatchCheckWithdrawals (transactionIDs : list Z) : Go unit :=
  group_Wait checkWithdrawalTransaction transactionIDs.
End Service.
