(* ===== verification/Scheduler.v ===== *)
(** * Scheduler: the periodic jobs

    [internal/scheduler/handler.go]: what each job selects and hands to the
    processing service. What a job writes to its log is not modelled; the
    entries of its start and end are in [Cron]. *)

From S2P Require Import Prelude GoLib Float64 KmsWallet Money Repository Queries Bitcoin Currencies Blockchain.
From S2P Require Import Processing Incoming Transfers Payouts.
From S2P Require Wallet WalletBalance WalletTransaction Transaction Payment Withdrawal Convertor Tatum.

(** The limit of every list. *)
Definition job_limit : Z := 200.

Section Handler.
Context `{Resolver} `{Catalog} `{BlockchainService} `{Payment.Publisher} `{Flow.Scheduler}.
Context `{Wallet.KMS} `{WalletTransaction.KMSTransactions} `{UTXOProviders} `{Btcutil} `{Tatum.TatumAPI}.
Context (config : Config) (tatumProvider : option Tatum.Config).

Let basePath : string := PaymentFrontendPath config.

(** The ids of the transactions of a type in some statuses. *)
Definition transaction_ids (type : string) (statuses : list string) (hashIsEmpty : bool) : Go (list Z) :=
  txs ← Transaction.ListByFilter (Transaction.mkFilter 0 "" "" [type] statuses hashIsEmpty) job_limit;
  mret (map Transaction.tx_ID txs).

Definition CheckIncomingTransactionsProgress : Go unit :=
  pendingIDs ← wrapM (transaction_ids Transaction.TypeIncoming [Transaction.StatusPending] true)
    "unable to list pending incoming transactions";
  _ ← wrapM (BatchDiscoverIncomingTransactions config pendingIDs) "unable to batch discover incoming transactions";
  ids ← wrapM (transaction_ids Transaction.TypeIncoming
    [Transaction.StatusInProgress; Transaction.StatusInProgressInvalid] false) "unable to list incoming transactions";
  wrapM (BatchCheckIncomingTransactions config ids) "unable to batch check incoming transactions".

Definition EnsureOutboundWallets : Go unit :=
  group_ctx (fun bc _ => ignore (wrapM (EnsureOutboundWallet config tatumProvider bc)
    ("unable to ensure outbound wallet for " +:+ bc))) RuntimeSupportedBlockchains tt.

(** Pages of 300 inbound wallets; the fuel is the number of wallets plus one,
    as in [Payouts.inbound_pages]. *)
Fixpoint inbound_wallet_pages (fuel : nat) (start : Z) : Go (list Wallet.Wallet) :=
  match fuel with
  | O => panic "out of fuel"
  | S fuel =>
    '(wallets, nextID) ← wrapM (Wallet.List_ (Wallet.mkPagination start 300 "" Wallet.TypeInbound))
      "unable to list inbound wallets";
    match nextID with
    | None => mret wallets
    | Some next => rest ← inbound_wallet_pages fuel next; mret (wallets ++ rest)
    end
  end.

(** Whether a balance is worth a transfer. *)
Definition matches_minimum (b : WalletBalance.Balance) : Go bool :=
  if Money_IsZero (WalletBalance.bal_Amount b) then mret false else
  minAmountUSD ← wrapM (lift (USDMinimalInternalTransfer (WalletBalance.bal_Currency b)))
    ("unable to get minimal internal transfer for " +:+ WalletBalance.bal_Currency b);
  currency ← wrapM (lift (GetCurrencyByTicker (WalletBalance.bal_Currency b))) "unable to get currency by ticker";
  conv ← wrapM (FiatToCrypto minAmountUSD currency)
    ("unable to convert " +:+ m_ticker minAmountUSD +:+ " to " +:+ WalletBalance.bal_Currency b);
  mret (GreaterThanOrEqual (WalletBalance.bal_Amount b) (Convertor.cv_To conv)).

Fixpoint filterM {A} (p : A -> Go bool) (l : list A) : Go (list A) :=
  match l with
  | [] => mret []
  | x :: l => b ← p x; rest ← filterM p l; mret (if b : bool then x :: rest else rest)
  end.

Fixpoint matched_balances (inboundWallets : list Wallet.Wallet) : Go (list WalletBalance.Balance) :=
  match inboundWallets with
  | [] => mret []
  | inboundWallet :: inboundWallets =>
    walletBalances ← wrapM (WalletBalance.ListBalances usd_value WalletBalance.EntityTypeWallet
      (Wallet.wal_ID inboundWallet) false) "unable to list balances";
    here ← filterM matches_minimum walletBalances;
    rest ← matched_balances inboundWallets;
    mret (here ++ rest)
  end.

(** The result of a batch is only logged, its error is returned. *)
Definition batch_error (m : Go (TransferResult * option error)) (msg : string) : Go unit :=
  wrapM ('(_, err) ← m; match err with None => mret tt | Some e => fail e end) msg.

Definition PerformInternalWalletTransfer : Go unit :=
  _ ← wrapM EnsureOutboundWallets "unable to ensure outbound wallets";
  fuel ← gets (fun w => S (length (rows (wallets (db w)))));
  inboundWallets ← inbound_wallet_pages fuel 0;
  matchedBalances ← matched_balances inboundWallets;
  batch_error (BatchCreateInternalTransfers matchedBalances) "unable to transfer money from inbound to outbound wallets".

Definition CheckInternalTransferProgress : Go unit :=
  ids ← wrapM (transaction_ids Transaction.TypeInternal [Transaction.StatusPending; Transaction.StatusInProgress] false)
    "unable to list internal transactions";
  wrapM (BatchCheckInternalTransfers ids) "unable to batch check internal transfers".

Definition PerformWithdrawalsCreation : Go unit :=
  _ ← wrapM EnsureOutboundWallets "unable to ensure outbound wallets";
  withdrawals ← wrapM (Withdrawal.ListWithdrawals basePath Payment.StatusPending []) "unable to list pending withdrawals";
  batch_error (BatchCreateWithdrawals config (map Payment.pay_ID withdrawals)) "unable to create withdrawals".

Definition CheckWithdrawalsProgress : Go unit :=
  ids ← wrapM (transaction_ids Transaction.TypeWithdrawal [Transaction.StatusPending; Transaction.StatusInProgress] false)
    "unable to list withdrawal transactions";
  wrapM (BatchCheckWithdrawals config ids) "unable to batch check withdrawals".

Definition CancelExpiredPayments : Go unit :=
  payments ← wrapM (Payment.GetBatchExpired basePath job_limit) "unable to get batch expired payments";
  wrapM (BatchExpirePayments config (map Payment.pay_ID payments)) "unable to batch expire payments".
End Handler.
