(* ===== verification/Events.v ===== *)
(** * Events: what happens when a payment changes or a withdrawal is requested

    [internal/event/paymentevents/handler.go] and
    [internal/webhook/webhook.go]: the webhook to the merchant, its contents
    and its signature, and the withdrawals processed on request. The HTTP
    request and HMAC-SHA512 are an interface; the encoding of the contents as
    JSON is not modelled; the messages to Slack are in [Console]. *)

From S2P Require Import Prelude GoLib Float64 KmsWallet NetUrl Money Repository Queries Bitcoin Currencies Blockchain.
From S2P Require Import Processing Incoming Transfers Payouts.
From S2P Require Wallet WalletTransaction Transaction Merchant Payment Tatum.

(** ** webhook.go *)
Definition ErrInvalidInput : error := ESentinel "webhook.ErrInvalidInput".
Definition ErrInvalidStatusCode : error := ESentinel "webhook.ErrInvalidStatusCode".

(** The headers of the request besides the content type. *)
Record WebhookHeaders := mkHeaders { hd_EventID : string; hd_EventType : string; hd_Signature : option string }.

Definition validateURL (u : string) : res unit :=
  parsed ← ParseRequestURI u;
  if bool_decide (Hostname parsed = []) then Err (ENew "invalid hostname")
  else if negb (one_of (of_bytes (Scheme parsed)) ["http"; "https"]) then Err (ENew "scheme should be http or https")
  else Ok tt.

(** ** The contents *)
Record WebhookMoney := mkWebhookMoney { wm_Value : string; wm_Raw : string; wm_Currency : string; wm_Decimals : Z }.

Record WebhookPayment := mkWebhookPayment {
  wp_ID : string; wp_PublicID : string; wp_OrderID : option string; wp_Type : string; wp_Status : string;
  wp_CreatedAt : Z; wp_UpdatedAt : Z; wp_ExpiresAt : option Z; wp_Amount : WebhookMoney; wp_RedirectURL : string;
  wp_PaymentURL : string; wp_Description : option string; wp_IsTest : bool
}.

Record WebhookPaymentMethod := mkWebhookMethod {
  wpm_Blockchain : string; wpm_BlockchainName : string; wpm_Currency : string; wpm_Name : string;
  wpm_DisplayName : string; wpm_NetworkID : string; wpm_IsTest : bool
}.

Record WebhookTransaction := mkWebhookTransaction {
  wt_Type : string; wt_Status : string; wt_Hash : option string; wt_ExplorerLink : option string; wt_NetworkID : string;
  wt_SenderAddress : option string; wt_RecipientAddress : string; wt_Amount : WebhookMoney;
  wt_FactAmount : option WebhookMoney; wt_ServiceFee : WebhookMoney; wt_NetworkFee : option WebhookMoney;
  wt_CreatedAt : Z; wt_UpdatedAt : Z; wt_IsTest : bool
}.

Record PaymentWebhook := mkPaymentWebhook {
  pw_EventID : string; pw_EventType : string; pw_Version : string; pw_ID : string; pw_OrderID : option string;
  pw_Type : string; pw_Status : string; pw_CustomerEmail : string; pw_SelectedBlockchain : string;
  pw_SelectedCurrency : string; pw_IsTest : bool; pw_LinkID : option string; pw_OccurredAt : Z;
  pw_Payment : WebhookPayment; pw_Customer : option string; pw_PaymentMethod : option WebhookPaymentMethod;
  pw_PaymentLink : option string; pw_Transaction : option WebhookTransaction
}.

(** [json.Marshal] of the contents, and the POST: the status of the response,
    or an error of the client. *)
Class WebhookClient := {
  json_Marshal : PaymentWebhook -> string;
  webhook_hmac : string -> string -> string;
  post_webhook : string -> WebhookHeaders -> string -> nat -> res Z
}.

Definition moneyToWebhook (m : Money) : res WebhookMoney :=
  value ← Money_String m;
  mret (mkWebhookMoney value (StringRaw m) (m_ticker m) (m_decimals m)).

Definition optional_money (m : option Money) : res (option WebhookMoney) :=
  match m with None => Ok None | Some m => w ← moneyToWebhook m; mret (Some w) end.

Definition transactionToWebhook (tx : Transaction.Transaction) : res WebhookTransaction :=
  amount ← moneyToWebhook (Transaction.tx_Amount tx);
  serviceFee ← moneyToWebhook (Transaction.tx_ServiceFee tx);
  factAmount ← optional_money (Transaction.tx_FactAmount tx);
  networkFee ← optional_money (Transaction.tx_NetworkFee tx);
  let explorerLink := match Transaction.ExplorerLink tx with
    | Ok link => if bool_decide (link = "") then None else Some link
    | _ => None
    end in
  mret (mkWebhookTransaction (Transaction.tx_Type tx) (Transaction.tx_Status tx) (Transaction.tx_HashID tx) explorerLink
    (Transaction.NetworkID tx) (Transaction.tx_SenderAddress tx) (Transaction.tx_RecipientAddress tx) amount factAmount
    serviceFee networkFee (Transaction.tx_CreatedAt tx) (Transaction.tx_UpdatedAt tx) (Transaction.tx_IsTest tx)).

Definition paymentWebhookEventID (pt : Payment.Payment) : string :=
  Payment.pay_Type pt +:+ ":" +:+ Payment.pay_MerchantOrderUUID pt +:+ ":" +:+ Payment.pay_Status pt.

Section Handler.
Context `{Resolver} `{Catalog} `{BlockchainService} `{Payment.Publisher} `{Scheduler} `{WebhookClient}.
Context `{WalletTransaction.KMSTransactions} `{UTXOProviders} `{Btcutil}.
Context (config : Config).

Let basePath : string := PaymentFrontendPath config.

Definition Send (destination secret : string) (data : PaymentWebhook) : Go unit :=
  match validateURL destination with
  | Err e => fail (EWrap ErrInvalidInput (error_string e))
  | Panic p => panic p
  | Ok _ =>
    let body := json_Marshal data in
    let signature := if bool_decide (secret = "") then None else Some (webhook_hmac secret body) in
    r ← attempt (external (post_webhook destination (mkHeaders (pw_EventID data) (pw_EventType data) signature) body));
    match r with
    | inr e => fail (EWrap ErrInvalidInput (error_string e))
    | inl status =>
      if (status <? 200) || (300 <=? status) then fail (EWrap ErrInvalidStatusCode ("code: " +:+ FormatInt status))
      else mret tt
    end
  end.

Definition webhook_method (m : Payment.Method) : WebhookPaymentMethod :=
  let currency := Payment.me_Currency m in
  mkWebhookMethod (cc_Blockchain currency) (cc_BlockchainName currency) (cc_Ticker currency) (cc_Name currency)
    (DisplayName currency) (Payment.me_NetworkID m) (Payment.me_IsTest m).

Definition buildPaymentWebhook (mt : Merchant.Merchant) (details : DetailedPayment) : Go PaymentWebhook :=
  let pt := dp_Payment details in
  let email := default "" (Payment.cus_Email <$> dp_Customer details) in
  let ticker (f : CryptoCurrency -> string) := default "" ((fun m => f (Payment.me_Currency m)) <$> dp_PaymentMethod details) in
  amount ← lift (moneyToWebhook (Payment.pay_Price pt));
  transaction ← match dp_PaymentMethod details with
    | None => mret None
    | Some m => t ← lift (transactionToWebhook (Payment.me_tx m)); mret (Some t)
    end;
  link ← (if Payment.LinkID pt =? 0 then mret None else
    link ← wrapM (Payment.GetPaymentLinkByID basePath (Merchant.mer_ID mt) (Payment.LinkID pt)) "unable to get payment link";
    mret (Some (Payment.lk_PublicID link)));
  mret (mkPaymentWebhook (paymentWebhookEventID pt) (Payment.pay_Type pt +:+ ".status_changed") "1"
    (Payment.pay_MerchantOrderUUID pt) (Payment.pay_MerchantOrderID pt) (Payment.pay_Type pt) (Payment.pay_Status pt)
    email (ticker cc_Blockchain) (ticker cc_Ticker) (Payment.pay_IsTest pt) link (Payment.pay_UpdatedAt pt)
    (mkWebhookPayment (Payment.pay_MerchantOrderUUID pt) (Payment.pay_PublicID pt) (Payment.pay_MerchantOrderID pt)
      (Payment.pay_Type pt) (Payment.pay_Status pt) (Payment.pay_CreatedAt pt) (Payment.pay_UpdatedAt pt)
      (Payment.pay_ExpiresAt pt) amount (Payment.pay_RedirectURL pt) (Payment.pay_PaymentURL pt)
      (Payment.pay_Description pt) (Payment.pay_IsTest pt))
    (Payment.cus_Email <$> dp_Customer details) (webhook_method <$> dp_PaymentMethod details) link transaction).

(** A webhook that cannot be sent is only logged. *)
Definition ProcessPaymentStatusUpdate (merchantID paymentID : Z) : Go unit :=
  mt ← wrapM (Merchant.GetByID merchantID false) "unable to get merchant";
  let webhookURL := Merchant.WebhookURL (Merchant.mer_settings mt) in
  let signatureSecret := Merchant.WebhookSignatureSecret (Merchant.mer_settings mt) in
  if bool_decide (webhookURL = "") then mret tt else
  p ← wrapM (GetDetailedPayment config merchantID paymentID) "unable to get detailed payment";
  if bool_decide (Payment.pay_Status (dp_Payment p) = Payment.StatusLocked) then mret tt else
  wh ← buildPaymentWebhook mt p;
  sent ← attempt (Send webhookURL signatureSecret wh);
  match sent with
  | inr _ => mret tt
  | inl _ =>
    now ← time_Now;
    wrapM (Payment.SetWebhookTimestamp merchantID paymentID now) "unable to set webhook timestamp"
  end.

Definition ProcessWithdrawals (paymentID : Z) : Go unit :=
  wrapM ('(_, err) ← BatchCreateWithdrawals config [paymentID]; match err with None => mret tt | Some e => fail e end)
    "unable to process withdrawal creation".
End Handler.
