(* ===== verification/Ledger.v ===== *)
(** * Ledger: what no operation of the services ever does to the tables

    A step of the database keeps the constraints of the schema, explains every
    balance by its audit log, and never deletes or rewrites the identity of a
    balance, wallet, transaction or payment: rows are only appended, or change
    in their mutable columns. Proved for every statement, then for every
    operation of the services below the processing. *)

From S2P Require Import Prelude GoLib Float64 KmsWallet Money Repository Queries PaymentQueries.
From S2P Require Import Bitcoin Currencies Blockchain Wallet WalletBalance WalletTransaction Transaction.
From S2P Require Merchant Payment Withdrawal Tatum.

(** ** Tables that only grow *)
Section Evolves.
Context {A : Type} (same : A -> A -> Prop) `{!PreOrder same}.

Definition evolves (t t' : Table A) : Prop :=
  exists old new, rows t' = old ++ new /\ Forall2 same (rows t) old.

#[export] Instance evolves_preorder : PreOrder evolves.
Proof.
  split.
  - intros t. exists (rows t), []. rewrite app_nil_r. split; [done|]. reflexivity.
  - intros t1 t2 t3 (o1 & n1 & E1 & F1) (o2 & n2 & E2 & F2). rewrite E1 in F2.
    apply Forall2_app_inv_l in F2 as (o & n & Fo & Fn & ->). exists o, (n ++ n2). split; [by rewrite E2, app_assoc|].
    by transitivity o1.
Qed.

Lemma evolves_rows t t' : rows t' = rows t -> evolves t t'.
Proof. intros E. destruct (reflexivity (R := evolves) t) as (o & n & ? & ?). exists o, n. by rewrite E. Qed.

Lemma evolves_insert t mk : evolves t (insert_row mk t).
Proof.
  exists (rows t), [mk (next_id t)]. split; [done|]. reflexivity.
Qed.

Lemma evolves_update t p f : (forall r, same r (f r)) -> evolves t (update_rows p f t).
Proof.
  intros Hf. exists (rows (update_rows p f t)), []. rewrite app_nil_r. split; [done|].
  unfold update_rows. cbn [rows]. induction (rows t) as [|r l IH]; [constructor|]. simpl. constructor; [|done].
  destruct (p r); [apply Hf|reflexivity].
Qed.

(** A row once stored is found again, as the same row. *)
Lemma evolves_in t t' r : evolves t t' -> r ∈ rows t -> exists r', r' ∈ rows t' /\ same r r'.
Proof.
  intros (old & new & E & HF) (i & Hi)%list_elem_of_lookup.
  destruct (Forall2_lookup_l _ _ _ _ _ HF Hi) as (r' & Hr' & Hs). exists r'. split; [|done].
  rewrite E. apply elem_of_app. left. by eapply list_elem_of_lookup_2.
Qed.
End Evolves.

(** ** The identity of a row: the columns no statement writes *)
Definition on {A B} (f : A -> B) (x y : A) : Prop := f x = f y.
#[export] Instance on_preorder {A B} (f : A -> B) : PreOrder (on f).
Proof. split; repeat intro; unfold on in *; congruence. Qed.

Definition balance_id (b : Row.Balance) :=
  (Row.b_ID b, Row.b_CreatedAt b, Row.b_EntityType b, Row.b_EntityID b, Row.b_Network b, Row.b_NetworkID b,
   Row.b_CurrencyType b, Row.b_Currency b, Row.b_Decimals b, Row.b_Uuid b).
Definition wallet_id (w : Row.Wallet) :=
  (Row.w_ID w, Row.w_CreatedAt w, Row.w_Uuid w, Row.w_Address w, Row.w_Blockchain w, Row.w_Type w).
Definition transaction_id (t : Row.Transaction) :=
  (Row.t_ID t, Row.t_CreatedAt t, Row.t_MerchantID t, Row.t_Type t, Row.t_EntityID t,
   (Row.t_SenderWalletID t, Row.t_RecipientWalletID t, Row.t_RecipientAddress t),
   (Row.t_Blockchain t, Row.t_NetworkID t, Row.t_CurrencyType t, Row.t_Currency t, Row.t_Decimals t),
   (Row.t_Amount t, Row.t_UsdAmount t, Row.t_IsTest t)).
Definition payment_id (p : Row.Payment) :=
  (Row.p_ID p, Row.p_PublicID p, Row.p_CreatedAt p, Row.p_Type p, Row.p_MerchantID p,
   (Row.p_MerchantOrderUuid p, Row.p_MerchantOrderID p), (Row.p_Price p, Row.p_Decimals p, Row.p_Currency p),
   (Row.p_IsTest p, Row.p_Metadata p)).

(** Nothing is forgotten; log entries are never changed. *)
Record history (d d' : DB) : Prop := {
  hist_balances : evolves (on balance_id) (balances d) (balances d');
  hist_log : evolves eq (balance_audit_log d) (balance_audit_log d');
  hist_wallets : evolves (on wallet_id) (wallets d) (wallets d');
  hist_transactions : evolves (on transaction_id) (transactions d) (transactions d');
  hist_payments : evolves (on payment_id) (payments d) (payments d')
}.

#[export] Instance history_preorder : PreOrder history.
Proof.
  split; [intros d; split; reflexivity|]. intros a b c [] []. split; (etransitivity; [eassumption|eassumption]).
Qed.

Lemma history_rollback d d' : history d (rollback d d').
Proof. split; by apply evolves_rows; try tc_solve. Qed.

(** ** One step of the ledger *)
Record ledger_step (d d' : DB) : Prop := {
  ledger_schema : schema_step d d';
  ledger_history : history d d';
  ledger_audited : schema_ok d -> audited d -> audited d'
}.

#[export] Instance ledger_step_preorder : PreOrder ledger_step.
Proof.
  split; [intros d; split; [reflexivity|reflexivity|done]|]. intros a b c [S1 H1 A1] [S2 H2 A2].
  split; [by transitivity b|by transitivity b|]. intros Hok Ha. apply A2; [by apply S1|by apply A1].
Qed.

Lemma ledger_rollback d d' : schema_step d d' -> ledger_step d (rollback d d').
Proof.
  intros Hs. split; [by apply schema_step_rollback|apply history_rollback|]. intros _. apply audited_rollback, Hs.
Qed.

(** Every statement but those on the balances leaves the balances and the log alone. *)
Definition aside (d d' : DB) : Prop :=
  history d d' /\ balances d' = balances d /\ balance_audit_log d' = balance_audit_log d.

Lemma aside_ledger {A} (m : Go A) : steps schema_step m -> steps aside m -> steps ledger_step m.
Proof.
  intros Hs Ha w. destruct (Ha w) as (Hh & Hb & Hl). split; [apply Hs|done|]. intros _ [H1 H2].
  unfold audited. by rewrite Hb, Hl.
Qed.

Lemma pure_ledger {A} (m : Go A) : steps eq m -> steps ledger_step m.
Proof. intros Hm w. rewrite <- (Hm w). reflexivity. Qed.

#[export] Instance aside_preorder : PreOrder aside.
Proof.
  split; [intros d; split; [reflexivity|done]|]. intros a b c (H1 & B1 & L1) (H2 & B2 & L2).
  split; [by transitivity b|split; congruence].
Qed.
Lemma aside_refl d : aside d d.
Proof. reflexivity. Qed.

Ltac solve_history :=
  split; first [apply evolves_insert; tc_solve | apply evolves_update; [tc_solve|done] | apply evolves_rows; [tc_solve|done]].

(** A statement: nothing, a failed insert, an insert, an update or a delete. *)
Ltac solve_aside :=
  apply steps_query; intros d; cbv zeta;
  repeat first [apply aside_refl | split; [solve_history|split; reflexivity]
    | progress cbn [snd mbind res_bind mret res_ret]
    | match goal with
      | |- context [pg_numeric ?x] => destruct (pg_numeric x)
      | |- context [pg_jsonb ?x] => destruct (pg_jsonb x)
      | |- context [pg_numeric_not_null ?x] => destruct (pg_numeric_not_null x)
      | |- aside d (match ?x with _ => _ end).2 => destruct x
      end].

(** ** The statements *)
Lemma read_ledger {A} (f : DB -> res A) : steps ledger_step (read f).
Proof. apply pure_ledger, read_pure. Qed.
Lemma CreateWallet_ledger at_ u a b ty : steps ledger_step (CreateWallet at_ u a b ty).
Proof. apply aside_ledger; [apply CreateWallet_schema|solve_aside]. Qed.
Lemma CreateWalletLock_ledger m w c n a u : steps ledger_step (CreateWalletLock m w c n a u).
Proof. apply aside_ledger; [apply CreateWalletLock_schema|solve_aside]. Qed.
Lemma ReleaseWalletLock_ledger id : steps ledger_step (ReleaseWalletLock id).
Proof. apply aside_ledger; [apply ReleaseWalletLock_schema|solve_aside]. Qed.
Lemma UpdateWalletMainnetTransactionCounters_ledger id c p : steps ledger_step (UpdateWalletMainnetTransactionCounters id c p).
Proof. apply aside_ledger; [apply UpdateWalletMainnetTransactionCounters_schema|solve_aside]. Qed.
Lemma UpdateWalletTestnetTransactionCounters_ledger id c p : steps ledger_step (UpdateWalletTestnetTransactionCounters id c p).
Proof. apply aside_ledger; [apply UpdateWalletTestnetTransactionCounters_schema|solve_aside]. Qed.
Lemma UpdateWalletTatumFields_ledger m t id : steps ledger_step (UpdateWalletTatumFields m t id).
Proof. apply aside_ledger; [apply UpdateWalletTatumFields_schema|solve_aside]. Qed.
Lemma CreateTransaction_ledger arg : steps ledger_step (Queries.CreateTransaction arg).
Proof. apply aside_ledger; [apply Queries.CreateTransaction_schema|solve_aside]. Qed.
Lemma SetTransactionHash_ledger h a i m : steps ledger_step (SetTransactionHash h a i m).
Proof. apply aside_ledger; [apply SetTransactionHash_schema|solve_aside]. Qed.
Lemma CancelTransaction_ledger arg : steps ledger_step (Queries.CancelTransaction arg).
Proof. apply aside_ledger; [apply Queries.CancelTransaction_schema|solve_aside]. Qed.
Lemma UpdateTransaction_ledger arg : steps ledger_step (Queries.UpdateTransaction arg).
Proof. apply aside_ledger; [apply Queries.UpdateTransaction_schema|solve_aside]. Qed.
Lemma CreateBitcoinUTXOReservation_ledger arg : steps ledger_step (CreateBitcoinUTXOReservation arg).
Proof. apply aside_ledger; [apply CreateBitcoinUTXOReservation_schema|solve_aside]. Qed.
Lemma AttachBitcoinUTXOReservationRawTX_ledger id raw a : steps ledger_step (AttachBitcoinUTXOReservationRawTX id raw a).
Proof. apply aside_ledger; [apply AttachBitcoinUTXOReservationRawTX_schema|solve_aside]. Qed.
Lemma ReleaseBitcoinUTXOReservation_ledger id a b : steps ledger_step (ReleaseBitcoinUTXOReservation id a b).
Proof. apply aside_ledger; [apply ReleaseBitcoinUTXOReservation_schema|solve_aside]. Qed.
Lemma ReleaseBitcoinUTXOReservationsByRawTX_ledger w t raw a b : steps ledger_step (ReleaseBitcoinUTXOReservationsByRawTX w t raw a b).
Proof. apply aside_ledger; [apply ReleaseBitcoinUTXOReservationsByRawTX_schema|solve_aside]. Qed.
Lemma MarkBitcoinUTXOReservationsBroadcastedByRawTX_ledger w t raw h a : steps ledger_step (MarkBitcoinUTXOReservationsBroadcastedByRawTX w t raw h a).
Proof. apply aside_ledger; [apply MarkBitcoinUTXOReservationsBroadcastedByRawTX_schema|solve_aside]. Qed.
Lemma CreatePayment_ledger arg : steps ledger_step (PaymentQueries.CreatePayment arg).
Proof. apply aside_ledger; [apply PaymentQueries.CreatePayment_schema|solve_aside]. Qed.
Lemma UpdatePayment_ledger arg : steps ledger_step (UpdatePayment arg).
Proof. apply aside_ledger; [apply UpdatePayment_schema|solve_aside]. Qed.
Lemma UpdatePaymentCustomerID_ledger c id : steps ledger_step (UpdatePaymentCustomerID c id).
Proof. apply aside_ledger; [apply UpdatePaymentCustomerID_schema|solve_aside]. Qed.
Lemma UpdatePaymentWebhookInfo_ledger id m s u : steps ledger_step (UpdatePaymentWebhookInfo id m s u).
Proof. apply aside_ledger; [apply UpdatePaymentWebhookInfo_schema|solve_aside]. Qed.
Lemma CreatePaymentLink_ledger arg : steps ledger_step (PaymentQueries.CreatePaymentLink arg).
Proof. apply aside_ledger; [apply PaymentQueries.CreatePaymentLink_schema|solve_aside]. Qed.
Lemma DeletePaymentLinkByPublicID_ledger m u : steps ledger_step (PaymentQueries.DeletePaymentLinkByPublicID m u).
Proof. apply aside_ledger; [apply PaymentQueries.DeletePaymentLinkByPublicID_schema|solve_aside]. Qed.
Lemma CreateCustomer_ledger u a b e m : steps ledger_step (PaymentQueries.CreateCustomer u a b e m).
Proof. apply aside_ledger; [apply PaymentQueries.CreateCustomer_schema|solve_aside]. Qed.
Lemma CreateMerchant_ledger u a b x n s c j : steps ledger_step (CreateMerchant u a b x n s c j).
Proof. apply aside_ledger; [apply CreateMerchant_schema|solve_aside]. Qed.
Lemma UpdateMerchant_ledger id u n s : steps ledger_step (UpdateMerchant id u n s).
Proof. apply aside_ledger; [apply UpdateMerchant_schema|solve_aside]. Qed.
Lemma UpdateMerchantSettings_ledger id u j : steps ledger_step (UpdateMerchantSettings id u j).
Proof. apply aside_ledger; [apply UpdateMerchantSettings_schema|solve_aside]. Qed.
Lemma CreateMerchantAddress_ledger a b u m n c x : steps ledger_step (PaymentQueries.CreateMerchantAddress a b u m n c x).
Proof. apply aside_ledger; [apply PaymentQueries.CreateMerchantAddress_schema|solve_aside]. Qed.
Lemma DeleteMerchantAddress_ledger m id : steps ledger_step (PaymentQueries.DeleteMerchantAddress m id).
Proof. apply aside_ledger; [apply PaymentQueries.DeleteMerchantAddress_schema|solve_aside]. Qed.
Lemma UpdateMerchantAddress_ledger m id n u : steps ledger_step (PaymentQueries.UpdateMerchantAddress m id n u).
Proof. apply aside_ledger; [apply PaymentQueries.UpdateMerchantAddress_schema|solve_aside]. Qed.

Create HintDb ledger.
#[export] Hint Resolve read_ledger CreateWallet_ledger CreateWalletLock_ledger ReleaseWalletLock_ledger UpdateWalletMainnetTransactionCounters_ledger UpdateWalletTestnetTransactionCounters_ledger UpdateWalletTatumFields_ledger CreateTransaction_ledger SetTransactionHash_ledger CancelTransaction_ledger UpdateTransaction_ledger CreateBitcoinUTXOReservation_ledger AttachBitcoinUTXOReservationRawTX_ledger ReleaseBitcoinUTXOReservation_ledger ReleaseBitcoinUTXOReservationsByRawTX_ledger MarkBitcoinUTXOReservationsBroadcastedByRawTX_ledger CreatePayment_ledger UpdatePayment_ledger UpdatePaymentCustomerID_ledger UpdatePaymentWebhookInfo_ledger CreatePaymentLink_ledger DeletePaymentLinkByPublicID_ledger CreateCustomer_ledger CreateMerchant_ledger UpdateMerchant_ledger UpdateMerchantSettings_ledger CreateMerchantAddress_ledger DeleteMerchantAddress_ledger UpdateMerchantAddress_ledger : ledger.

(** ** Bookings: steps of a transaction that update balances

    A panic between the update of a balance and its log entry is undone by the
    transaction, so only the other outcomes must leave the log in step. *)
Definition is_panic {A} (r : res A) : bool := match r with Panic _ => true | _ => false end.

Record booked {A} (m : Go A) : Prop := {
  booked_schema : steps schema_step m;
  booked_history : steps history m;
  booked_audit w : schema_ok (db w) -> audited (db w) -> is_panic (m w).1 = false -> audited (db (m w).2)
}.

Lemma booked_ledger {A} (m : Go A) : steps ledger_step m -> booked m.
Proof. intros Hm. split; [intros w; apply Hm|intros w; apply Hm|]. intros w Hok Ha _. by apply Hm. Qed.

Lemma booked_bind {A B} (m : Go A) (f : A -> Go B) : booked m -> (forall a, booked (f a)) -> booked (m ≫= f).
Proof.
  intros [S1 H1 A1] Hf. split.
  - apply steps_bind; [tc_solve|done|apply Hf].
  - apply steps_bind; [tc_solve|done|apply Hf].
  - intros w Hok Ha. pose proof (A1 w Hok Ha) as Ha1. pose proof (proj2 (S1 w) Hok) as Hok1.
    unfold mbind, M_bind in *. destruct (m w) as [[a|e|p] w1]; cbn [fst snd] in *; [|by auto|done].
    apply (Hf a); [done|by apply Ha1].
Qed.

Lemma booked_wrap {A} (m : Go A) s : booked m -> booked (wrapM m s).
Proof.
  intros [S1 H1 A1]. split; [by apply steps_wrap|by apply steps_wrap|]. intros w Hok Ha.
  pose proof (A1 w Hok Ha) as Ha1. unfold wrapM. destruct (m w) as [[]]; by auto.
Qed.

Lemma booked_attempt {A} (m : Go A) : booked m -> booked (attempt m).
Proof.
  intros [S1 H1 A1]. split; [by apply steps_attempt|by apply steps_attempt|]. intros w Hok Ha.
  pose proof (A1 w Hok Ha) as Ha1. unfold attempt. destruct (m w) as [[]]; by auto.
Qed.

Lemma booked_run {A} (m : Go A) : booked m -> steps ledger_step (RunTransaction m).
Proof.
  intros [S1 H1 A1] w. pose proof (S1 w) as Hs. pose proof (H1 w) as Hh. pose proof (A1 w) as Ha.
  unfold RunTransaction. destruct (m w) as [[a|e|p] w1]; cbn [fst snd] in *; [|by apply ledger_rollback..].
  split; [done|done|]. intros Hok Hau. by apply Ha.
Qed.

Ltac unfold_head m := lazymatch m with ?f _ => unfold_head f | ?c => unfold c end.

(** Walk a Go function as [go_steps] does, unfolding it where no lemma applies. *)
Ltac ledger_steps :=
  repeat first
    [ progress intros
    | apply steps_ret; tc_solve | apply steps_fail; tc_solve | apply steps_panic; tc_solve
    | apply steps_pure; tc_solve | apply steps_gets; tc_solve
    | apply steps_now; tc_solve | apply steps_uuid; tc_solve | apply steps_external; tc_solve
    | solve [eauto with ledger nocore]
    | apply steps_bind; [tc_solve| |]
    | apply steps_wrap | apply steps_attempt
    | apply booked_run; booked_steps
    | match goal with |- steps _ (match ?x with _ => _ end) => destruct x end
    | match goal with |- steps _ ?m => progress (unfold_head m; cbv zeta) end ]
with booked_steps :=
  repeat first
    [ progress intros
    | solve [eauto with ledger nocore]
    | apply booked_bind | apply booked_wrap | apply booked_attempt
    | apply booked_ledger; first [apply steps_ret; tc_solve | apply steps_fail; tc_solve | apply steps_panic; tc_solve
        | apply steps_pure; tc_solve | apply steps_now; tc_solve | apply steps_uuid; tc_solve
        | solve [eauto with ledger nocore]]
    | match goal with |- booked (match ?x with _ => _ end) => destruct x end ].

(** ** The statements on balances *)
Ltac balance_history :=
  apply steps_query; intros d; cbv zeta;
  repeat first [reflexivity | solve_history | progress cbn [snd]
    | match goal with |- history d (match ?x with _ => _ end).2 => destruct x end].

Lemma CreateBalance_history arg : steps history (CreateBalance arg).
Proof. balance_history. Qed.
Lemma UpdateBalanceByID_history id at_ n : steps history (Queries.UpdateBalanceByID id at_ n).
Proof. balance_history. Qed.
Lemma InsertBalanceAuditLog_history at_ b c m : steps history (InsertBalanceAuditLog at_ b c m).
Proof. balance_history. Qed.
Lemma read_history {A} (f : DB -> res A) : steps history (read f).
Proof. intros w. apply read_ledger. Qed.
#[local] Hint Resolve CreateBalance_history UpdateBalanceByID_history InsertBalanceAuditLog_history read_history : history.

Ltac history_steps :=
  repeat first
    [ progress intros
    | apply steps_ret; tc_solve | apply steps_fail; tc_solve | apply steps_panic; tc_solve
    | apply steps_pure; tc_solve | apply steps_now; tc_solve | apply steps_uuid; tc_solve
    | apply steps_bind; [tc_solve| |] | apply steps_wrap | apply steps_attempt
    | solve [eauto with history nocore]
    | match goal with |- steps _ (match ?x with _ => _ end) => destruct x end ].

Lemma updateBalanceByID_booked id p : booked (updateBalanceByID id p).
Proof.
  split; [apply updateBalanceByID_schema|unfold updateBalanceByID, writeAuditLog; history_steps|].
  intros w Hok Ha Hp. pose proof (wp_updateBalanceByID id p w Hok) as Hr. unfold wp in Hr.
  destruct (updateBalanceByID id p w) as [[x|e|s] w1]; cbn [fst snd] in *; [|by inversion Hr|done].
  by eapply update_result_audited.
Qed.

Lemma UpdateBalance_booked p : booked (UpdateBalance p).
Proof.
  split; [apply UpdateBalance_schema|unfold UpdateBalance, writeAuditLog; history_steps|].
  intros w Hok Ha Hp. pose proof (wp_UpdateBalance p w Hok) as Hr. unfold wp in Hr.
  pose proof (UpdateBalance_schema p w) as [Hs _].
  destruct (UpdateBalance p w) as [[x|e|s] w1]; cbn [fst snd] in *; [by eapply upsert_result_audited| |done].
  destruct Ha as [H1 H2]. split; inversion Hr; subst; try done; intros l Hl; specialize (H2 l Hl); simpl in *; lia.
Qed.
#[export] Hint Resolve updateBalanceByID_booked UpdateBalance_booked : ledger.

Lemma EnsureBalance_ledger ty id c t : steps ledger_step (EnsureBalance ty id c t).
Proof.
  intros w. split; [apply EnsureBalance_schema|revert w; change (steps history (EnsureBalance ty id c t));
    unfold EnsureBalance; history_steps|].
  intros Hok Ha. by apply EnsureBalance_audited.
Qed.

Lemma UpdateBalanceByID_ledger id p : steps ledger_step (UpdateBalanceByID id p).
Proof. unfold UpdateBalanceByID. ledger_steps. Qed.

Lemma UpdateBalancesForWithdrawal_ledger p : steps ledger_step (UpdateBalancesForWithdrawal p).
Proof. unfold UpdateBalancesForWithdrawal. cbv zeta. ledger_steps. Qed.

#[local] Opaque UpdateBalance updateBalanceByID.

Lemma updateBalances_booked `{Resolver} tx params : booked (updateBalancesAfterTxConfirmation tx params).
Proof.
  unfold updateBalancesAfterTxConfirmation, confirm_incoming, confirm_internal, confirm_withdrawal,
    confirm_virtual, incrementRecipientBalance, merchant_increment, fee_decrement. cbv zeta. booked_steps.
Qed.
#[local] Hint Resolve updateBalances_booked : ledger.
#[local] Opaque updateBalancesAfterTxConfirmation.

Lemma confirm_booked `{Resolver} merchantID txID params : booked (confirm merchantID txID params).
Proof. unfold confirm, GetByID, found, GetTransactionByID, not_found. cbv zeta. booked_steps. Qed.
#[export] Hint Resolve confirm_booked : ledger.

Lemma Confirm_ledger `{Resolver} merchantID txID params : steps ledger_step (Confirm merchantID txID params).
Proof. unfold Confirm. ledger_steps. Qed.
#[export] Hint Resolve EnsureBalance_ledger UpdateBalanceByID_ledger UpdateBalancesForWithdrawal_ledger Confirm_ledger : ledger.

(** ** The services

    What only reads, and what calls services outside the process, leaves the
    database as it is. *)
#[export] Hint Extern 4 (steps ledger_step _) => apply pure_ledger; solve [eauto with schema nocore] : ledger.

Section Balances.
Context (convertor : Money -> string -> Go Money) (Hconvertor : forall m t, steps eq (convertor m t)).
#[local] Hint Resolve Hconvertor : schema.

Lemma loadUSDBalances_ledger l : steps ledger_step (loadUSDBalances convertor l).
Proof. induction l; simpl; ledger_steps. Qed.
#[local] Hint Resolve loadUSDBalances_ledger : ledger.
Lemma ListBalances_ledger ty id usd : steps ledger_step (WalletBalance.ListBalances convertor ty id usd).
Proof. unfold WalletBalance.ListBalances. ledger_steps. Qed.
Lemma ListAllBalances_ledger usd sys hide : steps ledger_step (ListAllBalances convertor usd sys hide).
Proof. unfold ListAllBalances. ledger_steps. Qed.
End Balances.

Section Wallets.
Context `{KMS} `{Btcutil}.

Lemma wallet_create_ledger bc ty : steps ledger_step (Wallet.create bc ty).
Proof. unfold Wallet.create. ledger_steps. Qed.
#[local] Hint Resolve wallet_create_ledger : ledger.
Lemma bulk_create_ledger bc n : forall i, steps ledger_step (bulk_create bc i n).
Proof. induction n as [|n IH]; intros i; simpl; unfold Wallet.Create; ledger_steps. Qed.
#[local] Hint Resolve bulk_create_ledger : ledger.
Lemma BulkCreateWallets_ledger bc n : steps ledger_step (BulkCreateWallets bc n).
Proof. unfold BulkCreateWallets. ledger_steps. Qed.
Lemma wallet_EnsureOutbound_ledger bc : steps ledger_step (Wallet.EnsureOutboundWallet bc).
Proof. unfold Wallet.EnsureOutboundWallet. ledger_steps. Qed.
Lemma UpdateTatumSubscription_ledger w s : steps ledger_step (UpdateTatumSubscription w s).
Proof. unfold UpdateTatumSubscription. ledger_steps. Qed.
Lemma AcquireFreshLock_ledger m c t : steps ledger_step (AcquireFreshLock m c t).
Proof. unfold AcquireFreshLock, createAndLockInboundWallet, lockWallet. cbv zeta. ledger_steps. Qed.
Lemma ReleaseLock_ledger i c n : steps ledger_step (Wallet.ReleaseLock i c n).
Proof. unfold Wallet.ReleaseLock. ledger_steps. Qed.
Lemma wallet_List_ledger p : steps ledger_step (Wallet.List_ p).
Proof. unfold Wallet.List_. cbv zeta. ledger_steps. Qed.
Lemma IncrementPending_ledger i t : steps ledger_step (IncrementPendingTransaction i t).
Proof. unfold IncrementPendingTransaction, locked_wallet. cbv zeta. ledger_steps. Qed.
Lemma IncrementConfirmed_ledger i t : steps ledger_step (IncrementConfirmedTransaction i t).
Proof. unfold IncrementConfirmedTransaction, locked_wallet. cbv zeta. ledger_steps. Qed.
Lemma DecrementPending_ledger i t : steps ledger_step (DecrementPendingTransaction i t).
Proof. unfold DecrementPendingTransaction, locked_wallet. cbv zeta. ledger_steps. Qed.
End Wallets.
#[export] Hint Resolve ListBalances_ledger ListAllBalances_ledger BulkCreateWallets_ledger wallet_EnsureOutbound_ledger
  UpdateTatumSubscription_ledger AcquireFreshLock_ledger ReleaseLock_ledger wallet_List_ledger IncrementPending_ledger
  IncrementConfirmed_ledger DecrementPending_ledger : ledger.

Section Signing.
Context `{KMSTransactions} `{UTXOProviders} `{Btcutil}.

Lemma reserve_inputs_ledger i t a b l : steps ledger_step (reserve_inputs i t a b l).
Proof. induction l; simpl; ledger_steps. Qed.
#[local] Hint Resolve reserve_inputs_ledger : ledger.
Lemma for_each_ledger f l : (forall i, steps ledger_step (f i)) -> steps ledger_step (for_each f l).
Proof. intros Hf. induction l; simpl; ledger_steps. Qed.
#[local] Hint Resolve for_each_ledger : ledger.
Lemma sign_reserved_ledger s p t l : steps ledger_step (sign_reserved s p t l).
Proof.
  unfold sign_reserved, createSignedBitcoinTransactionFromPlan, releaseBitcoinUTXOReservationIDs,
    attachBitcoinUTXOReservationsRawTX. ledger_steps.
Qed.
#[local] Hint Resolve sign_reserved_ledger : ledger.
#[local] Hint Resolve PrepareSweep_pure Prepare_pure createSignedTransaction_pure : schema.
#[local] Opaque PrepareBitcoinSweepTransactionExcluding PrepareBitcoinTransactionExcluding createSignedTransaction.

Lemma attempts_loop_ledger n : forall c s r a f t sweep, steps ledger_step (attempts_loop n c s r a f t sweep).
Proof.
  induction n as [|n IH]; intros; cbn [attempts_loop]; unfold activeBitcoinUTXOReservationKeys,
    ListActiveBitcoinUTXOReservations, reserveBitcoinUTXOs; ledger_steps.
Qed.
#[local] Hint Resolve attempts_loop_ledger : ledger.
Lemma createSignedBitcoin_ledger s r c a f t sweep : steps ledger_step (createSignedBitcoinTransaction s r c a f t sweep).
Proof. unfold createSignedBitcoinTransaction. ledger_steps. Qed.
#[local] Hint Resolve createSignedBitcoin_ledger : ledger.
#[local] Opaque createSignedBitcoinTransaction.
Lemma CreateSignedUTXO_ledger s r c a f t : steps ledger_step (CreateSignedUTXOTransaction s r c a f t).
Proof. unfold CreateSignedUTXOTransaction. ledger_steps. Qed.
Lemma CreateSignedUTXOSweep_ledger s r c f t : steps ledger_step (CreateSignedUTXOSweepTransaction s r c f t).
Proof. unfold CreateSignedUTXOSweepTransaction. ledger_steps. Qed.
#[local] Hint Resolve CreateSignedUTXO_ledger : ledger.
Lemma CreateSigned_ledger s r c a f t : steps ledger_step (CreateSignedTransaction s r c a f t).
Proof. unfold CreateSignedTransaction. ledger_steps. Qed.
Lemma ReleaseReservations_ledger w raw t : steps ledger_step (ReleaseBitcoinTransactionReservations w raw t).
Proof. unfold ReleaseBitcoinTransactionReservations. ledger_steps. Qed.
Lemma MarkBroadcasted_ledger w raw h t : steps ledger_step (MarkBitcoinTransactionBroadcasted w raw h t).
Proof. unfold MarkBitcoinTransactionBroadcasted. ledger_steps. Qed.
End Signing.
#[export] Hint Resolve CreateSignedUTXO_ledger CreateSignedUTXOSweep_ledger CreateSigned_ledger ReleaseReservations_ledger
  MarkBroadcasted_ledger : ledger.

Section Transactions.
Context `{Resolver}.

Lemma transaction_Create_ledger m p u : steps ledger_step (Transaction.Create m p u).
Proof. unfold Transaction.Create. cbv zeta. ledger_steps. Qed.
Lemma transaction_found_ledger m : steps ledger_step m -> steps ledger_step (Transaction.found m).
Proof. intros Hm. unfold Transaction.found, not_found. ledger_steps. Qed.
Lemma Receive_ledger m i p : steps ledger_step (Receive m i p).
Proof. unfold Receive, receive, not_found. cbv zeta. ledger_steps. Qed.
Lemma cancel_fee_ledger t f : steps ledger_step (cancel_fee t f).
Proof. unfold cancel_fee. ledger_steps. Qed.
#[local] Hint Resolve cancel_fee_ledger : ledger.
#[local] Opaque cancel_fee.
Lemma Cancel_ledger t s r f : steps ledger_step (Cancel t s r f).
Proof. unfold Cancel. ledger_steps. Qed.
Lemma UpdateTransactionHash_ledger m i h : steps ledger_step (UpdateTransactionHash m i h).
Proof. unfold UpdateTransactionHash. ledger_steps. Qed.
Lemma ListByFilter_ledger f l : steps ledger_step (ListByFilter f l).
Proof. unfold ListByFilter. ledger_steps. Qed.

(** The statements of a system top-up run one by one on the store. *)
Lemma CreateSystemTopup_booked m p : booked (CreateSystemTopup m p).
Proof. unfold CreateSystemTopup, createSystemTopup. cbv zeta. booked_steps. Qed.
End Transactions.
#[export] Hint Resolve transaction_Create_ledger transaction_found_ledger Receive_ledger Cancel_ledger
  UpdateTransactionHash_ledger ListByFilter_ledger CreateSystemTopup_booked : ledger.

Section Merchants.
Context `{Resolver} `{MapOrder} `{Btcutil}.

Lemma merchant_Create_ledger c n x s : steps ledger_step (Merchant.Create c n x s).
Proof. unfold Merchant.Create. ledger_steps. Qed.
Lemma merchant_Update_ledger i n x : steps ledger_step (Merchant.Update i n x).
Proof. unfold Merchant.Update. ledger_steps. Qed.
Lemma merchant_Delete_ledger u : steps ledger_step (Merchant.DeleteByUUID u).
Proof.
  apply aside_ledger; [apply SoftDeleteMerchantByUUID_schema|].
  apply steps_bind; [tc_solve|apply steps_now; tc_solve|]. intros now. solve_aside.
Qed.
Lemma UpsertSettings_ledger m s : steps ledger_step (Merchant.UpsertSettings m s).
Proof. unfold Merchant.UpsertSettings. ledger_steps. Qed.
Lemma UpdatePaymentSettings_ledger m s : steps ledger_step (Merchant.UpdatePaymentSettings m s).
Proof. unfold Merchant.UpdatePaymentSettings. ledger_steps. Qed.
Lemma UpdateSupportedMethods_ledger m l : steps ledger_step (Merchant.UpdateSupportedMethods m l).
Proof. unfold Merchant.UpdateSupportedMethods. ledger_steps. Qed.
Lemma merchant_CreateAddress_ledger m p : steps ledger_step (Merchant.CreateMerchantAddress m p).
Proof. unfold Merchant.CreateMerchantAddress. cbv zeta. ledger_steps. Qed.
Lemma merchant_UpdateAddress_ledger m i n : steps ledger_step (Merchant.UpdateMerchantAddress m i n).
Proof. unfold Merchant.UpdateMerchantAddress. ledger_steps. Qed.
Lemma merchant_DeleteAddress_ledger m i : steps ledger_step (Merchant.DeleteMerchantAddress m i).
Proof. unfold Merchant.DeleteMerchantAddress. ledger_steps. Qed.
End Merchants.
#[export] Hint Resolve merchant_Create_ledger merchant_Update_ledger merchant_Delete_ledger UpsertSettings_ledger
  UpdatePaymentSettings_ledger UpdateSupportedMethods_ledger merchant_CreateAddress_ledger merchant_UpdateAddress_ledger
  merchant_DeleteAddress_ledger : ledger.

#[export] Hint Resolve fee_pure fee_usd_pure fiat_to_fiat_pure fiat_to_crypto_pure crypto_to_fiat_pure broadcast_pure
  receipt_pure incoming_pure Withdrawal.getWithdrawalFee_pure Tatum.subscribe_pure : schema.

Section Payments.
Context (basePath : string) `{Payment.Publisher} `{Payment.Mail} `{Payment.RandomStrings}.

Lemma payment_Update_ledger m i s : steps ledger_step (Payment.Update basePath m i s).
Proof. unfold Payment.Update. cbv zeta. ledger_steps. Qed.
#[local] Hint Resolve payment_Update_ledger : ledger.
Lemma payment_Fail_ledger p : steps ledger_step (Payment.Fail_ basePath p).
Proof. unfold Payment.Fail_, ignore. ledger_steps. Qed.
Lemma payment_Create_ledger m p : steps ledger_step (Payment.CreatePayment basePath m p).
Proof. unfold Payment.CreatePayment, Payment.order_exists. cbv zeta. ledger_steps. Qed.
#[local] Hint Resolve payment_Create_ledger : ledger.
Lemma payment_Topup_ledger m p : steps ledger_step (Payment.CreateSystemTopup basePath m p).
Proof. unfold Payment.CreateSystemTopup. cbv zeta. ledger_steps. Qed.
Lemma SetWebhookTimestamp_ledger m i t : steps ledger_step (Payment.SetWebhookTimestamp m i t).
Proof. unfold Payment.SetWebhookTimestamp. ledger_steps. Qed.
Lemma payment_CreateCustomer_ledger m e : steps ledger_step (Payment.CreateCustomer m e).
Proof. unfold Payment.CreateCustomer. ledger_steps. Qed.
#[local] Hint Resolve payment_CreateCustomer_ledger : ledger.
Lemma AssignCustomer_ledger p e : steps ledger_step (Payment.AssignCustomerByEmail p e).
Proof. unfold Payment.AssignCustomerByEmail, Payment.ResolveCustomerByEmail. ledger_steps. Qed.
Lemma payment_CreateLink_ledger m p : steps ledger_step (Payment.CreatePaymentLink basePath m p).
Proof. unfold Payment.CreatePaymentLink. cbv zeta. ledger_steps. Qed.
Lemma payment_DeleteLink_ledger m i : steps ledger_step (Payment.DeletePaymentLinkByPublicID basePath m i).
Proof. unfold Payment.DeletePaymentLinkByPublicID. ledger_steps. Qed.
Lemma CreatePaymentFromLink_ledger l a : steps ledger_step (Payment.CreatePaymentFromLink basePath l a).
Proof. unfold Payment.CreatePaymentFromLink. ledger_steps. Qed.
End Payments.
#[export] Hint Resolve payment_Update_ledger payment_Fail_ledger payment_Create_ledger payment_Topup_ledger
  SetWebhookTimestamp_ledger payment_CreateCustomer_ledger AssignCustomer_ledger payment_CreateLink_ledger
  payment_DeleteLink_ledger CreatePaymentFromLink_ledger : ledger.

Section WithdrawalRequests.
Context (basePath : string) (convertor : Money -> string -> Go Money) (Hconvertor : forall m t, steps eq (convertor m t)).
Context `{Resolver} `{BlockchainService} `{!BlockchainLaws} `{UTXOProviders} `{Btcutil} `{Payment.Publisher}.
#[local] Opaque Withdrawal.getWithdrawalFee.

Lemma CreateWithdrawal_ledger m p : steps ledger_step (Withdrawal.CreateWithdrawal basePath convertor m p).
Proof. unfold Withdrawal.CreateWithdrawal. cbv zeta. ledger_steps. Qed.
End WithdrawalRequests.
#[export] Hint Resolve CreateWithdrawal_ledger : ledger.
