(* ===== verification/Upkeep.v ===== *)
(** * Upkeep: the processing keeps the ledger

    For every flow of the processing, the scheduler and the events: one call,
    whatever it returns, is a step of the ledger ([Ledger.ledger_step]). *)

From S2P Require Import Prelude GoLib Float64 KmsWallet Money Repository Queries.
From S2P Require Import Bitcoin Currencies Nodes Blockchain Flow Ledger.
From S2P Require Import Processing Incoming Transfers Payouts Scheduler Events.
From S2P Require Wallet WalletBalance WalletTransaction Transaction Merchant Payment Withdrawal Tatum.

#[local] Opaque Wallet.AcquireFreshLock Wallet.EnsureOutboundWallet Wallet.UpdateTatumSubscription Wallet.List_
  Wallet.ReleaseLock Wallet.IncrementPendingTransaction Wallet.IncrementConfirmedTransaction
  Wallet.DecrementPendingTransaction WalletBalance.EnsureBalance WalletBalance.UpdateBalanceByID
  WalletBalance.UpdateBalancesForWithdrawal WalletBalance.ListBalances WalletBalance.ListAllBalances
  WalletTransaction.CreateSignedUTXOTransaction WalletTransaction.CreateSignedUTXOSweepTransaction
  WalletTransaction.CreateSignedTransaction WalletTransaction.ReleaseBitcoinTransactionReservations
  WalletTransaction.MarkBitcoinTransactionBroadcasted Transaction.Create Transaction.Receive Transaction.Confirm
  Transaction.Cancel Transaction.UpdateTransactionHash Transaction.ListByFilter Payment.Update Payment.Fail_
  Payment.CreatePayment Payment.CreateSystemTopup Payment.SetWebhookTimestamp Tatum.SubscribeToWebhook.

(** ** The processing keeps the ledger *)
Section Flows.
Context `{Resolver} `{Catalog} `{BlockchainService} `{!BlockchainLaws} `{Payment.Publisher} `{Flow.Scheduler}.
Context `{Wallet.KMS} `{WalletTransaction.KMSTransactions} `{UTXOProviders} `{Btcutil} `{Tatum.TatumAPI} `{WebhookClient}.
Context (config : Config) (tatumProvider : option Tatum.Config).

Lemma usd_value_pure m c : steps eq (usd_value m c).
Proof. apply steps_bind; [tc_solve|apply crypto_to_fiat_pure|]. intros. apply steps_ret. tc_solve. Qed.
#[local] Hint Resolve usd_value_pure : schema ledger.
#[local] Opaque usd_value.

Lemma ensureWalletSubscription_ledger w c : steps ledger_step (ensureWalletSubscription config tatumProvider w c).
Proof. unfold ensureWalletSubscription, subscribe. cbv zeta. ledger_steps. Qed.
#[local] Hint Resolve ensureWalletSubscription_ledger : ledger.
#[local] Opaque ensureWalletSubscription.

Lemma createIncomingTransaction_ledger p c : steps ledger_step (createIncomingTransaction config tatumProvider p c).
Proof. unfold createIncomingTransaction. cbv zeta. ledger_steps. Qed.
#[local] Hint Resolve createIncomingTransaction_ledger : ledger.
#[local] Opaque createIncomingTransaction.

Lemma SetPaymentMethod_ledger p t : steps ledger_step (SetPaymentMethod config tatumProvider p t).
Proof. unfold SetPaymentMethod, Do, choose_method, changePaymentMethod. ledger_steps. Qed.

Lemma LockPaymentOptions_ledger m i : steps ledger_step (LockPaymentOptions config m i).
Proof. unfold LockPaymentOptions. ledger_steps. Qed.

Lemma ensure_balances_ledger i l : steps ledger_step (ensure_balances i l).
Proof. induction l; simpl; ledger_steps. Qed.
#[local] Hint Resolve ensure_balances_ledger : ledger.
Lemma EnsureOutboundWallet_ledger bc : steps ledger_step (EnsureOutboundWallet config tatumProvider bc).
Proof. unfold EnsureOutboundWallet. ledger_steps. Qed.
#[local] Hint Resolve EnsureOutboundWallet_ledger : ledger.

Lemma TopupMerchantFromSystem_booked m i : booked (TopupMerchantFromSystem config m i).
Proof. unfold TopupMerchantFromSystem, locateSystemBalance. cbv zeta. booked_steps. Qed.

(** *** Incoming transactions *)
Lemma determineIncomingStatus_ledger t i : steps ledger_step (determineIncomingStatus t i).
Proof. unfold determineIncomingStatus. cbv zeta. ledger_steps. Qed.
#[local] Hint Resolve determineIncomingStatus_ledger : ledger.
#[local] Opaque determineIncomingStatus.
Lemma ProcessInbound_ledger t w i : steps ledger_step (ProcessInboundTransaction config t w i).
Proof. unfold ProcessInboundTransaction. ledger_steps. Qed.
#[local] Hint Resolve ProcessInbound_ledger : ledger.
#[local] Opaque ProcessInboundTransaction.
Lemma createUnexpected_ledger w i : steps ledger_step (createUnexpectedTransaction w i).
Proof. unfold createUnexpectedTransaction. cbv zeta. ledger_steps. Qed.
#[local] Hint Resolve createUnexpected_ledger : ledger.
Lemma confirmIncoming_ledger t r : steps ledger_step (confirmIncomingTransaction config t r).
Proof. unfold confirmIncomingTransaction. cbv zeta. ledger_steps. Qed.
Lemma cancelIncoming_ledger t : steps ledger_step (cancelIncomingTransaction config t).
Proof. unfold cancelIncomingTransaction. ledger_steps. Qed.
#[local] Hint Resolve confirmIncoming_ledger cancelIncoming_ledger : ledger.
#[local] Opaque createUnexpectedTransaction confirmIncomingTransaction cancelIncomingTransaction.
Lemma checkIncoming_ledger i : steps ledger_step (checkIncomingTransaction config i).
Proof. unfold checkIncomingTransaction. ledger_steps. Qed.
Lemma processConfirmedInbound_ledger t w i r : steps ledger_step (processConfirmedInboundTransaction config t w i r).
Proof. unfold processConfirmedInboundTransaction. ledger_steps. Qed.
#[local] Hint Resolve checkIncoming_ledger processConfirmedInbound_ledger : ledger.
#[local] Opaque checkIncomingTransaction processConfirmedInboundTransaction.
Lemma canUse_ledger t c : steps ledger_step (canUseObservedCandidate t c).
Proof. unfold canUseObservedCandidate. cbv zeta. ledger_steps. Qed.
#[local] Hint Resolve canUse_ledger : ledger.
#[local] Opaque canUseObservedCandidate.
Lemma observe_first_ledger t l : steps ledger_step (observe_first t l).
Proof. induction l; simpl; unfold observedTransactionFromCandidate; cbv zeta; ledger_steps. Qed.
#[local] Hint Resolve observe_first_ledger : ledger.
Lemma discover_first_ledger t w l : steps ledger_step (discover_first config t w l).
Proof. induction l; simpl; unfold processDiscoveredIncomingCandidate; ledger_steps. Qed.
#[local] Hint Resolve discover_first_ledger : ledger.
Lemma discoverIncoming_ledger i : steps ledger_step (discoverIncomingTransaction config i).
Proof. unfold discoverIncomingTransaction. ledger_steps. Qed.
Lemma shouldDefer_ledger t : steps ledger_step (shouldDeferPaymentExpiry t).
Proof. unfold shouldDeferPaymentExpiry, ObserveIncomingTransaction. ledger_steps. Qed.
#[local] Hint Resolve discoverIncoming_ledger shouldDefer_ledger : ledger.
#[local] Opaque shouldDeferPaymentExpiry.
Lemma expirePayment_ledger i : steps ledger_step (expirePayment config i).
Proof. unfold expirePayment. ledger_steps. Qed.
#[local] Hint Resolve expirePayment_ledger : ledger.
#[local] Opaque discoverIncomingTransaction expirePayment.
Lemma ProcessIncomingWebhook_ledger u n wh : steps ledger_step (ProcessIncomingWebhook config u n wh).
Proof.
  unfold ProcessIncomingWebhook, run_processors, processExpectedWebhook, processUnexpectedWebhook,
    processTronAccountActivation. ledger_steps.
Qed.

(** *** Batches *)
#[local] Instance ledger_preorder : PreOrder ledger_step := _.
Lemma group_Wait_ledger {A} (f : A -> Go unit) l : (forall x, steps ledger_step (f x)) -> steps ledger_step (group_Wait f l).
Proof. by apply (steps_group_Wait ledger_step). Qed.
Lemma group_state_ledger {S A} (f : A -> S -> Go (S * option error)) l s :
  (forall x s, steps ledger_step (f x s)) -> steps ledger_step (group_state f l s).
Proof. by apply (steps_group ledger_step). Qed.
Lemma group_ctx_ledger {S A} (f : A -> S -> Go S) l s : (forall x s, steps ledger_step (f x s)) -> steps ledger_step (group_ctx f l s).
Proof. by apply (steps_group_ctx ledger_step). Qed.
#[local] Hint Resolve group_Wait_ledger group_state_ledger group_ctx_ledger : ledger.
#[local] Opaque group_Wait group_state group_ctx.

(** Walks a tracked function. *)
Ltac flow_steps :=
  repeat first
    [ progress intros
    | solve [eauto with ledger nocore]
    | apply steps_tbind; [tc_solve| |] | apply steps_call; [tc_solve|] | apply steps_set; tc_solve | apply steps_tret; tc_solve
    | match goal with |- steps _ ((match ?x with _ => _ end) _) => destruct x end
    | progress ledger_steps ].

(** *** Internal transfers *)
Lemma sign_transfer_ledger w p c f t s : steps ledger_step (sign_transfer w p c f t s).
Proof. unfold sign_transfer. cbv zeta. flow_steps. Qed.
Lemma broadcast_transfer_ledger w t c r b s : steps ledger_step (broadcast_transfer w t c r b s).
Proof. unfold broadcast_transfer. cbv zeta. flow_steps. Qed.
#[local] Hint Resolve sign_transfer_ledger broadcast_transfer_ledger : ledger.
#[local] Opaque sign_transfer broadcast_transfer.
Lemma create_transfer_ledger w p s : steps ledger_step (create_transfer w p s).
Proof. unfold create_transfer. cbv zeta. flow_steps. Qed.
#[local] Hint Resolve create_transfer_ledger : ledger.
#[local] Opaque create_transfer.
Lemma createInternalTransfer_ledger w p : steps ledger_step (createInternalTransfer w p).
Proof. unfold createInternalTransfer. ledger_steps. Qed.
Lemma rollbackInternalTransfer_ledger p o e : steps ledger_step (rollbackInternalTransfer p o e).
Proof. unfold rollbackInternalTransfer. cbv zeta. ledger_steps. Qed.
#[local] Hint Resolve createInternalTransfer_ledger rollbackInternalTransfer_ledger : ledger.
#[local] Opaque createInternalTransfer rollbackInternalTransfer.
Lemma transfer_one_ledger ws bs b r : steps ledger_step (transfer_one ws bs b r).
Proof. unfold transfer_one. cbv zeta. ledger_steps. Qed.
#[local] Hint Resolve transfer_one_ledger : ledger.
#[local] Opaque transfer_one.
Lemma wallet_balances_ledger w m : steps ledger_step (wallet_balances w m).
Proof. unfold wallet_balances. ledger_steps. Qed.
Lemma validate_inbound_ledger b : steps ledger_step (validate_inbound b).
Proof. unfold validate_inbound. ledger_steps. Qed.
#[local] Hint Resolve wallet_balances_ledger validate_inbound_ledger : ledger.
Lemma outboundWallets_ledger : steps ledger_step getOutboundWalletsWithBalancesAsMap.
Proof. unfold getOutboundWalletsWithBalancesAsMap. ledger_steps. Qed.
#[local] Hint Resolve outboundWallets_ledger : ledger.
#[local] Opaque getOutboundWalletsWithBalancesAsMap.
Lemma BatchCreateTransfers_ledger l : steps ledger_step (BatchCreateInternalTransfers l).
Proof. unfold BatchCreateInternalTransfers, validateInboundBalances. ledger_steps. Qed.
Lemma checkInternal_ledger i : steps ledger_step (checkInternalTransaction i).
Proof. unfold checkInternalTransaction, confirmInternalTransfer, cancelInternalTransfer. ledger_steps. Qed.
#[local] Hint Resolve BatchCreateTransfers_ledger checkInternal_ledger : ledger.
#[local] Opaque BatchCreateInternalTransfers checkInternalTransaction.

(** *** Withdrawals *)
Lemma withdrawalServiceFee_ledger b c f t : steps ledger_step (withdrawalServiceFeeCrypto b c f t).
Proof. unfold withdrawalServiceFeeCrypto. ledger_steps. Qed.
#[local] Hint Resolve withdrawalServiceFee_ledger : ledger.
#[local] Opaque withdrawalServiceFeeCrypto.
Lemma mark_failed_ledger {A} (r : res A) m s : steps ledger_step (mark_failed r m s).
Proof. unfold mark_failed. ledger_steps. Qed.
Lemma call_failing_ledger {A} e m (a : Go A) s : steps ledger_step a -> steps ledger_step (call_failing e m a s).
Proof. intros Ha. unfold call_failing. ledger_steps. Qed.
#[local] Hint Resolve mark_failed_ledger call_failing_ledger : ledger.
#[local] Opaque mark_failed call_failing.
Lemma sign_withdrawal_ledger p c f t a b s : steps ledger_step (sign_withdrawal p c f t a b s).
Proof. unfold sign_withdrawal. cbv zeta. flow_steps. Qed.
Lemma broadcast_withdrawal_ledger p t c r b s : steps ledger_step (broadcast_withdrawal config p t c r b s).
Proof. unfold broadcast_withdrawal. cbv zeta. flow_steps. Qed.
Lemma book_withdrawal_ledger p c t a b s : steps ledger_step (book_withdrawal p c t a b s).
Proof. unfold book_withdrawal. cbv zeta. flow_steps. Qed.
#[local] Hint Resolve sign_withdrawal_ledger broadcast_withdrawal_ledger book_withdrawal_ledger : ledger.
#[local] Opaque sign_withdrawal broadcast_withdrawal book_withdrawal.
Lemma create_withdrawal_ledger p s : steps ledger_step (create_withdrawal config p s).
Proof. unfold create_withdrawal. cbv zeta. flow_steps. Qed.
#[local] Hint Resolve create_withdrawal_ledger : ledger.
#[local] Opaque create_withdrawal.
Lemma createWithdrawal_ledger p : steps ledger_step (createWithdrawal config p).
Proof. unfold createWithdrawal. ledger_steps. Qed.
Lemma rollbackWithdrawal_ledger i o e : steps ledger_step (rollbackWithdrawal config i o e).
Proof. unfold rollbackWithdrawal. cbv zeta. ledger_steps. Qed.
#[local] Hint Resolve createWithdrawal_ledger rollbackWithdrawal_ledger : ledger.
#[local] Opaque createWithdrawal rollbackWithdrawal.
Lemma consolidate_ledger w t l : forall a r, steps ledger_step (consolidate w t l a r).
Proof. induction l as [|x l IH]; intros a r; simpl; ledger_steps. Qed.
#[local] Hint Resolve consolidate_ledger : ledger.
Lemma consolidations_ledger c t w l m : steps ledger_step (createUTXOConsolidations c t w l m).
Proof. unfold createUTXOConsolidations. ledger_steps. Qed.
#[local] Hint Resolve consolidations_ledger : ledger.
#[local] Opaque createUTXOConsolidations.
Lemma inbound_page_ledger c n l : steps ledger_step (inbound_page c n l).
Proof. induction l; simpl; ledger_steps. Qed.
#[local] Hint Resolve inbound_page_ledger : ledger.
Lemma inbound_pages_ledger c n f : forall i, steps ledger_step (inbound_pages f i c n).
Proof. induction f as [|f IH]; intros i; simpl; ledger_steps. Qed.
#[local] Hint Resolve inbound_pages_ledger : ledger.
Lemma listInbound_ledger c t : steps ledger_step (listInboundUTXOSources c t).
Proof. unfold listInboundUTXOSources. ledger_steps. Qed.
#[local] Hint Resolve listInbound_ledger : ledger.
#[local] Opaque listInboundUTXOSources.
Lemma resolveSource_ledger c t a w b : steps ledger_step (resolveUTXOWithdrawalSource c t a w b).
Proof. unfold resolveUTXOWithdrawalSource. ledger_steps. Qed.
Lemma roll_back_ledger p o e r : steps ledger_step (roll_back config p o e r).
Proof. unfold roll_back. ledger_steps. Qed.
#[local] Hint Resolve resolveSource_ledger roll_back_ledger : ledger.
#[local] Opaque resolveUTXOWithdrawalSource roll_back.
Lemma pay_withdrawal_ledger p c w r : steps ledger_step (pay_withdrawal config p c w r).
Proof. unfold pay_withdrawal. cbv zeta. ledger_steps. Qed.
Lemma withdrawal_parts_ledger ws bs p : steps ledger_step (withdrawal_parts ws bs p).
Proof. unfold withdrawal_parts. cbv zeta. ledger_steps. Qed.
#[local] Hint Resolve pay_withdrawal_ledger withdrawal_parts_ledger : ledger.
#[local] Opaque pay_withdrawal withdrawal_parts.
Lemma withdraw_one_ledger ws bs p r : steps ledger_step (withdraw_one config ws bs p r).
Proof. unfold withdraw_one. cbv zeta. ledger_steps. Qed.
#[local] Hint Resolve withdraw_one_ledger : ledger.
#[local] Opaque withdraw_one.
Lemma BatchCreateWithdrawals_ledger l : steps ledger_step (BatchCreateWithdrawals config l).
Proof. unfold BatchCreateWithdrawals. ledger_steps. Qed.
Lemma checkWithdrawal_ledger i : steps ledger_step (checkWithdrawalTransaction config i).
Proof. unfold checkWithdrawalTransaction, confirmWithdrawal, cancelWithdrawal, confirm_nonce. ledger_steps. Qed.
#[local] Hint Resolve BatchCreateWithdrawals_ledger checkWithdrawal_ledger : ledger.
#[local] Opaque BatchCreateWithdrawals checkWithdrawalTransaction.

(** *** Jobs and events *)
Lemma transaction_ids_ledger t l h : steps ledger_step (transaction_ids t l h).
Proof. unfold transaction_ids. ledger_steps. Qed.
#[local] Hint Resolve transaction_ids_ledger : ledger.
#[local] Opaque transaction_ids.
Lemma batch_ledger m msg : steps ledger_step m -> steps ledger_step (batch_error m msg).
Proof. intros Hm. unfold batch_error. ledger_steps. Qed.
#[local] Hint Resolve batch_ledger : ledger.
#[local] Opaque batch_error.
Lemma ensure_one_ledger bc m : steps ledger_step (ignore (wrapM (EnsureOutboundWallet config tatumProvider bc) m)).
Proof. unfold ignore. ledger_steps. Qed.
#[local] Hint Resolve ensure_one_ledger : ledger.
Lemma EnsureOutboundWallets_ledger : steps ledger_step (EnsureOutboundWallets config tatumProvider).
Proof. unfold EnsureOutboundWallets. apply group_ctx_ledger. intros. apply ensure_one_ledger. Qed.
#[local] Hint Resolve EnsureOutboundWallets_ledger : ledger.
#[local] Opaque EnsureOutboundWallets.
Lemma inbound_wallet_pages_ledger f : forall i, steps ledger_step (inbound_wallet_pages f i).
Proof. induction f as [|f IH]; intros i; simpl; ledger_steps. Qed.
Lemma matches_minimum_ledger b : steps ledger_step (matches_minimum b).
Proof. unfold matches_minimum. ledger_steps. Qed.
#[local] Hint Resolve inbound_wallet_pages_ledger matches_minimum_ledger : ledger.
#[local] Opaque matches_minimum.
Lemma filterM_ledger {A} (f : A -> Go bool) l : (forall x, steps ledger_step (f x)) -> steps ledger_step (filterM f l).
Proof. intros Hf. induction l; simpl; ledger_steps. Qed.
#[local] Hint Resolve filterM_ledger : ledger.
Lemma matched_balances_ledger l : steps ledger_step (matched_balances l).
Proof. induction l; simpl; ledger_steps. Qed.
#[local] Hint Resolve matched_balances_ledger : ledger.
Lemma PerformTransfer_ledger : steps ledger_step (PerformInternalWalletTransfer config tatumProvider).
Proof. unfold PerformInternalWalletTransfer. ledger_steps. Qed.
Lemma PerformWithdrawals_ledger : steps ledger_step (PerformWithdrawalsCreation config tatumProvider).
Proof. unfold PerformWithdrawalsCreation. ledger_steps. Qed.
Lemma expire_one_ledger i : steps ledger_step (ignore (expirePayment config i)).
Proof. unfold ignore. ledger_steps. Qed.
#[local] Hint Resolve expire_one_ledger : ledger.
Lemma CheckIncoming_ledger : steps ledger_step (CheckIncomingTransactionsProgress config).
Proof. unfold CheckIncomingTransactionsProgress, BatchDiscoverIncomingTransactions, BatchCheckIncomingTransactions. ledger_steps. Qed.
Lemma CheckInternal_ledger : steps ledger_step CheckInternalTransferProgress.
Proof. unfold CheckInternalTransferProgress, BatchCheckInternalTransfers. ledger_steps. Qed.
Lemma CheckWithdrawals_ledger : steps ledger_step (CheckWithdrawalsProgress config).
Proof. unfold CheckWithdrawalsProgress, BatchCheckWithdrawals. ledger_steps. Qed.
Lemma CancelExpired_ledger : steps ledger_step (CancelExpiredPayments config).
Proof. unfold CancelExpiredPayments, BatchExpirePayments. ledger_steps. Qed.

Lemma ProcessPaymentStatus_ledger m i : steps ledger_step (ProcessPaymentStatusUpdate config m i).
Proof. unfold ProcessPaymentStatusUpdate, buildPaymentWebhook, Send. cbv zeta. ledger_steps. Qed.
Lemma ProcessWithdrawals_ledger i : steps ledger_step (ProcessWithdrawals config i).
Proof. unfold ProcessWithdrawals. ledger_steps. Qed.
End Flows.
#[export] Hint Resolve SetPaymentMethod_ledger LockPaymentOptions_ledger TopupMerchantFromSystem_booked ProcessIncomingWebhook_ledger PerformTransfer_ledger PerformWithdrawals_ledger CheckIncoming_ledger CheckInternal_ledger CheckWithdrawals_ledger CancelExpired_ledger ProcessPaymentStatus_ledger ProcessWithdrawals_ledger usd_value_pure : ledger.
