(* ===== verification/System.v ===== *)
(** * System: the services as one machine

    Every entry point of the program - what the dashboard and the payment page
    call, the webhooks of Tatum, the jobs of the scheduler and the events - as
    one inductive type of actions, and what holds in every state they reach. *)

From S2P Require Import Prelude GoLib Float64 KmsWallet Money Repository Queries.
From S2P Require Import Bitcoin Currencies Nodes Blockchain Flow Ledger Upkeep.
From S2P Require Import Processing Incoming Transfers Payouts Scheduler Events.
From S2P Require Wallet WalletBalance WalletTransaction Transaction Merchant Payment Withdrawal Tatum.

(** ** Actions

    The calls the HTTP handlers, the scheduler and the event consumers make.
    The wallets asked for in bulk, the payment an API handler has fetched and
    the merchant a dashboard handler has fetched are arguments. *)
Inductive action :=
| MerchantCreate (creatorID : Z) (name website : string) (settings : Merchant.Settings)
| MerchantUpdate (id : Z) (name website : string)
| MerchantDelete (uuid : string)
| MerchantSettings (merchant : Merchant.Merchant) (settings : Merchant.Settings)
| MerchantMethods (merchant : Merchant.Merchant) (tickers : list string)
| AddressCreate (merchantID : Z) (params : Merchant.CreateMerchantAddressParams)
| AddressUpdate (merchantID : Z) (id name : string)
| AddressDelete (merchantID : Z) (id : string)
| WalletsCreate (blockchain : string) (amount : Z)
| PaymentCreate (merchantID : Z) (props : Payment.CreatePaymentProps)
| LinkCreate (merchantID : Z) (props : Payment.CreateLinkProps)
| LinkDelete (merchantID : Z) (id : string)
| LinkPay (link : Payment.Link) (amount : list Money)
| CustomerCreate (merchantID : Z) (email : string)
| CustomerAssign (p : Payment.Payment) (email : string)
| MethodSet (p : option Payment.Payment) (ticker : string)
| PaymentLock (merchantID paymentID : Z)
| WithdrawalCreate (merchantID : Z) (props : Withdrawal.CreateWithdrawalProps)
| Topup (merchantID : Z) (input : TopupInput)
| Webhook (walletID networkID : string) (wh : TatumWebhook)
| JobCheckIncoming | JobTransfer | JobCheckInternal | JobWithdraw | JobCheckWithdrawals | JobExpire
| EventPaymentStatus (merchantID paymentID : Z)
| EventWithdrawal (paymentID : Z).

Section Machine.
Context `{Resolver} `{Catalog} `{BlockchainService} `{Payment.Publisher} `{Flow.Scheduler} `{MapOrder}.
Context `{Wallet.KMS} `{WalletTransaction.KMSTransactions} `{UTXOProviders} `{Btcutil} `{Tatum.TatumAPI} `{WebhookClient}.
Context `{Payment.Mail} `{Payment.RandomStrings}.
Context (config : Config) (tatumProvider : option Tatum.Config).

Let basePath : string := PaymentFrontendPath config.

Definition run_action (a : action) : Go unit :=
  match a with
  | MerchantCreate c n x s => ignore (Merchant.Create c n x s)
  | MerchantUpdate i n x => ignore (Merchant.Update i n x)
  | MerchantDelete u => Merchant.DeleteByUUID u
  | MerchantSettings m s => ignore (Merchant.UpsertSettings m s)
  | MerchantMethods m l => ignore (Merchant.UpdateSupportedMethods m l)
  | AddressCreate m p => ignore (Merchant.CreateMerchantAddress m p)
  | AddressUpdate m i n => ignore (Merchant.UpdateMerchantAddress m i n)
  | AddressDelete m i => Merchant.DeleteMerchantAddress m i
  | WalletsCreate bc n => ignore (Wallet.BulkCreateWallets bc n)
  | PaymentCreate m p => ignore (Payment.CreatePayment basePath m p)
  | LinkCreate m p => ignore (Payment.CreatePaymentLink basePath m p)
  | LinkDelete m i => Payment.DeletePaymentLinkByPublicID basePath m i
  | LinkPay l a => ignore (Payment.CreatePaymentFromLink basePath l a)
  | CustomerCreate m e => ignore (Payment.CreateCustomer m e)
  | CustomerAssign p e => ignore (Payment.AssignCustomerByEmail p e)
  | MethodSet p t => ignore (SetPaymentMethod config tatumProvider p t)
  | PaymentLock m i => LockPaymentOptions config m i
  | WithdrawalCreate m p => ignore (Withdrawal.CreateWithdrawal basePath usd_value m p)
  | Topup m i => ignore (TopupMerchantFromSystem config m i)
  | Webhook u n wh => ProcessIncomingWebhook config u n wh
  | JobCheckIncoming => CheckIncomingTransactionsProgress config
  | JobTransfer => PerformInternalWalletTransfer config tatumProvider
  | JobCheckInternal => CheckInternalTransferProgress
  | JobWithdraw => PerformWithdrawalsCreation config tatumProvider
  | JobCheckWithdrawals => CheckWithdrawalsProgress config
  | JobExpire => CancelExpiredPayments config
  | EventPaymentStatus m i => ProcessPaymentStatusUpdate config m i
  | EventWithdrawal i => ProcessWithdrawals config i
  end.

(** The statements of a top-up are not in a transaction: one that panics
    half-way is not a step of the machine. Every other action is, whether it
    succeeds, fails or panics. *)
Definition completes (a : action) (r : res unit) : bool :=
  match a with Topup _ _ => negb (is_panic r) | _ => true end.

(** The states the machine reaches from [w0]; between two actions the clock
    and the services outside may be anything. *)
Inductive reachable (w0 : world) : world -> Prop :=
| reach_start : reachable w0 w0
| reach_action w a r w' : reachable w0 w -> run_action a w = (r, w') -> completes a r = true -> reachable w0 w'
| reach_outside w w' : reachable w0 w -> db w' = db w -> reachable w0 w'.

Context `{!BlockchainLaws}.

Lemma ignore_ledger {A} (m : Go A) : steps ledger_step m -> steps ledger_step (ignore m).
Proof. intros Hm. unfold ignore. ledger_steps. Qed.

Lemma booked_step {A} (m : Go A) w : booked m -> is_panic (m w).1 = false -> ledger_step (db w) (db (m w).2).
Proof. intros [Hs Hh Ha] Hp. split; auto. Qed.

Lemma run_action_ledger a w : completes a (run_action a w).1 = true -> ledger_step (db w) (db (run_action a w).2).
Proof.
  intros Hc. destruct a; cbn [run_action completes] in *.
  19: { apply booked_step; [|by apply negb_true_iff]. unfold ignore. booked_steps. }
  all: revert w Hc; intros w _; match goal with |- ledger_step _ (db (?m _).2) => enough (steps ledger_step m) as Hm by apply Hm end.
  all: try apply ignore_ledger; eauto with ledger nocore.
Qed.

Lemma reachable_ledger w0 w : reachable w0 w -> ledger_step (db w0) (db w).
Proof.
  induction 1 as [|w a r w' _ IH Hr Hc|w w' _ IH E]; [reflexivity| |by rewrite E].
  etransitivity; [exact IH|]. pose proof (run_action_ledger a w) as Hl. rewrite Hr in Hl. by apply Hl.
Qed.
End Machine.

(** What a step of the ledger, or many, mean for a database [d] that is well
    formed: the constraints hold, every balance is the sum of its audit log, and
    nothing was forgotten or rewritten. *)
Definition ledger_kept (d d' : DB) : Prop :=
  schema_ok d' /\ WalletBalance.audited d' /\
  (forall l, l ∈ rows (balance_audit_log d) -> l ∈ rows (balance_audit_log d')) /\
  (forall b, b ∈ rows (balances d) -> exists b', b' ∈ rows (balances d') /\ balance_id b' = balance_id b) /\
  (forall x, x ∈ rows (wallets d) -> exists x', x' ∈ rows (wallets d') /\ wallet_id x' = wallet_id x) /\
  (forall t, t ∈ rows (transactions d) -> exists t', t' ∈ rows (transactions d') /\ transaction_id t' = transaction_id t) /\
  (forall p, p ∈ rows (payments d) -> exists p', p' ∈ rows (payments d') /\ payment_id p' = payment_id p).

Lemma ledger_keeps d d' : schema_ok d -> WalletBalance.audited d -> ledger_step d d' -> ledger_kept d d'.
Proof.
  intros Hok Ha [[_ Hs] [Hb Hl Hw Ht Hp] Hau].
  split; [by apply Hs|]. split; [by apply Hau|]. split.
  { intros l Hin. by destruct (evolves_in _ _ _ l Hl Hin) as (? & ? & <-). }
  split; [intros b Hin; destruct (evolves_in _ _ _ b Hb Hin) as (b' & ? & E); by exists b'|].
  split; [intros x Hin; destruct (evolves_in _ _ _ x Hw Hin) as (x' & ? & E); by exists x'|].
  split; [intros t Hin; destruct (evolves_in _ _ _ t Ht Hin) as (t' & ? & E); by exists t'|].
  intros p Hin. destruct (evolves_in _ _ _ p Hp Hin) as (p' & ? & E). by exists p'.
Qed.

(** ** Properties *)

(** In every state the services reach, whatever the order of the calls of
    its handlers, webhooks, jobs and events, whatever they return and whatever
    the services outside answer: the constraints of the schema hold (so no
    balance is negative and no balance, outbound wallet, lock, reservation or
    order exists twice); every balance is the sum of its audit log; and since
    the start nothing was forgotten or rewritten: every log entry is still
    there, and every balance, wallet, transaction and payment still has its
    owner, its currency and network, its address, and its amount or price. *)
Theorem reachable_invariant `{Resolver} `{Catalog} `{BlockchainService} `{Payment.Publisher} `{Flow.Scheduler}
  `{MapOrder} `{Wallet.KMS} `{WalletTransaction.KMSTransactions} `{UTXOProviders} `{Btcutil} `{Tatum.TatumAPI}
  `{WebhookClient} `{Payment.Mail} `{Payment.RandomStrings} `{!BlockchainLaws}
  (config : Config) (tatumProvider : option Tatum.Config) (w0 w : world)
  (Hok : schema_ok (db w0)) (Ha : WalletBalance.audited (db w0)) (Hr : reachable config tatumProvider w0 w) :
  ledger_kept (db w0) (db w).
Proof. apply ledger_keeps; [done..|]. by apply (reachable_ledger config tatumProvider). Qed.

(** ** Witness: a shop opens, a wallet is made, an order is placed, jobs run *)
#[local] Existing Instances Merchant.eth_resolver Withdrawal.flat_fees Withdrawal.flat_fees_laws ex_providers
  Merchant.sorted_order Wallet.sample_KMS WalletTransaction.ex_signer ex_btcutil.
#[local] Instance demo_catalog : Catalog := CurrencyResolver_Catalog NewCurrencies.
#[local] Instance silent_bus : Payment.Publisher := fun _ _ _ _ => Ok tt.
#[local] Instance in_order : Flow.Scheduler := fun _ _ l => l.
#[local] Instance any_mail : Payment.Mail := fun _ => true.
#[local] Instance one_slug : Payment.RandomStrings := fun _ _ => "abcdefgh".
#[local] Instance no_tatum : Tatum.TatumAPI := {|
  Tatum.post_subscription _ _ _ _ := Err (ENew "offline"); Tatum.hmac_sha512_base64 _ body := body |}.
#[local] Instance no_shop : WebhookClient := {|
  json_Marshal _ := "{}"; webhook_hmac _ body := body; post_webhook _ _ _ _ := Err (ENew "offline") |}.

Definition demo_config : Config := mkConfig "https://pay.example" "https://pay.example" "/p" f64_zero.
Definition demo (actions : list action) : world :=
  fold_left (fun w a => (run_action demo_config None a w).2) actions empty_world.
Definition demo_actions : list action :=
  [MerchantCreate 1 "shop" "https://shop.example" ∅; WalletsCreate "BTC" 1; PaymentCreate 1 Payment.order_props;
   JobCheckIncoming; JobExpire; EventPaymentStatus 1 1].

Lemma reachable_invariant_witness :
  schema_ok (db (demo demo_actions)) /\ WalletBalance.audited (db (demo demo_actions)) /\
  length (rows (payments (db (demo demo_actions)))) = 1%nat.
Proof.
  assert (reachable demo_config None empty_world (demo demo_actions)) as Hr.
  { unfold demo, demo_actions. cbn [fold_left].
    repeat (eapply reach_action; [|apply surjective_pairing|reflexivity]). apply reach_start. }
  destruct (reachable_invariant demo_config None empty_world _ schema_empty
    ltac:(split; intros ? Hin; by apply not_elem_of_nil in Hin) Hr) as (Hs & Ha & _).
  split; [exact Hs|]. split; [exact Ha|]. by vm_compute.
Defined.
