(* ===== verification/Outcomes.v ===== *)
(** * Outcomes: what an operation leaves, for the flows that compose them

    The rules of [wp] for cancelling and confirming a transaction and updating
    a payment: the one row they write, and the tables they leave alone. *)

From S2P Require Import Prelude GoLib Float64 KmsWallet Money Repository Queries PaymentQueries.
From S2P Require Import Bitcoin Currencies Blockchain Wallet Transaction Ledger.
From S2P Require WalletBalance Payment Merchant.

(** ** A transaction by its id *)
Definition tx_at (id : Z) (d : DB) : option Row.Transaction := row_at id (transactions d).

Lemma wf_transactions d : schema_ok d -> table_wf (transactions d).
Proof. intros [Hwf]. unfold db_wf in Hwf. tauto. Qed.

Lemma tx_filter_at m id d row : schema_ok d -> tx_at id d = Some row ->
  (m = MerchantIDWildcard \/ Row.t_MerchantID row = m) ->
  one (select (tx_filter m id) (transactions d)) = Ok row.
Proof.
  intros Hok Hrow Hm. apply row_at_Some in Hrow as [Hin Hid]; [|by apply wf_transactions].
  apply one_select_unique; [by apply wf_transactions|done| |].
  - unfold tx_filter. change (row_id row) with (Row.t_ID row) in Hid. rewrite Hid, Z.eqb_refl. cbn [andb].
    destruct (Z.eqb_spec m MerchantIDWildcard); [done|]. cbn [negb]. destruct Hm as [|<-]; [done|]. apply Z.eqb_refl.
  - intros x Hx%tx_filter_id. change (Row.t_ID x = row_id row). lia.
Qed.

Lemma tx_at_filter m id d row : schema_ok d -> one (select (tx_filter m id) (transactions d)) = Ok row ->
  tx_at id d = Some row.
Proof.
  intros Hok Hrow. destruct (one_select_inv _ _ _ Hrow) as [Hin Hf%tx_filter_id].
  by apply row_at_Some; [apply wf_transactions|].
Qed.

(** Rows with the same identity are of transactions that agree on what they
    are about. *)
Record same_deal (t t' : Transaction) : Prop := {
  deal_id : tx_ID t' = tx_ID t;
  deal_merchant : tx_MerchantID t' = tx_MerchantID t;
  deal_type : tx_Type t' = tx_Type t;
  deal_entity : tx_EntityID t' = tx_EntityID t;
  deal_currency : tx_Currency t' = tx_Currency t;
  deal_amount : tx_Amount t' = tx_Amount t;
  deal_recipient : tx_RecipientWalletID t' = tx_RecipientWalletID t;
  deal_sender : tx_SenderWalletID t' = tx_SenderWalletID t;
  deal_test : tx_IsTest t' = tx_IsTest t
}.

Section Rows.
Context `{Resolver}.

Lemma entry_deal row t : entryToTransaction row = Ok t ->
  resolve_currency row = Ok (tx_Currency t) /\
  NumericToMoney (Row.t_Amount row) Crypto (Row.t_Currency row) (Row.t_Decimals row) = Ok (tx_Amount t) /\
  tx_ID t = Row.t_ID row /\ tx_MerchantID t = Row.t_MerchantID row /\ tx_Type t = Row.t_Type row /\
  tx_EntityID t = null_val (Row.t_EntityID row) /\
  tx_RecipientWalletID t = NullableInt64ToPointer (Row.t_RecipientWalletID row) /\
  tx_SenderWalletID t = NullableInt64ToPointer (Row.t_SenderWalletID row) /\ tx_IsTest t = Row.t_IsTest row.
Proof.
  unfold entryToTransaction. cbv zeta.
  destruct (resolve_currency row) as [c|e|p]; cbn [mbind res_bind]; [|done|done].
  destruct (wrap _ "unable to construct Amount") as [a|e|p] eqn:Ea; cbn [mbind res_bind]; [|done|done].
  destruct (if_present (Row.t_FactAmount row) _) as [f|e|p] eqn:Ef; cbn [mbind res_bind]; [|done|done].
  destruct (wrap _ "unable to construct serviceFee") as [s|e|p]; cbn [mbind res_bind]; [|done|done].
  destruct (if_present (Row.t_NetworkFee row) _) as [n|e|p]; cbn [mbind res_bind]; [|done|done].
  destruct (NumericToMoney _ Fiat _ _) as [u|e|p]; cbn [mbind res_bind]; [|done|done].
  intros [= <-]. cbn. by apply wrap_ok in Ea.
Qed.

Lemma entry_service_fee row t : entryToTransaction row = Ok t ->
  NumericToMoney (Row.t_ServiceFee row) Crypto (Row.t_Currency row) (Row.t_Decimals row) = Ok (tx_ServiceFee t).
Proof.
  unfold entryToTransaction. cbv zeta.
  destruct (resolve_currency row) as [c|e|p]; cbn [mbind res_bind]; [|done|done].
  destruct (wrap _ "unable to construct Amount") as [a|e|p]; cbn [mbind res_bind]; [|done|done].
  destruct (if_present (Row.t_FactAmount row) _) as [f|e|p]; cbn [mbind res_bind]; [|done|done].
  destruct (wrap _ "unable to construct serviceFee") as [s|e|p] eqn:Es; cbn [mbind res_bind]; [|done|done].
  destruct (if_present (Row.t_NetworkFee row) _) as [n|e|p]; cbn [mbind res_bind]; [|done|done].
  destruct (NumericToMoney _ Fiat _ _) as [u|e|p]; cbn [mbind res_bind]; [|done|done].
  intros [= <-]. by apply wrap_ok in Es.
Qed.

Lemma same_deal_rows row row' t t' : transaction_id row' = transaction_id row ->
  entryToTransaction row = Ok t -> entryToTransaction row' = Ok t' -> same_deal t t'.
Proof.
  intros Hid (C & A & I & M & T & E & R & S & X)%entry_deal (C' & A' & I' & M' & T' & E' & R' & S' & X')%entry_deal.
  assert (resolve_currency row' = resolve_currency row) as Ec.
  { destruct row, row'. unfold transaction_id in Hid. cbn in Hid. unfold resolve_currency, fallbackCurrency. cbn.
    injection Hid as ?. subst. reflexivity. }
  destruct row, row'. unfold transaction_id in Hid. cbn in Hid, A, A', I, I', M, M', T, T', E, E', R, R', S, S', X, X'.
  injection Hid as ?. subst. split; congruence.
Qed.
End Rows.

(** ** Cancelling *)
Definition only_locks (d d' : DB) : Prop := exists l, d' = set_wallet_locks l d.
#[export] Instance only_locks_preorder : PreOrder only_locks.
Proof.
  split; [intros d; exists (wallet_locks d); by destruct d|]. intros d1 d2 d3 [l ->] [l' ->]. by exists l'.
Qed.

Lemma ReleaseLock_only i c n : steps only_locks (ReleaseLock i c n).
Proof.
  unfold ReleaseLock. apply steps_bind; [tc_solve| |].
  - apply steps_wrap. intros w. reflexivity.
  - intros l. apply steps_query. intros d. by eexists.
Qed.

Section Cancelling.
Context `{Resolver}.

(** The row of a transaction cancelled without a network fee. *)
Definition cancelled_row (id : Z) (status reason : string) (row row' : Row.Transaction) : Prop :=
  exists at_ j, row' = cancelled (mkCancelTransactionParams id status at_ (toJSONB {[MetaComment := reason]}) numeric_null false)
    j numeric_null row.

Lemma update_tx_at f id d row : schema_ok d -> tx_at id d = Some row -> (forall r, row_id (f r) = row_id r) ->
  forall d', transactions d' = update_rows (by_id id) f (transactions d) -> tx_at id d' = Some (f row).
Proof.
  intros Hok [Hin Hid]%row_at_Some Hf d' E; [|by apply wf_transactions].
  unfold tx_at. rewrite E. apply row_at_Some; [apply wf_update; [done|by apply wf_transactions]|].
  split; [|by rewrite Hf]. apply elem_of_update. exists row. split; [done|]. unfold by_id. by rewrite Hid, Z.eqb_refl.
Qed.

(** Without a network fee [Cancel] always succeeds: the row has the status,
    and but for it and the locks nothing has changed. *)
Lemma wp_Cancel t status reason w (Q : res unit -> world -> Prop) : schema_ok (db w) ->
  (forall w' f, schema_ok (db w') -> (forall r, cancelled_row (tx_ID t) status reason r (f r)) ->
     only_locks (set_transactions (update_rows (by_id (tx_ID t)) f (transactions (db w))) (db w)) (db w') ->
     Q (Ok tt) w') ->
  wp (Cancel t status reason None) w Q.
Proof.
  intros Hok HQ. unfold Cancel. wp_step. cbn [cancel_fee]. wp_step. apply wp_run. wp_step. apply wp_now. intros at_ w1 E1.
  destruct (pg_jsonb_meta {[MetaComment := reason]}) as [j Hj].
  set (arg := mkCancelTransactionParams _ _ _ _ _ _).
  assert (schema_ok (db (CancelTransaction arg w1).2)) as Hok2 by (apply (CancelTransaction_schema arg w1); by rewrite E1).
  do 2 wp_step. apply wp_query. unfold CancelTransaction, query in Hok2. rewrite E1 in *.
  cbn [arg cx_Metadata cx_NetworkFee] in *. rewrite Hj in *. cbn in Hok2 |- *. intros w2 E2. cbn [wrap].
  assert (forall r, cancelled_row (tx_ID t) status reason r (cancelled arg j numeric_null r)) as Hf by by eexists _, _.
  rewrite <- E2 in Hok2.
  assert (only_locks (set_transactions (update_rows (by_id (tx_ID t)) (cancelled arg j numeric_null) (transactions (db w))) (db w))
    (db w2)) as Hl by (rewrite <- E2; reflexivity).
  destruct (tx_RecipientWalletID t) as [i|]; [|wp_step; by eapply HQ].
  case_bool_decide; [|wp_step; by eapply HQ].
  do 2 wp_step. pose proof (ReleaseLock_only i (cc_Ticker (tx_Currency t)) (NetworkID t) w2) as Hr.
  pose proof (proj2 (ledger_schema _ _ (ReleaseLock_ledger i (cc_Ticker (tx_Currency t)) (NetworkID t) w2)) Hok2) as Hok3.
  pose proof (wp_release_key i (cc_Ticker (tx_Currency t)) (NetworkID t) w2 Hok2) as Hp. unfold wp in *.
  destruct (ReleaseLock _ _ _ w2) as [[[]|e|p] w3]; cbn [fst snd] in *; [| |done];
    cbn [mret M_ret fst snd]; (eapply HQ; [done|exact Hf|by transitivity (db w2)]).
Qed.
End Cancelling.

(** ** Confirming *)
Lemma wp_Confirm `{Resolver} merchantID txID params w (Q : res Transaction -> world -> Prop) : schema_ok (db w) ->
  (forall tx w', confirmed merchantID txID params (db w) tx (db w') -> Q (Ok tx) w') ->
  (forall e w', same_rows (db w) (db w') -> Q (Err e) w') ->
  (forall p w', same_rows (db w) (db w') -> Q (Panic p) w') ->
  wp (Confirm merchantID txID params) w Q.
Proof.
  intros Hok HQ He Hp. unfold Confirm. do 2 wp_step. destruct (ConfirmTransaction_validate params) as [[]|e|p];
    [|by apply He|by apply Hp]. apply wp_run. eapply wp_mono; [by apply wp_confirm|].
  intros [tx|e|p] w1 Hr; [apply HQ; by apply Hr| |]; intros w2 E2; [apply He|apply Hp]; rewrite E2; apply rollback_same_rows.
Qed.

(** ** Updating a payment *)
Definition only_payments (d d' : DB) : Prop := exists p, d' = set_payments p d.
#[export] Instance only_payments_preorder : PreOrder only_payments.
Proof.
  split; [intros d; exists (payments d); by destruct d|]. intros d1 d2 d3 [p ->] [p' ->]. by exists p'.
Qed.

(** The status of a merchant's payment. *)
Definition payment_status (merchantID id : Z) (d : DB) : option string :=
  match one (select (merchant_payment id merchantID) (payments d)) with Ok p => Some (Row.p_Status p) | _ => None end.

Section UpdatingPayments.
Context (basePath : string) `{Payment.Publisher}.

(** Whether or not the event can be published, the payment has the status;
    the merchant is read for the lock only. *)
Lemma wp_set_status merchantID id status w (Q : res Payment.Payment -> world -> Prop) :
  schema_ok (db w) -> status <> Payment.StatusLocked ->
  (forall r w', schema_ok (db w') -> only_payments (db w) (db w') ->
     (is_ok r = true -> payment_status merchantID id (db w') = Some status) -> Q r w') ->
  wp (Payment.Update basePath merchantID id status) w Q.
Proof.
  intros Hok Hst HQ. pose proof (proj2 (ledger_schema _ _ (payment_Update_ledger basePath merchantID id status w)) Hok) as Hok'.
  enough (wp (Payment.Update basePath merchantID id status) w (fun r w' => only_payments (db w) (db w') /\
    (is_ok r = true -> payment_status merchantID id (db w') = Some status))) as Hwp by (apply HQ; [done|apply Hwp|apply Hwp]).
  unfold Payment.Update. wp_step. apply wp_now. intros now w1 E1. cbv zeta. wp_step.
  rewrite bool_decide_false by done. wp_step. wp_step. apply wp_not_found, wp_query. rewrite E1. cbn [up_ID up_MerchantID].
  set (arg := mkUpdatePaymentParams _ _ _ _ _ _).
  destruct (one (select (merchant_payment id merchantID) (payments (db w)))) as [row|e|p] eqn:Eo;
    cbn [fst snd fmap res_fmap]; intros w2 E2; [|split; [rewrite E2; by eexists|done]..].
  assert (only_payments (db w) (db w2)) as Hp by (rewrite E2; by eexists).
  assert (payment_status merchantID id (db w2) = Some status) as Hs.
  { unfold payment_status. rewrite E2.
    fold (Payment.updated_payments merchantID id arg (db w)). by rewrite (Payment.updated_found merchantID id arg (db w) row Hok Eo). }
  wp_step. destruct (_ =? 0); [do 2 wp_step; done|].
  wp_step. apply wp_external. intros w3 E3. destruct (Payment.Publish _ _ _ _) as [u|e|s]; cbn [wrap]; try wp_step;
    rewrite E3; done.
Qed.
End UpdatingPayments.
