(* ===== verification/Settlement.v ===== *)
(** * Settlement: an incoming transaction is settled once

    What [checkIncomingTransaction] leaves, through the confirmation of the
    transaction, the balances and the payment: the composition of
    [Transaction], [WalletBalance], [Payment] and [Incoming]. *)

From S2P Require Import Prelude GoLib Float64 KmsWallet Money Repository Queries PaymentQueries.
From S2P Require Import Bitcoin Currencies Blockchain Wallet Transaction Ledger Processing Incoming Upkeep Outcomes.
From S2P Require WalletBalance Payment Merchant Broadcaster Flow System.

(** ** What settling posts *)
Definition settlement `{Resolver} (tx : Transaction) (fact : Money) : list (BalanceKey * Z) :=
  recipient_posting tx (val fact) ++
  (if bool_decide (tx_Status tx = StatusInProgressInvalid) || (tx_MerchantID tx =? SystemMerchantID) then []
   else [(merchant_key tx, merchant_gain tx (val fact))]).

Definition settled_status (tx : Transaction) : string :=
  if bool_decide (tx_Status tx = StatusInProgressInvalid) then StatusCompletedInvalid else StatusCompleted.
Definition paid_status (tx : Transaction) : string :=
  if bool_decide (tx_Status tx = StatusInProgressInvalid) then Payment.StatusFailed else Payment.StatusSuccess.

(** The transaction has a status and its payment, if it has one and the call
    succeeded, another. *)
Definition closed (tx : Transaction) (txStatus payStatus : string) (r : res unit) (d : DB) : Prop :=
  (exists row, tx_at (tx_ID tx) d = Some row /\ Row.t_Status row = txStatus) /\
  (r = Ok tt -> tx_MerchantID tx <> SystemMerchantID ->
     payment_status (tx_MerchantID tx) (tx_EntityID tx) d = Some payStatus).

Section Settling.
Context `{Resolver} `{BlockchainService} `{Payment.Publisher} `{!BlockchainLaws}.
Context (config : Config).

(** The postings of the confirmed transaction are those of the one checked. *)
Lemma settlement_postings row row' params tx tx' fact : entryToTransaction row = Ok tx ->
  confirmed_row (tx_MerchantID tx) (tx_ID tx) params row row' -> entryToTransaction row' = Ok tx' ->
  ctx_Status params = settled_status tx -> tx_Type tx = TypeIncoming ->
  postings tx' (val fact) (val (ctx_NetworkFee params)) = settlement tx fact.
Proof.
  intros He (at_ & meta & j & ->) He' Hst Hty. set (arg := mkUpdateTransactionParams _ _ _ _ _ _ _ _ _ _) in *.
  assert (same_deal tx tx') as [Hi Hm Ht _ Hc Ha Hr _ Hx]
    by (by eapply (same_deal_rows row (updated arg _ _ _ row))).
  destruct (entry_inv _ _ He') as (_ & Hs & _). change (Row.t_Status _) with (ctx_Status params) in Hs. rewrite Hst in Hs.
  unfold postings, settlement. rewrite Ht, bool_decide_true by done. rewrite Hs, Hm. f_equal.
  - unfold recipient_posting, wallet_key. by rewrite Hr, Hc, Hx.
  - unfold settled_status in *. destruct (bool_decide (tx_Status tx = StatusInProgressInvalid)) eqn:E; [done|].
    change (bool_decide (StatusCompleted = StatusCompletedInvalid)) with false. cbn [orb].
    destruct (_ =? _); [done|]. unfold merchant_key, merchant_gain, NetworkID. rewrite Hm, Hc, Hx, Ha.
    assert (tx_ServiceFee tx' = tx_ServiceFee tx) as ->; [|done].
    apply entry_service_fee in He, He'. cbn [arg updated ut_RemoveServiceFee Row.t_ServiceFee Row.t_Currency Row.t_Decimals] in He'.
    rewrite Hst in He'. change (bool_decide (StatusCompleted = StatusCompletedInvalid)) with false in He'. congruence.
Qed.

Lemma closed_only_payments tx a b r d d' : only_payments d d' ->
  (exists row, tx_at (tx_ID tx) d = Some row /\ Row.t_Status row = a) ->
  (r = Ok tt -> tx_MerchantID tx <> SystemMerchantID -> payment_status (tx_MerchantID tx) (tx_EntityID tx) d' = Some b) ->
  closed tx a b r d'.
Proof. intros [p ->] Hrow Hp. by split. Qed.

Lemma wp_cancelIncoming tx row w : schema_ok (db w) -> tx_at (tx_ID tx) (db w) = Some row ->
  wp (cancelIncomingTransaction config tx) w (fun r w' => balances (db w') = balances (db w) /\
    closed tx StatusFailed Payment.StatusFailed r (db w')).
Proof.
  intros Hok Hrow. unfold cancelIncomingTransaction. do 2 wp_step. apply wp_Cancel; [done|].
  intros w1 f Hok1 Hf [l E1]. cbn [wrap].
  assert (exists row1, tx_at (tx_ID tx) (db w1) = Some row1 /\ Row.t_Status row1 = StatusFailed) as Hrow1.
  { exists (f row). split; [|by destruct (Hf row) as (? & ? & ->)].
    apply (update_tx_at f _ (db w)); [done|done|by intros r; destruct (Hf r) as (? & ? & ->)|by rewrite E1]. }
  assert (balances (db w1) = balances (db w)) as Hb by by rewrite E1.
  destruct (Z.eqb_spec (tx_MerchantID tx) SystemMerchantID); [wp_step; split; [done|by split]|].
  do 2 wp_step. apply wp_set_status; [done|done|]. intros r w2 Hok2 Hp Hs.
  assert (balances (db w2) = balances (db w)) as Hb2 by (destruct Hp as [? ->]; done).
  destruct r as [p|e|s]; cbn [wrap]; [|split; [done|by apply (closed_only_payments tx _ _ _ (db w1))]..].
  destruct (tx_HashID tx); wp_step; (split; [done|apply (closed_only_payments tx _ _ _ (db w1)); [done..|intros; by apply Hs]]).
Qed.

Definition settled_with (tx : Transaction) (d : DB) (r : res unit) (d' : DB) : Prop :=
  exists fact, tx_FactAmount tx = Some fact /\ (forall k, stored k d' = stored k d + posted k (settlement tx fact)) /\
    closed tx (settled_status tx) (paid_status tx) r d'.

Lemma wp_confirmIncoming tx row receipt w : schema_ok (db w) -> tx_at (tx_ID tx) (db w) = Some row ->
  entryToTransaction row = Ok tx -> tx_Type tx = TypeIncoming -> cc_Ticker (tx_Currency tx) = m_ticker (tx_Amount tx) ->
  wp (confirmIncomingTransaction config tx receipt) w (fun r w' =>
    (r <> Ok tt /\ same_rows (db w) (db w')) \/ settled_with tx (db w) r (db w')).
Proof.
  intros Hok Hrow He Hty Hcur. unfold confirmIncomingTransaction. cbv zeta.
  fold (settled_status tx) (paid_status tx).
  match goal with |- wp (if ?b then _ else _) _ _ => destruct b end; [wp_step; by left|].
  destruct (tx_HashID tx) as [hash|]; [|wp_step; by left]. destruct (tx_FactAmount tx) as [fact|] eqn:Ef; [|wp_step; by left].
  do 2 wp_step. match goal with |- wp (Confirm _ _ ?p) _ _ => set (params := p) end.
  apply wp_Confirm; [done| |intros ? ? ?; by left|intros ? ? ?; by left].
  intros tx1 w1 (Hst & Hok1 & (row0 & row1 & Hin & Hid0 & Hc & Hone & He1) & [t Hbooks] & Hpost). cbn [wrap].
  assert (row0 = row) as ->.
  { assert (tx_at (tx_ID tx) (db w) = Some row0) as K1
      by (apply row_at_Some; [by apply wf_transactions|done]). congruence. }
  apply tx_at_filter in Hone; [|done].
  assert (same_deal tx tx1) as [_ Hm _ Hen Hcc Ha _ _ _]
    by (destruct Hc as (? & ? & ? & ->); refine (same_deal_rows row _ tx tx1 _ He He1); done).
  assert (Row.t_Status row1 = settled_status tx) as Hs1 by by destruct Hc as (? & ? & ? & ->).
  assert (forall k, stored k (db w1) = stored k (db w) + posted k (settlement tx fact)) as Hk.
  { intros k. rewrite Hpost; [|by rewrite Hcc, Ha|left]; [|].
    - do 2 f_equal. change (ctx_FactAmount params) with fact. by eapply settlement_postings.
    - destruct (entry_inv _ _ He1) as (_ & _ & -> & _). destruct Hc as (? & ? & ? & ->).
      destruct (entry_inv _ _ He) as (_ & _ & E & _). rewrite Hty in E. exact (eq_sym E). }
  assert (exists row1, tx_at (tx_ID tx) (db w1) = Some row1 /\ Row.t_Status row1 = settled_status tx) as Hrow1 by by exists row1.
  rewrite Hm, Hen. destruct (Z.eqb_spec (tx_MerchantID tx) SystemMerchantID).
  { wp_step. right. exists fact. split; [done|]. split; [done|by split]. }
  do 2 wp_step. apply Payment.wp_found_payment. intros w2 E2.
  assert (forall r, r <> Ok tt -> db w2 = db w1 -> (r <> Ok tt /\ same_rows (db w) (db w2)) \/ settled_with tx (db w) r (db w2)) as Hfail.
  { intros r Hr ->. right. exists fact. split; [done|]. split; [done|]. by split. }
  match goal with |- match wrap ?x _ with _ => _ end => destruct x as [pt|e|p] eqn:Ep end; cbn [wrap]; [|by apply Hfail..].
  do 2 wp_step. assert (Payment.pay_ID pt = tx_EntityID tx) as Hpid.
  { match type of Ep with Payment.payment_of _ (one ?l) = _ => destruct (one l) as [prow|e|s] eqn:Eo end; [|done..].
    destruct (one_select_inv _ _ _ Eo) as [_ [Hi _]%andb_true_iff]. apply Payment.reads_ids in Ep as [-> _].
    by apply Z.eqb_eq in Hi. }
  rewrite Hpid. apply wp_set_status; [by rewrite E2|unfold paid_status; by case_bool_decide|].
  rewrite E2. intros r w3 Hok3 Hp Hs.
  assert (forall k, stored k (db w3) = stored k (db w) + posted k (settlement tx fact)) as Hk3
    by (destruct Hp as [? ->]; exact Hk).
  destruct r as [q|e|s]; cbn [wrap]; try wp_step; right; exists fact; (split; [done|]); (split; [done|]);
    (apply (closed_only_payments tx _ _ _ (db w1)); [done..|intros; by apply Hs]).
Qed.

(** The receipt some call of the blockchain service gives of the transaction. *)
Definition reported (tx : Transaction) (d : DB) (receipt : Broadcaster.TransactionReceipt) : Prop :=
  exists hash w0, tx_HashID tx = Some hash /\ db w0 = d /\
    (GetTransactionReceipt (cc_Blockchain (tx_Currency tx)) hash (tx_IsTest tx) w0).1 = Ok receipt.

Definition checked (tx : Transaction) (d : DB) (r : res unit) (d' : DB) : Prop :=
  (same_rows d d' /\ (r = Ok tt -> IsInProgress tx = false \/
     exists receipt, reported tx d receipt /\ Broadcaster.rc_IsConfirmed receipt = false)) \/
  (IsInProgress tx = true /\ tx_Type tx = TypeIncoming /\ exists receipt, reported tx d receipt /\
     Broadcaster.rc_IsConfirmed receipt = true /\
     if Broadcaster.rc_Success receipt then settled_with tx d r d'
     else balances d' = balances d /\ closed tx StatusFailed Payment.StatusFailed r d').

Lemma same_rows_refl d d' : d' = d -> same_rows d d'.
Proof. by intros ->. Qed.

Lemma wp_checkIncoming id row tx w : schema_ok (db w) -> tx_at id (db w) = Some row -> entryToTransaction row = Ok tx ->
  cc_Ticker (tx_Currency tx) = m_ticker (tx_Amount tx) ->
  wp (checkIncomingTransaction config id) w (fun r w' => checked tx (db w) r (db w')).
Proof.
  intros Hok Hrow He Hcur.
  assert (tx_ID tx = id) as Hid.
  { destruct (entry_inv _ _ He) as [-> _]. by apply row_at_Some in Hrow as [_ ?]; [|by apply wf_transactions]. }
  unfold checkIncomingTransaction. do 2 wp_step. apply wp_GetByID. intros w1 E1.
  rewrite (tx_filter_at _ _ _ row Hok Hrow) by (by left). rewrite He. cbn [wrap].
  assert (forall r, r <> Ok tt -> checked tx (db w) r (db w1)) as Hnone
    by (intros r Hr; left; split; [by apply same_rows_refl|done]).
  case_bool_decide as Hty; cbn [negb]; [|wp_step; by apply Hnone].
  destruct (tx_HashID tx) as [hash|] eqn:Eh; [|wp_step; by apply Hnone].
  match goal with |- wp (if ?b then _ else _) _ _ => destruct b end; [wp_step; by apply Hnone|].
  case_bool_decide; [wp_step; by apply Hnone|].
  destruct (IsInProgress tx) eqn:Ep; cbn [negb]; [|wp_step; left; split; [by apply same_rows_refl|by left]].
  do 2 wp_step. unfold wp at 1.
  pose proof (receipt_pure (cc_Blockchain (tx_Currency tx)) hash (tx_IsTest tx) w1) as E2.
  destruct (GetTransactionReceipt _ _ _ w1) as [[rc|e|p] w2] eqn:Eg; cbn [fst snd wrap] in *;
    [|left; split; [apply same_rows_refl; congruence|done]..].
  assert (reported tx (db w) rc) as Hrep by (exists hash, w1; by rewrite Eg).
  destruct (Broadcaster.rc_IsConfirmed rc) eqn:Ec; cbn [negb].
  2: { wp_step. left. split; [apply same_rows_refl; congruence|]. right. by exists rc. }
  assert (db w2 = db w) as E by congruence. rewrite <- E in *.
  assert (tx_at (tx_ID tx) (db w2) = Some row) as Hrow2 by by rewrite Hid.
  destruct (Broadcaster.rc_Success rc) eqn:Esu; cbn [negb].
  - eapply wp_mono; [by eapply wp_confirmIncoming|]. intros r w3 [[Hr Hs]|Hs]; [by left; split|].
    right. split; [done|]. split; [done|]. exists rc. rewrite Esu. done.
  - eapply wp_mono; [by eapply wp_cancelIncoming|]. intros r w3 Hs.
    right. split; [done|]. split; [done|]. exists rc. rewrite Esu. done.
Qed.

Lemma wp_checkFinal id row w : schema_ok (db w) -> tx_at id (db w) = Some row ->
  one_of (Row.t_Status row) finalizedTransactionStatuses = true ->
  wp (checkIncomingTransaction config id) w (fun _ w' => db w' = db w).
Proof.
  intros Hok Hrow Hf. unfold checkIncomingTransaction. do 2 wp_step. apply wp_GetByID. intros w1 E1.
  rewrite (tx_filter_at _ _ _ row Hok Hrow) by (by left).
  destruct (entryToTransaction row) as [tx|e|p] eqn:He; cbn [wrap]; [|done..].
  assert (IsInProgress tx = false) as Hp.
  { unfold IsInProgress. destruct (entry_inv _ _ He) as (_ & -> & _). unfold one_of, finalizedTransactionStatuses in Hf.
    cbn in Hf. repeat (case_bool_decide; [match goal with E : Row.t_Status row = _ |- _ => by rewrite E end|]). done. }
  rewrite Hp. cbn [negb].
  repeat match goal with
    | |- wp (if ?b then _ else _) _ _ => destruct b
    | |- wp (match ?b with _ => _ end) _ _ => destruct b
    | |- wp _ _ _ => wp_step; exact E1 end.
Qed.
End Settling.

(** ** Properties *)

(** C3. An incoming transaction is settled once and for what it is worth:
    checking a stored incoming transaction, whatever the node answers and
    whether the call succeeds, fails or panics, either changes no row - and
    then, if it succeeds, the transaction was not in progress or the node did
    not report the required confirmations - or the transaction was in progress
    and the node reported it confirmed. In that case, if it succeeded on the
    blockchain, the recipient wallet's holding grows by the amount received
    and the merchant's by the lesser of that and the invoice minus the service
    fee (by nothing when less than the invoice was paid or the deposit is the
    system's), no other holding of any entity changes, and the transaction is
    completed; if it was reverted, no balance changes and the transaction has
    failed; and a call that succeeds has also closed the payment, as paid or
    as failed. From then on, in any state in which the transaction has a final
    status, checking it again changes nothing. *)
Theorem incoming_settled_once `{Resolver} `{BlockchainService} `{Payment.Publisher} `{!BlockchainLaws}
  (config : Config) (id : Z) (row : Row.Transaction) (tx : Transaction) (w : world)
  (Hok : schema_ok (db w)) (Hrow : tx_at id (db w) = Some row) (Hent : entryToTransaction row = Ok tx)
  (Hcur : cc_Ticker (tx_Currency tx) = m_ticker (tx_Amount tx)) :
  let '(r, w1) := checkIncomingTransaction config id w in
  checked tx (db w) r (db w1) /\
  forall w2 row2, schema_ok (db w2) -> tx_at id (db w2) = Some row2 ->
    one_of (Row.t_Status row2) finalizedTransactionStatuses = true ->
    db (checkIncomingTransaction config id w2).2 = db w2.
Proof.
  pose proof (wp_checkIncoming config id row tx w Hok Hrow Hent Hcur) as Hc. unfold wp in Hc.
  destruct (checkIncomingTransaction config id w) as [r w1]. split; [exact Hc|].
  intros w2 row2 Hok2 Hrow2 Hf. exact (wp_checkFinal config id row2 w2 Hok2 Hrow2 Hf).
Qed.

(** ** Witness: an order paid with 120 wei for an invoice of 100, fee 3 *)
Definition confirmed_receipt : Broadcaster.TransactionReceipt :=
  Broadcaster.mkReceipt "ETH" false "sender" "" "hash" 0 (ex_wei 2) true 12 true.
Definition eth_node : BlockchainService := {|
  CalculateFee _ _ _ := fail (ENew "no node");
  CalculateWithdrawalFeeUSD _ _ _ := fail (ENew "no node");
  FiatToFiat m c := fail (ENew "no rates");
  FiatToCrypto m c := fail (ENew "no rates");
  CryptoToFiat m c := fail (ENew "no rates");
  BroadcastTransaction _ _ _ := mret "hash";
  GetTransactionReceipt _ _ _ := mret confirmed_receipt;
  ListIncomingTransactions _ _ _ := mret []
|}.
Lemma eth_node_laws : BlockchainLaws (H := eth_node).
Proof. split; cbn; intros; (apply steps_fail; tc_solve) || (apply steps_ret; tc_solve). Qed.

#[local] Existing Instances Transaction.ex_resolver eth_node eth_node_laws.
#[local] Instance a_bus : Payment.Publisher := fun _ _ _ _ => Ok tt.

Definition order_invoice : CreateTransaction :=
  mkCreate TypeIncoming 1 "" None "" (Some (entryToWallet sample_wallet)) "" ex_coin (ex_wei 100)
    (mkMoney Fiat USD (Some 5) 2) (ex_wei 3) false false.
Definition invoiced : world := (Transaction.Create 1 order_invoice false Payment.order_world).2.
Definition received_order : world := (Transaction.Receive 1 1 ex_receive invoiced).2.
Definition settled_order : world := (checkIncomingTransaction System.demo_config 1 received_order).2.

Lemma received_schema : schema_ok (db received_order).
Proof.
  apply (Receive_ledger 1 1 ex_receive invoiced), (transaction_Create_ledger 1 order_invoice false Payment.order_world),
    Payment.order_schema.
Qed.

Lemma incoming_settled_once_witness :
  stored (mkBalanceKey "merchant" 1 "1" "ETH") (db settled_order) = 97 /\
  payment_status 1 1 (db settled_order) = Some Payment.StatusSuccess /\
  db (checkIncomingTransaction System.demo_config 1 settled_order).2 = db settled_order.
Proof.
  split; [by vm_compute|]. split; [by vm_compute|].
  assert (match tx_at 1 (db received_order) with
    | Some row => match entryToTransaction row with
      | Ok tx => bool_decide (cc_Ticker (tx_Currency tx) = m_ticker (tx_Amount tx)) | _ => false end
    | None => false end = true) as Hr by by vm_compute.
  assert (match tx_at 1 (db settled_order) with
    | Some row => one_of (Row.t_Status row) finalizedTransactionStatuses | None => false end = true) as Hf by by vm_compute.
  destruct (tx_at 1 (db received_order)) as [row|] eqn:Er; [|discriminate Hr].
  destruct (entryToTransaction row) as [tx|e|p] eqn:Ee; [|discriminate Hr..]. apply bool_decide_eq_true_1 in Hr.
  destruct (tx_at 1 (db settled_order)) as [row2|] eqn:Er2; [|discriminate Hf].
  pose proof (incoming_settled_once System.demo_config 1 row tx received_order received_schema Er Ee Hr) as Hs.
  assert (schema_ok (db settled_order)) as Hok
    by exact (proj2 (ledger_schema _ _ (checkIncoming_ledger System.demo_config 1 received_order)) received_schema).
  revert Hs Er2 Hok. unfold settled_order.
  destruct (checkIncomingTransaction System.demo_config 1 received_order) as [r w1]. cbn [snd]. intros [_ Hs] Er2 Hok.
  exact (Hs w1 row2 Hok Er2 Hf).
Defined.
