(* ===== verification/Frames.v ===== *)
(** * Frames: the tables an operation leaves alone

    A frame is a relation of databases that holds when some tables have the
    same rows. An operation keeps a frame when each of its statements does;
    a transaction rolled back keeps every frame. *)

From S2P Require Import Prelude GoLib Float64 KmsWallet Money Repository Queries PaymentQueries.
From S2P Require Import Bitcoin Currencies Blockchain Wallet WalletBalance WalletTransaction Transaction Ledger.
From S2P Require Merchant Payment Tatum.

Class Frame (R : DB -> DB -> Prop) : Prop := {
  frame_preorder :: PreOrder R;
  frame_rollback d d' : R d (rollback d d')
}.

(** What [f] sees of the database - the rows of some tables - is the same. *)
Definition keeps {T} (f : DB -> T) (d d' : DB) : Prop := f d' = f d.

Lemma keeps_frame {T} (f : DB -> T) : (forall d d', f (rollback d d') = f d) -> Frame (keeps f).
Proof.
  intros Hr. split; [|intros d d'; apply Hr]. split; [done|]. intros a b c H1 H2. unfold keeps in *. congruence.
Qed.

Definition transaction_rows (d : DB) : list Row.Transaction := rows (transactions d).
Definition balance_rows (d : DB) : list Row.Balance := rows (balances d).
(** Balances, transactions and payments. *)
Definition money_rows (d : DB) : list Row.Balance * list Row.Transaction * list Row.Payment :=
  (rows (balances d), rows (transactions d), rows (payments d)).

#[export] Instance keeps_transactions_frame : Frame (keeps transaction_rows).
Proof. by apply keeps_frame. Qed.
#[export] Instance keeps_balances_frame : Frame (keeps balance_rows).
Proof. by apply keeps_frame. Qed.
#[export] Instance keeps_money_frame : Frame (keeps money_rows).
Proof. by apply keeps_frame. Qed.

Create HintDb frame.

(** One statement: a read, a failed write or a write of other tables. *)
Ltac solve_statement :=
  apply steps_query; intros ?d; cbv zeta;
  repeat first [reflexivity | progress cbn [snd mbind res_bind mret res_ret]
    | match goal with
      | |- context [pg_numeric ?x] => destruct (pg_numeric x)
      | |- context [pg_jsonb ?x] => destruct (pg_jsonb x)
      | |- context [pg_numeric_not_null ?x] => destruct (pg_numeric_not_null x)
      | |- _ _ (match ?x with _ => _ end).2 => destruct x
      end].

Ltac frame_steps :=
  repeat first
    [ progress intros
    | apply steps_ret; tc_solve | apply steps_fail; tc_solve | apply steps_panic; tc_solve
    | apply steps_pure; tc_solve | apply steps_gets; tc_solve
    | apply steps_now; tc_solve | apply steps_uuid; tc_solve | apply steps_external; tc_solve
    | solve [eauto with frame nocore]
    | apply steps_bind; [tc_solve| |]
    | apply steps_wrap | apply steps_attempt
    | apply steps_run; [intros; apply frame_rollback|]
    | match goal with |- steps _ (match ?x with _ => _ end) => destruct x end
    | solve [solve_statement]
    | match goal with |- steps _ ?m => progress (unfold_head m; cbv zeta) end ].

(** A call that changes no table keeps every frame. *)
Lemma pure_frame R `{!Frame R} {A} (m : Go A) : steps eq m -> steps R m.
Proof. intros Hm w. rewrite <- (Hm w). reflexivity. Qed.

Section Wallets.
Context `{Resolver} `{KMS}.

Lemma AcquireFreshLock_frame m c t : steps (keeps transaction_rows) (AcquireFreshLock m c t).
Proof. frame_steps. Qed.
Lemma UpdateTatumSubscription_frame w s : steps (keeps transaction_rows) (UpdateTatumSubscription w s).
Proof. frame_steps. Qed.
Lemma DecrementPending_frame i t : steps (keeps money_rows) (DecrementPendingTransaction i t).
Proof. frame_steps. Qed.
End Wallets.
#[export] Hint Resolve AcquireFreshLock_frame UpdateTatumSubscription_frame DecrementPending_frame : frame.

(** ** Signing: reservations and nonces only *)
Section Signing.
Context `{KMSTransactions} `{UTXOProviders} `{Btcutil}.

Lemma reserve_inputs_frame i t a b l : steps (keeps money_rows) (reserve_inputs i t a b l).
Proof. induction l; simpl; frame_steps. Qed.
Lemma for_each_frame f l : (forall i, steps (keeps money_rows) (f i)) -> steps (keeps money_rows) (for_each f l).
Proof. intros Hf. induction l; simpl; frame_steps. Qed.
#[local] Hint Resolve reserve_inputs_frame for_each_frame : frame.

Lemma Prepare_frame a r m f t x : steps (keeps money_rows) (PrepareBitcoinTransactionExcluding a r m f t x).
Proof. apply pure_frame; [tc_solve|apply Prepare_pure]. Qed.
Lemma PrepareSweep_frame a r f t x : steps (keeps money_rows) (PrepareBitcoinSweepTransactionExcluding a r f t x).
Proof. apply pure_frame; [tc_solve|apply PrepareSweep_pure]. Qed.
#[local] Hint Resolve Prepare_frame PrepareSweep_frame : frame.

Lemma sign_reserved_frame s p t l : steps (keeps money_rows) (sign_reserved s p t l).
Proof. frame_steps; apply for_each_frame; frame_steps. Qed.
#[local] Hint Resolve sign_reserved_frame : frame.

Lemma attempts_loop_frame n : forall c s r a f t sweep, steps (keeps money_rows) (attempts_loop n c s r a f t sweep).
Proof. induction n as [|n IH]; intros; cbn [attempts_loop]; frame_steps. Qed.
#[local] Hint Resolve attempts_loop_frame : frame.

Lemma CreateSignedUTXO_frame s r c a f t : steps (keeps money_rows) (CreateSignedUTXOTransaction s r c a f t).
Proof. frame_steps. Qed.
Lemma CreateSignedUTXOSweep_frame s r c f t : steps (keeps money_rows) (CreateSignedUTXOSweepTransaction s r c f t).
Proof. frame_steps. Qed.
#[local] Hint Resolve CreateSignedUTXO_frame : frame.

Lemma createSigned_frame s r c a f n t : steps (keeps money_rows) (createSignedTransaction s r c a f n t).
Proof. apply pure_frame; [tc_solve|apply createSignedTransaction_pure]. Qed.
#[local] Hint Resolve createSigned_frame : frame.

Lemma CreateSigned_frame s r c a f t : steps (keeps money_rows) (CreateSignedTransaction s r c a f t).
Proof. frame_steps. Qed.
Lemma ReleaseReservations_frame w raw t : steps (keeps money_rows) (ReleaseBitcoinTransactionReservations w raw t).
Proof. frame_steps. Qed.
Lemma MarkBroadcasted_frame w raw h t : steps (keeps money_rows) (MarkBitcoinTransactionBroadcasted w raw h t).
Proof. frame_steps. Qed.
End Signing.
#[export] Hint Resolve CreateSignedUTXO_frame CreateSignedUTXOSweep_frame CreateSigned_frame ReleaseReservations_frame
  MarkBroadcasted_frame : frame.

(** ** Storing and updating transactions and payments: the balances stay *)
Section Records.
Context `{Resolver} `{Payment.Publisher}.

Lemma transaction_Create_frame m p u : steps (keeps balance_rows) (Transaction.Create m p u).
Proof. frame_steps. Qed.
Lemma UpdateTransactionHash_frame m i h : steps (keeps balance_rows) (UpdateTransactionHash m i h).
Proof. frame_steps. Qed.
Lemma Cancel_frame t s r : steps (keeps balance_rows) (Cancel t s r None).
Proof. frame_steps. Qed.
Lemma payment_Update_frame base m i s : steps (keeps balance_rows) (Payment.Update base m i s).
Proof. frame_steps. Qed.
End Records.
#[export] Hint Resolve transaction_Create_frame UpdateTransactionHash_frame Cancel_frame payment_Update_frame : frame.

Lemma money_balances {A} (m : Go A) : steps (keeps money_rows) m -> steps (keeps balance_rows) m.
Proof. intros Hm w. specialize (Hm w). unfold keeps, money_rows, balance_rows in *. congruence. Qed.
Lemma money_transactions {A} (m : Go A) : steps (keeps money_rows) m -> steps (keeps transaction_rows) m.
Proof. intros Hm w. specialize (Hm w). unfold keeps, money_rows, transaction_rows in *. congruence. Qed.
