(* ===== verification/Rollback.v ===== *)
(** * Rollback: a transfer or withdrawal that failed is undone

    What a failed [createInternalTransfer] or [createWithdrawal] followed by
    its rollback leaves of the balances and of the transaction: the
    composition of [WalletBalance], [Transaction], [WalletTransaction],
    [Transfers] and [Payouts]. *)

From S2P Require Import Prelude GoLib Float64 KmsWallet Money Repository Queries PaymentQueries.
From S2P Require Import Bitcoin Currencies Nodes Blockchain Wallet WalletBalance WalletTransaction Transaction Ledger Outcomes.
From S2P Require Import Flow Processing Incoming Transfers Frames.
From S2P Require Payment Merchant Broadcaster Payouts Upkeep Settlement.

(** ** Moving balances by their row *)
Definition at_id (id v i : Z) : Z := if decide (i = id) then v else 0.

(** Every balance moves by [f]; none is added or removed. *)
Definition balances_moved (f : Z -> Z) (d d' : DB) : Prop := forall i,
  match row_at i (balances d), row_at i (balances d') with
  | Some r, Some r' => row_value r' = row_value r + f i /\ Row.b_Currency r' = Row.b_Currency r /\
      Row.b_Decimals r' = Row.b_Decimals r
  | None, None => True
  | _, _ => False
  end.

Lemma keeps_row_at d d' i : keeps balance_rows d d' -> row_at i (balances d') = row_at i (balances d).
Proof. unfold keeps, balance_rows, row_at, select. by intros ->. Qed.

Lemma moved_keeps d d' : keeps balance_rows d d' -> balances_moved (fun _ => 0) d d'.
Proof. intros Hk i. rewrite (keeps_row_at _ _ i Hk). destruct (row_at i (balances d)); [|done]. split; [lia|done]. Qed.

Lemma moved_trans f g h d1 d2 d3 : balances_moved f d1 d2 -> balances_moved g d2 d3 -> (forall i, h i = f i + g i) ->
  balances_moved h d1 d3.
Proof.
  intros H1 H2 Hh i. specialize (H1 i). specialize (H2 i). rewrite Hh.
  destruct (row_at i (balances d1)), (row_at i (balances d2)), (row_at i (balances d3)); try done.
  destruct H1 as (? & ? & ?), H2 as (? & ? & ?). split; [lia|]. split; congruence.
Qed.

Lemma moved_values d d' : balances_moved (fun _ => 0) d d' -> forall i, balance_value d' i = balance_value d i.
Proof.
  intros Hm i. specialize (Hm i). unfold balance_value.
  destruct (row_at i (balances d)), (row_at i (balances d')); try done. destruct Hm as [Hv _]. cbn. f_equal. lia.
Qed.

(** What an update of one balance moves: nothing when the amount is of
    another currency. *)
Definition effect (id : Z) (operation : string) (amount : Money) (d : DB) : Z :=
  match row_at id (balances d) with
  | Some row => if CompatibleTo (row_money row) amount then signed operation amount else 0
  | None => 0
  end.

Lemma effect_moved f id op a d d' : balances_moved f d d' -> effect id op a d' = effect id op a d.
Proof.
  intros Hm. specialize (Hm id). unfold effect, CompatibleTo, row_money in *.
  destruct (row_at id (balances d)), (row_at id (balances d')); try done. destruct Hm as (_ & Hc & Hd). cbn.
  by rewrite Hc, Hd.
Qed.

Lemma effect_opposite id a d : effect id OperationIncrement a d = - effect id OperationDecrement a d.
Proof. unfold effect. destruct (row_at id _); [|done]. destruct (CompatibleTo _ _); [|done]. unfold signed. rewrite bool_decide_false, bool_decide_true by done. lia. Qed.

Lemma moved_one id v at1 at2 c meta d : balances_moved (at_id id v) d (moved id v at1 at2 c meta d).
Proof.
  intros i. unfold moved. cbn [balances set_balance_audit_log set_balances]. rewrite row_at_update by done.
  destruct (row_at i (balances d)) as [r|] eqn:Hr; [|done]. cbn. destruct (row_at_id _ _ _ Hr) as [Hid _].
  unfold by_id, at_id. rewrite Hid. case_decide as Hi.
  - rewrite (proj2 (Z.eqb_eq _ _)) by done. split; [apply row_value_add|done].
  - rewrite (proj2 (Z.eqb_neq _ _)) by done. split; [lia|done].
Qed.

Lemma update_result_moves id p d a d' : update_result id p d (Ok a) d' ->
  balances_moved (at_id id (effect id (ui_Operation p) (ui_Amount p) d)) d d'.
Proof.
  intros Hr. unfold effect.
  inversion Hr as [| |row Hv Hrow Hc| |row at1 at2 f Hv Hrow Hc Hge Hf|]; subst; rewrite Hrow, Hc; [|apply moved_one].
  intros i. destruct (row_at i (balances d')); [|done]. unfold at_id. case_decide; (split; [lia|done]).
Qed.

Lemma wp_UpdateBalanceByID_moves id p w : schema_ok (db w) -> wp (WalletBalance.UpdateBalanceByID id p) w (fun r w' =>
  match r with
  | Ok _ => Money_IsZero (ui_Amount p) = false /\
      balances_moved (at_id id (effect id (ui_Operation p) (ui_Amount p) (db w))) (db w) (db w')
  | _ => keeps balance_rows (db w) (db w')
  end).
Proof.
  intros Hok. unfold WalletBalance.UpdateBalanceByID. do 2 wp_step.
  destruct (UpdateBalanceByIDQuery_validate p) as [[]|e|s] eqn:Hv; [|done..].
  assert (Money_IsZero (ui_Amount p) = false) as Hz.
  { unfold UpdateBalanceByIDQuery_validate in Hv. destruct (negb _); [done|]. by destruct (Money_IsZero (ui_Amount p)). }
  apply wp_run. wp_step. apply wp_update; [done|]. intros [[b m]|e|s] w1 Hr _ _.
  - wp_step. split; [done|]. by apply update_result_moves in Hr.
  - intros w2 E2. unfold keeps. by rewrite E2.
  - intros w2 E2. unfold keeps. by rewrite E2.
Qed.

(** What the two updates of a withdrawal move. *)
Definition withdrawal_effect (p : UpdateBalancesForWithdrawalParams) (d : DB) (i : Z) : Z :=
  match UpdateBalancesForWithdrawal_validate p, uw_System p, uw_Merchant p, Money_Add (uw_Amount p) (uw_ServiceFee p) with
  | Ok _, Some s, Some m, Ok total =>
    at_id (bal_ID m) (effect (bal_ID m) (uw_Operation p) total d) i +
    at_id (bal_ID s) (effect (bal_ID s) (uw_Operation p) (uw_Amount p) d) i
  | _, _, _, _ => 0
  end.

Lemma wp_withdrawal_moves p w : schema_ok (db w) -> wp (WalletBalance.UpdateBalancesForWithdrawal p) w (fun r w' =>
  match r with
  | Ok _ => balances_moved (withdrawal_effect p (db w)) (db w) (db w')
  | _ => keeps balance_rows (db w) (db w')
  end).
Proof.
  intros Hok. unfold WalletBalance.UpdateBalancesForWithdrawal, withdrawal_effect.
  assert (forall d, balances_moved (fun _ => 0) d d) as Hnone by by intros d; apply moved_keeps.
  destruct (UpdateBalancesForWithdrawal_validate p); [|wp_step; apply Hnone..].
  destruct (uw_System p) as [s|]; [|wp_step; apply Hnone]. destruct (uw_Merchant p) as [m|]; [|wp_step; apply Hnone].
  do 2 wp_step. destruct (Money_Add (uw_Amount p) (uw_ServiceFee p)) as [total|e|why]; [|done..]. cbv zeta.
  apply wp_run. do 2 wp_step. apply wp_update; [done|]. intros [[b1 m1]|e|why] w1 Hr Hok1 _.
  2, 3: try do 2 wp_step; intros w2 E2; unfold keeps; by rewrite E2.
  do 4 wp_step. apply wp_update; [done|]. intros [[b2 m2]|e|why] w2 Hr2 _ _; cbn [wrap].
  2, 3: intros w3 E3; unfold keeps; by rewrite E3.
  wp_step. apply update_result_moves in Hr, Hr2. cbn [ui_Operation ui_Amount] in Hr, Hr2.
  rewrite (effect_moved _ _ _ _ _ _ Hr) in Hr2. by eapply moved_trans; [exact Hr|exact Hr2|].
Qed.

(** ** Steps that leave the balances alone *)
Definition calm (d d' : DB) : Prop := keeps balance_rows d d' /\ ledger_step d d'.
#[export] Instance calm_preorder : PreOrder calm.
Proof. split; [intros d; split; reflexivity|]. intros a b c [K1 L1] [K2 L2]. split; by transitivity b. Qed.

Lemma calm_steps {A} (m : Go A) : steps (keeps balance_rows) m -> steps ledger_step m -> steps calm m.
Proof. intros Hk Hl w. by split. Qed.
Lemma calm_pure {A} (m : Go A) : steps eq m -> steps calm m.
Proof. intros Hm w. rewrite <- (Hm w). reflexivity. Qed.
Lemma calm_moved f d0 d d' : balances_moved f d0 d -> calm d d' -> balances_moved f d0 d'.
Proof. intros Hm [Hk _]. eapply moved_trans; [exact Hm|by apply moved_keeps|]. intros i. cbn. lia. Qed.

(** A tracked function that keeps [P] of its variables and is calm. *)
Definition quiet {S A} (P : S -> Prop) (m : Tracked S A) : Prop := forall s w, P s ->
  wp (m s) w (fun r w' => calm (db w) (db w') /\ match r with Ok (s', _) => P s' | _ => True end).

Section Quiet.
Context {S : Type} (P : S -> Prop).

Lemma quiet_bind {A B} (m : Tracked S A) (f : A -> Tracked S B) : quiet P m -> (forall a, quiet P (f a)) -> quiet P (m ≫= f).
Proof.
  intros Hm Hf s w Hs. apply wp_tbind. eapply wp_mono; [by apply Hm|]. intros [[s' [a|e]]|e|p] w1 [Hc Hs1]; [|done..].
  eapply wp_mono; [by apply Hf|]. intros r w2 [Hc2 Hs2]. split; [by transitivity (db w1)|done].
Qed.
Lemma quiet_call {A} (m : Go A) : steps calm m -> quiet P (call m).
Proof.
  intros Hm s w Hs. apply wp_call. specialize (Hm w). unfold wp. destruct (m w) as [[a|e|p] w1]; done.
Qed.
Lemma quiet_set f : (forall s, P s -> P (f s)) -> quiet P (set f).
Proof. intros Hf s w Hs. apply wp_set. split; [reflexivity|by apply Hf]. Qed.
Lemma quiet_look {A} (f : S -> A) : quiet P (fun s => mret (s, inl (f s))).
Proof. intros s w Hs. wp_step. split; [reflexivity|done]. Qed.
Lemma quiet_ret {A} (a : A) : quiet P (mret a : Tracked S A).
Proof. intros s w Hs. apply wp_tret. split; [reflexivity|done]. Qed.

Lemma wp_quiet {A} (m : Tracked S A) s w (Q : res (S * (A + error)) -> world -> Prop) : quiet P m -> P s ->
  (forall s' r w', P s' -> calm (db w) (db w') -> Q (Ok (s', r)) w') -> (forall e w', Q (Err e) w') ->
  (forall p w', Q (Panic p) w') -> wp (m s) w Q.
Proof.
  intros Hm Hs HQ He Hp. eapply wp_mono; [by apply Hm|]. intros [[s' r]|e|p] w1 [Hc Hs1]; auto.
Qed.
End Quiet.

Create HintDb calm.
Ltac quiet_steps :=
  repeat first
    [ progress intros
    | apply quiet_ret | apply quiet_look
    | apply quiet_set; solve [intros ? ?; cbn in *; tauto]
    | apply quiet_call; first [solve [eauto with calm nocore] | apply steps_wrap; solve [eauto with calm nocore]
        | apply steps_wrap; apply steps_pure; tc_solve | apply steps_attempt; solve [eauto with calm nocore]]
    | apply quiet_bind
    | match goal with |- quiet _ (match ?x with _ => _ end) => destruct x end ].

Section Calls.
Context `{Resolver} `{BlockchainService} `{Payment.Publisher} `{!BlockchainLaws}.
Context `{WalletTransaction.KMSTransactions} `{UTXOProviders} `{Btcutil}.

Lemma CreateSignedUTXO_calm s r c a f t : steps calm (CreateSignedUTXOTransaction s r c a f t).
Proof. apply calm_steps; [apply money_balances|]; eauto with frame ledger nocore. Qed.
Lemma CreateSignedUTXOSweep_calm s r c f t : steps calm (CreateSignedUTXOSweepTransaction s r c f t).
Proof. apply calm_steps; [apply money_balances|]; eauto with frame ledger nocore. Qed.
Lemma CreateSigned_calm s r c a f t : steps calm (CreateSignedTransaction s r c a f t).
Proof. apply calm_steps; [apply money_balances|]; eauto with frame ledger nocore. Qed.
Lemma ReleaseReservations_calm w raw t : steps calm (ReleaseBitcoinTransactionReservations w raw t).
Proof. apply calm_steps; [apply money_balances|]; eauto with frame ledger nocore. Qed.
Lemma MarkBroadcasted_calm w raw h t : steps calm (MarkBitcoinTransactionBroadcasted w raw h t).
Proof. apply calm_steps; [apply money_balances|]; eauto with frame ledger nocore. Qed.
Lemma DecrementPending_calm i t : steps calm (DecrementPendingTransaction i t).
Proof. apply calm_steps; [apply money_balances|]; eauto with frame ledger nocore. Qed.
Lemma transaction_Create_calm m p u : steps calm (Transaction.Create m p u).
Proof. apply calm_steps; eauto with frame ledger nocore. Qed.
Lemma UpdateTransactionHash_calm m i h : steps calm (UpdateTransactionHash m i h).
Proof. apply calm_steps; eauto with frame ledger nocore. Qed.
Lemma Cancel_calm t s r : steps calm (Cancel t s r None).
Proof. apply calm_steps; eauto with frame ledger nocore. Qed.
Lemma payment_Update_calm base m i s : steps calm (Payment.Update base m i s).
Proof. apply calm_steps; eauto with frame ledger nocore. Qed.
Lemma CalculateFee_calm b c t : steps calm (CalculateFee b c t).
Proof. apply calm_pure, fee_pure. Qed.
Lemma FeeUSD_calm b c t : steps calm (CalculateWithdrawalFeeUSD b c t).
Proof. apply calm_pure, fee_usd_pure. Qed.
Lemma FiatToCrypto_calm m c : steps calm (FiatToCrypto m c).
Proof. apply calm_pure, fiat_to_crypto_pure. Qed.
Lemma CryptoToFiat_calm m c : steps calm (CryptoToFiat m c).
Proof. apply calm_pure, crypto_to_fiat_pure. Qed.
Lemma Broadcast_calm b raw t : steps calm (BroadcastTransaction b raw t).
Proof. apply calm_pure, broadcast_pure. Qed.
End Calls.
#[export] Hint Resolve CreateSignedUTXO_calm CreateSignedUTXOSweep_calm CreateSigned_calm ReleaseReservations_calm
  MarkBroadcasted_calm DecrementPending_calm transaction_Create_calm UpdateTransactionHash_calm Cancel_calm
  payment_Update_calm CalculateFee_calm FeeUSD_calm FiatToCrypto_calm CryptoToFiat_calm Broadcast_calm : calm.

(** ** The transaction stays, and is cancelled in the end *)
Definition exists_tx (id : Z) (d : DB) : Prop := exists row, tx_at id d = Some row.

Lemma exists_tx_ledger id d d' : schema_ok d -> exists_tx id d -> ledger_step d d' -> exists_tx id d'.
Proof.
  intros Hok [row Hrow] [[_ Hs] [_ _ _ Ht _] _]. apply row_at_Some in Hrow as [Hin Hid]; [|by apply wf_transactions].
  destruct (evolves_in _ _ _ row Ht Hin) as (row' & Hin' & Hr). exists row'.
  apply row_at_Some; [by apply wf_transactions, Hs|]. split; [done|].
  unfold on, transaction_id in Hr. injection Hr as Hr _. by rewrite <- Hid.
Qed.
Lemma exists_tx_calm id d d' : schema_ok d -> exists_tx id d -> calm d d' -> exists_tx id d'.
Proof. intros Hok Hex [_ Hl]. by eapply exists_tx_ledger. Qed.

Definition tx_in_status (id : Z) (status : string) (d : DB) : Prop :=
  exists row, tx_at id d = Some row /\ Row.t_Status row = status.

Lemma UpdateBalanceByID_transactions id p : steps (keeps transaction_rows) (WalletBalance.UpdateBalanceByID id p).
Proof. frame_steps. Qed.
Lemma withdrawal_transactions p : steps (keeps transaction_rows) (WalletBalance.UpdateBalancesForWithdrawal p).
Proof. frame_steps. Qed.

Lemma wp_create_transaction `{Resolver} m p w (Q : res Transaction -> world -> Prop) : schema_ok (db w) ->
  (forall t w', schema_ok (db w') -> calm (db w) (db w') -> exists_tx (tx_ID t) (db w') -> Q (Ok t) w') ->
  (forall r w', is_ok r = false -> schema_ok (db w') -> calm (db w) (db w') -> Q r w') ->
  wp (Transaction.Create m p false) w Q.
Proof.
  intros Hok HQ He. pose proof (wp_Create m p false w Hok) as Hc. pose proof (transaction_Create_calm m p false w) as Hcalm.
  assert (schema_ok (db (Transaction.Create m p false w).2)) as Hok1 by (apply Hcalm, Hok).
  unfold wp in *. destruct (Transaction.Create m p false w) as [[t|e|s] w1]; cbn [fst snd] in *; [|by apply He..].
  apply HQ; [done|done|]. destruct (Hc t eq_refl) as (mk & E & Hid & _ & He' & _).
  exists (mk (next_id (transactions (db w)))). destruct (entry_inv _ _ He') as [-> _].
  apply row_at_Some; [by apply wf_transactions|]. rewrite E. split; [|done]. apply elem_of_insert. by right.
Qed.

(** ** Internal transfers *)
Section Transfer.
Context `{Resolver} `{Catalog} `{BlockchainService} `{Payment.Publisher} `{Scheduler} `{!BlockchainLaws}.
Context `{WalletTransaction.KMSTransactions} `{UTXOProviders} `{Btcutil}.
Context (params : internalTransferInput).

Let sender_id : Z := bal_ID (it_SenderBalance params).

(** What a call of [createInternalTransfer] that ended with [out] left. *)
Definition transfer_left (d0 : DB) (out : internalTransferOutput) (d : DB) : Prop := schema_ok d /\
  match ito_Transaction out with
  | None => ito_BalanceDecremented out = false /\ balances_moved (fun _ => 0) d0 d
  | Some tx => exists_tx (tx_ID tx) d /\
    if ito_BalanceDecremented out
    then Money_IsZero (ito_Amount out) = false /\
      balances_moved (at_id sender_id (effect sender_id OperationDecrement (ito_Amount out) d0)) d0 d
    else balances_moved (fun _ => 0) d0 d
  end.

Lemma transfer_left_calm d0 out d d' : transfer_left d0 out d -> calm d d' -> transfer_left d0 out d'.
Proof.
  intros [Hok Hl] Hc. split; [by apply Hc|]. destruct (ito_Transaction out) as [tx|].
  - destruct Hl as [Ht Hb]. split; [by eapply exists_tx_calm|]. destruct (ito_BalanceDecremented out).
    + destruct Hb as [? Hb]. split; [done|by eapply calm_moved].
    + by eapply calm_moved.
  - destruct Hl as [? Hb]. split; [done|by eapply calm_moved].
Qed.

Definition not_stored (s : transferState) : Prop :=
  ito_Transaction (ts_out s) = None /\ ito_BalanceDecremented (ts_out s) = false.
Definition out_is (tx : Transaction) (amount : Money) (b : bool) (s : transferState) : Prop :=
  ito_Transaction (ts_out s) = Some tx /\ ito_Amount (ts_out s) = amount /\ ito_BalanceDecremented (ts_out s) = b.

Lemma sign_transfer_quiet P sender c fee t : (forall raw s, P s -> P (set_txRaw raw s)) ->
  quiet P (sign_transfer sender params c fee t).
Proof. intros HP. unfold sign_transfer. cbv zeta. repeat first [apply quiet_set; by auto | progress quiet_steps]. Qed.

Lemma broadcast_transfer_quiet tx amount b sender c raw t : quiet (out_is tx amount b) (broadcast_transfer sender tx c raw t).
Proof. unfold broadcast_transfer, out_is. quiet_steps. Qed.

(** What is left when the function ends before the transaction is stored. *)
Lemma left_none d0 s d : schema_ok d0 -> not_stored s -> calm d0 d -> transfer_left d0 (ts_out s) d.
Proof.
  intros Hok [Ht Hb] Hc. split; [by apply Hc|]. rewrite Ht. split; [done|].
  eapply calm_moved; [by apply moved_keeps|done].
Qed.

Definition ends_left (d0 : DB) (r : res (transferState * (unit + error))) (w : world) : Prop :=
  match r with Ok (s, _) => transfer_left d0 (ts_out s) (db w) | _ => True end.

(** The steps after the transaction is stored. *)
Lemma wp_after_stored d0 sender tx c raw t amount meta s w : schema_ok (db w) -> calm d0 (db w) -> exists_tx (tx_ID tx) (db w) ->
  out_is tx amount false s ->
  wp ((_ ← call (wrapM (WalletBalance.UpdateBalanceByID sender_id (WalletBalance.mkUpdateBalanceByIDQuery OperationDecrement
        amount "locking balance for internal transaction" meta)) "unable to decrement sender balance");
      _ ← set (with_out out_decremented);
      broadcast_transfer sender tx c raw t) s) w (ends_left d0).
Proof.
  intros Hok Hc Hex (Ht & Ha & Hb). apply wp_tbind, wp_call. wp_step.
  pose proof (wp_UpdateBalanceByID_moves sender_id (mkUpdateBalanceByIDQuery OperationDecrement amount
    "locking balance for internal transaction" meta) w Hok) as Hm.
  pose proof (UpdateBalanceByID_ledger sender_id (mkUpdateBalanceByIDQuery OperationDecrement amount
    "locking balance for internal transaction" meta) w) as Hl. unfold wp in *.
  assert (balances_moved (fun _ => 0) d0 (db w)) as Hstart by (apply moved_keeps, Hc).
  assert (forall e w1, keeps balance_rows (db w) (db w1) -> ledger_step (db w) (db w1) ->
    ends_left d0 (Ok (s, inr e)) w1) as Hfail.
  { intros e w1 Hk Hl1. unfold ends_left, transfer_left. rewrite Ht, Hb. assert (calm (db w) (db w1)) as Hc1 by by split.
    split; [by apply Hl1|]. split; [by eapply exists_tx_calm|by eapply calm_moved]. }
  destruct (WalletBalance.UpdateBalanceByID _ _ w) as [[b|e|p] w1]; cbn [fst snd wrap ui_Operation ui_Amount] in *;
    [|by apply Hfail|done].
  destruct Hm as [Hz Hm]. rewrite (effect_moved _ _ _ _ _ _ Hstart) in Hm.
  apply wp_tbind, wp_set. eapply wp_quiet; [apply (broadcast_transfer_quiet tx amount true)|done| |done|done].
  intros s' r w2 (Ht' & Ha' & Hb') Hc2. unfold ends_left, transfer_left. rewrite Ht', Ha', Hb'.
  assert (schema_ok (db w1)) as Hok1 by (apply Hl, Hok). split; [by apply Hc2|]. split.
  - eapply exists_tx_calm; [exact Hok1| |exact Hc2]. by apply (exists_tx_ledger _ (db w)).
  - split; [done|]. eapply calm_moved; [|exact Hc2]. eapply moved_trans; [exact Hstart|exact Hm|]. intros i. cbv beta. lia.
Qed.

(** Stepping over a quiet part before the transaction is stored. *)
Lemma wp_before_stored {A} (P : transferState -> Prop) d0 (m : Tracked transferState A) (f : A -> Tracked transferState unit) s w :
  schema_ok d0 -> (forall s, P s -> not_stored s) -> quiet P m -> P s -> calm d0 (db w) ->
  (forall a s' w', P s' -> calm d0 (db w') -> wp (f a s') w' (ends_left d0)) -> wp ((m ≫= f) s) w (ends_left d0).
Proof.
  intros Hok HP Hm Hs Hc Hf. apply wp_tbind. eapply wp_quiet; [exact Hm|exact Hs| |done|done].
  intros s' [a|e] w2 Hs' Hc2; [apply Hf|apply left_none]; [done|by transitivity (db w)|done|by apply HP|by transitivity (db w)].
Qed.

Definition amount_set (amount : Money) (s : transferState) : Prop := not_stored s /\ ito_Amount (ts_out s) = amount.

Lemma wp_create_transfer sender w : schema_ok (db w) ->
  wp (create_transfer sender params transfer_start) w (ends_left (db w)).
Proof.
  intros Hok. set (d0 := db w).
  enough (forall s w1, not_stored s -> calm d0 (db w1) -> wp (create_transfer sender params s) w1 (ends_left d0)) as Hall
    by by apply Hall.
  intros s w1 Hs Hc. unfold create_transfer.
  repeat match goal with
    | |- wp (mbind _ (set (with_out (out_raw _ _))) _) _ _ => fail 1
    | |- wp (mbind _ _ _) _ _ => apply (wp_before_stored not_stored);
        [done|done|solve [quiet_steps|apply sign_transfer_quiet; intros ? ? [? ?]; by split]|done|done|];
        clear s w1 Hs Hc; intros ? s w1 Hs Hc; cbv zeta
    end.
  match goal with |- wp (mbind _ (set (with_out (out_raw _ ?a))) _) _ _ => set (amount := a) end.
  apply wp_tbind, wp_set.
  assert (amount_set amount (with_out (out_raw a6 amount) s)) as Hs' by by destruct Hs.
  revert Hs'. generalize (with_out (out_raw a6 amount) s). clear s Hs. intros s Hs.
  apply (wp_before_stored (amount_set amount)); [done|by intros ? []|quiet_steps|done|done|].
  clear s w1 Hs Hc. intros conv s w1 [[Ht Hb] Ha] Hc.
  apply wp_tbind, wp_call. wp_step. apply wp_create_transaction; [by apply Hc| |].
  2: { intros [t|e|p] w2 He Hok2 Hc2; [done| |done]. cbn [wrap]. apply left_none; [done|done|by transitivity (db w1)]. }
  intros tx w2 Hok2 Hc2 Hex. cbn [wrap]. apply wp_tbind, wp_set.
  apply wp_after_stored; [done|by transitivity (db w1)|done|done].
Qed.

Lemma wp_createInternalTransfer sender w : schema_ok (db w) ->
  wp (createInternalTransfer sender params) w (fun r w' => forall out e, r = Ok (out, e) -> transfer_left (db w) out (db w')).
Proof.
  intros Hok. unfold createInternalTransfer. wp_step. eapply wp_mono; [by apply wp_create_transfer|].
  intros [[s [[]|e]]|e|p] w1 Hl; [by wp_step; intros ? ? [= <- _]| |done..].
  destruct (_ || _); [by wp_step; intros ? ? [= <- _]|]. do 2 wp_step.
  pose proof (ReleaseReservations_calm (wal_ID sender) (ts_txRaw s) (ito_IsTest (ts_out s)) w1) as Hc. unfold wp.
  destruct (ReleaseBitcoinTransactionReservations _ _ _ w1) as [[u|e'|p] w2]; cbn [fst snd mret M_ret] in *;
    [intros ? ? [= <- _]..|done]; by eapply transfer_left_calm.
Qed.

Lemma cancelled_status id row row' reason : cancelled_row id StatusCancelled reason row row' -> Row.t_Status row' = StatusCancelled.
Proof. by intros (? & ? & ->). Qed.

Lemma wp_rollbackInternalTransfer d0 out e w : transfer_left d0 out (db w) ->
  wp (rollbackInternalTransfer params out e) w (fun r w' => r = Ok tt -> balances_moved (fun _ => 0) d0 (db w') /\
    forall tx, ito_Transaction out = Some tx -> tx_in_status (tx_ID tx) StatusCancelled (db w')).
Proof.
  intros Hl. unfold rollbackInternalTransfer. wp_step.
  match goal with |- wp (if ?b then _ else _) _ _ => assert (steps calm (if b then
      wrapM (DecrementPendingTransaction (wal_ID (it_SenderWallet params)) (ito_IsTest out))
        "unable to decrement pending transaction" else mret tt)) as Hn
    by (destruct b; [apply steps_wrap; eauto with calm nocore|apply steps_ret; tc_solve]) end.
  specialize (Hn w). eapply transfer_left_calm in Hn; [|exact Hl]. clear Hl. rename Hn into Hl. unfold wp at 1.
  match goal with |- match (?m w).1 with _ => _ end => destruct (m w) as [[u|e'|p] w1] end; cbn [fst snd] in *; [|done..].
  wp_step. destruct (ito_Transaction out) as [tx|] eqn:Et.
  2: { wp_step. destruct Hl as [Hok Hl]. rewrite Et in Hl. destruct Hl as [-> Hl]. cbn [negb]. wp_step.
       intros _. split; [done|]. intros tx Htx. congruence. }
  destruct Hl as [Hok Hl]. rewrite Et in Hl. destruct Hl as [[row Hrow] Hb].
  wp_step. apply wp_Cancel; [done|]. intros w2 f Hok2 Hf [l E2]. cbn [wrap].
  assert (tx_at (tx_ID tx) (db w2) = Some (f row)) as Hrow2
    by (apply (update_tx_at f _ (db w1)); [done|done|by intros r; destruct (Hf r) as (? & ? & ->)|by rewrite E2]).
  assert (tx_in_status (tx_ID tx) StatusCancelled (db w2)) as Hst
    by (exists (f row); split; [done|by eapply cancelled_status]).
  assert (keeps balance_rows (db w1) (db w2)) as Hk by by rewrite E2.
  destruct (ito_BalanceDecremented out); cbn [negb].
  2: { wp_step. intros _. split; [|by intros ? [= <-]]. eapply moved_trans; [exact Hb|by apply moved_keeps|]. intros i. cbv beta. lia. }
  destruct Hb as [Hz Hb]. cbv zeta. rewrite Hz. do 2 wp_step.
  set (p := mkUpdateBalanceByIDQuery OperationIncrement _ _ _).
  pose proof (wp_UpdateBalanceByID_moves (bal_ID (it_SenderBalance params)) p w2 Hok2) as Hm.
  pose proof (UpdateBalanceByID_transactions (bal_ID (it_SenderBalance params)) p w2) as Ht. unfold wp in *.
  destruct (WalletBalance.UpdateBalanceByID _ p w2) as [[b|e'|s] w3]; cbn [fst snd wrap mret M_ret] in *; [|done..].
  intros _. destruct Hm as [_ Hm]. cbn [p ui_Operation ui_Amount] in Hm.
  assert (balances_moved (at_id sender_id (effect sender_id OperationDecrement (ito_Amount out) d0)) d0 (db w2)) as Hb2.
  { eapply moved_trans; [exact Hb|by apply moved_keeps|]. intros i. cbv beta. lia. }
  rewrite (effect_moved _ _ _ _ _ _ Hb2), effect_opposite in Hm. split.
  - eapply moved_trans; [exact Hb2|exact Hm|]. intros i. unfold at_id, sender_id. case_decide; lia.
  - intros ? [= <-]. destruct Hst as (r & Hr & Hs). exists r. split; [|done].
    unfold tx_at, row_at, select in *. unfold keeps, transaction_rows in Ht. by rewrite Ht.
Qed.
End Transfer.

(** ** Properties *)

(** C7. An internal transfer that failed is undone: when the call that creates
    it ends with an error and the rollback that follows it succeeds, every
    balance holds what it held before, wherever the transfer stopped - before
    or after the sender was charged, the transaction stored or broadcast, with
    the whole balance or what a sweep left of it -, and the transaction it
    stored, if it stored one, is cancelled. *)
Theorem failed_transfer_rolled_back `{Resolver} `{Catalog} `{BlockchainService} `{Payment.Publisher} `{Scheduler}
  `{!BlockchainLaws} `{WalletTransaction.KMSTransactions} `{UTXOProviders} `{Btcutil}
  (sender : Wallet) (params : internalTransferInput) (w : world) (Hok : schema_ok (db w)) :
  let '(r, w1) := createInternalTransfer sender params w in
  forall out e, r = Ok (out, Some e) ->
  let '(r2, w2) := rollbackInternalTransfer params out e w1 in
  r2 = Ok tt ->
  (forall i, balance_value (db w2) i = balance_value (db w) i) /\
  (forall tx, ito_Transaction out = Some tx -> tx_in_status (tx_ID tx) StatusCancelled (db w2)).
Proof.
  pose proof (wp_createInternalTransfer params sender w Hok) as Hc. unfold wp in Hc.
  destruct (createInternalTransfer sender params w) as [r w1]. intros out e ->.
  pose proof (wp_rollbackInternalTransfer params (db w) out e w1 (Hc _ _ eq_refl)) as Hr. unfold wp in Hr.
  destruct (rollbackInternalTransfer params out e w1) as [r2 w2]. intros [Hm Ht]%Hr.
  split; [by apply moved_values|exact Ht].
Qed.

(** ** Witness: a transfer the node refuses *)
Definition refusing_node : BlockchainService := {|
  CalculateFee _ _ _ := mret ex_eth_fee;
  CalculateWithdrawalFeeUSD _ _ _ := mret (mkMoney Fiat USD (Some 200) 2);
  FiatToFiat m c := fail (ENew "no rates");
  FiatToCrypto m c := mret (Convertor.mkConversion Convertor.ConversionTypeFiatToCrypto f64_zero m
    (mkMoney Crypto (cc_Ticker c) (Some (10 ^ 15)) (cc_Decimals c)));
  CryptoToFiat m c := mret (Convertor.mkConversion Convertor.ConversionTypeCryptoToFiat f64_zero m
    (mkMoney Fiat USD (Some 100) 2));
  BroadcastTransaction _ _ _ := fail ErrInsufficientFunds;
  GetTransactionReceipt _ _ _ := fail (ENew "no node");
  ListIncomingTransactions _ _ _ := mret []
|}.
Lemma refusing_node_laws : BlockchainLaws (H := refusing_node).
Proof. split; cbn; intros; (apply steps_fail; tc_solve) || (apply steps_ret; tc_solve). Qed.

Definition eth_signer : KMSTransactions := {|
  kms_CreateBitcoinTransaction _ _ _ := Err (ENew "unavailable");
  kms_CreateEthereumTransaction _ _ _ := Ok "0xraw";
  kms_CreateMaticTransaction _ _ _ := Err (ENew "unavailable");
  kms_CreateBSCTransaction _ _ _ := Err (ENew "unavailable");
  TronTransaction := string;
  kms_CreateTronTransaction _ _ _ := Err (ENew "unavailable");
  json_Marshal_TronTransaction s := Ok s
|}.

#[local] Existing Instances Merchant.eth_resolver refusing_node refusing_node_laws eth_signer ex_providers ex_btcutil.
#[local] Instance no_currencies : Catalog := CurrencyResolver_Catalog NewCurrencies.
#[local] Instance no_bus : Payment.Publisher := fun _ _ _ _ => Ok tt.
#[local] Instance in_order : Flow.Scheduler := fun _ _ l => l.

(** A wallet that holds two ether. *)
Definition eth_wallet : Wallet := entryToWallet (new_wallet 0 "u0" "0xw" "ETH" (StringToNullable TypeInbound) 1).
Definition funded_world : world :=
  (CreateBalance (mkCreateBalanceParams 0 0 1 EntityTypeWallet (mkNull "" true) "ETH" "1" Coin "ETH" 18
    (BigIntToNumeric (2 * 10 ^ 18))) (CreateWallet 0 "u0" "0xw" "ETH" (StringToNullable TypeInbound) empty_world).2).2.
Lemma created_balance p w : schema_ok (db w) -> schema_ok (db (CreateBalance p w).2).
Proof. apply (proj2 (CreateBalance_schema p w)). Qed.
Lemma funded_schema : schema_ok (db funded_world).
Proof.
  apply created_balance.
  apply (proj2 (CreateWallet_schema 0 "u0" "0xw" "ETH" (StringToNullable TypeInbound) empty_world)), schema_empty.
Qed.

Definition two_ether : Money := mkMoney Crypto "ETH" (Some (2 * 10 ^ 18)) 18.
Definition system_balance : Balance :=
  mkBalance 1 "" EntityTypeWallet 1 0 0 "ETH" "1" Coin "ETH" two_ether None.
Definition ex_transfer : internalTransferInput := mkTransfer eth_wallet system_balance eth_wallet two_ether.
Definition ex_transfer_run : res (internalTransferOutput * option error) * world :=
  createInternalTransfer eth_wallet ex_transfer funded_world.

Lemma failed_transfer_rolled_back_witness :
  balance_value (db funded_world) 1 = Some (2 * 10 ^ 18) /\ balance_value (db ex_transfer_run.2) 1 = Some 0 /\
  match ex_transfer_run with
  | (Ok (out, Some e), w1) =>
    balance_value (db (rollbackInternalTransfer ex_transfer out e w1).2) 1 = balance_value (db funded_world) 1
  | _ => False
  end.
Proof.
  split; [by vm_compute|]. split; [by vm_compute|].
  assert (match ex_transfer_run with
    | (Ok (out, Some e), w1) => is_ok (rollbackInternalTransfer ex_transfer out e w1).1
    | _ => false end = true) as Hr by by vm_compute.
  pose proof (failed_transfer_rolled_back eth_wallet ex_transfer funded_world funded_schema) as Hp.
  revert Hr Hp. unfold ex_transfer_run. destruct (createInternalTransfer eth_wallet ex_transfer funded_world) as [r w1].
  destruct r as [[out [e|]]|e|p]; [|discriminate..]. intros Hr Hp. specialize (Hp out e eq_refl).
  destruct (rollbackInternalTransfer ex_transfer out e w1) as [[[]|e2|p2] w2]; cbn [fst snd is_ok] in *; [|discriminate..].
  exact (proj1 (Hp eq_refl) 1).
Defined.
