(* ===== verification/WithdrawalRollback.v ===== *)
(** * WithdrawalRollback: a withdrawal that failed is undone

    What a failed [createWithdrawal] followed by [rollbackWithdrawal] leaves
    of the balances, the transaction and the payment (see [Rollback], whose
    lemmas it uses). *)

From S2P Require Import Prelude GoLib Float64 KmsWallet Money Repository Queries PaymentQueries.
From S2P Require Import Bitcoin Currencies Nodes Blockchain Wallet WalletBalance WalletTransaction Transaction Ledger Outcomes.
From S2P Require Import Flow Processing Incoming Payouts Frames Rollback.
From S2P Require Payment Merchant Broadcaster System.

Section Quiet.
Context (P : withdrawalState -> Prop) (HP : forall s, P s -> P (with_out out_failed s)).

Lemma quiet_mark {A} (r : res A) msg : quiet P (mark_failed r msg).
Proof using HP. intros s w Hs. unfold mark_failed. destruct r; wp_step; (split; [reflexivity|auto]). Qed.
Lemma quiet_call_failing {A} target msg (m : Go A) : steps calm m -> quiet P (call_failing target msg m).
Proof using HP.
  intros Hm s w Hs. unfold call_failing. do 2 wp_step. specialize (Hm w). unfold wp.
  destruct (m w) as [[a|e|p] w1]; cbn [fst snd mret M_ret] in *; (split; [done|]); [done| |done].
  destruct (errors_Is e target); auto.
Qed.
End Quiet.

Section Withdrawal.
Context `{Resolver} `{Catalog} `{BlockchainService} `{Payment.Publisher} `{Scheduler} `{!BlockchainLaws}.
Context `{WalletTransaction.KMSTransactions} `{UTXOProviders} `{Btcutil}.
Context (config : Config) (params : withdrawalInput).

Let price : Money := Payment.pay_Price (wi_Withdrawal params).

Definition update_params (operation : string) (id : Z) (fee : Money) (comment : string) : UpdateBalancesForWithdrawalParams :=
  mkUpdateBalancesForWithdrawal operation id (Some (wi_SystemBalance params)) (Some (wi_MerchantBalance params)) price fee
    comment.

Lemma effect_undone id id' fee c c' d i : 0 < id -> 0 < id' ->
  withdrawal_effect (update_params OperationIncrement id' fee c') d i = - withdrawal_effect (update_params OperationDecrement id fee c) d i.
Proof.
  intros Hi Hi'. unfold withdrawal_effect.
  replace (UpdateBalancesForWithdrawal_validate (update_params OperationIncrement id' fee c')) with
    (UpdateBalancesForWithdrawal_validate (update_params OperationDecrement id fee c)).
  2: { unfold UpdateBalancesForWithdrawal_validate, update_params. cbn [uw_System uw_Merchant uw_TransactionID uw_Amount uw_ServiceFee].
       by rewrite (proj2 (Z.ltb_lt 0 id)), (proj2 (Z.ltb_lt 0 id')). }
  destruct (UpdateBalancesForWithdrawal_validate _); [|done..]. cbn [update_params uw_System uw_Merchant uw_Amount uw_ServiceFee uw_Operation].
  destruct (Money_Add price fee); [|done..]. rewrite !effect_opposite. unfold at_id. repeat case_decide; lia.
Qed.

Lemma withdrawal_effect_moved f p d d' i : balances_moved f d d' -> withdrawal_effect p d' i = withdrawal_effect p d i.
Proof.
  intros Hm. unfold withdrawal_effect. destruct (UpdateBalancesForWithdrawal_validate p); [|done..].
  destruct (uw_System p), (uw_Merchant p); [|done..]. destruct (Money_Add _ _); [|done..].
  by rewrite !(effect_moved _ _ _ _ _ _ Hm).
Qed.

Lemma effect_id id id' op fee c c' d i : 0 < id -> 0 < id' ->
  withdrawal_effect (update_params op id fee c) d i = withdrawal_effect (update_params op id' fee c') d i.
Proof.
  intros Hi Hi'. unfold withdrawal_effect.
  replace (UpdateBalancesForWithdrawal_validate (update_params op id' fee c')) with
    (UpdateBalancesForWithdrawal_validate (update_params op id fee c)); [done|].
  unfold UpdateBalancesForWithdrawal_validate, update_params. cbn [uw_System uw_Merchant uw_TransactionID uw_Amount uw_ServiceFee].
  by rewrite (proj2 (Z.ltb_lt 0 id)), (proj2 (Z.ltb_lt 0 id')).
Qed.

(** What a call of [createWithdrawal] that ended with [out] left. *)
Definition withdrawal_left (d0 : DB) (out : withdrawalOutput) (d : DB) : Prop := schema_ok d /\
  match wo_Transaction out with
  | None => wo_BalanceDecremented out = false /\ balances_moved (fun _ => 0) d0 d
  | Some tx => exists_tx (tx_ID tx) d /\
    balances_moved (fun i => if wo_BalanceDecremented out
      then withdrawal_effect (update_params OperationDecrement 1 (wo_ServiceFee out) "") d0 i else 0) d0 d
  end.

Lemma withdrawal_left_calm d0 out d d' : withdrawal_left d0 out d -> calm d d' -> withdrawal_left d0 out d'.
Proof.
  intros [Hok Hl] Hc. split; [by apply Hc|]. destruct (wo_Transaction out) as [tx|]; destruct Hl as [Ht Hb].
  - split; [by eapply exists_tx_calm|by eapply calm_moved].
  - split; [done|by eapply calm_moved].
Qed.

Definition not_stored (s : withdrawalState) : Prop :=
  wo_Transaction (ws_out s) = None /\ wo_BalanceDecremented (ws_out s) = false.
Definition fee_set (fee : Money) (s : withdrawalState) : Prop := not_stored s /\ wo_ServiceFee (ws_out s) = fee.
Definition out_is (tx : Transaction) (fee : Money) (b : bool) (s : withdrawalState) : Prop :=
  wo_Transaction (ws_out s) = Some tx /\ wo_ServiceFee (ws_out s) = fee /\ wo_BalanceDecremented (ws_out s) = b.

Definition ends_left (d0 : DB) (r : res (withdrawalState * (unit + error))) (w : world) : Prop :=
  match r with Ok (s, _) => withdrawal_left d0 (ws_out s) (db w) | _ => True end.

Lemma withdrawal_left_none d0 s d : schema_ok d0 -> not_stored s -> calm d0 d -> withdrawal_left d0 (ws_out s) d.
Proof.
  intros Hok [Ht Hb] Hc. split; [by apply Hc|]. rewrite Ht. split; [done|]. eapply calm_moved; [by apply moved_keeps|done].
Qed.

Lemma wp_before_withdrawal {A} (P : withdrawalState -> Prop) d0 (m : Tracked withdrawalState A)
  (f : A -> Tracked withdrawalState unit) s w :
  schema_ok d0 -> (forall s, P s -> not_stored s) -> quiet P m -> P s -> calm d0 (db w) ->
  (forall a s' w', P s' -> calm d0 (db w') -> wp (f a s') w' (ends_left d0)) -> wp ((m ≫= f) s) w (ends_left d0).
Proof.
  intros Hok HP Hm Hs Hc Hf. apply wp_tbind. eapply wp_quiet; [exact Hm|exact Hs| |done|done].
  intros s' [a|e] w2 Hs' Hc2; [apply Hf|apply withdrawal_left_none]; [done|by transitivity (db w)|done|by apply HP|by transitivity (db w)].
Qed.

Lemma broadcast_quiet tx fee b c raw t : quiet (out_is tx fee b) (broadcast_withdrawal config params tx c raw t).
Proof.
  unfold broadcast_withdrawal, out_is. cbv zeta.
  repeat first [apply quiet_call_failing; [by intros s (? & ? & ?)|solve [eauto with calm nocore]] | progress quiet_steps].
Qed.
Lemma wp_sign d0 c nf t amount fee (f : Money -> Tracked withdrawalState unit) s w : schema_ok d0 ->
  fee_set fee s -> calm d0 (db w) ->
  (forall fee' s' w', fee_set fee' s' -> calm d0 (db w') -> wp (f fee' s') w' (ends_left d0)) ->
  wp ((sign_withdrawal params c nf t amount fee ≫= f) s) w (ends_left d0).
Proof.
  intros Hok Hs Hc Hf. unfold sign_withdrawal. cbv zeta. apply wp_tbind.
  assert (forall s e w', fee_set fee s -> calm d0 (db w') -> ends_left d0 (Ok (s, inr e)) w') as Hend
    by (intros s' e w' [Hs' _] Hc'; by apply withdrawal_left_none).
  assert (forall raw s, fee_set fee s -> fee_set fee (set_txRaw raw s)) as Hraw by by intros ? ? [[? ?] ?].
  destruct (isUTXOBlockchain (cc_Blockchain c)).
  - apply wp_tbind. eapply wp_quiet; [apply (quiet_call (fee_set fee)); apply steps_wrap; eauto with calm nocore|done| |done|done].
    intros s1 [[raw plan]|e] w1 Hs1 Hc1; [|apply Hend; [done|by transitivity (db w)]].
    apply wp_tbind, wp_set. apply wp_tbind, wp_call. do 2 wp_step.
    destruct (CryptoCurrency_MakeAmount c _) as [fee'|e|p]; cbn [wrap]; [| |done].
    2: { apply Hend; [by apply Hraw|by transitivity (db w)]. }
    apply wp_tbind, wp_set, wp_tret. apply Hf; [|by transitivity (db w)]. by destruct Hs1 as [[? ?] _].
  - apply wp_tbind. eapply wp_quiet; [apply (quiet_call (fee_set fee)); apply steps_wrap; eauto with calm nocore|done| |done|done].
    intros s1 [raw|e] w1 Hs1 Hc1; [|apply Hend; [done|by transitivity (db w)]].
    apply wp_tbind, wp_set, wp_tret. apply Hf; [by apply Hraw|by transitivity (db w)].
Qed.

(** The decrement, once the transaction is stored. *)
Lemma wp_decrement d0 tx raw c t fee s w : schema_ok (db w) -> calm d0 (db w) -> exists_tx (tx_ID tx) (db w) ->
  out_is tx fee false s ->
  wp ((tx ← (_ ← call_failing ErrInsufficienceMerchantBalance "unable to decrement balances for withdrawal"
         (WalletBalance.UpdateBalancesForWithdrawal (update_params OperationDecrement (tx_ID tx) fee
           "Decrementing balances for withdrawal"));
       _ ← set (with_out out_decremented);
       mret tx);
     broadcast_withdrawal config params tx c raw t) s) w (ends_left d0).
Proof.
  intros Hok Hc Hex (Ht & Hfee & Hb).
  assert (0 < tx_ID tx) as Hpos.
  { destruct Hex as [row Hrow]. destruct (wf_transactions _ Hok) as (_ & Hall & _).
    destruct (row_at_id _ _ _ Hrow) as [Hid Hin]. rewrite Forall_forall in Hall. specialize (Hall _ Hin). lia. }
  assert (balances_moved (fun _ => 0) d0 (db w)) as Hstart by (apply moved_keeps, Hc).
  apply wp_tbind, wp_tbind. unfold call_failing at 1. do 2 wp_step.
  set (p := update_params _ _ _ _).
  pose proof (wp_withdrawal_moves p w Hok) as Hm. pose proof (UpdateBalancesForWithdrawal_ledger p w) as Hl. unfold wp at 1 in Hm.
  unfold wp at 1. destruct (WalletBalance.UpdateBalancesForWithdrawal p w) as [[[]|e|why] w1]; cbn [fst snd] in *; [| |done].
  2: { wp_step. assert (calm (db w) (db w1)) as Hc1 by by split.
       assert (withdrawal_left d0 (ws_out s) (db w1)) as Hleft.
       { split; [by apply Hl|]. rewrite Ht, Hb. split; [by eapply exists_tx_calm|by eapply calm_moved]. }
       destruct (errors_Is e _); [|done]. unfold ends_left, withdrawal_left in *. destruct s as [o ? ? ?]. by destruct o. }
  wp_step. apply wp_tbind, wp_set, wp_tret.
  eapply wp_quiet; [apply (broadcast_quiet tx fee true)|done| |done|done].
  intros s' r w2 (Ht' & Hfee' & Hb') Hc2. unfold ends_left, withdrawal_left. rewrite Ht', Hfee', Hb'.
  assert (schema_ok (db w1)) as Hok1 by (apply Hl, Hok). split; [by apply Hc2|]. split.
  - eapply exists_tx_calm; [exact Hok1| |exact Hc2]. by apply (exists_tx_ledger _ (db w)).
  - eapply calm_moved; [|exact Hc2]. eapply moved_trans; [exact Hstart|exact Hm|]. intros i. cbv beta.
    rewrite (withdrawal_effect_moved _ _ _ _ _ Hstart). unfold p.
    rewrite (effect_id 1 (tx_ID tx) _ _ _ "Decrementing balances for withdrawal") by lia. lia.
Qed.

Lemma service_fee_calm b c fee t : steps calm (withdrawalServiceFeeCrypto b c fee t).
Proof.
  unfold withdrawalServiceFeeCrypto. destruct (isUTXOBlockchain _).
  - apply steps_bind; [tc_solve|apply steps_pure; tc_solve|]. intros. apply steps_pure. tc_solve.
  - apply steps_bind; [tc_solve|apply steps_wrap; eauto with calm nocore|]. intros.
    apply steps_bind; [tc_solve|eauto with calm nocore|]. intros. apply steps_ret. tc_solve.
Qed.
#[local] Hint Resolve service_fee_calm : calm.

Lemma wp_create_withdrawal w : schema_ok (db w) ->
  wp (create_withdrawal config params withdrawal_start) w (ends_left (db w)).
Proof.
  intros Hok. set (d0 := db w).
  enough (forall s w1, not_stored s -> calm d0 (db w1) -> wp (create_withdrawal config params s) w1 (ends_left d0)) as Hall
    by by apply Hall.
  intros s w1 Hs Hc. unfold create_withdrawal.
  repeat match goal with
    | |- wp (mbind _ (set (with_out (out_fee _))) _) _ _ => fail 1
    | |- wp (mbind _ _ _) _ _ => apply (wp_before_withdrawal not_stored);
        [done|done|solve [quiet_steps|by apply quiet_mark; intros ? []]|done|done|];
        clear s w1 Hs Hc; intros ? s w1 Hs Hc; cbv zeta
    end.
  match goal with |- wp (mbind _ (set (with_out (out_fee ?f))) _) _ _ => set (fee := f) end.
  apply wp_tbind, wp_set.
  assert (fee_set fee (with_out (out_fee fee) s)) as Hs' by by destruct Hs.
  revert Hs'. generalize (with_out (out_fee fee) s). clear s Hs. intros s Hs.
  assert (forall fee s, fee_set fee s -> fee_set fee (with_out out_failed s)) as Hfail by by intros ? ? [[? ?] ?].
  apply (wp_before_withdrawal (fee_set fee)); [done|by intros ? []|by apply quiet_mark; auto|done|done|].
  clear s w1 Hs Hc. intros _ s w1 Hs Hc.
  apply (wp_before_withdrawal (fee_set fee)); [done|by intros ? []|quiet_steps|done|done|].
  clear s w1 Hs Hc. intros _ s w1 Hs Hc. apply (wp_sign d0 _ _ _ _ fee); [done|done|done|]. clear s w1 Hs Hc.
  intros fee' s w1 Hs Hc.
  apply (wp_before_withdrawal (fee_set fee')); [done|by intros ? []|by apply quiet_mark; auto|done|done|].
  clear s w1 Hs Hc. intros _ s w1 Hs Hc.
  apply (wp_before_withdrawal (fee_set fee')); [done|by intros ? []|quiet_steps|done|done|].
  clear s w1 Hs Hc. intros raw s w1 Hs Hc.
  apply (wp_before_withdrawal (fee_set fee')); [done|by intros ? []| |done|done|].
  { by apply quiet_set; intros ? [[? ?] ?]. }
  clear s w1 Hs Hc. intros _ s w1 Hs Hc. unfold book_withdrawal.
  apply wp_tassoc. apply (wp_before_withdrawal (fee_set fee')); [done|by intros ? []|quiet_steps|done|done|].
  clear s w1 Hs Hc. intros conv s w1 [[Ht Hb] Hfee] Hc.
  apply wp_tassoc, wp_tbind, wp_call. wp_step. apply wp_create_transaction; [by apply Hc| |].
  2: { intros [t|e|p] w2 He Hok2 Hc2; [done| |done]. cbn [wrap]. apply withdrawal_left_none; [done|done|by transitivity (db w1)]. }
  intros tx w2 Hok2 Hc2 Hex. cbn [wrap]. apply wp_tassoc, wp_tbind, wp_set.
  apply (wp_decrement d0 tx); [done|by transitivity (db w1)|done|done].
Qed.

Lemma wp_createWithdrawal w : schema_ok (db w) ->
  wp (createWithdrawal config params) w (fun r w' => forall out e, r = Ok (out, e) -> withdrawal_left (db w) out (db w')).
Proof.
  intros Hok. unfold createWithdrawal. wp_step. eapply wp_mono; [by apply wp_create_withdrawal|].
  intros [[s [[]|e]]|e|p] w1 Hl; [by wp_step; intros ? ? [= <- _]| |done..].
  destruct (_ || _); [by wp_step; intros ? ? [= <- _]|]. do 2 wp_step.
  pose proof (ReleaseReservations_calm (wal_ID (wi_Wallet params)) (ws_txRaw s) (wo_IsTest (ws_out s)) w1) as Hc. unfold wp.
  destruct (ReleaseBitcoinTransactionReservations _ _ _ w1) as [[u|e'|p] w2]; cbn [fst snd mret M_ret] in *;
    [intros ? ? [= <- _]..|done]; by eapply withdrawal_left_calm.
Qed.

(** The rollback up to the payment. *)
Definition restored (d0 : DB) (out : withdrawalOutput) (d : DB) : Prop :=
  balances_moved (fun _ => 0) d0 d /\
  forall tx, wo_Transaction out = Some tx -> tx_in_status (tx_ID tx) StatusCancelled d.

(** The balances, after the transaction is cancelled. *)
Lemma wp_restore d0 out w : 0 < Payment.pay_ID (wi_Withdrawal params) -> withdrawal_left d0 out (db w) ->
  (forall tx, wo_Transaction out = Some tx -> tx_in_status (tx_ID tx) StatusCancelled (db w)) ->
  wp (if wo_BalanceDecremented out
      then wrapM (WalletBalance.UpdateBalancesForWithdrawal (update_params OperationIncrement
        (Payment.pay_ID (wi_Withdrawal params)) (wo_ServiceFee out) "Balance rollback after failed transaction"))
        "unable to update balances"
      else mret tt) w (fun r w' => r = Ok tt -> schema_ok (db w') /\ restored d0 out (db w')).
Proof.
  intros Hpay [Hok Hl] Hst. destruct (wo_BalanceDecremented out) eqn:Hb.
  2: { wp_step. intros _. split; [done|]. split; [|done]. by destruct (wo_Transaction out); destruct Hl. }
  destruct (wo_Transaction out) as [tx|] eqn:Et; [|by destruct Hl]. destruct Hl as [_ Hm]. wp_step.
  set (p := update_params OperationIncrement _ _ _).
  pose proof (wp_withdrawal_moves p w Hok) as Hm'. pose proof (UpdateBalancesForWithdrawal_ledger p w) as Hl'.
  pose proof (withdrawal_transactions p w) as Ht. unfold wp in *.
  destruct (WalletBalance.UpdateBalancesForWithdrawal p w) as [[[]|e|why] w1]; cbn [fst snd wrap] in *; [|done..].
  intros _. split; [by apply Hl'|]. split.
  - eapply moved_trans; [exact Hm|exact Hm'|]. intros i. cbv beta. rewrite (withdrawal_effect_moved _ _ _ _ _ Hm). unfold p.
    rewrite (effect_undone 1 _ _ "") by lia. lia.
  - rewrite Et. intros tx' [= <-]. destruct (Hst tx eq_refl) as (row & Hr & Hs). exists row. split; [|done].
    unfold keeps, transaction_rows in Ht. unfold tx_at, row_at, select. by rewrite Ht.
Qed.

Lemma wp_rollbackWithdrawal d0 out e w : 0 < Payment.pay_ID (wi_Withdrawal params) -> withdrawal_left d0 out (db w) ->
  wp (rollbackWithdrawal config params out e) w (fun r w' => r = Ok tt -> restored d0 out (db w') /\
    (wo_MarkPaymentAsFailed out = true -> payment_status (Payment.pay_MerchantID (wi_Withdrawal params))
       (Payment.pay_ID (wi_Withdrawal params)) (db w') = Some Payment.StatusFailed)).
Proof.
  intros Hpay Hl. unfold rollbackWithdrawal. cbv zeta. wp_step.
  match goal with |- wp (if ?b then _ else _) _ _ => assert (steps calm (if b then
      wrapM (DecrementPendingTransaction (wal_ID (wi_Wallet params)) (wo_IsTest out))
        "unable to decrement pending transaction" else mret tt)) as Hn
    by (destruct b; [apply steps_wrap; eauto with calm nocore|apply steps_ret; tc_solve]) end.
  specialize (Hn w). eapply withdrawal_left_calm in Hn; [|exact Hl]. clear Hl. rename Hn into Hl. unfold wp at 1.
  match goal with |- match (?m w).1 with _ => _ end => destruct (m w) as [[u|e'|p] w1] end; cbn [fst snd] in *; [|done..].
  wp_step. clear u. assert (wp (match wo_Transaction out with
      | Some tx => wrapM (Cancel tx StatusCancelled ("withdrawal rollback. Reason: " +:+ error_string e) None)
          "unable to cancel transaction"
      | None => mret tt end) w1 (fun r w2 => r = Ok tt /\ withdrawal_left d0 out (db w2) /\
        forall tx, wo_Transaction out = Some tx -> tx_in_status (tx_ID tx) StatusCancelled (db w2))) as Hcancel.
  { destruct Hl as [Hok Hl]. destruct (wo_Transaction out) as [tx|] eqn:Et.
    2: { wp_step. split; [done|]. split; [|done]. split; [done|]. by rewrite Et. }
    destruct Hl as [[row Hrow] Hb]. wp_step. apply wp_Cancel; [done|]. intros w2 f Hok2 Hf [l E2]. cbn [wrap].
    assert (tx_at (tx_ID tx) (db w2) = Some (f row)) as Hrow2
      by (apply (update_tx_at f _ (db w1)); [done|done|by intros r; destruct (Hf r) as (? & ? & ->)|by rewrite E2]).
    split; [done|]. split.
    - split; [done|]. rewrite Et. split; [by eexists|]. eapply moved_trans; [exact Hb|by apply moved_keeps; rewrite E2|].
      intros i. cbv beta. lia.
    - intros ? [= <-]. exists (f row). split; [done|by eapply cancelled_status]. }
  eapply wp_mono; [exact Hcancel|]. intros r w2 (-> & Hl2 & Hst). clear Hl Hcancel w1. cbn beta iota. wp_step.
  eapply wp_mono; [by eapply wp_restore|]. intros [[]|e'|p] w3 Hr; [|done..]. destruct (Hr eq_refl) as [Hok3 Hr3].
  destruct (wo_MarkPaymentAsFailed out); [|by wp_step]. do 2 wp_step. apply wp_set_status; [done|done|].
  intros [py|e'|p] w4 Hok4 [rows E4] Hs4; cbn [wrap]; [|done..]. wp_step. intros _. split; [|intros _; by apply Hs4].
  by rewrite E4.
Qed.
End Withdrawal.

(** Every balance is as before, the transaction is cancelled and the payment,
    if it is to be marked so, has failed. *)
Definition undone (params : withdrawalInput) (out : withdrawalOutput) (d d' : DB) : Prop :=
  (forall i, balance_value d' i = balance_value d i) /\
  (forall tx, wo_Transaction out = Some tx -> tx_in_status (tx_ID tx) StatusCancelled d') /\
  (wo_MarkPaymentAsFailed out = true -> payment_status (Payment.pay_MerchantID (wi_Withdrawal params))
     (Payment.pay_ID (wi_Withdrawal params)) d' = Some Payment.StatusFailed).

(** ** Properties *)

(** C8. A withdrawal that failed is undone: when [createWithdrawal] ends with
    an error and the rollback that follows it succeeds, every balance - the
    merchant's, charged with the amount and the service fee, and the system's,
    charged with the amount - holds what it held before, wherever the
    withdrawal stopped and whatever the service fee was (of a UTXO
    transaction, the one its plan pays), the transaction it stored is
    cancelled, and a withdrawal that is to be marked as failed has failed. *)
Theorem failed_withdrawal_rolled_back `{Resolver} `{Catalog} `{BlockchainService} `{Payment.Publisher} `{Scheduler}
  `{!BlockchainLaws} `{WalletTransaction.KMSTransactions} `{UTXOProviders} `{Btcutil}
  (config : Config) (params : withdrawalInput) (w : world) (Hok : schema_ok (db w))
  (Hid : 0 < Payment.pay_ID (wi_Withdrawal params)) :
  let '(r, w1) := createWithdrawal config params w in
  forall out e, r = Ok (out, Some e) ->
  let '(r2, w2) := rollbackWithdrawal config params out e w1 in
  r2 = Ok tt ->
  undone params out (db w) (db w2).
Proof.
  pose proof (wp_createWithdrawal config params w Hok) as Hc. unfold wp in Hc.
  destruct (createWithdrawal config params w) as [r w1]. intros out e ->.
  pose proof (wp_rollbackWithdrawal config params (db w) out e w1 Hid (Hc _ _ eq_refl)) as Hr. unfold wp in Hr.
  destruct (rollbackWithdrawal config params out e w1) as [r2 w2]. intros [[Hm Ht] Hf]%Hr.
  split; [by apply moved_values|by split].
Qed.

(** ** Witness: the node has not enough funds for a withdrawal of an ether *)
#[local] Existing Instances Merchant.eth_resolver refusing_node refusing_node_laws eth_signer ex_providers ex_btcutil.
#[local] Instance no_currencies : Catalog := CurrencyResolver_Catalog NewCurrencies.
#[local] Instance no_bus : Payment.Publisher := fun _ _ _ _ => Ok tt.
#[local] Instance in_order : Flow.Scheduler := fun _ _ l => l.

Definition ether (n : Z) : Money := mkMoney Crypto "ETH" (Some (n * 10 ^ 18)) 18.

(** The shop's order, with an ether of the shop and two in the wallet. *)
Definition owing_world : world :=
  let balance entity id n := CreateBalance (mkCreateBalanceParams 0 0 id entity (mkNull "" true) "ETH" "1" Coin "ETH" 18
    (BigIntToNumeric (n * 10 ^ 18))) in
  (balance EntityTypeMerchant 1 3 (balance EntityTypeWallet 1 2
    (CreateWallet 0 "u0" "0xw" "ETH" (StringToNullable TypeOutbound) Payment.order_world).2).2).2.
Lemma owing_schema : schema_ok (db owing_world).
Proof.
  apply created_balance, created_balance.
  apply (proj2 (CreateWallet_schema 0 "u0" "0xw" "ETH" (StringToNullable TypeOutbound) Payment.order_world)), Payment.order_schema.
Qed.

Definition ex_withdrawal : withdrawalInput :=
  let balance id entity n := mkBalance id "" entity 1 0 0 "ETH" "1" Coin "ETH" (ether n) None in
  mkWithdrawalInput
    (Payment.mkPayment 1 "" 0 0 None Payment.TypeWithdrawal Payment.StatusPending 1 "" None (ether 1) "" "" None None false
      None ∅)
    eth_wallet (balance 1 EntityTypeWallet 2) (balance 2 EntityTypeMerchant 3)
    (Merchant.mkAddress 1 "" 0 0 "" 1 "ETH" "Ethereum" "0xcold").
Definition ex_withdrawal_run : res (withdrawalOutput * option error) * world :=
  createWithdrawal System.demo_config ex_withdrawal owing_world.

Lemma failed_withdrawal_rolled_back_witness :
  balance_value (db ex_withdrawal_run.2) 2 = Some (2 * 10 ^ 18 - 10 ^ 15) /\
  match ex_withdrawal_run with
  | (Ok (out, Some e), w1) => let w2 := (rollbackWithdrawal System.demo_config ex_withdrawal out e w1).2 in
    balance_value (db w2) 2 = balance_value (db owing_world) 2 /\ payment_status 1 1 (db w2) = Some Payment.StatusFailed
  | _ => False
  end.
Proof.
  split; [by vm_compute|].
  assert (match ex_withdrawal_run with
    | (Ok (out, Some e), w1) => wo_MarkPaymentAsFailed out && is_ok (rollbackWithdrawal System.demo_config ex_withdrawal out e w1).1
    | _ => false end = true) as Hr by by vm_compute.
  pose proof (failed_withdrawal_rolled_back System.demo_config ex_withdrawal owing_world owing_schema ltac:(reflexivity)) as Hp.
  revert Hr Hp. unfold ex_withdrawal_run. destruct (createWithdrawal System.demo_config ex_withdrawal owing_world) as [r w1].
  destruct r as [[out [e|]]|e|p]; [|discriminate..]. intros [Hm Hr]%andb_true_iff Hp. specialize (Hp out e eq_refl).
  destruct (rollbackWithdrawal System.demo_config ex_withdrawal out e w1) as [[[]|e2|p2] w2]; cbn [fst snd is_ok] in *;
    [|discriminate..].
  destruct (Hp eq_refl) as (Hb & _ & Hf). split; [exact (Hb 2)|exact (Hf Hm)].
Defined.
