(* ===== verification/Checkout.v ===== *)
(** * Checkout: one live transaction per payment

    Choosing and changing the payment method of a payment: the transactions
    that [SetPaymentMethod] leaves to a payment, in every outcome. *)

From S2P Require Import Prelude GoLib Float64 KmsWallet Money Repository Queries PaymentQueries.
From S2P Require Import Bitcoin Currencies Blockchain Wallet WalletTransaction Transaction Ledger Outcomes Frames.
From S2P Require Import Processing.
From S2P Require WalletBalance Payment Merchant Broadcaster Convertor Tatum System Upkeep.

(** The rows of the transactions of a payment, oldest first. *)
Definition payment_txs (id : Z) (d : DB) : list Row.Transaction :=
  select (fun t => sql_eq (Row.t_EntityID t) (Int64ToNullable id)) (transactions d).

Definition is_cancelled (t : Row.Transaction) : Prop := Row.t_Status t = StatusCancelled.

(** All but the latest of its transactions are cancelled. *)
Definition single (id : Z) (d : DB) : Prop := forall older latest, payment_txs id d = older ++ [latest] -> Forall is_cancelled older.

Lemma payment_txs_keeps id d d' : keeps transaction_rows d d' -> payment_txs id d' = payment_txs id d.
Proof. unfold keeps, transaction_rows, payment_txs, select. by intros ->. Qed.

(** ** What creating a transaction adds *)
Section Methods.
Context `{Resolver} `{BlockchainService} `{!BlockchainLaws} `{KMS} `{Tatum.TatumAPI}.
Context (config : Config) (tatumProvider : option Tatum.Config).

(** A call that adds no row, or one: a pending transaction of the payment in
    the currency, which is the one returned. *)
Definition added (p : Payment.Payment) (c : CryptoCurrency) (d : DB) (r : res Payment.Method) (d' : DB) : Prop :=
  (is_ok r = false /\ transaction_rows d' = transaction_rows d) \/
  exists row, transaction_rows d' = transaction_rows d ++ [row] /\
    Row.t_EntityID row = mkNull (Payment.pay_ID p) (negb (Payment.pay_ID p =? 0)) /\
    Row.t_Status row = StatusPending /\ Row.t_Type row = TypeIncoming /\ Row.t_MerchantID row = Payment.pay_MerchantID p /\
    Row.t_Currency row = cc_Ticker c /\
    forall m, r = Ok m -> exists tx, entryToTransaction row = Ok tx /\ m = Payment.MakeMethod tx c.

Definition created_row (m : Z) (q : CreateTransaction) (row : Row.Transaction) : Prop :=
  Row.t_EntityID row = mkNull (c_EntityID q) (negb (c_EntityID q =? 0)) /\ Row.t_Status row = create_status q /\
  Row.t_Type row = c_Type q /\ Row.t_MerchantID row = m /\ Row.t_Currency row = cc_Ticker (c_Currency q).

Lemma transaction_values_row arg mk : transaction_values arg = Ok mk -> forall id,
  Row.t_EntityID (mk id) = ct_EntityID arg /\ Row.t_Status (mk id) = ct_Status arg /\ Row.t_Type (mk id) = ct_Type arg /\
  Row.t_MerchantID (mk id) = ct_MerchantID arg /\ Row.t_Currency (mk id) = ct_Currency arg.
Proof.
  unfold transaction_values. intros Ev.
  destruct (pg_numeric_not_null (ct_Amount arg)); cbn in Ev; [|done|done].
  destruct (pg_numeric (ct_FactAmount arg)); cbn in Ev; [|done|done].
  destruct (pg_numeric (ct_NetworkFee arg)); cbn in Ev; [|done|done].
  destruct (pg_numeric_not_null (ct_ServiceFee arg)); cbn in Ev; [|done|done].
  destruct (pg_numeric_not_null (ct_UsdAmount arg)); cbn in Ev; [|done|done].
  destruct (pg_jsonb (ct_Metadata arg)); cbn in Ev; [|done|done]. by injection Ev as <-.
Qed.

Lemma wp_Create_rows m q w : wp (Transaction.Create m q false) w (fun r w' =>
  (is_ok r = false /\ transaction_rows (db w') = transaction_rows (db w)) \/
  exists row, transaction_rows (db w') = transaction_rows (db w) ++ [row] /\ created_row m q row /\ r = entryToTransaction row).
Proof.
  unfold Transaction.Create. cbv zeta. do 2 wp_step. destruct (validate q) as [[]|e|s]; [|by left..].
  do 2 wp_step. destruct (coin_or_error (c_Currency q)) as [nc|e|s]; [|by left..].
  wp_step. apply wp_now. intros at_ w1 E1. wp_step. apply wp_run. apply wp_query.
  set (arg := mkCreateTransactionParams _ _ _ _ _ _ _ _ _ _ _ _ _ _ _ _ _ _ _ _ _ _ _ _).
  destruct (transaction_values arg) as [mk|e|s] eqn:Ev; cbn [fst snd].
  2, 3: intros w2 E2 w3 E3; left; rewrite E3, E2, E1; split; reflexivity.
  intros w2 E2. rewrite E1 in *. wp_step. right. exists (mk (next_id (transactions (db w)))). rewrite E2.
  split; [done|]. split; [|done]. unfold created_row.
  destruct (transaction_values_row _ _ Ev (next_id (transactions (db w)))) as (-> & -> & -> & -> & ->). by split_and!.
Qed.

Lemma ensureWalletSubscription_frame w c : steps (keeps transaction_rows) (ensureWalletSubscription config tatumProvider w c).
Proof. unfold ensureWalletSubscription, subscribe. cbv zeta. frame_steps. Qed.

(** A step that adds no transaction. *)
Lemma wp_no_transaction {A} p c d0 (m : Go A) (f : A -> Go Payment.Method) w : steps (keeps transaction_rows) m ->
  transaction_rows (db w) = transaction_rows d0 ->
  (forall a w', transaction_rows (db w') = transaction_rows d0 -> wp (f a) w' (fun r w'' => added p c d0 r (db w''))) ->
  wp (m ≫= f) w (fun r w' => added p c d0 r (db w')).
Proof.
  intros Hm E Hf. wp_step. specialize (Hm w). unfold keeps in Hm. unfold wp at 1.
  destruct (m w) as [[a|e|s] w1]; cbn [fst snd] in *; [apply Hf; congruence|left; split; [done|congruence]..].
Qed.

Lemma wp_createIncoming p c w : wp (createIncomingTransaction config tatumProvider p c) w (fun r w' => added p c (db w) r (db w')).
Proof.
  unfold createIncomingTransaction. cbv zeta. generalize (eq_refl (transaction_rows (db w))). set (d0 := db w) at 2 3.
  clearbody d0. intros E.
  apply wp_no_transaction; [apply pure_frame; [tc_solve|apply fiat_to_crypto_pure]|done|]. clear w E. intros conv w E.
  apply wp_no_transaction; [frame_steps|done|]. clear w E. intros fee w E.
  apply wp_no_transaction; [apply pure_frame; [tc_solve|apply fiat_to_fiat_pure]|done|]. clear w E. intros usd w E.
  apply wp_no_transaction; [apply steps_wrap, AcquireFreshLock_frame|done|]. clear w E. intros wal w E.
  apply wp_no_transaction; [apply steps_wrap, ensureWalletSubscription_frame|done|]. clear w E. intros wal' w E.
  do 2 wp_step. eapply wp_mono; [apply wp_Create_rows|]. intros r w1 [[Hr Hrows]|(row & Hrows & Hrow & ->)].
  - rewrite E in Hrows. destruct r as [tx|e|s]; [done| |]; by left.
  - destruct Hrow as (Hent & Hst & Hty & Hm & Hcur). cbn in Hent, Hst, Hty, Hm, Hcur. rewrite E in Hrows.
    destruct (entryToTransaction row) as [tx|e|s] eqn:Et; right; exists row; split_and!; try done.
    intros m [= <-]. by exists tx.
Qed.

(** ** The payment's transactions through a step *)
Definition txs_of (id : Z) (l : list Row.Transaction) : list Row.Transaction :=
  List.filter (fun t => sql_eq (Row.t_EntityID t) (Int64ToNullable id)) l.

Lemma payment_txs_rows id d : payment_txs id d = txs_of id (transaction_rows d).
Proof. done. Qed.

Lemma sql_eq_id i j : sql_eq (mkNull i (negb (i =? 0))) (Int64ToNullable j) = true <-> i = j /\ i <> 0.
Proof.
  unfold sql_eq, Int64ToNullable. cbn. rewrite !andb_true_iff, negb_true_iff, Z.eqb_neq, bool_decide_eq_true. tauto.
Qed.

Lemma added_rows p c d r d' j : added p c d r d' -> Payment.pay_ID p <> 0 ->
  payment_txs j d' = payment_txs j d \/
  j = Payment.pay_ID p /\ exists row, payment_txs j d' = payment_txs j d ++ [row].
Proof.
  intros [[_ E]|(row & E & He & _)] Hid; rewrite !payment_txs_rows, E; [by left|].
  unfold txs_of. rewrite List.filter_app. cbn [List.filter]. destruct (sql_eq (Row.t_EntityID row) _) eqn:Eq.
  - rewrite He in Eq. apply sql_eq_id in Eq as [-> _]. right. eauto.
  - rewrite app_nil_r. by left.
Qed.

(** Cancelling the latest transaction of a payment. *)
Lemma cancelled_txs d d' f older latest id : schema_ok d -> payment_txs id d = older ++ [latest] ->
  (forall r, Row.t_EntityID (f r) = Row.t_EntityID r) ->
  transaction_rows d' = rows (update_rows (by_id (Row.t_ID latest)) f (transactions d)) ->
  payment_txs id d' = older ++ [f latest] /\ forall j, j <> id -> payment_txs j d' = payment_txs j d.
Proof.
  intros Hok E Hf E'. assert (forall j, payment_txs j d' =
    map (fun r => if by_id (Row.t_ID latest) r then f r else r) (payment_txs j d)) as Hall.
  { intros j. rewrite !payment_txs_rows, E'. unfold transaction_rows, update_rows, txs_of. cbn [rows].
    induction (rows (transactions d)) as [|x l IH]; [done|]. cbn [map List.filter].
    replace (Row.t_EntityID (if by_id (Row.t_ID latest) x then f x else x)) with (Row.t_EntityID x)
      by (by destruct (by_id _ x); rewrite ?Hf).
    destruct (sql_eq _ _); cbn [map]; by rewrite IH. }
  destruct (wf_transactions d Hok) as (Hs & _).
  assert (latest ∈ payment_txs id d) as [Hin Hent']%elem_of_filter_bool by (rewrite E; apply elem_of_app; right; left).
  split.
  - rewrite Hall, E, map_app. cbn [map]. unfold by_id at 2. change (row_id latest) with (Row.t_ID latest).
    rewrite Z.eqb_refl. f_equal. assert (StronglySorted Z.lt (row_id <$> (older ++ [latest]))) as Hs'
      by (rewrite <- E; by apply sorted_filter). clear E Hall E' Hin Hent'. induction older as [|x older IH]; [done|].
    cbn [map]. cbn [app fmap list_fmap] in Hs'. apply StronglySorted_inv in Hs' as [Hs' Hx].
    rewrite IH by done. f_equal. unfold by_id. rewrite (proj2 (Z.eqb_neq _ _)); [done|].
    rewrite Forall_forall in Hx. specialize (Hx (row_id latest)). assert (row_id x < row_id latest) as Hlt
      by (apply Hx, list_elem_of_fmap; exists latest; split; [done|apply elem_of_app; right; left]).
    change (row_id latest) with (Row.t_ID latest) in Hlt. lia.
  - intros j Hj. rewrite Hall. rewrite <- (map_id (payment_txs j d)) at 2. apply map_ext_in. intros x Hx.
    unfold by_id. case_match eqn:Ei; [|done]. exfalso. apply list_elem_of_In in Hx.
    apply elem_of_filter_bool in Hx as [Hx Hent].
    assert (x = latest) as ->.
    { apply Z.eqb_eq in Ei. assert (row_at (row_id latest) (transactions d) = Some x) as Hx1
        by (apply row_at_Some; [by apply wf_transactions|done]).
      assert (row_at (row_id latest) (transactions d) = Some latest) as Hx2
        by (apply row_at_Some; [by apply wf_transactions|done]). congruence. }
    unfold sql_eq, Int64ToNullable in Hent, Hent'. cbn in Hent, Hent'.
    apply andb_true_iff in Hent as [_ Hent%bool_decide_eq_true], Hent' as [_ Hent'%bool_decide_eq_true]. congruence.
Qed.

(** ** The latest transaction of a payment *)
Lemma wp_GetLatest id w (Q : res Transaction -> world -> Prop) :
  (forall w', db w' = db w -> Q match rev (payment_txs id (db w)) with
     | row :: _ => entryToTransaction row
     | [] => Err ErrNotFound
     end w') -> wp (GetLatestByPaymentID id) w Q.
Proof.
  intros HQ. unfold GetLatestByPaymentID, found. wp_step. apply wp_not_found, wp_read. intros w1 E1.
  specialize (HQ w1 E1). fold (payment_txs id (db w)). destruct (rev (payment_txs id (db w))) as [|row l]; cbn [one]; [done|]. by wp_step.
Qed.

(** A row that does not read back is not taken for a missing one. *)
Definition other_error {A} (r : res A) : Prop := forall e, r = Err e -> errors_Is e ErrNotFound = false.

Lemma other_bind {A B} (r : res A) (f : A -> res B) : other_error r -> (forall a, other_error (f a)) -> other_error (r ≫= f).
Proof. unfold other_error. destruct r as [a|e|s]; cbn; [by eauto|intros Hr _ ? [= <-]; by apply Hr|done]. Qed.
Lemma other_wrap {A} (r : res A) m : other_error r -> other_error (wrap r m).
Proof.
  unfold other_error. destruct r as [a|e|s]; cbn; [done| |done]. intros Hr ? [= <-]. cbn. rewrite bool_decide_false by done.
  by apply Hr.
Qed.
Lemma other_ok {A} (a : A) : other_error (mret a).
Proof. by intros e. Qed.
Lemma other_if {A} n (r : res A) : other_error r -> other_error (if_present n r).
Proof. intros Hr. unfold if_present. destruct (present n); [|by intros e]. apply other_bind; [done|]. intros a. apply other_ok. Qed.
Lemma other_money n ty tk dec : other_error (NumericToMoney n ty tk dec).
Proof. intros e. unfold NumericToMoney, NumericToBigInt. destruct (negb _); cbn; [by intros [= <-]|]. by destruct (n_Int n). Qed.
Lemma other_crypto n c : other_error (NumericToCrypto n c).
Proof. intros e. unfold NumericToCrypto, NumericToBigInt. destruct (negb _); cbn; [by intros [= <-]|]. by destruct (n_Int n). Qed.

Lemma other_entry `{!ResolverLaws} row : other_error (entryToTransaction row).
Proof.
  unfold entryToTransaction. cbv zeta. repeat first
    [ progress intros | apply other_ok | apply other_money | apply other_crypto | apply other_wrap | apply other_if | apply other_bind ].
  - unfold resolve_currency. destruct (GetCurrencyByTicker _) as [c|e'|s] eqn:Ec; [by intros e| |by intros e].
    rewrite (currency_error _ _ Ec). by intros e.
  - unfold resolve_coin. destruct (GetNativeCoin _) as [c|e'|s] eqn:Ec; [by intros e| |by intros e].
    rewrite (native_error _ _ Ec). by intros e.
Qed.

(** ** The method chosen *)
Definition method_of (id : Z) (c : CryptoCurrency) (m : Payment.Method) (d : DB) : Prop :=
  exists older row tx, payment_txs id d = older ++ [row] /\ entryToTransaction row = Ok tx /\
    m = Payment.MakeMethod tx c /\ Row.t_Status row <> StatusCancelled /\ cc_Ticker (tx_Currency tx) = cc_Ticker c.

(** What a choice leaves: one live transaction at most, the method's; the
    transactions of other payments as they were. *)
Definition chosen (id : Z) (c : CryptoCurrency) (d : DB) (r : res Payment.Method) (d' : DB) : Prop :=
  single id d' /\ (forall j, j <> id -> payment_txs j d' = payment_txs j d) /\
  forall m, r = Ok m -> method_of id c m d'.

Definition all_cancelled (id : Z) (d : DB) : Prop := Forall is_cancelled (payment_txs id d).

Lemma ToUpper_idem s : ToUpper (ToUpper s) = ToUpper s.
Proof.
  unfold ToUpper. rewrite list_ascii_of_string_of_list_ascii. f_equal. induction (bytes s) as [|a l IH]; [done|].
  cbn [fmap list_fmap]. rewrite IH. f_equal. by destruct a as [[] [] [] [] [] [] [] []].
Qed.

Lemma chosen_added `{!ResolverLaws} p c ticker d r d' : GetCurrencyByTicker ticker = Ok c -> Payment.pay_ID p <> 0 ->
  all_cancelled (Payment.pay_ID p) d -> added p c d r d' -> chosen (Payment.pay_ID p) c d r d'.
Proof.
  intros Hc Hid Hall Ha. split; [|split].
  - intros older latest E. destruct (added_rows _ _ _ _ _ (Payment.pay_ID p) Ha Hid) as [E'|(_ & row & E')]; rewrite E' in E.
    + unfold all_cancelled in Hall. rewrite E in Hall. by apply Forall_app in Hall as [? _].
    + apply app_inj_tail in E as [<- _]. exact Hall.
  - intros j Hj. destruct (added_rows _ _ _ _ _ j Ha Hid) as [E'|(-> & _)]; done.
  - intros m ->. destruct Ha as [[Ho _]|(row & E & He & Hs & _ & _ & Hcur & Hm)]; [done|].
    destruct (Hm m eq_refl) as (tx & Et & ->). exists (payment_txs (Payment.pay_ID p) d), row, tx.
    split; [|split; [done|split; [done|split; [by rewrite Hs|]]]].
    + rewrite !payment_txs_rows, E. unfold txs_of. rewrite List.filter_app. cbn [List.filter].
      by rewrite He, (proj2 (sql_eq_id _ _)).
    + apply entry_deal in Et as [Er _]. unfold resolve_currency in Er. rewrite Hcur in Er.
      destruct (GetCurrencyByTicker (cc_Ticker c)) as [c'|e|s] eqn:Ec; [| |done].
      * injection Er as <-. rewrite (currency_ticker _ _ Ec), (currency_ticker _ _ Hc). apply ToUpper_idem.
      * rewrite (currency_error _ _ Ec) in Er. injection Er as <-. unfold fallbackCurrency. rewrite Hcur.
        by destruct (GetNativeCoin _).
Qed.

Lemma chosen_none id c d r d' : transaction_rows d' = transaction_rows d -> single id d -> is_ok r = false ->
  chosen id c d r d'.
Proof.
  intros E Hs Hr. split; [|split].
  - intros older latest. rewrite payment_txs_rows, E. apply Hs.
  - intros j _. by rewrite !payment_txs_rows, E.
  - by intros m ->.
Qed.

Lemma chosen_after id c d d1 r d' : (forall j, j <> id -> payment_txs j d1 = payment_txs j d) -> chosen id c d1 r d' ->
  chosen id c d r d'.
Proof. intros Hd1 (Hs & Ho & Hm). split; [done|]. split; [|done]. intros j Hj. rewrite Ho by done. by apply Hd1. Qed.

(** Creating the method's transaction once those of before are cancelled. *)
Lemma wp_new_method `{!ResolverLaws} p c ticker d0 w : GetCurrencyByTicker ticker = Ok c -> Payment.pay_ID p <> 0 ->
  all_cancelled (Payment.pay_ID p) (db w) -> (forall j, j <> Payment.pay_ID p -> payment_txs j (db w) = payment_txs j d0) ->
  wp (createIncomingTransaction config tatumProvider p c) w (fun r w' => chosen (Payment.pay_ID p) c d0 r (db w')).
Proof.
  intros Hc Hid Hall Ho. eapply wp_mono; [apply wp_createIncoming|]. intros r w1 Ha.
  apply (chosen_after _ _ _ (db w)); [done|]. by eapply chosen_added.
Qed.

Lemma wp_choose `{!ResolverLaws} p c ticker w : GetCurrencyByTicker ticker = Ok c -> Payment.pay_ID p <> 0 ->
  schema_ok (db w) -> single (Payment.pay_ID p) (db w) ->
  wp (choose_method config tatumProvider p c) w (fun r w' => chosen (Payment.pay_ID p) c (db w) r (db w')).
Proof.
  intros Hc Hid Hok Hs. unfold choose_method. do 2 wp_step. apply wp_GetLatest. intros w1 E1.
  destruct (rev (payment_txs (Payment.pay_ID p) (db w))) as [|row l] eqn:Er.
  - cbn beta iota. rewrite errors_Is_refl. apply (wp_new_method p c ticker); [done..| |by rewrite E1].
    unfold all_cancelled. rewrite E1. apply (f_equal (@rev _)) in Er. rewrite rev_involutive in Er. by rewrite Er.
  - assert (payment_txs (Payment.pay_ID p) (db w) = rev l ++ [row]) as E
      by (rewrite <- (rev_involutive (payment_txs _ _)), Er; done).
    destruct (entryToTransaction row) as [tx|e|s] eqn:Et; cbn beta iota.
    2: { rewrite (other_entry _ _ Et). wp_step. apply chosen_none; [by rewrite E1|done|done]. }
    2: { by apply chosen_none; [rewrite E1| |]. }
    pose proof (entry_inv _ _ Et) as (Hti & Hst & _). pose proof (Hs _ _ E) as Hold.
    case_bool_decide as Hcan.
    { apply (wp_new_method p c ticker); [done..| |by rewrite E1]. unfold all_cancelled. rewrite E1, E.
      apply Forall_app_2; [done|]. apply Forall_singleton. unfold is_cancelled. congruence. }
    destruct (bool_decide (cc_Ticker (tx_Currency tx) = cc_Ticker c)) eqn:Eb; cbn [andb].
    1: apply bool_decide_eq_true in Eb. 1: case_bool_decide as Hn.
    1: { wp_step. split; [|split].
      - intros older latest. rewrite E1, E. by intros [<- _]%app_inj_tail.
      - intros j _. by rewrite E1.
      - intros m [= <-]. exists (rev l), row, tx. rewrite E1. rewrite <- Hst. by split_and!. }
    all: unfold changePaymentMethod; destruct (tx_RecipientWalletID tx); [|wp_step; by apply chosen_none; [rewrite E1| |]].
    all: do 2 wp_step; apply wp_Cancel; [by rewrite E1|].
    all: rewrite E1; intros w2 f Hok2 Hf [lk E2]; cbn [wrap].
    all: destruct (cancelled_txs (db w) (db w2) f (rev l) row (Payment.pay_ID p) Hok E) as [Ep Hother];
      [intros r; by destruct (Hf r) as (? & ? & ->)|by rewrite E2, Hti|].
    all: apply (wp_new_method p c ticker); [done..| |done].
    all: unfold all_cancelled; rewrite Ep; apply Forall_app_2; [done|]; apply Forall_singleton; 
      destruct (Hf row) as (? & ? & ->); done.
Qed.
End Methods.

Lemma payment_method_of `{Resolver} mt ticker c : getPaymentMethod mt ticker = Ok c -> GetCurrencyByTicker ticker = Ok c.
Proof.
  unfold getPaymentMethod. destruct (GetCurrencyByTicker ticker) as [c'|e|s]; cbn; [|done..]. by destruct (existsb _ _).
Qed.

Lemma merchant_pure id t : steps eq (Merchant.GetByID id t).
Proof. frame_steps. Qed.

(** ** Properties *)

(** C9. A payment has one live transaction: whatever [SetPaymentMethod] is
    asked for and however it ends - the rates or the node may fail at any
    point -, all but the latest transaction of the payment are cancelled if
    they were before, and no transaction of another payment is touched. When
    it succeeds the method is the latest transaction, which is not cancelled
    and in the currency of the ticker. A payment that can no longer be edited
    is refused without any change. *)
Theorem one_method_per_payment `{Resolver} `{!ResolverLaws} `{BlockchainService} `{!BlockchainLaws} `{KMS} `{Tatum.TatumAPI}
  (config : Config) (tatumProvider : option Tatum.Config) (p : Payment.Payment) (ticker : string) (w : world)
  (Hok : schema_ok (db w)) (Hid : 0 < Payment.pay_ID p) (Hsingle : single (Payment.pay_ID p) (db w)) :
  let '(r, w1) := SetPaymentMethod config tatumProvider (Some p) ticker w in
  single (Payment.pay_ID p) (db w1) /\
  (forall j, j <> Payment.pay_ID p -> payment_txs j (db w1) = payment_txs j (db w)) /\
  (forall m, r = Ok m -> exists c, GetCurrencyByTicker ticker = Ok c /\ method_of (Payment.pay_ID p) c m (db w1)) /\
  (Payment.IsEditable p = false -> r = Err ErrStatusInvalid /\ db w1 = db w).
Proof.
  enough (wp (SetPaymentMethod config tatumProvider (Some p) ticker) w (fun r w1 =>
    (exists c, (is_ok r = true -> GetCurrencyByTicker ticker = Ok c) /\ chosen (Payment.pay_ID p) c (db w) r (db w1)) /\
    (Payment.IsEditable p = false -> r = Err ErrStatusInvalid /\ db w1 = db w))) as Hwp.
  { unfold wp in Hwp. destruct (SetPaymentMethod _ _ _ _ w) as [r w1]. destruct Hwp as [(c & Hc & Hs & Ho & Hm) He].
    split; [done|]. split; [done|]. split; [|done]. intros m ->. exists c. split; [by apply Hc|by apply Hm]. }
  assert (forall r w1, db w1 = db w -> is_ok r = false ->
    exists c, (is_ok r = true -> GetCurrencyByTicker ticker = Ok c) /\ chosen (Payment.pay_ID p) c (db w) r (db w1)) as Hnone.
  { intros r w1 E Hr. exists zero_crypto. split; [by rewrite Hr|]. by apply chosen_none; [rewrite E| |]. }
  unfold SetPaymentMethod. destruct (Payment.IsEditable p); cbn [negb]; [|by wp_step; split; [apply Hnone|]].
  assert (forall P Q : Prop, P -> P /\ (true = false -> Q)) as Hedit by done.
  do 2 wp_step. pose proof (eq_sym (merchant_pure (Payment.pay_MerchantID p) false w)) as Em. unfold wp at 1.
  destruct (Merchant.GetByID _ _ w) as [[mt|e|s] w1]; cbn [fst snd wrap] in *; [|by apply Hedit, Hnone..].
  do 3 wp_step. destruct (getPaymentMethod mt ticker) as [c|e|s] eqn:Ec; cbn [wrap]; [|by apply Hedit, Hnone..].
  apply payment_method_of in Ec. wp_step. unfold Do. do 2 wp_step.
  eapply wp_mono; [apply (wp_choose config tatumProvider p c ticker); [done|lia|by rewrite Em..]|].
  rewrite Em. intros [m|e|s] w2 Hch; cbn [wrap]; try wp_step; apply Hedit; by exists c.
Qed.

(** ** Witness: the customer chooses ETH, then USDT *)
Definition rated_node : BlockchainService := {|
  CalculateFee _ _ _ := fail (ENew "no node");
  CalculateWithdrawalFeeUSD _ _ _ := fail (ENew "no node");
  FiatToFiat m c := mret (Convertor.mkConversion Convertor.ConversionTypeFiatToFiat f64_zero m m);
  FiatToCrypto m c := mret (Convertor.mkConversion Convertor.ConversionTypeFiatToCrypto f64_zero m
    (mkMoney Crypto (cc_Ticker c) (Some 500) (cc_Decimals c)));
  CryptoToFiat m c := fail (ENew "no rates");
  BroadcastTransaction _ _ _ := fail (ENew "no node");
  GetTransactionReceipt _ _ _ := fail (ENew "no node");
  ListIncomingTransactions _ _ _ := mret []
|}.
Lemma rated_node_laws : BlockchainLaws (H := rated_node).
Proof. split; cbn; intros; (apply steps_fail; tc_solve) || (apply steps_ret; tc_solve). Qed.
Definition two_currencies : Resolver := resolver_of [Merchant.eth_coin; Merchant.eth_usdt].
Lemma two_currencies_laws : ResolverLaws (H := two_currencies).
Proof. apply resolver_of_laws, (bool_decide_unpack _). by vm_compute. Qed.

#[local] Existing Instances two_currencies two_currencies_laws rated_node rated_node_laws.
#[local] Instance one_key : KMS := {|
  kms_CreateWallet bc n := Ok (mkPayload (FormatInt (Z.of_nat n)) ("0x" +:+ FormatInt (Z.of_nat n)) bc);
  uuid_Parse s := Some s |}.
#[local] Instance no_tatum : Tatum.TatumAPI := {|
  Tatum.post_subscription _ _ _ _ := Err (ENew "offline"); Tatum.hmac_sha512_base64 _ body := body |}.

(** The order, as its payment page reads it. *)
Definition order : Payment.Payment :=
  match (Payment.GetByID "" 1 1 Payment.order_world).1 with
  | Ok p => p
  | _ => Payment.mkPayment 1 "" 0 0 None "" Payment.StatusPending 1 "" None (mkMoney Fiat USD (Some 1) 2) "" "" None None false None ∅
  end.
Definition choose (ticker : string) : world -> res Payment.Method * world :=
  SetPaymentMethod System.demo_config None (Some order) ticker.
Definition chosen_twice : res Payment.Method * world := choose "ETH_USDT" (choose "ETH" Payment.order_world).2.
Definition statuses (d : DB) : list (string * string) := map (fun t => (Row.t_Currency t, Row.t_Status t)) (payment_txs 1 d).

Lemma one_method_per_payment_witness :
  statuses (db chosen_twice.2) = [("ETH", StatusCancelled); ("ETH_USDT", StatusPending)] /\
  single 1 (db chosen_twice.2) /\
  exists c m, chosen_twice.1 = Ok m /\ GetCurrencyByTicker "ETH_USDT" = Ok c /\ method_of 1 c m (db chosen_twice.2).
Proof.
  split; [by vm_compute|].
  assert (Payment.pay_ID order = 1) as Hid by by vm_compute.
  assert (is_ok chosen_twice.1 = true) as Hr by by vm_compute.
  assert (single (Payment.pay_ID order) (db Payment.order_world)) as H0.
  { intros older latest. assert (payment_txs (Payment.pay_ID order) (db Payment.order_world) = []) as -> by by vm_compute.
    by intros [_ ?]%eq_sym%app_nil. }
  pose proof (one_method_per_payment System.demo_config None order "ETH" Payment.order_world Payment.order_schema
    ltac:(rewrite Hid; reflexivity) H0) as H1.
  assert (schema_ok (db (choose "ETH" Payment.order_world).2)) as Hok.
  { apply (proj2 (ledger_schema _ _ (Upkeep.SetPaymentMethod_ledger System.demo_config None (Some order) "ETH"
      Payment.order_world))), Payment.order_schema. }
  revert H1 Hok Hr. unfold chosen_twice, choose.
  destruct (SetPaymentMethod _ _ _ "ETH" _) as [r1 w1]. cbn [snd]. intros (H1 & _) Hok Hr.
  pose proof (one_method_per_payment System.demo_config None order "ETH_USDT" w1 Hok ltac:(rewrite Hid; reflexivity) H1) as H2.
  revert H2 Hr. destruct (SetPaymentMethod _ _ _ "ETH_USDT" _) as [r2 w2]. cbn [fst snd]. rewrite Hid.
  intros (H2 & _ & Hm & _) Hr. split; [exact H2|]. destruct r2 as [m|e|s]; [|discriminate..].
  destruct (Hm m eq_refl) as (c & Hc & Hmeth). exists c, m. split; [reflexivity|]. split; [exact Hc|exact Hmeth].
Defined.
