(* ===== verification/Http.v ===== *)
(** * Http: requests to services outside the process

    What the providers use of [net/http]: a request is built, which fails for
    a URL that does not parse, and sent; the answer is a status and a body
    whose reading may fail. An answer depends on the number of the call (see
    [external] in [Repository]). *)

From S2P Require Import Prelude GoLib Float64 KmsWallet Money Repository.

Record Request := mkRequest {
  rq_Method : string; rq_URL : string; rq_Header : list (string * string); rq_Body : string
}.
Record Response := mkResponse { rs_StatusCode : Z; rs_Body : res string }.

Class HttpClient := {
  (** the error of [http.NewRequest] *)
  valid_request : Request -> res unit;
  client_Do : Request -> nat -> res Response
}.

Definition MethodGet : string := "GET".
Definition MethodPost : string := "POST".
Definition StatusTooManyRequests : Z := 429.
(** The [Content-Type] header. *)
Definition content_type (t : string) : list (string * string) := [("Content-Type", t)].

Definition success_code (code : Z) : bool := (200 <=? code) && (code <? 300).

Section Client.
Context `{HttpClient}.

Definition NewRequest (method url : string) (header : list (string * string)) (body : string) : Go Request :=
  let r := mkRequest method url header body in
  _ ← lift (valid_request r); mret r.

Definition send (r : Request) : Go Response := external (client_Do r).
Definition read_body (r : Response) : Go string := lift (rs_Body r).

Lemma send_pure r : steps eq (send r).
Proof. apply steps_external. tc_solve. Qed.
End Client.
