(* ===== verification/ChainProvider.v ===== *)
(** * ChainProvider: the client of the block explorers

    [internal/provider/chain/provider.go]: the endpoints of a blockchain with
    their fallbacks, cached answers, the cool-down of an endpoint that failed,
    fee estimates, broadcasting. The HTTP client, go-ethereum's dialler and
    the decoding of JSON bodies are interfaces. The state - the two maps behind
    the mutex - is threaded by [Tracked] (see [Flow]): it survives an error. *)

From S2P Require Import Prelude GoLib Float64 KmsWallet Money Repository Queries.
From S2P Require Import Currencies Flow Http.

Definition defaultBitcoinMainnetExplorerURL : string := "https://blockstream.info/api".
Definition defaultBitcoinTestnetExplorerURL : string := "https://blockstream.info/testnet/api".
Definition defaultBitcoinMainnetFallbackURL : string := "https://mempool.space/api".
Definition defaultBitcoinTestnetFallbackURL : string := "https://mempool.space/testnet/api".
Definition defaultLitecoinMainnetExplorerURL : string := "https://litecoinspace.org/api".
Definition defaultLitecoinTestnetExplorerURL : string := "https://litecoinspace.org/testnet/api".
Definition defaultEVMScanBlocks : Z := 1200.
(** In nanoseconds. *)
Definition Second : Z := 1000000000.
Definition getCacheTTL : Z := 5 * Second.
Definition transientFailureCooldown : Z := 10 * Second.
Definition rateLimitCooldown : Z := 60 * Second.

(** ** Configuration *)
Record Config := mkConfig {
  BitcoinMainnetExplorerURL : string; BitcoinMainnetFallbackURLs : list string;
  BitcoinTestnetExplorerURL : string; BitcoinTestnetFallbackURLs : list string;
  LitecoinMainnetExplorerURL : string; LitecoinMainnetFallbackURLs : list string;
  LitecoinTestnetExplorerURL : string; LitecoinTestnetFallbackURLs : list string;
  EthereumMainnetRPCURL : string; EthereumTestnetRPCURL : string;
  MaticMainnetRPCURL : string; MaticTestnetRPCURL : string;
  BSCMainnetRPCURL : string; BSCTestnetRPCURL : string;
  cfg_EVMScanBlocks : Z
}.

Definition trim_slashes (s : string) : string := of_bytes (trim_right "/" (bytes s)).

Definition normalizeBaseURL (value fallback : string) : string :=
  trim_slashes (if bool_decide (value = "") then fallback else value).

Definition usesDefaultURL (value fallback : string) : bool :=
  bool_decide (normalizeBaseURL value fallback = trim_slashes fallback).

Definition defaultFallbackURLs (enabled : bool) (urls : list string) : list string :=
  if negb enabled then [] else urls.

(** The loop over the values, with the sets [excludedSet] and [seen]. *)
Fixpoint keep_urls (excluded seen : gset string) (values : list string) : list string :=
  match values with
  | [] => []
  | value :: values =>
    let value := normalizeBaseURL value "" in
    if bool_decide (value = "") || bool_decide (value ∈ excluded) || bool_decide (value ∈ seen)
    then keep_urls excluded seen values
    else value :: keep_urls excluded ({[value]} ∪ seen) values
  end.

Definition normalizeFallbackURLs (values defaults excluded : list string) : list string :=
  let excludedSet := list_to_set (List.filter (fun v => negb (bool_decide (v = "")))
    (map (fun v => normalizeBaseURL v "") excluded)) in
  keep_urls excludedSet ∅ (values ++ defaults).

(** ** The provider *)
Record cachedResponse := mkCached { cr_body : string; cr_expiresAt : Z }.
Record Provider := mkProvider {
  config : Config; getCache : gmap string cachedResponse; getCooldown : gmap string Z
}.

Definition New (cfg : Config) : Provider :=
  let useDefaultBitcoinMainnetFallback := usesDefaultURL (BitcoinMainnetExplorerURL cfg) defaultBitcoinMainnetExplorerURL in
  let useDefaultBitcoinTestnetFallback := usesDefaultURL (BitcoinTestnetExplorerURL cfg) defaultBitcoinTestnetExplorerURL in
  let btc := normalizeBaseURL (BitcoinMainnetExplorerURL cfg) defaultBitcoinMainnetExplorerURL in
  let btcTest := normalizeBaseURL (BitcoinTestnetExplorerURL cfg) defaultBitcoinTestnetExplorerURL in
  let ltc := normalizeBaseURL (LitecoinMainnetExplorerURL cfg) defaultLitecoinMainnetExplorerURL in
  let ltcTest := normalizeBaseURL (LitecoinTestnetExplorerURL cfg) defaultLitecoinTestnetExplorerURL in
  mkProvider (mkConfig
    btc (normalizeFallbackURLs (BitcoinMainnetFallbackURLs cfg)
      (defaultFallbackURLs useDefaultBitcoinMainnetFallback [defaultBitcoinMainnetFallbackURL]) [btc])
    btcTest (normalizeFallbackURLs (BitcoinTestnetFallbackURLs cfg)
      (defaultFallbackURLs useDefaultBitcoinTestnetFallback [defaultBitcoinTestnetFallbackURL]) [btcTest])
    ltc (normalizeFallbackURLs (LitecoinMainnetFallbackURLs cfg) [] [ltc])
    ltcTest (normalizeFallbackURLs (LitecoinTestnetFallbackURLs cfg) [] [ltcTest])
    (EthereumMainnetRPCURL cfg) (EthereumTestnetRPCURL cfg) (MaticMainnetRPCURL cfg) (MaticTestnetRPCURL cfg)
    (BSCMainnetRPCURL cfg) (BSCTestnetRPCURL cfg)
    (if cfg_EVMScanBlocks cfg <=? 0 then defaultEVMScanBlocks else cfg_EVMScanBlocks cfg)) ∅ ∅.

Definition EVMScanBlocks (p : Provider) : Z := cfg_EVMScanBlocks (config p).

Definition EVMRPCURL (p : Provider) (blockchain : string) (isTest : bool) : string :=
  let c := config p in
  if bool_decide (blockchain = ETH) then if isTest then EthereumTestnetRPCURL c else EthereumMainnetRPCURL c
  else if bool_decide (blockchain = MATIC) then if isTest then MaticTestnetRPCURL c else MaticMainnetRPCURL c
  else if bool_decide (blockchain = BSC) then if isTest then BSCTestnetRPCURL c else BSCMainnetRPCURL c
  else "".

Definition utxo_bases (c : Config) (blockchain : string) (isTest : bool) : list string :=
  if bool_decide (blockchain = LTC) then
    if isTest then LitecoinTestnetExplorerURL c :: LitecoinTestnetFallbackURLs c
    else LitecoinMainnetExplorerURL c :: LitecoinMainnetFallbackURLs c
  else
    if isTest then BitcoinTestnetExplorerURL c :: BitcoinTestnetFallbackURLs c
    else BitcoinMainnetExplorerURL c :: BitcoinMainnetFallbackURLs c.

Definition utxoURLs (p : Provider) (blockchain path : string) (isTest : bool) : list string :=
  let path := if String.prefix "/" path then path else "/" +:+ path in
  map (fun base => base +:+ path)
    (List.filter (fun base => negb (bool_decide (base = ""))) (utxo_bases (config p) blockchain isTest)).

Definition utxoURL (p : Provider) (blockchain path : string) (isTest : bool) : string :=
  match utxoURLs p blockchain path isTest with [] => "" | url :: _ => url end.

Definition bitcoinURL (p : Provider) (path : string) (isTest : bool) : string := utxoURL p BTC path isTest.

(** ** What the explorers answer *)
Record BitcoinStatus := mkStatus { st_Confirmed : bool; st_BlockHeight : Z; st_BlockHash : string; st_BlockTime : Z }.
Record BitcoinOutput := mkOutput { bo_ScriptPubKeyAddress : string; bo_Value : Z }.
Record BitcoinInput := mkInput { bi_TxID : string; bi_Vout : Z; bi_PrevOut : option BitcoinOutput }.
Record BitcoinTransaction := mkTransaction {
  bt_TxID : string; bt_Version : Z; bt_Lock : Z; bt_Vin : list BitcoinInput; bt_Vout : list BitcoinOutput;
  bt_Size : Z; bt_Weight : Z; bt_Fee : Z; bt_Status : BitcoinStatus
}.
Record BitcoinUTXO := mkUTXO { bu_TxID : string; bu_Vout : Z; bu_Status : BitcoinStatus; bu_Value : Z }.

(** [json.Unmarshal] of the bodies into these types; of fee estimates into
    their targets, each of which decodes into a number or not. A time is
    printed in the zone of the server. *)
Class Explorers := {
  decode_transactions : string -> res (list BitcoinTransaction);
  decode_transaction : string -> res BitcoinTransaction;
  decode_utxos : string -> res (list BitcoinUTXO);
  decode_estimates : string -> res (gmap string (option float64));
  Format_RFC3339 : Z -> string;
  ethclient : Type;
  ethclient_Dial : string -> nat -> res ethclient
}.

(** [fmt.Sscanf(s, "%d", &height)]: white space, a sign, and the digits in
    front of anything else, as an [int64]. *)
Fixpoint leading_digits (l : list ascii) : list ascii :=
  match l with
  | c :: l' => match char_digit c with Some _ => c :: leading_digits l' | None => [] end
  | [] => []
  end.

Definition Sscanf_d (s : string) : res Z :=
  let l := trim_left_space (bytes s) in
  let '(negative, l) := match l with
    | c :: l' => if Ascii.eqb c "-" then (true, l') else if Ascii.eqb c "+" then (false, l') else (false, l)
    | [] => (false, [])
    end in
  match leading_digits l with
  | [] => Err (ENew "expected integer")
  | ds =>
    let z := match parse_digits ds 0 with Some n => if negative then - n else n | None => 0 end in
    if (- 2 ^ 63 <=? z) && (z <? 2 ^ 63) then Ok z else Err (ENew "value out of range")
  end.

Section Provider.
Context `{HttpClient} `{Explorers}.

(** A target whose estimate is not a number is skipped. *)
Definition parseUTXOFeeEstimates (raw : string) : res (gmap string float64) :=
  response ← decode_estimates raw;
  Ok (omap (fun feeRate : option float64 => feeRate) (response : gmap string (option float64))).

Definition EVMRPC (p : Provider) (blockchain : string) (isTest : bool) : Go ethclient :=
  let url := EVMRPCURL p blockchain isTest in
  if bool_decide (url = "") then fail (ENew ("RPC URL is not configured for " +:+ blockchain +:+ " test=" +:+ (if isTest then "true" else "false")))
  else external (ethclient_Dial url).

(** ** The cache and the cool-downs *)
Definition with_cache (f : gmap string cachedResponse -> gmap string cachedResponse) (p : Provider) : Provider :=
  mkProvider (config p) (f (getCache p)) (getCooldown p).
Definition with_cooldown (f : gmap string Z -> gmap string Z) (p : Provider) : Provider :=
  mkProvider (config p) (getCache p) (f (getCooldown p)).

Definition cachedGet (url : string) : Tracked Provider (option string) := fun p =>
  match getCache p !! url with
  | None => mret (p, inl None)
  | Some cached =>
    now ← time_Now;
    if cr_expiresAt cached <? now then mret (with_cache (delete url) p, inl None)
    else mret (p, inl (Some (cr_body cached)))
  end.

Definition cacheGet (url body : string) : Tracked Provider unit := fun p =>
  now ← time_Now;
  mret (with_cooldown (delete url) (with_cache <[url := mkCached body (now + getCacheTTL)]> p), inl tt).

Definition cooldownUntil (url : string) : Tracked Provider (option Z) := fun p =>
  match getCooldown p !! url with
  | None => mret (p, inl None)
  | Some until =>
    now ← time_Now;
    if until <? now then mret (with_cooldown (delete url) p, inl None) else mret (p, inl (Some until))
  end.

Definition setCooldown (url : string) (ttl : Z) : Tracked Provider unit := fun p =>
  now ← time_Now;
  mret (with_cooldown <[url := now + ttl]> p, inl tt).

(** ** Requests *)
Definition failed_with (code : Z) : error := ENew ("chain provider request failed with " +:+ FormatInt code).

(** The answer to a request that was sent. *)
Definition received (url : string) (res : Response) : Tracked Provider string :=
  raw ← call (attempt (read_body res));
  match raw with
  | inr e => _ ← setCooldown url transientFailureCooldown; stop e
  | inl raw =>
    if success_code (rs_StatusCode res) then _ ← cacheGet url raw; mret raw
    else
      _ ← (if rs_StatusCode res =? StatusTooManyRequests then setCooldown url rateLimitCooldown
           else if 500 <=? rs_StatusCode res then setCooldown url transientFailureCooldown
           else mret tt);
      stop (failed_with (rs_StatusCode res))
  end.

Definition getRaw (url : string) : Tracked Provider string :=
  cached ← cachedGet url;
  match cached with
  | Some body => mret body
  | None =>
    until ← cooldownUntil url;
    match until with
    | Some until => stop (ENew ("chain provider request skipped during cooldown until " +:+ Format_RFC3339 until))
    | None =>
      req ← call (NewRequest MethodGet url [] "");
      res ← call (attempt (send req));
      match res with
      | inr e => _ ← setCooldown url transientFailureCooldown; stop e
      | inl res => received url res
      end
    end
  end.

(** The loop over the endpoints, with the last error. *)
Fixpoint first_answer (urls : list string) (lastErr : option error) : Tracked Provider string :=
  match urls with
  | [] => stop (default (ENew "chain provider endpoint list is empty") lastErr)
  | url :: urls =>
    raw ← try (getRaw url);
    match raw with
    | inl raw => mret raw
    | inr e => first_answer urls (Some e)
    end
  end.

Definition getRawFromURLs (urls : list string) : Tracked Provider string := first_answer urls None.

Definition decoded {A} (decode : string -> res A) (m : Tracked Provider string) : Tracked Provider A :=
  raw ← m; call (lift (wrap (decode raw) "unable to decode response")).

Definition getJSONFromURLs {A} (decode : string -> res A) (urls : list string) : Tracked Provider A :=
  decoded decode (getRawFromURLs urls).

Definition getJSON {A} (decode : string -> res A) (url : string) : Tracked Provider A := decoded decode (getRaw url).

(** [get] and [postText] neither use the cache nor the cool-downs; the text of
    the body is part of the error of a POST. *)
Definition get_ (url : string) : Go Response :=
  req ← NewRequest MethodGet url [] "";
  res ← send req;
  if success_code (rs_StatusCode res) then mret res else fail (failed_with (rs_StatusCode res)).

Definition body_or_nothing (r : Response) : string := match rs_Body r with Ok raw => raw | _ => "" end.

Definition postText (url body : string) : Go Response :=
  req ← NewRequest MethodPost url (content_type "text/plain") body;
  res ← send req;
  if success_code (rs_StatusCode res) then mret res
  else fail (ENew ("chain provider request failed with " +:+ FormatInt (rs_StatusCode res) +:+ ": " +:+
    TrimSpace (body_or_nothing res))).

(** ** What the services ask for *)
Definition UTXOAddressTransactions (blockchain address : string) (isTest mempool : bool) :
  Tracked Provider (list BitcoinTransaction) := fun p =>
  let path := "/address/" +:+ address +:+ "/txs" in
  let path := if mempool then path +:+ "/mempool" else path in
  getJSONFromURLs decode_transactions (utxoURLs p blockchain path isTest) p.

Definition BitcoinAddressTransactions (address : string) (isTest mempool : bool) : Tracked Provider (list BitcoinTransaction) :=
  UTXOAddressTransactions BTC address isTest mempool.
Definition LitecoinAddressTransactions (address : string) (isTest mempool : bool) : Tracked Provider (list BitcoinTransaction) :=
  UTXOAddressTransactions LTC address isTest mempool.

Definition UTXOAddressUTXOs (blockchain address : string) (isTest : bool) : Tracked Provider (list BitcoinUTXO) := fun p =>
  getJSONFromURLs decode_utxos (utxoURLs p blockchain ("/address/" +:+ address +:+ "/utxo") isTest) p.

Definition UTXOTransaction (blockchain txID : string) (isTest : bool) : Tracked Provider BitcoinTransaction := fun p =>
  getJSONFromURLs decode_transaction (utxoURLs p blockchain ("/tx/" +:+ txID) isTest) p.
Definition Provider_BitcoinTransaction (txID : string) (isTest : bool) : Tracked Provider BitcoinTransaction :=
  UTXOTransaction BTC txID isTest.
Definition LitecoinTransaction (txID : string) (isTest : bool) : Tracked Provider BitcoinTransaction :=
  UTXOTransaction LTC txID isTest.

Definition UTXOTipHeight (blockchain : string) (isTest : bool) : Tracked Provider Z :=
  raw ← (fun p => getRawFromURLs (utxoURLs p blockchain "/blocks/tip/height" isTest) p);
  call (lift (wrap (Sscanf_d (TrimSpace raw)) ("unable to parse " +:+ blockchain +:+ " tip height"))).
Definition BitcoinTipHeight (isTest : bool) : Tracked Provider Z := UTXOTipHeight BTC isTest.
Definition LitecoinTipHeight (isTest : bool) : Tracked Provider Z := UTXOTipHeight LTC isTest.

(** The lower of the estimates for each target. *)
Definition lower_rate (new current : option float64) : option float64 :=
  match new, current with
  | Some feeRate, Some current => Some (if f64_lt feeRate current then feeRate else current)
  | None, current => current
  | new, None => new
  end.

Fixpoint collect_estimates (urls : list string) (out : gmap string float64) (lastErr : option error) :
  Tracked Provider (gmap string float64) :=
  match urls with
  | [] => match lastErr with
      | Some e => if bool_decide (out = ∅) then stop e else mret out
      | None => mret out
      end
  | url :: urls =>
    raw ← try (getRaw url);
    match raw with
    | inr e => collect_estimates urls out (Some e)
    | inl raw =>
      match parseUTXOFeeEstimates raw with
      | Err e => collect_estimates urls out (Some e)
      | Panic s => call (panic s)
      | Ok estimates => collect_estimates urls (merge lower_rate estimates out) lastErr
      end
    end
  end.

Definition UTXOFeeEstimates (blockchain : string) (isTest : bool) : Tracked Provider (gmap string float64) := fun p =>
  collect_estimates (utxoURLs p blockchain "/fee-estimates" isTest) ∅ None p.

Definition BroadcastUTXOTransaction (p : Provider) (blockchain rawTX : string) (isTest : bool) : Go string :=
  res ← postText (utxoURL p blockchain "/tx" isTest) rawTX;
  raw ← read_body res;
  mret (TrimSpace raw).
End Provider.

(** ** Lemmas: what every call of the provider keeps *)

(** Time and the number of calls only grow. *)
Definition later (w w' : world) : Prop := clock w' = clock w /\ (ticks w <= ticks w')%nat /\ (calls w <= calls w')%nat.
#[export] Instance later_preorder : PreOrder later.
Proof. split; [done|]. intros a b c (E1 & ? & ?) (E2 & ? & ?). split; [congruence|lia]. Qed.

(** But for the entries of [url] the maps are as they were. *)
Definition apart (url : string) (p : Provider) (w : world) (p' : Provider) (w' : world) : Prop :=
  config p' = config p /\ later w w' /\
  forall u, u <> url -> getCache p' !! u = getCache p !! u /\ getCooldown p' !! u = getCooldown p !! u.
#[export] Instance apart_rel url : Rel (apart url).
Proof.
  split; [done|]. intros p w p1 w1 p2 w2 (E1 & L1 & H1) (E2 & L2 & H2). split; [congruence|]. split; [by transitivity w1|].
  intros u Hu. destruct (H1 u Hu), (H2 u Hu). split; congruence.
Qed.

Section Keeping.
Context `{HttpClient} `{Explorers}.

(** The world after the clock was read. *)
Definition tick (w : world) : world := mkWorld (db w) (clock w) (S (ticks w)) (uuids w) (drawn w) (calls w) (rates w).

Lemma apart_tick url p w p' : config p' = config p ->
  (forall u, u <> url -> getCache p' !! u = getCache p !! u /\ getCooldown p' !! u = getCooldown p !! u) ->
  apart url p w p' (tick w).
Proof. intros Hc Hu. split; [done|]. split; [|done]. split; [done|]. cbn. lia. Qed.

Lemma cachedGet_eq url p w : cachedGet url p w = match getCache p !! url with
  | None => (Ok (p, inl None), w)
  | Some c => (Ok (if cr_expiresAt c <? clock w (ticks w) then (with_cache (delete url) p, inl None)
                   else (p, inl (Some (cr_body c)))), tick w)
  end.
Proof. unfold cachedGet. destruct (getCache p !! url) as [c|]; [|done]. unfold mbind, M_bind, time_Now. by destruct (_ <? _). Qed.
Lemma cooldownUntil_eq url p w : cooldownUntil url p w = match getCooldown p !! url with
  | None => (Ok (p, inl None), w)
  | Some until => (Ok (if until <? clock w (ticks w) then (with_cooldown (delete url) p, inl None)
                       else (p, inl (Some until))), tick w)
  end.
Proof. unfold cooldownUntil. destruct (getCooldown p !! url) as [c|]; [|done]. unfold mbind, M_bind, time_Now. by destruct (_ <? _). Qed.

Lemma cachedGet_apart url : tsteps (apart url) (cachedGet url).
Proof.
  intros p w p' a w'. rewrite cachedGet_eq. destruct (getCache p !! url) as [c|]; [|intros [= <- _ <-]; apply apart_rel].
  destruct (_ <? _); intros [= <- _ <-]; apply apart_tick; try done. intros u Hu. cbn. by rewrite lookup_delete_ne.
Qed.
Lemma cacheGet_apart url body : tsteps (apart url) (cacheGet url body).
Proof.
  intros p w p' a w' [= <- _ <-]. apply apart_tick; [done|]. intros u Hu. cbn. by rewrite lookup_delete_ne, lookup_insert_ne.
Qed.
Lemma cooldownUntil_apart url : tsteps (apart url) (cooldownUntil url).
Proof.
  intros p w p' a w'. rewrite cooldownUntil_eq. destruct (getCooldown p !! url) as [c|]; [|intros [= <- _ <-]; apply apart_rel].
  destruct (_ <? _); intros [= <- _ <-]; apply apart_tick; try done. intros u Hu. cbn. by rewrite lookup_delete_ne.
Qed.
Lemma setCooldown_apart url ttl : tsteps (apart url) (setCooldown url ttl).
Proof. intros p w p' a w' [= <- _ <-]. apply apart_tick; [done|]. intros u Hu. cbn. by rewrite lookup_insert_ne. Qed.
(** The world after a call of another service. *)
Definition called (w : world) : world := mkWorld (db w) (clock w) (ticks w) (uuids w) (drawn w) (S (calls w)) (rates w).
Lemma send_eq r (p : Provider) w : call (attempt (send r)) p w = match client_Do r (calls w) with
  | Ok rs => (Ok (p, inl (inl rs)), called w) | Err e => (Ok (p, inl (inr e)), called w) | Panic s => (Panic s, called w)
  end.
Proof. unfold call, attempt, send, external, mbind, M_bind. by destruct (client_Do r (calls w)). Qed.
Lemma send_apart url r : tsteps (apart url) (call (attempt (send r))).
Proof.
  intros p w p' a w'. rewrite send_eq. assert (apart url p w p (called w)) as Hc.
  { split; [done|]. split; [|done]. split; [done|]. cbn. lia. }
  destruct (client_Do r (calls w)); [..|done]; by intros [= <- _ <-].
Qed.
Lemma NewRequest_eq m u h b (p : Provider) w : call (NewRequest m u h b) p w =
  match valid_request (mkRequest m u h b) with
  | Ok _ => (Ok (p, inl (mkRequest m u h b)), w) | Err e => (Ok (p, inr e), w) | Panic s => (Panic s, w)
  end.
Proof. unfold call, attempt, NewRequest, lift, mbind, M_bind. by destruct (valid_request _) as [[]|e|s]. Qed.
Lemma NewRequest_apart url m u h b : tsteps (apart url) (call (NewRequest m u h b)).
Proof.
  intros p w p' a w'. rewrite NewRequest_eq. destruct (valid_request _); [..|done]; intros [= <- _ <-]; apply apart_rel.
Qed.
Lemma received_apart url rs : tsteps (apart url) (received url rs).
Proof.
  unfold received. apply tsteps_bind; [tc_solve|by apply tsteps_attempt; tc_solve|]. intros [raw|e].
  - destruct (success_code _).
    + apply tsteps_bind; [tc_solve|apply cacheGet_apart|]. intros _. by apply tsteps_ret; tc_solve.
    + apply tsteps_bind; [tc_solve| |intros _; by apply tsteps_stop; tc_solve].
      destruct (_ =? _); [apply setCooldown_apart|]. destruct (500 <=? _); [apply setCooldown_apart|by apply tsteps_ret; tc_solve].
  - apply tsteps_bind; [tc_solve|apply setCooldown_apart|]. intros _. by apply tsteps_stop; tc_solve.
Qed.
Lemma getRaw_apart url : tsteps (apart url) (getRaw url).
Proof.
  unfold getRaw. apply tsteps_bind; [tc_solve|apply cachedGet_apart|]. intros [body|]; [by apply tsteps_ret; tc_solve|].
  apply tsteps_bind; [tc_solve|apply cooldownUntil_apart|]. intros [until|]; [by apply tsteps_stop; tc_solve|].
  apply tsteps_bind; [tc_solve|apply NewRequest_apart|]. intros req.
  apply tsteps_bind; [tc_solve|apply send_apart|]. intros [rs|e]; [apply received_apart|].
  apply tsteps_bind; [tc_solve|apply setCooldown_apart|]. intros _. by apply tsteps_stop; tc_solve.
Qed.

(** ** An endpoint at rest: its answer is cached or it cools down until [T] *)
Definition resting (url : string) (T : Z) (body : option string) (p : Provider) : Prop :=
  match body with
  | Some body => exists c, getCache p !! url = Some c /\ cr_body c = body /\ T <= cr_expiresAt c
  | None => getCache p !! url = None /\ exists until, getCooldown p !! url = Some until /\ T <= until
  end.

Lemma resting_apart url u T o p w p' w' : apart u p w p' w' -> u <> url -> resting url T o p -> resting url T o p'.
Proof.
  intros (_ & _ & Hu) Hne. destruct (Hu url) as [E1 E2]; [congruence|]. unfold resting. by rewrite E1, E2.
Qed.

(** No request is sent to it. *)
Lemma getRaw_resting url T o p w : resting url T o p -> clock w (ticks w) <= T ->
  exists e, getRaw url p w = (Ok (p, match o with Some body => inl body | None => inr e end), tick w).
Proof.
  unfold resting, getRaw. rewrite tbind_run. unfold mbind at 1, M_bind. rewrite cachedGet_eq. destruct o as [body|].
  - intros (c & -> & <- & Hc) Ht. rewrite (proj2 (Z.ltb_ge _ _)) by lia. by exists ErrNoRows.
  - intros (-> & until & Hu & Hle) Ht. cbn beta iota. rewrite tbind_run. unfold mbind at 1, M_bind. rewrite cooldownUntil_eq, Hu.
    rewrite (proj2 (Z.ltb_ge _ _)) by lia. by eexists.
Qed.

(** Any calls, one after the other. *)
Fixpoint run_gets (urls : list string) : Tracked Provider unit :=
  match urls with [] => mret tt | url :: urls => _ ← try (getRaw url); run_gets urls end.

(** A clock that does not go back. *)
Definition steady (w : world) : Prop := forall i j, (i <= j)%nat -> clock w i <= clock w j.

Lemma later_now w w' : steady w -> later w w' -> clock w (ticks w) <= clock w' (ticks w') /\ steady w'.
Proof. intros Hs (E & Ht & _). unfold steady in *. rewrite E. split; [by apply Hs|done]. Qed.

Lemma try_inv {A} (m : Tracked Provider A) p w p1 r w1 : try m p w = (Ok (p1, r), w1) ->
  exists x, m p w = (Ok (p1, x), w1) /\ r = inl x.
Proof. unfold try, mbind, M_bind. destruct (m p w) as [[[p' x]|e|s] w']; [|done..]. intros [= <- <- <-]. by exists x. Qed.

Lemma run_gets_cons url urls p w p2 a w2 : run_gets (url :: urls) p w = (Ok (p2, a), w2) ->
  exists p1 x w1, getRaw url p w = (Ok (p1, x), w1) /\ run_gets urls p1 w1 = (Ok (p2, a), w2).
Proof.
  cbn [run_gets]. rewrite tbind_run. unfold mbind at 1, M_bind.
  destruct (try (getRaw url) p w) as [[[p1 r]|e|s] w1] eqn:E; [|done..].
  apply try_inv in E as (x & E & ->). intros Hr. by exists p1, x, w1.
Qed.

Lemma run_gets_later urls : forall p w p2 a w2, run_gets urls p w = (Ok (p2, a), w2) -> later w w2.
Proof.
  induction urls as [|url urls IH]; intros p w p2 a w2; [by intros [= _ _ <-]|].
  intros (p1 & x & w1 & E & Hr)%run_gets_cons. apply getRaw_apart in E as (_ & Hl & _).
  transitivity w1; [done|by eapply IH].
Qed.

Lemma run_gets_resting url T o urls : forall p w p2 a w2, steady w -> resting url T o p -> clock w2 (ticks w2) <= T ->
  run_gets urls p w = (Ok (p2, a), w2) -> resting url T o p2.
Proof.
  induction urls as [|u urls IH]; intros p w p2 a w2 Hs Hr Ht; [by intros [= <- _ _]|].
  intros (p1 & x & w1 & E & Hrun)%run_gets_cons. pose proof (getRaw_apart u _ _ _ _ _ E) as Ha.
  pose proof (later_now _ _ Hs (proj1 (proj2 Ha))) as [Hle Hs1]. pose proof (run_gets_later _ _ _ _ _ _ Hrun) as Hl.
  eapply (IH p1 w1); [done| |done|done]. destruct (decide (u = url)) as [->|Hne]; [|by eapply resting_apart].
  destruct (getRaw_resting url T o p w Hr) as [e E']; [pose proof (later_now _ _ Hs1 Hl) as [? _]; lia|].
  rewrite E' in E. by injection E as <- _ _.
Qed.

(** ** How long an endpoint rests after an answer *)
Definition get_request (url : string) : Request := mkRequest MethodGet url [] "".

Definition rest (answer : res Response) : option Z :=
  match answer with
  | Ok rs =>
    match rs_Body rs with
    | Ok _ =>
      if success_code (rs_StatusCode rs) then Some getCacheTTL
      else if rs_StatusCode rs =? StatusTooManyRequests then Some rateLimitCooldown
      else if 500 <=? rs_StatusCode rs then Some transientFailureCooldown
      else None
    | Err _ => Some transientFailureCooldown
    | Panic _ => None
    end
  | Err _ => Some transientFailureCooldown
  | Panic _ => None
  end.

Definition body_of (x : string + error) : option string := match x with inl body => Some body | inr _ => None end.

Lemma setCooldown_rests url ttl e (p : Provider) w p1 (x : string + error) w1 : getCache p !! url = None ->
  (_ ← setCooldown url ttl; stop (A := string) e) p w = (Ok (p1, x), w1) ->
  resting url (clock w (pred (ticks w1)) + ttl) (body_of x) p1.
Proof.
  intros Hn [= <- <- <-]. split; [done|]. exists (clock w (ticks w) + ttl). cbn. split; [apply lookup_insert_eq|lia].
Qed.

Lemma received_rests url rs p w p1 x w1 ttl : getCache p !! url = None -> rest (Ok rs) = Some ttl ->
  received url rs p w = (Ok (p1, x), w1) -> resting url (clock w (pred (ticks w1)) + ttl) (body_of x) p1.
Proof.
  intros Hn Hr. unfold received, rest in *. rewrite tbind_run. unfold read_body, mbind at 1, M_bind, call at 1, attempt at 1, lift.
  destruct (rs_Body rs) as [raw|e|s]; [| |done]; cbn [mbind M_bind mret M_ret].
  - destruct (success_code _).
    + injection Hr as <-. intros [= <- <- <-]. exists (mkCached raw (clock w (ticks w) + getCacheTTL)).
      cbn. split; [apply lookup_insert_eq|]. split; [done|lia].
    + destruct (_ =? _); [injection Hr as <-; by apply setCooldown_rests|].
      destruct (500 <=? _); [injection Hr as <-; by apply setCooldown_rests|done].
  - injection Hr as <-. by apply setCooldown_rests.
Qed.

(** A call serves the cache, is refused without a request, or sends one. *)
Definition hit (url : string) (p : Provider) (w : world) (p1 : Provider) (x : string + error) (w1 : world) : Prop :=
  exists c, getCache p !! url = Some c /\ clock w (ticks w) <= cr_expiresAt c /\ p1 = p /\ x = inl (cr_body c) /\ w1 = tick w.

Definition refused (p1 : Provider) (url : string) (w : world) (x : string + error) (w1 : world) : Prop :=
  getCache p1 !! url = None /\ calls w1 = calls w /\ exists e, x = inr e.

Definition sent (url : string) (p : Provider) (w : world) (p1 : Provider) (x : string + error) (w1 : world) : Prop :=
  exists p2 w2, apart url p w p2 w2 /\ calls w2 = calls w /\ getCache p2 !! url = None /\
    match client_Do (get_request url) (calls w) with
    | Ok rs => received url rs p2 (called w2) = (Ok (p1, x), w1)
    | Err e => (_ ← setCooldown url transientFailureCooldown; stop e) p2 (called w2) = (Ok (p1, x), w1)
    | Panic _ => False
    end.

Lemma getRaw_inv url p w p1 x w1 : getRaw url p w = (Ok (p1, x), w1) ->
  hit url p w p1 x w1 \/ refused p1 url w x w1 \/ sent url p w p1 x w1.
Proof.
  unfold getRaw. rewrite tbind_run. unfold mbind at 1, M_bind. rewrite cachedGet_eq. intros E.
  destruct (cachedGet url p w) as [r w0] eqn:E0. rewrite cachedGet_eq in E0.
  assert ((exists c, getCache p !! url = Some c /\ clock w (ticks w) <= cr_expiresAt c) \/
    exists p0, r = Ok (p0, inl None) /\ getCache p0 !! url = None /\ calls w0 = calls w) as [(c & Hc & Hle)|(p0 & Er & Hn & Ec)].
  { destruct (getCache p !! url) as [c|] eqn:Hc; [|right; exists p; by injection E0 as <- <-].
    destruct (Z.ltb_spec (cr_expiresAt c) (clock w (ticks w))); [|left; by exists c].
    right. injection E0 as <- <-. eexists. split; [done|]. split; [apply lookup_delete_eq|done]. }
  { left. rewrite Hc, (proj2 (Z.ltb_ge _ _)) in E by lia. injection E as <- <- <-. by exists c. }
  right. rewrite E0, Er in E. subst r.
  assert (apart url p w p0 w0) as Ha0 by (eapply (cachedGet_apart url p w); by rewrite cachedGet_eq, E0).
  clear E0. rewrite tbind_run in E. unfold mbind at 1, M_bind in E. destruct (cooldownUntil url p0 w0) as [r w2] eqn:E2.
  assert (forall p2 o, r = Ok (p2, inl o) -> apart url p w p2 w2 /\ calls w2 = calls w /\ getCache p2 !! url = None) as H2.
  { intros p2 o ->. pose proof (cooldownUntil_apart _ _ _ _ _ _ E2) as Ha2. split; [by eapply rel_trans|].
    rewrite cooldownUntil_eq in E2. destruct (getCooldown p0 !! url); [|by injection E2 as <- _ <-].
    destruct (_ <? _); by injection E2 as <- _ <-. }
  rewrite cooldownUntil_eq in E2. assert (exists p2 o, r = Ok (p2, inl o)) as (p2 & o & ->).
  { destruct (getCooldown p0 !! url); [|by injection E2 as <- _; eauto]. destruct (_ <? _); injection E2 as <- _; eauto. }
  clear E2. destruct (H2 _ _ eq_refl) as (Ha & Ec2 & Hn2). destruct o as [u|]; [left; injection E as <- <- <-; split; eauto|].
  rewrite tbind_run in E. unfold mbind at 1, M_bind in E. rewrite NewRequest_eq in E. fold (get_request url) in E.
  destruct (valid_request _); [|left; injection E as <- <- <-; split; eauto|done].
  rewrite tbind_run in E. unfold mbind at 1, M_bind in E. rewrite send_eq, Ec2 in E. right. exists p2, w2.
  split_and!; try done. by destruct (client_Do (get_request url) (calls w)).
Qed.

Lemma getRaw_sent url p w p1 x w1 ttl : getRaw url p w = (Ok (p1, x), w1) -> calls w1 <> calls w ->
  rest (client_Do (get_request url) (calls w)) = Some ttl ->
  resting url (clock w (pred (ticks w1)) + ttl) (body_of x) p1.
Proof.
  intros [(c & _ & _ & _ & _ & ->)|[(_ & Hc & _)|(p2 & w2 & (_ & Hl & _) & _ & Hn & E)]]%getRaw_inv Hcalls Hrest; [done..|].
  rewrite <- (proj1 Hl). change (clock w2) with (clock (called w2)).
  destruct (client_Do (get_request url) (calls w)) as [rs|e|s]; [by eapply received_rests| |done].
  injection Hrest as <-. by eapply setCooldown_rests.
Qed.

(** ** Cached answers are answers *)
Definition answered (url body : string) (stored n : nat) (w : world) : Prop :=
  (stored < ticks w)%nat /\ (n < calls w)%nat /\ exists rs, client_Do (get_request url) n = Ok rs /\
    success_code (rs_StatusCode rs) = true /\ rs_Body rs = Ok body.

Definition genuine (p : Provider) (w : world) : Prop := forall url c, getCache p !! url = Some c ->
  exists i n, answered url (cr_body c) i n w /\ cr_expiresAt c = clock w i + getCacheTTL.

Lemma answered_later url body i n w w' : later w w' -> answered url body i n w -> answered url body i n w'.
Proof. intros (_ & Ht & Hc) (Hi & Hn & Ha). split; [lia|]. split; [lia|done]. Qed.

Lemma genuine_apart url p w p' w' : apart url p w p' w' -> genuine p w ->
  (forall c, getCache p' !! url = Some c ->
    getCache p !! url = Some c \/ exists i n, answered url (cr_body c) i n w' /\ cr_expiresAt c = clock w' i + getCacheTTL) ->
  genuine p' w'.
Proof.
  intros (_ & Hl & Hu) Hg Hurl u c Hc. assert (getCache p !! u = Some c -> exists i n, answered u (cr_body c) i n w' /\
    cr_expiresAt c = clock w' i + getCacheTTL) as Hold.
  { intros (i & n & Ha & He)%Hg. exists i, n. split; [by eapply answered_later|]. by rewrite (proj1 Hl). }
  destruct (decide (u = url)) as [->|Hne]; [|apply Hold; by rewrite <- (proj1 (Hu u Hne))].
  destruct (Hurl c Hc) as [Ho|Hn]; [by apply Hold|done].
Qed.

(** What a call answers: what was cached, and is not older than the time it
    may be, or what the endpoint has just answered. *)
Definition fresh (url body : string) (w w' : world) : Prop :=
  exists i n, answered url body i n w' /\ clock w (ticks w) <= clock w' i + getCacheTTL.

Lemma received_genuine url rs n p w p1 x w1 w0 : steady w -> client_Do (get_request url) n = Ok rs -> (n < calls w)%nat ->
  later w0 w -> genuine p w -> received url rs p w = (Ok (p1, x), w1) ->
  genuine p1 w1 /\ forall body, x = inl body -> fresh url body w0 w1.
Proof.
  intros Hs Hrs Hn Hl0 Hg E. pose proof (received_apart _ _ _ _ _ _ _ E) as Ha. revert E.
  assert (forall e ttl p' x' w', (_ ← setCooldown url ttl; stop (A := string) e) p w = (Ok (p', x'), w') ->
    apart url p w p' w' -> genuine p' w' /\ forall body, x' = inl body -> fresh url body w0 w') as Hcool.
  { intros e ttl p' x' w' [= <- <- <-] Ha'. split; [|done]. eapply genuine_apart; [exact Ha'|done|]. intros c Hc. by left. }
  unfold received. rewrite tbind_run. unfold read_body, mbind at 1, M_bind, call at 1, attempt at 1, lift.
  destruct (rs_Body rs) as [raw|e|s] eqn:Eb; [| |done]; cbn [mbind M_bind mret M_ret]; [|by intros E; apply (Hcool _ _ _ _ _ E)].
  destruct (success_code _) eqn:Es.
  - intros E. assert (answered url raw (ticks w) n w1) as Hans.
    { injection E as _ _ <-. split; [cbn; lia|]. split; [cbn; lia|]. by exists rs. }
    assert (clock w1 = clock w) as Ec by (injection E as _ _ <-; done).
    split.
    + eapply genuine_apart; [exact Ha|done|]. intros c Hc. right. exists (ticks w), n. rewrite Ec.
      injection E as <- _ _. cbn in Hc. rewrite lookup_insert_eq in Hc. by injection Hc as <-.
    + intros body Hb. assert (body = raw) as -> by (injection E as _ <- _; by injection Hb). exists (ticks w), n.
      split; [done|]. rewrite Ec, <- (proj1 Hl0). destruct Hl0 as (Ec0 & Ht & _). rewrite Ec0.
      unfold steady in Hs. rewrite Ec0 in Hs. specialize (Hs (ticks w0) (ticks w) Ht). unfold getCacheTTL, Second. lia.
  - assert (forall m : Tracked Provider unit, m p w = (Ok (p, inl tt), w) ->
      (_ ← m; stop (A := string) (failed_with (rs_StatusCode rs))) p w = (Ok (p1, x), w1) ->
      genuine p1 w1 /\ forall body, x = inl body -> fresh url body w0 w1) as Hnone.
    { intros m Em. rewrite tbind_run. unfold mbind at 1, M_bind. rewrite Em. by intros [= <- <- <-]. }
    destruct (_ =? _); [intros E; by apply (Hcool _ _ _ _ _ E)|]. destruct (500 <=? _); [intros E; by apply (Hcool _ _ _ _ _ E)|].
    by apply Hnone.
Qed.

Lemma getRaw_genuine url p w p1 x w1 : steady w -> genuine p w -> getRaw url p w = (Ok (p1, x), w1) ->
  genuine p1 w1 /\ forall body, x = inl body -> fresh url body w w1.
Proof.
  intros Hs Hg E. pose proof (getRaw_apart _ _ _ _ _ _ E) as Ha. pose proof (proj1 (proj2 Ha)) as Hl.
  apply getRaw_inv in E as [(c & Hc & Hle & -> & -> & ->)|[(Hn & Hcalls & e & ->)|(p2 & w2 & Ha2 & Ec & Hn & E)]].
  - split; [eapply genuine_apart; [exact Ha|done|]; intros c' Hc'; by left|].
    intros body [= <-]. destruct (Hg url c Hc) as (i & n & Hans & He). exists i, n.
    split; [by eapply answered_later|]. change (clock (tick w)) with (clock w). lia.
  - split; [|done]. eapply genuine_apart; [exact Ha|done|]. intros c Hc. by rewrite Hn in Hc.
  - assert (genuine p2 w2) as Hg2 by (eapply genuine_apart; [exact Ha2|done|]; intros c Hc; by rewrite Hn in Hc).
    assert (apart url p2 w2 p2 (called w2)) as Hac.
    { split; [done|]. split; [|done]. split; [done|]. cbn. lia. }
    assert (genuine p2 (called w2)) as Hgc by (eapply genuine_apart; [exact Hac|done|]; intros c Hc; by rewrite Hn in Hc).
    assert (later w (called w2)) as Hlc by (transitivity w2; [apply Ha2|apply Hac]).
    destruct (client_Do (get_request url) (calls w)) as [rs|e|s] eqn:Er; [| |done].
    + eapply (received_genuine url rs (calls w) p2 (called w2)); try done; [by apply (later_now w)|cbn; lia].
    + pose proof E as E'. injection E' as _ <- _. split; [|done].
      eapply (genuine_apart url p2 (called w2)); [|exact Hgc|].
      * eapply (tsteps_bind (apart url)); [apply setCooldown_apart|intros a; by apply tsteps_stop; tc_solve|exact E].
      * injection E as <- _. intros c Hc. cbn in Hc. by rewrite Hn in Hc.
Qed.

Lemma run_gets_genuine urls : forall p w p2 a w2, steady w -> genuine p w -> run_gets urls p w = (Ok (p2, a), w2) ->
  genuine p2 w2 /\ steady w2.
Proof.
  induction urls as [|url urls IH]; intros p w p2 a w2 Hs Hg; [by intros [= <- _ <-]|].
  intros (p1 & x & w1 & E & Hr)%run_gets_cons. pose proof (getRaw_apart _ _ _ _ _ _ E) as (_ & Hl & _).
  destruct (getRaw_genuine _ _ _ _ _ _ Hs Hg E) as [Hg1 _]. eapply IH; [by apply (later_now w)|done|done].
Qed.

(** The first endpoint that answers, or the last error. *)
Lemma first_answer_genuine urls : forall last p w p1 x w1, steady w -> genuine p w ->
  first_answer urls last p w = (Ok (p1, x), w1) ->
  genuine p1 w1 /\ forall body, x = inl body -> exists url, url ∈ urls /\ fresh url body w w1.
Proof.
  induction urls as [|url urls IH]; intros last p w p1 x w1 Hs Hg; [by intros [= <- <- <-]|].
  cbn [first_answer]. rewrite tbind_run. unfold mbind at 1, M_bind.
  destruct (try (getRaw url) p w) as [[[p2 r]|e|s] w2] eqn:E; [|done..]. apply try_inv in E as (y & E & ->).
  pose proof (getRaw_apart _ _ _ _ _ _ E) as (_ & Hl & _). destruct (getRaw_genuine _ _ _ _ _ _ Hs Hg E) as [Hg2 Hf].
  destruct y as [raw|e].
  - intros [= <- <- <-]. split; [done|]. intros body [= <-]. exists url. split; [left|by apply Hf].
  - destruct (later_now _ _ Hs Hl) as [Hle Hs2]. intros Hr. destruct (IH _ _ _ _ _ _ Hs2 Hg2 Hr) as [Hg1 Hb]. split; [done|].
    intros body Hx. destruct (Hb body Hx) as (u & Hu & i & n & Ha & Hi). exists u. split; [by right|]. exists i, n. split; [done|lia].
Qed.
End Keeping.

(** ** The endpoints *)
Lemma keep_urls_elem excluded values : forall seen u, u ∈ keep_urls excluded seen values <->
  u <> "" /\ u ∉ excluded /\ u ∉ seen /\ exists v, v ∈ values /\ u = normalizeBaseURL v "".
Proof.
  induction values as [|v values IH]; intros seen u; cbn [keep_urls].
  { split; [by intros ?%not_elem_of_nil|]. by intros (_ & _ & _ & v & ?%not_elem_of_nil & _). }
  set (b := normalizeBaseURL v ""). destruct (_ || _) eqn:Eb.
  - rewrite IH. split; [intros (? & ? & ? & v' & ? & ?); split_and!; try done; exists v'; split; [by right|done]|].
    intros (He & Hx & Hs & v' & [->|Hv]%elem_of_cons & Hu); [|split_and!; eauto].
    exfalso. apply orb_true_iff in Eb as [[Eb|Eb]%orb_true_iff|Eb]; apply bool_decide_eq_true in Eb; subst b; congruence.
  - apply orb_false_iff in Eb as [[E1 E2]%orb_false_iff E3].
    apply bool_decide_eq_false in E1, E2, E3. rewrite elem_of_cons, IH, not_elem_of_union, not_elem_of_singleton. split.
    + intros [->|(? & ? & [? ?] & v' & ? & ?)]; [split_and!; try done; exists v; split; [left|done]|].
      split_and!; try done. exists v'. split; [by right|done].
    + intros (He & Hx & Hs & v' & [->|Hv]%elem_of_cons & Hu); [by left|].
      destruct (decide (u = b)) as [->|Hne]; [by left|]. right. split_and!; eauto.
Qed.

Lemma keep_urls_NoDup excluded values : forall seen, NoDup (keep_urls excluded seen values).
Proof.
  induction values as [|v values IH]; intros seen; cbn [keep_urls]; [by apply NoDup_nil_2|].
  destruct (_ || _); [apply IH|]. apply NoDup_cons. split; [|apply IH].
  rewrite keep_urls_elem. intros (_ & _ & Hs & _). set_solver.
Qed.

Lemma drop_while_eq_head c l : head (drop_while_eq c l) <> Some c.
Proof. induction l as [|x l IH]; cbn; [done|]. destruct (Ascii.eqb_spec x c) as [->|Hne]; [done|]. by intros [= ->]. Qed.
Lemma drop_while_eq_done c l : head l <> Some c -> drop_while_eq c l = l.
Proof. destruct l as [|x l]; [done|]. cbn. destruct (Ascii.eqb_spec x c) as [->|Hne]; [done|done]. Qed.
Lemma trim_slashes_idem s : trim_slashes (trim_slashes s) = trim_slashes s.
Proof.
  unfold trim_slashes, trim_right. rewrite list_ascii_of_string_of_list_ascii, reverse_involutive.
  f_equal. f_equal. apply drop_while_eq_done, drop_while_eq_head.
Qed.
Lemma normalize_idem v d : d = "" \/ v <> "" -> normalizeBaseURL (normalizeBaseURL v d) "" = normalizeBaseURL v d.
Proof.
  intros Hd. unfold normalizeBaseURL at 1. case_bool_decide as E; [by rewrite E|]. unfold normalizeBaseURL. apply trim_slashes_idem.
Qed.

(** The endpoints of a blockchain are its primary one and its fallbacks, the
    fallbacks being distinct and other than the primary one. *)
Definition endpoints (primary : string) (configured defaults bases : list string) : Prop :=
  exists fallbacks, bases = primary :: fallbacks /\ NoDup bases /\
  forall u, u ∈ fallbacks <-> u <> "" /\ u <> primary /\ exists v, v ∈ configured ++ defaults /\ u = normalizeBaseURL v "".

Lemma normalized_endpoints primary configured defaults : primary = trim_slashes primary ->
  endpoints primary configured defaults (primary :: normalizeFallbackURLs configured defaults [primary]).
Proof.
  intros Hp. assert (normalizeBaseURL primary "" = primary) as Hn.
  { unfold normalizeBaseURL. case_bool_decide as E; [by rewrite E|done]. }
  eexists. split; [done|]. unfold normalizeFallbackURLs.
  assert (forall u, u <> "" -> u ∈ (list_to_set (List.filter (fun v => negb (bool_decide (v = "")))
    (map (fun v => normalizeBaseURL v "") [primary])) : gset string) <-> u = primary) as Hex.
  { intros u Hu. rewrite elem_of_list_to_set. cbn [map List.filter]. rewrite Hn.
    case_bool_decide as Ep; cbn [negb]; [|by rewrite list_elem_of_singleton].
    split; [by intros ?%not_elem_of_nil|congruence]. }
  assert (forall u, u ∈ keep_urls (list_to_set (List.filter (fun v => negb (bool_decide (v = "")))
    (map (fun v => normalizeBaseURL v "") [primary]))) ∅ (configured ++ defaults) <->
    u <> "" /\ u <> primary /\ exists v, v ∈ configured ++ defaults /\ u = normalizeBaseURL v "") as Hall.
  { intros u. rewrite keep_urls_elem. split.
    - intros (Hu & Hx & _ & Hv). split_and!; try done. by rewrite <- (Hex u Hu).
    - intros (Hu & Hx & Hv). split; [done|]. split; [by rewrite (Hex u Hu)|]. split; [apply not_elem_of_empty|done]. }
  split; [|exact Hall]. apply NoDup_cons. split; [by rewrite Hall; intros (_ & ? & _)|apply keep_urls_NoDup].
Qed.

Lemma primary_trimmed v d : normalizeBaseURL v d = trim_slashes (normalizeBaseURL v d).
Proof. unfold normalizeBaseURL. by rewrite trim_slashes_idem. Qed.

(** What is configured for a blockchain: its primary URL and the default of
    it, the fallbacks and the default ones. *)
Definition configured (cfg : Config) (blockchain : string) (isTest : bool) : string * string * list string * list string :=
  let btc_default value url fallback := if usesDefaultURL value url then [fallback] else [] in
  if bool_decide (blockchain = LTC) then
    if isTest then (LitecoinTestnetExplorerURL cfg, defaultLitecoinTestnetExplorerURL, LitecoinTestnetFallbackURLs cfg, [])
    else (LitecoinMainnetExplorerURL cfg, defaultLitecoinMainnetExplorerURL, LitecoinMainnetFallbackURLs cfg, [])
  else
    if isTest then (BitcoinTestnetExplorerURL cfg, defaultBitcoinTestnetExplorerURL, BitcoinTestnetFallbackURLs cfg,
      btc_default (BitcoinTestnetExplorerURL cfg) defaultBitcoinTestnetExplorerURL defaultBitcoinTestnetFallbackURL)
    else (BitcoinMainnetExplorerURL cfg, defaultBitcoinMainnetExplorerURL, BitcoinMainnetFallbackURLs cfg,
      btc_default (BitcoinMainnetExplorerURL cfg) defaultBitcoinMainnetExplorerURL defaultBitcoinMainnetFallbackURL).

(** ** Properties *)

(** The endpoints of a provider, in the order in which it asks them: for
    every configuration, blockchain and network the first is the primary URL
    (or its default) without slashes at the end, and behind it comes each
    fallback, configured or by default, once, but not the primary URL again
    and no empty one: a request is never repeated on the endpoint that has
    just failed. *)
Theorem explorer_endpoints (cfg : Config) (blockchain : string) (isTest : bool) :
  let '(value, default_, fallbacks, defaults) := configured cfg blockchain isTest in
  endpoints (normalizeBaseURL value default_) fallbacks defaults (utxo_bases (config (New cfg)) blockchain isTest).
Proof.
  unfold configured, utxo_bases, New. cbn -[normalizeBaseURL usesDefaultURL normalizeFallbackURLs].
  case_bool_decide; destruct isTest; cbn -[normalizeBaseURL usesDefaultURL normalizeFallbackURLs];
    unfold defaultFallbackURLs; rewrite ?if_negb; apply normalized_endpoints, primary_trimmed.
Qed.

(** An endpoint is left alone: when a request to [url] was answered, then
    for 5 s after a success, 60 s after status 429 and 10 s after another
    failure of the server or of the connection no request is sent to it again,
    whatever the provider is asked for in between: the answer of the first is
    served, or the call fails. A refusal with another status is not cached. *)
Theorem explorer_backoff `{HttpClient} `{Explorers} (p : Provider) (url : string) (urls : list string) (w : world)
  (ttl : Z) (Hclock : steady w) (Hrest : rest (client_Do (get_request url) (calls w)) = Some ttl) :
  let '(r, w1) := getRaw url p w in
  calls w1 <> calls w -> forall p1 x, r = Ok (p1, x) ->
  let '(r2, w2) := run_gets urls p1 w1 in
  forall p2 a, r2 = Ok (p2, a) -> clock w2 (ticks w2) <= clock w (pred (ticks w1)) + ttl ->
  exists e, getRaw url p2 w2 = (Ok (p2, match x with inl body => inl body | inr _ => inr e end), tick w2) /\
    calls (tick w2) = calls w2.
Proof.
  destruct (getRaw url p w) as [r w1] eqn:E. intros Hcalls p1 x ->.
  pose proof (getRaw_sent _ _ _ _ _ _ _ E Hcalls Hrest) as Hr.
  pose proof (getRaw_apart _ _ _ _ _ _ E) as (_ & Hl & _). destruct (later_now _ _ Hclock Hl) as [_ Hs1].
  destruct (run_gets urls p1 w1) as [r2 w2] eqn:E2. intros p2 a -> Ht.
  pose proof (run_gets_resting _ _ _ _ _ _ _ _ _ Hs1 Hr Ht E2) as Hr2.
  destruct (getRaw_resting _ _ _ _ _ Hr2 Ht) as [e He]. exists e. split; [|done]. rewrite He. by destruct x.
Qed.

(** C39. What the provider answers is what an explorer answered: after any
    calls of a new provider, the body that [getRawFromURLs] returns is the
    body of a successful response to a GET of one of the endpoints, sent in
    this call or stored at most 5 s before it. *)
Theorem explorer_answers `{HttpClient} `{Explorers} (cfg : Config) (before urls : list string) (w : world)
  (Hclock : steady w) :
  let '(r, w1) := run_gets before (New cfg) w in
  forall p1 a, r = Ok (p1, a) ->
  let '(r2, w2) := getRawFromURLs urls p1 w1 in
  forall p2 body, r2 = Ok (p2, inl body) -> exists url, url ∈ urls /\ fresh url body w1 w2.
Proof.
  destruct (run_gets before (New cfg) w) as [r w1] eqn:E. intros p1 a ->.
  assert (genuine (New cfg) w) as Hg by by intros url c.
  destruct (run_gets_genuine _ _ _ _ _ _ Hclock Hg E) as [Hg1 Hs1].
  destruct (getRawFromURLs urls p1 w1) as [r2 w2] eqn:E2. intros p2 body ->.
  by apply (first_answer_genuine urls None p1 w1 p2 (inl body) w2).
Qed.

(** ** Witnesses: an explorer that limits the first request *)
#[local] Instance busy_explorer : HttpClient := {|
  valid_request _ := Ok tt;
  client_Do r n := Ok (if (n =? 0)%nat then mkResponse 429 (Ok "slow down") else mkResponse 200 (Ok (rq_URL r)))
|}.
#[local] Instance no_decoding : Explorers := {|
  decode_transactions _ := Err (ENew "EOF"); decode_transaction _ := Err (ENew "EOF"); decode_utxos _ := Err (ENew "EOF");
  decode_estimates _ := Err (ENew "EOF"); Format_RFC3339 _ := "now"; ethclient := unit; ethclient_Dial _ _ := Ok tt
|}.
Definition no_config : Config := mkConfig "" [] "" [] "" [] "" [] "" "" "" "" "" "" 0.

Lemma empty_world_steady : steady empty_world.
Proof. intros i j _. reflexivity. Qed.

(** The provider after the first request for "a", and after others. *)
Definition limited : res (Provider * (string + error)) * world := getRaw "a" (New no_config) empty_world.
Definition limited_later : res (Provider * (unit + error)) * world :=
  match limited with (Ok (p1, _), w1) => run_gets ["b"; "a"; "b"] p1 w1 | (_, w1) => (Err ErrNoRows, w1) end.

Lemma explorer_backoff_witness :
  match limited_later with
  | (Ok (p2, _), w2) => calls w2 = 2%nat /\ exists e, getRaw "a" p2 w2 = (Ok (p2, inr e), tick w2)
  | _ => False
  end.
Proof.
  pose proof (explorer_backoff (New no_config) "a" ["b"; "a"; "b"] empty_world rateLimitCooldown empty_world_steady
    ltac:(by vm_compute)) as Hb.
  assert (match limited with (Ok (_, inr _), w1) => (calls w1 =? 1)%nat | _ => false end = true) as H1 by by vm_compute.
  assert (match limited_later with (Ok _, w2) => (calls w2 =? 2)%nat && (clock w2 (ticks w2) <=? rateLimitCooldown) | _ => false end
    = true) as H2 by by vm_compute.
  assert (clock empty_world (pred (ticks limited.2)) = 0) as H3 by by vm_compute.
  revert Hb H1 H2 H3. unfold limited_later, limited. destruct (getRaw "a" (New no_config) empty_world) as [r w1].
  destruct r as [[p1 [body|e]]|e|s]; [discriminate| |discriminate..]. intros Hb Hc%Nat.eqb_eq. revert Hb.
  destruct (run_gets ["b"; "a"; "b"] p1 w1) as [r2 w2] eqn:E2. intros Hb H2 H3. cbn [snd] in H3.
  assert (calls w1 <> calls empty_world) as Hne by (rewrite Hc; discriminate).
  specialize (Hb Hne p1 (inr e) eq_refl). rewrite E2 in Hb.
  destruct r2 as [[p2 a]|e2|s]; [|discriminate..]. apply andb_true_iff in H2 as [H2%Nat.eqb_eq Ht%Z.leb_le].
  split; [exact H2|]. destruct (Hb p2 a eq_refl) as (e' & He & _); [rewrite H3; exact Ht|]. exists e'. exact He.
Defined.

Lemma explorer_answers_witness :
  match run_gets ["b"; "a"] (New no_config) empty_world with
  | (Ok (p1, _), w1) => match getRawFromURLs ["b"; "a"] p1 w1 with
      | (Ok (_, inl body), w2) => body = "a" /\ exists url, url ∈ ["b"; "a"] /\ fresh url body w1 w2
      | _ => False end
  | _ => False
  end.
Proof.
  pose proof (explorer_answers no_config ["b"; "a"] ["b"; "a"] empty_world empty_world_steady) as Ha.
  assert (match run_gets ["b"; "a"] (New no_config) empty_world with
    | (Ok (p1, _), w1) => match getRawFromURLs ["b"; "a"] p1 w1 with
        | (Ok (_, inl body), w2) => bool_decide (body = "a") | _ => false end
    | _ => false end = true) as Hr by by vm_compute.
  revert Ha Hr. destruct (run_gets ["b"; "a"] (New no_config) empty_world) as [r w1]. intros Ha.
  destruct r as [[p1 a]|e|s]; [|discriminate..]. specialize (Ha p1 a eq_refl). revert Ha.
  destruct (getRawFromURLs ["b"; "a"] p1 w1) as [r2 w2]. intros Ha.
  destruct r2 as [[p2 [body|e]]|e|s]; [|discriminate..]. intros Hr%bool_decide_eq_true_1. split; [exact Hr|].
  exact (Ha p2 body eq_refl).
Defined.
