(* ===== verification/Trongrid.v ===== *)
(** * Trongrid: the client of the Tron API

    [internal/provider/trongrid/provider.go]: building requests, creating and
    broadcasting transactions, calling contracts, listing what an address
    received and the receipt of a transaction, which three goroutines gather.
    The HTTP client, JSON encoding and decoding and [gjson] are interfaces;
    escaping in URLs is written out. *)

From S2P Require Import Prelude GoLib Float64 KmsWallet Money Repository Queries.
From S2P Require Import Currencies Bitcoin Nodes Flow Http.

Record Config := mkConfig { MainnetBaseURL : string; TestnetBaseURL : string; APIKey : string }.
Record Provider := mkProvider { config : Config }.

Record TransactionRequest := mkTransactionRequest {
  rt_OwnerAddress : string; rt_ToAddress : string; rt_Amount : Z; rt_ExtraData : string; rt_Visible : bool
}.
Record Transaction := mkTransaction {
  tt_TxID : string; tt_RawDataHex : string; tt_RawData : string; tt_Visible : bool; tt_Signature : list string;
  tt_Error : string
}.
Record ContractCallRequest := mkContractCall {
  cc_OwnerAddress : string; cc_ContractAddress : string; cc_FunctionSelector : string; cc_Parameter : string;
  cc_FeeLimit : Z; cc_CallValue : Z; cc_IsVisible : bool
}.
Record CallResponseResult := mkCallResult { cr_Result : bool; cr_Code : string; cr_Message : string }.
Record CallResponse := mkCallResponse { cr_result : CallResponseResult; cr_Transaction : Transaction }.
Record BroadcastResponse := mkBroadcast {
  br_Result : bool; br_Code : string; br_Message : string; br_TransactionHashID : string
}.
Record TransactionReceipt := mkReceipt {
  tr_Fee : Z; tr_Hash : string; tr_Sender : string; tr_Recipient : string; tr_Confirmations : Z;
  tr_IsConfirmed : bool; tr_Success : bool
}.

Definition headerAPIKey : string := "TRON-PRO-API-KEY".
Definition confirmationBlocks : Z := 10.
Definition ErrResponse : error := ESentinel "trongrid.ErrResponse".
Definition ErrNotFound : error := ESentinel "trongrid.ErrNotFound".

Definition New (cfg : Config) : Provider :=
  let trim s := of_bytes (trim_right "/" (bytes s)) in
  mkProvider (mkConfig (trim (MainnetBaseURL cfg)) (trim (TestnetBaseURL cfg)) (APIKey cfg)).

(** The payload of a request: nothing, bytes or what is encoded as JSON. *)
Inductive Payload :=
| NoPayload
| RawPayload (body : string)
| TransactionPayload (r : TransactionRequest)
| ContractPayload (r : ContractCallRequest)
| ValuePayload (value : string).

(** [json.Marshal] of a payload, [json.Unmarshal] of the answers, and [gjson]
    on a body and a path. *)
Class TronBodies := {
  json_Marshal : Payload -> res string;
  decode_Transaction : string -> res Transaction;
  decode_CallResponse : string -> res CallResponse;
  decode_Broadcast : string -> res BroadcastResponse;
  decode_transactions : string -> res (list AccountTransaction);
  decode_trc20 : string -> res (list TRC20Transaction);
  gjson_Exists : string -> string -> bool;
  gjson_String : string -> string -> string;
  gjson_Int : string -> string -> Z
}.

(** ** Escaping: [url.PathEscape], and [url.QueryEscape] in [Values.Encode] *)
Definition hex_digit (n : Z) : ascii := ascii_of_N (Z.to_N (if n <? 10 then 48 + n else 55 + n)).
Definition percent (c : ascii) : list ascii :=
  let n := Z.of_N (N_of_ascii c) in ["%"%char; hex_digit (n / 16); hex_digit (n mod 16)].
Definition unreserved (c : ascii) : bool :=
  let n := Z.of_N (N_of_ascii c) in
  ((48 <=? n) && (n <=? 57)) || ((65 <=? n) && (n <=? 90)) || ((97 <=? n) && (n <=? 122)) ||
  existsb (Ascii.eqb c) ["-"; "_"; "."; "~"]%char.
Definition PathEscape (s : string) : string :=
  of_bytes (List.concat (map (fun c =>
    if unreserved c || existsb (Ascii.eqb c) ["$"; "&"; "+"; ":"; "="; "@"]%char then [c] else percent c) (bytes s))).
Definition QueryEscape (s : string) : string :=
  of_bytes (List.concat (map (fun c =>
    if unreserved c then [c] else if Ascii.eqb c " " then ["+"%char] else percent c) (bytes s))).

(** The bodies the goroutines of [GetTransactionReceipt] share. *)
Record bodies := mkBodies { b_tx : string; b_info : string; b_latestBlock : string }.
Inductive part := TxPart | InfoPart | BlockPart.
#[export] Instance part_eq_dec : EqDecision part.
Proof. solve_decision. Defined.
Definition set_part (x : part) (body : string) (s : bodies) : bodies :=
  match x with
  | TxPart => mkBodies body (b_info s) (b_latestBlock s)
  | InfoPart => mkBodies (b_tx s) body (b_latestBlock s)
  | BlockPart => mkBodies (b_tx s) (b_info s) body
  end.
Definition get_part (x : part) (s : bodies) : string :=
  match x with TxPart => b_tx s | InfoPart => b_info s | BlockPart => b_latestBlock s end.

Definition uint64 (z : Z) : Z := z mod 2 ^ 64.

Section Provider.
Context `{HttpClient} `{TronBodies} `{Nodes} `{UTXOProviders} `{Scheduler}.
Context (p : Provider).

Definition newRequest (method path : string) (payload : Payload) (isTest : bool) : res Request :=
  body ← match payload with
    | NoPayload => Ok ""
    | RawPayload raw => Ok raw
    | _ => wrap (json_Marshal payload) "unable to marshal payload"
    end;
  let url := (if isTest then TestnetBaseURL (config p) else MainnetBaseURL (config p)) +:+ path in
  let key := if isTest then [] else [(headerAPIKey, APIKey (config p))] in
  let content := match payload with NoPayload => [] | _ => [("content-type", "application/json")] end in
  let req := mkRequest method url (key ++ content) body in
  _ ← wrap (valid_request req) "unable to create request";
  Ok req.

(** Sending a request and reading the whole answer. *)
Definition exchange (method path : string) (payload : Payload) (isTest : bool) : Go (Z * string) :=
  req ← wrapM (lift (newRequest method path payload isTest)) "unable to create request";
  res ← wrapM (send req) "response error";
  body ← wrapM (read_body res) "unable to read response";
  mret (rs_StatusCode res, body).

Definition response_code (code : Z) : error := EWrap ErrResponse ("got " +:+ FormatInt code +:+ " response code").

(** The body of an answer with status 200, decoded. *)
Definition post {A} (path : string) (payload : Payload) (isTest : bool) (decode : string -> res A) : Go A :=
  '(code, body) ← exchange MethodPost path payload isTest;
  if negb (code =? 200) then fail (response_code code) else lift (wrap (decode body) "unmarshal error").

Definition CreateTransaction (payload : TransactionRequest) (isTest : bool) : Go Transaction :=
  post "/wallet/createtransaction" (TransactionPayload payload) isTest decode_Transaction.

Definition CallContract (payload : ContractCallRequest) (isTest : bool) : Go Transaction :=
  callRes ← post "/wallet/triggersmartcontract" (ContractPayload payload) isTest decode_CallResponse;
  let result := cr_result callRes in
  if negb (cr_Result result) then fail (EWrap ErrResponse (cr_Code result +:+ ": " +:+ cr_Message result))
  else mret (cr_Transaction callRes).

Definition BroadcastTransaction (rawTX : string) (isTest : bool) : Go string :=
  broadcastRes ← post "/wallet/broadcasttransaction" (RawPayload rawTX) isTest decode_Broadcast;
  if negb (br_Result broadcastRes) then
    fail (EWrap ErrResponse (br_Code broadcastRes +:+ ": " +:+ br_Message broadcastRes))
  else mret (br_TransactionHashID broadcastRes).

Definition getJSON {A} (path : string) (isTest : bool) (decode : string -> res A) : Go A :=
  '(code, body) ← exchange MethodGet path NoPayload isTest;
  if (code <? 200) || (300 <=? code) then fail (response_code code) else lift (wrap (decode body) "unmarshal error").

Definition ListIncomingTransactions (address : string) (isTest : bool) : Go (list AccountTransaction) :=
  getJSON ("/v1/accounts/" +:+ PathEscape address +:+ "/transactions?only_to=true&limit=50") isTest decode_transactions.

(** [Values.Encode] sorts by key. *)
Definition ListIncomingTRC20Transactions (address contractAddress : string) (isTest : bool) : Go (list TRC20Transaction) :=
  let query := "contract_address=" +:+ QueryEscape contractAddress +:+ "&limit=50&only_to=true" in
  getJSON ("/v1/accounts/" +:+ PathEscape address +:+ "/transactions/trc20?" +:+ query) isTest decode_trc20.

(** ** The receipt of a transaction. The status of these answers is only logged. *)
Definition getTransactionInfoByID (txID : string) (isTest : bool) : Go string :=
  '(_, body) ← exchange MethodPost "/wallet/gettransactioninfobyid" (ValuePayload txID) isTest; mret body.
Definition getTransactionByID (txID : string) (isTest : bool) : Go string :=
  '(_, body) ← exchange MethodPost "/wallet/gettransactionbyid" (ValuePayload txID) isTest; mret body.
Definition getLatestBlock (isTest : bool) : Go string :=
  '(_, body) ← exchange MethodGet "/walletsolidity/getnowblock" NoPayload isTest; mret body.

Definition hasData (res : string) : bool := gjson_Exists res "id" || gjson_Exists res "txID".

Definition fetch_part (txID : string) (isTest : bool) (x : part) : Go string :=
  match x with
  | TxPart =>
    res ← wrapM (getTransactionByID txID isTest) "unable to get transaction info";
    if negb (hasData res) then fail ErrNotFound else mret res
  | InfoPart =>
    res ← wrapM (getTransactionInfoByID txID isTest) "unable to get transaction info";
    if negb (hasData res) then fail ErrNotFound else mret res
  | BlockPart => wrapM (getLatestBlock isTest) "unable to get latest block"
  end.

Definition gather (txID : string) (isTest : bool) (x : part) (s : bodies) : Go (bodies * option error) :=
  r ← attempt (fetch_part txID isTest x);
  mret (match r with inl body => (set_part x body s, None) | inr e => (s, Some e) end).

Definition base58_or_empty (hex : string) : string := if bool_decide (hex = "") then "" else TronHexToBase58 hex.

Definition receipt_of (txID : string) (s : bodies) : TransactionReceipt :=
  let value name := gjson_String (b_tx s) ("raw_data.contract.0.parameter.value." +:+ name) in
  let sender := base58_or_empty (value "owner_address") in
  let recipient := if bool_decide (value "to_address" = "") then value "contract_address" else value "to_address" in
  let confirmations := (gjson_Int (b_latestBlock s) "block_header.raw_data.number" - gjson_Int (b_info s) "blockNumber")%i64 in
  mkReceipt (uint64 (gjson_Int (b_info s) "fee")) txID sender (base58_or_empty recipient) confirmations
    (confirmationBlocks <=? confirmations) (bool_decide (gjson_String (b_tx s) "ret.0.contractRet" = "SUCCESS")).

Definition GetTransactionReceipt (txID : string) (isTest : bool) : Go TransactionReceipt :=
  '(s, err) ← group_state (gather txID isTest) [TxPart; InfoPart; BlockPart] (mkBodies "" "" "");
  match err with Some e => fail e | None => mret (receipt_of txID s) end.
End Provider.

(** ** Lemmas: the three goroutines *)
Section Receipt.
Context `{HttpClient} `{TronBodies} `{Nodes} `{UTXOProviders} `{Scheduler} `{!SchedulerLaws}.
Context (p : Provider) (txID : string) (isTest : bool).

(** The request a goroutine sends. *)
Definition part_request (x : part) : res Request :=
  match x with
  | TxPart => newRequest p MethodPost "/wallet/gettransactionbyid" (ValuePayload txID) isTest
  | InfoPart => newRequest p MethodPost "/wallet/gettransactioninfobyid" (ValuePayload txID) isTest
  | BlockPart => newRequest p MethodGet "/walletsolidity/getnowblock" NoPayload isTest
  end.

(** The body of an answer to it, given by a call between two states. *)
Definition answered (w w' : world) (x : part) (body : string) : Prop := exists req n rs,
  (calls w <= n < calls w')%nat /\ part_request x = Ok req /\ client_Do req n = Ok rs /\ rs_Body rs = Ok body /\
  (x <> BlockPart -> hasData body = true).

Lemma wp_exchange method path payload w : wp (exchange p method path payload isTest) w (fun r w' =>
  db w' = db w /\ (calls w <= calls w')%nat /\ forall code body, r = Ok (code, body) ->
    calls w' = S (calls w) /\ exists req rs, newRequest p method path payload isTest = Ok req /\
      client_Do req (calls w) = Ok rs /\ rs_Body rs = Ok body).
Proof.
  unfold exchange. do 3 wp_step. destruct (newRequest p method path payload isTest) as [req|e|s]; cbn [wrap]; [|by split_and!..].
  do 2 wp_step. unfold send, external, wp at 1. cbn [fst snd]. destruct (client_Do req (calls w)) as [rs|e|s] eqn:Er; cbn [wrap].
  2, 3: split; [done|split; [cbn; lia|done]].
  do 2 wp_step. unfold read_body. wp_step. destruct (rs_Body rs) as [body|e|s] eqn:Eb; cbn [wrap].
  2, 3: split; [done|split; [cbn; lia|done]].
  wp_step. split; [done|]. split; [cbn; lia|]. intros ? ? [= <- <-]. split; [done|]. by exists req, rs.
Qed.

Lemma wp_fetch x w : wp (fetch_part p txID isTest x) w (fun r w' => db w' = db w /\ (calls w <= calls w')%nat /\
  forall body, r = Ok body -> calls w' = S (calls w) /\ answered w w' x body).
Proof.
  destruct x; unfold fetch_part, getTransactionByID, getTransactionInfoByID, getLatestBlock; repeat wp_step;
    (eapply wp_mono; [apply wp_exchange|]); intros [[code body]|e|s] w1 (Ed & Hc & Hb); cbn [wrap]; try by split_and!.
  all: destruct (Hb _ _ eq_refl) as (En & req & rs & Hreq & Hdo & Hbody).
  all: wp_step; cbn [wrap].
  1, 2: destruct (hasData body) eqn:Eh; cbn [negb]; wp_step; [|by split_and!].
  all: split; [done|]; split; [done|]; intros ? [= <-]; split; [done|]; exists req, (calls w), rs; split_and!; try done; lia.
Qed.

Lemma answered_within w1 w2 w w' x body : (calls w <= calls w1)%nat -> (calls w2 <= calls w')%nat ->
  answered w1 w2 x body -> answered w w' x body.
Proof. intros H1' H2' (req & n & rs & Hn & Hr). exists req, n, rs. split; [lia|done]. Qed.

Lemma get_set x y body s : get_part x (set_part y body s) = if decide (x = y) then body else get_part x s.
Proof. by destruct x, y. Qed.

(** What the goroutines leave when none has failed, or whose error it is. *)
Definition gathered (l : list part) (w w' : world) (s s' : bodies) (err : option error) : Prop :=
  match err with
  | None => calls w' = (length l + calls w)%nat /\ (forall x, x ∈ l -> answered w w' x (get_part x s')) /\
      (forall x, x ∉ l -> get_part x s' = get_part x s)
  | Some e => exists x w0, x ∈ l /\ (calls w <= calls w0)%nat /\ (fetch_part p txID isTest x w0).1 = Err e
  end.

Lemma wp_parts l : NoDup l -> forall s first w, wp (run_group (gather p txID isTest) l s first) w (fun r w' =>
  db w' = db w /\ (calls w <= calls w')%nat /\ (forall e, r <> Err e) /\ forall s' err, r = Ok (s', err) ->
    match first with Some _ => err = first | None => gathered l w w' s s' err end).
Proof.
  induction 1 as [|x l Hx Hl IH]; intros s first w; cbn [run_group].
  { wp_step. split; [done|]. split; [done|]. split; [done|]. intros s' err [= <- <-]. destruct first; [done|].
    split; [done|]. split; [by intros x ?%not_elem_of_nil|done]. }
  wp_step. unfold gather at 1. do 2 wp_step. pose proof (wp_fetch x w) as Hf. unfold wp in Hf |- *.
  destruct (fetch_part p txID isTest x w) as [r w1] eqn:Er. cbn [fst snd] in Hf. destruct Hf as (Ed & Hc & Hb).
  destruct r as [body|e|why]; cbn [fst snd mret M_ret]; [..|by split_and!].
  - destruct (Hb body eq_refl) as [Hn Ha].
    assert ((match first with None => None | Some _ => first end) = first) as -> by by destruct first.
    destruct (IH (set_part x body s) first w1) as (Ed' & Hc' & He' & Hr).
    destruct (run_group _ l _ first w1) as [r w2]. cbn [fst snd] in *.
    split; [congruence|]. split; [lia|]. split; [done|]. intros s' err E. specialize (Hr s' err E). destruct first; [done|].
    destruct err as [e|]; [destruct Hr as (y & w0 & Hy & ? & ?); exists y, w0; split; [by right|split; [lia|done]]|].
    destruct Hr as (Hn' & Hin & Hout). split; [cbn; lia|]. split.
    + intros y [->|Hy]%elem_of_cons; [|eapply answered_within; [exact Hc|reflexivity|by apply Hin]].
      rewrite (Hout x Hx), get_set, decide_True by done. by eapply answered_within; [| |exact Ha].
    + intros y [Hne Hy]%not_elem_of_cons. by rewrite (Hout y Hy), get_set, decide_False.
  - destruct (IH s (match first with None => Some e | Some _ => first end) w1) as (Ed' & Hc' & He' & Hr).
    destruct (run_group _ l _ _ w1) as [r w2]. cbn [fst snd] in *.
    split; [congruence|]. split; [lia|]. split; [done|]. intros s' err E. specialize (Hr s' err E). destruct first as [e0|]; [done|].
    rewrite Hr. exists x, w. split; [left|]. split; [done|]. by rewrite Er.
Qed.
End Receipt.

(** ** Properties *)

(** The receipt of a Tron transaction, in whatever order the goroutines
    run: [GetTransactionReceipt] sends the three requests, each once, and when
    it succeeds the receipt is the one of the three bodies that answered them -
    those of the transaction with data -, so that its confirmations are those
    of the latest block it was told of; when it fails, the error is that of
    one of the goroutines. Nothing of the database changes. *)
Theorem tron_receipt `{HttpClient} `{TronBodies} `{Nodes} `{UTXOProviders} `{Scheduler} `{!SchedulerLaws}
  (p : Provider) (txID : string) (isTest : bool) (w : world) :
  let '(r, w') := GetTransactionReceipt p txID isTest w in
  db w' = db w /\
  (forall receipt, r = Ok receipt -> calls w' = (4 + calls w)%nat /\
     exists s, receipt = receipt_of txID s /\ forall x, answered p txID isTest w w' x (get_part x s)) /\
  (forall e, r = Err e -> exists x w0, (calls w <= calls w0)%nat /\ (fetch_part p txID isTest x w0).1 = Err e).
Proof.
  enough (wp (GetTransactionReceipt p txID isTest) w (fun r w' => db w' = db w /\
    (forall receipt, r = Ok receipt -> calls w' = (4 + calls w)%nat /\
       exists s, receipt = receipt_of txID s /\ forall x, answered p txID isTest w w' x (get_part x s)) /\
    (forall e, r = Err e -> exists x w0, (calls w <= calls w0)%nat /\ (fetch_part p txID isTest x w0).1 = Err e))) as Hwp.
  { unfold wp in Hwp. by destruct (GetTransactionReceipt p txID isTest w). }
  unfold GetTransactionReceipt, group_state. do 2 wp_step. unfold external, wp at 1. cbn [fst snd].
  set (parts := [TxPart; InfoPart; BlockPart]). pose proof (schedule_perm (calls w) part parts) as Hperm.
  set (order := schedule _ _ _) in *. clearbody order. set (w1 := mkWorld _ _ _ _ _ _ _).
  assert (NoDup order) as Hnd by (rewrite Hperm; by apply (bool_decide_unpack _)).
  eapply wp_mono; [by apply (wp_parts p txID isTest order)|]. intros [[s [e|]]|e|why] w2 (Ed & Hc & Hne & Hr).
  3: by destruct (Hne e).
  3: by split_and!.
  - wp_step. split; [done|]. split; [done|]. intros ? [= <-].
    destruct (Hr s (Some e) eq_refl) as (x & w0 & _ & Hle & He). exists x, w0. split; [cbn in Hle; lia|done].
  - wp_step. split; [done|]. split; [|done]. intros ? [= <-]. destruct (Hr s None eq_refl) as (Hn & Ha & _).
    split; [rewrite Hn, Hperm; cbn; lia|]. exists s. split; [done|]. intros x.
    eapply (answered_within p txID isTest w1 w2); [cbn; lia|done|]. apply Ha. rewrite Hperm.
    destruct x; unfold parts; set_solver.
Qed.

(** ** Witness: a transaction of block 105 when the chain is at block 120 *)
#[local] Instance tron_node : HttpClient := {|
  valid_request _ := Ok tt; client_Do r n := Ok (mkResponse 200 (Ok (rq_URL r))) |}.
#[local] Instance tron_bodies : TronBodies := {|
  json_Marshal _ := Ok "{}"; decode_Transaction _ := Err (ENew "EOF"); decode_CallResponse _ := Err (ENew "EOF");
  decode_Broadcast _ := Err (ENew "EOF"); decode_transactions _ := Ok []; decode_trc20 _ := Ok [];
  gjson_Exists _ _ := true;
  gjson_String _ path := if bool_decide (path = "ret.0.contractRet") then "SUCCESS" else "";
  gjson_Int _ path := if bool_decide (path = "blockNumber") then 105 else if bool_decide (path = "fee") then 345000 else 120
|}.
#[local] Instance last_first : Scheduler := fun _ _ l => rev l.
#[local] Instance last_first_laws : SchedulerLaws.
Proof. intros n A l. symmetry. apply Permutation_rev. Qed.
#[local] Existing Instances ex_nodes ex_providers.

Definition shasta : Provider := New (mkConfig "https://api.trongrid.io/" "https://api.shasta.trongrid.io" "key").

Lemma tron_receipt_witness :
  match GetTransactionReceipt shasta "ab" true empty_world with
  | (Ok receipt, w') => calls w' = 4%nat /\ tr_Confirmations receipt = 15 /\ tr_IsConfirmed receipt = true
  | _ => False
  end.
Proof.
  pose proof (tron_receipt shasta "ab" true empty_world) as Hp.
  assert (match (GetTransactionReceipt shasta "ab" true empty_world).1 with
    | Ok receipt => (tr_Confirmations receipt =? 15) && tr_IsConfirmed receipt | _ => false end = true) as Hr by by vm_compute.
  revert Hp Hr. destruct (GetTransactionReceipt shasta "ab" true empty_world) as [r w']. intros (_ & Hp & _).
  destruct r as [receipt|e|s]; [|discriminate..]. intros [Hr Hc]%andb_true_iff. destruct (Hp receipt eq_refl) as [Hn _].
  split; [exact Hn|]. split; [by apply Z.eqb_eq|exact Hc].
Defined.
