(* ===== verification/Vault.v ===== *)
(** * Vault: the wallets of the key management service

    [internal/kms/wallet]: the wallet of [wallet.go], the repository of
    [repository.go] on a bbolt bucket, the providers' [Generate] ([bitcoin.go],
    [ethereum.go], [tron.go]), the generator of [generator.go] and the part of
    [service.go] that creates, reads and deletes wallets. The vault is threaded
    by [Tracked] (see [Flow]); the key derivation, JSON and the file under the
    bucket are interfaces. *)

From S2P Require Import Prelude GoLib Sha256 KmsWallet Money Repository Queries Currencies Bitcoin Nodes Flow.
From S2P Require Import Payment.

Record Wallet := mkWallet {
  UUID : string; Address : string; PublicKey : string; PrivateKey : string; CreatedAt : Z; DeletedAt : option Z;
  Blockchain : string
}.

(** [&Wallet{}]: the zero values, [time.Time{}] being the first of January of
    the year 1. *)
Definition zero_time : Z := -62135596800 * 1000000000.
Definition empty_wallet : Wallet := mkWallet uuid_Nil "" "" "" zero_time None "".

#[export] Instance kms_wallet_eq_dec : EqDecision Wallet.
Proof. solve_decision. Defined.

Definition ErrNotFound : error := ESentinel "kmswallet.ErrNotFound".

(** [json.Marshal] and [json.Unmarshal] of a wallet. *)
Class WalletJson := {
  json_Marshal : Wallet -> res string;
  json_Unmarshal : string -> option Wallet
}.
Class WalletJsonLaws `{WalletJson} : Prop :=
  json_roundtrip w raw : json_Marshal w = Ok raw -> raw <> "" /\ json_Unmarshal raw = Some w.

(** The file of bbolt: starting a transaction and committing one may fail; a
    transaction that does not commit changes nothing. *)
Class Bolt := { bolt_Begin : bool -> nat -> res unit; bolt_Commit : nat -> res unit }.

(** The random source, [hdwallet] and [btcutil]. *)
Class HdWallets := {
  io_ReadFull : Z -> nat -> res (list Z);
  HDWallet : Type;
  MasterKey : list Z -> HDWallet;
  hd_Pub : HDWallet -> HDWallet;
  hd_Key : HDWallet -> list Z;
  hd_String : HDWallet -> string;
  Hash160 : list Z -> list Z;
  NewAddressWitnessPubKeyHash : list Z -> string -> res DecodedAddress
}.
(** An address made for a network decodes to itself on it. *)
Class HdWalletLaws `{Btcutil} `{HdWallets} : Prop :=
  witness_address_decodes hash network a : NewAddressWitnessPubKeyHash hash network = Ok a ->
    DecodeAddress (EncodeAddress a) network = Some a /\ IsForNet a = true /\ is_witness_pubkey_hash a = true.

(** [ecdsa.GenerateKey] and go-ethereum's encodings of a key. *)
Class EcdsaKeys := {
  EcdsaKey : Type;
  ecdsa_GenerateKey : nat -> res EcdsaKey;
  FromECDSA : EcdsaKey -> list Z;
  FromECDSAPub : EcdsaKey -> list Z;
  PubkeyToAddress : EcdsaKey -> list Z;
  address_Hex : list Z -> string;
  hexutil_Encode : list Z -> string
}.
(** An address prints as 0x and forty digits. *)
Class EcdsaLaws `{EcdsaKeys} : Prop := address_Hex_format a : validateEthereumAddress (address_Hex a) = true.
(** Twenty-five bytes that start with 41 read as T and thirty-three letters or
    digits, in base 58. *)
Class Base58Laws `{Nodes} : Prop :=
  base58_tron l : length l = 24%nat -> validateTronAddress (base58_Encode (65 :: l)) = true.

(** [s[n:]] *)
Definition slice_from (n : nat) (s : string) : res string :=
  if (length (bytes s) <? n)%nat then Panic "slice bounds out of range" else Ok (of_bytes (drop n (bytes s))).

(** ** generator.go *)
Inductive Provider :=
| BitcoinProvider (blockchain : string)
| EthProvider (blockchain : string)
| TronProvider (blockchain : string).

Definition bitcoin_blockchain (bc : string) : string := if bool_decide (bc = "") then BTC else bc.

Definition GetBlockchain (p : Provider) : string :=
  match p with
  | BitcoinProvider bc => bitcoin_blockchain bc
  | EthProvider bc => bc
  | TronProvider bc => bc
  end.

Abbreviation Generator := (gmap string Provider).
Definition NewGenerator : Generator := ∅.
Definition AddProvider (provider : Provider) (g : Generator) : Generator := <[GetBlockchain provider := provider]> g.

(** The providers of [kms/app.go]. *)
Definition walletGenerator : Generator :=
  foldl (fun g p => AddProvider p g) NewGenerator
    [EthProvider ETH; EthProvider MATIC; EthProvider BSC; BitcoinProvider BTC; BitcoinProvider LTC; TronProvider TRON].

(** The bucket of the wallets, when it exists. *)
Definition Vault : Type := option (gmap string string).

(** [LoadBuckets] of [db/connection/bolt]: creates the bucket unless it exists. *)
Definition LoadBuckets (v : Vault) : Vault := Some (default ∅ v).

Section Generate.
Context `{Btcutil} `{Nodes} `{HdWallets} `{EcdsaKeys}.

Definition nativeSegWitAddressForBlockchain (blockchain : string) (publicKey : HDWallet) (isTest : bool) : res string :=
  address ← NewAddressWitnessPubKeyHash (Hash160 (hd_Key publicKey)) (utxoNetwork blockchain isTest);
  Ok (EncodeAddress address).

Definition generate_bitcoin (bc : string) : Go Wallet :=
  seed ← attempt (external (io_ReadFull 256));
  match seed with
  | inr _ => mret empty_wallet
  | inl seed =>
    let privateKey := MasterKey seed in
    let publicKey := hd_Pub privateKey in
    address ← attempt (lift (nativeSegWitAddressForBlockchain (bitcoin_blockchain bc) publicKey false));
    match address with
    | inr _ => mret empty_wallet
    | inl address =>
      uuid ← uuid_New;
      now ← time_Now;
      mret (mkWallet uuid address (hd_String publicKey) (hd_String privateKey) now None bc)
    end
  end.

(** [EthProvider.Generate] and [TronProvider.Generate] differ in the address. *)
Definition generate_ecdsa (bc : string) (address_of : EcdsaKey -> res string) : Go Wallet :=
  key ← attempt (external ecdsa_GenerateKey);
  match key with
  | inr _ => mret empty_wallet
  | inl key =>
    let privateKey := hexutil_Encode (FromECDSA key) in
    let publicKey := hexutil_Encode (FromECDSAPub key) in
    address ← lift (address_of key);
    uuid ← uuid_New;
    now ← time_Now;
    mret (mkWallet uuid address publicKey privateKey now None bc)
  end.

Definition eth_address (key : EcdsaKey) : res string := Ok (address_Hex (PubkeyToAddress key)).
Definition tron_address (key : EcdsaKey) : res string :=
  digits ← slice_from 2 (address_Hex (PubkeyToAddress key));
  Ok (TronHexToBase58 ("41" +:+ digits)).

Definition Generate (p : Provider) : Go Wallet :=
  match p with
  | BitcoinProvider bc => generate_bitcoin bc
  | EthProvider bc => generate_ecdsa bc eth_address
  | TronProvider bc => generate_ecdsa bc tron_address
  end.

Definition generator_CreateWallet (g : Generator) (blockchain : string) : Go Wallet :=
  if negb (IsValid blockchain) then fail ErrUnknownBlockchain
  else match g !! blockchain with
  | None => fail (EWrap ErrUnknownBlockchain "provider not found")
  | Some selectedProvider => Generate selectedProvider
  end.
End Generate.

(** ** repository.go *)
Section Repository.
Context `{WalletJson} `{Bolt}.

Definition mustResolveBucket (v : Vault) : Go (gmap string string) :=
  match v with
  | Some bucket => mret bucket
  | None => panic "unable to resolve bucket wallets"
  end.

(** The wallet under a key: an empty value, or one that does not decode, is not found. *)
Definition stored (bucket : gmap string string) (id : string) : option Wallet :=
  rawValue ← bucket !! id;
  if bool_decide (rawValue = "") then None else json_Unmarshal rawValue.

(** The result is a pointer: [None] is [nil]. *)
Definition Get (id : string) (withTrashed : bool) : Tracked Vault (option Wallet) := fun v =>
  begun ← attempt (external (bolt_Begin false));
  match begun with
  | inr _ => mret (v, inr ErrNotFound)
  | inl _ =>
    bucket ← mustResolveBucket v;
    mret (v, match stored bucket id with
      | None => inr ErrNotFound
      | Some w => if bool_decide (DeletedAt w <> None) && negb withTrashed then inl None else inl (Some w)
      end)
  end.

Definition Set_ (w : Wallet) : Tracked Vault unit := fun v =>
  begun ← attempt (external (bolt_Begin true));
  match begun with
  | inr e => mret (v, inr e)
  | inl _ =>
    match json_Marshal w with
    | Err e => mret (v, inr e)
    | Panic why => panic why
    | Ok rawValue =>
      bucket ← mustResolveBucket v;
      committed ← attempt (external bolt_Commit);
      match committed with
      | inr e => mret (v, inr e)
      | inl _ => mret (Some (<[UUID w := rawValue]> bucket), inl tt)
      end
    end
  end.

Definition trashed (now : Z) (w : Wallet) : Wallet :=
  mkWallet (UUID w) (Address w) (PublicKey w) (PrivateKey w) (CreatedAt w) (Some now) (Blockchain w).

(** [w.DeletedAt] of a [nil] pointer panics. *)
Definition SoftDelete (w : option Wallet) : Tracked Vault unit :=
  match w with
  | None => call (panic "invalid memory address or nil pointer dereference")
  | Some w =>
    match DeletedAt w with
    | Some _ => Set_ w
    | None => now ← call time_Now; Set_ (trashed now w)
    end
  end.
End Repository.

(** ** service.go *)
Section Service.
Context `{Btcutil} `{Nodes} `{HdWallets} `{EcdsaKeys} `{WalletJson} `{Bolt}.
Context (g : Generator).

Definition CreateWallet (blockchain : string) : Tracked Vault Wallet :=
  wallet ← call (generator_CreateWallet g blockchain);
  persisted ← try (Set_ wallet);
  match persisted with
  | inr err => stop (EWrap err "unable to persist wallet")
  | inl _ => mret wallet
  end.

Definition GetWallet (id : string) (withTrashed : bool) : Tracked Vault (option Wallet) := Get id withTrashed.

Definition DeleteWallet (id : string) : Tracked Vault unit :=
  wallet ← GetWallet id false;
  SoftDelete wallet.
End Service.

(** ** Lemmas: the wallets that are generated *)


Definition provider_ok (p : Provider) : bool :=
  match p with
  | BitcoinProvider bc => isUTXOBlockchain bc
  | EthProvider bc => one_of bc [ETH; MATIC; BSC]
  | TronProvider bc => bool_decide (bc = TRON)
  end.

Definition generator_ok (g : Generator) : Prop := map_Forall (fun bc p => GetBlockchain p = bc /\ provider_ok p = true) g.

Lemma walletGenerator_ok : generator_ok walletGenerator.
Proof. apply (bool_decide_unpack _). vm_compute. exact I. Qed.

Lemma hex_char_value c : hex_char c = true -> exists z, hex_value c = Some z.
Proof.
  unfold hex_char, in_range, code, hex_value. change (Z.of_N (N_of_ascii "0")) with 48. change (Z.of_N (N_of_ascii "9")) with 57.
  change (Z.of_N (N_of_ascii "a")) with 97. change (Z.of_N (N_of_ascii "f")) with 102.
  change (Z.of_N (N_of_ascii "A")) with 65. change (Z.of_N (N_of_ascii "F")) with 70.
  destruct (_ && _); [by eexists|]. destruct (_ && _); [by eexists|]. destruct (_ && _); [by eexists|done].
Qed.

Lemma hex_DecodeString_length k : forall l, forallb hex_char l = true -> length l = (2 * k)%nat -> length (hex_DecodeString l) = k.
Proof.
  induction k as [|k IH]; intros l Hl Hlen; [by destruct l|]. destruct l as [|a [|b l]]; cbn [length] in Hlen; [lia..|].
  cbn [forallb] in Hl. apply andb_true_iff in Hl as [(x & Ea)%hex_char_value [(y & Eb)%hex_char_value Hl]%andb_true_iff].
  cbn [hex_DecodeString]. rewrite Ea, Eb. cbn [length]. f_equal. apply IH; [done|lia].
Qed.

Section Generated.
Context `{Btcutil} `{Nodes} `{HdWallets} `{!HdWalletLaws} `{EcdsaKeys} `{!EcdsaLaws} `{!Base58Laws}.

(** The address is valid on the main network. *)
Definition well_addressed (w : Wallet) : Prop := ValidateAddressForNetwork (Blockchain w) (Address w) false = Ok tt.

(** What is made: nothing, or a wallet of the provider under a fresh id. *)
Definition generated (bc : string) (w : world) (r : Wallet) (w' : world) : Prop :=
  uuids w' = uuids w /\
  ((r = empty_wallet /\ drawn w' = drawn w) \/
   (UUID r = uuids w (drawn w) /\ drawn w' = S (drawn w) /\ DeletedAt r = None /\ Blockchain r = bc /\ well_addressed r)).

Lemma EqualFold_refl s : EqualFold s s = true.
Proof. unfold EqualFold. by apply bool_decide_true. Qed.

Lemma generate_bitcoin_spec bc w : isUTXOBlockchain bc = true ->
  wp (generate_bitcoin bc) w (fun r w' => forall a, r = Ok a -> generated bc w a w').
Proof.
  intros Hbc. unfold generate_bitcoin. do 2 wp_step. unfold external, wp at 1. cbn [fst snd].
  destruct (io_ReadFull 256 (calls w)) as [seed|e|s]; [|wp_step; intros a [= <-]; by (split; [done|left])|done].
  cbv zeta. do 3 wp_step.
  destruct (nativeSegWitAddressForBlockchain _ _ false) as [address|e|s] eqn:Ea; [|wp_step; intros a [= <-]; by (split; [done|left])|done].
  wp_step. unfold uuid_New, wp at 1. cbn [fst snd]. wp_step. unfold time_Now, wp at 1. cbn [fst snd]. wp_step.
  intros a [= <-]. split; [done|]. right. cbn [UUID drawn DeletedAt Blockchain]. do 4 (split; [done|]).
  unfold well_addressed, ValidateAddressForNetwork, validateAddress. cbn [Blockchain Address]. rewrite Hbc.
  enough (validateUTXOAddressForNetwork bc address false = true) as -> by done.
  assert (bitcoin_blockchain bc = bc) as Ebc.
  { unfold bitcoin_blockchain. case_bool_decide; [by subst|done]. }
  rewrite Ebc in Ea. unfold nativeSegWitAddressForBlockchain in Ea.
  destruct (NewAddressWitnessPubKeyHash _ _) as [d|e|s] eqn:Ed; [|done..]. injection Ea as <-.
  apply witness_address_decodes in Ed as (Edec & Enet & Ew). unfold validateUTXOAddressForNetwork, isNativeSegWitAddressForNetwork.
  by rewrite Edec, Enet, EqualFold_refl, Ew.
Qed.

Lemma generate_ecdsa_spec bc address_of w :
  (forall key a, address_of key = Ok a -> ValidateAddressForNetwork bc a false = Ok tt) ->
  wp (generate_ecdsa bc address_of) w (fun r w' => forall a, r = Ok a -> generated bc w a w').
Proof.
  intros Hv. unfold generate_ecdsa. do 2 wp_step. unfold external, wp at 1. cbn [fst snd].
  destruct (ecdsa_GenerateKey (calls w)) as [key|e|s]; [|wp_step; intros a [= <-]; by (split; [done|left])|done].
  cbv zeta. do 2 wp_step. destruct (address_of key) as [address|e|s] eqn:Ea; [|done..].
  wp_step. unfold uuid_New, wp at 1. cbn [fst snd]. wp_step. unfold time_Now, wp at 1. cbn [fst snd]. wp_step.
  intros a [= <-]. split; [done|]. right. do 4 (split; [done|]). by apply (Hv key).
Qed.

Lemma eth_address_valid bc key a : one_of bc [ETH; MATIC; BSC] = true -> eth_address key = Ok a ->
  ValidateAddressForNetwork bc a false = Ok tt.
Proof.
  unfold one_of, eth_address. cbn [existsb]. intros Hbc [= <-]. unfold ValidateAddressForNetwork, validateAddress, isUTXOBlockchain.
  rewrite address_Hex_format. repeat case_bool_decide; by subst.
Qed.

Lemma TronHexToBase58_valid digits : forallb hex_char (bytes digits) = true -> length (bytes digits) = 40%nat ->
  validateTronAddress (TronHexToBase58 ("41" +:+ digits)) = true.
Proof.
  intros Hd Hl. unfold TronHexToBase58. change (bytes ("41" +:+ digits)) with ("4"%char :: "1"%char :: bytes digits).
  cbn [hex_DecodeString]. change (hex_value "4") with (Some 4). change (hex_value "1") with (Some 1). cbv iota.
  change (16 * 4 + 1) with 65. rewrite <- app_comm_cons. apply base58_tron.
  by rewrite length_app, length_take, sha256_length, (hex_DecodeString_length 20).
Qed.

Lemma tron_address_valid key a : tron_address key = Ok a -> ValidateAddressForNetwork TRON a false = Ok tt.
Proof.
  unfold tron_address, slice_from. pose proof (address_Hex_format (PubkeyToAddress key)) as Hf. unfold validateEthereumAddress in Hf.
  destruct (bytes (address_Hex (PubkeyToAddress key))) as [|z [|x rest]]; [done..|]. cbn [length Nat.ltb Nat.leb drop]. rewrite drop_0.
  cbn [mbind res_bind]. intros [= <-]. apply andb_true_iff in Hf as [[_ Hlen]%andb_true_iff Hhex].
  unfold ValidateAddressForNetwork, validateAddress. cbn. rewrite TronHexToBase58_valid; [done|by rewrite list_ascii_of_string_of_list_ascii|].
  rewrite list_ascii_of_string_of_list_ascii. lia.
Qed.

Lemma generator_CreateWallet_spec g bc w r w' : generator_ok g ->
  generator_CreateWallet g bc w = (Ok r, w') -> IsValid bc = true /\ generated bc w r w'.
Proof.
  intros Hg. unfold generator_CreateWallet. destruct (IsValid bc); [|done]. cbn [negb]. destruct (g !! bc) as [p|] eqn:Ep; [|done].
  destruct (Hg bc p Ep) as [<- Hok]. intros E. split; [done|]. revert r E.
  enough (wp (Generate p) w (fun r w' => forall a, r = Ok a -> generated (GetBlockchain p) w a w')) as Hwp.
  { intros r E. unfold wp in Hwp. rewrite E in Hwp. by apply Hwp. }
  destruct p as [b|b|b]; cbn [provider_ok GetBlockchain Generate] in *.
  - assert (bitcoin_blockchain b = b) as -> by (unfold bitcoin_blockchain; case_bool_decide; by subst). by apply generate_bitcoin_spec.
  - apply generate_ecdsa_spec. intros key a. by apply eth_address_valid.
  - apply bool_decide_eq_true in Hok as ->. apply generate_ecdsa_spec, tron_address_valid.
Qed.

Lemma generator_CreateWallet_draws g bc : wsteps draws (generator_CreateWallet g bc).
Proof.
  assert (forall b address_of, wsteps draws (generate_ecdsa b address_of)) as He.
  { intros b address_of. apply wsteps_bind; [tc_solve|apply wsteps_attempt, external_draws|]. intros [key|e]; cbv zeta;
      eauto 10 with wsteps typeclass_instances. }
  unfold generator_CreateWallet. destruct (negb _); [apply wsteps_fail; tc_solve|]. destruct (g !! bc) as [[b|b|b]|]; cbn [Generate]; try apply He.
  - apply wsteps_bind; [tc_solve|apply wsteps_attempt, external_draws|]. intros [seed|e]; cbv zeta; [|apply wsteps_ret; tc_solve].
    apply wsteps_bind; [tc_solve|apply wsteps_attempt, wsteps_lift; tc_solve|]. intros [address|e]; eauto 10 with wsteps typeclass_instances.
  - apply wsteps_fail; tc_solve.
Qed.
End Generated.
