(* ===== verification/KmsBitcoin.v ===== *)
(** * KmsBitcoin: signing transactions of bitcoin and litecoin

    [internal/kms/wallet/bitcoin_transaction.go]: the checks of the parameters,
    the transaction built from them and its signature input by input. Hashes,
    scripts, keys and the wire format are those of [btcd] and [hdwallet],
    interfaces here; amounts are summed in 64 bits. *)

From S2P Require Import Prelude GoLib Sha256 KmsWallet Money Repository Queries Vault.

Definition bitcoinTxVersion : Z := 2.
Definition bitcoinRBFSequence : Z := 4294967293.
Definition bitcoinOutputDustSats : Z := 546.

Definition ErrInvalidContractAddress : error := ESentinel "kmswallet.ErrInvalidContractAddress".
Definition ErrInvalidAmount : error := ESentinel "kmswallet.ErrInvalidAmount".
Definition ErrInvalidNetwork : error := ESentinel "kmswallet.ErrInvalidNetwork".
Definition ErrInvalidGasSettings : error := ESentinel "kmswallet.ErrInvalidGasSettings".
Definition ErrInvalidNonce : error := ESentinel "kmswallet.ErrInvalidNonce".
Definition ErrTronResponse : error := ESentinel "kmswallet.ErrTronResponse".
Definition ErrInsufficientBalance : error := ESentinel "kmswallet.ErrInsufficientBalance".

Record BitcoinUTXO := mkBitcoinUTXO {
  bi_Hash : string; bi_Index : Z; bi_AmountSats : Z; bi_Script : string; bi_Address : string
}.
Record BitcoinOutput := mkBitcoinOutput { bo_Address : string; bo_AmountSats : Z }.
Record BitcoinTransactionParams := mkBitcoinParams {
  bp_Inputs : list BitcoinUTXO; bp_Outputs : list BitcoinOutput; bp_IsTest : bool; bp_RBF : bool
}.

(** What the code fills in of [wire.MsgTx]: the hash and index an input spends,
    its sequence number and witness; the value and script of an output. *)
Record TxIn := mkTxIn { in_Hash : list Z; in_Index : Z; in_Sequence : Z; in_Witness : list (list Z) }.
Record TxOut := mkTxOut { out_Value : Z; out_PkScript : list Z }.
Record MsgTx := mkMsgTx { tx_Version : Z; tx_TxIn : list TxIn; tx_TxOut : list TxOut }.

Definition MaxTxInSequenceNum : Z := 4294967295.
Definition SigHashAll : Z := 1.

Class Btcd := {
  PrivKey : Type;
  PrivKeyFromBytes : list Z -> PrivKey;
  NewHashFromStr : string -> res (list Z);
  PayToAddrScript : DecodedAddress -> res (list Z);
  NewAddressPubKeyHash : list Z -> string -> res DecodedAddress;
  TxSigHashes : Type;
  NewTxSigHashes : MsgTx -> TxSigHashes;
  (** [WitnessSignature(tx, sigHashes, idx, amt, subscript, hashType, privKey, compress)] *)
  WitnessSignature : MsgTx -> TxSigHashes -> nat -> Z -> list Z -> Z -> PrivKey -> bool -> res (list (list Z));
  Serialize : MsgTx -> res (list Z)
}.
(** [hdwallet.StringWallet] *)
Class HdDecode `{HdWallets} := StringWallet : string -> res HDWallet.

(** [hex.EncodeToString] *)
Definition hex_EncodeToString (l : list Z) : string := of_bytes (flat_map hex_byte l).

Section Sign.
Context `{Btcutil} `{HdWallets} `{!HdDecode} `{Btcd}.

Definition isNativeSegWitAddress (blockchain address : string) (isTest : bool) : bool :=
  isNativeSegWitAddressForNetwork address (utxoNetwork blockchain isTest).

Definition check_inputs (walletAddress : string) : list BitcoinUTXO -> Z -> res Z :=
  fix check inputs inputTotal :=
    match inputs with
    | [] => Ok inputTotal
    | input :: inputs =>
      if bool_decide (bi_Hash input = "") || (bi_AmountSats input <=? 0) then Err ErrInvalidAmount
      else if negb (bool_decide (bi_Address input = "")) && negb (bool_decide (bi_Address input = walletAddress)) then
        Err (EWrap ErrInvalidAddress "input does not belong to sender")
      else check inputs (inputTotal + bi_AmountSats input)%i64
    end.

Definition check_outputs (blockchain : string) (isTest : bool) : list BitcoinOutput -> Z -> res Z :=
  fix check outputs outputTotal :=
    match outputs with
    | [] => Ok outputTotal
    | output :: outputs =>
      if bo_AmountSats output <? bitcoinOutputDustSats then Err ErrInvalidAmount
      else
        _ ← ValidateAddressForNetwork blockchain (bo_Address output) isTest;
        check outputs (outputTotal + bo_AmountSats output)%i64
    end.

Definition bitcoin_validate (p : BitcoinTransactionParams) (blockchain walletAddress : string) : res unit :=
  if bool_decide (bp_Inputs p = []) || bool_decide (bp_Outputs p = []) then Err ErrInvalidAmount
  else if negb (isNativeSegWitAddress blockchain walletAddress (bp_IsTest p)) then
    Err (EWrap ErrInvalidAddress ("sender must be a native SegWit " +:+ blockchain +:+ " address"))
  else
    inputTotal ← check_inputs walletAddress (bp_Inputs p) 0;
    outputTotal ← check_outputs blockchain (bp_IsTest p) (bp_Outputs p) 0;
    if inputTotal <=? outputTotal then Err ErrInsufficientBalance else Ok tt.

Definition p2wpkhScriptCode (blockchain : string) (compressedPublicKey : list Z) (isTest : bool) : res (list Z) :=
  address ← NewAddressPubKeyHash (Hash160 compressedPublicKey) (utxoNetwork blockchain isTest);
  PayToAddrScript address.

(** The 32 bytes of a private key, with or without a leading zero. *)
Definition private_key_bytes (key : HDWallet) : res (list Z) :=
  let privateKeyBytes := match hd_Key key with
    | 0 :: rest => if (length (hd_Key key) =? 33)%nat then rest else hd_Key key
    | bytes => bytes
    end in
  if negb (length privateKeyBytes =? 32)%nat then Err (ENew "invalid BTC private key length") else Ok privateKeyBytes.

Definition new_input (sequence : Z) (input : BitcoinUTXO) : res TxIn :=
  hash ← wrap (NewHashFromStr (bi_Hash input)) "invalid BTC input hash";
  Ok (mkTxIn hash (bi_Index input) sequence []).

Definition new_output (network : string) (output : BitcoinOutput) : res TxOut :=
  match DecodeAddress (bo_Address output) network with
  | None => Err ErrInvalidAddress
  | Some address =>
    if negb (IsForNet address) then Err ErrInvalidAddress else
    script ← wrap (PayToAddrScript address) "unable to build BTC output script";
    Ok (mkTxOut (bo_AmountSats output) script)
  end.

Definition set_witness (i : nat) (witness : list (list Z)) (tx : MsgTx) : MsgTx :=
  mkMsgTx (tx_Version tx)
    (alter (fun txIn => mkTxIn (in_Hash txIn) (in_Index txIn) (in_Sequence txIn) witness) i (tx_TxIn tx)) (tx_TxOut tx).

(** The inputs from the [i]-th on are signed one after the other. *)
Fixpoint sign_inputs (sigHashes : TxSigHashes) (scriptCode : list Z) (privateKey : PrivKey)
  (inputs : list BitcoinUTXO) (i : nat) (tx : MsgTx) : res MsgTx :=
  match inputs with
  | [] => Ok tx
  | input :: inputs =>
    witness ← wrap (WitnessSignature tx sigHashes i (bi_AmountSats input) scriptCode SigHashAll privateKey true)
      "unable to sign BTC input";
    sign_inputs sigHashes scriptCode privateKey inputs (S i) (set_witness i witness tx)
  end.

Definition unsupported (walletBlockchain blockchain : string) : error :=
  EWrap ErrUnknownBlockchain ("This wallet (" +:+ walletBlockchain +:+ ") doesn't support transactions for " +:+ blockchain).

Definition bitcoin_NewTransaction (blockchain : string) (w : Wallet) (params : BitcoinTransactionParams) : res string :=
  if negb (bool_decide (Vault.Blockchain w = blockchain)) then Err (unsupported (Vault.Blockchain w) blockchain)
  else
    _ ← bitcoin_validate params blockchain (Address w);
    key ← wrap (StringWallet (PrivateKey w)) "unable to decode BTC xprv";
    privateKeyBytes ← private_key_bytes key;
    let privateKey := PrivKeyFromBytes privateKeyBytes in
    let network := utxoNetwork blockchain (bp_IsTest params) in
    let sequence := if bp_RBF params then bitcoinRBFSequence else MaxTxInSequenceNum in
    txIns ← mapM (new_input sequence) (bp_Inputs params);
    txOuts ← mapM (new_output network) (bp_Outputs params);
    let tx := mkMsgTx bitcoinTxVersion txIns txOuts in
    scriptCode ← p2wpkhScriptCode blockchain (hd_Key (hd_Pub key)) (bp_IsTest params);
    let sigHashes := NewTxSigHashes tx in
    signed ← sign_inputs sigHashes scriptCode privateKey (bp_Inputs params) 0 tx;
    buf ← wrap (Serialize signed) "unable to serialize BTC transaction";
    Ok (hex_EncodeToString buf).
End Sign.

(** ** Lemmas *)
Lemma mapM_Ok {A B} (f : A -> res B) l k : mapM f l = Ok k -> Forall2 (fun x y => f x = Ok y) l k.
Proof.
  revert k. induction l as [|x l IH]; intros k; cbn [mapM]; [by intros [= <-]|].
  unfold mbind, res_bind at 1. destruct (f x) as [y|e|s] eqn:E; [|done..]. unfold mbind, res_bind.
  destruct (mapM f l) as [k'|e|s]; [|done..]. intros [= <-]. constructor; [done|]. by apply IH.
Qed.

Lemma wrap_Ok {A} (r : res A) msg a : wrap r msg = Ok a -> r = Ok a.
Proof. by destruct r. Qed.

Lemma res_bind_Ok {A B} (r : res A) (f : A -> res B) b : (r ≫= f) = Ok b -> exists a, r = Ok a /\ f a = Ok b.
Proof. destruct r as [a|e|s]; [|done..]. by exists a. Qed.

(** Opens a successful computation step by step. *)
Ltac opened H x E := apply res_bind_Ok in H as (x & E & H).

Definition input_sats : list BitcoinUTXO -> Z := foldr (fun i t => bi_AmountSats i + t) 0.
Definition output_sats : list BitcoinOutput -> Z := foldr (fun o t => bo_AmountSats o + t) 0.

Section Lemmas.
Context `{Btcutil} `{HdWallets} `{!HdDecode} `{Btcd}.

(** What the checks demand of an input and of an output. *)
Definition input_ok (walletAddress : string) (i : BitcoinUTXO) : Prop :=
  bi_Hash i <> "" /\ 0 < bi_AmountSats i /\ (bi_Address i = "" \/ bi_Address i = walletAddress).
Definition output_ok (blockchain : string) (isTest : bool) (o : BitcoinOutput) : Prop :=
  bitcoinOutputDustSats <= bo_AmountSats o /\ ValidateAddressForNetwork blockchain (bo_Address o) isTest = Ok tt.

Lemma input_sats_pos a l : Forall (input_ok a) l -> 0 <= input_sats l.
Proof. induction 1 as [|i l (_ & ? & _) Hl IH]; cbn; lia. Qed.
Lemma output_sats_pos b t l : Forall (output_ok b t) l -> 0 <= output_sats l.
Proof. unfold output_ok, bitcoinOutputDustSats. induction 1 as [|i l (? & _) Hl IH]; cbn; lia. Qed.

Lemma check_inputs_sound a l : forall t t', check_inputs a l t = Ok t' -> Forall (input_ok a) l.
Proof.
  induction l as [|i l IH]; intros t t'; cbn [check_inputs]; [by constructor|].
  case_bool_decide as Eh; [done|]. destruct (Z.leb_spec (bi_AmountSats i) 0); [done|]. cbn [orb].
  repeat case_bool_decide; cbn [negb andb]; intros E; try done; (constructor; [split_and!; auto|by eapply IH]).
Qed.

Lemma check_inputs_total a l : Forall (input_ok a) l -> forall t, 0 <= t -> t + input_sats l < 2 ^ 63 ->
  check_inputs a l t = Ok (t + input_sats l).
Proof.
  induction 1 as [|i l (Eh & Hp & Ha) Hl IH]; intros t Ht Hs; cbn [check_inputs input_sats foldr] in *; [f_equal; lia|].
  pose proof (input_sats_pos _ _ Hl). fold (input_sats l) in *. rewrite (bool_decide_false _ Eh).
  destruct (Z.leb_spec (bi_AmountSats i) 0); [lia|]. cbn [orb].
  replace (negb (bool_decide (bi_Address i = "")) && negb (bool_decide (bi_Address i = a))) with false
    by (destruct Ha as [Ha|Ha]; rewrite (bool_decide_true _ Ha); [done|by rewrite andb_false_r]).
  rewrite int64_small by (unfold in_int64; lia). rewrite IH by lia. f_equal. lia.
Qed.

Lemma check_outputs_sound b net l : forall t t', check_outputs b net l t = Ok t' -> Forall (output_ok b net) l.
Proof.
  induction l as [|o l IH]; intros t t'; cbn [check_outputs]; [by constructor|].
  destruct (Z.ltb_spec (bo_AmountSats o) bitcoinOutputDustSats); [done|]. intros E. opened E u Ev. destruct u.
  constructor; [done|by eapply IH].
Qed.

Lemma check_outputs_total b net l : Forall (output_ok b net) l -> forall t, 0 <= t -> t + output_sats l < 2 ^ 63 ->
  check_outputs b net l t = Ok (t + output_sats l).
Proof.
  induction 1 as [|o l (Hd & Hv) Hl IH]; intros t Ht Hs; cbn [check_outputs output_sats foldr] in *; [f_equal; lia|].
  pose proof (output_sats_pos _ _ _ Hl). fold (output_sats l) in *.
  destruct (Z.ltb_spec (bo_AmountSats o) bitcoinOutputDustSats); [lia|]. rewrite Hv. cbn [mbind res_bind].
  unfold bitcoinOutputDustSats in *. rewrite int64_small by (unfold in_int64; lia). rewrite IH by lia. f_equal. lia.
Qed.

(** The checks accept a transaction exactly when it pays a fee from valid
    inputs of the sender to valid outputs, as long as the sums fit. *)
Lemma bitcoin_validate_iff p b a :
  input_sats (bp_Inputs p) < 2 ^ 63 -> output_sats (bp_Outputs p) < 2 ^ 63 ->
  bitcoin_validate p b a = Ok tt <->
  bp_Inputs p <> [] /\ bp_Outputs p <> [] /\ isNativeSegWitAddress b a (bp_IsTest p) = true /\
  Forall (input_ok a) (bp_Inputs p) /\ Forall (output_ok b (bp_IsTest p)) (bp_Outputs p) /\
  output_sats (bp_Outputs p) < input_sats (bp_Inputs p).
Proof.
  intros Hi Ho. unfold bitcoin_validate. split.
  - case_bool_decide as Ei; [done|]. case_bool_decide as Eo; [done|]. cbn [orb].
    destruct (isNativeSegWitAddress b a (bp_IsTest p)) eqn:Ea; [|done]. cbn [negb]. intros E. opened E ti Eti. opened E to Eto.
    apply check_inputs_sound in Eti as Fi. apply check_outputs_sound in Eto as Fo.
    rewrite check_inputs_total in Eti by (done || lia). rewrite check_outputs_total in Eto by (done || lia).
    simplify_eq. destruct (Z.leb_spec (0 + input_sats (bp_Inputs p)) (0 + output_sats (bp_Outputs p))); [done|].
    split_and!; [done..|lia].
  - intros (Ei & Eo & -> & Fi & Fo & Hlt). rewrite (bool_decide_false _ Ei), (bool_decide_false _ Eo). cbn [orb negb].
    rewrite check_inputs_total, check_outputs_total by (done || lia). cbn [mbind res_bind].
    by rewrite (proj2 (Z.leb_gt _ _)) by lia.
Qed.

(** *** Signatures *)
Definition unsigned_in (i : TxIn) : TxIn := mkTxIn (in_Hash i) (in_Index i) (in_Sequence i) [].
Definition unsigned (tx : MsgTx) : MsgTx := mkMsgTx (tx_Version tx) (map unsigned_in (tx_TxIn tx)) (tx_TxOut tx).

Lemma unsigned_set_witness i witness tx : unsigned (set_witness i witness tx) = unsigned tx.
Proof.
  unfold unsigned, set_witness. cbn [tx_Version tx_TxIn tx_TxOut]. f_equal.
  generalize (tx_TxIn tx) as l. revert i. intros i l. revert i. induction l as [|x l IH]; intros [|i]; [done..|].
  cbn. f_equal. apply IH.
Qed.

(** An input is signed for its own amount, as the input of the number it has,
    by the one key, over the transaction with everything but witnesses in place. *)
Definition signed_input (sigHashes : TxSigHashes) (scriptCode : list Z) (key : PrivKey) (tx : MsgTx) (n : nat)
  (amount : Z) (i : TxIn) : Prop :=
  exists stage, unsigned stage = unsigned tx /\
    WitnessSignature stage sigHashes n amount scriptCode SigHashAll key true = Ok (in_Witness i).

Lemma sign_inputs_spec sigHashes scriptCode key inputs : forall i tx tx',
  sign_inputs sigHashes scriptCode key inputs i tx = Ok tx' -> length (tx_TxIn tx) = (i + length inputs)%nat ->
  unsigned tx' = unsigned tx /\ (forall j, (j < i)%nat -> tx_TxIn tx' !! j = tx_TxIn tx !! j) /\
  forall j input, inputs !! j = Some input -> exists txIn, tx_TxIn tx' !! (i + j)%nat = Some txIn /\
    signed_input sigHashes scriptCode key tx (i + j) (bi_AmountSats input) txIn.
Proof.
  induction inputs as [|input inputs IH]; intros i tx tx' E Hlen; cbn [sign_inputs] in E; [by simplify_eq|].
  opened E witness Ew. apply wrap_Ok in Ew. cbn [length] in Hlen.
  apply IH in E as (Eu & Hold & Hnew); [|cbn; rewrite length_alter; lia].
  rewrite unsigned_set_witness in Eu. split; [done|]. split.
  - intros j Hj. rewrite Hold by lia. cbn. by rewrite list_lookup_alter_ne by lia.
  - intros [|j] input' Hin; cbn in Hin.
    + simplify_eq. destruct (lookup_lt_is_Some_2 (tx_TxIn tx) i) as [txIn Hi]; [lia|].
      rewrite Nat.add_0_r. exists (mkTxIn (in_Hash txIn) (in_Index txIn) (in_Sequence txIn) witness). split.
      * rewrite Hold by lia. cbn. by rewrite list_lookup_alter_eq, Hi.
      * by exists tx.
    + destruct (Hnew j input' Hin) as (txIn & Hi & stage & Es & Hw). exists txIn. rewrite <- Nat.add_succ_comm.
      split; [done|]. exists stage. by rewrite Es, unsigned_set_witness.
Qed.

(** *** The transaction *)
Definition spends (sequence : Z) (input : BitcoinUTXO) (i : TxIn) : Prop :=
  NewHashFromStr (bi_Hash input) = Ok (in_Hash i) /\ in_Index i = bi_Index input /\ in_Sequence i = sequence.
Definition pays (network : string) (output : BitcoinOutput) (o : TxOut) : Prop :=
  out_Value o = bo_AmountSats output /\ exists a, DecodeAddress (bo_Address output) network = Some a /\
    IsForNet a = true /\ PayToAddrScript a = Ok (out_PkScript o).

Lemma new_input_spends sequence input i : new_input sequence input = Ok i -> spends sequence input i /\ in_Witness i = [].
Proof. unfold new_input. intros E. opened E h Eh. apply wrap_Ok in Eh. injection E as <-. by split_and!. Qed.

Lemma new_output_pays network output o : new_output network output = Ok o -> pays network output o.
Proof.
  unfold new_output. destruct (DecodeAddress (bo_Address output) network) as [a|] eqn:Ea; [|done].
  destruct (IsForNet a) eqn:En; [|done]. cbn [negb]. intros E. opened E script Es. apply wrap_Ok in Es. injection E as <-.
  split; [done|]. by exists a.
Qed.

Lemma unsigned_new sequence l txIns : Forall2 (fun x y => new_input sequence x = Ok y) l txIns -> map unsigned_in txIns = txIns.
Proof.
  induction 1 as [|x y l k Hx _ IH]; [done|]. cbn. rewrite IH. apply new_input_spends in Hx as [_ Hw].
  destruct y. cbn in Hw. by subst.
Qed.

(** An input with or without its witness spends the same. *)
Lemma spends_unsigned sequence l k k' : map unsigned_in k = map unsigned_in k' ->
  Forall2 (spends sequence) l k -> Forall2 (spends sequence) l k'.
Proof.
  intros E Hs. revert k' E. induction Hs as [|x y l k Hx _ IH]; intros [|y' k'] E; try done.
  cbn in E. unfold unsigned_in at 1 3 in E. injection E as Eh Ei Es E. constructor; [|by apply IH].
  unfold spends in *. by rewrite <- Eh, <- Ei, <- Es.
Qed.
End Lemmas.

(** ** Properties *)

(** C12. What is signed is what was asked for: when [NewTransaction] returns a
    raw bitcoin or litecoin transaction, the wallet is of the provider's
    blockchain and its address a native segwit one of the network; the raw
    transaction is the serialisation of one that spends exactly the listed
    outputs in their order, with the sequence number that tells whether it may
    be replaced, and pays exactly the listed amounts to the scripts of the
    listed addresses; each input is the sender's, is worth something and is
    signed with the wallet's key for its own amount over that transaction; no
    output is dust, and the inputs are worth more than the outputs. *)
Theorem bitcoin_signing `{Btcutil} `{HdWallets} `{!HdDecode} `{Btcd} (blockchain : string) (w : Wallet)
  (params : BitcoinTransactionParams) (raw : string)
  (Hi : input_sats (bp_Inputs params) < 2 ^ 63) (Ho : output_sats (bp_Outputs params) < 2 ^ 63)
  (Hrun : bitcoin_NewTransaction blockchain w params = Ok raw) :
  let sequence := if bp_RBF params then bitcoinRBFSequence else MaxTxInSequenceNum in
  Vault.Blockchain w = blockchain /\ isNativeSegWitAddress blockchain (Address w) (bp_IsTest params) = true /\
  Forall (input_ok (Address w)) (bp_Inputs params) /\
  Forall (output_ok blockchain (bp_IsTest params)) (bp_Outputs params) /\
  output_sats (bp_Outputs params) < input_sats (bp_Inputs params) /\
  exists key privateKeyBytes scriptCode tx buf,
    StringWallet (PrivateKey w) = Ok key /\ private_key_bytes key = Ok privateKeyBytes /\
    p2wpkhScriptCode blockchain (hd_Key (hd_Pub key)) (bp_IsTest params) = Ok scriptCode /\
    Serialize tx = Ok buf /\ raw = hex_EncodeToString buf /\ tx_Version tx = bitcoinTxVersion /\
    Forall2 (spends sequence) (bp_Inputs params) (tx_TxIn tx) /\
    Forall2 (pays (utxoNetwork blockchain (bp_IsTest params))) (bp_Outputs params) (tx_TxOut tx) /\
    forall n input i, bp_Inputs params !! n = Some input -> tx_TxIn tx !! n = Some i ->
      signed_input (NewTxSigHashes (unsigned tx)) scriptCode (PrivKeyFromBytes privateKeyBytes) tx n (bi_AmountSats input) i.
Proof.
  intros sequence. unfold bitcoin_NewTransaction in Hrun. case_bool_decide as Eb; [|done]. cbn [negb] in Hrun.
  opened Hrun u Ev. destruct u. apply bitcoin_validate_iff in Ev as (_ & _ & Ha & Fi & Fo & Hlt); [|done..].
  opened Hrun key Ek. apply wrap_Ok in Ek. opened Hrun pb Epb. opened Hrun txIns Ei. opened Hrun txOuts Eo.
  opened Hrun scode Esc. opened Hrun signed Es. opened Hrun buf Ebuf. apply wrap_Ok in Ebuf. injection Hrun as <-.
  fold sequence in Ei, Es. apply mapM_Ok in Ei. apply mapM_Ok in Eo. pose proof (unsigned_new _ _ _ Ei) as Hu.
  do 5 (split; [done|]). apply sign_inputs_spec in Es as (Eu & _ & Hsig); [|cbn; symmetry; by eapply Forall2_length].
  exists key, pb, scode, signed, buf. unfold unsigned in Eu at 2. cbn [tx_Version tx_TxIn tx_TxOut] in Eu. rewrite Hu in Eu.
  injection Eu as Ever Ein Eout. split_and!; [done..|by rewrite Ever| | |].
  - eapply (spends_unsigned _ _ txIns); [congruence|]. eapply Forall2_impl; [exact Ei|]. by intros ? ? [? _]%new_input_spends.
  - rewrite Eout. eapply Forall2_impl; [exact Eo|]. apply new_output_pays.
  - intros n input i Hn Htx. destruct (Hsig n input Hn) as (txIn & Hin & stage & Estage & Hw).
    rewrite Nat.add_0_l in Hin, Hw. rewrite Hin in Htx. injection Htx as ->. exists stage. unfold unsigned in *. cbn in *. split; [congruence|].
    rewrite Ever, Ein, Eout. done.
Qed.

(** ** Witness: a replaceable transaction of two inputs and one output *)
#[local] Instance ex_segwit : Btcutil := fun address network => Some (mkDecoded (bool_decide (network = "mainnet")) address true).
#[local] Instance ex_hd : HdWallets := {|
  io_ReadFull n _ := Ok (replicate (Z.to_nat n) 1); HDWallet := list Z; MasterKey seed := take 32 seed;
  hd_Pub key := 2 :: key; hd_Key key := key; hd_String key := of_bytes (ascii_of_N ∘ Z.to_N <$> key); Hash160 l := take 20 l;
  NewAddressWitnessPubKeyHash hash _ := Ok (mkDecoded true ("bc1" +:+ hex_EncodeToString hash) true) |}.
#[local] Instance ex_hd_decode : HdDecode := fun s => Ok ((fun c => Z.of_N (N_of_ascii c)) <$> bytes s).
#[local] Instance ex_btcd : Btcd := {|
  PrivKey := list Z; PrivKeyFromBytes l := l;
  NewHashFromStr s := if bool_decide (s = "") then Err (ENew "empty") else Ok ((fun c => Z.of_N (N_of_ascii c)) <$> bytes s);
  PayToAddrScript a := Ok ((fun c => Z.of_N (N_of_ascii c)) <$> bytes (EncodeAddress a));
  NewAddressPubKeyHash hash _ := Ok (mkDecoded true (hex_EncodeToString hash) false);
  TxSigHashes := Z; NewTxSigHashes tx := Z.of_nat (length (tx_TxIn tx));
  WitnessSignature _ sigHashes n amount _ _ key _ := Ok [[sigHashes; Z.of_nat n; amount]; key];
  Serialize tx := Ok (flat_map (fun i => in_Index i :: List.concat (in_Witness i)) (tx_TxIn tx)) |}.

Definition ex_key : string := "0123456789abcdef0123456789abcdef".
Definition ex_wallet : Wallet := mkWallet "w1" "bc1sender" "xpub" ex_key 0 None BTC.
Definition ex_params : BitcoinTransactionParams :=
  mkBitcoinParams [mkBitcoinUTXO "aa" 1 900 "" "bc1sender"; mkBitcoinUTXO "bb" 0 800 "" ""] [mkBitcoinOutput "bc1recipient" 1500] false true.

Lemma bitcoin_signing_witness : exists raw key privateKeyBytes tx buf,
  bitcoin_NewTransaction BTC ex_wallet ex_params = Ok raw /\
  StringWallet (PrivateKey ex_wallet) = Ok key /\ private_key_bytes key = Ok privateKeyBytes /\
  Serialize tx = Ok buf /\ raw = hex_EncodeToString buf /\
  Forall2 (spends 4294967293) (bp_Inputs ex_params) (tx_TxIn tx).
Proof.
  assert (exists raw, bitcoin_NewTransaction BTC ex_wallet ex_params = Ok raw) as [raw Hrun].
  { eexists. vm_compute. reflexivity. }
  destruct (bitcoin_signing BTC ex_wallet ex_params raw eq_refl eq_refl Hrun)
    as (_ & _ & _ & _ & _ & key & pb & scode & tx & buf & Ek & Ep & _ & Es & Er & _ & Hin & _).
  exists raw, key, pb, tx, buf. by split_and!.
Defined.
