(* ===== verification/KmsEvm.v ===== *)
(** * KmsEvm: signing transactions of ethereum, polygon and binance smart chain

    [internal/kms/wallet/ethereum.go] and the asset types of [transaction.go]:
    the checks of the parameters, the transfer of a coin and the call of a
    token's [transfer], whose data is built byte by byte. [big.Int.Bytes] is
    written out; addresses, keys, hashing and encoding are go-ethereum's,
    interfaces here. *)

From S2P Require Import Prelude GoLib KmsWallet Money Repository Queries Currencies Vault KmsBitcoin.

(** ** transaction.go *)
Definition Coin : string := "coin".
Definition Token : string := "token".
Definition Valid (t : string) : bool := one_of t [Coin; Token].

(** ** [Bytes] of a [big.Int]: the absolute value, most significant byte first *)
Fixpoint be_bytes (fuel : nat) (n : Z) (acc : list Z) : list Z :=
  match fuel with
  | O => acc
  | S fuel => if n =? 0 then acc else be_bytes fuel (n / 256) (n mod 256 :: acc)
  end.
Definition bigint_Bytes (z : Z) : list Z := be_bytes (S (Z.to_nat (Z.log2 (Z.abs z)))) (Z.abs z) [].

Definition uint64 (z : Z) : Z := z mod 2 ^ 64.

Record EthTransactionParams := mkEthParams {
  ep_Type : string; ep_Recipient : string; ep_Amount : string; ep_ContractAddress : string; ep_NetworkID : Z;
  ep_Nonce : Z; ep_MaxPriorityFeePerGas : string; ep_MaxFeePerGas : string; ep_Gas : Z
}.

(** What the code fills in of [types.DynamicFeeTx]. *)
Record DynamicFeeTx := mkDynamicFeeTx {
  df_ChainID : Z; df_Nonce : Z; df_To : list Z; df_Value : Z; df_Gas : Z; df_GasFeeCap : Z; df_GasTipCap : Z;
  df_Data : list Z
}.

(** go-ethereum's [crypto], [common] and [core/types], [sha3]. *)
Class Ethereum `{EcdsaKeys} := {
  HexToECDSA : string -> res EcdsaKey;
  HexToAddress : string -> list Z;
  LeftPadBytes : list Z -> nat -> list Z;
  Keccak256 : list Z -> list Z;
  SignedTx : Type;
  SignNewTx : EcdsaKey -> Z -> DynamicFeeTx -> res SignedTx;
  MarshalBinary : SignedTx -> res (list Z)
}.
Class EthereumLaws `{Ethereum} : Prop := {
  HexToAddress_length s : length (HexToAddress s) = 20%nat;
  LeftPadBytes_zeros l n : LeftPadBytes l n = replicate (n - length l) 0 ++ l;
  Keccak256_length l : length (Keccak256 l) = 32%nat
}.

Definition transferFnSignature : string := "transfer(address,uint256)".
Definition string_bytes (s : string) : list Z := (fun c => Z.of_N (N_of_ascii c)) <$> bytes s.

Definition eth_validate (p : EthTransactionParams) : res unit :=
  if negb (Valid (ep_Type p)) then Err (ENew "type is invalid")
  else if negb (validateEthereumAddress (ep_Recipient p)) then Err ErrInvalidAddress
  else if bool_decide (ep_Type p = Token) && negb (validateEthereumAddress (ep_ContractAddress p)) then
    Err ErrInvalidContractAddress
  else if bool_decide (ep_Amount p = "") then Err ErrInvalidAmount
  else if (ep_Gas p =? 0) || bool_decide (ep_MaxFeePerGas p = "") || bool_decide (ep_MaxPriorityFeePerGas p = "") then
    Err ErrInvalidGasSettings
  else if ep_NetworkID p <? 1 then Err ErrInvalidNetwork
  else if ep_Nonce p <? 0 then Err ErrInvalidNonce
  else Ok tt.

Definition amountToBigInt (raw : string) : res Z :=
  match bigint_SetString raw with
  | Some i => Ok i
  | None => Err (ENew "unable to make big int")
  end.

(** A parse whose error is replaced. *)
Definition or_error {A} (r : res A) (e : error) : res A := match r with Err _ => Err e | _ => r end.

Section Evm.
Context `{EcdsaKeys} `{!Ethereum}.

Definition methodID : list Z := take 4 (Keccak256 (string_bytes transferFnSignature)).

(** An address and an amount as the two words of a call. *)
Definition transfer_words (recipient : list Z) (amount : Z) : list Z :=
  LeftPadBytes recipient 32 ++ LeftPadBytes (bigint_Bytes amount) 32.

Definition constructEthTokenTxData (recipient : list Z) (amount : Z) : list Z :=
  methodID ++ transfer_words recipient amount.

Definition sign_and_encode (key : EcdsaKey) (chainID : Z) (txData : DynamicFeeTx) : res string :=
  tx ← wrap (SignNewTx key chainID txData) "unable to sign ethereum transaction";
  bytes ← wrap (MarshalBinary tx) "unable to encode ethereum transaction";
  Ok (hexutil_Encode bytes).

Definition wallet_key (w : Wallet) : res EcdsaKey :=
  hex ← slice_from 2 (PrivateKey w);
  wrap (HexToECDSA hex) "unable to parse private key".

Definition gas_setting (raw name : string) : res Z :=
  or_error (amountToBigInt raw) (EWrap ErrInvalidGasSettings ("unable to parse " +:+ name)).

Definition newCoinTransaction (w : Wallet) (params : EthTransactionParams) : res string :=
  let chainID := ep_NetworkID params in
  gasTipCap ← gas_setting (ep_MaxPriorityFeePerGas params) "MaxPriorityFeePerGas";
  gasFeeCap ← gas_setting (ep_MaxFeePerGas params) "MaxFeePerGas";
  let recipient := HexToAddress (ep_Recipient params) in
  amount ← or_error (amountToBigInt (ep_Amount params)) (EWrap ErrInvalidAmount "unable to parse Amount");
  privateKey ← wallet_key w;
  sign_and_encode privateKey chainID (mkDynamicFeeTx chainID (uint64 (ep_Nonce params)) recipient amount
    (uint64 (ep_Gas params)) gasFeeCap gasTipCap []).

Definition newTokenTransaction (w : Wallet) (params : EthTransactionParams) : res string :=
  let chainID := ep_NetworkID params in
  gasTipCap ← gas_setting (ep_MaxPriorityFeePerGas params) "MaxPriorityFeePerGas";
  gasFeeCap ← gas_setting (ep_MaxFeePerGas params) "MaxFeePerGas";
  let contractAddress := HexToAddress (ep_ContractAddress params) in
  let recipient := HexToAddress (ep_Recipient params) in
  amount ← or_error (amountToBigInt (ep_Amount params)) (EWrap ErrInvalidAmount "unable to parse Amount");
  privateKey ← wallet_key w;
  sign_and_encode privateKey chainID (mkDynamicFeeTx chainID (uint64 (ep_Nonce params)) contractAddress 0
    (uint64 (ep_Gas params)) gasFeeCap gasTipCap (constructEthTokenTxData recipient amount)).

Definition eth_NewTransaction (blockchain : string) (w : Wallet) (params : EthTransactionParams) : res string :=
  if negb (bool_decide (Vault.Blockchain w = blockchain)) then Err (unsupported (Vault.Blockchain w) blockchain)
  else
    _ ← eth_validate params;
    if bool_decide (ep_Type params = Coin) then newCoinTransaction w params
    else if bool_decide (ep_Type params = Token) then newTokenTransaction w params
    else Err (ENew ("unknown transaction type " +:+ ep_Type params)).
End Evm.

(** ** Lemmas: bytes and words *)

(** The number of a list of bytes. *)
Definition be_value (l : list Z) : Z := foldl (fun n b => 256 * n + b) 0 l.

Lemma be_value_acc l n : foldl (fun n b => 256 * n + b) n l = n * 256 ^ Z.of_nat (length l) + be_value l.
Proof.
  unfold be_value. revert n. induction l as [|b l IH]; intros n; cbn [foldl length]; [lia|].
  rewrite IH, (IH (256 * 0 + b)), Nat2Z.inj_succ, Z.pow_succ_r by lia. lia.
Qed.

Lemma be_value_app l k : be_value (l ++ k) = be_value l * 256 ^ Z.of_nat (length k) + be_value k.
Proof. unfold be_value at 1. rewrite foldl_app. apply be_value_acc. Qed.

Lemma be_value_zeros n l : be_value (replicate n 0 ++ l) = be_value l.
Proof.
  rewrite be_value_app. replace (be_value (replicate n 0)) with 0; [lia|]. unfold be_value.
  induction n as [|n IH]; [done|]. cbn [replicate foldl]. apply IH.
Qed.

Lemma be_bytes_spec fuel : forall n acc, 0 <= n < 256 ^ Z.of_nat fuel ->
  exists l, be_bytes fuel n acc = l ++ acc /\ be_value l = n /\
    forall k : nat, n < 256 ^ Z.of_nat k <-> (length l <= k)%nat.
Proof.
  induction fuel as [|fuel IH]; intros n acc Hn; cbn [be_bytes].
  { exists []. cbn in *. split; [done|]. split; [unfold be_value; cbn; lia|]. intros k. split; [lia|].
    pose proof (Z.pow_pos_nonneg 256 (Z.of_nat k)). lia. }
  destruct (Z.eqb_spec n 0) as [->|Hne].
  { exists []. split_and!; [done..|]. intros k. cbn. split; [lia|]. pose proof (Z.pow_pos_nonneg 256 (Z.of_nat k)). lia. }
  rewrite Nat2Z.inj_succ, Z.pow_succ_r in Hn by lia.
  destruct (IH (n / 256) (n mod 256 :: acc)) as (l & E & Hv & Hk).
  { split; [apply Z.div_pos; lia|]. apply Z.div_lt_upper_bound; lia. }
  exists (l ++ [n mod 256]). rewrite E, <- (assoc_L (++)). split; [done|]. split.
  - rewrite be_value_app, Hv. cbn. unfold be_value. cbn. rewrite (Z.div_mod n 256) at 3 by done. lia.
  - intros [|k]; rewrite length_app; cbn [length].
    + cbn. split; lia.
    + rewrite Nat2Z.inj_succ, Z.pow_succ_r by lia. specialize (Hk k). rewrite Nat.add_1_r, <- Nat.succ_le_mono, <- Hk.
      split; intros Hlt; [by apply Z.div_lt_upper_bound; lia|].
      rewrite (Z.div_mod n 256) by done. pose proof (Z.mod_pos_bound n 256 eq_refl). lia.
Qed.

Lemma bigint_Bytes_spec z : be_value (bigint_Bytes z) = Z.abs z /\
  forall k : nat, Z.abs z < 256 ^ Z.of_nat k <-> (length (bigint_Bytes z) <= k)%nat.
Proof.
  unfold bigint_Bytes. destruct (be_bytes_spec (S (Z.to_nat (Z.log2 (Z.abs z)))) (Z.abs z) []) as (l & E & Hv & Hk).
  - split; [lia|]. rewrite Nat2Z.inj_succ, Z2Nat.id by apply Z.log2_nonneg.
    destruct (Z.eq_dec (Z.abs z) 0) as [->|Hne]; [done|]. destruct (Z.log2_spec (Z.abs z)) as [_ Hlt]; [lia|].
    eapply Z.lt_le_trans; [exact Hlt|]. apply Z.pow_le_mono_l. lia.
  - by rewrite E, app_nil_r.
Qed.

(** Reading the two words of a call back: the address is the last 20 bytes of
    the first. *)
Definition read_words (l : list Z) : option (list Z * Z) :=
  if negb (length l =? 64)%nat then None
  else if negb (forallb (Z.eqb 0) (take 12 l)) then None
  else Some (take 20 (drop 12 l), be_value (drop 32 l)).

Definition read_transfer `{Ethereum} (data : list Z) : option (list Z * Z) :=
  if bool_decide (take 4 data = methodID) then read_words (drop 4 data) else None.

Section Words.
Context `{EthereumLaws}.

Lemma read_transfer_words recipient amount : length recipient = 20%nat -> Z.abs amount < 2 ^ 256 ->
  read_words (transfer_words recipient amount) = Some (recipient, Z.abs amount).
Proof.
  intros Hr Ha. destruct (bigint_Bytes_spec amount) as [Hv Hk].
  apply (Hk 32%nat) in Ha. unfold transfer_words, read_words. rewrite !LeftPadBytes_zeros, Hr. change (32 - 20)%nat with 12%nat.
  rewrite !length_app, !length_replicate, ?Hr. replace (12 + 20 + _)%nat with 64%nat by lia. cbn [Nat.eqb negb].
  rewrite (drop_app_length' (replicate 12 0 ++ recipient) _ 32) by (rewrite length_app, length_replicate; lia).
  rewrite <- (assoc_L (++)), (take_app_length' (replicate 12 0)), (drop_app_length' (replicate 12 0)) by by rewrite length_replicate.
  rewrite (take_app_length' recipient) by done. rewrite be_value_zeros, Hv. done.
Qed.

Lemma methodID_length : length methodID = 4%nat.
Proof. unfold methodID. rewrite length_take, Keccak256_length. lia. Qed.

Lemma read_construct recipient amount : length recipient = 20%nat -> Z.abs amount < 2 ^ 256 ->
  read_transfer (constructEthTokenTxData recipient amount) = Some (recipient, Z.abs amount).
Proof.
  intros Hr Ha. unfold read_transfer, constructEthTokenTxData.
  rewrite (take_app_length' methodID), (drop_app_length' methodID) by by rewrite methodID_length.
  rewrite bool_decide_true by done. by apply read_transfer_words.
Qed.
End Words.

(** ** Lemmas: what a successful call went through *)
Section Signing.
Context `{EthereumLaws}.

(** The settings of a transaction are those of the parameters. *)
Definition settings_of (p : EthTransactionParams) (tx : DynamicFeeTx) : Prop :=
  df_ChainID tx = ep_NetworkID p /\ df_Nonce tx = ep_Nonce p /\ df_Gas tx = uint64 (ep_Gas p) /\
  bigint_SetString (ep_MaxPriorityFeePerGas p) = Some (df_GasTipCap tx) /\
  bigint_SetString (ep_MaxFeePerGas p) = Some (df_GasFeeCap tx).

(** It moves the amount to the recipient: in coins, or by the contract's transfer. *)
Definition moves (p : EthTransactionParams) (amount : Z) (tx : DynamicFeeTx) : Prop :=
  (ep_Type p = Coin /\ df_To tx = HexToAddress (ep_Recipient p) /\ df_Value tx = amount /\ df_Data tx = []) \/
  (ep_Type p = Token /\ df_To tx = HexToAddress (ep_ContractAddress p) /\ df_Value tx = 0 /\
    df_Data tx = constructEthTokenTxData (HexToAddress (ep_Recipient p)) amount).

Lemma eth_validate_Ok p : eth_validate p = Ok tt ->
  (ep_Type p = Coin \/ ep_Type p = Token) /\ validateEthereumAddress (ep_Recipient p) = true /\
  (ep_Type p = Token -> validateEthereumAddress (ep_ContractAddress p) = true) /\ ep_Gas p <> 0 /\
  1 <= ep_NetworkID p /\ 0 <= ep_Nonce p.
Proof.
  unfold eth_validate, Valid, one_of. cbn [existsb].
  destruct (validateEthereumAddress (ep_Recipient p)); [|by repeat case_bool_decide].
  destruct (validateEthereumAddress (ep_ContractAddress p)), (Z.eqb_spec (ep_Gas p) 0), (Z.ltb_spec (ep_NetworkID p) 1),
    (Z.ltb_spec (ep_Nonce p) 0); repeat case_bool_decide; cbn [orb andb negb]; intros ?; try done; split_and!; auto; congruence.
Qed.

Lemma gas_setting_Ok raw name z : gas_setting raw name = Ok z -> bigint_SetString raw = Some z.
Proof. unfold gas_setting, amountToBigInt. destruct (bigint_SetString raw); [by intros [= <-]|done]. Qed.

Lemma amount_Ok raw e z : or_error (amountToBigInt raw) e = Ok z -> bigint_SetString raw = Some z.
Proof. unfold amountToBigInt. destruct (bigint_SetString raw); [by intros [= <-]|done]. Qed.

Lemma uint64_small z : 0 <= z -> in_int64 z -> uint64 z = z.
Proof. unfold in_int64, uint64. intros ? ?. apply Z.mod_small. lia. Qed.

(** A wallet's key is what follows the first two characters of its text. *)
Definition has_key (w : Wallet) (key : EcdsaKey) : Prop := exists hex, slice_from 2 (PrivateKey w) = Ok hex /\ HexToECDSA hex = Ok key.

Lemma wallet_key_Ok w key : wallet_key w = Ok key -> has_key w key.
Proof. unfold wallet_key. intros E. opened E hex Eh. apply wrap_Ok in E. by exists hex. Qed.

Lemma sign_and_encode_Ok key chainID tx raw : sign_and_encode key chainID tx = Ok raw ->
  exists signed buf, SignNewTx key chainID tx = Ok signed /\ MarshalBinary signed = Ok buf /\ raw = hexutil_Encode buf.
Proof.
  unfold sign_and_encode. intros E. opened E signed Es. opened E buf Eb. apply wrap_Ok in Es. apply wrap_Ok in Eb.
  injection E as <-. by exists signed, buf.
Qed.
End Signing.

(** ** Properties *)

(** C18. The data of a token transfer reads back: for an amount a word can hold,
    a contract that reads the selector, an address and a number from it reads
    exactly the recipient and the amount - its absolute value, so that the
    amount 5 and the amount -5 ask for the same transfer -, and no other
    recipient or amount in range gives the same data. An amount a word cannot
    hold gives data that is too long. *)
Theorem transfer_calldata `{EthereumLaws} (recipient : list Z) (amount : Z) (Hr : length recipient = 20%nat) :
  (Z.abs amount < 2 ^ 256 ->
     length (constructEthTokenTxData recipient amount) = 68%nat /\
     read_transfer (constructEthTokenTxData recipient amount) = Some (recipient, Z.abs amount) /\
     forall recipient' amount', length recipient' = 20%nat -> Z.abs amount' < 2 ^ 256 ->
       constructEthTokenTxData recipient' amount' = constructEthTokenTxData recipient amount <->
       recipient' = recipient /\ Z.abs amount' = Z.abs amount) /\
  (2 ^ 256 <= Z.abs amount -> (68 < length (constructEthTokenTxData recipient amount))%nat).
Proof.
  assert (length (constructEthTokenTxData recipient amount) = 36 + (32 - length (bigint_Bytes amount) + length (bigint_Bytes amount)))%nat as Hlen.
  { unfold constructEthTokenTxData, transfer_words. rewrite !LeftPadBytes_zeros, !length_app, !length_replicate, methodID_length, Hr. lia. }
  destruct (bigint_Bytes_spec amount) as [_ Hk]. specialize (Hk 32%nat). change (256 ^ Z.of_nat 32) with (2 ^ 256) in Hk.
  split; intros Ha; [|rewrite Hlen; lia]. split; [rewrite Hlen; lia|]. split; [by apply read_construct|].
  intros recipient' amount' Hr' Ha'. split.
  - intros E. pose proof (read_construct recipient' amount' Hr' Ha') as E'. rewrite E, read_construct in E' by done. by injection E' as <- <-.
  - intros [-> E]. unfold constructEthTokenTxData, transfer_words, bigint_Bytes. by rewrite E.
Qed.

(** C17. What is signed for an EVM chain is what was asked for: when
    [NewTransaction] returns a raw transaction, the wallet is of the provider's
    blockchain and the raw transaction is the encoding of one signed with the
    wallet's key for the chain, nonce, gas and fees of the parameters, which
    moves the amount to the recipient - a coin transfer pays it and carries no
    data, a token transfer pays nothing to the contract, whose data reads back
    as the recipient and the amount. *)
Theorem evm_signing `{EthereumLaws} (blockchain : string) (w : Wallet) (params : EthTransactionParams) (raw : string)
  (Hn : in_int64 (ep_Nonce params)) (Hrun : eth_NewTransaction blockchain w params = Ok raw) :
  Vault.Blockchain w = blockchain /\ validateEthereumAddress (ep_Recipient params) = true /\ 1 <= ep_NetworkID params /\
  exists amount key tx signed buf,
    bigint_SetString (ep_Amount params) = Some amount /\ has_key w key /\
    SignNewTx key (ep_NetworkID params) tx = Ok signed /\ MarshalBinary signed = Ok buf /\ raw = hexutil_Encode buf /\
    settings_of params tx /\ moves params amount tx /\
    (ep_Type params = Token -> 0 <= amount < 2 ^ 256 -> read_transfer (df_Data tx) = Some (HexToAddress (ep_Recipient params), amount)).
Proof.
  unfold eth_NewTransaction in Hrun. case_bool_decide as Eb; [|done]. cbn [negb] in Hrun. opened Hrun u Ev. destruct u.
  apply eth_validate_Ok in Ev as (Et & Er & Ec & Eg & En & Enonce). split; [done|]. split; [done|]. split; [done|].
  assert (Coin <> Token) as Hct by done. destruct Et as [Et|Et]; rewrite Et in Hrun.
  - rewrite bool_decide_true in Hrun by done. unfold newCoinTransaction in Hrun.
    opened Hrun tip Etip. opened Hrun cap Ecap. opened Hrun amount Ea. opened Hrun key Ek.
    apply sign_and_encode_Ok in Hrun as (signed & buf & Es & Ebuf & ->).
    eexists amount, key, _, signed, buf. split; [by eapply amount_Ok|]. split; [by apply wallet_key_Ok|]. split; [exact Es|]. do 2 (split; [done|]).
    split; [|split; [by left|congruence]]. apply gas_setting_Ok in Etip, Ecap. split_and!; try done. by apply uint64_small.
  - rewrite (bool_decide_false _ (not_eq_sym Hct)), bool_decide_true in Hrun by done. unfold newTokenTransaction in Hrun.
    opened Hrun tip Etip. opened Hrun cap Ecap. opened Hrun amount Ea. opened Hrun key Ek.
    apply sign_and_encode_Ok in Hrun as (signed & buf & Es & Ebuf & ->).
    eexists amount, key, _, signed, buf. split; [by eapply amount_Ok|]. split; [by apply wallet_key_Ok|]. split; [exact Es|]. do 2 (split; [done|]).
    split; [apply gas_setting_Ok in Etip, Ecap; split_and!; try done; by apply uint64_small|]. split; [by right|].
    intros _ Ha. cbn [df_Data]. rewrite read_construct; [by rewrite Z.abs_eq by lia|by apply HexToAddress_length|lia].
Qed.

(** ** Witnesses: a transfer of 250 units of a token *)
#[local] Instance ex_keys : EcdsaKeys := {|
  EcdsaKey := string; ecdsa_GenerateKey n := Ok (FormatInt (Z.of_nat n)); FromECDSA := string_bytes; FromECDSAPub := string_bytes;
  PubkeyToAddress _ := replicate 20 1; address_Hex _ := "0x" +:+ of_bytes (replicate 40 "1"%char);
  hexutil_Encode l := "0x" +:+ hex_EncodeToString l |}.
#[local] Instance ex_ethereum : Ethereum := {|
  HexToECDSA hex := if bool_decide (hex = "") then Err (ENew "invalid length") else Ok hex;
  HexToAddress s := take 20 (string_bytes s ++ replicate 20 0);
  LeftPadBytes l n := replicate (n - length l) 0 ++ l; Keccak256 l := take 32 (l ++ replicate 32 0);
  SignedTx := EcdsaKey * DynamicFeeTx; SignNewTx key _ tx := Ok (key, tx);
  MarshalBinary signed := Ok (df_Data signed.2) |}.
#[local] Instance ex_ethereum_laws : EthereumLaws.
Proof. split; intros; unfold HexToAddress, LeftPadBytes, Keccak256, ex_ethereum; [rewrite length_take, length_app, length_replicate; lia|done|rewrite length_take, length_app, length_replicate; lia]. Qed.

Definition ex_address (c : ascii) : string := "0x" +:+ of_bytes (replicate 40 c).
Definition ex_eth_wallet : Wallet := mkWallet "w1" (ex_address "7") "0x02" "0xkey" 0 None ETH.
Definition ex_token_params : EthTransactionParams :=
  mkEthParams Token (ex_address "a") "250" (ex_address "c") 1 5 "2" "30" 60000.

Lemma transfer_calldata_witness :
  read_transfer (constructEthTokenTxData (HexToAddress (ex_address "a")) 250) = Some (HexToAddress (ex_address "a"), 250).
Proof. by apply (transfer_calldata (HexToAddress (ex_address "a")) 250). Defined.

Lemma evm_signing_witness : exists raw key tx signed buf,
  eth_NewTransaction ETH ex_eth_wallet ex_token_params = Ok raw /\ SignNewTx key 1 tx = Ok signed /\
  MarshalBinary signed = Ok buf /\ raw = hexutil_Encode buf /\ read_transfer (df_Data tx) = Some (HexToAddress (ex_address "a"), 250).
Proof.
  assert (exists raw, eth_NewTransaction ETH ex_eth_wallet ex_token_params = Ok raw) as [raw Hrun].
  { eexists. vm_compute. reflexivity. }
  destruct (evm_signing ETH ex_eth_wallet ex_token_params raw ltac:(by split) Hrun)
    as (_ & _ & _ & amount & key & tx & signed & buf & Ea & _ & Es & Eb & Er & _ & _ & Ht).
  assert (amount = 250) as -> by (vm_compute in Ea; congruence).
  exists raw, key, tx, signed, buf. split_and!; try done. by apply Ht.
Defined.
