(* ===== verification/KmsTron.v ===== *)
(** * KmsTron: signing transactions of Tron

    [internal/kms/wallet/tron.go]: the checks of the parameters, the
    transaction the Tron node builds for a transfer of coins or a call of a
    token's [transfer], and its signature. The node is reached through
    [Trongrid]; base 58 and keys are interfaces. *)

From S2P Require Import Prelude GoLib Sha256 KmsWallet Money Repository Queries Currencies Bitcoin Nodes Flow Http.
From S2P Require Trongrid.
From S2P Require Import Vault KmsBitcoin KmsEvm.

Record TronTransactionParams := mkTronParams {
  tp_Type : string; tp_Recipient : string; tp_Amount : string; tp_ContractAddress : string; tp_FeeLimit : Z;
  tp_IsTest : bool
}.

(** [base58.Decode], [hexutil.Decode] and [crypto.Sign] *)
Class TronCrypto `{EcdsaKeys} := {
  base58_Decode : string -> list Z;
  hexutil_Decode : string -> res (list Z);
  crypto_Sign : list Z -> EcdsaKey -> res (list Z)
}.

(** [strconv.ParseUint(s, 10, 64)]: digits only. *)
Definition ParseUint (s : string) : option Z :=
  z ← unsigned_of_bytes (bytes s);
  if z <? 2 ^ 64 then Some z else None.

(** [s[low:high]] *)
Definition slice_range (low high : nat) (s : string) : res string :=
  if (length (bytes s) <? high)%nat then Panic "slice bounds out of range"
  else Ok (of_bytes (take (high - low) (drop low (bytes s)))).

Definition tron_validate (p : TronTransactionParams) : res unit :=
  if negb (Valid (tp_Type p)) then Err (ENew "type is invalid")
  else if negb (validateTronAddress (tp_Recipient p)) then Err (EWrap ErrInvalidAddress "recipient is invalid")
  else if bool_decide (tp_Type p = Token) && negb (validateTronAddress (tp_ContractAddress p)) then
    Err ErrInvalidContractAddress
  else if bool_decide (tp_Type p = Token) && (tp_FeeLimit p =? 0) then Err ErrInvalidGasSettings
  else if bool_decide (tp_Amount p = "") then Err ErrInvalidAmount
  else Ok tt.

Definition empty_transaction : Trongrid.Transaction := Trongrid.mkTransaction "" "" "" false [] "".

Definition add_signature (signature : string) (tx : Trongrid.Transaction) : Trongrid.Transaction :=
  Trongrid.mkTransaction (Trongrid.tt_TxID tx) (Trongrid.tt_RawDataHex tx) (Trongrid.tt_RawData tx)
    (Trongrid.tt_Visible tx) (Trongrid.tt_Signature tx ++ [signature]) (Trongrid.tt_Error tx).

Definition insufficient_text : string := "balance is not sufficient".

Section Tron.
Context `{EcdsaKeys} `{!Ethereum} `{!TronCrypto} `{HttpClient} `{Trongrid.TronBodies}.
Context (trongrid : Trongrid.Provider).

Definition Base58ToHexAddress (address : string) : res string :=
  if negb (validateTronAddress address) then Err ErrInvalidAddress
  else slice_range 2 44 (hexutil_Encode (base58_Decode address)).

Definition constructTronTokenTxData (recipientBase58 : string) (amount : Z) : res string :=
  recipientHexString ← Base58ToHexAddress recipientBase58;
  slice_from 2 (hexutil_Encode (transfer_words (HexToAddress recipientHexString) amount)).

Definition sign (tx : Trongrid.Transaction) (wallet : Wallet) : res Trongrid.Transaction :=
  hex ← slice_from 2 (PrivateKey wallet);
  privateKey ← wrap (HexToECDSA hex) "unable to decode private key";
  bytes ← wrap (hexutil_Decode ("0x" +:+ Trongrid.tt_RawDataHex tx)) "unable to decode rawDataHex";
  let hash := sha256 bytes in
  signature ← wrap (crypto_Sign hash privateKey) "unable to sign tx";
  encoded ← slice_from 2 (hexutil_Encode signature);
  Ok (add_signature encoded tx).

Definition coin_request (wallet : Wallet) (params : TronTransactionParams) (amountSUN : Z) : Trongrid.TransactionRequest :=
  Trongrid.mkTransactionRequest (Address wallet) (tp_Recipient params) amountSUN "" true.

Definition tron_newCoinTransaction (wallet : Wallet) (params : TronTransactionParams) : Go Trongrid.Transaction :=
  match ParseUint (tp_Amount params) with
  | None => fail ErrInvalidAmount
  | Some amountSUN =>
    tx ← Trongrid.CreateTransaction trongrid (coin_request wallet params amountSUN) (tp_IsTest params);
    if Contains (Trongrid.tt_Error tx) insufficient_text then fail ErrInsufficientBalance
    else if negb (bool_decide (Trongrid.tt_Error tx = "")) then fail (EWrap ErrTronResponse (Trongrid.tt_Error tx))
    else lift (wrap (sign tx wallet) "unable to sign tx")
  end.

Definition token_request (wallet : Wallet) (params : TronTransactionParams) (parameter : string) : Trongrid.ContractCallRequest :=
  Trongrid.mkContractCall (Address wallet) (tp_ContractAddress params) transferFnSignature parameter
    (tp_FeeLimit params) 0 true.

(** The [switch] on the error of the call: an [ErrResponse] that does not tell
    of the balance ends no case, so that the zero transaction is signed. *)
Definition tron_newTokenTransaction (wallet : Wallet) (params : TronTransactionParams) : Go Trongrid.Transaction :=
  match bigint_SetString (tp_Amount params) with
  | None => fail ErrInvalidAmount
  | Some amount =>
    callParameterHex ← lift (wrap (constructTronTokenTxData (tp_Recipient params) amount) "unable to construct contract payload");
    called ← attempt (Trongrid.CallContract trongrid (token_request wallet params callParameterHex) (tp_IsTest params));
    tx ← match called with
      | inl tx => mret tx
      | inr err =>
        if errors_Is err Trongrid.ErrResponse then
          if Contains (error_string err) insufficient_text then fail ErrInsufficientBalance else mret empty_transaction
        else fail err
      end;
    lift (wrap (sign tx wallet) "unable to sign tx")
  end.

Definition tron_NewTransaction (blockchain : string) (wallet : Wallet) (params : TronTransactionParams) : Go Trongrid.Transaction :=
  if negb (bool_decide (Vault.Blockchain wallet = blockchain)) then fail (unsupported (Vault.Blockchain wallet) blockchain)
  else
    _ ← lift (tron_validate params);
    if bool_decide (tp_Type params = Coin) then tron_newCoinTransaction wallet params
    else if bool_decide (tp_Type params = Token) then tron_newTokenTransaction wallet params
    else fail (ENew ("unknown transaction type " +:+ tp_Type params)).
End Tron.

(** ** Lemmas *)
Section Lemmas.
Context `{EcdsaKeys} `{!Ethereum} `{!TronCrypto} `{HttpClient} `{Trongrid.TronBodies}.
Context (trongrid : Trongrid.Provider).

(** [signed] is [tx] with one more signature, made with the wallet's key of the
    hash of its raw data. *)
Definition signed_by (wallet : Wallet) (tx signed : Trongrid.Transaction) : Prop :=
  exists key data signature encoded, has_key wallet key /\
    hexutil_Decode ("0x" +:+ Trongrid.tt_RawDataHex tx) = Ok data /\ crypto_Sign (sha256 data) key = Ok signature /\
    slice_from 2 (hexutil_Encode signature) = Ok encoded /\ signed = add_signature encoded tx.

Lemma sign_Ok tx wallet signed : sign tx wallet = Ok signed -> signed_by wallet tx signed.
Proof.
  unfold sign. intros E. opened E hex Eh. opened E key Ek. opened E data Ed. opened E signature Es. opened E encoded Ee.
  apply wrap_Ok in Ek, Ed, Es. injection E as <-. exists key, data, signature, encoded. split_and!; try done. by exists hex.
Qed.

(** Calls of the node change nothing but the number of calls made. *)
Lemma exchange_calls method path payload isTest : wsteps only_calls (Trongrid.exchange trongrid method path payload isTest).
Proof. unfold Trongrid.exchange, send, read_body. eauto 12 with wsteps typeclass_instances. Qed.
#[local] Hint Resolve exchange_calls : wsteps.

Lemma post_calls {A} path payload isTest (decode : string -> res A) :
  wsteps only_calls (Trongrid.post trongrid path payload isTest decode).
Proof. apply wsteps_bind; [tc_solve|auto with wsteps|]. intros [code body]. destruct (negb _); auto with wsteps typeclass_instances. Qed.
Lemma CreateTransaction_calls payload isTest : wsteps only_calls (Trongrid.CreateTransaction trongrid payload isTest).
Proof. apply post_calls. Qed.
Lemma CallContract_calls payload isTest : wsteps only_calls (Trongrid.CallContract trongrid payload isTest).
Proof.
  apply wsteps_bind; [tc_solve|apply post_calls|]. intros r. cbv zeta. destruct (negb _); auto with wsteps typeclass_instances.
Qed.
#[local] Hint Resolve CreateTransaction_calls CallContract_calls : wsteps.

Lemma tron_NewTransaction_calls blockchain wallet params : wsteps only_calls (tron_NewTransaction trongrid blockchain wallet params).
Proof.
  assert (forall {A} (r : res A), wsteps only_calls (lift r)) as Hl by (intros; apply wsteps_lift; tc_solve).
  assert (forall {A} e, wsteps only_calls (fail e : Go A)) as Hf by (intros; apply wsteps_fail; tc_solve).
  assert (forall {A} (a : A), wsteps only_calls (mret a : Go A)) as Hr by (intros; apply wsteps_ret; tc_solve).
  unfold tron_NewTransaction. destruct (negb _); [done|]. apply wsteps_bind; [tc_solve|done|intros _].
  destruct (bool_decide _); [|destruct (bool_decide _); [|done]].
  - unfold tron_newCoinTransaction. destruct (ParseUint _); [|done]. apply wsteps_bind; [tc_solve|apply CreateTransaction_calls|]. intros tx.
    destruct (Contains _ _); [done|]. by destruct (negb _).
  - unfold tron_newTokenTransaction. destruct (bigint_SetString _); [|done]. apply wsteps_bind; [tc_solve|done|]. intros parameter.
    apply wsteps_bind; [tc_solve|apply wsteps_attempt, CallContract_calls|]. intros called. apply wsteps_bind; [tc_solve| |done].
    destruct called; [done|]. destruct (errors_Is _ _); [|done]. by destruct (Contains _ _).
Qed.

Lemma yields_coin wallet params w signed : (tron_newCoinTransaction trongrid wallet params w).1 = Ok signed ->
  exists amount tx, ParseUint (tp_Amount params) = Some amount /\
    (Trongrid.CreateTransaction trongrid (coin_request wallet params amount) (tp_IsTest params) w).1 = Ok tx /\
    Trongrid.tt_Error tx = "" /\ signed_by wallet tx signed.
Proof.
  unfold tron_newCoinTransaction. destruct (ParseUint (tp_Amount params)) as [amount|]; [|done]. unfold mbind, M_bind.
  destruct (Trongrid.CreateTransaction _ _ _ w) as [[tx|e|s] w1] eqn:Et; [|done..]. destruct (Contains _ _); [done|].
  case_bool_decide as Ee; [|done]. intros Es%wrap_Ok%sign_Ok. exists amount, tx. by rewrite Et.
Qed.

(** What the node's answer to a contract call leaves to sign. *)
Definition answer_of (called : res Trongrid.Transaction) (tx : Trongrid.Transaction) : Prop :=
  called = Ok tx \/
  exists e, called = Err e /\ errors_Is e Trongrid.ErrResponse = true /\
    Contains (error_string e) insufficient_text = false /\ tx = empty_transaction.

Lemma yields_token wallet params w signed : (tron_newTokenTransaction trongrid wallet params w).1 = Ok signed ->
  exists amount parameter tx, bigint_SetString (tp_Amount params) = Some amount /\
    constructTronTokenTxData (tp_Recipient params) amount = Ok parameter /\
    answer_of (Trongrid.CallContract trongrid (token_request wallet params parameter) (tp_IsTest params) w).1 tx /\
    signed_by wallet tx signed.
Proof.
  unfold tron_newTokenTransaction. destruct (bigint_SetString (tp_Amount params)) as [amount|]; [|done]. unfold mbind, M_bind, lift, attempt.
  destruct (constructTronTokenTxData (tp_Recipient params) amount) as [parameter|e|s] eqn:Ec; cbn [wrap]; [|done..].
  destruct (Trongrid.CallContract _ _ _ w) as [[tx|e|s] w1] eqn:Et; [| |done].
  - intros Es%wrap_Ok%sign_Ok. exists amount, parameter, tx. split_and!; try done. left. by rewrite Et.
  - destruct (errors_Is e Trongrid.ErrResponse) eqn:Ee; [|done]. destruct (Contains _ _) eqn:Eb; [done|]. intros Es%wrap_Ok%sign_Ok.
    exists amount, parameter, empty_transaction. split_and!; try done. right. exists e. by rewrite Et.
Qed.
End Lemmas.

(** [hexutil.Encode] is the encoding of [encoding/hex] after 0x. *)
Class HexutilLaws `{EcdsaKeys} : Prop := hexutil_Encode_hex l : hexutil_Encode l = "0x" +:+ hex_EncodeToString l.

Lemma slice_after_0x s : slice_from 2 ("0x" +:+ s) = Ok s.
Proof. unfold slice_from. change (bytes ("0x" +:+ s)) with ("0"%char :: "x"%char :: bytes s). cbn [length Nat.ltb Nat.leb drop]. rewrite drop_0. by rewrite string_of_list_ascii_of_string. Qed.

(** What a successful call did: what it asked the node for, and what it signed. *)
Definition coin_signed `{EcdsaKeys} `{!Ethereum} `{!TronCrypto} `{HttpClient} `{Trongrid.TronBodies}
  (trongrid : Trongrid.Provider) (wallet : Wallet) (params : TronTransactionParams) (w : world) (signed : Trongrid.Transaction) : Prop :=
  tp_Type params = Coin /\ exists amount tx, ParseUint (tp_Amount params) = Some amount /\
    (Trongrid.CreateTransaction trongrid (Trongrid.mkTransactionRequest (Address wallet) (tp_Recipient params) amount "" true)
      (tp_IsTest params) w).1 = Ok tx /\ Trongrid.tt_Error tx = "" /\ signed_by wallet tx signed.

Definition token_signed `{EcdsaKeys} `{!Ethereum} `{!TronCrypto} `{HttpClient} `{Trongrid.TronBodies}
  (trongrid : Trongrid.Provider) (wallet : Wallet) (params : TronTransactionParams) (w : world) (signed : Trongrid.Transaction) : Prop :=
  tp_Type params = Token /\ exists amount recipientHex tx,
    bigint_SetString (tp_Amount params) = Some amount /\ Base58ToHexAddress (tp_Recipient params) = Ok recipientHex /\
    (Z.abs amount < 2 ^ 256 ->
       read_words (transfer_words (HexToAddress recipientHex) amount) = Some (HexToAddress recipientHex, Z.abs amount)) /\
    answer_of (Trongrid.CallContract trongrid (Trongrid.mkContractCall (Address wallet) (tp_ContractAddress params)
      "transfer(address,uint256)" (hex_EncodeToString (transfer_words (HexToAddress recipientHex) amount))
      (tp_FeeLimit params) 0 true) (tp_IsTest params) w).1 tx /\
    signed_by wallet tx signed.

Section Facts.
Context `{EcdsaKeys} `{!Ethereum} `{!TronCrypto} `{!EthereumLaws} `{!HexutilLaws} `{HttpClient} `{Trongrid.TronBodies}.

Lemma tron_validate_Ok p : tron_validate p = Ok tt ->
  (tp_Type p = Coin \/ tp_Type p = Token) /\ validateTronAddress (tp_Recipient p) = true /\
  (tp_Type p = Token -> validateTronAddress (tp_ContractAddress p) = true /\ tp_FeeLimit p <> 0).
Proof.
  unfold tron_validate, Valid, one_of. cbn [existsb].
  destruct (validateTronAddress (tp_Recipient p)); [|by repeat case_bool_decide].
  destruct (validateTronAddress (tp_ContractAddress p)), (Z.eqb_spec (tp_FeeLimit p) 0);
    repeat case_bool_decide; cbn [orb andb negb]; intros ?; try done; split_and!; auto; congruence.
Qed.

Lemma constructTronTokenTxData_Ok recipient amount data : constructTronTokenTxData recipient amount = Ok data ->
  exists hex, Base58ToHexAddress recipient = Ok hex /\ data = hex_EncodeToString (transfer_words (HexToAddress hex) amount).
Proof.
  unfold constructTronTokenTxData. intros E. opened E hex Eh. rewrite hexutil_Encode_hex, slice_after_0x in E.
  injection E as <-. by exists hex.
Qed.

(** The pattern of addresses allows the characters 0 and l, which base 58 does
    not: decoding gives nothing, and the slice of the call's parameter is out
    of range. *)
Lemma bad_base58_panics recipient amount : validateTronAddress recipient = true -> base58_Decode recipient = [] ->
  exists why, constructTronTokenTxData recipient amount = Panic why.
Proof.
  intros Hv Hd. unfold constructTronTokenTxData, Base58ToHexAddress. rewrite Hv, Hd, hexutil_Encode_hex. by eexists.
Qed.

Example zeros_are_valid : validateTronAddress "T000000000000000000000000000000000" = true.
Proof. reflexivity. Qed.
End Facts.

(** ** Properties *)

(** C19. What is signed for Tron is what the node built for the request: when
    [NewTransaction] returns a transaction, a coin transfer is the one the node
    made for the wallet's address, the recipient and the amount, reported
    without an error; a token transfer is the one the node made for a call of
    the contract whose parameter reads back as the recipient and the amount -
    or, when the node refused the call for a reason other than the balance, the
    empty transaction, which is returned as if it had been made. Either is
    signed with the wallet's key over the hash of its data. The database is
    left alone in every case. *)
Theorem tron_signing `{EcdsaKeys} `{!Ethereum} `{!TronCrypto} `{!EthereumLaws} `{!HexutilLaws} `{HttpClient}
  `{Trongrid.TronBodies} (trongrid : Trongrid.Provider) (blockchain : string) (wallet : Wallet)
  (params : TronTransactionParams) (w : world) :
  let '(r, w') := tron_NewTransaction trongrid blockchain wallet params w in
  db w' = db w /\
  (forall signed, r = Ok signed ->
     Vault.Blockchain wallet = blockchain /\ validateTronAddress (tp_Recipient params) = true /\
     (coin_signed trongrid wallet params w signed \/ token_signed trongrid wallet params w signed)).
Proof.
  destruct (tron_NewTransaction_calls trongrid blockchain wallet params w) as [n Hw].
  destruct (tron_NewTransaction trongrid blockchain wallet params w) as [r w'] eqn:E. cbn [snd] in Hw. subst w'. split; [done|]. intros signed ->.
  unfold tron_NewTransaction in E. case_bool_decide as Eb; [|done]. cbn [negb] in E. unfold mbind, M_bind, lift in E.
  destruct (tron_validate params) as [[]|e|s] eqn:Ev; [|done..]. apply tron_validate_Ok in Ev as (Et & Er & _).
  split; [done|]. split; [done|]. apply (f_equal fst) in E. case_bool_decide as Ec.
  - apply yields_coin in E. by left.
  - destruct Et as [?|Et]; [done|]. rewrite bool_decide_true in E by done.
    apply yields_token in E as (amount & parameter & tx & Ea & Ep & Hans & Hsig).
    apply constructTronTokenTxData_Ok in Ep as (hex & Eh & ->). right. split; [done|]. exists amount, hex, tx. split_and!; try done.
    intros Ha. apply read_transfer_words; [apply HexToAddress_length|done].
Qed.

(** ** Witness: a node that refuses every call, so that the empty transaction is signed *)
#[local] Instance ex_tron_keys : EcdsaKeys := {|
  EcdsaKey := string; ecdsa_GenerateKey n := Ok (FormatInt (Z.of_nat n)); FromECDSA := string_bytes; FromECDSAPub := string_bytes;
  PubkeyToAddress _ := replicate 20 1; address_Hex _ := ex_address "1"; hexutil_Encode l := "0x" +:+ hex_EncodeToString l |}.
#[local] Instance ex_tron_ethereum : Ethereum := {|
  HexToECDSA hex := if bool_decide (hex = "") then Err (ENew "invalid length") else Ok hex;
  HexToAddress s := take 20 (string_bytes s ++ replicate 20 0);
  LeftPadBytes l n := replicate (n - length l) 0 ++ l; Keccak256 l := take 32 (l ++ replicate 32 0);
  SignedTx := EcdsaKey * DynamicFeeTx; SignNewTx key _ tx := Ok (key, tx); MarshalBinary signed := Ok (df_Data signed.2) |}.
#[local] Instance ex_tron_laws : EthereumLaws.
Proof. split; intros; unfold HexToAddress, LeftPadBytes, Keccak256, ex_tron_ethereum; [rewrite length_take, length_app, length_replicate; lia|done|rewrite length_take, length_app, length_replicate; lia]. Qed.
#[local] Instance ex_tron_hexutil : HexutilLaws := fun l => eq_refl.
#[local] Instance ex_tron_crypto : TronCrypto := {|
  base58_Decode s := string_bytes s; hexutil_Decode s := Ok (string_bytes s); crypto_Sign hash key := Ok (hash ++ string_bytes key) |}.
#[local] Instance refusing_http : HttpClient := {| valid_request _ := Ok tt; client_Do _ _ := Ok (mkResponse 200 (Ok "{}")) |}.
#[local] Instance refusing_bodies : Trongrid.TronBodies := {|
  Trongrid.json_Marshal _ := Ok "{}"; Trongrid.decode_Transaction _ := Err (ENew "EOF");
  Trongrid.decode_CallResponse _ := Ok (Trongrid.mkCallResponse
    (Trongrid.mkCallResult false "CONTRACT_VALIDATE_ERROR" "No contract or not a valid smart contract") empty_transaction);
  Trongrid.decode_Broadcast _ := Err (ENew "EOF"); Trongrid.decode_transactions _ := Ok []; Trongrid.decode_trc20 _ := Ok [];
  Trongrid.gjson_Exists _ _ := false; Trongrid.gjson_String _ _ := ""; Trongrid.gjson_Int _ _ := 0 |}.

Definition ex_trongrid : Trongrid.Provider := Trongrid.mkProvider (Trongrid.mkConfig "https://node" "https://test" "key").
Definition ex_tron_address (c : ascii) : string := "T" +:+ of_bytes (replicate 33 c).
Definition ex_tron_wallet : Wallet := mkWallet "w1" (ex_tron_address "s") "0x02" "0xkey" 0 None TRON.
Definition ex_tron_params : TronTransactionParams :=
  mkTronParams Token (ex_tron_address "a") "250" (ex_tron_address "c") 1000000 false.

Lemma tron_signing_witness : exists signed,
  (tron_NewTransaction ex_trongrid TRON ex_tron_wallet ex_tron_params empty_world).1 = Ok signed /\
  Trongrid.tt_TxID signed = "" /\ token_signed ex_trongrid ex_tron_wallet ex_tron_params empty_world signed.
Proof.
  pose proof (tron_signing ex_trongrid TRON ex_tron_wallet ex_tron_params empty_world) as Hs.
  assert (exists signed, (tron_NewTransaction ex_trongrid TRON ex_tron_wallet ex_tron_params empty_world).1 = Ok signed /\
    Trongrid.tt_TxID signed = "") as (signed & Er & Eid).
  { eexists. split; [vm_compute; reflexivity|reflexivity]. }
  exists signed. split; [done|]. split; [done|]. revert Hs. revert Er.
  destruct (tron_NewTransaction ex_trongrid TRON ex_tron_wallet ex_tron_params empty_world) as [r w1]. cbn [fst].
  intros Er [_ Hs]. destruct (Hs signed Er) as (_ & _ & [[Hc _]|Ht]); [done|exact Ht].
Defined.
