(* ===== verification/KmsServer.v ===== *)
(** * KmsServer: the key management service behind its HTTP interface

    [internal/kms]: the rest of [wallet/service.go] - one call per blockchain
    that signs a transaction -, the handlers of [api/handler.go], the
    authentication of [api/auth.go] and the responses of
    [server/http/common]. A handler reads the vault and leaves it with a reply;
    binding and validating a body is generated code, whose result is part of a
    request here. The requests are those the wallet service sends. *)

From S2P Require Import Prelude GoLib Sha256 KmsWallet Money Repository Queries Currencies Bitcoin Nodes Flow Http.
From S2P Require WalletTransaction Trongrid.
From S2P Require Import Payment Vault KmsBitcoin KmsEvm KmsTron.
Import WalletTransaction (CreateBitcoinTransactionRequest, CreateEVMTransactionRequest, CreateTronTransactionRequest).

(** ** Responses *)
Record WalletResponse := mkWalletResponse {
  wr_ID : string; wr_Blockchain : string; wr_CreatedAtUnix : Z; wr_Address : string; wr_PublicKey : string
}.
Inductive Body :=
| NoBody
| ErrorBody (message status : string)
| WalletBody (w : WalletResponse)
| RawTransactionBody (raw : string)
| TronTransactionBody (tx : Trongrid.Transaction).
Record Reply := mkReply { re_Status : Z; re_Body : Body }.

Definition StatusOK : Z := 200.
Definition StatusCreated : Z := 201.
Definition StatusNoContent : Z := 204.
Definition StatusBadRequest : Z := 400.
Definition StatusUnauthorized : Z := 401.
Definition StatusInternalServerError : Z := 500.

Definition ValidationErrorResponse (message : string) : Reply := mkReply StatusBadRequest (ErrorBody message "validation_error").
Definition NotFoundResponse (message : string) : Reply := mkReply StatusBadRequest (ErrorBody message "not_found").
Definition ErrorResponse (status : string) : Reply := mkReply StatusInternalServerError (ErrorBody "Server error" status).
(** What the framework answers when a handler returns an error before it wrote
    a response. *)
Definition unhandled : Reply := mkReply StatusInternalServerError NoBody.

(** [t.Unix()] of a time in nanoseconds *)
Definition Unix (t : Z) : Z := t / 1000000000.

Definition nil_dereference {A} : res A := Panic "invalid memory address or nil pointer dereference".
(** Reading through a pointer. *)
Definition deref {A} (p : option A) : res A := match p with Some a => Ok a | None => nil_dereference end.

Definition walletToResponse (w : option Wallet) : res WalletResponse :=
  w ← deref w;
  Ok (mkWalletResponse (UUID w) (Vault.Blockchain w) (Unix (CreatedAt w)) (Address w) (PublicKey w)).

(** The errors told to the client, and what it is told. *)
Definition told_errors : list error :=
  [ErrInvalidAddress; ErrInvalidContractAddress; ErrInvalidAmount; ErrInvalidNetwork; ErrInvalidGasSettings; ErrInvalidNonce;
   ErrTronResponse; ErrInsufficientBalance].
Definition transactionCreationFailed (err : error) : Reply :=
  if errors_Is err ErrUnknownBlockchain then ValidationErrorResponse (error_string err)
  else match List.find (errors_Is err) told_errors with
  | Some told => ValidationErrorResponse (error_string told)
  | None => unhandled
  end.

Definition tokensMatch (providedToken expectedToken : string) : bool :=
  if bool_decide (providedToken = "") || bool_decide (expectedToken = "") then false
  else bool_decide (providedToken = expectedToken).

(** ** Requests: the route, the wallet of the path and the body, [None] when
    binding or validating it fails *)
Inductive Call :=
| CallCreate (body : option string)
| CallGet (walletID : string)
| CallDelete (walletID : string)
| CallEth (walletID : string) (body : option CreateEVMTransactionRequest)
| CallBitcoin (walletID : string) (body : option CreateBitcoinTransactionRequest)
| CallMatic (walletID : string) (body : option CreateEVMTransactionRequest)
| CallBSC (walletID : string) (body : option CreateEVMTransactionRequest)
| CallTron (walletID : string) (body : option CreateTronTransactionRequest).

(** A request carries the token of its header, empty when it has none. *)
Record KmsRequest := mkKmsRequest { kq_Token : string; kq_Call : Call }.

Definition bad_body : Reply := ValidationErrorResponse "Invalid JSON".

Definition bitcoin_params (req : CreateBitcoinTransactionRequest) : BitcoinTransactionParams :=
  mkBitcoinParams
    (map (fun i => mkBitcoinUTXO (WalletTransaction.ku_Hash i) (uint32 (WalletTransaction.ku_Index i))
      (WalletTransaction.ku_AmountSats i) (WalletTransaction.ku_Script i) (WalletTransaction.ku_Address i))
      (WalletTransaction.br_Inputs req))
    (map (fun o => mkBitcoinOutput (WalletTransaction.ko_Address o) (WalletTransaction.ko_AmountSats o))
      (WalletTransaction.br_Outputs req))
    (WalletTransaction.br_IsTest req) (WalletTransaction.br_RBF req).

Definition evm_params (req : CreateEVMTransactionRequest) : EthTransactionParams :=
  mkEthParams (WalletTransaction.er_AssetType req) (WalletTransaction.er_Recipient req) (WalletTransaction.er_Amount req)
    (WalletTransaction.er_ContractAddress req) (WalletTransaction.er_NetworkID req) (WalletTransaction.er_Nonce req)
    (WalletTransaction.er_MaxPriorityPerGas req) (WalletTransaction.er_MaxFeePerGas req) (WalletTransaction.er_Gas req).

Definition tron_params (req : CreateTronTransactionRequest) : TronTransactionParams :=
  mkTronParams (WalletTransaction.tr_AssetType req) (WalletTransaction.tr_Recipient req) (WalletTransaction.tr_Amount req)
    (WalletTransaction.tr_ContractAddress req) (KmsEvm.uint64 (WalletTransaction.tr_FeeLimit req)) (WalletTransaction.tr_IsTest req).

Section Service.
Context `{Btcutil} `{Nodes} `{HdWallets} `{!HdDecode} `{Btcd} `{EcdsaKeys} `{!Ethereum} `{!TronCrypto}.
Context `{HttpClient} `{Trongrid.TronBodies} `{WalletJson} `{Bolt} `{Uuid}.
Context (g : Generator) (trongrid : Trongrid.Provider).

(** ** service.go: signing. The wallet is a pointer. *)
Definition create_evm_transaction (bc : string) (wt : option Wallet) (params : EthTransactionParams) : res string :=
  match g !! bc with
  | None => Err (ENew (bc +:+ " provider not found"))
  | Some (EthProvider blockchain) => w ← deref wt; eth_NewTransaction blockchain w params
  | Some _ => Err (ENew (bc +:+ " provider is invalid"))
  end.
Definition CreateEthereumTransaction := create_evm_transaction ETH.
Definition CreateMaticTransaction := create_evm_transaction MATIC.
Definition CreateBSCTransaction := create_evm_transaction BSC.

Definition CreateBitcoinTransaction (wt : option Wallet) (params : BitcoinTransactionParams) : res string :=
  w ← deref wt;
  if negb (isUTXOBlockchain (Vault.Blockchain w)) then
    Err (EWrap ErrUnknownBlockchain (Vault.Blockchain w +:+ " does not support UTXO transaction signing"))
  else match g !! Vault.Blockchain w with
  | None => Err (ENew (Vault.Blockchain w +:+ " provider not found"))
  | Some (BitcoinProvider blockchain) => bitcoin_NewTransaction blockchain w params
  | Some _ => Err (ENew (Vault.Blockchain w +:+ " provider is invalid"))
  end.

Definition CreateTronTransaction (wallet : option Wallet) (params : TronTransactionParams) : Go Trongrid.Transaction :=
  match g !! TRON with
  | None => fail (ENew "TRON provider not found")
  | Some (TronProvider blockchain) => w ← lift (deref wallet); tron_NewTransaction trongrid blockchain w params
  | Some _ => fail (ENew "TRON provider is invalid")
  end.

(** ** handler.go *)
Definition Create (body : option string) : Tracked Vault Reply :=
  match body with
  | None => mret bad_body
  | Some blockchain =>
    w ← try (CreateWallet g blockchain);
    match w with
    | inr _ => mret (ErrorResponse "unable to create wallet")
    | inl w => response ← call (lift (walletToResponse (Some w))); mret (mkReply StatusCreated (WalletBody response))
    end
  end.

(** The id of the path, then the wallet under it. *)
Definition found_wallet (walletID : string) (k : option Wallet -> Tracked Vault Reply) : Tracked Vault Reply :=
  match uuid_Parse walletID with
  | None => mret (ValidationErrorResponse "invalid UUID 'walletId'")
  | Some id =>
    w ← try (GetWallet id false);
    match w with
    | inr err => mret (if errors_Is err ErrNotFound then NotFoundResponse (error_string ErrNotFound) else unhandled)
    | inl w => k w
    end
  end.

Definition Get_ (walletID : string) : Tracked Vault Reply :=
  found_wallet walletID (fun w =>
    response ← call (lift (walletToResponse w));
    mret (mkReply StatusOK (WalletBody response))).

Definition Delete (walletID : string) : Tracked Vault Reply :=
  match uuid_Parse walletID with
  | None => mret (ValidationErrorResponse "invalid UUID 'walletId'")
  | Some id =>
    deleted ← try (DeleteWallet id);
    match deleted with
    | inr err => mret (if errors_Is err ErrNotFound then NotFoundResponse (error_string ErrNotFound) else unhandled)
    | inl _ => mret (mkReply StatusNoContent NoBody)
    end
  end.

(** A transaction is made from a wallet and a body, and replied. *)
Definition create_transaction {Req Tx} (walletID : string) (body : option Req) (make : option Wallet -> Req -> Go Tx)
  (reply : Tx -> Body) : Tracked Vault Reply :=
  found_wallet walletID (fun w =>
    match body with
    | None => mret bad_body
    | Some req =>
      tx ← try (call (make w req));
      mret (match tx with
        | inr err => transactionCreationFailed err
        | inl tx => mkReply StatusCreated (reply tx)
        end)
    end).

Definition evm_handler (create : option Wallet -> EthTransactionParams -> res string) (walletID : string)
  (body : option CreateEVMTransactionRequest) : Tracked Vault Reply :=
  create_transaction walletID body (fun w req => lift (create w (evm_params req))) RawTransactionBody.

Definition Handler_CreateEthereumTransaction := evm_handler CreateEthereumTransaction.
Definition Handler_CreateMaticTransaction := evm_handler CreateMaticTransaction.
Definition Handler_CreateBSCTransaction := evm_handler CreateBSCTransaction.
Definition Handler_CreateBitcoinTransaction (walletID : string) (body : option CreateBitcoinTransactionRequest) : Tracked Vault Reply :=
  create_transaction walletID body (fun w req => lift (CreateBitcoinTransaction w (bitcoin_params req))) RawTransactionBody.
Definition Handler_CreateTronTransaction (walletID : string) (body : option CreateTronTransactionRequest) : Tracked Vault Reply :=
  create_transaction walletID body (fun w req => CreateTronTransaction w (tron_params req)) TronTransactionBody.

Definition handle (c : Call) : Tracked Vault Reply :=
  match c with
  | CallCreate body => Create body
  | CallGet walletID => Get_ walletID
  | CallDelete walletID => Delete walletID
  | CallEth walletID body => Handler_CreateEthereumTransaction walletID body
  | CallBitcoin walletID body => Handler_CreateBitcoinTransaction walletID body
  | CallMatic walletID body => Handler_CreateMaticTransaction walletID body
  | CallBSC walletID body => Handler_CreateBSCTransaction walletID body
  | CallTron walletID body => Handler_CreateTronTransaction walletID body
  end.

(** ** auth.go *)
Definition Authenticate (expectedToken : string) (next : Call -> Tracked Vault Reply) (r : KmsRequest) : Tracked Vault Reply :=
  if negb (tokensMatch (kq_Token r) expectedToken) then
    mret (mkReply StatusUnauthorized (ErrorBody "Unauthorized" "auth_error"))
  else next (kq_Call r).

(** One request: its reply, [None] when the handler panicked. The server lives
    on, and the vault, which is written by the last effect of a handler, is as
    before. *)
Definition serve (authToken : string) (r : KmsRequest) (v : Vault) : Go (Vault * option Reply) := fun w =>
  match Authenticate authToken handle r v w with
  | (Ok (v', inl reply), w') => (Ok (v', Some reply), w')
  | (Ok (v', inr _), w') => (Ok (v', Some unhandled), w')
  | (_, w') => (Ok (v, None), w')
  end.

Fixpoint serve_all (authToken : string) (rs : list KmsRequest) (v : Vault) : Go (Vault * list (option Reply)) :=
  match rs with
  | [] => mret (v, [])
  | r :: rs =>
    '(v, reply) ← serve authToken r v;
    '(v, replies) ← serve_all authToken rs v;
    mret (v, reply :: replies)
  end.
End Service.
