(* ===== verification/KmsHistory.v ===== *)
(** * KmsHistory: what the key management service keeps over its life

    Lemmas and properties of [Vault] and [KmsServer]: who is answered at all,
    what every stored wallet is, that no key is lost whatever requests arrive,
    and the life of one wallet. *)

From S2P Require Import Prelude GoLib Sha256 KmsWallet Money Repository Queries Currencies Bitcoin Nodes Flow Http.
From S2P Require WalletTransaction Trongrid.
From S2P Require Import Payment Vault KmsBitcoin KmsEvm KmsTron KmsServer.

(** The wallet under an id. *)
Definition wallets `{WalletJson} (v : Vault) (id : string) : option Wallet := bucket ← v; stored bucket id.

(** [b] is [a], deleted perhaps: a deletion is not undone. *)
Definition kept (a b : Wallet) : Prop :=
  UUID b = UUID a /\ Address b = Address a /\ PublicKey b = PublicKey a /\ PrivateKey b = PrivateKey a /\
  CreatedAt b = CreatedAt a /\ Blockchain b = Blockchain a /\ (DeletedAt a <> None -> DeletedAt b = DeletedAt a).

#[export] Instance kept_preorder : PreOrder kept.
Proof.
  split; unfold kept; [intros a; by split_and!|]. intros a b c (A1 & A2 & A3 & A4 & A5 & A6 & A7) (B1 & B2 & B3 & B4 & B5 & B6 & B7).
  split_and!; try congruence. intros Hd. rewrite B7; rewrite A7; done.
Qed.

(** No wallet is lost; those without a key, which share the nil id, are no
    wallets in this sense. *)
Definition keeps `{WalletJson} (v v' : Vault) : Prop :=
  forall id wt, id <> uuid_Nil -> wallets v id = Some wt -> exists wt', wallets v' id = Some wt' /\ kept wt wt'.

(** The ids that are drawn differ, from each other and from the nil id. *)
Definition source (w : world) : Prop := (forall n m, uuids w n = uuids w m -> n = m) /\ forall n, uuids w n <> uuid_Nil.

Section Vault.
Context `{Btcutil} `{WalletJson}.

(** A wallet is stored under its own id, drawn before; it is of a known
    blockchain and its address is one of its main network - unless it was made
    without entropy, and is blank, under the nil id. *)
Definition wallet_ok (w : world) (id : string) (wt : Wallet) : Prop :=
  UUID wt = id /\
  ((id = uuid_Nil /\ Address wt = "" /\ PublicKey wt = "" /\ PrivateKey wt = "" /\ Blockchain wt = "") \/
   (exists n, (n < drawn w)%nat /\ id = uuids w n) /\ IsValid (Blockchain wt) = true /\ well_addressed wt).

(** Every value of the bucket is such a wallet. *)
Definition vault_ok (v : Vault) (w : world) : Prop := exists bucket, v = Some bucket /\
  forall id raw, bucket !! id = Some raw -> raw <> "" /\ exists wt, json_Unmarshal raw = Some wt /\ wallet_ok w id wt.

Definition evolves (v : Vault) (w : world) (v' : Vault) (w' : world) : Prop :=
  draws w w' /\ (source w -> vault_ok v w -> vault_ok v' w' /\ keeps v v').

Lemma source_draws w w' : draws w w' -> source w -> source w'.
Proof. intros [E _] Hs. unfold source. by rewrite E. Qed.

Lemma wallet_ok_draws w w' id wt : draws w w' -> wallet_ok w id wt -> wallet_ok w' id wt.
Proof.
  intros [E Hle] [Hid Hw]. split; [done|]. destruct Hw as [?|[(n & ? & ->) ?]]; [by left|]. right. split; [|done].
  exists n. rewrite E. split; [lia|done].
Qed.

Lemma vault_ok_draws v w w' : draws w w' -> vault_ok v w -> vault_ok v w'.
Proof.
  intros Hd (bucket & -> & Hb). exists bucket. split; [done|]. intros id raw Hr. destruct (Hb id raw Hr) as (? & wt & ? & ?).
  split; [done|]. exists wt. split; [done|]. by eapply wallet_ok_draws.
Qed.

Lemma keeps_refl v : keeps v v.
Proof. intros id wt _ Hw. by exists wt. Qed.

Lemma evolves_same v w w' : draws w w' -> evolves v w v w'.
Proof. intros Hd. split; [done|]. intros _ Hv. split; [by eapply vault_ok_draws|apply keeps_refl]. Qed.

#[export] Instance evolves_rel : Rel evolves.
Proof.
  split; [intros v w; apply evolves_same; reflexivity|]. intros v w v1 w1 v2 w2 [D1 H1] [D2 H2]. split; [by transitivity w1|].
  intros Hs Hv. destruct (H1 Hs Hv) as [Hv1 Hk1]. destruct (H2 (source_draws _ _ D1 Hs) Hv1) as [Hv2 Hk2]. split; [done|].
  intros id wt Hid Hw. destruct (Hk1 id wt Hid Hw) as (wt1 & Hw1 & K1). destruct (Hk2 id wt1 Hid Hw1) as (wt2 & Hw2 & K2).
  exists wt2. split; [done|]. by transitivity wt1.
Qed.

Context `{!WalletJsonLaws} `{Bolt}.

Lemma stored_insert (bucket : gmap string string) id raw wt : json_Marshal wt = Ok raw ->
  forall id', stored (<[id := raw]> bucket) id' = if decide (id' = id) then Some wt else stored bucket id'.
Proof.
  intros Hm id'. apply json_roundtrip in Hm as [Hne Hu]. unfold stored. destruct (decide (id' = id)) as [->|Hid].
  - rewrite lookup_insert_eq. cbn. by rewrite bool_decide_false.
  - by rewrite lookup_insert_ne.
Qed.

(** Storing a wallet: its value is put into the bucket, or nothing happens. *)
Lemma Set_spec wt v w v' r w' : Set_ wt v w = (Ok (v', r), w') ->
  only_calls w w' /\ ((exists e, r = inr e /\ v' = v) \/
    exists bucket raw, v = Some bucket /\ json_Marshal wt = Ok raw /\ r = inl tt /\ v' = Some (<[UUID wt := raw]> bucket)).
Proof.
  unfold Set_, mbind, M_bind, attempt, external. destruct (bolt_Begin true (calls w)) as [u|e|s]; [| |done].
  2:{ intros [= <- <- <-]. split; [by exists (S (calls w))|]. left. by exists e. }
  destruct (json_Marshal wt) as [raw|e|s] eqn:Em; [| |done].
  2:{ intros [= <- <- <-]. split; [by exists (S (calls w))|]. left. by exists e. }
  destruct v as [bucket|]; [|done]. cbn [mustResolveBucket mret M_ret calls].
  destruct (bolt_Commit (S (calls w))) as [u'|e|s]; [| |done]; intros [= <- <- <-].
  - split; [by exists (S (S (calls w)))|]. right. by exists bucket, raw.
  - split; [by exists (S (S (calls w)))|]. left. by exists e.
Qed.

Lemma Set_draws wt v : wsteps draws (Set_ wt v).
Proof.
  apply wsteps_bind; [tc_solve|apply wsteps_attempt, external_draws|]. intros [u|e]; [|apply wsteps_ret; tc_solve].
  destruct (json_Marshal wt); [|apply wsteps_ret; tc_solve|apply wsteps_panic; tc_solve].
  apply wsteps_bind; [tc_solve| |].
  - destruct v; [apply wsteps_ret|apply wsteps_panic]; tc_solve.
  - intros bucket. apply wsteps_bind; [tc_solve|apply wsteps_attempt, external_draws|]. intros [|]; apply wsteps_ret; tc_solve.
Qed.

(** A wallet that is well formed, and keeps what its id held. *)
Lemma put_evolves bucket wt raw w w' : draws w w' -> json_Marshal wt = Ok raw ->
  (source w -> vault_ok (Some bucket) w -> wallet_ok w' (UUID wt) wt /\
     forall old, UUID wt <> uuid_Nil -> stored bucket (UUID wt) = Some old -> kept old wt) ->
  evolves (Some bucket) w (Some (<[UUID wt := raw]> bucket)) w'.
Proof.
  intros Hd Hm Hok. split; [done|]. intros Hs Hv. destruct (Hok Hs Hv) as [Hw Hold]. split.
  - exists (<[UUID wt := raw]> bucket). split; [done|]. intros id raw'. destruct (decide (id = UUID wt)) as [->|Hid].
    + rewrite lookup_insert_eq. intros [= <-]. apply json_roundtrip in Hm as [? ?]. split; [done|]. by exists wt.
    + rewrite lookup_insert_ne by done. destruct Hv as (b & [= <-] & Hb). intros Hr. destruct (Hb id raw' Hr) as (? & wt' & ? & ?).
      split; [done|]. exists wt'. split; [done|]. by eapply wallet_ok_draws.
  - intros id old Hne. unfold wallets. cbn. rewrite (stored_insert bucket _ _ _ Hm).
    destruct (decide (id = UUID wt)) as [->|]; intros Hst; [|by exists old]. exists wt. split; [done|]. by apply Hold.
Qed.

Lemma stored_ok bucket w id wt : vault_ok (Some bucket) w -> stored bucket id = Some wt -> wallet_ok w id wt.
Proof.
  intros (b & [= <-] & Hb). unfold stored. destruct (bucket !! id) as [raw|] eqn:E; [|done]. cbn. case_bool_decide; [done|].
  destruct (Hb id raw E) as (_ & wt' & -> & Hok). by intros [= <-].
Qed.

(** *** Reading *)
Lemma Get_spec id withTrashed v w v' r w' : Get id withTrashed v w = (Ok (v', r), w') ->
  v' = v /\ only_calls w w' /\ match r with
    | inr e => e = ErrNotFound
    | inl None => withTrashed = false /\ exists wt, wallets v id = Some wt /\ DeletedAt wt <> None
    | inl (Some wt) => wallets v id = Some wt /\ (withTrashed = false -> DeletedAt wt = None)
    end.
Proof.
  unfold Get, mbind, M_bind, attempt, external. destruct (bolt_Begin false (calls w)) as [u|e|s]; [| |done].
  2:{ intros [= <- <- <-]. split; [done|]. split; [by exists (S (calls w))|done]. }
  destruct v as [bucket|]; [|done]. cbn [mustResolveBucket mret M_ret]. intros [= <- <- <-]. split; [done|].
  split; [by exists (S (calls w))|]. cbn. destruct (stored bucket id) as [wt|]; [|done].
  destruct (DeletedAt wt) eqn:Ed; [rewrite bool_decide_true by done|rewrite bool_decide_false by auto];
    destruct withTrashed; cbn [negb andb]; rewrite ?Ed; try done.
  split; [done|]. exists wt. by rewrite Ed.
Qed.

Lemma Get_draws id withTrashed v : wsteps draws (Get id withTrashed v).
Proof.
  apply wsteps_bind; [tc_solve|apply wsteps_attempt, external_draws|]. intros [u|e]; [|apply wsteps_ret; tc_solve].
  apply wsteps_bind; [tc_solve| |intros; apply wsteps_ret; tc_solve]. destruct v; [apply wsteps_ret|apply wsteps_panic]; tc_solve.
Qed.

Lemma Get_evolves id withTrashed : tsteps evolves (Get id withTrashed).
Proof. intros v w v' r w' (-> & Hc & _)%Get_spec. by apply evolves_same, only_calls_draws. Qed.

(** *** Deleting *)
Lemma DeleteWallet_evolves id : tsteps evolves (DeleteWallet id).
Proof.
  intros v w v' r w'. unfold DeleteWallet, GetWallet. rewrite tbind_run. unfold mbind at 1, M_bind at 1.
  destruct (Get id false v w) as [[[v1 [wt|e]]|e|s] w1] eqn:Eg; [| |done..].
  2:{ intros [= <- <- <-]. by eapply Get_evolves. }
  apply Get_spec in Eg as (-> & Hc & Hg). apply only_calls_draws in Hc. destruct wt as [wt|]; [|done].
  destruct Hg as [Hw Hlive]. cbn [SoftDelete]. rewrite (Hlive eq_refl). rewrite tbind_run. cbn. intros (Hc' & Hs)%Set_spec.
  apply only_calls_draws in Hc'.
  assert (draws w w') as Hd by (transitivity w1; [done|]; destruct Hc' as [E L]; split; [done|exact L]).
  destruct Hs as [(e & -> & ->)|(bucket & raw & -> & Hm & -> & ->)]; [by apply evolves_same|].
  apply put_evolves; [done..|]. intros _ Hv. cbn [wallets mbind option_bind] in Hw.
  pose proof (stored_ok _ _ _ _ Hv Hw) as Hok. pose proof (proj1 Hok) as Hid. cbn [trashed UUID]. rewrite Hid. split.
  - apply (wallet_ok_draws w); [done|]. exact Hok.
  - intros old _. rewrite Hw. intros [= <-]. unfold kept. cbn. rewrite (Hlive eq_refl). by split_and!.
Qed.

Lemma DeleteWallet_draws id v : wsteps draws (DeleteWallet id v).
Proof.
  apply wsteps_tbind; [tc_solve|apply Get_draws|]. intros [wt|] v'; [|apply wsteps_call; [tc_solve|apply wsteps_panic; tc_solve]].
  unfold SoftDelete. destruct (DeletedAt wt); [apply Set_draws|]. apply wsteps_tbind; [tc_solve|apply wsteps_call, now_draws; tc_solve|].
  intros now v1. apply Set_draws.
Qed.
End Vault.

(** ** Lemmas: the handlers *)
Section Handlers.
Context `{Btcutil} `{Nodes} `{HdWallets} `{!HdWalletLaws} `{!HdDecode} `{Btcd} `{EcdsaKeys} `{!EcdsaLaws} `{!Base58Laws}.
Context `{!Ethereum} `{!TronCrypto} `{HttpClient} `{Trongrid.TronBodies} `{WalletJson} `{!WalletJsonLaws} `{Bolt} `{Uuid}.
Context (g : Generator) (Hg : generator_ok g) (trongrid : Trongrid.Provider).

Lemma generated_ok bc w r w' : IsValid bc = true -> generated bc w r w' -> draws w w' /\ wallet_ok w' (UUID r) r /\
  (source w -> UUID r <> uuid_Nil -> UUID r = uuids w (drawn w)).
Proof.
  intros Hbc [E [[-> Hd]|(Hid & Hd & Hdel & Hb & Ha)]].
  - split; [split; [done|lia]|]. split; [split; [done|left; by split_and!]|by intros _ []].
  - split; [split; [done|lia]|]. split; [|done]. split; [done|]. right. rewrite Hb. split; [|done].
    exists (drawn w). rewrite E. split; [lia|done].
Qed.

Lemma CreateWallet_evolves bc : tsteps evolves (CreateWallet g bc).
Proof.
  intros v w v' r w'. unfold CreateWallet. rewrite tbind_run. unfold call, attempt, try, mbind, Tracked_bind, mbind, M_bind.
  destruct (generator_CreateWallet g bc w) as [[wt|e|s] w1] eqn:Eg; [| |done].
  2:{ cbn. intros [= <- <- <-]. apply evolves_same. pose proof (generator_CreateWallet_draws g bc w) as Hd. by rewrite Eg in Hd. }
  cbn [mret M_ret].
  destruct (Set_ wt v w1) as [[[v2 r2]|e|s] w2] eqn:Es; [|done..]. cbn [mret M_ret].
  apply (generator_CreateWallet_spec g bc w wt w1 Hg) in Eg as [Hbc Hgen].
  destruct (generated_ok _ _ _ _ Hbc Hgen) as (Hd1 & Hok & Hid).
  apply Set_spec in Es as [Hc Hs]. apply only_calls_draws in Hc. assert (draws w w2) as Hd by by transitivity w1.
  intros E. assert (v' = v2 /\ w' = w2) as [-> ->].
  { by destruct r2; injection E as <- _ <-. }
  clear E.
  destruct Hs as [(e & _ & ->)|(bucket & raw & -> & Hm & _ & ->)]; [by apply evolves_same|].
  apply put_evolves; [done..|]. intros Hsrc Hv. split; [by apply (wallet_ok_draws w1)|]. intros old Hne Hold. exfalso.
  specialize (Hid Hsrc Hne). rewrite Hid in Hold, Hne. destruct (stored_ok _ _ _ _ Hv Hold) as [_ [[? _]|[(n & Hn & En) _]]]; [done|].
  apply (proj1 Hsrc) in En. lia.
Qed.

Lemma wsteps_try {S A} R `{!PreOrder R} (m : Tracked S A) s : wsteps R (m s) -> wsteps R (try m s).
Proof. intros Hm. apply wsteps_bind; [done..|]. intros [s' r]. by apply wsteps_ret. Qed.

Lemma CreateWallet_draws bc v : wsteps draws (CreateWallet g bc v).
Proof.
  apply wsteps_tbind; [tc_solve|apply wsteps_call; [tc_solve|apply generator_CreateWallet_draws]|]. intros wt v1.
  apply wsteps_tbind; [tc_solve|apply wsteps_try, Set_draws; tc_solve|]. intros [u|e] v2; apply wsteps_ret; tc_solve.
Qed.

(** A handler that keeps the rules. *)
Definition lawful {A} (m : Tracked Vault A) : Prop := tsteps evolves m /\ forall v, wsteps draws (m v).

Lemma lawful_ret {A} (a : A) : lawful (mret a).
Proof. split; [apply tsteps_ret; tc_solve|]. intros v. apply wsteps_ret. tc_solve. Qed.
Lemma lawful_call {A} (m : Go A) : wsteps draws m -> lawful (call m).
Proof.
  intros Hm. split; [apply tsteps_call; intros v w; by apply evolves_same|]. intros v. apply wsteps_call; [tc_solve|done].
Qed.
Lemma lawful_lift {A} (r : res A) : lawful (call (lift r)).
Proof. apply lawful_call, wsteps_lift. tc_solve. Qed.
Lemma lawful_bind {A B} (m : Tracked Vault A) (f : A -> Tracked Vault B) : lawful m -> (forall a, lawful (f a)) -> lawful (m ≫= f).
Proof.
  intros [Hm Hm'] Hf. split; [apply tsteps_bind; [tc_solve|done|apply Hf]|]. intros v. apply wsteps_tbind; [tc_solve|done|].
  intros a v'. apply Hf.
Qed.
Lemma lawful_try {A} (m : Tracked Vault A) : lawful m -> lawful (try m).
Proof. intros [Hm Hm']. split; [by apply tsteps_try|]. intros v. apply wsteps_try; [tc_solve|apply Hm']. Qed.

Lemma lawful_found walletID k : (forall w, lawful (k w)) -> lawful (found_wallet walletID k).
Proof.
  intros Hk. unfold found_wallet. destruct (uuid_Parse walletID) as [id|]; [|apply lawful_ret].
  apply lawful_bind; [apply lawful_try; split; [apply Get_evolves|apply Get_draws]|]. intros [w|e]; [apply Hk|apply lawful_ret].
Qed.

Lemma lawful_create {Req Tx} walletID (body : option Req) (make : option Wallet -> Req -> Go Tx) reply :
  (forall w req, wsteps draws (make w req)) -> lawful (create_transaction walletID body make reply).
Proof.
  intros Hm. apply lawful_found. intros w. destruct body as [req|]; [|apply lawful_ret].
  apply lawful_bind; [by apply lawful_try, lawful_call|]. intros tx. apply lawful_ret.
Qed.

Lemma CreateTronTransaction_draws w params : wsteps draws (CreateTronTransaction g trongrid w params).
Proof.
  unfold CreateTronTransaction. destruct (g !! TRON) as [[bc|bc|bc]|]; try (apply wsteps_fail; tc_solve).
  apply wsteps_bind; [tc_solve|apply wsteps_lift; tc_solve|]. intros wallet.
  eapply wsteps_mono; [exact only_calls_draws|apply tron_NewTransaction_calls].
Qed.

Lemma handle_lawful c : lawful (handle g trongrid c).
Proof.
  destruct c as [body|id|id|id body|id body|id body|id body|id body]; cbn [handle];
    try (apply lawful_create; intros; apply wsteps_lift; tc_solve).
  - unfold Create. destruct body as [bc|]; [|apply lawful_ret]. apply lawful_bind.
    + apply lawful_try. split; [apply CreateWallet_evolves|apply CreateWallet_draws].
    + intros [w|e]; [|apply lawful_ret]. apply lawful_bind; [apply lawful_lift|intros; apply lawful_ret].
  - apply lawful_found. intros w. apply lawful_bind; [apply lawful_lift|intros; apply lawful_ret].
  - unfold Delete. destruct (uuid_Parse id); [|apply lawful_ret]. apply lawful_bind.
    + apply lawful_try. split; [apply DeleteWallet_evolves|apply DeleteWallet_draws].
    + intros [u|e]; apply lawful_ret.
  - apply lawful_create. intros. apply CreateTronTransaction_draws.
Qed.

(** The server always answers, and its vault evolves. *)
Lemma serve_evolves token r v w : exists v' reply w', serve g trongrid token r v w = (Ok (v', reply), w') /\ evolves v w v' w'.
Proof.
  assert (lawful (Authenticate token (handle g trongrid) r)) as [Hr Hd].
  { unfold Authenticate. destruct (negb _); [apply lawful_ret|apply handle_lawful]. }
  unfold serve. specialize (Hr v w). specialize (Hd v w).
  destruct (Authenticate token (handle g trongrid) r v w) as [[[v' [reply|e]]|e|s] w'] eqn:E; eexists _, _, _; (split; [reflexivity|]).
  - by eapply Hr.
  - by eapply Hr.
  - by apply evolves_same.
  - by apply evolves_same.
Qed.

Lemma serve_all_evolves token rs : forall v w, exists v' replies w',
  serve_all g trongrid token rs v w = (Ok (v', replies), w') /\ length replies = length rs /\ evolves v w v' w'.
Proof.
  induction rs as [|r rs IH]; intros v w; cbn [serve_all].
  - exists v, [], w. split; [done|]. split; [done|]. apply evolves_same. reflexivity.
  - destruct (serve_evolves token r v w) as (v1 & reply & w1 & E1 & Hev). destruct (IH v1 w1) as (v2 & replies & w2 & E2 & Hlen & Hevs).
    exists v2, (reply :: replies), w2. unfold mbind, M_bind. rewrite E1, E2. split; [done|]. split; [cbn; lia|].
    by eapply rel_trans.
Qed.
End Handlers.

(** ** Lemmas: one wallet, when the file under the bucket works *)
Class BoltUp `{Bolt} : Prop := {
  begin_ok writable n : bolt_Begin writable n = Ok tt;
  commit_ok n : bolt_Commit n = Ok tt
}.

Section Life.
Context `{WalletJson} `{!WalletJsonLaws} `{Bolt} `{!BoltUp}.

Lemma Get_up id bucket w : exists w', Get id false (Some bucket) w =
  (Ok (Some bucket, match stored bucket id with
    | None => inr ErrNotFound
    | Some wt => inl (if bool_decide (DeletedAt wt <> None) then None else Some wt)
    end), w').
Proof.
  unfold Get, mbind, M_bind, attempt, external. rewrite begin_ok. cbn [mustResolveBucket mret M_ret]. eexists. repeat f_equal.
  destruct (stored bucket id) as [wt|]; [|done]. rewrite andb_true_r. by case_bool_decide.
Qed.

Lemma Set_up wt raw bucket w : json_Marshal wt = Ok raw ->
  exists w', Set_ wt (Some bucket) w = (Ok (Some (<[UUID wt := raw]> bucket), inl tt), w').
Proof.
  intros Hm. unfold Set_, mbind, M_bind, attempt, external. rewrite begin_ok, Hm. cbn [mustResolveBucket mret M_ret calls].
  rewrite commit_ok. by eexists.
Qed.

Lemma Delete_up id wt bucket w : stored bucket id = Some wt -> DeletedAt wt = None -> (forall wt, is_ok (json_Marshal wt) = true) ->
  exists now raw w', json_Marshal (trashed now wt) = Ok raw /\
    DeleteWallet id (Some bucket) w = (Ok (Some (<[UUID wt := raw]> bucket), inl tt), w').
Proof.
  intros Hst Hlive Hm. destruct (Get_up id bucket w) as [w1 Eg]. rewrite Hst, bool_decide_false in Eg by auto.
  exists (clock w1 (ticks w1)). pose proof (Hm (trashed (clock w1 (ticks w1)) wt)) as Hok.
  destruct (json_Marshal (trashed (clock w1 (ticks w1)) wt)) as [raw|e|s] eqn:Ed; [|done..]. exists raw.
  destruct (Set_up (trashed (clock w1 (ticks w1)) wt) raw bucket
    (mkWorld (db w1) (clock w1) (S (ticks w1)) (uuids w1) (drawn w1) (calls w1) (rates w1)) Ed) as [w2 E2].
  exists w2. split; [done|]. unfold DeleteWallet, GetWallet, mbind, Tracked_bind, mbind, M_bind. rewrite Eg. cbn [SoftDelete].
  rewrite Hlive. exact E2.
Qed.

Context `{Btcutil} `{Nodes} `{HdWallets} `{!HdWalletLaws} `{!HdDecode} `{Btcd} `{EcdsaKeys} `{!EcdsaLaws} `{!Base58Laws}.
Context `{!Ethereum} `{!TronCrypto} `{HttpClient} `{Trongrid.TronBodies} `{Uuid}.
Context (trongrid : Trongrid.Provider) (authToken : string) (Ht : authToken <> "").

Definition ask (c : Call) (v : Vault) (w : world) : res (Vault * option Reply) :=
  (serve walletGenerator trongrid authToken (mkKmsRequest authToken c) v w).1.

Lemma ask_eq c v w : ask c v w = match (handle walletGenerator trongrid c v w).1 with
  | Ok (v', inl reply) => Ok (v', Some reply)
  | Ok (v', inr _) => Ok (v', Some unhandled)
  | _ => Ok (v, None)
  end.
Proof.
  unfold ask, serve, Authenticate, tokensMatch. cbn [kq_Token kq_Call]. rewrite (bool_decide_false _ Ht), (bool_decide_true (authToken = authToken)) by done.
  cbn [orb negb]. by destruct (handle walletGenerator trongrid c v w) as [[[v' [r|e]]|e|s] w'].
Qed.

(** What a created wallet leaves behind. *)
Lemma Create_inv bc bucket w v1 response w1 :
  Create walletGenerator (Some bc) (Some bucket) w = (Ok (v1, inl (mkReply StatusCreated (WalletBody response))), w1) ->
  exists wt raw, json_Marshal wt = Ok raw /\ v1 = Some (<[UUID wt := raw]> bucket) /\ DeletedAt wt = None /\
    walletToResponse (Some wt) = Ok response.
Proof.
  unfold Create, CreateWallet, call, attempt, try, stop, lift, mbind, Tracked_bind, mbind, M_bind.
  destruct (generator_CreateWallet walletGenerator bc w) as [[wt|e|s] w0] eqn:Eg; [|done..]. cbn [mret M_ret].
  destruct (Set_ wt (Some bucket) w0) as [[[v2 [u|e]]|e|s] w2] eqn:Es; cbn [mret M_ret Tracked_ret]; [|done..].
  apply Set_spec in Es as [_ [(e & ? & _)|(b & raw & [= <-] & Hm & _ & ->)]]; [done|]. intros E.
  exists wt, raw. split; [done|]. cbn in E. injection E as <- <- _. split; [done|]. split; [|done].
  apply generator_CreateWallet_spec in Eg as [_ [_ [[-> _]|(_ & _ & ? & _)]]]; [done..|apply walletGenerator_ok].
Qed.

Lemma found_up walletID id k bucket w wt : uuid_Parse walletID = Some id -> stored bucket id = Some wt ->
  exists w', found_wallet walletID k (Some bucket) w = k (if bool_decide (DeletedAt wt <> None) then None else Some wt) (Some bucket) w'.
Proof.
  intros Hp Hst. unfold found_wallet. rewrite Hp. destruct (Get_up id bucket w) as [w' E]. exists w'.
  rewrite tbind_run. unfold try, GetWallet, mbind, M_bind. rewrite E, Hst. done.
Qed.

(** Every call that reads through the pointer of a deleted wallet panics. *)
Lemma deleted_panics walletID id bucket w wt c : uuid_Parse walletID = Some id -> stored bucket id = Some wt -> DeletedAt wt <> None ->
  c ∈ [CallGet walletID; CallDelete walletID] \/ (exists req, c ∈ [CallEth walletID (Some req); CallMatic walletID (Some req); CallBSC walletID (Some req)]) \/
  (exists req, c = CallBitcoin walletID (Some req)) \/ (exists req, c = CallTron walletID (Some req)) ->
  ask c (Some bucket) w = Ok (Some bucket, None).
Proof.
  intros Hp Hst Hd Hc. rewrite ask_eq.
  assert (forall k, exists w', found_wallet walletID k (Some bucket) w = k None (Some bucket) w') as Hf.
  { intros k. destruct (found_up walletID id k bucket w wt Hp Hst) as [w' E]. exists w'. by rewrite bool_decide_true in E. }
  destruct Hc as [Hc|[(req & Hc)|[(req & ->)|(req & ->)]]].
  - apply elem_of_cons in Hc as [->|Hc]; [cbn [handle]; unfold Get_; edestruct Hf as [w' ->]; done|].
    apply list_elem_of_singleton in Hc as ->. cbn [handle]. unfold Delete. rewrite Hp.
    unfold try, DeleteWallet, GetWallet, mbind, Tracked_bind, mbind, M_bind. destruct (Get_up id bucket w) as [w' E].
    by rewrite E, Hst, bool_decide_true.
  - repeat (apply elem_of_cons in Hc as [->|Hc]; [cbn [handle]; unfold Handler_CreateEthereumTransaction, Handler_CreateMaticTransaction, Handler_CreateBSCTransaction, evm_handler, create_transaction; edestruct Hf as [w' ->]; vm_compute; done|]).
    by apply not_elem_of_nil in Hc.
  - cbn [handle]. unfold Handler_CreateBitcoinTransaction, create_transaction. edestruct Hf as [w' ->]. done.
  - cbn [handle]. unfold Handler_CreateTronTransaction, create_transaction. edestruct Hf as [w' ->]. vm_compute. done.
Qed.
End Life.

(** ** Properties *)

(** C11. Nobody without the token gets anything: a request whose token is not
    the configured one is answered with 401 and leaves the vault and the world
    as they were, whatever it asks for, and so does a whole run of such
    requests; without a configured token, that is every request. *)
Theorem kms_requires_token `{Btcutil} `{Nodes} `{HdWallets} `{!HdDecode} `{Btcd} `{EcdsaKeys} `{!Ethereum} `{!TronCrypto}
  `{HttpClient} `{Trongrid.TronBodies} `{WalletJson} `{Bolt} `{Uuid} (g : Generator) (trongrid : Trongrid.Provider)
  (authToken : string) (rs : list KmsRequest) (v : Vault) (w : world)
  (Hrs : authToken = "" \/ Forall (fun r => kq_Token r <> authToken) rs) :
  serve_all g trongrid authToken rs v w =
    (Ok (v, replicate (length rs) (Some (mkReply StatusUnauthorized (ErrorBody "Unauthorized" "auth_error")))), w).
Proof.
  assert (Forall (fun r => tokensMatch (kq_Token r) authToken = false) rs) as Hf.
  { destruct Hrs as [->|Hrs]; [apply Forall_forall; intros r _; unfold tokensMatch; by rewrite orb_true_r|].
    eapply Forall_impl; [exact Hrs|]. intros r Hr. unfold tokensMatch. rewrite (bool_decide_false _ Hr). by destruct (_ || _). }
  clear Hrs. induction Hf as [|r rs Hr Hf IH]; cbn [serve_all length replicate]; [done|].
  unfold mbind, M_bind, serve, Authenticate. rewrite Hr. cbn [negb mret Tracked_ret M_ret]. by rewrite IH.
Qed.

(** C10. The vault loses no key: from a vault that is well formed, whatever
    requests are served, whatever fails or panics in between, every request is
    answered, the vault stays well formed - each wallet under its own id, of a
    known blockchain, with an address of its main network - and every wallet it
    held is there still, with its address, its keys and its blockchain; once
    deleted it stays deleted. A new vault is well formed. *)
Theorem keys_never_lost `{Btcutil} `{Nodes} `{HdWallets} `{!HdWalletLaws} `{!HdDecode} `{Btcd} `{EcdsaKeys} `{!EcdsaLaws}
  `{!Base58Laws} `{!Ethereum} `{!TronCrypto} `{HttpClient} `{Trongrid.TronBodies} `{WalletJson} `{!WalletJsonLaws}
  `{Bolt} `{Uuid} (trongrid : Trongrid.Provider) (authToken : string) (rs : list KmsRequest) (v : Vault) (w : world)
  (Hs : source w) :
  vault_ok (LoadBuckets None) w /\
  (vault_ok v w -> exists v' replies w', serve_all walletGenerator trongrid authToken rs v w = (Ok (v', replies), w') /\
     length replies = length rs /\ vault_ok v' w' /\ keeps v v').
Proof.
  split; [by exists ∅|]. intros Hv.
  destruct (serve_all_evolves walletGenerator walletGenerator_ok trongrid authToken rs v w) as (v' & replies & w' & E & Hlen & [_ Hev]).
  exists v', replies, w'. destruct (Hev Hs Hv). by split_and!.
Qed.


(** C20. The life of a wallet: when the file works, a wallet whose creation was
    answered with 201 is read with the same answer; it is deleted with 204, no
    other wallet being touched; after that every call with its id - reading it,
    deleting it again, signing with it - dereferences a pointer to no wallet and
    panics, where an unknown id is answered as not found. *)
Theorem wallet_lifecycle `{Btcutil} `{Nodes} `{HdWallets} `{!HdWalletLaws} `{!HdDecode} `{Btcd} `{EcdsaKeys} `{!EcdsaLaws} `{!Base58Laws}
  `{!Ethereum} `{!TronCrypto} `{HttpClient} `{Trongrid.TronBodies} `{WalletJson} `{!WalletJsonLaws} `{Bolt} `{!BoltUp} `{Uuid}
  (trongrid : Trongrid.Provider) (authToken bc id : string) (bucket : gmap string string) (v1 : Vault) (w : world) (response : WalletResponse)
  (Ht : authToken <> "") (Hm : forall wt, is_ok (json_Marshal wt) = true)
  (Hcreate : ask trongrid authToken (CallCreate (Some bc)) (Some bucket) w = Ok (v1, Some (mkReply StatusCreated (WalletBody response))))
  (Hid : uuid_Parse id = Some (wr_ID response)) :
  (forall w, ask trongrid authToken (CallGet id) v1 w = Ok (v1, Some (mkReply StatusOK (WalletBody response)))) /\
  (forall w, exists v2, ask trongrid authToken (CallDelete id) v1 w = Ok (v2, Some (mkReply StatusNoContent NoBody)) /\
     (forall other, other <> wr_ID response -> wallets v2 other = wallets (Some bucket) other) /\
     forall w, ask trongrid authToken (CallGet id) v2 w = Ok (v2, None) /\
       ask trongrid authToken (CallDelete id) v2 w = Ok (v2, None) /\
       (forall req, ask trongrid authToken (CallEth id (Some req)) v2 w = Ok (v2, None)) /\
       (forall req, ask trongrid authToken (CallBitcoin id (Some req)) v2 w = Ok (v2, None)) /\
       (forall req, ask trongrid authToken (CallTron id (Some req)) v2 w = Ok (v2, None))).
Proof.
  rewrite ask_eq in Hcreate by done. cbn [handle] in Hcreate.
  destruct (Create walletGenerator (Some bc) (Some bucket) w) as [[[v [reply|e]]|e|s] w1] eqn:E; cbn [fst] in Hcreate; simplify_eq.
  apply Create_inv in E as (wt & raw & Hraw & -> & Hlive & Hresp). injection Hresp as <-. cbn [wr_ID] in Hid |- *.
  assert (stored (<[UUID wt := raw]> bucket) (UUID wt) = Some wt) as Hst by (rewrite (stored_insert _ _ _ _ Hraw); by case_decide).
  assert (bool_decide (DeletedAt wt <> None) = false) as Hb by (apply bool_decide_eq_false; auto).
  split; intros w2.
  { rewrite ask_eq by done. cbn [handle]. unfold Get_. edestruct (found_up id) as [w' ->]; [done..|]. by rewrite Hb. }
  destruct (Delete_up (UUID wt) wt (<[UUID wt := raw]> bucket) w2 Hst Hlive Hm) as (now & raw' & w3 & Edead & Edel).
  rewrite ask_eq by done. cbn [handle]. unfold Delete, try, mbind, Tracked_bind, mbind, M_bind. rewrite Hid, Edel.
  set (dead := trashed now wt) in *. eexists. split; [reflexivity|]. change (UUID wt) with (UUID dead) at 1 3.
  assert (stored (<[UUID dead := raw']> (<[UUID wt := raw]> bucket)) (UUID wt) = Some dead) as Hst'
    by (rewrite (stored_insert _ _ _ _ Edead); by case_decide).
  split.
  - intros other Hne. unfold wallets. cbn [mbind option_bind]. rewrite (stored_insert _ _ _ _ Edead), decide_False by done.
    by rewrite (stored_insert _ _ _ _ Hraw), decide_False.
  - intros w6. split_and!; intros; (eapply deleted_panics; [done..|]); set_solver.
Qed.

(** ** Witnesses: a service whose libraries are simple functions *)

(** Wallets as text, and back. *)
Fixpoint positive_text (p : positive) : string :=
  match p with xH => "!" | xO p => String "0" (positive_text p) | xI p => String "1" (positive_text p) end.
Fixpoint text_positive (s : string) : option positive :=
  match s with
  | "!" => Some xH
  | String "0" s => xO <$> text_positive s
  | String "1" s => xI <$> text_positive s
  | _ => None
  end.
Lemma text_positive_text p : text_positive (positive_text p) = Some p.
Proof. induction p as [p IH|p IH|]; cbn; by rewrite ?IH. Qed.

#[local] Instance wallet_countable : Countable Wallet.
Proof.
  refine (inj_countable' (fun w => (UUID w, Address w, PublicKey w, PrivateKey w, CreatedAt w, DeletedAt w, Blockchain w))
    (fun '(u, a, pub, priv, c, d, b) => mkWallet u a pub priv c d b) _). by intros [].
Defined.
#[local] Instance ex_json : WalletJson := {|
  json_Marshal w := Ok (positive_text (encode w)); json_Unmarshal s := p ← text_positive s; decode p |}.
#[local] Instance ex_json_laws : WalletJsonLaws.
Proof.
  intros w raw [= <-]. split; [by destruct (encode w)|]. cbn. rewrite text_positive_text. cbn. apply decode_encode.
Qed.
#[local] Instance ex_bolt : Bolt := {| bolt_Begin _ _ := Ok tt; bolt_Commit _ := Ok tt |}.
#[local] Instance ex_bolt_up : BoltUp.
Proof. by split. Qed.
#[local] Instance ex_uuid : Uuid := fun s => Some s.
#[local] Instance ex_decoder : Btcutil := fun address _ => Some (mkDecoded true address true).
#[local] Instance ex_hdwallets : HdWallets := {|
  io_ReadFull n _ := Ok (replicate (Z.to_nat n) 1); HDWallet := list Z; MasterKey seed := take 32 seed;
  hd_Pub key := 2 :: key; hd_Key key := key; hd_String key := hex_EncodeToString key; Hash160 l := take 20 l;
  NewAddressWitnessPubKeyHash hash _ := Ok (mkDecoded true ("bc1" +:+ hex_EncodeToString hash) true) |}.
#[local] Instance ex_hdwallet_laws : HdWalletLaws.
Proof. by intros hash network a [= <-]. Qed.
#[local] Instance ex_decode : HdDecode := fun s => Ok (string_bytes s).
#[local] Instance ex_btc : Btcd := {|
  PrivKey := list Z; PrivKeyFromBytes l := l; NewHashFromStr s := Ok (string_bytes s);
  PayToAddrScript a := Ok (string_bytes (EncodeAddress a));
  NewAddressPubKeyHash hash _ := Ok (mkDecoded true (hex_EncodeToString hash) false);
  TxSigHashes := unit; NewTxSigHashes _ := tt; WitnessSignature _ _ n amount _ _ key _ := Ok [[amount]; key];
  Serialize tx := Ok (flat_map (fun i => List.concat (in_Witness i)) (tx_TxIn tx)) |}.
#[local] Instance ex_ecdsa : EcdsaKeys := {|
  EcdsaKey := string; ecdsa_GenerateKey n := Ok (FormatInt (Z.of_nat n)); FromECDSA := string_bytes; FromECDSAPub := string_bytes;
  PubkeyToAddress _ := replicate 20 1; address_Hex _ := ex_address "1"; hexutil_Encode l := "0x" +:+ hex_EncodeToString l |}.
#[local] Instance ex_ecdsa_laws : EcdsaLaws := fun a => eq_refl.
#[local] Instance ex_eth : Ethereum := {|
  HexToECDSA hex := Ok hex; HexToAddress s := take 20 (string_bytes s ++ replicate 20 0);
  LeftPadBytes l n := replicate (n - length l) 0 ++ l; Keccak256 l := take 32 (l ++ replicate 32 0);
  SignedTx := EcdsaKey * DynamicFeeTx; SignNewTx key _ tx := Ok (key, tx); MarshalBinary signed := Ok (df_Data signed.2) |}.
#[local] Instance ex_tron : TronCrypto := {|
  base58_Decode s := string_bytes s; hexutil_Decode s := Ok (string_bytes s); crypto_Sign hash key := Ok hash |}.
#[local] Instance ex_http : HttpClient := {| valid_request _ := Ok tt; client_Do _ _ := Err (ENew "unreachable") |}.
#[local] Instance ex_bodies : Trongrid.TronBodies := {|
  Trongrid.json_Marshal _ := Ok "{}"; Trongrid.decode_Transaction _ := Err (ENew "EOF");
  Trongrid.decode_CallResponse _ := Err (ENew "EOF");
  Trongrid.decode_Broadcast _ := Err (ENew "EOF"); Trongrid.decode_transactions _ := Ok []; Trongrid.decode_trc20 _ := Ok [];
  Trongrid.gjson_Exists _ _ := false; Trongrid.gjson_String _ _ := ""; Trongrid.gjson_Int _ _ := 0 |}.
#[local] Instance ex_kms_nodes : Nodes := {|
  chain_EVMRPCURL _ _ := ""; chain_EVMRPC _ _ _ := Ok tt; tatum_EVMRPC _ _ _ := Ok tt; SuggestGasPrice _ _ := Ok 1;
  SuggestGasTipCap _ _ := Ok 1; TransactionByHash _ _ _ := Err (ENew ""); TransactionReceipt_ _ _ _ := Err (ENew "");
  BlockNumber _ _ := Ok 1; BlockByNumber _ _ _ := Ok []; FilterLogs _ _ _ := Ok []; HexToHash s := s; Nodes.HexToAddress s := s;
  AddressToHash s := s; HashToAddress s := s; chain_EVMScanBlocks := 1; UTXOAddressTransactions _ _ _ _ _ := Ok [];
  UTXOTransaction _ _ _ _ := Err (ENew ""); UTXOTipHeight _ _ _ := Ok 1; BroadcastUTXOTransaction _ _ _ _ := Ok "";
  has_tatum := false; tatum_BitcoinTransaction _ _ _ := Err (ENew ""); tatum_BitcoinBlocks _ _ := Err (ENew "");
  tatum_Broadcast _ _ _ _ := Ok ""; has_trongrid := false; trongrid_BroadcastTransaction _ _ _ := Err (ENew "");
  trongrid_GetTransactionReceipt _ _ _ := Err (ENew ""); trongrid_ListIncomingTransactions _ _ _ := Ok [];
  trongrid_ListIncomingTRC20Transactions _ _ _ _ := Ok []; base58_Encode _ := ex_tron_address "a"; tatum_error_object body := (body, "") |}.
#[local] Instance ex_base58_laws : Base58Laws := fun l _ => eq_refl.

(** Ids that are all different. *)
Definition kms_world : world := mkWorld empty_db (fun n => Z.of_nat n) 0 (fun n => positive_text (Pos.of_succ_nat n)) 0 0 ∅.
Lemma kms_world_source : source kms_world.
Proof.
  split; cbn.
  - intros n m E. apply (f_equal text_positive) in E. rewrite !text_positive_text in E. injection E as E. lia.
  - intros n E. apply (f_equal text_positive) in E. by rewrite text_positive_text in E.
Qed.

Definition ex_requests : list KmsRequest :=
  [mkKmsRequest "secret" (CallCreate (Some BTC)); mkKmsRequest "guess" (CallGet "!"); mkKmsRequest "secret" (CallCreate (Some TRON));
   mkKmsRequest "secret" (CallDelete "!"); mkKmsRequest "secret" (CallDelete "!"); mkKmsRequest "secret" (CallGet "0!")].

Lemma kms_requires_token_witness :
  serve_all walletGenerator ex_trongrid "secret" [mkKmsRequest "guess" (CallDelete "!")] (Some ∅) kms_world =
  (Ok (Some ∅, [Some (mkReply StatusUnauthorized (ErrorBody "Unauthorized" "auth_error"))]), kms_world).
Proof.
  apply (kms_requires_token walletGenerator ex_trongrid "secret" [mkKmsRequest "guess" (CallDelete "!")]). right. by repeat constructor.
Defined.

Lemma keys_never_lost_witness : exists v replies w,
  serve_all walletGenerator ex_trongrid "secret" ex_requests (LoadBuckets None) kms_world = (Ok (v, replies), w) /\
  map (fmap re_Status) replies = [Some 201; Some 401; Some 201; Some 204; None; Some 200] /\ vault_ok v w.
Proof.
  destruct (keys_never_lost ex_trongrid "secret" ex_requests (LoadBuckets None) kms_world kms_world_source) as [Hnew Hrun].
  destruct (Hrun Hnew) as (v & replies & w & E & _ & Hv & _). exists v, replies, w. split; [exact E|]. split; [|exact Hv].
  assert (match (serve_all walletGenerator ex_trongrid "secret" ex_requests (LoadBuckets None) kms_world).1 with
    | Ok (_, replies) => map (fmap re_Status) replies = [Some 201; Some 401; Some 201; Some 204; None; Some 200] | _ => False end) as Hr by by vm_compute.
  by rewrite E in Hr.
Defined.

Lemma wallet_lifecycle_witness : exists v1 response,
  ask ex_trongrid "secret" (CallCreate (Some ETH)) (Some ∅) kms_world = Ok (v1, Some (mkReply StatusCreated (WalletBody response))) /\
  wr_ID response = "!" /\ forall w, ask ex_trongrid "secret" (CallGet "!") v1 w = Ok (v1, Some (mkReply StatusOK (WalletBody response))).
Proof.
  assert (match ask ex_trongrid "secret" (CallCreate (Some ETH)) (Some ∅) kms_world with
    | Ok (_, Some (mkReply status (WalletBody response))) => status = 201 /\ wr_ID response = "!"
    | _ => False end) as Hr by (vm_compute; by split).
  destruct (ask ex_trongrid "secret" (CallCreate (Some ETH)) (Some ∅) kms_world) as [[v1 [[status body]|]]|e|why] eqn:E; [|done..].
  destruct body as [| |response| |]; [done..| |done|done]. destruct Hr as [-> Eid].
  exists v1, response. split; [done|]. split; [exact Eid|].
  apply (wallet_lifecycle ex_trongrid "secret" ETH "!" ∅ v1 kms_world response); [done|done|exact E|].
  rewrite Eid. reflexivity.
Defined.
