(* ===== verification/Signable.v ===== *)
(** * Signable: the key service accepts what the wallet service plans

    The composition of [Bitcoin] - planning a transaction -, of the request of
    [WalletTransaction] and of the checks of [KmsBitcoin]. *)

From S2P Require Import Prelude GoLib Float64 KmsWallet Money Repository Fees.
From S2P Require Import Bitcoin.
From S2P Require WalletTransaction Vault KmsBitcoin KmsServer.

(** The parameters the key service signs a plan with. *)
Definition plan_params (plan : BitcoinTransactionPlan) (isTest : bool) : KmsBitcoin.BitcoinTransactionParams :=
  KmsServer.bitcoin_params (WalletTransaction.bitcoin_request plan isTest).

Section Plan.
Context `{Btcutil}.

Lemma utxo_address_segwit blockchain address isTest : isUTXOBlockchain blockchain = true ->
  ValidateAddressForNetwork blockchain address isTest = Ok tt -> KmsBitcoin.isNativeSegWitAddress blockchain address isTest = true.
Proof.
  unfold ValidateAddressForNetwork, validateAddress, validateUTXOAddressForNetwork, KmsBitcoin.isNativeSegWitAddress.
  intros ->. by destruct (isNativeSegWitAddressForNetwork _ _).
Qed.

Lemma plan_input_sats plan isTest : KmsBitcoin.input_sats (KmsBitcoin.bp_Inputs (plan_params plan isTest)) = total (p_Inputs plan).
Proof. cbn. induction (p_Inputs plan) as [|u l IH]; cbn; [done|]. by rewrite IH. Qed.
Lemma plan_output_sats plan isTest : KmsBitcoin.output_sats (KmsBitcoin.bp_Outputs (plan_params plan isTest)) = output_total (p_Outputs plan).
Proof. cbn. induction (p_Outputs plan) as [|u l IH]; cbn; [done|]. by rewrite IH. Qed.
End Plan.

(** ** Properties *)

(** C16. A plan made from the explorer's listing is signable as it is: when
    [PrepareBitcoinTransactionExcluding] returns a plan that pays a fee, the
    request the wallet service sends for it passes the checks of the key
    service - the sender's address, every input and every output included -,
    so that the key service does not refuse it after the outputs were
    reserved. *)
Theorem plan_signable `{UTXOProviders} `{Btcutil} (sender recipient : string) (amount : Money) (fee : Fee) (isTest : bool)
  (excluded : list BitcoinUTXOKey) (w w1 w2 : world) (utxos : list BitcoinUTXO) (r : float64) (plan : BitcoinTransactionPlan)
  (Hchain : has_chain = true)
  (Hu : utxoSpendableUTXOs (cc_Blockchain (fee_Currency fee)) sender isTest w = (Ok utxos, w1))
  (Hr : fee_rate fee = Ok r) (Hb : in_bounds r (excludeBitcoinUTXOs utxos excluded)) (Hv : val amount < 2 ^ 62)
  (Hrun : PrepareBitcoinTransactionExcluding sender recipient amount fee isTest excluded w = (Ok plan, w2))
  (Hfee : 0 < p_FeeSats plan) (Ht : total (p_Inputs plan) < 2 ^ 63) :
  KmsBitcoin.bitcoin_validate (plan_params plan isTest) (cc_Blockchain (fee_Currency fee)) sender = Ok tt.
Proof.
  pose proof (wp_prepare sender recipient amount fee isTest excluded w utxos w1 r Hu Hr Hb Hv) as Hwp.
  unfold wp in Hwp. rewrite Hrun in Hwp.
  destruct (Hwp plan eq_refl) as [(Htot & Hhead & _ & Hdust & Hin & _) (Hutxo & Hsend & Hrec & Hto & Hpos)].
  assert (Forall (fun u => 0 < u_AmountSats u /\ u_Hash u <> "" /\ u_Address u = sender) utxos) as Hlist.
  { unfold utxoSpendableUTXOs in Hu. rewrite Hchain in Hu.
    destruct (UTXOAddressUTXOs (cc_Blockchain (fee_Currency fee)) sender isTest (calls w)) as [found|e|s] eqn:Ef.
    - by eapply explorer_listing_sorted.
    - unfold utxoSpendableUTXOsFromExplorer, external, wrapM, mbind, M_bind in Hu. by rewrite Ef in Hu.
    - unfold utxoSpendableUTXOsFromExplorer, external, wrapM, mbind, M_bind in Hu. by rewrite Ef in Hu. }
  rewrite Forall_forall in Hlist.
  assert (0 <= output_total (p_Outputs plan)) as Hout.
  { clear -Hdust. unfold bitcoinDustSats in Hdust. induction Hdust; cbn [output_total]; lia. }
  apply KmsBitcoin.bitcoin_validate_iff; rewrite ?plan_input_sats, ?plan_output_sats; [lia..|].
  split_and!.
  - intros E. apply map_eq_nil, map_eq_nil in E. rewrite E in Htot. cbn in Htot. lia.
  - intros E. apply map_eq_nil, map_eq_nil in E. by rewrite E in Hhead.
  - by apply utxo_address_segwit.
  - cbn. rewrite map_map. apply Forall_fmap, Forall_forall. intros u Hui. destruct (Hlist u) as (? & ? & ?); [by apply Hin|].
    unfold KmsBitcoin.input_ok. cbn. split_and!; [done|by apply Hpos|by right].
  - cbn. rewrite map_map. apply Forall_fmap. eapply Forall_impl; [exact (proj2 (Forall_and _ _) (conj Hdust Hto))|].
    intros o [Hd Ho]. split; [exact Hd|]. cbn. by destruct Ho as [-> | ->].
  - lia.
Qed.

(** ** Witness: the example plan *)
#[local] Existing Instances ex_providers ex_btcutil.

Lemma plan_signable_witness : exists plan,
  (PrepareBitcoinTransactionExcluding "me" "you" (mkMoney Crypto "BTC" (Some 100000) 8) ex_fee false
    [mkUTXOKey "r" 7] empty_world).1 = Ok plan /\ KmsBitcoin.bitcoin_validate (plan_params plan false) BTC "me" = Ok tt.
Proof.
  assert (match (PrepareBitcoinTransactionExcluding "me" "you" (mkMoney Crypto "BTC" (Some 100000) 8) ex_fee false
    [mkUTXOKey "r" 7] empty_world).1 with
    | Ok plan => (0 <? p_FeeSats plan) && (total (p_Inputs plan) <? 2 ^ 63) | _ => false end = true) as Hp by by vm_compute.
  destruct (PrepareBitcoinTransactionExcluding "me" "you" (mkMoney Crypto "BTC" (Some 100000) 8) ex_fee false
    [mkUTXOKey "r" 7] empty_world) as [[plan|e|p] w2] eqn:E; cbn [fst] in Hp; [|discriminate..].
  apply andb_true_iff in Hp as [Hf%Z.ltb_lt Ht%Z.ltb_lt]. exists plan. split; [reflexivity|].
  refine (plan_signable "me" "you" (mkMoney Crypto "BTC" (Some 100000) 8) ex_fee false
    [mkUTXOKey "r" 7] empty_world _ w2
    [mkUTXO "r" 7 500000 "" "me" 1; mkUTXO "a" 0 90000 "" "me" 0; mkUTXO "c" 0 20000 "" "me" 1] ex_rate plan _ _ _ _ _ E Hf Ht).
  - reflexivity.
  - reflexivity.
  - reflexivity.
  - split; [vm_compute; reflexivity|]. split; [reflexivity|].
    intros n o Hn Ho. simpl in Hn. assert (n = 0 \/ n = 1 \/ n = 2)%nat as Hcases by lia.
    destruct Hcases as [-> | [-> | ->]], Ho as [-> | ->]; vm_compute; by split.
  - vm_compute. reflexivity.
Defined.
