(* ===== verification/Accounts.v ===== *)
(** * Accounts: users, API tokens and the registry

    [internal/db/repository]: the statements on the tables [users],
    [api_tokens] and [registries]; [internal/service/registry],
    [internal/service/user] and [internal/auth/token.go]. The three tables are a
    state of their own next to [DB], threaded by [Tracked] (see [Flow]): no
    transaction of the program spans both. Password hashing, the parser of mail
    addresses and the random source are interfaces. *)

From S2P Require Import Prelude GoLib KmsWallet Money Repository Queries Currencies Flow.
From S2P Require Import Payment.

(** ** The rows *)
Record UserRow := mkUserRow {
  us_ID : Z; us_Name : string; us_Email : string; us_Uuid : string; us_GoogleID : NullString;
  us_ProfileImageUrl : NullString; us_CreatedAt : Z; us_UpdatedAt : Z; us_DeletedAt : NullTime; us_Password : NullString
}.
Record ApiTokenRow := mkApiTokenRow {
  at_ID : Z; at_EntityType : string; at_EntityID : Z; at_CreatedAt : Z; at_Token : string; at_Name : NullString; at_Uuid : string
}.
Record RegistryRow := mkRegistryRow {
  rg_ID : Z; rg_CreatedAt : Z; rg_UpdatedAt : Z; rg_MerchantID : Z; rg_Key : string; rg_Value : string; rg_Description : string
}.
#[export] Instance User_id : HasID UserRow := us_ID.
#[export] Instance ApiToken_id : HasID ApiTokenRow := at_ID.
#[export] Instance Registry_id : HasID RegistryRow := rg_ID.

Record Accounts := mkAccounts { users : Table UserRow; api_tokens : Table ApiTokenRow; registries : Table RegistryRow }.
Definition set_users t (s : Accounts) : Accounts := mkAccounts t (api_tokens s) (registries s).
Definition set_api_tokens t (s : Accounts) : Accounts := mkAccounts (users s) t (registries s).
Definition set_registries t (s : Accounts) : Accounts := mkAccounts (users s) (api_tokens s) t.

(** ** The statements

    [value too long] of a varchar column; a unique constraint, which a null
    does not violate. *)
Definition string_data_right_truncation : error := EPg "22001".
(** A column counts characters, of UTF-8. *)
Definition characters (s : string) : Z :=
  Z.of_nat (length (List.filter (fun c => negb (Z.land (code c) 192 =? 128)) (list_ascii_of_string s))).
Definition fits (n : Z) (s : string) : bool := characters s <=? n.
Definition fits_null (n : Z) (s : NullString) : bool := negb (Valid s) || fits n (null_val s).

Definition statement {A} (f : Accounts -> res A * Accounts) : Tracked Accounts A := fun s =>
  let '(r, s') := f s in
  match r with Ok a => mret (s', inl a) | Err e => mret (s', inr e) | Panic why => panic why end.
Definition read {A} (f : Accounts -> res A) : Tracked Accounts A := statement (fun s => (f s, s)).

Record CreateUserParams := mkCreateUserParams {
  cu_Name : string; cu_Email : string; cu_Password : NullString; cu_Uuid : string; cu_GoogleID : NullString;
  cu_ProfileImageUrl : NullString; cu_CreatedAt : Z; cu_UpdatedAt : Z
}.
Definition new_user (p : CreateUserParams) (id : Z) : UserRow :=
  mkUserRow id (cu_Name p) (cu_Email p) (cu_Uuid p) (cu_GoogleID p) (cu_ProfileImageUrl p) (cu_CreatedAt p) (cu_UpdatedAt p)
    null_time (cu_Password p).

(** A failed insert still consumes a number of the sequence. *)
Definition CreateUser (p : CreateUserParams) : Tracked Accounts UserRow := statement (fun s =>
  let skipped := set_users (skip_id (users s)) s in
  if negb (fits 255 (cu_Name p) && fits 255 (cu_Email p) && fits_null 255 (cu_GoogleID p) && fits_null 255 (cu_Password p))
  then (Err string_data_right_truncation, skipped)
  else if existsb (fun r => bool_decide (us_Uuid r = cu_Uuid p) || sql_eq (us_GoogleID r) (cu_GoogleID p)) (rows (users s))
  then (Err unique_violation, skipped)
  else (Ok (new_user p (next_id (users s))), set_users (insert_row (new_user p) (users s)) s)).

Definition GetUserByEmail (email : string) : Tracked Accounts UserRow :=
  read (fun s => one (select (fun r => bool_decide (us_Email r = email)) (users s))).
Definition GetUserByGoogleID (googleID : NullString) : Tracked Accounts UserRow :=
  read (fun s => one (select (fun r => sql_eq (us_GoogleID r) googleID) (users s))).
Definition GetUserByID (id : Z) : Tracked Accounts UserRow := read (fun s => one (select (by_id id) (users s))).

(** An update of the row of an id that changes neither its id nor its uuid;
    [RETURNING] gives the row as it is then. *)
Definition update_user (id : Z) (ok : UserRow -> bool) (conflict : UserRow -> bool) (f : UserRow -> UserRow) : Tracked Accounts UserRow :=
  statement (fun s =>
    match one (select (by_id id) (users s)) with
    | Ok row =>
      if negb (ok (f row)) then (Err string_data_right_truncation, s)
      else if existsb (fun r => negb (us_ID r =? id) && conflict r) (rows (users s)) then (Err unique_violation, s)
      else (Ok (f row), set_users (update_rows (by_id id) f (users s)) s)
    | r => (r, s)
    end).

Record UpdateUserParams := mkUpdateUserParams {
  uu_ID : Z; uu_Name : string; uu_ProfileImageUrl : NullString; uu_GoogleID : NullString; uu_UpdatedAt : Z; uu_SetGoogleID : bool
}.
Definition updated_user (p : UpdateUserParams) (r : UserRow) : UserRow :=
  mkUserRow (us_ID r) (uu_Name p) (us_Email r) (us_Uuid r) (if uu_SetGoogleID p then uu_GoogleID p else us_GoogleID r)
    (uu_ProfileImageUrl p) (us_CreatedAt r) (uu_UpdatedAt p) (us_DeletedAt r) (us_Password r).
Definition UpdateUser (p : UpdateUserParams) : Tracked Accounts UserRow :=
  update_user (uu_ID p) (fun r => fits 255 (us_Name r) && fits_null 255 (us_GoogleID r))
    (fun r => uu_SetGoogleID p && sql_eq (us_GoogleID r) (uu_GoogleID p)) (updated_user p).

Definition with_password (password : NullString) (updatedAt : Z) (r : UserRow) : UserRow :=
  mkUserRow (us_ID r) (us_Name r) (us_Email r) (us_Uuid r) (us_GoogleID r) (us_ProfileImageUrl r) (us_CreatedAt r) updatedAt
    (us_DeletedAt r) password.
Definition UpdateUserPassword (id : Z) (password : NullString) (updatedAt : Z) : Tracked Accounts UserRow :=
  update_user id (fun r => fits_null 255 (us_Password r)) (fun _ => false) (with_password password updatedAt).

(** *** api_tokens *)
Record CreateAPITokenParams := mkCreateAPITokenParams {
  ct_EntityType : string; ct_EntityID : Z; ct_CreatedAt : Z; ct_Token : string; ct_Uuid : string; ct_Name : NullString
}.
Definition new_token (p : CreateAPITokenParams) (id : Z) : ApiTokenRow :=
  mkApiTokenRow id (ct_EntityType p) (ct_EntityID p) (ct_CreatedAt p) (ct_Token p) (ct_Name p) (ct_Uuid p).
Definition CreateAPIToken (p : CreateAPITokenParams) : Tracked Accounts ApiTokenRow := statement (fun s =>
  let skipped := set_api_tokens (skip_id (api_tokens s)) s in
  if negb (fits 255 (ct_EntityType p) && fits 64 (ct_Token p) && fits_null 255 (ct_Name p))
  then (Err string_data_right_truncation, skipped)
  else if existsb (fun r => bool_decide (at_Token r = ct_Token p) || bool_decide (at_Uuid r = ct_Uuid p)) (rows (api_tokens s))
  then (Err unique_violation, skipped)
  else (Ok (new_token p (next_id (api_tokens s))), set_api_tokens (insert_row (new_token p) (api_tokens s)) s)).
Definition GetAPIToken (entityType token : string) : Tracked Accounts ApiTokenRow :=
  read (fun s => one (select (fun r => bool_decide (at_EntityType r = entityType) && bool_decide (at_Token r = token)) (api_tokens s))).
Definition GetAPITokenByUUID (uuid : string) : Tracked Accounts ApiTokenRow :=
  read (fun s => one (select (fun r => bool_decide (at_Uuid r = uuid)) (api_tokens s))).
(** [ORDER BY id DESC] *)
Definition ListAPITokensByEntity (entityID : Z) (entityType : string) : Tracked Accounts (list ApiTokenRow) :=
  read (fun s => Ok (reverse (select (fun r => (at_EntityID r =? entityID) && bool_decide (at_EntityType r = entityType)) (api_tokens s)))).
Definition DeleteAPITokenByID (id : Z) : Tracked Accounts unit :=
  statement (fun s => (Ok tt, set_api_tokens (delete_rows (by_id id) (api_tokens s)) s)).

(** *** registries *)
Definition is_item (merchantID : Z) (key : string) (r : RegistryRow) : bool :=
  (rg_MerchantID r =? merchantID) && bool_decide (rg_Key r = key).
Definition GetRegistryItemByKey (merchantID : Z) (key : string) : Tracked Accounts RegistryRow :=
  read (fun s => one (select (is_item merchantID key) (registries s))).
Definition CreateRegistryItem (createdAt updatedAt merchantID : Z) (key value description : string) : Tracked Accounts RegistryRow :=
  statement (fun s =>
    let skipped := set_registries (skip_id (registries s)) s in
    let new id := mkRegistryRow id createdAt updatedAt merchantID key value description in
    if negb (fits 128 key && fits 128 value && fits 250 description) then (Err string_data_right_truncation, skipped)
    else if existsb (is_item merchantID key) (rows (registries s)) then (Err unique_violation, skipped)
    else (Ok (new (next_id (registries s))), set_registries (insert_row new (registries s)) s)).
Definition UpdateRegistryItem (key : string) (merchantID updatedAt : Z) (value description : string) : Tracked Accounts RegistryRow :=
  statement (fun s =>
    let f r := mkRegistryRow (rg_ID r) (rg_CreatedAt r) updatedAt (rg_MerchantID r) (rg_Key r) value description in
    match one (select (is_item merchantID key) (registries s)) with
    | Ok row =>
      if negb (fits 128 value && fits 250 description) then (Err string_data_right_truncation, s)
      else (Ok (f row), set_registries (update_rows (is_item merchantID key) f (registries s)) s)
    | r => (r, s)
    end).

(** ** internal/service/registry *)
Record Value := mkValue { v_Key : string; v_Value : string }.
Definition registry_ErrNotFound : error := ESentinel "registry.ErrNotFound".
Definition globalConfigMerchantID : Z := 0.
Definition entryToValue (entry : RegistryRow) : Value := mkValue (rg_Key entry) (rg_Value entry).

(** [errors.Wrap(err, msg)] of an error that may be [nil]: the value is
    returned with the wrapped error, or with none. *)
Definition return_wrapped {A} (a : A) (err : option error) (msg : string) : Tracked Accounts A :=
  match err with Some e => stop (EWrap e msg) | None => mret a end.

Definition registry_Get (key : string) : Tracked Accounts Value :=
  entry ← try (GetRegistryItemByKey globalConfigMerchantID key);
  match entry with
  | inl entry => mret (entryToValue entry)
  | inr err =>
    if errors_Is err ErrNoRows then stop (EWrap registry_ErrNotFound key)
    else stop (EWrap err "unable to GetRegistryItemByKey")
  end.

(** A failed insert or update is wrapped from the error of [Get]. *)
Definition registry_Set (key value : string) : Tracked Accounts Value :=
  v ← try (registry_Get key);
  match v with
  | inr err =>
    if errors_Is err registry_ErrNotFound then
      createdAt ← call time_Now; updatedAt ← call time_Now;
      entry ← try (CreateRegistryItem createdAt updatedAt globalConfigMerchantID key value "");
      match entry with
      | inr _ => return_wrapped (mkValue "" "") (Some err) "unable to update registry item"
      | inl entry => mret (entryToValue entry)
      end
    else return_wrapped (mkValue "" "") (Some err) "unable to set registry item"
  | inl v =>
    updatedAt ← call time_Now;
    entry ← try (UpdateRegistryItem (v_Key v) globalConfigMerchantID updatedAt value "");
    match entry with
    | inr _ => return_wrapped (mkValue "" "") None "unable to update registry item"
    | inl entry => mret (entryToValue entry)
    end
  end.

Definition GetValueSafe (key defaultValue : string) : Tracked Accounts Value :=
  v ← try (registry_Get key);
  mret (match v with inl v => v | inr _ => mkValue key defaultValue end).

(** On an error [strconv.ParseBool] gives [false] too. *)
Definition GetBoolSafe (key : string) (defaultValue : bool) : Tracked Accounts bool :=
  raw ← GetValueSafe key (if defaultValue then "true" else "false");
  mret (match ParseBool (v_Value raw) with Ok b => b | _ => false end).

Definition GetStringsSafe (key : string) : Tracked Accounts (list string) :=
  v ← GetValueSafe key "";
  mret (if bool_decide (v_Value v = "") then [] else map TrimSpace (Split (v_Value v) ",")).

(** ** internal/auth/token.go *)
Definition TokenTypeUser : string := "user".
Definition TokenTypeMerchant : string := "merchant".
Definition token_ErrNotFound : error := ESentinel "auth.ErrNotFound".
Definition tokenRuneSource : string :=
  "abcdefghijklmnopqrstuvwxyz" +:+ "ABCDEFGHIJKLMNOPQRSTUVWXYZ" +:+ "0123456789" +:+ ".$;".

Record APIToken := mkAPIToken {
  tk_ID : Z; tk_EntityType : string; tk_EntityID : Z; tk_CreatedAt : Z; tk_Token : string; tk_Name : option string; tk_UUID : string
}.
Definition entryToAPIToken (entry : ApiTokenRow) : APIToken :=
  mkAPIToken (at_ID entry) (at_EntityType entry) (at_EntityID entry) (at_CreatedAt entry) (at_Token entry)
    (NullableStringToPointer (at_Name entry)) (at_Uuid entry).

(** [rand.Intn] of [math/rand]. *)
Class Rand := Intn : Z -> nat -> Z.
Class RandLaws `{Rand} : Prop := Intn_range n k : 0 < n -> 0 <= Intn n k < n.

Section Tokens.
Context `{Rand}.

Definition random_rune : Go ascii :=
  j ← external (fun k => Ok (Intn (Z.of_nat (String.length tokenRuneSource)) k));
  lift (match bytes tokenRuneSource !! Z.to_nat j with
        | Some c => if j <? 0 then Panic "index out of range" else Ok c
        | None => Panic "index out of range" end).
Fixpoint generate_runes (length : nat) : Go (list ascii) :=
  match length with
  | O => mret []
  | S length => c ← random_rune; l ← generate_runes length; mret (c :: l)
  end.
Definition generateToken (length : nat) : Go string := l ← generate_runes length; mret (of_bytes l).

Definition GetToken (tokenType token : string) : Tracked Accounts APIToken :=
  entry ← GetAPIToken tokenType token; mret (entryToAPIToken entry).
Definition GetTokenByUUID (id : string) : Tracked Accounts APIToken :=
  entry ← try (GetAPITokenByUUID id);
  match entry with
  | inr err => if errors_Is err ErrNoRows then stop token_ErrNotFound else stop err
  | inl entry => mret (entryToAPIToken entry)
  end.
Definition GetMerchantTokenByUUID (merchantID : Z) (id : string) : Tracked Accounts APIToken :=
  token ← GetTokenByUUID id;
  if negb (bool_decide (tk_EntityType token = TokenTypeMerchant)) || negb (tk_EntityID token =? merchantID)
  then stop token_ErrNotFound else mret token.
Definition createToken (tokenType : string) (entityID : Z) (name : string) : Tracked Accounts APIToken :=
  createdAt ← call time_Now; token ← call (generateToken 64); uuid ← call uuid_New;
  entry ← CreateAPIToken (mkCreateAPITokenParams tokenType entityID createdAt token uuid (mkNull name true));
  mret (entryToAPIToken entry).
Definition CreateUserToken := createToken TokenTypeUser.
Definition CreateMerchantToken := createToken TokenTypeMerchant.
Definition ListByEntityType (tokenType : string) (entityID : Z) : Tracked Accounts (list APIToken) :=
  entries ← try (ListAPITokensByEntity entityID tokenType);
  match entries with
  | inr err => if bool_decide (err = ErrNoRows) then mret [] else stop err
  | inl entries => mret (map entryToAPIToken entries)
  end.
Definition DeleteToken (id : Z) : Tracked Accounts unit := DeleteAPITokenByID id.
End Tokens.

(** ** internal/service/user *)
Record User := mkUser {
  u_ID : Z; u_Name : string; u_Email : string; u_UUID : string; u_GoogleID : option string; u_ProfileImageURL : option string;
  u_CreatedAt : Z; u_UpdatedAt : Z; u_DeletedAt : option Z
}.
Definition user_ErrNotFound : error := ESentinel "user not found".
Definition ErrWrongPassword : error := ESentinel "wrong password provided".
Definition ErrAlreadyExists : error := ESentinel "user already exists".
Definition ErrRestricted : error := ESentinel "access restricted".
Definition ErrEmailNotVerified : error := ESentinel "google email is not verified".
Definition registryRegistrationWhitelistOnly : string := "registration.is_whitelist_only".
Definition registryRegistrationWhitelist : string := "registration.whitelist".

Definition entryToUser (entry : UserRow) : User :=
  mkUser (us_ID entry) (us_Name entry) (us_Email entry) (us_Uuid entry) (NullableStringToPointer (us_GoogleID entry))
    (NullableStringToPointer (us_ProfileImageUrl entry)) (us_CreatedAt entry) (us_UpdatedAt entry) None.

(** What the provider of an account says of it ([internal/auth/google.go]). *)
Record GoogleUser := mkGoogleUser { gu_Sub : string; gu_Name : string; gu_Picture : string; gu_Email : string; gu_EmailVerified : bool }.

(** [golang.org/x/crypto/bcrypt]: a hash, salted and so different each time,
    fits its own password. *)
Class Bcrypt := { bcrypt_Generate : string -> nat -> res string; bcrypt_Compare : string -> string -> bool }.
Class BcryptLaws `{Bcrypt} : Prop :=
  bcrypt_matches p n hashed : bcrypt_Generate p n = Ok hashed -> bcrypt_Compare hashed p = true.
(** The bus, for the topic of registered users. *)
Class UserEvents := PublishUserRegistered : Z -> nat -> res unit.

(** A statement whose missing row is reported as [ErrNotFound]. *)
Definition found {A} (m : Tracked Accounts A) : Tracked Accounts A :=
  entry ← try m;
  match entry with
  | inr err => if errors_Is err ErrNoRows then stop user_ErrNotFound else stop err
  | inl entry => mret entry
  end.

(** [s[:strings.IndexByte(s, c)]] *)
Fixpoint until_byte (c : ascii) (l : list ascii) : option (list ascii) :=
  match l with
  | [] => None
  | x :: l => if Ascii.eqb x c then Some [] else (x ::.) <$> until_byte c l
  end.
Definition before_byte (c : ascii) (s : string) : res string :=
  match until_byte c (bytes s) with Some l => Ok (of_bytes l) | None => Panic "slice bounds out of range [:-1]" end.

Section Users.
Context `{Mail} `{Bcrypt} `{UserEvents}.

Definition GetByID (id : Z) : Tracked Accounts User := entry ← found (GetUserByID id); mret (entryToUser entry).
Definition GetByEmail (email : string) : Tracked Accounts User := entry ← found (GetUserByEmail email); mret (entryToUser entry).

Definition validateEmail (email : string) : Tracked Accounts unit :=
  if ParseAddress_ok email then mret tt else stop (ENew "mail: invalid address").
Definition hashPass (pass : string) : Tracked Accounts string := call (external (bcrypt_Generate pass)).
Definition checkPass (hashed pass : string) : bool := bcrypt_Compare hashed pass.

Definition GetByEmailWithPasswordCheck (email password : string) : Tracked Accounts User :=
  _ ← validateEmail email;
  entry ← found (GetUserByEmail email);
  if negb (checkPass (null_val (us_Password entry)) password) then stop ErrWrongPassword
  else mret (entryToUser entry).

(** A user is announced; that the announcement fails is logged. *)
Definition announce (userID : Z) : Tracked Accounts unit :=
  _ ← try (call (external (PublishUserRegistered userID))); mret tt.

Definition short_password : error := ENew "password should have minimum length of 8".

(** The account that was there before is returned with [ErrAlreadyExists]. *)
Definition Register (email pass : string) : Tracked Accounts (User * option error) :=
  _ ← validateEmail email;
  if Z.of_nat (String.length pass) <? 8 then stop short_password
  else
    u ← try (GetByEmail email);
    match u with
    | inl u => mret (u, Some ErrAlreadyExists)
    | inr err =>
      if negb (errors_Is err user_ErrNotFound) then stop err
      else
        hashedPass ← hashPass pass;
        name ← call (lift (before_byte "@" email));
        uuid ← call uuid_New; createdAt ← call time_Now; updatedAt ← call time_Now;
        entry ← CreateUser (mkCreateUserParams name email (StringToNullable hashedPass) uuid null_string null_string createdAt updatedAt);
        _ ← announce (us_ID entry);
        mret (entryToUser entry, None)
    end.

Definition UpdatePassword (id : Z) (pass : string) : Tracked Accounts User :=
  if Z.of_nat (String.length pass) <? 8 then stop short_password
  else
    hashedPass ← hashPass pass;
    updatedAt ← call time_Now;
    entry ← found (UpdateUserPassword id (StringToNullable hashedPass) updatedAt);
    mret (entryToUser entry).

Definition guardRegistration (email : string) : Tracked Accounts unit :=
  bouncer ← GetBoolSafe registryRegistrationWhitelistOnly false;
  if negb bouncer then mret tt
  else
    whitelist ← GetStringsSafe registryRegistrationWhitelist;
    if one_of email whitelist then mret tt else stop ErrRestricted.

(** ** service_google.go *)
Definition wrapped {A} (m : Tracked Accounts A) (msg : string) : Tracked Accounts A :=
  r ← try m; match r with inl a => mret a | inr err => stop (EWrap err msg) end.

Definition registerGoogleUser (user : GoogleUser) : Tracked Accounts User :=
  _ ← guardRegistration (gu_Email user);
  uuid ← call uuid_New; createdAt ← call time_Now; updatedAt ← call time_Now;
  entry ← wrapped (CreateUser (mkCreateUserParams (gu_Name user) (gu_Email user) null_string uuid (StringToNullable (gu_Sub user))
    (StringToNullable (gu_Picture user)) createdAt updatedAt)) "unable to create user";
  _ ← announce (us_ID entry);
  mret (entryToUser entry).

Definition updateGoogleUser (userID : Z) (setGoogleID : bool) (user : GoogleUser) : Tracked Accounts User :=
  updatedAt ← call time_Now;
  entry ← wrapped (UpdateUser (mkUpdateUserParams userID (gu_Name user) (StringToNullable (gu_Picture user))
    (StringToNullable (gu_Sub user)) updatedAt setGoogleID)) "unable to update user";
  mret (entryToUser entry).

Definition ResolveWithGoogle (googleUser : GoogleUser) : Tracked Accounts User :=
  entry ← try (GetUserByGoogleID (StringToNullable (gu_Sub googleUser)));
  match entry with
  | inl entry => updateGoogleUser (us_ID entry) false googleUser
  | inr err =>
    if negb (errors_Is err ErrNoRows) then stop (EWrap err "unable to get user")
    else if negb (gu_EmailVerified googleUser) then stop ErrEmailNotVerified
    else
      entry ← try (GetUserByEmail (gu_Email googleUser));
      match entry with
      | inl entry => updateGoogleUser (us_ID entry) true googleUser
      | inr err => if errors_Is err ErrNoRows then registerGoogleUser googleUser else stop (EWrap err "unable to get user")
      end
  end.

(** ** cmd/create_user.go: the command, and what it logs *)
Inductive CreateUserLog := UserExists | UpdateFailed (err : error) | PasswordUpdated | CreateFailed (err : error) | UserCreated.
Definition createUser (overridePassword : bool) (email pass : string) : Tracked Accounts CreateUserLog :=
  r ← try (Register email pass);
  match r with
  | inl (u, Some _) =>
    if negb overridePassword then mret UserExists
    else
      r ← try (UpdatePassword (u_ID u) pass);
      mret (match r with inr err => UpdateFailed err | inl _ => PasswordUpdated end)
  | inl (_, None) => mret UserCreated
  | inr err => mret (CreateFailed err)
  end.
End Users.

(** ** internal/event/userevents: messages to Slack *)
Class Slack := SendWebhook : string -> list string -> nat -> res unit.
Section UserNotifications.
Context `{Slack} (env slackWebhookURL : string).

Definition sendSlackMessage (messages : list string) : Tracked Accounts unit :=
  if bool_decide (slackWebhookURL = "") then mret tt else call (external (SendWebhook slackWebhookURL messages)).
Definition FormSubmitted (requestType message : string) (userID : Z) : Tracked Accounts unit :=
  u ← wrapped (GetByID userID) "unable to get user";
  sendSlackMessage ["[" +:+ env +:+ "] New request from user " +:+ u_Email u +:+ " (" +:+ requestType +:+ "):"; "Message: " +:+ message].
(** The emoji of the message is U+1F525. *)
Definition UserRegistered (userID : Z) : Tracked Accounts unit :=
  u ← wrapped (GetByID userID) "unable to get user";
  sendSlackMessage ["[" +:+ env +:+ "] 🔥New user registration: " +:+ u_Name u +:+ " " +:+ u_Email u].
End UserNotifications.
