(* ===== verification/Identity.v ===== *)
(** * Identity: what the accounts, tokens and registry guarantee

    Lemmas and properties of [Accounts]: the constraints of its three tables,
    what a sign-in with Google may bind, that a created account logs in, the life
    of a merchant's token and what setting a registry item does. *)

From S2P Require Import Prelude GoLib KmsWallet Money Repository Queries Currencies Flow.
From S2P Require Import Payment Accounts.

(** ** Rules for the statements *)
Lemma wp_statement {A} (f : Accounts -> res A * Accounts) s w (Q : res (Accounts * (A + error)) -> world -> Prop) :
  match f s with
  | (Ok a, s') => Q (Ok (s', inl a)) w
  | (Err e, s') => Q (Ok (s', inr e)) w
  | (Panic p, _) => Q (Panic p) w
  end -> wp (statement f s) w Q.
Proof. unfold statement. by destruct (f s) as [[a|e|p] s']. Qed.
Lemma wp_read_accounts {A} (f : Accounts -> res A) s w (Q : res (Accounts * (A + error)) -> world -> Prop) :
  match f s with Ok a => Q (Ok (s, inl a)) w | Err e => Q (Ok (s, inr e)) w | Panic p => Q (Panic p) w end ->
  wp (read f s) w Q.
Proof. intros Hf. apply wp_statement. by destruct (f s). Qed.
Lemma wp_draw {A} (m : Go A) s w (Q : res (Accounts * (A + error)) -> world -> Prop) : (forall w, exists a w', m w = (Ok a, w')) ->
  (forall a w', Q (Ok (s, inl a)) w') -> wp (call m s) w Q.
Proof. intros Hm HQ. apply wp_call. unfold wp. destruct (Hm w) as (a & w' & ->). apply HQ. Qed.

Lemma wp_of {A} (m : Go A) w r w' (Q : res A -> world -> Prop) : m w = (r, w') -> Q r w' -> wp m w Q.
Proof. unfold wp. by intros ->. Qed.

(** [f] is a lookup: it reads, and neither writes nor draws. *)
Lemma statement_run {A} (f : Accounts -> res A * Accounts) s w a s' : f s = (Ok a, s') -> statement f s w = (Ok (s', inl a), w).
Proof. unfold statement. by intros ->. Qed.
Lemma read_run {A} (f : Accounts -> res A) s w : read f s w = match f s with
  | Ok a => (Ok (s, inl a), w) | Err e => (Ok (s, inr e), w) | Panic p => (Panic p, w) end.
Proof. unfold read, statement. by destruct (f s). Qed.
Lemma tret_run {S A} (m : Tracked S A) s w s' a w' {B} (f : A -> Tracked S B) : m s w = (Ok (s', inl a), w') ->
  (m ≫= f) s w = f a s' w'.
Proof. intros Hm. unfold mbind, Tracked_bind, mbind, M_bind. by rewrite Hm. Qed.
Lemma tstop_run {S A} (m : Tracked S A) s w s' e w' {B} (f : A -> Tracked S B) : m s w = (Ok (s', inr e), w') ->
  (m ≫= f) s w = (Ok (s', inr e), w').
Proof. intros Hm. unfold mbind, Tracked_bind, mbind, M_bind. by rewrite Hm. Qed.
Lemma try_run {S A} (m : Tracked S A) s w s' r w' : m s w = (Ok (s', r), w') -> try m s w = (Ok (s', inl r), w').
Proof. intros Hm. unfold try, mbind, M_bind. by rewrite Hm. Qed.

(** ** The constraints of the tables *)
Definition google_key (r : UserRow) : option string := if Valid (us_GoogleID r) then Some (null_val (us_GoogleID r)) else None.
Definition item_key (r : RegistryRow) : option (Z * string) := Some (rg_MerchantID r, rg_Key r).
Record accounts_ok (s : Accounts) : Prop := {
  ok_users : table_wf (users s);
  ok_user_uuid : uniq_on (fun r => Some (us_Uuid r)) (users s);
  ok_google : uniq_on google_key (users s);
  ok_tokens : table_wf (api_tokens s);
  ok_token : uniq_on (fun r => Some (at_Token r)) (api_tokens s);
  ok_token_uuid : uniq_on (fun r => Some (at_Uuid r)) (api_tokens s);
  ok_registries : table_wf (registries s);
  ok_item : uniq_on item_key (registries s)
}.

Lemma sql_eq_key (a b : NullString) : sql_eq a b = true ->
  Valid a = true /\ Valid b = true /\ null_val a = null_val b.
Proof. unfold sql_eq. intros [[? ?]%andb_true_iff ?%bool_decide_eq_true]%andb_true_iff. done. Qed.

(** A key given to one row, by its id, that no other row has. *)
Lemma uniq_update_one {A K} `{HasID A} (k : A -> option K) (t : Table A) i f :
  (forall r, row_id (f r) = row_id r) ->
  (forall r r', r ∈ rows t -> r' ∈ rows t -> row_id r = i -> row_id r' <> i -> is_Some (k r') -> k r' <> k (f r)) ->
  uniq_on k t -> uniq_on k (update_rows (by_id i) f t).
Proof.
  intros Hid Hf Hu r r' (x & Hx & ->)%elem_of_update (y & Hy & ->)%elem_of_update. unfold by_id.
  destruct (Z.eqb_spec (row_id x) i) as [Ex|Ex], (Z.eqb_spec (row_id y) i) as [Ey|Ey]; rewrite ?Hid.
  - intros _ _. congruence.
  - intros Hk Hs. destruct (Hf x y Hx Hy Ex Ey); [by rewrite <- Hk|done].
  - intros Hk Hs. destruct (Hf y x Hy Hx Ey Ex); [done|done].
  - by apply Hu.
Qed.


(** What an operation does to the accounts keeps the constraints, whatever it
    does to the world. *)
Definition keeps_ok (s : Accounts) (_ : world) (s' : Accounts) (_ : world) : Prop := accounts_ok s -> accounts_ok s'.
#[export] Instance keeps_ok_rel : Rel keeps_ok.
Proof. split; unfold keeps_ok; [intros s w Hs; exact Hs|]. intros s w s1 w1 s2 w2 A B C. by apply B, A. Qed.

Create HintDb accounts.

Lemma keeps_statement {A} (f : Accounts -> res A * Accounts) : (forall s, accounts_ok s -> accounts_ok (f s).2) ->
  tsteps keeps_ok (statement f).
Proof.
  intros Hf s w s' a w' Hr Hs. specialize (Hf s Hs). revert Hr. unfold statement.
  destruct (f s) as [[b|e|p] s1]; intros [= <- _ _]; done.
Qed.
Lemma keeps_read {A} (f : Accounts -> res A) : tsteps keeps_ok (read f).
Proof. apply keeps_statement. done. Qed.
Lemma keeps_call {A} (m : Go A) : tsteps keeps_ok (call m).
Proof. apply tsteps_call. intros s w Hs. exact Hs. Qed.

Lemma keeps_CreateUser p : tsteps keeps_ok (CreateUser p).
Proof.
  apply keeps_statement. intros s Hs. destruct Hs as [Hu Huu Hg Ht Htt Htu Hr Hi]. destruct (negb _); [|destruct (existsb _ _) eqn:He];
    cbn [snd]; split; cbn; try done; try (by apply wf_next; [lia|]).
  - by apply wf_insert.
  - apply uniq_insert; [|done]. intros r Hin _ [= E]. pose proof (existsb_false _ _ He _ Hin) as Hf. cbn in Hf.
    rewrite bool_decide_eq_true_2 in Hf; done.
  - apply uniq_insert; [|done]. intros r Hin [key Hk] E. pose proof (existsb_false _ _ He _ Hin) as [_ Hf]%orb_false_iff.
    revert Hf. unfold google_key in Hk, E. cbn in E. unfold sql_eq. destruct (Valid (us_GoogleID r)); [|done].
    destruct (Valid (cu_GoogleID p)); [|done]. cbn. injection E as ->. by rewrite bool_decide_eq_true_2.
Qed.

Lemma keeps_update_user id ok conflict f : (forall r, us_ID (f r) = us_ID r) -> (forall r, us_Uuid (f r) = us_Uuid r) ->
  (forall r r', us_GoogleID (f r) = us_GoogleID r \/ (conflict r' = sql_eq (us_GoogleID r') (us_GoogleID (f r)))) ->
  tsteps keeps_ok (update_user id ok conflict f).
Proof.
  intros Hid Huu Hg. apply keeps_statement. intros s Hs. destruct (one _) as [row|e|p]; [|done..].
  destruct (negb _); [done|]. destruct (existsb _ _) eqn:He; [done|].
  destruct Hs as [H1 H2 H3 H4 H5 H6 H7 H8]. split; cbn; try done.
  - by apply wf_update.
  - apply uniq_update; [done| |done]. intros r _. left. by rewrite Huu.
  - apply uniq_update_one; [done| |done]. intros r r' Hr Hr' Ei Ei' Hs E.
    destruct (Hg r r') as [Eg|Ec].
    + apply Ei'. rewrite <- Ei. apply (H3 r' r); [done|done| |done]. rewrite E. unfold google_key. by rewrite Eg.
    + pose proof (existsb_false _ _ He _ Hr') as Hf. cbn in Hf. rewrite Ec in Hf.
      replace (us_ID r' =? id) with false in Hf by (symmetry; apply Z.eqb_neq; exact Ei'). cbn in Hf. revert Hf. unfold google_key in E, Hs. unfold sql_eq.
      destruct (Valid (us_GoogleID r')); [|by destruct Hs]. destruct (Valid (us_GoogleID (f r))); [|done]. cbn. injection E as ->.
      by rewrite bool_decide_eq_true_2.
Qed.
Lemma keeps_UpdateUser p : tsteps keeps_ok (UpdateUser p).
Proof. apply keeps_update_user; [done..|]. intros r r'. cbn. destruct (uu_SetGoogleID p); [by right|by left]. Qed.
Lemma keeps_UpdateUserPassword id password at_ : tsteps keeps_ok (UpdateUserPassword id password at_).
Proof. apply keeps_update_user; [done..|]. by left. Qed.

Lemma keeps_CreateAPIToken p : tsteps keeps_ok (CreateAPIToken p).
Proof.
  apply keeps_statement. intros s Hs. destruct Hs as [H1 H2 H3 H4 H5 H6 H7 H8]. destruct (negb _); [|destruct (existsb _ _) eqn:He];
    cbn [snd]; split; cbn; try done; try (by apply wf_next; [lia|]).
  - by apply wf_insert.
  - apply uniq_insert; [|done]. intros r Hin _ [= E]. pose proof (existsb_false _ _ He _ Hin) as Hf. cbn in Hf.
    rewrite bool_decide_eq_true_2 in Hf; done.
  - apply uniq_insert; [|done]. intros r Hin _ [= E]. pose proof (existsb_false _ _ He _ Hin) as [_ Hf]%orb_false_iff. cbn in Hf.
    rewrite bool_decide_eq_true_2 in Hf; done.
Qed.
Lemma keeps_DeleteAPITokenByID id : tsteps keeps_ok (DeleteAPITokenByID id).
Proof. apply keeps_statement. intros s [H1 H2 H3 H4 H5 H6 H7 H8]. split; cbn; auto with store. Qed.

Lemma keeps_CreateRegistryItem c u m k v d : tsteps keeps_ok (CreateRegistryItem c u m k v d).
Proof.
  apply keeps_statement. intros s [H1 H2 H3 H4 H5 H6 H7 H8]. destruct (negb _); [|destruct (existsb _ _) eqn:He];
    cbn [snd]; split; cbn; try done; try (by apply wf_next; [lia|]).
  - by apply wf_insert.
  - apply uniq_insert; [|done]. intros r Hin _ [= E1 E2]. pose proof (existsb_false _ _ He _ Hin) as Hf. revert Hf.
    unfold is_item. by rewrite E1, E2, Z.eqb_refl, bool_decide_eq_true_2.
Qed.
Lemma keeps_UpdateRegistryItem k m u v d : tsteps keeps_ok (UpdateRegistryItem k m u v d).
Proof.
  apply keeps_statement. intros s Hs. destruct (one _); [|done..]. destruct (negb _); [done|].
  destruct Hs as [H1 H2 H3 H4 H5 H6 H7 H8]. split; cbn; auto with store.
Qed.
#[export] Hint Resolve keeps_read keeps_call keeps_CreateUser keeps_UpdateUser keeps_UpdateUserPassword keeps_CreateAPIToken
  keeps_DeleteAPITokenByID keeps_CreateRegistryItem keeps_UpdateRegistryItem : accounts.

Ltac keeps_steps :=
  repeat first
    [ solve [eauto with accounts nocore]
    | progress intros
    | apply tsteps_ret; tc_solve | apply tsteps_stop; tc_solve
    | apply tsteps_bind; [tc_solve| |]
    | apply tsteps_try
    | match goal with |- tsteps _ (match ?x with _ => _ end) => destruct x end ].

Section Operations.
Context `{Mail} `{Bcrypt} `{UserEvents} `{Rand}.

Lemma keeps_Get key : tsteps keeps_ok (registry_Get key).
Proof. unfold registry_Get, GetRegistryItemByKey. keeps_steps. Qed.
#[local] Hint Resolve keeps_Get : accounts.
Lemma keeps_Set key value : tsteps keeps_ok (registry_Set key value).
Proof. unfold registry_Set, return_wrapped. keeps_steps. Qed.
Lemma keeps_guard email : tsteps keeps_ok (guardRegistration email).
Proof. unfold guardRegistration, GetBoolSafe, GetStringsSafe, GetValueSafe. keeps_steps. Qed.
Lemma keeps_createToken type id name : tsteps keeps_ok (createToken type id name).
Proof. unfold createToken. keeps_steps. Qed.
Lemma keeps_GetByEmail email : tsteps keeps_ok (GetByEmail email).
Proof. unfold GetByEmail, found, GetUserByEmail. keeps_steps. Qed.
#[local] Hint Resolve keeps_guard keeps_GetByEmail : accounts.
Lemma keeps_Register email pass : tsteps keeps_ok (Register email pass).
Proof. unfold Register, validateEmail, hashPass, announce. keeps_steps. Qed.
Lemma keeps_UpdatePassword id pass : tsteps keeps_ok (UpdatePassword id pass).
Proof. unfold UpdatePassword, hashPass, found. keeps_steps. Qed.
#[local] Hint Resolve keeps_Register keeps_UpdatePassword : accounts.
Lemma keeps_createUser override email pass : tsteps keeps_ok (createUser override email pass).
Proof. unfold createUser. keeps_steps. Qed.
Lemma keeps_ResolveWithGoogle gu : tsteps keeps_ok (ResolveWithGoogle gu).
Proof.
  unfold ResolveWithGoogle, GetUserByGoogleID, GetUserByEmail, updateGoogleUser, registerGoogleUser, wrapped, announce. keeps_steps.
Qed.
End Operations.
#[export] Hint Resolve keeps_Set keeps_createToken keeps_createUser keeps_ResolveWithGoogle keeps_UpdatePassword : accounts.

(** ** The registry *)
Definition item (s : Accounts) (key : string) : option string := rg_Value <$> head (select (is_item 0 key) (registries s)).
Definition value_or (s : Accounts) (key d : string) : string := default d (item s key).
(** Whether an e-mail may register by itself. *)
Definition open_to (s : Accounts) (email : string) : bool :=
  negb (match ParseBool (value_or s registryRegistrationWhitelistOnly "false") with Ok b => b | _ => false end) ||
  one_of email (let l := value_or s registryRegistrationWhitelist "" in if bool_decide (l = "") then [] else map TrimSpace (Split l ",")).

Lemma head_select {A} (p : A -> bool) (t : Table A) : one (select p t) = match head (select p t) with Some r => Ok r | None => Err ErrNoRows end.
Proof. by destruct (select p t). Qed.

Lemma head_select_prop {A} (p : A -> bool) (t : Table A) r : head (select p t) = Some r -> p r = true.
Proof. intros Hh. apply (one_select_inv p t r). by rewrite head_select, Hh. Qed.

Lemma Get_run key s w : registry_Get key s w =
  (Ok (s, match item s key with Some v => inl (mkValue key v) | None => inr (EWrap registry_ErrNotFound key) end), w).
Proof.
  unfold registry_Get, GetRegistryItemByKey, item, globalConfigMerchantID. unfold mbind, Tracked_bind, try, mbind, M_bind.
  rewrite read_run, head_select. destruct (head _) as [r|] eqn:E; [|done]. cbn. unfold entryToValue.
  apply head_select_prop in E. unfold is_item in E. apply andb_true_iff in E as [_ E%bool_decide_eq_true]. by rewrite E.
Qed.

Lemma GetValueSafe_run key d s w : GetValueSafe key d s w = (Ok (s, inl (mkValue key (value_or s key d))), w).
Proof.
  unfold GetValueSafe, value_or. erewrite tret_run; [|apply try_run, Get_run]. by destruct (item s key).
Qed.

Lemma guard_run email s w : guardRegistration email s w = (Ok (s, if open_to s email then inl tt else inr ErrRestricted), w).
Proof.
  unfold guardRegistration, GetBoolSafe, GetStringsSafe, open_to.
  erewrite tret_run; [|erewrite tret_run; [reflexivity|apply GetValueSafe_run]]. cbn [v_Value].
  destruct (ParseBool _) as [[]|e|p]; try done. cbn [negb orb].
  erewrite tret_run; [|erewrite tret_run; [reflexivity|apply GetValueSafe_run]]. cbn [v_Value].
  by destruct (one_of _ _).
Qed.

Lemma head_select_insert {A} (p : A -> bool) (t : Table A) mk : head (select p (insert_row mk t)) =
  match head (select p t) with Some r => Some r | None => if p (mk (next_id t)) then Some (mk (next_id t)) else None end.
Proof.
  unfold select, insert_row. cbn. rewrite List.filter_app. destruct (List.filter p (rows t)); cbn; [by destruct (p _)|done].
Qed.
Lemma head_select_update {A} (p q : A -> bool) f (t : Table A) : (forall r, q r = true -> p (f r) = p r) ->
  head (select p (update_rows q f t)) = (fun r => if q r then f r else r) <$> head (select p t).
Proof.
  intros Hf. unfold select, update_rows. cbn. induction (rows t) as [|x l IH]; [done|]. cbn.
  replace (p (if q x then f x else x)) with (p x) by (destruct (q x) eqn:E; [by rewrite Hf|done]). by destruct (p x).
Qed.

(** ** Lemmas: the steps of a sign-in *)
Section SignIn.
Context `{Mail} `{Bcrypt} `{UserEvents}.

(** The rows are what they were. *)
Definition same_rows (s s' : Accounts) : Prop :=
  rows (users s') = rows (users s) /\ api_tokens s' = api_tokens s /\ registries s' = registries s.
Definition others_kept (id : Z) (s s' : Accounts) : Prop :=
  (forall i, i <> id -> row_at i (users s') = row_at i (users s)) /\ api_tokens s' = api_tokens s /\ registries s' = registries s.
(** An account is updated without changing whose it is. *)
Definition same_account (row row' : UserRow) : Prop :=
  us_ID row' = us_ID row /\ us_Email row' = us_Email row /\ us_Uuid row' = us_Uuid row /\ us_Password row' = us_Password row /\
  us_CreatedAt row' = us_CreatedAt row.

Lemma wp_announce id s w (Q : res (Accounts * (unit + error)) -> world -> Prop) :
  (forall w', Q (Ok (s, inl tt)) w') -> (forall p w', Q (Panic p) w') -> wp (announce id s) w Q.
Proof.
  intros HQ Hp. unfold announce. t_step. t_step. t_step. apply wp_external. intros w' _.
  destruct (PublishUserRegistered _ _); cbv beta iota; [t_step..|]; auto.
Qed.

Lemma wp_wrapped {A} (m : Tracked Accounts A) msg s w (Q : res (Accounts * (A + error)) -> world -> Prop) :
  wp (m s) w (fun r w' => match r with
    | Ok (s', inl a) => Q (Ok (s', inl a)) w' | Ok (s', inr e) => Q (Ok (s', inr (EWrap e msg))) w'
    | Err e => Q (Err e) w' | Panic p => Q (Panic p) w' end) -> wp (wrapped m msg s) w Q.
Proof.
  intros Hm. unfold wrapped. t_step. t_step. eapply wp_mono; [exact Hm|]. intros [[s' [a|e]]|e|p] w' HQ; cbv beta iota; try t_step; done.
Qed.

Lemma wp_update_user id ok conflict f s w (Q : res (Accounts * (UserRow + error)) -> world -> Prop) :
  (forall e, Q (Ok (s, inr e)) w) ->
  (forall row, row_at id (users s) = Some row -> Q (Ok (set_users (update_rows (by_id id) f (users s)) s, inl (f row))) w) ->
  wp (update_user id ok conflict f s) w Q.
Proof.
  intros He Hok. apply wp_statement. rewrite head_select. fold (row_at id (users s)).
  destruct (row_at id (users s)) as [row|] eqn:E; [|done]. destruct (negb _); [done|]. destruct (existsb _ _); [done|]. by apply Hok.
Qed.

(** The row a [:one] query finds is the one of its id. *)
Lemma one_row_at {A} `{HasID A} (p : A -> bool) (t : Table A) r : table_wf t -> one (select p t) = Ok r ->
  row_at (row_id r) t = Some r /\ p r = true.
Proof. intros Hwf [Hr Hp]%one_select_inv. split; [by apply row_at_Some|done]. Qed.

Lemma wp_updateGoogle id setID gu row s w : accounts_ok s -> row_at id (users s) = Some row ->
  wp (updateGoogleUser id setID gu s) w (fun r _ => match r with
    | Ok (s', inl u) => exists row', row_at id (users s') = Some row' /\ u = entryToUser row' /\ us_Name row' = gu_Name gu /\
        us_GoogleID row' = (if setID then StringToNullable (gu_Sub gu) else us_GoogleID row) /\
        same_account row row' /\ others_kept id s s'
    | Ok (s', inr _) => s' = s
    | _ => False end).
Proof.
  intros Hok Hrow. unfold updateGoogleUser. t_step. t_step. apply wp_now. intros at_ w1 _. cbv beta iota. t_step. apply wp_wrapped.
  apply wp_update_user; [done|]. intros row0 E. cbn [uu_ID] in E. rewrite Hrow in E. injection E as <-. t_step. cbn [users].
  assert (us_ID row = id) as Hid by by apply row_at_id in Hrow as [? _].
  eexists. split_and!; [|reflexivity|done|done|by unfold same_account|].
  - cbn. rewrite row_at_update by done. rewrite Hrow. cbn. unfold by_id, row_id, User_id. by rewrite Hid, Z.eqb_refl.
  - split; [|done]. intros i Hi. cbn. rewrite row_at_update by done. destruct (row_at i (users s)) as [r|] eqn:Er; [|done]. cbn.
    apply row_at_id in Er as [Er _]. unfold by_id. by destruct (Z.eqb_spec (row_id r) id); [congruence|].
Qed.

Lemma wp_registerGoogle gu s w : accounts_ok s ->
  wp (registerGoogleUser gu s) w (fun r _ => match r with
    | Ok (s', inl u) => exists row', row_at (u_ID u) (users s') = Some row' /\ u = entryToUser row' /\ us_Name row' = gu_Name gu /\
        us_GoogleID row' = StringToNullable (gu_Sub gu) /\ us_Email row' = gu_Email gu /\ us_Password row' = null_string /\
        row_at (u_ID u) (users s) = None /\ open_to s (gu_Email gu) = true /\ others_kept (u_ID u) s s'
    | Ok (s', inr _) => same_rows s s'
    | Err _ => False | Panic _ => True end).
Proof.
  intros Hok. unfold registerGoogleUser. t_step. eapply wp_of; [apply guard_run|]. destruct (open_to s (gu_Email gu)) eqn:Ho; [|done].
  t_step. t_step. apply wp_uuid. intros uuid w1 _. cbv beta iota. t_step. t_step. apply wp_now. intros t1 w2 _. cbv beta iota.
  t_step. t_step. apply wp_now. intros t2 w3 _. cbv beta iota. t_step. apply wp_wrapped.
  apply wp_statement. destruct (negb _); [done|]. destruct (existsb _ _); [done|]. cbv beta zeta iota. t_step. apply wp_announce; [|done]. intros w4.
  t_step. set (mk := new_user _).
  assert (row_at (next_id (users s)) (users s) = None) as Hnew.
  { destruct (row_at _ _) as [r|] eqn:E; [|done]. apply row_at_id in E as [Hi Hr].
    destruct (ok_users _ Hok) as (_ & Hall & _). rewrite Forall_forall in Hall. specialize (Hall r Hr). lia. }
  exists (mk (next_id (users s))). split_and!; try done.
  - cbn [users set_users entryToUser u_ID]. rewrite row_at_insert; [|apply Hok|done]. by rewrite decide_True.
  - split; [|done]. intros i Hi. cbn [users set_users]. rewrite row_at_insert; [|apply Hok|done]. by rewrite decide_False.
Qed.
End SignIn.

(** ** Lemmas: signing in with a password *)
Section Login.
Context `{Mail} `{Bcrypt} `{UserEvents}.

(** What signing in answers; it changes nothing. *)
Definition login (email password : string) (s : Accounts) : User + error :=
  if negb (ParseAddress_ok email) then inr (ENew "mail: invalid address")
  else match head (select (fun r => bool_decide (us_Email r = email)) (users s)) with
  | None => inr user_ErrNotFound
  | Some row => if negb (checkPass (null_val (us_Password row)) password) then inr ErrWrongPassword else inl (entryToUser row)
  end.

Lemma found_run (p : UserRow -> bool) s w : found (read (fun s => one (select p (users s)))) s w =
  (Ok (s, match head (select p (users s)) with Some r => inl r | None => inr user_ErrNotFound end), w).
Proof.
  unfold found. pose proof (read_run (fun s => one (select p (users s))) s w) as Hr. cbv beta in Hr. rewrite head_select in Hr.
  destruct (head _) as [r|]; (erewrite tret_run; [|apply try_run, Hr]; reflexivity).
Qed.

Lemma login_run email password s w : GetByEmailWithPasswordCheck email password s w = (Ok (s, login email password s), w).
Proof.
  unfold GetByEmailWithPasswordCheck, login, validateEmail. destruct (ParseAddress_ok email); [|done]. cbn [negb].
  erewrite tret_run; [|reflexivity]. unfold GetUserByEmail.
  pose proof (found_run (fun r => bool_decide (us_Email r = email)) s w) as Hf. destruct (head _) as [row|].
  - erewrite tret_run; [|exact Hf]. by destruct (checkPass _ _).
  - by erewrite tstop_run; [|exact Hf].
Qed.

(** Only the account of [email] may answer otherwise. *)
Definition only_of (email : string) (s s' : Accounts) : Prop := forall e p, e <> email -> login e p s' = login e p s.

Lemma only_of_insert email s mk : (forall n, us_Email (mk n) = email) ->
  only_of email s (set_users (insert_row mk (users s)) s).
Proof.
  intros Hm e p Hne. unfold login. cbn [users set_users]. rewrite head_select_insert, Hm, bool_decide_eq_false_2 by done.
  by destruct (head _).
Qed.

Lemma only_of_update email s id row pass at_ : table_wf (users s) -> row_at id (users s) = Some row -> us_Email row = email ->
  only_of email s (set_users (update_rows (by_id id) (with_password pass at_) (users s)) s).
Proof.
  intros Hwf Hrow Hm e p Hne. unfold login. cbn [users set_users]. rewrite head_select_update by done.
  destruct (head _) as [r|] eqn:Er; [|done]. cbn. destruct (by_id id r) eqn:Eid; [|done]. exfalso.
  destruct (select _ (users s)) as [|x l] eqn:Es; [done|]. injection Er as ->.
  assert (r ∈ select (fun r => bool_decide (us_Email r = e)) (users s)) as [Hin Hr%bool_decide_eq_true]%elem_of_select by (rewrite Es; left).
  assert (row_at id (users s) = Some r) as Hr2.
  { apply row_at_Some; [done|]. split; [done|]. unfold by_id in Eid. lia. }
  congruence.
Qed.

Context `{!BcryptLaws}.

(** A hash is not empty, so the password column holds it. *)
Lemma hash_kept p n hashed : bcrypt_Generate p n = Ok hashed -> checkPass (null_val (StringToNullable hashed)) p = true.
Proof. intros Hg. by eapply bcrypt_matches. Qed.

(** [Register]: the account that has the e-mail, a new one, or nothing. *)
Lemma wp_Register email pass s w : accounts_ok s -> wp (Register email pass s) w (fun r _ => match r with
  | Ok (s', inl (u, Some e)) => e = ErrAlreadyExists /\ s' = s /\ ParseAddress_ok email = true /\
      exists row, head (select (fun r => bool_decide (us_Email r = email)) (users s)) = Some row /\ u = entryToUser row
  | Ok (s', inl (u, None)) => head (select (fun r => bool_decide (us_Email r = email)) (users s)) = None /\
      login email pass s' = inl u /\ u_Email u = email /\ only_of email s s'
  | Ok (s', inr _) => same_rows s s'
  | Err _ => False | Panic _ => True end).
Proof.
  intros Hok. unfold Register, validateEmail. t_step. destruct (ParseAddress_ok email) eqn:Hmail; [|by t_step]. t_step.
  destruct (Z.of_nat (String.length pass) <? 8); [by t_step|]. t_step. t_step. unfold GetByEmail. t_step. eapply wp_of; [apply found_run|].
  destruct (head _) as [row|] eqn:Hrow; cbv iota beta; [t_step|].
  { t_step. split_and!; try done. by exists row. }
  replace (negb _) with false by done. t_step. unfold hashPass. t_step. apply wp_external. intros w1 _.
  destruct (bcrypt_Generate pass (calls w)) as [hashed|e|why] eqn:Hg; [|done..]. t_step. t_step.
  destruct (before_byte "@" email) as [name|e|why]; [|done..]. apply wp_lift. cbv beta iota.
  t_step. t_step. apply wp_uuid. intros uuid w2 _. cbv beta iota. t_step. t_step. apply wp_now. intros t1 w3 _. cbv beta iota.
  t_step. t_step. apply wp_now. intros t2 w4 _. cbv beta iota. t_step.
  apply wp_statement. destruct (negb _); [done|]. destruct (existsb _ _); [done|]. cbv beta zeta iota. t_step.
  apply wp_announce; [|done]. intros w5. t_step. split_and!; [done| |done|by apply only_of_insert].
  unfold login. rewrite Hmail. cbn [negb users set_users]. rewrite head_select_insert, Hrow.
  rewrite bool_decide_eq_true_2 by done. change (us_Password _) with (StringToNullable hashed). by rewrite (hash_kept pass _ hashed Hg).
Qed.

Lemma wp_UpdatePassword row email pass s w : accounts_ok s -> ParseAddress_ok email = true ->
  head (select (fun r => bool_decide (us_Email r = email)) (users s)) = Some row ->
  wp (UpdatePassword (us_ID row) pass s) w (fun r _ => match r with
  | Ok (s', inl u) => login email pass s' = inl u /\ u_Email u = email /\ only_of email s s'
  | Ok (s', inr _) => s' = s
  | Err _ => False | Panic _ => True end).
Proof.
  intros Hok Hmail Hrow. unfold UpdatePassword. destruct (_ <? 8); [by t_step|]. t_step. unfold hashPass. t_step. apply wp_external.
  intros w1 _. destruct (bcrypt_Generate pass (calls w)) as [hashed|e|why] eqn:Hg; [|done..]. t_step. t_step. apply wp_now.
  intros t1 w2 _. cbv beta iota. t_step. unfold found. t_step. t_step.
  assert (row_at (us_ID row) (users s) = Some row /\ us_Email row = email) as [Hat Hm].
  { destruct (one_row_at (fun r => bool_decide (us_Email r = email)) (users s) row) as [? ?%bool_decide_eq_true]; [apply Hok| |done].
    by rewrite head_select, Hrow. }
  apply wp_update_user.
  { intros e. cbv iota beta. by destruct (errors_Is e ErrNoRows); t_step. }
  intros row0 E. rewrite Hat in E. injection E as <-. cbv iota beta. t_step. t_step. split_and!; [|done|].
  - unfold login. rewrite Hmail. cbn [negb users set_users]. rewrite head_select_update by done. rewrite Hrow. cbn [fmap option_fmap option_map].
    unfold by_id, row_id, User_id. rewrite Z.eqb_refl. change (us_Password _) with (StringToNullable hashed). by rewrite (hash_kept pass _ hashed Hg).
  - by eapply only_of_update; [apply Hok|..].
Qed.
End Login.

(** ** Lemmas: tokens *)
(** What [GetToken] answers. *)
Definition resolve (type token : string) (s : Accounts) : APIToken + error :=
  match head (select (fun r => bool_decide (at_EntityType r = type) && bool_decide (at_Token r = token)) (api_tokens s)) with
  | Some r => inl (entryToAPIToken r)
  | None => inr ErrNoRows
  end.

Lemma GetToken_run type token s w : GetToken type token s w = (Ok (s, resolve type token s), w).
Proof.
  unfold GetToken, GetAPIToken, resolve.
  pose proof (read_run (fun s => one (select (fun r => bool_decide (at_EntityType r = type) && bool_decide (at_Token r = token)) (api_tokens s))) s w) as Hr.
  cbv beta in Hr. rewrite head_select in Hr.
  destruct (head _) as [r|]; [by erewrite tret_run; [|exact Hr]|by erewrite tstop_run; [|exact Hr]].
Qed.

Lemma resolve_none type token s : Forall (fun r => at_Token r <> token) (rows (api_tokens s)) -> resolve type token s = inr ErrNoRows.
Proof.
  intros Hf. unfold resolve. destruct (head _) as [r|] eqn:E; [|done]. exfalso. rewrite Forall_forall in Hf.
  assert (one (select (fun r => bool_decide (at_EntityType r = type) && bool_decide (at_Token r = token)) (api_tokens s)) = Ok r) as Ho
    by by rewrite head_select, E.
  apply one_select_inv in Ho as [Hin [_ Ht%bool_decide_eq_true]%andb_true_iff]. by apply (Hf r).
Qed.

Lemma length_of_bytes l : String.length (of_bytes l) = length l.
Proof. induction l as [|c l IH]; [done|]. cbn. by rewrite IH. Qed.

Section Generated.
Context `{Rand} `{!RandLaws}.

Lemma rune_run w : exists c w', random_rune w = (Ok c, w') /\ c ∈ bytes tokenRuneSource /\ db w' = db w.
Proof.
  unfold random_rune, external, mbind, M_bind. cbn -[tokenRuneSource].
  pose proof (Intn_range (Z.of_nat (String.length tokenRuneSource)) (calls w)) as Hr.
  destruct Hr as [Hlo Hhi]; [done|]. set (j := Intn _ _) in *.
  destruct (bytes tokenRuneSource !! Z.to_nat j) as [c|] eqn:E.
  - destruct (Z.ltb_spec j 0); [lia|]. eexists c, _. split; [reflexivity|]. split; [by eapply list_elem_of_lookup_2|done].
  - apply lookup_ge_None in E. change (length (bytes tokenRuneSource)) with 65%nat in E.
    change (Z.of_nat (String.length tokenRuneSource)) with 65 in Hhi. lia.
Qed.

Lemma runes_run n : forall w, exists l w', generate_runes n w = (Ok l, w') /\ length l = n /\
  Forall (fun c => c ∈ bytes tokenRuneSource) l /\ db w' = db w.
Proof.
  induction n as [|n IH]; intros w; [by eexists [], w|]. cbn [generate_runes]. unfold mbind, M_bind.
  destruct (rune_run w) as (c & w1 & -> & Hc & Hd1). cbv iota beta. destruct (IH w1) as (l & w2 & -> & Hl & Hf & Hd2).
  eexists (c :: l), w2. split_and!; [done|cbn; lia|by constructor|congruence].
Qed.

(** Its characters are of one byte. *)
Lemma generated_fits l : Forall (fun c => c ∈ bytes tokenRuneSource) l -> characters (of_bytes l) = Z.of_nat (length l).
Proof.
  intros Hf. unfold characters. unfold of_bytes. rewrite list_ascii_of_string_of_list_ascii. f_equal.
  induction Hf as [|c l Hc Hl IH]; [done|]. cbn [List.filter].
  assert (negb (Z.land (code c) 192 =? 128) = true) as ->; [|cbn; lia].
  assert (Forall (fun c => negb (Z.land (code c) 192 =? 128) = true) (bytes tokenRuneSource)) as Hall by (by repeat constructor).
  rewrite Forall_forall in Hall. by apply Hall.
Qed.

(** Creating a token: one row, with a token and a uuid no other row has. *)
Lemma createToken_run type entityID name s w : exists r w' s', createToken type entityID name s w = (Ok (s', r), w') /\
  db w' = db w /\ match r with
  | inl t => exists row, s' = set_api_tokens (insert_row (fun _ => row) (api_tokens s)) s /\ t = entryToAPIToken row /\
      at_ID row = next_id (api_tokens s) /\ at_EntityType row = type /\ at_EntityID row = entityID /\ tk_Name t = Some name /\
      String.length (at_Token row) = 64%nat /\ Forall (fun c => c ∈ bytes tokenRuneSource) (bytes (at_Token row)) /\
      Forall (fun r => at_Token r <> at_Token row /\ at_Uuid r <> at_Uuid row) (rows (api_tokens s))
  | inr _ => rows (api_tokens s') = rows (api_tokens s) /\ users s' = users s /\ registries s' = registries s
  end.
Proof.
  unfold createToken. erewrite tret_run; [|reflexivity]. set (w1 := mkWorld _ _ _ _ _ _ _).
  destruct (runes_run 64 w1) as (l & w2 & El & Hlen & Hf & Hd). 
  erewrite tret_run; [|unfold call, attempt, generateToken, mbind, M_bind; rewrite El; reflexivity].
  erewrite tret_run; [|reflexivity]. unfold CreateAPIToken.
  set (p := mkCreateAPITokenParams _ _ _ _ _ _). set (w3 := mkWorld _ _ _ _ _ _ _).
  destruct (fits 255 (ct_EntityType p) && fits 64 (ct_Token p) && fits_null 255 (ct_Name p)) eqn:Efit.
  2:{ eexists (inr _), w3, _. split; [erewrite tstop_run; [|unfold statement; cbv iota beta zeta; cbn [negb]; reflexivity]; reflexivity|]. by split. }
  destruct (existsb (fun r => bool_decide (at_Token r = ct_Token p) || bool_decide (at_Uuid r = ct_Uuid p)) (rows (api_tokens s))) eqn:Ex.
  { eexists (inr _), w3, _. split; [erewrite tstop_run; [|unfold statement; cbv iota beta zeta; cbn [negb]; rewrite Ex; reflexivity]; reflexivity|]. by split. }
  eexists (inl _), w3, _. split; [erewrite tret_run; [|unfold statement; cbv iota beta zeta; cbn [negb]; rewrite Ex; reflexivity]; reflexivity|].
  split; [done|]. eexists (new_token p (next_id (api_tokens s))). split_and!; try done.
  - cbn. by rewrite length_of_bytes.
  - cbn. by rewrite bytes_of_bytes.
  - apply Forall_forall. intros r Hr. pose proof (existsb_false _ _ Ex _ Hr) as [?%bool_decide_eq_false ?%bool_decide_eq_false]%orb_false_iff. done.
Qed.
End Generated.

(** ** Properties *)

(** [Set] of the registry: a value that fits its column is stored, under its
    key only; over an item that exists, a value that does not fit changes
    nothing and is answered without an error, by an empty value; for a new item
    it is answered by the error that the item was not found. *)
Theorem registry_set (key value : string) (s : Accounts) (w : world) : exists s' r w',
  registry_Set key value s w = (Ok (s', r), w') /\ db w' = db w /\ users s' = users s /\ api_tokens s' = api_tokens s /\
  (forall other, other <> key -> item s' other = item s other) /\
  match item s key with
  | Some _ =>
    if fits 128 value then r = inl (mkValue key value) /\ item s' key = Some value
    else r = inl (mkValue "" "") /\ s' = s
  | None =>
    if fits 128 key && fits 128 value then r = inl (mkValue key value) /\ item s' key = Some value
    else (exists e, r = inr e /\ errors_Is e registry_ErrNotFound = true) /\ rows (registries s') = rows (registries s)
  end.
Proof.
  assert (forall r other, other <> key -> is_item 0 other r = true -> is_item 0 key r = false) as Hne.
  { intros r other Hk. unfold is_item. intros [_ E%bool_decide_eq_true]%andb_true_iff. rewrite E.
    by rewrite bool_decide_eq_false_2, andb_false_r. }
  unfold registry_Set. erewrite tret_run; [|apply try_run, Get_run]. destruct (item s key) as [v|] eqn:Ei; cbv iota beta.
  - unfold item in Ei. destruct (head (select (is_item 0 key) (registries s))) as [row|] eqn:Eh; [|done]. injection Ei as Ev.
    erewrite tret_run; [|reflexivity]. unfold UpdateRegistryItem, globalConfigMerchantID, v_Key.
    destruct (fits 128 value) eqn:Ef.
    + eexists _, _, _. split.
      { erewrite tret_run; [|apply try_run, statement_run; rewrite head_select, Eh; reflexivity]. reflexivity. }
      cbn -[update_rows insert_row select is_item fits]. split_and!; try done.
      * intros other Hk. unfold item. cbn -[update_rows insert_row select is_item fits]. rewrite head_select_update.
        -- destruct (head (select (is_item 0 other) (registries s))) as [r|] eqn:Er; [|done]. cbn.
           apply head_select_prop in Er. by rewrite (Hne r other).
        -- intros r _. done.
      * unfold entryToValue. cbn -[update_rows insert_row select is_item fits]. apply head_select_prop in Eh. unfold is_item in Eh.
        apply andb_true_iff in Eh as [_ Eh%bool_decide_eq_true]. by rewrite Eh.
      * unfold item. cbn -[update_rows insert_row select is_item fits]. rewrite head_select_update by done. rewrite Eh. cbn. by rewrite (head_select_prop _ _ _ Eh).
    + eexists _, _, _. split.
      { erewrite tret_run; [|apply try_run; unfold statement; rewrite head_select, Eh; reflexivity]. reflexivity. }
      by split_and!.
  - unfold item in Ei. destruct (head (select (is_item 0 key) (registries s))) as [row|] eqn:Eh; [done|].
    replace (errors_Is _ _) with true by done.
    erewrite tret_run; [|reflexivity]. erewrite tret_run; [|reflexivity]. unfold CreateRegistryItem, globalConfigMerchantID.
    assert (existsb (is_item 0 key) (rows (registries s)) = false) as Hx.
    { destruct (existsb _ _) eqn:E; [|done]. apply existsb_exists in E as (r & Hr & Hp).
      assert (r ∈ select (is_item 0 key) (registries s)) as Hs by (apply elem_of_select; by rewrite list_elem_of_In).
      destruct (select (is_item 0 key) (registries s)); [by apply not_elem_of_nil in Hs|done]. }
    replace (fits 250 "") with true by done. rewrite andb_true_r. destruct (fits 128 key && fits 128 value) eqn:Ef.
    + eexists _, _, _. split.
      { erewrite tret_run; [|apply try_run, statement_run; rewrite Hx; reflexivity]. reflexivity. }
      cbn -[update_rows insert_row select is_item fits]. split_and!; try done.
      * intros other Hk. unfold item. cbn -[update_rows insert_row select is_item fits]. rewrite head_select_insert. destruct (head (select (is_item 0 other) _)); [done|].
        unfold is_item. cbn -[update_rows insert_row select is_item fits]. by rewrite bool_decide_eq_false_2.
      * unfold item. cbn -[update_rows insert_row select is_item fits]. rewrite head_select_insert, Eh. unfold is_item. cbn. by rewrite bool_decide_eq_true_2.
    + eexists _, _, _. split.
      { erewrite tret_run; [|apply try_run; unfold statement; rewrite Hx; reflexivity]. reflexivity. }
      cbn -[update_rows insert_row select is_item fits]. split_and!; try done. by eexists.
Qed.

(** C14. Signing in with Google changes one account at most, the one it returns,
    whose Google id is then that of the sign-in. Either that account was bound
    to the same Google id before, or Google has verified the e-mail and the
    account has that e-mail; a new account is only made when no account has the
    e-mail and the registry lets the e-mail register, and it has no password.
    Who the account belongs to - its id, uuid, e-mail and password - stays. A
    sign-in that is refused changes no row. *)
Theorem google_binding `{UserEvents} (gu : GoogleUser) (s : Accounts) (w : world) (Hok : accounts_ok s) :
  wp (ResolveWithGoogle gu s) w (fun r _ => match r with
  | Ok (s', inl u) => exists row', row_at (u_ID u) (users s') = Some row' /\ u = entryToUser row' /\ us_Name row' = gu_Name gu /\
      us_GoogleID row' = StringToNullable (gu_Sub gu) /\ others_kept (u_ID u) s s' /\
      match row_at (u_ID u) (users s) with
      | Some row => same_account row row' /\
          (us_GoogleID row = us_GoogleID row' /\ gu_Sub gu <> "" \/ gu_EmailVerified gu = true /\ us_Email row = gu_Email gu)
      | None => gu_EmailVerified gu = true /\ us_Email row' = gu_Email gu /\ us_Password row' = null_string /\
          open_to s (gu_Email gu) = true /\ Forall (fun r => us_Email r <> gu_Email gu) (rows (users s))
      end
  | Ok (s', inr _) => same_rows s s'
  | Err _ => False
  | Panic _ => True
  end).
Proof.
  unfold ResolveWithGoogle. t_step. t_step. apply wp_read_accounts. destruct (one _) as [row|e|p] eqn:E; [| |by destruct (select _ _)].
  - apply one_row_at in E as [Hrow (Hv1 & Hv2 & Hv)%sql_eq_key]; [|apply Hok]. eapply wp_mono; [by eapply wp_updateGoogle|].
    intros [[s' [u|e]]|e|p] w' HQ; [|by subst|done..].
    destruct HQ as (row' & Hr' & -> & Hn & Hg & Hs & Ho). pose proof (row_at_id _ _ _ Hr') as [Hid _].
    replace (u_ID (entryToUser row')) with (us_ID row) by (symmetry; exact Hid).
    exists row'. split_and!; [done..| | |].
    + rewrite Hg. destruct (us_GoogleID row) as [v1 b1]. cbn in *. subst. by rewrite <- Hv2.
    + done.
    + replace (row_at (us_ID row) (users s)) with (Some row) by (symmetry; exact Hrow). split; [done|]. left. split; [done|]. intros Hs0.
      by rewrite Hs0 in Hv2.
  - cbv iota beta. apply one_select_none in E as [-> _]. cbn [errors_Is]. replace (negb _) with false by done.
    destruct (gu_EmailVerified gu) eqn:Hver; cbn [negb]; [|by t_step]. t_step. t_step. apply wp_read_accounts.
    destruct (one _) as [row|e|p] eqn:E; [| |by destruct (select _ _)].
    + apply one_row_at in E as [Hrow Hm%bool_decide_eq_true]; [|apply Hok]. eapply wp_mono; [by eapply wp_updateGoogle|].
      intros [[s' [u|e]]|e|p] w' HQ; [|by subst|done..].
      destruct HQ as (row' & Hr' & -> & Hn & Hg & Hs & Ho). pose proof (row_at_id _ _ _ Hr') as [Hid _].
      replace (u_ID (entryToUser row')) with (us_ID row) by (symmetry; exact Hid).
      exists row'. split_and!; try done. replace (row_at (us_ID row) (users s)) with (Some row) by (symmetry; exact Hrow).
      split; [done|]. by right.
    + apply one_select_none in E as [-> Hnone]. cbv iota beta. replace (errors_Is _ _) with true by done.
      eapply wp_mono; [by apply wp_registerGoogle|]. intros [[s' [u|e]]|e|p] w' HQ; [|done..].
      destruct HQ as (row' & Hr' & -> & Hn & Hg & Hm & Hp & Hnew & Ho & Hk). exists row'. rewrite Hnew. split_and!; try done.
      eapply Forall_impl; [exact Hnone|]. by intros r Hr%bool_decide_eq_false.
Qed.

(** C40. The command that creates a user: it announces an account that was
    created, or a password that was updated, only when signing in with that
    e-mail and password then works; a new account is made only when no account
    has the e-mail, and a password is updated only with the flag. Whatever it
    does, signing in with another e-mail answers what it did; when it reports
    neither, no row has changed. *)
Theorem create_user_logs_in `{Mail} `{Bcrypt} `{UserEvents} `{!BcryptLaws} (override : bool) (email pass : string)
  (s : Accounts) (w : world) (Hok : accounts_ok s) :
  wp (createUser override email pass s) w (fun r _ => match r with
  | Ok (s', inl out) =>
      match out with
      | UserCreated => Forall (fun r => us_Email r <> email) (rows (users s)) /\
          exists u, u_Email u = email /\ forall w, GetByEmailWithPasswordCheck email pass s' w = (Ok (s', inl u), w)
      | PasswordUpdated => override = true /\
          exists u, u_Email u = email /\ forall w, GetByEmailWithPasswordCheck email pass s' w = (Ok (s', inl u), w)
      | UserExists => override = false /\ s' = s
      | UpdateFailed _ | CreateFailed _ => same_rows s s'
      end /\
      forall e p w, e <> email -> exists answer, GetByEmailWithPasswordCheck e p s w = (Ok (s, answer), w) /\
        GetByEmailWithPasswordCheck e p s' w = (Ok (s', answer), w)
  | Ok (_, inr _) | Err _ => False
  | Panic _ => True
  end).
Proof.
  assert (forall s', only_of email s s' -> forall e p w, e <> email -> exists answer,
    GetByEmailWithPasswordCheck e p s w = (Ok (s, answer), w) /\ GetByEmailWithPasswordCheck e p s' w = (Ok (s', answer), w)) as Hothers.
  { intros s' Ho e p w' Hne. exists (login e p s). rewrite !login_run. by rewrite Ho. }
  assert (forall s', same_rows s s' -> only_of email s s') as Hsame.
  { intros s' [Hr _] e p _. unfold login, select. by rewrite Hr. }
  unfold createUser. t_step. t_step. eapply wp_mono; [by apply wp_Register|].
  intros [[s' [[u [e|]]|e]]|e|p] w' HQ; cbv beta iota in *; [| | |done..].
  - destruct HQ as (-> & -> & Hmail & row & Hrow & ->). destruct override; cbn [negb].
    + t_step. t_step. eapply wp_mono; [by eapply (wp_UpdatePassword row)|]. intros [[s' [u|e]]|e|p] w2 HQ; [| |done..]; t_step.
      * destruct HQ as (Hl & Hm & Ho). split; [|by apply Hothers]. split; [done|]. exists u. split; [done|]. intros w3.
        by rewrite login_run, Hl.
      * subst s'. split; [done|]. by apply Hothers.
    + t_step. split; [done|]. by apply Hothers.
  - destruct HQ as (Hnone & Hl & Hm & Ho). t_step. split; [|by apply Hothers]. split.
    + apply Forall_forall. intros r Hr Hre. assert (r ∈ select (fun r => bool_decide (us_Email r = email)) (users s)) as Hs.
      { apply elem_of_select. split; [done|]. by apply bool_decide_eq_true. }
      destruct (select _ (users s)); [by apply not_elem_of_nil in Hs|done].
    + exists u. split; [done|]. intros w3. by rewrite login_run, Hl.
  - t_step. split; [done|]. by apply Hothers, Hsame.
Qed.

(** C15. The life of a merchant's token. One that is created is 64 characters of
    the alphabet, gives its merchant access from then on, and no user; only its
    merchant finds it by its uuid, to delete it; once deleted it gives no access;
    and no other token is affected, by its creation or by its deletion. When it
    cannot be created, no row changes. *)
Theorem token_lifecycle `{Rand} `{!RandLaws} (merchantID : Z) (name : string) (s : Accounts) (w : world) (Hok : accounts_ok s) :
  exists s' r w', CreateMerchantToken merchantID name s w = (Ok (s', r), w') /\ db w' = db w /\
  match r with
  | inr _ => rows (api_tokens s') = rows (api_tokens s) /\ users s' = users s /\ registries s' = registries s
  | inl t =>
    tk_EntityID t = merchantID /\ String.length (tk_Token t) = 64%nat /\
    Forall (fun c => c ∈ bytes tokenRuneSource) (bytes (tk_Token t)) /\
    (forall w, GetToken TokenTypeMerchant (tk_Token t) s' w = (Ok (s', inl t), w)) /\
    (forall w, GetToken TokenTypeUser (tk_Token t) s' w = (Ok (s', inr ErrNoRows), w)) /\
    (forall type token w, token <> tk_Token t -> exists answer,
       GetToken type token s w = (Ok (s, answer), w) /\ GetToken type token s' w = (Ok (s', answer), w)) /\
    (forall m w, GetMerchantTokenByUUID m (tk_UUID t) s' w =
       (Ok (s', if m =? merchantID then inl t else inr token_ErrNotFound), w)) /\
    exists s2, (forall w, DeleteToken (tk_ID t) s' w = (Ok (s2, inl tt), w)) /\
      (forall type w, GetToken type (tk_Token t) s2 w = (Ok (s2, inr ErrNoRows), w)) /\
      rows (api_tokens s2) = rows (api_tokens s)
  end.
Proof.
  destruct (createToken_run TokenTypeMerchant merchantID name s w) as (r & w' & s' & Hrun & Hdb & Hr).
  exists s', r, w'. split; [exact Hrun|]. split; [done|]. destruct r as [t|e]; [|done].
  destruct Hr as (row & -> & -> & Hid & Hty & Hent & _ & Hlen & Hchars & Hfresh).
  set (s' := set_api_tokens _ s). cbn [entryToAPIToken tk_EntityID tk_Token tk_UUID tk_ID].
  assert (forall p, head (select p (api_tokens s')) = match head (select p (api_tokens s)) with
    | Some r => Some r | None => if p row then Some row else None end) as Hsel by (intros p; apply head_select_insert).
  assert (forall p, (forall r, p r = true -> at_Token r = at_Token row \/ at_Uuid r = at_Uuid row) -> head (select p (api_tokens s)) = None) as Hnone.
  { intros p Hp. destruct (head _) as [r|] eqn:E; [|done]. assert (one (select p (api_tokens s)) = Ok r) as Ho by by rewrite head_select, E.
    apply one_select_inv in Ho as [Hin Hpr]. rewrite Forall_forall in Hfresh. destruct (Hfresh r Hin), (Hp r Hpr); done. }
  assert (forall type, resolve type (at_Token row) s' = if bool_decide (TokenTypeMerchant = type) then inl (entryToAPIToken row) else inr ErrNoRows) as Hres.
  { intros type. unfold resolve. rewrite Hsel, Hnone; [|intros r [_ ?%bool_decide_eq_true]%andb_true_iff; by left].
    rewrite Hty, (bool_decide_eq_true_2 (at_Token row = at_Token row)), andb_true_r by done. by destruct (bool_decide _). }
  split_and!; try done.
  - intros w2. by rewrite GetToken_run, Hres.
  - intros w2. by rewrite GetToken_run, Hres.
  - intros type token w2 Hne. exists (resolve type token s). rewrite !GetToken_run. unfold resolve. rewrite Hsel.
    rewrite (bool_decide_eq_false_2 (at_Token row = token)), andb_false_r by congruence. by destruct (head _).
  - intros m w2. unfold GetMerchantTokenByUUID, GetTokenByUUID, GetAPITokenByUUID.
    assert (read (fun s => one (select (fun r => bool_decide (at_Uuid r = at_Uuid row)) (api_tokens s))) s' w2 = (Ok (s', inl row), w2)) as Hread.
    { rewrite read_run, head_select, Hsel, Hnone; [|intros r ?%bool_decide_eq_true; by right]. by rewrite bool_decide_eq_true_2. }
    erewrite tret_run; [|erewrite tret_run; [|by apply try_run]; reflexivity]. cbn [entryToAPIToken tk_EntityType tk_EntityID].
    rewrite Hty, Hent, bool_decide_eq_true_2 by done. cbn. rewrite (Z.eqb_sym m). by destruct (merchantID =? m).
  - eexists (set_api_tokens (delete_rows (by_id (at_ID row)) (api_tokens s')) s'). 
    assert (rows (delete_rows (by_id (at_ID row)) (api_tokens s')) = rows (api_tokens s)) as Hdel.
    { cbn. rewrite List.filter_app. cbn. unfold by_id at 2, row_id, ApiToken_id. rewrite Z.eqb_refl. cbn. rewrite app_nil_r.
      apply filter_all. apply Forall_forall. intros r Hr. destruct (ok_tokens _ Hok) as (_ & Hall & _). rewrite Forall_forall in Hall.
      specialize (Hall r Hr). apply negb_true_iff, Z.eqb_neq. unfold row_id, ApiToken_id in *. lia. }
    split_and!; [done| |exact Hdel]. intros type w2. rewrite GetToken_run, resolve_none; [done|]. cbn [set_api_tokens api_tokens].
    rewrite Hdel. eapply Forall_impl; [exact Hfresh|]. by intros r [? _].
Qed.

(** ** Witnesses *)
Definition empty_accounts : Accounts := mkAccounts empty_table empty_table empty_table.
Lemma empty_accounts_ok : accounts_ok empty_accounts.
Proof. split; auto with store. Qed.

#[local] Instance any_mail : Mail := fun _ => true.
#[local] Instance ex_bcrypt : Bcrypt := {|
  bcrypt_Generate p _ := Ok ("$2a$10$" +:+ p); bcrypt_Compare hashed p := bool_decide (hashed = "$2a$10$" +:+ p) |}.
#[local] Instance ex_bcrypt_laws : BcryptLaws.
Proof. intros p n hashed [= <-]. by apply bool_decide_eq_true. Qed.
#[local] Instance no_events : UserEvents := fun _ _ => Ok tt.
#[local] Instance ex_rand : Rand := fun n k => Z.of_nat k mod n.
#[local] Instance ex_rand_laws : RandLaws.
Proof. intros n k Hn. unfold Intn, ex_rand. apply Z.mod_pos_bound. lia. Qed.

(** The accounts an operation leaves. *)
Definition after {A} (m : Tracked Accounts A) (s : Accounts) : Accounts :=
  match (m s empty_world).1 with Ok (s', _) => s' | _ => s end.
Lemma after_ok {A} (m : Tracked Accounts A) s : tsteps keeps_ok m -> accounts_ok s -> accounts_ok (after m s).
Proof.
  intros Hm Hs. unfold after. destruct (m s empty_world) as [[[s' a]|e|p] w'] eqn:E; [|done..]. by apply (Hm _ _ _ _ _ E).
Qed.

Definition bob : Accounts := after (createUser false "bob@example.com" "correct horse") empty_accounts.
Lemma bob_ok : accounts_ok bob.
Proof. apply after_ok; [auto with accounts|apply empty_accounts_ok]. Qed.
Definition google_bob : GoogleUser := mkGoogleUser "1101" "Bob" "" "bob@example.com" true.

Lemma google_binding_witness : exists s' u w', ResolveWithGoogle google_bob bob empty_world = (Ok (s', inl u), w') /\
  u_ID u = 1 /\ u_GoogleID u = Some "1101" /\ others_kept (u_ID u) bob s'.
Proof.
  assert (match (ResolveWithGoogle google_bob bob empty_world).1 with
    | Ok (_, inl u) => bool_decide (u_ID u = 1) && bool_decide (u_GoogleID u = Some "1101") | _ => false end = true) as Hb
    by by vm_compute.
  pose proof (google_binding google_bob bob empty_world bob_ok) as HT. unfold wp in HT.
  destruct (ResolveWithGoogle google_bob bob empty_world) as [[[s' [u|e]]|e|p] w'] eqn:E; [|done..].
  cbn [fst] in Hb. apply andb_true_iff in Hb as [Hid%bool_decide_eq_true Hg%bool_decide_eq_true].
  destruct HT as (row' & _ & _ & _ & _ & Ho & _). exists s', u, w'. by split_and!.
Defined.

Lemma create_user_logs_in_witness : exists s' u w', createUser true "bob@example.com" "battery staple" bob empty_world =
    (Ok (s', inl PasswordUpdated), w') /\
  u_Email u = "bob@example.com" /\
  forall w, GetByEmailWithPasswordCheck "bob@example.com" "battery staple" s' w = (Ok (s', inl u), w).
Proof.
  assert (match (createUser true "bob@example.com" "battery staple" bob empty_world).1 with
    | Ok (_, inl PasswordUpdated) => true | _ => false end = true) as Hb by by vm_compute.
  pose proof (create_user_logs_in true "bob@example.com" "battery staple" bob empty_world bob_ok) as HT. unfold wp in HT.
  destruct (createUser true "bob@example.com" "battery staple" bob empty_world) as [[[s' [out|e]]|e|p] w'] eqn:E; [|done..].
  cbn [fst] in Hb. destruct out; [done..| |done|done]. destruct HT as ((_ & u & Hm & Hu) & _). exists s', u, w'. by split_and!.
Defined.

Lemma token_lifecycle_witness : exists s' t w', CreateMerchantToken 7 "ci" bob empty_world = (Ok (s', inl t), w') /\
  String.length (tk_Token t) = 64%nat /\ forall w, GetToken TokenTypeMerchant (tk_Token t) s' w = (Ok (s', inl t), w).
Proof.
  assert (match (CreateMerchantToken 7 "ci" bob empty_world).1 with Ok (_, inl _) => true | _ => false end = true) as Hb by by vm_compute.
  destruct (token_lifecycle 7 "ci" bob empty_world bob_ok) as (s' & r & w' & E & _ & HT). rewrite E in Hb |- *. cbn [fst] in Hb.
  destruct r as [t|e]; [|discriminate Hb]. destruct HT as (_ & Hlen & _ & Hget & _). exists s', t, w'. split; [reflexivity|]. split; [exact Hlen|exact Hget].
Defined.
