(* ===== verification/Access.v ===== *)
(** * Access: who may call the dashboard and the merchant API

    [internal/server/http/middleware] and the routes of
    [internal/server/http/router.go]: what a request is resolved to - a user by
    its session or its token, a merchant by the url or its token -, the guards,
    and the handlers of [merchantapi/auth] that open and close a session; and
    [internal/auth/google.go].

    A request runs on the accounts, on the session of its client and on the
    database. A handler leaves a reply, or an error, which the framework answers
    with 500. What the framework decides by itself - CORS, rate limits, whether
    the CSRF token of a request is the one of its cookie - is part of the
    request. *)

From S2P Require Import Prelude GoLib KmsWallet Money Repository Queries PaymentQueries Currencies Flow.
From S2P Require Merchant.
From S2P Require Import Payment Accounts.
Import Merchant (Merchant, mer_ID, mer_UUID).

(** ** Replies *)
Inductive Reply (B : Type) :=
| JSON (code : Z) (body : B)
| NoContent (code : Z)
| Redirect (code : Z) (url : string)
| ErrorJSON (code : Z) (message status : string) (items : list (string * string))
| Message (code : Z) (text : string).
Arguments JSON {B} _ _.
Arguments NoContent {B} _.
Arguments Redirect {B} _ _.
Arguments ErrorJSON {B} _ _ _ _.
Arguments Message {B} _ _.

Definition StatusOK : Z := 200.
Definition StatusCreated : Z := 201.
Definition StatusNoContent : Z := 204.
Definition StatusTemporaryRedirect : Z := 307.
Definition StatusBadRequest : Z := 400.
Definition StatusUnauthorized : Z := 401.
Definition StatusInternalServerError : Z := 500.

(** *** internal/server/http/common *)
(** An [ErrorResponseItem] is a field, empty when there is none, and a message. *)
Definition ValidationErrorMessage {B} (message : string) : Reply B :=
  ErrorJSON StatusBadRequest "Bad request" "validation_error" [("", message)].
Definition ValidationErrorItems {B} (items : list (string * string)) : Reply B :=
  ErrorJSON StatusBadRequest "Bad request" "validation_error" items.
Definition ValidationErrorItemResponse {B} (field message : string) : Reply B := ValidationErrorItems [(field, message)].
Definition NotFoundResponse {B} (message : string) : Reply B := ErrorJSON StatusBadRequest message "not_found" [].
Definition ErrorResponse {B} (status : string) : Reply B := ErrorJSON StatusInternalServerError "Server error" status [].

(** ** State, requests and handlers *)
Record Session := mkSession { ss_UserID : option Z; ss_State : option string }.
Record Site := mkSite { accounts : Accounts; session : Session }.
Definition set_session (v : Session) (s : Site) : Site := mkSite (accounts s) v.
Definition get_session : Tracked Site Session := fun s => mret (s, inl (session s)).
Definition on_accounts {A} (m : Tracked Accounts A) : Tracked Site A := fun s =>
  '(a, r) ← m (accounts s); mret (mkSite a (session s), r).

(** The token of the header, empty when it has none; the [merchantId] of the
    path, empty when the route has none; and the verdict on the CSRF token. *)
Record Request := mkRequest { rq_Token : string; rq_merchantId : string; rq_CSRF : bool }.

(** [BindAndValidateRequest]: the body of a request, or the items of the
    validation error that has been written; the validation of each body is
    generated code. *)
Abbreviation Bound A := (A + list (string * string))%type.

(** What the middlewares have set in the context of the request. *)
Record Context := mkContext { cx_User : option User; cx_Merchant : option Merchant; cx_TokenAuth : bool }.
Definition no_context : Context := mkContext None None false.
Definition with_user (u : User) (c : Context) : Context := mkContext (Some u) (cx_Merchant c) (cx_TokenAuth c).
Definition with_merchant (m : Merchant) (c : Context) : Context := mkContext (cx_User c) (Some m) (cx_TokenAuth c).
Definition with_token_auth (c : Context) : Context := mkContext (cx_User c) (cx_Merchant c) true.

Definition HandlerFunc (B : Type) : Type := Context -> Tracked Site (Reply B).
Definition MiddlewareFunc : Type := forall B, HandlerFunc B -> HandlerFunc B.

Definition ResolveUser (c : Context) : option User :=
  match cx_User c with Some person => if u_ID person =? 0 then None else Some person | None => None end.
Definition ResolveMerchant (c : Context) : option Merchant :=
  match cx_Merchant c with Some m => if mer_ID m =? 0 then None else Some m | None => None end.

Section Middleware.
Context `{Uuid} (request : Request).

(** ** auth.go *)
Definition ResolvesUserBySession : MiddlewareFunc := fun B next c =>
  userSession ← get_session;
  match ss_UserID userSession with
  | None => next c
  | Some userID =>
    person ← try (on_accounts (Accounts.GetByID userID));
    next (match person with inl person => with_user person c | inr _ => c end)
  end.

Definition invalid_token {B} : Reply B := ErrorJSON StatusUnauthorized "Invalid api token" "token_error" [].

Definition ResolvesUserByToken : MiddlewareFunc := fun B next c =>
  match ResolveUser c with
  | Some _ => next c
  | None =>
    if bool_decide (rq_Token request = "") then next c
    else
      token ← try (on_accounts (GetToken TokenTypeUser (rq_Token request)));
      match token with
      | inr _ => mret invalid_token
      | inl token =>
        person ← try (on_accounts (Accounts.GetByID (tk_EntityID token)));
        next (match person with inl person => with_token_auth (with_user person c) | inr _ => c end)
      end
  end.

(** The framework lets pass the requests whose CSRF token is right; those that
    are authenticated by a token are not asked for one. *)
Definition ErrCSRF : error := ESentinel "invalid csrf token".
Definition CSRF : MiddlewareFunc := fun B next c =>
  if cx_TokenAuth c then next c else if rq_CSRF request then next c else stop ErrCSRF.

Definition ResolvesMerchantByUUID : MiddlewareFunc := fun B next c =>
  match ResolveMerchant c with
  | Some _ => next c
  | None =>
    match uuid_Parse (rq_merchantId request) with
    | None => next c
    | Some merchantUUID =>
      match ResolveUser c with
      | None => next c
      | Some person =>
        m ← try (call (Merchant.GetByUUIDAndCreatorID merchantUUID (u_ID person) false));
        next (match m with inl m => with_merchant m c | inr _ => c end)
      end
    end
  end.

Definition ResolvesMerchantByToken : MiddlewareFunc := fun B next c =>
  match ResolveMerchant c with
  | Some _ => next c
  | None =>
    if bool_decide (rq_Token request = "") then mret (ErrorJSON StatusUnauthorized "Unauthorized" "token_error" [])
    else
      token ← try (on_accounts (GetToken TokenTypeMerchant (rq_Token request)));
      match token with
      | inr _ => mret invalid_token
      | inl token =>
        mt ← try (call (Merchant.GetByID (tk_EntityID token) false));
        next (match mt with inl mt => with_token_auth (with_merchant mt c) | inr _ => c end)
      end
  end.

Definition GuardsUsers : MiddlewareFunc := fun B next c =>
  match ResolveUser c with
  | None => mret (ErrorJSON StatusUnauthorized "Authentication required" "unauthorized" [])
  | Some _ => next c
  end.

(** [String()] of a uuid is its canonical text, which is how the model keeps
    it. *)
Definition GuardsMerchants : MiddlewareFunc := fun B next c =>
  match ResolveMerchant c with
  | None => mret (ErrorJSON StatusBadRequest "Merchant not found" "not_found" [])
  | Some mt =>
    if negb (bool_decide (rq_merchantId request = "")) && negb (bool_decide (rq_merchantId request = mer_UUID mt))
    then mret (ErrorJSON StatusBadRequest "Invalid merchant" "invalid_merchant" [])
    else next c
  end.

(** ** router.go: the groups of routes *)
Definition dashboardAPI : MiddlewareFunc := fun B next => ResolvesUserBySession B (ResolvesUserByToken B (CSRF B next)).
Definition usersGroup : MiddlewareFunc := fun B next => dashboardAPI B (GuardsUsers B next).
(** [/api/dashboard/v1/merchant/:merchantId] *)
Definition merchantGroup : MiddlewareFunc := fun B next =>
  dashboardAPI B (GuardsUsers B (ResolvesMerchantByUUID B (GuardsMerchants B next))).
(** [/api/merchant/v1/merchant/:merchantId] *)
Definition merchantAPI : MiddlewareFunc := fun B next => ResolvesMerchantByToken B (GuardsMerchants B next).
End Middleware.

(** ** internal/auth/google.go *)
Class OAuth := {
  oauth_AuthCodeURL : string -> string;
  oauth_Exchange : string -> nat -> res string;
  oauth_Get : string -> string -> nat -> res string;
  user_Unmarshal : string -> res GoogleUser
}.
Definition googleUserEndpoint : string := "https://www.googleapis.com/oauth2/v3/userinfo".

Section Google.
Context `{OAuth} `{RandomStrings} (authenticatedRedirectURL : string).

Definition RedirectURLWithState : Go (string * string) :=
  state ← external (fun n => Ok (Random 16 n)); mret (oauth_AuthCodeURL state, state).
(** The body of the answer is read whatever its status. *)
Definition google_ResolveUser (code : string) : Go GoogleUser :=
  token ← wrapM (external (oauth_Exchange code)) "unable to exchange code for token";
  rawUser ← wrapM (external (oauth_Get token googleUserEndpoint)) "unable to get user data";
  wrapM (lift (user_Unmarshal rawUser)) "unable to unmarshal user".
End Google.

(** ** merchantapi/auth *)
(** Writing the session file may fail. *)
Class SessionStore := Save : Session -> nat -> res unit.
Inductive AuthBody := Providers (names : list string) | Me (uuid email name : string) (image : option string).

Section AuthHandlers.
Context `{OAuth} `{RandomStrings} `{SessionStore} `{Mail} `{Bcrypt} `{UserEvents}.
Context (authenticatedRedirectURL : string) (enabledProviders : list string).

(** The values set are those the next request of the client sees, if they could
    be written. *)
Definition persistSession (f : Session -> Session) : Tracked Site unit :=
  s ← get_session; _ ← call (external (Save (f s))); set (set_session (f s)).
Definition set_user_id (id : option Z) (v : Session) : Session := mkSession id (ss_State v).
Definition set_oauth_state (state : string) (v : Session) : Session := mkSession (ss_UserID v) (Some state).

Definition or_internal_error (m : Tracked Site unit) (reply : Reply AuthBody) : Tracked Site (Reply AuthBody) :=
  r ← try m; mret (match r with inl _ => reply | inr _ => ErrorResponse "internal error" end).

Definition PostLogin (body : Bound (string * string)) : HandlerFunc AuthBody := fun c =>
  match body with
  | inr items => mret (ValidationErrorItems items)
  | inl (email, password) =>
    match ResolveUser c with
    | Some _ => mret (NoContent StatusNoContent)
    | None =>
      person ← try (on_accounts (GetByEmailWithPasswordCheck email password));
      match person with
      | inr err =>
        if errors_Is err user_ErrNotFound || errors_Is err ErrWrongPassword
        then mret (ValidationErrorItemResponse "email" "User with provided email or password not found")
        else stop (EWrap err "unable to resolve user")
      | inl person => or_internal_error (persistSession (set_user_id (Some (u_ID person)))) (NoContent StatusNoContent)
      end
    end
  end.

(** That the session could not be saved is logged. *)
Definition PostLogout : HandlerFunc AuthBody := fun c =>
  _ ← try (persistSession (set_user_id None)); mret (NoContent StatusNoContent).

(** The route is guarded: there is a user. *)
Definition GetMe : HandlerFunc AuthBody := fun c =>
  match ResolveUser c with
  | None => call (panic "invalid memory address or nil pointer dereference")
  | Some person => mret (JSON StatusOK (Me (u_UUID person) (u_Email person) (u_Name person) (u_ProfileImageURL person)))
  end.

Definition ListAvailableProviders : HandlerFunc AuthBody := fun c => mret (JSON StatusOK (Providers enabledProviders)).

Definition GetRedirect : HandlerFunc AuthBody := fun c =>
  match ResolveUser c with
  | Some _ => mret (Redirect StatusTemporaryRedirect authenticatedRedirectURL)
  | None =>
    '(redirect, state) ← call RedirectURLWithState;
    or_internal_error (persistSession (set_oauth_state state)) (Redirect StatusTemporaryRedirect redirect)
  end.

(** [state] and [code] are of the query, empty when missing. *)
Definition GetCallback (state code : string) : HandlerFunc AuthBody := fun c =>
  match ResolveUser c with
  | Some _ => mret (Redirect StatusTemporaryRedirect authenticatedRedirectURL)
  | None =>
    userSession ← get_session;
    match ss_State userSession with
    | None => mret (ValidationErrorMessage "Missing OAuth state")
    | Some expectedState =>
      if negb (bool_decide (expectedState = state)) then mret (ValidationErrorMessage "OAuth state mismatch")
      else
        googleUser ← try (call (google_ResolveUser code));
        match googleUser with
        | inr _ => mret (Message StatusInternalServerError "unable to resolve googleUser")
        | inl googleUser =>
          person ← try (on_accounts (ResolveWithGoogle googleUser));
          match person with
          | inr err =>
            if errors_Is err ErrRestricted then mret (ValidationErrorMessage "Registration is available by whitelists only")
            else if errors_Is err ErrEmailNotVerified then mret (ValidationErrorMessage "Google email must be verified")
            else stop (EWrap err "unable to resolve google user")
          | inl person =>
            or_internal_error (persistSession (set_user_id (Some (u_ID person))))
              (Redirect StatusTemporaryRedirect authenticatedRedirectURL)
          end
        end
    end
  end.
End AuthHandlers.
