(* ===== verification/MerchantApi.v ===== *)
(** * MerchantApi: the handlers of the dashboard and of the merchant API

    [internal/server/http/merchantapi]: one handler per route of a merchant. A
    handler takes what the framework has parsed of the request - parameters of
    the path and of the query, empty when missing, and the body - and the context
    the middlewares of [Access] have left; it calls the services and turns what
    they return, errors included, into a reply. *)

From S2P Require Import Prelude GoLib Float64 KmsWallet NetUrl Money Repository Queries PaymentQueries Bitcoin Currencies Transaction Blockchain Flow.
From S2P Require Wallet WalletBalance WalletTransaction Convertor Withdrawal.
From S2P Require Import Merchant Payment Accounts Access.

(** ** Bodies of the replies *)
Record MerchantResponse := mkMerchantResponse {
  mr_ID : string; mr_Name : string; mr_Website : string; mr_WebhookSecret : string; mr_WebhookURL : string;
  mr_DefaultExpirationMinutes : Z; mr_SupportedPaymentMethods : list (CryptoCurrency * bool)
}.
Record TokenResponse := mkTokenResponse { tkr_ID : string; tkr_CreatedAt : option Z; tkr_Name : string; tkr_Token : string }.
Record AddressResponse := mkAddressResponse {
  arr_ID : string; arr_Name : string; arr_Blockchain : string; arr_BlockchainName : string; arr_Address : string
}.
Inductive AdditionalInfo :=
| NoInfo
| PaymentInfo (selectedCurrency serviceFee customerEmail : option string)
| WithdrawalInfo (addressID balanceID serviceFee : string) (transactionHash explorerLink : option string).
Record PaymentResponse := mkPaymentResponse {
  pp_ID : string; pp_OrderID : option string; pp_CreatedAt : Z; pp_Price : string; pp_Currency : string; pp_Status : string;
  pp_Type : string; pp_PaymentURL : string; pp_RedirectURL : string; pp_Description : option string; pp_IsTest : bool;
  pp_AdditionalInfo : AdditionalInfo
}.
Record LinkResponse := mkLinkResponse {
  lr_ID : string; lr_CreatedAt : Z; lr_URL : string; lr_Name : string; lr_Description : option string; lr_Type : string;
  lr_Currency : string; lr_Price : option string; lr_SuccessAction : string; lr_RedirectURL : option string;
  lr_SuccessMessage : option string
}.
Record CustomerPayment := mkCustomerPayment {
  cp_ID : string; cp_CreatedAt : Z; cp_Currency : string; cp_Price : string; cp_Status : string
}.
Record CustomerResponse := mkCustomerResponse {
  cr_CreatedAt : Z; cr_Email : string; cr_ID : string; cr_Details : option (Z * list CustomerPayment)
}.
Record BalanceResponse := mkBalanceResponse {
  br_ID : string; br_Blockchain : string; br_BlockchainName : string; br_IsTest : bool; br_Name : string; br_Currency : string;
  br_Ticker : string; br_Amount : string; br_UsdAmount : string; br_MinimalWithdrawalAmountUSD : string
}.
Record FeeResponse := mkFeeResponse {
  fr_Blockchain : string; fr_CalculatedAt : Z; fr_Currency : string; fr_UsdFee : string; fr_CurrencyFee : string;
  fr_MinimumAmount : string; fr_MaximumAmount : string; fr_IsTest : bool
}.
Record ConversionResponse := mkConversionResponse {
  cvr_From : string; cvr_FromType : string; cvr_To : string; cvr_ToType : string; cvr_SelectedAmount : string;
  cvr_ExchangeRate : float64; cvr_ConvertedAmount : string
}.
Inductive ApiBody :=
| MerchantList (l : list (string * string * string))
| CreatedMerchant (id name website : string)
| TheMerchant (m : MerchantResponse)
| TokenList (l : list TokenResponse)
| TheToken (t : TokenResponse)
| AddressList (l : list AddressResponse)
| TheAddress (a : AddressResponse)
| PaymentsPage (cursor : string) (limit : Z) (l : list PaymentResponse)
| ThePayment (p : PaymentResponse)
| LinkList (l : list LinkResponse)
| TheLink (l : LinkResponse)
| CustomersPage (cursor : string) (limit : Z) (l : list CustomerResponse)
| TheCustomer (c : CustomerResponse)
| BalanceList (l : list BalanceResponse)
| WithdrawalCreated (paymentID : string)
| TheFee (f : FeeResponse)
| TheConversion (c : ConversionResponse).

(** ** Requests *)
Record CreatePaymentRequest := mkCreatePaymentRequest {
  cpr_ID : string; cpr_Currency : string; cpr_Price : float64; cpr_OrderID : option string; cpr_Description : option string;
  cpr_RedirectURL : option string; cpr_IsTest : bool
}.
Record CreatePaymentLinkRequest := mkCreatePaymentLinkRequest {
  clr_Type : string; clr_Name : string; clr_Currency : string; clr_Price : float64; clr_Description : option string;
  clr_SuccessAction : string; clr_RedirectURL : option string; clr_SuccessMessage : option string
}.
Definition LinkType (req : CreatePaymentLinkRequest) : string :=
  if bool_decide (clr_Type req = "") then LinkTypePayment else clr_Type req.

(** [pagination.go] *)
Definition queryLimitMin : Z := 1.
Definition queryLimitDefault : Z := 30.
Definition queryLimitMax : Z := 100.
Definition ErrLimitInvalid : error := ESentinel "invalid limit".
Definition ErrReverseOrderInvalid : error := ESentinel "invalid reverseOrder".

Definition QueryLimit (raw : string) : res Z :=
  if bool_decide (raw = "") then Ok queryLimitDefault
  else match Atoi raw with
  | None => Err ErrLimitInvalid
  | Some i =>
    let limit := if i =? 0 then queryLimitDefault else i in
    if (limit <? queryLimitMin) || (queryLimitMax <? limit) then Err ErrLimitInvalid else Ok limit
  end.
Definition QueryReverseOrder (raw : string) : res bool :=
  if bool_decide (raw = "") then Ok false
  else match ParseBool raw with Ok b => Ok b | _ => Err ErrReverseOrderInvalid end.

(** The query parameters [limit], [cursor] and [reverseOrder]. *)
Record PaginationQuery := mkPaginationQuery { pq_Limit : string; pq_Cursor : string; pq_ReverseOrder : string }.
Record PaginationQueryParsed := mkParsed { Limit : Z; Cursor : string; ReverseSort : bool }.
Definition QueryPagination (q : PaginationQuery) : res PaginationQueryParsed :=
  limit ← QueryLimit (pq_Limit q); reverse ← QueryReverseOrder (pq_ReverseOrder q);
  Ok (mkParsed limit (pq_Cursor q) reverse).

Abbreviation Web := (Tracked Site).
Abbreviation Api := (HandlerFunc ApiBody).

Definition the_merchant (c : Context) : Web Merchant :=
  match ResolveMerchant c with
  | Some mt => mret mt
  | None => call (panic "invalid memory address or nil pointer dereference")
  end.
(** A service whose error the handler inspects. *)
Definition ask {A} (m : Go A) : Web (A + error) := try (call m).
Definition invalid (items : list (string * string)) : Web (Reply ApiBody) := mret (ValidationErrorItems items).

(** The error is told to the client as the first of the cases it is, or is
    returned. *)
Definition told (cases : list (error * Reply ApiBody)) (err : error) : Web (Reply ApiBody) :=
  match List.find (fun c => errors_Is err c.1) cases with Some (_, reply) => mret reply | None => stop err end.

(** [util.Ptr] of a text. *)
Definition text (m : Money) : Web string := call (lift (Money_String m)).

(** [strings.Contains] *)
Fixpoint bytes_contain (sub l : list ascii) : bool :=
  bool_decide (take (length sub) l = sub) || match l with [] => false | _ :: l => bytes_contain sub l end.
Definition strings_Contains (s sub : string) : bool := bytes_contain (bytes sub) (bytes s).

(** The bus, for the topic of forms; [strconv.Quote]. *)
Class FormEvents := PublishFormSubmitted : string -> string -> Z -> nat -> res unit.

Section Handlers.
Context (basePath : string) (quote : string -> string).
Context `{Resolver} `{MapOrder} `{Convertor.RateProvider} `{BlockchainService} `{UTXOProviders} `{Btcutil}.
Context `{Uuid} `{Publisher} `{RandomStrings} `{Rand}.

(** [common.UUID] *)
Definition UUID (param value : string) (next : string -> Web (Reply ApiBody)) : Web (Reply ApiBody) :=
  match uuid_Parse value with
  | Some id => next id
  | None => invalid [("", "invalid UUID '" +:+ param +:+ "'")]
  end.
Definition bound {A} (body : Bound A) (next : A -> Web (Reply ApiBody)) : Web (Reply ApiBody) :=
  match body with inl req => next req | inr items => invalid items end.

(** [CryptoToFiat] of the blockchain service, as the other services use it. *)
Definition convertor (amount : Money) (currency : string) : Go Money :=
  conv ← Convertor.CryptoToFiat amount currency; mret (Convertor.cv_To conv).

(** ** merchant.go *)
Definition the_user (c : Context) : Web User :=
  match ResolveUser c with
  | Some user => mret user
  | None => call (panic "invalid memory address or nil pointer dereference")
  end.
Definition ListMerchants : Api := fun c =>
  user ← the_user c;
  merchants ← ask (ListByCreatorID (u_ID user));
  mret (match merchants with
    | inr _ => ErrorResponse "internal_error"
    | inl merchants => JSON StatusOK (MerchantList (map (fun mt => (mer_UUID mt, mer_Name mt, mer_Website mt)) merchants))
    end).

Definition website_invalid : Reply ApiBody :=
  ValidationErrorItemResponse "website" "website should be a valid URL (e.g. https://o2pay.co)".
Definition valid_uri (s : string) : Web bool :=
  r ← try (call (lift (ParseRequestURI s))); mret (match r with inl _ => true | inr _ => false end).

Definition CreateMerchant (body : Bound (string * string)) : Api := fun c =>
  bound body (fun '(name, website) =>
    ok ← valid_uri website;
    if negb ok then mret website_invalid
    else
      user ← the_user c;
      mt ← ask (Merchant.Create (u_ID user) name website ∅);
      mret (match mt with
        | inr _ => ErrorResponse "internal_error"
        | inl mt => JSON StatusCreated (CreatedMerchant (mer_UUID mt) (mer_Name mt) (mer_Website mt))
        end)).

Definition GetMerchant : Api := fun c =>
  mt ← the_merchant c;
  mret (JSON StatusOK (TheMerchant (mkMerchantResponse (mer_UUID mt) (mer_Name mt) (mer_Website mt)
    (WebhookSignatureSecret (mer_settings mt)) (WebhookURL (mer_settings mt))
    (Settings_DefaultPaymentExpirationMinutes (mer_settings mt)) (ListSupportedCurrencies mt)))).

Definition UpdateMerchant (body : Bound (string * string)) : Api := fun c =>
  bound body (fun '(name, website) =>
    ok ← valid_uri website;
    if negb ok then mret website_invalid
    else
      m ← the_merchant c;
      r ← ask (Merchant.Update (mer_ID m) name website);
      mret (match r with inr _ => ErrorResponse "internal_error" | inl _ => NoContent StatusNoContent end)).

Definition DeleteMerchant : Api := fun c =>
  m ← the_merchant c;
  r ← ask (DeleteByUUID (mer_UUID m));
  mret (match r with inr _ => ErrorResponse "internal_error" | inl _ => NoContent StatusNoContent end).

(** A secret and a url. *)
Definition UpdateMerchantWebhook (body : Bound (string * string)) : Api := fun c =>
  bound body (fun '(secret, url) =>
    ok ← valid_uri url;
    if negb ok then mret (ValidationErrorMessage "url is invalid")
    else
      mt ← the_merchant c;
      _ ← call (UpsertSettings mt (<[PropertyWebhookURL := url]> {[PropertySignatureSecret := secret]}));
      mret (NoContent StatusNoContent)).

Definition UpdateMerchantPaymentSettings (body : Bound Z) : Api := fun c =>
  bound body (fun defaultExpirationMinutes =>
    mt ← the_merchant c;
    r ← ask (UpdatePaymentSettings mt defaultExpirationMinutes);
    mret (match r with inr err => ValidationErrorMessage (error_string err) | inl _ => NoContent StatusNoContent end)).

Definition UpdateMerchantSupportedMethods (body : Bound (list string)) : Api := fun c =>
  bound body (fun tickers =>
    if negb (Z.of_nat (length tickers) =? Z.of_nat (size (list_to_set tickers : gset string)))
    then mret (ValidationErrorMessage "duplicate tickers")
    else
      mt ← the_merchant c;
      _ ← call (UpdateSupportedMethods mt tickers);
      mret (NoContent StatusNoContent)).

(** ** token.go *)
Definition ListMerchantTokens : Api := fun c =>
  m ← the_merchant c;
  tokens ← try (on_accounts (ListByEntityType TokenTypeMerchant (mer_ID m)));
  mret (match tokens with
    | inr _ => ErrorResponse "internal_error"
    | inl tokens => JSON StatusOK (TokenList (map (fun token =>
        mkTokenResponse (tk_UUID token) (Some (tk_CreatedAt token)) (default "" (tk_Name token)) (tk_Token token)) tokens))
    end).

(** The time of creation is not sent. *)
Definition CreateMerchantToken (body : Bound string) : Api := fun c =>
  bound body (fun name =>
    mt ← the_merchant c;
    token ← try (on_accounts (Accounts.CreateMerchantToken (mer_ID mt) name));
    match token with
    | inr err => stop (EWrap err "unable to create merchant token")
    | inl token => mret (JSON StatusCreated (TheToken (mkTokenResponse (tk_UUID token) None (default "" (tk_Name token)) (tk_Token token))))
    end).

Definition DeleteMerchantTokens (tokenId : string) : Api := fun c =>
  UUID "tokenId" tokenId (fun id =>
    mt ← the_merchant c;
    token ← try (on_accounts (GetMerchantTokenByUUID (mer_ID mt) id));
    match token with
    | inr err => if errors_Is err token_ErrNotFound then mret (NotFoundResponse "token not found")
                 else stop (EWrap err "unable to get token")
    | inl token =>
      r ← try (on_accounts (DeleteToken (tk_ID token)));
      match r with inr err => stop (EWrap err "unable to delete token") | inl _ => mret (NoContent StatusNoContent) end
    end).

(** ** address.go *)
Definition addressToResponse (a : Address) : AddressResponse :=
  mkAddressResponse (adr_UUID a) (adr_Name a) (adr_Blockchain a) (adr_BlockchainName a) (adr_Address a).
Definition address_not_found : list (error * Reply ApiBody) := [(ErrAddressNotFound, NotFoundResponse "address not found")].

Definition ListMerchantAddresses : Api := fun c =>
  mt ← the_merchant c;
  addresses ← call (Merchant.ListMerchantAddresses (mer_ID mt));
  mret (JSON StatusOK (AddressList (map addressToResponse addresses))).

Definition GetMerchantAddress (addressId : string) : Api := fun c =>
  UUID "addressId" addressId (fun id =>
    mt ← the_merchant c;
    address ← ask (GetMerchantAddressByUUID (mer_ID mt) id);
    match address with
    | inr err => told address_not_found err
    | inl address => mret (JSON StatusOK (TheAddress (addressToResponse address)))
    end).

Definition CreateMerchantAddress (body : Bound CreateMerchantAddressParams) : Api := fun c =>
  bound body (fun req =>
    mt ← the_merchant c;
    address ← ask (Merchant.CreateMerchantAddress (mer_ID mt) req);
    match address with
    | inr err => told
        [(ErrInvalidAddress, ValidationErrorItemResponse "address" "invalid address provided");
         (ErrAddressAlreadyExists, ValidationErrorItemResponse "address" "address already exists");
         (ErrAddressReserved, ValidationErrorItemResponse "address" "address is reserved")] err
    | inl address => mret (JSON StatusCreated (TheAddress (addressToResponse address)))
    end).

Definition UpdateMerchantAddress (addressId : string) (body : Bound string) : Api := fun c =>
  UUID "addressId" addressId (fun id =>
    bound body (fun name =>
      mt ← the_merchant c;
      address ← ask (Merchant.UpdateMerchantAddress (mer_ID mt) id name);
      match address with
      | inr err => told address_not_found err
      | inl address => mret (JSON StatusOK (TheAddress (addressToResponse address)))
      end)).

Definition DeleteMerchantAddress (addressId : string) : Api := fun c =>
  UUID "addressId" addressId (fun id =>
    mt ← the_merchant c;
    r ← ask (Merchant.DeleteMerchantAddress (mer_ID mt) id);
    match r with inr err => told address_not_found err | inl _ => mret (NoContent StatusNoContent) end).

(** ** payment.go *)
Definition paymentToResponse (pr : PaymentWithRelations) : Web PaymentResponse :=
  let pt := pr_Payment pr in
  price ← text (pay_Price pt);
  let fee tx := text (tx_ServiceFee tx) in
  info ← (if bool_decide (pay_Type pt = TypePayment) then
      fee ← match pr_Transaction pr with Some tx => f ← fee tx; mret (Some f) | None => mret None end;
      mret (PaymentInfo ((fun tx => DisplayName (tx_Currency tx)) <$> pr_Transaction pr) fee (cus_Email <$> pr_Customer pr))
    else if bool_decide (pay_Type pt = TypeWithdrawal) then
      fee ← match pr_Transaction pr with Some tx => fee tx | None => mret "" end;
      link ← match tx ← pr_Transaction pr; _ ← tx_HashID tx; Some tx with
        | Some tx => r ← try (call (lift (ExplorerLink tx))); mret (Some (match r with inl l => l | inr _ => "" end))
        | None => mret None end;
      mret (WithdrawalInfo (default "" (adr_UUID <$> pr_Address pr)) (default "" (WalletBalance.bal_UUID <$> pr_Balance pr)) fee
        (tx ← pr_Transaction pr; tx_HashID tx) link)
    else mret NoInfo);
  mret (mkPaymentResponse (pay_MerchantOrderUUID pt) (pay_MerchantOrderID pt) (pay_CreatedAt pt) price (m_ticker (pay_Price pt))
    (PublicStatus pt) (pay_Type pt) (pay_PaymentURL pt) (pay_RedirectURL pt) (pay_Description pt) (pay_IsTest pt) info).
Fixpoint map_web {A B} (f : A -> Web B) (l : list A) : Web (list B) :=
  match l with [] => mret [] | x :: l => y ← f x; l ← map_web f l; mret (y :: l) end.

(** A bad query is told to the client. *)
Definition with_pagination (q : PaginationQuery) (next : PaginationQueryParsed -> Web (Reply ApiBody)) : Web (Reply ApiBody) :=
  pagination ← ask (lift (QueryPagination q));
  match pagination with inr err => mret (ValidationErrorMessage (error_string err)) | inl pagination => next pagination end.
Definition invalid_query : list (error * Reply ApiBody) := [(ErrValidation, ValidationErrorMessage "invalid query")].

Definition ListPayments (q : PaginationQuery) (ptType : string) : Api := fun c =>
  with_pagination q (fun pagination =>
    if negb (bool_decide (ptType = "")) && negb (one_of ptType [TypePayment; TypeWithdrawal])
    then mret (ValidationErrorItemResponse "type" ("unknown type " +:+ quote ptType))
    else
      mt ← the_merchant c;
      r ← ask (ListWithRelations basePath convertor (mer_ID mt) (mkListOptions (Limit pagination) (Cursor pagination)
        (ReverseSort pagination) (if bool_decide (ptType = "") then [] else [ptType])));
      match r with
      | inr err => told invalid_query err
      | inl (payments, nextCursor) =>
        results ← map_web paymentToResponse payments;
        mret (JSON StatusOK (PaymentsPage nextCursor (Limit pagination) results))
      end).

Definition payment_not_found (what : string) : list (error * Reply ApiBody) := [(Payment.ErrNotFound, NotFoundResponse (what +:+ " not found"))].

Definition GetPayment (paymentId : string) : Api := fun c =>
  match uuid_Parse paymentId with
  | None => mret (ValidationErrorMessage "invalid payment id")
  | Some paymentID =>
    mt ← the_merchant c;
    pt ← ask (GetByMerchantOrderIDWithRelations basePath convertor (mer_ID mt) paymentID);
    match pt with
    | inr err => told (payment_not_found "payment") err
    | inl pt => r ← paymentToResponse pt; mret (JSON StatusOK (ThePayment r))
    end
  end.

Definition price_range : string := "price should be between 0.01 and 10000000".

Definition CreatePayment (body : Bound CreatePaymentRequest) : Api := fun c =>
  bound body (fun req =>
    match uuid_Parse (cpr_ID req) with
    | None => mret (ValidationErrorMessage "order id is invalid")
    | Some merchantOrderUUID =>
      match MakeFiatCurrency (cpr_Currency req) with
      | Err err => mret (ValidationErrorMessage (error_string err))
      | Panic why => call (panic why)
      | Ok currency =>
        if f64_le (cpr_Price req) f64_zero then mret (ValidationErrorMessage "price should be positive")
        else
          price ← ask (lift (FiatFromFloat64 currency (cpr_Price req)));
          match price with
          | inr _ => mret (ValidationErrorItemResponse "price" price_range)
          | inl price =>
            mt ← the_merchant c;
            pt ← ask (Payment.CreatePayment basePath (mer_ID mt) (mkCreatePaymentProps merchantOrderUUID (cpr_OrderID req) price
              (cpr_RedirectURL req) (cpr_Description req) (cpr_IsTest req) false 0 "" None));
            match pt with
            | inr err =>
              if errors_Is err ErrValidation || errors_Is err Payment.ErrAlreadyExists
              then mret (ValidationErrorMessage (error_string err))
              else mret (ErrorResponse "internal_error")
            | inl pt => r ← paymentToResponse (only_payment pt); mret (JSON StatusCreated (ThePayment r))
            end
          end
      end
    end).

(** ** payment_link.go *)
Definition linkPriceToResponse (link : Link) : Web (option string) :=
  if bool_decide (lk_Type link = LinkTypeDonation) then mret None else p ← text (lk_Price link); mret (Some p).
Definition linkToResponse (link : Link) : Web LinkResponse :=
  price ← linkPriceToResponse link;
  mret (mkLinkResponse (lk_PublicID link) (lk_CreatedAt link) (lk_URL link) (lk_Name link) (lk_Description link)
    (LinkType_String (lk_Type link)) (lk_Currency link) price (lk_SuccessAction link) (lk_RedirectURL link) (lk_SuccessMessage link)).

Definition ListPaymentLinks : Api := fun c =>
  mt ← the_merchant c;
  links ← call (Payment.ListPaymentLinks basePath (mer_ID mt));
  results ← map_web linkToResponse links;
  mret (JSON StatusOK (LinkList results)).

Definition GetPaymentLink (paymentLinkId : string) : Api := fun c =>
  UUID "paymentLinkId" paymentLinkId (fun id =>
    mt ← the_merchant c;
    link ← ask (GetPaymentLinkByPublicID basePath (mer_ID mt) id);
    match link with
    | inr err => told (payment_not_found "payment link") err
    | inl link => r ← linkToResponse link; mret (JSON StatusOK (TheLink r))
    end).

Definition DeletePaymentLink (paymentLinkId : string) : Api := fun c =>
  UUID "paymentLinkId" paymentLinkId (fun id =>
    mt ← the_merchant c;
    r ← ask (DeletePaymentLinkByPublicID basePath (mer_ID mt) id);
    match r with inr err => told (payment_not_found "payment link") err | inl _ => mret (NoContent StatusNoContent) end).

Definition CreatePaymentLink (body : Bound CreatePaymentLinkRequest) : Api := fun c =>
  bound body (fun req =>
    match MakeFiatCurrency (clr_Currency req) with
    | Err _ => mret (ValidationErrorItemResponse "currency" "invalid currency")
    | Panic why => call (panic why)
    | Ok currency =>
      price ← (if bool_decide (LinkType req = LinkTypePayment) then ask (lift (FiatFromFloat64 currency (clr_Price req)))
               else mret (inl Money_zero));
      match price with
      | inr _ => mret (ValidationErrorItemResponse "price" price_range)
      | inl price =>
        mt ← the_merchant c;
        link ← ask (Payment.CreatePaymentLink basePath (mer_ID mt) (mkCreateLinkProps (LinkType req) (clr_Name req) currency price
          (clr_Description req) (clr_SuccessAction req) (clr_RedirectURL req) (clr_SuccessMessage req) false));
        match link with
        | inr err => if errors_Is err ErrLinkValidation then mret (ValidationErrorMessage (error_string err)) else stop err
        | inl link => r ← linkToResponse link; mret (JSON StatusCreated (TheLink r))
        end
      end
    end).

(** ** customer.go *)
Definition customerToResponse (ct : Customer) (details : option (Z * list CustomerPayment)) : CustomerResponse :=
  mkCustomerResponse (cus_CreatedAt ct) (cus_Email ct) (cus_UUID ct) details.
Definition mapPayments (pt : Payment) : Web CustomerPayment :=
  price ← text (pay_Price pt);
  mret (mkCustomerPayment (pay_MerchantOrderUUID pt) (pay_CreatedAt pt) (m_ticker (pay_Price pt)) price (PublicStatus pt)).

Definition ListCustomers (q : PaginationQuery) : Api := fun c =>
  with_pagination q (fun pagination =>
    mt ← the_merchant c;
    r ← ask (Payment.ListCustomers (mer_ID mt) (mkListOptions (Limit pagination) (Cursor pagination) (ReverseSort pagination) []));
    match r with
    | inr err => told invalid_query err
    | inl (customers, nextCursor) =>
      mret (JSON StatusOK (CustomersPage nextCursor (Limit pagination) (map (fun ct => customerToResponse ct None) customers)))
    end).

Definition GetCustomerDetails (customerId : string) : Api := fun c =>
  UUID "customerId" customerId (fun id =>
    mt ← the_merchant c;
    customerDetails ← ask (GetCustomerDetailsByUUID basePath (mer_ID mt) id);
    match customerDetails with
    | inr err => told (payment_not_found "customer") err
    | inl ct =>
      payments ← map_web mapPayments (cd_RecentPayments ct);
      mret (JSON StatusOK (TheCustomer (customerToResponse (cd_Customer ct) (Some (cd_SuccessfulPayments ct, payments)))))
    end).

(** ** balance.go *)
Definition isNativeUTXOCurrency (currency : CryptoCurrency) : bool :=
  bool_decide (cc_Type currency = Coin) && one_of (cc_Blockchain currency) ["BTC"; "LTC"].
Definition fallbackBalanceName (b : WalletBalance.Balance) : string :=
  let network := WalletBalance.bal_Network b in let currency := WalletBalance.bal_Currency b in
  if bool_decide (network = "") || bool_decide (network = currency) then currency else currency +:+ " (" +:+ network +:+ ")".

(** The payment service and the logger of a handler are always set. *)
Definition balanceDisplayAmount (b : WalletBalance.Balance) (currency : CryptoCurrency) : Web Money :=
  if negb (isNativeUTXOCurrency currency) then mret (WalletBalance.bal_Amount b)
  else
    fee ← ask (Withdrawal.GetWithdrawalFee convertor (WalletBalance.bal_EntityID b) (WalletBalance.bal_UUID b));
    match fee with
    | inr _ => mret (WalletBalance.bal_Amount b)
    | inl fee =>
      amount ← ask (lift (if Money_IsZero (Withdrawal.wf_MaximumAmount fee) then CryptoCurrency_MakeAmount currency "0"
                          else Money_Add (Withdrawal.wf_MaximumAmount fee) (Withdrawal.wf_CryptoFee fee)));
      mret (match amount with inl amount => amount | inr _ => WalletBalance.bal_Amount b end)
    end.

Definition balanceToResponse (b : WalletBalance.Balance) : Web BalanceResponse :=
  match GetCurrencyByTicker (WalletBalance.bal_Currency b) with
  | Panic why => call (panic why)
  | Err _ =>
    amount ← text (WalletBalance.bal_Amount b);
    mret (mkBalanceResponse (WalletBalance.bal_UUID b) (WalletBalance.bal_Network b) (WalletBalance.bal_Network b)
      (strings_Contains (ToLower (WalletBalance.bal_NetworkID b)) "test") (fallbackBalanceName b) (WalletBalance.bal_Currency b)
      (WalletBalance.bal_Currency b) amount "" "0")
  | Ok currency =>
    let isTest := negb (bool_decide (WalletBalance.bal_NetworkID b = cc_NetworkID currency)) in
    displayAmount ← balanceDisplayAmount b currency;
    usdAmount ← (if isTest then mret "0"
      else conv ← ask (Convertor.CryptoToFiat displayAmount USD);
           match conv with inl conv => text (Convertor.cv_To conv) | inr _ => mret "" end);
    amount ← text displayAmount;
    mret (mkBalanceResponse (WalletBalance.bal_UUID b) (cc_Blockchain currency) (cc_BlockchainName currency) isTest
      (DisplayName currency) (cc_Name currency) (cc_Ticker currency) amount usdAmount "0")
  end.

Definition ListBalances : Api := fun c =>
  mt ← the_merchant c;
  balances ← call (WalletBalance.ListBalances convertor WalletBalance.EntityTypeMerchant (mer_ID mt) false);
  results ← map_web balanceToResponse balances;
  mret (JSON StatusOK (BalanceList results)).

(** ** withdrawal.go *)
(** A balance, an address and an amount. *)
Definition parseWithdrawalRequest (balanceID addressID amount : string) :
  Withdrawal.CreateWithdrawalProps + list (string * string) :=
  let parsed field raw := match uuid_Parse raw with Some _ => [] | None => [(field, "invalid uuid")] end in
  let bad := match ParseFloat amount with Some f => f64_le f f64_zero | None => true end in
  let errors := parsed "balanceId" balanceID ++ parsed "addressId" addressID ++ (if bad then [("amount", "invalid amount")] else []) in
  match uuid_Parse balanceID, uuid_Parse addressID with
  | Some balanceID, Some addressID => if bad then inr errors else inl (Withdrawal.mkWithdrawalProps balanceID addressID amount)
  | _, _ => inr errors
  end.

Definition unsupported : Reply ApiBody := ValidationErrorMessage "unsupported currency".
Definition balance_not_found : Reply ApiBody := ValidationErrorItemResponse "balanceId" "balance not found".

Definition CreateWithdrawal (body : Bound (string * string * string)) : Api := fun c =>
  bound body (fun '(balanceID, addressID, amount) =>
    match parseWithdrawalRequest balanceID addressID amount with
    | inr items => invalid items
    | inl props =>
      mt ← the_merchant c;
      p ← ask (Withdrawal.CreateWithdrawal basePath convertor (mer_ID mt) props);
      match p with
      | inl p => mret (JSON StatusCreated (WithdrawalCreated (pay_MerchantOrderUUID p)))
      | inr err => told
          [(ErrAddressNotFound, ValidationErrorItemResponse "addressId" "address not found");
           (WalletBalance.ErrBalanceNotFound, balance_not_found);
           (ErrCurrencyNotFound, unsupported);
           (ErrValidation, ValidationErrorMessage (error_string err));
           (ErrUnsupportedRuntime, ValidationErrorMessage (error_string err));
           (ErrAddressBalanceMismatch, ValidationErrorItemResponse "balanceId" "balance does not match to address");
           (ErrParse, ValidationErrorItemResponse "amount" "withdrawal amount is invalid");
           (ErrWithdrawalInsufficientBalance, ValidationErrorItemResponse "amount" (error_string err));
           (ErrWithdrawalAmountTooSmall, ValidationErrorItemResponse "amount" (error_string err))] err
      end
    end).

Definition withdrawalFeeToResponse (fee : Withdrawal.WithdrawalFee) : Web FeeResponse :=
  usdFee ← (if Withdrawal.wf_IsTest fee then mret "0" else text (Withdrawal.wf_USDFee fee));
  cryptoFee ← text (Withdrawal.wf_CryptoFee fee);
  minimum ← text (Withdrawal.wf_MinimumAmount fee);
  maximum ← text (Withdrawal.wf_MaximumAmount fee);
  mret (mkFeeResponse (Withdrawal.wf_Blockchain fee) (Withdrawal.wf_CalculatedAt fee) (Withdrawal.wf_Currency fee) usdFee cryptoFee
    minimum maximum (Withdrawal.wf_IsTest fee)).

Definition GetWithdrawalFee (balanceId : string) : Api := fun c =>
  UUID "balanceId" balanceId (fun balanceID =>
    mt ← the_merchant c;
    fee ← ask (Withdrawal.GetWithdrawalFee convertor (mer_ID mt) balanceID);
    match fee with
    | inl fee => r ← withdrawalFeeToResponse fee; mret (JSON StatusOK (TheFee r))
    | inr err =>
      if existsb (errors_Is err) [WalletBalance.ErrBalanceNotFound; ErrCurrencyNotFound; ErrValidation; ErrUnsupportedRuntime]
      then told [(WalletBalance.ErrBalanceNotFound, balance_not_found); (ErrCurrencyNotFound, unsupported);
        (ErrValidation, ValidationErrorMessage (error_string err));
        (ErrUnsupportedRuntime, ValidationErrorMessage (error_string err))] err
      else stop (EWrap err "unable to get withdrawal fee")
    end).

(** ** currency.go *)
Definition conversionToResponse (conv : Convertor.Conversion) : Web ConversionResponse :=
  let from := Convertor.cv_From conv in let to := Convertor.cv_To conv in
  selected ← text from; converted ← text to;
  mret (mkConversionResponse (m_ticker from) (m_type from) (m_ticker to) (m_type to) selected (Convertor.cv_Rate conv) converted).

Definition GetCurrencyConvert (from to amount : string) : Api := fun c =>
  conv ← ask (Convertor.Convert from to amount);
  match conv with
  | inl conv => r ← conversionToResponse conv; mret (JSON StatusOK (TheConversion r))
  | inr err =>
    if errors_Is err Bitcoin.ErrValidation then mret (ValidationErrorMessage (error_string err))
    else if errors_Is err ErrCurrencyNotFound then mret unsupported
    else stop (EWrap err ("unable to perform conversion from " +:+ quote from +:+ " to " +:+ quote to))
  end.

(** ** form.go: a topic and a message *)
Definition CreateFormSubmission `{FormEvents} (body : Bound (string * string)) : Api := fun c =>
  bound body (fun '(topic, message) =>
    match ResolveUser c with
    | None => stop (ENew "unable to resolve user")
    | Some u =>
      r ← ask (external (PublishFormSubmitted topic message (u_ID u)));
      match r with inr err => stop (EWrap err "unable to publish event") | inl _ => mret (NoContent StatusCreated) end
    end).
End Handlers.
