(* ===== verification/Handlers.v ===== *)
(** * Handlers: what a handler does to the database

    The rules a proof about a handler goes through when it only concerns the
    tables: a relation of databases that every call of a service keeps is kept
    by the handler, whatever it does to its session and to the accounts. *)

From S2P Require Import Prelude GoLib KmsWallet Money Repository Queries Currencies Flow.
From S2P Require Import Accounts Access MerchantApi.

Section Rules.
Context (R : DB -> DB -> Prop) `{!PreOrder R}.
Definition on_db (w w' : world) : Prop := R (db w) (db w').
#[export] Instance on_db_preorder : PreOrder on_db.
Proof. split; unfold on_db; [by intros w|]. intros x y z E1 E2. by etransitivity. Qed.

Lemma rows_tret {S A} (a : A) (s : S) : wsteps on_db ((mret a : Tracked S A) s).
Proof. intros w. apply (reflexivity (R := on_db)). Qed.
Lemma rows_stop {S A} e (s : S) : wsteps on_db ((stop e : Tracked S A) s).
Proof. intros w. apply (reflexivity (R := on_db)). Qed.
Lemma rows_call {S A} (m : Go A) (s : S) : steps R m -> wsteps on_db (call m s).
Proof. intros Hm. apply wsteps_call; [tc_solve|exact Hm]. Qed.
Lemma rows_try {S A} (m : Tracked S A) s : wsteps on_db (m s) -> wsteps on_db (try m s).
Proof. intros Hm. apply wsteps_bind; [tc_solve|done|]. intros [s' r]. apply rows_tret. Qed.
Lemma rows_ask {A} (m : Go A) s : steps R m -> wsteps on_db (ask m s).
Proof. intros Hm. by apply rows_try, rows_call. Qed.
Lemma rows_accounts {A} (m : Tracked Accounts A) s : wsteps on_db (m (accounts s)) -> wsteps on_db (on_accounts m s).
Proof. intros Hm. apply wsteps_bind; [tc_solve|done|]. intros [s' r]. intros w. apply (reflexivity (R := on_db)). Qed.
Lemma rows_statement {A} (f : Accounts -> res A * Accounts) s : wsteps on_db (statement f s).
Proof. intros w. unfold statement. destruct (f s) as [[a|e|p] s']; apply (reflexivity (R := on_db)). Qed.
Lemma rows_read {A} (f : Accounts -> res A) s : wsteps on_db (Accounts.read f s).
Proof. apply rows_statement. Qed.
Lemma rows_map {A B} (f : A -> Web B) l : (forall x s, wsteps on_db (f x s)) -> forall s, wsteps on_db (map_web f l s).
Proof.
  intros Hf. induction l as [|x l IH]; intros s; cbn [map_web]; [apply rows_tret|].
  apply wsteps_tbind; [tc_solve|apply Hf|]. intros y s1. apply wsteps_tbind; [tc_solve|apply IH|]. intros. apply rows_tret.
Qed.
(** The middleware's merchant, when there is one; a handler that runs without
    one panics. *)
Lemma rows_the_merchant {A} c (f : Merchant.Merchant -> Web A) s :
  (forall mt, ResolveMerchant c = Some mt -> wsteps on_db (f mt s)) -> wsteps on_db ((the_merchant c ≫= f) s).
Proof.
  intros Hf. unfold the_merchant. destruct (ResolveMerchant c) as [mt|]; [by apply Hf|]. intros w.
  apply (reflexivity (R := on_db)).
Qed.
Lemma rows_the_user {A} c (f : User -> Web A) s : (forall u, wsteps on_db (f u s)) -> wsteps on_db ((the_user c ≫= f) s).
Proof.
  intros Hf. unfold the_user. destruct (ResolveUser c) as [u|]; [by apply Hf|]. intros w. apply (reflexivity (R := on_db)).
Qed.
End Rules.

Ltac unfold_web m := lazymatch m with ?f _ => unfold_web f | ?x => unfold x end.
(** Takes a handler apart; [leaf] solves what is left of each call of a
    service. *)
Ltac rows_steps leaf :=
  repeat first
    [ progress intros | progress cbv beta iota zeta
    | match goal with |- wsteps _ ((the_merchant _ ≫= _) _) => apply rows_the_merchant; [tc_solve|]; intros end
    | match goal with |- wsteps _ ((the_user _ ≫= _) _) => apply rows_the_user; [tc_solve|] end
    | match goal with |- wsteps _ ((_ ≫= _) _) => apply wsteps_tbind; [tc_solve| |] end
    | apply rows_tret; tc_solve | apply rows_stop; tc_solve | apply rows_statement; tc_solve | apply rows_read; tc_solve
    | apply rows_call; [tc_solve|solve [leaf]]
    | apply rows_ask; [tc_solve|solve [leaf]]
    | apply rows_try; [tc_solve|] | apply rows_accounts; [tc_solve|] | apply rows_map; [tc_solve|]
    | match goal with
      | |- wsteps _ ((match ?x with _ => _ end) _) => destruct x
      | |- wsteps _ (match ?x with _ => _ end _) => destruct x
      end
    | match goal with |- wsteps _ (?m _) => progress (unfold_web m) end ].
