(* ===== verification/Tenants.v ===== *)
(** * Tenants: a merchant's data is reached by that merchant only

    What the middlewares of [Access] admit, and what the handlers of
    [MerchantApi] change: the routes of a merchant are answered with an error,
    or by a handler that runs for the merchant of the url, on behalf of its
    creator or of the holder of one of its tokens; and whatever the handler
    does, what belongs to the other merchants stays as it was. *)

From S2P Require Import Prelude GoLib Float64 KmsWallet NetUrl Money Repository Queries PaymentQueries Bitcoin Currencies Transaction Blockchain Flow.
From S2P Require Wallet WalletBalance WalletTransaction Convertor Withdrawal Frames Ledger.
From S2P Require Import Merchant Payment Accounts Identity Access MerchantApi.

(** ** Lemmas: what the middlewares see *)
Section Access.
Context `{Uuid} (request : Request).
Implicit Types (s : Site) (w : world).

Lemma set_db_same w : set_db (db w) w = w.
Proof. by destruct w. Qed.

Lemma on_accounts_run {A} (m : Tracked Accounts A) s w r : m (accounts s) w = (Ok (accounts s, r), w) ->
  on_accounts m s w = (Ok (s, r), w).
Proof. intros Hm. unfold on_accounts, mbind, M_bind. rewrite Hm. by destruct s. Qed.

Definition user_at (id : Z) (a : Accounts) : User + error :=
  match row_at id (users a) with Some r => inl (entryToUser r) | None => inr user_ErrNotFound end.
Lemma GetByID_run id a w : Accounts.GetByID id a w = (Ok (a, user_at id a), w).
Proof.
  unfold Accounts.GetByID, user_at, GetUserByID. pose proof (found_run (by_id id) a w) as Hf.
  fold (row_at id (users a)) in Hf. destruct (row_at id (users a)) as [r|]; [by erewrite tret_run; [|exact Hf]|by erewrite tstop_run; [|exact Hf]].
Qed.

(** A lookup of a live merchant. *)
Definition merchant_found (p : Row.Merchant -> bool) (d : DB) : Merchant + error :=
  match head (select p (merchants d)) with Some r => inl (entryToMerchant r) | None => inr ErrMerchantNotFound end.
Lemma merchant_lookup_run (p : Row.Merchant -> bool) s w :
  try (call (entry ← not_found ErrMerchantNotFound (Queries.read (fun d => one (select p (merchants d)))); mret (entryToMerchant entry))) s w
  = (Ok (s, inl (merchant_found p (db w))), w).
Proof.
  unfold merchant_found, try, call, attempt, not_found, Queries.read, query, mbind, M_bind. cbv beta iota zeta.
  unfold attempt. cbv beta iota zeta. rewrite head_select, set_db_same. by destruct (head _) as [r|].
Qed.

(** *** One middleware after the other *)
Definition session_user s : option User := id ← ss_UserID (session s); match user_at id (accounts s) with inl u => Some u | inr _ => None end.

Lemma BySession_run B next c s w :
  ResolvesUserBySession B next c s w = next (match session_user s with Some u => with_user u c | None => c end) s w.
Proof.
  unfold ResolvesUserBySession. erewrite tret_run; [|reflexivity]. unfold session_user. cbn [mbind option_bind].
  destruct (ss_UserID (session s)) as [id|]; [|done]. cbn [mbind option_bind].
  erewrite tret_run; [|apply try_run, on_accounts_run, GetByID_run]. by destruct (user_at id (accounts s)).
Qed.

(** What the token of the request gives, when it is asked. *)
Inductive Verdict := Anonymous | Authenticated (c : Context) | Rejected.
Definition token_user c s : Verdict :=
  match ResolveUser c with
  | Some _ => Anonymous
  | None =>
    if bool_decide (rq_Token request = "") then Anonymous
    else match resolve TokenTypeUser (rq_Token request) (accounts s) with
    | inr _ => Rejected
    | inl token => match user_at (tk_EntityID token) (accounts s) with
      | inl person => Authenticated (with_token_auth (with_user person c)) | inr _ => Anonymous end
    end
  end.
Lemma ByToken_run B next c s w : ResolvesUserByToken request B next c s w =
  match token_user c s with Anonymous => next c s w | Authenticated c => next c s w | Rejected => (Ok (s, inl invalid_token), w) end.
Proof.
  unfold ResolvesUserByToken, token_user. destruct (ResolveUser c); [done|]. destruct (bool_decide _); [done|].
  erewrite tret_run; [|apply try_run, on_accounts_run, GetToken_run]. destruct (resolve _ _ _) as [token|e]; [|done].
  erewrite tret_run; [|apply try_run, on_accounts_run, GetByID_run]. by destruct (user_at _ _).
Qed.

(** The merchant of the url, of the user that is resolved. *)
Definition url_merchant c w : option Merchant :=
  id ← uuid_Parse (rq_merchantId request); person ← ResolveUser c;
  match merchant_found (fun m => bool_decide (Row.mt_Uuid m = id) && (Row.mt_CreatorID m =? u_ID person) && trashed_ok false m) (db w) with
  | inl m => Some m | inr _ => None end.
Lemma ByUUID_run B next c s w : ResolveMerchant c = None -> ResolvesMerchantByUUID request B next c s w =
  next (match url_merchant c w with Some m => with_merchant m c | None => c end) s w.
Proof.
  intros Hc. unfold ResolvesMerchantByUUID, url_merchant. rewrite Hc. destruct (uuid_Parse _) as [id|]; [|done]. cbn [mbind option_bind].
  destruct (ResolveUser c) as [person|]; [|done]. cbn [mbind option_bind]. 
  erewrite tret_run; [|apply merchant_lookup_run]. by destruct (merchant_found _ _).
Qed.

(** What the merchant's token of the request gives, or why it is rejected. *)
Definition token_merchant s w : Context + string :=
  if bool_decide (rq_Token request = "") then inr "Unauthorized"
  else match resolve TokenTypeMerchant (rq_Token request) (accounts s) with
  | inr _ => inr "Invalid api token"
  | inl token =>
    inl (match merchant_found (fun m => by_id (tk_EntityID token) m && trashed_ok false m) (db w) with
         | inl m => with_token_auth (with_merchant m no_context) | inr _ => no_context end)
  end.
Lemma ByMerchantToken_run B next s w : ResolvesMerchantByToken request B next no_context s w =
  match token_merchant s w with
  | inr message => (Ok (s, inl (ErrorJSON StatusUnauthorized message "token_error" [])), w)
  | inl c => next c s w
  end.
Proof.
  unfold ResolvesMerchantByToken, token_merchant. cbn [ResolveMerchant no_context cx_Merchant]. destruct (bool_decide _); [done|].
  erewrite tret_run; [|apply try_run, on_accounts_run, GetToken_run]. destruct (resolve _ _ _) as [token|e]; [|done].
  erewrite tret_run; [|apply merchant_lookup_run]. by destruct (merchant_found _ _).
Qed.

(** *** Who is admitted *)
(** A request is refused before any handler, and changes nothing. *)
Definition refusal {B} (r : Reply B + error) : Prop :=
  r = inr ErrCSRF \/ exists code message status, r = inl (ErrorJSON code message status []) /\ (code = StatusBadRequest \/ code = StatusUnauthorized).
Lemma refused {B} code message status : code = StatusBadRequest \/ code = StatusUnauthorized ->
  refusal (inl (ErrorJSON code message status []) : Reply B + error).
Proof. intros Hc. right. by exists code, message, status. Qed.

Definition live_merchant (m : Merchant) (d : DB) : Prop := mer_ID m <> 0 /\
  exists row, row ∈ rows (merchants d) /\ m = entryToMerchant row /\ Valid (Row.mt_DeletedAt row) = false.
(** A token of the request, of a user or of a merchant. *)
Definition bears (type : string) (id : Z) s : Prop := exists t, t ∈ rows (api_tokens (accounts s)) /\ at_EntityType t = type /\
  at_Token t = rq_Token request /\ at_EntityID t = id.
Definition known_user (u : User) s : Prop := exists row, row ∈ rows (users (accounts s)) /\ u = entryToUser row.

(** The dashboard admits the creator of the merchant of the url, signed in with
    a right CSRF token or bearing a token. *)
Definition by_creator c s w : Prop := exists u m, ResolveUser c = Some u /\ ResolveMerchant c = Some m /\ known_user u s /\
  (ss_UserID (session s) = Some (u_ID u) /\ rq_CSRF request = true \/ bears TokenTypeUser (u_ID u) s) /\
  live_merchant m (db w) /\ mer_UUID m = rq_merchantId request /\ mer_CreatorID m = u_ID u.
(** The merchant API admits who bears a token of the merchant of the url. *)
Definition by_token c s w : Prop := exists m, ResolveMerchant c = Some m /\ bears TokenTypeMerchant (mer_ID m) s /\
  live_merchant m (db w) /\ mer_UUID m = rq_merchantId request.

Lemma user_at_known id s u : user_at id (accounts s) = inl u -> known_user u s /\ u_ID u = id.
Proof.
  unfold user_at. destruct (row_at id _) as [r|] eqn:E; [|done]. intros [= <-]. apply row_at_id in E as [Hid Hr].
  split; [by exists r|done].
Qed.
Lemma resolve_bears type t s : resolve type (rq_Token request) (accounts s) = inl t -> bears type (tk_EntityID t) s.
Proof.
  unfold resolve. destruct (head _) as [r|] eqn:E; [|done]. intros [= <-]. exists r.
  match type of E with head (select ?p ?t) = _ => assert (one (select p t) = Ok r) as Ho by by rewrite head_select, E end.
  apply one_select_inv in Ho as [Hr [?%bool_decide_eq_true ?%bool_decide_eq_true]%andb_true_iff]. by split_and!.
Qed.
Lemma merchant_found_live p d m : merchant_found (fun r => p r && trashed_ok false r) d = inl m ->
  exists row, row ∈ rows (merchants d) /\ m = entryToMerchant row /\ Valid (Row.mt_DeletedAt row) = false /\ p row = true.
Proof.
  unfold merchant_found. destruct (head _) as [r|] eqn:E; [|done]. intros [= <-]. exists r.
  match type of E with head (select ?p ?t) = _ => assert (one (select p t) = Ok r) as Ho by by rewrite head_select, E end.
  apply one_select_inv in Ho as [Hr [Hp Hd]%andb_true_iff]. unfold trashed_ok in Hd. cbn in Hd. split_and!; try done. by destruct (Valid _).
Qed.

(** A chain of middlewares refuses the request, or runs the handler with
    [c']. *)
Definition refuses (m : MiddlewareFunc) c s w : Prop :=
  forall B, exists r : Reply B + error, refusal r /\ forall next, m B next c s w = (Ok (s, r), w).
Definition admits (m : MiddlewareFunc) c s w (c' : Context) : Prop := forall B next, m B next c s w = next c' s w.

Lemma guards_merchant_run c s w m : rq_merchantId request <> "" -> ResolveMerchant c = Some m ->
  refuses (GuardsMerchants request) c s w \/ mer_UUID m = rq_merchantId request /\ admits (GuardsMerchants request) c s w c.
Proof.
  intros Hid Hm. unfold refuses, admits, GuardsMerchants. rewrite Hm, bool_decide_eq_false_2 by done. cbn [negb andb].
  destruct (bool_decide (rq_merchantId request = mer_UUID m)) eqn:E; cbn [negb].
  - apply bool_decide_eq_true in E. by right.
  - left. intros B. eexists. split; [|reflexivity]. apply refused. by left.
Qed.
Lemma no_merchant_run c s w : ResolveMerchant c = None -> refuses (GuardsMerchants request) c s w.
Proof. intros Hm B. unfold GuardsMerchants. rewrite Hm. eexists. split; [|reflexivity]. apply refused. by left. Qed.

Lemma with_merchant_resolves m c : ResolveMerchant (with_merchant m c) = if mer_ID m =? 0 then None else Some m.
Proof. done. Qed.

(** What is behind the resolvers of the user. *)
Definition guarded : MiddlewareFunc := fun B next => GuardsUsers B (ResolvesMerchantByUUID request B (GuardsMerchants request B next)).
Lemma guards_run c s w : rq_merchantId request <> "" -> ResolveMerchant c = None ->
  refuses guarded c s w \/
  exists u m, ResolveUser c = Some u /\ live_merchant m (db w) /\ mer_UUID m = rq_merchantId request /\ mer_CreatorID m = u_ID u /\
    admits guarded c s w (with_merchant m c).
Proof.
  intros Hid Hc. unfold guarded, GuardsUsers, refuses, admits. destruct (ResolveUser c) as [u|] eqn:Hu.
  2:{ left. intros B. eexists. split; [|reflexivity]. apply refused. by right. }
  assert (forall B next, ResolvesMerchantByUUID request B next c s w = next (match url_merchant c w with Some m => with_merchant m c | None => c end) s w)
    as Hrun by (intros; by apply ByUUID_run).
  destruct (url_merchant c w) as [m|] eqn:Hm.
  2:{ left. intros B. destruct (no_merchant_run c s w Hc B) as (r & Hr & Hn). exists r. split; [done|]. intros next. by rewrite Hrun. }
  unfold url_merchant in Hm. destruct (uuid_Parse _) as [id|]; [|done]. cbn [mbind option_bind] in Hm. rewrite Hu in Hm.
  cbn [mbind option_bind] in Hm. destruct (merchant_found _ _) as [m'|e] eqn:Hf; [|done]. injection Hm as ->.
  apply merchant_found_live in Hf as (row & Hrow & Hmrow & Hlive & [_ Hcr%Z.eqb_eq]%andb_true_iff).
  destruct (mer_ID m =? 0) eqn:E0.
  { left. intros B. destruct (no_merchant_run (with_merchant m c) s w) with B as (r & Hr & Hn); [by rewrite with_merchant_resolves, E0|].
    exists r. split; [done|]. intros next. by rewrite Hrun. }
  destruct (guards_merchant_run (with_merchant m c) s w m) as [Href|[Hm2 Hadm]]; [done|by rewrite with_merchant_resolves, E0| |].
  - left. intros B. destruct (Href B) as (r & Hr & Hn). exists r. split; [done|]. intros next. by rewrite Hrun.
  - right. exists u, m. split; [done|]. split; [split; [lia|by exists row]|]. split; [done|]. split; [by subst m|].
    intros B next. rewrite Hrun. apply Hadm.
Qed.

Lemma csrf_run B next c s w : CSRF request B next c s w =
  if cx_TokenAuth c || rq_CSRF request then next c s w else (Ok (s, inr ErrCSRF), w).
Proof. unfold CSRF. by destruct (cx_TokenAuth c), (rq_CSRF request). Qed.

(** [c] is resolved to [u] by the session, or by the token. *)
Lemma dashboard_run c s w : rq_merchantId request <> "" -> ResolveMerchant c = None ->
  (forall u, ResolveUser c = Some u -> known_user u s /\
    (cx_TokenAuth c = false /\ ss_UserID (session s) = Some (u_ID u) \/ bears TokenTypeUser (u_ID u) s)) ->
  refuses (fun B next => CSRF request B (guarded B next)) c s w \/
  exists c', by_creator c' s w /\ admits (fun B next => CSRF request B (guarded B next)) c s w c'.
Proof.
  intros Hid Hc Hu. unfold refuses, admits. destruct (cx_TokenAuth c || rq_CSRF request) eqn:Hcsrf.
  2:{ left. intros B. exists (inr ErrCSRF). split; [by left|]. intros next. by rewrite csrf_run, Hcsrf. }
  destruct (guards_run c s w Hid Hc) as [Href|(u & m & Hru & Hlive & Huuid & Hcr & Hadm)].
  - left. intros B. destruct (Href B) as (r & Hr & Hn). exists r. split; [done|]. intros next. by rewrite csrf_run, Hcsrf.
  - right. exists (with_merchant m c). split; [|intros B next; rewrite csrf_run, Hcsrf; apply Hadm].
    destruct (Hu u Hru) as [Hk Hauth]. exists u, m. split; [done|]. split.
    { rewrite with_merchant_resolves. destruct Hlive as [H0 _]. by destruct (Z.eqb_spec (mer_ID m) 0). }
    split_and!; try done. destruct Hauth as [[Ht Hs]|Hb]; [left; split; [done|]|by right]. by rewrite Ht in Hcsrf.
Qed.
End Access.

Lemma dashboard_access `{Uuid} (request : Request) s w : rq_merchantId request <> "" ->
  refuses (merchantGroup request) no_context s w \/
  exists c, by_creator request c s w /\ admits (merchantGroup request) no_context s w c.
Proof.
  intros Hid.
  set (c1 := match session_user s with Some u => with_user u no_context | None => no_context end).
  assert (forall B next, merchantGroup request B next no_context s w = match token_user request c1 s with
    | Anonymous => CSRF request B (guarded request B next) c1 s w
    | Authenticated c => CSRF request B (guarded request B next) c s w
    | Rejected => (Ok (s, inl invalid_token), w) end) as Hrun.
  { intros B next. unfold merchantGroup, dashboardAPI. by rewrite BySession_run, ByToken_run. }
  assert (forall c, (forall B next, merchantGroup request B next no_context s w = CSRF request B (guarded request B next) c s w) ->
    ResolveMerchant c = None -> (forall u, ResolveUser c = Some u -> known_user u s /\
      (cx_TokenAuth c = false /\ ss_UserID (session s) = Some (u_ID u) \/ bears request TokenTypeUser (u_ID u) s)) ->
    refuses (merchantGroup request) no_context s w \/
    exists c', by_creator request c' s w /\ admits (merchantGroup request) no_context s w c') as Hgoes.
  { intros c Hc Hm Hu. destruct (dashboard_run request c s w Hid Hm Hu) as [Href|(c' & Hby & Hadm)]; [left|right; exists c'].
    - intros B. destruct (Href B) as (r & Hr & Hn). exists r. split; [done|]. intros next. by rewrite Hc.
    - split; [done|]. intros B next. by rewrite Hc. }
  destruct (token_user request c1 s) as [|c2|] eqn:Ht.
  + apply (Hgoes c1); [done|unfold c1; by destruct (session_user s)|]. intros u Hu. unfold c1, session_user in Hu |- *.
    destruct (ss_UserID (session s)) as [id|]; [|done]. cbn [mbind option_bind] in *.
    destruct (user_at id (accounts s)) as [u'|e] eqn:Hat; [|done]. apply user_at_known in Hat as [Hk Huid].
    unfold ResolveUser in Hu. cbn in Hu. destruct (u_ID u' =? 0); [done|]. injection Hu as ->. split; [done|]. left. by rewrite Huid.
  + unfold token_user in Ht. destruct (ResolveUser c1); [done|]. destruct (bool_decide _); [done|].
    destruct (resolve _ _ _) as [t|e] eqn:Hres; [|done]. destruct (user_at _ _) as [u|e] eqn:Hat; [|done]. injection Ht as <-.
    apply user_at_known in Hat as [Hk Huid]. apply resolve_bears in Hres.
    apply (Hgoes _ Hrun); [unfold c1; by destruct (session_user s)|]. intros u' Hu. unfold ResolveUser in Hu. cbn in Hu.
    destruct (u_ID u =? 0); [done|]. injection Hu as <-. split; [done|]. right. by rewrite Huid.
  + left. intros B. eexists. split; [|exact (Hrun B)]. apply refused. by right.
Qed.

Lemma api_access `{Uuid} (request : Request) s w : rq_merchantId request <> "" ->
  refuses (merchantAPI request) no_context s w \/
  exists c, by_token request c s w /\ admits (merchantAPI request) no_context s w c.
Proof.
  intros Hid.
  assert (forall B next, merchantAPI request B next no_context s w = _) as Hrun by (intros B next; apply ByMerchantToken_run).
  destruct (token_merchant request s w) as [c|message] eqn:Ht; [|left; intros B; eexists; split; [|apply Hrun]; apply refused; by right].
  unfold token_merchant in Ht. destruct (bool_decide _); [done|]. destruct (resolve _ _ _) as [t|e] eqn:Hres; [|done]. injection Ht as Hc.
  apply resolve_bears in Hres. destruct (merchant_found _ _) as [m|e] eqn:Hf.
  2:{ left. intros B. destruct (no_merchant_run request c s w) with B as (r & Hr & Hn); [by subst c|]. exists r. split; [done|].
      intros next. by rewrite Hrun. }
  apply merchant_found_live in Hf as (row & Hrow & Hmrow & Hlive & Hrid). destruct (mer_ID m =? 0) eqn:E0.
  { left. intros B. destruct (no_merchant_run request c s w) with B as (r & Hr & Hn); [subst c; unfold ResolveMerchant; cbn; by rewrite E0|].
    exists r. split; [done|]. intros next. by rewrite Hrun. }
  assert (ResolveMerchant c = Some m) as Hcm by (subst c; unfold ResolveMerchant; cbn; by rewrite E0).
  destruct (guards_merchant_run request c s w m Hid Hcm) as [Href|[Hm Hadm]]; [left|right; exists c].
  + intros B. destruct (Href B) as (r & Hr & Hn). exists r. split; [done|]. intros next. by rewrite Hrun.
  + split; [|intros B next; rewrite Hrun; apply Hadm]. exists m. split; [done|]. split; [|split; [|done]].
    * replace (mer_ID m) with (tk_EntityID t); [done|]. subst m. cbn. unfold by_id in Hrid. symmetry. apply Z.eqb_eq. exact Hrid.
    * split; [lia|]. by exists row.
Qed.
