(* ===== verification/Isolation.v ===== *)
(** * Isolation: what a handler may change

    The routes of a merchant, and what remains as it was whatever they do: the
    rows of the other merchants, the tables that are no merchant's, the users,
    the registry, the tokens of others and the session. *)

From S2P Require Import Prelude GoLib Float64 KmsWallet NetUrl Money Repository Queries PaymentQueries Bitcoin Currencies Transaction Blockchain Flow.
From S2P Require Wallet WalletBalance WalletTransaction Convertor Withdrawal.
From S2P Require Import Ledger Frames.
From S2P Require Import Merchant Payment Accounts Identity Access MerchantApi Handlers Tenants.

(** ** What is not the merchant's *)
Definition others (id : Z) (d : DB) :=
  (rows (balances d), rows (balance_audit_log d), rows (wallets d), rows (wallet_locks d), rows (transactions d), rows (reservations d),
   List.filter (fun p => negb (Row.p_MerchantID p =? id)) (rows (payments d)),
   List.filter (fun l => negb (Row.l_MerchantID l =? id)) (rows (payment_links d)),
   List.filter (fun c => negb (Row.c_MerchantID c =? id)) (rows (customers d)),
   List.filter (fun a => negb (Row.ma_MerchantID a =? id)) (rows (merchant_addresses d)),
   List.filter (fun m => negb (Row.mt_ID m =? id)) (rows (merchants d))).

#[export] Instance keeps_others_frame id : Frame (keeps (others id)).
Proof. by apply keeps_frame. Qed.

Section Filters.
Context {A : Type} `{HasID A} (p : A -> bool).
Lemma filter_insert mk (t : Table A) : p (mk (next_id t)) = false -> List.filter p (rows (insert_row mk t)) = List.filter p (rows t).
Proof. intros Hp. cbn. rewrite List.filter_app. cbn. by rewrite Hp, app_nil_r. Qed.
Lemma filter_update q f (t : Table A) : (forall r, r ∈ rows t -> q r = true -> p r = false /\ p (f r) = false) ->
  List.filter p (rows (update_rows q f t)) = List.filter p (rows t).
Proof.
  cbn. induction (rows t) as [|x l IH]; [done|]. intros Hf. cbn.
  assert (forall r, r ∈ l -> q r = true -> p r = false /\ p (f r) = false) as Hl.
  { intros r Hr. apply Hf. by right. }
  specialize (IH Hl). destruct (q x) eqn:E; [|by rewrite IH]. destruct (Hf x) as [-> ->]; [left|done|done].
Qed.
Lemma filter_delete q (t : Table A) : (forall r, r ∈ rows t -> q r = true -> p r = false) ->
  List.filter p (rows (delete_rows q t)) = List.filter p (rows t).
Proof.
  cbn. induction (rows t) as [|x l IH]; [done|]. intros Hq. cbn. assert (forall r, r ∈ l -> q r = true -> p r = false) as Hl.
  { intros r Hr. apply Hq. by right. }
  specialize (IH Hl). destruct (q x) eqn:E; cbn; rewrite IH; [|done]. rewrite (Hq x); [done|left|done].
Qed.
End Filters.

(** A condition on the merchant of a row. *)
Ltac own_row :=
  cbn; intros; unfold merchant_link, address_at, by_id, row_id, PaymentLink_id, MerchantAddress_id, Merchant_id in *;
  rewrite ?andb_true_iff, ?Z.eqb_eq in *; try lia; repeat split; apply negb_false_iff, Z.eqb_eq; naive_solver.
Ltac own_statement :=
  apply steps_query; intros d; cbv zeta;
  repeat first [progress cbn [mbind res_bind mret res_ret] | match goal with
    | |- context [pg_numeric_not_null ?x] => destruct (pg_numeric_not_null x)
    | |- context [pg_numeric ?x] => destruct (pg_numeric x)
    | |- context [pg_jsonb ?x] => destruct (pg_jsonb x)
    | |- keeps _ d (match ?x with _ => _ end).2 => destruct x end];
  cbn [snd]; unfold keeps, others; cbn [payments payment_links customers merchant_addresses merchants balances balance_audit_log wallets
    wallet_locks transactions reservations set_payments set_payment_links set_merchants set_merchant_addresses];
  try reflexivity; first [rewrite filter_insert by own_row | rewrite filter_update by own_row | rewrite filter_delete by own_row]; reflexivity.

Section Statements.
Context (id : Z).
Abbreviation own := (keeps (others id)).

Lemma CreatePayment_own arg : cp_MerchantID arg = id -> steps own (PaymentQueries.CreatePayment arg).
Proof. intros <-. own_statement. Qed.
Lemma CreatePaymentLink_own arg : cl_MerchantID arg = id -> steps own (PaymentQueries.CreatePaymentLink arg).
Proof. intros <-. own_statement. Qed.
Lemma DeletePaymentLink_own uuid : steps own (PaymentQueries.DeletePaymentLinkByPublicID id uuid).
Proof. own_statement. Qed.
Lemma UpdateMerchant_own at_ name website : steps own (PaymentQueries.UpdateMerchant id at_ name website).
Proof. own_statement. Qed.
Lemma UpdateMerchantSettings_own at_ settings : steps own (PaymentQueries.UpdateMerchantSettings id at_ settings).
Proof. own_statement. Qed.
Lemma CreateMerchantAddress_own c u uuid name bc a : steps own (PaymentQueries.CreateMerchantAddress c u uuid id name bc a).
Proof. own_statement. Qed.
Lemma UpdateMerchantAddress_own i name at_ : steps own (PaymentQueries.UpdateMerchantAddress id i name at_).
Proof. own_statement. Qed.
Lemma DeleteMerchantAddress_own i : steps own (PaymentQueries.DeleteMerchantAddress id i).
Proof. own_statement. Qed.
End Statements.
#[export] Hint Resolve CreatePayment_own CreatePaymentLink_own DeletePaymentLink_own UpdateMerchant_own UpdateMerchantSettings_own
  CreateMerchantAddress_own UpdateMerchantAddress_own DeleteMerchantAddress_own : frame.

Ltac own_steps :=
  repeat first [progress frame_steps | progress cbv zeta
    | match goal with |- steps _ ((if lo_ReverseOrder ?o then _ else _) _ _ _ _ _) => destruct (lo_ReverseOrder o) end
    | match goal with |- steps _ ((if lo_ReverseOrder ?o then _ else _) _ _ _) => destruct (lo_ReverseOrder o) end].

#[export] Hint Extern 1 (cp_MerchantID _ = _) => reflexivity : frame.
#[export] Hint Extern 1 (cl_MerchantID _ = _) => reflexivity : frame.

(** ** The services *)
Section Services.
Context (basePath : string).
Context `{Resolver} `{MapOrder} `{Convertor.RateProvider} `{BlockchainService} `{!BlockchainLaws} `{UTXOProviders} `{Btcutil}.
Context `{Uuid} `{Publisher} `{RandomStrings}.
Context (id : Z).
Abbreviation own := (keeps (others id)).

Lemma fee_own b c : steps own (Withdrawal.getWithdrawalFee convertor b c).
Proof. apply pure_frame; [tc_solve|]. apply Withdrawal.getWithdrawalFee_pure, _. Qed.
#[local] Hint Resolve fee_own : frame.

Lemma Update_own name website : steps own (Merchant.Update id name website).
Proof. own_steps. Qed.
Lemma UpsertSettings_own m s : mer_ID m = id -> steps own (UpsertSettings m s).
Proof. intros <-. own_steps. Qed.
#[local] Hint Resolve UpsertSettings_own : frame.
Lemma UpdatePaymentSettings_own m n : mer_ID m = id -> steps own (UpdatePaymentSettings m n).
Proof. intros Hm. own_steps. Qed.
Lemma UpdateSupportedMethods_own m l : mer_ID m = id -> steps own (UpdateSupportedMethods m l).
Proof. intros Hm. own_steps. Qed.
Lemma CreateAddress_own p : steps own (Merchant.CreateMerchantAddress id p).
Proof. own_steps. Qed.
Lemma UpdateAddress_own i name : steps own (Merchant.UpdateMerchantAddress id i name).
Proof. own_steps. Qed.
Lemma DeleteAddress_own i : steps own (Merchant.DeleteMerchantAddress id i).
Proof. own_steps. Qed.
Lemma GetAddress_own m i : steps own (Merchant.GetMerchantAddressByUUID m i).
Proof. own_steps. Qed.
Lemma ListAddresses_own m : steps own (Merchant.ListMerchantAddresses m).
Proof. own_steps. Qed.
Lemma ListRelations_own m o : steps own (ListWithRelations basePath convertor m o).
Proof. own_steps. Qed.
Lemma GetRelations_own m o : steps own (GetByMerchantOrderIDWithRelations basePath convertor m o).
Proof. own_steps. Qed.
Lemma Payment_own p : steps own (Payment.CreatePayment basePath id p).
Proof. own_steps. Qed.
Lemma ListLinks_own m : steps own (Payment.ListPaymentLinks basePath m).
Proof. own_steps. Qed.
Lemma GetLink_own m i : steps own (GetPaymentLinkByPublicID basePath m i).
Proof. own_steps. Qed.
Lemma DeleteLink_own i : steps own (Payment.DeletePaymentLinkByPublicID basePath id i).
Proof. own_steps. Qed.
Lemma Link_own p : steps own (Payment.CreatePaymentLink basePath id p).
Proof. own_steps. Qed.
Lemma ListCustomers_own m o : steps own (Payment.ListCustomers m o).
Proof. own_steps. Qed.
Lemma Details_own m i : steps own (GetCustomerDetailsByUUID basePath m i).
Proof. own_steps. Qed.
Lemma ListBalances_own m : steps own (WalletBalance.ListBalances convertor WalletBalance.EntityTypeMerchant m false).
Proof. own_steps. Qed.
Lemma CryptoToFiat_own m t : steps own (Convertor.CryptoToFiat m t).
Proof. own_steps. Qed.
Lemma Convert_own f t a : steps own (Convertor.Convert f t a).
Proof. own_steps. Qed.
Lemma Fee_own m i : steps own (Withdrawal.GetWithdrawalFee convertor m i).
Proof. own_steps. Qed.
Lemma Withdrawal_own p : steps own (Withdrawal.CreateWithdrawal basePath convertor id p).
Proof. own_steps. Qed.
End Services.
#[export] Hint Resolve Update_own UpsertSettings_own UpdatePaymentSettings_own UpdateSupportedMethods_own CreateAddress_own UpdateAddress_own
  DeleteAddress_own GetAddress_own ListAddresses_own ListRelations_own GetRelations_own Payment_own ListLinks_own GetLink_own
  DeleteLink_own Link_own ListCustomers_own Details_own ListBalances_own CryptoToFiat_own Convert_own Fee_own Withdrawal_own : frame.

(** ** The routes of a merchant *)
Inductive MerchantRoute :=
| RouteGetMerchant | RouteUpdateMerchant (body : Bound (string * string)) | RouteDeleteMerchant
| RouteWebhook (body : Bound (string * string)) | RoutePaymentSettings (body : Bound Z) | RouteSupportedMethods (body : Bound (list string))
| RouteListTokens | RouteCreateToken (body : Bound string) | RouteDeleteToken (tokenId : string)
| RouteListAddresses | RouteGetAddress (addressId : string) | RouteCreateAddress (body : Bound CreateMerchantAddressParams)
| RouteUpdateAddress (addressId : string) (body : Bound string) | RouteDeleteAddress (addressId : string)
| RouteListPayments (q : PaginationQuery) (type : string) | RouteGetPayment (paymentId : string)
| RouteCreatePayment (body : Bound CreatePaymentRequest)
| RouteListLinks | RouteGetLink (paymentLinkId : string) | RouteDeleteLink (paymentLinkId : string)
| RouteCreateLink (body : Bound CreatePaymentLinkRequest)
| RouteListBalances | RouteListCustomers (q : PaginationQuery) | RouteGetCustomer (customerId : string)
| RouteCreateWithdrawal (body : Bound (string * string * string)) | RouteWithdrawalFee (balanceId : string)
| RouteConvert (from to amount : string) | RouteForm (body : Bound (string * string)).

(** The routes of [setupCommonMerchantRoutes], which the merchant API has too;
    the others it does not find. *)
Definition ErrRouteNotFound : error := ESentinel "echo.ErrNotFound".
Definition common_route (r : MerchantRoute) : bool :=
  match r with
  | RouteListPayments _ _ | RouteGetPayment _ | RouteCreatePayment _ | RouteListLinks | RouteGetLink _ | RouteDeleteLink _
  | RouteCreateLink _ | RouteListBalances | RouteListCustomers _ | RouteGetCustomer _ => true
  | _ => false
  end.

Section Routes.
Context (basePath : string) (quote : string -> string).
Context `{Resolver} `{MapOrder} `{Convertor.RateProvider} `{BlockchainService} `{!BlockchainLaws} `{UTXOProviders} `{Btcutil}.
Context `{Uuid} `{Publisher} `{RandomStrings} `{Rand} `{FormEvents}.

Definition route_handler (r : MerchantRoute) : Api :=
  match r with
  | RouteGetMerchant => GetMerchant
  | RouteUpdateMerchant body => MerchantApi.UpdateMerchant body
  | RouteDeleteMerchant => DeleteMerchant
  | RouteWebhook body => UpdateMerchantWebhook body
  | RoutePaymentSettings body => UpdateMerchantPaymentSettings body
  | RouteSupportedMethods body => UpdateMerchantSupportedMethods body
  | RouteListTokens => ListMerchantTokens
  | RouteCreateToken body => MerchantApi.CreateMerchantToken body
  | RouteDeleteToken tokenId => DeleteMerchantTokens tokenId
  | RouteListAddresses => MerchantApi.ListMerchantAddresses
  | RouteGetAddress addressId => GetMerchantAddress addressId
  | RouteCreateAddress body => MerchantApi.CreateMerchantAddress body
  | RouteUpdateAddress addressId body => MerchantApi.UpdateMerchantAddress addressId body
  | RouteDeleteAddress addressId => MerchantApi.DeleteMerchantAddress addressId
  | RouteListPayments q type => ListPayments basePath quote q type
  | RouteGetPayment paymentId => GetPayment basePath paymentId
  | RouteCreatePayment body => MerchantApi.CreatePayment basePath body
  | RouteListLinks => MerchantApi.ListPaymentLinks basePath
  | RouteGetLink paymentLinkId => GetPaymentLink basePath paymentLinkId
  | RouteDeleteLink paymentLinkId => DeletePaymentLink basePath paymentLinkId
  | RouteCreateLink body => MerchantApi.CreatePaymentLink basePath body
  | RouteListBalances => MerchantApi.ListBalances
  | RouteListCustomers q => MerchantApi.ListCustomers q
  | RouteGetCustomer customerId => GetCustomerDetails basePath customerId
  | RouteCreateWithdrawal body => MerchantApi.CreateWithdrawal basePath body
  | RouteWithdrawalFee balanceId => MerchantApi.GetWithdrawalFee balanceId
  | RouteConvert from to amount => GetCurrencyConvert quote from to amount
  | RouteForm body => CreateFormSubmission body
  end.

(** The two servers: the handler behind its group of middlewares. *)
Definition serve_dashboard (request : Request) (r : MerchantRoute) : Tracked Site (Reply ApiBody) :=
  merchantGroup request ApiBody (route_handler r) no_context.
Definition serve_api (request : Request) (r : MerchantRoute) : Tracked Site (Reply ApiBody) :=
  merchantAPI request ApiBody (if common_route r then route_handler r else fun _ => stop ErrRouteNotFound) no_context.

(** *** What a handler does to the database *)
Section Database.
Context (c : Context) (mt : Merchant) (Hc : ResolveMerchant c = Some mt).
Definition own_rows : world -> world -> Prop := on_db (keeps (others (mer_ID mt))).

Lemma rows_handler r : r <> RouteDeleteMerchant -> forall s, wsteps own_rows (route_handler r c s).
Proof.
  intros Hr s. unfold own_rows. destruct r; try done; cbn [route_handler].
  all: rows_steps ltac:(try match goal with Hm : ResolveMerchant c = Some ?m |- _ => assert (m = mt) as -> by congruence end;
    solve [eauto with frame nocore | own_steps]).
Qed.
End Database.
End Routes.
