(* ===== verification/Tenancy.v ===== *)
(** * Tenancy: the routes of a merchant change the data of that merchant only

    What the handlers do to the accounts, and the two servers as a whole: the
    middlewares of [Tenants] before the handlers of [Isolation]. *)

From S2P Require Import Prelude GoLib Float64 KmsWallet NetUrl Money Repository Queries PaymentQueries Bitcoin Currencies Transaction Blockchain Flow.
From S2P Require Wallet WalletBalance WalletTransaction Convertor Withdrawal.
From S2P Require Rollback.
From S2P Require Import Ledger Frames.
From S2P Require Import Merchant Payment Accounts Identity Access MerchantApi Handlers Tenants Isolation.

(** Deleting the merchant marks the rows of its uuid, which are its own. *)
Lemma rows_delete c mt s w : ResolveMerchant c = Some mt -> schema_ok (db w) -> live_merchant mt (db w) ->
  own_rows mt w (DeleteMerchant c s w).2.
Proof.
  intros Hc Hok (_ & row & Hrow & Hmt & _).
  assert (forall r, r ∈ rows (merchants (db w)) -> Row.mt_Uuid r = mer_UUID mt -> Row.mt_ID r = mer_ID mt) as Hu.
  { intros r Hr E. rewrite Hmt in E |- *. apply (ok_merchant_key _ Hok r row Hr Hrow); [|done]. unfold Queries.merchant_key. by rewrite E. }
  assert (exists now, db (DeleteMerchant c s w).2 =
    set_merchants (update_rows (fun m => bool_decide (Row.mt_Uuid m = mer_UUID mt)) (merchant_deleted now) (merchants (db w))) (db w)) as [now Hdb].
  { eexists. unfold DeleteMerchant, the_merchant. rewrite Hc. reflexivity. }
  unfold own_rows, on_db, keeps, others. rewrite Hdb. cbn [merchants set_merchants].
  rewrite (filter_update (fun m => negb (Row.mt_ID m =? mer_ID mt))); [done|].
  intros r Hr E%bool_decide_eq_true. specialize (Hu r Hr E). cbn. rewrite Hu, Z.eqb_refl. done.
Qed.

(** *** What a handler does to the accounts *)
Definition tokens_of_others (id : Z) (a : Accounts) : list ApiTokenRow :=
  List.filter (fun t => negb (bool_decide (at_EntityType t = TokenTypeMerchant) && (at_EntityID t =? id))) (rows (api_tokens a)).
Definition own_site (id : Z) (s : Site) (_ : world) (s' : Site) (_ : world) : Prop := session s' = session s /\
  users (accounts s') = users (accounts s) /\ registries (accounts s') = registries (accounts s) /\
  tokens_of_others id (accounts s') = tokens_of_others id (accounts s).
#[local] Instance own_site_rel id : Rel (own_site id).
Proof.
  split; unfold own_site; [by intros s w; split_and!|]. intros s w s1 w1 s2 w2 (A1 & A2 & A3 & A4) (B1 & B2 & B3 & B4). split_and!; congruence.
Qed.

Section Site.
Context (basePath : string) (quote : string -> string).
Context `{Resolver} `{MapOrder} `{Convertor.RateProvider} `{BlockchainService} `{!BlockchainLaws} `{UTXOProviders} `{Btcutil}.
Context `{Uuid} `{Publisher} `{RandomStrings} `{Rand} `{!RandLaws} `{FormEvents}.
Context (c : Context) (mt : Merchant) (Hc : ResolveMerchant c = Some mt).

Lemma site_call {A} (m : Go A) : tsteps (own_site (mer_ID mt)) (call m).
Proof. apply tsteps_call. intros s w. by split_and!. Qed.
Lemma site_ask {A} (m : Go A) : tsteps (own_site (mer_ID mt)) (ask m).
Proof. apply tsteps_try, site_call. Qed.
Lemma site_the_merchant {A} (f : Merchant -> Web A) : tsteps (own_site (mer_ID mt)) (f mt) -> tsteps (own_site (mer_ID mt)) (the_merchant c ≫= f).
Proof. intros Hf. unfold the_merchant. rewrite Hc. exact Hf. Qed.
Lemma site_map {A B} (f : A -> Web B) l : (forall x, tsteps (own_site (mer_ID mt)) (f x)) -> tsteps (own_site (mer_ID mt)) (map_web f l).
Proof.
  intros Hf. induction l as [|x l IH]; cbn [map_web]; [apply tsteps_ret; tc_solve|].
  apply tsteps_bind; [tc_solve|apply Hf|]. intros y. apply tsteps_bind; [tc_solve|done|]. intros. apply tsteps_ret. tc_solve.
Qed.
Lemma site_list : tsteps (own_site (mer_ID mt)) (on_accounts (ListByEntityType TokenTypeMerchant (mer_ID mt))).
Proof.
  intros s w s' a w'. unfold on_accounts, ListByEntityType, ListAPITokensByEntity. unfold mbind at 1, M_bind at 1.
  erewrite tret_run; [|apply try_run; reflexivity]. intros [= <- _ _]. by split_and!.
Qed.
Lemma site_create name : tsteps (own_site (mer_ID mt)) (on_accounts (Accounts.CreateMerchantToken (mer_ID mt) name)).
Proof.
  intros s w s' a w'. unfold on_accounts, Accounts.CreateMerchantToken. unfold mbind at 1, M_bind at 1.
  destruct (createToken_run TokenTypeMerchant (mer_ID mt) name (accounts s) w) as (r & w1 & a1 & -> & _ & Hr).
  intros [= <- _ _]. unfold own_site. cbn [session accounts]. destruct r as [t|e].
  - destruct Hr as (row & -> & _ & _ & Hty & Hent & _). split_and!; try done. unfold tokens_of_others. cbn [api_tokens set_api_tokens].
    apply filter_insert. by rewrite Hty, Hent, bool_decide_eq_true_2, Z.eqb_refl.
  - destruct Hr as (Hr & Hu & Hg). split_and!; try done. unfold tokens_of_others. by rewrite Hr.
Qed.

Ltac site_steps :=
  repeat first
    [ progress intros | progress cbv beta iota zeta
    | match goal with |- tsteps _ (the_merchant _ ≫= _) => apply site_the_merchant end
    | match goal with |- tsteps _ (_ ≫= _) => apply tsteps_bind; [tc_solve| |] end
    | apply tsteps_ret; tc_solve | apply tsteps_stop; tc_solve
    | apply site_list | apply site_create | apply site_call | apply site_ask | apply tsteps_try | apply site_map
    | match goal with |- tsteps _ (match ?x with _ => _ end) => destruct x end
    | match goal with |- tsteps _ ?m => progress (unfold_head m) end ].

Lemma site_handler r : (forall id, r <> RouteDeleteToken id) -> tsteps (own_site (mer_ID mt)) (route_handler basePath quote r c).
Proof. intros Hr. destruct r; try by destruct (Hr tokenId); cbn [route_handler]. all: site_steps. Qed.

(** The token of a uuid, if it is the merchant's. *)
Definition merchant_token (id : string) (a : Accounts) : APIToken + error :=
  match head (select (fun r => bool_decide (at_Uuid r = id)) (api_tokens a)) with
  | Some r => if bool_decide (at_EntityType r = TokenTypeMerchant) && (at_EntityID r =? mer_ID mt) then inl (entryToAPIToken r)
              else inr token_ErrNotFound
  | None => inr token_ErrNotFound
  end.
Lemma merchant_token_run id a w : GetMerchantTokenByUUID (mer_ID mt) id a w = (Ok (a, merchant_token id a), w).
Proof.
  unfold GetMerchantTokenByUUID, GetTokenByUUID, GetAPITokenByUUID, merchant_token.
  pose proof (read_run (fun s => one (select (fun r => bool_decide (at_Uuid r = id)) (api_tokens s))) a w) as Hr.
  cbv beta in Hr. rewrite head_select in Hr. destruct (head _) as [row|].
  - erewrite tret_run; [|erewrite tret_run; [|by apply try_run]; reflexivity]. cbn [entryToAPIToken tk_EntityType tk_EntityID].
    by destruct (bool_decide _), (_ =? _).
  - erewrite tstop_run; [reflexivity|]. erewrite tret_run; [|by apply try_run]. reflexivity.
Qed.

(** The row of the id of a merchant's token is the merchant's. *)
Lemma delete_token_own tokenId s w s' a w' : accounts_ok (accounts s) ->
  DeleteMerchantTokens tokenId c s w = (Ok (s', a), w') -> own_site (mer_ID mt) s w s' w'.
Proof.
  intros Hok. unfold DeleteMerchantTokens, UUID. destruct (uuid_Parse tokenId) as [id|]; [|intros [= <- _ _]; by split_and!].
  unfold the_merchant. rewrite Hc. erewrite tret_run; [|reflexivity].
  erewrite tret_run; [|apply try_run, on_accounts_run, merchant_token_run]. unfold merchant_token.
  destruct (head _) as [row|] eqn:E; [|intros [= <- _ _]; by split_and!].
  destruct (bool_decide _ && _) eqn:Hown; [|intros [= <- _ _]; by split_and!].
  assert (row ∈ rows (api_tokens (accounts s))) as Hrow.
  { destruct (one_select_inv (fun r => bool_decide (at_Uuid r = id)) (api_tokens (accounts s)) row) as [Hin _]; [|done].
    by rewrite head_select, E. }
  erewrite tret_run; [|apply try_run; reflexivity]. intros [= <- _ _]. split_and!; [done..|].
  unfold tokens_of_others. cbn [accounts api_tokens set_api_tokens entryToAPIToken tk_ID].
  apply (filter_delete (fun t => negb (bool_decide (at_EntityType t = TokenTypeMerchant) && (at_EntityID t =? mer_ID mt)))).
  intros r Hr Hid. assert (r = row) as ->; [|by rewrite Hown]. unfold by_id in Hid. apply Z.eqb_eq in Hid.
  assert (row_at (at_ID row) (api_tokens (accounts s)) = Some r) as E1 by (apply row_at_Some; [apply Hok|done]).
  assert (row_at (at_ID row) (api_tokens (accounts s)) = Some row) as E2 by (apply row_at_Some; [apply Hok|done]). congruence.
Qed.
End Site.

(** ** Properties *)
(** What a request for the merchant [mt] leaves as it was, however it ends; a
    panic loses the reply and the session of the request. *)
Definition only_own (mt : Merchant) {R} (s : Site) (w : world) (out : res (Site * R) * world) : Prop :=
  others (mer_ID mt) (db out.2) = others (mer_ID mt) (db w) /\
  match out.1 with
  | Ok (s', _) => session s' = session s /\ users (accounts s') = users (accounts s) /\ registries (accounts s') = registries (accounts s) /\
      tokens_of_others (mer_ID mt) (accounts s') = tokens_of_others (mer_ID mt) (accounts s)
  | Err _ | Panic _ => True
  end.

(** C4. A merchant's route, of the dashboard or of the merchant API: either the
    request is refused, with 400 or 401 or for its CSRF token, and nothing
    changes; or it is answered for the merchant of the url, who is not deleted,
    and the request is of its creator - signed in with the right CSRF token, or
    bearing a token of the creator -, respectively bears a token of that
    merchant. Then, whatever the handler does and however it ends, the rows of
    every other merchant - payments, links, customers, addresses, settings,
    tokens - and all wallets, balances and transactions, the users, the registry
    and the session are as before. *)
Theorem tenant_isolation (basePath : string) (quote : string -> string)
  `{Resolver} `{MapOrder} `{Convertor.RateProvider} `{BlockchainService} `{!BlockchainLaws} `{UTXOProviders} `{Btcutil}
  `{Uuid} `{Publisher} `{RandomStrings} `{Rand} `{!RandLaws} `{FormEvents}
  (request : Request) (r : MerchantRoute) (s : Site) (w : world)
  (Hid : rq_merchantId request <> "") (Hok : schema_ok (db w)) (Ha : accounts_ok (accounts s)) :
  let refused out := exists reply, refusal reply /\ out = (Ok (s, reply), w) in
  let dashboard := serve_dashboard basePath quote request r s w in
  let api := serve_api basePath quote request r s w in
  (refused dashboard \/ exists c mt, ResolveMerchant c = Some mt /\ by_creator request c s w /\ only_own mt s w dashboard) /\
  (refused api \/ exists c mt, ResolveMerchant c = Some mt /\ by_token request c s w /\ only_own mt s w api).
Proof.
  assert (forall c mt, ResolveMerchant c = Some mt -> live_merchant mt (db w) ->
    only_own mt s w (route_handler basePath quote r c s w)) as Hown.
  { intros c mt Hc Hlive. split.
    - assert (r = RouteDeleteMerchant \/ r <> RouteDeleteMerchant) as [->|Hne] by (destruct r; (by left) || (right; discriminate)).
      + by apply (rows_delete c mt).
      + by apply (rows_handler basePath quote c mt Hc r Hne s w).
    - assert ((exists id, r = RouteDeleteToken id) \/ forall id, r <> RouteDeleteToken id) as [[id ->]|Hne]
        by (destruct r; (right; discriminate) || (left; by eexists)).
      all: destruct (route_handler _ _ _ _ _ _) as [[[s' a]|e|p] w'] eqn:E; [|done..]; cbn [fst].
      + by apply (delete_token_own c mt Hc id s w s' a w').
      + by apply (site_handler basePath quote c mt Hc r Hne s w s' a w'). }
  split.
  - destruct (dashboard_access request s w Hid) as [Href|(c & Hby & Hadm)]; [left|right].
    + destruct (Href ApiBody) as (reply & Hr & Hn). exists reply. split; [done|apply Hn].
    + pose proof Hby as (u & mt & _ & Hc & _ & _ & Hlive & _). exists c, mt. split_and!; [done..|].
      unfold serve_dashboard. rewrite Hadm. by apply Hown.
  - destruct (api_access request s w Hid) as [Href|(c & Hby & Hadm)]; [left|right].
    + destruct (Href ApiBody) as (reply & Hr & Hn). exists reply. split; [done|apply Hn].
    + pose proof Hby as (mt & Hc & _ & Hlive & _). exists c, mt. split_and!; [done..|].
      unfold serve_api. rewrite Hadm. destruct (common_route r); [by apply Hown|]. by split.
Qed.

(** ** Witnesses: the creator of a shop asks for a token *)
#[local] Instance any_uuid : Uuid := fun s => Some s.
#[local] Instance any_slug : RandomStrings := fun _ _ => "slug".
#[local] Instance no_bus : Publisher := fun _ _ _ _ => Ok tt.
#[local] Instance no_forms : FormEvents := fun _ _ _ _ => Ok tt.
#[local] Instance counting : Rand := fun n k => Z.of_nat k mod n.
#[local] Instance counting_laws : RandLaws.
Proof. intros n k Hn. apply Z.mod_pos_bound. lia. Qed.
#[local] Instance ex_resolver : Resolver := eth_resolver.
#[local] Instance ex_order : MapOrder := sorted_order.
#[local] Instance ex_rates : Convertor.RateProvider := Convertor.no_key.
#[local] Instance ex_node : BlockchainService := Rollback.refusing_node.
#[local] Instance ex_node_laws : BlockchainLaws := Rollback.refusing_node_laws.
#[local] Instance ex_utxo : UTXOProviders := ex_providers.
#[local] Instance ex_addresses : Btcutil := ex_btcutil.

Definition id_world : world := mkWorld empty_db (fun n => Z.of_nat n) 0 (fun n => if (n =? 0)%nat then "shop-1" else "token-1") 0 0 ∅.
Definition shops : world := (Merchant.Create 1 "shop" "https://shop.example" ∅ id_world).2.
Definition signed_in : Site := mkSite bob (mkSession (Some 1) None).
Definition shop_request : Request := mkRequest "" "shop-1" true.

Lemma tenant_isolation_witness : exists s' t w',
  serve_dashboard "https://pay.example" id shop_request (RouteCreateToken (inl "ci")) signed_in shops = (Ok (s', inl (JSON StatusCreated (TheToken t))), w') /\
  others 1 (db w') = others 1 (db shops) /\ users (accounts s') = users (accounts signed_in).
Proof.
  assert (match (serve_dashboard "https://pay.example" id shop_request (RouteCreateToken (inl "ci")) signed_in shops).1 with
    | Ok (_, inl (JSON code (TheToken _))) => code =? StatusCreated | _ => false end = true) as Hb by by vm_compute.
  assert (schema_ok (db shops)) as Hok by (apply (Create_schema 1 "shop" "https://shop.example" ∅ id_world), schema_empty).
  destruct (tenant_isolation "https://pay.example" id shop_request (RouteCreateToken (inl "ci")) signed_in shops) as [HT _];
    [done|exact Hok|exact bob_ok|]. cbv zeta in HT.
  destruct (serve_dashboard _ _ _ _ _ _) as [[[s' [reply|e]]|e|p] w'] eqn:E; cbn [fst] in Hb; try discriminate Hb.
  destruct HT as [(reply' & [Hr0|(code & m & st & Hr0 & _)] & [= _ <- _])|(c & mt & Hc & Hby & Ho & Hr)].
  - discriminate Hr0.
  - injection Hr0 as ->. discriminate Hb.
  - destruct reply as [code [| | | |t| | | | | | | | | | | |]| | | |]; try discriminate Hb. apply Z.eqb_eq in Hb as ->.
    assert (mer_ID mt = 1) as Hid.
    { destruct Hby as (u & m & _ & Hm & _ & _ & (_ & row & Hrow & -> & _) & _). rewrite Hc in Hm. injection Hm as ->.
      apply list_elem_of_In in Hrow. cbn in Hrow. by destruct Hrow as [<-|[]]. }
    rewrite Hid in Ho. exists s', t, w'. destruct Hr as (_ & Hu & _). split; [reflexivity|]. split; [exact Ho|exact Hu].
Defined.
