(* ===== verification/Sessions.v ===== *)
(** * Sessions: how a client becomes signed in

    The routes of [/api/dashboard/v1/auth] behind their middlewares, and what
    they may do to the session of the client. *)

From S2P Require Import Prelude GoLib KmsWallet Money Repository Queries Currencies Flow.
From S2P Require Import Payment Accounts Identity Access Tenants.

Inductive AuthRoute :=
| AuthProviders | AuthLogin (body : Bound (string * string)) | AuthRedirect | AuthCallback (state code : string) | AuthMe | AuthLogout.

Section Auth.
Context `{Uuid} `{OAuth} `{RandomStrings} `{SessionStore} `{Mail} `{Bcrypt} `{UserEvents}.
Context (authenticatedRedirectURL : string) (enabledProviders : list string).

Definition auth_handler (r : AuthRoute) : HandlerFunc AuthBody :=
  match r with
  | AuthProviders => ListAvailableProviders enabledProviders
  | AuthLogin body => PostLogin body
  | AuthRedirect => GetRedirect authenticatedRedirectURL
  | AuthCallback state code => GetCallback authenticatedRedirectURL state code
  | AuthMe => GetMe
  | AuthLogout => PostLogout
  end.
(** The routes of a signed in user. *)
Definition guarded_route (r : AuthRoute) : bool := match r with AuthMe | AuthLogout => true | _ => false end.
Definition serve_auth (request : Request) (r : AuthRoute) : Tracked Site (Reply AuthBody) :=
  (if guarded_route r then usersGroup request AuthBody (auth_handler r) else dashboardAPI request AuthBody (auth_handler r)) no_context.

(** The session [v'] after the request [r] of a client with the session [v]. *)
Definition opened (r : AuthRoute) (a a' : Accounts) (v : Session) (u : User) : Prop :=
  match r with
  | AuthLogin (inl (email, password)) => (forall w, GetByEmailWithPasswordCheck email password a w = (Ok (a, inl u), w)) /\ a' = a
  | AuthCallback state code => ss_State v = Some state /\
      exists gu w w1 w2, google_ResolveUser code w = (Ok gu, w1) /\ ResolveWithGoogle gu a w1 = (Ok (a', inl u), w2)
  | _ => False
  end.
Definition session_moves (r : AuthRoute) (a a' : Accounts) (v v' : Session) : Prop :=
  match r with
  | AuthRedirect => ss_UserID v' = ss_UserID v /\ a' = a
  | AuthLogout => (v' = v \/ v' = mkSession None (ss_State v)) /\ a' = a
  | AuthProviders | AuthMe => v' = v /\ a' = a
  | AuthLogin _ => v' = v /\ a' = a \/ exists u, v' = mkSession (Some (u_ID u)) (ss_State v) /\ opened r a a' v u
  | AuthCallback _ _ => v' = v \/ exists u, v' = mkSession (Some (u_ID u)) (ss_State v) /\ opened r a a' v u
  end.

Lemma wp_persist f s w (Q : res (Site * (unit + error)) -> world -> Prop) :
  (forall e w', Q (Ok (s, inr e)) w') -> (forall p w', Q (Panic p) w') -> (forall w', Q (Ok (set_session (f (session s)) s, inl tt)) w') ->
  wp (persistSession f s) w Q.
Proof.
  intros He Hp Hok. unfold persistSession. t_step. unfold get_session. unfold wp at 1. cbn. t_step. t_step. apply wp_external. intros w' _.
  destruct (Save _ _); [|auto..]. t_step. apply Hok.
Qed.

Definition moved (r : AuthRoute) (s : Site) {R} (out : res (Site * R)) : Prop :=
  match out with
  | Ok (s', _) => session_moves r (accounts s) (accounts s') (session s) (session s')
  | Err _ | Panic _ => True
  end.

Lemma wp_or_internal m reply s w (Q : res (Site * (Reply AuthBody + error)) -> world -> Prop) :
  wp (m s) w (fun out w' => match out with
    | Ok (s', _) => forall r, Q (Ok (s', inl r)) w' | Err e => Q (Err e) w' | Panic p => Q (Panic p) w' end) ->
  wp (or_internal_error m reply s) w Q.
Proof.
  intros Hm. unfold or_internal_error. t_step. t_step. eapply wp_mono; [exact Hm|]. intros [[s' r]|e|p] w' HQ; try t_step; auto.
Qed.

Lemma login_moves body c s w : wp (PostLogin body c s) w (fun out _ => moved (AuthLogin body) s out).
Proof.
  unfold PostLogin. cbv beta. destruct body as [[email password]|items]; [|t_step; by left]. destruct (ResolveUser c); [t_step; by left|].
  t_step. t_step. eapply wp_of; [apply on_accounts_run, login_run|]. destruct (login email password (accounts s)) as [u|e] eqn:El; cbv beta iota.
  - apply wp_or_internal, wp_persist; [by left|done|]. intros w' r. right. exists u. split; [done|]. split; [|done].
    intros w2. by rewrite login_run, El.
  - destruct (_ || _); t_step; by left.
Qed.

Lemma callback_moves state code c s w : wp (GetCallback authenticatedRedirectURL state code c s) w (fun out _ => moved (AuthCallback state code) s out).
Proof.
  unfold GetCallback. cbv beta. destruct (ResolveUser c); [t_step; by left|]. t_step. eapply wp_of; [reflexivity|]. cbv beta iota.
  destruct (ss_State (session s)) as [expected|] eqn:Est; [|t_step; by left].
  destruct (bool_decide (expected = state)) eqn:Eb; cbn [negb]; [|t_step; by left]. apply bool_decide_eq_true in Eb as ->.
  t_step. t_step. t_step. eapply wp_of; [apply surjective_pairing|]. destruct (google_ResolveUser code w) as [[gu|e|p] w1] eqn:Eg; cbn [fst snd];
    [|t_step; by left|done].
  t_step. t_step. unfold on_accounts. apply wp_bind. eapply wp_of; [apply surjective_pairing|].
  destruct (ResolveWithGoogle gu (accounts s) w1) as [[[a [u|e]]|e|p] w2] eqn:Er; cbn [fst snd]; [| |done..].
  - apply wp_ret. cbv beta iota. apply wp_or_internal, wp_persist; [by left|done|]. intros w3 r. right. exists u. split; [done|].
    split; [done|]. by exists gu, w, w1, w2.
  - apply wp_ret. cbv beta iota. repeat case_match; t_step; by left.
Qed.

Lemma handler_moves r c s w : wp (auth_handler r c s) w (fun out _ => moved r s out).
Proof.
  destruct r as [|body| |state code| |]; cbn [auth_handler].
  - unfold ListAvailableProviders. cbv beta. by t_step.
  - apply login_moves.
  - unfold GetRedirect. cbv beta. destruct (ResolveUser c); [by t_step|]. t_step. t_step.
    unfold RedirectURLWithState. wp_step. apply wp_external. intros w1 _. wp_step. cbv beta iota zeta.
    apply wp_or_internal, wp_persist; done.
  - apply callback_moves.
  - unfold GetMe. cbv beta. destruct (ResolveUser c); [by t_step|]. by t_step.
  - unfold PostLogout. cbv beta. t_step. t_step. apply wp_persist; [|done|]; intros; t_step; (split; [|done]); [by left|by right].
Qed.
End Auth.

(** ** Properties *)

(** C13. How a client becomes signed in. Whatever request of the authentication
    routes is served, the user of the session stays, is removed by a logout, or
    becomes an account that has just been authenticated: by its e-mail and
    password, or - when the state of the request is the one this session was
    given - by Google, which answers for the account the session is opened for;
    the state is only set by the redirect to Google. *)
Theorem session_opened `{Uuid} `{OAuth} `{RandomStrings} `{SessionStore} `{Mail} `{Bcrypt} `{UserEvents}
  (authenticatedRedirectURL : string) (enabledProviders : list string) (request : Request) (r : AuthRoute) (s : Site) (w : world) :
  match (serve_auth authenticatedRedirectURL enabledProviders request r s w).1 with
  | Ok (s', _) => session_moves r (accounts s) (accounts s') (session s) (session s')
  | Err _ | Panic _ => True
  end.
Proof.
  assert (wp (serve_auth authenticatedRedirectURL enabledProviders request r s) w (fun out _ => moved r s out)) as Hwp.
  { assert (forall reply : Reply AuthBody + error, moved r s (Ok (s, reply))) as Hsame
      by (intros reply; destruct r as [|[[]|]| |?| |]; cbn; auto).
    assert (forall next : HandlerFunc AuthBody, (forall c, wp (next c s) w (fun out _ => moved r s out)) ->
      wp (dashboardAPI request AuthBody next no_context s) w (fun out _ => moved r s out)) as Hdash.
    { intros next Hn. unfold dashboardAPI. unfold wp. rewrite BySession_run, ByToken_run.
      destruct (token_user _ _ _) as [|c|]; [| |apply Hsame]; rewrite csrf_run; case_match; [apply Hn|apply Hsame|apply Hn|apply Hsame]. }
    unfold serve_auth. destruct (guarded_route r); [unfold usersGroup|]; apply Hdash; intros c; [|apply handler_moves].
    unfold GuardsUsers. destruct (ResolveUser c); [apply handler_moves|apply Hsame]. }
  unfold wp in Hwp. by destruct (serve_auth _ _ _ _ _ _) as [[[s' reply]|e|p] w'].
Qed.
