(* ===== verification/PaymentApi.v ===== *)
(** * PaymentApi: the payment page and the webhooks

    [internal/server/http/paymentapi], [middleware/payment.go] and
    [internal/server/http/webhook]: what the customer of a shop calls, who only
    knows the public id of a payment or the slug of a link, and what Tatum
    calls. Nobody is signed in here, so a handler runs on the database alone; an
    error is answered by the framework with 500. As in [Access], whether the
    CSRF token is right and what a body decodes to is part of the request. *)

From S2P Require Import Prelude GoLib Float64 KmsWallet Money Repository Queries PaymentQueries Bitcoin Currencies Transaction Blockchain Flow.
From S2P Require Merchant Wallet Convertor Tatum.
From S2P Require Import Payment Access.
From S2P Require Import Processing Incoming.

(** ** Bodies of the replies *)
Record MethodResponse := mkMethodResponse {
  mtr_Blockchain : string; mtr_BlockchainName : string; mtr_CurrencyType : string; mtr_DisplayName : string; mtr_Name : string;
  mtr_Ticker : string; mtr_NetworkID : string; mtr_IsTest : bool; mtr_TokenContractAddress : string
}.
Record ObservedResponse := mkObservedResponse {
  or_TransactionHash : string; or_SenderAddress : string; or_Amount : string; or_AmountFormatted : string; or_Confirmations : Z;
  or_RequiredConfirmations : Z; or_IsConfirmed : bool; or_IsMempool : bool; or_ExplorerLink : string
}.
Record InfoResponse := mkInfoResponse {
  ir_Status : string; ir_RecipientAddress : string; ir_PaymentLink : string; ir_Amount : string; ir_AmountFormatted : string;
  ir_ExpiresAt : Z; ir_ExpirationDurationMin : Z; ir_SuccessAction : option string; ir_SuccessURL : option string;
  ir_SuccessMessage : option string; ir_ObservedTransaction : option ObservedResponse
}.
Record PayerResponse := mkPayer { pyr_Email : string; pyr_ID : string }.
Record PageResponse := mkPage {
  pg_ID : string; pg_Currency : string; pg_Price : float64; pg_IsLocked : bool; pg_MerchantName : string;
  pg_Description : option string; pg_Customer : option PayerResponse; pg_PaymentMethod : option MethodResponse;
  pg_PaymentInfo : option InfoResponse
}.
Record RateResponse := mkRate {
  rr_FiatCurrency : string; rr_FiatAmount : float64; rr_CryptoCurrency : string; rr_CryptoAmount : string; rr_Network : string;
  rr_DisplayName : string; rr_ExchangeRate : float64
}.
Record LinkPageResponse := mkLinkPage {
  lp_MerchantName : string; lp_Type : string; lp_Currency : string; lp_Price : option float64; lp_Description : option string
}.
Inductive PayBody :=
| ThePage (p : PageResponse) | ThePayer (c : PayerResponse) | AvailableMethods (l : list MethodResponse)
| TheMethod (m : MethodResponse) | TheRate (r : RateResponse) | TheLinkPage (l : LinkPageResponse) | RedirectInfo (id : string).

Definition customerToResponse (c : Customer) : PayerResponse := mkPayer (cus_Email c) (cus_UUID c).
Definition method_response (c : CryptoCurrency) (networkID : string) (isTest : bool) : MethodResponse :=
  mkMethodResponse (cc_Blockchain c) (cc_BlockchainName c) (cc_Type c) (DisplayName c) (cc_Name c) (cc_Ticker c) networkID isTest
    (ChooseContractAddress c isTest).
Definition paymentMethodToResponse (m : Method) : MethodResponse := method_response (me_Currency m) (me_NetworkID m) (me_IsTest m).
Definition observedTransactionToResponse (tx : ObservedTransaction) : ObservedResponse :=
  mkObservedResponse (ot_TransactionID tx) (ot_SenderAddress tx) (ot_Amount tx) (ot_AmountFormatted tx) (ot_Confirmations tx)
    (ot_RequiredConfirmations tx) (ot_IsConfirmed tx) (ot_IsMempool tx) (ot_ExplorerLink tx).
Definition paymentInfoToResponse (i : PaymentInfo) : InfoResponse :=
  mkInfoResponse (pi_Status i) (pi_RecipientAddress i) (pi_PaymentLink i) (pi_Amount i) (pi_AmountFormatted i) (pi_ExpiresAt i)
    (pi_ExpirationDurationMin i) (pi_SuccessAction i) (pi_SuccessURL i) (pi_SuccessMessage i)
    (observedTransactionToResponse <$> pi_ObservedTransaction i).

(** A handler runs for the payment the middleware has found, if any. *)
Definition PaymentHandler : Type := option Payment -> Go (Reply PayBody).
Definition StatusInternalError : string := "internal_error".

Section Handlers.
Context `{Resolver} `{Catalog} `{BlockchainService} `{MapOrder} `{Convertor.RateProvider} `{Wallet.KMS} `{Btcutil}.
Context `{Publisher} `{Tatum.TatumAPI} `{Mail} `{Uuid}.
Context (config : Config) (tatumProvider : option Tatum.Config) (quote : string -> string).

Let basePath : string := PaymentFrontendPath config.

(** ** middleware/payment.go *)
(** An id that is no uuid has been answered when the middleware returns. *)
Definition ResolvesPaymentByPublicID (paymentId : string) (next : PaymentHandler) : PaymentHandler := fun c =>
  match uuid_Parse paymentId with
  | None => mret (ValidationErrorMessage "invalid UUID 'paymentId'")
  | Some id =>
    p ← attempt (GetByPublicID basePath id);
    match p with
    | inl p => next (Some p)
    | inr err => if errors_Is err Payment.ErrNotFound then next c else fail (EWrap err "unable to get payment")
    end
  end.
Definition ResolvePayment (c : option Payment) : res Payment :=
  match c with
  | Some p => if pay_ID p =? 0 then Err (ENew "unable to resolve payment") else Ok p
  | None => Err (ENew "unable to resolve payment")
  end.
Definition GuardsPayment (next : PaymentHandler) : PaymentHandler := fun c =>
  if is_ok (ResolvePayment c) then next c else mret (NotFoundResponse "payment not found").

Definition window : Z := 60 * Merchant.Minute.
Definition restrict (pt : Payment) : Go bool :=
  if one_of (pay_Status pt) [StatusSuccess; StatusFailed]
  then now ← time_Now; mret (window <? time_Sub now (pay_UpdatedAt pt))
  else mret false.
Definition RestrictsArchivedPayments (next : PaymentHandler) : PaymentHandler := fun c =>
  match ResolvePayment c with
  | Ok pt => archived ← restrict pt; if (archived : bool) then mret (NotFoundResponse "payment is archived") else next c
  | _ => next c
  end.

(** ** payment.go *)
Definition GetPayment : PaymentHandler := fun c =>
  pt ← lift (ResolvePayment c);
  detailedPayment ← GetDetailedPayment config (pay_MerchantID pt) (pay_ID pt);
  let payment := dp_Payment detailedPayment in
  price ← lift (FiatToFloat64 (pay_Price payment));
  mret (JSON StatusOK (ThePage (mkPage (pay_PublicID payment) (m_ticker (pay_Price payment)) price (negb (IsEditable payment))
    (Merchant.mer_Name (dp_Merchant detailedPayment)) (pay_Description payment) (customerToResponse <$> dp_Customer detailedPayment)
    (paymentMethodToResponse <$> dp_PaymentMethod detailedPayment) (paymentInfoToResponse <$> dp_PaymentInfo detailedPayment)))).

Definition CreateCustomer (body : Bound string) : PaymentHandler := fun c =>
  match body with
  | inr items => mret (ValidationErrorItems items)
  | inl email =>
    p ← lift (ResolvePayment c);
    person ← attempt (AssignCustomerByEmail p email);
    mret (match person with
      | inl person => JSON StatusCreated (ThePayer (customerToResponse person))
      | inr err =>
        if errors_Is err ErrValidation then ValidationErrorItemResponse "email" "invalid email provided"
        else if errors_Is err ErrPaymentLocked then ValidationErrorMessage (error_string ErrPaymentLocked)
        else ErrorResponse StatusInternalError
      end)
  end.

Definition GetSupportedMethods : PaymentHandler := fun c =>
  p ← lift (ResolvePayment c);
  mt ← Merchant.GetByID (pay_MerchantID p) false;
  let availableOnly := List.filter snd (Merchant.ListSupportedCurrencies mt) in
  mret (JSON StatusOK (AvailableMethods
    (map (fun sc => method_response sc.1 (ChooseNetwork sc.1 (pay_IsTest p)) (pay_IsTest p)) availableOnly))).

Definition CreatePaymentMethod (body : Bound string) : PaymentHandler := fun c =>
  match body with
  | inr items => mret (ValidationErrorItems items)
  | inl ticker =>
    p ← lift (ResolvePayment c);
    method ← attempt (SetPaymentMethod config tatumProvider (Some p) ticker);
    mret (match method with
      | inl method => JSON StatusCreated (TheMethod (paymentMethodToResponse method))
      | inr err =>
        if errors_Is err ErrCurrencyNotFound then ValidationErrorMessage "invalid ticker"
        else if errors_Is err ErrStatusInvalid then ValidationErrorMessage "payment method is already set and locked"
        else ErrorResponse StatusInternalError
      end)
  end.

Definition LockPaymentOptions_ : PaymentHandler := fun c =>
  p ← lift (ResolvePayment c);
  r ← attempt (LockPaymentOptions config (pay_MerchantID p) (pay_ID p));
  mret (match r with
    | inl _ => NoContent StatusNoContent
    | inr err =>
      if errors_Is err ErrPaymentOptionsMissing then ValidationErrorMessage (error_string ErrPaymentOptionsMissing)
      else ErrorResponse StatusInternalError
    end).

(** The errors of the amount and of the currency are dropped, with the zero
    values they come with. *)
Definition GetExchangeRate (from amount to : string) : Go (Reply PayBody) :=
  conv ← attempt (Convertor.Convert from to amount);
  match conv with
  | inr err =>
    if errors_Is err Bitcoin.ErrValidation then mret (ValidationErrorMessage (error_string err))
    else if errors_Is err ErrCurrencyNotFound then mret (ValidationErrorMessage "unsupported currency")
    else fail (EWrap err ("unable to perform conversion from " +:+ quote from +:+ " to " +:+ quote to))
  | inl conv =>
    if negb (bool_decide (Convertor.cv_Type conv = Convertor.ConversionTypeFiatToCrypto))
    then mret (ValidationErrorMessage "invalid fiat currency")
    else
      let from := Convertor.cv_From conv in
      let fiatAmount := match FiatToFloat64 from with Ok f => f | _ => f64_zero end in
      let crypto := match GetCurrencyByTicker to with Ok c => c | _ => zero_crypto end in
      cryptoAmount ← lift (Money_String (Convertor.cv_To conv));
      mret (JSON StatusOK (TheRate (mkRate (m_ticker from) fiatAmount (m_ticker (Convertor.cv_To conv)) cryptoAmount
        (cc_BlockchainName crypto) (DisplayName crypto) (Convertor.cv_Rate conv))))
  end.

(** ** payment_link.go *)
Definition link_not_found : Reply PayBody := NotFoundResponse "payment link not found".

Definition GetPaymentLink (slug : string) : Go (Reply PayBody) :=
  link ← attempt (GetPaymentLinkBySlug basePath slug);
  match link with
  | inr err => if errors_Is err Payment.ErrNotFound then mret link_not_found else fail err
  | inl link =>
    mt ← Merchant.GetByID (lk_MerchantID link) false;
    price ← (if bool_decide (lk_Type link = LinkTypePayment) then value ← lift (FiatToFloat64 (lk_Price link)); mret (Some value)
             else mret None);
    mret (JSON StatusOK (TheLinkPage (mkLinkPage (Merchant.mer_Name mt) (LinkType_String (lk_Type link)) (lk_Currency link) price
      (lk_Description link))))
  end.

(** The price of a donation in the body, if it is JSON. *)
Definition donated (link : Link) (body : option float64) : list Money + Reply PayBody :=
  if bool_decide (lk_Type link = LinkTypeDonation) then
    match body with
    | None => inr (ValidationErrorMessage "Invalid JSON")
    | Some price =>
      match FiatFromFloat64 (lk_Currency link) price with
      | Ok price => inl [price]
      | _ => inr (ValidationErrorItemResponse "price" "price should be between 0.01 and 10000000")
      end
    end
  else inl [].
Definition CreatePaymentFromLink (slug : string) (body : option float64) : Go (Reply PayBody) :=
  link ← attempt (GetPaymentLinkBySlug basePath slug);
  match link with
  | inr err => if errors_Is err Payment.ErrNotFound then mret link_not_found else fail err
  | inl link =>
    match donated link body with
    | inr reply => mret reply
    | inl amount =>
      pt ← attempt (Payment.CreatePaymentFromLink basePath link amount);
      match pt with
      | inl pt => mret (JSON StatusCreated (RedirectInfo (pay_PublicID pt)))
      | inr err =>
        if errors_Is err ErrLinkValidation then mret (ValidationErrorMessage (error_string err))
        else fail (EWrap err "unable to create payment from link")
      end
    end
  end.

(** ** router.go: the routes of the payment API *)
Inductive PayRoute :=
| PayGet | PayLock | PayCustomer (body : Bound string) | PayMethod (body : Bound string) | PayMethods.
Inductive PublicRoute :=
| PublicRate (from amount to : string)
| PublicPayment (paymentId : string) (r : PayRoute)
| PublicLink (slug : string)
| PublicLinkPay (slug : string) (body : option float64).

Definition pay_handler (r : PayRoute) : PaymentHandler :=
  match r with
  | PayGet => GetPayment | PayLock => LockPaymentOptions_ | PayCustomer body => CreateCustomer body
  | PayMethod body => CreatePaymentMethod body | PayMethods => GetSupportedMethods
  end.
Definition paymentGroup (paymentId : string) (next : PaymentHandler) : PaymentHandler :=
  ResolvesPaymentByPublicID paymentId (GuardsPayment (RestrictsArchivedPayments next)).
Definition serve_payment (csrf : bool) (r : PublicRoute) : Go (Reply PayBody) :=
  if negb csrf then fail ErrCSRF
  else match r with
  | PublicRate from amount to => GetExchangeRate from amount to
  | PublicPayment paymentId r => paymentGroup paymentId (pay_handler r) None
  | PublicLink slug => GetPaymentLink slug
  | PublicLinkPay slug body => CreatePaymentFromLink slug body
  end.
End Handlers.

(** ** internal/server/http/webhook *)
(** [json.Unmarshal] into a [TatumWebhook]. *)
Class WebhookJson := Unmarshal_webhook : string -> res TatumWebhook.

Section Webhook.
Context `{Resolver} `{Catalog} `{BlockchainService} `{Publisher} `{Tatum.TatumAPI} `{Uuid} `{WebhookJson}.
Context (config : Config) (tatum : Tatum.Config).

(** The body, or the error of reading it. *)
Definition ReceiveTatum (networkId walletId signature : string) (body : res string) : Go (Reply False) :=
  match uuid_Parse walletId with
  | None => mret (ValidationErrorMessage "invalid UUID 'walletId'")
  | Some walletID =>
    body ← lift body;
    match ValidateWebhookSignature tatum body signature with
    | Err _ => mret (ValidationErrorMessage "invalid signature")
    | Panic why => panic why
    | Ok _ =>
      req ← lift (Unmarshal_webhook body);
      r ← attempt (ProcessIncomingWebhook config walletID networkId req);
      mret (match r with
        | inl _ => NoContent StatusNoContent
        | inr _ => Message StatusBadRequest "unable to process tatum webhook"
        end)
    end
  end.
End Webhook.
