(* ===== verification/InternalApi.v ===== *)
(** * InternalApi: the administration of the gateway

    [internal/server/http/internalapi]: wallets, fees, broadcasting, receipts
    and the jobs of the scheduler, on a server of its own that asks for no
    credentials. An error of a handler is answered by the framework with 500.
    The log of a job, a table the logger writes ([Cron]), is an interface; the list of
    the routes of the framework is not modelled. *)

From S2P Require Import Prelude GoLib Float64 KmsWallet Money Repository Queries Fees Bitcoin Currencies Nodes Blockchain Flow.
From S2P Require Wallet WalletTransaction Tatum Broadcaster.
From S2P Require Import Payment Access.
From S2P Require Import Processing Incoming Transfers Payouts Scheduler.

(** ** Bodies of the replies *)
Record WalletResponse := mkWalletResponse {
  wlr_Address : string; wlr_Blockchain : string; wlr_CreatedAtUnix : Z; wlr_ID : Z; wlr_UUID : string
}.
Record ReceiptResponse := mkReceiptResponse {
  rcr_Blockchain : string; rcr_TransactionHash : string; rcr_Nonce : Z; rcr_Recipient : string; rcr_Sender : string;
  rcr_NetworkFee : string; rcr_NetworkFeeFormatted : string; rcr_Confirmations : Z; rcr_IsConfirmed : bool; rcr_Success : bool;
  rcr_IsTest : bool
}.
Record JobLog := mkJobLog { jl_Message : string; jl_Metadata : string }.
Inductive AdminBody :=
| TheWallet (w : WalletResponse) | WalletPage (nextPageID : option Z) (l : list WalletResponse)
| TheFeeOf (f : raw_fee) | Broadcasted (hash : string) | TheReceipt (r : ReceiptResponse)
| JobResults (errorMessage : string) (logs : list JobLog).

(** [JobLogger.ListByJobID] *)
Class JobLogs := ListByJobID : string -> Z -> nat -> res (list JobLog).

(** [Unix()] of a time in nanoseconds. *)
Definition Unix (t : Z) : Z := t / 1000000000.
Definition walletToResponse (w : Wallet.Wallet) : WalletResponse :=
  mkWalletResponse (Wallet.wal_Address w) (Wallet.wal_Blockchain w) (Unix (Wallet.wal_CreatedAt w)) (Wallet.wal_ID w) (Wallet.wal_UUID w).

Definition defaultPaginationLimit : Z := 30.
Definition maxPaginationLimit : Z := 100.
Definition errInvalidID : error := ESentinel "id should be INT or UUID".

Section Handlers.
Context `{Resolver} `{Catalog} `{BlockchainService} `{Publisher} `{Flow.Scheduler} `{MapOrder} `{Uuid} `{JobLogs}.
Context `{Wallet.KMS} `{WalletTransaction.KMSTransactions} `{UTXOProviders} `{Btcutil} `{Tatum.TatumAPI}.
Context (config : Config) (tatumProvider : option Tatum.Config).

Abbreviation Admin := (Go (Reply AdminBody)).
Definition bound_ {A} (body : Bound A) (next : A -> Admin) : Admin :=
  match body with inl req => next req | inr items => mret (ValidationErrorItems items) end.

(** An error is answered by the first of the cases it is, or as the default. *)
Definition answer (cases : list (error * Reply AdminBody)) (other : error -> Admin) (err : error) : Admin :=
  match List.find (fun c => errors_Is err c.1) cases with Some (_, reply) => mret reply | None => other err end.
Definition server_error (err : error) : Admin := mret (ErrorResponse (error_string err)).

(** ** wallet.go *)
Definition CreateWallet (body : Bound string) : Admin :=
  bound_ body (fun blockchain =>
    wt ← wrapM (Wallet.Create blockchain Wallet.TypeInbound) "wallet.Create error";
    mret (JSON StatusOK (TheWallet (walletToResponse wt)))).

Definition getWallet (id : string) : Go Wallet.Wallet :=
  match Atoi id with
  | Some walletID => Wallet.GetByID walletID
  | None => match uuid_Parse id with Some walletUUID => Wallet.GetByUUID walletUUID | None => fail errInvalidID end
  end.
Definition GetWallet (id : string) : Admin :=
  if bool_decide (id = "") then mret (ValidationErrorMessage (error_string errInvalidID))
  else
    w ← attempt (getWallet id);
    match w with
    | inl w => mret (JSON StatusOK (TheWallet (walletToResponse w)))
    | inr err => answer [(errInvalidID, ValidationErrorMessage (error_string errInvalidID));
        (Wallet.ErrNotFound, NotFoundResponse "wallet not found")] (fun err => fail (EWrap err "unable to get wallet")) err
    end.

Definition unsupported : Reply AdminBody := ValidationErrorMessage "unsupported currency".
Definition told_error (err : error) : Reply AdminBody := ValidationErrorMessage (error_string err).

(** The fee in the format of its blockchain. *)
Definition format_fee (blockchain : string) (fee : Fee) : Admin :=
  let response {A} (v : res A) (raw : A -> raw_fee) : Admin :=
    match v with Ok v => mret (JSON StatusOK (TheFeeOf (raw v))) | Err err => server_error err | Panic why => panic why end in
  if one_of blockchain [BTC; LTC] then response (ToBitcoinFee fee) RawBitcoin
  else if bool_decide (blockchain = ETH) then response (ToEthFee fee) RawEth
  else if bool_decide (blockchain = MATIC) then response (ToMaticFee fee) RawMatic
  else if bool_decide (blockchain = BSC) then response (ToBSCFee fee) RawBSC
  else if bool_decide (blockchain = TRON) then response (ToTronFee fee) RawTron
  else mret (ErrorResponse "unknown error").

(** A ticker and whether it is of the test network. *)
Definition CalculateTransactionFee (body : Bound (string * bool)) : Admin :=
  bound_ body (fun '(ticker, isTest) =>
    currency ← attempt (lift (GetCurrencyByTicker ticker));
    match currency with
    | inr err => answer [(ErrCurrencyNotFound, unsupported)] server_error err
    | inl currency =>
      baseCurrency ← attempt (lift (GetNativeCoin (cc_Blockchain currency)));
      match baseCurrency with
      | inr err => answer [(ErrCurrencyNotFound, unsupported)] server_error err
      | inl baseCurrency =>
        fee ← attempt (CalculateFee baseCurrency currency isTest);
        match fee with
        | inr err => answer [(Bitcoin.ErrValidation, told_error err); (ErrUnsupportedRuntime, told_error err);
            (ErrCurrencyNotFound, unsupported)] server_error err
        | inl fee => format_fee (cc_Blockchain currency) fee
        end
      end
    end).

(** A blockchain, a raw transaction and whether it is of the test network. *)
Definition BroadcastTransaction_ (body : Bound (string * string * bool)) : Admin :=
  bound_ body (fun '(blockchain, hex, isTest) =>
    txHashID ← attempt (BroadcastTransaction blockchain hex isTest);
    match txHashID with
    | inl txHashID => mret (JSON StatusOK (Broadcasted txHashID))
    | inr err => answer [(Bitcoin.ErrValidation, told_error err); (ErrUnsupportedRuntime, told_error err)]
        (fun err => mret (ErrorJSON StatusBadRequest (error_string err) "broadcast_error" [])) err
    end).

Definition GetTransactionReceipt_ (blockchain txId isTestRaw : string) : Admin :=
  if bool_decide (blockchain = "") then mret (ValidationErrorItemResponse "blockchain" "required")
  else if bool_decide (txId = "") then mret (ValidationErrorItemResponse "txId" "required")
  else match (if bool_decide (isTestRaw = "") then Ok false else ParseBool isTestRaw) with
  | Err _ | Panic _ => mret (ValidationErrorItemResponse "isTest" "invalid value")
  | Ok isTest =>
    receipt ← attempt (GetTransactionReceipt blockchain txId isTest);
    match receipt with
    | inr err => answer [(Bitcoin.ErrValidation, told_error err); (ErrUnsupportedRuntime, told_error err)] server_error err
    | inl r =>
      formatted ← lift (Money_String (Broadcaster.rc_NetworkFee r));
      mret (JSON StatusOK (TheReceipt (mkReceiptResponse (Broadcaster.rc_Blockchain r) (Broadcaster.rc_Hash r)
        (int64 (Broadcaster.rc_Nonce r)) (Broadcaster.rc_Recipient r) (Broadcaster.rc_Sender r)
        (StringRaw (Broadcaster.rc_NetworkFee r)) formatted (Broadcaster.rc_Confirmations r) (Broadcaster.rc_IsConfirmed r)
        (Broadcaster.rc_Success r) (Broadcaster.rc_IsTest r))))
    end
  end.

Definition BulkCreateWallets (body : Bound (string * Z)) : Admin :=
  bound_ body (fun '(blockchain, amount) =>
    wallets ← Wallet.BulkCreateWallets blockchain amount;
    mret (JSON StatusCreated (WalletPage None (map walletToResponse wallets)))).

(** [strconv.ParseInt(s, 10, 32)] *)
Definition ParseInt32 (s : string) : option Z :=
  match Atoi s with Some n => if (- 2 ^ 31 <=? n) && (n <? 2 ^ 31) then Some n else None | None => None end.
Definition invalid_param (message : string) : Admin := mret (ErrorJSON StatusBadRequest message "validation_error" []).
Definition ListWallets (start limit blockchain : string) : Admin :=
  match (if bool_decide (start = "") then Some 1 else Atoi start) with
  | None => invalid_param "Invalid query param: start"
  | Some startID =>
    match (if bool_decide (limit = "") then Some defaultPaginationLimit else ParseInt32 limit) with
    | None => invalid_param "Invalid query param: limit"
    | Some paginationLimit =>
      if (startID <? 1) || (maxPaginationLimit <? paginationLimit) ||
         (negb (bool_decide (blockchain = "")) && negb (IsValid blockchain))
      then invalid_param "Invalid query parameters"
      else
        r ← attempt (Wallet.List_ (Wallet.mkPagination startID paginationLimit blockchain ""));
        mret (match r with
          | inr err => ErrorJSON StatusInternalServerError (error_string err) "internal_errors" []
          | inl (wallets, nextPageID) => JSON StatusOK (WalletPage nextPageID (map walletToResponse wallets))
          end)
    end
  end.

(** ** scheduler.go *)
Definition jobs : list (string * Go unit) :=
  [("checkIncomingTransactionsProgress", CheckIncomingTransactionsProgress config);
   ("performInternalWalletTransfer", PerformInternalWalletTransfer config tatumProvider);
   ("checkInternalTransferProgress", CheckInternalTransferProgress);
   ("performWithdrawalsCreation", PerformWithdrawalsCreation config tatumProvider);
   ("checkWithdrawalsProgress", CheckWithdrawalsProgress config);
   ("cancelExpiredPayments", CancelExpiredPayments config);
   ("ensureOutboundWallets", EnsureOutboundWallets config tatumProvider)].

Definition RunSchedulerJob (body : Bound string) : Admin :=
  bound_ body (fun name =>
    now ← time_Now;
    let jobID := name +:+ "-web-" +:+ FormatInt (Unix now) in
    match List.find (fun j => bool_decide (j.1 = name)) jobs with
    | None => mret (ValidationErrorMessage
        ("job " +:+ name +:+ " not found. Available jobs: " +:+ String.concat ", " (map_order (map fst jobs))))
    | Some (_, job) =>
      errJob ← attempt job;
      logs ← attempt (external (ListByJobID jobID 1000));
      mret (match logs with
        | inr err => ErrorResponse (error_string err)
        | inl logs => JSON StatusOK (JobResults (match errJob with inl _ => "" | inr err => error_string err end) logs)
        end)
    end).

(** ** router.go *)
Inductive AdminRoute :=
| AdminWallets (start limit blockchain : string) | AdminWallet (id : string) | AdminCreateWallet (body : Bound string)
| AdminBulkCreate (body : Bound (string * Z)) | AdminJob (body : Bound string) | AdminFee (body : Bound (string * bool))
| AdminBroadcast (body : Bound (string * string * bool)) | AdminReceipt (blockchain txId isTest : string).
Definition serve_internal (r : AdminRoute) : Admin :=
  match r with
  | AdminWallets start limit blockchain => ListWallets start limit blockchain
  | AdminWallet id => GetWallet id
  | AdminCreateWallet body => CreateWallet body
  | AdminBulkCreate body => BulkCreateWallets body
  | AdminJob body => RunSchedulerJob body
  | AdminFee body => CalculateTransactionFee body
  | AdminBroadcast body => BroadcastTransaction_ body
  | AdminReceipt blockchain txId isTest => GetTransactionReceipt_ blockchain txId isTest
  end.
End Handlers.
