(* ===== verification/PublicApi.v ===== *)
(** * PublicApi: what a customer may change

    A payment page is reached by anyone who knows the public id of a payment:
    whatever is asked of it, only that payment, its transactions and the
    customers of its merchant are touched. *)

From S2P Require Import Prelude GoLib Float64 KmsWallet Money Repository Queries PaymentQueries Bitcoin Currencies Transaction Blockchain Flow.
From S2P Require Merchant Wallet WalletBalance Convertor Tatum.
From S2P Require Import Ledger Outcomes Frames.
From S2P Require Import Payment Identity Access.
From S2P Require Import Processing Checkout PaymentApi.

(** ** What is not the payment's *)
Definition bystanders (id merchantID : Z) (d : DB) :=
  (rows (balances d), rows (balance_audit_log d), rows (reservations d), rows (payment_links d), rows (merchant_addresses d),
   rows (merchants d), List.filter (fun p => negb (Row.p_ID p =? id)) (rows (payments d)),
   List.filter (fun c => negb (Row.c_MerchantID c =? merchantID)) (rows (customers d))).
Definition other_transactions (id : Z) (d : DB) : list Row.Transaction :=
  List.filter (fun t => negb (sql_eq (Row.t_EntityID t) (Int64ToNullable id))) (transaction_rows d).

#[export] Instance bystanders_frame id m : Frame (keeps (bystanders id m)).
Proof. by apply keeps_frame. Qed.
#[export] Instance other_transactions_frame id : Frame (keeps (other_transactions id)).
Proof. by apply keeps_frame. Qed.
Definition payment_rows (d : DB) : list Row.Payment := rows (payments d).
#[export] Instance payment_rows_frame : Frame (keeps payment_rows).
Proof. by apply keeps_frame. Qed.
(** What choosing a method leaves alone. *)
Definition beside_transactions (d : DB) :=
  (rows (balances d), rows (balance_audit_log d), rows (reservations d), rows (payment_links d), rows (merchant_addresses d),
   rows (merchants d), rows (payments d), rows (customers d)).
#[export] Instance beside_transactions_frame : Frame (keeps beside_transactions).
Proof. by apply keeps_frame. Qed.
Lemma beside_bystanders id m d d' : keeps beside_transactions d d' -> keeps (bystanders id m) d d'.
Proof. unfold keeps, beside_transactions, bystanders. intros E. injection E. by intros -> -> -> -> -> -> -> ->. Qed.

Lemma filter_rows {A} (p q : A -> bool) f l : (forall r, r ∈ l -> q r = true -> p r = false /\ p (f r) = false) ->
  List.filter p (map (fun r => if q r then f r else r) l) = List.filter p l.
Proof.
  induction l as [|x l IH]; [done|]. intros Hf. cbn. assert (forall r, r ∈ l -> q r = true -> p r = false /\ p (f r) = false) as Hl.
  { intros r Hr. apply Hf. by right. }
  specialize (IH Hl). destruct (q x) eqn:E; [|by rewrite IH]. destruct (Hf x) as [-> ->]; [left|done|done].
Qed.

(** The payment that was read, and its row. *)
Definition row_of (basePath : string) (row : Row.Payment) (p : Payment) (d : DB) : Prop :=
  row ∈ rows (payments d) /\ entryToPayment basePath row = Ok p.

Lemma payment_columns basePath row p : entryToPayment basePath row = Ok p ->
  pay_ID p = Row.p_ID row /\ pay_Status p = Row.p_Status row /\ pay_MerchantID p = Row.p_MerchantID row /\
  pay_UpdatedAt p = Row.p_UpdatedAt row /\ pay_PublicID p = Row.p_PublicID row /\
  pay_CustomerID p = NullableInt64ToPointer (Row.p_CustomerID row).
Proof. unfold entryToPayment. destruct (paymentPrice _ _); cbn; [|done..]. by intros [= <-]. Qed.

Lemma payment_at d row : schema_ok d -> row ∈ rows (payments d) -> row_at (Row.p_ID row) (payments d) = Some row.
Proof. intros Hok Hin. apply row_at_Some; [by apply wf_payments|done]. Qed.

(** Rewriting the row of a payment. *)
Lemma rewritten d row q f : schema_ok d -> row ∈ rows (payments d) -> (forall r, q r = true -> Row.p_ID r = Row.p_ID row) ->
  (forall r, Row.p_ID (f r) = Row.p_ID r) ->
  let d' := set_payments (update_rows q f (payments d)) d in
  keeps (bystanders (Row.p_ID row) (Row.p_MerchantID row)) d d' /\
  row_at (Row.p_ID row) (payments d') = Some (if q row then f row else row).
Proof.
  intros Hok Hin Hq Hf d'. split.
  - unfold keeps, bystanders. cbn [d' balances balance_audit_log reservations payment_links merchant_addresses merchants payments customers
      set_payments update_rows rows]. rewrite filter_rows; [done|]. intros r _ Hr. by rewrite Hf, Hq, Z.eqb_refl.
  - unfold d'. cbn [payments set_payments]. rewrite row_at_update by apply Hf. by rewrite (payment_at d row).
Qed.

(** ** The handlers, one by one *)
Section Handlers.
Context `{Resolver} `{Catalog} `{BlockchainService} `{!BlockchainLaws} `{MapOrder} `{Convertor.RateProvider} `{Wallet.KMS} `{Btcutil}.
Context `{Publisher} `{Tatum.TatumAPI} `{Mail} `{Uuid}.
Context (config : Config) (tatumProvider : option Tatum.Config) (quote : string -> string).

Lemma detailed_pure m i : steps eq (GetDetailedPayment config m i).
Proof. frame_steps. Qed.

Lemma choose_beside p t : steps (keeps beside_transactions) (SetPaymentMethod config tatumProvider p t).
Proof.
  unfold SetPaymentMethod, Do, choose_method, changePaymentMethod, createIncomingTransaction, ensureWalletSubscription, subscribe.
  frame_steps; apply pure_frame; first [tc_solve | apply fiat_to_crypto_pure | apply fiat_to_fiat_pure].
Qed.

Lemma added_others p c d r d' : pay_ID p <> 0 -> added p c d r d' -> keeps (other_transactions (pay_ID p)) d d'.
Proof.
  intros Hid Ha. unfold keeps, other_transactions. destruct Ha as [[_ ->]|(row & -> & He & _)]; [done|].
  rewrite List.filter_app. cbn. rewrite He, (proj2 (sql_eq_id _ _)) by done. cbn. apply app_nil_r.
Qed.

(** The transactions of others are spared, also when the one of before is
    cancelled. *)
Lemma cancel_others id older latest f d d' : payment_txs id d = older ++ [latest] -> schema_ok d ->
  (forall r, Row.t_EntityID (f r) = Row.t_EntityID r) ->
  transaction_rows d' = rows (update_rows (by_id (Row.t_ID latest)) f (transactions d)) -> keeps (other_transactions id) d d'.
Proof.
  intros E Hok Hf E'. unfold keeps, other_transactions. rewrite E'. apply filter_rows. intros r Hr Hid.
  assert (latest ∈ payment_txs id d) as [Hin Hent]%elem_of_filter_bool by (rewrite E; apply elem_of_app; right; left).
  assert (r = latest) as ->.
  { apply Z.eqb_eq in Hid. assert (row_at (row_id latest) (transactions d) = Some r) as K1
      by (apply row_at_Some; [by apply wf_transactions|done]).
    assert (row_at (row_id latest) (transactions d) = Some latest) as K2 by (apply row_at_Some; [by apply wf_transactions|done]).
    congruence. }
  by rewrite Hf, Hent.
Qed.

Lemma wp_choose_others p c w : pay_ID p <> 0 -> schema_ok (db w) ->
  wp (choose_method config tatumProvider p c) w (fun _ w' => keeps (other_transactions (pay_ID p)) (db w) (db w')).
Proof.
  intros Hid Hok. unfold choose_method. do 2 wp_step. apply wp_GetLatest. intros w1 E1. rewrite <- E1.
  assert (wp (createIncomingTransaction config tatumProvider p c) w1
    (fun _ w' => keeps (other_transactions (pay_ID p)) (db w1) (db w'))) as Hnew.
  { eapply wp_mono; [apply wp_createIncoming|]. intros r w2. by apply added_others. }
  destruct (rev (payment_txs (pay_ID p) (db w1))) as [|row l] eqn:Er; [by rewrite errors_Is_refl|].
  assert (payment_txs (pay_ID p) (db w1) = rev l ++ [row]) as E by (rewrite <- (rev_involutive (payment_txs _ _)), Er; done).
  destruct (entryToTransaction row) as [tx|e|s] eqn:Et; [|destruct (errors_Is _ _); [done|by wp_step]|done].
  pose proof (entry_inv _ _ Et) as (Hti & _). case_bool_decide; [done|]. destruct (_ && _); [by wp_step|].
  unfold changePaymentMethod. destruct (tx_RecipientWalletID tx); [|by wp_step].
  do 2 wp_step. apply wp_Cancel; [by rewrite E1|]. intros w2 f _ Hf [lk E2]. cbn [wrap].
  eapply wp_mono; [apply wp_createIncoming|]. intros r w3 Ha%added_others; [|done].
  etransitivity; [|exact Ha]. apply (cancel_others _ _ _ f _ _ E); [by rewrite E1| |by rewrite E2, Hti].
  intros x. by destruct (Hf x) as (? & ? & ->).
Qed.

Lemma SetPaymentMethod_others p t w : pay_ID p <> 0 -> schema_ok (db w) ->
  wp (SetPaymentMethod config tatumProvider (Some p) t) w (fun _ w' =>
    keeps (other_transactions (pay_ID p)) (db w) (db w') /\ (IsEditable p = false -> db w' = db w)).
Proof.
  intros Hid Hok. unfold SetPaymentMethod. destruct (IsEditable p); cbn [negb]; [|by wp_step].
  assert (forall P Q : Prop, P -> P /\ (true = false -> Q)) as Hed by done.
  do 2 wp_step. pose proof (eq_sym (merchant_pure (pay_MerchantID p) false w)) as Em. unfold wp at 1.
  destruct (Merchant.GetByID _ _ w) as [[mt|e|s] w1]; cbn [fst snd wrap] in *; [|apply Hed; by rewrite Em..].
  do 3 wp_step. destruct (getPaymentMethod mt t) as [c|e|s]; cbn [wrap]; [|apply Hed; by rewrite Em..].
  wp_step. unfold Do. do 2 wp_step. rewrite <- Em. eapply wp_mono; [by apply wp_choose_others; [|rewrite Em]|].
  intros [m|e|s] w2 Hch; cbn [wrap]; try wp_step; by apply Hed.
Qed.

Let basePath : string := PaymentFrontendPath config.

Lemma wp_detailed row p w : schema_ok (db w) -> row_of basePath row p (db w) ->
  wp (GetDetailedPayment config (pay_MerchantID p) (pay_ID p)) w (fun r w' => db w' = db w /\ forall dp, r = Ok dp ->
    dp_Payment dp = p /\ (is_Some (dp_Customer dp) -> Valid (Row.p_CustomerID row) = true) /\
    (is_Some (dp_PaymentMethod dp) -> payment_txs (pay_ID p) (db w) <> [])).
Proof.
  intros Hok [Hin Hp]. pose proof (payment_columns _ _ _ Hp) as (Hi & _ & Hm & _ & _ & Hc).
  enough (wp (GetDetailedPayment config (pay_MerchantID p) (pay_ID p)) w (fun r _ => forall dp, r = Ok dp ->
    dp_Payment dp = p /\ (is_Some (dp_Customer dp) -> Valid (Row.p_CustomerID row) = true) /\
    (is_Some (dp_PaymentMethod dp) -> payment_txs (pay_ID p) (db w) <> []))) as Hwp.
  { split; [symmetry; apply (detailed_pure (pay_MerchantID p) (pay_ID p) w)|exact Hwp]. }
  unfold GetDetailedPayment. wp_step. apply wp_found_payment. intros w1 E1. rewrite Hi, Hm.
  rewrite (one_payment (db w) row _ _ Hok Hin eq_refl). cbn [payment_of]. fold basePath. rewrite Hp.
  wp_step. apply wp_MerchantGetByID. intros w2 E2. destruct (one _) as [mt|e|s]; [|done..]. wp_step.
  eapply wp_mono with (Q := fun r w' => db w' = db w /\ forall c, r = Ok c -> is_Some c -> Valid (Row.p_CustomerID row) = true).
  { unfold pay_CustomerID in Hc |- *. rewrite Hc. unfold NullableInt64ToPointer. destruct (Valid _).
    - split; [|done]. rewrite <- E1, <- E2. symmetry.
      match goal with |- _ = db (?m w2).2 => assert (steps eq m) as Hs by frame_steps; apply Hs end.
    - wp_step. split; [congruence|]. intros c [= <-] [? [=]]. }
  intros [c|e|s] w3 [E3 Hcust]; [|done..]. do 2 wp_step.
  eapply wp_mono with (Q := fun r _ => is_ok r = true -> payment_txs (pay_ID p) (db w) <> []).
  { rewrite Hi. destruct (payment_txs (Row.p_ID row) (db w)) as [|t l] eqn:Et; [|by unfold wp].
    unfold Payment.GetPaymentMethod. do 2 wp_step. rewrite Hi. apply wp_GetLatest. intros w4 _. rewrite E3, Et. cbn [rev]. cbv iota beta. rewrite errors_Is_refl. by repeat wp_step. }
  intros m w4 Hm4. specialize (Hcust _ eq_refl). cbv beta in Hcust.
  assert (forall info : option PaymentInfo, forall pm, (is_Some pm -> payment_txs (Row.p_ID row) (db w) <> []) -> forall dp,
    Ok (mkDetailed p c (Merchant.entryToMerchant mt) pm info) = Ok dp -> dp_Payment dp = p /\
    (is_Some (dp_Customer dp) -> Valid (Row.p_CustomerID row) = true) /\
    (is_Some (dp_PaymentMethod dp) -> payment_txs (Row.p_ID row) (db w) <> [])) as Hend by (intros info pm Hpm dp [= <-]; done).
  rewrite Hi in Hm4. destruct m as [m|e|s]; [| |done]; cbv iota beta; wp_step.
  - wp_step. specialize (Hm4 eq_refl). destruct (IsEditable p); repeat wp_step; [by apply Hend|].
    destruct (payment_info _ _); [|done..]. repeat wp_step. by apply Hend.
  - destruct (errors_Is _ _); repeat wp_step; [|done]. apply Hend. by intros [? [=]].
Qed.

(** An update that succeeds has written the row; one that fails may have. *)
Lemma wp_Update_row m i st w : wp (Payment.Update basePath m i st) w (fun r w' =>
  (db w' = db w /\ is_ok r = false) \/
  exists arg, up_Status arg = st /\ db w' = set_payments (update_rows (merchant_payment i m) (payment_updated arg) (payments (db w))) (db w)).
Proof.
  unfold Payment.Update. wp_step. apply wp_now. intros now w1 E1. cbv zeta. wp_step.
  eapply wp_mono with (Q := fun r w' => db w' = db w).
  { case_bool_decide; repeat wp_step; [|done]. apply wp_MerchantGetByID. intros w2 E2.
    destruct (one _); repeat wp_step; congruence. }
  intros [expires|e|s] w2 E2; [|by left..]. wp_step. apply wp_not_found, wp_query. rewrite E2. cbn [up_ID up_MerchantID].
  set (arg := mkUpdatePaymentParams _ _ _ _ _ _).
  assert (forall (r : res Payment) w', db w' = set_payments (update_rows (merchant_payment i m) (payment_updated arg) (payments (db w))) (db w) ->
    (db w' = db w /\ is_ok r = false) \/ exists arg, up_Status arg = st /\
      db w' = set_payments (update_rows (merchant_payment i m) (payment_updated arg) (payments (db w))) (db w)) as Hend
    by (intros r w' E; right; by exists arg).
  intros w3 E3. destruct (payment_updated arg <$> _) as [row|e|s]; cbn [fst snd] in *; [|right; by exists arg..].
  wp_step. destruct (_ =? 0); repeat wp_step; [by apply Hend|]. apply wp_external. intros w4 E4.
  destruct (Publish _ _ _ _); cbn [wrap]; repeat wp_step; apply Hend; congruence.
Qed.

Definition page_step (r : PayRoute) (row : Row.Payment) (d d' : DB) (out : res (Reply PayBody)) : Prop :=
  let id := Row.p_ID row in
  keeps (bystanders id (Row.p_MerchantID row)) d d' /\ keeps (other_transactions id) d d' /\
  exists row', row_at id (payments d') = Some row' /\ payment_id row' = payment_id row /\
  (Row.p_Status row <> StatusPending -> d' = d) /\
  match r with
  | PayGet | PayMethods => d' = d
  | PayCustomer _ => transaction_rows d' = transaction_rows d /\ Row.p_Status row' = Row.p_Status row
  | PayMethod _ => payment_rows d' = payment_rows d
  | PayLock => transaction_rows d' = transaction_rows d /\ rows (customers d') = rows (customers d) /\
      (row' = row \/ Row.p_Status row' = StatusLocked /\ Valid (Row.p_CustomerID row) = true /\ payment_txs id d <> []) /\
      (out = Ok (NoContent StatusNoContent) -> Row.p_Status row' <> StatusPending)
  end.

Lemma step_none r row d out : schema_ok d -> row ∈ rows (payments d) ->
  (out = Ok (NoContent StatusNoContent) -> Row.p_Status row <> StatusPending) -> page_step r row d d out.
Proof.
  intros Hok Hin Hout. split; [done|]. split; [done|]. exists row. rewrite payment_at by done.
  split; [done|]. split; [done|]. split; [done|]. destruct r; try done. split; [done|]. split; [done|]. split; [by left|done].
Qed.

Lemma lock_step row p w : schema_ok (db w) -> row_of basePath row p (db w) -> pay_ID p <> 0 ->
  wp (LockPaymentOptions_ config (Some p)) w (fun out w' => page_step PayLock row (db w) (db w') out).
Proof.
  intros Hok Hrow Hid. pose proof Hrow as [Hin Hp]. pose proof (payment_columns _ _ _ Hp) as (Hi & Hst & Hm & _).
  unfold LockPaymentOptions_, ResolvePayment. rewrite (proj2 (Z.eqb_neq _ _)) by done. do 4 wp_step. unfold LockPaymentOptions. do 2 wp_step.
  eapply wp_mono; [by apply (wp_detailed row)|]. intros [dp|e|s] w1 [E1 Hdp]; cbn [wrap].
  2, 3: try destruct (errors_Is _ _); try wp_step; rewrite E1; by apply step_none.
  destruct (Hdp dp eq_refl) as (-> & Hc & Ht). rewrite <- E1 in *.
  destruct (IsEditable p) eqn:He; cbn [negb]; unfold IsEditable in He; rewrite Hst in He.
  2: { wp_step. wp_step. apply step_none; [done..|]. intros _. by apply bool_decide_eq_false in He. }
  apply bool_decide_eq_true in He.
  destruct (dp_Customer dp) as [cu|], (dp_PaymentMethod dp) as [me|];
    try (wp_step; rewrite errors_Is_refl; wp_step; by apply step_none).
  do 2 wp_step. eapply wp_mono; [apply wp_Update_row|].
  assert (forall d' out, (exists arg, up_Status arg = StatusLocked /\
    d' = set_payments (update_rows (merchant_payment (pay_ID p) (pay_MerchantID p)) (payment_updated arg) (payments (db w1))) (db w1)) ->
    page_step PayLock row (db w1) d' out) as Hlock.
  { intros d' out (arg & Harg & ->).
    destruct (rewritten (db w1) row (merchant_payment (pay_ID p) (pay_MerchantID p)) (payment_updated arg)) as [Hb Hr]; [done|done| |done|].
    { intros r [Hr%Z.eqb_eq _]%andb_true_iff. unfold row_id, Payment_id in Hr. congruence. }
    assert (merchant_payment (pay_ID p) (pay_MerchantID p) row = true) as Hq.
    { unfold merchant_payment, by_id. change (row_id row) with (Row.p_ID row). by rewrite Hi, Hm, !Z.eqb_refl. }
    rewrite Hq in Hr. split; [exact Hb|]. split; [done|]. exists (payment_updated arg row). split; [exact Hr|]. split; [done|].
    split; [done|]. split; [done|]. split; [done|]. cbn [Row.p_Status payment_updated]. rewrite Harg. split; [|done]. right.
    split; [done|]. split; [by apply Hc|]. rewrite <- Hi. by apply Ht. }
  intros r w2 [[E2 Hr]|Harg]; [|destruct r; cbn [wrap]; repeat first [wp_step | apply Hlock, Harg | destruct (errors_Is _ _)]].
  destruct r as [x|e|s]; cbn [wrap]; [done|..]; try wp_step; try destruct (errors_Is _ _); try wp_step; rewrite E2; by apply step_none.
Qed.

Lemma customer_step body row p w : schema_ok (db w) -> row_of basePath row p (db w) -> pay_ID p <> 0 ->
  wp (CreateCustomer body (Some p)) w (fun out w' => page_step (PayCustomer body) row (db w) (db w') out).
Proof.
  intros Hok [Hin Hp] Hid. pose proof (payment_columns _ _ _ Hp) as (Hi & Hst & Hm & _).
  assert (forall out, page_step (PayCustomer body) row (db w) (db w) out) as Hnone.
  { intros out. split; [done|]. split; [done|]. exists row. by rewrite payment_at. }
  unfold CreateCustomer, ResolvePayment. destruct body as [email|items]; [|wp_step; by apply Hnone].
  rewrite (proj2 (Z.eqb_neq _ _)) by done. do 4 wp_step.
  eapply wp_mono with (Q := fun _ w' => forall out, page_step (PayCustomer (inl email)) row (db w) (db w') out).
  2: { intros [x|e|s] w' HQ; try destruct (errors_Is _ _); try wp_step; apply HQ. }
  unfold AssignCustomerByEmail. do 2 wp_step. unfold validateEmail, guard_err. destruct (negb _); [exact Hnone|].
  rewrite Hst. case_bool_decide as He; cbn [negb]; [|wp_step; exact Hnone]. do 2 wp_step.
  eapply wp_mono with (Q := fun _ w' => keeps (bystanders (Row.p_ID row) (Row.p_MerchantID row)) (db w) (db w') /\
    payment_rows (db w') = payment_rows (db w) /\ transaction_rows (db w') = transaction_rows (db w) /\ schema_ok (db w')).
  { rewrite Hm. unfold wp. split_and!.
    - assert (steps (keeps (bystanders (Row.p_ID row) (Row.p_MerchantID row))) (ResolveCustomerByEmail (Row.p_MerchantID row) email)) as Hs;
        [|apply Hs].
      assert (forall a b c e, steps (keeps (bystanders (Row.p_ID row) (Row.p_MerchantID row)))
        (PaymentQueries.CreateCustomer a b c e (Row.p_MerchantID row))) as Hcc.
      { intros. apply steps_query. intros d. cbv zeta. destruct (existsb _ _); [reflexivity|]. unfold keeps, bystanders.
        cbn. rewrite List.filter_app. cbn. by rewrite Z.eqb_refl, app_nil_r. }
      unfold ResolveCustomerByEmail, Payment.CreateCustomer. frame_steps; apply Hcc.
    - assert (steps (keeps payment_rows) (ResolveCustomerByEmail (Row.p_MerchantID row) email)) as Hs by frame_steps. apply Hs.
    - assert (steps (keeps transaction_rows) (ResolveCustomerByEmail (Row.p_MerchantID row) email)) as Hs by frame_steps. apply Hs.
    - assert (steps schema_step (ResolveCustomerByEmail (Row.p_MerchantID row) email)) as Hs
        by (unfold ResolveCustomerByEmail, Payment.CreateCustomer; go_steps). by apply (Hs w). }
  intros r w1 (Hb & Hpay & Htx & Hok1). assert (row ∈ rows (payments (db w1))) as Hin1.
  { unfold payment_rows in Hpay. by rewrite Hpay. }
  assert (forall out, page_step (PayCustomer (inl email)) row (db w) (db w1) out) as Hs1.
  { intros out. split; [exact Hb|]. split; [unfold keeps, other_transactions; by rewrite Htx|]. exists row. by rewrite payment_at. }
  destruct r as [person|e|s]; cbn [wrap]; [|exact Hs1..]. do 2 wp_step. apply wp_query. cbn [fst snd wrap]. intros w2 E2. wp_step.
  destruct (rewritten (db w1) row (by_id (pay_ID p)) (with_customer (Int64ToNullable (cus_ID person)))) as [Hb2 Hr]; [done|done| |done|].
  { intros r Hr%Z.eqb_eq. unfold row_id, Payment_id in Hr. congruence. }
  rewrite <- E2 in Hb2, Hr. intros out. split; [unfold keeps in *; congruence|]. split.
  { unfold keeps, other_transactions, transaction_rows in *. by rewrite E2; cbn [transactions set_payments]; rewrite Htx. }
  eexists. split; [exact Hr|]. split; [by destruct (by_id _ row)|]. split; [done|]. split; [|by destruct (by_id _ row)].
  unfold transaction_rows in *. by rewrite E2.
Qed.

Lemma method_step body row p w : schema_ok (db w) -> row_of basePath row p (db w) -> pay_ID p <> 0 ->
  wp (CreatePaymentMethod config tatumProvider body (Some p)) w (fun out w' => page_step (PayMethod body) row (db w) (db w') out).
Proof.
  intros Hok [Hin Hp] Hid. pose proof (payment_columns _ _ _ Hp) as (Hi & Hst & _).
  unfold CreatePaymentMethod, ResolvePayment. destruct body as [ticker|items]; [|wp_step; by apply step_none].
  rewrite (proj2 (Z.eqb_neq _ _)) by done. do 4 wp_step.
  pose proof (choose_beside (Some p) ticker w) as Hk. pose proof (SetPaymentMethod_others p ticker w Hid Hok) as Ho. unfold wp in Ho |- *.
  destruct (SetPaymentMethod _ _ _ _ w) as [r w1]. cbn [fst snd] in Hk, Ho. destruct Ho as [Ho He].
  assert (forall out, page_step (PayMethod (inl ticker)) row (db w) (db w1) out) as Hs1.
  { intros out. split; [by apply beside_bystanders|]. split; [by rewrite <- Hi|].
    assert (payment_rows (db w1) = payment_rows (db w)) as E by (unfold keeps, beside_transactions in Hk; unfold payment_rows; congruence).
    exists row. split; [|split; [done|split; [|exact E]]].
    - unfold row_at, select. unfold payment_rows in E. rewrite E. by apply payment_at.
    - intros Hn. apply He. unfold IsEditable. rewrite Hst. by apply bool_decide_eq_false. }
  destruct r as [m|e|s]; cbn [mret M_ret fst snd]; try destruct (errors_Is _ _); try apply Hs1; destruct (errors_Is _ _); apply Hs1.
Qed.

Lemma handler_step r row p w : schema_ok (db w) -> row_of basePath row p (db w) -> pay_ID p <> 0 ->
  wp (pay_handler config tatumProvider r (Some p)) w (fun out w' => page_step r row (db w) (db w') out).
Proof.
  intros Hok Hrow Hid. pose proof Hrow as [Hin Hp].
  assert (forall out, r <> PayLock -> page_step r row (db w) (db w) out) as Hsame.
  { intros out Hr. split; [done|]. split; [done|]. exists row. rewrite payment_at by done. by destruct r. }
  destruct r as [| |body|body|]; cbn [pay_handler].
  - assert (steps eq (GetPayment config (Some p))) as Hg by (unfold GetPayment; frame_steps; apply detailed_pure).
    unfold wp. rewrite <- (Hg w). by apply Hsame.
  - by apply (lock_step row p).
  - by apply customer_step.
  - by apply method_step.
  - assert (steps eq (GetSupportedMethods (Some p))) as Hg by (unfold GetSupportedMethods; frame_steps).
    unfold wp. rewrite <- (Hg w). by apply Hsame.
Qed.

Lemma GetByPublicID_run id w :
  GetByPublicID basePath id w = (payment_of basePath (one (select (fun p => bool_decide (Row.p_PublicID p = id)) (payments (db w)))), w).
Proof.
  assert (set_db (db w) w = w) as E by (by destruct w).
  unfold GetByPublicID, found_payment, GetPaymentByPublicID, not_found, attempt, read, query, mbind, M_bind. rewrite E.
  destruct (one _) as [row|e|s] eqn:Eo; [done| |done]. by apply one_select_none in Eo as [-> _].
Qed.

(** What the framework sends as a success. *)
Definition answered {B} (out : res (Reply B)) : bool := match out with Ok (JSON _ _) | Ok (NoContent _) => true | _ => false end.
(** A payment that is done is shown for an hour. *)
Definition open_page (row : Row.Payment) (w : world) : Prop :=
  one_of (Row.p_Status row) [StatusSuccess; StatusFailed] = true -> exists n, clock w n - Row.p_UpdatedAt row <= window.

Lemma wp_restrict p w (Q : res bool -> world -> Prop) :
  (forall w', db w' = db w -> Q (Ok true) w') ->
  (forall w', db w' = db w -> (one_of (pay_Status p) [StatusSuccess; StatusFailed] = true -> exists n, clock w n - pay_UpdatedAt p <= window) ->
    Q (Ok false) w') ->
  wp (restrict p) w Q.
Proof.
  intros Ht Hf. unfold restrict. destruct (one_of _ _); [|wp_step; by apply Hf]. wp_step. unfold wp at 1, time_Now. cbn [fst snd]. wp_step.
  destruct (window <? _) eqn:E; [by apply Ht|]. apply Hf; [done|]. intros _. exists (ticks w). unfold time_Sub, window in *.
  change (60 * Merchant.Minute) with 3600000000000 in *. lia.
Qed.
End Handlers.

(** ** Paying through a link *)
(** What a link asks for: its price, or what its visitor gives. *)
Definition asked_price (link : Row.PaymentLink) (body : option float64) : res Money :=
  currency ← MakeFiatCurrency (Row.l_Currency link);
  if bool_decide (linkType (Row.l_Type link) = LinkTypePayment) then nullableLinkPrice link currency
  else match body with Some price => FiatFromFloat64 currency price | None => Err (ENew "no price") end.

Lemma donated_price basePath link l body amount price : entryToLink basePath link = Ok l -> donated l body = inl amount ->
  linkPaymentAmount l amount = Ok price -> asked_price link body = Ok price /\ m_ticker price ∈ fiatCurrencies.
Proof.
  unfold entryToLink, asked_price. destruct (MakeFiatCurrency (Row.l_Currency link)) as [c|e|s] eqn:Ec; cbn; [|done..].
  assert (c ∈ fiatCurrencies) as Hc by (revert Ec; unfold MakeFiatCurrency; case_bool_decide; [by intros [= <-]|done]).
  destruct (nullableLinkPrice link c) as [pr|e|s] eqn:Ep; cbn; [|done..]. intros [= <-].
  unfold donated, linkPaymentAmount. cbn [lk_Type lk_Currency lk_Price].
  destruct (bool_decide (linkType (Row.l_Type link) = LinkTypePayment)) eqn:Et.
  - apply bool_decide_eq_true in Et. rewrite Et. rewrite bool_decide_eq_false_2 by done. intros [= <-] [= <-]. split; [done|].
    unfold nullableLinkPrice in Ep. destruct (bool_decide _); [by injection Ep as <-|].
    destruct (NumericToBigInt _); cbn in Ep; [by injection Ep as <-|done..].
  - destruct (bool_decide (linkType (Row.l_Type link) = LinkTypeDonation)); [|done].
    destruct body as [f|]; [|done]. destruct (FiatFromFloat64 c f) as [m|e|s] eqn:Ef; [|done..]. intros [= <-].
    destruct (negb _ || negb _) eqn:Eb; [done|]. apply orb_false_iff in Eb as [_ Hb%negb_false_iff%bool_decide_eq_true].
    destruct (positive_fiat _ _ _ _); cbn; [|done..]. intros [= <-]. split; [done|]. by rewrite Hb.
Qed.

Lemma valid_positive p : CreatePaymentProps_validate p = Ok tt -> exists f, FiatToFloat64 (cpp_Money p) = Ok f /\ f64_le f f64_zero = false.
Proof.
  unfold CreatePaymentProps_validate, guard_err, positive_fiat. destruct (bool_decide (cpp_MerchantOrderUUID p = uuid_Nil)); cbn; [done|].
  destruct (negb _); cbn; [done|].
  destruct (FiatToFloat64 _) as [f|e|s]; cbn; [|done..]. destruct (f64_le f f64_zero) eqn:E; cbn; [done|]. by exists f.
Qed.

(** A visit that stores no payment. *)
Definition no_payment (w : world) (out : res (Reply PayBody)) (w' : world) : Prop :=
  answered out = false /\ payment_rows (db w') = payment_rows (db w).
Definition new_payment (slug : string) (body : option float64) (w : world) (out : res (Reply PayBody)) (w' : world) : Prop :=
  exists link row price f, link ∈ rows (payment_links (db w)) /\ Row.l_Slug link = slug /\
    (exists mt, mt ∈ rows (merchants (db w)) /\ Row.mt_ID mt = Row.l_MerchantID link /\ trashed_ok false mt = true) /\
    asked_price link body = Ok price /\ FiatToFloat64 price = Ok f /\ f64_le f f64_zero = false /\
    payment_rows (db w') = payment_rows (db w) ++ [row] /\ out = Ok (JSON StatusCreated (RedirectInfo (Row.p_PublicID row))) /\
    Row.p_MerchantID row = Row.l_MerchantID link /\ Row.p_Type row = TypePayment /\ Row.p_Status row = StatusPending /\
    Row.p_Price row = BigIntToNumeric (val price) /\ Row.p_Currency row = m_ticker price.

Ltac no_payment := left; split; [done|unfold payment_rows; congruence].

Lemma wp_link_pay `{Publisher} config slug body w : schema_ok (db w) ->
  wp (CreatePaymentFromLink config slug body) w (fun out w' => no_payment w out w' \/ new_payment slug body w out w').
Proof.
  intros Hok. unfold CreatePaymentFromLink, GetPaymentLinkBySlug, found_link. set (basePath := PaymentFrontendPath config).
  do 3 wp_step. apply wp_not_found, wp_read. intros w1 E1.
  destruct (one (select _ (payment_links (db w)))) as [link|e|s] eqn:Eo.
  2: { cbv beta iota. destruct (errors_Is _ ErrNotFound) in |- *; wp_step; no_payment. }
  2: { no_payment. }
  wp_step. destruct (entryToLink basePath link) as [l|e|s] eqn:El; [|destruct (errors_Is _ _); wp_step|]; [|no_payment..].
  apply one_select_inv in Eo as [Hin Hslug%bool_decide_eq_true].
  destruct (donated l body) as [amount|reply] eqn:Ed.
  2: { wp_step. left. split; [|unfold payment_rows; by rewrite E1]. revert Ed. unfold donated. destruct (bool_decide _); [|done].
       destruct body; [destruct (FiatFromFloat64 _ _)|]; by intros [= <-]. }
  do 2 wp_step. unfold Payment.CreatePaymentFromLink. do 2 wp_step. destruct (linkPaymentAmount l amount) as [price|e|s] eqn:Ea.
  2: { destruct (errors_Is _ _); wp_step; no_payment. }
  2: { no_payment. }
  destruct (donated_price _ _ _ _ _ _ El Ed Ea) as [Hask Hfiat].
  wp_step. apply wp_uuid. intros u w2 E2. eapply wp_mono; [apply wp_CreatePayment; by rewrite E2, E1|].
  rewrite E2, E1. intros r w3 [(mk & Hmk & Edb & Hv & [mt Hmt] & _ & Hs & ->)|[Hr Hrows]].
  - destruct Hs as (Hty & Hst & Hm & _ & Hp & Hc & Hd & Hj). cbn [FromLink cpp_Money] in *.
    destruct (fiat_payment_reads basePath (mk (next_id (payments (db w)))) (val price) Hty Hp ltac:(by rewrite Hc) Hj) as (p & Ep & _).
    rewrite Ep. wp_step. right. pose proof (payment_columns _ _ _ Ep) as (_ & _ & _ & _ & Hpub & _).
    destruct (valid_positive _ Hv) as (f & Hf & Hpos). cbn [FromLink cpp_Money] in Hf.
    assert (lk_MerchantID l = Row.l_MerchantID link) as Hlm.
    { revert El. unfold entryToLink. destruct (MakeFiatCurrency _); cbn; [|done..]. destruct (nullableLinkPrice _ _); cbn; [|done..].
      by intros [= <-]. }
    exists link, (mk (next_id (payments (db w)))), price, f. rewrite Hm, Hlm, Hpub. split_and!; try done.
    + exists mt. assert (one (select (fun m => by_id (lk_MerchantID l) m && trashed_ok false m) (merchants (db w))) = Ok mt) as Hone
        by (rewrite head_select; unfold open_merchant in Hmt; by rewrite Hmt).
      apply one_select_inv in Hone as [Hmin [Hmid%Z.eqb_eq Hok']%andb_true_iff]. split; [done|]. split; [|done].
      unfold row_id, Merchant_id in Hmid. congruence.
    + unfold payment_rows. by rewrite Edb.
  - destruct r as [p|e|s]; [done| |]; try (destruct (errors_Is _ _); wp_step); left; by split; [|exact Hrows].
Qed.

(** ** Properties *)

(** C5. The payment page: whatever a customer asks of the page of a payment,
    and however the request ends. Either it is refused and nothing changes, or
    the id of the url is the public id of a payment that is not yet archived.
    Then nothing that is not the payment's changes: no balance, log entry,
    reservation, link, address or merchant, no other payment, none of their
    transactions, no customer of another merchant. The order of the payment -
    its merchant, price, currency and so on - stays as it is. A payment that is
    no longer pending cannot be changed at all. Reading the page and the methods
    changes nothing; a customer is entered without touching transactions or the
    status; choosing a method leaves the payment itself alone; and locking is
    the only way the status changes, to locked, for a payment that has a
    customer and a transaction. *)
Theorem payment_page `{Resolver} `{Catalog} `{BlockchainService} `{!BlockchainLaws} `{MapOrder} `{Convertor.RateProvider}
  `{Wallet.KMS} `{Btcutil} `{Publisher} `{Tatum.TatumAPI} `{Mail} `{Uuid}
  (config : Config) (tatumProvider : option Tatum.Config) (quote : string -> string) (csrf : bool) (paymentId : string) (r : PayRoute)
  (w : world) (Hok : schema_ok (db w)) :
  let '(out, w') := serve_payment config tatumProvider quote csrf (PublicPayment paymentId r) w in
  (answered out = false /\ db w' = db w) \/
  (csrf = true /\ exists row, row ∈ rows (payments (db w)) /\ uuid_Parse paymentId = Some (Row.p_PublicID row) /\ open_page row w /\
    page_step r row (db w) (db w') out).
Proof.
  enough (wp (serve_payment config tatumProvider quote csrf (PublicPayment paymentId r)) w (fun out w' =>
    (answered out = false /\ db w' = db w) \/ (csrf = true /\ exists row, row ∈ rows (payments (db w)) /\
      uuid_Parse paymentId = Some (Row.p_PublicID row) /\ open_page row w /\ page_step r row (db w) (db w') out))) as Hwp
    by (unfold wp in Hwp; by destruct (serve_payment _ _ _ _ _ w)).
  unfold serve_payment. destruct csrf; cbn [negb]; [|wp_step; by left].
  unfold paymentGroup, ResolvesPaymentByPublicID. destruct (uuid_Parse paymentId) as [id|]; [|wp_step; by left]. do 2 wp_step.
  unfold wp at 1. rewrite GetByPublicID_run. cbn [fst snd]. destruct (one _) as [row|e|s] eqn:Eo; cbn [payment_of].
  - apply one_select_inv in Eo as [Hin Hid%bool_decide_eq_true]. rewrite <- Hid.
    destruct (entryToPayment _ row) as [p|e|s] eqn:Ep; [|destruct (errors_Is _ _); [unfold GuardsPayment; cbn; wp_step|wp_step]; by left|by left].
    pose proof (payment_columns _ _ _ Ep) as (_ & Hst & _ & Hu & _).
    unfold GuardsPayment, RestrictsArchivedPayments, ResolvePayment. destruct (pay_ID p =? 0) eqn:Ez; cbn [is_ok]; [wp_step; by left|].
    wp_step. apply wp_restrict; intros w1 E1; [wp_step; by left|]. rewrite Hst, Hu. intros Hopen.
    eapply wp_mono; [apply (handler_step config tatumProvider r row p); [by rewrite E1|by rewrite E1|by apply Z.eqb_neq]|].
    rewrite E1. intros out w2 Hs. right. split; [done|]. by exists row.
  - destruct (errors_Is _ _); [unfold GuardsPayment; cbn; wp_step|wp_step]; by left.
  - by left.
Qed.

(** C6. Paying through a link: whatever its visitor sends, either the request
    is refused and no payment is stored, or exactly one is: pending, of the
    merchant of the link, who is not deleted, in a fiat currency, for the price
    of the link - or, for a donation, for what the visitor gives -, which is
    positive; and the visitor is sent to that payment. *)
Theorem link_checkout `{Resolver} `{Catalog} `{BlockchainService} `{MapOrder} `{Convertor.RateProvider}
  `{Wallet.KMS} `{Btcutil} `{Publisher} `{Tatum.TatumAPI} `{Mail} `{Uuid}
  (config : Config) (tatumProvider : option Tatum.Config) (quote : string -> string) (csrf : bool) (slug : string)
  (body : option float64) (w : world) (Hok : schema_ok (db w)) :
  let '(out, w') := serve_payment config tatumProvider quote csrf (PublicLinkPay slug body) w in
  no_payment w out w' \/ (csrf = true /\ new_payment slug body w out w').
Proof.
  unfold serve_payment. destruct csrf; cbn [negb]; [|by left].
  pose proof (wp_link_pay config slug body w Hok) as Hwp. unfold wp in Hwp. destruct (CreatePaymentFromLink _ _ _ w) as [out w'].
  destruct Hwp; [by left|by right].
Qed.

(** ** Witnesses: the page of an order *)
#[local] Existing Instances two_currencies Merchant.sorted_order ex_btcutil.
#[local] Instance page_catalog : Catalog := CurrencyResolver_Catalog NewCurrencies.
#[local] Instance page_rates : Convertor.RateProvider := Convertor.no_key.
#[local] Instance page_key : Wallet.KMS := {|
  Wallet.kms_CreateWallet bc n := Ok (Wallet.mkPayload (FormatInt (Z.of_nat n)) ("0x" +:+ FormatInt (Z.of_nat n)) bc);
  Wallet.uuid_Parse s := Some s |}.
#[local] Instance page_tatum : Tatum.TatumAPI := {|
  Tatum.post_subscription _ _ _ _ := Err (ENew "offline"); Tatum.hmac_sha512_base64 _ body := body |}.
#[local] Instance page_bus : Publisher := fun _ _ _ _ => Ok tt.
#[local] Instance page_mail : Mail := fun _ => true.
#[local] Instance page_uuid : Uuid := fun s => Some s.

Definition order_id : string := pay_PublicID order.
Definition page `{BlockchainService} (r : PayRoute) (w : world) : res (Reply PayBody) * world :=
  serve_payment System.demo_config None (fun s => s) true (PublicPayment order_id r) w.

Lemma payment_page_witness : exists body w',
  page (H := rated_node) (PayMethod (inl "ETH")) order_world = (Ok (JSON StatusCreated body), w') /\
  rows (payments (db w')) = rows (payments (db order_world)) /\ other_transactions 1 (db w') = [] /\
  bystanders 1 1 (db w') = bystanders 1 1 (db order_world).
Proof.
  assert (match (page (H := rated_node) (PayMethod (inl "ETH")) order_world).1 with Ok (JSON code _) => code =? 201 | _ => false end = true) as Hr
    by by vm_compute.
  pose proof (payment_page (H1 := rated_node) (H2 := rated_node_laws) System.demo_config None (fun s => s) true order_id
    (PayMethod (inl "ETH")) order_world order_schema) as HT. revert HT Hr. unfold page.
  destruct (serve_payment _ _ _ _ _ _) as [out w']. cbn [fst]. intros HT Hr.
  destruct out as [[code body| | | |]|e|p]; try discriminate Hr. apply Z.eqb_eq in Hr as ->.
  destruct HT as [[Ha _]|(_ & row & Hin & _ & _ & Hb & Ho & row' & _ & _ & _ & Hp)]; [discriminate Ha|].
  assert (row ∈ rows (payments (db order_world)) -> Row.p_ID row = 1 /\ Row.p_MerchantID row = 1) as Hrow.
  { intros Hx. assert (forallb (fun r => (Row.p_ID r =? 1) && (Row.p_MerchantID r =? 1)) (rows (payments (db order_world))) = true) as Hall
      by by vm_compute. rewrite forallb_forall in Hall. apply list_elem_of_In in Hx. apply Hall in Hx. lia. }
  destruct (Hrow Hin) as [Hi Hm]. rewrite Hi in Ho, Hb. rewrite Hm in Hb. exists body, w'.
  split; [reflexivity|]. split; [exact Hp|]. split; [|exact Hb].
  unfold keeps in Ho. rewrite Ho. by vm_compute.
Defined.

(** A node that knows no rate of the second currency. *)
Definition half_rated_node : BlockchainService := {|
  CalculateFee _ _ _ := fail (ENew "no node");
  CalculateWithdrawalFeeUSD _ _ _ := fail (ENew "no node");
  FiatToFiat m c := mret (Convertor.mkConversion Convertor.ConversionTypeFiatToFiat f64_zero m m);
  FiatToCrypto m c := if bool_decide (cc_Ticker c = "ETH") then FiatToCrypto (BlockchainService := rated_node) m c else fail (ENew "no rate");
  CryptoToFiat m c := fail (ENew "no rates");
  BroadcastTransaction _ _ _ := fail (ENew "no node");
  GetTransactionReceipt _ _ _ := fail (ENew "no node");
  ListIncomingTransactions _ _ _ := mret []
|}.
(** Locking does not ask whether the latest transaction is cancelled: when
    changing the method fails half-way, the payment can be locked with no
    address that is still waited for. *)
Example locked_without_method :
  let visit r w := (page (H := half_rated_node) r w).2 in
  let w := visit PayLock (visit (PayMethod (inl "ETH_USDT")) (visit (PayMethod (inl "ETH")) (visit (PayCustomer (inl "a@b.c")) order_world))) in
  map Row.p_Status (rows (payments (db w))) = [StatusLocked] /\ statuses (db w) = [("ETH", StatusCancelled)].
Proof. by vm_compute. Qed.

(** *** A donation of five dollars *)
#[local] Instance page_slug : RandomStrings := fun _ _ => "tips".
Definition tips : CreateLinkProps :=
  mkCreateLinkProps LinkTypeDonation "tips" USD Money_zero None SuccessActionShowMessage None (Some "thanks") false.
Definition tips_world : world := (Payment.CreatePaymentLink "https://pay.example" 1 tips Merchant.shop_world).2.
Definition give (w : world) : res (Reply PayBody) * world :=
  serve_payment (H1 := rated_node) System.demo_config None (fun s => s) true (PublicLinkPay "tips" (Some (f64_of_Z 5))) w.

Lemma link_checkout_witness : exists row link, payment_rows (db (give tips_world).2) = [row] /\ link ∈ rows (payment_links (db tips_world)) /\
  Row.p_MerchantID row = Row.l_MerchantID link /\ Row.p_Price row = BigIntToNumeric 500 /\ Row.p_Currency row = USD.
Proof.
  assert (schema_ok (db tips_world)) as Hok.
  { apply (proj2 (ledger_schema _ _ (payment_CreateLink_ledger "https://pay.example" 1 tips Merchant.shop_world))), Merchant.shop_schema. }
  assert (answered (give tips_world).1 = true) as Hr by by vm_compute.
  pose proof (link_checkout (H1 := rated_node) System.demo_config None (fun s => s) true "tips" (Some (f64_of_Z 5)) tips_world Hok) as HT.
  revert HT Hr. unfold give. destruct (serve_payment _ _ _ _ _ _) as [out w']. cbn [fst snd]. intros HT Hr.
  destruct HT as [[Ha _]|[_ (link & row & price & f & Hin & Hs & _ & Hask & _ & _ & Hrows & _ & Hm & _ & _ & Hp & Hc)]];
    [rewrite Ha in Hr; discriminate Hr|].
  assert (price = mkMoney Fiat USD (Some 500) 2) as ->.
  { assert (map (fun l => asked_price l (Some (f64_of_Z 5))) (rows (payment_links (db tips_world)))
      = [Ok (mkMoney Fiat USD (Some 500) 2)]) as Hall by (vm_compute; reflexivity).
    assert (In (asked_price link (Some (f64_of_Z 5))) [Ok (mkMoney Fiat USD (Some 500) 2)]) as Hin'.
    { rewrite <-Hall. apply (in_map (fun l => asked_price l (Some (f64_of_Z 5)))). by apply list_elem_of_In. }
    destruct Hin' as [E|[]]. rewrite Hask in E. by injection E as <-. }
  exists row, link. assert (payment_rows (db tips_world) = []) as E by by vm_compute. rewrite E in Hrows.
  split; [exact Hrows|]. split; [exact Hin|]. split; [exact Hm|]. split; [exact Hp|exact Hc].
Defined.
