(* ===== verification/Console.v ===== *)
(** * Console: what the operator runs

    The commands of [cmd] that work on the books: [topup_balance.go],
    [list_balances.go] and [list_wallets.go] ([create_user.go] is in
    [Accounts]); of [internal/app/app.go] the user of the configuration (how
    the cron runs a job is in [Cron]); and the notification of a successful payment of
    [internal/event/paymentevents/handler.go]. [logger.Fatal] ends a command:
    it is a failure here. Printing a table, [slices.SortFunc] of
    [golang.org/x/exp] and the terminal are outside. *)

From S2P Require Import Prelude GoLib Float64 KmsWallet NetUrl Money Repository Queries PaymentQueries Bitcoin Currencies Blockchain Flow.
From S2P Require Wallet WalletBalance Convertor Transaction Merchant Payment Tatum.
From S2P Require Import Processing Ledger Outcomes.
From S2P Require Accounts.

(** ** cmd/topup_balance.go *)
Record TopupArgs := mkTopupArgs {
  ta_MerchantID : Z; ta_Ticker : string; ta_Amount : string; ta_Comment : string; ta_IsTest : bool
}.

(** What is typed at the prompt, or the error of reading it. *)
Definition confirm (answer : res string) : bool :=
  match answer with Ok response => one_of (ToLower (TrimSpace response)) ["y"; "yes"] | _ => false end.

Section Commands.
Context `{Resolver} `{Catalog} `{BlockchainService} `{Payment.Publisher} `{Wallet.KMS} `{Btcutil} `{Tatum.TatumAPI}.
Context (config : Config).

(** The texts the logger prints: a value without an amount panics. *)
Definition printed (m : Money) : Go string := lift (Money_String m).

(** The result is [None] when the operator does not confirm. *)
Definition topupBalance (args : TopupArgs) (answer : res string) : Go (option TopupOut) :=
  currency ← wrapM (lift (GetCurrencyByTicker (ta_Ticker args))) "invalid ticker";
  amount ← wrapM (lift (CryptoFromStringFloat (cc_Ticker currency) (ta_Amount args) (cc_Decimals currency))) "invalid amount";
  merchant ← wrapM (Merchant.GetByID (ta_MerchantID args) false) "invalid merchant id";
  if bool_decide (ta_Comment args = "") then fail (ENew "comment should not be empty") else
  balances ← wrapM (WalletBalance.ListAllBalances usd_value false true false) "unable to list balances";
  match List.find (fun b => bool_decide (WalletBalance.bal_Currency b = cc_Ticker currency) &&
      bool_decide (WalletBalance.bal_NetworkID b = ChooseNetwork currency (ta_IsTest args)))
    (default [] (WalletBalance.bs_system balances)) with
  | None => fail (ENew "unable to locate system balance")
  | Some systemBalance =>
    _ ← printed amount; _ ← printed (WalletBalance.bal_Amount systemBalance);
    if negb (confirm answer) then mret None
    else
      out ← wrapM (TopupMerchantFromSystem config (Merchant.mer_ID merchant)
        (mkTopup currency amount (ta_Comment args) (ta_IsTest args))) "unable to topup the balance";
      _ ← printed (Transaction.tx_USDAmount (to_Transaction out));
      _ ← printed (WalletBalance.bal_Amount (to_MerchantBalance out));
      mret (Some out)
  end.

(** ** cmd/list_balances.go *)
Definition FormatBool (b : bool) : string := if b then "true" else "false".
Definition balanceAsRow (currency : CryptoCurrency) (b : WalletBalance.Balance) : Go (list string) :=
  amount ← printed (WalletBalance.bal_Amount b);
  usd ← match WalletBalance.bal_UsdAmount b with Some usd => printed usd | None => panic "nil pointer dereference" end;
  mret (Split (String.concat "," [FormatInt (WalletBalance.bal_ID b); WalletBalance.bal_EntityType b;
    FormatInt (WalletBalance.bal_EntityID b); WalletBalance.bal_Currency b;
    FormatBool (negb (bool_decide (WalletBalance.bal_NetworkID b = cc_NetworkID currency))); amount; usd]) ","%char).

(** A balance in a currency the gateway does not know is left out. *)
Fixpoint balance_table (l : list WalletBalance.Balance) : Go (list (list string)) :=
  match l with
  | [] => mret []
  | b :: l =>
    match GetCurrencyByTicker (WalletBalance.bal_Currency b) with
    | Ok currency => line ← balanceAsRow currency b; rest ← balance_table l; mret (line :: rest)
    | Err _ => balance_table l
    | Panic why => panic why
    end
  end.
(** An error of the listing is logged, and the table is empty. *)
Definition listBalances : Go (list (list string)) :=
  r ← attempt (WalletBalance.ListAllBalances usd_value true true true);
  match r with
  | inr _ => mret []
  | inl balances => balance_table (WalletBalance.bs_merchant balances ++ WalletBalance.bs_wallet balances ++
      default [] (WalletBalance.bs_system balances))
  end.
End Commands.

(** ** cmd/list_wallets.go *)
Definition compare {A} (less : A -> A -> bool) (a b : A) : Z := if less b a then 1 else if less a b then -1 else 0.
Definition wallet_order (a b : Wallet.Wallet) : bool :=
  match List.find (fun sign => negb (sign =? 0))
    [compare String.ltb (Wallet.wal_Type a) (Wallet.wal_Type b); compare String.ltb (Wallet.wal_Blockchain a) (Wallet.wal_Blockchain b);
     compare Z.ltb (Wallet.wal_ID a) (Wallet.wal_ID b)] with
  | Some sign => 0 <? sign
  | None => true
  end.
Definition listWallets (SortFunc : (Wallet.Wallet -> Wallet.Wallet -> bool) -> list Wallet.Wallet -> list Wallet.Wallet) :
    Go (list (list string)) :=
  r ← attempt (Wallet.List_ (Wallet.mkPagination 0 10000 "" ""));
  let wallets := match r with inl (wallets, _) => wallets | inr _ => [] end in
  mret (map (fun w => Split (String.concat "," [FormatInt (Wallet.wal_ID w); Wallet.wal_Type w; Wallet.wal_Blockchain w; Wallet.wal_Address w])
    ","%char) (SortFunc wallet_order wallets)).

(** ** internal/app/app.go: the user of the configuration *)
Section FirstUser.
Context `{Payment.Mail} `{Accounts.Bcrypt} `{Accounts.UserEvents} (quote : string -> string).
Definition register_first_user (enabled : bool) (firstUserEmail firstUserPass : string) : Tracked Accounts.Accounts unit :=
  if negb enabled then mret tt
  else
    r ← try (Accounts.Register firstUserEmail firstUserPass);
    match r with
    | inl (_, None) => mret tt
    | inl (_, Some err) | inr err =>
      if errors_Is err Accounts.ErrAlreadyExists then mret tt
      else stop (EWrap err ("unable to create user " +:+ quote firstUserEmail +:+ " from config"))
    end.
End FirstUser.

(** ** paymentevents/handler.go: the notification of a successful payment *)
Section Notifications.
Context `{Resolver} `{Accounts.Slack} (config : Config) (slackWebhookURL : string) (quote : string -> string).

Definition sendSlackMessage (messages : list string) : Go unit :=
  if bool_decide (slackWebhookURL = "") then mret tt else external (Accounts.SendWebhook slackWebhookURL messages).
(** The error of the parser is dropped, and its nil result dereferenced. *)
Definition extractHost (u : string) : Go string :=
  match NetUrl.Parse u with Ok link => mret (of_bytes (Host link)) | _ => panic "nil pointer dereference" end.
(** The emoji of the message is U+1F4B0. *)
Definition SendSuccessfulPaymentNotification (merchantID paymentID : Z) : Go unit :=
  p ← wrapM (GetDetailedPayment config merchantID paymentID) "unable to get detailed payment";
  let pt := dp_Payment p in
  if negb (bool_decide (Payment.pay_Status pt = Payment.StatusSuccess)) then mret tt
  else
    host ← extractHost (Payment.pay_PaymentURL pt);
    price ← printed (Payment.pay_Price pt);
    sendSlackMessage ["[" +:+ host +:+ "] 💰processed payment #" +:+ FormatInt (Payment.pay_ID pt) +:+ ": " +:+ price +:+ " " +:+
      m_ticker (Payment.pay_Price pt) +:+ " for merchant " +:+ quote (Merchant.mer_Name (dp_Merchant p)) +:+ " id#" +:+
      FormatInt (Merchant.mer_ID (dp_Merchant p)) +:+ " (isTest=" +:+ FormatBool (Payment.pay_IsTest pt) +:+ ") "].
End Notifications.

(** ** Lemmas: the system balances *)
(** What the entities of a type hold under a key of [WalletBalance.keyFunc]. *)
Definition balance_key (b : Row.Balance) : string :=
  Row.b_Currency b +:+ "/" +:+ Row.b_Network b +:+ "/" +:+ Row.b_NetworkID b.
Definition key_total (key : string) (l : list Row.Balance) : Z :=
  foldr (fun b acc => (if String.eqb (balance_key b) key then WalletBalance.row_value b else 0) + acc) 0 l.
Definition held (entityType key : string) (d : DB) : Z :=
  key_total key (List.filter (fun b => bool_decide (Row.b_EntityType b = entityType)) (rows (balances d))).

Lemma key_total_perm key l l' : l ≡ₚ l' -> key_total key l = key_total key l'.
Proof. unfold key_total. induction 1; simpl; lia. Qed.
Lemma key_sum_rows key l : WalletBalance.key_sum key (map WalletBalance.row_balance l) = key_total key l.
Proof. unfold key_total. induction l as [|b l IH]; simpl; [done|]. by rewrite IH. Qed.
Lemma entities_of_rows d l : schema_ok d -> (forall b, b ∈ l -> b ∈ rows (balances d)) ->
  WalletBalance.entitiesToBalances l = Ok (map WalletBalance.row_balance l).
Proof.
  intros Hok. induction l as [|b l IH]; intros Hl; [done|]. simpl.
  destruct (WalletBalance.schema_row d b Hok) as [_ ->]; [apply Hl; left|]. cbn [mbind res_bind].
  by rewrite IH by (intros x Hx; apply Hl; by right).
Qed.

(** A composition that succeeds lists, under each key, what the wallets hold
    beyond what the merchants do. *)
Definition keyed (m : gmap string WalletBalance.Balance) : Prop := forall k b, m !! k = Some b -> WalletBalance.keyFunc b = k.
Lemma keyed_insert m k b : keyed m -> WalletBalance.keyFunc b = k -> keyed (<[k := b]> m).
Proof. intros Hm Hk k' b'. rewrite lookup_insert_Some. intros [[<- <-]|[_ Hb]]; [done|by apply Hm]. Qed.
Lemma add_wallets_sums ws : forall m m', keyed m -> WalletBalance.add_wallets ws m = Ok m' ->
  keyed m' /\ forall k, WalletBalance.map_value m' k = WalletBalance.map_value m k + WalletBalance.key_sum k ws.
Proof.
  induction ws as [|b ws IH]; intros m m' Hm; cbn [WalletBalance.add_wallets WalletBalance.key_sum].
  { intros [= <-]. split; [done|]. intros k. lia. }
  destruct (m !! WalletBalance.keyFunc b) as [sb|] eqn:Hl.
  - destruct (Money_Add _ _) as [total|e|p] eqn:Ea; cbn [wrap mbind res_bind]; [|done|done].
    apply Money_Add_ok in Ea as [_ ->]. intros Hadd.
    apply IH in Hadd as [Hk Hv]; [|by apply keyed_insert; [|apply (Hm _ _ Hl)]]. split; [done|]. intros k. rewrite Hv, WalletBalance.map_value_insert.
    destruct (String.eqb_spec (WalletBalance.keyFunc b) k) as [<-|]; [|lia]. unfold WalletBalance.map_value. rewrite Hl. cbn. lia.
  - intros Hadd. apply IH in Hadd as [Hk Hv]; [|by apply keyed_insert]. split; [done|]. intros k. rewrite Hv, WalletBalance.map_value_insert.
    destruct (String.eqb_spec (WalletBalance.keyFunc b) k) as [<-|]; [|lia]. unfold WalletBalance.map_value. rewrite Hl. cbn. lia.
Qed.
Lemma sub_merchants_sums ms : forall m m', keyed m -> WalletBalance.sub_merchants ms m = Ok m' ->
  keyed m' /\ forall k, WalletBalance.map_value m' k = WalletBalance.map_value m k - WalletBalance.key_sum k ms.
Proof.
  induction ms as [|b ms IH]; intros m m' Hm; cbn [WalletBalance.sub_merchants WalletBalance.key_sum].
  { intros [= <-]. split; [done|]. intros k. lia. }
  destruct (m !! WalletBalance.keyFunc b) as [sb|] eqn:Hl; [|done].
  destruct (SubNegative _ _) as [total|e|p] eqn:Ea; cbn [wrap mbind res_bind]; [|done|done].
  apply SubNegative_ok in Ea as [_ ->]. intros Hsub.
  apply IH in Hsub as [Hk Hv]; [|by apply keyed_insert; [|apply (Hm _ _ Hl)]]. split; [done|]. intros k. rewrite Hv, WalletBalance.map_value_insert.
  destruct (String.eqb_spec (WalletBalance.keyFunc b) k) as [<-|]; [|lia]. unfold WalletBalance.map_value. rewrite Hl. cbn. lia.
Qed.
Lemma composed_sums merchants wallets l b : WalletBalance.composeSystemBalances merchants wallets = Ok l -> b ∈ l ->
  val (WalletBalance.bal_Amount b) =
    WalletBalance.key_sum (WalletBalance.keyFunc b) wallets - WalletBalance.key_sum (WalletBalance.keyFunc b) merchants.
Proof.
  unfold WalletBalance.composeSystemBalances. destruct (WalletBalance.add_wallets _ _) as [m|e|p] eqn:Ea; cbn [mbind res_bind]; [|done|done].
  apply add_wallets_sums in Ea as [Hk Hv]; [|by intros k x ?%lookup_empty_Some].
  destruct (WalletBalance.sub_merchants _ _) as [m'|e|p] eqn:Es; cbn [mbind res_bind]; [|done|done].
  apply sub_merchants_sums in Es as [Hk' Hv']; [|done]. intros [= <-]. rewrite SliceStable_perm.
  intros ([k x] & -> & Hin%elem_of_map_to_list)%list_elem_of_fmap. cbn [snd]. specialize (Hv' k). specialize (Hv k).
  unfold WalletBalance.map_value in Hv, Hv'. rewrite Hin in Hv'. rewrite lookup_empty in Hv. rewrite (Hk' _ _ Hin). lia.
Qed.

Section Topup.
Context `{Resolver} `{Catalog} `{BlockchainService} `{!BlockchainLaws} `{Payment.Publisher} `{Wallet.KMS} `{Btcutil}
  `{Tatum.TatumAPI} (config : Config).

(** The balances a listing gives, and what they say of the tables. *)
Definition listed (entityType : string) (d : DB) : list Row.Balance :=
  rev (List.filter (fun b => bool_decide (Row.b_EntityType b = entityType)) (rows (balances d))).
Lemma listed_total entityType key d : key_total key (listed entityType d) = held entityType key d.
Proof. apply key_total_perm. unfold listed. symmetry. apply Permutation_rev. Qed.
Lemma listed_rows entityType d b : b ∈ listed entityType d -> b ∈ rows (balances d).
Proof. unfold listed. rewrite list_elem_of_In, <- in_rev, filter_In. intros [Hb _]. by apply list_elem_of_In. Qed.

Lemma wp_system_balances w (Q : res WalletBalance.Balances -> world -> Prop) : schema_ok (db w) ->
  (forall w' r, db w' = db w -> is_ok r = false -> Q r w') ->
  (forall w' bs, db w' = db w -> (forall b, b ∈ default [] (WalletBalance.bs_system bs) -> val (WalletBalance.bal_Amount b) =
     held WalletBalance.EntityTypeWallet (WalletBalance.keyFunc b) (db w) -
     held WalletBalance.EntityTypeMerchant (WalletBalance.keyFunc b) (db w)) -> Q (Ok bs) w') ->
  wp (WalletBalance.ListAllBalances usd_value false true false) w Q.
Proof.
  intros Hok Hbad Hgood. unfold WalletBalance.ListAllBalances, ListAllBalancesByType.
  assert (forall t (f : Row.Balance -> bool), (forall b, f b = bool_decide (Row.b_EntityType b = t)) ->
    rev (select f (balances (db w))) = listed t (db w)) as Hsel.
  { intros t f Hf. unfold listed, select. f_equal. apply filter_ext. intros b. by rewrite Hf. }
  assert (forall t, WalletBalance.entitiesToBalances (listed t (db w)) = Ok (map WalletBalance.row_balance (listed t (db w)))) as Hent
    by (intros t; apply (entities_of_rows (db w)); [done|intros b; apply listed_rows]).
  do 2 wp_step. apply wp_read. intros w1 E1. rewrite (Hsel WalletBalance.EntityTypeMerchant) by (intros b; apply andb_true_r).
  cbn [wrap]. do 2 wp_step. rewrite Hent. cbn [wrap]. do 2 wp_step. apply wp_read. intros w2 E2. rewrite E1 in E2. rewrite E1.
  rewrite (Hsel WalletBalance.EntityTypeWallet) by (intros b; apply andb_true_r). cbn [wrap]. do 2 wp_step. rewrite Hent. cbn [wrap]. do 4 wp_step.
  destruct (WalletBalance.composeSystemBalances _ _) as [l|e|p] eqn:Ec; cbn [wrap]; [|by apply Hbad..]. do 2 wp_step.
  apply Hgood; [done|]. intros b Hb. cbn in Hb. rewrite (composed_sums _ _ _ _ Ec Hb), !key_sum_rows, !listed_total. done.
Qed.

(** The balance the system has of a currency, as it is looked for. *)
Definition covers (currency : CryptoCurrency) (isTest : bool) (amount : Z) (d : DB) : Prop :=
  exists network, let key := cc_Ticker currency +:+ "/" +:+ network +:+ "/" +:+ ChooseNetwork currency isTest in
  amount <= held WalletBalance.EntityTypeWallet key d - held WalletBalance.EntityTypeMerchant key d.

Lemma wp_locate currency isTest w (Q : res WalletBalance.Balance -> world -> Prop) : schema_ok (db w) ->
  (forall w' r, db w' = db w -> is_ok r = false -> Q r w') ->
  (forall w' b, db w' = db w -> (forall amount, WalletBalance.Covers b [amount] = Ok tt -> covers currency isTest (val amount) (db w)) ->
     Q (Ok b) w') ->
  wp (locateSystemBalance currency isTest) w Q.
Proof.
  intros Hok Hbad Hgood. unfold locateSystemBalance. wp_step. apply wp_system_balances; [done| |].
  { intros w' [bs|e|p] E Hr; [done|by apply Hbad..]. }
  intros w' bs E Hs. cbv zeta. destruct (List.find _ _) as [b|] eqn:Ef; wp_step; [|by apply Hbad].
  apply find_some in Ef as [Hin [Hc%bool_decide_eq_true Hn%bool_decide_eq_true]%andb_true_iff].
  apply Hgood; [done|]. intros amount. unfold WalletBalance.Covers. cbn [WalletBalance.Covers_from].
  destruct (Money_Sub _ _) as [rest|e|p] eqn:Em; cbn [mbind res_bind]; [|done|done]. intros _.
  apply Transaction.Money_Sub_inv in Em as (Hv & _ & Hpos). exists (WalletBalance.bal_Network b). cbv zeta. rewrite <- Hc, <- Hn.
  apply list_elem_of_In in Hin. specialize (Hs b Hin). unfold WalletBalance.keyFunc in Hs. lia.
Qed.
(** *** The transaction of a top-up *)
Lemma confirm_positive merchantID txID params w :
  wp (Transaction.confirm merchantID txID params) w (fun r _ => forall tx, r = Ok tx -> 0 < val (Transaction.ctx_FactAmount params)).
Proof.
  unfold Transaction.confirm. wp_step. apply Transaction.wp_GetByID. intros w1 E1.
  destruct (match one _ with Ok _ => _ | _ => _ end) as [tx0|e|p]; [|done|done].
  case_bool_decide; [by wp_step|]. cbv zeta. wp_step. apply wp_now. intros at_ w2 E2.
  destruct (Transaction.pg_jsonb_meta (Transaction.ctx_MetaData params ∪ Transaction.tx_MetaData tx0)) as [j Hj].
  wp_step. apply wp_not_found.
  eapply (Transaction.wp_UpdateTransaction _ (MoneyToNumeric (Transaction.ctx_FactAmount params))
    (MoneyToNumeric (Transaction.ctx_NetworkFee params)) j); [apply pg_money|apply pg_money|exact Hj| |done].
  intros row w3 _ _ _. set (row' := updated _ _ _ _ row). do 2 wp_step.
  destruct (Transaction.entryToTransaction row') as [tx|e|p] eqn:Et; [|done|done].
  destruct (Transaction.entry_inv _ _ Et) as (_ & _ & _ & _ & _ & _ & _ & Hfact & _).
  destruct (Hfact (val (Transaction.ctx_FactAmount params)) eq_refl) as (f & Hf & Hfv). do 2 wp_step.
  unfold Transaction.updateBalancesAfterTxConfirmation. rewrite Hf. unfold Money_IsZero, Money_IsNegative.
  destruct (Z.eqb_spec (val f) 0) as [|Hz]; [done|]. destruct (Z.ltb_spec (val f) 0) as [|Hn]; [done|].
  eapply (wp_mono _ _ (fun _ _ => True)); [done|]. intros [[]|e|p] w4 _; cbn [wrap]; [wp_step|..]; intros tx' _; lia.
Qed.

(** What a top-up transaction leaves when it is confirmed. *)
Definition topped_up (merchantID : Z) (params : Transaction.CreateTransaction) (d : DB) (tx : Transaction.Transaction) (d' : DB) : Prop :=
  let currency := Transaction.c_Currency params in let amount := val (Transaction.c_Amount params) in
  0 < amount /\ Transaction.tx_Status tx = Transaction.StatusCompleted /\ Transaction.tx_Type tx = Transaction.TypeVirtual /\
  Transaction.tx_MerchantID tx = merchantID /\ Transaction.tx_EntityID tx = Transaction.c_EntityID params /\
  val (Transaction.tx_Amount tx) = amount /\ (exists row, Transaction.only_books (set_transactions (insert_row row (transactions d)) d) d') /\
  Transaction.tx_ID tx = next_id (transactions d) /\
  forall k, Transaction.stored k d' = Transaction.stored k d + Transaction.posting k
    (Transaction.mkBalanceKey WalletBalance.EntityTypeMerchant merchantID (ChooseNetwork currency (Transaction.c_IsTest params))
      (cc_Ticker currency)) amount.

(** Updating the row that has just been inserted. *)
Lemma update_inserted {A} `{HasID A} (t : Table A) mk p f : table_wf t -> (forall r, p r = true -> row_id r = next_id t) ->
  update_rows p f (insert_row mk t) = insert_row (fun n => if p (mk n) then f (mk n) else mk n) t.
Proof.
  intros (_ & Hlt & _) Hp. unfold update_rows, insert_row. cbn. f_equal. rewrite map_app. f_equal. rewrite <- (map_id (rows t)) at 2.
  apply map_ext_in. intros r Hr%list_elem_of_In. destruct (p r) eqn:E; [|done]. apply Hp in E.
  rewrite Forall_forall in Hlt. specialize (Hlt r Hr). lia.
Qed.

Lemma wp_createSystemTopup merchantID params w :
  wp (Transaction.createSystemTopup merchantID params) w (fun r w' => forall tx, r = Ok tx -> exists row,
    db w' = set_transactions (insert_row row (transactions (db w))) (db w) /\ (forall id, Row.t_ID (row id) = id) /\
    Transaction.entryToTransaction (row (next_id (transactions (db w)))) = Ok tx /\
    Transaction.tx_Type tx = Transaction.TypeVirtual /\ Transaction.tx_MerchantID tx = merchantID /\
    Transaction.tx_EntityID tx = Transaction.c_EntityID params /\ val (Transaction.tx_Amount tx) = val (Transaction.c_Amount params) /\
    Transaction.tx_IsTest tx = Transaction.c_IsTest params /\
    (exists fact, Transaction.tx_FactAmount tx = Some fact /\ val fact = val (Transaction.c_Amount params)) /\
    Transaction.resolve_currency (row (next_id (transactions (db w)))) = Ok (Transaction.tx_Currency tx) /\
    Row.t_Currency (row (next_id (transactions (db w)))) = cc_Ticker (Transaction.c_Currency params) /\
    m_ticker (Transaction.tx_Amount tx) = cc_Ticker (Transaction.c_Currency params)).
Proof.
  unfold Transaction.createSystemTopup. do 2 wp_step. destruct (Transaction.validateForSystemTopup params) as [[]|e|p] eqn:Ev; [|done|done].
  assert (Transaction.c_Type params = Transaction.TypeVirtual) as Hty.
  { destruct (decide (Transaction.c_Type params = Transaction.TypeVirtual)) as [|Hne]; [done|]. exfalso. revert Ev.
    unfold Transaction.validateForSystemTopup. rewrite (bool_decide_false _ Hne). unfold guard_err.
    repeat (match goal with |- (if ?b then _ else _) ≫= _ = _ -> _ => destruct b; cbn [mbind res_bind negb]; [done|] end). done. }
  assert (m_ticker (Transaction.c_Amount params) = cc_Ticker (Transaction.c_Currency params)) as Htk.
  { destruct (decide (cc_Ticker (Transaction.c_Currency params) = m_ticker (Transaction.c_Amount params))) as [->|Hne]; [done|]. exfalso. revert Ev.
    unfold Transaction.validateForSystemTopup. rewrite (bool_decide_false _ Hne). unfold guard_err.
    repeat (match goal with |- (if ?b then _ else _) ≫= _ = _ -> _ => destruct b; cbn [mbind res_bind negb]; [done|] end). done. }
  do 2 wp_step. destruct (Transaction.coin_or_error _) as [c|e|p]; [|done|done].
  wp_step. apply wp_now. intros now w1 E1. wp_step. apply wp_query.
  unfold transaction_values. cbn [ct_Amount ct_FactAmount ct_NetworkFee ct_ServiceFee ct_UsdAmount ct_Metadata].
  change (MoneyToNumeric (Transaction.c_Amount params)) with (BigIntToNumeric (val (Transaction.c_Amount params))).
  change (MoneyToNumeric (Transaction.c_USDAmount params)) with (BigIntToNumeric (val (Transaction.c_USDAmount params))).
  rewrite !Transaction.pg_not_null_whole. pose proof (fun v => pg_money (mkMoney Crypto "" (Some v) 0)) as Hpg.
  change (forall v, pg_numeric (BigIntToNumeric v) = Ok (BigIntToNumeric v)) in Hpg. rewrite !Hpg.
  destruct (Transaction.pg_jsonb_meta {[Transaction.MetaComment := "internal system topup"]}) as [j ->].
  cbn [mbind res_bind mret res_ret fst snd]. set (arg := mkCreateTransactionParams _ _ _ _ _ _ _ _ _ _ _ _ _ _ _ _ _ _ _ _ _ _ _ _).
  set (row := transaction_row arg _ _ _ _ _ _). intros w2 E2. rewrite E1 in E2 |- *. wp_step. intros tx Et. exists row.
  destruct (Transaction.entry_inv _ _ Et) as (_ & _ & Ht & Hm & Hk & _ & Ha & Hf & _).
  destruct (entry_deal _ _ Et) as (Hcur & _ & _ & _ & _ & He & _ & _ & Htest).
  split; [done|]. split; [done|]. split; [done|]. split; [by rewrite Ht|]. split; [done|]. split; [done|].
  split; [by apply Ha|]. split; [done|]. split; [by apply Hf|]. split; [done|]. split; [done|]. by rewrite Hk.
Qed.

Lemma wp_CreateSystemTopup merchantID params w : schema_ok (db w) ->
  GetCurrencyByTicker (cc_Ticker (Transaction.c_Currency params)) = Ok (Transaction.c_Currency params) ->
  wp (Transaction.CreateSystemTopup merchantID params) w (fun r w' => forall tx, r = Ok tx ->
    topped_up merchantID params (db w) tx (db w')).
Proof.
  intros Hok Hcan. unfold Transaction.CreateSystemTopup. do 2 wp_step.
  assert (schema_ok (db (Transaction.createSystemTopup merchantID params w).2)) as Hok1.
  { refine (proj2 (_ : schema_step (db w) _) Hok). enough (steps schema_step (Transaction.createSystemTopup merchantID params)) as Hs by apply Hs.
    unfold Transaction.createSystemTopup. go_steps. }
  pose proof (wp_createSystemTopup merchantID params w) as Hwp. unfold wp in Hwp |- *.
  destruct (Transaction.createSystemTopup merchantID params w) as [[tx0|e|p] w1]; cbn [fst snd wrap] in *; [|done|done].
  destruct (Hwp tx0 eq_refl) as (row & E1 & Hid & Hent & Ht & Hm & He & Ha & Htest & (fact & Hf & Hfv) & Hres & Hcur & Htk). clear Hwp.
  rewrite Hf. pose proof Hres as Hres'. unfold Transaction.resolve_currency in Hres'. rewrite Hcur, Hcan in Hres'. injection Hres' as Hc0.
  set (params1 := Transaction.mkConfirm _ _ _ _ _ _ _).
  pose proof (Transaction.wp_confirm merchantID (Transaction.tx_ID tx0) params1 w1 Hok1) as Hwp. unfold wp in Hwp.
  pose proof (confirm_positive merchantID (Transaction.tx_ID tx0) params1 w1) as Hpos. unfold wp in Hpos.
  unfold wrapM. destruct (Transaction.confirm _ _ _ w1) as [[tx|e|p] w2]; cbn [fst snd wrap] in *; [|done|done].
  intros tx' [= <-]. specialize (Hpos tx eq_refl). destruct (Hwp tx eq_refl) as (Hst & _ & (r0 & row' & Hin & Hrid & Hrow' & _ & Hent') & (f & Hbooks) & Hpost).
  destruct (Transaction.entry_inv _ _ Hent) as (Hti & _). rewrite Hid in Hti.
  assert (r0 = row (next_id (transactions (db w)))) as ->.
  { assert (row (next_id (transactions (db w))) ∈ rows (transactions (db w1))) as Hin' by (rewrite E1; apply elem_of_insert; by right).
    assert (forall r, r ∈ rows (transactions (db w1)) -> row_id r = Transaction.tx_ID tx0 ->
      row_at (Transaction.tx_ID tx0) (transactions (db w1)) = Some r) as Hat by (intros; apply row_at_Some; [by apply wf_transactions|done]).
    pose proof (Hat _ Hin Hrid) as A1. pose proof (Hat _ Hin' ltac:(rewrite Hti; apply Hid)) as A2. congruence. }
  destruct Hrow' as (at_ & meta & j & ->).
  assert (same_deal tx0 tx) as [Di Dm Dt De Dc Da _ _ Dx] by (refine (same_deal_rows _ _ _ _ _ Hent Hent'); reflexivity).
  assert (Transaction.tx_Type tx = Transaction.TypeVirtual) as Hty by congruence.
  split_and!; [by rewrite <- Hfv|done|done|congruence|congruence|by rewrite Da|..].
  - rewrite E1 in Hbooks. cbn [transactions set_transactions] in Hbooks. rewrite update_inserted in Hbooks; [by eexists|by apply wf_transactions|].
    intros r [_ Hr]%andb_true_iff. apply Z.eqb_eq in Hr. rewrite <- Hti. exact Hr.
  - congruence.
  - intros k. rewrite Hpost; [|by rewrite Dc, Da, Htk, <- Hc0|by right; left]. rewrite E1.
    unfold Transaction.postings. rewrite Hty. cbn. unfold Transaction.merchant_key, Transaction.NetworkID.
    rewrite Dm, Hm, Dc, <- Hc0, Dx, Htest, Hfv.
    change (Transaction.stored k (set_transactions ?t ?d)) with (Transaction.stored k d).
    rewrite !bool_decide_false by done. cbn [Transaction.posted]. lia.
Qed.

(** *** The payment of a top-up *)
Definition topup_payment (merchantID : Z) (amount : Money) (row : Row.Payment) : Prop :=
  Row.p_Status row = Payment.StatusSuccess /\ Row.p_MerchantID row = merchantID /\
  Row.p_Price row = BigIntToNumeric (val amount) /\ Row.p_Currency row = m_ticker amount.

Lemma wp_live_merchant id w (Q : res Merchant.Merchant -> world -> Prop) :
  (forall w' r, db w' = db w -> is_ok r = false -> Q r w') ->
  (forall w' mt row, db w' = db w -> row ∈ rows (merchants (db w)) -> Row.mt_ID row = id -> Valid (Row.mt_DeletedAt row) = false ->
     Merchant.mer_ID mt = id -> Q (Ok mt) w') ->
  wp (Merchant.GetByID id false) w Q.
Proof.
  intros Hbad Hgood. apply Payment.wp_MerchantGetByID. intros w1 E1. destruct (one _) as [row|e|p] eqn:Eo; [|by apply Hbad..].
  apply one_select_inv in Eo as [Hin [Hid Hlive]%andb_true_iff]. unfold by_id in Hid. change (row_id row) with (Row.mt_ID row) in Hid.
  apply (Hgood _ _ row); [done|done|lia| |cbn; lia]. unfold trashed_ok in Hlive. cbn in Hlive. by destruct (Valid _).
Qed.

Lemma wp_payment_topup basePath merchantID props w : schema_ok (db w) ->
  wp (Payment.CreateSystemTopup basePath merchantID props) w (fun r w' => forall pt, r = Ok pt -> exists row,
    db w' = set_payments (insert_row row (payments (db w))) (db w) /\
    topup_payment merchantID (Payment.cip_Money props) (row (next_id (payments (db w)))) /\ Payment.pay_ID pt = next_id (payments (db w)) /\
    schema_ok (db w')).
Proof.
  intros Hok. pose proof (proj2 (ledger_schema _ _ (payment_Topup_ledger basePath merchantID props w)) Hok) as Hok'.
  enough (wp (Payment.CreateSystemTopup basePath merchantID props) w (fun r w' => forall pt, r = Ok pt -> exists row,
    db w' = set_payments (insert_row row (payments (db w))) (db w) /\
    topup_payment merchantID (Payment.cip_Money props) (row (next_id (payments (db w)))) /\ Payment.pay_ID pt = next_id (payments (db w)))) as Hwp.
  { unfold wp in Hwp |- *. intros pt Er. destruct (Hwp pt Er) as (row & ? & ? & ?). by exists row. }
  unfold Payment.CreateSystemTopup. destruct (negb _); [by wp_step|]. wp_step. apply wp_live_merchant; [by intros w1 [|e|p]|].
  intros w1 mt _ E1 _ _ _ Hm. wp_step. apply Payment.wp_order_exists. intros w2 E2. rewrite E1 in E2 |- *.
  destruct (Payment.payment_of _ _) as [p|e|s]; [by wp_step| |done]. unfold BigInt.
  wp_step. apply wp_now. intros now w3 E3. wp_step. apply wp_uuid. intros u w4 E4. wp_step. apply wp_query.
  rewrite E4, E3, E2. cbn [cp_Price cp_Metadata cp_MerchantID cp_MerchantOrderUuid]. rewrite Payment.numeric_of_Z.
  destruct (Payment.pg_jsonb_ToJSONB {[Payment.MetaInternalPayment := "system topup"]}) as (j & Ej & _). rewrite Ej.
  cbn [mbind res_bind mret res_ret]. destruct (existsb _ _); cbn [fst snd]; intros w5 E5; [done|]. wp_step. intros pt Ep.
  eexists. split; [exact E5|]. split; [|revert Ep; unfold Payment.entryToPayment; destruct (Payment.paymentPrice _ _); cbn; [by intros [= <-]|done..]].
  by split_and!.
Qed.

(** *** The top-up *)
Context (Hcanonical : forall s c, GetCurrencyByTicker s = Ok c -> GetCurrencyByTicker (cc_Ticker c) = Ok c).

(** What a top-up of [amount] leaves when it succeeds. *)
Definition topup_posted (merchantID : Z) (input : TopupInput) (d : DB) (out : TopupOut) (d' : DB) : Prop :=
  let amount := val (ti_Amount input) in
  0 < amount /\ covers (ti_Currency input) (ti_IsTest input) amount d /\
  (exists row, row ∈ rows (merchants d) /\ Row.mt_ID row = merchantID /\ Valid (Row.mt_DeletedAt row) = false) /\
  (exists row trow, topup_payment merchantID (ti_Amount input) (row (next_id (payments d))) /\
     Transaction.only_books (set_transactions (insert_row trow (transactions d)) (set_payments (insert_row row (payments d)) d)) d') /\
  Transaction.tx_ID (to_Transaction out) = next_id (transactions d) /\
  Transaction.tx_Status (to_Transaction out) = Transaction.StatusCompleted /\ Transaction.tx_MerchantID (to_Transaction out) = merchantID /\
  Transaction.tx_EntityID (to_Transaction out) = next_id (payments d) /\ val (Transaction.tx_Amount (to_Transaction out)) = amount /\
  forall k, Transaction.stored k d' = Transaction.stored k d + Transaction.posting k
    (Transaction.mkBalanceKey WalletBalance.EntityTypeMerchant merchantID (ChooseNetwork (ti_Currency input) (ti_IsTest input))
      (cc_Ticker (ti_Currency input))) amount.

Lemma wp_topup merchantID input w : schema_ok (db w) ->
  GetCurrencyByTicker (cc_Ticker (ti_Currency input)) = Ok (ti_Currency input) ->
  wp (TopupMerchantFromSystem config merchantID input) w (fun r w' => forall out, r = Ok out ->
    topup_posted merchantID input (db w) out (db w')).
Proof.
  intros Hok Hcan. unfold TopupMerchantFromSystem. do 2 wp_step. apply wp_live_merchant; [by intros w1 [|e|p]|].
  intros w1 mt mrow E1 Hin Hmid Hlive Hmer. cbn [wrap]. do 2 wp_step. apply wp_locate; [by rewrite E1|by intros w2 [|e|p]|].
  intros w2 b E2 Hcov. rewrite E1 in E2, Hcov. cbn [wrap]. do 3 wp_step. destruct (WalletBalance.Covers b _) as [[]|e|p] eqn:Ec; cbn [wrap]; [|done..].
  specialize (Hcov _ Ec). do 2 wp_step. apply WalletTransaction.wp_pure; [apply crypto_to_fiat_pure|]. intros r3 w3 E3. rewrite E2 in E3.
  destruct r3 as [conv|e|p]; cbn [wrap]; [|done..]. wp_step. apply wp_uuid. intros u w4 E4. rewrite E3 in E4. do 2 wp_step.
  destruct (Money_String _) as [text|e|p]; [|done..]. do 2 wp_step.
  eapply wp_mono; [apply wp_payment_topup; by rewrite E4|]. rewrite E4, Hmer. intros [pt|e|p] w5 Hpt; cbn [wrap]; [|done..].
  destruct (Hpt pt eq_refl) as (row & E5 & Hpay & Hpid & Hok5). do 2 wp_step.
  eapply wp_mono; [apply wp_CreateSystemTopup; [done|exact Hcan]|]. intros [tx|e|p] w6 Htx; [| |done].
  2: { wp_step. eapply (wp_mono _ _ (fun _ _ => True)); [done|]. intros [[]|e'|p'] w7 _; cbn [wrap]; [by wp_step|done..]. }
  do 2 wp_step. unfold WalletBalance.GetMerchantBalance, GetBalanceByFilter. wp_step. apply wp_not_found, wp_read. intros w7 E7.
  destruct (one _) as [brow|e|p]; [|by repeat case_match|done]. wp_step. destruct (WalletBalance.entryToBalance brow) as [bal|e|p]; cbn [wrap]; [|done..].
  wp_step. intros out [= <-]. destruct (Htx tx eq_refl) as (Hpos & Hst & Hty & Hm & He & Ha & (trow & Hbooks) & Htid & Hpost).
  cbn [to_Transaction]. rewrite E5 in Hbooks, Hpost. split_and!; try done.
  - by exists mrow.
  - exists row, trow. split; [done|]. by rewrite E7.
  - cbn [to_Transaction]. by rewrite Htid, E5.
  - cbn [to_Transaction]. rewrite He. cbn. by rewrite Hpid.
  - intros k. rewrite E7. apply Hpost.
Qed.

Lemma wp_command args answer w : schema_ok (db w) ->
  wp (topupBalance config args answer) w (fun r w' =>
    (confirm answer = false \/ r = Ok None -> db w' = db w) /\
    forall out, r = Ok (Some out) -> confirm answer = true /\ ta_Comment args <> "" /\ exists currency amount,
      GetCurrencyByTicker (ta_Ticker args) = Ok currency /\
      CryptoFromStringFloat (cc_Ticker currency) (ta_Amount args) (cc_Decimals currency) = Ok amount /\
      topup_posted (ta_MerchantID args) (mkTopup currency amount (ta_Comment args) (ta_IsTest args)) (db w) out (db w')).
Proof.
  intros Hok. unfold topupBalance. do 3 wp_step. destruct (GetCurrencyByTicker (ta_Ticker args)) as [currency|e|p] eqn:Ec; cbn [wrap]; [|done..].
  do 3 wp_step. destruct (CryptoFromStringFloat _ _ _) as [amount|e|p] eqn:Ea; cbn [wrap]; [|done..].
  do 2 wp_step. apply wp_live_merchant; [by intros w1 [|e|p]|]. intros w1 mt mrow E1 _ _ _ Hmer. cbn [wrap].
  case_bool_decide as Hcom; [by wp_step|]. do 2 wp_step. apply wp_system_balances; [by rewrite E1|intros w2 [|e|p] E2; by rewrite ?E2|].
  intros w2 bs E2 _. rewrite E1 in E2. cbn [wrap]. destruct (List.find _ _) as [b|]; [|by wp_step]. unfold printed. do 2 wp_step.
  destruct (Money_String amount) as [ta|e|p]; [|by rewrite E2..]. do 2 wp_step. destruct (Money_String _) as [tb|e|p]; [|by rewrite E2..].
  destruct (confirm answer) eqn:Ey; cbn [negb]; [|wp_step; by rewrite E2].
  do 2 wp_step. eapply wp_mono; [apply wp_topup; [by rewrite E2|cbn; by eapply Hcanonical]|].
  intros [out|e|p] w3 Hout; cbn [wrap]; [|by split; [intros [|]|]..]. specialize (Hout out eq_refl). rewrite E2, Hmer in Hout.
  do 2 wp_step. destruct (Money_String _) as [tc|e|p]; [|by split; [intros [|]|]..]. do 2 wp_step.
  destruct (Money_String _) as [td|e|p]; [|by split; [intros [|]|]..]. wp_step. split; [by intros [|]|]. intros out' [= <-].
  split; [done|]. split; [done|]. by exists currency, amount.
Qed.
End Topup.

(** ** Properties *)

(** Looking a currency up by its own ticker, as the resolver of the program does
    it. *)
Lemma ToUpper_idempotent s : ToUpper (ToUpper s) = ToUpper s.
Proof.
  unfold ToUpper. f_equal. rewrite bytes_of_bytes, <- list_fmap_compose. apply list_fmap_ext. intros i c _.
  by destruct c as [[] [] [] [] [] [] [] []].
Qed.
Lemma canonical_ticker (r : CurrencyResolver) : ResolverLaws (H := CurrencyResolver_Resolver r) -> forall s c,
  GetCurrencyByTicker (Resolver := CurrencyResolver_Resolver r) s = Ok c ->
  GetCurrencyByTicker (Resolver := CurrencyResolver_Resolver r) (cc_Ticker c) = Ok c.
Proof.
  intros Hr s c Hc. rewrite (currency_ticker (H := CurrencyResolver_Resolver r) _ _ Hc). revert Hc. cbn. unfold resolve_ticker.
  by rewrite ToUpper_idempotent.
Qed.

(** C24. The top-up command of the operator. Unless the prompt is answered with
    yes, it changes nothing. When it reports success, the amount read from the
    command line is positive and was covered by what the gateway's wallets hold
    of the currency beyond what the merchants are owed; the merchant exists; and
    exactly this has happened: the merchant's balance has grown by the amount
    and no other balance has changed, one successful payment of the amount has
    been added, and one completed transaction of it; apart from the audit log,
    everything else in the database is as it was. *)
Theorem system_topup `{Resolver} `{Catalog} `{BlockchainService} `{!BlockchainLaws} `{Payment.Publisher} `{Wallet.KMS} `{Btcutil}
  `{Tatum.TatumAPI} (config : Config) (args : TopupArgs) (answer : res string) (w : world) (Hok : schema_ok (db w))
  (Hcanonical : forall s c, GetCurrencyByTicker s = Ok c -> GetCurrencyByTicker (cc_Ticker c) = Ok c) :
  let '(r, w') := topupBalance config args answer w in
  (confirm answer = false \/ r = Ok None -> db w' = db w) /\
  forall out, r = Ok (Some out) -> confirm answer = true /\ exists currency amount,
    GetCurrencyByTicker (ta_Ticker args) = Ok currency /\
    CryptoFromStringFloat (cc_Ticker currency) (ta_Amount args) (cc_Decimals currency) = Ok amount /\
    topup_posted (ta_MerchantID args) (mkTopup currency amount (ta_Comment args) (ta_IsTest args)) (db w) out (db w').
Proof.
  pose proof (wp_command config Hcanonical args answer w Hok) as Hwp. unfold wp in Hwp. destruct (topupBalance config args answer w) as [r w'].
  destruct Hwp as [Hno Hyes]. split; [exact Hno|]. intros out Hr. destruct (Hyes out Hr) as (Hc & _ & Hex). by split.
Qed.

(** ** Witness: a merchant is credited from what a wallet holds *)
Definition priced_node : BlockchainService := {|
  CalculateFee _ _ _ := fail (ENew "no node");
  CalculateWithdrawalFeeUSD _ _ _ := fail (ENew "no node");
  FiatToFiat m c := fail (ENew "no rates");
  FiatToCrypto m c := fail (ENew "no rates");
  CryptoToFiat m c := mret (Convertor.mkConversion Convertor.ConversionTypeCryptoToFiat f64_zero m (mkMoney Fiat USD (Some 10) 2));
  BroadcastTransaction _ _ _ := fail (ENew "no node");
  GetTransactionReceipt _ _ _ := fail (ENew "no node");
  ListIncomingTransactions _ _ _ := mret []
|}.
Lemma priced_node_laws : BlockchainLaws (H := priced_node).
Proof. split; cbn; intros; (apply steps_fail; tc_solve) || (apply steps_ret; tc_solve). Qed.
#[local] Existing Instances Merchant.eth_resolver priced_node priced_node_laws Wallet.sample_KMS ex_btcutil.
#[local] Instance known : Catalog := CurrencyResolver_Catalog NewCurrencies.
#[local] Instance no_bus : Payment.Publisher := fun _ _ _ _ => Ok tt.
#[local] Instance offline : Tatum.TatumAPI := {|
  Tatum.post_subscription _ _ _ _ := Err (ENew "offline"); Tatum.hmac_sha512_base64 _ body := body |}.

Definition till : Config := mkConfig "https://pay.example" "https://pay.example" "/p" f64_zero.
Definition wallet_key (entityType : string) (id : Z) : Transaction.BalanceKey := Transaction.mkBalanceKey entityType id "1" "ETH".
Definition funded : world := (WalletBalance.UpdateBalance (WalletBalance.mkUpdateBalanceQuery 7 WalletBalance.EntityTypeWallet
  WalletBalance.OperationIncrement Merchant.eth_coin (mkMoney Crypto "ETH" (Some 100) 18) "deposit" None false) Merchant.shop_world).2.
Definition refund : TopupArgs := mkTopupArgs 1 "eth" "0.00000000000000005" "support" false.

Lemma system_topup_witness : exists out w', topupBalance till refund (Ok "Yes ") funded = (Ok (Some out), w') /\
  Transaction.stored (wallet_key "merchant" 1) (db w') = 50 /\ Transaction.stored (wallet_key "wallet" 7) (db w') = 100.
Proof.
  assert (schema_ok (db funded)) as Hok by (apply (WalletBalance.UpdateBalance_schema _ Merchant.shop_world), Merchant.shop_schema).
  assert (match (topupBalance till refund (Ok "Yes ") funded).1 with Ok (Some _) => true | _ => false end = true) as Hr by by vm_compute.
  pose proof (system_topup till refund (Ok "Yes ") funded Hok) as HT.
  assert (forall s c, GetCurrencyByTicker s = Ok c -> GetCurrencyByTicker (cc_Ticker c) = Ok c) as Hcan.
  { apply canonical_ticker. apply (resolver_of_laws [Merchant.eth_coin; Merchant.eth_usdt]), (bool_decide_unpack _). by vm_compute. }
  specialize (HT Hcan). destruct (topupBalance _ _ _ _) as [[[out|]|e|p] w']; cbn [fst] in Hr; try discriminate Hr.
  destruct HT as [_ HT]. destruct (HT out eq_refl) as (_ & currency & amount & Ec & Ea & (_ & _ & _ & _ & _ & _ & _ & _ & _ & Hk)).
  assert (currency = Merchant.eth_coin) as -> by (vm_compute in Ec; by injection Ec as <-).
  assert (amount = mkMoney Crypto "ETH" (Some 50) 18) as -> by (vm_compute in Ea; by injection Ea as <-).
  exists out, w'. split; [reflexivity|]. split; rewrite Hk; by vm_compute.
Defined.
