(* ===== verification/Cron.v ===== *)
(** * Cron: how a job is run and what is logged of it

    The closure [runJob] of [makeCron] in [internal/app/app.go] and the job log
    of [internal/log/joblogger.go], a table of its own threaded by [Tracked]
    (see [Flow]). What a job writes to the log itself is not modelled, nor are
    the cron and the logger. *)

From S2P Require Import Prelude GoLib KmsWallet Money Repository Queries Flow.
From S2P Require Payment Accounts.

(** ** internal/log/joblogger.go *)
Inductive Level := Emergency | Alert | Critical | Error | Warning | Notice | Info | Debug_.
Definition Level_code (l : Level) : Z :=
  match l with
  | Emergency => 0 | Alert => 1 | Critical => 2 | Error => 3 | Warning => 4 | Notice => 5 | Info => 6 | Debug_ => 7
  end.
Definition Level_String (l : Level) : string :=
  match l with
  | Emergency => "emergency" | Alert => "alert" | Critical => "critical" | Error => "error" | Warning => "warning"
  | Notice => "notice" | Info => "info" | Debug_ => "debug"
  end.

Record JobLogRow := mkJobLogRow {
  jl_ID : Z; jl_CreatedAt : Z; jl_Level : Z; jl_JobID : NullString; jl_Message : string; jl_Metadata : JSONB
}.
#[export] Instance JobLogRow_id : HasID JobLogRow := jl_ID.
Abbreviation JobLogs := (Table JobLogRow).
Record JobLog := mkJobLog { lg_ID : Z; lg_CreatedAt : Z; lg_Level : Z; lg_JobID : string; lg_Message : string; lg_Metadata : metadata }.

(** The column of the id holds 128 characters. *)
Definition CreateJobLog (createdAt level : Z) (jobID : NullString) (message : string) (meta : JSONB) : Tracked JobLogs unit := fun s =>
  mret (if Accounts.fits_null 128 jobID then (insert_row (fun id => mkJobLogRow id createdAt level jobID message meta) s, inl tt)
        else (skip_id s, inr Accounts.string_data_right_truncation)).
(** No row has an id that equals null. *)
Definition ListJobLogsByID (jobID : NullString) (limit : Z) : Tracked JobLogs (list JobLogRow) := fun s =>
  items ← attempt (lift (limit_rows limit (select (fun r => Valid jobID && bool_decide (jl_JobID r = jobID)) s)));
  mret (s, items).

Definition Log (level : Level) (jobID msg : string) (meta : metadata) : Tracked JobLogs unit :=
  let metadataRaw := if bool_decide (meta = ∅) then jsonb_null else mkJSONB meta Present in
  createdAt ← call time_Now;
  _ ← try (CreateJobLog createdAt (Level_code level) (mkNull jobID true) msg metadataRaw);
  mret tt.
Definition entryToJobLog (e : JobLogRow) : JobLog :=
  mkJobLog (jl_ID e) (jl_CreatedAt e) (jl_Level e) (null_val (jl_JobID e)) (jl_Message e) (jb_Bytes (jl_Metadata e)).
Definition ListByJobID (jobID : string) (limit : Z) : Tracked JobLogs (list JobLog) :=
  entries ← ListJobLogsByID (StringToNullable jobID) (int32 limit);
  mret (map entryToJobLog entries).

(** ** [Duration.String] of the Go standard library *)
Definition trimmed_fraction (v : Z) (prec : nat) : string :=
  let digits := drop 1 (bytes (FormatInt (10 ^ Z.of_nat prec + v mod 10 ^ Z.of_nat prec))) in
  match trim_right "0" digits with [] => "" | l => "." +:+ of_bytes l end.
Definition Duration_String (d : Z) : string :=
  let u := Z.abs d in
  let text :=
    if u =? 0 then "0s"
    else if u <? 1000 then FormatInt u +:+ "ns"
    else if u <? 1000000 then FormatInt (u / 1000) +:+ trimmed_fraction u 3 +:+ "µs"
    else if u <? 1000000000 then FormatInt (u / 1000000) +:+ trimmed_fraction u 6 +:+ "ms"
    else
      let secs := u / 1000000000 in
      (if 3600 <=? secs then FormatInt (secs / 3600) +:+ "h" else "") +:+
      (if 60 <=? secs then FormatInt (secs / 60 mod 60) +:+ "m" else "") +:+
      FormatInt (secs mod 60) +:+ trimmed_fraction u 9 +:+ "s" in
  (if d <? 0 then "-" else "") +:+ text.
Example durations : map Duration_String [0; 999; 1500; 2000000; 1500000000; 90061000000001; -61000000000] =
  ["0s"; "999ns"; "1.5µs"; "2ms"; "1.5s"; "25h1m1.000000001s"; "-1m1s"].
Proof. by vm_compute. Qed.

(** ** internal/app/app.go *)
(** A deferred [recover] turns a panic into a value. *)
Definition recovered {A} (m : Go A) : Go (res A) := fun w => let '(r, w') := m w in (Ok r, w').
Definition timeTaken (since : Z) : Go string := now ← time_Now; mret (Duration_String (Payment.time_Sub now since)).

Definition job_id (name : string) (at_ : Z) : string := name +:+ "-" +:+ FormatInt (at_ / 1000000000).
Definition runJob (name : string) (job : Go unit) (enableTableLogging : bool) : Tracked JobLogs unit :=
  at_ ← call time_Now;
  let jobID := job_id name at_ in
  let jobLog level message meta := if enableTableLogging then Log level jobID message meta else mret tt in
  start ← call time_Now;
  let withMeta errorMsg := (taken ← call (timeTaken start); mret (<["time_taken" := taken]> {["error" := errorMsg]}) : Tracked JobLogs metadata) in
  _ ← jobLog Info "starting job" ∅;
  r ← call (recovered job);
  match r with
  | Ok _ => meta ← withMeta ""; jobLog Info "job completed" meta
  | Err err => meta ← withMeta (error_string err); jobLog Error "job failed" meta
  | Panic _ => meta ← withMeta ""; jobLog Error "job failed (panic!)" meta
  end.

(** ** Properties *)

(** The entry an outcome of a job is logged as. *)
Definition outcome_entry (r : res unit) (row : JobLogRow) : Prop :=
  jb_Bytes (jl_Metadata row) !! "error" = Some (match r with Err err => error_string err | _ => "" end) /\
  (jl_Level row, jl_Message row) =
    match r with
    | Ok _ => (Level_code Info, "job completed")
    | Err _ => (Level_code Error, "job failed")
    | Panic _ => (Level_code Error, "job failed (panic!)")
    end.

Lemma wp_Log level jobID msg meta s w (Q : res (JobLogs * (unit + error)) -> world -> Prop) :
  (forall s' w' row, db w' = db w -> jl_JobID (row (next_id s)) = mkNull jobID true -> jl_Level (row (next_id s)) = Level_code level ->
     jl_Message (row (next_id s)) = msg -> (meta <> ∅ -> jb_Bytes (jl_Metadata (row (next_id s))) = meta) ->
     s' = (if Accounts.fits 128 jobID then insert_row row s else skip_id s) -> Q (Ok (s', inl tt)) w') ->
  wp (Log level jobID msg meta s) w Q.
Proof.
  intros HQ. unfold Log. t_step. t_step. apply wp_now. intros now w1 E1. t_step. t_step. unfold CreateJobLog, Accounts.fits_null. cbn [Valid null_val negb orb].
  set (row := fun id => mkJobLogRow id now (Level_code level) (mkNull jobID true) msg (if bool_decide (meta = ∅) then jsonb_null else mkJSONB meta Present)).
  assert (meta <> ∅ -> jb_Bytes (jl_Metadata (row (next_id s))) = meta) as Hmeta by (intros Hne; cbn; by rewrite bool_decide_false).
  destruct (Accounts.fits 128 jobID); apply wp_ret; t_step; by apply (HQ _ _ row).
Qed.

(** What a run of a job leaves: the job has run once, from the database as it
    was, and two entries are logged of it, if the log is wanted and can hold its
    id. *)
Definition ran (name : string) (job : Go unit) (enabled : bool) (s : JobLogs) (w : world) (s' : JobLogs) (w' : world) : Prop :=
  exists w1, db w1 = db w /\ db w' = db (job w1).2 /\
  let jobID := job_id name (clock w (ticks w)) in
  if enabled && Accounts.fits 128 jobID
  then exists start outcome, rows s' = rows s ++ [start; outcome] /\
    jl_JobID start = mkNull jobID true /\ jl_Message start = "starting job" /\
    jl_JobID outcome = mkNull jobID true /\ outcome_entry (job w1).1 outcome
  else rows s' = rows s.

Lemma wp_recovered {A} (m : Go A) w (Q : res (res A) -> world -> Prop) : Q (Ok (m w).1) (m w).2 -> wp (recovered m) w Q.
Proof. unfold wp, recovered. by destruct (m w). Qed.

(** One entry, when the log is wanted. *)
Lemma wp_jobLog (enabled : bool) level jobID msg meta s w (Q : res (JobLogs * (unit + error)) -> world -> Prop) :
  (forall s' w', db w' = db w ->
     (if enabled && Accounts.fits 128 jobID
      then exists row, rows s' = rows s ++ [row] /\ jl_JobID row = mkNull jobID true /\ jl_Level row = Level_code level /\
        jl_Message row = msg /\ (meta <> ∅ -> jb_Bytes (jl_Metadata row) = meta)
      else rows s' = rows s) -> Q (Ok (s', inl tt)) w') ->
  wp ((if enabled then Log level jobID msg meta else mret tt) s) w Q.
Proof.
  intros HQ. destruct enabled; [|t_step; by apply HQ]. apply wp_Log. intros s' w' row E H1 H2 H3 H4 ->. apply HQ; [done|].
  cbn [andb]. destruct (Accounts.fits 128 jobID); [|done]. by exists (row (next_id s)).
Qed.

Lemma wp_runJob name job enabled s w : wp (runJob name job enabled s) w (fun out w' => exists s', out = Ok (s', inl tt) /\ ran name job enabled s w s' w').
Proof.
  unfold runJob. t_step. t_step. eapply (wp_mono _ _ (fun r w' => r = Ok (clock w (ticks w)) /\ db w' = db w)); [by split|].
  intros r w0 [-> E0]. cbv zeta. t_step. t_step. apply wp_now. intros start w1 E1. t_step. apply wp_jobLog. intros s1 w2 E2 Hs1. t_step. t_step. apply wp_recovered.
  assert (forall (level : Level) msg errorMsg s' w', outcome_entry (job w2).1 (mkJobLogRow 0 0 (Level_code level) null_string msg (mkJSONB {["error" := errorMsg]} Present)) ->
    s' = s1 -> w' = (job w2).2 ->
    wp (((taken ← call (timeTaken start); mret (<["time_taken" := taken]> {["error" := errorMsg]}) : Tracked JobLogs metadata) ≫=
        fun meta => if enabled then Log level (job_id name (clock w (ticks w))) msg meta else mret tt) s') w'
      (fun out w' => exists s', out = Ok (s', inl tt) /\ ran name job enabled s w s' w')) as Hend.
  { intros level msg errorMsg s' w' [Herr Hmsg] -> ->. t_step. t_step. t_step. unfold timeTaken. wp_step. apply wp_now. intros now w3 E3. wp_step. t_step.
    apply wp_jobLog. intros s2 w4 E4 Hs2. exists s2. split; [done|]. exists w2. split; [by rewrite E2, E1|]. split; [by rewrite E4, E3|]. cbv zeta.
    destruct (enabled && _); [|by rewrite Hs2, Hs1]. destruct Hs1 as (r1 & -> & J1 & _ & M1 & _) in Hs2. destruct Hs2 as (r2 & Hr & J2 & L2 & M2 & Hm2).
    exists r1, r2. split; [by rewrite Hr, <- app_assoc|]. split_and!; try done. split; [|by rewrite L2, M2].
    rewrite Hm2 by apply insert_non_empty. rewrite lookup_insert_ne by done. exact Herr. }
  destruct (job w2).1 as [[]|err|p]; apply Hend; done.
Qed.

(** Reading back the two entries a run has added. *)
Lemma ListByJobID_two jobID limit (s s' : JobLogs) start outcome w : StringToNullable jobID = mkNull jobID true ->
  2 <= limit < 2 ^ 31 -> jl_JobID start = mkNull jobID true -> jl_JobID outcome = mkNull jobID true ->
  rows s' = rows s ++ [start; outcome] -> select (fun r => bool_decide (jl_JobID r = mkNull jobID true)) s = [] ->
  ListByJobID jobID limit s' w = (Ok (s', inl [entryToJobLog start; entryToJobLog outcome]), w).
Proof.
  intros Hnull Hl J1 J2 Hr Hnew. unfold ListByJobID. rewrite Hnull. unfold ListJobLogsByID. cbn [Valid andb].
  assert (int32 limit = limit) as ->.
  { unfold int32, wrap_signed. rewrite Z.mod_small by lia. by rewrite (proj2 (Z.ltb_lt _ _)) by lia. }
  assert (select (fun r => bool_decide (jl_JobID r = mkNull jobID true)) s' = [start; outcome]) as Hsel.
  { unfold select in *. rewrite Hr, List.filter_app, Hnew. cbn [List.filter app]. by rewrite J1, J2, !bool_decide_true by done. }
  unfold mbind, Tracked_bind, mbind, M_bind, limit_rows. rewrite Hsel, (proj2 (Z.ltb_ge limit 0)) by lia.
  replace (Z.to_nat limit) with (S (S (Z.to_nat (limit - 2)))) by lia. cbn. by rewrite take_nil.
Qed.

(** Running a job. However the job ends - it succeeds, fails or panics -,
    the run ends normally, so the cron goes on, and what the job did to the
    database stays. When the job is to be logged, its log gets two entries, that
    it starts and how it ended, with the error it failed with; and asking for
    the log of the run gives exactly these two, when the id of the run is new. *)
Theorem cron_survives (name : string) (job : Go unit) (enabled : bool) (s : JobLogs) (w : world) :
  exists s' w', runJob name job enabled s w = (Ok (s', inl tt), w') /\ ran name job enabled s w s' w' /\
  let jobID := job_id name (clock w (ticks w)) in
  (enabled = true -> Accounts.fits 128 jobID = true -> select (fun r => bool_decide (jl_JobID r = mkNull jobID true)) s = [] ->
   forall limit w2, 2 <= limit < 2 ^ 31 -> exists start outcome, ListByJobID jobID limit s' w2 = (Ok (s', inl [start; outcome]), w2) /\
     lg_Message start = "starting job").
Proof.
  pose proof (wp_runJob name job enabled s w) as Hwp. unfold wp in Hwp. destruct (runJob name job enabled s w) as [out w']. cbn [fst snd] in Hwp.
  destruct Hwp as (s' & -> & Hran). exists s', w'. split; [done|]. split; [exact Hran|]. cbv zeta. intros -> Hfit Hnew limit w2 Hl.
  destruct Hran as (w1 & _ & _ & Hlog). cbv zeta in Hlog. rewrite Hfit in Hlog. destruct Hlog as (start & outcome & Hr & J1 & M1 & J2 & _).
  exists (entryToJobLog start), (entryToJobLog outcome). split; [|exact M1].
  assert (StringToNullable (job_id name (clock w (ticks w))) = mkNull (job_id name (clock w (ticks w))) true) as Hnull.
  { unfold StringToNullable, job_id. by destruct name. }
  apply (ListByJobID_two _ _ _ _ _ _ w2 Hnull Hl J1 J2 Hr Hnew).
Qed.
