(* ===== verification/Bus.v ===== *)
(** * Bus: events from the services to their consumers

    [internal/bus], the consumers [internal/app/app.go] registers and the
    message [internal/slack] posts. The bus is that of [asaskevich/EventBus],
    an interface here: [EvBus] has what is used of it and [EvBusLaws] what it
    promises, that publishing calls every callback of the topic. Callbacks run
    one after another, in any order. The encoding of an event as JSON is an
    interface too. *)

From S2P Require Import Prelude GoLib KmsWallet Money Repository Bitcoin Blockchain Currencies Flow.
From S2P Require Import Processing Incoming Transfers Payouts.
From S2P Require Wallet Transaction Payment Tatum Events Accounts Console Cron.

(** ** internal/bus/schema.go *)
Definition TopicFormSubmissions : string := "form.submitted".
Definition TopicUserRegistered : string := "user.registered".

Record PaymentStatusUpdateEvent := mkPaymentStatusUpdate { ps_MerchantID : Z; ps_PaymentID : Z }.
Record WithdrawalCreatedEvent := mkWithdrawalCreated { wc_MerchantID : Z; wc_PaymentID : Z }.
Record FormSubmittedEvent := mkFormSubmitted { fs_RequestType : string; fs_Message : string; fs_UserID : Z }.
Record UserRegisteredEvent := mkUserRegistered { ur_UserID : Z }.

(** An event has a zero value and an encoding. *)
Class Event (T : Type) := {
  empty_event : T; event_eqb : T -> T -> bool;
  Marshal : T -> string; Unmarshal : string -> res T
}.
Class EventLaws (T : Type) `{Event T} : Prop := {
  event_eqb_eq (a b : T) : event_eqb a b = true <-> a = b;
  Unmarshal_Marshal (a : T) : Unmarshal (Marshal a) = Ok a
}.

(** ** internal/bus/bus.go *)
Definition Bind {T} `{Event T} (input : string) : res T :=
  match Unmarshal input with
  | Ok value => if event_eqb value empty_event then Err (ENew "message is empty") else Ok value
  | Err err => Err (EWrap err "unable to bind message")
  | Panic why => Panic why
  end.

Section PubSub.
Context {S : Type}.

(** What the consumers share besides the database is [S]. *)
Definition Consumer : Type := string -> Tracked S unit.
Definition Callback : Type := string -> S -> Go S.

Class EvBus := {
  evbus : Type; evbus_New : evbus;
  evbus_Subscribe : bool -> string -> Callback -> evbus -> evbus;
  evbus_Publish : string -> string -> evbus -> S -> Go S;
  callbacks : evbus -> string -> list Callback
}.

(** The callbacks run one after another, whatever happened in between. *)
Fixpoint run_callbacks (message : string) (l : list Callback) (s : S) : Go S :=
  match l with [] => mret s | f :: l => s ← f message s; run_callbacks message l s end.

Class EvBusLaws `{EvBus} : Prop := {
  callbacks_New topic : callbacks evbus_New topic = [];
  callbacks_Subscribe async topic f b topic' :
    callbacks (evbus_Subscribe async topic f b) topic' =
      callbacks b topic' ++ (if bool_decide (topic = topic') then [f] else []);
  evbus_Publish_calls topic message b s w : exists order w0, order ≡ₚ callbacks b topic /\ db w0 = db w /\
    evbus_Publish topic message b s w = run_callbacks message order s w0
}.

(** A consumer that fails or panics is logged, no more; one that panics has not
    changed [S]. *)
Definition wrapper (fn : Consumer) : Callback := fun message s =>
  r ← Cron.recovered (fn message s);
  match r with Ok (s', _) => mret s' | _ => mret s end.

Context `{EvBus}.
Definition Subscribe (async : bool) (topic : string) (fn : Consumer) (b : evbus) : evbus :=
  evbus_Subscribe async topic (wrapper fn) b.
(** The topics of a handler come in any order, the consumers of one in theirs. *)
Definition RegisterHandler (async : bool) (consumers : list (string * list Consumer)) (b : evbus) : evbus :=
  foldl (fun b h => foldl (fun b c => Subscribe async h.1 c b) b h.2) b consumers.
Definition Publish {T} `{Event T} (topic : string) (message : T) (b : evbus) : Tracked S unit := fun s =>
  s' ← evbus_Publish topic (Marshal message) b s; mret (s', inl tt).
End PubSub.
Arguments Consumer : clear implicits.
Arguments Callback : clear implicits.
Arguments EvBus : clear implicits.
Arguments EvBusLaws : clear implicits.

(** A bus that keeps the promises: the subscriptions in their order. *)
Section Plain.
Context {S : Type}.
#[local] Instance plain_bus : EvBus S := {
  evbus := list (string * Callback S); evbus_New := [];
  evbus_Subscribe async topic f b := b ++ [(topic, f)];
  evbus_Publish topic message b s := run_callbacks message (map snd (List.filter (fun h => bool_decide (h.1 = topic)) b)) s;
  callbacks b topic := map snd (List.filter (fun h => bool_decide (h.1 = topic)) b)
}.
Lemma plain_bus_laws : EvBusLaws S plain_bus.
Proof.
  split; [done| |].
  - intros async topic f b topic'. cbn. rewrite List.filter_app, map_app. cbn. by destruct (bool_decide (topic = topic')).
  - intros topic message b s w. by eexists _, w.
Qed.
End Plain.

(** ** internal/slack/sender.go

    [http.Post] answers nothing the sender looks at; [quote] is the verb [%q]. *)
Class SlackHTTP := { http_Post : string -> string -> string -> nat -> res unit; quote : string -> string }.
Section Slack.
Context `{SlackHTTP}.
Definition nl : string := String "010" "".
Definition tab : string := String "009" "".
Definition dq (s : string) : string := String "034" s +:+ String "034" "".
Definition slackSection (content : string) : string :=
  "{" +:+ nl +:+ tab +:+ tab +:+ dq "type" +:+ ": " +:+ dq "section" +:+ "," +:+ nl +:+ tab +:+ tab +:+ dq "text" +:+ ": { " +:+
  dq "type" +:+ ": " +:+ dq "mrkdwn" +:+ ", " +:+ dq "text" +:+ ": " +:+ quote content +:+ " }" +:+ nl +:+ tab +:+ "}".
Definition SendWebhook_body (markdownSections : list string) : string :=
  "{ " +:+ dq "blocks" +:+ ": [" +:+ String.concat ", " (map slackSection (List.filter (fun s => negb (bool_decide (s = ""))) markdownSections)) +:+ "] }".
#[export] Instance SendWebhook : Accounts.Slack := fun webhookURL markdownSections n =>
  http_Post webhookURL "application/json" (SendWebhook_body markdownSections) n.
End Slack.

(** ** internal/app/app.go: who listens to what *)
(** A consumer of the events of a type. *)
Definition consumer {S T} `{Event T} (f : T -> Tracked S unit) : Consumer S := fun message =>
  event ← call (lift (Bind message)); f event.

Section Handlers.
Context `{Resolver} `{Catalog} `{BlockchainService} `{Payment.Publisher} `{Scheduler} `{Events.WebhookClient} `{Accounts.Slack}.
Context `{WalletTransaction.KMSTransactions} `{UTXOProviders} `{Btcutil}.
Context `{Event PaymentStatusUpdateEvent} `{Event WithdrawalCreatedEvent} `{Event FormSubmittedEvent} `{Event UserRegisteredEvent}.
Context (config : Config) (env slackWebhookURL : string) (quote_ : string -> string) `{EvBus Accounts.Accounts}.

Definition ProcessPaymentStatusUpdate (e : PaymentStatusUpdateEvent) : Go unit :=
  Events.ProcessPaymentStatusUpdate config (ps_MerchantID e) (ps_PaymentID e).
Definition NotifySuccess (e : PaymentStatusUpdateEvent) : Go unit :=
  Console.SendSuccessfulPaymentNotification config slackWebhookURL quote_ (ps_MerchantID e) (ps_PaymentID e).
Definition payment_Consumers : list (string * list (Consumer Accounts.Accounts)) :=
  [(Payment.TopicPaymentStatusUpdate, [consumer (fun e => call (ProcessPaymentStatusUpdate e)); consumer (fun e => call (NotifySuccess e))]);
   (Payment.TopicWithdrawals, [consumer (fun e => call (Events.ProcessWithdrawals config (wc_PaymentID e)))])].
Definition user_Consumers : list (string * list (Consumer Accounts.Accounts)) :=
  [(TopicFormSubmissions, [consumer (fun e => Accounts.FormSubmitted env slackWebhookURL (fs_RequestType e) (fs_Message e) (fs_UserID e))]);
   (TopicUserRegistered, [consumer (fun e => Accounts.UserRegistered env slackWebhookURL (ur_UserID e))])].
(** The bus of the program is asynchronous. *)
Definition registerEventHandlers (b : evbus) : evbus :=
  RegisterHandler true user_Consumers (RegisterHandler true payment_Consumers b).

(** ** Properties *)
Context `{!EvBusLaws Accounts.Accounts _} `{!EventLaws PaymentStatusUpdateEvent}.

Lemma callbacks_RegisterHandler (hs : list (string * list (Consumer Accounts.Accounts))) : forall b topic,
  callbacks (RegisterHandler true hs b) topic =
    callbacks b topic ++ concat (map (fun h => if bool_decide (h.1 = topic) then map wrapper h.2 else []) hs).
Proof.
  assert (forall t (cs : list (Consumer Accounts.Accounts)) b topic, callbacks (foldl (fun b c => Subscribe true t c b) b cs) topic =
    callbacks b topic ++ (if bool_decide (t = topic) then map wrapper cs else [])) as Hone.
  { intros t cs. induction cs as [|c cs IH];
      intros b topic; cbn [foldl map]; [by destruct (bool_decide _); rewrite app_nil_r|].
    unfold Subscribe at 2. rewrite IH, callbacks_Subscribe, <- app_assoc. by destruct (bool_decide (t = topic)). }
  unfold RegisterHandler. induction hs as [|h hs IH]; intros b topic; cbn [foldl map concat]; [by rewrite app_nil_r|]. by rewrite IH, Hone, <- app_assoc.
Qed.

(** The callbacks of a status update: each registration adds the two. *)
Lemma callbacks_status b : callbacks (registerEventHandlers b) Payment.TopicPaymentStatusUpdate =
  callbacks b Payment.TopicPaymentStatusUpdate ++
  map (fun f => wrapper (consumer (fun e => call (f e)))) [ProcessPaymentStatusUpdate; NotifySuccess].
Proof. unfold registerEventHandlers. rewrite !callbacks_RegisterHandler. cbn. by rewrite !app_nil_r. Qed.

(** The consumers of an event run to their end, whatever becomes of each. *)
Definition served {T} (event : T) (order : list (T -> Go unit)) (w : world) : world := foldl (fun w f => (f event w).2) w order.
Lemma run_consumers {S T} `{Event T, !EventLaws T} (event : T) (order : list (T -> Go unit)) : event <> empty_event ->
  forall (s : S) w, run_callbacks (Marshal event) (map (fun f => wrapper (consumer (fun e => call (f e)))) order) s w = (Ok s, served event order w).
Proof.
  intros Hne. assert (Bind (Marshal event) = Ok event) as Hbind.
  { unfold Bind. rewrite Unmarshal_Marshal. destruct (event_eqb event empty_event) eqn:E; [|done]. by apply event_eqb_eq in E. }
  assert (forall (f : T -> Go unit) (s : S) w, wrapper (consumer (fun e => call (f e))) (Marshal event) s w = (Ok s, (f event w).2)) as Hone.
  { intros f s w. unfold wrapper, Cron.recovered, consumer. rewrite Hbind.
    unfold mbind, Tracked_bind, call, attempt, lift, mret, Tracked_ret, mbind, M_bind, mret, M_ret. cbn. by destruct (f event w) as [[]]. }
  induction order as [|f order IH]; intros s w; [done|]. cbn [map run_callbacks]. unfold mbind at 1, M_bind. by rewrite Hone, IH.
Qed.

(** A change of the status of a payment. When the handlers are registered [n]
    times on the bus, once by the server and once more when the scheduler runs
    in the same process ([cmd/all_in_one.go]), publishing it never fails and
    each of the two consumers runs [n] times, in some order, whatever the others
    do, fail and panic included: the merchant is then sent [n] webhooks. *)
Theorem status_update_served n (e : PaymentStatusUpdateEvent) s w : e <> empty_event ->
  exists order w0, order ≡ₚ concat (replicate n [ProcessPaymentStatusUpdate; NotifySuccess]) /\ db w0 = db w /\
    Publish Payment.TopicPaymentStatusUpdate e (Nat.iter n registerEventHandlers evbus_New) s w = (Ok (s, inl tt), served e order w0).
Proof.
  intros Hne. set (b := Nat.iter n registerEventHandlers evbus_New).
  assert (callbacks b Payment.TopicPaymentStatusUpdate = map (fun f => wrapper (consumer (fun e => call (f e))))
    (concat (replicate n [ProcessPaymentStatusUpdate; NotifySuccess]))) as Hcb.
  { unfold b. clear b. induction n as [|n IH]; [apply callbacks_New|]. change (Nat.iter (S n) ?f ?b) with (f (Nat.iter n f b)). rewrite callbacks_status, IH, <- map_app. f_equal.
    rewrite replicate_S_end, concat_app. cbn. done. }
  destruct (evbus_Publish_calls Payment.TopicPaymentStatusUpdate (Marshal e) b s w) as (order & w0 & Hp & Hdb & Hrun).
  rewrite Hcb in Hp. destruct (Permutation_map_inv _ _ Hp) as (jobs & -> & Hjobs). exists jobs, w0. split; [done|]. split; [done|].
  unfold Publish, mbind, M_bind. by rewrite Hrun, run_consumers.
Qed.
End Handlers.
