(* ===== verification/Gateway.v ===== *)
(** * Gateway: the servers and the machine behind them

    Every way into the program: the requests its five servers answer
    ([Isolation], [Sessions], [PaymentApi], [InternalApi]), behind their
    middlewares, and, between them, what runs without a request: the jobs, the
    consumers of events ([System]) and the command of the operator ([Console]). *)

From S2P Require Import Prelude GoLib Float64 KmsWallet Money Repository Queries Fees Bitcoin Currencies Nodes Blockchain Flow.
From S2P Require Wallet WalletBalance WalletTransaction Convertor Merchant Withdrawal Tatum.
From S2P Require Import Ledger Upkeep.
From S2P Require Import Processing Incoming Transfers Payouts Scheduler Events.
From S2P Require Import Payment Accounts Identity Access MerchantApi Handlers Tenants Isolation Sessions.
From S2P Require System Checkout Tenancy PaymentApi InternalApi PublicApi Console.

(** ** Requests *)

(** The routes of the dashboard that are of a user, not of a merchant. *)
Inductive UserRoute := UserMerchants | UserCreateMerchant (body : Bound (string * string)).
Inductive Call :=
| ToAuth (request : Request) (r : AuthRoute)
| ToUser (request : Request) (r : UserRoute)
| ToDashboard (request : Request) (r : MerchantRoute)
| ToMerchantApi (request : Request) (r : MerchantRoute)
| ToPaymentApi (csrf : bool) (r : PaymentApi.PublicRoute)
| ToWebhook (networkId walletId signature : string) (body : res string)
| ToInternalApi (r : InternalApi.AdminRoute).

Section Servers.
Context `{Resolver} `{Catalog} `{BlockchainService} `{Publisher} `{Flow.Scheduler} `{MapOrder} `{Convertor.RateProvider}.
Context `{Wallet.KMS} `{WalletTransaction.KMSTransactions} `{UTXOProviders} `{Btcutil} `{Tatum.TatumAPI} `{WebhookClient}.
Context `{Mail} `{RandomStrings} `{Uuid} `{Rand} `{Bcrypt} `{UserEvents} `{FormEvents} `{OAuth} `{SessionStore}.
Context `{PaymentApi.WebhookJson} `{InternalApi.JobLogs}.
Context (config : Config) (tatumProvider : option Tatum.Config) (tatum : Tatum.Config) (quote : string -> string).
Context (authenticatedRedirectURL : string) (enabledProviders : list string).

Let basePath : string := PaymentFrontendPath config.

Definition user_handler (r : UserRoute) : Api :=
  match r with UserMerchants => ListMerchants | UserCreateMerchant body => CreateMerchant body end.

(** What a call does, for the accounts and the session [s]; the reply is left
    to the client. *)
Definition answered_by {B} (m : Tracked Site (Reply B)) : Tracked Site unit := m ≫= fun _ => mret tt.
Definition serve (call_ : Call) : Tracked Site unit :=
  match call_ with
  | ToAuth request r => answered_by (serve_auth authenticatedRedirectURL enabledProviders request r)
  | ToUser request r => answered_by (usersGroup request ApiBody (user_handler r) no_context)
  | ToDashboard request r => answered_by (serve_dashboard basePath quote request r)
  | ToMerchantApi request r => answered_by (serve_api basePath quote request r)
  | ToPaymentApi csrf r => answered_by (call (PaymentApi.serve_payment config tatumProvider quote csrf r))
  | ToWebhook networkId walletId signature body => answered_by (call (PaymentApi.ReceiveTatum config tatum networkId walletId signature body))
  | ToInternalApi r => answered_by (call (InternalApi.serve_internal config tatumProvider r))
  end.

(** The jobs and the consumers of events. *)
Definition background (a : System.action) : bool :=
  match a with
  | System.JobCheckIncoming | System.JobTransfer | System.JobCheckInternal | System.JobWithdraw
  | System.JobCheckWithdrawals | System.JobExpire | System.EventPaymentStatus _ _ | System.EventWithdrawal _ => true
  | _ => false
  end.

(** The states of the tables of the shop; a request is served for some accounts
    and some session, whichever they are. The command of the operator does not
    run in a transaction: one that panics half-way is not a step. *)
Inductive reached (w0 : world) : world -> Prop :=
| reached_start : reached w0 w0
| reached_request w c s out w' : reached w0 w -> serve c s w = (out, w') -> reached w0 w'
| reached_background w a out w' : reached w0 w -> background a = true ->
    System.run_action config tatumProvider a w = (out, w') -> reached w0 w'
| reached_command w args answer out w' : reached w0 w -> Console.topupBalance config args answer w = (out, w') ->
    is_panic out = false -> reached w0 w'
| reached_outside w w' : reached w0 w -> db w' = db w -> reached w0 w'.

(** ** Every handler keeps the ledger *)
Context `{!BlockchainLaws}.
Abbreviation kept := (on_db ledger_step).

Ltac leaf :=
  repeat first [ solve [eauto with ledger nocore] | progress ledger_steps
    | match goal with |- context [if lo_ReverseOrder ?o then _ else _] => destruct (lo_ReverseOrder o) end ].

(** *** The middlewares *)
Section Middlewares.
Context (request : Request) (B : Type) (next : HandlerFunc B) (Hnext : forall c s, wsteps kept (next c s)).
Lemma dashboard_kept c s : wsteps kept (dashboardAPI request B next c s).
Proof. rows_steps leaf. all: apply Hnext. Qed.
Lemma users_kept c s : wsteps kept (usersGroup request B next c s).
Proof. rows_steps leaf. all: apply Hnext. Qed.
Lemma merchant_kept c s : wsteps kept (merchantGroup request B next c s).
Proof. rows_steps leaf. all: apply Hnext. Qed.
Lemma merchantAPI_kept c s : wsteps kept (merchantAPI request B next c s).
Proof. rows_steps leaf. all: apply Hnext. Qed.
End Middlewares.

(** *** The handlers *)
Lemma user_handler_kept r c s : wsteps kept (user_handler r c s).
Proof. destruct r; cbn [user_handler]; rows_steps leaf. Qed.
Lemma route_handler_kept r c s : wsteps kept (route_handler basePath quote r c s).
Proof. destruct r; cbn [route_handler]; rows_steps leaf. Qed.
Lemma auth_handler_kept r c s : wsteps kept (auth_handler authenticatedRedirectURL enabledProviders r c s).
Proof. destruct r; cbn [auth_handler]; rows_steps leaf. Qed.
Lemma payment_page_kept r p : steps ledger_step (PaymentApi.pay_handler config tatumProvider r p).
Proof. destruct r; cbn [PaymentApi.pay_handler]; leaf. Qed.
#[local] Hint Resolve payment_page_kept : ledger.
#[local] Opaque PaymentApi.pay_handler.
Lemma payment_kept csrf r : steps ledger_step (PaymentApi.serve_payment config tatumProvider quote csrf r).
Proof. unfold PaymentApi.serve_payment. leaf. Qed.
Lemma webhook_kept n i sg body : steps ledger_step (PaymentApi.ReceiveTatum config tatum n i sg body).
Proof. unfold PaymentApi.ReceiveTatum. leaf. Qed.
Lemma jobs_kept : Forall (fun j => steps ledger_step j.2) (InternalApi.jobs config tatumProvider).
Proof. repeat (constructor; [cbn; eauto using EnsureOutboundWallets_ledger with ledger nocore|]). constructor. Qed.
Lemma job_kept body : steps ledger_step (InternalApi.RunSchedulerJob config tatumProvider body).
Proof.
  unfold InternalApi.RunSchedulerJob, InternalApi.bound_. destruct body as [name|items]; [|leaf].
  apply steps_bind; [tc_solve|leaf|]. intros now. destruct (List.find _ _) as [[n job]|] eqn:E; [|leaf].
  apply find_some in E as [Hin _]. apply list_elem_of_In in Hin. pose proof (proj1 (Forall_forall _ _) jobs_kept _ Hin) as Hjob. cbn in Hjob. leaf.
Qed.
#[local] Hint Resolve job_kept : ledger.
#[local] Opaque InternalApi.RunSchedulerJob.
Lemma internal_kept r : steps ledger_step (InternalApi.serve_internal config tatumProvider r).
Proof. destruct r; cbn [InternalApi.serve_internal]; leaf. Qed.
#[local] Hint Resolve payment_kept webhook_kept internal_kept : ledger.

Lemma answered_kept {B} (m : Tracked Site (Reply B)) s : wsteps kept (m s) -> wsteps kept (answered_by m s).
Proof. intros Hm. apply wsteps_tbind; [tc_solve|done|]. intros. apply rows_tret; tc_solve. Qed.
Lemma serve_kept c s : wsteps kept (serve c s).
Proof.
  destruct c as [request r|request r|request r|request r|csrf r|n i sg body|r]; cbn [serve]; apply answered_kept.
  - unfold serve_auth. destruct (guarded_route r); [apply users_kept|apply dashboard_kept]; apply auth_handler_kept.
  - apply users_kept, user_handler_kept.
  - apply merchant_kept, route_handler_kept.
  - apply merchantAPI_kept. intros c s'. destruct (common_route r); [apply route_handler_kept|apply rows_stop; tc_solve].
  - apply rows_call; [tc_solve|auto with ledger].
  - apply rows_call; [tc_solve|auto with ledger].
  - apply rows_call; [tc_solve|auto with ledger].
Qed.

Lemma command_booked args answer : booked (Console.topupBalance config args answer).
Proof. unfold Console.topupBalance, Console.printed. booked_steps. Qed.

Lemma reached_ledger w0 w : reached w0 w -> ledger_step (db w0) (db w).
Proof.
  induction 1 as [|w c s out w' _ IH Hr|w a out w' _ IH Hb Hr|w args answer out w' _ IH Hr Hp|w w' _ IH E]; [reflexivity| | | |by rewrite E].
  - etransitivity; [exact IH|]. pose proof (serve_kept c s w) as Hl. unfold on_db in Hl. by rewrite Hr in Hl.
  - etransitivity; [exact IH|]. pose proof (System.run_action_ledger config tatumProvider a w) as Hl. rewrite Hr in Hl. apply Hl.
    by destruct a.
  - etransitivity; [exact IH|]. pose proof (System.booked_step _ w (command_booked args answer)) as Hl. rewrite Hr in Hl. by apply Hl.
Qed.
End Servers.

(** ** Properties *)

(** C1. In every state the program reaches - whatever requests its servers
    answer or refuse, in whatever order, for whatever accounts and sessions, with
    whatever the jobs, the consumers of events and the operator do in between, and
    whatever the services outside answer -, however each of them ends: the
    constraints of the schema hold (so no balance is negative and no balance,
    outbound wallet, lock, reservation or order exists twice); every balance is
    the sum of its audit log; and since the start nothing was forgotten or
    rewritten: every log entry is still there, and every balance, wallet,
    transaction and payment still has its owner, its currency and network, its
    address, and its amount or price. *)
Theorem gateway_invariant `{Resolver} `{Catalog} `{BlockchainService} `{!BlockchainLaws} `{Publisher} `{Flow.Scheduler} `{MapOrder}
  `{Convertor.RateProvider} `{Wallet.KMS} `{WalletTransaction.KMSTransactions} `{UTXOProviders} `{Btcutil} `{Tatum.TatumAPI} `{WebhookClient}
  `{Mail} `{RandomStrings} `{Uuid} `{Rand} `{Bcrypt} `{UserEvents} `{FormEvents} `{OAuth} `{SessionStore}
  `{PaymentApi.WebhookJson} `{InternalApi.JobLogs}
  (config : Config) (tatumProvider : option Tatum.Config) (tatum : Tatum.Config) (quote : string -> string)
  (authenticatedRedirectURL : string) (enabledProviders : list string) (w0 w : world)
  (Hok : schema_ok (db w0)) (Ha : WalletBalance.audited (db w0))
  (Hr : reached config tatumProvider tatum quote authenticatedRedirectURL enabledProviders w0 w) :
  System.ledger_kept (db w0) (db w).
Proof. apply System.ledger_keeps; [done..|]. by eapply reached_ledger. Qed.

(** ** Witness: a shop opens in the dashboard, is paid through its page, and jobs run *)
#[local] Existing Instances Checkout.two_currencies Checkout.rated_node Checkout.rated_node_laws Merchant.sorted_order ex_btcutil ex_providers
  PublicApi.page_catalog PublicApi.page_rates PublicApi.page_key PublicApi.page_tatum PublicApi.page_bus PublicApi.page_mail PublicApi.page_uuid
  PublicApi.page_slug WalletTransaction.ex_signer System.in_order System.no_shop Identity.ex_rand Identity.ex_bcrypt Identity.no_events
  Tenancy.no_forms.
#[local] Instance no_google : OAuth := {|
  oauth_AuthCodeURL state := state; oauth_Exchange _ _ := Err (ENew "offline"); oauth_Get _ _ _ := Err (ENew "offline");
  user_Unmarshal _ := Err (ENew "no user") |}.
#[local] Instance in_memory : SessionStore := fun _ _ => Ok tt.
#[local] Instance no_json : PaymentApi.WebhookJson := fun _ => Err (ENew "bad json").
#[local] Instance no_logs : InternalApi.JobLogs := fun _ _ _ => Ok [].

Definition day_tatum : Tatum.Config := Tatum.mkConfig "" "" "" "".
Definition day_call (c : Call) (w : world) : world := (serve System.demo_config None day_tatum (fun s => s) "" [] c Tenancy.signed_in w).2.
Definition shop_order : CreatePaymentRequest := mkCreatePaymentRequest "token-1" "USD" (f64_of_Z 10) None None None false.
Definition day : world :=
  let w := day_call (ToUser (mkRequest "" "" true) (UserCreateMerchant (inl ("shop", "https://shop.example")))) Tenancy.id_world in
  let w := day_call (ToInternalApi (InternalApi.AdminBulkCreate (inl ("ETH", 2)))) w in
  let w := day_call (ToDashboard Tenancy.shop_request (RouteCreatePayment (inl shop_order))) w in
  day_call (ToPaymentApi true (PaymentApi.PublicPayment "token-1" (PaymentApi.PayMethod (inl "ETH")))) w.

Lemma gateway_invariant_witness :
  schema_ok (db day) /\ WalletBalance.audited (db day) /\
  map (fun t => (Row.t_MerchantID t, Row.t_RecipientAddress t, Row.t_Status t)) (rows (transactions (db day))) = [(1, "0x2", "pending")].
Proof.
  assert (reached System.demo_config None day_tatum (fun s => s) "" [] Tenancy.id_world day) as Hr.
  { unfold day, day_call. cbv zeta. repeat (eapply reached_request; [|apply surjective_pairing]). apply reached_start. }
  destruct (gateway_invariant System.demo_config None day_tatum (fun s => s) "" [] Tenancy.id_world day schema_empty
    ltac:(split; intros ? Hin; by apply not_elem_of_nil in Hin) Hr) as (Hs & Ha & _).
  split; [exact Hs|]. split; [exact Ha|]. by vm_compute.
Defined.
